(* ===== verification/_CoqProject ===== *)
-Q . S2P
Prelude.v
Text.v
Models.v
Store.v
StoreFacts.v
RoleContract.v
Tasks.v
Dag.v
Cancellation.v
Dispatch.v
Gates.v
Messages.v
Runs.v
SetupReport.v
Invariants.v
CancelFacts.v
Lifecycle.v
Reachability.v
TaskFacts.v
Evidence.v
DispatchFacts.v
Atomicity.v
LeaseFacts.v
RunFacts.v
Ordering.v
Recipe.v
RecipeFacts.v
Plan.v
PlanFacts.v
WorkflowYaml.v
YamlFacts.v
Catalog.v
CatalogFacts.v
Execution.v
ExecutionFacts.v
PlanStore.v
PlanStoreFacts.v
RunControl.v
RunControlFacts.v
GateResolution.v
RunCreation.v
GateResolutionFacts.v
ExecutionStore.v
Attempts.v
Launches.v
Integrations.v
Cleanup.v
ExecutionStoreFacts.v
RunTriggers.v
RunHistory.v
CreationFacts.v
AttemptFacts.v
AttemptHistory.v
LaunchFacts.v
IntegrationFacts.v
CleanupFacts.v
RunApproval.v
Scenario.v
PlanScenario.v
RunScenario.v
AttemptScenario.v
AutomationModels.v
Schedule.v
ScheduleFacts.v
Overlap.v
Prompt.v
AutomationDb.v
AutomationStore.v
AutomationPrecheck.v
AutomationCleanup.v
AutomationInv.v
AutomationLifecycle.v
AutomationHistory.v
AutomationFacts.v
HostRuns.v
HostFacts.v
Scheduler.v
SchedulerFacts.v
Clocks.v
AutomationScenario.v
