(* ===== verification/Prelude.v ===== *)
(** * The Alera runtime store: a verification development

    Alera coordinates coding agents.  Its Rust core keeps, in one SQLite
    database, the orchestration state that the terminal host, the command line
    and the applications share: coordinator runs, a DAG of tasks, the dispatches
    that hand tasks to terminals, the mailbox between terminals, the gates that
    ask a person for a decision, and the timeline of each run.  A run follows a
    plan: a recipe describes roles, contracts, stages and gates, a coordinator
    proposes a plan, a person approves it, the scheduler of an isolated run picks
    the next step, each attempt of a task works in a worktree of its own whose
    result is merged into the run's integration branch, and people steer the run by
    sequence-checked commands and gate decisions.  Automations start
    agents on a schedule: the store keeps their definitions, claimed occurrences,
    runs and attempts, and the terminal host wakes up, claims what is due, starts
    runs and ends them.  This development models that core, the functions of
    rust/alera-core/src/runtime and the automation part of the host in
    rust/alera-cli/src/terminal_host/server, and proves what makes it correct.
    File names below are relative to the first directory, or to the second where
    the host is meant.

    ** How the code is modelled

    A row is a record and a table a list of rows in rowid order; [Store.Db] is
    the database and [Store.World] adds the number of random identifiers drawn.
    An operation is a function in the state and error monad [Prelude.M]: it
    returns the new world together with [Ok] or [Err], and the world of an error
    is the one the code leaves behind.  [Store.tx] is a transaction: an error
    inside restores the database (not the identifiers drawn), so an operation the
    code does not run in a transaction can leave a partial write in the model
    exactly as it can in the program.  The columns and tables only plans, gates
    and commands use are [PlanStore.PlanTables], beside the world in
    [PlanStore.PlanWorld], with [plan_tx] the transaction over both; those only
    attempts, launches, integrations and cleanups use are
    [Attempts.AttemptTables] in [Attempts.AttemptWorld], with [attempt_tx]; the
    columns of a run's coordinator are in [RunCreation.CreationWorld]; the
    personal recipes are [Catalog.CatalogDb].  The automation tables are
    [AutomationDb.AutomationDb] in [AutomationWorld], with the readings of the
    clock and the identifiers drawn counted, and [atomically] their transaction;
    an operation of the host is a function on [HostRuns.HostState] whose error is
    a panic, since the host answers every error of the store itself.  SQLite's part is written out in Store.v:
    primary keys, unique indexes, CHECK constraints and the RAISE(ABORT) triggers
    of runs_v3_schema.rs, run_launch_schema.rs, run_plan_schema.rs,
    run_execution.rs, run_workspace_schema.rs, run_integration_schema.rs and
    run_cleanup.rs that guard these tables, one definition per trigger or written
    into the statement they guard.  The triggers that answer a changed result,
    withdrawing evidence and approvals, and the cascades of a reset are in
    RunTriggers.v.  A Rust string is its UTF-8 bytes.

    What is not code of this repository enters as a class:
    - [Store.Env]: the database clock, the random identifiers and the JSON
      encoder; [Store.at_time] moves the clock between operations;
    - [RoleContract.ContractLib]: the JSON parser, the JSON Schema compiler,
      SHA-256 and the Unicode case tables;
    - [Messages.SqliteJson]: SQLite's json_extract on a message payload;
    - [Recipe.RecipeLib], [Plan.PlanLib], [PlanStore.ProposalLib],
      [Execution.StepLib], [RunControl.ControlLib], [GateResolution.GateLib],
      [ExecutionStore.SourceJson], [SetupReport.ReportLib], [Attempts.AttemptLib],
      [Launches.LaunchLib], [Integrations.IntegrationLib], [Cleanup.CleanupLib],
      [RunCreation.CreationLib]: the serde forms and SHA-256 digests of recipes,
      plans, requests, identities, receipts, previews and evidence and the commit
      at a path, with the round trips
      [SetupReport.ReportCodec] and [Integrations.IntegrationCodec] where a theorem
      reads back what was stored; [WorkflowYaml.YamlLib]: the scanner
      of yaml-rust2; [Catalog.CatalogLib]: the built-in documents and the files of
      a workspace;
    - [Schedule.Chrono]: calendar and time zones, with the laws
      [ScheduleFacts.ChronoLaws] the schedule theorems rely on;
    - [AutomationDb.AutomationEnv]: the clock, random identifiers, whose
      distinctness is [AutomationInv.UuidsDistinct], the JSON form of a moment,
      Unicode lower case and the range of dates; [AutomationPrecheck.UuidParser];
    - [HostRuns.HostEnv]: what the host learns and does outside the automation
      tables (terminals, tabs, workspaces, the dispatch of a run that may
      proceed), with [HostFacts.HostLaws]: it changes the store only through the
      store's operations, and the dispatch of a run, its resumption and the
      reconciliation, which may panic, return.
    Scenario.v, PlanScenario.v, RunScenario.v, AttemptScenario.v, Clocks.v and
    AutomationScenario.v instantiate all of them by concrete functions, so every
    definition evaluates, and apply each theorem that has hypotheses at a concrete
    state.

    ** Files

    - Prelude.v: errors, the monad and its reasoning rules, list lemmas, tactics.
    - Text.v: the string operations of Rust the code uses;
      [truncate_to_boundary] and [derive_display_name].
    - Models.v: enums with their stored spellings and the row types
      (orchestration_models.rs, run_event_store.rs, run_dispatch.rs, schema).
    - Store.v, StoreFacts.v: the database, the INSERT and UPDATE statements with
      their constraints and triggers, transactions, run events, audit events
      (run_event_store.rs, orchestration_audit_store.rs), and their lemmas.
    - RoleContract.v: versioned role contracts: bounded JSON, the schema subset,
      contract validation, freezing and digests, evidence of a success
      (orchestration_role_contract.rs, orchestration_contract_schema.rs,
      orchestration_contract_result.rs).
    - Tasks.v: creation, dependency status, the refresh of dependents, status
      updates, transfer and queries (orchestration_task_store.rs,
      orchestration_contract_store.rs, orchestration_policy_store.rs); Dag.v:
      the refresh terminates and settles the DAG.
    - Cancellation.v: the cancellation cascade, recovery, startup failures, reset
      (orchestration_task_cancellation.rs, orchestration_task_recovery_store.rs).
    - Dispatch.v: dispatch creation, lease, outcome (run_dispatch.rs,
      orchestration_dispatch_store.rs, orchestration_dispatch_lease_store.rs,
      orchestration_dispatch_outcome_store.rs).
    - Gates.v: decision and stall gates (orchestration_gate_store.rs,
      orchestration_stall_store.rs).
    - Messages.v: the mailbox (orchestration_message_store.rs), and in its module
      [MailQueue] the abstract queue of letters it implements.
    - Runs.v: coordinator runs (orchestration_run_store.rs).
    - Invariants.v, Lifecycle.v, Reachability.v: the store invariant, its
      preservation by every operation, and the store as a transition system.
    - CancelFacts.v, TaskFacts.v, DispatchFacts.v, LeaseFacts.v, RunFacts.v,
      Evidence.v, Atomicity.v: what the operations achieve.
    - Ordering.v: the ordering loop plans and recipes share; Recipe.v,
      RecipeFacts.v: recipes, their validation and freezing (run_recipe.rs,
      run_recipe_compilation.rs); WorkflowYaml.v, YamlFacts.v: the bounded
      document loader (run_yaml.rs, run_json_escapes.rs); Catalog.v,
      CatalogFacts.v: built-in, personal and project recipes (run_catalog.rs,
      run_catalog_store.rs, run_project_files.rs, run_builtins.rs).
    - Plan.v, PlanFacts.v: the compilation of a proposal into a frozen plan
      (run_plan.rs, run_plan_compilation.rs, run_plan_inputs.rs); PlanStore.v,
      PlanStoreFacts.v: storing a proposed plan with its tasks and gates
      (run_plan_proposal.rs, run_plan_materialization.rs, run_plan_gate_store.rs,
      run_source_identity.rs).
    - Execution.v, ExecutionFacts.v: the scheduler's decision
      (run_execution_step.rs); ExecutionStore.v, ExecutionStoreFacts.v: the state
      it reads, eligibility and completion (run_execution.rs,
      run_workspace_eligibility.rs, run_execution_completion.rs).
    - RunControl.v, RunControlFacts.v: commands, cancellation with the processes
      it closes, requests for changes (run_control.rs, run_cancellation.rs,
      run_changes.rs); GateResolution.v, GateResolutionFacts.v: the evidence of a
      stage, due gates and decisions (run_gate_evidence.rs,
      run_gate_resolution.rs).
    - RunCreation.v, CreationFacts.v: a run created from a request, the launch of
      its coordinator and its first plan (run_lifecycle.rs, run_coordinator.rs,
      run_plan_store.rs).
    - RunTriggers.v: the triggers of run_plan_schema.rs by which a changed result
      takes away a task's evidence and revokes stage gates, and the reset with its
      foreign keys (orchestration_task_recovery_store.rs).
    - RunHistory.v: all of these as one transition system: [run_step] is one call,
      [run_tick] a call at some moment with its triggers, [run_event] that or an
      operation of [Reachability.Operation]; RunApproval.v: the approval invariant.
    - SetupReport.v: the bounded report of a worktree's setup
      (run_setup_report.rs); Attempts.v: the worktrees of a run, reserved, created
      and registered (run_workspace.rs, run_workspace_store.rs,
      run_workspace_transitions.rs); Launches.v: the launch of a worker in an
      attempt (run_launch.rs, run_launch_store.rs, run_launch_validation.rs,
      run_launch_transitions.rs); Integrations.v: what is merged, the outcome Git
      reports and the completion (run_integration.rs, run_integration_store.rs,
      run_integration_validation.rs, run_integration_cancellation.rs,
      run_integration_snapshot.rs); Cleanup.v: reviewed cleanup of the worktrees
      (run_cleanup.rs, run_cleanup_claim.rs, run_cleanup_abandon.rs,
      run_cleanup_status.rs, workspace_retirement.rs).
    - AttemptHistory.v: these beside [RunHistory] and [Reachability] as one
      transition system: [attempt_step] is one call, [attempt_event] a call at some
      moment with its triggers, [attempt_tick] that or a reset; AttemptFacts.v: what the other operations
      leave alone of it and how its operations are read; LaunchFacts.v,
      IntegrationFacts.v, CleanupFacts.v: what they achieve.
    - Scenario.v, PlanScenario.v, RunScenario.v, AttemptScenario.v: concrete runs,
      and the theorems applied to them.
    - AutomationModels.v, Schedule.v, ScheduleFacts.v, Overlap.v, Clocks.v:
      automations (automation_models.rs,
      automation_run_models.rs, automation_model_impl.rs, automation_target.rs,
      automation_reuse.rs, automation_schedule.rs, automation_overlap.rs).
    - Prompt.v: prompt templates and redaction (automation_templates.rs).
    - AutomationDb.v: the automation tables with their constraints and triggers
      (runtime_schema.rs, automation_precheck_process_store.rs,
      automation_shared_workspace_store.rs, project_automation_dependencies.rs).
    - AutomationStore.v: definitions, runs, attempts, audit, retention and the
      circuit (automation_store.rs, automation_run_store.rs,
      automation_run_lifecycle_store.rs, automation_recovery_store.rs,
      automation_run_audit_store.rs, automation_circuit_store.rs);
      AutomationPrecheck.v: precheck processes
      (automation_precheck_process_store.rs,
      automation_precheck_workspace_store.rs), the jobs of precheck owners
      (owner_automation_precheck_store.rs) and the results recorded for remote ones
      (remote_automation_precheck_result_store.rs); AutomationCleanup.v: cleanup
      intents and bound targets (automation_cleanup_attempt_store.rs,
      automation_binding_store.rs), the allocation of shared workspaces
      (automation_shared_workspace_store.rs) and what a removed workspace takes
      from the automations (workspace_retirement.rs).
    - AutomationInv.v, AutomationLifecycle.v, AutomationHistory.v: the invariant
      of the automation store, its preservation by every operation, the store as
      a transition system; AutomationFacts.v: retention, attempts, streak, circuit.
    - HostRuns.v, HostFacts.v: how the host starts, blocks, fails
      and expires runs (automation_run_lifecycle.rs,
      automation_precheck_execution.rs, automation_dispatch_execution.rs).
    - Scheduler.v, SchedulerFacts.v: the tick, the catch-up and the wait
      (automation_authoring.rs, automation_dispatch.rs, automation_scheduler.rs).
    - AutomationScenario.v: one automation's life, and the theorems applied to it.

    ** What the theorems show

    - The store invariant ([Reachability.store_invariant]): in every state that the
      operations of the task, dispatch, gate, message and coordinator-run stores
      ([Reachability.Operation]) and resets reach from an empty store, under a
      clock that may move arbitrarily between them, keys are unique, a workspace has at most one
      active run, a task and a terminal at most one active dispatch, an active
      dispatch a task that is dispatched or stalled, and the DAG is settled: no
      pending task of a shared run waits only on finished work.  The operations
      on planned runs cancel tasks without their dependents and are not among
      these; what holds through them is stated over [run_event] and
      [attempt_tick].
    - The life of a dispatch: completion, failure with the circuit breaker,
      startup failures, the stall sweep, revival by activity, each on every
      branch; errors leave the tables untouched ([Atomicity]).
    - The DAG: creation, status updates and cancellation settle it; a
      cancellation reaches exactly the tasks that wait on the cancelled one.
    - Contracts: a completed task under contract has evidence in every reachable
      state ([Evidence]); what the validators accept satisfies the declarative
      reading ([RoleContract]).
    - The mailbox: history is append-only, delivery happens at most once, a poll
      returns exactly the deliverable messages in order; the table refines a
      queue ([Messages.MailQueue.mailbox_refines_queue]).
    - Gates and runs: a decision gate blocks and releases, a stall gate is asked
      once, ends of runs are final, transfers move everything a run owns.
    - Recipes and plans: validation accepts exactly the recipes of the declarative
      reading, a compiled plan is ordered and covers its recipe, the stage order
      never creates a cycle ([RecipeFacts], [PlanFacts]); the document loader is
      bounded and loads what was written ([YamlFacts]); saved recipes are listed
      and freeze ([CatalogFacts]).
    - Proposals ([PlanStoreFacts]): a plan is stored whole or not at all, once per
      request, under a growing revision number.
    - Creation ([CreationFacts]): what a run froze when it was created fits every
      plan proposed for it, a creation happens once per request, and the launch of
      a coordinator is settled once per reservation.
    - Steering ([RunControlFacts], [RunHistory]): a command acts only at the
      control sequence its sender saw, which is spent once, and can be repeated
      safely; a cancellation leaves nothing running, lists every process of the
      run and completes when they are closed.
    - Gates ([GateResolutionFacts], [RunApproval]): the gates that open are those
      whose stage is finished, a decision is checked against the evidence it
      names and is final, unless the evidence it was decided on changed, which
      revokes it and asks again ([RunTriggers]); and a run that needs approval
      executes only a plan that was approved.
    - Scheduling ([ExecutionFacts], [ExecutionStoreFacts]): the step chosen is
      safe, passes the eligibility check of the code that carries it out where the
      rows of the revision are those of its plan, waits only for a person when nothing is under way, and a run completes only when
      it is complete.
    - Attempts ([AttemptFacts], [AttemptHistory]): the attempts that hold a worker
      slot stay within the plan's limit, an attempt keeps its identity and only
      moves forward, a reservation can be repeated; the stored setup report is
      bounded and keeps the outcome ([SetupReport]).
    - Launches ([LaunchFacts], [AttemptHistory]): a launch is written whole, with
      its dispatch and task, and is claimed at most once.
    - Integrations ([IntegrationFacts]): the merged results of a run form one line
      from the commit it started with to the one it is at, evidence belongs to
      integrated results and stays until the task is given another result, and a completion is checked against the state it was
      captured from.
    - Cleanup ([CleanupFacts]): only finished work is claimed, each worktree by one
      cleanup, and a retired workspace never comes back.
    - Timeline and text: one numbered, bounded event per record, truncation at
      character boundaries, stored spellings read back.
    - Automations: cron fields mean what they say, the next occurrence is the
      earliest eligible instant across clock changes, overlap policies never let
      two runs proceed unless told to, and bound the queue.
    - The automation store ([AutomationHistory]): an invariant of every reachable
      state, stored definitions are valid, a final run never changes, an
      occurrence is admitted at most once; admission, attempts, retention, the
      failure streak and the circuit do what they promise ([AutomationFacts]).
    - The scheduler: the evaluation of an automation returns and leaves no due
      occurrence behind that was not refused, the wait
      never oversleeps; a failed run is retried within its budget or has failed,
      an expired run is ended ([SchedulerFacts], [HostFacts]).
    - Prompts: rendering is substitution, redaction leaves no known credential.
    - Six record defects: [SchedulerFacts.one_time_busy_wait],
      [HostFacts.fail_run_panics_before_first_attempt],
      [AutomationFacts.limit_counts_retained_runs],
      [RunScenario.stopped_run_revives],
      [IntegrationFacts.cancelled_integration_blocks_run] and
      [RunTriggers.cancelled_run_blocks_reset].

    ** Loops and bounds

    The worklists of a cancellation and of the dependency refresh run with fuel:
    one unit more than there are tasks, since each task enters a worklist at most
    once, and CancelFacts.v and Dag.v prove that this fuel suffices, so no theorem
    assumes that a loop ended.  The JSON and schema traversals count
    the nodes they visit and stop past 4,096 and 128 nodes; one more unit of
    fuel than that is enough ([RoleContract.contract_traversals_total]).  The
    ordering loop makes at most as many passes as there are items, and the walks
    over the stages before a stage have a unit for every dependency edge, since a
    stage pushes its dependencies once ([Ordering], [RecipeFacts],
    [ExecutionFacts.gates_allow_spec]); [GateResolutionFacts.stage_ancestors_total] does
    the same for the stages a gate collects.  The document loader is bounded by
    the events it is given.  The cron
    search looks at 4,743,361 minutes, nine years of 366 days and one minute, by
    binary recursion on that number, and leaves off at the first hit.  The
    catch-up of a tick runs with one unit of fuel more than there are nanoseconds
    between its cursor and now, enough because occurrences strictly increase; the
    loops over a prompt template have one unit more than its length.  The backoff
    of a retry is computed in 64-bit arithmetic, with its overflow.  Row
    counters and sequence numbers are unbounded: SQLite's 64-bit integers do not
    overflow within the life of a database.

    ** What is not modelled

    Triggers that journal changes for subscribers; migrations; the merge and the
    worktree commands Git runs for an attempt, whose outcomes are arguments of the
    modelled operations; the tabs, reviews, layouts and tags a removed workspace
    also loses, which other stores keep, and the catalogue of cleanable resources
    (run_cleanup_catalog.rs); of automations, requests for the cleanup of their
    workspaces, authoring requests, the listings of owner prechecks, and in the
    host the dispatch of an admitted run down to the terminal, its recovery after
    a restart and the reconciliation with live terminals; read models for display
    (board, inbox, timeline pages), settings, profiles and accounts; Git,
    terminals, sockets and the applications, which are input and output.
    Broadcasts, push notifications and logs change no modelled state.

    Operations run one after another, as the steps of [Reachability.Step],
    [RunHistory.run_event], [CreationFacts.creation_event],
    [AttemptHistory.attempt_tick] and [AutomationHistory.AStep], each at a moment
    of its own; the triggers of an operation fire after it rather than after each
    of its statements, which is the same because an operation writes a task at
    most once and does not read gates or evidence after it.  A reset deletes runs,
    receipts and gates, so the theorems about those hold between resets; the
    others include it.  The interleaving of single statements of two operations
    that hold no transaction, on two connections of the pool, is not modelled. *)

From Stdlib Require Import ZArith Lia Ascii String Sorted.
From stdpp Require Import strings list_numbers.
From stdpp Require Import prelude.

(** ** Results and errors

    [anyhow::Result]: an operation either returns a value or an error.  The
    store distinguishes two origins, because [revive_stalled_dispatch] looks
    at them: an error raised by the code itself ([bail!], [anyhow!]) and an
    error raised by SQLite (a constraint or a [RAISE(ABORT, ...)] trigger). *)

Inductive Error : Type :=
| Bail (msg : string)
| Database (msg : string).

Inductive Result (A : Type) : Type :=
| Ok (a : A)
| Err (e : Error).
Arguments Ok {A} a.
Arguments Err {A} e.

#[export] Instance Error_eq_dec : EqDecision Error.
Proof. solve_decision. Defined.

#[export] Instance Result_eq_dec {A} `{EqDecision A} : EqDecision (Result A).
Proof. solve_decision. Defined.

Definition is_ok {A} (r : Result A) : bool :=
  match r with Ok _ => true | Err _ => false end.

(** ** The store monad

    An operation maps a state to the state it leaves behind and its result.
    The state survives an error: what a statement outside a transaction
    changed before a later statement failed stays changed. *)

Section StoreMonad.
Context {S : Type}.

Definition M (A : Type) : Type := S → S * Result A.

Definition ret {A} (a : A) : M A := λ s, (s, Ok a).
Definition fail {A} (e : Error) : M A := λ s, (s, Err e).
Definition bind {A B} (m : M A) (k : A → M B) : M B := λ s,
  match m s with
  | (s1, Ok a) => k a s1
  | (s1, Err e) => (s1, Err e)
  end.
Definition gets {A} (f : S → A) : M A := λ s, (s, Ok (f s)).
Definition modify (f : S → S) : M unit := λ s, (f s, Ok tt).

Fixpoint mapM_ {A} (f : A → M unit) (l : list A) : M unit :=
  match l with
  | [] => ret tt
  | x :: l => bind (f x) (λ _, mapM_ f l)
  end.

Lemma bind_ok_inv {A B} (m : M A) (k : A → M B) s s' b :
  bind m k s = (s', Ok b) →
  ∃ s1 a, m s = (s1, Ok a) ∧ k a s1 = (s', Ok b).
Proof. unfold bind. destruct (m s) as [s1 [a|e]]; naive_solver. Qed.

Lemma bind_ok {A B} (m : M A) (k : A → M B) s s1 a :
  m s = (s1, Ok a) → bind m k s = k a s1.
Proof. unfold bind. by intros ->. Qed.

Lemma bind_err {A B} (m : M A) (k : A → M B) s s1 e :
  m s = (s1, Err e) → bind m k s = (s1, Err e).
Proof. unfold bind. by intros ->. Qed.

Lemma bind_assoc {A B C} (m : M A) (f : A → M B) (g : B → M C) s :
  bind (bind m f) g s = bind m (λ a, bind (f a) g) s.
Proof. unfold bind. by destruct (m s) as [s1 [a|e]]. Qed.
End StoreMonad.
Arguments M S A : clear implicits.

Declare Scope store_scope.
Delimit Scope store_scope with store.
Notation "'let!' x ':=' m 'in' k" := (bind m (λ x, k))
  (at level 10, x pattern, m at level 100, k at level 200) : store_scope.
Notation "'do!' m 'in' k" := (bind m (λ _, k))
  (at level 10, m at level 100, k at level 200) : store_scope.
Open Scope store_scope.

(** Functions that fail without touching the store chain with [try!]. *)
Definition rbind {A B} (m : Result A) (k : A → Result B) : Result B :=
  match m with Ok a => k a | Err e => Err e end.
Notation "'try!' x ':=' m 'in' k" := (rbind m (λ x, k))
  (at level 10, x pattern, m at level 100, k at level 200) : store_scope.

Lemma rbind_ok_inv {A B} (m : Result A) (k : A → Result B) b :
  rbind m k = Ok b → ∃ a, m = Ok a ∧ k a = Ok b.
Proof. destruct m; naive_solver. Qed.

(** Take a successful monadic computation apart, one bind at a time. *)
Ltac inv_ok H :=
  lazymatch type of H with
  | bind _ _ _ = (_, Ok _) =>
      let s1 := fresh "s" in
      let a := fresh "a" in
      let H1 := fresh "Hstep" in
      apply bind_ok_inv in H; destruct H as (s1 & a & H1 & H); cbn beta in H
  | ret _ _ = _ => unfold ret in H; simplify_eq
  | gets _ _ = _ => unfold gets in H; simplify_eq
  | modify _ _ = _ => unfold modify in H; simplify_eq
  | fail _ _ = _ => unfold fail in H; simplify_eq
  end.

(** Split every boolean connective found in a hypothesis or the goal. *)
Ltac split_bools :=
  repeat match goal with
  | H : andb _ _ = true |- _ => apply andb_true_iff in H as [? ?]
  | H : orb _ _ = false |- _ => apply orb_false_iff in H as [? ?]
  | H : negb _ = true |- _ => apply negb_true_iff in H
  | H : negb _ = false |- _ => apply negb_false_iff in H
  | H : bool_decide _ = true |- _ => apply bool_decide_eq_true in H
  | H : bool_decide _ = false |- _ => apply bool_decide_eq_false in H
  | |- andb _ _ = true => apply andb_true_iff; split
  | |- bool_decide _ = true => apply bool_decide_eq_true
  | |- bool_decide _ = false => apply bool_decide_eq_false
  end.

(** Evaluate the trivially true equality tests of the goal. *)
Ltac bool_refl :=
  repeat match goal with
  | |- context [bool_decide (?x = ?x)] => rewrite (bool_decide_true (x = x)) by reflexivity
  end.

(** ** Tables

    A table is the list of its rows in rowid order: rows are appended, and an
    [UPDATE ... WHERE p] rewrites the rows that satisfy [p] in place. *)

Definition update_where {A} (p : A → bool) (f : A → A) (l : list A) : list A :=
  (λ x, if p x then f x else x) <$> l.

Definition count_where {A} (p : A → bool) (l : list A) : nat :=
  length (List.filter p l).

(** [SELECT ... WHERE p LIMIT 1] in rowid order. *)
Definition find_where {A} (p : A → bool) (l : list A) : option A :=
  List.find p l.

(** [SELECT ... WHERE p ORDER BY rowid DESC LIMIT 1]. *)
Definition find_last_where {A} (p : A → bool) (l : list A) : option A :=
  find_where p (reverse l).

(** An absent filter matches every value. *)
Definition opt_matches {A} `{EqDecision A} (filter : option A) (a : option A) : bool :=
  match filter with Some f => bool_decide (a = Some f) | None => true end.

(** [ORDER BY]: rows that compare equal keep their rowid order. *)
Fixpoint insert_sorted {A} (le : A → A → bool) (x : A) (l : list A) : list A :=
  match l with
  | [] => [x]
  | y :: l' => if le x y then x :: l else y :: insert_sorted le x l'
  end.
Definition sort_by {A} (le : A → A → bool) (l : list A) : list A := foldr (insert_sorted le) [] l.

Section Tables.
Context {A : Type}.
Implicit Types (p : A → bool) (f : A → A) (l : list A).

Lemma find_where_Some p l x :
  find_where p l = Some x → x ∈ l ∧ p x = true.
Proof. intros [Hx Hp]%List.find_some. by rewrite list_elem_of_In. Qed.

Lemma find_where_None p l :
  find_where p l = None ↔ ∀ x, x ∈ l → p x = false.
Proof.
  unfold find_where. setoid_rewrite list_elem_of_In. split.
  - intros H x Hx. by apply (List.find_none p l H).
  - intros H. destruct (List.find p l) as [x|] eqn:E; [|done].
    apply List.find_some in E as [Hx Hp]. rewrite (H x Hx) in Hp. done.
Qed.

Lemma find_where_is_Some p l x :
  x ∈ l → p x = true → ∃ y, find_where p l = Some y.
Proof.
  intros Hx Hp. destruct (find_where p l) eqn:E; [eauto|].
  rewrite find_where_None in E. specialize (E _ Hx). congruence.
Qed.

Lemma find_last_where_Some p l x :
  find_last_where p l = Some x → x ∈ l ∧ p x = true.
Proof. intros [Hx ?]%find_where_Some. by rewrite elem_of_reverse in Hx. Qed.

Lemma find_last_where_None p l :
  find_last_where p l = None ↔ ∀ x, x ∈ l → p x = false.
Proof.
  unfold find_last_where. rewrite find_where_None.
  by setoid_rewrite elem_of_reverse.
Qed.

Lemma elem_of_update_where p f l y :
  y ∈ update_where p f l ↔ ∃ x, x ∈ l ∧ y = (if p x then f x else x).
Proof. unfold update_where. rewrite list_elem_of_fmap. naive_solver. Qed.

Lemma update_where_none p f l :
  (∀ x, x ∈ l → p x = false) → update_where p f l = l.
Proof.
  intros H. unfold update_where. rewrite <-(list_fmap_id l) at 2.
  apply list_fmap_ext. intros i x Hx. cbn.
  by rewrite (H x) by (by eapply list_elem_of_lookup_2).
Qed.

Lemma fmap_update_where {B} (g : A → B) p f l :
  (∀ x, x ∈ l → p x = true → g (f x) = g x) → g <$> update_where p f l = g <$> l.
Proof.
  intros H. unfold update_where. rewrite <-list_fmap_compose.
  apply list_fmap_ext. intros i x Hx. cbn.
  destruct (p x) eqn:E; [|done]. apply H; [by eapply list_elem_of_lookup_2|done].
Qed.

Lemma count_where_0 p l : count_where p l = 0 ↔ ∀ x, x ∈ l → p x = false.
Proof.
  unfold count_where. induction l as [|y l IH]; cbn.
  - split; [intros _ x Hx; by apply not_elem_of_nil in Hx|done].
  - setoid_rewrite elem_of_cons. destruct (p y) eqn:E; cbn.
    + split; [lia|]. intros H. specialize (H y (or_introl eq_refl)). congruence.
    + rewrite IH. naive_solver.
Qed.

Lemma count_where_pos p l : 0 < count_where p l ↔ ∃ x, x ∈ l ∧ p x = true.
Proof.
  split.
  - intros H. destruct (find_where p l) as [x|] eqn:E.
    + apply find_where_Some in E. eauto.
    + rewrite find_where_None in E. apply count_where_0 in E. lia.
  - intros (x & Hx & Hp). destruct (count_where p l) eqn:E; [|lia].
    rewrite count_where_0 in E. rewrite (E x Hx) in Hp. done.
Qed.

(** Updating rows so that they leave [q] can only lower the count of [q]. *)
Lemma count_where_update_le p q f l :
  (∀ x, x ∈ l → p x = true → q (f x) = false) →
  count_where q (update_where p f l) ≤ count_where q l.
Proof.
  unfold count_where, update_where. induction l as [|y l IH]; cbn; intros Hq; [done|].
  assert (∀ x, x ∈ l → p x = true → q (f x) = false) as Hq' by (intros x Hx; apply Hq; by right).
  specialize (IH Hq'). destruct (p y) eqn:Hp.
  - rewrite Hq by (done || left). destruct (q y); cbn; lia.
  - destruct (q y); cbn; lia.
Qed.

Lemma count_where_update_lt p q f l x :
  (∀ x, x ∈ l → p x = true → q (f x) = false) → x ∈ l → p x = true → q x = true →
  count_where q (update_where p f l) < count_where q l.
Proof.
  intros Hq Hx Hp Hqx. induction Hx as [y l|y z l Hx IH].
  - pose proof (count_where_update_le p q f l) as Hle.
    unfold count_where, update_where in *. cbn. rewrite Hp, Hq, Hqx by (done || left). cbn.
    assert (∀ z, z ∈ l → p z = true → q (f z) = false) as Hq' by (intros z Hz; apply Hq; by right).
    specialize (Hle Hq'). cbn in Hle. lia.
  - assert (∀ x, x ∈ l → p x = true → q (f x) = false) as Hq' by (intros u Hu; apply Hq; by right).
    specialize (IH Hq' Hp Hqx). unfold count_where, update_where in *. cbn.
    destruct (p z) eqn:Hpz; [rewrite Hq by (done || left)|]; destruct (q z); cbn in *; lia.
Qed.
End Tables.

(** ** Sorting *)

Section Sorting.
Context {A : Type} (le : A → A → bool).

Lemma insert_sorted_perm x l : insert_sorted le x l ≡ₚ x :: l.
Proof.
  induction l as [|y l IH]; cbn; [done|]. destruct (le x y); [done|]. rewrite IH. by apply perm_swap.
Qed.

Lemma sort_by_perm l : sort_by le l ≡ₚ l.
Proof. induction l as [|x l IH]; cbn; [done|]. by rewrite insert_sorted_perm, IH. Qed.

Lemma elem_of_sort_by x l : x ∈ sort_by le l ↔ x ∈ l.
Proof. by rewrite sort_by_perm. Qed.

Lemma length_sort_by l : length (sort_by le l) = length l.
Proof. by rewrite sort_by_perm. Qed.

Context (Htotal : ∀ x y, le x y = true ∨ le y x = true)
        (Htrans : ∀ x y z, le x y = true → le y z = true → le x z = true).

Lemma insert_sorted_StronglySorted x l :
  StronglySorted (λ a b, le a b = true) l → StronglySorted (λ a b, le a b = true) (insert_sorted le x l).
Proof.
  induction 1 as [|y l Hs IH Hall]; cbn; [by repeat constructor|]. destruct (le x y) eqn:E.
  - constructor; [by constructor|]. constructor; [done|]. eapply List.Forall_impl; [|done]. eauto.
  - constructor; [done|]. rewrite insert_sorted_perm. constructor; [|done].
    destruct (Htotal x y) as [|]; congruence.
Qed.

Lemma sort_by_StronglySorted l : StronglySorted (λ a b, le a b = true) (sort_by le l).
Proof. induction l as [|x l IH]; cbn; [constructor|]. by apply insert_sorted_StronglySorted. Qed.
End Sorting.

(** The position of an element in a sorted list, by counting. *)
Section Rank.
Context {A : Type} (R : A → A → Prop).

Lemma rank_lower (p : A → bool) (l : list A) i x :
  StronglySorted R l → l !! i = Some x → (∀ y, R y x → p y = true) → p x = true → i < count_where p l.
Proof.
  intros Hs. revert i. induction Hs as [|y l _ IH Hall]; intros i Hi Hp Hx; [done|]. unfold count_where in *. cbn.
  destruct i as [|i]; cbn in Hi.
  - simplify_eq. rewrite Hx. cbn. lia.
  - rewrite Hp by (by eapply List.Forall_forall, list_elem_of_In, list_elem_of_lookup_2).
    cbn. specialize (IH i Hi Hp Hx). lia.
Qed.

Lemma rank_upper (q : A → bool) (l : list A) i x :
  StronglySorted R l → l !! i = Some x → (∀ y, R x y → q y = false) → q x = false → count_where q l ≤ i.
Proof.
  intros Hs. revert i. induction Hs as [|y l _ IH Hall]; intros i Hi Hq Hx; [done|].
  destruct i as [|i]; cbn in Hi.
  - simplify_eq. assert (count_where q (x :: l) = 0) as ->; [|done]. apply count_where_0.
    intros z [->|Hz]%elem_of_cons; [done|]. apply Hq. by eapply List.Forall_forall, list_elem_of_In.
  - specialize (IH i Hi Hq Hx). unfold count_where in *. cbn. destruct (q y); cbn; lia.
Qed.
End Rank.

Lemma count_where_perm {A} (p : A → bool) (l l' : list A) : l ≡ₚ l' → count_where p l = count_where p l'.
Proof.
  unfold count_where. induction 1 as [|x l l' _ IH|x y l|l1 l2 l3 _ IH1 _ IH2]; cbn; try done; try congruence.
  - destruct (p x); cbn; lia.
  - destruct (p x), (p y); done.
Qed.

Lemma count_where_filter {A} (p q : A → bool) (l : list A) :
  count_where p (List.filter q l) = count_where (λ x, q x && p x) l.
Proof. unfold count_where. induction l as [|x l IH]; cbn; [done|]. destruct (q x); cbn; [destruct (p x)|]; cbn; lia. Qed.

(** A primary key: two rows of [l] with the same key are the same row. *)
Section Keys.
Context {A K : Type} (key : A → K).

Lemma NoDup_key_inj (l : list A) x y :
  NoDup (key <$> l) → x ∈ l → y ∈ l → key x = key y → x = y.
Proof.
  intros Hnd Hx Hy Heq.
  apply list_elem_of_lookup in Hx as [i Hi]. apply list_elem_of_lookup in Hy as [j Hj].
  assert (i = j) as ->; [|congruence].
  apply (NoDup_lookup (key <$> l) i j (key x)); [done| |].
  - by rewrite list_lookup_fmap, Hi.
  - by rewrite list_lookup_fmap, Hj, Heq.
Qed.

Lemma NoDup_key_snoc (l : list A) x :
  NoDup (key <$> l) → key x ∉ (key <$> l) → NoDup (key <$> (l ++ [x])).
Proof.
  intros Hnd Hx. rewrite fmap_app. apply NoDup_app. split; [done|]. split.
  - intros k Hk Hk'. cbn in Hk'. apply list_elem_of_singleton in Hk' as ->. done.
  - apply NoDup_singleton.
Qed.

Lemma NoDup_key_filter (p : A → bool) (l : list A) :
  NoDup (key <$> l) → NoDup (key <$> List.filter p l).
Proof.
  induction l as [|x l IH]; cbn; [done|]. intros [Hx Hl]%NoDup_cons.
  destruct (p x); cbn; [|by apply IH]. apply NoDup_cons. split; [|by apply IH].
  intros Hin. apply Hx. apply list_elem_of_fmap in Hin as (y & -> & Hy).
  apply list_elem_of_fmap_2. rewrite list_elem_of_In, filter_In in Hy.
  rewrite list_elem_of_In. by destruct Hy.
Qed.
End Keys.

(** ** Row-wise evolution of a table *)

Lemma Forall2_update_where {A} (R : A → A → Prop) p f (l : list A) :
  (∀ x, x ∈ l → p x = true → R x (f x)) → (∀ x, R x x) → Forall2 R l (update_where p f l).
Proof.
  intros Hf Hr. unfold update_where. apply Forall2_fmap_r, Forall_Forall2_diag, Forall_forall.
  intros x Hx. cbn. destruct (p x) eqn:E; auto.
Qed.

Lemma Forall2_same {A} (R : A → A → Prop) (l : list A) : (∀ x, R x x) → Forall2 R l l.
Proof. intros Hr. apply Forall_Forall2_diag, Forall_forall. auto. Qed.

Lemma Forall2_compose {A} (R1 R2 R3 : A → A → Prop) (l1 l2 l3 : list A) :
  (∀ x y z, R1 x y → R2 y z → R3 x z) → Forall2 R1 l1 l2 → Forall2 R2 l2 l3 → Forall2 R3 l1 l3.
Proof. intros HR H1. revert l3. induction H1; inversion 1; subst; constructor; eauto. Qed.

Lemma Forall2_keys {A K} (key : A → K) (R : A → A → Prop) (l l' : list A) :
  (∀ x y, R x y → key y = key x) → Forall2 R l l' → key <$> l' = key <$> l.
Proof. intros HR. induction 1; cbn; [done|]. f_equal; auto. Qed.

Lemma Forall2_elem_r {A} (R : A → A → Prop) (l l' : list A) y :
  Forall2 R l l' → y ∈ l' → ∃ x, x ∈ l ∧ R x y.
Proof.
  intros Hf Hy. apply list_elem_of_lookup in Hy as [i Hi].
  destruct (Forall2_lookup_r _ _ _ _ _ Hf Hi) as (x & Hx & HR).
  exists x. split; [by eapply list_elem_of_lookup_2|done].
Qed.

Lemma Forall2_elem_l {A} (R : A → A → Prop) (l l' : list A) x :
  Forall2 R l l' → x ∈ l → ∃ y, y ∈ l' ∧ R x y.
Proof.
  intros Hf Hx. apply list_elem_of_lookup in Hx as [i Hi].
  destruct (Forall2_lookup_l _ _ _ _ _ Hf Hi) as (y & Hy & HR).
  exists y. split; [by eapply list_elem_of_lookup_2|done].
Qed.

Lemma Forall2_find {A} (key : A → string) (R : A → A → Prop) (l l' : list A) k :
  (∀ x y, R x y → key y = key x) → Forall2 R l l' →
  option_Forall2 R (find_where (λ x, String.eqb (key x) k) l)
                   (find_where (λ x, String.eqb (key x) k) l').
Proof.
  intros HR. induction 1 as [|x y l l' Hxy _ IH]; cbn; [constructor|].
  rewrite (HR x y Hxy). destruct (String.eqb (key x) k); [by constructor|done].
Qed.

(** The library's own automation: rewriting with the lemmas above. *)
Create HintDb store discriminated.
#[export] Hint Resolve find_where_Some find_last_where_Some : store.

(** ** Rows found by key *)

Lemma find_update_where {A} (key : A → string) (p : A → bool) (f : A → A) (l : list A) k :
  (∀ x, key (f x) = key x) →
  find_where (λ x, String.eqb (key x) k) (update_where p f l) =
  (λ x, if p x then f x else x) <$> find_where (λ x, String.eqb (key x) k) l.
Proof.
  intros Hk. unfold find_where, update_where. induction l as [|y l IH]; cbn; [done|].
  assert (key (if p y then f y else y) = key y) as -> by (by destruct (p y)).
  by destruct (String.eqb (key y) k).
Qed.

Lemma find_key_Some {A} (key : A → string) (l : list A) k x :
  find_where (λ x, String.eqb (key x) k) l = Some x → x ∈ l ∧ key x = k.
Proof. intros [Hx He%String.eqb_eq]%find_where_Some. done. Qed.

Lemma find_key_elem {A} (key : A → string) (l : list A) x :
  NoDup (key <$> l) → x ∈ l → find_where (λ y, String.eqb (key y) (key x)) l = Some x.
Proof.
  intros Hnd Hx. edestruct (find_where_is_Some (λ y, String.eqb (key y) (key x)) l x Hx) as [y Hy];
    [apply String.eqb_refl|].
  rewrite Hy. apply find_key_Some in Hy as [Hy Hk]. f_equal. by eapply NoDup_key_inj.
Qed.

Lemma find_key_snoc {A} (key : A → string) (l : list A) x :
  key x ∉ (key <$> l) → find_where (λ y, String.eqb (key y) (key x)) (l ++ [x]) = Some x.
Proof.
  unfold find_where. induction l as [|y l IH]; cbn; intros Hni.
  - by rewrite String.eqb_refl.
  - rewrite not_elem_of_cons in Hni. destruct Hni as [Hne Hni].
    rewrite (proj2 (String.eqb_neq _ _)) by done. by apply IH.
Qed.

Lemma find_last_where_snoc {A} (p : A → bool) l x : p x = true → find_last_where p (l ++ [x]) = Some x.
Proof. unfold find_last_where. rewrite reverse_app. cbn. unfold find_where. cbn. by intros ->. Qed.

Lemma count_where_app {A} (p : A → bool) l1 l2 : count_where p (l1 ++ l2) = count_where p l1 + count_where p l2.
Proof. unfold count_where. by rewrite List.filter_app, length_app. Qed.

Lemma count_where_all {A} (p : A → bool) l : (∀ x, x ∈ l → p x = true) → count_where p l = length l.
Proof.
  unfold count_where. induction l as [|x l IH]; intros Hall; cbn; [done|]. rewrite (Hall x) by left. cbn.
  f_equal. apply IH. intros y Hy. apply Hall. by right.
Qed.

Lemma find_where_prefix {A} (p : A → bool) l l' x :
  find_where p l = Some x → find_where p (l ++ l') = Some x.
Proof. unfold find_where. induction l as [|y l IH]; cbn; [done|]. by destruct (p y). Qed.

Lemma find_where_snoc {A} (p : A → bool) l x :
  find_where p l = None → p x = true → find_where p (l ++ [x]) = Some x.
Proof.
  unfold find_where. induction l as [|y l IH]; cbn; intros Hno Hx; [by rewrite Hx|].
  destruct (p y); [done|]. by apply IH.
Qed.
