(* ===== verification/Text.v ===== *)
(** * Text: Rust [&str] operations

    A Rust string is its UTF-8 byte sequence, here a [string] whose characters
    are the bytes.  This file models the [str] methods the runtime store uses
    (byte length, character boundaries, [chars], [trim], [lines], splitting,
    ASCII case folding) and the store's own text helpers built on them:
    [truncate_to_boundary] (run_event_store.rs) and [derive_display_name]
    (orchestration_task_store.rs). *)

From S2P Require Import Prelude.
From Stdlib Require Import ZArith Lia Ascii String.
From stdpp Require Import strings prelude.

(** ** Bytes and character boundaries *)

Definition byte_val (c : ascii) : N := N_of_ascii c.

(** [b & 0xC0 == 0x80]: a UTF-8 continuation byte. *)
Definition is_continuation (c : ascii) : bool := (N.land (byte_val c) 192 =? 128)%N.

(** [str::is_char_boundary]. *)
Definition is_char_boundary (s : string) (i : nat) : bool :=
  if Nat.eqb i 0 then true
  else if Nat.leb (String.length s) i then Nat.eqb i (String.length s)
  else match String.get i s with
       | Some c => negb (is_continuation c)
       | None => false
       end.

(** The loop [while !value.is_char_boundary(end) { end -= 1 }]; index 0 is a
    boundary, so the subtraction never underflows. *)
Fixpoint floor_boundary (s : string) (i : nat) : nat :=
  if is_char_boundary s i then i
  else match i with
       | 0 => 0
       | S i => floor_boundary s i
       end.

Definition truncate_to_boundary (value : string) (max_bytes : nat) : string :=
  if Nat.leb (String.length value) max_bytes then value
  else String.substring 0 (floor_boundary value max_bytes) value.

(** ** Characters

    [chars] groups each leading byte with the continuation bytes after it; on
    valid UTF-8 these groups are the encodings of the characters. *)

Fixpoint chars (s : string) : list string :=
  match s with
  | EmptyString => []
  | String c s =>
      match chars s with
      | [] => [String c EmptyString]
      | g :: gs =>
          match g with
          | String d _ => if is_continuation d then String c g :: gs
                          else String c EmptyString :: g :: gs
          | EmptyString => String c EmptyString :: gs
          end
      end
  end.

Definition of_chars (l : list string) : string := foldr String.append "" l.

(** The encodings of the characters with the Unicode [White_Space] property. *)
Definition byte_str (ns : list N) : string :=
  foldr (λ n s, String (ascii_of_N n) s) "" ns.

Definition white_space_chars : list string :=
  byte_str <$>
    [[9]; [10]; [11]; [12]; [13]; [32]; [194; 133]; [194; 160]; [225; 154; 128];
     [226; 128; 128]; [226; 128; 129]; [226; 128; 130]; [226; 128; 131]; [226; 128; 132];
     [226; 128; 133]; [226; 128; 134]; [226; 128; 135]; [226; 128; 136]; [226; 128; 137];
     [226; 128; 138]; [226; 128; 168]; [226; 128; 169]; [226; 128; 175]; [226; 129; 159];
     [227; 128; 128]]%N.

Definition is_whitespace (c : string) : bool := bool_decide (c ∈ white_space_chars).

Fixpoint drop_while {A} (p : A → bool) (l : list A) : list A :=
  match l with
  | [] => []
  | x :: l' => if p x then drop_while p l' else l
  end.

(** [str::trim]. *)
Definition trim_chars (l : list string) : list string :=
  reverse (drop_while is_whitespace (reverse (drop_while is_whitespace l))).
Definition trim (s : string) : string := of_chars (trim_chars (chars s)).

(** ** Splitting *)

Fixpoint split_on (sep : ascii) (s : string) : list string :=
  match s with
  | EmptyString => [EmptyString]
  | String c s' =>
      if Ascii.eqb c sep then EmptyString :: split_on sep s'
      else match split_on sep s' with
           | [] => [String c EmptyString]
           | w :: ws => String c w :: ws
           end
  end.

Definition lf : ascii := "010"%char.
Definition cr : ascii := "013"%char.

Fixpoint strip_cr (s : string) : string :=
  match s with
  | EmptyString => EmptyString
  | String c EmptyString => if Ascii.eqb c cr then EmptyString else s
  | String c s' => String c (strip_cr s')
  end.

(** [str::lines]: pieces between line feeds, without a trailing empty piece;
    one carriage return before a line feed belongs to the line ending. *)
Fixpoint drop_last_empty (l : list string) : list string :=
  match l with
  | [] => []
  | [w] => if String.eqb w "" then [] else [w]
  | w :: ws => strip_cr w :: drop_last_empty ws
  end.
Definition lines (s : string) : list string := drop_last_empty (split_on lf s).

(** [str::contains]. *)
Fixpoint str_contains (needle s : string) : bool :=
  String.prefix needle s ||
  match s with
  | EmptyString => false
  | String _ s' => str_contains needle s'
  end.

(** ** ASCII case *)

Definition ascii_upper (c : ascii) : ascii :=
  let n := byte_val c in
  if ((97 <=? n) && (n <=? 122))%N%bool then ascii_of_N (n - 32) else c.

Fixpoint to_ascii_uppercase (s : string) : string :=
  match s with
  | EmptyString => EmptyString
  | String c s' => String (ascii_upper c) (to_ascii_uppercase s')
  end.

Definition eq_ignore_ascii_case (a b : string) : bool :=
  String.eqb (to_ascii_uppercase a) (to_ascii_uppercase b).

(** ** The task display name *)

Definition ellipsis : string := byte_str [226; 128; 166]%N.

(** [derive_display_name]: the first non-blank line of the spec, trimmed, at
    most 80 characters followed by an ellipsis when cut. *)
Definition derive_display_name (spec : string) : string :=
  let line := default "task"
    (find_where (λ l, negb (String.eqb l "")) (trim <$> lines spec)) in
  let name := of_chars (take 80 (chars line)) in
  if Nat.ltb 80 (length (chars line)) then (name ++ ellipsis)%string else name.

(** ** Lemmas *)

#[local] Arguments String.append !_ _ / : simpl nomatch.

Lemma is_char_boundary_0 s : is_char_boundary s 0 = true.
Proof. done. Qed.

Lemma floor_boundary_le s i : floor_boundary s i ≤ i.
Proof. induction i as [|i IH]; cbn; repeat case_match; lia. Qed.

Lemma floor_boundary_ok s i : is_char_boundary s (floor_boundary s i) = true.
Proof.
  induction i as [|i IH]; [done|]. cbn [floor_boundary].
  by destruct (is_char_boundary s (S i)) eqn:E.
Qed.

Lemma floor_boundary_max s i j :
  j ≤ i → is_char_boundary s j = true → j ≤ floor_boundary s i.
Proof.
  induction i as [|i IH]; cbn [floor_boundary]; intros Hj Hb; [lia|].
  destruct (is_char_boundary s (S i)) eqn:E; [done|].
  destruct (decide (j = S i)) as [->|]; [congruence|]. apply IH; [lia|done].
Qed.

Lemma length_substring_0 n s : n ≤ String.length s → String.length (String.substring 0 n s) = n.
Proof.
  revert n. induction s as [|c s IH]; intros [|n] Hn; cbn in *; try lia.
  rewrite IH; lia.
Qed.

Lemma substring_0_prefix n s : String.prefix (String.substring 0 n s) s = true.
Proof.
  revert n. induction s as [|c s IH]; intros [|n]; cbn; try done.
  by destruct (ascii_dec c c).
Qed.

Lemma app_string_assoc (a b c : string) : (a ++ (b ++ c) = (a ++ b) ++ c)%string.
Proof. induction a as [|x a IH]; cbn; congruence. Qed.

Lemma of_chars_chars s : of_chars (chars s) = s.
Proof.
  induction s as [|c s IH]; cbn; [done|].
  destruct (chars s) as [|g gs] eqn:E; cbn in *; [by rewrite <-IH|].
  destruct g as [|d g]; cbn in *; [by rewrite <-IH|].
  destruct (is_continuation d); cbn; by rewrite <-IH.
Qed.

Lemma length_string_app (a b : string) :
  String.length (a ++ b) = String.length a + String.length b.
Proof. induction a; cbn; lia. Qed.

Lemma prefix_refl s : String.prefix s s = true.
Proof. induction s as [|c s IH]; cbn; [done|]. by destruct (ascii_dec c c). Qed.

(** *** Character groups

    The lists of groups [chars] produces, and why decoding them again gives
    the same groups. *)

Fixpoint all_continuation (s : string) : bool :=
  match s with
  | EmptyString => true
  | String c s' => is_continuation c && all_continuation s'
  end.

Definition group_ok (g : string) : Prop :=
  match g with EmptyString => False | String _ t => all_continuation t = true end.

Definition starts_char (g : string) : Prop :=
  match g with EmptyString => False | String d _ => is_continuation d = false end.

Inductive groups_ok : list string → Prop :=
| groups_nil : groups_ok []
| groups_cons g gs :
    group_ok g → groups_ok gs → (∀ h, head gs = Some h → starts_char h) → groups_ok (g :: gs).

Lemma chars_groups s : groups_ok (chars s).
Proof.
  induction s as [|c s IH]; cbn; [constructor|].
  destruct (chars s) as [|[|d g] gs]; cbn in *;
    [repeat constructor; done|by inversion IH; subst|].
  inversion IH as [|? ? Hg Hgs Hh]; subst. cbn in Hg.
  destruct (is_continuation d) eqn:E.
  - constructor; [cbn; by rewrite E|done|done].
  - constructor; [done|done|]. intros h [= <-]. done.
Qed.

Lemma chars_group_app g s :
  group_ok g → (∀ h, head (chars s) = Some h → starts_char h) →
  chars (g ++ s) = g :: chars s.
Proof.
  induction g as [|c t IH]; [done|]. intros Hg Hs. cbn in *.
  destruct t as [|d t]; cbn in *.
  - destruct (chars s) as [|h gs]; [done|]. specialize (Hs h eq_refl).
    destruct h as [|e h]; [done|]. cbn in Hs. by rewrite Hs.
  - apply andb_true_iff in Hg as [Hd Ht]. rewrite IH by done. by rewrite Hd.
Qed.

Lemma chars_of_chars gs : groups_ok gs → chars (of_chars gs) = gs.
Proof.
  induction 1 as [|g gs Hg Hgs IH Hh]; [done|]. cbn [of_chars foldr].
  change (foldr String.append "" gs) with (of_chars gs).
  rewrite chars_group_app; rewrite ?IH; done.
Qed.

Lemma groups_ok_take n gs : groups_ok gs → groups_ok (take n gs).
Proof.
  intros H. revert n. induction H as [|g gs Hg Hgs IH Hh]; intros [|n]; cbn;
    try constructor; auto. intros h. destruct n, gs; cbn in *; naive_solver.
Qed.

Lemma groups_ok_snoc gs g :
  groups_ok gs → group_ok g → starts_char g → groups_ok (gs ++ [g]).
Proof.
  intros H Hg Hs. induction H as [|h gs Hh Hgs IH Hhd]; cbn.
  - constructor; [done|constructor|done].
  - constructor; [done|done|]. intros k. destruct gs; cbn in *; naive_solver.
Qed.

Lemma of_chars_app gs hs : of_chars (gs ++ hs) = (of_chars gs ++ of_chars hs)%string.
Proof.
  unfold of_chars. induction gs as [|g gs IH]; cbn; [done|]. rewrite IH. apply app_string_assoc.
Qed.

Lemma chars_display_cut (gs : list string) :
  groups_ok gs → chars (of_chars gs ++ ellipsis) = gs ++ [ellipsis].
Proof.
  intros H. rewrite <-(chars_of_chars (gs ++ [ellipsis])).
  - by rewrite of_chars_app.
  - by apply groups_ok_snoc.
Qed.

Lemma of_chars_nil_inv gs : groups_ok gs → of_chars gs = "" → gs = [].
Proof. by destruct 1 as [|[|c g] gs]. Qed.

Lemma truncate_to_boundary_length value max_bytes :
  String.length (truncate_to_boundary value max_bytes) ≤ max_bytes.
Proof.
  unfold truncate_to_boundary.
  destruct (Nat.leb_spec (String.length value) max_bytes) as [Hle|Hgt]; [done|].
  pose proof (floor_boundary_le value max_bytes). by rewrite length_substring_0 by lia.
Qed.

(** The summary a run event keeps is the longest prefix of the given
    text that ends on a UTF-8 character boundary within the byte limit: it
    is a prefix, it respects the limit, its end is a boundary, and no longer
    boundary prefix within the limit exists. *)
Theorem truncate_to_boundary_longest (value : string) (max_bytes : nat) :
  let cut := truncate_to_boundary value max_bytes in
  String.prefix cut value = true ∧
  String.length cut ≤ max_bytes ∧
  is_char_boundary value (String.length cut) = true ∧
  (∀ i, i ≤ max_bytes → is_char_boundary value i = true → i ≤ String.length cut).
Proof.
  cbn zeta. unfold truncate_to_boundary.
  destruct (Nat.leb_spec (String.length value) max_bytes) as [Hle|Hgt].
  - split_and!; [apply prefix_refl|done| |].
    + unfold is_char_boundary. rewrite Nat.leb_refl, Nat.eqb_refl. by case_match.
    + intros i _ Hb. unfold is_char_boundary in Hb. repeat case_match; try done.
      * apply Nat.eqb_eq in H. lia.
      * apply Nat.eqb_eq in Hb. lia.
      * apply Nat.leb_gt in H0. lia.
  - pose proof (floor_boundary_le value max_bytes) as Hfl.
    rewrite length_substring_0 by lia.
    split_and!; [apply substring_0_prefix|done|apply floor_boundary_ok|].
    intros i Hi Hb. by apply floor_boundary_max.
Qed.

(** A derived display name is never empty and has at most 81 characters
    (80 of the line plus the ellipsis), whatever the task specification is. *)
Theorem derive_display_name_bounded (spec : string) :
  derive_display_name spec ≠ "" ∧ length (chars (derive_display_name spec)) ≤ 81.
Proof.
  unfold derive_display_name.
  set (line := default "task" _).
  assert (line ≠ "") as Hline.
  { unfold line. destruct (find_where _ _) as [l|] eqn:E; [|done]. cbn.
    apply find_where_Some in E as [_ Hl]. apply negb_true_iff, String.eqb_neq in Hl. done. }
  pose proof (groups_ok_take 80 _ (chars_groups line)) as Hg.
  destruct (Nat.ltb_spec 80 (length (chars line))) as [Hlt|Hge].
  - rewrite chars_display_cut by done. rewrite length_app, length_take. split; [|change (length [ellipsis]) with 1; lia].
    intros Heq%(f_equal String.length). rewrite length_string_app in Heq.
    change (String.length ellipsis) with 3 in Heq. change (String.length "") with 0 in Heq. lia.
  - rewrite take_ge by done. rewrite of_chars_chars. split; [done|lia].
Qed.
