(* ===== verification/Models.v ===== *)
(** * Models: the data of the orchestration store

    The enums and row types of orchestration_models.rs, run_event_store.rs,
    run_dispatch.rs and the tables of runs_v3_schema.rs they are read from.
    Every enum keeps its stored spelling ([as_str], [parse]); a column with a
    CHECK constraint is modelled by the enum it spells, which the round-trip
    theorem below justifies.  JSON columns ([deps], [options]) hold the decoded
    value, since [serde_json] reads back what it wrote.

    Record fields carry the prefix of their table ([t_] tasks, [d_]
    dispatches, [m_] messages, [g_] gates, [r_] runs, [l_] launches, [x_] run
    workspaces, [e_] run events, [a_] audit events); [with_f v row] is the row
    with column [f] set to [v]. *)

From S2P Require Import Prelude Text.
From Stdlib Require Import ZArith Ascii String.
From stdpp Require Import strings prelude.

(** ** Enums *)

Inductive OrchestrationMessageType : Type :=
| Mt_Status
| Mt_Dispatch
| Mt_MergeReady
| Mt_Escalation
| Mt_Handoff
| Mt_DecisionGate
| Mt_Question.
#[export] Instance OrchestrationMessageType_eq_dec : EqDecision OrchestrationMessageType.
Proof. solve_decision. Defined.

Definition OrchestrationMessageType_as_str (x : OrchestrationMessageType) : string :=
  match x with
  | Mt_Status => "status"
  | Mt_Dispatch => "dispatch"
  | Mt_MergeReady => "merge_ready"
  | Mt_Escalation => "escalation"
  | Mt_Handoff => "handoff"
  | Mt_DecisionGate => "decision_gate"
  | Mt_Question => "question"
  end.

Definition OrchestrationMessageType_parse (value : string) : option OrchestrationMessageType :=
  if String.eqb value "status" then Some Mt_Status
  else if String.eqb value "dispatch" then Some Mt_Dispatch
  else if String.eqb value "merge_ready" then Some Mt_MergeReady
  else if String.eqb value "escalation" then Some Mt_Escalation
  else if String.eqb value "handoff" then Some Mt_Handoff
  else if String.eqb value "decision_gate" then Some Mt_DecisionGate
  else if String.eqb value "question" then Some Mt_Question
  else None.

(** When a queued message may be pasted; the wire form [turnEnd] is accepted too. *)
Inductive MessageDelivery : Type :=
| Md_Now
| Md_TurnEnd.
#[export] Instance MessageDelivery_eq_dec : EqDecision MessageDelivery.
Proof. solve_decision. Defined.

Definition MessageDelivery_as_str (x : MessageDelivery) : string :=
  match x with
  | Md_Now => "now"
  | Md_TurnEnd => "turn_end"
  end.

Definition MessageDelivery_parse (value : string) : option MessageDelivery :=
  if String.eqb value "now" then Some Md_Now
  else if (String.eqb value "turn_end" || String.eqb value "turnEnd")%bool then Some Md_TurnEnd
  else None.

(** What recording runtime activity did to a dispatch lease. *)
Inductive ActivityOutcome : Type :=
| Ignored
| Recorded
| Revived.
#[export] Instance ActivityOutcome_eq_dec : EqDecision ActivityOutcome.
Proof. solve_decision. Defined.

Inductive OrchestrationMessagePriority : Type :=
| Mp_Normal
| Mp_High
| Mp_Urgent.
#[export] Instance OrchestrationMessagePriority_eq_dec : EqDecision OrchestrationMessagePriority.
Proof. solve_decision. Defined.

Definition OrchestrationMessagePriority_as_str (x : OrchestrationMessagePriority) : string :=
  match x with
  | Mp_Normal => "normal"
  | Mp_High => "high"
  | Mp_Urgent => "urgent"
  end.

Definition OrchestrationMessagePriority_parse (value : string) : option OrchestrationMessagePriority :=
  if String.eqb value "normal" then Some Mp_Normal
  else if String.eqb value "high" then Some Mp_High
  else if String.eqb value "urgent" then Some Mp_Urgent
  else None.

Inductive OrchestrationTaskStatus : Type :=
| Ts_Pending
| Ts_Ready
| Ts_Dispatched
| Ts_Completed
| Ts_Failed
| Ts_Blocked
| Ts_Stalled
| Ts_Cancelled.
#[export] Instance OrchestrationTaskStatus_eq_dec : EqDecision OrchestrationTaskStatus.
Proof. solve_decision. Defined.

Definition OrchestrationTaskStatus_as_str (x : OrchestrationTaskStatus) : string :=
  match x with
  | Ts_Pending => "pending"
  | Ts_Ready => "ready"
  | Ts_Dispatched => "dispatched"
  | Ts_Completed => "completed"
  | Ts_Failed => "failed"
  | Ts_Blocked => "blocked"
  | Ts_Stalled => "stalled"
  | Ts_Cancelled => "cancelled"
  end.

Definition OrchestrationTaskStatus_parse (value : string) : option OrchestrationTaskStatus :=
  if String.eqb value "pending" then Some Ts_Pending
  else if String.eqb value "ready" then Some Ts_Ready
  else if String.eqb value "dispatched" then Some Ts_Dispatched
  else if String.eqb value "completed" then Some Ts_Completed
  else if String.eqb value "failed" then Some Ts_Failed
  else if String.eqb value "blocked" then Some Ts_Blocked
  else if String.eqb value "stalled" then Some Ts_Stalled
  else if String.eqb value "cancelled" then Some Ts_Cancelled
  else None.

Inductive OrchestrationDispatchStatus : Type :=
| Ds_Pending
| Ds_Dispatched
| Ds_Completed
| Ds_Failed
| Ds_CircuitBroken
| Ds_AwaitingAcceptance
| Ds_StartupFailed
| Ds_Stalled
| Ds_Cancelled
| Ds_Superseded.
#[export] Instance OrchestrationDispatchStatus_eq_dec : EqDecision OrchestrationDispatchStatus.
Proof. solve_decision. Defined.

Definition OrchestrationDispatchStatus_as_str (x : OrchestrationDispatchStatus) : string :=
  match x with
  | Ds_Pending => "pending"
  | Ds_Dispatched => "dispatched"
  | Ds_Completed => "completed"
  | Ds_Failed => "failed"
  | Ds_CircuitBroken => "circuit_broken"
  | Ds_AwaitingAcceptance => "awaiting_acceptance"
  | Ds_StartupFailed => "startup_failed"
  | Ds_Stalled => "stalled"
  | Ds_Cancelled => "cancelled"
  | Ds_Superseded => "superseded"
  end.

Definition OrchestrationDispatchStatus_parse (value : string) : option OrchestrationDispatchStatus :=
  if String.eqb value "pending" then Some Ds_Pending
  else if String.eqb value "dispatched" then Some Ds_Dispatched
  else if String.eqb value "completed" then Some Ds_Completed
  else if String.eqb value "failed" then Some Ds_Failed
  else if String.eqb value "circuit_broken" then Some Ds_CircuitBroken
  else if String.eqb value "awaiting_acceptance" then Some Ds_AwaitingAcceptance
  else if String.eqb value "startup_failed" then Some Ds_StartupFailed
  else if String.eqb value "stalled" then Some Ds_Stalled
  else if String.eqb value "cancelled" then Some Ds_Cancelled
  else if String.eqb value "superseded" then Some Ds_Superseded
  else None.

Inductive OrchestrationGateStatus : Type :=
| Gs_Pending
| Gs_Resolved
| Gs_Timeout
| Gs_Invalidated.
#[export] Instance OrchestrationGateStatus_eq_dec : EqDecision OrchestrationGateStatus.
Proof. solve_decision. Defined.

Definition OrchestrationGateStatus_as_str (x : OrchestrationGateStatus) : string :=
  match x with
  | Gs_Pending => "pending"
  | Gs_Resolved => "resolved"
  | Gs_Timeout => "timeout"
  | Gs_Invalidated => "invalidated"
  end.

Definition OrchestrationGateStatus_parse (value : string) : option OrchestrationGateStatus :=
  if String.eqb value "pending" then Some Gs_Pending
  else if String.eqb value "resolved" then Some Gs_Resolved
  else if String.eqb value "timeout" then Some Gs_Timeout
  else if String.eqb value "invalidated" then Some Gs_Invalidated
  else None.

(** Run lifecycle. A cancelled run without [completed_at] is still settling its cancellation and keeps its workspace. *)
Inductive OrchestrationCoordinatorStatus : Type :=
| Cs_Planning
| Cs_AwaitingApproval
| Cs_Running
| Cs_Paused
| Cs_Completed
| Cs_Failed
| Cs_Cancelled.
#[export] Instance OrchestrationCoordinatorStatus_eq_dec : EqDecision OrchestrationCoordinatorStatus.
Proof. solve_decision. Defined.

Definition OrchestrationCoordinatorStatus_as_str (x : OrchestrationCoordinatorStatus) : string :=
  match x with
  | Cs_Planning => "planning"
  | Cs_AwaitingApproval => "awaitingApproval"
  | Cs_Running => "running"
  | Cs_Paused => "paused"
  | Cs_Completed => "completed"
  | Cs_Failed => "failed"
  | Cs_Cancelled => "cancelled"
  end.

Definition OrchestrationCoordinatorStatus_parse (value : string) : option OrchestrationCoordinatorStatus :=
  if String.eqb value "planning" then Some Cs_Planning
  else if String.eqb value "awaitingApproval" then Some Cs_AwaitingApproval
  else if String.eqb value "running" then Some Cs_Running
  else if String.eqb value "paused" then Some Cs_Paused
  else if String.eqb value "completed" then Some Cs_Completed
  else if String.eqb value "failed" then Some Cs_Failed
  else if String.eqb value "cancelled" then Some Cs_Cancelled
  else None.

Inductive RunGateKind : Type :=
| Gk_Decision
| Gk_Stall
| Gk_Plan
| Gk_Stage.
#[export] Instance RunGateKind_eq_dec : EqDecision RunGateKind.
Proof. solve_decision. Defined.

Definition RunGateKind_as_str (x : RunGateKind) : string :=
  match x with
  | Gk_Decision => "decision"
  | Gk_Stall => "stall"
  | Gk_Plan => "plan"
  | Gk_Stage => "stage"
  end.

Definition RunGateKind_parse (value : string) : option RunGateKind :=
  if String.eqb value "decision" then Some Gk_Decision
  else if String.eqb value "stall" then Some Gk_Stall
  else if String.eqb value "plan" then Some Gk_Plan
  else if String.eqb value "stage" then Some Gk_Stage
  else None.

(** The [state] column of orchestrationMessages. *)
Inductive MessageState : Type :=
| St_Queued
| St_Delivered
| St_Read
| St_Expired
| St_Obsolete.
#[export] Instance MessageState_eq_dec : EqDecision MessageState.
Proof. solve_decision. Defined.

Definition MessageState_as_str (x : MessageState) : string :=
  match x with
  | St_Queued => "queued"
  | St_Delivered => "delivered"
  | St_Read => "read"
  | St_Expired => "expired"
  | St_Obsolete => "obsolete"
  end.

Inductive RunEventKind : Type :=
| Ev_Created
| Ev_CoordinatorStarted
| Ev_PlanProposed
| Ev_PlanApproved
| Ev_PlanRejected
| Ev_ChangesRequested
| Ev_TaskCreated
| Ev_AttemptPrepared
| Ev_Dispatched
| Ev_Accepted
| Ev_Escalation
| Ev_TaskCompleted
| Ev_TaskFailed
| Ev_TaskStalled
| Ev_TaskCancelled
| Ev_GateOpened
| Ev_GateResolved
| Ev_IntegrationStarted
| Ev_Integrated
| Ev_Conflict
| Ev_Attention
| Ev_Retried
| Ev_Paused
| Ev_Resumed
| Ev_Cancelled
| Ev_Completed
| Ev_Failed
| Ev_CleanupPrepared
| Ev_CleanupApplied
| Ev_CleanupAbandoned.
#[export] Instance RunEventKind_eq_dec : EqDecision RunEventKind.
Proof. solve_decision. Defined.

Definition RunEventKind_as_str (x : RunEventKind) : string :=
  match x with
  | Ev_Created => "created"
  | Ev_CoordinatorStarted => "coordinatorStarted"
  | Ev_PlanProposed => "planProposed"
  | Ev_PlanApproved => "planApproved"
  | Ev_PlanRejected => "planRejected"
  | Ev_ChangesRequested => "changesRequested"
  | Ev_TaskCreated => "taskCreated"
  | Ev_AttemptPrepared => "attemptPrepared"
  | Ev_Dispatched => "dispatched"
  | Ev_Accepted => "accepted"
  | Ev_Escalation => "escalation"
  | Ev_TaskCompleted => "taskCompleted"
  | Ev_TaskFailed => "taskFailed"
  | Ev_TaskStalled => "taskStalled"
  | Ev_TaskCancelled => "taskCancelled"
  | Ev_GateOpened => "gateOpened"
  | Ev_GateResolved => "gateResolved"
  | Ev_IntegrationStarted => "integrationStarted"
  | Ev_Integrated => "integrated"
  | Ev_Conflict => "conflict"
  | Ev_Attention => "attention"
  | Ev_Retried => "retried"
  | Ev_Paused => "paused"
  | Ev_Resumed => "resumed"
  | Ev_Cancelled => "cancelled"
  | Ev_Completed => "completed"
  | Ev_Failed => "failed"
  | Ev_CleanupPrepared => "cleanupPrepared"
  | Ev_CleanupApplied => "cleanupApplied"
  | Ev_CleanupAbandoned => "cleanupAbandoned"
  end.

Inductive RunActorKind : Type :=
| Ak_Desktop
| Ak_Mobile
| Ak_Cli
| Ak_Mcp
| Ak_Agent
| Ak_Runtime.
#[export] Instance RunActorKind_eq_dec : EqDecision RunActorKind.
Proof. solve_decision. Defined.

Definition RunActorKind_as_str (x : RunActorKind) : string :=
  match x with
  | Ak_Desktop => "desktop"
  | Ak_Mobile => "mobile"
  | Ak_Cli => "cli"
  | Ak_Mcp => "mcp"
  | Ak_Agent => "agent"
  | Ak_Runtime => "runtime"
  end.

(** The [status] column of runLaunches. *)
Inductive WorkflowLaunchStatus : Type :=
| Ls_Reserved
| Ls_Starting
| Ls_Started
| Ls_Attention.
#[export] Instance WorkflowLaunchStatus_eq_dec : EqDecision WorkflowLaunchStatus.
Proof. solve_decision. Defined.

Definition WorkflowLaunchStatus_as_str (x : WorkflowLaunchStatus) : string :=
  match x with
  | Ls_Reserved => "reserved"
  | Ls_Starting => "starting"
  | Ls_Started => "started"
  | Ls_Attention => "attention"
  end.

(** The [isolation] column of orchestrationCoordinatorRuns. *)
Inductive Isolation : Type :=
| Is_Shared
| Is_Isolated.
#[export] Instance Isolation_eq_dec : EqDecision Isolation.
Proof. solve_decision. Defined.

Definition Isolation_as_str (x : Isolation) : string :=
  match x with
  | Is_Shared => "shared"
  | Is_Isolated => "isolated"
  end.

(** The [phase] column of runWorkspaces. *)
Inductive RunWorkspacePhase : Type :=
| Wp_Reserved
| Wp_Creating
| Wp_Created
| Wp_SetupRunning
| Wp_Ready
| Wp_Attention.
#[export] Instance RunWorkspacePhase_eq_dec : EqDecision RunWorkspacePhase.
Proof. solve_decision. Defined.

Definition RunWorkspacePhase_as_str (x : RunWorkspacePhase) : string :=
  match x with
  | Wp_Reserved => "reserved"
  | Wp_Creating => "creating"
  | Wp_Created => "created"
  | Wp_SetupRunning => "setupRunning"
  | Wp_Ready => "ready"
  | Wp_Attention => "attention"
  end.

(** ** JSON values ([serde_json::Value]) *)
Inductive json : Type :=
| JNull
| JBool (b : bool)
| JNumber (repr : string)
| JString (s : string)
| JArray (l : list json)
| JObject (fields : list (string * json)).

Definition json_get (key : string) (v : json) : option json :=
  match v with
  | JObject fields => snd <$> find_where (λ kv, String.eqb (fst kv) key) fields
  | _ => None
  end.
Definition as_str (v : json) : option string :=
  match v with JString s => Some s | _ => None end.
Definition as_array (v : json) : option (list json) :=
  match v with JArray l => Some l | _ => None end.
Definition as_object (v : json) : option (list (string * json)) :=
  match v with JObject l => Some l | _ => None end.

(** ** Rows *)

(** A frozen role contract as the [role_contract] column stores it: the raw
    snapshot text ([RoleContract.v] models its contents). *)
Definition ContractText : Type := string.

(** An orchestrationTasks row ([plan_revision] is the column the run triggers read). *)
Record OrchestrationTask : Type := MkOrchestrationTask {
  t_id : string;
  t_parent_id : option string;
  t_created_by_terminal_handle : option string;
  t_task_title : option string;
  t_display_name : option string;
  t_spec : string;
  t_status : OrchestrationTaskStatus;
  t_deps : list string;
  t_result : option string;
  t_created_at : string;
  t_completed_at : option string;
  t_run_id : option string;
  t_workspace_id : string;
  t_coordinator_handle : string;
  t_result_schema : option string;
  t_startup_failure_count : Z;
  t_cancelled_at : option string;
  t_stalled_at : option string;
  t_stage_id : option string;
  t_role_contract : option ContractText;
  t_plan_revision : option Z
}.

Definition with_t_status (v : OrchestrationTaskStatus) (x : OrchestrationTask) : OrchestrationTask :=
  MkOrchestrationTask (t_id x) (t_parent_id x) (t_created_by_terminal_handle x) (t_task_title x)
    (t_display_name x) (t_spec x) v (t_deps x) (t_result x) (t_created_at x) (t_completed_at x)
    (t_run_id x) (t_workspace_id x) (t_coordinator_handle x) (t_result_schema x)
    (t_startup_failure_count x) (t_cancelled_at x) (t_stalled_at x) (t_stage_id x)
    (t_role_contract x) (t_plan_revision x).
Definition with_t_result (v : option string) (x : OrchestrationTask) : OrchestrationTask :=
  MkOrchestrationTask (t_id x) (t_parent_id x) (t_created_by_terminal_handle x) (t_task_title x)
    (t_display_name x) (t_spec x) (t_status x) (t_deps x) v (t_created_at x) (t_completed_at x)
    (t_run_id x) (t_workspace_id x) (t_coordinator_handle x) (t_result_schema x)
    (t_startup_failure_count x) (t_cancelled_at x) (t_stalled_at x) (t_stage_id x)
    (t_role_contract x) (t_plan_revision x).
Definition with_t_completed_at (v : option string) (x : OrchestrationTask) : OrchestrationTask :=
  MkOrchestrationTask (t_id x) (t_parent_id x) (t_created_by_terminal_handle x) (t_task_title x)
    (t_display_name x) (t_spec x) (t_status x) (t_deps x) (t_result x) (t_created_at x) v
    (t_run_id x) (t_workspace_id x) (t_coordinator_handle x) (t_result_schema x)
    (t_startup_failure_count x) (t_cancelled_at x) (t_stalled_at x) (t_stage_id x)
    (t_role_contract x) (t_plan_revision x).
Definition with_t_run_id (v : option string) (x : OrchestrationTask) : OrchestrationTask :=
  MkOrchestrationTask (t_id x) (t_parent_id x) (t_created_by_terminal_handle x) (t_task_title x)
    (t_display_name x) (t_spec x) (t_status x) (t_deps x) (t_result x) (t_created_at x)
    (t_completed_at x) v (t_workspace_id x) (t_coordinator_handle x) (t_result_schema x)
    (t_startup_failure_count x) (t_cancelled_at x) (t_stalled_at x) (t_stage_id x)
    (t_role_contract x) (t_plan_revision x).
Definition with_t_workspace_id (v : string) (x : OrchestrationTask) : OrchestrationTask :=
  MkOrchestrationTask (t_id x) (t_parent_id x) (t_created_by_terminal_handle x) (t_task_title x)
    (t_display_name x) (t_spec x) (t_status x) (t_deps x) (t_result x) (t_created_at x)
    (t_completed_at x) (t_run_id x) v (t_coordinator_handle x) (t_result_schema x)
    (t_startup_failure_count x) (t_cancelled_at x) (t_stalled_at x) (t_stage_id x)
    (t_role_contract x) (t_plan_revision x).
Definition with_t_coordinator_handle (v : string) (x : OrchestrationTask) : OrchestrationTask :=
  MkOrchestrationTask (t_id x) (t_parent_id x) (t_created_by_terminal_handle x) (t_task_title x)
    (t_display_name x) (t_spec x) (t_status x) (t_deps x) (t_result x) (t_created_at x)
    (t_completed_at x) (t_run_id x) (t_workspace_id x) v (t_result_schema x)
    (t_startup_failure_count x) (t_cancelled_at x) (t_stalled_at x) (t_stage_id x)
    (t_role_contract x) (t_plan_revision x).
Definition with_t_startup_failure_count (v : Z) (x : OrchestrationTask) : OrchestrationTask :=
  MkOrchestrationTask (t_id x) (t_parent_id x) (t_created_by_terminal_handle x) (t_task_title x)
    (t_display_name x) (t_spec x) (t_status x) (t_deps x) (t_result x) (t_created_at x)
    (t_completed_at x) (t_run_id x) (t_workspace_id x) (t_coordinator_handle x)
    (t_result_schema x) v (t_cancelled_at x) (t_stalled_at x) (t_stage_id x) (t_role_contract x)
    (t_plan_revision x).
Definition with_t_cancelled_at (v : option string) (x : OrchestrationTask) : OrchestrationTask :=
  MkOrchestrationTask (t_id x) (t_parent_id x) (t_created_by_terminal_handle x) (t_task_title x)
    (t_display_name x) (t_spec x) (t_status x) (t_deps x) (t_result x) (t_created_at x)
    (t_completed_at x) (t_run_id x) (t_workspace_id x) (t_coordinator_handle x)
    (t_result_schema x) (t_startup_failure_count x) v (t_stalled_at x) (t_stage_id x)
    (t_role_contract x) (t_plan_revision x).
Definition with_t_stalled_at (v : option string) (x : OrchestrationTask) : OrchestrationTask :=
  MkOrchestrationTask (t_id x) (t_parent_id x) (t_created_by_terminal_handle x) (t_task_title x)
    (t_display_name x) (t_spec x) (t_status x) (t_deps x) (t_result x) (t_created_at x)
    (t_completed_at x) (t_run_id x) (t_workspace_id x) (t_coordinator_handle x)
    (t_result_schema x) (t_startup_failure_count x) (t_cancelled_at x) v (t_stage_id x)
    (t_role_contract x) (t_plan_revision x).
Definition with_t_stage_id (v : option string) (x : OrchestrationTask) : OrchestrationTask :=
  MkOrchestrationTask (t_id x) (t_parent_id x) (t_created_by_terminal_handle x) (t_task_title x)
    (t_display_name x) (t_spec x) (t_status x) (t_deps x) (t_result x) (t_created_at x)
    (t_completed_at x) (t_run_id x) (t_workspace_id x) (t_coordinator_handle x)
    (t_result_schema x) (t_startup_failure_count x) (t_cancelled_at x) (t_stalled_at x) v
    (t_role_contract x) (t_plan_revision x).

(** An orchestrationDispatchContexts row. *)
Record OrchestrationDispatchContext : Type := MkOrchestrationDispatchContext {
  d_id : string;
  d_task_id : string;
  d_assignee_handle : option string;
  d_status : OrchestrationDispatchStatus;
  d_failure_count : Z;
  d_last_failure : option string;
  d_dispatched_at : option string;
  d_completed_at : option string;
  d_created_at : string;
  d_run_id : option string;
  d_workspace_id : string;
  d_coordinator_handle : string;
  d_accepted_at : option string;
  d_last_activity_at : option string;
  d_context_token_hash : option string;
  d_terminal_policy : string;
  d_startup_error : option string;
  d_completion_sha : option string;
  d_agent_profile : option string;
  d_agent_quota_group : option string
}.

Definition with_d_status (v : OrchestrationDispatchStatus) (x : OrchestrationDispatchContext) : OrchestrationDispatchContext :=
  MkOrchestrationDispatchContext (d_id x) (d_task_id x) (d_assignee_handle x) v
    (d_failure_count x) (d_last_failure x) (d_dispatched_at x) (d_completed_at x) (d_created_at x)
    (d_run_id x) (d_workspace_id x) (d_coordinator_handle x) (d_accepted_at x)
    (d_last_activity_at x) (d_context_token_hash x) (d_terminal_policy x) (d_startup_error x)
    (d_completion_sha x) (d_agent_profile x) (d_agent_quota_group x).
Definition with_d_failure_count (v : Z) (x : OrchestrationDispatchContext) : OrchestrationDispatchContext :=
  MkOrchestrationDispatchContext (d_id x) (d_task_id x) (d_assignee_handle x) (d_status x) v
    (d_last_failure x) (d_dispatched_at x) (d_completed_at x) (d_created_at x) (d_run_id x)
    (d_workspace_id x) (d_coordinator_handle x) (d_accepted_at x) (d_last_activity_at x)
    (d_context_token_hash x) (d_terminal_policy x) (d_startup_error x) (d_completion_sha x)
    (d_agent_profile x) (d_agent_quota_group x).
Definition with_d_last_failure (v : option string) (x : OrchestrationDispatchContext) : OrchestrationDispatchContext :=
  MkOrchestrationDispatchContext (d_id x) (d_task_id x) (d_assignee_handle x) (d_status x)
    (d_failure_count x) v (d_dispatched_at x) (d_completed_at x) (d_created_at x) (d_run_id x)
    (d_workspace_id x) (d_coordinator_handle x) (d_accepted_at x) (d_last_activity_at x)
    (d_context_token_hash x) (d_terminal_policy x) (d_startup_error x) (d_completion_sha x)
    (d_agent_profile x) (d_agent_quota_group x).
Definition with_d_completed_at (v : option string) (x : OrchestrationDispatchContext) : OrchestrationDispatchContext :=
  MkOrchestrationDispatchContext (d_id x) (d_task_id x) (d_assignee_handle x) (d_status x)
    (d_failure_count x) (d_last_failure x) (d_dispatched_at x) v (d_created_at x) (d_run_id x)
    (d_workspace_id x) (d_coordinator_handle x) (d_accepted_at x) (d_last_activity_at x)
    (d_context_token_hash x) (d_terminal_policy x) (d_startup_error x) (d_completion_sha x)
    (d_agent_profile x) (d_agent_quota_group x).
Definition with_d_run_id (v : option string) (x : OrchestrationDispatchContext) : OrchestrationDispatchContext :=
  MkOrchestrationDispatchContext (d_id x) (d_task_id x) (d_assignee_handle x) (d_status x)
    (d_failure_count x) (d_last_failure x) (d_dispatched_at x) (d_completed_at x) (d_created_at x)
    v (d_workspace_id x) (d_coordinator_handle x) (d_accepted_at x) (d_last_activity_at x)
    (d_context_token_hash x) (d_terminal_policy x) (d_startup_error x) (d_completion_sha x)
    (d_agent_profile x) (d_agent_quota_group x).
Definition with_d_workspace_id (v : string) (x : OrchestrationDispatchContext) : OrchestrationDispatchContext :=
  MkOrchestrationDispatchContext (d_id x) (d_task_id x) (d_assignee_handle x) (d_status x)
    (d_failure_count x) (d_last_failure x) (d_dispatched_at x) (d_completed_at x) (d_created_at x)
    (d_run_id x) v (d_coordinator_handle x) (d_accepted_at x) (d_last_activity_at x)
    (d_context_token_hash x) (d_terminal_policy x) (d_startup_error x) (d_completion_sha x)
    (d_agent_profile x) (d_agent_quota_group x).
Definition with_d_coordinator_handle (v : string) (x : OrchestrationDispatchContext) : OrchestrationDispatchContext :=
  MkOrchestrationDispatchContext (d_id x) (d_task_id x) (d_assignee_handle x) (d_status x)
    (d_failure_count x) (d_last_failure x) (d_dispatched_at x) (d_completed_at x) (d_created_at x)
    (d_run_id x) (d_workspace_id x) v (d_accepted_at x) (d_last_activity_at x)
    (d_context_token_hash x) (d_terminal_policy x) (d_startup_error x) (d_completion_sha x)
    (d_agent_profile x) (d_agent_quota_group x).
Definition with_d_accepted_at (v : option string) (x : OrchestrationDispatchContext) : OrchestrationDispatchContext :=
  MkOrchestrationDispatchContext (d_id x) (d_task_id x) (d_assignee_handle x) (d_status x)
    (d_failure_count x) (d_last_failure x) (d_dispatched_at x) (d_completed_at x) (d_created_at x)
    (d_run_id x) (d_workspace_id x) (d_coordinator_handle x) v (d_last_activity_at x)
    (d_context_token_hash x) (d_terminal_policy x) (d_startup_error x) (d_completion_sha x)
    (d_agent_profile x) (d_agent_quota_group x).
Definition with_d_last_activity_at (v : option string) (x : OrchestrationDispatchContext) : OrchestrationDispatchContext :=
  MkOrchestrationDispatchContext (d_id x) (d_task_id x) (d_assignee_handle x) (d_status x)
    (d_failure_count x) (d_last_failure x) (d_dispatched_at x) (d_completed_at x) (d_created_at x)
    (d_run_id x) (d_workspace_id x) (d_coordinator_handle x) (d_accepted_at x) v
    (d_context_token_hash x) (d_terminal_policy x) (d_startup_error x) (d_completion_sha x)
    (d_agent_profile x) (d_agent_quota_group x).
Definition with_d_startup_error (v : option string) (x : OrchestrationDispatchContext) : OrchestrationDispatchContext :=
  MkOrchestrationDispatchContext (d_id x) (d_task_id x) (d_assignee_handle x) (d_status x)
    (d_failure_count x) (d_last_failure x) (d_dispatched_at x) (d_completed_at x) (d_created_at x)
    (d_run_id x) (d_workspace_id x) (d_coordinator_handle x) (d_accepted_at x)
    (d_last_activity_at x) (d_context_token_hash x) (d_terminal_policy x) v (d_completion_sha x)
    (d_agent_profile x) (d_agent_quota_group x).
Definition with_d_completion_sha (v : option string) (x : OrchestrationDispatchContext) : OrchestrationDispatchContext :=
  MkOrchestrationDispatchContext (d_id x) (d_task_id x) (d_assignee_handle x) (d_status x)
    (d_failure_count x) (d_last_failure x) (d_dispatched_at x) (d_completed_at x) (d_created_at x)
    (d_run_id x) (d_workspace_id x) (d_coordinator_handle x) (d_accepted_at x)
    (d_last_activity_at x) (d_context_token_hash x) (d_terminal_policy x) (d_startup_error x) v
    (d_agent_profile x) (d_agent_quota_group x).
Definition with_d_agent_profile (v : option string) (x : OrchestrationDispatchContext) : OrchestrationDispatchContext :=
  MkOrchestrationDispatchContext (d_id x) (d_task_id x) (d_assignee_handle x) (d_status x)
    (d_failure_count x) (d_last_failure x) (d_dispatched_at x) (d_completed_at x) (d_created_at x)
    (d_run_id x) (d_workspace_id x) (d_coordinator_handle x) (d_accepted_at x)
    (d_last_activity_at x) (d_context_token_hash x) (d_terminal_policy x) (d_startup_error x)
    (d_completion_sha x) v (d_agent_quota_group x).
Definition with_d_agent_quota_group (v : option string) (x : OrchestrationDispatchContext) : OrchestrationDispatchContext :=
  MkOrchestrationDispatchContext (d_id x) (d_task_id x) (d_assignee_handle x) (d_status x)
    (d_failure_count x) (d_last_failure x) (d_dispatched_at x) (d_completed_at x) (d_created_at x)
    (d_run_id x) (d_workspace_id x) (d_coordinator_handle x) (d_accepted_at x)
    (d_last_activity_at x) (d_context_token_hash x) (d_terminal_policy x) (d_startup_error x)
    (d_completion_sha x) (d_agent_profile x) v.

(** An orchestrationMessages row. *)
Record OrchestrationMessage : Type := MkOrchestrationMessage {
  m_id : string;
  m_from_handle : string;
  m_to_handle : string;
  m_subject : string;
  m_body : string;
  m_message_type : OrchestrationMessageType;
  m_priority : OrchestrationMessagePriority;
  m_thread_id : option string;
  m_payload : option string;
  m_read : bool;
  m_sequence : Z;
  m_created_at : string;
  m_delivered_at : option string;
  m_run_id : option string;
  m_workspace_id : option string;
  m_task_id : option string;
  m_dispatch_id : option string;
  m_state : MessageState;
  m_expires_at : option string;
  m_obsolete_at : option string;
  m_reply_to_id : option string;
  m_external_meta : option string;
  m_delivery : MessageDelivery
}.

Definition with_m_read (v : bool) (x : OrchestrationMessage) : OrchestrationMessage :=
  MkOrchestrationMessage (m_id x) (m_from_handle x) (m_to_handle x) (m_subject x) (m_body x)
    (m_message_type x) (m_priority x) (m_thread_id x) (m_payload x) v (m_sequence x)
    (m_created_at x) (m_delivered_at x) (m_run_id x) (m_workspace_id x) (m_task_id x)
    (m_dispatch_id x) (m_state x) (m_expires_at x) (m_obsolete_at x) (m_reply_to_id x)
    (m_external_meta x) (m_delivery x).
Definition with_m_delivered_at (v : option string) (x : OrchestrationMessage) : OrchestrationMessage :=
  MkOrchestrationMessage (m_id x) (m_from_handle x) (m_to_handle x) (m_subject x) (m_body x)
    (m_message_type x) (m_priority x) (m_thread_id x) (m_payload x) (m_read x) (m_sequence x)
    (m_created_at x) v (m_run_id x) (m_workspace_id x) (m_task_id x) (m_dispatch_id x) (m_state x)
    (m_expires_at x) (m_obsolete_at x) (m_reply_to_id x) (m_external_meta x) (m_delivery x).
Definition with_m_state (v : MessageState) (x : OrchestrationMessage) : OrchestrationMessage :=
  MkOrchestrationMessage (m_id x) (m_from_handle x) (m_to_handle x) (m_subject x) (m_body x)
    (m_message_type x) (m_priority x) (m_thread_id x) (m_payload x) (m_read x) (m_sequence x)
    (m_created_at x) (m_delivered_at x) (m_run_id x) (m_workspace_id x) (m_task_id x)
    (m_dispatch_id x) v (m_expires_at x) (m_obsolete_at x) (m_reply_to_id x) (m_external_meta x)
    (m_delivery x).
Definition with_m_obsolete_at (v : option string) (x : OrchestrationMessage) : OrchestrationMessage :=
  MkOrchestrationMessage (m_id x) (m_from_handle x) (m_to_handle x) (m_subject x) (m_body x)
    (m_message_type x) (m_priority x) (m_thread_id x) (m_payload x) (m_read x) (m_sequence x)
    (m_created_at x) (m_delivered_at x) (m_run_id x) (m_workspace_id x) (m_task_id x)
    (m_dispatch_id x) (m_state x) (m_expires_at x) v (m_reply_to_id x) (m_external_meta x)
    (m_delivery x).

(** A runGates row; [task_id] is NULL for run-scoped gates. *)
Record OrchestrationDecisionGate : Type := MkOrchestrationDecisionGate {
  g_id : string;
  g_run_id : option string;
  g_task_id : option string;
  g_kind : RunGateKind;
  g_question : string;
  g_options : list string;
  g_status : OrchestrationGateStatus;
  g_resolution : option string;
  g_created_at : string;
  g_resolved_at : option string
}.

Definition with_g_status (v : OrchestrationGateStatus) (x : OrchestrationDecisionGate) : OrchestrationDecisionGate :=
  MkOrchestrationDecisionGate (g_id x) (g_run_id x) (g_task_id x) (g_kind x) (g_question x)
    (g_options x) v (g_resolution x) (g_created_at x) (g_resolved_at x).
Definition with_g_resolution (v : option string) (x : OrchestrationDecisionGate) : OrchestrationDecisionGate :=
  MkOrchestrationDecisionGate (g_id x) (g_run_id x) (g_task_id x) (g_kind x) (g_question x)
    (g_options x) (g_status x) v (g_created_at x) (g_resolved_at x).
Definition with_g_resolved_at (v : option string) (x : OrchestrationDecisionGate) : OrchestrationDecisionGate :=
  MkOrchestrationDecisionGate (g_id x) (g_run_id x) (g_task_id x) (g_kind x) (g_question x)
    (g_options x) (g_status x) (g_resolution x) (g_created_at x) v.

(** An orchestrationCoordinatorRuns row. *)
Record OrchestrationCoordinatorRun : Type := MkOrchestrationCoordinatorRun {
  r_id : string;
  r_spec : string;
  r_status : OrchestrationCoordinatorStatus;
  r_coordinator_handle : option string;
  r_poll_interval_ms : Z;
  r_created_at : string;
  r_completed_at : option string;
  r_workspace_id : string;
  r_max_concurrent : Z;
  r_last_activity_at : string;
  r_stop_reason : option string;
  r_execution_policy : option string;
  r_approval_required : bool;
  r_stall_policy : string;
  r_paused_by : option string;
  r_isolation : Isolation;
  r_attention_reason : option string;
  r_plan_revision : option Z;
  r_control_sequence : Z;
  r_coordinator_tab_id : option string
}.

Definition with_r_status (v : OrchestrationCoordinatorStatus) (x : OrchestrationCoordinatorRun) : OrchestrationCoordinatorRun :=
  MkOrchestrationCoordinatorRun (r_id x) (r_spec x) v (r_coordinator_handle x)
    (r_poll_interval_ms x) (r_created_at x) (r_completed_at x) (r_workspace_id x)
    (r_max_concurrent x) (r_last_activity_at x) (r_stop_reason x) (r_execution_policy x)
    (r_approval_required x) (r_stall_policy x) (r_paused_by x) (r_isolation x)
    (r_attention_reason x) (r_plan_revision x) (r_control_sequence x) (r_coordinator_tab_id x).
Definition with_r_coordinator_handle (v : option string) (x : OrchestrationCoordinatorRun) : OrchestrationCoordinatorRun :=
  MkOrchestrationCoordinatorRun (r_id x) (r_spec x) (r_status x) v (r_poll_interval_ms x)
    (r_created_at x) (r_completed_at x) (r_workspace_id x) (r_max_concurrent x)
    (r_last_activity_at x) (r_stop_reason x) (r_execution_policy x) (r_approval_required x)
    (r_stall_policy x) (r_paused_by x) (r_isolation x) (r_attention_reason x) (r_plan_revision x)
    (r_control_sequence x) (r_coordinator_tab_id x).
Definition with_r_completed_at (v : option string) (x : OrchestrationCoordinatorRun) : OrchestrationCoordinatorRun :=
  MkOrchestrationCoordinatorRun (r_id x) (r_spec x) (r_status x) (r_coordinator_handle x)
    (r_poll_interval_ms x) (r_created_at x) v (r_workspace_id x) (r_max_concurrent x)
    (r_last_activity_at x) (r_stop_reason x) (r_execution_policy x) (r_approval_required x)
    (r_stall_policy x) (r_paused_by x) (r_isolation x) (r_attention_reason x) (r_plan_revision x)
    (r_control_sequence x) (r_coordinator_tab_id x).
Definition with_r_last_activity_at (v : string) (x : OrchestrationCoordinatorRun) : OrchestrationCoordinatorRun :=
  MkOrchestrationCoordinatorRun (r_id x) (r_spec x) (r_status x) (r_coordinator_handle x)
    (r_poll_interval_ms x) (r_created_at x) (r_completed_at x) (r_workspace_id x)
    (r_max_concurrent x) v (r_stop_reason x) (r_execution_policy x) (r_approval_required x)
    (r_stall_policy x) (r_paused_by x) (r_isolation x) (r_attention_reason x) (r_plan_revision x)
    (r_control_sequence x) (r_coordinator_tab_id x).
Definition with_r_stop_reason (v : option string) (x : OrchestrationCoordinatorRun) : OrchestrationCoordinatorRun :=
  MkOrchestrationCoordinatorRun (r_id x) (r_spec x) (r_status x) (r_coordinator_handle x)
    (r_poll_interval_ms x) (r_created_at x) (r_completed_at x) (r_workspace_id x)
    (r_max_concurrent x) (r_last_activity_at x) v (r_execution_policy x) (r_approval_required x)
    (r_stall_policy x) (r_paused_by x) (r_isolation x) (r_attention_reason x) (r_plan_revision x)
    (r_control_sequence x) (r_coordinator_tab_id x).
Definition with_r_paused_by (v : option string) (x : OrchestrationCoordinatorRun) : OrchestrationCoordinatorRun :=
  MkOrchestrationCoordinatorRun (r_id x) (r_spec x) (r_status x) (r_coordinator_handle x)
    (r_poll_interval_ms x) (r_created_at x) (r_completed_at x) (r_workspace_id x)
    (r_max_concurrent x) (r_last_activity_at x) (r_stop_reason x) (r_execution_policy x)
    (r_approval_required x) (r_stall_policy x) v (r_isolation x) (r_attention_reason x)
    (r_plan_revision x) (r_control_sequence x) (r_coordinator_tab_id x).

(** A runLaunches row, with the columns dispatches depend on. *)
Record WorkflowLaunch : Type := MkWorkflowLaunch {
  l_id : string;
  l_run_id : string;
  l_revision : Z;
  l_task_id : string;
  l_workspace_id : string;
  l_terminal_handle : string;
  l_dispatch_id : string;
  l_base_sha : string;
  l_context_hash : string;
  l_status : WorkflowLaunchStatus;
  l_error : option string;
  l_updated_at : string
}.

Definition with_l_status (v : WorkflowLaunchStatus) (x : WorkflowLaunch) : WorkflowLaunch :=
  MkWorkflowLaunch (l_id x) (l_run_id x) (l_revision x) (l_task_id x) (l_workspace_id x)
    (l_terminal_handle x) (l_dispatch_id x) (l_base_sha x) (l_context_hash x) v (l_error x)
    (l_updated_at x).
Definition with_l_error (v : option string) (x : WorkflowLaunch) : WorkflowLaunch :=
  MkWorkflowLaunch (l_id x) (l_run_id x) (l_revision x) (l_task_id x) (l_workspace_id x)
    (l_terminal_handle x) (l_dispatch_id x) (l_base_sha x) (l_context_hash x) (l_status x) v
    (l_updated_at x).
Definition with_l_updated_at (v : string) (x : WorkflowLaunch) : WorkflowLaunch :=
  MkWorkflowLaunch (l_id x) (l_run_id x) (l_revision x) (l_task_id x) (l_workspace_id x)
    (l_terminal_handle x) (l_dispatch_id x) (l_base_sha x) (l_context_hash x) (l_status x)
    (l_error x) v.

(** A runWorkspaces row, with the columns dispatches depend on. *)
Record RunWorkspace : Type := MkRunWorkspace {
  x_id : string;
  x_run_id : string;
  x_revision : Z;
  x_task_id : option string;
  x_attempt : Z;
  x_phase : RunWorkspacePhase;
  x_dispatch_id : option string
}.


Inductive WorkspaceKind : Type := Wk_Main | Wk_Linked.
#[export] Instance WorkspaceKind_eq_dec : EqDecision WorkspaceKind.
Proof. solve_decision. Defined.

(** A runEvents row. *)
Record RunEvent : Type := MkRunEvent {
  e_sequence : Z;
  e_id : string;
  e_run_id : string;
  e_task_id : option string;
  e_dispatch_id : option string;
  e_gate_id : option string;
  e_kind : RunEventKind;
  e_actor_kind : option RunActorKind;
  e_actor_id : option string;
  e_summary : string;
  e_payload : option string;
  e_created_at : string
}.


(** The event a mutation asks to record. *)
Record NewRunEvent : Type := MkNewRunEvent {
  ne_run_id : string;
  ne_kind : RunEventKind;
  ne_task_id : option string;
  ne_dispatch_id : option string;
  ne_gate_id : option string;
  ne_actor_kind : option RunActorKind;
  ne_actor_id : option string;
  ne_summary : string;
  ne_payload : option json
}.

Definition with_ne_task_id (v : option string) (x : NewRunEvent) : NewRunEvent :=
  MkNewRunEvent (ne_run_id x) (ne_kind x) v (ne_dispatch_id x) (ne_gate_id x) (ne_actor_kind x)
    (ne_actor_id x) (ne_summary x) (ne_payload x).
Definition with_ne_dispatch_id (v : option string) (x : NewRunEvent) : NewRunEvent :=
  MkNewRunEvent (ne_run_id x) (ne_kind x) (ne_task_id x) v (ne_gate_id x) (ne_actor_kind x)
    (ne_actor_id x) (ne_summary x) (ne_payload x).
Definition with_ne_gate_id (v : option string) (x : NewRunEvent) : NewRunEvent :=
  MkNewRunEvent (ne_run_id x) (ne_kind x) (ne_task_id x) (ne_dispatch_id x) v (ne_actor_kind x)
    (ne_actor_id x) (ne_summary x) (ne_payload x).
Definition with_ne_actor_kind (v : option RunActorKind) (x : NewRunEvent) : NewRunEvent :=
  MkNewRunEvent (ne_run_id x) (ne_kind x) (ne_task_id x) (ne_dispatch_id x) (ne_gate_id x) v
    (ne_actor_id x) (ne_summary x) (ne_payload x).
Definition with_ne_actor_id (v : option string) (x : NewRunEvent) : NewRunEvent :=
  MkNewRunEvent (ne_run_id x) (ne_kind x) (ne_task_id x) (ne_dispatch_id x) (ne_gate_id x)
    (ne_actor_kind x) v (ne_summary x) (ne_payload x).
Definition with_ne_summary (v : string) (x : NewRunEvent) : NewRunEvent :=
  MkNewRunEvent (ne_run_id x) (ne_kind x) (ne_task_id x) (ne_dispatch_id x) (ne_gate_id x)
    (ne_actor_kind x) (ne_actor_id x) v (ne_payload x).
Definition with_ne_payload (v : option json) (x : NewRunEvent) : NewRunEvent :=
  MkNewRunEvent (ne_run_id x) (ne_kind x) (ne_task_id x) (ne_dispatch_id x) (ne_gate_id x)
    (ne_actor_kind x) (ne_actor_id x) (ne_summary x) v.

(** An orchestrationAuditEvents row. *)
Record AuditEvent : Type := MkAuditEvent {
  a_id : string;
  a_actor_handle : option string;
  a_action : string;
  a_target_id : string;
  a_reason : string
}.


(** [NewRunEvent::new]. *)
Definition new_run_event (run_id : string) (kind : RunEventKind) : NewRunEvent :=
  MkNewRunEvent run_id kind None None None None None "" None.

(** [OrchestrationCoordinatorRun::holds_workspace]: the states that hold the
    workspace's single active-run slot. *)
Definition holds_workspace (run : OrchestrationCoordinatorRun) : bool :=
  match r_status run with
  | Cs_Planning | Cs_AwaitingApproval | Cs_Running | Cs_Paused => true
  | Cs_Cancelled => bool_decide (r_completed_at run = None)
  | _ => false
  end.

(** [status IN ('pending','dispatched','awaiting_acceptance','stalled')]: the
    dispatch still occupies its terminal. *)
Definition active_status (s : OrchestrationDispatchStatus) : bool :=
  match s with
  | Ds_Pending | Ds_Dispatched | Ds_AwaitingAcceptance | Ds_Stalled => true
  | _ => false
  end.
Definition d_active (d : OrchestrationDispatchContext) : bool := active_status (d_status d).

(** Rows compare field by field. *)
#[export] Instance OrchestrationTask_eq_dec : EqDecision OrchestrationTask.
Proof. solve_decision. Defined.
#[export] Instance OrchestrationDispatchContext_eq_dec : EqDecision OrchestrationDispatchContext.
Proof. solve_decision. Defined.
#[export] Instance OrchestrationMessage_eq_dec : EqDecision OrchestrationMessage.
Proof. solve_decision. Defined.
#[export] Instance OrchestrationDecisionGate_eq_dec : EqDecision OrchestrationDecisionGate.
Proof. solve_decision. Defined.
#[export] Instance OrchestrationCoordinatorRun_eq_dec : EqDecision OrchestrationCoordinatorRun.
Proof. solve_decision. Defined.
#[export] Instance RunEvent_eq_dec : EqDecision RunEvent.
Proof. solve_decision. Defined.
#[export] Instance AuditEvent_eq_dec : EqDecision AuditEvent.
Proof. solve_decision. Defined.

(** ** The stored spelling of every enum determines its value *)

(** Reading back what the store wrote gives the same value, for every
    enum the orchestration tables store as text; a message delivery may also be
    spelled the way the wire does. *)
Theorem stored_enum_roundtrip :
  (∀ x, OrchestrationMessageType_parse (OrchestrationMessageType_as_str x) = Some x) ∧
  (∀ x, MessageDelivery_parse (MessageDelivery_as_str x) = Some x) ∧
  MessageDelivery_parse "turnEnd" = Some Md_TurnEnd ∧
  (∀ x, OrchestrationMessagePriority_parse (OrchestrationMessagePriority_as_str x) = Some x) ∧
  (∀ x, OrchestrationTaskStatus_parse (OrchestrationTaskStatus_as_str x) = Some x) ∧
  (∀ x, OrchestrationDispatchStatus_parse (OrchestrationDispatchStatus_as_str x) = Some x) ∧
  (∀ x, OrchestrationGateStatus_parse (OrchestrationGateStatus_as_str x) = Some x) ∧
  (∀ x, OrchestrationCoordinatorStatus_parse (OrchestrationCoordinatorStatus_as_str x) = Some x) ∧
  (∀ x, RunGateKind_parse (RunGateKind_as_str x) = Some x).
Proof. split_and!; try intros []; reflexivity. Qed.

