(* ===== verification/Store.v ===== *)
(** * Store: the runtime database and its write primitives

    [Db] holds the tables the orchestration code reads and writes, in rowid
    order.  The primitives below are the INSERT and UPDATE statements the code
    issues, together with what SQLite does to them: primary keys, unique
    indexes, CHECK constraints and the [RAISE(ABORT)] triggers of
    run_launch_schema.rs, run_plan_schema.rs and run_execution.rs that guard
    tasks and dispatches.  A rejected statement changes nothing.  [tx] is a
    transaction: an error inside it restores the database.

    Triggers that only count changes or journal them for subscribers
    (board, inbox and conversation revisions, runtimeEvents) and the ones that
    maintain stage-gate evidence are not part of [Db].

    The environment gives what the code does not decide: the SQLite clock,
    the random identifiers and the JSON encoder of [serde_json]. *)

From S2P Require Import Prelude Text Models.
From Stdlib Require Import ZArith Lia Ascii String.
From stdpp Require Import strings prelude.

Class Env : Type := {
  now : string;                  (** [datetime('now')]: UTC, second precision *)
  uuid_simple : nat → string;    (** the n-th [Uuid::new_v4().simple()] drawn *)
  json_encode : json → string;   (** [serde_json::Value::to_string] *)
}.

(** The same environment at another moment: the clock moves between operations. *)
Definition at_time (e : Env) (moment : string) : Env :=
  Build_Env moment (@uuid_simple e) (@json_encode e).

(** ** State *)

Record Db : Type := MkDb {
  db_tasks : list OrchestrationTask;
  db_dispatches : list OrchestrationDispatchContext;
  db_messages : list OrchestrationMessage;
  db_gates : list OrchestrationDecisionGate;
  db_runs : list OrchestrationCoordinatorRun;
  db_events : list RunEvent;
  db_audits : list AuditEvent;
  db_launches : list WorkflowLaunch;
  db_workspaces : list RunWorkspace;
  db_message_sequence : Z;
  db_event_sequence : Z
}.

Definition set_tasks (v : list OrchestrationTask) (db : Db) : Db :=
  MkDb v (db_dispatches db) (db_messages db) (db_gates db) (db_runs db) (db_events db)
    (db_audits db) (db_launches db) (db_workspaces db) (db_message_sequence db)
    (db_event_sequence db).
Definition set_dispatches (v : list OrchestrationDispatchContext) (db : Db) : Db :=
  MkDb (db_tasks db) v (db_messages db) (db_gates db) (db_runs db) (db_events db) (db_audits db)
    (db_launches db) (db_workspaces db) (db_message_sequence db) (db_event_sequence db).
Definition set_messages (v : list OrchestrationMessage) (db : Db) : Db :=
  MkDb (db_tasks db) (db_dispatches db) v (db_gates db) (db_runs db) (db_events db) (db_audits db)
    (db_launches db) (db_workspaces db) (db_message_sequence db) (db_event_sequence db).
Definition set_gates (v : list OrchestrationDecisionGate) (db : Db) : Db :=
  MkDb (db_tasks db) (db_dispatches db) (db_messages db) v (db_runs db) (db_events db)
    (db_audits db) (db_launches db) (db_workspaces db) (db_message_sequence db)
    (db_event_sequence db).
Definition set_runs (v : list OrchestrationCoordinatorRun) (db : Db) : Db :=
  MkDb (db_tasks db) (db_dispatches db) (db_messages db) (db_gates db) v (db_events db)
    (db_audits db) (db_launches db) (db_workspaces db) (db_message_sequence db)
    (db_event_sequence db).
Definition set_events (v : list RunEvent) (db : Db) : Db :=
  MkDb (db_tasks db) (db_dispatches db) (db_messages db) (db_gates db) (db_runs db) v
    (db_audits db) (db_launches db) (db_workspaces db) (db_message_sequence db)
    (db_event_sequence db).
Definition set_audits (v : list AuditEvent) (db : Db) : Db :=
  MkDb (db_tasks db) (db_dispatches db) (db_messages db) (db_gates db) (db_runs db) (db_events db)
    v (db_launches db) (db_workspaces db) (db_message_sequence db) (db_event_sequence db).
Definition set_launches (v : list WorkflowLaunch) (db : Db) : Db :=
  MkDb (db_tasks db) (db_dispatches db) (db_messages db) (db_gates db) (db_runs db) (db_events db)
    (db_audits db) v (db_workspaces db) (db_message_sequence db) (db_event_sequence db).
Definition set_workspaces (v : list RunWorkspace) (db : Db) : Db :=
  MkDb (db_tasks db) (db_dispatches db) (db_messages db) (db_gates db) (db_runs db) (db_events db)
    (db_audits db) (db_launches db) v (db_message_sequence db) (db_event_sequence db).
Definition set_message_sequence (v : Z) (db : Db) : Db :=
  MkDb (db_tasks db) (db_dispatches db) (db_messages db) (db_gates db) (db_runs db) (db_events db)
    (db_audits db) (db_launches db) (db_workspaces db) v (db_event_sequence db).
Definition set_event_sequence (v : Z) (db : Db) : Db :=
  MkDb (db_tasks db) (db_dispatches db) (db_messages db) (db_gates db) (db_runs db) (db_events db)
    (db_audits db) (db_launches db) (db_workspaces db) (db_message_sequence db) v.

(** The database together with the number of identifiers drawn so far, which
    no rollback takes back. *)
Record World : Type := MkWorld { w_db : Db; w_rng : nat }.

Abbreviation SM := (M World).

Definition with_db (f : Db → Db) (w : World) : World := MkWorld (f (w_db w)) (w_rng w).

Definition get_db : SM Db := gets w_db.
Definition select {A} (q : Db → A) : SM A := gets (λ w, q (w_db w)).

(** A transaction: commit on success, roll back on error. *)
Definition tx {A} (m : SM A) : SM A := λ w,
  match m w with
  | (w', Ok a) => (w', Ok a)
  | (w', Err e) => (MkWorld (w_db w) (w_rng w'), Err e)
  end.

(** Run one statement; when SQLite rejects it, continue with [h] on the
    database as it was before the statement. *)
Definition catch_database {A} (m : SM A) (h : string → SM A) : SM A := λ w,
  match m w with
  | (w', Err (Database msg)) => h msg (MkWorld (w_db w) (w_rng w'))
  | r => r
  end.

Definition bail {A} (msg : string) : SM A := fail (Bail msg).

(** ** Guards

    The error SQLite raises for the first row an UPDATE may not touch. *)

Definition first_abort {A} (guard : A → A → option string) (p : A → bool) (f : A → A)
    (l : list A) : option string :=
  head (omap (λ x, if p x then guard x (f x) else None) l).

Lemma first_abort_None {A} (guard : A → A → option string) p f (l : list A) :
  first_abort guard p f l = None ↔ ∀ x, x ∈ l → p x = true → guard x (f x) = None.
Proof.
  unfold first_abort. induction l as [|y l IH]; cbn.
  - split; [intros _ x Hx; by apply not_elem_of_nil in Hx|done].
  - setoid_rewrite elem_of_cons. destruct (p y) eqn:Hp; [destruct (guard y (f y)) eqn:Hg|]; cbn.
    + split; [done|]. intros H. specialize (H y (or_introl eq_refl) Hp). congruence.
    + rewrite IH. naive_solver.
    + rewrite IH. split; [|naive_solver]. intros H x [->|Hx] Hpx; [congruence|auto].
Qed.

Section WithEnv.
Context `{Env}.

(** [orchestration_id(prefix)]: the prefix and 16 hex digits of a fresh UUID. *)
Definition id_of (prefix : string) (n : nat) : string :=
  (prefix +:+ "_" +:+ String.substring 0 16 (uuid_simple n))%string.

Definition orchestration_id (prefix : string) : SM string := λ w,
  (MkWorld (w_db w) (S (w_rng w)), Ok (id_of prefix (w_rng w))).

(** The run a task, dispatch or trigger names exists and is isolated. *)
Definition run_isolated (db : Db) (run_id : option string) : bool :=
  existsb (λ r, bool_decide (Some (r_id r) = run_id) && bool_decide (r_isolation r = Is_Isolated))
    (db_runs db).

(** *** Task rows *)

(** The conditions under which the triggers of orchestrationTasks abort an
    UPDATE from row [old] to row [new], named after the triggers. *)
Definition planned_isolated (db : Db) (old : OrchestrationTask) : bool :=
  bool_decide (is_Some (t_plan_revision old)) && run_isolated db (t_run_id old).

Definition runCompletedTaskRetained (db : Db) (old new : OrchestrationTask) : bool :=
  bool_decide (t_status old = Ts_Completed) && negb (bool_decide (t_status new = Ts_Completed))
  && planned_isolated db old.

Definition runStalledTaskRequiresSettlement (db : Db) (old new : OrchestrationTask) : bool :=
  bool_decide (t_status old = Ts_Stalled)
  && (bool_decide (t_status new = Ts_Ready) || bool_decide (t_status new = Ts_Failed))
  && planned_isolated db old.

Definition runTaskDefinitionImmutable (old new : OrchestrationTask) : bool :=
  bool_decide (is_Some (t_plan_revision old))
  && negb (bool_decide (t_spec old = t_spec new) && bool_decide (t_deps old = t_deps new)
           && bool_decide (t_stage_id old = t_stage_id new)
           && bool_decide (t_role_contract old = t_role_contract new)
           && bool_decide (t_run_id old = t_run_id new)
           && bool_decide (t_plan_revision old = t_plan_revision new)).

Definition runTaskJoinRequiresMembership (db : Db) (new : OrchestrationTask) : bool :=
  bool_decide (t_plan_revision new = None) && run_isolated db (t_run_id new).

Definition orchestrationRoleContractImmutable (old new : OrchestrationTask) : bool :=
  negb (bool_decide (t_role_contract old = t_role_contract new)).

(** The message of the first trigger that aborts; runTaskJoinRequiresMembership
    fires only when the statement sets [run_id]. *)
Definition task_update_abort (sets_run_id : bool) (db : Db) (old new : OrchestrationTask)
    : option string :=
  if runCompletedTaskRetained db old new
  then Some "completed run tasks require a new plan revision"
  else if runStalledTaskRequiresSettlement db old new
  then Some "stalled isolated tasks require terminal settlement and a fresh attempt"
  else if runTaskDefinitionImmutable old new
  then Some "a planned task definition requires a new plan revision"
  else if sets_run_id && runTaskJoinRequiresMembership db new
  then Some "isolated run tasks require plan membership"
  else if orchestrationRoleContractImmutable old new
  then Some "role contract snapshot is immutable"
  else None.

(** The triggers that raise an error; those that revoke gates and delete evidence
    write tables outside this state and are those of RunTriggers.v. *)
Definition update_tasks (sets_run_id : bool) (p : OrchestrationTask → bool)
    (f : OrchestrationTask → OrchestrationTask) : SM nat := λ w,
  match first_abort (task_update_abort sets_run_id (w_db w)) p f (db_tasks (w_db w)) with
  | Some msg => (w, Err (Database msg))
  | None => (with_db (λ db, set_tasks (update_where p f (db_tasks db)) db) w,
             Ok (count_where p (db_tasks (w_db w))))
  end.

(** INSERT on orchestrationTasks: runTaskMembershipRequired and the key. *)
Definition insert_task (t : OrchestrationTask) : SM unit := λ w,
  let db := w_db w in
  if bool_decide (t_plan_revision t = None) && run_isolated db (t_run_id t)
  then (w, Err (Database "isolated run tasks require plan membership"))
  else if bool_decide (t_id t ∈ t_id <$> db_tasks db)
  then (w, Err (Database "UNIQUE constraint failed: orchestrationTasks.id"))
  else (with_db (set_tasks (db_tasks db ++ [t])) w, Ok tt).

(** *** Dispatch rows *)

Definition launch_of (db : Db) (dispatch_id : string) : option WorkflowLaunch :=
  find_where (λ l, String.eqb (l_dispatch_id l) dispatch_id) (db_launches db).
Definition has_launch (db : Db) (dispatch_id : string) : bool :=
  existsb (λ l, String.eqb (l_dispatch_id l) dispatch_id) (db_launches db).

(** runDispatchAcceptance's condition on a launch of the dispatch: its run is
    running or paused on the launch's plan revision, and the launch still
    allows this acceptance or revival. *)
Definition acceptance_launch_ok (db : Db) (old : OrchestrationDispatchContext) : bool :=
  existsb (λ l,
    String.eqb (l_dispatch_id l) (d_id old) &&
    existsb (λ r, String.eqb (r_id r) (l_run_id l)
                  && bool_decide (r_plan_revision r = Some (l_revision l))
                  && (bool_decide (r_status r = Cs_Running) || bool_decide (r_status r = Cs_Paused)))
      (db_runs db) &&
    ((bool_decide (d_status old = Ds_AwaitingAcceptance)
      && (bool_decide (l_status l = Ls_Starting) || bool_decide (l_status l = Ls_Started)))
     || (bool_decide (d_status old = Ds_Stalled) && bool_decide (is_Some (d_accepted_at old))
         && negb (bool_decide (l_status l = Ls_Reserved)))))
    (db_launches db).

(** The conditions under which the triggers of orchestrationDispatchContexts
    abort an UPDATE, named after the triggers. *)
Definition runDispatchIdentityImmutable (db : Db) (old new : OrchestrationDispatchContext) : bool :=
  has_launch db (d_id old)
  && negb (bool_decide (d_id old = d_id new) && bool_decide (d_task_id old = d_task_id new)
           && bool_decide (d_run_id old = d_run_id new)
           && bool_decide (d_workspace_id old = d_workspace_id new)
           && bool_decide (d_assignee_handle old = d_assignee_handle new)
           && bool_decide (d_coordinator_handle old = d_coordinator_handle new)
           && bool_decide (d_context_token_hash old = d_context_token_hash new)).

Definition runCompletionShaImmutable (old new : OrchestrationDispatchContext) : bool :=
  bool_decide (is_Some (d_completion_sha old))
  && negb (bool_decide (d_completion_sha new = d_completion_sha old)).

Definition runCompletionShaRequired (db : Db) (old new : OrchestrationDispatchContext) : bool :=
  bool_decide (d_status new = Ds_Completed) && has_launch db (d_id old)
  && bool_decide (d_completion_sha new = None).

Definition runDispatchAcceptance (db : Db) (old new : OrchestrationDispatchContext) : bool :=
  bool_decide (d_status new = Ds_Dispatched) && negb (bool_decide (d_status old = Ds_Dispatched))
  && has_launch db (d_id old) && negb (acceptance_launch_ok db old).

(** The message of the first trigger that aborts; the last two fire only when
    the statement sets [status]. *)
Definition dispatch_update_abort (sets_status : bool) (db : Db)
    (old new : OrchestrationDispatchContext) : option string :=
  if runDispatchIdentityImmutable db old new
  then Some "workflow dispatch identity is immutable"
  else if runCompletionShaImmutable old new
  then Some "workflow completion SHA is immutable"
  else if sets_status && runCompletionShaRequired db old new
  then Some "workflow completion requires its exact result SHA"
  else if sets_status && runDispatchAcceptance db old new
  then Some "workflow dispatch acceptance requires its current approved launch"
  else None.

Definition update_dispatches (sets_status : bool) (p : OrchestrationDispatchContext → bool)
    (f : OrchestrationDispatchContext → OrchestrationDispatchContext) : SM nat := λ w,
  match first_abort (dispatch_update_abort sets_status (w_db w)) p f (db_dispatches (w_db w)) with
  | Some msg => (w, Err (Database msg))
  | None => (with_db (λ db, set_dispatches (update_where p f (db_dispatches db)) db) w,
             Ok (count_where p (db_dispatches (w_db w))))
  end.

(** runDispatchRequiresLaunch's launch: reserved for exactly this dispatch. *)
Definition reserved_launch_for (db : Db) (d : OrchestrationDispatchContext) : bool :=
  existsb (λ l,
    String.eqb (l_dispatch_id l) (d_id d) && String.eqb (l_task_id l) (d_task_id d)
    && bool_decide (Some (l_run_id l) = d_run_id d)
    && String.eqb (l_workspace_id l) (d_workspace_id d)
    && bool_decide (Some (l_terminal_handle l) = d_assignee_handle d)
    && bool_decide (Some (l_context_hash l) = d_context_token_hash d)
    && bool_decide (l_status l = Ls_Reserved)
    && existsb (λ x, String.eqb (x_id x) (l_workspace_id l) && bool_decide (x_phase x = Wp_Ready)
                     && bool_decide (x_dispatch_id x = Some (d_id d))) (db_workspaces db)
    && existsb (λ r, String.eqb (r_id r) (l_run_id l)
                     && bool_decide (r_plan_revision r = Some (l_revision l))
                     && bool_decide (r_status r = Cs_Running)) (db_runs db)
    && bool_decide (d_status d = Ds_AwaitingAcceptance)
    && String.eqb (d_coordinator_handle d) "" && String.eqb (d_terminal_policy d) "keep-open")
    (db_launches db).

(** INSERT on orchestrationDispatchContexts: runDispatchRequiresLaunch,
    runDispatchRequiresRunning and the key. *)
Definition insert_dispatch (d : OrchestrationDispatchContext) : SM unit := λ w,
  let db := w_db w in
  if run_isolated db (d_run_id d) && negb (reserved_launch_for db d)
  then (w, Err (Database "isolated runs dispatch only through a reserved attempt launch"))
  else if existsb (λ r, bool_decide (Some (r_id r) = d_run_id d)
                        && negb (bool_decide (r_status r = Cs_Running))) (db_runs db)
  then (w, Err (Database "run is not running; dispatch waits for its plan or a resume"))
  else if bool_decide (d_id d ∈ d_id <$> db_dispatches db)
  then (w, Err (Database "UNIQUE constraint failed: orchestrationDispatchContexts.id"))
  else (with_db (set_dispatches (db_dispatches db ++ [d])) w, Ok tt).

(** *** Messages, gates, runs and launches *)

Definition update_messages (p : OrchestrationMessage → bool)
    (f : OrchestrationMessage → OrchestrationMessage) : SM nat := λ w,
  (with_db (λ db, set_messages (update_where p f (db_messages db)) db) w,
   Ok (count_where p (db_messages (w_db w)))).

(** INSERT on orchestrationMessages: the unique id, and the AUTOINCREMENT
    [sequence] the row receives. *)
Definition insert_message (row : Z → OrchestrationMessage) : SM unit := λ w,
  let db := w_db w in
  let sequence := (db_message_sequence db + 1)%Z in
  if bool_decide (m_id (row sequence) ∈ m_id <$> db_messages db)
  then (w, Err (Database "UNIQUE constraint failed: orchestrationMessages.id"))
  else (with_db (λ db, set_message_sequence sequence
                         (set_messages (db_messages db ++ [row sequence]) db)) w, Ok tt).

Definition update_gates (p : OrchestrationDecisionGate → bool)
    (f : OrchestrationDecisionGate → OrchestrationDecisionGate) : SM nat := λ w,
  (with_db (λ db, set_gates (update_where p f (db_gates db)) db) w,
   Ok (count_where p (db_gates (w_db w)))).

(** INSERT on runGates: task gates name a task, run gates name only a run. *)
Definition insert_gate (g : OrchestrationDecisionGate) : SM unit := λ w,
  let db := w_db w in
  let task_kind := bool_decide (g_kind g = Gk_Decision) || bool_decide (g_kind g = Gk_Stall) in
  if negb (if task_kind then bool_decide (is_Some (g_task_id g))
           else bool_decide (is_Some (g_run_id g)) && bool_decide (g_task_id g = None))
  then (w, Err (Database "CHECK constraint failed: runGates"))
  else if bool_decide (g_id g ∈ g_id <$> db_gates db)
  then (w, Err (Database "UNIQUE constraint failed: runGates.id"))
  else (with_db (set_gates (db_gates db ++ [g])) w, Ok tt).

(** orchestrationCoordinatorRunsActiveWorkspaceIdx: at most one run holds a
    workspace. *)
Definition workspace_slots_unique (runs : list OrchestrationCoordinatorRun) : bool :=
  bool_decide (NoDup (r_workspace_id <$> List.filter holds_workspace runs)).

Definition update_runs (p : OrchestrationCoordinatorRun → bool)
    (f : OrchestrationCoordinatorRun → OrchestrationCoordinatorRun) : SM nat := λ w,
  let runs := update_where p f (db_runs (w_db w)) in
  if workspace_slots_unique runs
  then (with_db (set_runs runs) w, Ok (count_where p (db_runs (w_db w))))
  else (w, Err (Database "UNIQUE constraint failed: orchestrationCoordinatorRuns.workspace_id")).

(** INSERT on orchestrationCoordinatorRuns: the CHECK on [stall_policy], the key
    and the workspace slot. *)
Definition insert_run (r : OrchestrationCoordinatorRun) : SM unit := λ w,
  let db := w_db w in
  let runs := db_runs db ++ [r] in
  if negb (bool_decide (r_stall_policy r ∈ ["ask"; "auto-failover"; "wait"]))
  then (w, Err (Database "CHECK constraint failed: orchestrationCoordinatorRuns"))
  else if bool_decide (r_id r ∈ r_id <$> db_runs db)
  then (w, Err (Database "UNIQUE constraint failed: orchestrationCoordinatorRuns.id"))
  else if workspace_slots_unique runs
  then (with_db (set_runs runs) w, Ok tt)
  else (w, Err (Database "UNIQUE constraint failed: orchestrationCoordinatorRuns.workspace_id")).

Definition update_launches (p : WorkflowLaunch → bool) (f : WorkflowLaunch → WorkflowLaunch)
    : SM nat := λ w,
  (with_db (λ db, set_launches (update_where p f (db_launches db)) db) w,
   Ok (count_where p (db_launches (w_db w)))).

(** *** The run timeline (run_event_store.rs) *)

Definition RUN_EVENT_SUMMARY_MAX_BYTES : nat := 512.
Definition RUN_EVENT_PAYLOAD_MAX_BYTES : nat := 8 * 1024.

(** INSERT on runEvents: the CHECK constraints on summary and payload size,
    the unique id and the AUTOINCREMENT [sequence]. *)
Definition insert_event (row : Z → RunEvent) : SM unit := λ w,
  let db := w_db w in
  let sequence := (db_event_sequence db + 1)%Z in
  let e := row sequence in
  if negb (Nat.leb (String.length (e_summary e)) RUN_EVENT_SUMMARY_MAX_BYTES)
     || negb (match e_payload e with Some p => Nat.leb (String.length p) RUN_EVENT_PAYLOAD_MAX_BYTES
            | None => true end)
  then (w, Err (Database "CHECK constraint failed: runEvents"))
  else if bool_decide (e_id e ∈ e_id <$> db_events db)
  then (w, Err (Database "UNIQUE constraint failed: runEvents.id"))
  else (with_db (λ db, set_event_sequence sequence (set_events (db_events db ++ [e]) db)) w, Ok tt).

Definition truncated_marker : json := JObject [("truncated", JBool true)].

Definition event_payload (payload : option json) : option string :=
  payload ≫= λ p,
    let encoded := json_encode p in
    Some (if Nat.ltb RUN_EVENT_PAYLOAD_MAX_BYTES (String.length encoded)
          then json_encode truncated_marker else encoded).

Definition record_run_event (event : NewRunEvent) : SM string :=
  let! id := orchestration_id "evt" in
  do! insert_event (λ sequence,
        MkRunEvent sequence id (ne_run_id event) (ne_task_id event) (ne_dispatch_id event)
          (ne_gate_id event) (ne_kind event) (ne_actor_kind event) (ne_actor_id event)
          (truncate_to_boundary (ne_summary event) RUN_EVENT_SUMMARY_MAX_BYTES)
          (event_payload (ne_payload event)) now) in
  ret id.

(** Records [kind] on the run a dispatch belongs to; a dispatch outside a run
    has no timeline. *)
Definition record_dispatch_run_event (dispatch_id : string) (kind : RunEventKind)
    (summary : string) (payload : option json) : SM unit :=
  let! owner := select (λ db,
    find_where (λ d, String.eqb (d_id d) dispatch_id) (db_dispatches db)) in
  match owner with
  | Some d =>
      match d_run_id d with
      | Some run_id =>
          let event := with_ne_dispatch_id (Some dispatch_id)
            (with_ne_task_id (Some (d_task_id d)) (new_run_event run_id kind)) in
          let event :=
            if bool_decide (kind = Ev_Accepted)
            then with_ne_actor_id (d_assignee_handle d) (with_ne_actor_kind (Some Ak_Agent) event)
            else with_ne_actor_kind (Some Ak_Runtime) event in
          do! record_run_event (with_ne_payload payload (with_ne_summary summary event)) in
          ret tt
      | None => ret tt
      end
  | None => ret tt
  end.

(** Records [kind] on the run a task belongs to; a task outside a run has no
    timeline. *)
Definition record_task_run_event (task_id : string) (kind : RunEventKind)
    (summary : string) (payload : option json) : SM unit :=
  let! owner := select (λ db,
    find_where (λ t, String.eqb (t_id t) task_id) (db_tasks db)) in
  match owner ≫= t_run_id with
  | Some run_id =>
      do! record_run_event (with_ne_payload payload (with_ne_summary summary
            (with_ne_task_id (Some task_id) (new_run_event run_id kind)))) in
      ret tt
  | None => ret tt
  end.

(** A run's timeline, oldest first, at most [limit] clamped to 1..1000. *)
Definition run_events (run_id : string) (limit : Z) : SM (list RunEvent) :=
  select (λ db, take (Z.to_nat (Z.max 1 (Z.min 1000 limit)))
    (List.filter (λ e, String.eqb (e_run_id e) run_id) (db_events db))).

(** ** Administrative audit (orchestration_audit_store.rs) *)

Definition insert_orchestration_audit_event (actor_handle : option string)
    (action target_id reason : string) : SM unit :=
  let! id := orchestration_id "audit" in
  λ w, let db := w_db w in
    if bool_decide (id ∈ a_id <$> db_audits db)
    then (w, Err (Database "UNIQUE constraint failed: orchestrationAuditEvents.id"))
    else (with_db (set_audits (db_audits db ++
            [MkAuditEvent id actor_handle action target_id reason])) w, Ok tt).

End WithEnv.
