(* ===== verification/StoreFacts.v ===== *)
(** * StoreFacts: what the write primitives do

    One inversion lemma per primitive (what a successful statement leaves
    behind), the frame of the timeline writers ([events_only]), rollback, and
    the tactic [store_inv] that applies them all. *)

From S2P Require Import Prelude Text Models Store.
From Stdlib Require Import ZArith Lia Ascii String.
From stdpp Require Import strings pretty prelude.

(** [w'] differs from [w] only by timeline events appended at the end and by
    identifiers drawn. *)
Definition events_only (w w' : World) : Prop :=
  ∃ evs seq, w_db w' = set_event_sequence seq (set_events (db_events (w_db w) ++ evs) (w_db w)).

#[export] Instance events_only_refl : Reflexive events_only.
Proof.
  intros [[] n]. exists [], db_event_sequence. unfold set_event_sequence, set_events. cbn.
  by rewrite app_nil_r.
Qed.

#[export] Instance events_only_trans : Transitive events_only.
Proof.
  intros w1 w2 w3 (e1 & s1 & H1) (e2 & s2 & H2). exists (e1 ++ e2), s2.
  rewrite H2, H1. unfold set_event_sequence, set_events. cbn. by rewrite (assoc_L (++)).
Qed.

Section Frames.
Context (w w' : World) (Hev : events_only w w').
Ltac frame := destruct Hev as (? & ? & ->); reflexivity.

Lemma events_only_tasks : db_tasks (w_db w') = db_tasks (w_db w).
Proof. frame. Qed.
Lemma events_only_dispatches : db_dispatches (w_db w') = db_dispatches (w_db w).
Proof. frame. Qed.
Lemma events_only_messages : db_messages (w_db w') = db_messages (w_db w).
Proof. frame. Qed.
Lemma events_only_gates : db_gates (w_db w') = db_gates (w_db w).
Proof. frame. Qed.
Lemma events_only_runs : db_runs (w_db w') = db_runs (w_db w).
Proof. frame. Qed.
Lemma events_only_launches : db_launches (w_db w') = db_launches (w_db w).
Proof. frame. Qed.
Lemma events_only_workspaces : db_workspaces (w_db w') = db_workspaces (w_db w).
Proof. frame. Qed.
Lemma events_only_audits : db_audits (w_db w') = db_audits (w_db w).
Proof. frame. Qed.
Lemma events_only_events :
  ∃ evs, db_events (w_db w') = db_events (w_db w) ++ evs.
Proof. destruct Hev as (evs & ? & ->). exists evs. reflexivity. Qed.
End Frames.

(** ** Transactions *)

Lemma tx_run {A} (m : SM A) w w' a : m w = (w', Ok a) → tx m w = (w', Ok a).
Proof. unfold tx. by intros ->. Qed.

Lemma tx_fail {A} (m : SM A) w w' e :
  m w = (w', Err e) → tx m w = (MkWorld (w_db w) (w_rng w'), Err e).
Proof. unfold tx. by intros ->. Qed.

Lemma bind_select {A B} (q : Db → A) (k : A → SM B) w :
  bind (select q) k w = k (q (w_db w)) w.
Proof. done. Qed.

Lemma tx_ok {A} (m : SM A) w w' a : tx m w = (w', Ok a) ↔ m w = (w', Ok a).
Proof. unfold tx. destruct (m w) as [w1 [b|e]]; naive_solver. Qed.

(** A transaction that fails leaves the database as it found it. *)
Lemma tx_rollback {A} (m : SM A) w w' e : tx m w = (w', Err e) → w_db w' = w_db w.
Proof. unfold tx. destruct (m w) as [w1 [b|e']]; naive_solver. Qed.

(** Open the triggers of a table. *)
Ltac task_triggers :=
  unfold task_update_abort, runCompletedTaskRetained, runStalledTaskRequiresSettlement,
    runTaskDefinitionImmutable, runTaskJoinRequiresMembership, orchestrationRoleContractImmutable,
    planned_isolated.
Ltac dispatch_triggers :=
  unfold dispatch_update_abort, runDispatchIdentityImmutable, runCompletionShaImmutable,
    runCompletionShaRequired, runDispatchAcceptance.

Section Primitives.
Context `{Env}.

(** ** Updates *)

Lemma update_tasks_ok sr p f w w' n :
  update_tasks sr p f w = (w', Ok n) →
  w' = with_db (λ db, set_tasks (update_where p f (db_tasks db)) db) w ∧
  n = count_where p (db_tasks (w_db w)).
Proof. unfold update_tasks. case_match; naive_solver. Qed.

(** An UPDATE no trigger rejects succeeds. *)
Lemma update_tasks_success sr p f w :
  (∀ t, t ∈ db_tasks (w_db w) → p t = true → task_update_abort sr (w_db w) t (f t) = None) →
  update_tasks sr p f w =
    (with_db (λ db, set_tasks (update_where p f (db_tasks db)) db) w,
     Ok (count_where p (db_tasks (w_db w)))).
Proof. intros Hg. unfold update_tasks. by rewrite (proj2 (first_abort_None _ _ _ _) Hg). Qed.

(** The columns a plan freezes are those the definition trigger compares. *)
Definition same_definition (old new : OrchestrationTask) : Prop :=
  t_spec new = t_spec old ∧ t_deps new = t_deps old ∧ t_stage_id new = t_stage_id old ∧
  t_role_contract new = t_role_contract old ∧ t_run_id new = t_run_id old ∧
  t_plan_revision new = t_plan_revision old.

(** No trigger rejects an update that keeps the definition, for a task that is
    not planned in an isolated run, or that is neither completed nor stalled. *)
Lemma task_update_allowed db old new :
  same_definition old new →
  t_plan_revision old = None ∨ run_isolated db (t_run_id old) = false ∨
    (t_status old ≠ Ts_Completed ∧ t_status old ≠ Ts_Stalled) →
  task_update_abort false db old new = None.
Proof.
  intros (Hs & Hd & Hg & Hc & Hr & Hp) Hok. task_triggers.
  rewrite Hs, Hd, Hg, Hc, Hr, Hp. bool_refl. cbn. rewrite andb_false_r. cbn.
  destruct Hok as [->|[->|[H1 H2]]]; cbn.
  - by rewrite !andb_false_r.
  - by rewrite !andb_false_r.
  - by rewrite (bool_decide_false (t_status old = Ts_Completed)),
      (bool_decide_false (t_status old = Ts_Stalled)) by done.
Qed.

Lemma update_tasks_any sr p f w w' r :
  update_tasks sr p f w = (w', r) →
  w' = w ∨ w' = with_db (λ db, set_tasks (update_where p f (db_tasks db)) db) w.
Proof. unfold update_tasks. case_match; naive_solver. Qed.

Lemma update_dispatches_ok ss p f w w' n :
  update_dispatches ss p f w = (w', Ok n) →
  w' = with_db (λ db, set_dispatches (update_where p f (db_dispatches db)) db) w ∧
  n = count_where p (db_dispatches (w_db w)).
Proof. unfold update_dispatches. case_match; naive_solver. Qed.

Lemma update_dispatches_success ss p f w :
  (∀ d, d ∈ db_dispatches (w_db w) → p d = true →
     dispatch_update_abort ss (w_db w) d (f d) = None) →
  update_dispatches ss p f w =
    (with_db (λ db, set_dispatches (update_where p f (db_dispatches db)) db) w,
     Ok (count_where p (db_dispatches (w_db w)))).
Proof. intros Hg. unfold update_dispatches. by rewrite (proj2 (first_abort_None _ _ _ _) Hg). Qed.

Lemma update_messages_ok p f w w' n :
  update_messages p f w = (w', Ok n) →
  w' = with_db (λ db, set_messages (update_where p f (db_messages db)) db) w ∧
  n = count_where p (db_messages (w_db w)).
Proof. unfold update_messages. naive_solver. Qed.

Lemma update_gates_ok p f w w' n :
  update_gates p f w = (w', Ok n) →
  w' = with_db (λ db, set_gates (update_where p f (db_gates db)) db) w ∧
  n = count_where p (db_gates (w_db w)).
Proof. unfold update_gates. naive_solver. Qed.

Lemma update_runs_ok p f w w' n :
  update_runs p f w = (w', Ok n) →
  w' = with_db (set_runs (update_where p f (db_runs (w_db w)))) w ∧
  n = count_where p (db_runs (w_db w)) ∧
  workspace_slots_unique (update_where p f (db_runs (w_db w))) = true.
Proof. unfold update_runs. case_match; naive_solver. Qed.

Lemma update_launches_ok p f w w' n :
  update_launches p f w = (w', Ok n) →
  w' = with_db (λ db, set_launches (update_where p f (db_launches db)) db) w ∧
  n = count_where p (db_launches (w_db w)).
Proof. unfold update_launches. naive_solver. Qed.

(** ** Inserts *)

Lemma insert_task_ok t w w' u :
  insert_task t w = (w', Ok u) →
  w' = with_db (set_tasks (db_tasks (w_db w) ++ [t])) w ∧
  (t_id t ∉ (t_id <$> db_tasks (w_db w))) ∧
  (t_plan_revision t = None → run_isolated (w_db w) (t_run_id t) = false).
Proof.
  unfold insert_task. destruct (bool_decide (t_plan_revision t = None) && _) eqn:E; [done|].
  destruct (bool_decide (t_id t ∈ _)) eqn:Ek; [done|]. apply bool_decide_eq_false in Ek.
  intros [= <- _]. split_and!; [done|done|]. intros Hp. rewrite Hp in E. cbn in E. by destruct (run_isolated _ _).
Qed.

Lemma insert_dispatch_ok d w w' u :
  insert_dispatch d w = (w', Ok u) →
  w' = with_db (set_dispatches (db_dispatches (w_db w) ++ [d])) w ∧
  d_id d ∉ (d_id <$> db_dispatches (w_db w)).
Proof. unfold insert_dispatch. do 3 (case_match; [done|]). intros [= <- _]. by split_bools. Qed.

Lemma insert_message_ok row w w' u :
  insert_message row w = (w', Ok u) →
  w' = with_db (λ db, set_message_sequence (db_message_sequence (w_db w) + 1)
                        (set_messages
                           (db_messages db ++ [row (db_message_sequence (w_db w) + 1)%Z]) db)) w ∧
  m_id (row (db_message_sequence (w_db w) + 1)%Z) ∉ (m_id <$> db_messages (w_db w)).
Proof. unfold insert_message. case_bool_decide; [done|]. intros [= <- _]. done. Qed.

Lemma insert_gate_ok g w w' u :
  insert_gate g w = (w', Ok u) →
  w' = with_db (set_gates (db_gates (w_db w) ++ [g])) w ∧
  g_id g ∉ (g_id <$> db_gates (w_db w)).
Proof.
  unfold insert_gate. destruct (negb _); [done|].
  destruct (bool_decide (g_id g ∈ _)) eqn:E; [done|]. intros [= <- _]. by split_bools.
Qed.

Lemma insert_run_ok r w w' u :
  insert_run r w = (w', Ok u) →
  w' = with_db (set_runs (db_runs (w_db w) ++ [r])) w ∧
  (r_id r ∉ (r_id <$> db_runs (w_db w))) ∧
  workspace_slots_unique (db_runs (w_db w) ++ [r]) = true.
Proof.
  unfold insert_run. do 2 (case_match; [done|]). case_match; [|done]. intros [= <- _].
  by split_bools.
Qed.

(** ** The timeline *)

Lemma insert_event_frame row w w' r : insert_event row w = (w', r) → events_only w w'.
Proof.
  unfold insert_event. destruct (negb _ || negb _); [intros [= <- _]; reflexivity|].
  destruct (bool_decide _); intros [= <- _]; [reflexivity|]. eexists [_], _. reflexivity.
Qed.

Lemma orchestration_id_frame prefix w w' r :
  orchestration_id prefix w = (w', r) → w_db w' = w_db w.
Proof. unfold orchestration_id. naive_solver. Qed.

Lemma same_db_events_only w w' : w_db w' = w_db w → events_only w w'.
Proof.
  intros Hdb. destruct (events_only_refl w) as (evs & seq & Heq). exists evs, seq. congruence.
Qed.

Lemma record_run_event_frame ev w w' r : record_run_event ev w = (w', r) → events_only w w'.
Proof.
  unfold record_run_event, bind. destruct (orchestration_id "evt" w) as [w1 [id|e]] eqn:E1.
  - apply orchestration_id_frame, same_db_events_only in E1.
    destruct (insert_event _ w1) as [w2 [u|e]] eqn:E2; apply insert_event_frame in E2;
      intros [= <- _]; by etrans.
  - apply orchestration_id_frame in E1. intros [= <- _]. by apply same_db_events_only.
Qed.

(** The row a new event is stored as. *)
Definition event_row (event : NewRunEvent) (id : string) (sequence : Z) : RunEvent :=
  MkRunEvent sequence id (ne_run_id event) (ne_task_id event) (ne_dispatch_id event)
    (ne_gate_id event) (ne_kind event) (ne_actor_kind event) (ne_actor_id event)
    (truncate_to_boundary (ne_summary event) RUN_EVENT_SUMMARY_MAX_BYTES)
    (event_payload (ne_payload event)) now.

(** [{"truncated":true}] itself fits in a payload. *)
Definition marker_fits : Prop :=
  String.length (json_encode truncated_marker) ≤ RUN_EVENT_PAYLOAD_MAX_BYTES.

Lemma event_payload_fits payload text :
  marker_fits → event_payload payload = Some text → String.length text ≤ RUN_EVENT_PAYLOAD_MAX_BYTES.
Proof.
  intros Hm. unfold event_payload. destruct payload as [p|]; cbn [mbind option_bind]; [|done].
  destruct (Nat.ltb_spec RUN_EVENT_PAYLOAD_MAX_BYTES (String.length (json_encode p)));
    intros [= <-]; done.
Qed.

Lemma record_run_event_success event w :
  marker_fits → id_of "evt" (w_rng w) ∉ (e_id <$> db_events (w_db w)) →
  record_run_event event w =
    (MkWorld (set_event_sequence (db_event_sequence (w_db w) + 1)
       (set_events (db_events (w_db w) ++
          [event_row event (id_of "evt" (w_rng w)) (db_event_sequence (w_db w) + 1)]) (w_db w)))
       (S (w_rng w)), Ok (id_of "evt" (w_rng w))).
Proof.
  intros Hm Hid. unfold record_run_event, orchestration_id, bind at 1. cbn [fst snd].
  unfold insert_event, bind. cbn [w_db w_rng e_summary e_payload e_id].
  pose proof (truncate_to_boundary_length (ne_summary event) RUN_EVENT_SUMMARY_MAX_BYTES) as Hs.
  rewrite (proj2 (Nat.leb_le _ _) Hs). cbn [negb orb].
  assert (match event_payload (ne_payload event) with
          | Some p => String.length p <=? RUN_EVENT_PAYLOAD_MAX_BYTES | None => true end = true) as ->.
  { destruct (event_payload (ne_payload event)) eqn:E; [|done].
    apply Nat.leb_le. by eapply event_payload_fits. }
  cbn [negb]. by rewrite bool_decide_false.
Qed.

Lemma record_dispatch_run_event_frame id k s p w w' r :
  record_dispatch_run_event id k s p w = (w', r) → events_only w w'.
Proof.
  unfold record_dispatch_run_event, select, gets, bind at 1. cbn.
  repeat case_match; subst; try (intros [= <- _]; reflexivity);
    unfold bind; destruct (record_run_event _ w) as [w1 [u|e]] eqn:E;
    apply record_run_event_frame in E; by intros [= <- _].
Qed.

Lemma record_task_run_event_frame id k s p w w' r :
  record_task_run_event id k s p w = (w', r) → events_only w w'.
Proof.
  unfold record_task_run_event, select, gets, bind at 1. cbn.
  case_match; [|intros [= <- _]; reflexivity].
  unfold bind; destruct (record_run_event _ w) as [w1 [u|e]] eqn:E;
    apply record_run_event_frame in E; by intros [= <- _].
Qed.

Lemma if_events_only (b : bool) (m : SM unit) w w' r :
  (∀ w w' r, m w = (w', r) → events_only w w') →
  (if b then m else ret tt) w = (w', r) → events_only w w'.
Proof. intros Hm. destruct b; [by apply Hm|]. intros [= <- _]. reflexivity. Qed.

Lemma insert_audit_frame actor action target reason w w' r :
  insert_orchestration_audit_event actor action target reason w = (w', r) →
  ∃ audits, w_db w' = set_audits audits (w_db w).
Proof.
  unfold insert_orchestration_audit_event, bind, orchestration_id. cbn.
  case_bool_decide; intros [= <- _]; cbn; [|by eexists].
  exists (db_audits (w_db w)). by destruct (w_db w).
Qed.

(** The next [n] identifiers drawn are not those of stored events. *)
Definition events_fresh (w : World) (n : nat) : Prop :=
  NoDup ((e_id <$> db_events (w_db w)) ++ (id_of "evt" <$> seq (w_rng w) n)).

Lemma events_fresh_head w n :
  events_fresh w (S n) → id_of "evt" (w_rng w) ∉ (e_id <$> db_events (w_db w)).
Proof.
  unfold events_fresh. cbn. intros (_ & Hd & _)%NoDup_app Hin. apply (Hd _ Hin). left.
Qed.

Lemma events_fresh_less w n : events_fresh w (S n) → events_fresh w n.
Proof.
  unfold events_fresh. rewrite seq_S, fmap_app, (assoc_L (++)). by intros (? & _)%NoDup_app.
Qed.

Lemma events_fresh_le w n m : m ≤ n → events_fresh w n → events_fresh w m.
Proof. induction 1; [done|]. intros Hf. by apply IHle, events_fresh_less. Qed.

(** A timeline write with a fresh identifier succeeds and leaves the rest fresh. *)
Lemma record_run_event_fresh event w n :
  marker_fits → events_fresh w (S n) →
  ∃ w' id, record_run_event event w = (w', Ok id) ∧ events_only w w' ∧ events_fresh w' n.
Proof.
  intros Hm Hf. pose proof (record_run_event_success event w Hm (events_fresh_head w n Hf)) as Hr.
  eexists _, _. split_and!; [exact Hr|by eapply record_run_event_frame|].
  unfold events_fresh in *. cbn in *. rewrite fmap_app. cbn. by rewrite <-(assoc_L (++)).
Qed.

Lemma record_task_run_event_fresh id k s p w n :
  marker_fits → events_fresh w (S n) →
  ∃ w', record_task_run_event id k s p w = (w', Ok tt) ∧ events_only w w' ∧ events_fresh w' n.
Proof.
  intros Hm Hf. unfold record_task_run_event. rewrite bind_select.
  destruct (find_where _ _ ≫= t_run_id) as [run_id|].
  - match goal with |- context [record_run_event ?ev] =>
      destruct (record_run_event_fresh ev w n Hm Hf) as (w' & i & Hr & He & Hf') end.
    exists w'. by rewrite (bind_ok _ _ _ _ _ Hr).
  - exists w. split_and!; [done|reflexivity|by apply events_fresh_less].
Qed.

Lemma record_dispatch_run_event_fresh id k s p w n :
  marker_fits → events_fresh w (S n) →
  ∃ w', record_dispatch_run_event id k s p w = (w', Ok tt) ∧ events_only w w' ∧ events_fresh w' n.
Proof.
  intros Hm Hf. unfold record_dispatch_run_event. rewrite bind_select.
  destruct (find_where _ _) as [d|]; [destruct (d_run_id d) as [run_id|]|].
  - cbn zeta. match goal with |- context [record_run_event ?ev] =>
      destruct (record_run_event_fresh ev w n Hm Hf) as (w' & i & Hr & He & Hf') end.
    exists w'. by rewrite (bind_ok _ _ _ _ _ Hr).
  - exists w. split_and!; [done|reflexivity|by apply events_fresh_less].
  - exists w. split_and!; [done|reflexivity|by apply events_fresh_less].
Qed.

(** A timeline write never rejects the mutation it describes for its size:
    with a fresh identifier it succeeds for every summary and payload, appends
    exactly one event to the run's timeline, after the earlier ones, numbered
    by the next sequence number, with the summary cut to 512 bytes and the
    payload to 8192. *)
Theorem run_event_recorded (event : NewRunEvent) (w : World) :
  marker_fits → id_of "evt" (w_rng w) ∉ (e_id <$> db_events (w_db w)) →
  ∃ w' e, record_run_event event w = (w', Ok (e_id e)) ∧
    db_events (w_db w') = db_events (w_db w) ++ [e] ∧
    e_sequence e = (db_event_sequence (w_db w) + 1)%Z ∧
    e_run_id e = ne_run_id event ∧ e_kind e = ne_kind event ∧
    String.length (e_summary e) ≤ 512 ∧
    (∀ text, e_payload e = Some text → String.length text ≤ 8192) ∧
    events_only w w' ∧
    (length (List.filter (λ x, String.eqb (e_run_id x) (ne_run_id event)) (db_events (w_db w))) < 1000 →
     (run_events (ne_run_id event) 1000 w').2 =
       Ok (List.filter (λ x, String.eqb (e_run_id x) (ne_run_id event)) (db_events (w_db w)) ++ [e])).
Proof.
  intros Hm Hid. pose proof (record_run_event_success event w Hm Hid) as Hrec.
  pose proof (record_run_event_frame _ _ _ _ Hrec) as Hframe.
  eexists _, (event_row event (id_of "evt" (w_rng w)) (db_event_sequence (w_db w) + 1)).
  split; [exact Hrec|]. split_and!; try done.
  - apply truncate_to_boundary_length.
  - intros text Ht. exact (event_payload_fits _ _ Hm Ht).
  - intros Hlen. unfold run_events, select, gets. cbn [snd w_db db_events set_event_sequence set_events].
    rewrite List.filter_app. cbn [List.filter event_row e_run_id]. rewrite String.eqb_refl.
    f_equal. apply take_ge. rewrite length_app. cbn [length].
    change (Z.to_nat (Z.max 1 (Z.min 1000 1000))) with 1000. lia.
Qed.
End Primitives.

(** ** Relating the database before and after

    [respects R m]: whatever [m] returns, the database it leaves is related by
    [R] to the one it found. *)

Definition respects (R : Db → Db → Prop) {A} (m : SM A) : Prop :=
  ∀ w w' r, m w = (w', r) → R (w_db w) (w_db w').

Section Respects.
Context `{Env} (R : Db → Db → Prop) `{!Reflexive R, !Transitive R}.

Lemma respects_ret {A} (a : A) : respects R (ret a).
Proof. intros w w' r [= <- _]. reflexivity. Qed.
Lemma respects_fail {A} e : respects R (fail (A:=A) e).
Proof. intros w w' r [= <- _]. reflexivity. Qed.
Lemma respects_bail {A} msg : respects R (bail (A:=A) msg).
Proof. intros w w' r [= <- _]. reflexivity. Qed.
Lemma respects_select {A} (q : Db → A) : respects R (select q).
Proof. intros w w' r [= <- _]. reflexivity. Qed.
Lemma respects_get_db : respects R get_db.
Proof. intros w w' r [= <- _]. reflexivity. Qed.
Lemma respects_id prefix : respects R (orchestration_id prefix).
Proof. intros w w' r [= <- _]. reflexivity. Qed.

Lemma respects_bind {A B} (m : SM A) (k : A → SM B) :
  respects R m → (∀ a, respects R (k a)) → respects R (bind m k).
Proof.
  intros Hm Hk w w' r. unfold bind. destruct (m w) as [w1 [a|e]] eqn:E; apply Hm in E.
  - intros Hr%Hk. by etrans.
  - by intros [= <- _].
Qed.

Lemma respects_tx {A} (m : SM A) : respects R m → respects R (tx m).
Proof.
  intros Hm w w' r. unfold tx. destruct (m w) as [w1 [a|e]] eqn:E; apply Hm in E.
  - by intros [= <- _].
  - intros [= <- _]. reflexivity.
Qed.

Lemma respects_catch {A} (m : SM A) (h : string → SM A) :
  respects R m → (∀ msg, respects R (h msg)) → respects R (catch_database m h).
Proof.
  intros Hm Hh w w' r. unfold catch_database. destruct (m w) as [w1 [a|[msg|msg]]] eqn:E.
  - intros [= <- _]. by eapply Hm.
  - intros [= <- _]. by eapply Hm.
  - intros Hr%Hh. done.
Qed.

Lemma respects_mapM {A} (f : A → SM unit) l :
  (∀ a, respects R (f a)) → respects R (mapM_ f l).
Proof.
  intros Hf. induction l as [|a l IH]; cbn; [apply respects_ret|]. by apply respects_bind.
Qed.

Lemma respects_if {A} (b : bool) (m1 m2 : SM A) :
  respects R m1 → respects R m2 → respects R (if b then m1 else m2).
Proof. by destruct b. Qed.

Lemma respects_option {A B} (o : option B) (m1 : B → SM A) (m2 : SM A) :
  (∀ b, respects R (m1 b)) → respects R m2 →
  respects R (match o with Some b => m1 b | None => m2 end).
Proof. by destruct o. Qed.
End Respects.

(** Replace every successful primitive among the hypotheses by the equation of
    the state it leaves, and every timeline write by its frame. *)
Ltac store_inv :=
  repeat match goal with
  | Hs : tx _ _ = (_, Ok _) |- _ => apply (proj1 (tx_ok _ _ _ _)) in Hs
  | Hs : update_tasks _ _ _ _ = (_, Ok _) |- _ => apply update_tasks_ok in Hs as [? ?]; subst
  | Hs : update_dispatches _ _ _ _ = (_, Ok _) |- _ =>
      apply update_dispatches_ok in Hs as [? ?]; subst
  | Hs : update_messages _ _ _ = (_, Ok _) |- _ => apply update_messages_ok in Hs as [? ?]; subst
  | Hs : update_gates _ _ _ = (_, Ok _) |- _ => apply update_gates_ok in Hs as [? ?]; subst
  | Hs : update_runs _ _ _ = (_, Ok _) |- _ => apply update_runs_ok in Hs as (? & ? & ?); subst
  | Hs : update_launches _ _ _ = (_, Ok _) |- _ =>
      apply update_launches_ok in Hs as [? ?]; subst
  | Hs : insert_task _ _ = (_, Ok _) |- _ => apply insert_task_ok in Hs as (? & ? & ?); subst
  | Hs : insert_dispatch _ _ = (_, Ok _) |- _ => apply insert_dispatch_ok in Hs as [? ?]; subst
  | Hs : insert_message _ _ = (_, Ok _) |- _ => apply insert_message_ok in Hs as [? ?]; subst
  | Hs : insert_gate _ _ = (_, Ok _) |- _ => apply insert_gate_ok in Hs as [? ?]; subst
  | Hs : insert_run _ _ = (_, Ok _) |- _ => apply insert_run_ok in Hs as (? & ? & ?); subst
  | Hs : orchestration_id _ _ = (_, _) |- _ => unfold orchestration_id in Hs; simplify_eq
  | Hs : record_run_event _ _ = (_, _) |- _ => apply record_run_event_frame in Hs
  | Hs : record_dispatch_run_event _ _ _ _ _ = (_, _) |- _ =>
      apply record_dispatch_run_event_frame in Hs
  | Hs : record_task_run_event _ _ _ _ _ = (_, _) |- _ => apply record_task_run_event_frame in Hs
  | Hs : (if _ then record_dispatch_run_event _ _ _ _ else ret tt) _ = (_, _) |- _ =>
      apply if_events_only in Hs; [|apply record_dispatch_run_event_frame]
  | Hs : (if _ then record_task_run_event _ _ _ _ else ret tt) _ = (_, _) |- _ =>
      apply if_events_only in Hs; [|apply record_task_run_event_frame]
  | Hs : insert_orchestration_audit_event _ _ _ _ _ = (_, _) |- _ =>
      apply insert_audit_frame in Hs as [? ?]
  | Hs : select _ _ = _ |- _ => unfold select, gets in Hs; simplify_eq
  | Hs : get_db _ = _ |- _ => unfold get_db, gets in Hs; simplify_eq
  end.

(** Carry table equations across timeline writes. *)
Ltac frame_cbn :=
  cbn [w_db w_rng with_db db_tasks db_dispatches db_messages db_gates db_runs db_events db_audits
       db_launches db_workspaces db_message_sequence db_event_sequence
       set_tasks set_dispatches set_messages set_gates set_runs set_launches
       set_workspaces set_message_sequence set_event_sequence set_events set_audits].

Ltac frame_rewrite :=
  frame_cbn;
  repeat (match goal with
  | Hev : events_only _ ?w |- context [db_tasks (w_db ?w)] => rewrite (events_only_tasks _ _ Hev)
  | Hev : events_only _ ?w |- context [db_dispatches (w_db ?w)] =>
      rewrite (events_only_dispatches _ _ Hev)
  | Hev : events_only _ ?w |- context [db_messages (w_db ?w)] =>
      rewrite (events_only_messages _ _ Hev)
  | Hev : events_only _ ?w |- context [db_gates (w_db ?w)] => rewrite (events_only_gates _ _ Hev)
  | Hev : events_only _ ?w |- context [db_runs (w_db ?w)] => rewrite (events_only_runs _ _ Hev)
  | Hev : events_only _ ?w |- context [db_launches (w_db ?w)] =>
      rewrite (events_only_launches _ _ Hev)
  | Haud : w_db ?w = set_audits _ _ |- context [w_db ?w] => rewrite Haud
  end; frame_cbn).
