(* ===== verification/RoleContract.v ===== *)
(** * RoleContract: versioned role contracts of orchestration tasks

    orchestration_contract_schema.rs (bounded JSON and the schema subset),
    orchestration_role_contract.rs (contract and snapshot validation) and
    orchestration_contract_result.rs (what a contracted completion must
    show).  The traversals keep an explicit stack of pending values and count
    the nodes they visit; the count bounds them, so they carry that many units
    of fuel and [None] (out of fuel) never happens.

    The JSON parser, the JSON Schema compiler, SHA-256 and the Unicode case
    tables are parameters ([ContractLib]). *)

From S2P Require Import Prelude Text Models Store.
From Stdlib Require Import ZArith Lia Ascii String.
From stdpp Require Import strings prelude.

(** ** Contracts *)

Record RoleContractChecklistItem : Type := MkChecklistItem {
  ci_id : string;
  ci_description : string
}.

Record RoleContractV1 : Type := MkRoleContract {
  rc_version : Z;
  rc_id : string;
  rc_revision : Z;
  rc_name : string;
  rc_purpose : string;
  rc_instructions : string;
  rc_input_schema : json;
  rc_result_schema : json;
  rc_required_artifacts : list string;
  rc_checklist : list RoleContractChecklistItem
}.

Record RoleContractSnapshot : Type := MkSnapshot {
  sn_version : Z;
  sn_contract : RoleContractV1;
  sn_inputs : json;
  sn_digest : string
}.

(** What the contract code takes from its libraries. *)
Class ContractLib : Type := {
  json_decode : string → option json;                 (** [serde_json::from_str::<Value>] *)
  snapshot_decode : string → option RoleContractSnapshot;  (** derived [Deserialize] *)
  snapshot_encode : RoleContractSnapshot → string;    (** derived [Serialize] *)
  contract_value : RoleContractV1 → json;             (** [serde_json::to_value] *)
  schema_builds : json → bool;                        (** [jsonschema::options().build] succeeds *)
  schema_error : json → json → option string;         (** path of the first validation error *)
  content_hash : Z → RoleContractV1 → json → string;  (** hex SHA-256 of the sorted content *)
  to_lowercase : string → string                      (** [str::to_lowercase] *)
}.

Definition R (A : Type) : Type := Result A.
Definition ensure (b : bool) (msg : string) : R unit := if b then Ok tt else Err (Bail msg).
Definition with_context {A} (o : option A) (msg : string) : R A :=
  match o with Some a => Ok a | None => Err (Bail msg) end.

Fixpoint rmap_ {A} (f : A → R unit) (l : list A) : R unit :=
  match l with
  | [] => Ok tt
  | x :: l => try! _ := f x in rmap_ f l
  end.

(** A loop that inserts a key per element into a [HashSet] and fails with
    [msg] on a repetition; the elements are first run through [f]. *)
Fixpoint rdistinct {A} (f : A → R string) (msg : string → string) (seen : list string)
    (l : list A) : R (list string) :=
  match l with
  | [] => Ok seen
  | x :: l =>
      try! key := f x in
      if bool_decide (key ∈ seen) then Err (Bail (msg key))
      else rdistinct f msg (key :: seen) l
  end.

Definition CONTRACT_MAX_BYTES : Z := 64 * 1024.
Definition INSTANCE_MAX_BYTES : Z := 256 * 1024.
Definition MAX_WORKFLOW_ARTIFACTS : Z := 128.

Definition zlen (s : string) : Z := Z.of_nat (String.length s).

(** ** Bounded JSON *)

(** The bytes one value contributes and the values it leaves pending. *)
Definition json_cost (v : json) : Z :=
  match v with
  | JObject fields => (foldr (λ kv acc, zlen (fst kv) + 4 + acc) 0 fields + 2)%Z
  | JArray l => (Z.of_nat (length l) + 2)%Z
  | JString s => (zlen s + 2)%Z
  | _ => 8%Z
  end.
Definition json_children (v : json) : list json :=
  match v with
  | JObject fields => snd <$> fields
  | JArray l => l
  | _ => []
  end.

Fixpoint bounded_loop (fuel : nat) (max_bytes nodes bytes : Z) (pending : list (json * Z))
    : option (R unit) :=
  match pending with
  | [] => Some (Ok tt)
  | (value, depth) :: pending =>
      match fuel with
      | 0%nat => None
      | S fuel =>
          let nodes := (nodes + 1)%Z in
          if (4096 <? nodes)%Z || (24 <? depth)%Z
          then Some (Err (Bail "contract JSON exceeds the node or depth limit"))
          else
            let bytes := (bytes + json_cost value)%Z in
            if (max_bytes <? bytes)%Z
            then Some (Err (Bail "contract JSON exceeds the size limit"))
            else bounded_loop fuel max_bytes nodes bytes
                   (reverse ((λ v, (v, depth + 1)%Z) <$> json_children value) ++ pending)
      end
  end.

(** Taking a successful check apart. *)

Lemma ensure_ok b msg : ensure b msg = Ok tt ↔ b = true.
Proof. destruct b; naive_solver. Qed.

Lemma ensure_ok_inv b msg u : ensure b msg = Ok u → b = true.
Proof. destruct b; naive_solver. Qed.

Lemma with_context_ok {A} (o : option A) msg a : with_context o msg = Ok a ↔ o = Some a.
Proof. destruct o; naive_solver. Qed.

Lemma rmap_ok_inv {A} (f : A → R unit) l u :
  rmap_ f l = Ok u → ∀ x, x ∈ l → f x = Ok tt.
Proof.
  revert u. induction l as [|y l IH]; cbn; intros u Hr x Hx; [by apply not_elem_of_nil in Hx|].
  apply rbind_ok_inv in Hr as ([] & Hy & Hl).
  apply elem_of_cons in Hx as [->|Hx]; [done|]. by eapply IH.
Qed.

Lemma rdistinct_ok_inv {A} (f : A → R string) msg seen (l : list A) keys :
  rdistinct f msg seen l = Ok keys →
  (∀ k, k ∈ keys ↔ k ∈ seen ∨ ∃ x, x ∈ l ∧ f x = Ok k) ∧ (NoDup seen → NoDup keys).
Proof.
  revert seen. induction l as [|y l IH]; cbn; intros seen Hr.
  - simplify_eq. split; [|done]. intros k. split; [auto|].
    intros [?|(x & Hx & _)]; [done|]. by apply not_elem_of_nil in Hx.
  - apply rbind_ok_inv in Hr as (key & Hk & Hr). case_bool_decide; [done|].
    apply IH in Hr as [Hkeys Hnd]. split.
    + intros k. rewrite Hkeys, elem_of_cons. setoid_rewrite elem_of_cons. split.
      * intros [[->|?]|(x & Hx & Hf)]; eauto.
      * intros [?|(x & [->|Hx] & Hf)]; [auto| |eauto]. left. left. congruence.
    + intros Hs. apply Hnd. by constructor.
Qed.

Ltac inv_r H :=
  repeat lazymatch type of H with
  | rbind _ _ = Ok _ =>
      let a := fresh "a" in let H1 := fresh "Hr" in
      apply rbind_ok_inv in H; destruct H as (a & H1 & H); cbn beta in H
  | with_context _ _ = Ok _ => apply with_context_ok in H
  | ensure _ _ = Ok _ => apply ensure_ok_inv in H
  end.

Section Contracts.
Context `{Env, ContractLib}.

Definition bounded_json (value : json) (max_bytes : Z) : R unit :=
  try! _ := default (Err (Bail "out of fuel")) (bounded_loop 4097 max_bytes 0 0 [(value, 0%Z)]) in
  ensure (zlen (json_encode value) <=? max_bytes)%Z "contract JSON exceeds the size limit".

(** ** The schema subset *)

Definition schema_keywords (kind : string) : option (list string) :=
  if String.eqb kind "object"
  then Some ["properties"; "required"; "additionalProperties"; "minProperties"; "maxProperties"]
  else if String.eqb kind "array" then Some ["items"; "minItems"; "maxItems"]
  else if String.eqb kind "string" then Some ["minLength"; "maxLength"]
  else if String.eqb kind "integer" || String.eqb kind "number"
  then Some ["minimum"; "maximum"; "exclusiveMinimum"; "exclusiveMaximum"]
  else if String.eqb kind "boolean" || String.eqb kind "null" then Some []
  else None.

Definition common_keywords : list string := ["type"; "title"; "description"; "enum"; "const"].

(** One schema node: its checks, and the schemas it leaves pending in push order. *)
Definition schema_node (schema : json) : R (list json) :=
  try! object := with_context (as_object schema) "contract schema must be an object" in
  try! kind := with_context (json_get "type" schema ≫= as_str)
    "every contract schema must declare one type" in
  try! keywords := with_context (schema_keywords kind) "unsupported contract schema type" in
  try! _ := rmap_ (λ kv, ensure
      (bool_decide (fst kv ∈ common_keywords) || bool_decide (fst kv ∈ keywords))
      "unsupported contract schema keyword") object in
  try! properties :=
    (if String.eqb kind "object" then
       try! properties :=
         match json_get "properties" schema with
         | Some p => try! fields := with_context (as_object p) "properties must be an object" in
                     Ok (snd <$> fields)
         | None => Ok []
         end in
       try! _ :=
         match json_get "required" schema with
         | Some req =>
             try! names := with_context (as_array req) "required must be an array" in
             rmap_ (λ name,
               try! name := with_context (as_str name) "required must contain property names" in
               ensure (bool_decide (is_Some (json_get "properties" schema ≫= json_get name)))
                 "required property has no definition") names
         | None => Ok tt
         end in
       try! _ := ensure
         (match json_get "additionalProperties" schema with
          | Some (JBool _) | None => true
          | Some _ => false
          end) "additionalProperties must be a boolean" in
       Ok properties
     else Ok []) in
  if String.eqb kind "array" then
    try! items := with_context (json_get "items" schema) "array schema requires items" in
    Ok (properties ++ [items])
  else Ok properties.

Fixpoint schema_loop (fuel : nat) (nodes : Z) (pending : list (json * Z)) : option (R unit) :=
  match pending with
  | [] => Some (Ok tt)
  | (schema, depth) :: pending =>
      match fuel with
      | 0%nat => None
      | S fuel =>
          let nodes := (nodes + 1)%Z in
          if (128 <? nodes)%Z || (12 <? depth)%Z
          then Some (Err (Bail "contract schema exceeds the node or depth limit"))
          else
            match schema_node schema with
            | Err e => Some (Err e)
            | Ok children =>
                schema_loop fuel nodes (reverse ((λ v, (v, depth + 1)%Z) <$> children) ++ pending)
            end
      end
  end.

Definition compile_schema (schema : json) : R unit :=
  try! _ := bounded_json schema CONTRACT_MAX_BYTES in
  try! _ := ensure (bool_decide ((json_get "type" schema ≫= as_str) = Some "object"))
    "contract schema root must have type object" in
  try! _ := default (Err (Bail "out of fuel")) (schema_loop 129 0 [(schema, 0%Z)]) in
  ensure (schema_builds schema) "invalid contract schema: a keyword value is invalid".

Definition validate_instance (schema instance : json) (label : string) : R unit :=
  try! _ := bounded_json instance INSTANCE_MAX_BYTES in
  try! _ := compile_schema schema in
  match schema_error schema instance with
  | Some path => Err (Bail ("contract " +:+ label +:+ " failed validation at " +:+ path))
  | None => Ok tt
  end.

(** ** Identifiers and artifact paths *)

Definition is_ascii_alphanumeric (c : ascii) : bool :=
  let n := byte_val c in
  (((48 <=? n) && (n <=? 57)) || ((65 <=? n) && (n <=? 90)) || ((97 <=? n) && (n <=? 122)))%N%bool.

Fixpoint all_bytes (p : ascii → bool) (s : string) : bool :=
  match s with
  | EmptyString => true
  | String c s' => p c && all_bytes p s'
  end.

Definition portable_id (id : string) : R unit :=
  ensure (negb (String.eqb id "" || String.eqb id "." || String.eqb id ".."
                || (80 <? zlen id)%Z
                || negb (all_bytes (λ c, is_ascii_alphanumeric c || Ascii.eqb c "-"
                                         || Ascii.eqb c "_" || Ascii.eqb c ".") id)))
    "contract identifiers must be 1-80 ASCII letters, digits, dots, hyphens or underscores".

(** [char::is_control] on the encoding of one character (Unicode category Cc). *)
Definition is_control (c : string) : bool :=
  match c with
  | String b EmptyString => (byte_val b <? 32)%N || (byte_val b =? 127)%N
  | String b1 (String b2 EmptyString) => (byte_val b1 =? 194)%N && (byte_val b2 <? 160)%N
  | _ => false
  end.

(** The characters of [\ : * ? QUOTE < > |]. *)
Definition forbidden_path_chars : list string :=
  byte_str <$> [[92]; [58]; [42]; [63]; [34]; [60]; [62]; [124]]%N.

Definition reserved_stems : list string :=
  ["CON"; "PRN"; "AUX"; "NUL"; "COM1"; "COM2"; "COM3"; "COM4"; "COM5"; "COM6"; "COM7"; "COM8";
   "COM9"; "LPT1"; "LPT2"; "LPT3"; "LPT4"; "LPT5"; "LPT6"; "LPT7"; "LPT8"; "LPT9";
   "COM¹"; "COM²"; "COM³"; "LPT¹"; "LPT²"; "LPT³"].

Fixpoint last_byte (s : string) : option ascii :=
  match s with
  | EmptyString => None
  | String c EmptyString => Some c
  | String _ s' => last_byte s'
  end.

Definition unsafe_component (part : string) : bool :=
  let stem := to_ascii_uppercase (default "" (head (split_on "." part))) in
  String.eqb part "" || (255 <? zlen part)%Z || String.eqb part "." || String.eqb part ".."
  || bool_decide (last_byte part = Some "."%char) || bool_decide (last_byte part = Some " "%char)
  || eq_ignore_ascii_case part ".git" || bool_decide (stem ∈ reserved_stems).

Definition artifact_path (path : string) : R unit :=
  try! _ := ensure (negb (String.eqb path "" || (512 <? zlen path)%Z
      || existsb (λ c, is_control c || bool_decide (c ∈ forbidden_path_chars)) (chars path)))
    "contract artifact must be a portable workspace-relative file path" in
  rmap_ (λ part, ensure (negb (unsafe_component part))
    "contract artifact path contains an unsafe component") (split_on "/" path).

(** ** Contracts and snapshots *)

Definition is_blank (s : string) : bool := String.eqb (trim s) "".
Definition has_nul (s : string) : bool := negb (all_bytes (λ c, negb (Ascii.eqb c "000")) s).

Definition contract_text (label text : string) (max : Z) : R unit :=
  ensure (negb (is_blank text || (max <? zlen text)%Z || has_nul text))
    ("contract " +:+ label +:+ " is empty, too long or contains NUL").

Definition contract_validate (c : RoleContractV1) : R unit :=
  try! _ := ensure (negb (negb (rc_version c =? 1)%Z || (rc_revision c =? 0)%Z))
    "role contract requires version 1 and a positive revision" in
  try! _ := portable_id (rc_id c) in
  try! _ := contract_text "name" (rc_name c) 160 in
  try! _ := contract_text "purpose" (rc_purpose c) 4096 in
  try! _ := contract_text "instructions" (rc_instructions c) 16384 in
  try! _ := bounded_json (contract_value c) CONTRACT_MAX_BYTES in
  try! _ := compile_schema (rc_input_schema c) in
  try! _ := compile_schema (rc_result_schema c) in
  try! _ := ensure (negb (Nat.ltb 64 (length (rc_required_artifacts c))
                          || Nat.ltb 64 (length (rc_checklist c))))
    "contract allows at most 64 required artifacts and checklist items" in
  try! _ := rdistinct (λ path, try! _ := artifact_path path in Ok (to_lowercase path))
    (λ _, "duplicate contract artifact path") [] (rc_required_artifacts c) in
  try! _ := rdistinct (λ item,
      try! _ := portable_id (ci_id item) in
      try! _ := ensure (negb (is_blank (ci_description item)
                              || (2048 <? zlen (ci_description item))%Z))
        "contract checklist description is empty or too long" in
      Ok (ci_id item))
    (λ id, "duplicate contract checklist id: " +:+ id) [] (rc_checklist c) in
  Ok tt.

Definition content_digest (s : RoleContractSnapshot) : R string :=
  try! _ := bounded_json (sn_inputs s) INSTANCE_MAX_BYTES in
  Ok (content_hash (sn_version s) (sn_contract s) (sn_inputs s)).

Definition freeze (contract : RoleContractV1) (inputs : json) : R RoleContractSnapshot :=
  try! _ := contract_validate contract in
  try! _ := validate_instance (rc_input_schema contract) inputs "inputs" in
  let snapshot := MkSnapshot 1 contract inputs "" in
  try! digest := content_digest snapshot in
  Ok (MkSnapshot 1 contract inputs digest).

Definition snapshot_validate (s : RoleContractSnapshot) : R unit :=
  try! _ := ensure (sn_version s =? 1)%Z "unsupported role contract snapshot version" in
  try! _ := contract_validate (sn_contract s) in
  try! _ := validate_instance (rc_input_schema (sn_contract s)) (sn_inputs s) "inputs" in
  try! digest := content_digest s in
  ensure (String.eqb (sn_digest s) digest)
    "role contract snapshot digest does not match its contents".

(** ** What a successful completion must show *)

Definition result_entry (entry : json) : R string :=
  try! id := with_context (json_get "id" entry ≫= as_str)
    "contract validation entries require an id" in
  Ok id.

(** One pass over the [validation] entries: ids are distinct, and each entry
    reports [passed: true] with non-blank evidence. *)
Fixpoint validation_loop (seen : list string) (entries : list json) : R (list string) :=
  match entries with
  | [] => Ok seen
  | entry :: entries =>
      try! id := result_entry entry in
      if bool_decide (id ∈ seen) then Err (Bail ("duplicate result validation id: " +:+ id))
      else
        try! _ := ensure
          (match json_get "passed" entry with Some (JBool true) => true | _ => false end
           && match json_get "evidence" entry ≫= as_str with
              | Some s => negb (is_blank s)
              | None => false
              end)
          ("contract validation requires passing evidence: " +:+ id) in
        validation_loop (id :: seen) entries
  end.

Definition validate_success_result (self : RoleContractSnapshot) (raw : string) : R unit :=
  try! _ := ensure (zlen raw <=? INSTANCE_MAX_BYTES)%Z "contract result exceeds the size limit" in
  try! result := with_context (json_decode raw) "contract result must be JSON" in
  try! _ := bounded_json result INSTANCE_MAX_BYTES in
  try! _ := snapshot_validate self in
  try! _ := validate_instance (rc_result_schema (sn_contract self)) result "result" in
  try! _ := ensure
    (bool_decide ((json_get "completionKind" result ≫= as_str) = Some "success")
     && match json_get "summary" result ≫= as_str with
        | Some s => negb (is_blank s)
        | None => false
        end)
    "contract completion requires completionKind: success and a non-empty summary" in
  try! artifacts := with_context (json_get "artifacts" result ≫= as_array)
    "contract result requires an artifacts array" in
  try! _ := ensure (Z.of_nat (length artifacts) <=? MAX_WORKFLOW_ARTIFACTS)%Z
    "contract result has too many artifacts" in
  try! paths := rdistinct (λ artifact,
      try! path := with_context (as_str artifact) "contract artifacts must be relative path strings" in
      try! _ := artifact_path path in
      Ok path)
    (λ _, "duplicate result artifact path") [] artifacts in
  try! _ := rmap_ (λ path, ensure (bool_decide (path ∈ paths))
    ("contract result is missing required artifact: " +:+ path))
    (rc_required_artifacts (sn_contract self)) in
  try! validation := with_context (json_get "validation" result ≫= as_array)
    "contract result requires a validation array" in
  try! ids := validation_loop [] validation in
  try! _ := rmap_ (λ item, ensure (bool_decide (ci_id item ∈ ids))
    ("contract result is missing checklist evidence: " +:+ ci_id item))
    (rc_checklist (sn_contract self)) in
  ensure
    (match json_get "filesModified" result ≫= as_array with
     | Some files => forallb (λ path, match path with JString _ => true | _ => false end) files
     | None => false
     end)
    "contract result requires a filesModified array of strings".

(** ** Lemmas *)

Lemma bounded_loop_total fuel max_bytes nodes bytes pending :
  (nodes ≤ 4096)%Z → (4097 - nodes ≤ Z.of_nat fuel)%Z →
  is_Some (bounded_loop fuel max_bytes nodes bytes pending).
Proof.
  revert nodes bytes pending. induction fuel as [|fuel IH]; intros nodes bytes [|[v d] pending] Hn Hf;
    cbn [bounded_loop]; try (by eexists); [lia|].
  destruct (Z.ltb_spec 4096 (nodes + 1)); [by eexists|].
  destruct (24 <? d)%Z; [by eexists|]. destruct (max_bytes <? _)%Z; [by eexists|].
  cbn. apply IH; lia.
Qed.

Lemma schema_loop_total fuel nodes pending :
  (nodes ≤ 128)%Z → (129 - nodes ≤ Z.of_nat fuel)%Z → is_Some (schema_loop fuel nodes pending).
Proof.
  revert nodes pending. induction fuel as [|fuel IH]; intros nodes [|[v d] pending] Hn Hf;
    cbn [schema_loop]; try (by eexists); [lia|].
  destruct (Z.ltb_spec 128 (nodes + 1)); [by eexists|].
  destruct (12 <? d)%Z; [by eexists|]. destruct (schema_node v); [|by eexists].
  cbn. apply IH; lia.
Qed.

Lemma validation_loop_ok_inv seen entries ids :
  validation_loop seen entries = Ok ids →
  ∀ id, id ∈ ids → id ∈ seen ∨ ∃ entry evidence,
    entry ∈ entries ∧ json_get "id" entry = Some (JString id) ∧
    json_get "passed" entry = Some (JBool true) ∧
    json_get "evidence" entry = Some (JString evidence) ∧ is_blank evidence = false.
Proof.
  revert seen. induction entries as [|y entries IH]; cbn; intros seen Hr id Hid; [naive_solver|].
  unfold result_entry in Hr. inv_r Hr. apply rbind_ok_inv in Hr0 as (i & Hi & [= <-]).
  apply with_context_ok in Hi. case_bool_decide; [done|]. inv_r Hr.
  apply ensure_ok_inv in Hr0. split_bools.
  eapply IH in Hr as [Hin|(e & v & He & Hrest)]; [| |done]; [|right; exists e, v; set_solver].
  apply elem_of_cons in Hin as [->|Hin]; [right|by left].
  destruct (json_get "id" y) as [[| | |s| |]|] eqn:?; cbn in Hi; simplify_eq.
  destruct (json_get "passed" y) as [[|[]| | | |]|] eqn:?; try done.
  destruct (json_get "evidence" y) as [[| | |v| |]|] eqn:?; cbn in *; try done.
  exists y, v. split_bools. split_and!; try done. left.
Qed.

(** Lexical resolution of path components against a directory [stack]
    (innermost first): [None] when a component climbs above it. *)
Fixpoint lexical_resolve (stack parts : list string) : option (list string) :=
  match parts with
  | [] => Some stack
  | part :: parts =>
      if String.eqb part "" || String.eqb part "." then lexical_resolve stack parts
      else if String.eqb part ".." then
        match stack with
        | [] => None
        | _ :: stack => lexical_resolve stack parts
        end
      else lexical_resolve (part :: stack) parts
  end.

Lemma lexical_resolve_safe stack parts :
  (∀ part, part ∈ parts → unsafe_component part = false) →
  lexical_resolve stack parts = Some (reverse parts ++ stack).
Proof.
  revert stack. induction parts as [|part parts IH]; intros stack Hs; cbn [lexical_resolve]; [done|].
  assert (unsafe_component part = false) as Hp by (apply Hs; left).
  unfold unsafe_component in Hp. split_bools.
  repeat match goal with Hs : String.eqb part _ = false |- _ => rewrite Hs; clear Hs end.
  cbn [orb].
  rewrite IH by (intros q Hq; apply Hs; by right).
  rewrite reverse_cons, <-(assoc_L (++)). done.
Qed.

(** Every JSON and schema traversal of the contract code finishes within
    its node budget: the fuel of the model (one more than the budget) is never
    exhausted, whatever value is traversed. *)
Theorem contract_traversals_total (value schema : json) (max_bytes : Z) :
  is_Some (bounded_loop 4097 max_bytes 0 0 [(value, 0%Z)]) ∧
  is_Some (schema_loop 129 0 [(schema, 0%Z)]).
Proof. split; [apply bounded_loop_total|apply schema_loop_total]; lia. Qed.

(** An artifact path the contract code accepts stays inside the
    workspace: resolving its components lexically from any directory only
    descends, and no component is the repository's [.git]. *)
Theorem artifact_path_contained (path : string) (base : list string) :
  artifact_path path = Ok tt →
  lexical_resolve base (split_on "/" path) = Some (reverse (split_on "/" path) ++ base) ∧
  (∀ part, part ∈ split_on "/" path → eq_ignore_ascii_case part ".git" = false).
Proof.
  unfold artifact_path. intros Hp. inv_r Hp.
  assert (∀ part, part ∈ split_on "/" path → unsafe_component part = false) as Hs.
  { intros part Hin. eapply rmap_ok_inv in Hp; [|done]. apply ensure_ok in Hp. by split_bools. }
  split; [by apply lexical_resolve_safe|].
  intros part Hin. specialize (Hs part Hin). unfold unsafe_component in Hs. by split_bools.
Qed.

(** A contracted task completes only with the evidence its contract
    asks for: an accepted result parses, reports success, lists every required
    artifact, and for every checklist item carries a validation entry with that
    id, [passed: true] and non-blank evidence. *)
Theorem validate_success_result_evidence (self : RoleContractSnapshot) (raw : string) :
  validate_success_result self raw = Ok tt →
  ∃ result,
    json_decode raw = Some result ∧
    json_get "completionKind" result = Some (JString "success") ∧
    (∃ artifacts, json_get "artifacts" result = Some (JArray artifacts) ∧
       ∀ path, path ∈ rc_required_artifacts (sn_contract self) → JString path ∈ artifacts) ∧
    (∃ entries, json_get "validation" result = Some (JArray entries) ∧
       ∀ item, item ∈ rc_checklist (sn_contract self) →
         ∃ entry evidence, entry ∈ entries ∧
           json_get "id" entry = Some (JString (ci_id item)) ∧
           json_get "passed" entry = Some (JBool true) ∧
           json_get "evidence" entry = Some (JString evidence) ∧ is_blank evidence = false).
Proof.
  unfold validate_success_result. intros Hv. inv_r Hv.
  apply with_context_ok in Hr0, Hr5, Hr9. apply ensure_ok_inv in Hr4.
  exists a0. split; [done|]. split_and!.
  - split_bools. by destruct (json_get "completionKind" a0) as [[]|]; cbn in *; simplify_eq.
  - destruct (json_get "artifacts" a0) as [[| | | |l|]|]; cbn in Hr5; simplify_eq.
    exists a5. split; [done|]. intros path Hpath.
    eapply rmap_ok_inv in Hr8; [|done]. apply ensure_ok in Hr8. split_bools.
    apply rdistinct_ok_inv in Hr7 as [Hkeys _]. apply Hkeys in Hr8 as [Hnil|(x & Hx & Hf)].
    + by apply not_elem_of_nil in Hnil.
    + destruct x; cbn in Hf; try done. apply rbind_ok_inv in Hf as (? & _ & [= ->]). done.
  - destruct (json_get "validation" a0) as [[| | | |l|]|]; cbn in Hr9; simplify_eq.
    exists a9. split; [done|]. intros item Hitem.
    eapply rmap_ok_inv in Hr11; [|done]. apply ensure_ok in Hr11. split_bools.
    eapply validation_loop_ok_inv in Hr10 as [Hnil|?]; [|done|done].
    by apply not_elem_of_nil in Hnil.
Qed.

Lemma freeze_sound (contract : RoleContractV1) (inputs : json) (s : RoleContractSnapshot) :
  freeze contract inputs = Ok s →
  sn_contract s = contract ∧ sn_inputs s = inputs ∧ snapshot_validate s = Ok tt.
Proof.
  unfold freeze. intros Hf. inv_r Hf. simplify_eq. split_and!; [done..|].
  unfold snapshot_validate, content_digest in *. cbn in *. destruct a, a0.
  rewrite Hr, Hr0. cbn. inv_r Hr1. destruct a. rewrite Hr2. cbn. simplify_eq.
  by rewrite String.eqb_refl.
Qed.

(** Freezing a contract yields a snapshot that validates: the digest and
    every check a later reader repeats already hold. *)
Theorem freeze_validates (contract : RoleContractV1) (inputs : json) (s : RoleContractSnapshot) :
  freeze contract inputs = Ok s → snapshot_validate s = Ok tt.
Proof. intros Hf. by apply freeze_sound in Hf as (_ & _ & ?). Qed.
End Contracts.
