(* ===== verification/Tasks.v ===== *)
(** * Tasks: the task DAG of the orchestration store

    orchestration_task_store.rs, orchestration_contract_store.rs and
    orchestration_policy_store.rs: how a task's status follows its
    dependencies, task creation, status updates with the dependency refresh,
    ownership transfer and the task queries. *)

From S2P Require Import Prelude Text Models Store StoreFacts RoleContract.
From Stdlib Require Import ZArith Lia Ascii String.
From stdpp Require Import strings prelude.

(** ** Reading tasks *)

Definition task_by_id (db : Db) (id : string) : option OrchestrationTask :=
  find_where (λ t, String.eqb (t_id t) id) (db_tasks db).

Definition task_status (db : Db) (id : string) : option OrchestrationTaskStatus :=
  t_status <$> task_by_id db id.

Definition orchestration_task_by_id (id : string) : SM (option OrchestrationTask) :=
  select (λ db, task_by_id db id).

(** The row an operation returns after its commit. *)
Definition task_after (id : string) (missing : string) : SM OrchestrationTask :=
  let! row := orchestration_task_by_id id in
  match row with
  | Some t => ret t
  | None => bail missing
  end.

(** ** Status from dependencies *)

Fixpoint status_for_deps_loop (db : Db) (deps : list string) (all_completed : bool)
    : Result OrchestrationTaskStatus :=
  match deps with
  | [] => Ok (if all_completed then Ts_Ready else Ts_Pending)
  | dep :: deps =>
      match task_status db dep with
      | None => Err (Bail ("unknown orchestration task dependency: " +:+ dep))
      | Some Ts_Completed => status_for_deps_loop db deps all_completed
      | Some Ts_Failed => Ok Ts_Failed
      | Some Ts_Cancelled => Ok Ts_Cancelled
      | Some _ => status_for_deps_loop db deps false
      end
  end.

Definition status_for_deps (db : Db) (deps : list string) : Result OrchestrationTaskStatus :=
  match deps with
  | [] => Ok Ts_Ready
  | _ => status_for_deps_loop db deps true
  end.

Section WithEnv.
Context `{Env}.

(** ** Promotion of dependents *)

(** The rows [SELECT id, deps ... WHERE status = 'pending' AND NOT EXISTS(isolated run)]. *)
Definition refresh_candidate (db : Db) (t : OrchestrationTask) : bool :=
  bool_decide (t_status t = Ts_Pending) && negb (run_isolated db (t_run_id t)).

Definition fail_by_dependency (changed_id : string) (t : OrchestrationTask) : OrchestrationTask :=
  with_t_completed_at (Some now)
    (with_t_result (Some (default ("dependency failed: " +:+ changed_id) (t_result t)))
      (with_t_status Ts_Failed t)).

(** One pass over the candidates fetched for [changed_id]; [stack] are the
    ids still to process, the last pushed first. *)
Fixpoint refresh_rows (changed_id : string) (rows : list OrchestrationTask)
    (stack : list string) : SM (list string) :=
  match rows with
  | [] => ret stack
  | row :: rows =>
      if negb (existsb (String.eqb changed_id) (t_deps row))
      then refresh_rows changed_id rows stack
      else
        let! db := get_db in
        match status_for_deps db (t_deps row) with
        | Err e => fail e
        | Ok Ts_Ready =>
            do! update_tasks false (λ t, String.eqb (t_id t) (t_id row)) (with_t_status Ts_Ready) in
            refresh_rows changed_id rows stack
        | Ok Ts_Failed =>
            do! update_tasks false (λ t, String.eqb (t_id t) (t_id row))
                  (fail_by_dependency changed_id) in
            refresh_rows changed_id rows (t_id row :: stack)
        | Ok _ => refresh_rows changed_id rows stack
        end
  end.

(** [while let Some(changed_id) = changed_ids.pop()]. *)
Fixpoint refresh_loop (fuel : nat) (stack : list string) : SM unit :=
  match stack with
  | [] => ret tt
  | changed_id :: stack =>
      match fuel with
      | 0 => bail "out of fuel"
      | S fuel =>
          let! rows := select (λ db, List.filter (refresh_candidate db) (db_tasks db)) in
          let! stack := refresh_rows changed_id rows stack in
          refresh_loop fuel stack
      end
  end.

(** Every pushed id is a task that just left [pending], so one more unit of
    fuel than there are candidates is enough. *)
Definition refresh_fuel (db : Db) : nat :=
  S (count_where (refresh_candidate db) (db_tasks db)).

Definition refresh_pending_dependents_after_task_status (changed_task_id : string) : SM unit :=
  let! fuel := select refresh_fuel in
  refresh_loop fuel [changed_task_id].

(** ** Creation *)

Record NewOrchestrationTask : Type := MkNewTask {
  nt_spec : string;
  nt_task_title : option string;
  nt_display_name : option string;
  nt_deps : list string;
  nt_parent_id : option string;
  nt_created_by_terminal_handle : option string;
  nt_run_id : option string;
  nt_workspace_id : string;
  nt_coordinator_handle : string;
  nt_result_schema : option string
}.

Definition lift_result {A} (r : Result A) : SM A :=
  match r with Ok a => ret a | Err e => fail e end.

(** The row a new task is stored as. *)
Definition new_task_row (task : NewOrchestrationTask) (snapshot : option ContractText)
    (id : string) (status : OrchestrationTaskStatus) : OrchestrationTask :=
  let dependency_result :=
    match status with
    | Ts_Failed => Some "dependency failed"
    | Ts_Cancelled => Some "dependency cancelled"
    | _ => None
    end in
  let display_name :=
    match nt_display_name task with
    | Some name => name
    | None => default (derive_display_name (nt_spec task)) (nt_task_title task)
    end in
  MkOrchestrationTask id (nt_parent_id task) (nt_created_by_terminal_handle task)
    (nt_task_title task) (Some display_name) (nt_spec task) status (nt_deps task)
    dependency_result now
    (if bool_decide (is_Some dependency_result) then Some now else None)
    (nt_run_id task) (nt_workspace_id task) (nt_coordinator_handle task) (nt_result_schema task)
    0 (if bool_decide (status = Ts_Cancelled) then Some now else None) None None snapshot None.

Definition contract_snapshot `{ContractLib} (task : NewOrchestrationTask)
    (contract : option RoleContractSnapshot) : Result (option ContractText) :=
  match contract with
  | None => Ok None
  | Some c =>
      try! _ := snapshot_validate c in
      if bool_decide (is_Some (nt_result_schema task))
      then Err (Bail "role contract and legacy result schema are mutually exclusive")
      else Ok (Some (snapshot_encode c))
  end.

Definition create_orchestration_task_with_contract `{ContractLib} (task : NewOrchestrationTask)
    (contract : option RoleContractSnapshot) : SM OrchestrationTask :=
  let! snapshot := lift_result (contract_snapshot task contract) in
  let! id := orchestration_id "task" in
  do! tx (
    let! db := get_db in
    let! status := lift_result (status_for_deps db (nt_deps task)) in
    insert_task (new_task_row task snapshot id status)) in
  task_after id "inserted orchestration task not found".

Definition create_orchestration_task `{ContractLib} (task : NewOrchestrationTask)
    : SM OrchestrationTask :=
  create_orchestration_task_with_contract task None.

(** ** Contract guards *)

Definition validate_task_contract_completion `{ContractLib} (task_id result : string) : SM unit :=
  let! row := orchestration_task_by_id task_id in
  match row with
  | None => fail (Database "no rows returned")
  | Some t =>
      match t_role_contract t with
      | None => ret tt
      | Some raw =>
          match snapshot_decode raw with
          | None => bail "invalid role contract snapshot"
          | Some contract => lift_result (validate_success_result contract result)
          end
      end
  end.

Definition guard_contract_status_update (task_id : string) (status : OrchestrationTaskStatus)
    : SM unit :=
  let! row := orchestration_task_by_id task_id in
  match row with
  | None => fail (Database "no rows returned")
  | Some t =>
      if bool_decide (is_Some (t_role_contract t))
         && (bool_decide (status = Ts_Completed) || bool_decide (t_status t = Ts_Completed))
      then bail "contracted task completion requires an active dispatch; completed evidence is immutable"
      else ret tt
  end.

(** ** Status updates *)

Definition terminal_status (status : OrchestrationTaskStatus) : bool :=
  bool_decide (status = Ts_Completed) || bool_decide (status = Ts_Failed).

Definition active_of_task (task_id : string) (d : OrchestrationDispatchContext) : bool :=
  String.eqb (d_task_id d) task_id && d_active d.

Definition update_orchestration_task_status (id : string) (status : OrchestrationTaskStatus)
    (result : option string) : SM OrchestrationTask :=
  do! tx (
    let! existing := orchestration_task_by_id id in
    match existing with
    | None => bail ("orchestration task not found: " +:+ id)
    | Some _ =>
        do! guard_contract_status_update id status in
        if terminal_status status then
          do! update_tasks false (λ t, String.eqb (t_id t) id)
                (λ t, with_t_completed_at (Some now)
                        (with_t_result (match result with Some _ => result | None => t_result t end)
                          (with_t_status status t))) in
          do! refresh_pending_dependents_after_task_status id in
          do! (if bool_decide (status = Ts_Failed)
               then record_task_run_event id Ev_TaskFailed (default "" result) None
               else ret tt) in
          do! update_dispatches true (active_of_task id)
                (λ d, with_d_completed_at (Some now)
                        (with_d_status (if bool_decide (status = Ts_Completed)
                                        then Ds_Completed else Ds_Failed) d)) in
          ret tt
        else
          do! update_tasks false (λ t, String.eqb (t_id t) id)
                (λ t, with_t_result (match result with Some _ => result | None => t_result t end)
                        (with_t_status status t)) in
          if bool_decide (status = Ts_Dispatched) then ret tt
          else
            do! update_dispatches true (active_of_task id)
                  (λ d, with_d_completed_at (Some now)
                          (with_d_last_failure
                             (Some (default ("task status changed to "
                                             +:+ OrchestrationTaskStatus_as_str status)
                                      (d_last_failure d)))
                             (with_d_status Ds_Failed d))) in
            ret tt
    end) in
  task_after id ("orchestration task not found after update: " +:+ id).

(** ** Ownership *)

Definition transfer_orchestration_task_coordinator
    (id actor_handle new_coordinator_handle reason : string) (force : bool)
    : SM OrchestrationTask :=
  let! row := orchestration_task_by_id id in
  match row with
  | None => bail ("orchestration task not found: " +:+ id)
  | Some task =>
      if negb force && negb (String.eqb (t_coordinator_handle task) actor_handle)
      then bail "only the current coordinator can transfer this task; use --force for audited recovery"
      else
        do! tx (
          do! update_tasks false (λ t, String.eqb (t_id t) id)
                (with_t_coordinator_handle new_coordinator_handle) in
          update_dispatches false (active_of_task id)
            (with_d_coordinator_handle new_coordinator_handle)) in
        do! insert_orchestration_audit_event (Some actor_handle)
              (if force then "task.transfer.force" else "task.transfer") id reason in
        task_after id "task not found after transfer"
  end.

(** Adopts the caller's unbound unfinished tasks into a run; two statements,
    no transaction. *)
Definition bind_manual_tasks_to_run (run_id workspace_id coordinator_handle : string) : SM nat :=
  let! affected := update_tasks true
    (λ t, bool_decide (t_run_id t = None)
          && (String.eqb (t_workspace_id t) workspace_id || String.eqb (t_workspace_id t) "global")
          && String.eqb (t_coordinator_handle t) coordinator_handle
          && match t_status t with
             | Ts_Pending | Ts_Ready | Ts_Blocked | Ts_Dispatched | Ts_Stalled => true
             | _ => false
             end)
    (λ t, with_t_run_id (Some run_id)
            (with_t_workspace_id
               (if String.eqb (t_workspace_id t) "global" then workspace_id else t_workspace_id t)
               t)) in
  let! bound := select (λ db,
    t_id <$> List.filter (λ t, bool_decide (t_run_id t = Some run_id)) (db_tasks db)) in
  do! update_dispatches false (λ d, bool_decide (d_task_id d ∈ bound))
        (λ d, with_d_run_id (Some run_id) (with_d_workspace_id workspace_id d)) in
  ret affected.

(** ** Stage and profile bookkeeping (orchestration_policy_store.rs) *)

Definition set_orchestration_task_stage (task_id : string) (stage_id : option string) : SM unit :=
  let! n := update_tasks false (λ t, String.eqb (t_id t) task_id) (with_t_stage_id stage_id) in
  if Nat.eqb n 0 then bail ("orchestration task not found: " +:+ task_id) else ret tt.

Definition set_orchestration_dispatch_profile (dispatch_id : string)
    (profile quota_group : option string) : SM unit :=
  do! update_dispatches false (λ d, String.eqb (d_id d) dispatch_id)
        (λ d, with_d_agent_profile profile (with_d_agent_quota_group quota_group d)) in
  ret tt.

(** The first spelling of each profile, compared without ASCII case. *)
Fixpoint dedup_profiles (seen profiles : list string) : list string :=
  match profiles with
  | [] => seen
  | p :: ps => if existsb (λ name, eq_ignore_ascii_case name p) seen
               then dedup_profiles seen ps else dedup_profiles (seen ++ [p]) ps
  end.

Definition orchestration_task_attempted_profiles (task_id : string) : SM (list string) :=
  select (λ db, dedup_profiles [] (omap d_agent_profile
    (List.filter (λ d, String.eqb (d_task_id d) task_id) (db_dispatches db)))).

(** ** Queries *)

Definition active_dispatch_for_task (db : Db) (task_id : string)
    : option OrchestrationDispatchContext :=
  find_last_where (active_of_task task_id) (db_dispatches db).

(** [ORDER BY created_at ASC, id ASC]. *)
Definition task_le (a b : OrchestrationTask) : bool :=
  String.ltb (t_created_at a) (t_created_at b)
  || (String.eqb (t_created_at a) (t_created_at b) && String.leb (t_id a) (t_id b)).

(** A listed task together with its active assignee and dispatch. *)
Definition list_scoped_orchestration_tasks (status : option OrchestrationTaskStatus)
    (run_id workspace_id : option string)
    : SM (list (OrchestrationTask * option string * option string)) :=
  select (λ db,
    (λ t, let active := active_dispatch_for_task db (t_id t) in
          (t, active ≫= d_assignee_handle, d_id <$> active)) <$>
    sort_by task_le
      (List.filter (λ t, opt_matches status (Some (t_status t)) && opt_matches run_id (t_run_id t)
                         && opt_matches workspace_id (Some (t_workspace_id t))) (db_tasks db))).

Definition list_orchestration_tasks (status : option OrchestrationTaskStatus)
    : SM (list (OrchestrationTask * option string * option string)) :=
  list_scoped_orchestration_tasks status None None.

End WithEnv.
