(* ===== verification/Dag.v ===== *)
(** * Dag: dependency promotion is correct

    Facts about Tasks.v: how a task's status follows from its dependencies,
    that the refresh loop terminates within its fuel, and that it leaves no
    pending task stranded ([dag_ok]): every pending task of a shared run still
    waits for an unfinished dependency, and none of its dependencies failed or
    was cancelled. *)

From S2P Require Import Prelude Text Models Store StoreFacts RoleContract Tasks.
From Stdlib Require Import ZArith Lia Ascii String.
From stdpp Require Import strings prelude.

(** ** Specification *)

(** Every dependency exists and none is cancelled. *)
Definition deps_live (db : Db) (deps : list string) : Prop :=
  ∀ d, d ∈ deps → ∃ s, task_status db d = Some s ∧ s ≠ Ts_Cancelled.

Definition dep_failed (db : Db) (d : string) : bool :=
  bool_decide (task_status db d = Some Ts_Failed).
Definition dep_completed (db : Db) (d : string) : bool :=
  bool_decide (task_status db d = Some Ts_Completed).

(** The dependencies still hold the task back: none failed, one is unfinished. *)
Definition waiting (db : Db) (deps : list string) : Prop :=
  (∀ d, d ∈ deps → dep_failed db d = false) ∧ (∃ d, d ∈ deps ∧ dep_completed db d = false).

Definition dag_ok (db : Db) : Prop :=
  ∀ t, t ∈ db_tasks db → refresh_candidate db t = true →
    deps_live db (t_deps t) ∧ waiting db (t_deps t).

(** What a refresh may do to a row: nothing, or end its [pending] state. *)
Definition promoted `{Env} (t t' : OrchestrationTask) : Prop :=
  t' = t ∨ (t_status t = Ts_Pending ∧
            (t' = with_t_status Ts_Ready t ∨ ∃ c, t' = fail_by_dependency c t)).

(** ** Lookup after an update *)

Lemma task_by_id_Some db id t : task_by_id db id = Some t → t ∈ db_tasks db ∧ t_id t = id.
Proof. apply find_key_Some. Qed.

Lemma task_by_id_elem db t :
  NoDup (t_id <$> db_tasks db) → t ∈ db_tasks db → task_by_id db (t_id t) = Some t.
Proof. apply find_key_elem. Qed.

Lemma task_by_id_update db p f id :
  (∀ t, t_id (f t) = t_id t) →
  task_by_id (set_tasks (update_where p f (db_tasks db)) db) id =
  (λ t, if p t then f t else t) <$> task_by_id db id.
Proof. intros Hf. by apply find_update_where. Qed.

(** ** [status_for_deps] *)

Lemma status_for_deps_loop_live db deps all_completed :
  deps_live db deps →
  status_for_deps_loop db deps all_completed =
  Ok (if existsb (dep_failed db) deps then Ts_Failed
      else if all_completed && forallb (dep_completed db) deps then Ts_Ready else Ts_Pending).
Proof.
  unfold dep_failed, dep_completed.
  revert all_completed. induction deps as [|d deps IH]; intros ac Hl; cbn.
  - by rewrite andb_true_r.
  - destruct (Hl d ltac:(left)) as (s & Hs & Hc). rewrite Hs.
    assert (deps_live db deps) as Hl' by (intros x Hx; apply Hl; by right).
    destruct s; cbn; rewrite ?IH by done; try done; rewrite ?andb_false_r; done.
Qed.

Lemma status_for_deps_live db deps :
  deps_live db deps →
  status_for_deps db deps =
  Ok (if existsb (dep_failed db) deps then Ts_Failed
      else if forallb (dep_completed db) deps then Ts_Ready else Ts_Pending).
Proof.
  intros Hl. destruct deps as [|d deps]; [done|]. unfold status_for_deps.
  by rewrite status_for_deps_loop_live.
Qed.

(** A task the dependency rule leaves pending is waiting. *)
Lemma status_for_deps_pending db deps :
  status_for_deps db deps = Ok Ts_Pending → deps_live db deps ∧ waiting db deps.
Proof.
  assert (∀ deps ac, status_for_deps_loop db deps ac = Ok Ts_Pending → deps_live db deps) as Hlive.
  { induction deps0 as [|d deps0 IH]; cbn; intros ac Hs.
    - intros x Hx. by apply not_elem_of_nil in Hx.
    - intros x [->|Hx]%elem_of_cons; destruct (task_status db _) as [[]|] eqn:E; try done;
        eauto; by eapply IH. }
  intros Hs. assert (deps_live db deps) as Hl.
  { destruct deps; [done|]. by eapply Hlive. }
  split; [done|]. rewrite status_for_deps_live in Hs by done.
  destruct (existsb (dep_failed db) deps) eqn:Ef; [done|].
  destruct (forallb (dep_completed db) deps) eqn:Ec; [done|]. split.
  - intros d Hd. destruct (dep_failed db d) eqn:E; [|done].
    assert (existsb (dep_failed db) deps = true) as Ht; [|congruence].
    apply existsb_exists. exists d. by rewrite <-list_elem_of_In.
  - clear -Ec. induction deps as [|d deps IH]; cbn in Ec; [done|].
    apply andb_false_iff in Ec as [Ec|Ec]; [exists d; split; [left|done]|].
    destruct (IH Ec) as (x & Hx & Hc). exists x. split; [by right|done].
Qed.

Lemma status_for_deps_failed_or_ready db deps :
  deps_live db deps → ¬ waiting db deps →
  status_for_deps db deps = Ok Ts_Failed ∨ status_for_deps db deps = Ok Ts_Ready.
Proof.
  intros Hl Hw. pose proof (status_for_deps_live db deps Hl) as Hs.
  destruct (existsb _ _) in Hs; [by left|]. destruct (forallb _ _) in Hs; [by right|].
  by apply status_for_deps_pending in Hs as [_ ?].
Qed.

Lemma waiting_status db deps :
  deps_live db deps → waiting db deps → status_for_deps db deps = Ok Ts_Pending.
Proof.
  intros Hl [Hf (d & Hd & Hc)]. rewrite status_for_deps_live by done.
  destruct (existsb (dep_failed db) deps) eqn:Ef.
  - apply existsb_exists in Ef as (x & Hx & Ef). rewrite Hf in Ef; [done|by rewrite list_elem_of_In].
  - destruct (forallb (dep_completed db) deps) eqn:Ec; [|done].
    rewrite forallb_forall in Ec. rewrite Ec in Hc; [done|by rewrite <-list_elem_of_In].
Qed.

(** ** The refresh loop *)

Section Refresh.
Context `{Env}.

Lemma promoted_refl t : promoted t t.
Proof. by left. Qed.

Lemma promoted_trans t1 t2 t3 : promoted t1 t2 → promoted t2 t3 → promoted t1 t3.
Proof.
  intros [->|[H1 Hr]] H2; [done|]. destruct H2 as [->|[H2 _]]; [by right|].
  destruct Hr as [->|[c ->]]; done.
Qed.

Lemma promoted_id t t' : promoted t t' → t_id t' = t_id t.
Proof. by intros [->|[_ [->|[c ->]]]]. Qed.
Lemma promoted_deps t t' : promoted t t' → t_deps t' = t_deps t.
Proof. by intros [->|[_ [->|[c ->]]]]. Qed.
Lemma promoted_run t t' : promoted t t' → t_run_id t' = t_run_id t.
Proof. by intros [->|[_ [->|[c ->]]]]. Qed.
Lemma promoted_not_pending t t' : promoted t t' → t_status t ≠ Ts_Pending → t' = t.
Proof. by intros [->|[? _]]. Qed.

Lemma promoted_ids ts ts' : Forall2 promoted ts ts' → t_id <$> ts' = t_id <$> ts.
Proof. induction 1 as [|t t' ts ts' Hp _ IH]; cbn; [done|]. by rewrite IH, (promoted_id t t'). Qed.

Lemma Forall2_promoted_refl ts : Forall2 promoted ts ts.
Proof. apply Forall_Forall2_diag, Forall_forall. intros; apply promoted_refl. Qed.

Lemma Forall2_promoted_trans ts1 ts2 ts3 :
  Forall2 promoted ts1 ts2 → Forall2 promoted ts2 ts3 → Forall2 promoted ts1 ts3.
Proof.
  intros H1. revert ts3. induction H1; inversion 1; subst; constructor; eauto using promoted_trans.
Qed.

Lemma promoted_status ts ts' d :
  Forall2 promoted ts ts' →
  option_Forall2 promoted (find_where (λ t, String.eqb (t_id t) d) ts)
                          (find_where (λ t, String.eqb (t_id t) d) ts').
Proof. apply Forall2_find, promoted_id. Qed.

(** What dependencies decided stays decided while other tasks are promoted. *)
Lemma status_stable db db' deps s :
  Forall2 promoted (db_tasks db) (db_tasks db') → deps_live db deps →
  status_for_deps db deps = Ok s → s ≠ Ts_Pending →
  deps_live db' deps ∧ status_for_deps db' deps = Ok s.
Proof.
  intros Hp Hl Hs Hnp.
  assert (∀ d s, task_status db d = Some s → s ≠ Ts_Pending → task_status db' d = Some s) as Hkeep.
  { intros d s0. unfold task_status, task_by_id. pose proof (promoted_status _ _ d Hp) as Hd.
    destruct Hd as [t t' Ht|]; [|done]. cbn. intros [= <-] Hne.
    by rewrite (promoted_not_pending t t'). }
  assert (deps_live db' deps) as Hl'.
  { intros d Hd. destruct (Hl d Hd) as (s0 & Hs0 & Hc). destruct (decide (s0 = Ts_Pending)) as [->|Hne].
    - unfold task_status, task_by_id in *. pose proof (promoted_status _ _ d Hp) as Hdd.
      destruct Hdd as [t t' Ht|]; [|done]. eexists. split; [done|].
      destruct Ht as [->|[_ [->|[c ->]]]]; cbn in *; congruence.
    - eauto. }
  split; [done|]. rewrite status_for_deps_live in Hs |- * by done. destruct (existsb (dep_failed db) deps) eqn:Ef.
  - apply existsb_exists in Ef as (d & Hd & Hfd). rewrite (proj2 (existsb_exists (dep_failed db') deps)); [done|].
    exists d. split; [done|]. unfold dep_failed in *. split_bools. by apply Hkeep.
  - destruct (forallb (dep_completed db) deps) eqn:Ec; [|congruence]. rewrite forallb_forall in Ec.
    assert (∀ d, In d deps → task_status db' d = Some Ts_Completed) as Hall.
    { intros d Hd. specialize (Ec d Hd). unfold dep_completed in Ec. split_bools. by apply Hkeep. }
    destruct (existsb (dep_failed db') deps) eqn:Ef'.
    + apply existsb_exists in Ef' as (d & Hd & Hfd). unfold dep_failed in Hfd. split_bools.
      rewrite Hall in Hfd; done.
    + rewrite (proj2 (forallb_forall (dep_completed db') deps)); [done|].
      intros d Hd. unfold dep_completed. split_bools. by apply Hall.
Qed.

(** A promoted row has the status its dependencies dictate. *)
Definition justified (db' : Db) (t t' : OrchestrationTask) : Prop :=
  promoted t t' ∧
  (t' = t ∨ (t_status t' ≠ Ts_Pending ∧ deps_live db' (t_deps t) ∧
             status_for_deps db' (t_deps t) = Ok (t_status t'))).

(** The world after a refresh: only task rows changed, by promotion. *)
Definition promotes (w w' : World) : Prop :=
  ∃ ts, w' = with_db (set_tasks ts) w ∧ Forall2 (justified (w_db w')) (db_tasks (w_db w)) ts.

Lemma promotes_promoted w w' :
  promotes w w' → Forall2 promoted (db_tasks (w_db w)) (db_tasks (w_db w')).
Proof. intros (ts & -> & Hp). cbn. eapply Forall2_impl; [done|]. by intros ? ? []. Qed.

Lemma promotes_refl w : promotes w w.
Proof.
  exists (db_tasks (w_db w)). split; [by destruct w as [[] ?]|].
  apply Forall2_same. intros t. split; [apply promoted_refl|by left].
Qed.

Lemma promotes_trans w1 w2 w3 : promotes w1 w2 → promotes w2 w3 → promotes w1 w3.
Proof.
  intros (ts & Hw2 & H1) Hp2. pose proof (promotes_promoted _ _ Hp2) as Hprom.
  destruct Hp2 as (ts' & Hw3 & H2). exists ts'. split; [by subst|].
  assert (db_tasks (w_db w2) = ts) as Hts by (by subst). rewrite Hts in H2.
  eapply Forall2_compose; [|exact H1|exact H2].
  intros t1 t2 t3 [Hp12 Hj12] [Hp23 Hj23]. split; [by eapply promoted_trans|].
  destruct Hj12 as [->|(Hne & Hl & Hs)]; [done|]. right.
  rewrite (promoted_not_pending t2 t3) by done. split; [done|].
  by apply (status_stable (w_db w2)).
Qed.

Lemma set_tasks_set_tasks ts ts' db : set_tasks ts (set_tasks ts' db) = set_tasks ts db.
Proof. done. Qed.

Definition candidates (db : Db) : nat := count_where (refresh_candidate db) (db_tasks db).

(** The two updates a refresh performs on a candidate row. *)
Definition promotion (f : OrchestrationTask → OrchestrationTask)
    (s : OrchestrationTaskStatus) : Prop :=
  (f = with_t_status Ts_Ready ∧ s = Ts_Ready) ∨
  (∃ c, f = fail_by_dependency c ∧ s = Ts_Failed).

Lemma promote_one w row f s :
  NoDup (t_id <$> db_tasks (w_db w)) → row ∈ db_tasks (w_db w) →
  refresh_candidate (w_db w) row = true → promotion f s →
  let ts := update_where (λ t, String.eqb (t_id t) (t_id row)) f (db_tasks (w_db w)) in
  let w1 := with_db (set_tasks ts) w in
  update_tasks false (λ t, String.eqb (t_id t) (t_id row)) f w =
    (w1, Ok (count_where (λ t, String.eqb (t_id t) (t_id row)) (db_tasks (w_db w)))) ∧
  Forall2 promoted (db_tasks (w_db w)) ts ∧
  (∀ d, task_status (w_db w1) d =
        if String.eqb (t_id row) d then Some s else task_status (w_db w) d) ∧
  (∀ t, t ∈ ts → refresh_candidate (w_db w) t = true → t ∈ db_tasks (w_db w) ∧ t_id t ≠ t_id row) ∧
  (∀ t, t ∈ db_tasks (w_db w) → t_id t ≠ t_id row → t ∈ ts) ∧
  candidates (w_db w1) < candidates (w_db w).
Proof.
  intros Hnd Hrow Hc Hf ts w1.
  assert (∀ t, t_id (f t) = t_id t) as Hid by (by destruct Hf as [[-> _]|(c & -> & _)]).
  assert (∀ t, t_status (f t) = s) as Hst by (by destruct Hf as [[-> ->]|(c & -> & ->)]).
  assert (s ≠ Ts_Pending) as Hs by (by destruct Hf as [[_ ->]|(c & _ & ->)]).
  assert (∀ t, t ∈ db_tasks (w_db w) → String.eqb (t_id t) (t_id row) = true → t = row) as Hkey.
  { intros t Ht He%String.eqb_eq. by eapply (NoDup_key_inj t_id). }
  assert (t_status row = Ts_Pending) as Hp by (unfold refresh_candidate in Hc; by split_bools).
  split_and!.
  - rewrite update_tasks_success; [done|]. intros t Ht He. rewrite (Hkey t Ht He).
    apply task_update_allowed; [by destruct Hf as [[-> _]|(c & -> & _)]|].
    right. right. by rewrite Hp.
  - unfold ts, update_where. apply Forall2_fmap_r, Forall_Forall2_diag, Forall_forall.
    intros t Ht. cbn. destruct (String.eqb (t_id t) (t_id row)) eqn:E; [|apply promoted_refl].
    rewrite (Hkey t Ht E). right. split; [done|].
    destruct Hf as [[-> _]|(c & -> & _)]; eauto.
  - intros d. unfold task_status, w1, ts. cbn [w_db with_db].
    rewrite task_by_id_update by done. destruct (String.eqb (t_id row) d) eqn:E.
    + apply String.eqb_eq in E as <-. rewrite task_by_id_elem by done. cbn.
      by rewrite String.eqb_refl, Hst.
    + destruct (task_by_id (w_db w) d) as [t|] eqn:Et; [cbn|done].
      apply task_by_id_Some in Et as [_ <-]. by rewrite String.eqb_sym, E.
  - intros t Ht Hct. apply elem_of_update_where in Ht as (x & Hx & ->).
    destruct (String.eqb (t_id x) (t_id row)) eqn:E.
    + unfold refresh_candidate in Hct. split_bools. rewrite Hst in *. congruence.
    + split; [done|]. by apply String.eqb_neq.
  - intros t Ht Hne. apply elem_of_update_where. exists t. split; [done|].
    by rewrite (proj2 (String.eqb_neq _ _) Hne).
  - unfold candidates, w1, ts. cbn. change (refresh_candidate (set_tasks _ ?d)) with (refresh_candidate d).
    eapply count_where_update_lt; [|done|apply String.eqb_refl|done].
    intros x Hx _. unfold refresh_candidate. rewrite Hst. by rewrite bool_decide_false.
Qed.

(** The loop invariant: every candidate is waiting, or depends on an id that
    is still to be processed, or is itself still to be visited in this pass. *)
Definition refresh_inv (db : Db) (stack : list string) (c : string)
    (rows : list OrchestrationTask) : Prop :=
  ∀ t, t ∈ db_tasks db → refresh_candidate db t = true →
    deps_live db (t_deps t) ∧
    (waiting db (t_deps t) ∨ (∃ d, d ∈ stack ∧ d ∈ t_deps t) ∨ (c ∈ t_deps t ∧ t ∈ rows)).

Lemma deps_live_update db db' i s deps :
  (∀ d, task_status db' d = if String.eqb i d then Some s else task_status db d) →
  s ≠ Ts_Cancelled → deps_live db deps → deps_live db' deps.
Proof.
  intros Hst Hs Hl d Hd. destruct (Hl d Hd) as (s' & Hs' & Hc). rewrite Hst.
  destruct (String.eqb i d); eauto.
Qed.

(** A status change keeps a task waiting unless the changed task is one of its
    dependencies and reached a final status. *)
Lemma waiting_update db db' i s deps :
  (∀ d, task_status db' d = if String.eqb i d then Some s else task_status db d) →
  (i ∈ deps → s ≠ Ts_Failed ∧ s ≠ Ts_Completed) → waiting db deps → waiting db' deps.
Proof.
  unfold waiting, dep_failed, dep_completed. intros Hst Hs [Hf (d & Hd & Hc)]. split.
  - intros x Hx. rewrite Hst. destruct (String.eqb_spec i x) as [->|]; [|by apply Hf].
    destruct (Hs Hx). apply bool_decide_eq_false. congruence.
  - exists d. split; [done|]. rewrite Hst. destruct (String.eqb_spec i d) as [->|]; [|done].
    destruct (Hs Hd). apply bool_decide_eq_false. congruence.
Qed.

(** One promotion is justified by the dependencies it looked at. *)
Lemma promote_justified w row f s :
  NoDup (t_id <$> db_tasks (w_db w)) → row ∈ db_tasks (w_db w) → promotion f s →
  deps_live (w_db w) (t_deps row) → status_for_deps (w_db w) (t_deps row) = Ok s →
  Forall2 promoted (db_tasks (w_db w))
    (update_where (λ t, String.eqb (t_id t) (t_id row)) f (db_tasks (w_db w))) →
  promotes w (with_db (set_tasks
    (update_where (λ t, String.eqb (t_id t) (t_id row)) f (db_tasks (w_db w)))) w).
Proof.
  intros Hnd Hrow Hf Hl Hs Hprom. eexists. split; [done|].
  assert (s ≠ Ts_Pending) as Hne by (by destruct Hf as [[_ ->]|(? & _ & ->)]).
  destruct (status_stable _ (set_tasks (update_where (λ t, String.eqb (t_id t) (t_id row)) f
    (db_tasks (w_db w))) (w_db w)) _ _ Hprom Hl Hs Hne) as [Hl' Hs'].
  unfold update_where in *. apply Forall2_fmap_r, Forall_Forall2_diag, Forall_forall.
  intros t Ht. split.
  { apply list_elem_of_lookup in Ht as [i Hi].
    eapply (Forall2_lookup_lr _ _ _ i); [exact Hprom|exact Hi|]. by rewrite list_lookup_fmap, Hi. } destruct (String.eqb (t_id t) (t_id row)) eqn:E; [|by left].
  right. apply String.eqb_eq in E. rewrite (NoDup_key_inj t_id _ t row Hnd Ht Hrow E).
  assert (t_status (f row) = s) as -> by (by destruct Hf as [[-> ->]|(c & -> & ->)]). done.
Qed.

(** One promotion inside a pass keeps the invariant, for the rows left. *)
Lemma promote_step w row rows stack c f s :
  NoDup (t_id <$> db_tasks (w_db w)) → (∀ r, r ∈ rows → t_id r ≠ t_id row) →
  (∀ r, r ∈ row :: rows → r ∈ db_tasks (w_db w) ∧ refresh_candidate (w_db w) r = true) →
  refresh_inv (w_db w) stack c (row :: rows) → promotion f s →
  status_for_deps (w_db w) (t_deps row) = Ok s →
  ∃ w1 n, update_tasks false (λ t, String.eqb (t_id t) (t_id row)) f w = (w1, Ok n) ∧
    promotes w w1 ∧ NoDup (t_id <$> db_tasks (w_db w1)) ∧
    (∀ r, r ∈ rows → r ∈ db_tasks (w_db w1) ∧ refresh_candidate (w_db w1) r = true) ∧
    candidates (w_db w1) < candidates (w_db w) ∧
    refresh_inv (w_db w1) (if bool_decide (s = Ts_Failed) then t_id row :: stack else stack) c rows.
Proof.
  intros Hnd Hne Hrows Hinv Hf Hstat. destruct (Hrows row ltac:(left)) as [Hrow Hcand].
  assert (s ≠ Ts_Cancelled) as Hs by (by destruct Hf as [[_ ->]|(? & _ & ->)]).
  destruct (promote_one w row f s Hnd Hrow Hcand Hf) as (Hup & Hprom & Hst & Hback & Hfwd & Hcnt).
  eexists _, _. split; [exact Hup|]. split_and!.
  - eapply promote_justified; try done; by destruct (Hinv row Hrow Hcand).
  - cbn. by rewrite (promoted_ids _ _ Hprom).
  - intros r Hr. destruct (Hrows r ltac:(by right)). split; [by apply Hfwd; auto|done].
  - done.
  - intros t Ht Hct. destruct (Hback t Ht Hct) as [Ht0 Hid].
    destruct (Hinv t Ht0 Hct) as [Hl Hcs]. split; [by eapply deps_live_update|].
    destruct Hcs as [Hw|[(d & Hd & Hdt)|[Hc Hr]]].
    + destruct (decide (t_id row ∈ t_deps t ∧ s = Ts_Failed)) as [[Hin ->]|Hno].
      * right. left. exists (t_id row). rewrite bool_decide_true by done. split; [left|done].
      * left. eapply waiting_update; [done| |done]. intros Hin.
        destruct Hf as [[_ ->]|(? & _ & ->)]; [done|]. by destruct Hno.
    + right. left. exists d. split; [|done]. case_bool_decide; [by right|done].
    + right. right. split; [done|]. by apply elem_of_cons in Hr as [->|Hr].
Qed.

(** Once the head row is known to wait, or not to depend on [c], it needs no visit. *)
Lemma refresh_inv_skip db stack c row rows :
  refresh_inv db stack c (row :: rows) → (c ∈ t_deps row → waiting db (t_deps row)) →
  refresh_inv db stack c rows.
Proof.
  intros Hinv Hw t Ht Hct. destruct (Hinv t Ht Hct) as [Hl Hcs]. split; [done|].
  destruct Hcs as [?|[?|[Hc Hr]]]; auto. apply elem_of_cons in Hr as [->|Hr]; auto.
Qed.

Lemma existsb_eqb_elem c l : existsb (String.eqb c) l = true ↔ c ∈ l.
Proof.
  rewrite existsb_exists, list_elem_of_In. split.
  - intros (x & Hx & ->%String.eqb_eq). done.
  - intros Hc. exists c. by rewrite String.eqb_refl.
Qed.

Lemma refresh_rows_spec c rows stack w :
  NoDup (t_id <$> db_tasks (w_db w)) → NoDup (t_id <$> rows) →
  (∀ row, row ∈ rows → row ∈ db_tasks (w_db w) ∧ refresh_candidate (w_db w) row = true) →
  refresh_inv (w_db w) stack c rows →
  ∃ w' stack', refresh_rows c rows stack w = (w', Ok stack') ∧ promotes w w' ∧
    refresh_inv (w_db w') stack' c [] ∧
    length stack' + candidates (w_db w') ≤ length stack + candidates (w_db w).
Proof.
  revert stack w. induction rows as [|row rows IH]; intros stack w Hnd Hndr Hrows Hinv.
  { exists w, stack. split_and!; [done|apply promotes_refl|done|done]. }
  cbn [refresh_rows]. apply NoDup_cons in Hndr as [Hnew Hndr].
  assert (∀ r, r ∈ rows → t_id r ≠ t_id row) as Hne.
  { intros r Hr Heq. apply Hnew. rewrite <-Heq. by apply list_elem_of_fmap_2. }
  assert (∀ r, r ∈ rows → r ∈ db_tasks (w_db w) ∧ refresh_candidate (w_db w) r = true) as Hrows'
    by (intros r Hr; apply Hrows; by right).
  destruct (existsb (String.eqb c) (t_deps row)) eqn:Edep; cbn [negb].
  2: { apply IH; try done. eapply refresh_inv_skip; [done|].
       intros Hc%existsb_eqb_elem. congruence. }
  unfold get_db, gets, bind at 1. cbn beta iota.
  destruct (Hrows row ltac:(left)) as [Hrow Hcand]. destruct (Hinv row Hrow Hcand) as [Hlive _].
  destruct (decide (status_for_deps (w_db w) (t_deps row) = Ok Ts_Pending)) as [Epend|Enp].
  { rewrite Epend. apply status_for_deps_pending in Epend as [_ Hwait].
    apply IH; try done. by eapply refresh_inv_skip. }
  destruct (status_for_deps_failed_or_ready (w_db w) (t_deps row)) as [Hsd|Hsd];
    [done| |rewrite Hsd|rewrite Hsd].
  { intros Hw. apply Enp. by apply waiting_status. }
  - destruct (promote_step w row rows stack c (fail_by_dependency c) Ts_Failed)
      as (w1 & n & Hup & Hp & Hnd1 & Hr1 & Hc1 & Hi1); try done; [right; eauto|].
    rewrite (bind_ok _ _ _ _ _ Hup). rewrite bool_decide_true in Hi1 by done.
    destruct (IH _ _ Hnd1 Hndr Hr1 Hi1) as (w' & stack' & Hrun & Hp' & Hi' & Hlen).
    exists w', stack'. split_and!; [done|by eapply promotes_trans|done|cbn in *; lia].
  - destruct (promote_step w row rows stack c (with_t_status Ts_Ready) Ts_Ready)
      as (w1 & n & Hup & Hp & Hnd1 & Hr1 & Hc1 & Hi1); try done; [left; eauto|].
    rewrite (bind_ok _ _ _ _ _ Hup). rewrite bool_decide_false in Hi1 by done.
    destruct (IH _ _ Hnd1 Hndr Hr1 Hi1) as (w' & stack' & Hrun & Hp' & Hi' & Hlen).
    exists w', stack'. split_and!; [done|by eapply promotes_trans|done|lia].
Qed.

Lemma promotes_ids w w' :
  promotes w w' → t_id <$> db_tasks (w_db w') = t_id <$> db_tasks (w_db w).
Proof. intros Hp. by apply promoted_ids, promotes_promoted. Qed.

(** The invariant of the whole loop: [dag_ok] up to the ids still on the stack. *)
Definition dag_upto (db : Db) (stack : list string) : Prop :=
  ∀ t, t ∈ db_tasks db → refresh_candidate db t = true →
    deps_live db (t_deps t) ∧ (waiting db (t_deps t) ∨ ∃ d, d ∈ stack ∧ d ∈ t_deps t).

Lemma refresh_loop_spec fuel stack w :
  NoDup (t_id <$> db_tasks (w_db w)) → dag_upto (w_db w) stack →
  length stack + candidates (w_db w) ≤ fuel →
  ∃ w', refresh_loop fuel stack w = (w', Ok tt) ∧ promotes w w' ∧ dag_ok (w_db w').
Proof.
  revert stack w. induction fuel as [|fuel IH]; intros [|c stack] w Hnd Hup Hfuel; cbn in Hfuel;
    try lia; cbn [refresh_loop].
  - exists w. split_and!; [done|apply promotes_refl|].
    intros t Ht Hc. destruct (Hup t Ht Hc) as [? [?|(d & Hd & _)]]; [done|].
    by apply not_elem_of_nil in Hd.
  - exists w. split_and!; [done|apply promotes_refl|].
    intros t Ht Hc. destruct (Hup t Ht Hc) as [? [?|(d & Hd & _)]]; [done|].
    by apply not_elem_of_nil in Hd.
  - unfold select, gets, bind at 1. cbn beta iota.
    destruct (refresh_rows_spec c (List.filter (refresh_candidate (w_db w)) (db_tasks (w_db w)))
                stack w) as (w1 & stack1 & Hrows & Hp1 & Hi1 & Hlen); [done| | | |].
    + by apply NoDup_key_filter.
    + intros row Hrow. rewrite list_elem_of_In, filter_In, <-list_elem_of_In in Hrow. done.
    + intros t Ht Hct. destruct (Hup t Ht Hct) as [Hl [Hw|(d & Hd & Hdt)]]; [by auto|].
      split; [done|]. apply elem_of_cons in Hd as [->|Hd]; [|by eauto].
      right. right. split; [done|]. by rewrite list_elem_of_In, filter_In, <-list_elem_of_In.
    + rewrite (bind_ok _ _ _ _ _ Hrows).
      destruct (IH stack1 w1) as (w' & Hrun & Hp' & Hok); [by rewrite (promotes_ids w w1)| |lia|].
      * intros t Ht Hct. destruct (Hi1 t Ht Hct) as [Hl [?|[?|[_ Hr]]]]; auto.
        by apply not_elem_of_nil in Hr.
      * exists w'. split_and!; [done|by eapply promotes_trans|done].
Qed.

Lemma refresh_spec c w :
  NoDup (t_id <$> db_tasks (w_db w)) → dag_upto (w_db w) [c] →
  ∃ w', refresh_pending_dependents_after_task_status c w = (w', Ok tt) ∧
        promotes w w' ∧ dag_ok (w_db w').
Proof.
  intros Hnd Hup. unfold refresh_pending_dependents_after_task_status.
  unfold select, gets, bind. apply refresh_loop_spec; [done|done|].
  unfold refresh_fuel, candidates. cbn. lia.
Qed.

(** After one task's status changed, the DAG is consistent up to that task. *)
Lemma dag_upto_update db db' c s :
  dag_ok db → s ≠ Ts_Cancelled → db_runs db' = db_runs db →
  (∀ d, task_status db' d = if String.eqb c d then Some s else task_status db d) →
  (∀ t, t ∈ db_tasks db' → refresh_candidate db' t = true →
     ∃ t0, t0 ∈ db_tasks db ∧ refresh_candidate db t0 = true ∧ t_deps t0 = t_deps t) →
  dag_upto db' [c].
Proof.
  intros Hok Hs Hruns Hst Hback t Ht Hct. destruct (Hback t Ht Hct) as (t0 & Ht0 & Hc0 & Hd).
  destruct (Hok t0 Ht0 Hc0) as [Hl Hw]. rewrite Hd in *. split; [by eapply deps_live_update|].
  destruct (decide (c ∈ t_deps t)) as [Hin|Hni]; [right; exists c; split; [left|done]|].
  left. by eapply waiting_update.
Qed.

(** ** What a refresh never touches *)

Section Frame.
Context (R : Db → Db → Prop) `{!Reflexive R, !Transitive R}.
Context (HR : ∀ sr p f, respects R (update_tasks sr p f)).

Lemma respects_refresh_rows c rows stack : respects R (refresh_rows c rows stack).
Proof.
  revert stack. induction rows as [|row rows IH]; intros stack; cbn [refresh_rows].
  { by apply (respects_ret R). }
  destruct (negb _); [apply IH|]. apply (respects_bind R); [by apply respects_get_db|].
  intros db. destruct (status_for_deps db (t_deps row)) as [[]|]; try apply IH;
    first [by apply (respects_fail R) | apply (respects_bind R); [apply HR|intros ?; apply IH]].
Qed.

Lemma respects_refresh_loop fuel stack : respects R (refresh_loop fuel stack).
Proof.
  revert stack. induction fuel as [|fuel IH]; intros [|c stack]; cbn [refresh_loop];
    try by apply (respects_ret R). { by apply (respects_bail R). }
  apply (respects_bind R); [by apply respects_select|]. intros rows.
  apply (respects_bind R); [apply respects_refresh_rows|]. intros ?. apply IH.
Qed.

Lemma respects_refresh c : respects R (refresh_pending_dependents_after_task_status c).
Proof.
  apply (respects_bind R); [by apply respects_select|]. intros fuel. apply respects_refresh_loop.
Qed.
End Frame.

Definition tasks_only (db db' : Db) : Prop := ∃ ts, db' = set_tasks ts db.
#[export] Instance tasks_only_refl : Reflexive tasks_only.
Proof. intros []. by eexists. Qed.
#[export] Instance tasks_only_trans : Transitive tasks_only.
Proof. intros db1 db2 db3 [ts ->] [ts' ->]. by exists ts'. Qed.

Lemma refresh_tasks_only c w w' r :
  refresh_pending_dependents_after_task_status c w = (w', r) → tasks_only (w_db w) (w_db w').
Proof.
  intros Hr. revert Hr. apply respects_refresh; [exact _|exact _|].
  intros sr p f w0 w1 r0 [->| ->]%update_tasks_any; [reflexivity|by eexists].
Qed.
End Refresh.

(** Carry the tables a refresh does not touch across it. *)
Ltac refresh_frame :=
  frame_cbn;
  repeat match goal with
  | Hr : refresh_pending_dependents_after_task_status _ _ = (?w, _)
    |- context [db_dispatches (w_db ?w)] =>
      let ts := fresh "ts" in let E := fresh "E" in
      destruct (refresh_tasks_only _ _ _ _ Hr) as [ts E]; rewrite E
  | Hr : refresh_pending_dependents_after_task_status _ _ = (?w, _)
    |- context [db_runs (w_db ?w)] =>
      let ts := fresh "ts" in let E := fresh "E" in
      destruct (refresh_tasks_only _ _ _ _ Hr) as [ts E]; rewrite E
  end; frame_rewrite.
