(* ===== verification/Cancellation.v ===== *)
(** * Cancellation: cancelling and recovering tasks

    orchestration_task_cancellation.rs (the cascade to every task that still
    waits on the cancelled one, with their dispatches, messages and gates) and
    orchestration_task_recovery_store.rs (recovery of a stalled task, startup
    failures without a dispatch, and the reset of all orchestration state). *)

From S2P Require Import Prelude Text Models Store StoreFacts RoleContract Tasks Dag.
From Stdlib Require Import ZArith Lia Ascii String.
From stdpp Require Import strings prelude.

Section WithEnv.
Context `{Env}.

(** ** The cascade *)

(** [status IN ('pending','ready','blocked','stalled')]: not yet started, so a
    cancelled dependency cancels the task too. *)
Definition cancellable (t : OrchestrationTask) : bool :=
  match t_status t with
  | Ts_Pending | Ts_Ready | Ts_Blocked | Ts_Stalled => true
  | _ => false
  end.

(** The rows that depend on [changed], appended to [cancelled] once each. *)
Fixpoint cascade_rows (changed : string) (rows : list OrchestrationTask)
    (cancelled : list string) : list string :=
  match rows with
  | [] => cancelled
  | row :: rows =>
      if existsb (String.eqb changed) (t_deps row) && negb (bool_decide (t_id row ∈ cancelled))
      then cascade_rows changed rows (cancelled ++ [t_id row])
      else cascade_rows changed rows cancelled
  end.

(** [while cursor < cancelled.len()]. *)
Fixpoint cascade_loop (fuel : nat) (db : Db) (cursor : nat) (cancelled : list string)
    : option (list string) :=
  match cancelled !! cursor with
  | None => Some cancelled
  | Some changed =>
      match fuel with
      | 0 => None
      | S fuel =>
          cascade_loop fuel db (S cursor)
            (cascade_rows changed (List.filter cancellable (db_tasks db)) cancelled)
      end
  end.

(** The list grows at most to the root plus every task of the table. *)
Definition cascade (db : Db) (id : string) : option (list string) :=
  cascade_loop (S (length (db_tasks db))) db 0 [id].

(** ** Settling one cancelled task *)

Definition open_task (t : OrchestrationTask) : bool :=
  match t_status t with
  | Ts_Completed | Ts_Failed | Ts_Cancelled => false
  | _ => true
  end.

Definition cancel_row (reason : string) (t : OrchestrationTask) : OrchestrationTask :=
  with_t_completed_at (Some now) (with_t_cancelled_at (Some now)
    (with_t_result (Some (default reason (t_result t))) (with_t_status Ts_Cancelled t))).

Definition obsolete_message (m : OrchestrationMessage) : OrchestrationMessage :=
  with_m_obsolete_at (Some now) (with_m_state St_Obsolete m).

Definition cancel_one (id reason task_id : string) : SM unit :=
  let task_reason :=
    if String.eqb task_id id then reason else "dependency cancelled: " +:+ id in
  let! changed := update_tasks false
    (λ t, String.eqb (t_id t) task_id && open_task t) (cancel_row task_reason) in
  do! (if Nat.ltb 0 changed
       then record_task_run_event task_id Ev_TaskCancelled task_reason None
       else ret tt) in
  do! update_dispatches true (active_of_task task_id)
        (λ d, with_d_completed_at (Some now) (with_d_status Ds_Cancelled d)) in
  do! update_messages
        (λ m, bool_decide (m_task_id m = Some task_id) && bool_decide (m_state m = St_Queued))
        obsolete_message in
  do! update_gates
        (λ g, bool_decide (g_task_id g = Some task_id) && bool_decide (g_status g = Gs_Pending))
        (λ g, with_g_resolved_at (Some now) (with_g_status Gs_Timeout g)) in
  ret tt.

Definition cancel_orchestration_task (id reason : string) : SM OrchestrationTask :=
  do! tx (
    let! status := select (λ db, task_status db id) in
    match status with
    | None => bail ("orchestration task not found: " +:+ id)
    | Some Ts_Cancelled => ret tt
    | Some Ts_Completed | Some Ts_Failed =>
        bail ("cannot cancel terminal orchestration task " +:+ id)
    | Some _ =>
        let! cancelled := select (λ db, cascade db id) in
        match cancelled with
        | None => bail "out of fuel"
        | Some cancelled => mapM_ (cancel_one id reason) cancelled
        end
    end) in
  task_after id ("orchestration task not found after cancellation: " +:+ id).

(** ** Recovery *)

Definition recover_stalled_orchestration_task (id : string) (status : OrchestrationTaskStatus)
    (actor_handle : option string) (reason : string) (force : bool) : SM OrchestrationTask :=
  if negb (match status with Ts_Ready | Ts_Failed | Ts_Cancelled => true | _ => false end)
  then bail "recovery status must be ready, failed, or cancelled"
  else
    let! row := orchestration_task_by_id id in
    match row with
    | None => bail ("orchestration task not found: " +:+ id)
    | Some task =>
        if negb (bool_decide (t_status task = Ts_Stalled))
        then bail ("task " +:+ id +:+ " is not stalled")
        else
          let! isolated_task := select (λ db, existsb
            (λ t, String.eqb (t_id t) id && run_isolated db (t_run_id t)) (db_tasks db)) in
          if negb (bool_decide (status = Ts_Cancelled)) && isolated_task
          then bail "stalled isolated recovery requires terminal settlement and a fresh attempt"
          else
            let! result :=
              (if bool_decide (status = Ts_Cancelled) then cancel_orchestration_task id reason
               else update_orchestration_task_status id status (Some reason)) in
            do! insert_orchestration_audit_event actor_handle
                  (if force then "task.recover.force" else "task.recover") id reason in
            ret result
    end.

(** A ready task whose worker never started: the third failure stalls it. *)
Definition startup_failed_row (error : string) (t : OrchestrationTask) : OrchestrationTask :=
  let count := (t_startup_failure_count t + 1)%Z in
  with_t_stalled_at (if (3 <=? count)%Z then Some now else None)
    (with_t_result (Some error)
      (with_t_status (if (3 <=? count)%Z then Ts_Stalled else Ts_Ready)
        (with_t_startup_failure_count count t))).

Definition record_orchestration_task_startup_failure (id error : string) : SM OrchestrationTask :=
  let! busy := select (λ db, existsb (active_of_task id) (db_dispatches db)) in
  let! n := update_tasks false
    (λ t, String.eqb (t_id t) id && bool_decide (t_status t = Ts_Ready) && negb busy)
    (startup_failed_row error) in
  if Nat.eqb n 0 then bail "task startup failure rejected: task is missing or terminal"
  else task_after id "task not found after startup failure".

(** ** Reset

    What the foreign keys delete or refuse is [RunTriggers.reset_orchestration]. *)

Definition reset_orchestration_tasks : SM unit :=
  tx (
    let! active_workflow := select (λ db, existsb (λ l,
      existsb (λ d, String.eqb (d_id d) (l_dispatch_id l) && d_active d) (db_dispatches db))
      (db_launches db)) in
    if active_workflow
    then bail "settle active workflow workers before resetting orchestration"
    else modify (with_db (λ db,
      set_tasks [] (set_dispatches [] (set_gates [] (set_events [] (set_runs [] db))))))).

End WithEnv.
