(* ===== verification/Dispatch.v ===== *)
(** * Dispatch: handing tasks to terminals

    run_dispatch.rs (the one write path for dispatch contexts),
    orchestration_dispatch_store.rs (creation and lookup),
    orchestration_dispatch_lease_store.rs (acceptance, activity, startup
    failure, the lease sweep) and orchestration_dispatch_outcome_store.rs
    (failure with the circuit breaker, completion). *)

From S2P Require Import Prelude Text Models Store StoreFacts RoleContract Tasks Dag Cancellation.
From Stdlib Require Import ZArith Lia Ascii String.
From stdpp Require Import strings prelude.

Definition ORCHESTRATION_CIRCUIT_BREAKER_THRESHOLD : Z := 3.

(** ** Queries *)

Definition dispatch_by_id (db : Db) (id : string) : option OrchestrationDispatchContext :=
  find_where (λ d, String.eqb (d_id d) id) (db_dispatches db).

Definition orchestration_dispatch_by_id (id : string) : SM (option OrchestrationDispatchContext) :=
  select (λ db, dispatch_by_id db id).

Definition active_orchestration_dispatch_for_task (task_id : string)
    : SM (option OrchestrationDispatchContext) :=
  select (λ db, active_dispatch_for_task db task_id).

Definition active_of_handle (handle : string) (d : OrchestrationDispatchContext) : bool :=
  bool_decide (d_assignee_handle d = Some handle) && d_active d.

Definition active_orchestration_dispatch_for_handle (assignee_handle : string)
    : SM (option OrchestrationDispatchContext) :=
  select (λ db, find_last_where (active_of_handle assignee_handle) (db_dispatches db)).

Definition latest_orchestration_dispatch_for_handle (assignee_handle : string)
    : SM (option OrchestrationDispatchContext) :=
  select (λ db, find_last_where
    (λ d, bool_decide (d_assignee_handle d = Some assignee_handle)) (db_dispatches db)).

Definition list_orchestration_dispatches_for_task (task_id : string)
    : SM (list OrchestrationDispatchContext) :=
  select (λ db, List.filter (λ d, String.eqb (d_task_id d) task_id) (db_dispatches db)).

Definition dispatch_after (id missing : string) : SM OrchestrationDispatchContext :=
  let! row := orchestration_dispatch_by_id id in
  match row with
  | Some d => ret d
  | None => bail missing
  end.

(** ** Targets (run_dispatch.rs) *)

Inductive DispatchTarget : Type :=
| Target_Terminal (handle coordinator_handle terminal_policy : string)
| Target_Attempt (workspace_id terminal_handle launch_id profile_name : string)
    (quota_group : option string).

Definition target_assignee (target : DispatchTarget) : string :=
  match target with
  | Target_Terminal handle _ _ => handle
  | Target_Attempt _ terminal_handle _ _ _ => terminal_handle
  end.

Record NewRunDispatch : Type := MkNewRunDispatch {
  nd_id : string;
  nd_task_id : string;
  nd_run_id : option string;
  nd_workspace_id : string;
  nd_context_token_hash : option string;
  nd_failure_count : Z;
  nd_target : DispatchTarget
}.

Definition task_isolated (db : Db) (task_id : string) : bool :=
  existsb (λ t, String.eqb (t_id t) task_id && run_isolated db (t_run_id t)) (db_tasks db).

(** [SELECT id FROM runWorkspaces WHERE task_id = ? ORDER BY attempt DESC LIMIT 1]. *)
Definition current_attempt (db : Db) (task_id : string) : option RunWorkspace :=
  foldl (λ best x, match best with
                   | Some b => if (x_attempt b <? x_attempt x)%Z then Some x else best
                   | None => Some x
                   end) None
    (List.filter (λ x, bool_decide (x_task_id x = Some task_id)) (db_workspaces db)).

Definition ensure_dispatch_target_allowed (task_id : string) (target : DispatchTarget) : SM unit :=
  let! isolated := select (λ db, task_isolated db task_id) in
  match target with
  | Target_Terminal _ _ _ =>
      if isolated
      then bail "isolated runs dispatch only to the terminal of the task's current attempt"
      else ret tt
  | Target_Attempt workspace_id terminal_handle launch_id _ _ =>
      let! current := select (λ db, existsb (λ l,
        String.eqb (l_id l) launch_id && String.eqb (l_task_id l) task_id
        && String.eqb (l_terminal_handle l) terminal_handle
        && String.eqb (l_workspace_id l) workspace_id
        && bool_decide (x_id <$> current_attempt db task_id = Some (l_workspace_id l)))
        (db_launches db)) in
      if negb isolated || negb current
      then bail "an attempt dispatch requires the task's current isolated attempt"
      else ret tt
  end.

Section WithEnv.
Context `{Env}.

Definition new_dispatch_row (dispatch : NewRunDispatch) : OrchestrationDispatchContext :=
  let '(coordinator, policy, profile, quota) :=
    match nd_target dispatch with
    | Target_Terminal _ coordinator_handle terminal_policy =>
        (coordinator_handle, terminal_policy, None, None)
    | Target_Attempt _ _ _ profile_name quota_group =>
        ("", "keep-open", Some profile_name, quota_group)
    end in
  MkOrchestrationDispatchContext (nd_id dispatch) (nd_task_id dispatch)
    (Some (target_assignee (nd_target dispatch))) Ds_AwaitingAcceptance (nd_failure_count dispatch)
    None (Some now) None now (nd_run_id dispatch) (nd_workspace_id dispatch) coordinator None
    (Some now) (nd_context_token_hash dispatch) policy None None profile quota.

Definition create_run_dispatch (dispatch : NewRunDispatch) : SM unit :=
  do! ensure_dispatch_target_allowed (nd_task_id dispatch) (nd_target dispatch) in
  do! insert_dispatch (new_dispatch_row dispatch) in
  do! update_tasks false (λ t, String.eqb (t_id t) (nd_task_id dispatch))
        (with_t_status Ts_Dispatched) in
  match nd_run_id dispatch with
  | Some run_id =>
      do! record_run_event (with_ne_summary (target_assignee (nd_target dispatch))
            (with_ne_dispatch_id (Some (nd_id dispatch))
              (with_ne_task_id (Some (nd_task_id dispatch)) (new_run_event run_id Ev_Dispatched)))) in
      ret tt
  | None => ret tt
  end.

Definition ensure_terminal_dispatch_allowed (task_id : string) : SM unit :=
  ensure_dispatch_target_allowed task_id (Target_Terminal "" "" "").

(** ** Creation (orchestration_dispatch_store.rs) *)

(** [COALESCE(MAX(failure_count), 0)] over the dispatches of a task. *)
Definition carried_failures (db : Db) (task_id : string) : Z :=
  match d_failure_count <$> List.filter (λ d, String.eqb (d_task_id d) task_id) (db_dispatches db) with
  | [] => 0
  | z :: zs => foldr Z.max z zs
  end.

Definition create_scoped_orchestration_dispatch (task_id assignee_handle : string)
    (run_id : option string) (workspace_id coordinator_handle : string)
    (context_token_hash : option string) (terminal_policy : string)
    : SM OrchestrationDispatchContext :=
  let! id := tx (
    let! status := select (λ db, task_status db task_id) in
    match status with
    | None => bail ("orchestration task not found: " +:+ task_id)
    | Some Ts_Ready =>
        let! busy := select (λ db, find_where (active_of_handle assignee_handle) (db_dispatches db)) in
        match busy with
        | Some _ => bail ("terminal " +:+ assignee_handle +:+ " already has an active dispatch")
        | None =>
            let! carried := select (λ db, carried_failures db task_id) in
            let! id := orchestration_id "ctx" in
            do! create_run_dispatch (MkNewRunDispatch id task_id run_id workspace_id
                  context_token_hash carried
                  (Target_Terminal assignee_handle coordinator_handle terminal_policy)) in
            ret id
        end
    | Some other =>
        bail ("task " +:+ task_id +:+ " is not ready (status: "
              +:+ OrchestrationTaskStatus_as_str other +:+ ")")
    end) in
  dispatch_after id "inserted dispatch context not found".

(** ** Lease (orchestration_dispatch_lease_store.rs) *)

Definition accept_orchestration_dispatch (dispatch_id assignee_handle context_token_hash : string)
    : SM OrchestrationDispatchContext :=
  do! tx (
    let! previous := select (λ db, d_status <$> dispatch_by_id db dispatch_id) in
    let! affected := update_dispatches true
      (λ d, String.eqb (d_id d) dispatch_id
            && bool_decide (d_assignee_handle d = Some assignee_handle)
            && (bool_decide (d_context_token_hash d = Some context_token_hash)
                || bool_decide (d_context_token_hash d = None))
            && (bool_decide (d_status d = Ds_AwaitingAcceptance)
                || bool_decide (d_status d = Ds_Dispatched)))
      (λ d, with_d_last_activity_at (Some now)
              (with_d_accepted_at (Some (default now (d_accepted_at d)))
                (with_d_status Ds_Dispatched d))) in
    if Nat.eqb affected 0
    then bail "dispatch acceptance rejected: stale context or wrong assignee"
    else if bool_decide (previous = Some Ds_AwaitingAcceptance)
    then record_dispatch_run_event dispatch_id Ev_Accepted "" None
    else ret tt) in
  dispatch_after dispatch_id ("dispatch context not found after acceptance: " +:+ dispatch_id).

Definition create_orchestration_dispatch (task_id assignee_handle : string)
    : SM OrchestrationDispatchContext :=
  let! dispatch := create_scoped_orchestration_dispatch task_id assignee_handle None "global"
    "coordinator" None "keep-open" in
  accept_orchestration_dispatch (d_id dispatch) assignee_handle "".

(** Returns a stalled dispatch and its task to [dispatched]; a workflow attempt
    whose launch no longer allows it stays stalled. *)
Definition revive_stalled_dispatch (dispatch_id : string) : SM bool :=
  let! revived := catch_database
    (let! n := update_dispatches true
       (λ d, String.eqb (d_id d) dispatch_id && bool_decide (d_status d = Ds_Stalled))
       (λ d, with_d_last_activity_at (Some now) (with_d_status Ds_Dispatched d)) in
     ret (Nat.ltb 0 n))
    (λ msg, if str_contains "workflow dispatch" msg then ret false else fail (Database msg)) in
  do! (if revived then
         let! task_id := select (λ db, d_task_id <$> dispatch_by_id db dispatch_id) in
         do! update_tasks false
               (λ t, bool_decide (Some (t_id t) = task_id) && bool_decide (t_status t = Ts_Stalled))
               (λ t, with_t_stalled_at None (with_t_status Ts_Dispatched t)) in
         ret tt
       else ret tt) in
  ret revived.

Definition record_orchestration_activity (dispatch_id : string) : SM ActivityOutcome :=
  tx (
    let! n := update_dispatches false
      (λ d, String.eqb (d_id d) dispatch_id && bool_decide (d_status d = Ds_Dispatched))
      (with_d_last_activity_at (Some now)) in
    let! outcome :=
      (if Nat.ltb 0 n then ret Recorded
       else let! revived := revive_stalled_dispatch dispatch_id in
            ret (if revived then Revived else Ignored)) in
    match outcome with
    | Ignored => ret Ignored
    | _ =>
        let! run_id := select (λ db, dispatch_by_id db dispatch_id ≫= d_run_id) in
        do! update_runs (λ r, bool_decide (Some (r_id r) = run_id)) (with_r_last_activity_at now) in
        ret outcome
    end).

(** The task row after a failed startup: the third failure stalls it. *)
Definition startup_failure_row (t : OrchestrationTask) : OrchestrationTask :=
  let count := (t_startup_failure_count t + 1)%Z in
  with_t_stalled_at (if (3 <=? count)%Z then Some now else None)
    (with_t_status (if (3 <=? count)%Z then Ts_Stalled else Ts_Ready)
      (with_t_startup_failure_count count t)).

Definition fail_orchestration_startup (dispatch_id error : string)
    : SM OrchestrationDispatchContext :=
  let! done := tx (
    let! row := orchestration_dispatch_by_id dispatch_id in
    match row with
    | None => bail ("dispatch context not found: " +:+ dispatch_id)
    | Some ctx =>
        if bool_decide (d_status ctx = Ds_StartupFailed) then ret (Some ctx)
        else if negb (bool_decide (d_status ctx = Ds_AwaitingAcceptance))
        then bail ("dispatch " +:+ dispatch_id +:+ " is not awaiting acceptance")
        else
          do! update_dispatches true (λ d, String.eqb (d_id d) dispatch_id)
                (λ d, with_d_completed_at (Some now)
                        (with_d_startup_error (Some error) (with_d_status Ds_StartupFailed d))) in
          do! update_tasks false (λ t, String.eqb (t_id t) (d_task_id ctx)) startup_failure_row in
          let! status := select (λ db, task_status db (d_task_id ctx)) in
          match status with
          | None => fail (Database "no rows returned")
          | Some s =>
              let stalled := bool_decide (s = Ts_Stalled) in
              do! record_dispatch_run_event dispatch_id
                    (if stalled then Ev_TaskStalled else Ev_TaskFailed)
                    (if stalled then "Startup failed three times: " +:+ error
                     else "Startup failed: " +:+ error)
                    (Some (JObject [("willRetry", JBool (negb stalled))])) in
              ret None
          end
    end) in
  match done with
  | Some ctx => ret ctx
  | None => dispatch_after dispatch_id "dispatch context not found after startup failure"
  end.

(** [COALESCE(last_activity_at, accepted_at, dispatched_at) < threshold]. *)
Definition lease_expired (threshold_iso : string) (d : OrchestrationDispatchContext) : bool :=
  bool_decide (d_status d = Ds_Dispatched) &&
  match (match d_last_activity_at d with Some a => Some a
         | None => match d_accepted_at d with Some a => Some a | None => d_dispatched_at d end end) with
  | Some at_ => String.ltb at_ threshold_iso
  | None => false
  end.

(** The transaction the sweep runs for one selected dispatch. *)
Definition stall_one (ctx : OrchestrationDispatchContext) : SM unit :=
  tx (
    let! n := update_dispatches true
      (λ d, String.eqb (d_id d) (d_id ctx) && bool_decide (d_status d = Ds_Dispatched))
      (with_d_status Ds_Stalled) in
    do! (if Nat.ltb 0 n
         then record_dispatch_run_event (d_id ctx) Ev_TaskStalled "No activity within the lease." None
         else ret tt) in
    do! update_tasks false (λ t, String.eqb (t_id t) (d_task_id ctx))
          (λ t, with_t_stalled_at (Some now) (with_t_status Ts_Stalled t)) in
    ret tt).

Definition stall_expired_orchestration_dispatches (threshold_iso : string)
    : SM (list OrchestrationDispatchContext) :=
  let! contexts := select (λ db, List.filter (lease_expired threshold_iso) (db_dispatches db)) in
  do! mapM_ stall_one contexts in
  ret contexts.

Definition unaccepted_orchestration_dispatches (threshold_iso : string)
    : SM (list OrchestrationDispatchContext) :=
  select (λ db, List.filter (λ d,
    bool_decide (d_status d = Ds_AwaitingAcceptance)
    && match d_dispatched_at d with Some at_ => String.ltb at_ threshold_iso | None => false end
    && negb (has_launch db (d_id d))) (db_dispatches db)).

(** ** Outcome (orchestration_dispatch_outcome_store.rs) *)

Definition obsolete_dispatch_messages (dispatch_id : string) : SM nat :=
  update_messages
    (λ m, bool_decide (m_dispatch_id m = Some dispatch_id) && bool_decide (m_state m = St_Queued))
    obsolete_message.

Definition fail_orchestration_dispatch_with_result (dispatch_id error : string)
    (result : option string) : SM OrchestrationDispatchContext :=
  do! tx (
    let! row := orchestration_dispatch_by_id dispatch_id in
    match row with
    | None => bail ("dispatch context not found: " +:+ dispatch_id)
    | Some ctx =>
        let new_failure_count := (d_failure_count ctx + 1)%Z in
        let circuit_broken := (ORCHESTRATION_CIRCUIT_BREAKER_THRESHOLD <=? new_failure_count)%Z in
        let dispatch_status := if circuit_broken then Ds_CircuitBroken else Ds_Failed in
        let task_status := if circuit_broken then Ts_Failed else Ts_Ready in
        do! update_dispatches true (λ d, String.eqb (d_id d) dispatch_id)
              (λ d, with_d_completed_at (Some now) (with_d_last_failure (Some error)
                      (with_d_failure_count new_failure_count (with_d_status dispatch_status d)))) in
        do! update_tasks false (λ t, String.eqb (t_id t) (d_task_id ctx))
              (λ t, with_t_completed_at
                      (if bool_decide (task_status = Ts_Failed) then Some now else None)
                      (with_t_result (match result with Some _ => result | None => t_result t end)
                        (with_t_status task_status t))) in
        do! obsolete_dispatch_messages dispatch_id in
        do! (if bool_decide (task_status = Ts_Failed)
             then refresh_pending_dependents_after_task_status (d_task_id ctx)
             else ret tt) in
        record_dispatch_run_event dispatch_id Ev_TaskFailed error
          (Some (JObject [("willRetry", JBool (negb circuit_broken))]))
    end) in
  dispatch_after dispatch_id ("dispatch context not found after update: " +:+ dispatch_id).

Definition fail_orchestration_dispatch (dispatch_id error : string)
    : SM OrchestrationDispatchContext :=
  fail_orchestration_dispatch_with_result dispatch_id error None.

(** A successful completion resolves a worker's earlier escalation. *)
Definition clear_resolved_workflow_launch_attention (dispatch_id : string) : SM unit :=
  do! update_launches
        (λ l, String.eqb (l_dispatch_id l) dispatch_id && bool_decide (l_status l = Ls_Attention))
        (λ l, with_l_updated_at now (with_l_error None (with_l_status Ls_Started l))) in
  ret tt.

Definition json_opt_string (o : option string) : json :=
  match o with Some s => JString s | None => JNull end.

(** The [taskCompleted] event, with what the next task needs to start from. *)
Definition record_completion_event (ctx : OrchestrationDispatchContext) (assignee_handle : string)
    (completion_sha : option string) : SM unit :=
  match d_run_id ctx with
  | Some run_id =>
      let! launch := select (λ db, launch_of db (d_id ctx)) in
      let payload :=
        match launch with
        | Some l => JObject [("workspaceId", JString (l_workspace_id l));
                             ("sha", json_opt_string completion_sha);
                             ("baseSha", JString (l_base_sha l))]
        | None => JObject [("workspaceId", JString (d_workspace_id ctx))]
        end in
      do! record_run_event (with_ne_payload (Some payload)
            (with_ne_summary assignee_handle
              (with_ne_dispatch_id (Some (d_id ctx))
                (with_ne_task_id (Some (d_task_id ctx))
                  (new_run_event run_id Ev_TaskCompleted))))) in
      ret tt
  | None => ret tt
  end.

Definition complete_orchestration_dispatch_at_sha `{ContractLib}
    (dispatch_id assignee_handle result : string) (completion_sha : option string)
    : SM OrchestrationDispatchContext :=
  let! done := tx (
    let! row := orchestration_dispatch_by_id dispatch_id in
    match row with
    | None => bail ("dispatch context not found: " +:+ dispatch_id)
    | Some ctx =>
        let! workflow_dispatch := select (λ db, has_launch db dispatch_id) in
        if negb (Bool.eqb workflow_dispatch (bool_decide (is_Some completion_sha)))
        then bail "workflow dispatch completion must include its exact result SHA"
        else if bool_decide (d_status ctx = Ds_Completed) then
          if negb (bool_decide (d_assignee_handle ctx = Some assignee_handle))
          then bail "dispatch completion rejected: inactive context or wrong assignee"
          else
            let! status := select (λ db, task_status db (d_task_id ctx)) in
            if negb (bool_decide (status = Some Ts_Completed))
            then bail "dispatch completion rejected: dispatch closed without task completion"
            else if negb (bool_decide (d_completion_sha ctx = completion_sha))
            then bail "dispatch completion rejected: committed result SHA changed"
            else
              do! (if workflow_dispatch
                   then clear_resolved_workflow_launch_attention dispatch_id else ret tt) in
              ret (Some ctx)
        else if negb (bool_decide (d_status ctx = Ds_Dispatched)
                      || bool_decide (d_status ctx = Ds_Stalled))
                || negb (bool_decide (d_assignee_handle ctx = Some assignee_handle))
        then bail "dispatch completion rejected: inactive context or wrong assignee"
        else
          do! validate_task_contract_completion (d_task_id ctx) result in
          do! update_dispatches true (λ d, String.eqb (d_id d) dispatch_id)
                (λ d, with_d_completion_sha completion_sha (with_d_last_activity_at (Some now)
                        (with_d_completed_at (Some now) (with_d_status Ds_Completed d)))) in
          do! update_tasks false (λ t, String.eqb (t_id t) (d_task_id ctx))
                (λ t, with_t_completed_at (Some now)
                        (with_t_result (Some result) (with_t_status Ts_Completed t))) in
          do! (if workflow_dispatch
               then clear_resolved_workflow_launch_attention dispatch_id else ret tt) in
          do! record_completion_event ctx assignee_handle completion_sha in
          do! refresh_pending_dependents_after_task_status (d_task_id ctx) in
          do! obsolete_dispatch_messages dispatch_id in
          ret None
    end) in
  match done with
  | Some ctx => ret ctx
  | None => dispatch_after dispatch_id "dispatch context not found after completion"
  end.

Definition complete_orchestration_dispatch `{ContractLib} (dispatch_id assignee_handle result : string)
    : SM OrchestrationDispatchContext :=
  complete_orchestration_dispatch_at_sha dispatch_id assignee_handle result None.

(** [is_ascii_hexdigit && !is_ascii_uppercase]. *)
Definition is_lower_hex (c : ascii) : bool :=
  let n := byte_val c in
  (((48 <=? n) && (n <=? 57)) || ((97 <=? n) && (n <=? 102)))%N%bool.

Definition complete_workflow_orchestration_dispatch `{ContractLib}
    (dispatch_id assignee_handle result completion_sha : string)
    : SM OrchestrationDispatchContext :=
  if negb (Nat.eqb (String.length completion_sha) 40) || negb (all_bytes is_lower_hex completion_sha)
  then bail "workflow completion requires an exact committed result SHA"
  else complete_orchestration_dispatch_at_sha dispatch_id assignee_handle result
         (Some completion_sha).

End WithEnv.
