(* ===== verification/Gates.v ===== *)
(** * Gates: decisions a task waits for

    orchestration_gate_store.rs (decision gates and the gate queries) and
    orchestration_stall_store.rs (stall gates, and the dispatch a stalled task
    still holds). *)

From S2P Require Import Prelude Text Models Store StoreFacts RoleContract Tasks Dag Cancellation Dispatch.
From Stdlib Require Import ZArith Lia Ascii String.
From stdpp Require Import strings prelude.

(** ** Options *)

Definition STALL_GATE_KILL_AND_FAILOVER : string := "killAndFailover".
Definition STALL_GATE_KEEP_WAITING : string := "keepWaiting".
Definition STALL_GATE_ABORT_STAGE : string := "abortStage".
Definition STALL_GATE_OPTIONS : list string :=
  [STALL_GATE_KILL_AND_FAILOVER; STALL_GATE_KEEP_WAITING; STALL_GATE_ABORT_STAGE].
(** Internal resolution of a stall gate whose worker showed activity again. *)
Definition STALL_GATE_RESUMED : string := "resumed".

(** ** Queries *)

Definition gate_by_id (db : Db) (id : string) : option OrchestrationDecisionGate :=
  find_where (λ g, String.eqb (g_id g) id) (db_gates db).

Definition orchestration_gate_by_id (id : string) : SM (option OrchestrationDecisionGate) :=
  select (λ db, gate_by_id db id).

Definition gate_after (id missing : string) : SM OrchestrationDecisionGate :=
  let! row := orchestration_gate_by_id id in
  match row with
  | Some g => ret g
  | None => bail missing
  end.

Record GateFilter : Type := MkGateFilter {
  gf_run_id : option string;
  gf_task_id : option string;
  gf_kind : option RunGateKind;
  gf_status : option OrchestrationGateStatus
}.

Definition gate_matches (filter : GateFilter) (g : OrchestrationDecisionGate) : bool :=
  opt_matches (gf_run_id filter) (g_run_id g)
  && opt_matches (gf_task_id filter) (g_task_id g)
  && opt_matches (gf_kind filter) (Some (g_kind g))
  && opt_matches (gf_status filter) (Some (g_status g)).

(** [ORDER BY created_at ASC, rowid ASC]: the sort is stable and rows are in
    rowid order. *)
Definition list_gates (filter : GateFilter) : SM (list OrchestrationDecisionGate) :=
  select (λ db, sort_by (λ a b, String.leb (g_created_at a) (g_created_at b))
                  (List.filter (gate_matches filter) (db_gates db))).

Definition task_gate (g : OrchestrationDecisionGate) : bool :=
  match g_kind g with Gk_Decision | Gk_Stall => true | _ => false end.

Definition list_orchestration_gates (task_id : option string)
    (status : option OrchestrationGateStatus) : SM (list OrchestrationDecisionGate) :=
  let! gates := list_gates (MkGateFilter None task_id None status) in
  ret (List.filter task_gate gates).

Definition list_run_gates (run_id : string) : SM (list OrchestrationDecisionGate) :=
  select (λ db, List.filter (λ g, bool_decide (g_run_id g = Some run_id)) (db_gates db)).

(** A NULL [resolved_at] sorts first. *)
Definition resolved_at_le (a b : OrchestrationDecisionGate) : bool :=
  match g_resolved_at a, g_resolved_at b with
  | None, _ => true
  | Some _, None => false
  | Some x, Some y => String.leb x y
  end.

(** Stall gates a person resolved on tasks that are still stalled. *)
Definition actionable_stall_gate (db : Db) (g : OrchestrationDecisionGate) : bool :=
  bool_decide (g_kind g = Gk_Stall) && bool_decide (g_status g = Gs_Resolved)
  && existsb (λ t, bool_decide (g_task_id g = Some (t_id t)) && bool_decide (t_status t = Ts_Stalled))
       (db_tasks db)
  && match g_resolution g with
     | Some resolution => negb (String.eqb resolution STALL_GATE_RESUMED)
     | None => false
     end.

Definition resolved_stall_gates : SM (list OrchestrationDecisionGate) :=
  select (λ db, sort_by resolved_at_le (List.filter (actionable_stall_gate db) (db_gates db))).

(** The dispatch a stalled task is still holding, if any. *)
Definition stalled_orchestration_dispatch_for_task (task_id : string)
    : SM (option OrchestrationDispatchContext) :=
  let! active := active_orchestration_dispatch_for_task task_id in
  ret (match active with
       | Some d => if bool_decide (d_status d = Ds_Stalled) then Some d else None
       | None => None
       end).

Section WithEnv.
Context `{Env}.

(** ** Opening a gate *)

Definition new_gate_row (id : string) (kind : RunGateKind) (task : OrchestrationTask)
    (question : string) (options : list string) : OrchestrationDecisionGate :=
  MkOrchestrationDecisionGate id (t_run_id task) (Some (t_id task)) kind question options
    Gs_Pending None now None.

(** The run is taken from the task, so a gate on a task outside any run has no
    [run_id] and no timeline event. *)
Definition insert_task_gate (kind : RunGateKind) (task_id question : string)
    (options : list string) : SM string :=
  let! id := orchestration_id "gate" in
  let! row := orchestration_task_by_id task_id in
  match row with
  | None => bail ("orchestration task not found: " +:+ task_id)
  | Some task =>
      do! insert_gate (new_gate_row id kind task question options) in
      do! (match t_run_id task with
           | Some run_id =>
               do! record_run_event
                     (with_ne_payload (Some (JObject [("kind", JString (RunGateKind_as_str kind))]))
                       (with_ne_summary question
                         (with_ne_gate_id (Some id)
                           (with_ne_task_id (Some task_id)
                             (new_run_event run_id Ev_GateOpened))))) in
               ret tt
           | None => ret tt
           end) in
      ret id
  end.

(** Blocks the task and completes its active dispatch, so the worker terminal
    is released while the question is pending. *)
Definition create_orchestration_gate (task_id question : string) (options : list string)
    : SM OrchestrationDecisionGate :=
  let! id := tx (
    let! status := select (λ db, task_status db task_id) in
    match status with
    | None => bail ("orchestration task not found: " +:+ task_id)
    | Some Ts_Ready | Some Ts_Dispatched =>
        let! id := insert_task_gate Gk_Decision task_id question options in
        do! update_dispatches true (active_of_task task_id)
              (λ d, with_d_completed_at (Some now) (with_d_status Ds_Completed d)) in
        do! update_tasks false (λ t, String.eqb (t_id t) task_id) (with_t_status Ts_Blocked) in
        ret id
    | Some other =>
        bail ("task " +:+ task_id +:+ " cannot be gated while "
              +:+ OrchestrationTaskStatus_as_str other)
    end) in
  gate_after id "inserted decision gate not found".

(** ** Stall gates *)

Definition pending_task_gate (task_id : string) (g : OrchestrationDecisionGate) : bool :=
  bool_decide (g_task_id g = Some task_id) && task_gate g && bool_decide (g_status g = Gs_Pending).

(** Leaves the dispatch as it is and the task [stalled]; a task has at most one
    pending gate opened this way. *)
Definition create_orchestration_stall_gate (task_id question : string)
    : SM OrchestrationDecisionGate :=
  let! outcome := tx (
    let! status := select (λ db, task_status db task_id) in
    match status with
    | None => bail ("orchestration task not found: " +:+ task_id)
    | Some Ts_Stalled =>
        let! existing := select (λ db, find_where (pending_task_gate task_id) (db_gates db)) in
        match existing with
        | Some g => ret (g_id g, "pending stall gate not found")
        | None =>
            let! id := insert_task_gate Gk_Stall task_id question STALL_GATE_OPTIONS in
            ret (id, "inserted stall gate not found")
        end
    | Some other =>
        bail ("task " +:+ task_id +:+ " is not stalled (status: "
              +:+ OrchestrationTaskStatus_as_str other +:+ ")")
    end) in
  gate_after outcome.1 outcome.2.

Definition pending_stall_gate (task_id : string) (g : OrchestrationDecisionGate) : bool :=
  bool_decide (g_task_id g = Some task_id) && bool_decide (g_kind g = Gk_Stall)
  && bool_decide (g_status g = Gs_Pending).

(** Resolves the task's pending stall gate because its worker is active again. *)
Definition resolve_stall_gate_as_resumed (task_id : string)
    : SM (option OrchestrationDecisionGate) :=
  let! pending := select (λ db, find_last_where (pending_stall_gate task_id) (db_gates db)) in
  match pending with
  | None => ret None
  | Some g =>
      let id := g_id g in
      let! updated := tx (
        let! before := select (λ db, find_where
          (λ g, String.eqb (g_id g) id && bool_decide (g_status g = Gs_Pending)) (db_gates db)) in
        do! update_gates (λ g, String.eqb (g_id g) id && bool_decide (g_status g = Gs_Pending))
              (λ g, with_g_resolved_at (Some now)
                      (with_g_resolution (Some STALL_GATE_RESUMED) (with_g_status Gs_Resolved g))) in
        do! (match before ≫= g_run_id with
             | Some run_id =>
                 do! record_run_event
                       (with_ne_payload (Some (JObject [("kind", JString "stall")]))
                         (with_ne_summary STALL_GATE_RESUMED
                           (with_ne_gate_id (Some id)
                             (with_ne_task_id (Some task_id)
                               (new_run_event run_id Ev_GateResolved))))) in
                 ret tt
             | None => ret tt
             end) in
        ret before) in
      match updated with
      | None => ret None
      | Some _ => orchestration_gate_by_id id
      end
  end.

(** Keep waiting: the stalled dispatch returns to [dispatched] and its lease
    restarts. *)
Definition resume_stalled_orchestration_dispatch (task_id : string) : SM unit :=
  tx (
    do! update_dispatches true
          (λ d, String.eqb (d_task_id d) task_id && bool_decide (d_status d = Ds_Stalled))
          (λ d, with_d_last_activity_at (Some now) (with_d_status Ds_Dispatched d)) in
    do! update_tasks false
          (λ t, String.eqb (t_id t) task_id && bool_decide (t_status t = Ts_Stalled))
          (λ t, with_t_stalled_at None (with_t_status Ts_Dispatched t)) in
    ret tt).

End WithEnv.
