(* ===== verification/Messages.v ===== *)
(** * Messages: the mailbox of the orchestration store

    orchestration_message_store.rs: size limits, insertion with the escalation
    event, expiry, the queries a terminal or coordinator polls, and the read and
    delivered marks.

    Then the abstract mailbox: the list of letters that wait, oldest first, with
    the operations a post office has (post a letter, acknowledge letters by
    identifier, drop the expired ones, look into a box).  [waiting_letters] maps
    the message table to it, and every operation on the mailbox is the
    corresponding operation of the queue. *)

From S2P Require Import Prelude Text Models Store StoreFacts RoleContract Tasks Dag Cancellation Dispatch.
From Stdlib Require Import ZArith Lia Ascii String Sorting.Sorted.
From stdpp Require Import strings prelude.

Definition ORCHESTRATION_HANDLE_MAX_BYTES : nat := 512.
Definition ORCHESTRATION_SUBJECT_MAX_BYTES : nat := 256.
Definition ORCHESTRATION_BODY_MAX_BYTES : nat := Nat.mul 64 1024.
Definition ORCHESTRATION_THREAD_ID_MAX_BYTES : nat := 512.
Definition ORCHESTRATION_PAYLOAD_MAX_BYTES : nat := Nat.mul 64 1024.

Record NewOrchestrationMessage : Type := MkNewMessage {
  nm_from_handle : string;
  nm_to_handle : string;
  nm_subject : string;
  nm_body : string;
  nm_message_type : OrchestrationMessageType;
  nm_priority : OrchestrationMessagePriority;
  nm_thread_id : option string;
  nm_payload : option string;
  nm_run_id : option string;
  nm_workspace_id : option string;
  nm_task_id : option string;
  nm_dispatch_id : option string;
  nm_expires_at : option string;
  nm_reply_to_id : option string;
  nm_external_meta : option string;
  nm_delivery : MessageDelivery
}.

(** SQLite's JSON functions: the text of [json_extract(payload, '$.taskId')]
    when [payload] is valid JSON and has a [taskId] that is not null. *)
Class SqliteJson : Type := { extract_task_id : string → option string }.

(** ** Validation *)

Definition validate_message_field (value field : string) (max_bytes : nat) (limit : string)
    : Result unit :=
  if Nat.ltb max_bytes (String.length value)
  then Err (Bail ("message_too_large: " +:+ field +:+ " exceeds " +:+ limit +:+ " UTF-8 bytes"))
  else Ok tt.

Definition validate_optional_field (value : option string) (field : string) (max_bytes : nat)
    (limit : string) : Result unit :=
  match value with
  | Some v => validate_message_field v field max_bytes limit
  | None => Ok tt
  end.

Definition first_error (checks : list (Result unit)) : Result unit :=
  foldr (λ c rest, match c with Ok _ => rest | Err e => Err e end) (Ok tt) checks.

Definition validate_new_orchestration_message (message : NewOrchestrationMessage) : Result unit :=
  first_error
    [ validate_message_field (nm_from_handle message) "from handle"
        ORCHESTRATION_HANDLE_MAX_BYTES "512";
      validate_message_field (nm_to_handle message) "to handle"
        ORCHESTRATION_HANDLE_MAX_BYTES "512";
      validate_message_field (nm_subject message) "subject" ORCHESTRATION_SUBJECT_MAX_BYTES "256";
      validate_message_field (nm_body message) "body" ORCHESTRATION_BODY_MAX_BYTES "65536";
      validate_optional_field (nm_thread_id message) "thread id"
        ORCHESTRATION_THREAD_ID_MAX_BYTES "512";
      validate_optional_field (nm_payload message) "payload"
        ORCHESTRATION_PAYLOAD_MAX_BYTES "65536";
      validate_optional_field (nm_reply_to_id message) "reply id"
        ORCHESTRATION_THREAD_ID_MAX_BYTES "512" ].

(** ** Predicates of the queries *)

(** [substr(from_handle, 1, 4) = 'ext:']: an inbox question from a person. *)
Definition external_sender (m : OrchestrationMessage) : bool :=
  String.eqb (String.substring 0 4 (m_from_handle m)) "ext:".

(** [AND type IN (...)], absent when no types are given. *)
Definition type_matches (types : option (list OrchestrationMessageType))
    (m : OrchestrationMessage) : bool :=
  match types with
  | None | Some [] => true
  | Some types => bool_decide (m_message_type m ∈ types)
  end.

(** [state NOT IN ('expired','obsolete')]. *)
Definition live_state (m : OrchestrationMessage) : bool :=
  match m_state m with St_Expired | St_Obsolete => false | _ => true end.

(** [LIMIT ?]: a negative limit is no limit. *)
Definition limit_rows {A} (limit : Z) (l : list A) : list A :=
  if (limit <? 0)%Z then l else take (Z.to_nat limit) l.

Definition message_by_id (db : Db) (id : string) : option OrchestrationMessage :=
  find_where (λ m, String.eqb (m_id m) id) (db_messages db).

Definition orchestration_message_by_id (id : string) : SM (option OrchestrationMessage) :=
  select (λ db, message_by_id db id).

(** The wake-ups a coordinator reacts to: escalations, and decision gates that
    name a task. *)
Definition coordinator_wakeup `{SqliteJson} (m : OrchestrationMessage) : bool :=
  match m_message_type m with
  | Mt_Escalation => true
  | Mt_DecisionGate =>
      match m_payload m ≫= extract_task_id with
      | Some task_id => negb (String.eqb task_id "")
      | None => false
      end
  | _ => false
  end.

Section WithEnv.
Context `{Env}.

(** ** Insertion *)

Definition new_message_row (id : string) (message : NewOrchestrationMessage) (sequence : Z)
    : OrchestrationMessage :=
  MkOrchestrationMessage id (nm_from_handle message) (nm_to_handle message) (nm_subject message)
    (nm_body message) (nm_message_type message) (nm_priority message) (nm_thread_id message)
    (nm_payload message) false sequence now None (nm_run_id message) (nm_workspace_id message)
    (nm_task_id message) (nm_dispatch_id message) St_Queued (nm_expires_at message) None
    (nm_reply_to_id message) (nm_external_meta message) (nm_delivery message).

Definition insert_orchestration_message (message : NewOrchestrationMessage)
    : SM OrchestrationMessage :=
  match validate_new_orchestration_message message with
  | Err e => fail e
  | Ok _ =>
      let! id := orchestration_id "msg" in
      do! tx (
        do! insert_message (new_message_row id message) in
        match nm_message_type message, nm_run_id message with
        | Mt_Escalation, Some run_id =>
            do! record_run_event
                  (with_ne_payload (Some (JObject [("messageId", JString id)]))
                    (with_ne_summary (nm_subject message)
                      (with_ne_actor_id (Some (nm_from_handle message))
                        (with_ne_actor_kind (Some Ak_Agent)
                          (with_ne_dispatch_id (nm_dispatch_id message)
                            (with_ne_task_id (nm_task_id message)
                              (new_run_event run_id Ev_Escalation))))))) in
            ret tt
        | _, _ => ret tt
        end) in
      let! row := orchestration_message_by_id id in
      match row with
      | Some m => ret m
      | None => bail "inserted orchestration message not found"
      end
  end.

(** ** Expiry *)

Definition expiring (m : OrchestrationMessage) : bool :=
  match m_expires_at m with
  | Some at_ => String.leb at_ now
  | None => false
  end &&
  match m_state m with
  | St_Queued => true
  | St_Delivered => negb (external_sender m)
  | _ => false
  end.

Definition expire_orchestration_messages : SM unit :=
  do! update_messages expiring (with_m_state St_Expired) in ret tt.

(** ** Polling *)

Definition unread_orchestration_messages (to_handle : string)
    (types : option (list OrchestrationMessageType)) : SM (list OrchestrationMessage) :=
  do! expire_orchestration_messages in
  select (λ db, List.filter (λ m,
    String.eqb (m_to_handle m) to_handle && negb (m_read m) && live_state m && type_matches types m)
    (db_messages db)).

Definition unread_orchestration_coordinator_messages `{SqliteJson} (to_handle : string)
    : SM (list OrchestrationMessage) :=
  do! expire_orchestration_messages in
  select (λ db, List.filter (λ m,
    String.eqb (m_to_handle m) to_handle && negb (m_read m) && live_state m && coordinator_wakeup m)
    (db_messages db)).

Definition deliverable (to_handle : string) (now_only : bool) (m : OrchestrationMessage) : bool :=
  String.eqb (m_to_handle m) to_handle && negb (m_read m)
  && bool_decide (m_delivered_at m = None) && bool_decide (m_state m = St_Queued)
  && (negb now_only || bool_decide (m_delivery m = Md_Now)).

Definition undelivered_messages (to_handle : string) (now_only : bool)
    : SM (list OrchestrationMessage) :=
  do! expire_orchestration_messages in
  select (λ db, List.filter (deliverable to_handle now_only) (db_messages db)).

Definition undelivered_unread_orchestration_messages (to_handle : string)
    : SM (list OrchestrationMessage) := undelivered_messages to_handle false.

Definition undelivered_now_orchestration_messages (to_handle : string)
    : SM (list OrchestrationMessage) := undelivered_messages to_handle true.

Definition all_orchestration_messages_for_handle (to_handle : string)
    (types : option (list OrchestrationMessageType)) (limit : Z) : SM (list OrchestrationMessage) :=
  do! expire_orchestration_messages in
  select (λ db, limit_rows limit (reverse (List.filter (λ m,
    String.eqb (m_to_handle m) to_handle && type_matches types m) (db_messages db)))).

Definition all_orchestration_messages_from_handle (from_handle : string) (limit : Z)
    : SM (list OrchestrationMessage) :=
  do! expire_orchestration_messages in
  select (λ db, limit_rows limit (reverse (List.filter (λ m,
    String.eqb (m_from_handle m) from_handle) (db_messages db)))).

Definition recent_orchestration_messages (limit : Z) : SM (list OrchestrationMessage) :=
  do! expire_orchestration_messages in
  select (λ db, limit_rows limit (reverse (db_messages db))).

(** Replies addressed to [to_handle] in a thread, strictly after [after_sequence]. *)
Definition orchestration_thread_messages_for (thread_id to_handle : string) (after_sequence : Z)
    : SM (list OrchestrationMessage) :=
  select (λ db, List.filter (λ m,
    bool_decide (m_thread_id m = Some thread_id) && String.eqb (m_to_handle m) to_handle
    && (after_sequence <? m_sequence m)%Z) (db_messages db)).

(** ** Marks *)

Definition read_row (m : OrchestrationMessage) : OrchestrationMessage :=
  with_m_state (match m_state m with St_Obsolete => St_Obsolete | _ => St_Read end)
    (with_m_read true m).

Definition mark_orchestration_messages_read (ids : list string) : SM unit :=
  match ids with
  | [] => ret tt
  | _ => do! update_messages (λ m, bool_decide (m_id m ∈ ids)) read_row in ret tt
  end.

Definition delivered_row (m : OrchestrationMessage) : OrchestrationMessage :=
  with_m_state (match m_state m with
                | St_Queued => St_Delivered
                | St_Expired => if external_sender m then St_Delivered else St_Expired
                | s => s
                end)
    (with_m_delivered_at (Some now) m).

Definition mark_orchestration_messages_delivered (ids : list string) : SM unit :=
  match ids with
  | [] => ret tt
  | _ => do! update_messages (λ m, bool_decide (m_id m ∈ ids)) delivered_row in ret tt
  end.

(** [DELETE FROM orchestrationMessages]: the AUTOINCREMENT counter stays. *)
Definition reset_orchestration_messages : SM unit :=
  modify (with_db (set_messages [])).

(** ** The life of a message

    [evolves m m']: what any operation but a reset may do to a stored message. *)

Definition evolves (m m' : OrchestrationMessage) : Prop :=
  m_id m' = m_id m ∧ m_sequence m' = m_sequence m ∧ m_from_handle m' = m_from_handle m ∧
  m_to_handle m' = m_to_handle m ∧ m_subject m' = m_subject m ∧ m_body m' = m_body m ∧
  m_message_type m' = m_message_type m ∧ m_payload m' = m_payload m ∧
  (m_read m = true → m_read m' = true) ∧
  (is_Some (m_delivered_at m) → is_Some (m_delivered_at m')) ∧
  (m_state m ≠ St_Queued → m_state m' ≠ St_Queued) ∧
  (m_state m = St_Obsolete → m_state m' = St_Obsolete) ∧
  (m_state m = St_Read → m_state m' = St_Read).

#[local] Instance evolves_refl : Reflexive evolves.
Proof. intros m. by unfold evolves; split_and!. Qed.

#[local] Instance evolves_trans : Transitive evolves.
Proof.
  intros m1 m2 m3 H1 H2. unfold evolves in *. destruct_and!. split_and!; try congruence; eauto.
Qed.

(** The mailbox grows at the end: every stored message evolves in place, and
    the appended ones carry larger sequence numbers and identifiers that were
    not in use. *)
Definition mailbox_le (db db' : Db) : Prop :=
  ∃ ms new, db_messages db' = ms ++ new ∧ Forall2 evolves (db_messages db) ms ∧
    (∀ m, m ∈ new → m_id m ∉ (m_id <$> db_messages db)) ∧
    (∀ m, m ∈ new → (db_message_sequence db < m_sequence m ≤ db_message_sequence db')%Z) ∧
    StronglySorted (λ a b, m_sequence a < m_sequence b)%Z new ∧
    (db_message_sequence db ≤ db_message_sequence db')%Z.

Lemma evolved_ids ms ms' : Forall2 evolves ms ms' → m_id <$> ms' = m_id <$> ms.
Proof. induction 1 as [|m m' ms ms' Hm _ IH]; cbn; [done|]. rewrite IH. by destruct Hm as [-> _]. Qed.

Lemma evolved_elem ms ms' m' : Forall2 evolves ms ms' → m' ∈ ms' → ∃ m, m ∈ ms ∧ evolves m m'.
Proof.
  intros Hf Hm. apply list_elem_of_lookup in Hm as [i Hi].
  destruct (Forall2_lookup_r _ _ _ _ _ Hf Hi) as (m & Hm & He). exists m.
  split; [by eapply list_elem_of_lookup_2|done].
Qed.

Lemma mailbox_le_same db db' :
  db_messages db' = db_messages db → db_message_sequence db' = db_message_sequence db →
  mailbox_le db db'.
Proof.
  intros Hm Hs. exists (db_messages db), []. rewrite app_nil_r, Hm, Hs.
  split_and!; [done| | | |constructor|lia]; try (intros m Hin; by apply not_elem_of_nil in Hin).
  apply Forall_Forall2_diag, Forall_forall. intros m _. reflexivity.
Qed.

#[export] Instance mailbox_le_refl : Reflexive mailbox_le.
Proof. intros db. by apply mailbox_le_same. Qed.

Lemma sorted_app_between (l1 l2 : list OrchestrationMessage) k :
  StronglySorted (λ a b, m_sequence a < m_sequence b)%Z l1 →
  StronglySorted (λ a b, m_sequence a < m_sequence b)%Z l2 →
  (∀ m, m ∈ l1 → m_sequence m ≤ k)%Z → (∀ m, m ∈ l2 → k < m_sequence m)%Z →
  StronglySorted (λ a b, m_sequence a < m_sequence b)%Z (l1 ++ l2).
Proof.
  intros H1 H2 Hle Hlt. induction H1 as [|m l1 H1 IH Hm]; cbn; [done|]. constructor.
  - apply IH. intros x Hx. apply Hle. by right.
  - apply List.Forall_app. split; [done|]. rewrite List.Forall_forall. intros x Hx.
    assert (m_sequence m ≤ k)%Z by (apply Hle; left).
    assert (k < m_sequence x)%Z by (apply Hlt; by rewrite list_elem_of_In). lia.
Qed.

Lemma evolved_sorted ms ms' :
  Forall2 evolves ms ms' → StronglySorted (λ a b, m_sequence a < m_sequence b)%Z ms →
  StronglySorted (λ a b, m_sequence a < m_sequence b)%Z ms'.
Proof.
  intros Hf. induction Hf as [|m m' ms ms' Hm Hf IH]; inversion 1 as [|? ? Hs Hh]; subst;
    constructor; [by apply IH|]. rewrite List.Forall_forall in *. intros x Hx.
  apply list_elem_of_In in Hx. destruct (evolved_elem _ _ _ Hf Hx) as (y & Hy & Hyx).
  assert (m_sequence m < m_sequence y)%Z by (apply Hh; by rewrite <-list_elem_of_In).
  destruct Hm as (_ & -> & _), Hyx as (_ & -> & _). done.
Qed.

#[export] Instance mailbox_le_trans : Transitive mailbox_le.
Proof.
  intros db1 db2 db3 (ms & new & Hd & Hev & Hid & Hseq & Hst & Hle)
    (ms2 & new2 & Hd2 & Hev2 & Hid2 & Hseq2 & Hst2 & Hle2).
  rewrite Hd in Hev2. apply Forall2_app_inv_l in Hev2 as (k1 & k2 & He1 & He2 & ->).
  exists k1, (k2 ++ new2). rewrite (assoc_L (++)). split_and!; [done| | | | |lia].
  - clear -Hev He1. revert k1 He1. induction Hev; inversion 1; subst; constructor; eauto.
    by etrans.
  - intros m [Hm|Hm]%elem_of_app.
    + destruct (evolved_elem _ _ _ He2 Hm) as (m0 & Hm0 & Hm0'). destruct Hm0' as [-> _]. by apply Hid.
    + intros Hin. apply (Hid2 m Hm). rewrite Hd, fmap_app. apply elem_of_app. left.
      by rewrite (evolved_ids _ _ Hev).
  - intros m [Hm|Hm]%elem_of_app.
    + destruct (evolved_elem _ _ _ He2 Hm) as (m0 & Hm0 & Hm0').
      destruct Hm0' as (_ & -> & _). specialize (Hseq m0 Hm0). lia.
    + specialize (Hseq2 m Hm). lia.
  - apply (sorted_app_between _ _ (db_message_sequence db2)); [by eapply evolved_sorted|done| |].
    + intros m Hm. destruct (evolved_elem _ _ _ He2 Hm) as (m0 & Hm0 & Hm0').
      destruct Hm0' as (_ & -> & _). by apply Hseq.
    + intros m Hm. by apply Hseq2.
Qed.

Lemma mailbox_le_update p f w w' r :
  update_messages p f w = (w', r) → (∀ m, p m = true → evolves m (f m)) →
  mailbox_le (w_db w) (w_db w').
Proof.
  unfold update_messages. intros [= <- _] Hf. cbn.
  exists (update_where p f (db_messages (w_db w))), []. rewrite app_nil_r.
  split_and!; [done| | | |constructor|cbn; lia]; try (intros m Hin; by apply not_elem_of_nil in Hin).
  unfold update_where. apply Forall2_fmap_r, Forall_Forall2_diag, Forall_forall. intros m _. cbn.
  destruct (p m) eqn:E; [by apply Hf|reflexivity].
Qed.

Lemma mailbox_le_insert row w w' r :
  (∀ s, m_sequence (row s) = s) → insert_message row w = (w', r) → mailbox_le (w_db w) (w_db w').
Proof.
  intros Hs. unfold insert_message. case_bool_decide as Hid; intros [= <- _]; [reflexivity|]. cbn.
  exists (db_messages (w_db w)), [row (db_message_sequence (w_db w) + 1)%Z].
  split_and!; [done| | | | |cbn; lia].
  - apply Forall_Forall2_diag, Forall_forall. intros m _. reflexivity.
  - intros m Hm%list_elem_of_singleton. by subst.
  - intros m Hm%list_elem_of_singleton. subst. rewrite Hs. cbn. lia.
  - repeat constructor.
Qed.

Lemma events_only_mailbox w w' : events_only w w' → mailbox_le (w_db w) (w_db w').
Proof. intros (evs & seq & ->). by apply mailbox_le_same. Qed.

(** *** Every operation respects [mailbox_le] *)

Lemma mb_tasks sr p f : respects mailbox_le (update_tasks sr p f).
Proof. intros w w' r [->| ->]%update_tasks_any; [reflexivity|by apply mailbox_le_same]. Qed.
Lemma mb_dispatches ss p f : respects mailbox_le (update_dispatches ss p f).
Proof. intros w w' r. unfold update_dispatches. case_match; intros [= <- _]; by apply mailbox_le_same. Qed.
Lemma mb_gates p f : respects mailbox_le (update_gates p f).
Proof. intros w w' r [= <- _]. by apply mailbox_le_same. Qed.
Lemma mb_launches p f : respects mailbox_le (update_launches p f).
Proof. intros w w' r [= <- _]. by apply mailbox_le_same. Qed.
Lemma mb_run_event ev : respects mailbox_le (record_run_event ev).
Proof. intros w w' r Hr%record_run_event_frame. by apply events_only_mailbox. Qed.
Lemma mb_dispatch_event id k s p : respects mailbox_le (record_dispatch_run_event id k s p).
Proof. intros w w' r Hr%record_dispatch_run_event_frame. by apply events_only_mailbox. Qed.
Lemma mb_task_event id k s p : respects mailbox_le (record_task_run_event id k s p).
Proof. intros w w' r Hr%record_task_run_event_frame. by apply events_only_mailbox. Qed.
Lemma mb_messages p f : (∀ m, p m = true → evolves m (f m)) → respects mailbox_le (update_messages p f).
Proof. intros Hf w w' r Hr. by eapply mailbox_le_update. Qed.
Lemma mb_insert row : (∀ s, m_sequence (row s) = s) → respects mailbox_le (insert_message row).
Proof. intros Hs w w' r Hr. by eapply mailbox_le_insert. Qed.

Lemma obsolete_evolves (q : bool) m :
  q && bool_decide (m_state m = St_Queued) = true → evolves m (obsolete_message m).
Proof. intros Hq. split_bools. unfold evolves, obsolete_message; cbn. split_and!; done || congruence. Qed.

Lemma expiring_evolves m : expiring m = true → evolves m (with_m_state St_Expired m).
Proof.
  unfold expiring. intros [_ Hs]%andb_true_iff.
  unfold evolves; cbn. destruct (m_state m) eqn:E; split_and!; done.
Qed.

Lemma read_evolves m : evolves m (read_row m).
Proof. unfold evolves, read_row; cbn. destruct (m_state m) eqn:E; split_and!; done. Qed.

Lemma delivered_evolves m : evolves m (delivered_row m).
Proof.
  unfold evolves, delivered_row; cbn.
  destruct (m_state m) eqn:E; try destruct (external_sender m); split_and!; done.
Qed.

Ltac mailbox :=
  repeat first
    [ apply (respects_ret mailbox_le) | apply (respects_fail mailbox_le) | apply (respects_bail mailbox_le) | apply (respects_select mailbox_le)
    | apply (respects_get_db mailbox_le) | apply (respects_id mailbox_le) | apply mb_tasks | apply mb_dispatches
    | apply mb_gates | apply mb_launches | apply mb_run_event | apply mb_dispatch_event
    | apply mb_task_event | apply (respects_tx mailbox_le) | apply (respects_mapM mailbox_le)
    | apply (respects_bind mailbox_le); [|intros ?] | apply (respects_if mailbox_le) | apply (respects_option mailbox_le); [intros ?|]
    | progress cbn beta | assumption | exact _ ].

Lemma mb_refresh_loop fuel stack : respects mailbox_le (refresh_loop fuel stack).
Proof. apply respects_refresh_loop; [exact _|exact _|apply mb_tasks]. Qed.

Lemma mb_obsolete_dispatch id : respects mailbox_le (obsolete_dispatch_messages id).
Proof. apply mb_messages. intros m. apply obsolete_evolves. Qed.

Lemma mb_cancel_one id reason task_id : respects mailbox_le (cancel_one id reason task_id).
Proof. unfold cancel_one. mailbox. apply mb_messages. intros m. apply obsolete_evolves. Qed.

Lemma mb_cancel id reason : respects mailbox_le (cancel_orchestration_task id reason).
Proof.
  unfold cancel_orchestration_task. mailbox.
  repeat case_match; mailbox; apply mb_cancel_one.
Qed.

Lemma mb_fail_dispatch id error result :
  respects mailbox_le (fail_orchestration_dispatch_with_result id error result).
Proof.
  unfold fail_orchestration_dispatch_with_result, orchestration_dispatch_by_id.
  mailbox;
    first [apply mb_obsolete_dispatch|apply mb_refresh_loop].
Qed.

Lemma mb_lift {A} (r : Result A) : respects mailbox_le (lift_result r).
Proof. destruct r; cbn [lift_result]; mailbox. Qed.

Lemma mb_complete `{ContractLib} id assignee result sha :
  respects mailbox_le (complete_orchestration_dispatch_at_sha id assignee result sha).
Proof.
  unfold complete_orchestration_dispatch_at_sha, orchestration_dispatch_by_id,
    clear_resolved_workflow_launch_attention, record_completion_event.
  mailbox;
    first [apply mb_obsolete_dispatch|apply mb_refresh_loop|apply mb_lift].
Qed.

Lemma mb_insert_message message : respects mailbox_le (insert_orchestration_message message).
Proof.
  unfold insert_orchestration_message, orchestration_message_by_id. case_match; mailbox.
  - by apply mb_insert.
  - repeat case_match; mailbox.
Qed.

Lemma mb_expire : respects mailbox_le expire_orchestration_messages.
Proof. unfold expire_orchestration_messages. mailbox. apply mb_messages. exact expiring_evolves. Qed.

Lemma mb_read ids : respects mailbox_le (mark_orchestration_messages_read ids).
Proof.
  unfold mark_orchestration_messages_read. case_match; mailbox.
  apply mb_messages. intros m _. apply read_evolves.
Qed.

Lemma mb_delivered ids : respects mailbox_le (mark_orchestration_messages_delivered ids).
Proof.
  unfold mark_orchestration_messages_delivered. case_match; mailbox.
  apply mb_messages. intros m _. apply delivered_evolves.
Qed.

(** ** The mailbox as a transition system *)

Inductive mailbox_step `{ContractLib} (w w' : World) : Prop :=
| Mb_insert message r : insert_orchestration_message message w = (w', r) → mailbox_step w w'
| Mb_unread to_handle types r : unread_orchestration_messages to_handle types w = (w', r) → mailbox_step w w'
| Mb_undelivered to_handle now_only r : undelivered_messages to_handle now_only w = (w', r) → mailbox_step w w'
| Mb_read ids r : mark_orchestration_messages_read ids w = (w', r) → mailbox_step w w'
| Mb_delivered ids r : mark_orchestration_messages_delivered ids w = (w', r) → mailbox_step w w'
| Mb_cancel_task id reason r : cancel_orchestration_task id reason w = (w', r) → mailbox_step w w'
| Mb_fail_dispatch id error result r :
    fail_orchestration_dispatch_with_result id error result w = (w', r) → mailbox_step w w'
| Mb_complete_dispatch id assignee result sha r :
    complete_orchestration_dispatch_at_sha id assignee result sha w = (w', r) → mailbox_step w w'.

Lemma mailbox_step_le `{ContractLib} w w' : mailbox_step w w' → mailbox_le (w_db w) (w_db w').
Proof.
  intros [? ? Hs|? ? ? Hs|? ? ? Hs|? ? Hs|? ? Hs|? ? ? Hs|? ? ? ? Hs|? ? ? ? ? Hs].
  - by eapply mb_insert_message.
  - revert Hs. apply respects_bind; [exact _|apply mb_expire|]. intros ?. apply respects_select, _.
  - revert Hs. apply respects_bind; [exact _|apply mb_expire|]. intros ?. apply respects_select, _.
  - by eapply mb_read.
  - by eapply mb_delivered.
  - by eapply mb_cancel.
  - by eapply mb_fail_dispatch.
  - by eapply mb_complete.
Qed.

(** Sequence numbers follow the order of the table and never exceed the counter. *)
Definition mailbox_ok (db : Db) : Prop :=
  StronglySorted (λ a b, m_sequence a < m_sequence b)%Z (db_messages db) ∧
  (∀ m, m ∈ db_messages db → m_sequence m ≤ db_message_sequence db)%Z.

Lemma mailbox_ok_le db db' : mailbox_ok db → mailbox_le db db' → mailbox_ok db'.
Proof.
  intros [Hs Hb] (ms & new & Hd & Hev & _ & Hseq & Hst & Hle).
  assert (∀ m, m ∈ ms → m_sequence m ≤ db_message_sequence db)%Z as Hms.
  { intros m Hm. destruct (evolved_elem _ _ _ Hev Hm) as (m0 & Hm0 & (_ & -> & _)). by apply Hb. }
  split; rewrite Hd.
  - apply (sorted_app_between _ _ (db_message_sequence db)); [by eapply evolved_sorted|done|done|].
    intros m Hm. by apply Hseq.
  - intros m [Hm%Hms|Hm%Hseq]%elem_of_app; lia.
Qed.

Lemma sorted_filter (p : OrchestrationMessage → bool) l :
  StronglySorted (λ a b, m_sequence a < m_sequence b)%Z l →
  StronglySorted (λ a b, m_sequence a < m_sequence b)%Z (List.filter p l).
Proof.
  induction 1 as [|m l _ IH Hm]; cbn; [constructor|]. destruct (p m); [|done].
  constructor; [done|]. rewrite List.Forall_forall in *. intros x [Hx _]%filter_In. auto.
Qed.


(** ** Claims *)

(** Sending a message: one that breaks a size limit is refused before
    anything is drawn or written; any other is stored last, queued, unread and
    undelivered, with the next sequence number, and returned as stored. *)
Theorem insert_orchestration_message_spec (message : NewOrchestrationMessage) (w : World) :
  marker_fits → id_of "msg" (w_rng w) ∉ (m_id <$> db_messages (w_db w)) →
  id_of "evt" (S (w_rng w)) ∉ (e_id <$> db_events (w_db w)) →
  match validate_new_orchestration_message message with
  | Err e => insert_orchestration_message message w = (w, Err e)
  | Ok _ =>
      let m := new_message_row (id_of "msg" (w_rng w)) message (db_message_sequence (w_db w) + 1) in
      ∃ w', insert_orchestration_message message w = (w', Ok m) ∧
        db_messages (w_db w') = db_messages (w_db w) ++ [m] ∧
        m_state m = St_Queued ∧ m_read m = false ∧ m_delivered_at m = None ∧
        length (db_events (w_db w')) =
          length (db_events (w_db w)) +
          (if bool_decide (nm_message_type message = Mt_Escalation ∧ is_Some (nm_run_id message))
           then 1 else 0)
  end.
Proof.
  intros Hm Hid Hevt. unfold insert_orchestration_message.
  destruct (validate_new_orchestration_message message) as [u|e]; [|done]. cbn zeta.
  set (m := new_message_row _ _ _).
  assert (insert_message (new_message_row (id_of "msg" (w_rng w)) message)
            (MkWorld (w_db w) (S (w_rng w))) =
          (with_db (λ db, set_message_sequence (db_message_sequence (w_db w) + 1)
             (set_messages (db_messages db ++ [m]) db)) (MkWorld (w_db w) (S (w_rng w))), Ok tt)) as Hins.
  { unfold insert_message. cbn [w_db]. by rewrite bool_decide_false. }
  unfold orchestration_id, bind at 1. unfold tx, bind at 1. unfold bind at 1. rewrite Hins.
  assert (List.find (λ x, String.eqb (m_id x) (id_of "msg" (w_rng w)))
            (db_messages (w_db w) ++ [m]) = Some m) as Hfind.
  { by apply (find_key_snoc m_id (db_messages (w_db w)) m). }
  destruct (bool_decide (nm_message_type message = Mt_Escalation ∧ is_Some (nm_run_id message))) eqn:Ee.
  - split_bools. destruct Ee as [-> [run_id ->]]. unfold bind at 1.
    rewrite record_run_event_success by done. cbn.
    unfold orchestration_message_by_id, select, gets, bind. cbn. rewrite Hfind.
    eexists. split; [done|]. cbn. rewrite length_app. done.
  - split_bools.
    destruct (nm_message_type message) eqn:Et, (nm_run_id message) as [r|] eqn:Er;
      try (destruct Ee; split; [done|by eexists]); cbn;
      unfold orchestration_message_by_id, select, gets, bind; cbn; rewrite Hfind;
      (eexists; split; [done|]; cbn; by rewrite Nat.add_0_r).
Qed.

End WithEnv.

Section Timed.
Context `{Env} `{ContractLib}.

(** One mailbox operation at some moment. *)
Definition mailbox_tick (w w' : World) : Prop := ∃ moment, @mailbox_step (at_time _ moment) _ w w'.

Lemma mailbox_ticks_le w w' : rtc mailbox_tick w w' → mailbox_le (w_db w) (w_db w').
Proof.
  induction 1 as [w|w1 w2 w3 [moment Hs] _ IH]; [reflexivity|].
  etrans; [exact (@mailbox_step_le (at_time _ moment) _ _ _ Hs)|done].
Qed.

(** Whatever the store does to the mailbox short of resetting it, a stored
    message keeps its identity, place and contents, never becomes unread or
    queued again, and stays obsolete or read once it is; the messages added
    meanwhile carry new identifiers and larger, increasing sequence numbers. *)
Theorem mailbox_history (w w' : World) :
  rtc mailbox_tick w w' → mailbox_le (w_db w) (w_db w').
Proof. apply mailbox_ticks_le. Qed.

(** A message marked delivered is pasted once: however the mailbox evolves
    afterwards, no poll for undelivered messages returns it again. *)
Theorem delivered_once (ids : list string) (w0 w1 w2 w3 : World)
    (to_handle : string) (now_only : bool) (ms : list OrchestrationMessage) :
  (∀ id, id ∈ ids → id ∈ (m_id <$> db_messages (w_db w0))) →
  mark_orchestration_messages_delivered ids w0 = (w1, Ok tt) →
  rtc mailbox_tick w1 w2 →
  undelivered_messages to_handle now_only w2 = (w3, Ok ms) →
  ∀ m, m ∈ ms → m_id m ∉ ids.
Proof.
  intros Hids Hmark Hsteps Hpoll m Hm Hin.
  destruct ids as [|i ids]; [by apply not_elem_of_nil in Hin|].
  cbn [mark_orchestration_messages_delivered] in Hmark. inv_ok Hmark. store_inv. inv_ok Hmark.
  unfold undelivered_messages in Hpoll. inv_ok Hpoll. apply mb_expire in Hstep.
  apply mailbox_ticks_le in Hsteps. pose proof (transitivity Hsteps Hstep) as Hle.
  store_inv. rewrite list_elem_of_In, filter_In, <-list_elem_of_In in Hm. destruct Hm as [Hm Hd].
  unfold deliverable in Hd. split_bools. clear Hsteps Hstep.
  destruct Hle as (old & new & Hdb & Hev & Hnew & _). rewrite Hdb in Hm.
  apply elem_of_app in Hm as [Hm|Hm].
  - destruct (evolved_elem _ _ _ Hev Hm) as (m0 & Hm0 & Hevm). unfold evolves in Hevm.
    destruct_and!. cbn in Hm0. apply elem_of_update_where in Hm0 as (x & Hx & ->).
    destruct (bool_decide (m_id x ∈ i :: ids)) eqn:E.
    + cbn in *. destruct (m_delivered_at m); [congruence|]. naive_solver.
    + split_bools. congruence.
  - apply (Hnew m Hm). cbn. rewrite fmap_update_where by done. by apply Hids.
Qed.

(** The delivery queue: a poll returns exactly the queued, unread,
    undelivered messages of the terminal that have not expired, in the order
    they were sent, in every mailbox reachable from an ordered one. *)
Theorem undelivered_queue (w0 w w' : World) (to_handle : string) (now_only : bool)
    (ms : list OrchestrationMessage) :
  mailbox_ok (w_db w0) → rtc mailbox_tick w0 w →
  undelivered_messages to_handle now_only w = (w', Ok ms) →
  StronglySorted (λ a b, m_sequence a < m_sequence b)%Z ms ∧
  ∀ m, m ∈ ms ↔ m ∈ db_messages (w_db w) ∧ deliverable to_handle now_only m = true ∧
                 (∀ at_, m_expires_at m = Some at_ → String.leb at_ now = false).
Proof.
  intros Hok Hsteps Hpoll. apply mailbox_ticks_le in Hsteps.
  pose proof (mailbox_ok_le _ _ Hok Hsteps) as Hok1.
  unfold undelivered_messages in Hpoll. inv_ok Hpoll.
  pose proof (mailbox_ok_le _ _ Hok1 (mb_expire _ _ _ Hstep)) as [Hsort _].
  unfold expire_orchestration_messages in Hstep. inv_ok Hstep. store_inv. inv_ok Hstep. store_inv.
  split; [by apply sorted_filter|]. intros m.
  rewrite list_elem_of_In, filter_In, <-list_elem_of_In. cbn. rewrite elem_of_update_where. split.
  - intros [(x & Hx & ->) Hd]. destruct (expiring x) eqn:E.
    { unfold deliverable in Hd. split_bools. done. }
    split_and!; [done|done|]. intros at_ Hat. unfold expiring in E. rewrite Hat in E.
    unfold deliverable in Hd. split_bools. destruct (m_state x); try done.
    by rewrite andb_true_r in E.
  - intros (Hm & Hd & Hexp). split; [|done]. exists m. split; [done|].
    assert (expiring m = false) as ->; [|done]. unfold expiring.
    destruct (m_expires_at m) as [at_|] eqn:E; [|done]. by rewrite (Hexp at_).
Qed.

End Timed.

(** ** The mailbox as a queue of letters *)

Module MailQueue.

(** ** The abstract mailbox *)

Record Letter : Type := MkLetter {
  l_id : string;
  l_from : string;
  l_to : string;
  l_subject : string;
  l_body : string;
  l_urgent : bool;
  l_expires : option string
}.

Definition post (l : Letter) (q : list Letter) : list Letter := q ++ [l].
Definition acknowledge (ids : list string) (q : list Letter) : list Letter :=
  List.filter (λ l, negb (bool_decide (l_id l ∈ ids))) q.
Definition expire_at (moment : string) (q : list Letter) : list Letter :=
  List.filter (λ l, match l_expires l with Some at_ => negb (String.leb at_ moment) | None => true end) q.
Definition inbox (to_handle : string) (urgent_only : bool) (q : list Letter) : list Letter :=
  List.filter (λ l, String.eqb (l_to l) to_handle && (negb urgent_only || l_urgent l)) q.

(** ** The abstraction *)

Definition letter_of (m : OrchestrationMessage) : Letter :=
  MkLetter (m_id m) (m_from_handle m) (m_to_handle m) (m_subject m) (m_body m)
    (bool_decide (m_delivery m = Md_Now)) (m_expires_at m).

Definition pending (m : OrchestrationMessage) : bool :=
  negb (m_read m) && bool_decide (m_delivered_at m = None) && bool_decide (m_state m = St_Queued).

Definition waiting_letters (db : Db) : list Letter := letter_of <$> List.filter pending (db_messages db).

(** Rewriting rows so that the selected ones stop waiting drops their letters. *)
Lemma waiting_letters_update (p : OrchestrationMessage → bool) f (keep : Letter → bool) ms :
  (∀ m, m ∈ ms → p m = true → pending (f m) = false) →
  (∀ m, m ∈ ms → pending m = true → keep (letter_of m) = negb (p m)) →
  letter_of <$> List.filter pending (update_where p f ms) = List.filter keep (letter_of <$> List.filter pending ms).
Proof.
  induction ms as [|m ms IH]; intros Hf Hk; [done|]. unfold update_where in *. cbn.
  assert (∀ x, x ∈ ms → x ∈ m :: ms) as Hin by (intros; by right).
  specialize (IH (λ x Hx, Hf x (Hin x Hx)) (λ x Hx, Hk x (Hin x Hx))).
  destruct (p m) eqn:Ep.
  - rewrite Hf by (done || left). destruct (pending m) eqn:E; [|done]. cbn. rewrite Hk, Ep by (done || left). done.
  - destruct (pending m) eqn:E; [|done]. cbn. rewrite Hk, Ep by (done || left). cbn. by f_equal.
Qed.

Lemma filter_letters (p : Letter → bool) ms :
  List.filter p (letter_of <$> ms) = letter_of <$> List.filter (λ m, p (letter_of m)) ms.
Proof. induction ms as [|m ms IH]; cbn; [done|]. rewrite IH. by destruct (p (letter_of m)). Qed.

Lemma filter_filter_bool {A} (p q : A → bool) (l : list A) :
  List.filter p (List.filter q l) = List.filter (λ x, q x && p x) l.
Proof. induction l as [|x l IH]; cbn; [done|]. destruct (q x); cbn; [destruct (p x)|]; by rewrite IH. Qed.

Section Refinement.
Context `{Env}.

Lemma expire_refines w :
  ∃ w', expire_orchestration_messages w = (w', Ok tt) ∧
        waiting_letters (w_db w') = expire_at now (waiting_letters (w_db w)).
Proof.
  eexists. split; [reflexivity|]. cbn. apply waiting_letters_update.
  - intros m _ _. unfold pending. cbn. by rewrite andb_false_r.
  - intros m _ Hp. unfold pending in Hp. split_bools. unfold expiring. cbn.
    match goal with E : m_state m = _ |- _ => rewrite E end. rewrite andb_true_r. by destruct (m_expires_at m).
Qed.

Lemma marks_refine f ids w :
  (∀ m, pending (f m) = false) →
  ∃ n, update_messages (λ m, bool_decide (m_id m ∈ ids)) f w = 
    (with_db (set_messages (update_where (λ m, bool_decide (m_id m ∈ ids)) f (db_messages (w_db w)))) w, Ok n) ∧
  waiting_letters (w_db (with_db (set_messages
      (update_where (λ m, bool_decide (m_id m ∈ ids)) f (db_messages (w_db w)))) w))
  = acknowledge ids (waiting_letters (w_db w)).
Proof. intros Hf. eexists. split; [reflexivity|]. cbn. apply waiting_letters_update; auto. Qed.

(** [C35] The mailbox implements a queue of letters: sending a message of legal
    size posts its letter behind those that wait, and an oversized one leaves
    the queue alone; marking messages delivered or read acknowledges exactly
    their letters; a poll drops the expired letters and answers with the box
    of its terminal, the urgent ones only or all of them, oldest first; a
    reset empties the queue. *)
Theorem mailbox_refines_queue (w : World) :
  marker_fits → id_of "msg" (w_rng w) ∉ (m_id <$> db_messages (w_db w)) →
  id_of "evt" (S (w_rng w)) ∉ (e_id <$> db_events (w_db w)) →
  (∀ message, match validate_new_orchestration_message message with
    | Err e => insert_orchestration_message message w = (w, Err e)
    | Ok _ => ∃ w' m, insert_orchestration_message message w = (w', Ok m) ∧
        letter_of m = MkLetter (id_of "msg" (w_rng w)) (nm_from_handle message) (nm_to_handle message)
          (nm_subject message) (nm_body message) (bool_decide (nm_delivery message = Md_Now)) (nm_expires_at message) ∧
        waiting_letters (w_db w') = post (letter_of m) (waiting_letters (w_db w))
    end) ∧
  (∀ ids, ∃ w', mark_orchestration_messages_delivered ids w = (w', Ok tt) ∧
     waiting_letters (w_db w') = acknowledge ids (waiting_letters (w_db w))) ∧
  (∀ ids, ∃ w', mark_orchestration_messages_read ids w = (w', Ok tt) ∧
     waiting_letters (w_db w') = acknowledge ids (waiting_letters (w_db w))) ∧
  (∀ to_handle now_only, ∃ w' ms, undelivered_messages to_handle now_only w = (w', Ok ms) ∧
     waiting_letters (w_db w') = expire_at now (waiting_letters (w_db w)) ∧
     letter_of <$> ms = inbox to_handle now_only (waiting_letters (w_db w'))) ∧
  (∃ w', reset_orchestration_messages w = (w', Ok tt) ∧ waiting_letters (w_db w') = []).
Proof.
  intros Hm Hid Hevt.
  assert (∀ q, acknowledge [] q = q) as Hnil.
  { intros q. unfold acknowledge. induction q as [|l q IH]; cbn; [done|]. by rewrite IH. }
  split_and!.
  - intros message. pose proof (insert_orchestration_message_spec message w Hm Hid Hevt) as Hins.
    destruct (validate_new_orchestration_message message); [|done].
    destruct Hins as (w' & E & Hdb & Hs & Hr & Hd & _). eexists w', _. split; [exact E|]. split; [reflexivity|].
    unfold waiting_letters. rewrite Hdb, List.filter_app, fmap_app. reflexivity.
  - intros [|i ids]; [exists w; by rewrite Hnil|]. unfold mark_orchestration_messages_delivered.
    destruct (marks_refine delivered_row (i :: ids) w) as (n & E & Hl).
    { intros m. unfold pending. cbn. by rewrite andb_false_r. }
    rewrite (bind_ok _ _ _ _ _ E). by eexists.
  - intros [|i ids]; [exists w; by rewrite Hnil|]. unfold mark_orchestration_messages_read.
    destruct (marks_refine read_row (i :: ids) w) as (n & E & Hl); [done|].
    rewrite (bind_ok _ _ _ _ _ E). by eexists.
  - intros to_handle now_only. unfold undelivered_messages. destruct (expire_refines w) as (w' & E & Hl).
    rewrite (bind_ok _ _ _ _ _ E). eexists w', _. split; [reflexivity|]. split; [done|].
    unfold inbox, waiting_letters. rewrite filter_letters, filter_filter_bool. f_equal.
    apply List.filter_ext. intros m. unfold deliverable, pending. cbn.
    destruct (String.eqb _ _), (m_read m); cbn; try done; rewrite ?andb_false_r; done.
  - eexists. by split.
Qed.
End Refinement.

End MailQueue.
