(* ===== verification/Runs.v ===== *)
(** * Runs: coordinator runs

    orchestration_run_store.rs: creation of a shared run, lookup, the end of a
    run and the transfer of its coordinator.  A workspace has one slot for an
    active run ([holds_workspace]); the store checks it before an insert and the
    unique index orchestrationCoordinatorRunsActiveWorkspaceIdx enforces it. *)

From S2P Require Import Prelude Text Models Store StoreFacts RoleContract Tasks Dag.
From Stdlib Require Import ZArith Lia Ascii String.
From stdpp Require Import strings prelude.

Record NewRunPlan : Type := MkNewRunPlan {
  np_approval_required : bool;
  np_stall_policy : string
}.

Definition NewRunPlan_default : NewRunPlan := MkNewRunPlan false "ask".

(** ** Queries *)

Definition run_by_id (db : Db) (id : string) : option OrchestrationCoordinatorRun :=
  find_where (λ r, String.eqb (r_id r) id) (db_runs db).

Definition orchestration_coordinator_run_by_id (id : string)
    : SM (option OrchestrationCoordinatorRun) := select (λ db, run_by_id db id).

Definition run_after (id missing : string) : SM OrchestrationCoordinatorRun :=
  let! row := orchestration_coordinator_run_by_id id in
  match row with
  | Some r => ret r
  | None => bail missing
  end.

(** [ORDER BY created_at DESC LIMIT 1]: the latest running run. *)
Definition active_orchestration_coordinator_run : SM (option OrchestrationCoordinatorRun) :=
  select (λ db, head (sort_by (λ a b, String.leb (r_created_at b) (r_created_at a))
    (List.filter (λ r, bool_decide (r_status r = Cs_Running)) (db_runs db)))).

(** Running shared runs whose coordinator the runtime did not launch. *)
Definition running_shared_runs : SM (list OrchestrationCoordinatorRun) :=
  select (λ db, take 200 (sort_by (λ a b, String.leb (r_created_at a) (r_created_at b))
    (List.filter (λ r, bool_decide (r_status r = Cs_Running) && bool_decide (r_isolation r = Is_Shared)
                       && bool_decide (r_coordinator_tab_id r = None)) (db_runs db)))).

(** [ORDER BY created_at DESC, id DESC]. *)
Definition run_newest_first (a b : OrchestrationCoordinatorRun) : bool :=
  String.ltb (r_created_at b) (r_created_at a)
  || (String.eqb (r_created_at a) (r_created_at b) && String.leb (r_id b) (r_id a)).

Definition list_orchestration_coordinator_runs (workspace_id : option string)
    : SM (list OrchestrationCoordinatorRun) :=
  select (λ db, sort_by run_newest_first
    (List.filter (λ r, opt_matches workspace_id (Some (r_workspace_id r))) (db_runs db))).

Section WithEnv.
Context `{Env}.

(** ** Creation *)

Definition new_run_row (id spec : string) (coordinator_handle : option string)
    (poll_interval_ms : Z) (workspace_id : string) (max_concurrent : Z) (plan : NewRunPlan)
    : OrchestrationCoordinatorRun :=
  MkOrchestrationCoordinatorRun id spec
    (if np_approval_required plan then Cs_Planning else Cs_Running)
    coordinator_handle poll_interval_ms now None workspace_id max_concurrent now None None
    (np_approval_required plan) (np_stall_policy plan) None Is_Shared None None 0 None.

Definition create_planned_orchestration_coordinator_run (spec : string)
    (coordinator_handle : option string) (poll_interval_ms : Z) (workspace_id : string)
    (max_concurrent : Z) (plan : NewRunPlan) : SM OrchestrationCoordinatorRun :=
  let! id := tx (
    let! active := select (λ db, find_where
      (λ r, String.eqb (r_workspace_id r) workspace_id && holds_workspace r) (db_runs db)) in
    match active with
    | Some r => bail ("a coordinator run is already active: " +:+ r_id r)
    | None =>
        let! id := orchestration_id "run" in
        do! insert_run (new_run_row id spec coordinator_handle poll_interval_ms workspace_id
                          max_concurrent plan) in
        do! record_run_event (with_ne_summary spec (new_run_event id Ev_Created)) in
        ret id
    end) in
  run_after id "inserted coordinator run not found".

Definition create_scoped_orchestration_coordinator_run (spec : string)
    (coordinator_handle : option string) (poll_interval_ms : Z) (workspace_id : string)
    (max_concurrent : Z) : SM OrchestrationCoordinatorRun :=
  create_planned_orchestration_coordinator_run spec coordinator_handle poll_interval_ms workspace_id
    max_concurrent NewRunPlan_default.

Definition create_orchestration_coordinator_run (spec : string)
    (coordinator_handle : option string) (poll_interval_ms : Z) : SM OrchestrationCoordinatorRun :=
  create_scoped_orchestration_coordinator_run spec coordinator_handle poll_interval_ms "global" 4.

(** ** The end of a run *)

Definition run_open (r : OrchestrationCoordinatorRun) : bool :=
  match r_status r with
  | Cs_Completed | Cs_Failed | Cs_Cancelled => false
  | _ => true
  end.

Definition finish_event_kind (status : OrchestrationCoordinatorStatus) : option RunEventKind :=
  match status with
  | Cs_Completed => Some Ev_Completed
  | Cs_Failed => Some Ev_Failed
  | Cs_Cancelled => Some Ev_Cancelled
  | _ => None
  end.

Definition finish_orchestration_coordinator_run (id : string)
    (status : OrchestrationCoordinatorStatus) : SM unit :=
  tx (
    let! changed := update_runs (λ r, String.eqb (r_id r) id && run_open r)
      (λ r, with_r_paused_by None (with_r_completed_at (Some now) (with_r_status status r))) in
    if Nat.eqb changed 1 then
      match finish_event_kind status with
      | Some kind =>
          do! record_run_event (with_ne_actor_kind (Some Ak_Runtime) (new_run_event id kind)) in
          ret tt
      | None => ret tt
      end
    else ret tt).

Definition stop_orchestration_coordinator_run (id reason : string) : SM unit :=
  do! update_runs (λ r, String.eqb (r_id r) id)
        (λ r, with_r_stop_reason (Some reason)
                (with_r_completed_at (Some now) (with_r_status Cs_Cancelled r))) in
  ret tt.

(** ** Ownership *)

Definition transfer_orchestration_run_coordinator
    (run_id actor_handle new_coordinator_handle reason : string) (force : bool)
    : SM OrchestrationCoordinatorRun :=
  let! row := orchestration_coordinator_run_by_id run_id in
  match row with
  | None => bail ("coordinator run not found: " +:+ run_id)
  | Some run =>
      if negb force && negb (bool_decide (r_coordinator_handle run = Some actor_handle))
      then bail "only the current coordinator can transfer this run; use --force for audited recovery"
      else
        do! tx (
          do! update_runs (λ r, String.eqb (r_id r) run_id)
                (with_r_coordinator_handle (Some new_coordinator_handle)) in
          do! update_tasks false (λ t, bool_decide (t_run_id t = Some run_id))
                (with_t_coordinator_handle new_coordinator_handle) in
          update_dispatches false (λ d, bool_decide (d_run_id d = Some run_id) && d_active d)
            (with_d_coordinator_handle new_coordinator_handle)) in
        do! insert_orchestration_audit_event (Some actor_handle)
              (if force then "run.transfer.force" else "run.transfer") run_id reason in
        run_after run_id "run not found after transfer"
  end.

End WithEnv.
