(* ===== verification/SetupReport.v ===== *)
(** * SetupReport: the stored report of a worktree's setup

    run_setup_report.rs: [bounded_report] truncates long texts, drops the steps
    past the byte budget and closes with a summary step, so that the stored
    report is bounded and still tells whether the setup succeeded.  The length of
    a step's JSON is serde's ([ReportLib]). *)

From S2P Require Import Prelude Text.
From Stdlib Require Import ZArith Lia Ascii String.
From stdpp Require Import strings pretty prelude.

Inductive WorktreeSetupStepKind : Type := Sk_Copy | Sk_Command | Sk_Config.

Record WorktreeSetupStepReport : Type := MkSetupStep {
  sp_kind : WorktreeSetupStepKind;
  sp_label : string;
  sp_succeeded : bool;
  sp_message : option string;
  sp_exit_code : option Z;
  sp_stdout_tail : option string;
  sp_stderr_tail : option string
}.

Record WorktreeSetupReport : Type := MkSetupReport { rep_steps : list WorktreeSetupStepReport }.

Class ReportLib : Type := {
  step_size : WorktreeSetupStepReport → Z;       (** [serde_json::to_vec(step).len()] *)
  report_encode : WorktreeSetupReport → string;
  report_decode : string → option WorktreeSetupReport
}.

Definition DETAIL_BUDGET : Z := 240 * 1024.

(** [truncate]: the shortened text and whether it was. *)
Definition truncate_text (value : string) : string * bool :=
  if Nat.leb (String.length value) 4096 then (value, false)
  else (String.substring 0 (floor_boundary value 4096) value +:+ " [truncated]", true).

Definition truncate_option (value : option string) : option string * bool :=
  match value with
  | Some v => let (t, b) := truncate_text v in (Some t, b)
  | None => (None, false)
  end.

Definition truncate_step (step : WorktreeSetupStepReport) : WorktreeSetupStepReport * bool :=
  let (label, b1) := truncate_text (sp_label step) in
  let (message, b2) := truncate_option (sp_message step) in
  let (stdout, b3) := truncate_option (sp_stdout_tail step) in
  let (stderr, b4) := truncate_option (sp_stderr_tail step) in
  (MkSetupStep (sp_kind step) label (sp_succeeded step) message (sp_exit_code step) stdout stderr,
   b1 || b2 || b3 || b4).

(** The accumulators of the loop. *)
Record Bounded : Type := MkBounded {
  bo_steps : list WorktreeSetupStepReport;
  bo_bytes : Z;
  bo_omitted : nat;
  bo_failed : nat;
  bo_truncated : bool
}.

(** A stored report reads back as it was written. *)
Class ReportCodec `{ReportLib} : Prop := { report_roundtrip : ∀ r, report_decode (report_encode r) = Some r }.

Definition display_bool (b : bool) : string := if b then "true" else "false".

Definition summary_step (omitted failed : nat) (truncated : bool) : WorktreeSetupStepReport :=
  MkSetupStep Sk_Config "Setup Report Summary" (Nat.eqb failed 0)
    (Some ("Report details were bounded: " +:+ pretty omitted +:+ " steps omitted (" +:+ pretty failed
           +:+ " failed); oversized text truncated: " +:+ display_bool truncated
           +:+ ". The setup outcome is unchanged.")) None None None.

Section Report.
Context `{ReportLib}.

Definition bound_step (acc : Bounded) (step : WorktreeSetupStepReport) : Bounded :=
  let (step, cut) := truncate_step step in
  let truncated := bo_truncated acc || cut in
  let size := (step_size step + 1)%Z in
  if (bo_bytes acc + size <=? DETAIL_BUDGET)%Z
  then MkBounded (bo_steps acc ++ [step]) (bo_bytes acc + size)%Z (bo_omitted acc) (bo_failed acc) truncated
  else MkBounded (bo_steps acc) (bo_bytes acc) (S (bo_omitted acc))
         (bo_failed acc + (if sp_succeeded step then 0 else 1)) truncated.

Definition bounded_steps (report : WorktreeSetupReport) : list WorktreeSetupStepReport :=
  let acc := foldl bound_step (MkBounded [] 0%Z 0 0 false) (rep_steps report) in
  if Nat.ltb 0 (bo_omitted acc) || bo_truncated acc
  then bo_steps acc ++ [summary_step (bo_omitted acc) (bo_failed acc) (bo_truncated acc)]
  else bo_steps acc.

Definition bounded_report (report : WorktreeSetupReport) : string :=
  report_encode (MkSetupReport (bounded_steps report)).
End Report.

(** ** Facts *)

Section Facts.
Context `{ReportLib}.

Definition all_succeeded (steps : list WorktreeSetupStepReport) : bool := forallb sp_succeeded steps.
Definition sizes (steps : list WorktreeSetupStepReport) : Z := foldr (λ s n, step_size s + 1 + n)%Z 0%Z steps.

Lemma truncate_step_succeeded step : sp_succeeded (truncate_step step).1 = sp_succeeded step.
Proof.
  unfold truncate_step. destruct (truncate_text _), (truncate_option _), (truncate_option (sp_stdout_tail _)),
    (truncate_option (sp_stderr_tail _)). done.
Qed.

Lemma truncate_text_short value : (truncate_text value).2 = false → (truncate_text value).1 = value.
Proof. unfold truncate_text. by destruct (Nat.leb _ _). Qed.
Lemma truncate_option_short value : (truncate_option value).2 = false → (truncate_option value).1 = value.
Proof.
  destruct value as [v|]; [|done]. cbn. pose proof (truncate_text_short v). destruct (truncate_text v) as [t b].
  cbn in *. intros ->. by rewrite H0.
Qed.
Lemma truncate_step_short step : (truncate_step step).2 = false → (truncate_step step).1 = step.
Proof.
  destruct step as [kind label ok message code stdout stderr]. unfold truncate_step. cbn.
  pose proof (truncate_text_short label). pose proof (truncate_option_short message).
  pose proof (truncate_option_short stdout). pose proof (truncate_option_short stderr).
  destruct (truncate_text label) as [l b1], (truncate_option message) as [m b2],
    (truncate_option stdout) as [o b3], (truncate_option stderr) as [e b4]. cbn in *.
  intros Hb. apply orb_false_iff in Hb as [Hb ->]. apply orb_false_iff in Hb as [Hb ->].
  apply orb_false_iff in Hb as [-> ->]. by rewrite H0, H1, H2, H3.
Qed.

(** What the accumulators hold after a prefix of the steps. *)
Record bounded_ok (seen : list WorktreeSetupStepReport) (acc : Bounded) : Prop := {
  bk_bytes : bo_bytes acc = sizes (bo_steps acc);
  bk_budget : (bo_bytes acc ≤ DETAIL_BUDGET)%Z;
  bk_outcome : all_succeeded seen = all_succeeded (bo_steps acc) && Nat.eqb (bo_failed acc) 0;
  bk_failed : bo_failed acc ≤ bo_omitted acc;
  bk_length : length seen = length (bo_steps acc) + bo_omitted acc;
  bk_whole : bo_omitted acc = 0 → bo_truncated acc = false → bo_steps acc = seen
}.

Lemma bound_step_ok seen acc step : bounded_ok seen acc → bounded_ok (seen ++ [step]) (bound_step acc step).
Proof.
  intros [Hb Hbud Ho Hf Hl Hw]. unfold bound_step.
  pose proof (truncate_step_succeeded step) as Hs. pose proof (truncate_step_short step) as Hsh.
  destruct (truncate_step step) as [step' cut]. cbn in Hs, Hsh.
  destruct (Z.leb_spec (bo_bytes acc + (step_size step' + 1)) DETAIL_BUDGET); split; cbn -[DETAIL_BUDGET].
  - rewrite Hb. clear. unfold sizes. induction (bo_steps acc) as [|x l IH]; cbn; lia.
  - lia.
  - unfold all_succeeded in *. rewrite !forallb_app, Ho. cbn. rewrite Hs.
    by destruct (forallb _ (bo_steps acc)), (sp_succeeded step), (Nat.eqb _ _).
  - done.
  - rewrite !length_app, Hl. cbn. lia.
  - intros Hom [Ht Hc]%orb_false_iff. by rewrite Hw, Hsh by done.
  - done.
  - done.
  - unfold all_succeeded in *. rewrite forallb_app, Ho. cbn. rewrite Hs.
    destruct (forallb _ (bo_steps acc)), (sp_succeeded step); cbn; rewrite ?Nat.add_0_r, ?andb_true_r, ?andb_false_r; try done.
    symmetry. apply Nat.eqb_neq. lia.
  - destruct (sp_succeeded step'); lia.
  - rewrite length_app, Hl. cbn. lia.
  - done.
Qed.

Lemma bounded_fold_ok seen acc steps :
  bounded_ok seen acc → bounded_ok (seen ++ steps) (foldl bound_step acc steps).
Proof.
  revert seen acc. induction steps as [|s steps IH]; intros seen acc Hok; cbn; [by rewrite app_nil_r|].
  replace (seen ++ s :: steps) with ((seen ++ [s]) ++ steps) by (by rewrite <-app_assoc). by apply IH, bound_step_ok.
Qed.

(** The stored setup report is bounded and keeps the outcome: its detailed
    steps fit the byte budget, there is at most one more step, the summary, the
    report succeeds exactly when every step of the setup did, and a report that
    fits is stored unchanged. *)
Theorem setup_report_bounded (report : WorktreeSetupReport) :
  all_succeeded (bounded_steps report) = all_succeeded (rep_steps report) ∧
  (∃ details tail, bounded_steps report = details ++ tail ∧ length tail ≤ 1 ∧ (sizes details ≤ DETAIL_BUDGET)%Z ∧
     length details ≤ length (rep_steps report) ∧ (tail = [] → details = rep_steps report)).
Proof.
  assert (bounded_ok [] (MkBounded [] 0%Z 0 0 false)) as H0 by (split; by cbn).
  apply (bounded_fold_ok _ _ (rep_steps report)) in H0 as [Hb Hbud Ho Hf Hl Hw]. unfold bounded_steps.
  set (acc := foldl _ _ _) in *. cbn [app] in *. rewrite Ho.
  destruct (Nat.ltb_spec 0 (bo_omitted acc)) as [Hom|Hom]; cbn [orb]; [|destruct (bo_truncated acc) eqn:Ht].
  1,2: split; [unfold all_succeeded; rewrite forallb_app; cbn; by rewrite andb_true_r|];
    exists (bo_steps acc); eexists; split; [done|]; cbn; split_and!; try done; lia.
  assert (bo_failed acc = 0) as -> by lia. rewrite andb_true_r. split; [done|].
  exists (bo_steps acc), []. rewrite app_nil_r. split_and!; [done|cbn; lia|lia|lia|]. intros _. apply Hw; [lia|done].
Qed.
End Facts.
