(* ===== verification/Invariants.v ===== *)
(** * Invariants: what always holds of the store

    [Inv] is the contract between the components: primary keys, one active run
    per workspace, one active dispatch per task and per terminal, an active
    dispatch always backed by a dispatched or stalled task, and a settled task
    DAG.  This file defines it and the ways in which the operations of the other
    files may change the tables without breaking it. *)

From S2P Require Import Prelude Text Models Store StoreFacts RoleContract Tasks Dag Cancellation Dispatch.
From Stdlib Require Import ZArith Lia Ascii String.
From stdpp Require Import strings prelude.

(** ** The invariant *)

(** The statuses of a task whose worker may still be alive. *)
Definition held (t : OrchestrationTask) : Prop :=
  t_status t = Ts_Dispatched ∨ t_status t = Ts_Stalled.

(** Every active dispatch belongs to a task that is dispatched or stalled. *)
Definition holders_ok (db : Db) : Prop :=
  ∀ d, d ∈ db_dispatches db → d_active d = true →
    ∃ t, t ∈ db_tasks db ∧ t_id t = d_task_id d ∧ held t.

(** Two active dispatches of one task, or on one terminal, are the same row. *)
Definition exclusive {K} (key : OrchestrationDispatchContext → option K) (db : Db) : Prop :=
  ∀ d d' k, d ∈ db_dispatches db → d' ∈ db_dispatches db →
    d_active d = true → d_active d' = true → key d = Some k → key d' = Some k → d_id d = d_id d'.

Record Inv (db : Db) : Prop := {
  inv_task_ids : NoDup (t_id <$> db_tasks db);
  inv_dispatch_ids : NoDup (d_id <$> db_dispatches db);
  inv_run_ids : NoDup (r_id <$> db_runs db);
  inv_run_slots : NoDup (r_workspace_id <$> List.filter holds_workspace (db_runs db));
  inv_holders : holders_ok db;
  inv_one_per_task : exclusive (λ d, Some (d_task_id d)) db;
  inv_one_per_terminal : exclusive d_assignee_handle db;
  inv_dag : dag_ok db
}.

Lemma same_task db id t x :
  Inv db → task_by_id db id = Some t → x ∈ db_tasks db → String.eqb (t_id x) id = true → x = t.
Proof.
  intros HI [Hin Hid]%task_by_id_Some Hx He%String.eqb_eq.
  eapply (NoDup_key_inj t_id); [apply HI|done|done|congruence].
Qed.

(** ** Dispatches *)

(** A dispatch row may change, keep its place and close, but not reopen. *)
Definition shrinks (d d' : OrchestrationDispatchContext) : Prop :=
  d_id d' = d_id d ∧ d_task_id d' = d_task_id d ∧ d_assignee_handle d' = d_assignee_handle d ∧
  (d_active d' = true → d_active d = true).

Lemma shrinks_refl d : shrinks d d.
Proof. by unfold shrinks. Qed.
Lemma shrinks_trans d1 d2 d3 : shrinks d1 d2 → shrinks d2 d3 → shrinks d1 d3.
Proof. unfold shrinks. intros. destruct_and!. split_and!; try congruence. auto. Qed.

Lemma exclusive_shrinks {K} (key : OrchestrationDispatchContext → option K) db db' :
  (∀ d d', shrinks d d' → key d' = key d) →
  Forall2 shrinks (db_dispatches db) (db_dispatches db') → exclusive key db → exclusive key db'.
Proof.
  intros Hk Hf He d d' k Hd Hd' Ha Ha' Hkd Hkd'.
  destruct (Forall2_elem_r _ _ _ _ Hf Hd) as (x & Hx & Hs).
  destruct (Forall2_elem_r _ _ _ _ Hf Hd') as (x' & Hx' & Hs').
  rewrite (Hk x d Hs) in Hkd. rewrite (Hk x' d' Hs') in Hkd'.
  destruct Hs as (-> & _ & _ & Hs), Hs' as (-> & _ & _ & Hs'). eapply He; eauto.
Qed.

(** [closes ids]: the active dispatches of the listed tasks are closed. *)
Definition closes (ids : list string) (d d' : OrchestrationDispatchContext) : Prop :=
  shrinks d d' ∧ (d_active d' = true → d_task_id d ∉ ids).

(** A task keeps its identity, and stays held unless it is one of [ids]. *)
Definition releases (ids : list string) (t t' : OrchestrationTask) : Prop :=
  t_id t' = t_id t ∧ (held t → held t' ∨ t_id t ∈ ids).

Lemma holders_step ids db db' :
  Forall2 (releases ids) (db_tasks db) (db_tasks db') →
  Forall2 (closes ids) (db_dispatches db) (db_dispatches db') →
  holders_ok db → holders_ok db'.
Proof.
  intros Ht Hd Hok d' Hd' Ha'. destruct (Forall2_elem_r _ _ _ _ Hd Hd') as (d & Hdin & [Hs Hc]).
  specialize (Hc Ha'). destruct Hs as (_ & Htask & _ & Ha).
  destruct (Hok d Hdin (Ha Ha')) as (t & Htin & Hid & Hheld).
  destruct (Forall2_elem_l _ _ _ _ Ht Htin) as (t' & Htin' & Hid' & Hrel).
  exists t'. split; [done|]. split; [congruence|]. destruct (Hrel Hheld) as [?|Hin]; [done|].
  rewrite Hid in Hin. done.
Qed.

(** ** The DAG *)

(** A status change that decides nothing for the dependents. *)
Definition quiet_status (s : OrchestrationTaskStatus) : bool :=
  match s with Ts_Ready | Ts_Dispatched | Ts_Blocked | Ts_Stalled => true | _ => false end.

Definition quiet (t t' : OrchestrationTask) : Prop :=
  t_id t' = t_id t ∧ t_deps t' = t_deps t ∧ (t_run_id t' = t_run_id t ∨ t_run_id t = None) ∧
  (t_status t' = t_status t ∨ quiet_status (t_status t') = true).

Lemma quiet_refl t : quiet t t.
Proof. unfold quiet. auto. Qed.

Lemma run_isolated_None db : run_isolated db None = false.
Proof. unfold run_isolated. induction (db_runs db); cbn; [done|]. by rewrite bool_decide_false. Qed.

Lemma dag_ok_quiet db db' :
  Forall2 quiet (db_tasks db) (db_tasks db') →
  (∀ r, run_isolated db' r = run_isolated db r) → dag_ok db → dag_ok db'.
Proof.
  intros Hf Hruns Hok t' Ht' Hc'. destruct (Forall2_elem_r _ _ _ _ Hf Ht') as (t & Ht & Hq).
  assert (∀ d, option_Forall2 quiet (task_by_id db d) (task_by_id db' d)) as Hst.
  { intros d. apply Forall2_find; [|done]. by intros x y (? & _). }
  unfold refresh_candidate in Hc'. split_bools. rewrite Hruns in *.
  destruct Hq as (_ & Hdeps & Hrun & Hs).
  assert (t_status t = Ts_Pending) as Hp.
  { destruct Hs as [Hs|Hs]; [congruence|]. by destruct (t_status t'). }
  assert (refresh_candidate db t = true) as Hc.
  { unfold refresh_candidate. rewrite bool_decide_true by done. cbn.
    destruct Hrun as [Hr| ->]; [by rewrite <-Hr; rewrite negb_true_iff|by rewrite run_isolated_None]. }
  destruct (Hok t Ht Hc) as [Hl [Hnf (u & Hu & Hnc)]]. rewrite Hdeps.
  unfold deps_live, waiting, dep_failed, dep_completed, task_status in *. split_and!.
  - intros d Hd. destruct (Hl d Hd) as (s & Hs1 & Hs2). specialize (Hst d).
    destruct (task_by_id db d) as [x|]; [|done]. inversion Hst as [? y Hq|]; subst. cbn in *.
    destruct Hq as (_ & _ & _ & [Hq|Hq]); eexists; split; [done|congruence|done|].
    by destruct (t_status y).
  - intros d Hd. specialize (Hnf d Hd). specialize (Hst d). split_bools.
    inversion Hst as [x y Hq Hx Hy|Hx Hy]; rewrite <-Hx in Hnf; cbn in *; [|done].
    destruct Hq as (_ & _ & _ & [Hq|Hq]); [congruence|]. intros [= Heq]. by rewrite Heq in Hq.
  - exists u. split; [done|]. specialize (Hst u). split_bools.
    inversion Hst as [x y Hq Hx Hy|Hx Hy]; rewrite <-Hx in Hnc; cbn in *; [|done].
    destruct Hq as (_ & _ & _ & [Hq|Hq]); [congruence|]. intros [= Heq]. by rewrite Heq in Hq.
Qed.

Lemma dag_ok_frame db db' :
  db_tasks db' = db_tasks db → (∀ r, run_isolated db' r = run_isolated db r) →
  dag_ok db → dag_ok db'.
Proof.
  intros Ht Hr. apply dag_ok_quiet; [|done]. rewrite Ht. apply Forall2_same, quiet_refl.
Qed.

Lemma run_isolated_runs db db' : db_runs db' = db_runs db → ∀ r, run_isolated db' r = run_isolated db r.
Proof. intros Hr r. unfold run_isolated. by rewrite Hr. Qed.

(** ** The frame of a successful operation

    An operation that changes no run, evolves the task rows quietly and only
    closes dispatches of the tasks it releases keeps the invariant. *)

Lemma Inv_step ids db db' :
  db_runs db' = db_runs db →
  Forall2 (releases ids) (db_tasks db) (db_tasks db') →
  Forall2 (closes ids) (db_dispatches db) (db_dispatches db') →
  dag_ok db' → Inv db → Inv db'.
Proof.
  intros Hr Ht Hd Hdag [].
  assert (Forall2 shrinks (db_dispatches db) (db_dispatches db')) as Hs.
  { eapply Forall2_impl; [done|]. by intros ? ? []. }
  constructor; rewrite ?Hr; try done.
  - rewrite (Forall2_keys t_id (releases ids) (db_tasks db)); [done| |done]. by intros ? ? [].
  - rewrite (Forall2_keys d_id shrinks (db_dispatches db)); [done| |done]. by intros ? ? [].
  - by eapply holders_step.
  - eapply exclusive_shrinks; [|done|done]. by intros ? ? (_ & -> & _).
  - eapply exclusive_shrinks; [|done|done]. by intros ? ? (_ & _ & -> & _).
Qed.

Lemma Inv_same db db' :
  db_tasks db' = db_tasks db → db_dispatches db' = db_dispatches db → db_runs db' = db_runs db →
  Inv db → Inv db'.
Proof.
  intros Ht Hd Hr HI. eapply (Inv_step []); [done| | | |done].
  - rewrite Ht. apply Forall2_same. by split; [|left].
  - rewrite Hd. apply Forall2_same. intros d. split; [apply shrinks_refl|].
    intros _. apply not_elem_of_nil.
  - eapply dag_ok_frame; [done|by apply run_isolated_runs|apply HI].
Qed.

(** ** Preservation *)

Abbreviation inv_kept := (λ db db' : Db, Inv db → Inv db').
Definition keeps {A} (m : SM A) : Prop := respects inv_kept m.

#[export] Instance inv_kept_refl : Reflexive inv_kept.
Proof. by intros db. Qed.
#[export] Instance inv_kept_trans : Transitive inv_kept.
Proof. intros db1 db2 db3 H1 H2 HI. auto. Qed.

(** A transaction may break the invariant inside, not at its commit. *)
Lemma keeps_tx {A} (m : SM A) :
  (∀ w w' a, Inv (w_db w) → m w = (w', Ok a) → Inv (w_db w')) → keeps (tx m).
Proof.
  intros Hm w w' r Hr HI. unfold tx in Hr. destruct (m w) as [w1 [a|e]] eqn:E.
  - injection Hr as <- _. eauto.
  - injection Hr as <- _. done.
Qed.

Lemma keeps_bind {A B} (m : SM A) (k : A → SM B) :
  keeps m → (∀ a, keeps (k a)) → keeps (bind m k).
Proof. apply respects_bind. exact _. Qed.

Lemma keeps_read {A} (m : SM A) : (∀ w w' r, m w = (w', r) → w_db w' = w_db w) → keeps m.
Proof. intros Hm w w' r ->%Hm. done. Qed.

Lemma keeps_task_after id msg : keeps (task_after id msg).
Proof.
  apply keeps_read. intros w w' r. unfold task_after, orchestration_task_by_id, select, gets, bind.
  cbn. case_match; by intros [= <- _].
Qed.

Lemma keeps_dispatch_after id msg : keeps (dispatch_after id msg).
Proof.
  apply keeps_read. intros w w' r.
  unfold dispatch_after, orchestration_dispatch_by_id, select, gets, bind.
  cbn. case_match; by intros [= <- _].
Qed.

(** A row update that touches no column the invariant looks at. *)
Definition same_dispatch (f : OrchestrationDispatchContext → OrchestrationDispatchContext) : Prop :=
  ∀ d, d_id (f d) = d_id d ∧ d_task_id (f d) = d_task_id d ∧
       d_assignee_handle (f d) = d_assignee_handle d.

Lemma closes_task id f ds :
  same_dispatch f → (∀ d, d_active (f d) = false) →
  Forall2 (closes [id]) ds (update_where (active_of_task id) f ds).
Proof.
  intros Hf Ha. unfold update_where. apply Forall2_fmap_r, Forall_Forall2_diag, Forall_forall.
  intros d _. cbn. unfold active_of_task. destruct (String.eqb_spec (d_task_id d) id) as [Heq|Hne]; cbn.
  - destruct (d_active d) eqn:E.
    + destruct (Hf d) as (? & ? & ?). unfold closes, shrinks. rewrite Ha. by split_and!.
    + split; [apply shrinks_refl|congruence].
  - split; [apply shrinks_refl|]. intros _ Hin%list_elem_of_singleton. done.
Qed.

Lemma closes_one db ctx f :
  Inv db → ctx ∈ db_dispatches db → d_active ctx = true →
  same_dispatch f → (∀ d, d_active (f d) = false) →
  Forall2 (closes [d_task_id ctx]) (db_dispatches db)
    (update_where (λ d, String.eqb (d_id d) (d_id ctx)) f (db_dispatches db)).
Proof.
  intros HI Hctx Hact Hf Ha. unfold update_where.
  apply Forall2_fmap_r, Forall_Forall2_diag, Forall_forall.
  intros d Hd. cbn. destruct (String.eqb_spec (d_id d) (d_id ctx)) as [Heq|Hne].
  - destruct (Hf d) as (? & ? & ?). unfold closes, shrinks. rewrite Ha. by split_and!.
  - split; [apply shrinks_refl|]. intros Had Hin%list_elem_of_singleton.
    apply Hne. eapply (inv_one_per_task _ HI d ctx); try done. by rewrite Hin.
Qed.

(** Row updates that never close or reopen a dispatch. *)
Lemma closes_none p f (ds : list OrchestrationDispatchContext) :
  same_dispatch f → (∀ d, d ∈ ds → p d = true → d_active (f d) = d_active d) →
  Forall2 (closes []) ds (update_where p f ds).
Proof.
  intros Hf Ha. apply Forall2_update_where.
  - intros d Hd Hp. destruct (Hf d) as (? & ? & ?). split; [|intros _; apply not_elem_of_nil].
    split_and!; try done. by rewrite Ha.
  - intros d. split; [apply shrinks_refl|intros _; apply not_elem_of_nil].
Qed.

(** *** Settling a task: a final status followed by the refresh *)

Lemma promoted_releases `{Env} ids t t' : promoted t t' → releases ids t t'.
Proof.
  intros Hp. split; [by apply promoted_id|]. intros Hh.
  rewrite (promoted_not_pending t t'); [by left|done|]. destruct Hh as [->| ->]; done.
Qed.

Lemma releases_trans ids t1 t2 t3 : releases ids t1 t2 → releases ids t2 t3 → releases ids t1 t3.
Proof.
  intros [H1 Hr1] [H2 Hr2]. split; [congruence|]. intros Hh. rewrite H1 in Hr2.
  destruct (Hr1 Hh); auto.
Qed.

Lemma releases_update ids p f (ts : list OrchestrationTask) :
  (∀ t, t_id (f t) = t_id t) → (∀ t, t ∈ ts → p t = true → held (f t) ∨ t_id t ∈ ids) →
  Forall2 (releases ids) ts (update_where p f ts).
Proof.
  intros Hid Hr. apply Forall2_update_where.
  - intros t Ht Hp. split; auto.
  - intros t. split; auto.
Qed.

(** What a settling update keeps of a task. *)
Definition settles (s : OrchestrationTaskStatus) (f : OrchestrationTask → OrchestrationTask) : Prop :=
  ∀ t, t_id (f t) = t_id t ∧ t_deps (f t) = t_deps t ∧ t_run_id (f t) = t_run_id t ∧ t_status (f t) = s.

Lemma settled_status db id s f :
  settles s f → is_Some (task_by_id db id) →
  ∀ d, task_status (set_tasks (update_where (λ t, String.eqb (t_id t) id) f (db_tasks db)) db) d =
       if String.eqb id d then Some s else task_status db d.
Proof.
  intros Hf [t Ht] d. unfold task_status. rewrite task_by_id_update by apply Hf.
  destruct (String.eqb_spec id d) as [->|Hne].
  - rewrite Ht. cbn. apply task_by_id_Some in Ht as [_ ->]. rewrite String.eqb_refl. f_equal. apply Hf.
  - destruct (task_by_id db d) as [x|] eqn:E; [|done]. cbn. apply task_by_id_Some in E as [_ <-].
    by rewrite (proj2 (String.eqb_neq _ _)).
Qed.

Lemma dag_upto_settled db db' id s f :
  settles s f → s = Ts_Completed ∨ s = Ts_Failed → is_Some (task_by_id db id) → dag_ok db →
  db_tasks db' = update_where (λ t, String.eqb (t_id t) id) f (db_tasks db) →
  db_runs db' = db_runs db → dag_upto db' [id].
Proof.
  intros Hf Hs Hex Hdag Ht Hr. eapply (dag_upto_update db db' id s); [done| |done| |].
  - by destruct Hs as [->| ->].
  - intros d. rewrite <-(settled_status db id s f Hf Hex d). unfold task_status, task_by_id. by rewrite Ht.
  - intros t. rewrite Ht. intros (x & Hx & ->)%elem_of_update_where Hc.
    unfold refresh_candidate in *. rewrite (run_isolated_runs db db' Hr) in Hc. exists x.
    destruct (String.eqb (t_id x) id) eqn:E.
    + destruct (Hf x) as (_ & Hd & Hrn & Hst). split_bools. destruct Hs; congruence.
    + by split_and!.
Qed.

(** The refresh that follows: it succeeds, promotes and settles the DAG. *)
Lemma refresh_settled `{Env} db w w' r id s f :
  Inv db → settles s f → s = Ts_Completed ∨ s = Ts_Failed → is_Some (task_by_id db id) →
  db_tasks (w_db w) = update_where (λ t, String.eqb (t_id t) id) f (db_tasks db) →
  db_runs (w_db w) = db_runs db →
  refresh_pending_dependents_after_task_status id w = (w', r) →
  r = Ok tt ∧ promotes w w' ∧ dag_ok (w_db w').
Proof.
  intros HI Hf Hs Hex Ht Hr Hrun. destruct (refresh_spec id w) as (w1 & Hw1 & Hp & Hdag).
  - rewrite Ht, fmap_update_where; [apply HI|]. intros t _ _. apply Hf.
  - eapply dag_upto_settled; eauto. apply HI.
  - rewrite Hw1 in Hrun. by simplify_eq.
Qed.

Lemma settled_releases `{Env} db w w' id s f :
  settles s f → promotes w w' →
  db_tasks (w_db w) = update_where (λ t, String.eqb (t_id t) id) f (db_tasks db) →
  Forall2 (releases [id]) (db_tasks db) (db_tasks (w_db w')).
Proof.
  intros Hf Hp Ht. apply promotes_promoted in Hp. rewrite Ht in Hp.
  eapply Forall2_compose; [|apply releases_update|eapply Forall2_impl; [exact Hp|]].
  - apply releases_trans.
  - intros t. apply Hf.
  - intros t _ He%String.eqb_eq. right. rewrite He. by apply list_elem_of_singleton.
  - apply promoted_releases.
Qed.
