(* ===== verification/CancelFacts.v ===== *)
(** * CancelFacts: the cascade of a cancellation

    What [cancel_orchestration_task] does: the cascade computes exactly the
    tasks that wait, directly or not, on the cancelled one; every one of them
    ends cancelled with its dispatches closed, its queued messages obsolete and
    its pending gates timed out; nothing else changes. *)

From S2P Require Import Prelude Text Models Store StoreFacts RoleContract Tasks Dag Cancellation Dispatch Invariants.
From Stdlib Require Import ZArith Lia Ascii String.
From stdpp Require Import strings prelude.

(** ** Specification *)

(** The task itself, and every unstarted task that depends on a doomed one. *)
Inductive doomed (db : Db) (id : string) : string → Prop :=
| doomed_root : doomed db id id
| doomed_dependent c t :
    doomed db id c → t ∈ db_tasks db → cancellable t = true → c ∈ t_deps t → doomed db id (t_id t).

(** ** The cascade computes it *)

Lemma cascade_rows_spec c rows L :
  (∀ x, x ∈ cascade_rows c rows L ↔ x ∈ L ∨ ∃ t, t ∈ rows ∧ c ∈ t_deps t ∧ t_id t = x) ∧
  (NoDup L → NoDup (cascade_rows c rows L)) ∧ L `prefix_of` cascade_rows c rows L.
Proof.
  revert L. induction rows as [|row rows IH]; intros L; cbn.
  - split_and!; [|done|done]. intros x. split; [by left|]. intros [?|(t & Ht & _)]; [done|].
    by apply not_elem_of_nil in Ht.
  - destruct (existsb (String.eqb c) (t_deps row)) eqn:Ed; cbn;
      [destruct (bool_decide (t_id row ∈ L)) eqn:El; cbn|].
    + destruct (IH L) as (H1 & H2 & H3). split_and!; [|done|done]. intros x. rewrite H1.
      setoid_rewrite elem_of_cons. split_bools. naive_solver.
    + destruct (IH (L ++ [t_id row])) as (H1 & H2 & H3). apply existsb_eqb_elem in Ed. split_bools.
      split_and!.
      * intros x. rewrite H1, elem_of_app, list_elem_of_singleton. setoid_rewrite elem_of_cons.
        naive_solver.
      * intros Hnd. apply H2, NoDup_app. split_and!; [done| |apply NoDup_singleton].
        intros x Hx ->%list_elem_of_singleton. done.
      * etrans; [by apply prefix_app_r|done].
    + destruct (IH L) as (H1 & H2 & H3). split_and!; [|done|done]. intros x. rewrite H1.
      setoid_rewrite elem_of_cons.
      assert (c ∉ t_deps row) by (by rewrite <-existsb_eqb_elem; rewrite Ed). naive_solver.
Qed.

Lemma doomed_task db id x : doomed db id x → x = id ∨ x ∈ (t_id <$> db_tasks db).
Proof. destruct 1 as [|c t _ Ht]; [by left|]. right. by apply list_elem_of_fmap_2. Qed.

Lemma doomed_length db id L :
  NoDup L → (∀ x, x ∈ L → doomed db id x) → length L ≤ S (length (db_tasks db)).
Proof.
  intros Hnd Hd. assert (L ⊆+ id :: (t_id <$> db_tasks db)) as Hsub.
  { apply NoDup_submseteq; [done|]. intros x Hx. apply elem_of_cons. by apply doomed_task, Hd. }
  apply submseteq_length in Hsub. cbn in Hsub. by rewrite length_fmap in Hsub.
Qed.

Lemma cascade_loop_spec fuel db id cursor L :
  NoDup L → id ∈ L → (∀ x, x ∈ L → doomed db id x) →
  (∀ i c t, i < cursor → L !! i = Some c → t ∈ db_tasks db → cancellable t = true →
     c ∈ t_deps t → t_id t ∈ L) →
  S (length (db_tasks db)) ≤ cursor + fuel →
  ∃ L', cascade_loop fuel db cursor L = Some L' ∧ NoDup L' ∧ (∀ x, x ∈ L' ↔ doomed db id x) ∧
        L `prefix_of` L'.
Proof.
  revert cursor L. induction fuel as [|fuel IH]; intros cursor L Hnd Hid Hd Hclosed Hfuel.
  - cbn. pose proof (doomed_length _ _ _ Hnd Hd). rewrite lookup_ge_None_2 by lia.
    exists L. split_and!; try done. intros x. split; [apply Hd|]. induction 1 as [|c t Hc IHc Ht Hct Hdep]; [done|].
    apply list_elem_of_lookup in IHc as [i Hi]. apply (Hclosed i c t); try done.
    apply lookup_lt_Some in Hi. lia.
  - cbn. destruct (L !! cursor) as [c|] eqn:Ec.
    + destruct (cascade_rows_spec c (List.filter cancellable (db_tasks db)) L) as (H1 & H2 & H3).
      destruct (IH (S cursor) (cascade_rows c (List.filter cancellable (db_tasks db)) L))
        as (L' & Hrun & Hnd' & Hex & Hpre); [by apply H2| | | |lia|].
      * apply H1. by left.
      * intros x [Hx|(t & Ht & Hdep & <-)]%H1; [by apply Hd|].
        rewrite list_elem_of_In, filter_In, <-list_elem_of_In in Ht. destruct Ht.
        eapply doomed_dependent; try done. apply Hd. by eapply list_elem_of_lookup_2.
      * intros i x t Hi Hx Ht Hct Hdep. apply H1. destruct (decide (i = cursor)) as [->|Hne].
        -- rewrite (prefix_lookup_Some _ _ _ _ Ec H3) in Hx. simplify_eq. right. exists t.
           rewrite list_elem_of_In, filter_In, <-list_elem_of_In. done.
        -- left. assert (i < length L) as Hlt by (apply lookup_lt_Some in Ec; lia).
           apply lookup_lt_is_Some in Hlt as [y Hy]. pose proof (prefix_lookup_Some _ _ _ _ Hy H3).
           simplify_eq. apply (Hclosed i x t); try done; lia.
      * exists L'. split_and!; try done. by etrans.
    + exists L. split_and!; try done. intros x. split; [apply Hd|].
      induction 1 as [|c t Hc IHc Ht Hct Hdep]; [done|].
      apply list_elem_of_lookup in IHc as [i Hi]. apply (Hclosed i c t); try done.
      apply lookup_lt_Some in Hi. apply lookup_ge_None in Ec. lia.
Qed.

Lemma cascade_spec db id :
  ∃ L, cascade db id = Some L ∧ NoDup L ∧ (∀ x, x ∈ L ↔ doomed db id x).
Proof.
  destruct (cascade_loop_spec (S (length (db_tasks db))) db id 0 [id]) as (L & Hrun & Hnd & Hex & _).
  - apply NoDup_singleton.
  - by apply list_elem_of_singleton.
  - intros x ->%list_elem_of_singleton. constructor.
  - lia.
  - lia.
  - by exists L.
Qed.

(** ** What the loop does to the tables *)

Section Effect.
Context `{Env} (id reason : string).

Definition reason_for (task_id : string) : string :=
  if String.eqb task_id id then reason else "dependency cancelled: " +:+ id.

Definition cancelled_task (L : list string) (t : OrchestrationTask) : OrchestrationTask :=
  if bool_decide (t_id t ∈ L) && open_task t then cancel_row (reason_for (t_id t)) t else t.
Definition cancelled_dispatch (L : list string) (d : OrchestrationDispatchContext)
    : OrchestrationDispatchContext :=
  if bool_decide (d_task_id d ∈ L) && d_active d
  then with_d_completed_at (Some now) (with_d_status Ds_Cancelled d) else d.
Definition cancelled_message (L : list string) (m : OrchestrationMessage) : OrchestrationMessage :=
  if existsb (λ x, bool_decide (m_task_id m = Some x)) L && bool_decide (m_state m = St_Queued)
  then obsolete_message m else m.
Definition cancelled_gate (L : list string) (g : OrchestrationDecisionGate)
    : OrchestrationDecisionGate :=
  if existsb (λ x, bool_decide (g_task_id g = Some x)) L && bool_decide (g_status g = Gs_Pending)
  then with_g_resolved_at (Some now) (with_g_status Gs_Timeout g) else g.

(** The tables after the listed tasks were cancelled; the timeline apart. *)
Definition cancel_effect (L : list string) (db db' : Db) : Prop :=
  db_tasks db' = cancelled_task L <$> db_tasks db ∧
  db_dispatches db' = cancelled_dispatch L <$> db_dispatches db ∧
  db_messages db' = cancelled_message L <$> db_messages db ∧
  db_gates db' = cancelled_gate L <$> db_gates db ∧
  db_runs db' = db_runs db ∧ db_launches db' = db_launches db ∧
  db_workspaces db' = db_workspaces db ∧ db_audits db' = db_audits db.

Lemma cancelled_task_cons x L t : cancelled_task L (cancelled_task [x] t) = cancelled_task (x :: L) t.
Proof.
  unfold cancelled_task. destruct (open_task t) eqn:Eo; rewrite ?andb_false_r, ?andb_true_r; [|by rewrite Eo, andb_false_r].
  destruct (decide (t_id t = x)) as [<-|Hne].
  - rewrite (bool_decide_true (t_id t ∈ [t_id t])) by (by apply list_elem_of_singleton).
    rewrite (bool_decide_true (t_id t ∈ t_id t :: L)) by left. cbn. by rewrite andb_false_r.
  - rewrite (bool_decide_false (t_id t ∈ [x])) by (by rewrite list_elem_of_singleton).
    rewrite Eo, andb_true_r. by rewrite (bool_decide_ext (t_id t ∈ x :: L) (t_id t ∈ L)) by set_solver.
Qed.

Lemma cancelled_dispatch_cons x L d :
  cancelled_dispatch L (cancelled_dispatch [x] d) = cancelled_dispatch (x :: L) d.
Proof.
  unfold cancelled_dispatch. destruct (d_active d) eqn:Eo; rewrite ?andb_false_r, ?andb_true_r; [|by rewrite Eo, andb_false_r].
  destruct (decide (d_task_id d = x)) as [<-|Hne].
  - rewrite (bool_decide_true (d_task_id d ∈ [d_task_id d])) by (by apply list_elem_of_singleton).
    rewrite (bool_decide_true (d_task_id d ∈ d_task_id d :: L)) by left. cbn. by rewrite andb_false_r.
  - rewrite (bool_decide_false (d_task_id d ∈ [x])) by (by rewrite list_elem_of_singleton).
    rewrite Eo, andb_true_r. by rewrite (bool_decide_ext (d_task_id d ∈ x :: L) (d_task_id d ∈ L)) by set_solver.
Qed.

Lemma cancelled_message_cons x L m :
  cancelled_message L (cancelled_message [x] m) = cancelled_message (x :: L) m.
Proof.
  unfold cancelled_message. cbn [existsb]. rewrite orb_false_r.
  destruct (bool_decide (m_task_id m = Some x)), (bool_decide (m_state m = St_Queued)) eqn:Es; cbn;
    rewrite ?Es, ?andb_false_r, ?andb_true_r; done.
Qed.

Lemma cancelled_gate_cons x L g : cancelled_gate L (cancelled_gate [x] g) = cancelled_gate (x :: L) g.
Proof.
  unfold cancelled_gate. cbn [existsb]. rewrite orb_false_r.
  destruct (bool_decide (g_task_id g = Some x)), (bool_decide (g_status g = Gs_Pending)) eqn:Es; cbn;
    rewrite ?Es, ?andb_false_r, ?andb_true_r; done.
Qed.

Lemma fmap_same {A} (f : A → A) (l : list A) : (∀ x, f x = x) → l = f <$> l.
Proof. intros Hf. induction l as [|x l IH]; cbn; [done|]. by rewrite Hf, <-IH. Qed.

Lemma cancel_effect_nil db db' :
  db_tasks db' = db_tasks db → db_dispatches db' = db_dispatches db →
  db_messages db' = db_messages db → db_gates db' = db_gates db → db_runs db' = db_runs db →
  db_launches db' = db_launches db → db_workspaces db' = db_workspaces db →
  db_audits db' = db_audits db → cancel_effect [] db db'.
Proof.
  intros HT HD HM HG HR HL HW HA. unfold cancel_effect. rewrite HT, HD, HM, HG.
  split_and!; try done; apply fmap_same; intros x.
  - unfold cancelled_task. by rewrite (bool_decide_false (t_id x ∈ [])) by apply not_elem_of_nil.
  - unfold cancelled_dispatch. by rewrite (bool_decide_false (d_task_id x ∈ [])) by apply not_elem_of_nil.
  - done.
  - done.
Qed.

Lemma cancel_effect_cons x L db1 db2 db3 :
  cancel_effect [x] db1 db2 → cancel_effect L db2 db3 → cancel_effect (x :: L) db1 db3.
Proof.
  intros (T1 & D1 & M1 & G1 & R1 & L1 & W1 & A1) (T2 & D2 & M2 & G2 & R2 & L2 & W2 & A2).
  unfold cancel_effect. rewrite T2, T1, D2, D1, M2, M1, G2, G1, <-!list_fmap_compose.
  split_and!; try congruence; apply list_fmap_ext; intros i y _; cbn.
  - apply cancelled_task_cons.
  - apply cancelled_dispatch_cons.
  - apply cancelled_message_cons.
  - apply cancelled_gate_cons.
Qed.

Lemma bool_decide_singleton (x y : string) : bool_decide (x ∈ [y]) = String.eqb x y.
Proof.
  destruct (String.eqb_spec x y) as [->|Hne]; [apply bool_decide_true|apply bool_decide_false];
    by rewrite list_elem_of_singleton.
Qed.

Lemma cancel_one_ok x w w' u :
  cancel_one id reason x w = (w', Ok u) → cancel_effect [x] (w_db w) (w_db w').
Proof.
  unfold cancel_one. intros Hm. cbn zeta in Hm. repeat inv_ok Hm. store_inv.
  unfold cancel_effect. frame_rewrite. split_and!; try done.
  - apply list_fmap_ext. intros i t _. unfold cancelled_task. rewrite bool_decide_singleton.
    destruct (String.eqb_spec (t_id t) x) as [<-|]; done.
  - apply list_fmap_ext. intros i d _. unfold cancelled_dispatch, active_of_task.
    by rewrite bool_decide_singleton.
  - apply list_fmap_ext. intros i m _. unfold cancelled_message. cbn. by rewrite orb_false_r.
  - apply list_fmap_ext. intros i g _. unfold cancelled_gate. cbn. by rewrite orb_false_r.
  - by rewrite (events_only_workspaces _ _ Hstep0).
  - by rewrite (events_only_audits _ _ Hstep0).
Qed.

Lemma cancel_all_ok L w w' u :
  mapM_ (cancel_one id reason) L w = (w', Ok u) → cancel_effect L (w_db w) (w_db w').
Proof.
  revert w. induction L as [|x L IH]; cbn; intros w Hm.
  - inv_ok Hm. by apply cancel_effect_nil.
  - inv_ok Hm. eapply cancel_effect_cons; [by eapply cancel_one_ok|by apply IH].
Qed.

(** No trigger stops a cancellation. *)
Lemma cancel_row_allowed db r t :
  open_task t = true → task_update_abort false db t (cancel_row r t) = None.
Proof.
  intros Ho. task_triggers. cbn.
  bool_refl. cbn. rewrite !andb_false_r.
  rewrite (bool_decide_false (t_status t = Ts_Completed)) by (intros E; unfold open_task in Ho; by rewrite E in Ho).
  done.
Qed.

Lemma cancel_dispatch_allowed db d :
  dispatch_update_abort true db d (with_d_completed_at (Some now) (with_d_status Ds_Cancelled d)) = None.
Proof.
  dispatch_triggers. cbn. bool_refl. cbn. by rewrite !andb_false_r.
Qed.

Lemma cancel_one_total x w n :
  marker_fits → events_fresh w (S n) →
  ∃ w', cancel_one id reason x w = (w', Ok tt) ∧ events_fresh w' n.
Proof.
  intros Hm Hf. unfold cancel_one. cbn zeta.
  change (if String.eqb x id then reason else "dependency cancelled: " +:+ id) with (reason_for x).
  rewrite (bind_ok _ _ _ _ _ (update_tasks_success false
    (λ t, String.eqb (t_id t) x && open_task t) (cancel_row (reason_for x)) w
    (λ t _ Hp, cancel_row_allowed _ _ _ (proj2 (proj1 (andb_true_iff _ _) Hp))))).
  set (w1 := with_db _ w).
  assert (∀ b : bool, ∃ w2, (if b then record_task_run_event x Ev_TaskCancelled (reason_for x) None
                     else ret tt) w1 = (w2, Ok tt) ∧ events_fresh w2 n) as Hev.
  { intros []; [|exists w1; split; [done|by apply events_fresh_less]].
    destruct (record_task_run_event_fresh x Ev_TaskCancelled (reason_for x) None w1 n)
      as (w2 & ? & _ & ?); eauto. }
  destruct (Hev (Nat.ltb 0 (count_where (λ t, String.eqb (t_id t) x && open_task t)
                              (db_tasks (w_db w))))) as (w2 & He & Hf2).
  rewrite (bind_ok _ _ _ _ _ He).
  rewrite (bind_ok _ _ _ _ _ (update_dispatches_success true (active_of_task x) _ w2
    (λ d _ _, cancel_dispatch_allowed _ d))).
  eexists. split; [reflexivity|]. exact Hf2.
Qed.

Lemma cancel_all_total L w :
  marker_fits → events_fresh w (length L) → ∃ w', mapM_ (cancel_one id reason) L w = (w', Ok tt).
Proof.
  intros Hm. revert w. induction L as [|x L IH]; cbn; intros w Hf; [by exists w|].
  destruct (cancel_one_total x w (length L) Hm Hf) as (w1 & Hw1 & Hf1).
  rewrite (bind_ok _ _ _ _ _ Hw1). by apply IH.
Qed.
End Effect.

(** ** The invariant *)

Section Keeps.
Context `{Env} (id reason : string).

Lemma cancelled_task_id L t : t_id (cancelled_task id reason L t) = t_id t.
Proof. unfold cancelled_task. by destruct (_ && _). Qed.

Lemma cancelled_status db db' L d :
  cancel_effect id reason L db db' → d ∉ L → task_status db' d = task_status db d.
Proof.
  intros (Ht & _) Hd. unfold task_status, task_by_id. rewrite Ht.
  change (cancelled_task id reason L <$> db_tasks db)
    with (update_where (λ _, true) (cancelled_task id reason L) (db_tasks db)).
  rewrite find_update_where by apply cancelled_task_id.
  destruct (find_where _ (db_tasks db)) as [t|] eqn:E; [|done]. apply find_key_Some in E as [_ <-].
  cbn. unfold cancelled_task. by rewrite bool_decide_false.
Qed.

Lemma cancel_dag_ok db db' L :
  (∀ x, x ∈ L ↔ doomed db id x) → cancel_effect id reason L db db' → dag_ok db → dag_ok db'.
Proof.
  intros HL Heff Hdag t' Ht' Hc. pose proof Heff as (HT & _ & _ & _ & HR & _).
  rewrite HT in Ht'. apply list_elem_of_fmap in Ht' as (t & -> & Ht).
  unfold refresh_candidate in Hc. rewrite (run_isolated_runs db db' HR) in Hc.
  assert (t_id t ∉ L ∧ cancelled_task id reason L t = t) as [Hni Heq].
  { unfold cancelled_task in *. destruct (bool_decide (t_id t ∈ L)) eqn:El; cbn in *.
    - destruct (open_task t) eqn:Eo; split_bools; cbn in *; [done|].
      unfold open_task in Eo. destruct (t_status t); done.
    - by split_bools. }
  rewrite Heq in *.
  assert (cancellable t = true) as Hcan by (unfold cancellable; split_bools; by rewrite H0).
  assert (∀ d, d ∈ t_deps t → task_status db' d = task_status db d) as Hst.
  { intros d Hd. apply (cancelled_status _ _ L); [done|]. intros HdL. apply Hni, HL.
    eapply doomed_dependent; try done. by apply HL. }
  destruct (Hdag t Ht Hc) as [Hl [Hnf (u & Hu & Hnc)]].
  unfold deps_live, waiting, dep_failed, dep_completed in *. split_and!.
  - intros d Hd. rewrite Hst by done. by apply Hl.
  - intros d Hd. rewrite Hst by done. by apply Hnf.
  - exists u. by rewrite Hst.
Qed.

Lemma cancel_effect_Inv db db' L :
  (∀ x, x ∈ L ↔ doomed db id x) → cancel_effect id reason L db db' → Inv db → Inv db'.
Proof.
  intros HL Heff HI. pose proof Heff as (HT & HD & _ & _ & HR & _).
  apply (Inv_step L db); [done| | | |done].
  - rewrite HT. apply Forall2_fmap_r, Forall_Forall2_diag, Forall_forall. intros t _.
    split; [apply cancelled_task_id|]. intros Hh. destruct (decide (t_id t ∈ L)); [by right|].
    left. unfold cancelled_task. by rewrite bool_decide_false.
  - rewrite HD. apply Forall2_fmap_r, Forall_Forall2_diag, Forall_forall. intros d _.
    unfold compose, cancelled_dispatch. case_bool_decide as E; cbn.
    + destruct (d_active d) eqn:Ea; [by unfold closes, shrinks; cbn; split_and!|].
      split; [apply shrinks_refl|congruence].
    + split; [apply shrinks_refl|done].
  - eapply cancel_dag_ok; try done. apply HI.
Qed.

Lemma keeps_cancel : keeps (cancel_orchestration_task id reason).
Proof.
  unfold cancel_orchestration_task. apply keeps_bind; [|intros; apply keeps_task_after].
  apply keeps_tx. intros w w' u HI. rewrite bind_select.
  destruct (cascade_spec (w_db w) id) as (L & HL & _ & Hex).
  destruct (task_status (w_db w) id) as [[]|]; rewrite ?bind_select, ?HL; intros Hm; try done;
    try (by inv_ok Hm); (eapply cancel_effect_Inv; [exact Hex|by eapply cancel_all_ok|done]).
Qed.
End Keeps.

(** ** Claims *)

Section Claims.
Context `{Env}.

(** [C16] Cancelling an open task succeeds and reaches exactly the tasks that
    wait on it, directly or through others: the open ones among them become
    cancelled, with the given reason on the task itself; their active
    dispatches are closed, their queued messages become obsolete and their
    pending gates time out.  No other task, dispatch, message, gate, run or
    launch changes. *)
Theorem cancel_orchestration_task_spec (id reason : string) (w : World) (t : OrchestrationTask) :
  task_by_id (w_db w) id = Some t → open_task t = true →
  marker_fits → events_fresh w (S (length (db_tasks (w_db w)))) →
  ∃ w' L, cancel_orchestration_task id reason w = (w', Ok (cancel_row reason t)) ∧
    (∀ x, x ∈ L ↔ doomed (w_db w) id x) ∧
    cancel_effect id reason L (w_db w) (w_db w') ∧
    (∀ d, d ∈ db_dispatches (w_db w') → doomed (w_db w) id (d_task_id d) → d_active d = false) ∧
    (∀ x, x ∈ db_tasks (w_db w') → doomed (w_db w) id (t_id x) → open_task x = false).
Proof.
  intros Ht Ho Hm Hf. destruct (cascade_spec (w_db w) id) as (L & HL & Hnd & Hex).
  destruct (cancel_all_total id reason L w) as (w' & Hw'); [done| |].
  { eapply events_fresh_le; [|exact Hf]. eapply doomed_length; [done|]. intros x. apply Hex. }
  pose proof (cancel_all_ok _ _ _ _ _ _ Hw') as Heff. exists w', L. split_and!; try done.
  - unfold cancel_orchestration_task, bind at 1.
    assert (∀ A (m : SM A) a, m w = (w', Ok a) → tx m w = (w', Ok a)) as Htx by (intros; by apply tx_ok).
    rewrite (Htx unit _ tt).
    + destruct Heff as (HT & _). unfold task_after, orchestration_task_by_id. rewrite bind_select.
      unfold task_by_id. rewrite HT.
      change (cancelled_task id reason L <$> db_tasks (w_db w))
        with (update_where (λ _, true) (cancelled_task id reason L) (db_tasks (w_db w))).
      rewrite find_update_where by apply cancelled_task_id.
      unfold task_by_id in Ht. rewrite Ht. apply find_key_Some in Ht as [_ Hid]. cbn.
      unfold cancelled_task. rewrite Hid, Ho, bool_decide_true by (apply Hex; constructor). cbn.
      unfold reason_for. by rewrite String.eqb_refl.
    + rewrite bind_select. unfold task_status. rewrite Ht. cbn [fmap option_fmap option_map].
      unfold open_task in Ho. destruct (t_status t); try done; rewrite bind_select, HL; done.
  - destruct Heff as (_ & HD & _). intros d Hd Hdm. rewrite HD in Hd.
    apply list_elem_of_fmap in Hd as (d0 & -> & _). unfold cancelled_dispatch in *.
    destruct (bool_decide (d_task_id d0 ∈ L)) eqn:E; cbn in *; [by destruct (d_active d0) eqn:Ea|].
    split_bools. by apply Hex in Hdm.
  - destruct Heff as (HT & _). intros x Hx Hdm. rewrite HT in Hx.
    apply list_elem_of_fmap in Hx as (t0 & -> & _). rewrite cancelled_task_id in Hdm. unfold cancelled_task.
    rewrite bool_decide_true by (by apply Hex). cbn. by destruct (open_task t0) eqn:Ea.
Qed.

(** A task that already ended is never cancelled: completed and failed tasks
    refuse with an error, an unknown task too, a cancelled one is returned as it
    is; in all cases the database stays untouched. *)
Theorem cancel_orchestration_task_closed (id reason : string) (w : World) :
  (∀ t, task_by_id (w_db w) id = Some t → open_task t = false) →
  ∃ r, cancel_orchestration_task id reason w = (w, r) ∧
    match task_by_id (w_db w) id with
    | Some t => if bool_decide (t_status t = Ts_Cancelled) then r = Ok t
                else r = Err (Bail ("cannot cancel terminal orchestration task " +:+ id))
    | None => r = Err (Bail ("orchestration task not found: " +:+ id))
    end.
Proof.
  intros Hcl. unfold cancel_orchestration_task, task_after, orchestration_task_by_id, tx, bind, select, gets, task_status.
  destruct (task_by_id (w_db w) id) as [t|] eqn:Et; cbn; [|by eexists; destruct w].
  specialize (Hcl t eq_refl). unfold open_task in Hcl.
  destruct (t_status t) eqn:Es; try done; cbn; rewrite ?Et; eexists; by destruct w.
Qed.
End Claims.
