(* ===== verification/Lifecycle.v ===== *)
(** * Lifecycle: every operation keeps the invariant

    One lemma per operation of Tasks.v, Dispatch.v, Gates.v, Cancellation.v,
    Messages.v and Runs.v: whatever it returns, it keeps [Inv]. *)

From S2P Require Import Prelude Text Models Store StoreFacts RoleContract Tasks Dag Cancellation Dispatch Gates Messages Runs Invariants CancelFacts.
From Stdlib Require Import ZArith Lia Ascii String.
From stdpp Require Import strings prelude.

Section WithEnv.
Context `{Env}.

(** ** Status updates *)

Lemma keeps_settle db w1 w2 db' id s f r :
  refresh_pending_dependents_after_task_status id w1 = (w2, r) →
  db_tasks (w_db w1) = update_where (λ t, String.eqb (t_id t) id) f (db_tasks db) →
  db_runs (w_db w1) = db_runs db →
  Inv db → is_Some (task_by_id db id) → settles s f → s = Ts_Completed ∨ s = Ts_Failed →
  Forall2 (closes [id]) (db_dispatches db) (db_dispatches db') →
  db_tasks db' = db_tasks (w_db w2) → db_runs db' = db_runs (w_db w2) → Inv db'.
Proof.
  intros Hrun Ht Hr HI Hex Hf Hs Hd Ht' Hr'.
  destruct (refresh_settled db w1 w2 r id s f) as (_ & Hp & Hdag); try done.
  pose proof (settled_releases db w1 w2 id s f Hf Hp Ht) as Hrel.
  destruct Hp as (ts & Hw2 & _). assert (db_runs (w_db w2) = db_runs (w_db w1)) as Hr2 by (by subst).
  apply (Inv_step [id] db); [congruence|by rewrite Ht'|done| |done].
  eapply dag_ok_frame; [done|by apply run_isolated_runs|done].
Qed.

(** The quiet counterpart: one status update that decides nothing. *)
Lemma keeps_quiet ids db db' p f :
  Inv db → db_tasks db' = update_where p f (db_tasks db) → db_runs db' = db_runs db →
  (∀ t, t ∈ db_tasks db → p t = true → quiet t (f t)) →
  (∀ t, t ∈ db_tasks db → p t = true → held t → held (f t) ∨ t_id t ∈ ids) →
  Forall2 (closes ids) (db_dispatches db) (db_dispatches db') → Inv db'.
Proof.
  intros HI Ht Hr Hq Hh Hd. apply (Inv_step ids db); [done| |done| |done].
  - rewrite Ht. apply Forall2_update_where; [|by split; [|left]].
    intros t Hin Hp. split; [by apply Hq|]. auto.
  - eapply dag_ok_quiet; [|by apply run_isolated_runs|apply HI].
    rewrite Ht. apply Forall2_update_where; [done|apply quiet_refl].
Qed.

Lemma closes_refl ds : Forall2 (closes []) ds ds.
Proof. apply Forall2_same. intros d. split; [apply shrinks_refl|intros _; apply not_elem_of_nil]. Qed.

Lemma closes_subset ids ds ds' : Forall2 (closes ids) ds ds' → Forall2 (closes []) ds ds'.
Proof.
  intros Hf. eapply Forall2_impl; [done|]. intros d d' [Hs _]. split; [done|].
  intros _. apply not_elem_of_nil.
Qed.

Lemma guard_contract_ok id status w w' u :
  guard_contract_status_update id status w = (w', Ok u) → w' = w.
Proof.
  unfold guard_contract_status_update, orchestration_task_by_id. intros Hm. inv_ok Hm. store_inv.
  destruct (task_by_id _ _); [|done]. destruct (_ && _); [done|]. by inv_ok Hm.
Qed.

Lemma keeps_update_status id status result :
  status ≠ Ts_Pending → status ≠ Ts_Cancelled →
  keeps (update_orchestration_task_status id status result).
Proof.
  intros Hnp Hnc. unfold update_orchestration_task_status.
  apply keeps_bind; [|intros; apply keeps_task_after]. apply keeps_tx. intros w w' u HI Hm.
  unfold orchestration_task_by_id in Hm. inv_ok Hm. store_inv.
  destruct (task_by_id (w_db s) id) as [t0|] eqn:Et; [|done].
  inv_ok Hm. apply guard_contract_ok in Hstep as ->. destruct (terminal_status status) eqn:Eterm.
  - repeat inv_ok Hm. store_inv.
    assert (status = Ts_Completed ∨ status = Ts_Failed) as Hs by (destruct status; auto; done).
    eapply (keeps_settle (w_db s) _ s1); [exact Hstep0|done|done|done|by eexists| |exact Hs| | |];
      [by intros t; split_and!| |by frame_rewrite|by frame_rewrite].
    frame_rewrite. refresh_frame. apply closes_task; [by intros d; split_and!|].
    intros d. by destruct (bool_decide _).
  - inv_ok Hm. store_inv. destruct (bool_decide (status = Ts_Dispatched)) eqn:Ed.
    + inv_ok Hm. eapply (keeps_quiet [] (w_db s)); try done; [| |apply closes_refl].
      * intros t _ _. unfold quiet. cbn. split_and!; auto. right. by destruct status.
      * intros t _ _ _. left. split_bools. by left.
    + repeat inv_ok Hm. store_inv. eapply (keeps_quiet [id] (w_db s)); try done.
      * intros t _ _. unfold quiet. cbn. split_and!; auto. right. by destruct status.
      * intros t _ He%String.eqb_eq _. right. rewrite He. by apply list_elem_of_singleton.
      * by apply closes_task.
Qed.


(** ** Statements that keep the invariant on their own *)

Lemma keeps_update_tasks sr p f :
  (∀ t, p t = true → quiet t (f t) ∧ (held t → held (f t))) → keeps (update_tasks sr p f).
Proof.
  intros Hf w w' r [->| ->]%update_tasks_any HI; [done|].
  eapply (keeps_quiet [] (w_db w)); try done; [| |apply closes_refl].
  - intros t _ Hp. by apply Hf.
  - intros t _ Hp Hh. left. by apply Hf.
Qed.

Lemma Inv_dispatches db p f :
  same_dispatch f → (∀ d, p d = true → d_active (f d) = true → d_active d = true) →
  Inv db → Inv (set_dispatches (update_where p f (db_dispatches db)) db).
Proof.
  intros Hs Ha HI. apply (Inv_step [] db); [done| | | |done].
  - apply Forall2_same. by split; [|left].
  - apply Forall2_update_where.
    + intros d _ Hp. destruct (Hs d) as (? & ? & ?). split; [|intros _; apply not_elem_of_nil].
      split_and!; eauto.
    + intros d. split; [apply shrinks_refl|intros _; apply not_elem_of_nil].
  - eapply dag_ok_frame; [done|by apply run_isolated_runs|apply HI].
Qed.

Lemma keeps_update_dispatches ss p f :
  same_dispatch f → (∀ d, p d = true → d_active (f d) = true → d_active d = true) →
  keeps (update_dispatches ss p f).
Proof.
  intros Hs Ha w w' r. unfold update_dispatches. case_match; intros [= <- _] HI; [done|].
  by apply Inv_dispatches.
Qed.

Lemma run_isolated_update db p f :
  (∀ r, r_id (f r) = r_id r ∧ r_isolation (f r) = r_isolation r) →
  ∀ id, run_isolated (set_runs (update_where p f (db_runs db)) db) id = run_isolated db id.
Proof.
  intros Hf id. unfold run_isolated. cbn. induction (db_runs db) as [|r rs IH]; [done|].
  change (update_where p f (r :: rs)) with ((if p r then f r else r) :: update_where p f rs).
  cbn [existsb]. rewrite IH. destruct (p r); [|done]. by destruct (Hf r) as [-> ->].
Qed.

Lemma Inv_runs db runs :
  NoDup (r_id <$> runs) → workspace_slots_unique runs = true →
  (∀ id, run_isolated (set_runs runs db) id = run_isolated db id) → Inv db → Inv (set_runs runs db).
Proof.
  intros Hid Hslots Hiso HI. unfold workspace_slots_unique in Hslots. split_bools.
  destruct HI. constructor; try done. by apply (dag_ok_frame db).
Qed.

Lemma keeps_update_runs p f :
  (∀ r, r_id (f r) = r_id r ∧ r_isolation (f r) = r_isolation r) → keeps (update_runs p f).
Proof.
  intros Hf w w' r. unfold update_runs. destruct (workspace_slots_unique _) eqn:E;
    intros [= <- _] HI; [|done]. apply Inv_runs; [|done| |done].
  - rewrite fmap_update_where; [apply HI|]. intros r0 _ _. apply Hf.
  - by apply run_isolated_update.
Qed.

Lemma keeps_update_messages p f : keeps (update_messages p f).
Proof. intros w w' r [= <- _]. by apply Inv_same. Qed.
Lemma keeps_insert_message row : keeps (insert_message row).
Proof. intros w w' r. unfold insert_message. case_match; intros [= <- _]; [done|]. by apply Inv_same. Qed.
Lemma keeps_update_gates p f : keeps (update_gates p f).
Proof. intros w w' r [= <- _]. by apply Inv_same. Qed.
Lemma keeps_insert_gate g : keeps (insert_gate g).
Proof.
  intros w w' r. unfold insert_gate. destruct (negb _); [by intros [= <- _]|].
  case_match; intros [= <- _]; [done|]. by apply Inv_same.
Qed.
Lemma keeps_update_launches p f : keeps (update_launches p f).
Proof. intros w w' r [= <- _]. by apply Inv_same. Qed.
Lemma events_only_Inv w w' : events_only w w' → Inv (w_db w) → Inv (w_db w').
Proof. intros (evs & seq & ->). by apply Inv_same. Qed.
Lemma keeps_run_event ev : keeps (record_run_event ev).
Proof. intros w w' r Hr%record_run_event_frame. by apply events_only_Inv. Qed.
Lemma keeps_dispatch_event id k s p : keeps (record_dispatch_run_event id k s p).
Proof. intros w w' r Hr%record_dispatch_run_event_frame. by apply events_only_Inv. Qed.
Lemma keeps_task_event id k s p : keeps (record_task_run_event id k s p).
Proof. intros w w' r Hr%record_task_run_event_frame. by apply events_only_Inv. Qed.
Lemma keeps_audit actor action target reason :
  keeps (insert_orchestration_audit_event actor action target reason).
Proof. intros w w' r [a Ha]%insert_audit_frame. rewrite Ha. by apply Inv_same. Qed.

(** Break an operation into statements and close the ones that keep the
    invariant on their own; what is left are the updates of tasks, dispatches
    and runs, as conditions on their rows. *)
Ltac keep :=
  repeat first
    [ apply (respects_ret inv_kept) | apply (respects_fail inv_kept)
    | apply (respects_bail inv_kept) | apply (respects_select inv_kept)
    | apply (respects_get_db inv_kept) | apply (respects_id inv_kept)
    | apply keeps_update_messages | apply keeps_insert_message | apply keeps_update_gates
    | apply keeps_insert_gate | apply keeps_update_launches | apply keeps_run_event
    | apply keeps_dispatch_event | apply keeps_task_event | apply keeps_audit
    | apply keeps_task_after | apply keeps_dispatch_after
    | apply keeps_update_tasks; intros ? ? | apply keeps_update_dispatches; [intros ?|intros ? ? ?]
    | apply keeps_update_runs; intros ?
    | apply (respects_tx inv_kept) | apply (respects_mapM inv_kept); intros ?
    | apply (respects_catch inv_kept); [|intros ?]
    | apply (respects_bind inv_kept); [|intros ?]
    | apply (respects_if inv_kept) | apply (respects_option inv_kept); [intros ?|]
    | progress cbn beta | exact inv_kept_refl | exact inv_kept_trans ].

(** The conditions [keep] leaves, when the columns written decide them. *)
Ltac row_cond :=
  first [ by split_and! | by (split_bools; cbn in *; subst)
        | by (split; [unfold quiet; cbn; split_and!; auto|unfold held; cbn; auto])
        | by (unfold d_active; match goal with d : OrchestrationDispatchContext |- _ =>
                destruct (d_status d); cbn in *; rewrite ?andb_false_r in * end) ].

(** ** Dispatch: lease and activity *)

Lemma keeps_accept dispatch_id assignee token :
  keeps (accept_orchestration_dispatch dispatch_id assignee token).
Proof. unfold accept_orchestration_dispatch. keep; row_cond. Qed.

Lemma keeps_revive dispatch_id : keeps (revive_stalled_dispatch dispatch_id).
Proof. unfold revive_stalled_dispatch. keep; row_cond. Qed.

Lemma keeps_activity dispatch_id : keeps (record_orchestration_activity dispatch_id).
Proof.
  unfold record_orchestration_activity, revive_stalled_dispatch.
  keep; try row_cond. destruct a0; keep; row_cond.
Qed.

Lemma keeps_stall_one ctx : keeps (stall_one ctx).
Proof. unfold stall_one. keep; row_cond. Qed.

Lemma keeps_stall_expired threshold : keeps (stall_expired_orchestration_dispatches threshold).
Proof. unfold stall_expired_orchestration_dispatches, stall_one. keep; row_cond. Qed.

Lemma keeps_resume_stalled task_id : keeps (resume_stalled_orchestration_dispatch task_id).
Proof. unfold resume_stalled_orchestration_dispatch. keep; row_cond. Qed.

Lemma keeps_set_profile dispatch_id profile quota :
  keeps (set_orchestration_dispatch_profile dispatch_id profile quota).
Proof. unfold set_orchestration_dispatch_profile. keep; row_cond. Qed.

(** ** Tasks: ownership and stage *)

Lemma keeps_transfer_task id actor handle reason force :
  keeps (transfer_orchestration_task_coordinator id actor handle reason force).
Proof.
  unfold transfer_orchestration_task_coordinator, orchestration_task_by_id. keep; row_cond.
Qed.

Lemma keeps_bind_manual run_id workspace_id coordinator :
  keeps (bind_manual_tasks_to_run run_id workspace_id coordinator).
Proof. unfold bind_manual_tasks_to_run. keep; try row_cond. split_bools. split; [|done].
  unfold quiet; cbn; split_and!; auto.
Qed.

Lemma keeps_set_stage task_id stage : keeps (set_orchestration_task_stage task_id stage).
Proof. unfold set_orchestration_task_stage. keep; row_cond. Qed.

(** ** Gates *)

Lemma keeps_insert_task_gate kind task_id question options :
  keeps (insert_task_gate kind task_id question options).
Proof. unfold insert_task_gate, orchestration_task_by_id. keep. Qed.

Lemma keeps_gate_after id msg : keeps (gate_after id msg).
Proof. unfold gate_after, orchestration_gate_by_id. keep. Qed.

Lemma keeps_create_stall_gate task_id question :
  keeps (create_orchestration_stall_gate task_id question).
Proof.
  unfold create_orchestration_stall_gate. keep; try apply keeps_gate_after.
  repeat case_match; keep.
Qed.

Lemma keeps_resolve_resumed task_id : keeps (resolve_stall_gate_as_resumed task_id).
Proof. unfold resolve_stall_gate_as_resumed, orchestration_gate_by_id. keep. Qed.

(** ** Runs *)

Lemma keeps_run_after id msg : keeps (run_after id msg).
Proof. unfold run_after, orchestration_coordinator_run_by_id. keep. Qed.

Lemma keeps_finish_run id status : keeps (finish_orchestration_coordinator_run id status).
Proof. unfold finish_orchestration_coordinator_run. keep; row_cond. Qed.

Lemma keeps_stop_run id reason : keeps (stop_orchestration_coordinator_run id reason).
Proof. unfold stop_orchestration_coordinator_run. keep; row_cond. Qed.

Lemma keeps_transfer_run run_id actor handle reason force :
  keeps (transfer_orchestration_run_coordinator run_id actor handle reason force).
Proof.
  unfold transfer_orchestration_run_coordinator, orchestration_coordinator_run_by_id.
  keep; row_cond.
Qed.

(** ** Messages *)

Lemma keeps_send message : keeps (insert_orchestration_message message).
Proof.
  unfold insert_orchestration_message, orchestration_message_by_id. case_match; keep.
  repeat case_match; keep.
Qed.

Lemma keeps_poll to_handle types : keeps (unread_orchestration_messages to_handle types).
Proof. unfold unread_orchestration_messages, expire_orchestration_messages. keep. Qed.

Lemma keeps_poll_undelivered to_handle now_only : keeps (undelivered_messages to_handle now_only).
Proof. unfold undelivered_messages, expire_orchestration_messages. keep. Qed.

Lemma keeps_mark_read ids : keeps (mark_orchestration_messages_read ids).
Proof. unfold mark_orchestration_messages_read. case_match; keep. Qed.

Lemma keeps_mark_delivered ids : keeps (mark_orchestration_messages_delivered ids).
Proof. unfold mark_orchestration_messages_delivered. case_match; keep. Qed.

Lemma keeps_reset_messages : keeps reset_orchestration_messages.
Proof. intros w w' r [= <- _]. by apply Inv_same. Qed.

(** ** Creating tasks *)

Lemma task_status_snoc db t d s :
  task_status db d = Some s → task_status (set_tasks (db_tasks db ++ [t]) db) d = Some s.
Proof.
  unfold task_status, task_by_id, find_where. cbn. induction (db_tasks db) as [|x l IH]; cbn; [done|].
  by destruct (String.eqb (t_id x) d).
Qed.

Lemma live_waiting_snoc db t deps :
  deps_live db deps → waiting db deps →
  deps_live (set_tasks (db_tasks db ++ [t]) db) deps ∧ waiting (set_tasks (db_tasks db ++ [t]) db) deps.
Proof.
  intros Hl [Hf (u & Hu & Hc)].
  assert (∀ d, d ∈ deps → task_status (set_tasks (db_tasks db ++ [t]) db) d = task_status db d) as Heq.
  { intros d Hd. destruct (Hl d Hd) as (s & Hs & _). rewrite Hs. by apply task_status_snoc. }
  unfold deps_live, waiting, dep_failed, dep_completed in *. split_and!.
  - intros d Hd. rewrite Heq by done. by apply Hl.
  - intros d Hd. rewrite Heq by done. by apply Hf.
  - exists u. by rewrite Heq.
Qed.

Lemma keeps_create_task `{ContractLib} task contract :
  keeps (create_orchestration_task_with_contract task contract).
Proof.
  unfold create_orchestration_task_with_contract.
  apply keeps_bind; [by destruct (contract_snapshot _ _); keep|]. intros snapshot.
  apply keeps_bind; [keep|]. intros id. apply keeps_bind; [|intros; apply keeps_task_after].
  apply keeps_tx. intros w w' u HI Hm. inv_ok Hm. store_inv. inv_ok Hm.
  destruct (status_for_deps _ _) as [status|] eqn:Es; cbn [lift_result] in Hstep; inv_ok Hstep.
  store_inv. cbn [w_db with_db]. constructor; cbn; try apply HI.
  - by apply NoDup_key_snoc; [apply HI|].
  - intros d Hd Ha. destruct (inv_holders _ HI d Hd Ha) as (t & Ht & Hid & Hh).
    exists t. split_and!; [apply elem_of_app; by left|done|done].
  - intros t Ht Hc. apply elem_of_app in Ht as [Ht|Ht%list_elem_of_singleton].
    + destruct (inv_dag _ HI t Ht Hc). by apply live_waiting_snoc.
    + subst t. unfold refresh_candidate in Hc. split_bools. cbn in *. subst.
      apply status_for_deps_pending in Es as [? ?]. by apply live_waiting_snoc.
Qed.

(** ** Creating runs *)

Lemma keeps_create_run spec coordinator poll workspace_id max plan :
  keeps (create_planned_orchestration_coordinator_run spec coordinator poll workspace_id max plan).
Proof.
  unfold create_planned_orchestration_coordinator_run.
  apply keeps_bind; [|intros; apply keeps_run_after]. apply keeps_tx. intros w w' u HI Hm.
  inv_ok Hm. store_inv. destruct (find_where _ _); [done|]. inv_ok Hm. store_inv.
  inv_ok Hm. store_inv. inv_ok Hm. store_inv. inv_ok Hm.
  eapply events_only_Inv; [done|]. cbn. apply Inv_runs; [|done| |done].
  - by apply NoDup_key_snoc; [apply HI|].
  - intros id. unfold run_isolated. cbn. rewrite existsb_app. cbn.
    rewrite andb_false_r, !orb_false_r. done.
Qed.

(** ** Handing out a dispatch *)

Lemma ensure_target_ok task_id target w w' u :
  ensure_dispatch_target_allowed task_id target w = (w', Ok u) → w' = w.
Proof.
  unfold ensure_dispatch_target_allowed. intros Hm. inv_ok Hm. store_inv.
  destruct target; [destruct (task_isolated _ _)|inv_ok Hm; store_inv; destruct (_ || _)];
    try done; by inv_ok Hm.
Qed.

Lemma create_run_dispatch_ok dispatch w w' u :
  create_run_dispatch dispatch w = (w', Ok u) →
  (d_id (new_dispatch_row dispatch) ∉ (d_id <$> db_dispatches (w_db w))) ∧
  ∃ w1, events_only w1 w' ∧
    w1 = with_db (λ db, set_tasks (update_where (λ t, String.eqb (t_id t) (nd_task_id dispatch))
                          (with_t_status Ts_Dispatched) (db_tasks db))
                        (set_dispatches (db_dispatches db ++ [new_dispatch_row dispatch]) db)) w.
Proof.
  unfold create_run_dispatch. intros Hm. inv_ok Hm. apply ensure_target_ok in Hstep as ->.
  inv_ok Hm. inv_ok Hm. store_inv. split; [done|]. eexists. split; [|done].
  destruct (nd_run_id dispatch); [|inv_ok Hm; reflexivity].
  inv_ok Hm. store_inv. by inv_ok Hm.
Qed.

(** A fresh dispatch on an idle terminal, for a task nobody holds. *)
Lemma Inv_new_dispatch db nd :
  Inv db → task_status db (nd_task_id nd) = Some Ts_Ready →
  find_where (active_of_handle (target_assignee (nd_target nd))) (db_dispatches db) = None →
  d_id (new_dispatch_row nd) ∉ (d_id <$> db_dispatches db) →
  Inv (set_tasks (update_where (λ t, String.eqb (t_id t) (nd_task_id nd))
                    (with_t_status Ts_Dispatched) (db_tasks db))
         (set_dispatches (db_dispatches db ++ [new_dispatch_row nd]) db)).
Proof.
  intros HI Hready Hidle Hfresh.
  assert (d_task_id (new_dispatch_row nd) = nd_task_id nd ∧
          d_assignee_handle (new_dispatch_row nd) = Some (target_assignee (nd_target nd)))
    as [Htask Hassignee] by (unfold new_dispatch_row; by destruct (nd_target nd)).
  assert (∃ t, t ∈ db_tasks db ∧ t_id t = nd_task_id nd ∧ t_status t = Ts_Ready) as (t & Ht & Hid & Hst).
  { unfold task_status in Hready. destruct (task_by_id db _) as [t|] eqn:E; [|done].
    apply task_by_id_Some in E as [? ?]. exists t. cbn in Hready. naive_solver. }
  assert (∀ d, d ∈ db_dispatches db → d_active d = true → d_task_id d ≠ nd_task_id nd) as Hfree.
  { intros d Hd Ha Heq. destruct (inv_holders _ HI d Hd Ha) as (t' & Ht' & Hid' & Hh).
    assert (t' = t) as -> by (eapply (NoDup_key_inj t_id); [apply HI|done|done|congruence]).
    destruct Hh; congruence. }
  assert (∀ d, d ∈ db_dispatches db → d_active d = true →
            d_assignee_handle d ≠ Some (target_assignee (nd_target nd))) as Hidle'.
  { rewrite find_where_None in Hidle. intros d Hd Ha Heq. specialize (Hidle d Hd).
    unfold active_of_handle in Hidle. by rewrite Heq, Ha, bool_decide_true in Hidle. }
  constructor; cbn; try apply HI.
  - rewrite fmap_update_where by done. apply HI.
  - by apply NoDup_key_snoc; [apply HI|].
  - intros d [Hd|Hd%list_elem_of_singleton]%elem_of_app Ha.
    + destruct (inv_holders _ HI d Hd Ha) as (t' & Ht' & Hid' & Hh). exists t'.
      split_and!; [|done|done]. apply elem_of_update_where. exists t'. split; [done|].
      rewrite (proj2 (String.eqb_neq _ _)); [done|]. rewrite Hid'. by apply Hfree.
    + subst d. exists (with_t_status Ts_Dispatched t). cbn. rewrite Htask.
      split_and!; [|done|by left]. apply elem_of_update_where. exists t. split; [done|].
      by rewrite Hid, String.eqb_refl.
  - intros d d' k [Hd|Hd%list_elem_of_singleton]%elem_of_app [Hd'|Hd'%list_elem_of_singleton]%elem_of_app
      Ha Ha' Hk Hk'; subst; try done; [by eapply (inv_one_per_task _ HI)| |]; exfalso.
    + apply (Hfree d); congruence.
    + apply (Hfree d'); congruence.
  - intros d d' k [Hd|Hd%list_elem_of_singleton]%elem_of_app [Hd'|Hd'%list_elem_of_singleton]%elem_of_app
      Ha Ha' Hk Hk'; subst; try done; [by eapply (inv_one_per_terminal _ HI)| |]; exfalso.
    + apply (Hidle' d); congruence.
    + apply (Hidle' d'); congruence.
  - eapply (dag_ok_quiet db); [|by apply run_isolated_runs|apply (inv_dag _ HI)]. cbn.
    apply Forall2_update_where; [|apply quiet_refl]. intros x _ _. unfold quiet; cbn; split_and!; auto.
Qed.

Lemma keeps_create_dispatch task_id assignee run_id workspace_id coordinator token policy :
  keeps (create_scoped_orchestration_dispatch task_id assignee run_id workspace_id coordinator
           token policy).
Proof.
  unfold create_scoped_orchestration_dispatch.
  apply keeps_bind; [|intros; apply keeps_dispatch_after]. apply keeps_tx. intros w w' u HI Hm.
  inv_ok Hm. store_inv. destruct (task_status (w_db s) task_id) as [[]|] eqn:Et; try done.
  inv_ok Hm. store_inv. destruct (find_where _ _) eqn:Ef; [done|].
  do 2 (inv_ok Hm; store_inv). inv_ok Hm. inv_ok Hm.
  apply create_run_dispatch_ok in Hstep as (Hfresh & w1 & Hev & ->).
  eapply events_only_Inv; [done|]. by apply Inv_new_dispatch.
Qed.

(** ** Closing a dispatch together with its task *)

Lemma dispatch_by_id_Some db id d : dispatch_by_id db id = Some d → d ∈ db_dispatches db ∧ d_id d = id.
Proof. apply find_key_Some. Qed.

Lemma active_holder db d :
  Inv db → d ∈ db_dispatches db → d_active d = true →
  ∃ t, task_by_id db (d_task_id d) = Some t ∧ held t.
Proof.
  intros HI Hd Ha. destruct (inv_holders _ HI d Hd Ha) as (t & Ht & <- & Hh).
  exists t. split; [|done]. apply task_by_id_elem; [apply HI|done].
Qed.

Lemma keeps_startup_failure dispatch_id error : keeps (fail_orchestration_startup dispatch_id error).
Proof.
  unfold fail_orchestration_startup, orchestration_dispatch_by_id. apply keeps_bind.
  2: { intros [ctx|]; [keep|apply keeps_dispatch_after]. }
  apply keeps_tx. intros w w' u HI Hm. inv_ok Hm. store_inv.
  destruct (dispatch_by_id (w_db s) dispatch_id) as [ctx|] eqn:Ed; [|done].
  destruct (bool_decide (d_status ctx = Ds_StartupFailed)); [by inv_ok Hm|].
  destruct (bool_decide (d_status ctx = Ds_AwaitingAcceptance)) eqn:Ew; cbn [negb] in Hm; [|done].
  split_bools. apply dispatch_by_id_Some in Ed as [Hctx <-].
  assert (d_active ctx = true) as Hact by (unfold d_active; by rewrite Ew).
  do 3 (inv_ok Hm; store_inv). cbn zeta in Hm. destruct (task_status _ _) as [st|]; [|done].
  inv_ok Hm. store_inv. inv_ok Hm. eapply events_only_Inv; [done|].
  eapply (keeps_quiet [d_task_id ctx] (w_db s)); try done.
  - intros t _ _. unfold quiet, startup_failure_row. cbn. split_and!; auto. right. by destruct (3 <=? _)%Z.
  - intros t _ He%String.eqb_eq _. right. rewrite He. by apply list_elem_of_singleton.
  - by apply closes_one.
Qed.

Lemma keeps_create_gate task_id question options :
  keeps (create_orchestration_gate task_id question options).
Proof.
  unfold create_orchestration_gate. apply keeps_bind; [|intros; apply keeps_gate_after].
  apply keeps_tx. intros w w' u HI Hm. inv_ok Hm. store_inv.
  assert (∀ w1, Inv (w_db w1) →
    (let! id := insert_task_gate Gk_Decision task_id question options in
     do! update_dispatches true (active_of_task task_id)
           (λ d, with_d_completed_at (Some now) (with_d_status Ds_Completed d)) in
     do! update_tasks false (λ t, String.eqb (t_id t) task_id) (with_t_status Ts_Blocked) in
     ret id) w1 = (w', Ok u) → Inv (w_db w')) as Hgo.
  { clear HI Hm. intros w1 HI Hm. inv_ok Hm. apply keeps_insert_task_gate in Hstep. specialize (Hstep HI).
    repeat inv_ok Hm. store_inv. eapply (keeps_quiet [task_id] (w_db s0)); try done.
    - intros t _ _. unfold quiet. cbn. split_and!; auto.
    - intros t _ He%String.eqb_eq _. right. rewrite He. by apply list_elem_of_singleton.
    - by apply closes_task. }
  destruct (task_status (w_db s) task_id) as [[]|] eqn:Et; try done; by eapply Hgo.
Qed.

Lemma keeps_task_startup_failure id error :
  keeps (record_orchestration_task_startup_failure id error).
Proof.
  unfold record_orchestration_task_startup_failure. keep. split_bools. split.
  - unfold quiet, startup_failed_row. cbn. split_and!; auto. right. by destruct (3 <=? _)%Z.
  - intros [Hh|Hh]; congruence.
Qed.

Lemma keeps_fail_dispatch dispatch_id error result w w' r :
  Inv (w_db w) →
  (∀ d, dispatch_by_id (w_db w) dispatch_id = Some d → d_active d = true) →
  fail_orchestration_dispatch_with_result dispatch_id error result w = (w', r) → Inv (w_db w').
Proof.
  intros HI Hact. unfold fail_orchestration_dispatch_with_result, orchestration_dispatch_by_id.
  match goal with |- bind (tx ?m) _ _ = _ → _ =>
    assert (∀ w1 r1, tx m w = (w1, r1) → Inv (w_db w1)) as Htx end.
  { intros w1 [a|e] Hm; [|by rewrite (tx_rollback _ _ _ _ Hm)]. apply (proj1 (tx_ok _ _ _ _)) in Hm. inv_ok Hm. store_inv. destruct (dispatch_by_id (w_db s) dispatch_id) as [ctx|] eqn:Ed; [|done].
    specialize (Hact ctx eq_refl). apply dispatch_by_id_Some in Ed as [Hctx <-].
    destruct (active_holder _ _ HI Hctx Hact) as (t & Ht & Hh). cbn zeta in Hm.
    do 3 (inv_ok Hm; unfold obsolete_dispatch_messages in *; store_inv). inv_ok Hm. store_inv.
    eapply events_only_Inv; [done|].
    destruct (_ <=? _)%Z in *;
      [rewrite bool_decide_true in Hstep by done|rewrite bool_decide_false in Hstep by done].
    - eapply (keeps_settle (w_db s)); [exact Hstep|done|done|done|by eexists| |by right| |done|done];
        [by intros x; split_and!|]. refresh_frame. by apply closes_one.
    - inv_ok Hstep. eapply (keeps_quiet [d_task_id ctx] (w_db s)); try done.
      + intros x _ _. unfold quiet. cbn. split_and!; auto.
      + intros x _ He%String.eqb_eq _. right. rewrite He. by apply list_elem_of_singleton.
      + by apply closes_one. }
  unfold bind at 1. destruct (tx _ w) as [w1 [a|e]]; pose proof (Htx _ _ eq_refl) as HI1.
  - intros Hr. by eapply keeps_dispatch_after.
  - by intros [= <- _].
Qed.

Lemma validate_completion_ok `{ContractLib} task_id result w w' u :
  validate_task_contract_completion task_id result w = (w', Ok u) → w' = w.
Proof.
  unfold validate_task_contract_completion, orchestration_task_by_id. intros Hm. inv_ok Hm. store_inv.
  destruct (task_by_id _ _) as [t|]; [|done]. destruct (t_role_contract t); [|by inv_ok Hm].
  destruct (snapshot_decode _); [|done]. unfold lift_result in Hm.
  destruct (validate_success_result _ _); by inv_ok Hm.
Qed.

Lemma clear_attention_ok (b : bool) dispatch_id w w' u :
  (if b then clear_resolved_workflow_launch_attention dispatch_id else ret tt) w = (w', Ok u) →
  ∃ ls, w' = with_db (set_launches ls) w.
Proof.
  destruct b; [|intros [= <- _]; exists (db_launches (w_db w)); by destruct w as [[] ?]].
  unfold clear_resolved_workflow_launch_attention. intros Hm. inv_ok Hm. store_inv. inv_ok Hm.
  by eexists.
Qed.

Lemma record_completion_frame ctx assignee sha w w' r :
  record_completion_event ctx assignee sha w = (w', r) → events_only w w'.
Proof.
  unfold record_completion_event. destruct (d_run_id ctx); [|intros [= <- _]; reflexivity].
  rewrite bind_select. cbn zeta. unfold bind. destruct (record_run_event _ w) as [w1 [a|e]] eqn:E;
    apply record_run_event_frame in E; by intros [= <- _].
Qed.

Lemma keeps_complete `{ContractLib} dispatch_id assignee result sha :
  keeps (complete_orchestration_dispatch_at_sha dispatch_id assignee result sha).
Proof.
  unfold complete_orchestration_dispatch_at_sha, orchestration_dispatch_by_id. apply keeps_bind.
  2: { intros [ctx|]; [keep|apply keeps_dispatch_after]. }
  apply keeps_tx. intros w w' u HI Hm. rewrite bind_select in Hm.
  destruct (dispatch_by_id (w_db w) dispatch_id) as [ctx|] eqn:Ed; [|done].
  apply dispatch_by_id_Some in Ed as [Hctx <-]. rewrite bind_select in Hm.
  set (workflow := has_launch (w_db w) (d_id ctx)) in *.
  destruct (negb _) eqn:Esha; [done|].
  destruct (bool_decide (d_status ctx = Ds_Completed)).
  { destruct (negb (bool_decide (d_assignee_handle _ = _))); [done|]. rewrite bind_select in Hm.
    do 2 (destruct (negb _) in Hm; [done|]). inv_ok Hm.
    apply clear_attention_ok in Hstep as [ls ->]. inv_ok Hm. by apply (Inv_same (w_db w)). }
  destruct (_ || _) eqn:Eact in Hm; [done|]. apply orb_false_iff in Eact as [Eact _].
  assert (d_active ctx = true) as Hact by (unfold d_active; by destruct (d_status ctx)).
  destruct (active_holder _ _ HI Hctx Hact) as (t & Ht & Hh).
  inv_ok Hm. apply validate_completion_ok in Hstep as ->. do 2 (inv_ok Hm; store_inv).
  inv_ok Hm. apply clear_attention_ok in Hstep as [ls ->]. inv_ok Hm.
  apply record_completion_frame in Hstep as Hev. clear Hstep.
  inv_ok Hm. inv_ok Hm. unfold obsolete_dispatch_messages in *. store_inv. inv_ok Hm.
  eapply (keeps_settle (w_db w)); [exact Hstep|by frame_rewrite|by frame_rewrite|done|by eexists|
    |by left| |done|done]; [by intros x; split_and!|]. refresh_frame. by apply closes_one.
Qed.

(** ** Reset *)

Lemma keeps_reset_tasks : keeps reset_orchestration_tasks.
Proof.
  unfold reset_orchestration_tasks. apply keeps_tx. intros w w' u HI Hm. inv_ok Hm. store_inv.
  destruct (existsb _ _); [done|]. unfold modify in Hm. injection Hm as <-.
  constructor; cbn; try apply NoDup_nil_2.
  - intros d Hd. by apply not_elem_of_nil in Hd.
  - intros d d' k Hd. by apply not_elem_of_nil in Hd.
  - intros d d' k Hd. by apply not_elem_of_nil in Hd.
  - intros t Ht. by apply not_elem_of_nil in Ht.
Qed.

(** ** Recovery *)

Lemma keeps_recover id status actor reason force :
  keeps (recover_stalled_orchestration_task id status actor reason force).
Proof.
  unfold recover_stalled_orchestration_task, orchestration_task_by_id.
  destruct (negb _) eqn:E; [keep|].
  assert (keeps (if bool_decide (status = Ts_Cancelled) then cancel_orchestration_task id reason
                 else update_orchestration_task_status id status (Some reason))) as Hop.
  { destruct status; try done; [apply keeps_update_status|apply keeps_update_status|apply keeps_cancel];
      done. }
  apply keeps_bind; [keep|]. intros [task|]; [|keep].
  apply (respects_if inv_kept); [keep|]. apply keeps_bind; [keep|]. intros isolated.
  apply (respects_if inv_kept); [keep|]. apply keeps_bind; [exact Hop|]. intros ?. keep.
Qed.
End WithEnv.
