(* ===== verification/Reachability.v ===== *)
(** * Reachability: the store as a transition system

    [Operation] has one rule per public operation of the task, dispatch, gate,
    message and coordinator-run stores, and [Step] adds the reset, which empties
    them.  What the store of planned runs does to the same tables (RunControl.v,
    PlanStore.v, GateResolution.v, RunCreation.v, Launches.v) is not part of this
    transition system; it is that of RunHistory.v and AttemptHistory.v.  The
    host only fails a dispatch that is active (it looks the active dispatch of
    the task or terminal up first) and only moves tasks by a status update to
    ready, blocked, dispatched, stalled, completed or failed, which are the
    side conditions of the two rules that need one. *)

From S2P Require Import Prelude Text Models Store StoreFacts RoleContract Tasks Dag Cancellation Dispatch Gates Messages Runs Invariants CancelFacts Lifecycle.
From Stdlib Require Import ZArith Lia Ascii String.
From stdpp Require Import strings prelude relations.

Definition empty_db : Db := MkDb [] [] [] [] [] [] [] [] [] 0 0.

Section WithEnv.
Context `{Env} `{ContractLib}.

Inductive Operation (w w' : World) : Prop :=
| Step_create_task task contract r :
    create_orchestration_task_with_contract task contract w = (w', r) → Operation w w'
| Step_update_status id status result r :
    status ≠ Ts_Pending → status ≠ Ts_Cancelled →
    update_orchestration_task_status id status result w = (w', r) → Operation w w'
| Step_cancel id reason r : cancel_orchestration_task id reason w = (w', r) → Operation w w'
| Step_recover id status actor reason force r :
    recover_stalled_orchestration_task id status actor reason force w = (w', r) → Operation w w'
| Step_task_startup_failure id error r :
    record_orchestration_task_startup_failure id error w = (w', r) → Operation w w'
| Step_transfer_task id actor handle reason force r :
    transfer_orchestration_task_coordinator id actor handle reason force w = (w', r) → Operation w w'
| Step_bind_manual run_id workspace_id coordinator r :
    bind_manual_tasks_to_run run_id workspace_id coordinator w = (w', r) → Operation w w'
| Step_set_stage task_id stage r : set_orchestration_task_stage task_id stage w = (w', r) → Operation w w'
| Step_create_dispatch task_id assignee run_id workspace_id coordinator token policy r :
    create_scoped_orchestration_dispatch task_id assignee run_id workspace_id coordinator token
      policy w = (w', r) → Operation w w'
| Step_accept dispatch_id assignee token r :
    accept_orchestration_dispatch dispatch_id assignee token w = (w', r) → Operation w w'
| Step_activity dispatch_id r : record_orchestration_activity dispatch_id w = (w', r) → Operation w w'
| Step_startup_failure dispatch_id error r :
    fail_orchestration_startup dispatch_id error w = (w', r) → Operation w w'
| Step_stall threshold r : stall_expired_orchestration_dispatches threshold w = (w', r) → Operation w w'
| Step_fail dispatch_id error result r :
    (∀ d, dispatch_by_id (w_db w) dispatch_id = Some d → d_active d = true) →
    fail_orchestration_dispatch_with_result dispatch_id error result w = (w', r) → Operation w w'
| Step_complete dispatch_id assignee result sha r :
    complete_orchestration_dispatch_at_sha dispatch_id assignee result sha w = (w', r) → Operation w w'
| Step_set_profile dispatch_id profile quota r :
    set_orchestration_dispatch_profile dispatch_id profile quota w = (w', r) → Operation w w'
| Step_create_gate task_id question options r :
    create_orchestration_gate task_id question options w = (w', r) → Operation w w'
| Step_create_stall_gate task_id question r :
    create_orchestration_stall_gate task_id question w = (w', r) → Operation w w'
| Step_resolve_resumed task_id r : resolve_stall_gate_as_resumed task_id w = (w', r) → Operation w w'
| Step_resume task_id r : resume_stalled_orchestration_dispatch task_id w = (w', r) → Operation w w'
| Step_create_run spec coordinator poll workspace_id max plan r :
    create_planned_orchestration_coordinator_run spec coordinator poll workspace_id max plan w
      = (w', r) → Operation w w'
| Step_finish_run id status r : finish_orchestration_coordinator_run id status w = (w', r) → Operation w w'
| Step_stop_run id reason r : stop_orchestration_coordinator_run id reason w = (w', r) → Operation w w'
| Step_transfer_run run_id actor handle reason force r :
    transfer_orchestration_run_coordinator run_id actor handle reason force w = (w', r) → Operation w w'
| Step_send message r : insert_orchestration_message message w = (w', r) → Operation w w'
| Step_poll to_handle types r : unread_orchestration_messages to_handle types w = (w', r) → Operation w w'
| Step_poll_undelivered to_handle now_only r :
    undelivered_messages to_handle now_only w = (w', r) → Operation w w'
| Step_mark_read ids r : mark_orchestration_messages_read ids w = (w', r) → Operation w w'
| Step_mark_delivered ids r : mark_orchestration_messages_delivered ids w = (w', r) → Operation w w'
| Step_reset_messages r : reset_orchestration_messages w = (w', r) → Operation w w'.

Inductive Step (w w' : World) : Prop :=
| Step_operation : Operation w w' → Step w w'
| Step_reset_tasks r : reset_orchestration_tasks w = (w', r) → Step w w'.

Lemma Step_Inv w w' : Step w w' → Inv (w_db w) → Inv (w_db w').
Proof.
  destruct 1 as [[]|]; eauto using keeps_fail_dispatch; intros HI.
  - by eapply keeps_create_task.
  - by eapply keeps_update_status.
  - by eapply keeps_cancel.
  - by eapply keeps_recover.
  - by eapply keeps_task_startup_failure.
  - by eapply keeps_transfer_task.
  - by eapply keeps_bind_manual.
  - by eapply keeps_set_stage.
  - by eapply keeps_create_dispatch.
  - by eapply keeps_accept.
  - by eapply keeps_activity.
  - by eapply keeps_startup_failure.
  - by eapply keeps_stall_expired.
  - by eapply keeps_complete.
  - by eapply keeps_set_profile.
  - by eapply keeps_create_gate.
  - by eapply keeps_create_stall_gate.
  - by eapply keeps_resolve_resumed.
  - by eapply keeps_resume_stalled.
  - by eapply keeps_create_run.
  - by eapply keeps_finish_run.
  - by eapply keeps_stop_run.
  - by eapply keeps_transfer_run.
  - by eapply keeps_send.
  - by eapply keeps_poll.
  - by eapply keeps_poll_undelivered.
  - by eapply keeps_mark_read.
  - by eapply keeps_mark_delivered.
  - by eapply keeps_reset_messages.
  - by eapply keeps_reset_tasks.
Qed.

Lemma empty_Inv : Inv empty_db.
Proof.
  constructor; try apply NoDup_nil_2.
  - intros d Hd. by apply not_elem_of_nil in Hd.
  - intros d d' k Hd. by apply not_elem_of_nil in Hd.
  - intros d d' k Hd. by apply not_elem_of_nil in Hd.
  - intros t Ht. by apply not_elem_of_nil in Ht.
Qed.

End WithEnv.

(** ** What operations write

    A relation between databases that every table write of an operation respects
    relates the databases before and after the operation.  Operations rewrite
    gates only while they are pending and launches only out of attention. *)

(** What an operation leaves of a run: its identity, how it was created, its plan
    and its control sequence. *)
Definition same_run (r r' : OrchestrationCoordinatorRun) : Prop :=
  r_id r' = r_id r ∧ r_isolation r' = r_isolation r ∧ r_approval_required r' = r_approval_required r ∧
  r_plan_revision r' = r_plan_revision r ∧ r_control_sequence r' = r_control_sequence r.

Class Framed (R : relation Db) : Prop := {
  framed_preorder :: PreOrder R;
  framed_tasks : ∀ db l, R db (set_tasks l db);
  framed_dispatches : ∀ db l, R db (set_dispatches l db);
  framed_messages : ∀ db l, R db (set_messages l db);
  framed_message_sequence : ∀ db n, R db (set_message_sequence n db);
  framed_runs : ∀ db p f, (∀ r, same_run r (f r)) → R db (set_runs (update_where p f (db_runs db)) db);
  framed_run : ∀ db r, r_id r ∉ (r_id <$> db_runs db) → R db (set_runs (db_runs db ++ [r]) db);
  framed_events : ∀ db l n, R db (set_event_sequence n (set_events l db));
  framed_audits : ∀ db l, R db (set_audits l db);
  framed_gates : ∀ db p f, (∀ g, p g = true → g_status g = Gs_Pending) → (∀ g, g_id (f g) = g_id g) →
    R db (set_gates (update_where p f (db_gates db)) db);
  framed_gate : ∀ db g, g_id g ∉ (g_id <$> db_gates db) → R db (set_gates (db_gates db ++ [g]) db);
  framed_attention : ∀ db p f, (∀ l, p l = true → l_status l = Ls_Attention) →
    (∀ l, ∃ moment, f l = with_l_updated_at moment (with_l_error None (with_l_status Ls_Started l))) →
    R db (set_launches (update_where p f (db_launches db)) db)
}.

Section Frames.
Context `{Env} `{ContractLib} (R : relation Db) `{!Framed R}.

Lemma respects_frame {A} (m : SM A) : (∀ w w' r, m w = (w', r) → w_db w' = w_db w ∨ R (w_db w) (w_db w')) → respects R m.
Proof. intros Hm w w' r [->|Hr]%Hm; done. Qed.

Lemma respects_update_tasks sr p f : respects R (update_tasks sr p f).
Proof. apply respects_frame. intros w w' r [->| ->]%update_tasks_any; [by left|right]. apply framed_tasks. Qed.
Lemma respects_insert_task t : respects R (insert_task t).
Proof. apply respects_frame. intros w w' r. unfold insert_task. repeat case_match; intros [= <- _]; (by left) || (right; apply framed_tasks). Qed.
Lemma respects_update_dispatches ss p f : respects R (update_dispatches ss p f).
Proof. apply respects_frame. intros w w' r. unfold update_dispatches. case_match; intros [= <- _]; (by left) || (right; apply framed_dispatches). Qed.
Lemma respects_insert_dispatch d : respects R (insert_dispatch d).
Proof. apply respects_frame. intros w w' r. unfold insert_dispatch. repeat case_match; intros [= <- _]; (by left) || (right; apply framed_dispatches). Qed.
Lemma respects_update_messages p f : respects R (update_messages p f).
Proof. apply respects_frame. intros w w' r [= <- _]. right. apply framed_messages. Qed.
Lemma respects_insert_message row : respects R (insert_message row).
Proof.
  apply respects_frame. intros w w' r. unfold insert_message. case_match; intros [= <- _]; [by left|right].
  etransitivity; [apply framed_messages|apply framed_message_sequence].
Qed.
Lemma respects_update_gates p f :
  (∀ g, p g = true → g_status g = Gs_Pending) → (∀ g, g_id (f g) = g_id g) → respects R (update_gates p f).
Proof. intros Hp Hf w w' r [= <- _]. by apply framed_gates. Qed.
Lemma respects_insert_gate g : respects R (insert_gate g).
Proof.
  apply respects_frame. intros w w' r. unfold insert_gate. destruct (negb _); [intros [= <- _]; by left|].
  case_bool_decide; intros [= <- _]; [by left|right]. by apply framed_gate.
Qed.
Lemma respects_update_runs p f : (∀ r, same_run r (f r)) → respects R (update_runs p f).
Proof.
  intros Hf. apply respects_frame. intros w w' r. unfold update_runs.
  case_match; intros [= <- _]; (by left) || (right; by apply framed_runs).
Qed.
Lemma respects_insert_run x : respects R (insert_run x).
Proof.
  apply respects_frame. intros w w' r. unfold insert_run. destruct (negb _); [intros [= <- _]; by left|].
  case_bool_decide; [intros [= <- _]; by left|]. case_match; intros [= <- _]; [right; by apply framed_run|by left].
Qed.
Lemma respects_events w w' : events_only w w' → R (w_db w) (w_db w').
Proof. intros (evs & seq & ->). apply framed_events. Qed.
Lemma respects_run_event ev : respects R (record_run_event ev).
Proof. intros w w' r Hr%record_run_event_frame. by apply respects_events. Qed.
Lemma respects_dispatch_event id k s p : respects R (record_dispatch_run_event id k s p).
Proof. intros w w' r Hr%record_dispatch_run_event_frame. by apply respects_events. Qed.
Lemma respects_task_event id k s p : respects R (record_task_run_event id k s p).
Proof. intros w w' r Hr%record_task_run_event_frame. by apply respects_events. Qed.
Lemma respects_audit actor action target reason :
  respects R (insert_orchestration_audit_event actor action target reason).
Proof. intros w w' r [a ->]%insert_audit_frame. apply framed_audits. Qed.
Lemma respects_lift {A} (r : Result A) : respects R (lift_result r).
Proof. destruct r; [apply respects_ret|apply respects_fail]; exact _. Qed.
Lemma respects_ensure_target task_id target : respects R (ensure_dispatch_target_allowed task_id target).
Proof.
  apply respects_frame. intros w w' r. unfold ensure_dispatch_target_allowed. rewrite bind_select.
  destruct target; [destruct (task_isolated _ _)|rewrite bind_select; destruct (_ || _)]; intros [= <- _]; by left.
Qed.
Lemma respects_clear_attention dispatch : respects R (clear_resolved_workflow_launch_attention dispatch).
Proof.
  apply (respects_bind R); [|intros ?; by apply (respects_ret R)]. intros w w' r [= <- _]. apply framed_attention.
  - intros l Hl. by split_bools.
  - intros l. by eexists.
Qed.
Lemma respects_refresh_all c : respects R (refresh_pending_dependents_after_task_status c).
Proof. apply respects_refresh; [exact _..|]. intros ???. apply respects_update_tasks. Qed.

Ltac frames :=
  repeat first
    [ apply (respects_ret R) | apply (respects_fail R) | apply (respects_bail R)
    | apply (respects_select R) | apply (respects_get_db R) | apply (respects_id R)
    | apply respects_update_messages | apply respects_insert_message
    | apply respects_update_gates; [intros ? ?; by split_bools|by intros ?]
    | apply respects_insert_gate | apply respects_run_event | apply respects_dispatch_event
    | apply respects_task_event | apply respects_audit | apply respects_update_dispatches
    | apply respects_insert_dispatch | apply respects_update_runs; [by intros ?] | apply respects_insert_run
    | apply respects_update_tasks | apply respects_insert_task | apply respects_lift
    | apply respects_ensure_target | apply respects_clear_attention | apply respects_refresh_all
    | apply (respects_tx R) | apply (respects_mapM R); intros ?
    | apply (respects_catch R); [|intros ?] | apply (respects_bind R); [|intros ?]
    | apply (respects_if R) | apply (respects_option R); [intros ?|]
    | progress cbn beta | exact _
    | match goal with |- respects _ (match ?x with _ => _ end) => destruct x end ].

Lemma respects_create_dispatch d : respects R (create_run_dispatch d).
Proof. unfold create_run_dispatch. frames. Qed.
Lemma respects_update_status id status result : respects R (update_orchestration_task_status id status result).
Proof.
  unfold update_orchestration_task_status, orchestration_task_by_id, guard_contract_status_update, task_after,
    orchestration_task_by_id. frames.
Qed.
Lemma respects_cancel id reason : respects R (cancel_orchestration_task id reason).
Proof. unfold cancel_orchestration_task, cancel_one, task_after, orchestration_task_by_id. frames. Qed.
Lemma respects_complete dispatch_id assignee result sha :
  respects R (complete_orchestration_dispatch_at_sha dispatch_id assignee result sha).
Proof.
  unfold complete_orchestration_dispatch_at_sha, orchestration_dispatch_by_id, validate_task_contract_completion,
    orchestration_task_by_id, record_completion_event, obsolete_dispatch_messages, dispatch_after,
    orchestration_dispatch_by_id. frames.
Qed.

Lemma operation_framed w w' : Operation w w' → R (w_db w) (w_db w').
Proof.
  destruct 1; match goal with Hm : ?m _ = (_, _) |- _ => revert Hm; cut (respects R m); [intros Hk; apply Hk|] end.
  all: try first [apply respects_update_status|apply respects_cancel|apply respects_complete].
  all: unfold create_orchestration_task_with_contract, recover_stalled_orchestration_task, orchestration_task_by_id,
    record_orchestration_task_startup_failure, transfer_orchestration_task_coordinator, bind_manual_tasks_to_run,
    set_orchestration_task_stage, create_scoped_orchestration_dispatch, accept_orchestration_dispatch,
    record_orchestration_activity, revive_stalled_dispatch, fail_orchestration_startup, orchestration_dispatch_by_id,
    stall_expired_orchestration_dispatches, stall_one, fail_orchestration_dispatch_with_result, obsolete_dispatch_messages,
    set_orchestration_dispatch_profile, create_orchestration_gate, insert_task_gate, gate_after, orchestration_gate_by_id,
    create_orchestration_stall_gate, resolve_stall_gate_as_resumed, resume_stalled_orchestration_dispatch,
    create_planned_orchestration_coordinator_run, run_after, orchestration_coordinator_run_by_id,
    finish_orchestration_coordinator_run, stop_orchestration_coordinator_run, transfer_orchestration_run_coordinator,
    insert_orchestration_message, orchestration_message_by_id, unread_orchestration_messages, undelivered_messages,
    expire_orchestration_messages, mark_orchestration_messages_read, mark_orchestration_messages_delivered,
    reset_orchestration_messages, task_after, dispatch_after.
  all: try first [apply respects_create_dispatch|apply respects_update_status|apply respects_cancel|frames].
  all: intros ? ? ? [= <- _]; apply framed_messages.
Qed.
End Frames.

Section Timed.
Context `{Env} `{ContractLib}.

(** One operation at some moment. *)
Definition tick (w w' : World) : Prop := ∃ moment, @Step (at_time _ moment) _ w w'.

(** The states the store can be in after it was created empty. *)
Definition reachable (w : World) : Prop := ∃ n, rtc tick (MkWorld empty_db n) w.

Lemma tick_Inv w w' : tick w w' → Inv (w_db w) → Inv (w_db w').
Proof. intros [moment Hs]. exact (@Step_Inv (at_time _ moment) _ _ _ Hs). Qed.

Lemma reachable_inv w : reachable w → Inv (w_db w).
Proof.
  intros [n Hr]. assert (Inv empty_db) as HI by apply empty_Inv. revert HI.
  change empty_db with (w_db (MkWorld empty_db n)). induction Hr; eauto using tick_Inv.
Qed.

(** ** Claims *)

(** [C1] What the operations of the task, dispatch, gate, message and
    coordinator-run stores keep: in every state they and resets reach from an
    empty database, in whatever order, at whatever times and however they ended,
    task, dispatch and run identifiers are unique; an active dispatch belongs to a
    task that is dispatched or stalled; a task and a terminal have at most one
    active dispatch; a workspace has at most one run holding it; and no pending
    task of a shared run is stranded: all its dependencies exist, none failed or
    was cancelled, and at least one is unfinished.  The operations on planned runs
    (commands, plans, decisions, creations, launches) write the same tables and
    are not among these: they cancel tasks without their dependents. *)
Theorem store_invariant (w : World) :
  reachable w →
  let db := w_db w in
  NoDup (t_id <$> db_tasks db) ∧ NoDup (d_id <$> db_dispatches db) ∧ NoDup (r_id <$> db_runs db) ∧
  (∀ d, d ∈ db_dispatches db → d_active d = true →
     ∃ t, task_by_id db (d_task_id d) = Some t ∧
          (t_status t = Ts_Dispatched ∨ t_status t = Ts_Stalled)) ∧
  (∀ d d', d ∈ db_dispatches db → d' ∈ db_dispatches db → d_active d = true → d_active d' = true →
     d_task_id d = d_task_id d' → d = d') ∧
  (∀ d d' handle, d ∈ db_dispatches db → d' ∈ db_dispatches db →
     d_active d = true → d_active d' = true →
     d_assignee_handle d = Some handle → d_assignee_handle d' = Some handle → d = d') ∧
  (∀ r r', r ∈ db_runs db → r' ∈ db_runs db → holds_workspace r = true → holds_workspace r' = true →
     r_workspace_id r = r_workspace_id r' → r = r') ∧
  (∀ t, t ∈ db_tasks db → t_status t = Ts_Pending → run_isolated db (t_run_id t) = false →
     deps_live db (t_deps t) ∧ waiting db (t_deps t)).
Proof.
  intros HI%reachable_inv. cbn zeta. pose proof HI as [Ht Hd Hr Hs Hh Ho Hterm Hdag].
  split_and!; try done.
  - intros d Hin Ha. by apply active_holder.
  - intros d d' Hin Hin' Ha Ha' Heq. eapply (NoDup_key_inj d_id); try done.
    eapply Ho; try done. by rewrite Heq.
  - intros d d' k Hin Hin' Ha Ha' Hk Hk'. eapply (NoDup_key_inj d_id); try done. by eapply Hterm.
  - intros r r' Hin Hin' Hw Hw' Heq.
    eapply (NoDup_key_inj r_workspace_id (List.filter holds_workspace (db_runs (w_db w)))); try done;
      by rewrite list_elem_of_In, filter_In, <-list_elem_of_In.
  - intros t Hin Hp Hiso. apply Hdag; [done|]. unfold refresh_candidate.
    by rewrite Hiso, bool_decide_true.
Qed.

End Timed.
