(* ===== verification/TaskFacts.v ===== *)
(** * TaskFacts: what the task operations achieve

    Functional correctness of Tasks.v and Cancellation.v beyond the invariant:
    creation, status updates with their effect on the dependents, startup
    failures and recovery. *)

From S2P Require Import Prelude Text Models Store StoreFacts RoleContract Tasks Dag Cancellation Dispatch Gates Messages Runs Invariants CancelFacts Lifecycle.
From Stdlib Require Import ZArith Lia Ascii String.
From stdpp Require Import strings prelude.

Section WithEnv.
Context `{Env}.

(** Every other pending task of a shared run ends with exactly the status its
    dependencies dictate, and no other row changed. *)
Definition dependents_settled (id : string) (db db' : Db) : Prop :=
  (∀ x, x ∈ db_tasks db → refresh_candidate db x = true → t_id x ≠ id →
     ∃ x', task_by_id db' (t_id x) = Some x' ∧ promoted x x' ∧
           status_for_deps db' (t_deps x) = Ok (t_status x')) ∧
  (∀ x, x ∈ db_tasks db → t_status x ≠ Ts_Pending → t_id x ≠ id → task_by_id db' (t_id x) = Some x).

Lemma settled_dependents db w w' id s f :
  Inv db → settles s f → promotes w w' → dag_ok (w_db w') →
  db_tasks (w_db w) = update_where (λ t, String.eqb (t_id t) id) f (db_tasks db) →
  db_runs (w_db w) = db_runs db → dependents_settled id db (w_db w').
Proof.
  intros HI Hf Hp Hdag Ht Hr. pose proof (promotes_ids _ _ Hp) as Hids.
  assert (NoDup (t_id <$> db_tasks (w_db w'))) as Hnd.
  { rewrite Hids, Ht, fmap_update_where; [apply HI|]. intros x _ _. apply Hf. }
  assert (∀ x, x ∈ db_tasks db → t_id x ≠ id →
    ∃ x', x' ∈ db_tasks (w_db w') ∧ justified (w_db w') x x' ∧ t_id x' = t_id x) as Hrow.
  { intros x Hx Hne. destruct Hp as (ts & Hw & HJ).
    destruct (Forall2_elem_l _ _ _ x HJ) as (x' & Hx' & Hj).
    - rewrite Ht. apply elem_of_update_where. exists x. split; [done|].
      by rewrite (proj2 (String.eqb_neq _ _)).
    - exists x'. split_and!; [by subst|done|]. apply promoted_id. apply Hj. }
  assert (∀ r, run_isolated (w_db w') r = run_isolated db r) as Hiso.
  { apply run_isolated_runs. destruct Hp as (ts & -> & _). done. }
  split.
  - intros x Hx Hc Hne. destruct (Hrow x Hx Hne) as (x' & Hx' & [Hprom Hj] & Hid).
    exists x'. split_and!; [rewrite <-Hid; by apply task_by_id_elem|done|].
    destruct Hj as [->|(_ & _ & Hs)]; [|done].
    destruct (Hdag x Hx') as [Hl Hw]; [by unfold refresh_candidate in *; rewrite Hiso|].
    rewrite (waiting_status _ _ Hl Hw). unfold refresh_candidate in Hc. split_bools. congruence.
  - intros x Hx Hne Hid. destruct (Hrow x Hx Hid) as (x' & Hx' & [Hprom _] & Hid').
    pose proof (promoted_not_pending x x' Hprom Hne). subst x'. by apply task_by_id_elem.
Qed.

Lemma task_by_id_frame db db' id : db_tasks db' = db_tasks db → task_by_id db' id = task_by_id db id.
Proof. unfold task_by_id. by intros ->. Qed.

Lemma status_for_deps_frame db db' deps :
  db_tasks db' = db_tasks db → status_for_deps db' deps = status_for_deps db deps.
Proof.
  intros Ht. assert (∀ deps ac, status_for_deps_loop db' deps ac = status_for_deps_loop db deps ac) as Hl.
  { induction deps0 as [|d deps0 IH]; intros ac; cbn; [done|].
    unfold task_status. rewrite (task_by_id_frame db db' d Ht).
    destruct (t_status <$> task_by_id db d) as [[]|]; auto. }
  destruct deps; [done|]. apply Hl.
Qed.

Lemma dependents_settled_frame id db db1 db2 :
  db_tasks db2 = db_tasks db1 → dependents_settled id db db1 → dependents_settled id db db2.
Proof.
  intros Ht [H1 H2]. split.
  - intros x Hx Hc Hne. rewrite (task_by_id_frame db1 db2), (status_for_deps_frame db1 db2) by done.
    by apply H1.
  - intros x Hx Hnp Hne. rewrite (task_by_id_frame db1 db2) by done. by apply H2.
Qed.

Lemma settled_task db w w' id s f t :
  settles s f → s ≠ Ts_Pending → promotes w w' → task_by_id db id = Some t →
  db_tasks (w_db w) = update_where (λ t, String.eqb (t_id t) id) f (db_tasks db) →
  task_by_id (w_db w') id = Some (f t).
Proof.
  intros Hf Hs Hp%promotes_promoted Ht Htasks. pose proof (promoted_status _ _ id Hp) as Hd.
  rewrite Htasks, find_update_where in Hd by apply Hf. unfold task_by_id in *. rewrite Ht in Hd.
  apply find_key_Some in Ht as [_ Hid]. cbn in Hd. rewrite Hid, String.eqb_refl in Hd.
  inversion Hd as [? t' Hpt|]; subst. f_equal. eapply promoted_not_pending; [done|].
  destruct (Hf t) as (_ & _ & _ & ->). done.
Qed.

Lemma close_allowed db d s c lf :
  s ≠ Ds_Dispatched → (s = Ds_Completed → has_launch db (d_id d) = false) →
  dispatch_update_abort true db d (with_d_completed_at c (with_d_last_failure lf (with_d_status s d))) = None.
Proof.
  intros Hnd Hs. dispatch_triggers. cbn. bool_refl. cbn. rewrite !andb_false_r.
  rewrite (bool_decide_false (s = Ds_Dispatched)) by done. cbn.
  destruct (bool_decide (s = Ds_Completed)) eqn:E; [|done]. split_bools. by rewrite Hs.
Qed.

Lemma close_status_allowed db d s c :
  s ≠ Ds_Dispatched → (s = Ds_Completed → has_launch db (d_id d) = false) →
  dispatch_update_abort true db d (with_d_completed_at c (with_d_status s d)) = None.
Proof. apply (close_allowed db d s c (d_last_failure d)). Qed.

(** A task no plan froze accepts every status. *)
Lemma unplanned_allowed db t t' :
  t_plan_revision t = None → same_definition t t' → task_update_abort false db t t' = None.
Proof. intros Hp Hd. apply task_update_allowed; [done|by left]. Qed.

Lemma guard_contract_free id status w t :
  task_by_id (w_db w) id = Some t → t_role_contract t = None →
  guard_contract_status_update id status w = (w, Ok tt).
Proof.
  intros Ht Hc. unfold guard_contract_status_update, orchestration_task_by_id.
  by rewrite bind_select, Ht, Hc.
Qed.

(** ** Claims *)

(** A failed task is told to its run's timeline. *)
Lemma failure_told id status result w :
  marker_fits → events_fresh w 1 →
  ∃ w', (if bool_decide (status = Ts_Failed)
         then record_task_run_event id Ev_TaskFailed (default "" result) None else ret tt) w = (w', Ok tt)
     ∧ events_only w w'.
Proof.
  intros Hm Hf. destruct (bool_decide (status = Ts_Failed)); [|exists w; split; [done|reflexivity]].
  destruct (record_task_run_event_fresh id Ev_TaskFailed (default "" result) None w 0) as (w' & ? & ? & _); eauto.
Qed.

(** Closing the active dispatches of a task leaves it none. *)
Lemma closed_dispatches id status at_ (ds : list OrchestrationDispatchContext) d :
  d ∈ update_where (active_of_task id)
        (λ d, with_d_completed_at at_ (with_d_status (if bool_decide (status = Ts_Completed) then Ds_Completed else Ds_Failed) d)) ds →
  d_task_id d = id → d_active d = false.
Proof.
  intros (x & _ & ->)%elem_of_update_where. unfold active_of_task.
  destruct (String.eqb_spec (d_task_id x) id); cbn; [|done].
  destruct (d_active x) eqn:Ea; [|done]. intros _. unfold d_active. cbn. by case_bool_decide.
Qed.

(** Completing or failing a task by a status update: the task takes the
    status with its end time and result, its active dispatches are closed, and
    the change reaches the whole DAG: every pending task of a shared run ends
    ready, failed or still pending exactly as its dependencies dictate, and no
    task that already started or ended moves. *)
Theorem update_status_settles (id : string) (status : OrchestrationTaskStatus)
    (result : option string) (w : World) (t : OrchestrationTask) :
  Inv (w_db w) → task_by_id (w_db w) id = Some t →
  t_role_contract t = None → t_plan_revision t = None →
  status = Ts_Completed ∨ status = Ts_Failed →
  (∀ d, d ∈ db_dispatches (w_db w) → d_task_id d = id → has_launch (w_db w) (d_id d) = false) →
  marker_fits → events_fresh w 1 →
  ∃ w' t', update_orchestration_task_status id status result w = (w', Ok t') ∧
    t_status t' = status ∧ t_completed_at t' = Some now ∧
    t_result t' = (match result with Some _ => result | None => t_result t end) ∧
    (∀ d, d ∈ db_dispatches (w_db w') → d_task_id d = id → d_active d = false) ∧
    dependents_settled id (w_db w) (w_db w').
Proof.
  intros HI Ht Hc Hpl Hs Hlaunch Hm Hf. unfold update_orchestration_task_status.
  unfold orchestration_task_by_id.
  set (f := λ t : OrchestrationTask, with_t_completed_at (Some now)
    (with_t_result (match result with Some _ => result | None => t_result t end) (with_t_status status t))).
  assert (settles status f) as Hsf by (by intros x; split_and!).
  assert (terminal_status status = true) as Hterm by (by destruct Hs as [->| ->]).
  set (w1 := with_db (λ db, set_tasks (update_where (λ t, String.eqb (t_id t) id) f (db_tasks db)) db) w).
  assert (update_tasks false (λ t, String.eqb (t_id t) id) f w =
          (w1, Ok (count_where (λ t, String.eqb (t_id t) id) (db_tasks (w_db w))))) as Hup.
  { apply update_tasks_success. intros x Hx He. apply unplanned_allowed; [|by split_and!].
    by rewrite (same_task _ _ t x HI Ht Hx He). }
  destruct (refresh_pending_dependents_after_task_status id w1) as [w2 r] eqn:Hrun.
  destruct (refresh_settled (w_db w) w1 w2 r id status f) as (-> & Hp & Hdag); try done.
  pose proof (settled_task (w_db w) w1 w2 id status f t Hsf ltac:(by destruct Hs as [->| ->]) Hp Ht eq_refl) as Ht2.
  pose proof (settled_dependents (w_db w) w1 w2 id status f HI Hsf Hp Hdag eq_refl eq_refl) as Hdep.
  assert (db_dispatches (w_db w2) = db_dispatches (w_db w) ∧ db_launches (w_db w2) = db_launches (w_db w) ∧
          events_fresh w2 1) as (Hd2 & Hl2 & Hf2) by (destruct Hp as (ts & -> & _); done).
  destruct (failure_told id status result w2 Hm Hf2) as (w3 & Hev & Heo).
  set (g := λ d : OrchestrationDispatchContext, with_d_completed_at (Some now)
    (with_d_status (if bool_decide (status = Ts_Completed) then Ds_Completed else Ds_Failed) d)).
  set (w4 := with_db (λ db, set_dispatches (update_where (active_of_task id) g (db_dispatches db)) db) w3).
  assert (update_dispatches true (active_of_task id) g w3 =
          (w4, Ok (count_where (active_of_task id) (db_dispatches (w_db w3))))) as Hcl.
  { apply update_dispatches_success. frame_rewrite. rewrite Hd2. intros d Hd [He%String.eqb_eq _]%andb_true_iff.
    apply close_status_allowed; [by destruct Hs as [->| ->]|]. intros _.
    unfold has_launch. frame_rewrite. rewrite Hl2. by apply Hlaunch. }
  exists w4, (f t). split; [|split_and!; try done].
  - unfold bind at 1.
    assert (∀ A (m : SM A) a, m w = (w4, Ok a) → tx m w = (w4, Ok a)) as Htx by (intros; by apply tx_ok).
    rewrite (Htx unit _ tt).
    + unfold task_after, orchestration_task_by_id. rewrite bind_select. unfold task_by_id, w4. frame_rewrite.
      unfold task_by_id in Ht2. by rewrite Ht2.
    + rewrite bind_select, Ht, (bind_ok _ _ _ _ _ (guard_contract_free id status w t Ht Hc)).
      rewrite Hterm, (bind_ok _ _ _ _ _ Hup), (bind_ok _ _ _ _ _ Hrun), (bind_ok _ _ _ _ _ Hev).
      by rewrite (bind_ok _ _ _ _ _ Hcl).
  - intros d. unfold w4. frame_rewrite. rewrite Hd2. apply closed_dispatches.
  - eapply dependents_settled_frame; [|exact Hdep]. unfold w4. by frame_rewrite.
Qed.

(** Creating a task: a dependency that does not exist refuses the task and
    leaves the database as it was; otherwise the task is stored last and
    returned, ready when every dependency completed (or there is none), failed
    or cancelled with its end time when a dependency was, pending otherwise. *)
Theorem create_orchestration_task_spec `{ContractLib} (task : NewOrchestrationTask) (w : World) :
  id_of "task" (w_rng w) ∉ (t_id <$> db_tasks (w_db w)) →
  run_isolated (w_db w) (nt_run_id task) = false →
  match status_for_deps (w_db w) (nt_deps task) with
  | Err e => ∃ w', create_orchestration_task task w = (w', Err e) ∧ w_db w' = w_db w
  | Ok status =>
      let row := new_task_row task None (id_of "task" (w_rng w)) status in
      ∃ w', create_orchestration_task task w = (w', Ok row) ∧
        w_db w' = set_tasks (db_tasks (w_db w) ++ [row]) (w_db w) ∧
        t_status row = status ∧ t_deps row = nt_deps task ∧
        (is_Some (t_completed_at row) ↔ status = Ts_Failed ∨ status = Ts_Cancelled)
  end.
Proof.
  intros Hid Hiso. unfold create_orchestration_task, create_orchestration_task_with_contract.
  rewrite (bind_ok _ _ w w None eq_refl), (bind_ok _ _ w _ _ eq_refl).
  destruct (status_for_deps (w_db w) (nt_deps task)) as [status|e] eqn:Es; cbn zeta.
  2: { exists (MkWorld (w_db w) (S (w_rng w))). split; [|done]. apply bind_err.
       unfold tx, bind at 1, get_db, gets. cbn [w_db]. by rewrite Es. }
  set (row := new_task_row task None (id_of "task" (w_rng w)) status).
  set (w' := MkWorld (set_tasks (db_tasks (w_db w) ++ [row]) (w_db w)) (S (w_rng w))).
  exists w'. split_and!; try done.
  - rewrite (bind_ok _ _ _ w' tt).
    + unfold task_after, orchestration_task_by_id. rewrite bind_select. unfold task_by_id, w'.
      cbn [w_db db_tasks set_tasks]. change (id_of "task" (w_rng w)) with (t_id row).
      by rewrite find_key_snoc.
    + apply tx_run. unfold get_db, gets, bind at 1. cbn [w_db]. rewrite Es.
      unfold lift_result, ret, bind, insert_task. cbn [w_db]. fold row. change (t_run_id row) with (nt_run_id task).
      rewrite Hiso, andb_false_r, bool_decide_false; done.
  - unfold row. destruct status; cbn; rewrite ?bool_decide_true, ?bool_decide_false by done;
      split; try naive_solver; by intros [? ?].
Qed.

(** A worker that cannot be started is retried twice: a ready task nobody
    holds counts the failure and stays ready until the third, which stalls it;
    a task that is not ready, or still has an active dispatch, is refused
    unchanged. *)
Theorem startup_failure_three_strikes (id error : string) (w : World) (t : OrchestrationTask) :
  Inv (w_db w) → task_by_id (w_db w) id = Some t → t_plan_revision t = None →
  ∃ w' r, record_orchestration_task_startup_failure id error w = (w', r) ∧
    if bool_decide (t_status t = Ts_Ready) then
      r = Ok (startup_failed_row error t) ∧ task_by_id (w_db w') id = Some (startup_failed_row error t) ∧
      t_startup_failure_count (startup_failed_row error t) = (t_startup_failure_count t + 1)%Z ∧
      t_status (startup_failed_row error t) =
        (if (t_startup_failure_count t <? 2)%Z then Ts_Ready else Ts_Stalled)
    else is_ok r = false ∧ w' = w.
Proof.
  intros HI Ht Hpl. unfold record_orchestration_task_startup_failure. rewrite bind_select.
  set (busy := existsb (active_of_task id) (db_dispatches (w_db w))).
  set (p := λ x, String.eqb (t_id x) id && bool_decide (t_status x = Ts_Ready) && negb busy).
  apply task_by_id_Some in Ht as Htin. destruct Htin as [Hin Hid].
  assert (∀ x, x ∈ db_tasks (w_db w) → String.eqb (t_id x) id = true → x = t) as Hkey.
  { intros x Hx He%String.eqb_eq. eapply (NoDup_key_inj t_id); try done; [apply HI|congruence]. }
  rewrite (bind_ok _ _ _ _ _ (update_tasks_success false p (startup_failed_row error) w ltac:(
    intros x Hx Hp; unfold p in Hp; split_bools; rewrite (Hkey x) by done;
    apply unplanned_allowed; [done|by split_and!]))).
  destruct (bool_decide (t_status t = Ts_Ready)) eqn:Er; split_bools.
  - assert (busy = false) as Hb.
    { unfold busy. apply not_true_iff_false. intros (d & Hd & Ha)%existsb_exists.
      apply andb_true_iff in Ha as [He%String.eqb_eq Ha]. apply list_elem_of_In in Hd.
      destruct (active_holder _ _ HI Hd Ha) as (x & Hx & Hh). rewrite He, Ht in Hx. simplify_eq.
      destruct Hh; congruence. }
    assert (p t = true) as Hp by (unfold p; by rewrite Hid, String.eqb_refl, Hb, bool_decide_true).
    assert (Nat.eqb (count_where p (db_tasks (w_db w))) 0 = false) as ->.
    { apply Nat.eqb_neq. pose proof (proj2 (count_where_pos p (db_tasks (w_db w)))). naive_solver lia. }
    assert (task_by_id (set_tasks (update_where p (startup_failed_row error) (db_tasks (w_db w))) (w_db w)) id
            = Some (startup_failed_row error t)) as Hnew.
    { rewrite task_by_id_update by done. rewrite Ht. cbn. by rewrite Hp. }
    eexists _, (Ok (startup_failed_row error t)). split.
    { unfold task_after, orchestration_task_by_id. rewrite bind_select. cbn [w_db with_db].
      by rewrite Hnew. }
    split_and!; try done. cbn.
    destruct (Z.ltb_spec (t_startup_failure_count t) 2), (Z.leb_spec 3 (t_startup_failure_count t + 1)); done || lia.
  - assert (∀ x, x ∈ db_tasks (w_db w) → p x = false) as Hnone.
    { intros x Hx. destruct (p x) eqn:E; [|done]. unfold p in E. split_bools. rewrite (Hkey x) in * by done. done. }
    rewrite (proj2 (count_where_0 p _) Hnone). eexists _, _. split; [done|]. split; [done|].
    cbn. unfold with_db. rewrite (update_where_none _ _ _ Hnone). by destruct w as [[] ?].
Qed.
End WithEnv.
