(* ===== verification/Evidence.v ===== *)
(** * Evidence: a contracted task is only completed with evidence

    A task may carry a frozen role contract.  This file shows that in every
    reachable state each completed task under contract holds a result that
    satisfies it: the only way into [completed] is the dispatch completion that
    validates the result, and no operation rewrites the result afterwards. *)

From S2P Require Import Prelude Text Models Store StoreFacts RoleContract Tasks Dag Cancellation Dispatch Gates Messages Runs Invariants CancelFacts Lifecycle Reachability.
From Stdlib Require Import ZArith Lia Ascii String.
From stdpp Require Import strings prelude.

Section WithEnv.
Context `{Env} `{ContractLib}.

(** The task's result satisfies the contract it was created under. *)
Definition evidenced (t : OrchestrationTask) : Prop :=
  ∀ raw, t_role_contract t = Some raw →
    ∃ contract result, snapshot_decode raw = Some contract ∧ t_result t = Some result ∧
      validate_success_result contract result = Ok tt.

Definition evidence_ok (db : Db) : Prop :=
  ∀ t, t ∈ db_tasks db → t_status t = Ts_Completed → evidenced t.

Abbreviation ev_kept := (λ db db' : Db, evidence_ok db → evidence_ok db').
#[local] Instance ev_kept_refl : Reflexive ev_kept.
Proof. by intros db. Qed.
#[local] Instance ev_kept_trans : Transitive ev_kept.
Proof. intros db1 db2 db3 H1 H2 HI. auto. Qed.

Lemma ev_same db db' : db_tasks db' = db_tasks db → evidence_ok db → evidence_ok db'.
Proof. unfold evidence_ok. by intros ->. Qed.

(** A row update is harmless unless it completes the row or rewrites the
    contract or result of a completed one. *)
Definition ev_row (p : OrchestrationTask → bool) (f : OrchestrationTask → OrchestrationTask) : Prop :=
  ∀ t, p t = true → t_status (f t) = Ts_Completed →
    t_status t = Ts_Completed ∧ t_role_contract (f t) = t_role_contract t ∧ t_result (f t) = t_result t.

Lemma ev_update_tasks sr p f : ev_row p f → respects ev_kept (update_tasks sr p f).
Proof.
  intros Hf w w' r [->| ->]%update_tasks_any Hok; [done|]. cbn.
  intros t (x & Hx & ->)%elem_of_update_where. destruct (p x) eqn:E; [|by apply Hok].
  intros Hc. destruct (Hf x E Hc) as (Hcx & Hk & Hr). unfold evidenced. rewrite Hk, Hr. by apply Hok.
Qed.

Lemma ev_frame {A} (m : SM A) :
  (∀ w w' r, m w = (w', r) → db_tasks (w_db w') = db_tasks (w_db w)) → respects ev_kept m.
Proof. intros Hm w w' r Hr. apply ev_same. eauto. Qed.

Lemma ev_update_dispatches ss p f : respects ev_kept (update_dispatches ss p f).
Proof. apply ev_frame. intros w w' r. unfold update_dispatches. case_match; by intros [= <- _]. Qed.
Lemma ev_insert_dispatch d : respects ev_kept (insert_dispatch d).
Proof. apply ev_frame. intros w w' r. unfold insert_dispatch. repeat case_match; by intros [= <- _]. Qed.
Lemma ev_update_messages p f : respects ev_kept (update_messages p f).
Proof. apply ev_frame. by intros w w' r [= <- _]. Qed.
Lemma ev_insert_message row : respects ev_kept (insert_message row).
Proof. apply ev_frame. intros w w' r. unfold insert_message. case_match; by intros [= <- _]. Qed.
Lemma ev_update_gates p f : respects ev_kept (update_gates p f).
Proof. apply ev_frame. by intros w w' r [= <- _]. Qed.
Lemma ev_insert_gate g : respects ev_kept (insert_gate g).
Proof.
  apply ev_frame. intros w w' r. unfold insert_gate. destruct (negb _); [by intros [= <- _]|].
  case_match; by intros [= <- _].
Qed.
Lemma ev_update_runs p f : respects ev_kept (update_runs p f).
Proof. apply ev_frame. intros w w' r. unfold update_runs. case_match; by intros [= <- _]. Qed.
Lemma ev_insert_run x : respects ev_kept (insert_run x).
Proof. apply ev_frame. intros w w' r. unfold insert_run. repeat case_match; by intros [= <- _]. Qed.
Lemma ev_update_launches p f : respects ev_kept (update_launches p f).
Proof. apply ev_frame. by intros w w' r [= <- _]. Qed.
Lemma ev_run_event ev : respects ev_kept (record_run_event ev).
Proof. apply ev_frame. intros w w' r Hr%record_run_event_frame. by rewrite (events_only_tasks _ _ Hr). Qed.
Lemma ev_dispatch_event id k s p : respects ev_kept (record_dispatch_run_event id k s p).
Proof.
  apply ev_frame. intros w w' r Hr%record_dispatch_run_event_frame. by rewrite (events_only_tasks _ _ Hr).
Qed.
Lemma ev_task_event id k s p : respects ev_kept (record_task_run_event id k s p).
Proof.
  apply ev_frame. intros w w' r Hr%record_task_run_event_frame. by rewrite (events_only_tasks _ _ Hr).
Qed.
Lemma ev_audit actor action target reason :
  respects ev_kept (insert_orchestration_audit_event actor action target reason).
Proof. apply ev_frame. intros w w' r [a Ha]%insert_audit_frame. by rewrite Ha. Qed.
Lemma ev_lift {A} (r : Result A) : respects ev_kept (lift_result r).
Proof. destruct r; [apply respects_ret|apply respects_fail]; exact _. Qed.
Lemma ev_ensure_target task_id target : respects ev_kept (ensure_dispatch_target_allowed task_id target).
Proof.
  apply ev_frame. intros w w' r. unfold ensure_dispatch_target_allowed. rewrite bind_select.
  destruct target; [destruct (task_isolated _ _)|rewrite bind_select; destruct (_ || _)];
    by intros [= <- _].
Qed.

Ltac evidence :=
  repeat first
    [ apply (respects_ret ev_kept) | apply (respects_fail ev_kept) | apply (respects_bail ev_kept)
    | apply (respects_select ev_kept) | apply (respects_get_db ev_kept) | apply (respects_id ev_kept)
    | apply ev_update_messages | apply ev_insert_message | apply ev_update_gates
    | apply ev_insert_gate | apply ev_update_launches | apply ev_run_event | apply ev_dispatch_event
    | apply ev_task_event | apply ev_audit | apply ev_update_dispatches | apply ev_insert_dispatch
    | apply ev_update_runs | apply ev_insert_run | apply ev_lift | apply ev_ensure_target
    | apply ev_update_tasks; intros ? ? ?
    | apply (respects_tx ev_kept) | apply (respects_mapM ev_kept); intros ?
    | apply (respects_catch ev_kept); [|intros ?] | apply (respects_bind ev_kept); [|intros ?]
    | apply (respects_if ev_kept) | apply (respects_option ev_kept); [intros ?|]
    | progress cbn beta | exact ev_kept_refl | exact ev_kept_trans ].

(** Row conditions decided by the columns written. *)
Ltac ev_cond := first [ done | by split_and! | by (cbn in *; case_match) ].

Lemma ev_refresh_rows c rows stack : respects ev_kept (refresh_rows c rows stack).
Proof.
  revert stack. induction rows as [|row rows IH]; intros stack; cbn [refresh_rows]; evidence; try apply IH.
  destruct (status_for_deps a (t_deps row)) as [[]|]; evidence; try apply IH; done.
Qed.

Lemma ev_refresh_loop fuel stack : respects ev_kept (refresh_loop fuel stack).
Proof.
  revert stack. induction fuel as [|fuel IH]; intros [|c stack]; cbn [refresh_loop]; evidence;
    [apply ev_refresh_rows|apply IH].
Qed.


(** ** The two operations that complete a task *)

(** Updating the one row [t] named [id]. *)
Lemma ev_update_one db id t f :
  Inv db → task_by_id db id = Some t → evidence_ok db →
  (t_status (f t) = Ts_Completed → evidenced (f t)) →
  evidence_ok (set_tasks (update_where (λ t, String.eqb (t_id t) id) f (db_tasks db)) db).
Proof.
  intros HI [Hin Hid]%task_by_id_Some Hok Hf. cbn. intros x (y & Hy & ->)%elem_of_update_where.
  destruct (String.eqb (t_id y) id) eqn:E; [|by apply Hok]. apply String.eqb_eq in E.
  rewrite (NoDup_key_inj t_id _ y t (inv_task_ids _ HI) Hy Hin) by congruence. done.
Qed.

Lemma ev_task_after id msg : respects ev_kept (task_after id msg).
Proof. unfold task_after, orchestration_task_by_id. evidence. Qed.
Lemma ev_dispatch_after id msg : respects ev_kept (dispatch_after id msg).
Proof. unfold dispatch_after, orchestration_dispatch_by_id. evidence. Qed.

(** An operation that is one transaction followed by reads. *)
Lemma ev_transaction {A B} (m : SM A) (k : A → SM B) w w' r :
  (∀ w1 a, m w = (w1, Ok a) → evidence_ok (w_db w1)) → (∀ a, respects ev_kept (k a)) →
  evidence_ok (w_db w) → bind (tx m) k w = (w', r) → evidence_ok (w_db w').
Proof.
  intros Hm Hk Hok. unfold bind, tx. destruct (m w) as [w1 [a|e]].
  - intros Hr. eapply Hk; [exact Hr|]. by eapply Hm.
  - by intros [= <- _].
Qed.

Lemma ev_update_status id status result w w' r :
  Inv (w_db w) → update_orchestration_task_status id status result w = (w', r) →
  evidence_ok (w_db w) → evidence_ok (w_db w').
Proof.
  intros HI Hr Hok. revert Hr. apply ev_transaction; [|intros; apply ev_task_after|done].
  unfold orchestration_task_by_id. intros w1 u Hm. rewrite bind_select in Hm.
  destruct (task_by_id (w_db w) id) as [t|] eqn:Et; [|done]. inv_ok Hm.
  unfold guard_contract_status_update, orchestration_task_by_id in Hstep.
  rewrite bind_select, Et in Hstep. destruct (_ && _) eqn:Eg in Hstep; [done|]. inv_ok Hstep.
  assert (∀ f : OrchestrationTask → OrchestrationTask, t_role_contract (f t) = t_role_contract t →
    (t_status (f t) = Ts_Completed → status = Ts_Completed) →
    evidence_ok (set_tasks (update_where (λ t, String.eqb (t_id t) id) f (db_tasks (w_db s))) (w_db s)))
    as Hone.
  { intros f Hc Hs. eapply ev_update_one; try done. intros Hcs%Hs raw Hraw. rewrite Hc in Hraw.
    rewrite Hraw, Hcs in Eg. cbn in Eg. by rewrite bool_decide_true in Eg. }
  destruct (terminal_status status).
  - repeat inv_ok Hm. store_inv. eapply ev_same; [by frame_rewrite|].
    eapply ev_refresh_loop; [exact Hstep0|]. by apply Hone.
  - inv_ok Hm. store_inv. destruct (bool_decide (status = Ts_Dispatched)); repeat inv_ok Hm; store_inv;
      [|eapply ev_same; [done|]]; by apply Hone.
Qed.

Lemma ev_complete dispatch_id assignee result sha w w' r :
  Inv (w_db w) → complete_orchestration_dispatch_at_sha dispatch_id assignee result sha w = (w', r) →
  evidence_ok (w_db w) → evidence_ok (w_db w').
Proof.
  intros HI Hr Hok. revert Hr.
  apply ev_transaction; [|intros [ctx|]; [evidence|apply ev_dispatch_after]|done].
  unfold orchestration_dispatch_by_id. intros w1 u Hm. rewrite bind_select in Hm.
  destruct (dispatch_by_id (w_db w) dispatch_id) as [ctx|] eqn:Ed; [|done]. rewrite bind_select in Hm.
  destruct (negb _) in Hm; [done|]. destruct (bool_decide (d_status ctx = Ds_Completed)).
  { destruct (negb _) in Hm; [done|]. rewrite bind_select in Hm. do 2 (destruct (negb _) in Hm; [done|]).
    inv_ok Hm. apply clear_attention_ok in Hstep as [ls ->]. inv_ok Hm. by apply (ev_same (w_db w)). }
  destruct (_ || _) in Hm; [done|]. inv_ok Hm. pose proof (validate_completion_ok _ _ _ _ _ Hstep) as ->.
  unfold validate_task_contract_completion, orchestration_task_by_id in Hstep. rewrite bind_select in Hstep.
  destruct (task_by_id (w_db w) (d_task_id ctx)) as [t|] eqn:Et; [|done].
  inv_ok Hm. store_inv. inv_ok Hm. store_inv.
  inv_ok Hm. apply clear_attention_ok in Hstep0 as [ls ->].
  inv_ok Hm. apply record_completion_frame in Hstep0. inv_ok Hm. inv_ok Hm.
  unfold obsolete_dispatch_messages in *. store_inv. inv_ok Hm. eapply ev_same; [by frame_rewrite|].
  eapply ev_refresh_loop; [exact Hstep1|].
  eapply (ev_same (set_tasks (update_where (λ t, String.eqb (t_id t) (d_task_id ctx))
    (λ t, with_t_completed_at (Some now) (with_t_result (Some result) (with_t_status Ts_Completed t)))
    (db_tasks (w_db w))) (w_db w))); [by frame_rewrite|].
  eapply ev_update_one; try done. intros _ raw Hraw. cbn in Hraw. rewrite Hraw in Hstep.
  destruct (snapshot_decode raw) as [c|] eqn:Ec; [|done]. exists c, result. split_and!; try done.
  unfold lift_result in Hstep. by destruct (validate_success_result c result) as [[]|].
Qed.

(** ** All the others *)

Lemma ev_cancel id reason : respects ev_kept (cancel_orchestration_task id reason).
Proof.
  unfold cancel_orchestration_task. evidence; repeat case_match; evidence; done.
Qed.

Lemma status_for_deps_open db deps s : status_for_deps db deps = Ok s → s ≠ Ts_Completed.
Proof.
  assert (∀ deps ac, status_for_deps_loop db deps ac = Ok s → s ≠ Ts_Completed) as Hl.
  { induction deps0 as [|d deps0 IH]; cbn; intros ac; [by destruct ac; intros [= <-]|].
    destruct (task_status db d) as [[]|]; eauto; by intros [= <-]. }
  destruct deps; [by intros [= <-]|]. apply Hl.
Qed.

Lemma ev_create_task task contract :
  respects ev_kept (create_orchestration_task_with_contract task contract).
Proof.
  apply (respects_bind ev_kept); [apply ev_lift|]. intros snapshot.
  apply (respects_bind ev_kept); [evidence|]. intros id w w' r Hr Hok. revert Hr.
  apply ev_transaction; [|intros; apply ev_task_after|done]. intros w1 u Hm. inv_ok Hm. store_inv.
  inv_ok Hm. destruct (status_for_deps _ _) as [status|] eqn:Es; [|done].
  apply status_for_deps_open in Es. cbn in Hstep. inv_ok Hstep. store_inv. cbn.
  intros t [Ht|Ht%list_elem_of_singleton]%elem_of_app Hc; [by apply Hok|]. by subst t.
Qed.

Lemma ev_fail_dispatch id error result :
  respects ev_kept (fail_orchestration_dispatch_with_result id error result).
Proof.
  unfold fail_orchestration_dispatch_with_result, orchestration_dispatch_by_id.
  evidence; try apply ev_refresh_loop. cbn in *. by destruct (_ <=? _)%Z.
Qed.

Lemma ev_startup_failure id error : respects ev_kept (fail_orchestration_startup id error).
Proof.
  unfold fail_orchestration_startup, orchestration_dispatch_by_id.
  evidence; cbn in *; by destruct (3 <=? _)%Z.
Qed.

Lemma ev_task_startup_failure id error :
  respects ev_kept (record_orchestration_task_startup_failure id error).
Proof.
  unfold record_orchestration_task_startup_failure. evidence. cbn in *; by destruct (3 <=? _)%Z.
Qed.

Lemma ev_recover id status actor reason force w w' r :
  Inv (w_db w) → recover_stalled_orchestration_task id status actor reason force w = (w', r) →
  evidence_ok (w_db w) → evidence_ok (w_db w').
Proof.
  intros HI. unfold recover_stalled_orchestration_task, orchestration_task_by_id.
  destruct (negb _); [by intros [= <- _]|]. rewrite bind_select.
  destruct (task_by_id _ _); [|by intros [= <- _]]. destruct (negb _); [by intros [= <- _]|].
  rewrite bind_select. destruct (_ && _); [by intros [= <- _]|].
  set (op := if bool_decide (status = Ts_Cancelled) then _ else _).
  assert (∀ w1 r1, op w = (w1, r1) → evidence_ok (w_db w) → evidence_ok (w_db w1)) as Hop.
  { unfold op. destruct (bool_decide (status = Ts_Cancelled)).
    - intros w1 r1. apply ev_cancel.
    - intros w1 r1. by apply ev_update_status. }
  unfold bind at 1. destruct (op w) as [w1 [a|e]] eqn:E; intros Hr Hok; specialize (Hop _ _ eq_refl Hok).
  - revert Hop. eapply (respects_bind ev_kept); [apply ev_audit| |exact Hr]. intros ?. evidence.
  - by injection Hr as <- _.
Qed.

Lemma ev_transfer_task id actor handle reason force :
  respects ev_kept (transfer_orchestration_task_coordinator id actor handle reason force).
Proof. unfold transfer_orchestration_task_coordinator, orchestration_task_by_id. evidence; ev_cond. Qed.
Lemma ev_bind_manual run_id workspace_id coordinator :
  respects ev_kept (bind_manual_tasks_to_run run_id workspace_id coordinator).
Proof. unfold bind_manual_tasks_to_run. evidence; ev_cond. Qed.
Lemma ev_set_stage task_id stage : respects ev_kept (set_orchestration_task_stage task_id stage).
Proof. unfold set_orchestration_task_stage. evidence; ev_cond. Qed.
Lemma ev_create_dispatch task_id assignee run_id workspace_id coordinator token policy :
  respects ev_kept (create_scoped_orchestration_dispatch task_id assignee run_id workspace_id
                      coordinator token policy).
Proof.
  unfold create_scoped_orchestration_dispatch, create_run_dispatch.
  evidence; repeat case_match; evidence; ev_cond.
Qed.
Lemma ev_accept dispatch_id assignee token :
  respects ev_kept (accept_orchestration_dispatch dispatch_id assignee token).
Proof. unfold accept_orchestration_dispatch. evidence. Qed.
Lemma ev_activity dispatch_id : respects ev_kept (record_orchestration_activity dispatch_id).
Proof.
  unfold record_orchestration_activity, revive_stalled_dispatch.
  evidence; try ev_cond. destruct a0; evidence.
Qed.
Lemma ev_stall threshold : respects ev_kept (stall_expired_orchestration_dispatches threshold).
Proof. unfold stall_expired_orchestration_dispatches, stall_one. evidence; ev_cond. Qed.
Lemma ev_create_gate task_id question options :
  respects ev_kept (create_orchestration_gate task_id question options).
Proof.
  unfold create_orchestration_gate, insert_task_gate, gate_after, orchestration_gate_by_id, orchestration_task_by_id.
  evidence; repeat case_match; evidence; ev_cond.
Qed.
Lemma ev_stall_gate task_id question :
  respects ev_kept (create_orchestration_stall_gate task_id question).
Proof.
  unfold create_orchestration_stall_gate, insert_task_gate, gate_after, orchestration_gate_by_id, orchestration_task_by_id.
  evidence; repeat case_match; evidence; ev_cond.
Qed.
Lemma ev_resolve_resumed task_id : respects ev_kept (resolve_stall_gate_as_resumed task_id).
Proof. unfold resolve_stall_gate_as_resumed, orchestration_gate_by_id. evidence. Qed.
Lemma ev_resume task_id : respects ev_kept (resume_stalled_orchestration_dispatch task_id).
Proof. unfold resume_stalled_orchestration_dispatch. evidence; ev_cond. Qed.
Lemma ev_create_run spec coordinator poll workspace_id max plan :
  respects ev_kept (create_planned_orchestration_coordinator_run spec coordinator poll workspace_id max plan).
Proof.
  unfold create_planned_orchestration_coordinator_run, run_after, orchestration_coordinator_run_by_id.
  evidence.
Qed.
Lemma ev_finish_run id status : respects ev_kept (finish_orchestration_coordinator_run id status).
Proof. unfold finish_orchestration_coordinator_run. evidence. Qed.
Lemma ev_transfer_run run_id actor handle reason force :
  respects ev_kept (transfer_orchestration_run_coordinator run_id actor handle reason force).
Proof.
  unfold transfer_orchestration_run_coordinator, run_after, orchestration_coordinator_run_by_id.
  evidence; ev_cond.
Qed.
Lemma ev_send message : respects ev_kept (insert_orchestration_message message).
Proof.
  unfold insert_orchestration_message, orchestration_message_by_id. case_match; evidence.
  repeat case_match; evidence.
Qed.
Lemma ev_marks ids :
  respects ev_kept (mark_orchestration_messages_read ids) ∧
  respects ev_kept (mark_orchestration_messages_delivered ids).
Proof.
  unfold mark_orchestration_messages_read, mark_orchestration_messages_delivered.
  split; case_match; evidence.
Qed.
Lemma ev_polls to_handle types now_only :
  respects ev_kept (unread_orchestration_messages to_handle types) ∧
  respects ev_kept (undelivered_messages to_handle now_only).
Proof.
  unfold unread_orchestration_messages, undelivered_messages, expire_orchestration_messages.
  split; evidence.
Qed.
Lemma ev_reset_tasks : respects ev_kept reset_orchestration_tasks.
Proof.
  unfold reset_orchestration_tasks. evidence. intros w w' r [= <- _] _ t Ht.
  by apply not_elem_of_nil in Ht.
Qed.

Lemma Step_evidence w w' :
  Step w w' → Inv (w_db w) → evidence_ok (w_db w) → evidence_ok (w_db w').
Proof.
  destruct 1 as [[]|]; intros HI.
  - by eapply ev_create_task.
  - by eapply ev_update_status.
  - by eapply ev_cancel.
  - by eapply ev_recover.
  - by eapply ev_task_startup_failure.
  - by eapply ev_transfer_task.
  - by eapply ev_bind_manual.
  - by eapply ev_set_stage.
  - by eapply ev_create_dispatch.
  - by eapply ev_accept.
  - by eapply ev_activity.
  - by eapply ev_startup_failure.
  - by eapply ev_stall.
  - by eapply ev_fail_dispatch.
  - by eapply ev_complete.
  - revert H1. apply (respects_bind ev_kept); [apply ev_update_dispatches|]. intros ?. evidence.
  - by eapply ev_create_gate.
  - by eapply ev_stall_gate.
  - by eapply ev_resolve_resumed.
  - by eapply ev_resume.
  - by eapply ev_create_run.
  - by eapply ev_finish_run.
  - revert H1. apply (respects_bind ev_kept); [apply ev_update_runs|]. intros ?. evidence.
  - by eapply ev_transfer_run.
  - by eapply ev_send.
  - by eapply (proj1 (ev_polls to_handle types false)).
  - by eapply (proj2 (ev_polls to_handle None now_only)).
  - by eapply (proj1 (ev_marks ids)).
  - by eapply (proj2 (ev_marks ids)).
  - injection H1 as <- _. by apply ev_same.
  - by eapply ev_reset_tasks.
Qed.

End WithEnv.

Section Timed.
Context `{Env} `{ContractLib}.

(** Evidence does not depend on the clock. *)
Lemma validate_success_result_at moment :
  @validate_success_result (at_time _ moment) _ = validate_success_result.
Proof.
  assert (@bounded_json (at_time _ moment) = bounded_json) as Hb by reflexivity.
  unfold validate_success_result, snapshot_validate, content_digest, contract_validate, validate_instance,
    compile_schema.
  by rewrite Hb.
Qed.

Lemma evidence_ok_at moment db : @evidence_ok (at_time _ moment) _ db ↔ evidence_ok db.
Proof. unfold evidence_ok, evidenced. by rewrite validate_success_result_at. Qed.

Lemma tick_evidence w w' : tick w w' → Inv (w_db w) → evidence_ok (w_db w) → evidence_ok (w_db w').
Proof.
  intros [moment Hs]. rewrite <-!(evidence_ok_at moment).
  exact (@Step_evidence (at_time _ moment) _ _ _ Hs).
Qed.

(** ** Claims *)

(** [C17] In every reachable state, each completed task that was created under a
    role contract holds a result that passes the contract's validation, so no
    sequence of operations completes a contracted task without evidence or
    tampers with the evidence later. *)
Theorem completed_contracts_have_evidence (w : World) (t : OrchestrationTask) (raw : ContractText) :
  reachable w → t ∈ db_tasks (w_db w) → t_status t = Ts_Completed → t_role_contract t = Some raw →
  ∃ contract result, snapshot_decode raw = Some contract ∧ t_result t = Some result ∧
    validate_success_result contract result = Ok tt.
Proof.
  intros [n Hr] Ht Hc Hraw.
  assert (∀ w0 w1, rtc tick w0 w1 → Inv (w_db w0) → evidence_ok (w_db w0) → evidence_ok (w_db w1)) as Hall.
  { induction 1; eauto using tick_Inv, tick_evidence. }
  eapply Hall; try done; [apply empty_Inv|]. intros x Hx. by apply not_elem_of_nil in Hx.
Qed.

End Timed.
