(* ===== verification/DispatchFacts.v ===== *)
(** * DispatchFacts: what the dispatch operations achieve

    Functional correctness of Dispatch.v beyond the invariant: handing a task to
    a terminal, acceptance, activity and the lease sweep, the circuit breaker
    and completion. *)

From S2P Require Import Prelude Text Models Store StoreFacts RoleContract Tasks Dag Cancellation Dispatch Gates Messages Runs Invariants CancelFacts Lifecycle TaskFacts.
From Stdlib Require Import ZArith Lia Ascii String.
From stdpp Require Import strings prelude.

Section WithEnv.
Context `{Env}.

Lemma dispatch_by_id_update db p f id :
  (∀ d, d_id (f d) = d_id d) →
  dispatch_by_id (set_dispatches (update_where p f (db_dispatches db)) db) id =
  (λ d, if p d then f d else d) <$> dispatch_by_id db id.
Proof. intros Hf. by apply find_update_where. Qed.

Lemma dispatch_by_id_frame db db' id :
  db_dispatches db' = db_dispatches db → dispatch_by_id db' id = dispatch_by_id db id.
Proof. unfold dispatch_by_id. by intros ->. Qed.

Lemma obsolete_queued dispatch_id ms m :
  m ∈ update_where (λ m, bool_decide (m_dispatch_id m = Some dispatch_id)
        && bool_decide (m_state m = St_Queued)) obsolete_message ms →
  m_dispatch_id m = Some dispatch_id → m_state m ≠ St_Queued.
Proof.
  intros (x & _ & ->)%elem_of_update_where.
  destruct (bool_decide (m_state x = St_Queued)) eqn:Es; split_bools.
  - destruct (bool_decide (m_dispatch_id x = Some dispatch_id)) eqn:Ed; [done|]. cbn. by split_bools.
  - by rewrite andb_false_r.
Qed.

(** ** The failure counter carried by a task *)

Lemma foldr_max_le (z : Z) zs : (z ≤ foldr Z.max z zs)%Z.
Proof. induction zs; cbn; lia. Qed.

Lemma foldr_max_in (z x : Z) zs : x ∈ zs → (x ≤ foldr Z.max z zs)%Z.
Proof. induction 1; cbn; lia. Qed.

Lemma carried_failures_ge db d :
  d ∈ db_dispatches db → (d_failure_count d ≤ carried_failures db (d_task_id d))%Z.
Proof.
  intros Hd. unfold carried_failures.
  assert (d_failure_count d ∈ d_failure_count <$>
    List.filter (λ x, String.eqb (d_task_id x) (d_task_id d)) (db_dispatches db)) as Hin.
  { apply list_elem_of_fmap_2. rewrite list_elem_of_In, filter_In, <-list_elem_of_In.
    by rewrite String.eqb_refl. }
  destruct (d_failure_count <$> _) as [|z zs]; [by apply not_elem_of_nil in Hin|].
  apply elem_of_cons in Hin as [->|Hin]; [apply foldr_max_le|by apply foldr_max_in].
Qed.

(** A new dispatch of a task starts with the failures its dispatches counted. *)
Lemma created_dispatch_carries task_id assignee run_id workspace_id coordinator token policy w w' d :
  create_scoped_orchestration_dispatch task_id assignee run_id workspace_id coordinator token policy w = (w', Ok d) →
  d_failure_count d = carried_failures (w_db w) task_id.
Proof.
  unfold create_scoped_orchestration_dispatch. intros Hm. inv_ok Hm. apply (proj1 (tx_ok _ _ _ _)) in Hstep. inv_ok Hstep. store_inv.
  destruct (task_status _ _) as [[]|]; try done. inv_ok Hstep. store_inv. destruct (find_where _ _); [done|].
  do 3 inv_ok Hstep. inv_ok Hstep. store_inv.
  match goal with Hc : create_run_dispatch ?nd _ = _ |- _ => apply create_run_dispatch_ok in Hc as (Hnew & w1 & Hev & ->) end.
  unfold dispatch_after, orchestration_dispatch_by_id in Hm. inv_ok Hm. store_inv.
  unfold dispatch_by_id in Hm. rewrite (events_only_dispatches _ _ Hev) in Hm. cbn [w_db with_db db_dispatches set_tasks set_dispatches] in Hm.
  rewrite find_where_snoc in Hm.
  - inv_ok Hm. reflexivity.
  - apply find_where_None. intros x Hx. apply String.eqb_neq. intros E. apply Hnew. change (id_of "ctx" (w_rng s0) ∈ d_id <$> db_dispatches (w_db s0)). rewrite <-E. by apply list_elem_of_fmap_2.
  - apply String.eqb_refl.
Qed.

(** ** Failing a dispatch *)

(** The rows [fail_orchestration_dispatch_with_result] writes. *)
Definition failed_dispatch (error : string) (ctx d : OrchestrationDispatchContext)
    : OrchestrationDispatchContext :=
  with_d_completed_at (Some now) (with_d_last_failure (Some error)
    (with_d_failure_count (d_failure_count ctx + 1)
      (with_d_status (if (3 <=? d_failure_count ctx + 1)%Z then Ds_CircuitBroken else Ds_Failed) d))).

Definition failed_task (broken : bool) (result : option string) (t : OrchestrationTask)
    : OrchestrationTask :=
  with_t_completed_at (if broken then Some now else None)
    (with_t_result (match result with Some _ => result | None => t_result t end)
      (with_t_status (if broken then Ts_Failed else Ts_Ready) t)).

Lemma failed_dispatch_allowed db error ctx d :
  dispatch_update_abort true db d (failed_dispatch error ctx d) = None.
Proof.
  dispatch_triggers. unfold failed_dispatch. cbn. bool_refl. cbn. rewrite !andb_false_r.
  by destruct (3 <=? _)%Z.
Qed.

Section Fail.
Context (error : string) (result : option string) (w : World) (ctx : OrchestrationDispatchContext).
Context (HI : Inv (w_db w)) (Hctx : ctx ∈ db_dispatches (w_db w)) (Hact : d_active ctx = true).
Context (t : OrchestrationTask) (Ht : task_by_id (w_db w) (d_task_id ctx) = Some t).
Context (Hpl : t_plan_revision t = None ∨ run_isolated (w_db w) (t_run_id t) = false).

Let broken := (3 <=? d_failure_count ctx + 1)%Z.
Let w1 := with_db (λ db, set_dispatches (update_where (λ d, String.eqb (d_id d) (d_id ctx))
  (failed_dispatch error ctx) (db_dispatches db)) db) w.
Let w2 := with_db (λ db, set_tasks (update_where (λ x, String.eqb (t_id x) (d_task_id ctx))
  (failed_task broken result) (db_tasks db)) db) w1.
Let w3 := with_db (λ db, set_messages (update_where (λ m, bool_decide (m_dispatch_id m = Some (d_id ctx))
  && bool_decide (m_state m = St_Queued)) obsolete_message (db_messages db)) db) w2.

Lemma fail_updates (k : SM unit) :
  (do! update_dispatches true (λ d, String.eqb (d_id d) (d_id ctx)) (failed_dispatch error ctx) in
   do! update_tasks false (λ x, String.eqb (t_id x) (d_task_id ctx)) (failed_task broken result) in
   do! obsolete_dispatch_messages (d_id ctx) in k) w = k w3.
Proof.
  rewrite (bind_ok _ _ _ _ _ (update_dispatches_success true _ _ w
    (λ d _ _, failed_dispatch_allowed _ error ctx d))).
  fold w1. rewrite (bind_ok _ _ w1 _ _ (update_tasks_success false
    (λ x, String.eqb (t_id x) (d_task_id ctx)) (failed_task broken result) w1 ltac:(
    intros x Hx He; apply task_update_allowed; [by split_and!|];
    rewrite (same_task (w_db w) _ t x HI Ht Hx He); by destruct Hpl; [left|right; left]))).
  done.
Qed.

Lemma fail_refresh :
  ∃ w4, (if broken then refresh_pending_dependents_after_task_status (d_task_id ctx) else ret tt) w3
          = (w4, Ok tt) ∧
    tasks_only (w_db w3) (w_db w4) ∧ w_rng w4 = w_rng w ∧
    task_by_id (w_db w4) (d_task_id ctx) = Some (failed_task broken result t) ∧
    (if broken then dependents_settled (d_task_id ctx) (w_db w) (w_db w4)
     else ∀ x, x ∈ db_tasks (w_db w) → t_id x ≠ d_task_id ctx → task_by_id (w_db w4) (t_id x) = Some x).
Proof.
  destruct (Bool.bool_dec broken true) as [Hb|Hb].
  - assert (settles Ts_Failed (failed_task true result)) as Hsf by (by intros x; split_and!).
    unfold w3, w2. rewrite Hb. fold w1. set (w3' := with_db _ _).
    destruct (refresh_pending_dependents_after_task_status (d_task_id ctx) w3') as [w4 r] eqn:Hrun.
    destruct (refresh_settled (w_db w) w3' w4 r (d_task_id ctx) Ts_Failed (failed_task true result))
      as (-> & Hp & Hdag); try done; [by right|].
    exists w4. split_and!; [done|by eapply refresh_tasks_only| | |].
    + by destruct Hp as (ts & -> & _).
    + by eapply (settled_task (w_db w)).
    + by eapply settled_dependents.
  - apply not_true_iff_false in Hb. exists w3. split_and!; [by rewrite Hb|reflexivity|done| |].
    + unfold task_by_id, w3, w2, w1. frame_cbn. rewrite find_update_where by done.
      unfold task_by_id in Ht. rewrite Ht. apply find_key_Some in Ht as [_ Hid]. cbn.
      by rewrite Hid, String.eqb_refl.
    + rewrite Hb. intros x Hx Hne. unfold task_by_id, w3, w2, w1. frame_cbn.
      rewrite find_update_where by done.
      pose proof (task_by_id_elem _ _ (inv_task_ids _ HI) Hx) as Hfx. unfold task_by_id in Hfx.
      rewrite Hfx. cbn. by rewrite (proj2 (String.eqb_neq _ _)).
Qed.

Lemma dispatch_by_id_ctx : dispatch_by_id (w_db w) (d_id ctx) = Some ctx.
Proof. apply find_key_elem; [apply HI|done]. Qed.

Lemma fail_tx (w' : World) :
  (do! (if broken then refresh_pending_dependents_after_task_status (d_task_id ctx) else ret tt) in
   record_dispatch_run_event (d_id ctx) Ev_TaskFailed error
     (Some (JObject [("willRetry", JBool (negb broken))]))) w3 = (w', Ok tt) →
  fail_orchestration_dispatch_with_result (d_id ctx) error result w =
  dispatch_after (d_id ctx) ("dispatch context not found after update: " +:+ d_id ctx) w'.
Proof.
  intros Hrun. unfold fail_orchestration_dispatch_with_result, orchestration_dispatch_by_id.
  rewrite (bind_ok _ _ w w' tt); [done|]. apply tx_run. rewrite bind_select, dispatch_by_id_ctx.
  rewrite <-Hrun, <-fail_updates. cbn zeta.
  unfold failed_dispatch, failed_task, ORCHESTRATION_CIRCUIT_BREAKER_THRESHOLD. fold broken.
  by destruct broken.
Qed.
End Fail.

(** ** Completing a dispatch *)

Definition completed_dispatch (sha : option string) (d : OrchestrationDispatchContext)
    : OrchestrationDispatchContext :=
  with_d_completion_sha sha (with_d_last_activity_at (Some now)
    (with_d_completed_at (Some now) (with_d_status Ds_Completed d))).

Definition completed_task (result : string) (t : OrchestrationTask) : OrchestrationTask :=
  with_t_completed_at (Some now) (with_t_result (Some result) (with_t_status Ts_Completed t)).

Lemma completed_task_allowed db result t : task_update_abort false db t (completed_task result t) = None.
Proof. task_triggers. cbn. bool_refl. cbn. by rewrite !andb_false_r. Qed.

Lemma completed_dispatch_allowed db sha d :
  d_completion_sha d = None → has_launch db (d_id d) = bool_decide (is_Some sha) →
  dispatch_update_abort true db d (completed_dispatch sha d) = None.
Proof.
  intros Hn Hl. dispatch_triggers. cbn. rewrite Hl, Hn. bool_refl. cbn.
  rewrite !andb_false_r. by destruct sha.
Qed.

Lemma has_launch_frame db db' id : db_launches db' = db_launches db → has_launch db' id = has_launch db id.
Proof. unfold has_launch. by intros ->. Qed.

Lemma clear_attention_total (b : bool) id w :
  ∃ w' ls, (if b then clear_resolved_workflow_launch_attention id else ret tt) w = (w', Ok tt) ∧
    w' = with_db (set_launches ls) w ∧ ∀ i, has_launch (w_db w') i = has_launch (w_db w) i.
Proof.
  destruct b.
  - eexists _, _. split; [reflexivity|]. split; [reflexivity|]. intros i. unfold has_launch. cbn.
    induction (db_launches (w_db w)) as [|l ls IH]; cbn [existsb]; [done|].
    change (update_where ?p ?f (l :: ls)) with ((if p l then f l else l) :: update_where p f ls).
    cbn [existsb]. rewrite IH. by destruct (_ && _).
  - exists w, (db_launches (w_db w)). split_and!; [done|by destruct w as [[] ?]|done].
Qed.

Lemma record_completion_fresh ctx assignee sha w n :
  marker_fits → events_fresh w (S n) →
  ∃ w', record_completion_event ctx assignee sha w = (w', Ok tt) ∧ events_only w w' ∧ w_rng w ≤ w_rng w'.
Proof.
  intros Hm Hf. unfold record_completion_event. destruct (d_run_id ctx) as [run_id|].
  - rewrite bind_select. cbn zeta. match goal with |- context [record_run_event ?ev] =>
      pose proof (record_run_event_success ev w Hm (events_fresh_head w n Hf)) as Hr end.
    rewrite (bind_ok _ _ _ _ _ Hr). eexists. split_and!; [done|by eapply record_run_event_frame|cbn; lia].
  - exists w. split_and!; [done|reflexivity|done].
Qed.

Section Complete.
Context `{ContractLib} (assignee result : string) (sha : option string) (w : World).
Context (ctx : OrchestrationDispatchContext) (t : OrchestrationTask).
Context (HI : Inv (w_db w)) (Hctx : ctx ∈ db_dispatches (w_db w)).
Context (Hst : d_status ctx = Ds_Dispatched ∨ d_status ctx = Ds_Stalled).
Context (Has : d_assignee_handle ctx = Some assignee) (Hsha : d_completion_sha ctx = None).
Context (Hlaunch : has_launch (w_db w) (d_id ctx) = bool_decide (is_Some sha)).
Context (Ht : task_by_id (w_db w) (d_task_id ctx) = Some t).
Context (Hev : ∀ raw, t_role_contract t = Some raw →
  ∃ c, snapshot_decode raw = Some c ∧ validate_success_result c result = Ok tt).
Context (Hm : marker_fits) (Hf : events_fresh w 1).

Let w1 := with_db (λ db, set_dispatches (update_where (λ d, String.eqb (d_id d) (d_id ctx))
  (completed_dispatch sha) (db_dispatches db)) db) w.
Let w2 := with_db (λ db, set_tasks (update_where (λ x, String.eqb (t_id x) (d_task_id ctx))
  (completed_task result) (db_tasks db)) db) w1.

Lemma complete_validates : validate_task_contract_completion (d_task_id ctx) result w = (w, Ok tt).
Proof.
  unfold validate_task_contract_completion, orchestration_task_by_id. rewrite bind_select, Ht.
  destruct (t_role_contract t) as [raw|]; [|done]. destruct (Hev raw eq_refl) as (c & Hc & Hv).
  by rewrite Hc, Hv.
Qed.

Lemma complete_updates {A} (k : SM A) :
  (do! update_dispatches true (λ d, String.eqb (d_id d) (d_id ctx)) (completed_dispatch sha) in
   do! update_tasks false (λ x, String.eqb (t_id x) (d_task_id ctx)) (completed_task result) in k) w = k w2.
Proof.
  rewrite (bind_ok _ _ _ _ _ (update_dispatches_success true
    (λ d, String.eqb (d_id d) (d_id ctx)) (completed_dispatch sha) w ltac:(
    intros d Hd He%String.eqb_eq;
    rewrite (NoDup_key_inj d_id _ d ctx (inv_dispatch_ids _ HI) Hd Hctx He);
    by apply completed_dispatch_allowed))).
  fold w1. by rewrite (bind_ok _ _ w1 _ _ (update_tasks_success false
    (λ x, String.eqb (t_id x) (d_task_id ctx)) (completed_task result) w1
    (λ x _ _, completed_task_allowed _ result x))).
Qed.

(** What the rest of the transaction leaves. *)
Lemma complete_rest :
  ∃ w3 w4 w5,
    (if bool_decide (is_Some sha) then clear_resolved_workflow_launch_attention (d_id ctx) else ret tt) w2
      = (w3, Ok tt) ∧
    record_completion_event ctx assignee sha w3 = (w4, Ok tt) ∧
    refresh_pending_dependents_after_task_status (d_task_id ctx) w4 = (w5, Ok tt) ∧
    db_dispatches (w_db w5) = db_dispatches (w_db w1) ∧
    (∀ i, has_launch (w_db w5) i = has_launch (w_db w) i) ∧
    task_by_id (w_db w5) (d_task_id ctx) = Some (completed_task result t) ∧
    dependents_settled (d_task_id ctx) (w_db w) (w_db w5).
Proof.
  destruct (clear_attention_total (bool_decide (is_Some sha)) (d_id ctx) w2)
    as (w3 & ls & Hw3 & E3 & Hl3).
  destruct (record_completion_fresh ctx assignee sha w3 0 Hm) as (w4 & Hw4 & Heo & _); [by subst w3|].
  destruct (refresh_pending_dependents_after_task_status (d_task_id ctx) w4) as [w5 r] eqn:Hrun.
  assert (db_tasks (w_db w4) = update_where (λ x, String.eqb (t_id x) (d_task_id ctx))
            (completed_task result) (db_tasks (w_db w))) as Ht4 by (frame_rewrite; by subst w3).
  assert (db_runs (w_db w4) = db_runs (w_db w)) as Hr4 by (frame_rewrite; by subst w3).
  assert (settles Ts_Completed (completed_task result)) as Hsf by (by intros x; split_and!).
  destruct (refresh_settled (w_db w) w4 w5 r (d_task_id ctx) Ts_Completed (completed_task result))
    as (-> & Hp & Hdag); try done; [by left|].
  exists w3, w4, w5. split_and!; try done.
  - destruct (refresh_tasks_only _ _ _ _ Hrun) as [ts ->]. frame_rewrite. by subst w3.
  - intros i. rewrite <-(Hl3 i : _ = has_launch (w_db w) i).
    apply has_launch_frame. destruct (refresh_tasks_only _ _ _ _ Hrun) as [ts ->]. by frame_rewrite.
  - by eapply (settled_task (w_db w)).
  - by eapply settled_dependents.
Qed.
End Complete.

(** Completing a completed dispatch again with the same assignee and SHA. *)
Lemma complete_again `{ContractLib} dispatch_id assignee result sha w d t :
  dispatch_by_id (w_db w) dispatch_id = Some d → d_status d = Ds_Completed →
  d_assignee_handle d = Some assignee → d_completion_sha d = sha →
  has_launch (w_db w) dispatch_id = bool_decide (is_Some sha) →
  task_by_id (w_db w) (d_task_id d) = Some t → t_status t = Ts_Completed →
  ∃ w', complete_orchestration_dispatch_at_sha dispatch_id assignee result sha w = (w', Ok d) ∧
    db_tasks (w_db w') = db_tasks (w_db w) ∧ db_dispatches (w_db w') = db_dispatches (w_db w) ∧
    db_messages (w_db w') = db_messages (w_db w).
Proof.
  intros Hd Hs Ha Hsha Hl Ht Hts.
  destruct (clear_attention_total (bool_decide (is_Some sha)) dispatch_id w) as (w' & ls & Hw' & E & _).
  exists w'. split; [|by subst w'].
  unfold complete_orchestration_dispatch_at_sha, orchestration_dispatch_by_id.
  rewrite (bind_ok _ _ w w' (Some d)); [done|]. apply tx_run.
  rewrite bind_select, Hd. rewrite bind_select, Hl, eqb_reflx, Hs, Ha, Hsha. cbn [negb].
  bool_refl. cbn [negb]. rewrite bind_select. unfold task_status. rewrite Ht.
  cbn [fmap option_fmap option_map]. rewrite Hts. bool_refl. cbn [negb].
  by rewrite (bind_ok _ _ _ _ _ Hw').
Qed.

(** ** Claims *)

(** [C15] The circuit breaker of a task that is not part of an isolated run's plan.
    Failing an active dispatch closes it, adds one to its failure count and makes
    its queued messages obsolete.  Before the third failure the task returns to
    ready and nothing else moves; the third breaks the circuit: the task fails and
    every task waiting on it settles.  Every dispatch created for the task later,
    while the failed one is recorded, starts with at least that count. *)
Theorem circuit_breaker (dispatch_id error : string) (result : option string) (w : World)
    (ctx : OrchestrationDispatchContext) (t : OrchestrationTask) :
  Inv (w_db w) → dispatch_by_id (w_db w) dispatch_id = Some ctx → d_active ctx = true →
  task_by_id (w_db w) (d_task_id ctx) = Some t →
  t_plan_revision t = None ∨ run_isolated (w_db w) (t_run_id t) = false →
  marker_fits → events_fresh w 1 →
  let broken := (2 <=? d_failure_count ctx)%Z in
  ∃ w' d', fail_orchestration_dispatch_with_result dispatch_id error result w = (w', Ok d') ∧
    d_failure_count d' = (d_failure_count ctx + 1)%Z ∧ d_last_failure d' = Some error ∧
    d_status d' = (if broken then Ds_CircuitBroken else Ds_Failed) ∧
    task_status (w_db w') (d_task_id ctx) = Some (if broken then Ts_Failed else Ts_Ready) ∧
    d' ∈ db_dispatches (w_db w') ∧
    (∀ w2 w3 assignee run_id workspace_id coordinator token policy d2, d' ∈ db_dispatches (w_db w2) →
       create_scoped_orchestration_dispatch (d_task_id ctx) assignee run_id workspace_id coordinator token policy w2 = (w3, Ok d2) →
       (d_failure_count ctx + 1 ≤ d_failure_count d2)%Z) ∧
    (∀ m, m ∈ db_messages (w_db w') → m_dispatch_id m = Some dispatch_id → m_state m ≠ St_Queued) ∧
    (if broken then dependents_settled (d_task_id ctx) (w_db w) (w_db w')
     else ∀ x, x ∈ db_tasks (w_db w) → t_id x ≠ d_task_id ctx → task_by_id (w_db w') (t_id x) = Some x).
Proof.
  intros HI [Hctx <-]%dispatch_by_id_Some Hact Ht Hpl Hm Hf broken.
  destruct (fail_refresh error result w ctx HI t Ht) as (w4 & Hrun & Honly & Hrng & Ht4 & Hrest).
  destruct Honly as [ts Hts].
  assert (events_fresh w4 1) as Hf4 by (unfold events_fresh; rewrite Hrng, Hts; exact Hf).
  destruct (record_dispatch_run_event_fresh (d_id ctx) Ev_TaskFailed error
    (Some (JObject [("willRetry", JBool (negb (3 <=? d_failure_count ctx + 1)%Z))])) w4 0 Hm Hf4)
    as (w5 & Hrec & Hev & _).
  assert (broken = (3 <=? d_failure_count ctx + 1)%Z) as Hb.
  { unfold broken. destruct (Z.leb_spec 2 (d_failure_count ctx)), (Z.leb_spec 3 (d_failure_count ctx + 1)); lia. }
  assert (dispatch_by_id (w_db w5) (d_id ctx) = Some (failed_dispatch error ctx ctx)) as Hd5.
  { unfold dispatch_by_id. frame_rewrite. rewrite Hts. frame_cbn. rewrite find_update_where by done.
    pose proof (dispatch_by_id_ctx w ctx HI Hctx) as Hd. unfold dispatch_by_id in Hd. rewrite Hd. cbn.
    by rewrite String.eqb_refl. }
  exists w5, (failed_dispatch error ctx ctx). rewrite Hb. split_and!; try done.
  - rewrite (fail_tx error result w ctx HI Hctx t Ht Hpl w5).
    + unfold dispatch_after, orchestration_dispatch_by_id. by rewrite bind_select, Hd5.
    + by rewrite (bind_ok _ _ _ _ _ Hrun).
  - unfold task_status. rewrite (task_by_id_frame (w_db w4)) by (by frame_rewrite). by rewrite Ht4.
  - by apply dispatch_by_id_Some in Hd5 as [Hin5 _].
  - intros w2 w3 assignee run_id workspace_id coordinator token policy d2 Hin ->%created_dispatch_carries.
    apply carried_failures_ge in Hin. exact Hin.
  - intros m. frame_rewrite. rewrite Hts. frame_cbn. apply obsolete_queued.
  - destruct (3 <=? _)%Z.
    + eapply dependents_settled_frame; [|exact Hrest]. by frame_rewrite.
    + intros x Hx Hne. rewrite (task_by_id_frame (w_db w4)) by (by frame_rewrite). by apply Hrest.
Qed.

(** [C14] Completion.  A running (or stalled) dispatch completed by its assignee,
    with the result SHA exactly when it is a workflow dispatch and with a result
    its contract accepts, closes the dispatch, completes the task with the
    result, settles every task waiting on it and makes the dispatch's queued
    messages obsolete.  Repeating the completion changes no task, dispatch or
    message and returns the same dispatch. *)
Theorem completion_settles `{ContractLib} (dispatch_id assignee result : string) (sha : option string)
    (w : World) (ctx : OrchestrationDispatchContext) (t : OrchestrationTask) :
  Inv (w_db w) → dispatch_by_id (w_db w) dispatch_id = Some ctx →
  d_status ctx = Ds_Dispatched ∨ d_status ctx = Ds_Stalled →
  d_assignee_handle ctx = Some assignee → d_completion_sha ctx = None →
  has_launch (w_db w) dispatch_id = bool_decide (is_Some sha) →
  task_by_id (w_db w) (d_task_id ctx) = Some t →
  (∀ raw, t_role_contract t = Some raw →
     ∃ c, snapshot_decode raw = Some c ∧ validate_success_result c result = Ok tt) →
  marker_fits → events_fresh w 1 →
  ∃ w' d', complete_orchestration_dispatch_at_sha dispatch_id assignee result sha w = (w', Ok d') ∧
    d_status d' = Ds_Completed ∧ d_completion_sha d' = sha ∧
    task_by_id (w_db w') (d_task_id ctx) = Some (completed_task result t) ∧
    dependents_settled (d_task_id ctx) (w_db w) (w_db w') ∧
    (∀ m, m ∈ db_messages (w_db w') → m_dispatch_id m = Some dispatch_id → m_state m ≠ St_Queued) ∧
    (∃ w'', complete_orchestration_dispatch_at_sha dispatch_id assignee result sha w' = (w'', Ok d') ∧
       db_tasks (w_db w'') = db_tasks (w_db w') ∧ db_dispatches (w_db w'') = db_dispatches (w_db w') ∧
       db_messages (w_db w'') = db_messages (w_db w')).
Proof.
  intros HI Hd Hst Has Hsha Hlaunch Ht Hev Hm Hf. pose proof Hd as [Hctx Hid]%dispatch_by_id_Some.
  rewrite <-Hid in Hlaunch.
  destruct (complete_rest assignee result sha w ctx t)
    as (w3 & w4 & w5 & Hw3 & Hw4 & Hw5 & Hd5 & Hl5 & Ht5 & Hdep); try done.
  set (w6 := with_db (λ db, set_messages (update_where (λ m, bool_decide (m_dispatch_id m = Some (d_id ctx))
    && bool_decide (m_state m = St_Queued)) obsolete_message (db_messages db)) db) w5).
  assert (dispatch_by_id (w_db w6) dispatch_id = Some (completed_dispatch sha ctx)) as Hd6.
  { unfold dispatch_by_id, w6. frame_cbn. rewrite Hd5. frame_cbn. rewrite find_update_where by done.
    unfold dispatch_by_id in Hd. rewrite Hd. cbn. by rewrite String.eqb_refl. }
  assert (has_launch (w_db w6) dispatch_id = bool_decide (is_Some sha)) as Hl6.
  { by rewrite <-Hlaunch, Hid, <-Hl5. }
  exists w6, (completed_dispatch sha ctx). split_and!; try done.
  - unfold complete_orchestration_dispatch_at_sha, orchestration_dispatch_by_id.
    rewrite (bind_ok _ _ w w6 None).
    { unfold dispatch_after, orchestration_dispatch_by_id. by rewrite bind_select, Hd6. }
    apply tx_run. rewrite bind_select, Hd. rewrite bind_select, <-Hid, Hlaunch, eqb_reflx. cbn [negb].
    rewrite (bool_decide_false (d_status ctx = Ds_Completed)) by (destruct Hst; congruence).
    assert (negb (bool_decide (d_status ctx = Ds_Dispatched) || bool_decide (d_status ctx = Ds_Stalled))
      || negb (bool_decide (d_assignee_handle ctx = Some assignee)) = false) as ->.
    { rewrite (bool_decide_true (d_assignee_handle ctx = _)) by done. destruct Hst as [->| ->]; done. }
    rewrite (bind_ok _ _ _ _ _ (complete_validates result w ctx t Ht Hev)).
    etrans; [by apply (complete_updates result sha w ctx)|].
    by rewrite (bind_ok _ _ _ _ _ Hw3), (bind_ok _ _ _ _ _ Hw4), (bind_ok _ _ _ _ _ Hw5).
  - by apply (dependents_settled_frame _ _ (w_db w5)).
  - intros m. unfold w6. frame_cbn. rewrite <-Hid. apply obsolete_queued.
  - by apply (complete_again dispatch_id assignee result sha w6 (completed_dispatch sha ctx)
      (completed_task result t)).
Qed.
End WithEnv.
