(* ===== verification/Atomicity.v ===== *)
(** * Atomicity: an operation that reports an error changed nothing

    The operations that settle tasks and dispatches write inside one
    transaction and read the row back after the commit.  An error inside the
    transaction rolls back; here we show that the read after the commit never
    fails, so an error always means that the database is unchanged. *)

From S2P Require Import Prelude Text Models Store StoreFacts RoleContract Tasks Dag Cancellation Dispatch Gates Messages Runs.
From Stdlib Require Import ZArith Lia Ascii String.
From stdpp Require Import strings prelude.

Section WithEnv.
Context `{Env}.

(** Task and dispatch rows neither appear nor disappear. *)
Abbreviation ids_kept := (λ db db' : Db,
  t_id <$> db_tasks db' = t_id <$> db_tasks db ∧ d_id <$> db_dispatches db' = d_id <$> db_dispatches db).

#[local] Instance ids_kept_refl : Reflexive ids_kept.
Proof. by intros db. Qed.
#[local] Instance ids_kept_trans : Transitive ids_kept.
Proof. intros db1 db2 db3 [H1 H2] [H3 H4]. split; congruence. Qed.

Lemma ids_update_tasks sr p f : (∀ t, t_id (f t) = t_id t) → respects ids_kept (update_tasks sr p f).
Proof.
  intros Hf w w' r [->| ->]%update_tasks_any; [done|]. cbn. split; [|done].
  by rewrite fmap_update_where.
Qed.
Lemma ids_update_dispatches ss p f :
  (∀ d, d_id (f d) = d_id d) → respects ids_kept (update_dispatches ss p f).
Proof.
  intros Hf w w' r. unfold update_dispatches. case_match; intros [= <- _]; [done|]. cbn.
  split; [done|]. by rewrite fmap_update_where.
Qed.
Lemma ids_update_messages p f : respects ids_kept (update_messages p f).
Proof. by intros w w' r [= <- _]. Qed.
Lemma ids_update_gates p f : respects ids_kept (update_gates p f).
Proof. by intros w w' r [= <- _]. Qed.
Lemma ids_update_launches p f : respects ids_kept (update_launches p f).
Proof. by intros w w' r [= <- _]. Qed.
Lemma ids_events w w' : events_only w w' → ids_kept (w_db w) (w_db w').
Proof. by intros (evs & seq & ->). Qed.
Lemma ids_run_event ev : respects ids_kept (record_run_event ev).
Proof. intros w w' r Hr%record_run_event_frame. by apply ids_events. Qed.
Lemma ids_dispatch_event id k s p : respects ids_kept (record_dispatch_run_event id k s p).
Proof. intros w w' r Hr%record_dispatch_run_event_frame. by apply ids_events. Qed.
Lemma ids_task_event id k s p : respects ids_kept (record_task_run_event id k s p).
Proof. intros w w' r Hr%record_task_run_event_frame. by apply ids_events. Qed.
Lemma ids_lift {A} (r : Result A) : respects ids_kept (lift_result r).
Proof. destruct r; by intros w w' r [= <- _]. Qed.

Ltac ids :=
  repeat first
    [ apply (respects_ret ids_kept) | apply (respects_fail ids_kept) | apply (respects_bail ids_kept)
    | apply (respects_select ids_kept) | apply (respects_get_db ids_kept) | apply (respects_id ids_kept)
    | apply ids_update_messages | apply ids_update_gates | apply ids_update_launches
    | apply ids_run_event | apply ids_dispatch_event | apply ids_task_event | apply ids_lift
    | apply ids_update_tasks; intros ?; reflexivity
    | apply ids_update_dispatches; intros ?; reflexivity
    | apply (respects_tx ids_kept) | apply (respects_mapM ids_kept); intros ?
    | apply (respects_bind ids_kept); [|intros ?]
    | apply (respects_if ids_kept) | apply (respects_option ids_kept); [intros ?|]
    | progress cbn beta | exact ids_kept_refl | exact ids_kept_trans ].

Lemma ids_refresh_rows c rows stack : respects ids_kept (refresh_rows c rows stack).
Proof.
  revert stack. induction rows as [|row rows IH]; intros stack; cbn [refresh_rows]; ids; try apply IH.
  destruct (status_for_deps a (t_deps row)) as [[]|]; ids; apply IH.
Qed.
Lemma ids_refresh fuel stack : respects ids_kept (refresh_loop fuel stack).
Proof.
  revert stack. induction fuel as [|fuel IH]; intros [|c stack]; cbn [refresh_loop]; ids;
    [apply ids_refresh_rows|apply IH].
Qed.

(** ** Reading back *)

Lemma find_ids {A} (key : A → string) (l l' : list A) k :
  key <$> l' = key <$> l → is_Some (find_where (λ x, String.eqb (key x) k) l) →
  is_Some (find_where (λ x, String.eqb (key x) k) l').
Proof.
  intros Hk [x [Hx <-]%find_key_Some]. assert (key x ∈ (key <$> l')) as Hin.
  { rewrite Hk. by apply list_elem_of_fmap_2. }
  apply list_elem_of_fmap in Hin as (y & Hy & Hin). rewrite Hy. unfold is_Some.
  eapply find_where_is_Some; [done|]. by apply String.eqb_refl.
Qed.

(** A transaction that keeps the rows, and a read of a row it looked up first. *)
Lemma atomic_task {A} (m : SM A) id msg w w' e :
  respects ids_kept m → (∀ w1 a, m w = (w1, Ok a) → is_Some (task_by_id (w_db w) id)) →
  (do! tx m in task_after id msg) w = (w', Err e) → w_db w' = w_db w.
Proof.
  intros Hids Hex. unfold bind at 1, tx. destruct (m w) as [w1 [a|e']] eqn:Em.
  - apply Hids in Em as Hk. destruct Hk as [Hk _].
    pose proof (find_ids t_id _ _ id Hk (Hex _ _ eq_refl)) as [t Ht].
    unfold task_after, orchestration_task_by_id. rewrite bind_select. unfold task_by_id. by rewrite Ht.
  - by intros [= <- _].
Qed.

Lemma atomic_dispatch {A} (m : SM A) id msg w w' e (k : A → option OrchestrationDispatchContext) :
  respects ids_kept m → (∀ w1 a, m w = (w1, Ok a) → is_Some (dispatch_by_id (w_db w) id)) →
  (let! a := tx m in match k a with Some ctx => ret ctx | None => dispatch_after id msg end) w
    = (w', Err e) → w_db w' = w_db w.
Proof.
  intros Hids Hex. unfold bind at 1, tx. destruct (m w) as [w1 [a|e']] eqn:Em.
  - apply Hids in Em as Hk. destruct Hk as [_ Hk].
    pose proof (find_ids d_id _ _ id Hk (Hex _ _ eq_refl)) as [d Hd].
    destruct (k a); [done|].
    unfold dispatch_after, orchestration_dispatch_by_id. rewrite bind_select. unfold dispatch_by_id. by rewrite Hd.
  - by intros [= <- _].
Qed.

Lemma atomic_status id status result w w' e :
  update_orchestration_task_status id status result w = (w', Err e) → w_db w' = w_db w.
Proof.
  apply atomic_task.
  - unfold orchestration_task_by_id, guard_contract_status_update. ids; apply ids_refresh.
  - unfold orchestration_task_by_id. intros w1 a. rewrite bind_select. by destruct (task_by_id _ _).
Qed.

Lemma atomic_cancel id reason w w' e :
  cancel_orchestration_task id reason w = (w', Err e) → w_db w' = w_db w.
Proof.
  apply atomic_task.
  - unfold cancel_one. ids; repeat case_match; ids.
  - intros w1 a. rewrite bind_select. unfold task_status. by destruct (task_by_id _ _).
Qed.

Lemma atomic_startup id error w w' e :
  fail_orchestration_startup id error w = (w', Err e) → w_db w' = w_db w.
Proof.
  apply (atomic_dispatch _ id _ w w' e (λ a, a)).
  - unfold orchestration_dispatch_by_id. ids.
  - unfold orchestration_dispatch_by_id. intros w1 a. rewrite bind_select. by destruct (dispatch_by_id _ _).
Qed.

Lemma atomic_fail id error result w w' e :
  fail_orchestration_dispatch_with_result id error result w = (w', Err e) → w_db w' = w_db w.
Proof.
  apply (atomic_dispatch _ id _ w w' e (λ _, None)).
  - unfold orchestration_dispatch_by_id, obsolete_dispatch_messages. ids; apply ids_refresh.
  - unfold orchestration_dispatch_by_id. intros w1 a. rewrite bind_select. by destruct (dispatch_by_id _ _).
Qed.

Lemma atomic_accept id assignee token w w' e :
  accept_orchestration_dispatch id assignee token w = (w', Err e) → w_db w' = w_db w.
Proof.
  apply (atomic_dispatch _ id _ w w' e (λ _, None)).
  - ids.
  - intros w1 a. rewrite bind_select. intros Hm. inv_ok Hm. store_inv.
    destruct (Nat.eqb_spec (count_where
      (λ d, String.eqb (d_id d) id && bool_decide (d_assignee_handle d = Some assignee)
            && (bool_decide (d_context_token_hash d = Some token)
                || bool_decide (d_context_token_hash d = None))
            && (bool_decide (d_status d = Ds_AwaitingAcceptance)
                || bool_decide (d_status d = Ds_Dispatched))) (db_dispatches (w_db w))) 0) as [|Hne]; [done|].
    apply Nat.neq_0_lt_0, count_where_pos in Hne as (d & Hd & Hp). split_bools.
    eapply find_where_is_Some; eauto.
Qed.

Lemma atomic_complete `{ContractLib} id assignee result sha w w' e :
  complete_orchestration_dispatch_at_sha id assignee result sha w = (w', Err e) → w_db w' = w_db w.
Proof.
  apply (atomic_dispatch _ id _ w w' e (λ a, a)).
  - unfold orchestration_dispatch_by_id, validate_task_contract_completion, orchestration_task_by_id,
      clear_resolved_workflow_launch_attention, record_completion_event, obsolete_dispatch_messages.
    ids; apply ids_refresh.
  - unfold orchestration_dispatch_by_id. intros w1 a. rewrite bind_select. by destruct (dispatch_by_id _ _).
Qed.

(** ** Claims *)

(** [C37] An operation that settles a task or a dispatch and reports an error left
    every table as it found it: status updates, cancellations, acceptances,
    startup failures, failures and completions are all or nothing. *)
Theorem settling_operations_are_atomic `{ContractLib} (w w' : World) (e : Error) :
  (∀ id status result,
     update_orchestration_task_status id status result w = (w', Err e) → w_db w' = w_db w) ∧
  (∀ id reason, cancel_orchestration_task id reason w = (w', Err e) → w_db w' = w_db w) ∧
  (∀ id assignee token,
     accept_orchestration_dispatch id assignee token w = (w', Err e) → w_db w' = w_db w) ∧
  (∀ id error, fail_orchestration_startup id error w = (w', Err e) → w_db w' = w_db w) ∧
  (∀ id error result,
     fail_orchestration_dispatch_with_result id error result w = (w', Err e) → w_db w' = w_db w) ∧
  (∀ id assignee result sha,
     complete_orchestration_dispatch_at_sha id assignee result sha w = (w', Err e) → w_db w' = w_db w).
Proof.
  split_and!; eauto using atomic_status, atomic_cancel, atomic_accept, atomic_startup, atomic_fail,
    atomic_complete.
Qed.
End WithEnv.
