(* ===== verification/LeaseFacts.v ===== *)
(** * LeaseFacts: leases and activity

    Functional correctness of the lease operations of Dispatch.v and of the
    stall operations of Gates.v: acceptance, recorded activity and revival, the
    sweep that stalls silent workers, and "keep waiting". *)

From S2P Require Import Prelude Text Models Store StoreFacts RoleContract Tasks Dag Cancellation Dispatch Gates Messages Runs Invariants CancelFacts Lifecycle TaskFacts DispatchFacts.
From Stdlib Require Import ZArith Lia Ascii String.
From stdpp Require Import strings prelude.

Section WithEnv.
Context `{Env}.

(** ** The sweep *)

Definition stalled_task (t : OrchestrationTask) : OrchestrationTask :=
  with_t_stalled_at (Some now) (with_t_status Ts_Stalled t).

(** The tables after the leases of [L] were swept; the timeline apart. *)
Definition sweep_effect (L : list OrchestrationDispatchContext) (db db' : Db) : Prop :=
  db_dispatches db' = update_where (λ d, bool_decide (d_id d ∈ d_id <$> L)
    && bool_decide (d_status d = Ds_Dispatched)) (with_d_status Ds_Stalled) (db_dispatches db) ∧
  db_tasks db' = update_where (λ t, bool_decide (t_id t ∈ d_task_id <$> L)) stalled_task (db_tasks db) ∧
  db_messages db' = db_messages db ∧ db_gates db' = db_gates db ∧ db_runs db' = db_runs db.

Lemma update_where_compose {A} (p q pq : A → bool) (f g fg : A → A) (l : list A) :
  (∀ x, (if q (if p x then f x else x) then g (if p x then f x else x) else if p x then f x else x)
        = if pq x then fg x else x) →
  update_where q g (update_where p f l) = update_where pq fg l.
Proof. intros Hx. unfold update_where. rewrite <-list_fmap_compose. apply list_fmap_ext. intros i x _. apply Hx. Qed.

Lemma stall_one_ok ctx w w' u :
  stall_one ctx w = (w', Ok u) → sweep_effect [ctx] (w_db w) (w_db w').
Proof.
  unfold stall_one. intros Hm. apply (proj1 (tx_ok _ _ _ _)) in Hm. repeat inv_ok Hm. store_inv.
  unfold sweep_effect. frame_rewrite. split_and!; try done.
  - apply list_fmap_ext. intros i d _. cbn [fmap list_fmap]. by rewrite bool_decide_singleton.
  - apply list_fmap_ext. intros i t _. cbn [fmap list_fmap]. by rewrite bool_decide_singleton.
Qed.

Lemma sweep_effect_nil db : sweep_effect [] db db.
Proof. unfold sweep_effect. split_and!; try done; symmetry; by apply update_where_none. Qed.

Lemma sweep_effect_cons ctx L db1 db2 db3 :
  sweep_effect [ctx] db1 db2 → sweep_effect L db2 db3 → sweep_effect (ctx :: L) db1 db3.
Proof.
  intros (D1 & T1 & M1 & G1 & R1) (D2 & T2 & M2 & G2 & R2). unfold sweep_effect.
  rewrite D2, D1, T2, T1. split_and!; try congruence.
  - apply update_where_compose. intros d. cbn [fmap list_fmap].
    rewrite (bool_decide_ext (d_id d ∈ d_id ctx :: (d_id <$> L)) (d_id d ∈ [d_id ctx] ∨ d_id d ∈ (d_id <$> L)))
      by set_solver.
    rewrite bool_decide_or. destruct (bool_decide (d_status d = Ds_Dispatched)) eqn:Es;
      rewrite ?andb_true_r, ?andb_false_r; cbn.
    + destruct (bool_decide (d_id d ∈ [d_id ctx])); cbn; [|by rewrite Es, andb_true_r].
      by rewrite andb_false_r.
    + by rewrite Es, andb_false_r.
  - apply update_where_compose. intros t. cbn [fmap list_fmap].
    rewrite (bool_decide_ext (t_id t ∈ d_task_id ctx :: (d_task_id <$> L))
      (t_id t ∈ [d_task_id ctx] ∨ t_id t ∈ (d_task_id <$> L))) by set_solver.
    rewrite bool_decide_or.
    destruct (bool_decide (t_id t ∈ [d_task_id ctx])); cbn; [|done].
    by destruct (bool_decide (t_id t ∈ _)).
Qed.

Lemma sweep_ok L w w' u : mapM_ stall_one L w = (w', Ok u) → sweep_effect L (w_db w) (w_db w').
Proof.
  revert w. induction L as [|ctx L IH]; cbn; intros w Hm.
  - inv_ok Hm. apply sweep_effect_nil.
  - inv_ok Hm. eapply sweep_effect_cons; [by eapply stall_one_ok|by apply IH].
Qed.

Lemma stall_task_allowed db t : t_status t ≠ Ts_Completed → task_update_abort false db t (stalled_task t) = None.
Proof.
  intros Hs. task_triggers. cbn. bool_refl. cbn. rewrite !andb_false_r.
  by rewrite (bool_decide_false (t_status t = Ts_Completed)).
Qed.

Lemma stall_dispatch_allowed db d :
  dispatch_update_abort true db d (with_d_status Ds_Stalled d) = None.
Proof. dispatch_triggers. cbn. bool_refl. cbn. by rewrite !andb_false_r. Qed.

Lemma stall_one_total ctx w n :
  Inv (w_db w) → (∀ t, task_by_id (w_db w) (d_task_id ctx) = Some t → t_status t ≠ Ts_Completed) →
  marker_fits → events_fresh w (S n) →
  ∃ w', stall_one ctx w = (w', Ok tt) ∧ events_fresh w' n.
Proof.
  intros HI Hopen Hm Hf. unfold stall_one.
  set (p := λ d, String.eqb (d_id d) (d_id ctx) && bool_decide (d_status d = Ds_Dispatched)).
  set (w1 := with_db (λ db, set_dispatches (update_where p (with_d_status Ds_Stalled) (db_dispatches db)) db) w).
  assert (∀ b : bool, ∃ w2, (if b then record_dispatch_run_event (d_id ctx) Ev_TaskStalled
    "No activity within the lease." None else ret tt) w1 = (w2, Ok tt) ∧ events_only w1 w2 ∧ events_fresh w2 n)
    as Hev.
  { intros []; [by apply record_dispatch_run_event_fresh|].
    exists w1. split_and!; [done|reflexivity|by apply events_fresh_less]. }
  destruct (Hev (Nat.ltb 0 (count_where p (db_dispatches (w_db w))))) as (w2 & He & Heo & Hf2).
  exists (with_db (λ db, set_tasks (update_where (λ t, String.eqb (t_id t) (d_task_id ctx)) stalled_task
    (db_tasks db)) db) w2). split; [|exact Hf2]. apply tx_run.
  rewrite (bind_ok _ _ _ _ _ (update_dispatches_success true p (with_d_status Ds_Stalled) w
    (λ d _ _, stall_dispatch_allowed _ d))). fold w1. rewrite (bind_ok _ _ _ _ _ He).
  rewrite (bind_ok _ _ w2 _ _ (update_tasks_success false (λ t, String.eqb (t_id t) (d_task_id ctx))
    stalled_task w2 ltac:(
      intros t Ht He1; apply stall_task_allowed; apply Hopen;
      rewrite (events_only_tasks _ _ Heo) in Ht; apply String.eqb_eq in He1; rewrite <-He1;
      apply task_by_id_elem; [apply HI|exact Ht]))).
  done.
Qed.

(** While a sweep runs, the tasks it still has to visit stay open. *)
Lemma sweep_total L w :
  Inv (w_db w) → NoDup (d_id <$> L) →
  (∀ ctx, ctx ∈ L → ctx ∈ db_dispatches (w_db w) ∧ d_status ctx = Ds_Dispatched) →
  marker_fits → events_fresh w (length L) → ∃ w', mapM_ stall_one L w = (w', Ok tt).
Proof.
  intros HI Hnd HL Hm. revert w HI HL. induction L as [|ctx L IH]; cbn; intros w HI HL Hf; [by exists w|].
  apply NoDup_cons in Hnd as [Hni Hnd]. destruct (HL ctx ltac:(left)) as [Hctx Hst].
  destruct (stall_one_total ctx w (length L)) as (w1 & Hw1 & Hf1); try done.
  { intros t Ht. destruct (active_holder _ _ HI Hctx) as (t' & Ht' & Hh); [unfold d_active; by rewrite Hst|].
    simplify_eq. destruct Hh as [->| ->]; done. }
  rewrite (bind_ok _ _ _ _ _ Hw1). apply IH; [done| | |done].
  - by eapply (keeps_stall_one ctx).
  - intros d Hd. destruct (HL d ltac:(by right)) as [Hin Hds]. split; [|done].
    destruct (stall_one_ok _ _ _ _ Hw1) as (-> & _). apply elem_of_update_where. exists d. split; [done|].
    cbn [fmap list_fmap]. rewrite bool_decide_false; [done|].
    intros He%list_elem_of_singleton. apply Hni. rewrite <-He. by apply list_elem_of_fmap_2.
Qed.

(** ** Claims *)

(** The lease sweep.  It returns the dispatches whose last sign of life
    (recorded activity, else acceptance, else dispatch) is older than the
    threshold, stalls exactly those together with their tasks, and leaves no
    running dispatch with an expired lease behind. *)
Theorem stall_sweep (threshold : string) (w : World) :
  let expired := List.filter (lease_expired threshold) (db_dispatches (w_db w)) in
  Inv (w_db w) → marker_fits → events_fresh w (length expired) →
  ∃ w', stall_expired_orchestration_dispatches threshold w = (w', Ok expired) ∧
    (∀ d, d ∈ db_dispatches (w_db w') → lease_expired threshold d = false) ∧
    (∀ d, d ∈ expired → with_d_status Ds_Stalled d ∈ db_dispatches (w_db w') ∧
       task_status (w_db w') (d_task_id d) = Some Ts_Stalled) ∧
    (∀ d, d ∈ db_dispatches (w_db w) → lease_expired threshold d = false → d ∈ db_dispatches (w_db w')) ∧
    (∀ t, t ∈ db_tasks (w_db w) → (∀ d, d ∈ expired → d_task_id d ≠ t_id t) → t ∈ db_tasks (w_db w')).
Proof.
  intros expired HI Hm Hf.
  assert (∀ d, d ∈ expired ↔ d ∈ db_dispatches (w_db w) ∧ lease_expired threshold d = true) as Hex.
  { intros d. unfold expired. by rewrite list_elem_of_In, filter_In, <-list_elem_of_In. }
  assert (∀ d, d ∈ expired → d ∈ db_dispatches (w_db w) ∧ d_status d = Ds_Dispatched) as Hrun.
  { intros d [Hd He]%Hex. unfold lease_expired in He. split_bools. done. }
  assert (∀ d, d ∈ db_dispatches (w_db w) → d_id d ∈ (d_id <$> expired) → d ∈ expired) as Hkey.
  { intros d Hd (x & Hx & Hin)%list_elem_of_fmap. destruct (Hrun x Hin) as [Hxd _].
    by rewrite (NoDup_key_inj d_id _ d x (inv_dispatch_ids _ HI) Hd Hxd Hx). }
  destruct (sweep_total expired w) as (w' & Hw'); try done; [by apply NoDup_key_filter, HI|].
  pose proof (sweep_ok _ _ _ _ Hw') as (HD & HT & _). exists w'. split_and!.
  - unfold stall_expired_orchestration_dispatches. rewrite bind_select. by rewrite (bind_ok _ _ _ _ _ Hw').
  - intros d'. rewrite HD. intros (d & Hd & ->)%elem_of_update_where.
    destruct (_ && _) eqn:E; [done|]. destruct (lease_expired threshold d) eqn:El; [|done].
    assert (d ∈ expired) as Hin by (by apply Hex). destruct (Hrun d Hin) as [_ Hs].
    rewrite !bool_decide_true in E; [done|done|by apply list_elem_of_fmap_2].
  - intros d Hin. destruct (Hrun d Hin) as [Hd Hs]. split.
    + rewrite HD. apply elem_of_update_where. exists d. split; [done|].
      rewrite !bool_decide_true; [done|done|by apply list_elem_of_fmap_2].
    + destruct (active_holder _ _ HI Hd) as (t & Ht & _); [unfold d_active; by rewrite Hs|].
      unfold task_status, task_by_id. rewrite HT, find_update_where by done.
      unfold task_by_id in Ht. rewrite Ht. cbn. apply find_key_Some in Ht as [_ Hid].
      rewrite bool_decide_true; [done|]. rewrite Hid. by apply list_elem_of_fmap_2.
  - intros d Hd He. rewrite HD. apply elem_of_update_where. exists d. split; [done|].
    rewrite bool_decide_false; [done|]. intros Hin%Hkey; [|done]. apply Hex in Hin as [_ Hin]. congruence.
  - intros t Ht Hno. rewrite HT. apply elem_of_update_where. exists t. split; [done|].
    rewrite bool_decide_false; [done|]. intros (d & Hd & Hin)%list_elem_of_fmap. by eapply Hno.
Qed.

(** A dispatch without a launch may be written freely by the lease operations. *)
Lemma lease_allowed ss db d f :
  has_launch db (d_id d) = false → d_completion_sha (f d) = d_completion_sha d →
  dispatch_update_abort ss db d (f d) = None.
Proof.
  intros Hl Hs. dispatch_triggers. rewrite Hl, Hs. bool_refl. cbn.
  by rewrite !andb_false_r.
Qed.

Lemma touch_runs_total (p : OrchestrationCoordinatorRun → bool) w :
  Inv (w_db w) → ∃ w', update_runs p (with_r_last_activity_at now) w = (w', Ok (count_where p (db_runs (w_db w)))) ∧
    ∃ rs, w_db w' = set_runs rs (w_db w).
Proof.
  intros HI. unfold update_runs.
  assert (workspace_slots_unique (update_where p (with_r_last_activity_at now) (db_runs (w_db w))) = true) as ->.
  { unfold workspace_slots_unique. split_bools.
    assert (r_workspace_id <$> List.filter holds_workspace
              (update_where p (with_r_last_activity_at now) (db_runs (w_db w))) =
            r_workspace_id <$> List.filter holds_workspace (db_runs (w_db w))) as ->; [|apply HI].
    induction (db_runs (w_db w)) as [|r rs IH]; [done|].
    change (update_where ?p ?f (r :: rs)) with ((if p r then f r else r) :: update_where p f rs).
    cbn [List.filter].
    assert (holds_workspace (if p r then with_r_last_activity_at now r else r) = holds_workspace r) as ->
      by (by destruct (p r)).
    destruct (holds_workspace r); [|done]. cbn. rewrite IH. by destruct (p r). }
  eexists. split; [done|]. by eexists.
Qed.

(** The state a sign of life puts a running or stalled dispatch in. *)
Definition alive (d : OrchestrationDispatchContext) : OrchestrationDispatchContext :=
  with_d_last_activity_at (Some now) (with_d_status Ds_Dispatched d).

Section Activity.
Context (w : World) (d : OrchestrationDispatchContext).
Context (HI : Inv (w_db w)) (Hd : d ∈ db_dispatches (w_db w)) (Hl : has_launch (w_db w) (d_id d) = false).

Lemma touch_count s :
  count_where (λ x, String.eqb (d_id x) (d_id d) && bool_decide (d_status x = s)) (db_dispatches (w_db w)) =
  0 ↔ d_status d ≠ s.
Proof.
  rewrite count_where_0. split.
  - intros Hno Hs. specialize (Hno d Hd). by rewrite String.eqb_refl, bool_decide_true in Hno.
  - intros Hne x Hx. destruct (String.eqb (d_id x) (d_id d)) eqn:E; [|done]. apply String.eqb_eq in E.
    rewrite (NoDup_key_inj d_id _ x d (inv_dispatch_ids _ HI) Hx Hd E). by apply bool_decide_false.
Qed.

Lemma touch_row ss s f :
  (∀ x, d_completion_sha (f x) = d_completion_sha x) →
  update_dispatches ss (λ x, String.eqb (d_id x) (d_id d) && bool_decide (d_status x = s)) f w =
  (with_db (λ db, set_dispatches (update_where
     (λ x, String.eqb (d_id x) (d_id d) && bool_decide (d_status x = s)) f (db_dispatches db)) db) w,
   Ok (count_where (λ x, String.eqb (d_id x) (d_id d) && bool_decide (d_status x = s)) (db_dispatches (w_db w)))).
Proof.
  intros Hf. apply update_dispatches_success. intros x Hx [E%String.eqb_eq _]%andb_true_iff.
  apply lease_allowed; [by rewrite E|done].
Qed.

Lemma touched_row s f :
  (∀ x, d_id (f x) = d_id x) → d_status d = s →
  find_where (λ x, String.eqb (d_id x) (d_id d)) (update_where
    (λ x, String.eqb (d_id x) (d_id d) && bool_decide (d_status x = s)) f (db_dispatches (w_db w))) = Some (f d).
Proof.
  intros Hf Hs. rewrite find_update_where by done.
  pose proof (find_key_elem d_id _ _ (inv_dispatch_ids _ HI) Hd) as Hfind. rewrite Hfind. cbn.
  by rewrite String.eqb_refl, bool_decide_true.
Qed.

Lemma touch_missed s f : d_status d ≠ s →
  update_where (λ x, String.eqb (d_id x) (d_id d) && bool_decide (d_status x = s)) f (db_dispatches (w_db w)) =
  db_dispatches (w_db w).
Proof. intros Hs. apply update_where_none. by apply count_where_0, touch_count. Qed.

Lemma revived_task_allowed db t :
  t_status t = Ts_Stalled →
  task_update_abort false db t (with_t_stalled_at None (with_t_status Ts_Dispatched t)) = None.
Proof. intros Hs. task_triggers. cbn. rewrite Hs. bool_refl. cbn. by rewrite !andb_false_r. Qed.

Lemma revive_stalled : d_status d = Ds_Stalled →
  ∃ w', revive_stalled_dispatch (d_id d) w = (w', Ok true) ∧ Inv (w_db w') ∧
    dispatch_by_id (w_db w') (d_id d) = Some (alive d) ∧
    task_status (w_db w') (d_task_id d) = Some Ts_Dispatched.
Proof.
  intros Hs. destruct (active_holder _ _ HI Hd) as (t & Ht & Hh); [unfold d_active; by rewrite Hs|].
  set (p := λ x, String.eqb (d_id x) (d_id d) && bool_decide (d_status x = Ds_Stalled)).
  set (w1 := with_db (λ db, set_dispatches (update_where p alive (db_dispatches db)) db) w).
  assert (dispatch_by_id (w_db w1) (d_id d) = Some (alive d)) as Hd1 by (by apply touched_row).
  set (q := λ t, bool_decide (Some (t_id t) = Some (d_task_id d)) && bool_decide (t_status t = Ts_Stalled)).
  set (g := λ t, with_t_stalled_at None (with_t_status Ts_Dispatched t)).
  set (w2 := with_db (λ db, set_tasks (update_where q g (db_tasks db)) db) w1).
  assert (revive_stalled_dispatch (d_id d) w = (w2, Ok true)) as Hrun.
  { unfold revive_stalled_dispatch. rewrite (bind_ok _ _ _ w1 true).
    - rewrite bind_assoc, bind_select, Hd1.
      rewrite (bind_assoc _ _ (λ _, ret true)).
      by rewrite (bind_ok _ _ w1 _ _ (update_tasks_success false q g w1 ltac:(
        intros x _ [_ Hx]%andb_true_iff; apply bool_decide_eq_true in Hx; by apply revived_task_allowed))).
    - unfold catch_database. rewrite (bind_ok _ _ _ _ _ (touch_row true Ds_Stalled alive (λ _, eq_refl))).
      cbn [ret]. f_equal. f_equal. apply Nat.ltb_lt.
      assert (count_where p (db_dispatches (w_db w)) ≠ 0); [|unfold p in *; lia].
      intros Hc. by apply touch_count in Hc. }
  exists w2. split_and!; [done| |done|].
  - assert (keeps (revive_stalled_dispatch (d_id d))) as Hk by apply keeps_revive.
    eapply Hk; [exact Hrun|done].
  - unfold task_status, task_by_id. change (db_tasks (w_db w2)) with (update_where q g (db_tasks (w_db w))).
    rewrite find_update_where by done. unfold task_by_id in Ht. rewrite Ht. apply find_key_Some in Ht as [_ Hid].
    cbn. unfold q. rewrite Hid, (bool_decide_true (Some _ = Some _)) by done. cbn.
    destruct Hh as [Hh|Hh]; rewrite Hh;
      [rewrite bool_decide_false by done; by rewrite Hh|by rewrite bool_decide_true].
Qed.

Lemma revive_missed : d_status d ≠ Ds_Stalled → revive_stalled_dispatch (d_id d) w = (w, Ok false).
Proof.
  intros Hs. unfold revive_stalled_dispatch. rewrite (bind_ok _ _ _ w false); [done|].
  unfold catch_database. rewrite (bind_ok _ _ _ _ _ (touch_row true Ds_Stalled alive (λ _, eq_refl))).
  rewrite (proj2 (touch_count Ds_Stalled) Hs). unfold with_db. rewrite touch_missed by done.
  by destruct w as [[] ?].
Qed.
End Activity.

(** Activity on a running dispatch renews its lease and touches nothing else. *)
Lemma running_renewed (w : World) (d : OrchestrationDispatchContext) :
  Inv (w_db w) → d ∈ db_dispatches (w_db w) → has_launch (w_db w) (d_id d) = false → d_status d = Ds_Dispatched →
  ∃ w', record_orchestration_activity (d_id d) w = (w', Ok Recorded) ∧
    dispatch_by_id (w_db w') (d_id d) = Some (alive d) ∧
    task_status (w_db w') (d_task_id d) = task_status (w_db w) (d_task_id d).
Proof.
  intros HI Hin Hl Hs. unfold record_orchestration_activity.
  pose proof (touch_row w d Hl false Ds_Dispatched (with_d_last_activity_at (Some now)) (λ _, eq_refl)) as Htouch.
  set (p := λ x, String.eqb (d_id x) (d_id d) && bool_decide (d_status x = Ds_Dispatched)) in *.
  set (w1 := with_db _ w) in Htouch.
  assert (Nat.ltb 0 (count_where p (db_dispatches (w_db w))) = true) as Hc.
  { apply Nat.ltb_lt. assert (count_where p (db_dispatches (w_db w)) ≠ 0); [|lia].
    intros Hc. by apply (touch_count w d HI Hin) in Hc. }
  assert (Inv (w_db w1)) as HI1.
  { eapply (keeps_update_dispatches false p (with_d_last_activity_at (Some now))); [| |exact Htouch|done];
      by intros x. }
  destruct (touch_runs_total (λ r, bool_decide (Some (r_id r) = dispatch_by_id (w_db w1) (d_id d) ≫= d_run_id)) w1 HI1)
    as (w2 & Hw2 & rs & Hdb2).
  exists w2. split_and!; try done.
  - apply tx_run. rewrite (bind_ok _ _ _ _ _ Htouch), Hc. unfold bind at 1, ret at 1.
    rewrite bind_select. by rewrite (bind_ok _ _ _ _ _ Hw2).
  - rewrite Hdb2. unfold dispatch_by_id. cbn [db_dispatches set_runs].
    change (db_dispatches (w_db w1)) with (update_where p (with_d_last_activity_at (Some now)) (db_dispatches (w_db w))).
    pose proof (touched_row w d HI Hin Ds_Dispatched (with_d_last_activity_at (Some now)) (λ _, eq_refl) Hs) as Hrow.
    fold p in Hrow. rewrite Hrow. f_equal. unfold alive. destruct d. cbn in Hs. by subst.
  - rewrite Hdb2. done.
Qed.

(** A sign of life.  Activity on a running dispatch renews its lease; on a
    stalled one it revives the dispatch and its task together; on a closed or
    unaccepted one it is ignored and nothing changes. *)
Theorem activity_revives (dispatch_id : string) (w : World) (d : OrchestrationDispatchContext) :
  Inv (w_db w) → dispatch_by_id (w_db w) dispatch_id = Some d →
  has_launch (w_db w) dispatch_id = false →
  let outcome := match d_status d with
                 | Ds_Dispatched => Recorded | Ds_Stalled => Revived | _ => Ignored end in
  ∃ w', record_orchestration_activity dispatch_id w = (w', Ok outcome) ∧
    match outcome with
    | Ignored => w_db w' = w_db w
    | _ => dispatch_by_id (w_db w') dispatch_id = Some (alive d) ∧
           task_status (w_db w') (d_task_id d) =
             (if bool_decide (outcome = Revived) then Some Ts_Dispatched
              else task_status (w_db w) (d_task_id d)) ∧
           (∀ threshold, String.ltb now threshold = false → lease_expired threshold (alive d) = false)
    end.
Proof.
  intros HI [Hin <-]%dispatch_by_id_Some Hl. cbn zeta.
  assert (∀ threshold, String.ltb now threshold = false → lease_expired threshold (alive d) = false) as Hfresh.
  { intros threshold Hlt. unfold lease_expired. cbn. done. }
  pose proof (touch_row w d Hl false Ds_Dispatched (with_d_last_activity_at (Some now)) (λ _, eq_refl)) as Htouch.
  set (p := λ x, String.eqb (d_id x) (d_id d) && bool_decide (d_status x = Ds_Dispatched)) in *.
  destruct (decide (d_status d = Ds_Dispatched)) as [Hs|Hs].
  - destruct (running_renewed w d HI Hin Hl Hs) as (w' & E & Hd & Ht). exists w'. rewrite Hs. by split_and!.
  - unfold record_orchestration_activity. assert (count_where p (db_dispatches (w_db w)) = 0) as Hc by (by apply touch_count).
    assert (with_db (λ db, set_dispatches (update_where p (with_d_last_activity_at (Some now))
      (db_dispatches db)) db) w = w) as Hw.
    { unfold with_db, p. rewrite touch_missed by done. by destruct w as [[] ?]. }
    rewrite Hw, Hc in Htouch. destruct (decide (d_status d = Ds_Stalled)) as [Hst|Hst].
    + destruct (revive_stalled w d HI Hin Hl Hst) as (w1 & Hrev & HI1 & Hd1 & Ht1).
      destruct (touch_runs_total (λ r, bool_decide (Some (r_id r) = dispatch_by_id (w_db w1) (d_id d) ≫= d_run_id)) w1 HI1)
        as (w2 & Hw2 & rs & Hdb2).
      exists w2. rewrite Hst. split_and!; try done.
      * apply tx_run. rewrite (bind_ok _ _ _ _ _ Htouch). cbn [Nat.ltb Nat.leb].
        rewrite bind_assoc, (bind_ok _ _ _ _ _ Hrev). unfold bind at 1, ret at 1. rewrite bind_select.
        by rewrite (bind_ok _ _ _ _ _ Hw2).
      * rewrite Hdb2. done.
      * rewrite Hdb2. done.
    + exists w. assert (tx (bind (update_dispatches false p (with_d_last_activity_at (Some now)))
        (λ n, bind (if Nat.ltb 0 n then ret Recorded else
                let! revived := revive_stalled_dispatch (d_id d) in ret (if revived then Revived else Ignored))
          (λ outcome, match outcome with Ignored => ret Ignored | _ =>
             let! run_id := select (λ db, dispatch_by_id db (d_id d) ≫= d_run_id) in
             do! update_runs (λ r, bool_decide (Some (r_id r) = run_id)) (with_r_last_activity_at now) in
             ret outcome end))) w = (w, Ok Ignored)) as Hrun.
      { apply tx_run. rewrite (bind_ok _ _ _ _ _ Htouch). cbn [Nat.ltb Nat.leb].
        by rewrite bind_assoc, (bind_ok _ _ _ _ _ (revive_missed w d HI Hin Hl Hst)). }
      destruct (d_status d); done.
Qed.
End WithEnv.
