(* ===== verification/RunFacts.v ===== *)
(** * RunFacts: what the run and gate operations achieve

    Functional correctness of Runs.v: one active run per workspace, the end of a
    run is final for [finish], and a transfer moves everything the run owns; and
    of Gates.v: a decision gate releases the worker and blocks the task, a stall
    gate leaves worker and task alone and is opened once, and a resumed worker's
    gate asks nobody for a decision. *)

From S2P Require Import Prelude Text Models Store StoreFacts RoleContract Tasks Dag Cancellation Dispatch Gates Messages Runs Invariants CancelFacts Lifecycle TaskFacts DispatchFacts.
From Stdlib Require Import ZArith Lia Ascii String.
From stdpp Require Import strings prelude.

Section WithEnv.
Context `{Env}.

Lemma slots_snoc runs r :
  NoDup (r_workspace_id <$> List.filter holds_workspace runs) →
  (∀ x, x ∈ runs → holds_workspace x = true → r_workspace_id x ≠ r_workspace_id r) →
  workspace_slots_unique (runs ++ [r]) = true.
Proof.
  intros Hnd Hfree. unfold workspace_slots_unique. apply bool_decide_true. rewrite List.filter_app.
  cbn [List.filter]. destruct (holds_workspace r); [|by rewrite app_nil_r].
  apply NoDup_key_snoc; [done|]. intros (x & Hx & Hin)%list_elem_of_fmap.
  rewrite list_elem_of_In, filter_In, <-list_elem_of_In in Hin. destruct Hin. by apply (Hfree x).
Qed.

(** ** Claims *)

(** Starting a run.  While a run holds the workspace the start is refused,
    naming it, and nothing changes; otherwise the run is stored and returned,
    planning when its plan needs approval and running when it does not, with
    one created event on its timeline. *)
Theorem create_run_spec (spec : string) (coordinator : option string) (poll : Z)
    (workspace_id : string) (max : Z) (plan : NewRunPlan) (w : World) :
  Inv (w_db w) → np_stall_policy plan ∈ ["ask"; "auto-failover"; "wait"] →
  id_of "run" (w_rng w) ∉ (r_id <$> db_runs (w_db w)) →
  marker_fits → events_fresh (MkWorld (w_db w) (S (w_rng w))) 1 →
  match find_where (λ r, String.eqb (r_workspace_id r) workspace_id && holds_workspace r)
          (db_runs (w_db w)) with
  | Some r =>
      create_planned_orchestration_coordinator_run spec coordinator poll workspace_id max plan w =
        (w, Err (Bail ("a coordinator run is already active: " +:+ r_id r)))
  | None =>
      let run := new_run_row (id_of "run" (w_rng w)) spec coordinator poll workspace_id max plan in
      ∃ w', create_planned_orchestration_coordinator_run spec coordinator poll workspace_id max plan w
              = (w', Ok run) ∧
        r_status run = (if np_approval_required plan then Cs_Planning else Cs_Running) ∧
        holds_workspace run = true ∧ db_runs (w_db w') = db_runs (w_db w) ++ [run] ∧
        length (db_events (w_db w')) = S (length (db_events (w_db w)))
  end.
Proof.
  intros HI Hpol Hid Hm Hf. unfold create_planned_orchestration_coordinator_run.
  destruct (find_where _ _) as [r|] eqn:Ef.
  - unfold bind at 1, tx. rewrite bind_select, Ef. by destruct w.
  - set (run := new_run_row (id_of "run" (w_rng w)) spec coordinator poll workspace_id max plan).
    set (w1 := MkWorld (set_runs (db_runs (w_db w) ++ [run]) (w_db w)) (S (w_rng w))).
    assert (insert_run run (MkWorld (w_db w) (S (w_rng w))) = (w1, Ok tt)) as Hins.
    { unfold insert_run. cbn [w_db]. change (r_stall_policy run) with (np_stall_policy plan).
      rewrite (bool_decide_true (np_stall_policy plan ∈ _)) by done. cbn [negb].
      rewrite bool_decide_false by done. rewrite slots_snoc; [done|apply HI|].
      rewrite find_where_None in Ef. intros x Hx Hh Heq. specialize (Ef x Hx). rewrite Hh, andb_true_r in Ef.
      by apply String.eqb_neq in Ef. }
    pose proof (record_run_event_success (with_ne_summary spec (new_run_event (r_id run) Ev_Created)) w1 Hm
      (events_fresh_head _ 0 Hf)) as Hrec.
    match type of Hrec with _ = (?x, _) => set (w2 := x) in Hrec end.
    exists w2. split_and!; try done.
    + rewrite (bind_ok _ _ w w2 (r_id run)).
      * unfold run_after, orchestration_coordinator_run_by_id. rewrite bind_select. unfold run_by_id, w2, w1.
        frame_cbn. by rewrite find_key_snoc.
      * apply tx_run. rewrite bind_select, Ef. unfold orchestration_id, bind at 1. fold run.
        rewrite (bind_ok _ _ _ _ _ Hins). change (id_of "run" (w_rng w)) with (r_id run).
        by rewrite (bind_ok _ _ _ _ _ Hrec).
    + unfold run, new_run_row, holds_workspace. cbn. by destruct (np_approval_required plan).
    + unfold w2, w1. frame_cbn. rewrite length_app. cbn. lia.
Qed.

(** Finishing a run that already completed, failed or was cancelled changes
    nothing at all: the first end of a run is final and is told once. *)
Theorem finish_is_final (id : string) (status : OrchestrationCoordinatorStatus) (w : World) :
  Inv (w_db w) → (∀ r, r ∈ db_runs (w_db w) → r_id r = id → run_open r = false) →
  finish_orchestration_coordinator_run id status w = (w, Ok tt).
Proof.
  intros HI Hcl. unfold finish_orchestration_coordinator_run. apply tx_run.
  set (p := λ r, String.eqb (r_id r) id && run_open r).
  assert (∀ r, r ∈ db_runs (w_db w) → p r = false) as Hno.
  { intros r Hr. unfold p. destruct (String.eqb_spec (r_id r) id); [|done]. cbn. by apply Hcl. }
  set (f := λ r, with_r_paused_by None _).
  assert (update_runs p f w = (w, Ok 0)) as Hup.
  { unfold update_runs. rewrite (update_where_none p f _ Hno), (proj2 (count_where_0 p _) Hno).
    unfold workspace_slots_unique. rewrite bool_decide_true by apply HI. by destruct w as [[] ?]. }
  by rewrite (bind_ok _ _ _ _ _ Hup).
Qed.

(** Transferring a run takes the current coordinator or force; it moves the
    run, all its tasks and all its active dispatches to the new coordinator and
    leaves one audit record that names actor, run and reason. *)
Theorem run_transfer_moves_everything (run_id actor new_handle reason : string) (force : bool)
    (w w' : World) (r : OrchestrationCoordinatorRun) :
  transfer_orchestration_run_coordinator run_id actor new_handle reason force w = (w', Ok r) →
  (force = true ∨ r_coordinator_handle <$> run_by_id (w_db w) run_id = Some (Some actor)) ∧
  r_id r = run_id ∧ r_coordinator_handle r = Some new_handle ∧
  (∀ t, t ∈ db_tasks (w_db w') → t_run_id t = Some run_id → t_coordinator_handle t = new_handle) ∧
  (∀ d, d ∈ db_dispatches (w_db w') → d_run_id d = Some run_id → d_active d = true →
     d_coordinator_handle d = new_handle) ∧
  (∃ audit_id, db_audits (w_db w') = db_audits (w_db w) ++
     [MkAuditEvent audit_id (Some actor) (if force then "run.transfer.force" else "run.transfer")
        run_id reason]).
Proof.
  unfold transfer_orchestration_run_coordinator, orchestration_coordinator_run_by_id.
  rewrite bind_select. destruct (run_by_id (w_db w) run_id) as [run|] eqn:Er; [|done].
  destruct (_ && _) eqn:Eg; [done|]. intros Hm. inv_ok Hm. store_inv. repeat inv_ok Hstep. store_inv.
  inv_ok Hm. unfold insert_orchestration_audit_event in Hstep. inv_ok Hstep. store_inv.
  destruct (bool_decide _) in Hstep; [done|]. injection Hstep as <- _.
  unfold run_after, orchestration_coordinator_run_by_id in Hm. rewrite bind_select in Hm.
  destruct (run_by_id _ run_id) as [r'|] eqn:Er' in Hm; [|done]. inv_ok Hm.
  unfold run_by_id in Er'. frame_cbn. cbn in Er'. rewrite (find_update_where r_id) in Er' by done.
  unfold run_by_id in Er. rewrite Er in Er'. pose proof (find_key_Some r_id _ _ _ Er) as [_ Hid].
  cbn in Er'. rewrite Hid, String.eqb_refl in Er'. injection Er' as <-.
  split_and!; try done; [|intros t Ht Hrun|intros d Hd Hrun Hact|by eexists].
  - destruct force; [by left|right]. cbn in *. by destruct (bool_decide_reflect (r_coordinator_handle run = Some actor)) as [->|].
  - apply elem_of_update_where in Ht as (t0 & Ht0 & ->).
    destruct (bool_decide_reflect (t_run_id t0 = Some run_id)); done.
  - apply elem_of_update_where in Hd as (d0 & Hd0 & ->).
    destruct (bool_decide_reflect (d_run_id d0 = Some run_id)), (d_active d0) eqn:Ea; cbn in *; congruence.
Qed.
End WithEnv.

(** ** Gates *)

Section WithEnv.
Context `{Env}.

(** The world after a gate was appended; the timeline apart. *)
Definition gate_opened (g : OrchestrationDecisionGate) (w w' : World) : Prop :=
  ∃ w1, w1 = with_db (set_gates (db_gates (w_db w) ++ [g])) w ∧
    db_tasks (w_db w') = db_tasks (w_db w) ∧ db_dispatches (w_db w') = db_dispatches (w_db w) ∧
    db_messages (w_db w') = db_messages (w_db w) ∧ db_runs (w_db w') = db_runs (w_db w) ∧
    db_launches (w_db w') = db_launches (w_db w) ∧ db_gates (w_db w') = db_gates (w_db w1).

Lemma insert_task_gate_total kind task_id question options w t n :
  kind = Gk_Decision ∨ kind = Gk_Stall → task_by_id (w_db w) task_id = Some t →
  id_of "gate" (w_rng w) ∉ (g_id <$> db_gates (w_db w)) →
  marker_fits → events_fresh (MkWorld (w_db w) (S (w_rng w))) (S n) →
  let g := new_gate_row (id_of "gate" (w_rng w)) kind t question options in
  ∃ w', insert_task_gate kind task_id question options w = (w', Ok (g_id g)) ∧ gate_opened g w w'.
Proof.
  intros Hk Ht Hid Hm Hf g. unfold insert_task_gate, orchestration_id, bind at 1.
  unfold orchestration_task_by_id. rewrite bind_select. cbn [w_db]. rewrite Ht.
  set (w0 := MkWorld (w_db w) (S (w_rng w))).
  set (w1 := with_db (set_gates (db_gates (w_db w) ++ [g])) w0).
  assert (insert_gate (new_gate_row (id_of "gate" (w_rng w)) kind t question options) w0 = (w1, Ok tt)) as Hins.
  { unfold insert_gate. rewrite (bool_decide_false (g_id (new_gate_row _ _ _ _ _) ∈ _)) by done.
    unfold w1, g. destruct Hk as [->| ->]; reflexivity. }
  rewrite (bind_ok _ _ _ _ _ Hins). destruct (t_run_id t) as [run_id|] eqn:Er.
  - match goal with |- context [record_run_event ?ev] =>
      destruct (record_run_event_fresh ev w1 n Hm Hf) as (w2 & i & Hrec & Hev & _) end.
    exists w2. split; [by rewrite bind_assoc, (bind_ok _ _ _ _ _ Hrec)|].
    eexists. split; [done|]. frame_rewrite. by split_and!.
  - exists w1. split; [done|]. eexists. by split_and!.
Qed.

Lemma gate_after_ok g msg w w' :
  g_id g ∉ (g_id <$> db_gates (w_db w)) → db_gates (w_db w') = db_gates (w_db w) ++ [g] →
  gate_after (g_id g) msg w' = (w', Ok g).
Proof.
  intros Hid Hg. unfold gate_after, orchestration_gate_by_id. rewrite bind_select.
  unfold gate_by_id. by rewrite Hg, find_key_snoc.
Qed.

(** Resolving the gate [id] as resumed. *)
Definition resumed_row (id : string) (g : OrchestrationDecisionGate) : OrchestrationDecisionGate :=
  if String.eqb (g_id g) id && bool_decide (g_status g = Gs_Pending)
  then with_g_resolved_at (Some now) (with_g_resolution (Some STALL_GATE_RESUMED) (with_g_status Gs_Resolved g))
  else g.

Lemma resolve_resumed_ok task_id w w' g :
  resolve_stall_gate_as_resumed task_id w = (w', Ok (Some g)) →
  ∃ g0, g0 ∈ db_gates (w_db w) ∧ pending_stall_gate task_id g0 = true ∧
    db_gates (w_db w') = resumed_row (g_id g0) <$> db_gates (w_db w) ∧
    gate_by_id (w_db w') (g_id g0) = Some g.
Proof.
  unfold resolve_stall_gate_as_resumed, orchestration_gate_by_id. rewrite bind_select.
  destruct (find_last_where (pending_stall_gate task_id) (db_gates (w_db w))) as [g0|] eqn:E0; [|done].
  apply find_last_where_Some in E0 as [Hin Hp]. intros Hm. inv_ok Hm. apply (proj1 (tx_ok _ _ _ _)) in Hstep.
  rewrite bind_select in Hstep. inv_ok Hstep. store_inv. inv_ok Hstep.
  set (w1 := with_db _ w) in Hstep0. assert (db_gates (w_db s0) = db_gates (w_db w1)) as HG.
  { destruct (_ ≫= g_run_id) in Hstep0; [|by inv_ok Hstep0].
    inv_ok Hstep0. store_inv. inv_ok Hstep0. by frame_rewrite. }
  inv_ok Hstep. destruct (find_where _ _) in Hm; [|done]. store_inv.
  exists g0. split_and!; try done.
Qed.

(** ** Claims *)

(** Asking for a decision on a ready or dispatched task opens a pending gate
    that names the task and its run, blocks the task and releases its worker:
    no dispatch of the task stays active.  Nothing happens to other tasks. *)
Theorem decision_gate_blocks (task_id question : string) (options : list string) (w : World)
    (t : OrchestrationTask) :
  Inv (w_db w) → task_by_id (w_db w) task_id = Some t →
  t_status t = Ts_Ready ∨ t_status t = Ts_Dispatched →
  (∀ d, d ∈ db_dispatches (w_db w) → d_task_id d = task_id → has_launch (w_db w) (d_id d) = false) →
  id_of "gate" (w_rng w) ∉ (g_id <$> db_gates (w_db w)) →
  marker_fits → events_fresh (MkWorld (w_db w) (S (w_rng w))) 1 →
  let g := new_gate_row (id_of "gate" (w_rng w)) Gk_Decision t question options in
  ∃ w', create_orchestration_gate task_id question options w = (w', Ok g) ∧
    g_status g = Gs_Pending ∧ g_task_id g = Some task_id ∧ g_run_id g = t_run_id t ∧
    db_gates (w_db w') = db_gates (w_db w) ++ [g] ∧
    task_status (w_db w') task_id = Some Ts_Blocked ∧
    (∀ d, d ∈ db_dispatches (w_db w') → d_task_id d = task_id → d_active d = false) ∧
    (∀ x, x ∈ db_tasks (w_db w) → t_id x ≠ task_id → x ∈ db_tasks (w_db w')).
Proof.
  intros HI Ht Hs Hlaunch Hid Hm Hf g.
  destruct (insert_task_gate_total Gk_Decision task_id question options w t 0)
    as (w1 & Hw1 & w0 & -> & HT & HD & _ & _ & HL & HG); try done; [by left|].
  set (f := λ d, with_d_completed_at (Some now) (with_d_status Ds_Completed d)).
  set (w2 := with_db (λ db, set_dispatches (update_where (active_of_task task_id) f (db_dispatches db)) db) w1).
  set (w3 := with_db (λ db, set_tasks (update_where (λ t, String.eqb (t_id t) task_id)
    (with_t_status Ts_Blocked) (db_tasks db)) db) w2).
  assert (update_dispatches true (active_of_task task_id) f w1 =
    (w2, Ok (count_where (active_of_task task_id) (db_dispatches (w_db w1))))) as H2.
  { apply update_dispatches_success. rewrite HD. intros d Hd [E%String.eqb_eq _]%andb_true_iff.
    apply close_status_allowed; [done|]. intros _. rewrite (has_launch_frame (w_db w)) by done. by apply Hlaunch. }
  assert (update_tasks false (λ t, String.eqb (t_id t) task_id) (with_t_status Ts_Blocked) w2 =
    (w3, Ok (count_where (λ t, String.eqb (t_id t) task_id) (db_tasks (w_db w2))))) as H3.
  { apply update_tasks_success. change (db_tasks (w_db w2)) with (db_tasks (w_db w1)). rewrite HT.
    intros x Hx E. rewrite (same_task (w_db w) task_id t x HI Ht Hx E).
    apply task_update_allowed; [by split_and!|]. right. right. destruct Hs as [->| ->]; done. }
  exists w3. split_and!; try done.
  - unfold create_orchestration_gate. rewrite (bind_ok _ _ w w3 (g_id g)).
    + by apply (gate_after_ok g _ w).
    + apply tx_run. rewrite bind_select. unfold task_status. rewrite Ht. cbn [fmap option_fmap option_map].
      destruct Hs as [->| ->]; by rewrite (bind_ok _ _ _ _ _ Hw1), (bind_ok _ _ _ _ _ H2), (bind_ok _ _ _ _ _ H3).
  - cbn. by apply task_by_id_Some in Ht as [_ ->].
  - unfold task_status, task_by_id, w3, w2. frame_cbn. rewrite HT, find_update_where by done.
    unfold task_by_id in Ht. rewrite Ht. apply find_key_Some in Ht as [_ Hidt]. cbn. by rewrite Hidt, String.eqb_refl.
  - intros d. unfold w3, w2. frame_cbn. rewrite HD. intros (x & _ & ->)%elem_of_update_where.
    unfold active_of_task. destruct (String.eqb_spec (d_task_id x) task_id); cbn; [|done].
    by destruct (d_active x) eqn:Ea.
  - intros x Hx Hne. unfold w3, w2. frame_cbn. rewrite HT. apply elem_of_update_where. exists x. split; [done|].
    by rewrite (proj2 (String.eqb_neq _ _)).
Qed.

(** Asking about a stalled worker opens at most one gate: it leaves every
    task, dispatch and message exactly as it is, and asking again returns the
    same pending gate without changing anything. *)
Theorem stall_gate_once (task_id question question' : string) (w : World) (t : OrchestrationTask) :
  task_by_id (w_db w) task_id = Some t → t_status t = Ts_Stalled →
  find_where (pending_task_gate task_id) (db_gates (w_db w)) = None →
  id_of "gate" (w_rng w) ∉ (g_id <$> db_gates (w_db w)) →
  marker_fits → events_fresh (MkWorld (w_db w) (S (w_rng w))) 1 →
  ∃ w' g, create_orchestration_stall_gate task_id question w = (w', Ok g) ∧
    g_kind g = Gk_Stall ∧ g_options g = STALL_GATE_OPTIONS ∧ g_status g = Gs_Pending ∧
    db_gates (w_db w') = db_gates (w_db w) ++ [g] ∧
    db_tasks (w_db w') = db_tasks (w_db w) ∧ db_dispatches (w_db w') = db_dispatches (w_db w) ∧
    db_messages (w_db w') = db_messages (w_db w) ∧
    create_orchestration_stall_gate task_id question' w' = (w', Ok g).
Proof.
  intros Ht Hs Hnone Hid Hm Hf.
  destruct (insert_task_gate_total Gk_Stall task_id question STALL_GATE_OPTIONS w t 0)
    as (w1 & Hw1 & w0 & -> & HT & HD & HM & _ & _ & HG); try done; [by right|].
  set (g := new_gate_row (id_of "gate" (w_rng w)) Gk_Stall t question STALL_GATE_OPTIONS) in *.
  assert (pending_task_gate task_id g = true) as Hpend.
  { unfold pending_task_gate, g. cbn. apply task_by_id_Some in Ht as [_ ->]. by bool_refl. }
  exists w1, g. split_and!; try done.
  - unfold create_orchestration_stall_gate. rewrite (bind_ok _ _ w w1 (g_id g, "inserted stall gate not found")).
    + cbn [fst snd]. by apply (gate_after_ok g _ w).
    + apply tx_run. rewrite bind_select. unfold task_status. rewrite Ht. cbn [fmap option_fmap option_map].
      rewrite Hs, bind_select, Hnone. by rewrite (bind_ok _ _ _ _ _ Hw1).
  - unfold create_orchestration_stall_gate. rewrite (bind_ok _ _ w1 w1 (g_id g, "pending stall gate not found")).
    + cbn [fst snd]. by apply (gate_after_ok g _ w).
    + apply tx_run. rewrite bind_select. unfold task_status. rewrite (task_by_id_frame (w_db w)), Ht by done.
      cbn [fmap option_fmap option_map]. rewrite Hs, bind_select, HG. frame_cbn.
      assert (find_where (pending_task_gate task_id) (db_gates (w_db w) ++ [g]) = Some g) as ->; [|done].
      rewrite find_where_None in Hnone. unfold find_where. clear -Hnone Hpend.
      induction (db_gates (w_db w)) as [|x l IH]; cbn; [by rewrite Hpend|].
      rewrite (Hnone x) by left. apply IH. intros y Hy. apply Hnone. by right.
Qed.

(** When a stalled worker shows life, its pending stall gate is resolved as
    resumed; such a gate is never among those the runtime acts on, and the
    resolution touches no other gate. *)
Theorem resumed_gate_is_inert (task_id : string) (w w' : World) (g : OrchestrationDecisionGate) :
  NoDup (g_id <$> db_gates (w_db w)) →
  resolve_stall_gate_as_resumed task_id w = (w', Ok (Some g)) →
  g_status g = Gs_Resolved ∧ g_resolution g = Some STALL_GATE_RESUMED ∧ g_task_id g = Some task_id ∧
  actionable_stall_gate (w_db w') g = false ∧
  (∀ x, x ∈ db_gates (w_db w) → g_id x ≠ g_id g → x ∈ db_gates (w_db w')) ∧
  (∃ g0, g0 ∈ db_gates (w_db w) ∧ pending_stall_gate task_id g0 = true ∧ g_id g0 = g_id g).
Proof.
  intros Hnd (g0 & Hin & Hp & HG & Hg)%resolve_resumed_ok.
  assert (g = resumed_row (g_id g0) g0) as ->.
  { unfold gate_by_id in Hg. rewrite HG in Hg.
    change (resumed_row (g_id g0) <$> ?l) with (update_where (λ _, true) (resumed_row (g_id g0)) l) in Hg.
    rewrite find_update_where in Hg by (intros x; unfold resumed_row; by destruct (_ && _)).
    pose proof (find_key_elem g_id _ _ Hnd Hin) as Hf. rewrite Hf in Hg. by injection Hg as <-. }
  unfold pending_stall_gate in Hp. split_bools. unfold resumed_row.
  rewrite String.eqb_refl, (bool_decide_true (g_status g0 = Gs_Pending)) by done. cbn [andb].
  split_and!; try done.
  - unfold actionable_stall_gate. cbn. by rewrite !andb_false_r.
  - intros x Hx Hne. rewrite HG. apply list_elem_of_fmap. exists x. split; [|done]. unfold resumed_row.
    by rewrite (proj2 (String.eqb_neq _ _)).
  - exists g0. unfold pending_stall_gate. by rewrite !bool_decide_true.
Qed.
End WithEnv.
