(* ===== verification/Ordering.v ===== *)
(** * Ordering: the dependency loops of recipes and plans

    [WorkflowRecipeV1::stage_order] (run_recipe_compilation.rs), [compile_plan]
    (run_plan_compilation.rs) and [shared_plan] (run_plan_inputs.rs) order their
    items by the same loop: pass over all items again and again, taking each
    item whose dependencies were taken before, until everything is taken or a
    pass takes nothing.  The loop is written here once, over the identifier and
    the dependencies of an item.  One unit of fuel per item is enough: every
    pass but the last takes an item ([order_loop_total]).

    [order_loop_spec] is the specification: the loop succeeds exactly when the
    identifiers are distinct, every dependency names an item and no item waits
    for itself, and then it returns every item once, after all it depends on. *)

From S2P Require Import Prelude RoleContract.
From Stdlib Require Import ZArith Lia String.
From stdpp Require Import strings prelude relations.

Section Ordering.
Context {A : Type} (id : A → string) (deps : A → list string) (cycle : string).
Implicit Types (x : A) (items ordered : list A) (visited : list string).

Definition takes visited x : bool :=
  negb (bool_decide (id x ∈ visited)) && forallb (λ d, bool_decide (d ∈ visited)) (deps x).

(** The [for] loop: [visited] is the set of identifiers taken, [ordered] the
    items pushed. *)
Fixpoint order_pass (visited : list string) (ordered items : list A) : list string * list A :=
  match items with
  | [] => (visited, ordered)
  | x :: items =>
      if takes visited x then order_pass (visited ++ [id x]) (ordered ++ [x]) items
      else order_pass visited ordered items
  end.

(** The [while] loop around it. *)
Fixpoint order_loop (fuel : nat) (items : list A) (visited : list string) (ordered : list A)
    : option (R (list A)) :=
  if Nat.ltb (length ordered) (length items) then
    match fuel with
    | 0%nat => None
    | S fuel =>
        let '(visited', ordered') := order_pass visited ordered items in
        if Nat.eqb (length ordered') (length ordered) then Some (Err (Bail cycle))
        else order_loop fuel items visited' ordered'
    end
  else Some (Ok ordered).

Definition order_items (items : list A) : R (list A) :=
  default (Err (Bail "out of fuel")) (order_loop (length items) items [] []).

(** ** Specification *)

(** Item [x] waits for the item named [d]. *)
Definition waits_for (items : list A) (b a : string) : Prop :=
  ∃ x, x ∈ items ∧ id x = b ∧ a ∈ deps x.

Definition orderable (items : list A) : Prop :=
  NoDup (id <$> items) ∧
  (∀ x d, x ∈ items → d ∈ deps x → d ∈ (id <$> items)) ∧
  (∀ a, ¬ tc (waits_for items) a a).

(** Every item once, each after everything it depends on. *)
Definition in_order (ordered : list A) : Prop :=
  ∀ before x after, ordered = before ++ x :: after → ∀ d, d ∈ deps x → d ∈ (id <$> before).

(** ** One pass *)

Definition taken (items : list A) (visited : list string) (ordered : list A) : Prop :=
  visited = id <$> ordered ∧ NoDup visited ∧ (∀ x, x ∈ ordered → x ∈ items) ∧ in_order ordered.

Lemma takes_true visited x :
  takes visited x = true ↔ (id x ∉ visited) ∧ (∀ d, d ∈ deps x → d ∈ visited).
Proof.
  unfold takes. rewrite andb_true_iff, negb_true_iff, bool_decide_eq_false, forallb_forall.
  setoid_rewrite bool_decide_eq_true. by setoid_rewrite <-list_elem_of_In.
Qed.

Lemma in_order_snoc ordered x :
  in_order ordered → (∀ d, d ∈ deps x → d ∈ (id <$> ordered)) → in_order (ordered ++ [x]).
Proof.
  intros Ho Hx before y after He d Hd.
  destruct after as [|z after _] using rev_ind.
  - apply app_inj_tail in He as [-> ->]. by apply Hx.
  - rewrite app_comm_cons, app_assoc in He. apply app_inj_tail in He as [-> _]. by eapply Ho.
Qed.

Lemma taken_snoc all visited ordered x :
  taken all visited ordered → x ∈ all → takes visited x = true →
  taken all (visited ++ [id x]) (ordered ++ [x]).
Proof.
  intros (-> & Hnd & Hin & Ho) Hx [Hni Hd]%takes_true. split_and!.
  - by rewrite fmap_app.
  - apply NoDup_app. split_and!; [done| |apply NoDup_singleton].
    intros y Hy Hy2. apply list_elem_of_singleton in Hy2 as ->. done.
  - intros y [Hy|Hy]%elem_of_app; [auto|]. apply list_elem_of_singleton in Hy as ->. done.
  - by apply in_order_snoc.
Qed.

Lemma order_pass_taken all items visited ordered :
  taken all visited ordered → (∀ x, x ∈ items → x ∈ all) →
  taken all (order_pass visited ordered items).1 (order_pass visited ordered items).2.
Proof.
  revert visited ordered. induction items as [|x items IH]; intros visited ordered Ht Hall; [done|].
  cbn [order_pass]. destruct (takes visited x) eqn:E; apply IH; try (intros y Hy; apply Hall; by right).
  - apply taken_snoc; [done|apply Hall; left|done].
  - done.
Qed.

Lemma order_pass_grows items visited ordered :
  ∃ more, (order_pass visited ordered items).2 = ordered ++ more ∧
          (order_pass visited ordered items).1 = visited ++ (id <$> more).
Proof.
  revert visited ordered. induction items as [|x items IH]; intros visited ordered; cbn [order_pass].
  - exists []. by rewrite !app_nil_r.
  - destruct (takes visited x); [|apply IH].
    destruct (IH (visited ++ [id x]) (ordered ++ [x])) as (more & Ho & Hv).
    exists (x :: more). rewrite Ho, Hv. by rewrite <-!app_assoc.
Qed.

(** A pass takes every item that was ready when it began. *)
Lemma order_pass_stuck items visited ordered :
  length (order_pass visited ordered items).2 = length ordered →
  ∀ x, x ∈ items → takes visited x = false.
Proof.
  revert visited ordered. induction items as [|y items IH]; intros visited ordered Hl x Hx;
    [by apply not_elem_of_nil in Hx|]. cbn [order_pass] in Hl.
  destruct (takes visited y) eqn:E.
  - destruct (order_pass_grows items (visited ++ [id y]) (ordered ++ [y])) as (more & Ho & _).
    rewrite Ho, !length_app in Hl. cbn in Hl. lia.
  - apply elem_of_cons in Hx as [->|Hx]; [done|]. by eapply IH.
Qed.

(** ** The loop *)

Lemma order_loop_total fuel items visited ordered :
  length items ≤ fuel + length ordered → is_Some (order_loop fuel items visited ordered).
Proof.
  revert visited ordered. induction fuel as [|fuel IH]; intros visited ordered Hl;
    cbn [order_loop]; destruct (Nat.ltb_spec (length ordered) (length items)); try (by eexists); [lia|].
  destruct (order_pass visited ordered items) as [v o] eqn:E.
  destruct (Nat.eqb_spec (length o) (length ordered)) as [|Hne]; [by eexists|].
  destruct (order_pass_grows items visited ordered) as (more & Ho & _).
  rewrite E in Ho. cbn in Ho. subst o. rewrite length_app in Hne. apply IH. rewrite length_app. lia.
Qed.

Lemma taken_permutation items visited ordered :
  taken items visited ordered → length items ≤ length ordered → ordered ≡ₚ items.
Proof.
  intros (-> & Hnd & Hin & _) Hl. apply submseteq_length_Permutation; [|done].
  apply NoDup_submseteq; [by eapply NoDup_fmap_1|done].
Qed.

Lemma order_loop_sound fuel items visited ordered o :
  taken items visited ordered → order_loop fuel items visited ordered = Some (Ok o) →
  o ≡ₚ items ∧ NoDup (id <$> o) ∧ in_order o.
Proof.
  revert visited ordered. induction fuel as [|fuel IH]; intros visited ordered Ht; cbn [order_loop];
    destruct (Nat.ltb_spec (length ordered) (length items)) as [|Hl]; try done.
  2: pose proof (order_pass_taken items items visited ordered Ht (λ _ H, H)) as Hp;
     destruct (order_pass visited ordered items) as [v' o'];
     destruct (Nat.eqb _ _); [done|]; by apply IH.
  all: intros [= <-]; pose proof (taken_permutation _ _ _ Ht Hl) as Hperm;
    destruct Ht as (-> & ? & _ & ?); done.
Qed.

(** In an order the dependencies point backwards, so nothing waits for itself. *)
Lemma in_order_back o a b i :
  NoDup (id <$> o) → in_order o → tc (waits_for o) b a →
  (id <$> o) !! i = Some b → ∃ j, j < i ∧ (id <$> o) !! j = Some a.
Proof.
  intros Hnd Ho Hab. revert i.
  assert (∀ b a i, waits_for o b a → (id <$> o) !! i = Some b →
            ∃ j, j < i ∧ (id <$> o) !! j = Some a) as Hstep.
  { clear -Hnd Ho. intros ? a i (x & (k & Hk)%list_elem_of_lookup & <- & Hd) Hi.
    assert (i = k) as -> by (eapply NoDup_lookup; [done|done|by rewrite list_lookup_fmap, Hk]).
    pose proof (Ho _ _ _ (eq_sym (take_drop_middle o k x Hk)) a Hd) as (j & Hj)%list_elem_of_lookup.
    pose proof (lookup_lt_Some _ _ _ Hj) as Hlt. rewrite length_fmap, length_take in Hlt.
    exists j. split; [lia|]. by rewrite fmap_take, lookup_take_lt in Hj by lia. }
  induction Hab as [|b c a Hbc Hca IH]; intros i Hi; [by eapply Hstep|].
  destruct (Hstep _ _ _ Hbc Hi) as (j & Hj & Hc). destruct (IH j Hc) as (k & Hk & Ha).
  exists k. split; [lia|done].
Qed.

Lemma in_order_acyclic o a : NoDup (id <$> o) → in_order o → ¬ tc (waits_for o) a a.
Proof.
  intros Hnd Ho Ha.
  assert (∀ i, (id <$> o) !! i ≠ Some a) as Hno.
  { intros i. induction (lt_wf i) as [i _ IH]. intros Hi.
    destruct (in_order_back o a a i Hnd Ho Ha Hi) as (j & Hj & Hja). by eapply IH. }
  assert (a ∈ (id <$> o)) as (i & Hi)%list_elem_of_lookup; [|by eapply Hno].
  inversion Ha as [? ? (x & Hx & <- & _)|? ? ? (x & Hx & <- & _)]; subst; by apply list_elem_of_fmap_2.
Qed.

(** While items remain and nothing waits for itself, some item is ready. *)
Lemma orderable_ready items visited ordered :
  orderable items → taken items visited ordered → length ordered < length items →
  ∃ x, x ∈ items ∧ takes visited x = true.
Proof.
  intros (Hnd & Hdeps & Hac) (-> & Hnv & Hin & _) Hl.
  assert (∃ x, x ∈ items ∧ id x ∉ (id <$> ordered)) as (x & Hx & Hnx).
  { destruct (decide (Exists (λ x, id x ∉ (id <$> ordered)) items)) as [He|Hne];
      [by apply Exists_exists in He|].
    assert (length (id <$> items) ≤ length (id <$> ordered)); [|rewrite !length_fmap in *; lia].
    apply submseteq_length, NoDup_submseteq; [done|]. intros y (x & -> & Hx)%list_elem_of_fmap.
    destruct (decide (id x ∈ (id <$> ordered))); [done|]. exfalso. apply Hne, Exists_exists. eauto. }
  assert (sn (waits_for items) (id x)) as Hsn.
  { apply tc_finite_sn; [exact Hac|]. exists (id <$> items). intros y Hy. clear -Hy Hdeps.
    induction Hy as [? ? (z & Hz & <- & Hd)|]; [by eapply Hdeps|done]. }
  remember (id x) as a eqn:Ea. revert x Hx Ea Hnx.
  induction Hsn as [a _ IH]. intros x Hx -> Hnx.
  destruct (takes (id <$> ordered) x) eqn:E; [eauto|].
  assert (¬ ∀ d, d ∈ deps x → d ∈ (id <$> ordered)) as Hmiss.
  { intros Hall. rewrite (proj2 (takes_true _ x)) in E by done. done. }
  destruct (decide (Exists (λ d, d ∉ (id <$> ordered)) (deps x))) as [He|Hne].
  - apply Exists_exists in He as (d & Hd & Hnd').
    destruct (proj1 (list_elem_of_fmap id items d) (Hdeps x d Hx Hd)) as (y & -> & Hy).
    apply (IH (id y)) with y; [by exists x|done|done|done].
  - exfalso. apply Hmiss. intros d Hd. destruct (decide (d ∈ (id <$> ordered))); [done|].
    exfalso. apply Hne, Exists_exists. eauto.
Qed.

Lemma order_loop_complete fuel items visited ordered :
  orderable items → taken items visited ordered → length items ≤ fuel + length ordered →
  ∃ o, order_loop fuel items visited ordered = Some (Ok o).
Proof.
  intros Hor. revert visited ordered. induction fuel as [|fuel IH]; intros visited ordered Ht Hl;
    cbn [order_loop]; destruct (Nat.ltb_spec (length ordered) (length items)) as [Hlt|];
    try (by eexists); [lia|].
  pose proof (order_pass_taken items items visited ordered Ht (λ _ H, H)) as Hp.
  pose proof (order_pass_stuck items visited ordered) as Hs.
  destruct (order_pass_grows items visited ordered) as (more & Ho & _).
  destruct (order_pass visited ordered items) as [v' o']. cbn in *. subst o'.
  destruct (Nat.eqb_spec (length (ordered ++ more)) (length ordered)) as [He|Hne].
  - destruct (orderable_ready items visited ordered Hor Ht Hlt) as (x & Hx & Hr).
    rewrite (Hs He x Hx) in Hr. done.
  - apply IH; [done|]. rewrite length_app in *. lia.
Qed.

Lemma taken_nil items : taken items [] [].
Proof.
  split_and!; [done|constructor|by intros x Hx%not_elem_of_nil|].
  intros [|] ? ? ?; done.
Qed.

Lemma waits_for_perm items items' b a : items ≡ₚ items' → waits_for items b a → waits_for items' b a.
Proof. intros Hp (x & Hx & H). exists x. by rewrite <-Hp. Qed.

(** The loop answers within its fuel; a success is an order of the items; it
    succeeds exactly on orderable items, and fails with [cycle] otherwise. *)
Lemma order_sound items o :
  order_items items = Ok o → o ≡ₚ items ∧ in_order o ∧ orderable items.
Proof.
  unfold order_items. destruct (order_loop _ _ _ _) as [[]|] eqn:E; try done. cbn. intros [= ->].
  apply order_loop_sound in E as (Hp & Hnd & Ho); [|apply taken_nil].
  split_and!; [done|done|]. split_and!.
  - by rewrite <-Hp.
  - intros x d Hx Hd. rewrite <-Hp in Hx. apply list_elem_of_split in Hx as (l1 & l2 & He).
    rewrite <-Hp, He, fmap_app, elem_of_app. left. by eapply Ho.
  - intros a Ha. eapply (in_order_acyclic o a); [done|done|].
    refine (tc_congruence (R := waits_for items) (λ z, z) (waits_for o) a a _ Ha).
    intros b c. by apply waits_for_perm.
Qed.

Lemma order_complete items : orderable items → ∃ o, order_items items = Ok o.
Proof.
  intros Hor. unfold order_items.
  destruct (order_loop_complete (length items) items [] [] Hor (taken_nil items)) as (o & ->);
    [lia|by exists o].
Qed.

Lemma order_loop_error fuel items visited ordered e :
  order_loop fuel items visited ordered = Some (Err e) → e = Bail cycle.
Proof.
  revert visited ordered. induction fuel as [|fuel IH]; intros visited ordered; cbn [order_loop];
    destruct (Nat.ltb _ _); try done.
  destruct (order_pass visited ordered items) as [v o].
  destruct (Nat.eqb _ _); [congruence|apply IH].
Qed.

Lemma order_error items e : order_items items = Err e → e = Bail cycle ∧ ¬ orderable items.
Proof.
  intros He. split.
  - unfold order_items in He.
    destruct (order_loop_total (length items) items [] []) as [r Hr]; [lia|].
    rewrite Hr in He. cbn in He. subst r. by eapply order_loop_error.
  - intros [o Ho]%order_complete. congruence.
Qed.

Lemma order_loop_spec items :
  is_Some (order_loop (length items) items [] []) ∧
  (∀ o, order_items items = Ok o → o ≡ₚ items ∧ in_order o) ∧
  (order_items items = Err (Bail cycle) ↔ ¬ orderable items) ∧
  ((∃ o, order_items items = Ok o) ↔ orderable items).
Proof.
  split_and!.
  - apply order_loop_total. lia.
  - intros o (? & ? & _)%order_sound. done.
  - split; [by intros [_ ?]%order_error|]. intros Hn.
    destruct (order_items items) as [o|e] eqn:E; [by apply order_sound in E as (_ & _ & ?)|].
    by apply order_error in E as [-> _].
  - split; [by intros (o & (_ & _ & ?)%order_sound)|apply order_complete].
Qed.
End Ordering.
