(* ===== verification/Recipe.v ===== *)
(** * Recipe: workflow recipes

    run_recipe.rs (recipes, their sources, frozen snapshots) and
    run_recipe_compilation.rs (validation, the order of the stages, the gates).
    A [HashMap] or [HashSet] of identifiers is a [gmap] or [gset] over strings.

    The JSON form of a recipe and the SHA-256 digests are parameters
    ([RecipeLib]).  The walk over the ancestors of the Product stage indexes the
    stages by dependency, which panics on an unknown name; the model returns
    [None] there, as it does without fuel, and [ancestors_total] shows that
    neither happens once the dependencies were checked. *)

From S2P Require Import Prelude Text Models Store RoleContract Ordering.
From Stdlib Require Import ZArith Lia Ascii String.
From stdpp Require Import strings gmap prelude.

Inductive WorkflowHumanGate : Type := Foundation | Product.
#[export] Instance WorkflowHumanGate_eq_dec : EqDecision WorkflowHumanGate.
Proof. solve_decision. Defined.

Record WorkflowRecipeRole : Type := MkRecipeRole {
  wr_id : string;
  wr_name : string;
  wr_contract_id : string;
  wr_contract_revision : Z
}.

Record WorkflowRecipeStage : Type := MkRecipeStage {
  ws_id : string;
  ws_name : string;
  ws_purpose : string;
  ws_roles : list string;
  ws_depends_on : list string;
  ws_gate : option WorkflowHumanGate
}.

Record WorkflowRecipeV1 : Type := MkRecipe {
  wf_version : Z;
  wf_id : string;
  wf_revision : Z;
  wf_name : string;
  wf_description : string;
  wf_coordinator_instructions : string;
  wf_roles : list WorkflowRecipeRole;
  wf_contracts : list RoleContractV1;
  wf_stages : list WorkflowRecipeStage
}.

Inductive WorkflowRecipeSource : Type :=
| BuiltIn (id : string)
| Personal (id : string)
| Project (workspace_id path : string).
#[export] Instance WorkflowRecipeSource_eq_dec : EqDecision WorkflowRecipeSource.
Proof. solve_decision. Defined.

Record WorkflowRecipeSnapshot : Type := MkRecipeSnapshot {
  rs_version : Z;
  rs_source : WorkflowRecipeSource;
  rs_recipe : WorkflowRecipeV1;
  rs_digest : string
}.

(** [serde_json::to_value] of a recipe, and the hex SHA-256 of the sorted JSON
    of a recipe and of the triple version, source, recipe. *)
Class RecipeLib : Type := {
  recipe_value : WorkflowRecipeV1 → json;
  recipe_hash : WorkflowRecipeV1 → string;
  recipe_snapshot_hash : Z → WorkflowRecipeSource → WorkflowRecipeV1 → string
}.

Definition WORKFLOW_DOCUMENT_MAX_BYTES : Z := 256 * 1024.

(** [text] of run_recipe_compilation.rs. *)
Definition recipe_text (value : string) (max : Z) (label : string) : R unit :=
  ensure (negb (is_blank value || (max <? zlen value)%Z || has_nul value))
    ("workflow " +:+ label +:+ " is empty, too long or contains NUL").

Definition unique (values : list string) (label : string) : R unit :=
  ensure (bool_decide (size (list_to_set values : gset string) = length values))
    ("workflow " +:+ label +:+ " contains duplicates").

(** ** The loops of [validate] *)

Section Recipes.
Context `{Env, ContractLib, RecipeLib}.

Fixpoint contracts_loop (contracts : gmap string RoleContractV1) (l : list RoleContractV1)
    : R (gmap string RoleContractV1) :=
  match l with
  | [] => Ok contracts
  | contract :: l =>
      try! _ := contract_validate contract in
      if bool_decide (is_Some (contracts !! rc_id contract))
      then Err (Bail "duplicate workflow contract id")
      else contracts_loop (<[rc_id contract := contract]> contracts) l
  end.

Fixpoint roles_loop (contracts : gmap string RoleContractV1) (roles used_contracts : gset string)
    (l : list WorkflowRecipeRole) : R (gset string * gset string) :=
  match l with
  | [] => Ok (roles, used_contracts)
  | role :: l =>
      try! _ := portable_id (wr_id role) in
      try! _ := recipe_text (wr_name role) 160 "role name" in
      if bool_decide (wr_id role ∈ roles) then Err (Bail "duplicate workflow role id")
      else
        try! _ := ensure
          (match contracts !! wr_contract_id role with
           | Some contract => (rc_revision contract =? wr_contract_revision role)%Z
           | None => false
           end) "workflow role references a missing contract revision" in
        roles_loop contracts ({[wr_id role]} ∪ roles) ({[wr_contract_id role]} ∪ used_contracts) l
  end.

Fixpoint stage_roles_loop (roles used_roles : gset string) (l : list string) : R (gset string) :=
  match l with
  | [] => Ok used_roles
  | role :: l =>
      try! _ := ensure (bool_decide (role ∈ roles)) "workflow stage references a missing role" in
      stage_roles_loop roles ({[role]} ∪ used_roles) l
  end.

Fixpoint stages_loop (roles : gset string) (stages : gmap string WorkflowRecipeStage)
    (used_roles : gset string) (l : list WorkflowRecipeStage)
    : R (gmap string WorkflowRecipeStage * gset string) :=
  match l with
  | [] => Ok (stages, used_roles)
  | stage :: l =>
      try! _ := portable_id (ws_id stage) in
      try! _ := recipe_text (ws_name stage) 160 "stage name" in
      try! _ := recipe_text (ws_purpose stage) 4096 "stage purpose" in
      if bool_decide (is_Some (stages !! ws_id stage)) then Err (Bail "duplicate workflow stage id")
      else
        try! _ := ensure (negb (Nat.eqb (length (ws_roles stage)) 0
                                || Nat.ltb 16 (length (ws_roles stage))
                                || Nat.ltb 16 (length (ws_depends_on stage))))
          "workflow stage has invalid role or dependency counts" in
        try! _ := unique (ws_roles stage) "stage roles" in
        try! _ := unique (ws_depends_on stage) "stage dependencies" in
        try! used_roles := stage_roles_loop roles used_roles (ws_roles stage) in
        stages_loop roles (<[ws_id stage := stage]> stages) used_roles l
  end.

(** [stage_order] *)
Definition stage_order (r : WorkflowRecipeV1) : R (list string) :=
  try! ordered := order_items ws_id ws_depends_on
    "workflow stage dependencies contain a cycle or missing reference" (wf_stages r) in
  Ok (ws_id <$> ordered).

Definition gated (gate : WorkflowHumanGate) (r : WorkflowRecipeV1) : list WorkflowRecipeStage :=
  List.filter (λ s, bool_decide (ws_gate s = Some gate)) (wf_stages r).

(** The [while let] over the stack of pending identifiers (innermost first). *)
Fixpoint ancestors_loop (fuel : nat) (stages : gmap string WorkflowRecipeStage)
    (ancestors : gset string) (pending : list string) : option (gset string) :=
  match pending with
  | [] => Some ancestors
  | id :: pending =>
      match fuel with
      | 0%nat => None
      | S fuel =>
          if bool_decide (id ∈ ancestors) then ancestors_loop fuel stages ancestors pending
          else
            stage ← stages !! id;
            ancestors_loop fuel stages ({[id]} ∪ ancestors) (reverse (ws_depends_on stage) ++ pending)
      end
  end.

Definition stage_edges (stages : list WorkflowRecipeStage) : nat :=
  sum_list (length ∘ ws_depends_on <$> stages).

Definition product_follows (r : WorkflowRecipeV1) (stages : gmap string WorkflowRecipeStage)
    (product : WorkflowRecipeStage) : R unit :=
  match ancestors_loop (length (ws_depends_on product) + stage_edges (wf_stages r)) stages ∅
          (reverse (ws_depends_on product)) with
  | Some ancestors => ensure (bool_decide (size ancestors + 1 = size stages))
      "Product gate must follow every other stage"
  | None => Err (Bail "panic: unknown stage")
  end.

Definition recipe_validate (r : WorkflowRecipeV1) : R unit :=
  try! _ := ensure (negb (negb (wf_version r =? 1)%Z || (wf_revision r =? 0)%Z))
    "workflow recipe requires version 1 and a positive revision" in
  try! _ := portable_id (wf_id r) in
  try! _ := recipe_text (wf_name r) 160 "name" in
  try! _ := recipe_text (wf_description r) 4096 "description" in
  try! _ := recipe_text (wf_coordinator_instructions r) 16384 "coordinator instructions" in
  try! _ := bounded_json (recipe_value r) WORKFLOW_DOCUMENT_MAX_BYTES in
  try! _ := rmap_ (λ '(label, n), ensure (negb (Nat.eqb n 0 || Nat.ltb 16 n))
      ("workflow recipe requires 1-16 " +:+ label))
    [("roles", length (wf_roles r)); ("contracts", length (wf_contracts r));
     ("stages", length (wf_stages r))] in
  try! contracts := contracts_loop ∅ (wf_contracts r) in
  try! (roles, used_contracts) := roles_loop contracts ∅ ∅ (wf_roles r) in
  try! _ := ensure (bool_decide (size used_contracts = size contracts))
    "workflow recipe contains an unused contract" in
  try! (stages, used_roles) := stages_loop roles ∅ ∅ (wf_stages r) in
  try! _ := ensure (bool_decide (size used_roles = size roles))
    "workflow recipe contains an unused role" in
  try! _ := rmap_ (λ stage, ensure
      (negb (existsb (λ d, String.eqb d (ws_id stage) || negb (bool_decide (is_Some (stages !! d))))
               (ws_depends_on stage)))
      "workflow stage has a missing or self dependency") (wf_stages r) in
  try! _ := stage_order r in
  try! _ := ensure (negb (Nat.ltb 1 (length (gated Foundation r))
                          || Nat.ltb 1 (length (gated Product r))))
    "workflow recipes allow at most one Foundation and one Product gate" in
  match gated Product r with
  | product :: _ => product_follows r stages product
  | [] => Ok tt
  end.

(** ** Sources and snapshots *)

(** [str::strip_prefix] *)
Fixpoint strip_prefix (prefix s : string) : option string :=
  match prefix, s with
  | EmptyString, _ => Some s
  | String a p, String b s => if Ascii.eqb a b then strip_prefix p s else None
  | _, EmptyString => None
  end.

(** [str::ends_with] *)
Definition ends_with (suffix s : string) : bool :=
  Nat.leb (String.length suffix) (String.length s)
  && String.eqb (substring (String.length s - String.length suffix) (String.length suffix) s) suffix.

Definition source_validate (s : WorkflowRecipeSource) (recipe_id : string) : R unit :=
  match s with
  | BuiltIn id | Personal id =>
      try! _ := portable_id id in
      ensure (String.eqb id recipe_id) "workflow source id does not match the recipe"
  | Project workspace_id path =>
      try! _ := ensure (negb (String.eqb workspace_id "" || (160 <? zlen workspace_id)%Z))
        "workflow source requires a workspace id" in
      try! _ := artifact_path path in
      try! file := with_context (strip_prefix ".alera/workflows/" path)
        "project workflow source must be in .alera/workflows" in
      ensure (negb (str_contains "/" file || negb (ends_with ".yaml" file)))
        "project workflow source must be a direct YAML file"
  end.

Definition recipe_freeze (source : WorkflowRecipeSource) (recipe : WorkflowRecipeV1)
    : R WorkflowRecipeSnapshot :=
  try! _ := recipe_validate recipe in
  try! _ := source_validate source (wf_id recipe) in
  Ok (MkRecipeSnapshot 1 source recipe (recipe_snapshot_hash 1 source recipe)).

Definition recipe_snapshot_validate (s : WorkflowRecipeSnapshot) : R unit :=
  try! _ := recipe_validate (rs_recipe s) in
  try! _ := source_validate (rs_source s) (wf_id (rs_recipe s)) in
  ensure ((rs_version s =? 1)%Z
          && String.eqb (rs_digest s) (recipe_snapshot_hash (rs_version s) (rs_source s) (rs_recipe s)))
    "workflow recipe snapshot does not match its frozen contents".
End Recipes.
