(* ===== verification/RecipeFacts.v ===== *)
(** * RecipeFacts: a recipe is accepted exactly when it is well formed

    [well_formed_recipe] says what a recipe promises without the loops, maps and
    counters of [WorkflowRecipeV1::validate]; [recipe_validate_spec] shows that
    the code accepts exactly the well-formed recipes.  The counting checks of
    the code (as many used contracts as contracts, as many ancestors of the
    Product stage as other stages) become statements about every contract and
    every stage. *)

From S2P Require Import Prelude Text Models Store RoleContract Ordering Recipe.
From Stdlib Require Import ZArith Lia Ascii String.
From stdpp Require Import strings gmap prelude relations fin_sets.

(** ** Shared facts *)

Lemma rbind_ok {A B} (m : Result A) (k : A → Result B) b :
  rbind m k = Ok b ↔ ∃ a, m = Ok a ∧ k a = Ok b.
Proof. destruct m; naive_solver. Qed.

Lemma rbind_unit_ok {B} (m : Result unit) (k : unit → Result B) b :
  rbind m k = Ok b ↔ m = Ok tt ∧ k tt = Ok b.
Proof. destruct m as [[]|]; naive_solver. Qed.

Lemma rmap_ok {A} (f : A → R unit) l : rmap_ f l = Ok tt ↔ ∀ x, x ∈ l → f x = Ok tt.
Proof.
  split; [by intros; eapply rmap_ok_inv|].
  induction l as [|y l IH]; cbn; [done|]. intros Hall.
  rewrite (Hall y) by left. cbn. apply IH. intros x Hx. apply Hall. by right.
Qed.

(** Rows indexed by a key, in the order of insertion. *)
Definition index_by {A} (key : A → string) (m : gmap string A) (l : list A) : gmap string A :=
  foldl (λ m x, <[key x := x]> m) m l.

Lemma index_by_lookup {A} (key : A → string) m l k :
  NoDup (key <$> l) → (∀ x, x ∈ l → m !! key x = None) →
  ∀ x, index_by key m l !! k = Some x ↔ (x ∈ l ∧ key x = k) ∨ m !! k = Some x.
Proof.
  unfold index_by. revert m. induction l as [|y l IH]; intros m Hnd Hf x; cbn.
  - set_solver.
  - cbn in Hnd. apply NoDup_cons in Hnd as [Hy Hnd]. rewrite IH; [|done|].
    + rewrite elem_of_cons, lookup_insert_Some. split.
      * intros [[Hx <-]|[[<- ->]|[Hk Hm]]]; auto.
      * intros [[[->|Hx] <-]|Hm]; auto.
        destruct (decide (key y = k)) as [<-|]; [|by auto].
        rewrite Hf in Hm by left. done.
    + intros z Hz. rewrite lookup_insert_ne; [apply Hf; by right|].
      intros He. apply Hy. rewrite He. by apply list_elem_of_fmap_2.
Qed.

Lemma index_by_dom {A} (key : A → string) m l :
  dom (index_by key m l) = list_to_set (key <$> l) ∪ dom m.
Proof.
  unfold index_by. revert m. induction l as [|y l IH]; intros m; cbn; [set_solver|].
  rewrite IH, dom_insert_L. set_solver.
Qed.

Lemma size_list_to_set_le (l : list string) : size (list_to_set l : gset string) ≤ length l.
Proof.
  induction l as [|x l IH]; cbn; [by rewrite size_empty|].
  destruct (decide (x ∈ l)) as [Hx|Hx].
  - replace ({[x]} ∪ list_to_set l : gset string) with (list_to_set l : gset string) by set_solver. lia.
  - rewrite size_union, size_singleton by set_solver. lia.
Qed.

Lemma unique_ok values label : unique values label = Ok tt ↔ NoDup values.
Proof.
  unfold unique. rewrite ensure_ok, bool_decide_eq_true. split.
  - induction values as [|x l IH]; cbn; intros Hs; [constructor|].
    pose proof (size_list_to_set_le l). destruct (decide (x ∈ l)) as [Hx|Hx].
    + replace ({[x]} ∪ list_to_set l : gset string) with (list_to_set l : gset string) in Hs
        by set_solver. lia.
    + constructor; [done|]. apply IH. rewrite size_union, size_singleton in Hs by set_solver. lia.
  - intros Hnd. by apply size_list_to_set.
Qed.

(** A subset with as many elements is the whole set. *)
Lemma same_size (X Y : gset string) : X ⊆ Y → (size X = size Y ↔ Y ⊆ X).
Proof.
  intros Hs. split.
  - intros He. by apply set_subseteq_size_eq in Hs as ->; [|lia].
  - intros Hr. f_equal. set_solver.
Qed.

(** Rows with new, distinct keys. *)
Definition fresh_keys {A} (key : A → string) (s : gset string) (l : list A) : Prop :=
  NoDup (key <$> l) ∧ Forall (λ x, key x ∉ s) l.

Lemma fresh_keys_nil {A} (key : A → string) s : fresh_keys key s [].
Proof. split; constructor. Qed.

Lemma fresh_keys_cons {A} (key : A → string) s x l :
  fresh_keys key s (x :: l) ↔ (key x ∉ s) ∧ fresh_keys key ({[key x]} ∪ s) l.
Proof.
  unfold fresh_keys. cbn. rewrite NoDup_cons, Forall_cons, !Forall_forall. split.
  - intros ((Hx & Hnd) & Hs & Hl). split_and!; [done..|]. intros y Hy.
    rewrite not_elem_of_union, not_elem_of_singleton. split; [|by apply Hl].
    intros He. apply Hx. rewrite <-He. by apply list_elem_of_fmap_2.
  - intros (Hs & Hnd & Hl). split_and!; [|done|done|].
    + intros (y & He & Hy)%list_elem_of_fmap. specialize (Hl y Hy). set_solver.
    + intros y Hy. specialize (Hl y Hy). set_solver.
Qed.

Lemma fresh_keys_empty {A} (key : A → string) l : fresh_keys key ∅ l ↔ NoDup (key <$> l).
Proof.
  unfold fresh_keys. split; [by intros []|]. intros ?. split; [done|].
  apply Forall_forall. intros x _. apply not_elem_of_empty.
Qed.

(** ** Specification *)

Definition good_text (value : string) (max : Z) : Prop :=
  is_blank value = false ∧ (zlen value ≤ max)%Z ∧ has_nul value = false.

Section Spec.
Context `{Env, ContractLib, RecipeLib}.

Record role_ok (contracts : list RoleContractV1) (role : WorkflowRecipeRole) : Prop := {
  role_id_ok : portable_id (wr_id role) = Ok tt;
  role_name_ok : good_text (wr_name role) 160;
  role_contract_ok : ∃ c, c ∈ contracts ∧ rc_id c = wr_contract_id role ∧
                          rc_revision c = wr_contract_revision role
}.

Record stage_ok (roles : list WorkflowRecipeRole) (stage : WorkflowRecipeStage) : Prop := {
  stage_id_ok : portable_id (ws_id stage) = Ok tt;
  stage_name_ok : good_text (ws_name stage) 160;
  stage_purpose_ok : good_text (ws_purpose stage) 4096;
  stage_roles_count : 1 ≤ length (ws_roles stage) ≤ 16;
  stage_deps_count : length (ws_depends_on stage) ≤ 16;
  stage_roles_nodup : NoDup (ws_roles stage);
  stage_deps_nodup : NoDup (ws_depends_on stage);
  stage_roles_known : ∀ role, role ∈ ws_roles stage → role ∈ (wr_id <$> roles)
}.

Definition stage_before (r : WorkflowRecipeV1) : string → string → Prop :=
  tc (waits_for ws_id ws_depends_on (wf_stages r)).

Record well_formed_recipe (r : WorkflowRecipeV1) : Prop := {
  wfr_version : wf_version r = 1%Z;
  wfr_revision : wf_revision r ≠ 0%Z;
  wfr_id : portable_id (wf_id r) = Ok tt;
  wfr_name : good_text (wf_name r) 160;
  wfr_description : good_text (wf_description r) 4096;
  wfr_instructions : good_text (wf_coordinator_instructions r) 16384;
  wfr_size : bounded_json (recipe_value r) WORKFLOW_DOCUMENT_MAX_BYTES = Ok tt;
  wfr_role_count : 1 ≤ length (wf_roles r) ≤ 16;
  wfr_contract_count : 1 ≤ length (wf_contracts r) ≤ 16;
  wfr_stage_count : 1 ≤ length (wf_stages r) ≤ 16;
  wfr_contracts : ∀ c, c ∈ wf_contracts r → contract_validate c = Ok tt;
  wfr_contract_ids : NoDup (rc_id <$> wf_contracts r);
  wfr_roles : ∀ role, role ∈ wf_roles r → role_ok (wf_contracts r) role;
  wfr_role_ids : NoDup (wr_id <$> wf_roles r);
  wfr_contracts_used : ∀ c, c ∈ wf_contracts r →
    ∃ role, role ∈ wf_roles r ∧ wr_contract_id role = rc_id c;
  wfr_stages : ∀ stage, stage ∈ wf_stages r → stage_ok (wf_roles r) stage;
  wfr_roles_used : ∀ role, role ∈ wf_roles r →
    ∃ stage, stage ∈ wf_stages r ∧ wr_id role ∈ ws_roles stage;
  wfr_order : orderable ws_id ws_depends_on (wf_stages r);
  wfr_foundation : length (gated Foundation r) ≤ 1;
  wfr_product : length (gated Product r) ≤ 1;
  wfr_product_last : ∀ p s, p ∈ wf_stages r → ws_gate p = Some Product →
    s ∈ wf_stages r → s ≠ p → stage_before r (ws_id p) (ws_id s)
}.

(** ** The loops *)

Lemma recipe_text_ok value max label : recipe_text value max label = Ok tt ↔ good_text value max.
Proof.
  unfold recipe_text, good_text. rewrite ensure_ok, negb_true_iff, !orb_false_iff, Z.ltb_ge. tauto.
Qed.

Lemma contracts_loop_ok m l m' :
  contracts_loop m l = Ok m' ↔
  Forall (λ c, contract_validate c = Ok tt) l ∧ fresh_keys rc_id (dom m) l ∧ m' = index_by rc_id m l.
Proof.
  revert m. induction l as [|c l IH]; intros m; cbn.
  - pose proof (fresh_keys_nil rc_id (dom m)). rewrite Forall_nil. naive_solver.
  - rewrite rbind_unit_ok, Forall_cons, fresh_keys_cons, not_elem_of_dom. case_bool_decide as Hm.
    + split; [by intros []|]. intros (_ & [Hn _] & _). rewrite Hn in Hm. by apply is_Some_None in Hm.
    + rewrite <-eq_None_not_Some in Hm. rewrite IH, dom_insert_L. tauto.
Qed.

Definition role_checked (contracts : gmap string RoleContractV1) (role : WorkflowRecipeRole) : Prop :=
  portable_id (wr_id role) = Ok tt ∧ good_text (wr_name role) 160 ∧
  ∃ c, contracts !! wr_contract_id role = Some c ∧ rc_revision c = wr_contract_revision role.

Lemma roles_loop_ok contracts roles used l res :
  roles_loop contracts roles used l = Ok res ↔
  Forall (role_checked contracts) l ∧ fresh_keys wr_id roles l ∧
  res = (list_to_set (wr_id <$> l) ∪ roles, list_to_set (wr_contract_id <$> l) ∪ used).
Proof.
  revert roles used. induction l as [|c l IH]; intros roles used; cbn.
  - rewrite !(left_id_L ∅ (∪)). pose proof (fresh_keys_nil wr_id roles). rewrite Forall_nil.
    naive_solver.
  - rewrite !rbind_unit_ok, recipe_text_ok, Forall_cons, fresh_keys_cons. case_bool_decide as Hm;
      [split; [by intros (_ & _ & ?)|]; by intros (_ & [? _] & _)|].
    rewrite rbind_unit_ok, IH, ensure_ok.
    assert (match contracts !! wr_contract_id c with
            | Some contract => (rc_revision contract =? wr_contract_revision c)%Z
            | None => false
            end = true ↔
            ∃ d, contracts !! wr_contract_id c = Some d ∧ rc_revision d = wr_contract_revision c) as ->.
    { clear. destruct (contracts !! wr_contract_id c) as [d|]; [rewrite Z.eqb_eq|]; naive_solver. }
    assert (∀ X Y Z : gset string, X ∪ (Y ∪ Z) = Y ∪ X ∪ Z) as Hun by (clear; set_solver).
    rewrite !Hun. unfold role_checked. tauto.
Qed.

Lemma stage_roles_loop_ok roles used l res :
  stage_roles_loop roles used l = Ok res ↔
  (∀ role, role ∈ l → role ∈ roles) ∧ res = list_to_set l ∪ used.
Proof.
  revert used. induction l as [|x l IH]; intros used; cbn.
  - rewrite (left_id_L ∅ (∪)). split; [intros [= <-]; set_solver|by intros [_ ->]].
  - rewrite rbind_unit_ok, ensure_ok, bool_decide_eq_true, IH.
    assert (list_to_set l ∪ ({[x]} ∪ used) = {[x]} ∪ list_to_set l ∪ used) as -> by set_solver.
    set_solver.
Qed.

Definition stage_checked (roles : gset string) (stage : WorkflowRecipeStage) : Prop :=
  portable_id (ws_id stage) = Ok tt ∧ good_text (ws_name stage) 160 ∧
  good_text (ws_purpose stage) 4096 ∧ 1 ≤ length (ws_roles stage) ≤ 16 ∧
  length (ws_depends_on stage) ≤ 16 ∧ NoDup (ws_roles stage) ∧ NoDup (ws_depends_on stage) ∧
  (∀ role, role ∈ ws_roles stage → role ∈ roles).

Lemma stages_loop_ok roles m used l res :
  stages_loop roles m used l = Ok res ↔
  Forall (stage_checked roles) l ∧ fresh_keys ws_id (dom m) l ∧
  res = (index_by ws_id m l, list_to_set (l ≫= ws_roles) ∪ used).
Proof.
  revert m used. induction l as [|c l IH]; intros m used; cbn [stages_loop].
  - cbn. rewrite !(left_id_L ∅ (∪)). pose proof (fresh_keys_nil ws_id (dom m)). rewrite Forall_nil.
    naive_solver.
  - rewrite !rbind_unit_ok, !recipe_text_ok, Forall_cons, fresh_keys_cons, not_elem_of_dom.
    case_bool_decide as Hm.
    { split; [by intros (_ & _ & _ & ?)|]. intros (_ & [Hn _] & _). rewrite Hn in Hm.
      by apply is_Some_None in Hm. }
    rewrite <-eq_None_not_Some in Hm. rewrite !rbind_unit_ok, !unique_ok, ensure_ok, rbind_ok.
    setoid_rewrite stage_roles_loop_ok. setoid_rewrite IH. rewrite dom_insert_L.
    rewrite negb_true_iff, !orb_false_iff, Nat.eqb_neq, !Nat.ltb_ge.
    assert (∀ X Y Z : gset string, X ∪ (Y ∪ Z) = Y ∪ X ∪ Z) as Hun by (clear; set_solver).
    rewrite bind_cons, list_to_set_app_L. unfold stage_checked. split.
    + intros (? & ? & ? & ? & ? & ? & a & [? ->] & ? & ? & ->). rewrite Hun.
      split_and!; try tauto; lia.
    + intros (((? & ? & ? & ? & ? & ? & ? & ?) & ?) & [? ?] & ->). rewrite <-Hun. split_and!; try tauto; [lia|].
      eexists. split_and!; try done; tauto.
Qed.

(** ** The ancestors of the Product stage *)

Definition edges_left (anc : gset string) (l : list WorkflowRecipeStage) : nat :=
  stage_edges (List.filter (λ s, negb (bool_decide (ws_id s ∈ anc))) l).

Lemma edges_left_mono anc anc' l : anc ⊆ anc' → edges_left anc' l ≤ edges_left anc l.
Proof.
  intros Hs. unfold edges_left, stage_edges. induction l as [|s l IH]; cbn; [done|].
  do 2 case_bool_decide; cbn; try lia. set_solver.
Qed.

Lemma edges_left_visit anc l s :
  s ∈ l → ws_id s ∉ anc →
  edges_left ({[ws_id s]} ∪ anc) l + length (ws_depends_on s) ≤ edges_left anc l.
Proof.
  intros Hs Hn. unfold edges_left, stage_edges. induction l as [|t l IH]; [by apply not_elem_of_nil in Hs|].
  apply elem_of_cons in Hs as [->|Hs]; cbn.
  - rewrite (bool_decide_true (ws_id t ∈ {[ws_id t]} ∪ anc)) by set_solver.
    rewrite (bool_decide_false (ws_id t ∈ anc)) by done. cbn.
    pose proof (edges_left_mono anc ({[ws_id t]} ∪ anc) l ltac:(set_solver)) as Hm.
    unfold edges_left, stage_edges in Hm. lia.
  - specialize (IH Hs). do 2 case_bool_decide; cbn; try lia. set_solver.
Qed.

Lemma edges_left_empty l : edges_left ∅ l = stage_edges l.
Proof. unfold edges_left. f_equal. induction l as [|s k IH]; cbn; [done|]. by rewrite IH. Qed.

Section Ancestors.
Context (l : list WorkflowRecipeStage) (b : string).
Hypothesis Hnd : NoDup (ws_id <$> l).
Hypothesis Hknown : ∀ s d, s ∈ l → d ∈ ws_depends_on s → d ∈ (ws_id <$> l).
Local Abbreviation W := (waits_for ws_id ws_depends_on l).

(** Everything reached is before [b]; what is not yet expanded is pending. *)
Definition walking (anc : gset string) (pending : list string) : Prop :=
  (∀ a, a ∈ anc ∨ a ∈ pending → tc W b a) ∧
  (∀ a d, a = b ∨ a ∈ anc → W a d → d ∈ anc ∨ d ∈ pending).

Lemma stage_index_lookup id s : index_by ws_id ∅ l !! id = Some s ↔ s ∈ l ∧ ws_id s = id.
Proof.
  rewrite index_by_lookup; [|done|intros; by rewrite lookup_empty]. rewrite lookup_empty. naive_solver.
Qed.

Lemma waits_for_stage s d : s ∈ l → W (ws_id s) d ↔ d ∈ ws_depends_on s.
Proof.
  intros Hs. split; [|by exists s]. intros (t & Ht & He & Hd).
  by rewrite <-(NoDup_key_inj ws_id l t s Hnd Ht Hs He).
Qed.

Lemma walking_done anc a : walking anc [] → tc W b a ↔ a ∈ anc.
Proof.
  intros [Hin Hout]. split; [|by auto]. intros Ht.
  assert (∀ x, tc W x a → x = b ∨ x ∈ anc → a ∈ anc) as Hgo; [|by eauto].
  clear Ht. intros x. induction 1 as [x a Hxa|x y a Hxy _ IH]; intros Hx.
  - by destruct (Hout x a Hx Hxa) as [?|?%not_elem_of_nil].
  - apply IH. right. by destruct (Hout x y Hx Hxy) as [?|?%not_elem_of_nil].
Qed.

Lemma walking_visit anc id pending s :
  walking anc (id :: pending) → s ∈ l → ws_id s = id →
  walking ({[id]} ∪ anc) (reverse (ws_depends_on s) ++ pending).
Proof.
  intros [Hin Hout] Hs <-. split.
  - intros a. rewrite elem_of_union, elem_of_singleton, elem_of_app, elem_of_reverse.
    intros [[->|?]|[Hd|?]]; [apply Hin; right; left|by apply Hin; left| |apply Hin; right; by right].
    apply tc_r with (ws_id s); [apply Hin; right; left|by apply waits_for_stage].
  - intros a d Ha Hd. rewrite elem_of_union, elem_of_singleton, elem_of_app, elem_of_reverse.
    destruct (decide (a = ws_id s)) as [->|Hne].
    + right. left. by apply waits_for_stage.
    + destruct (Hout a d) as [?|[?|?]%elem_of_cons]; [|done|auto..]. set_solver.
Qed.

Lemma walking_skip anc id pending :
  walking anc (id :: pending) → id ∈ anc → walking anc pending.
Proof.
  intros [Hin Hout] Hid. split; [intros a Ha; apply Hin; set_solver|].
  intros a d Ha Hd. destruct (Hout a d Ha Hd) as [?|[->|?]%elem_of_cons]; auto.
Qed.

Lemma ancestors_loop_spec fuel anc pending :
  walking anc pending → (∀ d, d ∈ pending → d ∈ (ws_id <$> l)) →
  length pending + edges_left anc l ≤ fuel →
  ∃ A, ancestors_loop fuel (index_by ws_id ∅ l) anc pending = Some A ∧ ∀ a, a ∈ A ↔ tc W b a.
Proof.
  revert anc pending. induction fuel as [|fuel IH]; intros anc [|id pending] Hw Hp Hf;
    cbn [ancestors_loop]; try (eexists; split; [done|]; intros a; by rewrite walking_done).
  { cbn in Hf. lia. }
  case_bool_decide as Hid.
  - apply IH; [by eapply walking_skip|intros d Hd; apply Hp; by right|cbn in Hf; lia].
  - destruct (proj1 (list_elem_of_fmap ws_id l id) (Hp id ltac:(left))) as (s & -> & Hs).
    rewrite (proj2 (stage_index_lookup (ws_id s) s)) by done. cbn.
    apply IH; [by apply walking_visit| |].
    + intros d. rewrite elem_of_app, elem_of_reverse. intros [Hd|Hd]; [by eapply Hknown|].
      apply Hp. by right.
    + pose proof (edges_left_visit anc l s Hs Hid). rewrite length_app, length_reverse.
      cbn in Hf. lia.
Qed.

Lemma walking_start p :
  p ∈ l → b = ws_id p → walking ∅ (reverse (ws_depends_on p)).
Proof.
  intros Hp Hb. split.
  - intros a. rewrite elem_of_reverse. intros [?%not_elem_of_empty|Hd]; [done|].
    apply tc_once. rewrite Hb. by apply waits_for_stage.
  - intros a d [->| ?%not_elem_of_empty] Hd; [|done]. right. rewrite elem_of_reverse.
    rewrite Hb in Hd. by apply waits_for_stage in Hd.
Qed.

Lemma ancestors_total p :
  p ∈ l → b = ws_id p →
  ∃ A, ancestors_loop (length (ws_depends_on p) + stage_edges l) (index_by ws_id ∅ l) ∅
         (reverse (ws_depends_on p)) = Some A ∧ ∀ a, a ∈ A ↔ tc W b a.
Proof.
  intros Hp Hb. apply ancestors_loop_spec; [by apply walking_start| |].
  - intros d. rewrite elem_of_reverse. by apply Hknown.
  - by rewrite length_reverse, edges_left_empty.
Qed.
End Ancestors.

(** Counting the ancestors decides whether every other stage is one. *)
Lemma product_follows_ok r p :
  orderable ws_id ws_depends_on (wf_stages r) → p ∈ wf_stages r →
  product_follows r (index_by ws_id ∅ (wf_stages r)) p = Ok tt ↔
  ∀ s, s ∈ wf_stages r → s ≠ p → stage_before r (ws_id p) (ws_id s).
Proof.
  intros (Hnd & Hknown & Hac) Hp. unfold product_follows.
  destruct (ancestors_total (wf_stages r) (ws_id p) Hnd Hknown p Hp eq_refl) as (A & -> & HA).
  rewrite ensure_ok, bool_decide_eq_true, <-size_dom, index_by_dom, dom_empty_L, (right_id_L ∅ (∪)).
  assert (A ⊆ list_to_set (ws_id <$> wf_stages r) ∖ {[ws_id p]}) as Hsub.
  { intros a Ha. apply HA in Ha. rewrite elem_of_difference, elem_of_list_to_set, elem_of_singleton.
    split; [|by intros ->; eapply Hac].
    clear -Ha Hknown. induction Ha as [? ? (z & Hz & <- & Hd)|]; [by eapply Hknown|done]. }
  assert (size (list_to_set (ws_id <$> wf_stages r) : gset string) =
          size (list_to_set (ws_id <$> wf_stages r) ∖ {[ws_id p]} : gset string) + 1) as ->.
  { rewrite size_difference, size_singleton; [|].
    - assert (0 < size (list_to_set (ws_id <$> wf_stages r) : gset string)); [|lia].
      rewrite size_list_to_set, length_fmap by done. destruct (wf_stages r); [set_solver|cbn; lia].
    - apply singleton_subseteq_l, elem_of_list_to_set. by apply list_elem_of_fmap_2. }
  transitivity (size A = size (list_to_set (ws_id <$> wf_stages r) ∖ {[ws_id p]} : gset string)); [lia|].
  rewrite same_size by done. unfold stage_before. setoid_rewrite <-HA. split.
  - intros Hs s Hin Hne. apply Hs. rewrite elem_of_difference, elem_of_list_to_set, elem_of_singleton.
    split; [by apply list_elem_of_fmap_2|]. intros He. apply Hne. by eapply (NoDup_key_inj ws_id).
  - intros Hs a. rewrite elem_of_difference, elem_of_list_to_set, elem_of_singleton.
    intros [(s & -> & Hin)%list_elem_of_fmap Hne]. apply Hs; [done|by intros ->].
Qed.

(** ** Validation *)

Lemma counts_ok r :
  rmap_ (λ '(label, n), ensure (negb (Nat.eqb n 0 || Nat.ltb 16 n))
      ("workflow recipe requires 1-16 " +:+ label))
    [("roles", length (wf_roles r)); ("contracts", length (wf_contracts r));
     ("stages", length (wf_stages r))] = Ok tt ↔
  1 ≤ length (wf_roles r) ≤ 16 ∧ 1 ≤ length (wf_contracts r) ≤ 16 ∧ 1 ≤ length (wf_stages r) ≤ 16.
Proof.
  cbn [rmap_]. rewrite !rbind_unit_ok, !ensure_ok, !negb_true_iff, !orb_false_iff, !Nat.eqb_neq,
    !Nat.ltb_ge. naive_solver lia.
Qed.

(** The roles the loop checks against the index of the contracts are the roles
    that name a contract of the recipe. *)
Lemma roles_checked r :
  NoDup (rc_id <$> wf_contracts r) →
  Forall (role_checked (index_by rc_id ∅ (wf_contracts r))) (wf_roles r) ↔
  ∀ role, role ∈ wf_roles r → role_ok (wf_contracts r) role.
Proof.
  intros Hnd. rewrite Forall_forall. unfold role_checked.
  setoid_rewrite (index_by_lookup rc_id ∅ _ _ Hnd); [|intros; by rewrite lookup_empty].
  setoid_rewrite lookup_empty. split.
  - intros Hall role Hr. destruct (Hall role Hr) as (? & ? & c & [[? ?]|?] & ?); [|done].
    split; eauto.
  - intros Hall role Hr. destruct (Hall role Hr) as [? ? (c & ? & ? & ?)]. eauto 10.
Qed.

Lemma stages_checked r :
  Forall (stage_checked (list_to_set (wr_id <$> wf_roles r))) (wf_stages r) ↔
  ∀ stage, stage ∈ wf_stages r → stage_ok (wf_roles r) stage.
Proof.
  rewrite Forall_forall. unfold stage_checked. setoid_rewrite elem_of_list_to_set. split.
  - intros Hall s Hs. destruct (Hall s Hs) as (? & ? & ? & ? & ? & ? & ? & ?). by split.
  - intros Hall s Hs. destruct (Hall s Hs). split_and!; try done; lia.
Qed.

Lemma contracts_used r :
  (∀ role, role ∈ wf_roles r → role_ok (wf_contracts r) role) →
  size (list_to_set (wr_contract_id <$> wf_roles r) : gset string) =
  size (index_by rc_id ∅ (wf_contracts r)) ↔
  ∀ c, c ∈ wf_contracts r → ∃ role, role ∈ wf_roles r ∧ wr_contract_id role = rc_id c.
Proof.
  intros Hr. rewrite <-(size_dom (index_by _ _ _)), index_by_dom, dom_empty_L, (right_id_L ∅ (∪)).
  rewrite same_size.
  - split.
    + intros Hs c Hc. assert (rc_id c ∈ (wr_contract_id <$> wf_roles r)) as (role & ? & ?)%list_elem_of_fmap.
      { apply (elem_of_list_to_set (C := gset string)), Hs, elem_of_list_to_set. by apply list_elem_of_fmap_2. }
      by exists role.
    + intros Hu a. rewrite !elem_of_list_to_set. intros (c & -> & Hc)%list_elem_of_fmap.
      destruct (Hu c Hc) as (role & ? & <-). by apply list_elem_of_fmap_2.
  - intros a. rewrite !elem_of_list_to_set. intros (role & -> & Hin)%list_elem_of_fmap.
    destruct (Hr role Hin) as [_ _ (c & Hc & <- & _)]. by apply list_elem_of_fmap_2.
Qed.

Lemma roles_used r :
  (∀ stage, stage ∈ wf_stages r → stage_ok (wf_roles r) stage) →
  size (list_to_set (wf_stages r ≫= ws_roles) : gset string) =
  size (list_to_set (wr_id <$> wf_roles r) : gset string) ↔
  ∀ role, role ∈ wf_roles r → ∃ stage, stage ∈ wf_stages r ∧ wr_id role ∈ ws_roles stage.
Proof.
  intros Hs. rewrite same_size.
  - split.
    + intros Hr role Hin. assert (wr_id role ∈ (wf_stages r ≫= ws_roles)) as (s & ? & ?)%list_elem_of_bind.
      { apply (elem_of_list_to_set (C := gset string)), Hr, elem_of_list_to_set. by apply list_elem_of_fmap_2. }
      by exists s.
    + intros Hu a. rewrite !elem_of_list_to_set. intros (role & -> & Hc)%list_elem_of_fmap.
      destruct (Hu role Hc) as (s & ? & ?). apply list_elem_of_bind. by exists s.
  - intros a. rewrite !elem_of_list_to_set. intros (s & Ha & Hin)%list_elem_of_bind.
    by apply (stage_roles_known _ _ (Hs s Hin)).
Qed.

Lemma deps_known r :
  NoDup (ws_id <$> wf_stages r) →
  rmap_ (λ stage, ensure
      (negb (existsb (λ d, String.eqb d (ws_id stage)
                           || negb (bool_decide (is_Some (index_by ws_id ∅ (wf_stages r) !! d))))
               (ws_depends_on stage)))
      "workflow stage has a missing or self dependency") (wf_stages r) = Ok tt ↔
  ∀ s d, s ∈ wf_stages r → d ∈ ws_depends_on s → d ≠ ws_id s ∧ d ∈ (ws_id <$> wf_stages r).
Proof.
  intros Hnd. rewrite rmap_ok. setoid_rewrite ensure_ok. setoid_rewrite negb_true_iff.
  assert (∀ d, is_Some (index_by ws_id ∅ (wf_stages r) !! d) ↔ d ∈ (ws_id <$> wf_stages r)) as Hk.
  { intros d. by rewrite <-elem_of_dom, index_by_dom, dom_empty_L, (right_id_L ∅ (∪)), elem_of_list_to_set. }
  split.
  - intros Hall s d Hs Hd. specialize (Hall s Hs).
    destruct (String.eqb d (ws_id s) || negb (bool_decide (is_Some (index_by ws_id ∅ (wf_stages r) !! d))))
      eqn:E.
    + rewrite (proj2 (existsb_exists _ _)) in Hall; [done|]. exists d. by rewrite <-list_elem_of_In.
    + split_bools. split; [by apply String.eqb_neq|by apply Hk].
  - intros Hall s Hs. apply not_true_iff_false. intros (d & Hd & E)%existsb_exists.
    rewrite <-list_elem_of_In in Hd. destruct (Hall s d Hs Hd) as [Hne Hin%Hk].
    apply String.eqb_neq in Hne. rewrite Hne, bool_decide_true in E by done. done.
Qed.

Lemma stage_order_ok r :
  (∃ o, stage_order r = Ok o) ↔ orderable ws_id ws_depends_on (wf_stages r).
Proof.
  unfold stage_order. setoid_rewrite rbind_ok. split.
  - intros (o & a & (_ & _ & Ho)%order_sound & _). done.
  - intros (a & Ha)%(order_complete _ _ "workflow stage dependencies contain a cycle or missing reference").
    eauto.
Qed.

Lemma elem_of_gated gate r s : s ∈ gated gate r ↔ s ∈ wf_stages r ∧ ws_gate s = Some gate.
Proof.
  unfold gated. by rewrite list_elem_of_In, filter_In, <-list_elem_of_In, bool_decide_eq_true.
Qed.

(** The single Product stage comes last. *)
Lemma product_last_ok r :
  orderable ws_id ws_depends_on (wf_stages r) → length (gated Product r) ≤ 1 →
  match gated Product r with
  | product :: _ => product_follows r (index_by ws_id ∅ (wf_stages r)) product
  | [] => Ok tt
  end = Ok tt ↔
  ∀ p s, p ∈ wf_stages r → ws_gate p = Some Product → s ∈ wf_stages r → s ≠ p →
         stage_before r (ws_id p) (ws_id s).
Proof.
  intros Ho Hl. pose proof (elem_of_gated Product r) as Hg.
  destruct (gated Product r) as [|p [|]]; cbn in Hl; [| |lia].
  - split; [|done]. intros _ p s Hp Hpg. by destruct (not_elem_of_nil p); apply Hg.
  - destruct (proj1 (Hg p) ltac:(left)) as [Hp Hpg]. rewrite product_follows_ok by done. split.
    + intros Hall q s Hq Hqg Hs Hne.
      assert (q = p) as -> by (by apply list_elem_of_singleton, Hg). by apply Hall.
    + intros Hall s. by apply Hall.
Qed.

(** The loops always meet the maps and sets of the whole recipe. *)
Lemma recipe_validate_unfold r :
  recipe_validate r = Ok tt ↔
  (wf_version r = 1%Z ∧ wf_revision r ≠ 0%Z ∧ portable_id (wf_id r) = Ok tt ∧
   good_text (wf_name r) 160 ∧ good_text (wf_description r) 4096 ∧
   good_text (wf_coordinator_instructions r) 16384 ∧
   bounded_json (recipe_value r) WORKFLOW_DOCUMENT_MAX_BYTES = Ok tt) ∧
  (1 ≤ length (wf_roles r) ≤ 16 ∧ 1 ≤ length (wf_contracts r) ≤ 16 ∧
   1 ≤ length (wf_stages r) ≤ 16) ∧
  (Forall (λ c, contract_validate c = Ok tt) (wf_contracts r) ∧ NoDup (rc_id <$> wf_contracts r)) ∧
  (Forall (role_checked (index_by rc_id ∅ (wf_contracts r))) (wf_roles r) ∧
   NoDup (wr_id <$> wf_roles r)) ∧
  size (list_to_set (wr_contract_id <$> wf_roles r) : gset string) =
    size (index_by rc_id ∅ (wf_contracts r)) ∧
  (Forall (stage_checked (list_to_set (wr_id <$> wf_roles r))) (wf_stages r) ∧
   NoDup (ws_id <$> wf_stages r)) ∧
  size (list_to_set (wf_stages r ≫= ws_roles) : gset string) =
    size (list_to_set (wr_id <$> wf_roles r) : gset string) ∧
  rmap_ (λ stage, ensure
      (negb (existsb (λ d, String.eqb d (ws_id stage)
                           || negb (bool_decide (is_Some (index_by ws_id ∅ (wf_stages r) !! d))))
               (ws_depends_on stage)))
      "workflow stage has a missing or self dependency") (wf_stages r) = Ok tt ∧
  (∃ o, stage_order r = Ok o) ∧
  (length (gated Foundation r) ≤ 1 ∧ length (gated Product r) ≤ 1) ∧
  match gated Product r with
  | product :: _ => product_follows r (index_by ws_id ∅ (wf_stages r)) product
  | [] => Ok tt
  end = Ok tt.
Proof.
  unfold recipe_validate. rewrite !rbind_unit_ok, counts_ok, !recipe_text_ok, ensure_ok.
  rewrite negb_true_iff, orb_false_iff, negb_false_iff, Z.eqb_eq, Z.eqb_neq.
  split.
  - intros ([? ?] & ? & ? & ? & ? & ? & ? & Hrest).
    apply rbind_ok in Hrest as (m & Hc & Hrest).
    apply contracts_loop_ok in Hc as (? & ?%fresh_keys_empty & ->).
    apply rbind_ok in Hrest as ([roles used] & Hr & Hrest).
    apply roles_loop_ok in Hr as (? & ?%fresh_keys_empty & [= -> ->]).
    rewrite !(right_id_L ∅ (∪)) in Hrest.
    rewrite rbind_unit_ok, ensure_ok, bool_decide_eq_true in Hrest. destruct Hrest as [? Hrest].
    apply rbind_ok in Hrest as ([stages used] & Hs & Hrest).
    apply stages_loop_ok in Hs as (? & ?%fresh_keys_empty & [= -> ->]).
    rewrite !(right_id_L ∅ (∪)) in Hrest.
    rewrite !rbind_unit_ok, ensure_ok, bool_decide_eq_true in Hrest. destruct Hrest as (? & ? & Hrest).
    apply rbind_ok in Hrest as (o & Ho & Hrest).
    rewrite rbind_unit_ok, ensure_ok, negb_true_iff, orb_false_iff, !Nat.ltb_ge in Hrest.
    naive_solver.
  - intros ((? & ? & ? & ? & ? & ? & ?) & ? & [? ?] & [? ?] & ? & [? ?] & ? & ? & (o & Ho) & ? & ?).
    destruct_and?. split_and!; try done. apply rbind_ok. exists (index_by rc_id ∅ (wf_contracts r)). split.
    { apply contracts_loop_ok. rewrite dom_empty_L, fresh_keys_empty. done. }
    apply rbind_ok.
    exists (list_to_set (wr_id <$> wf_roles r), list_to_set (wr_contract_id <$> wf_roles r)). split.
    { apply roles_loop_ok. rewrite fresh_keys_empty, !(right_id_L ∅ (∪)). done. }
    rewrite rbind_unit_ok, ensure_ok, bool_decide_eq_true. split; [done|].
    apply rbind_ok.
    exists (index_by ws_id ∅ (wf_stages r), list_to_set (wf_stages r ≫= ws_roles)). split.
    { apply stages_loop_ok. rewrite dom_empty_L, fresh_keys_empty, !(right_id_L ∅ (∪)). done. }
    rewrite !rbind_unit_ok, ensure_ok, bool_decide_eq_true. split_and!; [done..|].
    apply rbind_ok. exists o. split; [done|].
    rewrite rbind_unit_ok, ensure_ok, negb_true_iff, orb_false_iff, !Nat.ltb_ge. done.
Qed.

Lemma recipe_validate_ok r : recipe_validate r = Ok tt ↔ well_formed_recipe r.
Proof.
  rewrite recipe_validate_unfold, Forall_forall. split.
  - intros ((? & ? & ? & ? & ? & ? & ?) & (? & ? & ?) & [? ?] & [Hr ?] & Hcu & [Hs ?] & Hru & Hd &
            Ho & [? ?] & Hp).
    rewrite roles_checked in Hr by done. rewrite contracts_used in Hcu by done.
    rewrite stages_checked in Hs. rewrite roles_used in Hru by done.
    rewrite stage_order_ok in Ho. rewrite product_last_ok in Hp by done. by split.
  - intros []. pose proof wfr_order0 as (Hnd & Hk & Hac).
    rewrite roles_checked, contracts_used, stages_checked, roles_used, deps_known, stage_order_ok,
      product_last_ok by done.
    destruct_and?. split_and!; try done. intros s d Hs Hd. split; [|by eapply Hk].
    intros ->. apply (Hac (ws_id s)), tc_once. by exists s.
Qed.

(** [C4] A recipe is accepted exactly when it is well formed: every contract is
    valid and used, every role names a contract revision and is used, the stages
    can be ordered so that each follows its dependencies, and the Product stage
    comes after every other stage. *)
Theorem recipe_validate_spec (r : WorkflowRecipeV1) :
  recipe_validate r = Ok tt ↔ well_formed_recipe r.
Proof. apply recipe_validate_ok. Qed.
End Spec.
