(* ===== verification/Plan.v ===== *)
(** * Plan: compiled run plans

    run_plan.rs (the plan types), run_plan_compilation.rs (an isolated run's
    plan against its frozen recipe and profiles) and run_plan_inputs.rs (what a
    coordinator submits; a shared run's plan).  [BTreeMap] and [BTreeSet] are
    [gmap] and [gset]; where the code iterates them the keys come sorted by
    their bytes ([sorted_elements], [sorted_entries]).

    [PlanLib] holds what comes from serde and SHA-256.  [compile] runs its work
    in [workflow_blocking], which only bounds how many such tasks run at once. *)

From S2P Require Import Prelude Text Models Store RoleContract Ordering Recipe RecipeFacts.
From Stdlib Require Import ZArith Lia Ascii String.
From stdpp Require Import strings gmap prelude.

(** ** Agent profiles (agent_profile_models.rs) *)

Inductive AgentProfileLaunchMode : Type := Lm_Managed | Lm_Command.
#[export] Instance AgentProfileLaunchMode_eq_dec : EqDecision AgentProfileLaunchMode.
Proof. solve_decision. Defined.

Record AgentProfile : Type := MkAgentProfile {
  ap_id : string;
  ap_name : string;
  ap_sort_order : Z;
  ap_agent_type : string;
  ap_command : string;
  ap_launch_mode : AgentProfileLaunchMode;
  ap_managed_config : option json;
  ap_custom_prompt : string;
  ap_description : string;
  ap_quota_group : option string;
  ap_show_in_new_tab_menu : bool;
  ap_revision : Z;
  ap_created_at : string;
  ap_updated_at : string
}.

(** ** Plans of isolated runs *)

Definition WORKFLOW_PLAN_MAX_BYTES : Z := 1024 * 1024.
Definition WORKFLOW_PLAN_MAX_TASKS : nat := 128.

Record WorkflowPlanTask : Type := MkPlanTask {
  pt_id : string;
  pt_title : string;
  pt_spec : string;
  pt_stage_id : string;
  pt_role_id : string;
  pt_depends_on : list string;
  pt_inputs : json;
  pt_corrects_task_id : option string
}.

Record WorkflowPlanProposal : Type := MkProposal {
  pp_objective : string;
  pp_source_sha : string;
  pp_recipe_source : WorkflowRecipeSource;
  pp_expected_recipe_digest : string;
  pp_coordinator_profile_id : string;
  pp_role_profiles : gmap string string;
  pp_max_concurrent : Z;
  pp_tasks : list WorkflowPlanTask
}.

Record FrozenWorkflowTask : Type := MkFrozenTask {
  ft_task : WorkflowPlanTask;
  ft_contract : RoleContractSnapshot;
  ft_profile_id : string
}.

Record WorkflowSourceWorkspace : Type := MkSourceWorkspace {
  sw_workspace_id : string;
  sw_instance_id : string;
  sw_project_id : string;
  sw_path : string;
  sw_project_repo_path : string
}.

Record WorkflowPlanSnapshot : Type := MkPlanSnapshot {
  ps_version : Z;
  ps_source_workspace : WorkflowSourceWorkspace;
  ps_objective : string;
  ps_source_sha : string;
  ps_recipe : WorkflowRecipeSnapshot;
  ps_coordinator_profile_id : string;
  ps_profiles : gmap string AgentProfile;
  ps_max_concurrent : Z;
  ps_tasks : list FrozenWorkflowTask;
  ps_digest : string
}.

(** ** Plan v2: what a coordinator submits *)

Record RunSourceSnapshot : Type := MkRunSource {
  src_workspace : WorkflowSourceWorkspace;
  src_source_sha : option string
}.

Record RunPlanTaskInput : Type := MkPlanTaskInput {
  ti_id : string;
  ti_title : string;
  ti_spec : string;
  ti_stage_id : string;
  ti_role_id : option string;
  ti_depends_on : list string;
  ti_inputs : option json;
  ti_corrects_task_id : option string
}.

Record RunPlanStageInput : Type := MkPlanStageInput {
  si_id : string;
  si_title : option string;
  si_profile : option string;
  si_fallbacks : list string;
  si_gate : bool
}.
Definition with_si_profile (v : option string) (s : RunPlanStageInput) : RunPlanStageInput :=
  MkPlanStageInput (si_id s) (si_title s) v (si_fallbacks s) (si_gate s).

Record RunPlanInput : Type := MkPlanInput {
  pi_request_id : option string;
  pi_stages : list RunPlanStageInput;
  pi_tasks : list RunPlanTaskInput;
  pi_stall_policy : option string;
  pi_max_concurrent : option Z
}.

Record SharedRunPlanSnapshot : Type := MkSharedPlan {
  sp_version : Z;
  sp_objective : string;
  sp_stages : list RunPlanStageInput;
  sp_tasks : list RunPlanTaskInput;
  sp_stall_policy : string;
  sp_max_concurrent : Z;
  sp_digest : string
}.

Inductive CompiledPlan : Type :=
| Cp_Isolated (plan : WorkflowPlanSnapshot)
| Cp_Shared (plan : SharedRunPlanSnapshot).

Definition compiled_digest (p : CompiledPlan) : string :=
  match p with Cp_Isolated plan => ps_digest plan | Cp_Shared plan => sp_digest plan end.
Definition compiled_max_concurrent (p : CompiledPlan) : Z :=
  match p with Cp_Isolated plan => ps_max_concurrent plan | Cp_Shared plan => sp_max_concurrent plan end.

(** [FrozenRunSelection] of run_lifecycle.rs. *)
Record FrozenRunSelection : Type := MkSelection {
  sel_recipe : option WorkflowRecipeSnapshot;
  sel_profiles : gmap string AgentProfile;
  sel_role_profiles : gmap string string;
  sel_worker_profile_id : option string
}.

(** [RunRow] of run_plan_proposal.rs. *)
Record RunRow : Type := MkRunRow {
  rr_isolation : Isolation;
  rr_status : OrchestrationCoordinatorStatus;
  rr_plan_revision : option Z;
  rr_approval_required : bool;
  rr_objective : string;
  rr_max_concurrent : Z;
  rr_stall_policy : string;
  rr_coordinator_handle : option string;
  rr_workspace_id : string;
  rr_coordinator_profile_id : option string;
  rr_profiles_snapshot : option string;
  rr_source_snapshot : option string;
  rr_plan_approved : bool
}.

Class PlanLib : Type := {
  proposal_value : WorkflowPlanProposal → json;           (** [serde_json::to_value] *)
  plan_value : WorkflowPlanSnapshot → json;
  plan_hash : WorkflowPlanSnapshot → string;              (** digest without the [digest] field *)
  shared_plan_hash : SharedRunPlanSnapshot → string;
  selection_decode : string → option FrozenRunSelection;  (** [serde_json::from_str] *)
  source_decode : string → option RunSourceSnapshot;
  plan_encode : CompiledPlan → string                     (** [serde_json::to_string] of the plan *)
}.

Definition workflow_text (value : string) (max : Z) : R unit :=
  ensure (negb (is_blank value || (max <? zlen value)%Z || has_nul value))
    "workflow text is empty, too long or contains NUL".

(** Iteration of a [BTreeSet] and of a [BTreeMap]. *)
Definition sorted_elements (s : gset string) : list string := sort_by String.leb (elements s).
Definition sorted_entries {A} (m : gmap string A) : list (string * A) :=
  sort_by (λ x y, String.leb x.1 y.1) (map_to_list m).

Fixpoint rmapM {A B} (f : A → R B) (l : list A) : R (list B) :=
  match l with
  | [] => Ok []
  | x :: l => try! y := f x in try! ys := rmapM f l in Ok (y :: ys)
  end.

Section Plans.
Context `{Env, ContractLib, RecipeLib, PlanLib}.

(** ** [validate_selection] *)

Definition is_lower_hex (c : ascii) : bool :=
  let n := byte_val c in (((48 <=? n) && (n <=? 57)) || ((97 <=? n) && (n <=? 102)))%N%bool.

Definition profile_checked (entry : string * AgentProfile) : R unit :=
  let (id, profile) := entry in
  try! _ := ensure (negb (negb (String.eqb id (ap_id profile)) || (ap_revision profile <? 0)%Z))
    "workflow profile identity or revision is invalid" in
  try! _ := workflow_text (ap_agent_type profile) 160 in
  try! _ := workflow_text (ap_command profile) 16384 in
  ensure (negb (bool_decide (ap_launch_mode profile = Lm_Managed)
                && bool_decide (ap_managed_config profile = None)))
    "managed workflow profile requires launch configuration".

Definition validate_selection (proposal : WorkflowPlanProposal) (recipe : WorkflowRecipeSnapshot)
    (profiles : gmap string AgentProfile) : R unit :=
  try! _ := bounded_json (proposal_value proposal) WORKFLOW_PLAN_MAX_BYTES in
  try! _ := recipe_snapshot_validate recipe in
  try! _ := workflow_text (pp_objective proposal) 16384 in
  try! _ := ensure (negb (negb (zlen (pp_source_sha proposal) =? 40)%Z
                          || negb (all_bytes is_lower_hex (pp_source_sha proposal))))
    "workflow source must be an exact lowercase commit SHA" in
  try! _ := ensure ((1 <=? pp_max_concurrent proposal)%Z && (pp_max_concurrent proposal <=? 16)%Z)
    "workflow requires 1-16 concurrent workers" in
  try! _ := ensure (negb (negb (bool_decide (pp_recipe_source proposal = rs_source recipe))
      || negb (String.eqb (pp_expected_recipe_digest proposal) (recipe_hash (rs_recipe recipe)))))
    "workflow recipe changed; refresh before proposing a plan" in
  try! _ := ensure (bool_decide (dom (pp_role_profiles proposal)
                                 = list_to_set (wr_id <$> wf_roles (rs_recipe recipe))))
    "workflow requires exactly one profile binding for every role" in
  try! _ := ensure (bool_decide (dom profiles
      = {[pp_coordinator_profile_id proposal]}
        ∪ list_to_set (snd <$> map_to_list (pp_role_profiles proposal))))
    "workflow references a missing profile" in
  rmap_ profile_checked (sorted_entries profiles).

(** ** [compile_plan] *)

Definition with_pt_depends_on (v : list string) (t : WorkflowPlanTask) : WorkflowPlanTask :=
  MkPlanTask (pt_id t) (pt_title t) (pt_spec t) (pt_stage_id t) (pt_role_id t) v (pt_inputs t)
    (pt_corrects_task_id t).

Fixpoint dependencies_loop (ids : gset string) (task_id : string) (dependencies : gset string)
    (l : list string) : R (gset string) :=
  match l with
  | [] => Ok dependencies
  | d :: l =>
      if String.eqb d task_id || negb (bool_decide (d ∈ ids)) || bool_decide (d ∈ dependencies)
      then Err (Bail "workflow task dependency is missing, duplicated or self-referential")
      else dependencies_loop ids task_id ({[d]} ∪ dependencies) l
  end.

(** The tasks of the stages the task's stage depends on. *)
Definition stage_predecessors (tasks : list WorkflowPlanTask) (stage : WorkflowRecipeStage)
    : gset string :=
  list_to_set (pt_id <$> List.filter (λ p, bool_decide (pt_stage_id p ∈ ws_depends_on stage)) tasks).

(** The body of the loop over the proposed tasks. *)
Definition freeze_task (proposal : WorkflowPlanProposal) (recipe : WorkflowRecipeV1)
    (original : WorkflowPlanTask) : R FrozenWorkflowTask :=
  try! _ := portable_id (pt_id original) in
  try! _ := workflow_text (pt_title original) 256 in
  try! _ := workflow_text (pt_spec original) 16384 in
  try! _ := ensure (Nat.leb (length (pt_depends_on original)) WORKFLOW_PLAN_MAX_TASKS)
    "workflow task exceeds the dependency limit" in
  try! stage := with_context (index_by ws_id ∅ (wf_stages recipe) !! pt_stage_id original)
    "unknown workflow task stage" in
  try! _ := ensure (bool_decide (pt_role_id original ∈ ws_roles stage))
    "workflow role is not allowed in this stage" in
  try! role := with_context (index_by wr_id ∅ (wf_roles recipe) !! pt_role_id original)
    "unknown workflow task role" in
  try! dependencies := dependencies_loop (list_to_set (pt_id <$> pp_tasks proposal)) (pt_id original)
    ∅ (pt_depends_on original) in
  let dependencies := stage_predecessors (pp_tasks proposal) stage ∪ dependencies in
  try! contract := with_context
    (find_where (λ c, String.eqb (rc_id c) (wr_contract_id role)
                      && (rc_revision c =? wr_contract_revision role)%Z) (wf_contracts recipe))
    "missing workflow contract revision" in
  try! snapshot := freeze contract (pt_inputs original) in
  try! profile_id := with_context (pp_role_profiles proposal !! pt_role_id original)
    "panic: role without a profile" in
  Ok (MkFrozenTask (with_pt_depends_on (sorted_elements dependencies) original) snapshot profile_id).

Definition frozen_id (t : FrozenWorkflowTask) : string := pt_id (ft_task t).
Definition frozen_deps (t : FrozenWorkflowTask) : list string := pt_depends_on (ft_task t).

Definition covers (frozen : list FrozenWorkflowTask) (stage : WorkflowRecipeStage) (role : string)
    : bool :=
  existsb (λ t, String.eqb (pt_stage_id (ft_task t)) (ws_id stage)
                && String.eqb (pt_role_id (ft_task t)) role) frozen.

Definition with_ps_digest (v : string) (s : WorkflowPlanSnapshot) : WorkflowPlanSnapshot :=
  MkPlanSnapshot (ps_version s) (ps_source_workspace s) (ps_objective s) (ps_source_sha s)
    (ps_recipe s) (ps_coordinator_profile_id s) (ps_profiles s) (ps_max_concurrent s) (ps_tasks s) v.

Definition compile_plan (proposal : WorkflowPlanProposal) (recipe : WorkflowRecipeSnapshot)
    (profiles : gmap string AgentProfile) (source_workspace : WorkflowSourceWorkspace)
    : R WorkflowPlanSnapshot :=
  try! _ := validate_selection proposal recipe profiles in
  try! _ := ensure (negb (Nat.eqb (length (pp_tasks proposal)) 0
                          || Nat.ltb WORKFLOW_PLAN_MAX_TASKS (length (pp_tasks proposal))))
    "workflow requires 1-128 tasks" in
  try! _ := ensure (bool_decide (size (list_to_set (pt_id <$> pp_tasks proposal) : gset string)
                                 = length (pp_tasks proposal)))
    "duplicate workflow task id" in
  try! frozen := rmapM (freeze_task proposal (rs_recipe recipe)) (pp_tasks proposal) in
  try! _ := rmap_ (λ entry : string * WorkflowRecipeStage,
      rmap_ (λ role, ensure (covers frozen (snd entry) role)
        "workflow plan omits a mandatory stage or role") (ws_roles (snd entry)))
    (sorted_entries (index_by ws_id ∅ (wf_stages (rs_recipe recipe)))) in
  try! ordered := order_items frozen_id frozen_deps "workflow task dependencies contain a cycle"
    frozen in
  let snapshot := MkPlanSnapshot 1 source_workspace (pp_objective proposal) (pp_source_sha proposal)
    recipe (pp_coordinator_profile_id proposal) profiles (pp_max_concurrent proposal) ordered "" in
  try! _ := bounded_json (plan_value snapshot) WORKFLOW_PLAN_MAX_BYTES in
  Ok (with_ps_digest (plan_hash snapshot) snapshot).

(** ** Shared plans *)

(** The closure over the stages: [stage_ids] collects the identifiers. *)
Fixpoint shared_stages (worker_profile : option string) (stage_ids : gset string)
    (l : list RunPlanStageInput) : R (gset string * list RunPlanStageInput) :=
  match l with
  | [] => Ok (stage_ids, [])
  | stage :: l =>
      try! _ := portable_id (si_id stage) in
      if bool_decide (si_id stage ∈ stage_ids)
      then Err (Bail ("duplicate stage id: " +:+ si_id stage))
      else
        let stage := match si_profile stage with
                     | None => with_si_profile worker_profile stage
                     | Some _ => stage
                     end in
        try! _ := ensure (match si_profile stage with
                          | None => false
                          | Some name => negb (is_blank name)
                          end)
          ("stage " +:+ si_id stage +:+ " needs a profile") in
        try! (ids, stages) := shared_stages worker_profile ({[si_id stage]} ∪ stage_ids) l in
        Ok (ids, stage :: stages)
  end.

Definition shared_task_checked (stage_ids ids : gset string) (task : RunPlanTaskInput) : R unit :=
  try! _ := portable_id (ti_id task) in
  try! _ := workflow_text (ti_title task) 256 in
  try! _ := workflow_text (ti_spec task) 16384 in
  try! _ := ensure (bool_decide (ti_stage_id task ∈ stage_ids))
    ("task " +:+ ti_id task +:+ " names an unknown stage " +:+ ti_stage_id task) in
  rmap_ (λ d, ensure (negb (String.eqb d (ti_id task) || negb (bool_decide (d ∈ ids))))
    ("task " +:+ ti_id task +:+ " has a missing or self-referential dependency"))
    (ti_depends_on task).

Definition shared_plan (objective : string) (stages : list RunPlanStageInput)
    (tasks : list RunPlanTaskInput) (worker_profile : option string) (stall_policy : string)
    (max_concurrent : Z) : R SharedRunPlanSnapshot :=
  try! _ := ensure (negb (Nat.eqb (length stages) 0)) "plan.stages must not be empty" in
  try! (stage_ids, stages) := shared_stages worker_profile ∅ stages in
  let ids := list_to_set (ti_id <$> tasks) : gset string in
  try! _ := ensure (bool_decide (size ids = length tasks)) "duplicate plan task id" in
  try! _ := rmap_ (shared_task_checked stage_ids ids) tasks in
  try! _ := order_items ti_id ti_depends_on "plan task dependencies contain a cycle" tasks in
  let plan := MkSharedPlan 2 objective stages tasks stall_policy max_concurrent "" in
  Ok (MkSharedPlan 2 objective stages tasks stall_policy max_concurrent (shared_plan_hash plan)).

(** ** [compile] *)

Definition isolated_task (recipe : WorkflowRecipeSnapshot) (objective : string)
    (task : RunPlanTaskInput) : R WorkflowPlanTask :=
  try! role_id :=
    match ti_role_id task with
    | Some role => Ok role
    | None =>
        try! stage := with_context
          (find_where (λ s, String.eqb (ws_id s) (ti_stage_id task)) (wf_stages (rs_recipe recipe)))
          ("unknown plan task stage: " +:+ ti_stage_id task) in
        match ws_roles stage with
        | [role] => Ok role
        | _ => Err (Bail ("task " +:+ ti_id task +:+ " must name a roleId for stage "
                          +:+ ti_stage_id task))
        end
    end in
  Ok (MkPlanTask (ti_id task) (ti_title task) (ti_spec task) (ti_stage_id task) role_id
        (ti_depends_on task) (default (JObject [("objective", JString objective)]) (ti_inputs task))
        (ti_corrects_task_id task)).

Definition bound_profiles (selection : FrozenRunSelection) (coordinator : string)
    : gmap string AgentProfile :=
  filter (λ entry : string * AgentProfile,
      entry.1 ∈ (snd <$> map_to_list (sel_role_profiles selection)) ∨ entry.1 = coordinator)
    (sel_profiles selection).

(** [run.max_concurrent.clamp(1, 16) as u32] *)
Definition clamp_workers (v : Z) : Z := Z.max 1 (Z.min 16 v).

Definition compile (run : RunRow) (input : RunPlanInput) : R CompiledPlan :=
  try! selection :=
    match rr_profiles_snapshot run with
    | Some raw => try! s := with_context (selection_decode raw) "invalid frozen selection" in Ok (Some s)
    | None => Ok None
    end in
  match rr_isolation run with
  | Is_Isolated =>
      try! _ := ensure (Nat.eqb (length (pi_stages input)) 0)
        "an isolated run takes its stages from its recipe" in
      try! selection := with_context selection "run has no frozen selection" in
      try! recipe := with_context (sel_recipe selection) "isolated run has no frozen recipe" in
      try! raw := with_context (rr_source_snapshot run) "isolated run has no frozen source" in
      try! source := with_context (source_decode raw) "invalid frozen source" in
      try! coordinator := with_context (rr_coordinator_profile_id run)
        "isolated run has no coordinator profile" in
      let max_concurrent := default (clamp_workers (rr_max_concurrent run)) (pi_max_concurrent input) in
      try! tasks := rmapM (isolated_task recipe (rr_objective run)) (pi_tasks input) in
      let proposal := MkProposal (rr_objective run) (default "" (src_source_sha source))
        (rs_source recipe) (recipe_hash (rs_recipe recipe)) coordinator
        (sel_role_profiles selection) max_concurrent tasks in
      try! plan := compile_plan proposal recipe (bound_profiles selection coordinator)
        (src_workspace source) in
      Ok (Cp_Isolated plan)
  | Is_Shared =>
      let worker_name := ap_name <$> (selection ≫= λ s, sel_worker_profile_id s ≫= λ id,
                                        sel_profiles s !! id) in
      let max_concurrent := default (clamp_workers (rr_max_concurrent run)) (pi_max_concurrent input) in
      try! _ := ensure ((1 <=? max_concurrent)%Z && (max_concurrent <=? 16)%Z)
        "plan.maxConcurrent must be between 1 and 16" in
      let stall_policy := default (rr_stall_policy run) (pi_stall_policy input) in
      try! plan := shared_plan (rr_objective run) (pi_stages input) (pi_tasks input) worker_name
        stall_policy max_concurrent in
      Ok (Cp_Shared plan)
  end.
End Plans.
