(* ===== verification/PlanFacts.v ===== *)
(** * PlanFacts: what a compiled plan guarantees

    [compile_plan] (isolated runs): the plan holds every proposed task once,
    bound to a frozen contract that validates, covers every stage and role of
    the recipe, and lists each task after everything it depends on.  The recipe's
    stage order is part of those dependencies: all tasks of a stage come before
    all tasks of the stages after it, and the Product stage comes last.  A
    proposal whose own dependencies stay inside a stage or point to an earlier
    one is never refused for a cycle.

    [shared_plan]: a plan is accepted exactly when it is well formed. *)

From S2P Require Import Prelude Text Models Store RoleContract Ordering Recipe RecipeFacts Plan.
From Stdlib Require Import ZArith Lia Ascii String.
From stdpp Require Import strings gmap prelude relations.

Lemma rmapM_ok {A B} (f : A → R B) l l' :
  rmapM f l = Ok l' ↔ Forall2 (λ x y, f x = Ok y) l l'.
Proof.
  revert l'. induction l as [|x l IH]; intros l'; cbn.
  - split; [intros [= <-]; constructor|by inversion 1].
  - rewrite rbind_ok. split.
    + intros (y & Hy & (ys & Hys%IH & [= <-])%rbind_ok). by constructor.
    + inversion 1 as [|? y ? ys Hy Hys]; subst. exists y. split; [done|]. apply rbind_ok.
      exists ys. by rewrite IH.
Qed.

Lemma elem_of_sorted_elements s d : d ∈ sorted_elements s ↔ d ∈ s.
Proof. unfold sorted_elements. by rewrite elem_of_sort_by, elem_of_elements. Qed.

Lemma elem_of_sorted_entries {A} (m : gmap string A) k x : (k, x) ∈ sorted_entries m ↔ m !! k = Some x.
Proof. unfold sorted_entries. by rewrite elem_of_sort_by, elem_of_map_to_list. Qed.

Lemma workflow_text_ok value max : workflow_text value max = Ok tt ↔ good_text value max.
Proof.
  unfold workflow_text, good_text. rewrite ensure_ok, negb_true_iff, !orb_false_iff, Z.ltb_ge. tauto.
Qed.

Lemma distinct_ok {A} (key : A → string) (l : list A) :
  size (list_to_set (key <$> l) : gset string) = length l ↔ NoDup (key <$> l).
Proof.
  pose proof (unique_ok (key <$> l) "") as Hu. unfold unique in Hu.
  by rewrite ensure_ok, bool_decide_eq_true, length_fmap in Hu.
Qed.

Lemma dependencies_loop_ok ids id deps l res :
  dependencies_loop ids id deps l = Ok res ↔
  (∀ d, d ∈ l → d ≠ id ∧ d ∈ ids) ∧ fresh_keys (λ d, d) deps l ∧ res = list_to_set l ∪ deps.
Proof.
  revert deps. induction l as [|d l IH]; intros deps; cbn.
  - rewrite (left_id_L ∅ (∪)). pose proof (fresh_keys_nil (λ d, d) deps).
    split; [intros [= <-]; set_solver|by intros (_ & _ & ->)].
  - rewrite fresh_keys_cons.
    destruct (String.eqb_spec d id) as [->|Hne]; cbn.
    { split; [done|]. intros (Hl & _). destruct (Hl id); [left|done]. }
    case_bool_decide as Hin; cbn.
    2: { split; [done|]. intros (Hl & _). by destruct (Hl d); [left|]. }
    case_bool_decide as Hdup; [naive_solver|].
    rewrite IH. setoid_rewrite elem_of_cons.
    assert (list_to_set l ∪ ({[d]} ∪ deps) = {[d]} ∪ list_to_set l ∪ deps) as -> by set_solver.
    split.
    + intros (Hl & Hf & ->). split_and!; try done; try apply Hf. intros x [->|Hx]; auto.
    + intros (Hl & [_ Hf] & ->). split_and!; [|done|done]. auto.
Qed.

Section Facts.
Context `{Env, ContractLib, RecipeLib, PlanLib}.

(** ** Freezing one task *)

(** The stage dependencies and its own. *)
Definition depends (proposal : WorkflowPlanProposal) (recipe : WorkflowRecipeV1)
    (t : WorkflowPlanTask) (d : string) : Prop :=
  d ∈ pt_depends_on t ∨
  ∃ stage p, stage ∈ wf_stages recipe ∧ ws_id stage = pt_stage_id t ∧
             p ∈ pp_tasks proposal ∧ pt_id p = d ∧ pt_stage_id p ∈ ws_depends_on stage.

Record frozen_from (proposal : WorkflowPlanProposal) (recipe : WorkflowRecipeV1)
    (t : WorkflowPlanTask) (f : FrozenWorkflowTask) : Prop := {
  ff_task : ft_task f = with_pt_depends_on (frozen_deps f) t;
  ff_deps : ∀ d, d ∈ frozen_deps f ↔ depends proposal recipe t d;
  ff_known : ∀ d, d ∈ pt_depends_on t → d ≠ pt_id t ∧ d ∈ (pt_id <$> pp_tasks proposal);
  ff_stage : ∃ stage, stage ∈ wf_stages recipe ∧ ws_id stage = pt_stage_id t ∧
                      pt_role_id t ∈ ws_roles stage;
  ff_contract : ∃ role, role ∈ wf_roles recipe ∧ wr_id role = pt_role_id t ∧
    sn_contract (ft_contract f) ∈ wf_contracts recipe ∧
    rc_id (sn_contract (ft_contract f)) = wr_contract_id role ∧
    rc_revision (sn_contract (ft_contract f)) = wr_contract_revision role;
  ff_inputs : sn_inputs (ft_contract f) = pt_inputs t;
  ff_valid : snapshot_validate (ft_contract f) = Ok tt;
  ff_profile : pp_role_profiles proposal !! pt_role_id t = Some (ft_profile_id f)
}.

Lemma elem_of_stage_predecessors tasks stage d :
  d ∈ stage_predecessors tasks stage ↔
  ∃ p, p ∈ tasks ∧ pt_id p = d ∧ pt_stage_id p ∈ ws_depends_on stage.
Proof.
  unfold stage_predecessors. rewrite elem_of_list_to_set, list_elem_of_fmap.
  setoid_rewrite list_elem_of_In. setoid_rewrite filter_In. setoid_rewrite <-list_elem_of_In.
  setoid_rewrite bool_decide_eq_true. naive_solver.
Qed.

Lemma freeze_task_sound proposal recipe t f :
  NoDup (ws_id <$> wf_stages recipe) → NoDup (wr_id <$> wf_roles recipe) →
  freeze_task proposal recipe t = Ok f → frozen_from proposal recipe t f.
Proof.
  intros Hs Hr. unfold freeze_task. intros Hf. inv_r Hf. injection Hf as <-.
  apply with_context_ok in Hr4, Hr6, Hr8, Hr10. apply ensure_ok_inv in Hr5. split_bools.
  apply index_by_lookup in Hr4 as [[Hst Hid]|Hn]; [|by rewrite lookup_empty in Hn|done|by intros; rewrite lookup_empty].
  apply index_by_lookup in Hr6 as [[Hro Hrid]|Hn]; [|by rewrite lookup_empty in Hn|done|by intros; rewrite lookup_empty].
  apply dependencies_loop_ok in Hr7 as (Hdeps & _ & ->).
  apply find_where_Some in Hr8 as [Hc Hcid]. split_bools.
  apply freeze_sound in Hr9 as (Hsc & Hsi & Hsv).
  split; cbn; try done.
  - intros d. unfold frozen_deps. cbn. rewrite elem_of_sorted_elements, !elem_of_union, elem_of_list_to_set.
    rewrite elem_of_stage_predecessors. unfold depends. rewrite elem_of_empty. split.
    + intros [(p & ? & ? & ?)|[?|?]]; [right; eauto 10|by left|done].
    + intros [?|(stage & p & Hstage & Hsid & Hp & Hpd & Hps)]; [tauto|]. left. exists p. split_and!; try done.
      by rewrite <-(NoDup_key_inj ws_id _ stage a3 Hs Hstage Hst) by congruence.
  - intros d Hd. destruct (Hdeps d Hd) as [? Hin]. by rewrite elem_of_list_to_set in Hin.
  - by exists a3.
  - exists a5. rewrite Hsc. split_and!; try done; [by apply String.eqb_eq|by apply Z.eqb_eq].
Qed.

(** ** The whole plan *)

Definition frozen_tasks (proposal : WorkflowPlanProposal) (recipe : WorkflowRecipeV1)
    (frozen : list FrozenWorkflowTask) : Prop :=
  Forall2 (frozen_from proposal recipe) (pp_tasks proposal) frozen.

Definition covered (recipe : WorkflowRecipeV1) (frozen : list FrozenWorkflowTask) : Prop :=
  ∀ stage role, stage ∈ wf_stages recipe → role ∈ ws_roles stage →
    ∃ t, t ∈ frozen ∧ pt_stage_id (ft_task t) = ws_id stage ∧ pt_role_id (ft_task t) = role.

Lemma freeze_tasks_sound proposal recipe frozen :
  well_formed_recipe recipe →
  rmapM (freeze_task proposal recipe) (pp_tasks proposal) = Ok frozen →
  frozen_tasks proposal recipe frozen.
Proof.
  intros Hwf Hf%rmapM_ok. eapply Forall2_impl; [exact Hf|]. intros t f Htf.
  apply freeze_task_sound; [apply (wfr_order _ Hwf)|apply (wfr_role_ids _ Hwf)|done].
Qed.

Lemma coverage_sound recipe frozen :
  NoDup (ws_id <$> wf_stages recipe) →
  rmap_ (λ entry : string * WorkflowRecipeStage,
      rmap_ (λ role, ensure (covers frozen (snd entry) role)
        "workflow plan omits a mandatory stage or role") (ws_roles (snd entry)))
    (sorted_entries (index_by ws_id ∅ (wf_stages recipe))) = Ok tt ↔ covered recipe frozen.
Proof.
  intros Hnd. rewrite rmap_ok.
  assert (∀ stage role, covers frozen stage role = true ↔
    ∃ t, t ∈ frozen ∧ pt_stage_id (ft_task t) = ws_id stage ∧ pt_role_id (ft_task t) = role) as Hcov.
  { intros stage role. unfold covers. rewrite existsb_exists. setoid_rewrite andb_true_iff.
    setoid_rewrite String.eqb_eq. by setoid_rewrite <-list_elem_of_In. }
  split.
  - intros Hall stage role Hs Hr. apply Hcov.
    assert ((ws_id stage, stage) ∈ sorted_entries (index_by ws_id ∅ (wf_stages recipe))) as Hin.
    { by apply elem_of_sorted_entries, stage_index_lookup. }
    specialize (Hall _ Hin). cbn in Hall. rewrite rmap_ok in Hall.
    by apply ensure_ok with "workflow plan omits a mandatory stage or role", Hall.
  - intros Hall [k stage] Hin%elem_of_sorted_entries%stage_index_lookup; [|done].
    destruct Hin as [Hs _]. cbn. apply rmap_ok. intros role Hr. apply ensure_ok, Hcov. by apply Hall.
Qed.

Lemma compile_plan_inv proposal recipe profiles ws s :
  compile_plan proposal recipe profiles ws = Ok s →
  ps_recipe s = recipe ∧ well_formed_recipe (rs_recipe recipe) ∧
  NoDup (pt_id <$> pp_tasks proposal) ∧
  ∃ frozen, frozen_tasks proposal (rs_recipe recipe) frozen ∧ covered (rs_recipe recipe) frozen ∧
    order_items frozen_id frozen_deps "workflow task dependencies contain a cycle" frozen
      = Ok (ps_tasks s).
Proof.
  unfold compile_plan. intros Hc. inv_r Hc. destruct a, a0, a1, a3, a5. injection Hc as <-.
  unfold validate_selection in Hr. rewrite !rbind_unit_ok in Hr. destruct Hr as (_ & Hrec & _).
  unfold recipe_snapshot_validate in Hrec. rewrite !rbind_unit_ok in Hrec.
  destruct Hrec as (Hwf%recipe_validate_ok & _).
  apply ensure_ok_inv in Hr1. split_bools. apply distinct_ok in Hr1.
  split_and!; [done..|]. exists a2. split_and!.
  - by apply freeze_tasks_sound.
  - apply coverage_sound; [apply (wfr_order _ Hwf)|done].
  - done.
Qed.

Lemma frozen_tasks_ids proposal recipe frozen :
  frozen_tasks proposal recipe frozen → frozen_id <$> frozen = pt_id <$> pp_tasks proposal.
Proof.
  unfold frozen_tasks. intros Hf. induction Hf as [|t f l l' [Ht] _ IH]; [done|].
  cbn. f_equal; [|done]. unfold frozen_id. by rewrite Ht.
Qed.

Lemma frozen_tasks_elem proposal recipe frozen f :
  frozen_tasks proposal recipe frozen → f ∈ frozen →
  ∃ t, t ∈ pp_tasks proposal ∧ frozen_from proposal recipe t f.
Proof.
  intros Hf (i & Hi)%list_elem_of_lookup.
  destruct (Forall2_lookup_r _ _ _ _ _ Hf Hi) as (t & Ht & Htf).
  exists t. split; [by eapply list_elem_of_lookup_2|done].
Qed.

Lemma frozen_tasks_origin proposal recipe frozen t :
  frozen_tasks proposal recipe frozen → t ∈ pp_tasks proposal →
  ∃ f, f ∈ frozen ∧ frozen_from proposal recipe t f.
Proof.
  intros Hf (i & Hi)%list_elem_of_lookup.
  destruct (Forall2_lookup_l _ _ _ _ _ Hf Hi) as (f & Hfi & Htf).
  exists f. split; [by eapply list_elem_of_lookup_2|done].
Qed.

(** [C5] A compiled plan of an isolated run holds every proposed task exactly
    once, with its own dependencies and those its stage imposes, an allowed role
    and a frozen contract of that role that validates; every stage and role of
    the recipe has a task; and each task stands after all it depends on. *)
Theorem compile_plan_sound (proposal : WorkflowPlanProposal) (recipe : WorkflowRecipeSnapshot)
    (profiles : gmap string AgentProfile) (ws : WorkflowSourceWorkspace) (s : WorkflowPlanSnapshot) :
  compile_plan proposal recipe profiles ws = Ok s →
  (∃ frozen, frozen_tasks proposal (rs_recipe recipe) frozen ∧ ps_tasks s ≡ₚ frozen) ∧
  NoDup (frozen_id <$> ps_tasks s) ∧
  in_order frozen_id frozen_deps (ps_tasks s) ∧
  covered (rs_recipe recipe) (ps_tasks s).
Proof.
  intros (_ & Hwf & Hnd & frozen & Hf & Hcov & Ho)%compile_plan_inv.
  apply order_sound in Ho as (Hp & Hin & _). split_and!.
  - eauto.
  - by rewrite Hp, (frozen_tasks_ids _ _ _ Hf).
  - done.
  - intros stage role Hs Hr. destruct (Hcov stage role Hs Hr) as (t & Ht & ?).
    exists t. by rewrite Hp.
Qed.

(** ** Stage order *)

Lemma direct_stage_before proposal recipe frozen before t after u :
  frozen_tasks proposal recipe frozen → NoDup (pt_id <$> pp_tasks proposal) →
  in_order frozen_id frozen_deps (before ++ t :: after) → before ++ t :: after ≡ₚ frozen →
  waits_for ws_id ws_depends_on (wf_stages recipe) (pt_stage_id (ft_task t)) (pt_stage_id (ft_task u)) →
  u ∈ frozen → u ∈ before.
Proof.
  intros Hf Hnd Hin Hp (stage & Hst & Hsid & Hdep) Hu.
  assert (t ∈ frozen) as Ht by (rewrite <-Hp; apply elem_of_app; right; left).
  destruct (frozen_tasks_elem _ _ _ _ Hf Ht) as (t0 & Ht0 & Hft).
  destruct (frozen_tasks_elem _ _ _ _ Hf Hu) as (u0 & Hu0 & Hfu).
  assert (pt_stage_id t0 = pt_stage_id (ft_task t)) as Hts by (by rewrite (ff_task _ _ _ _ Hft)).
  assert (pt_id u0 = frozen_id u ∧ pt_stage_id u0 = pt_stage_id (ft_task u)) as [Hui Hus]
    by (unfold frozen_id; by rewrite (ff_task _ _ _ _ Hfu)).
  assert (frozen_id u ∈ (frozen_id <$> before)) as (v & Hv & Hvb)%list_elem_of_fmap.
  { eapply Hin; [done|]. apply (ff_deps _ _ _ _ Hft). right. exists stage, u0.
    split_and!; try done; congruence. }
  assert (u = v) as ->; [|done].
  eapply (NoDup_key_inj frozen_id frozen); [by rewrite (frozen_tasks_ids _ _ _ Hf)|done| |done].
  rewrite <-Hp. by apply elem_of_app; left.
Qed.

Lemma stages_in_order proposal recipe frozen before t after u :
  well_formed_recipe recipe → frozen_tasks proposal recipe frozen →
  NoDup (pt_id <$> pp_tasks proposal) → covered recipe frozen →
  in_order frozen_id frozen_deps (before ++ t :: after) → before ++ t :: after ≡ₚ frozen →
  stage_before recipe (pt_stage_id (ft_task t)) (pt_stage_id (ft_task u)) →
  u ∈ frozen → u ∈ before.
Proof.
  intros Hwf Hf Hnd Hcov Hin Hp Hb Hu.
  remember (pt_stage_id (ft_task t)) as a eqn:Ea. remember (pt_stage_id (ft_task u)) as b eqn:Eb.
  revert before t after Hin Hp Ea. induction Hb as [a b Hab|a c b Hac Hcb IH]; intros before t after Hin Hp ->.
  - eapply direct_stage_before; [done..| |done]. by rewrite <-Eb.
  - assert (∃ m, m ∈ frozen ∧ pt_stage_id (ft_task m) = c) as (m & Hm & Hmc).
    { pose proof Hac as (st & Hst & _ & Hd).
      destruct (wfr_order _ Hwf) as (_ & Hknown & _).
      destruct (proj1 (list_elem_of_fmap ws_id _ _) (Hknown st c Hst Hd)) as (sc & -> & Hsc).
      pose proof (stage_roles_count _ _ (wfr_stages _ Hwf sc Hsc)) as Hl.
      destruct (ws_roles sc) as [|role roles] eqn:E; [cbn in Hl; lia|].
      destruct (Hcov sc role Hsc) as (m & Hm & Hs & _); [rewrite E; left|]. eauto. }
    assert (m ∈ before) as (b1 & b2 & ->)%list_elem_of_split.
    { eapply direct_stage_before; [done..| |done]. by rewrite Hmc. }
    rewrite <-app_assoc in Hin, Hp. cbn in Hin, Hp.
    assert (u ∈ b1) as Hub by (by eapply IH). by apply elem_of_app; left.
Qed.

(** In a compiled plan every task of a stage stands after all tasks of the
    stages it comes after in the recipe, directly or not; so the tasks of the
    Product stage stand after the tasks of every other stage. *)
Theorem plan_respects_stages (proposal : WorkflowPlanProposal) (recipe : WorkflowRecipeSnapshot)
    (profiles : gmap string AgentProfile) (ws : WorkflowSourceWorkspace) (s : WorkflowPlanSnapshot)
    (before after : list FrozenWorkflowTask) (t u : FrozenWorkflowTask) :
  compile_plan proposal recipe profiles ws = Ok s →
  ps_tasks s = before ++ t :: after → u ∈ ps_tasks s →
  (stage_before (rs_recipe recipe) (pt_stage_id (ft_task t)) (pt_stage_id (ft_task u)) → u ∈ before) ∧
  (∀ product, product ∈ wf_stages (rs_recipe recipe) → ws_gate product = Some Product →
     ws_id product = pt_stage_id (ft_task t) → ws_id product ≠ pt_stage_id (ft_task u) → u ∈ before).
Proof.
  intros (_ & Hwf & Hnd & frozen & Hf & Hcov & Ho)%compile_plan_inv Hs Hu.
  apply order_sound in Ho as (Hp & Hin & _). rewrite Hs in Hp, Hin, Hu. rewrite Hp in Hu.
  assert (stage_before (rs_recipe recipe) (pt_stage_id (ft_task t)) (pt_stage_id (ft_task u)) →
          u ∈ before) as Hgo by (intros; by eapply stages_in_order).
  split; [done|]. intros product Hpr Hg Hpt Hpu. apply Hgo. rewrite <-Hpt.
  destruct (frozen_tasks_elem _ _ _ _ Hf Hu) as (u0 & _ & Hfu).
  destruct (ff_stage _ _ _ _ Hfu) as (st & Hst & Hsid & _).
  assert (pt_stage_id u0 = pt_stage_id (ft_task u)) as Hus by (by rewrite (ff_task _ _ _ _ Hfu)).
  rewrite <-Hus, <-Hsid. apply (wfr_product_last _ Hwf); try done. congruence.
Qed.

(** ** Layered proposals never meet a cycle *)

(** A task's own dependencies stay in its stage or point to an earlier one. *)
Definition layered (proposal : WorkflowPlanProposal) (recipe : WorkflowRecipeV1) : Prop :=
  ∀ t u, t ∈ pp_tasks proposal → u ∈ pp_tasks proposal → pt_id u ∈ pt_depends_on t →
    pt_stage_id t = pt_stage_id u ∨ stage_before recipe (pt_stage_id t) (pt_stage_id u).

Section Layered.
Context (proposal : WorkflowPlanProposal) (recipe : WorkflowRecipeV1)
  (frozen : list FrozenWorkflowTask).
Hypothesis Hf : frozen_tasks proposal recipe frozen.
Hypothesis Hl : layered proposal recipe.
Hypothesis Ho : orderable pt_id pt_depends_on (pp_tasks proposal).

(** What a chain of frozen dependencies means for the proposal. *)
Definition chain (b a : string) : Prop :=
  ∃ tb ta, tb ∈ pp_tasks proposal ∧ ta ∈ pp_tasks proposal ∧ pt_id tb = b ∧ pt_id ta = a ∧
    (stage_before recipe (pt_stage_id tb) (pt_stage_id ta) ∨
     (pt_stage_id tb = pt_stage_id ta ∧ tc (waits_for pt_id pt_depends_on (pp_tasks proposal)) b a)).

Lemma frozen_edge_chain b a : waits_for frozen_id frozen_deps frozen b a → chain b a.
Proof.
  intros (f & Hfr & <- & Ha). destruct (frozen_tasks_elem _ _ _ _ Hf Hfr) as (t & Ht & Hft).
  assert (frozen_id f = pt_id t) as -> by (unfold frozen_id; by rewrite (ff_task _ _ _ _ Hft)).
  destruct (proj1 (ff_deps _ _ _ _ Hft a) Ha) as [Hown|(stage & p & Hst & Hsid & Hp & <- & Hd)].
  - destruct (proj1 (list_elem_of_fmap pt_id _ _) (proj2 (ff_known _ _ _ _ Hft a Hown)))
      as (u & -> & Hu).
    exists t, u. split_and!; try done.
    destruct (Hl t u Ht Hu Hown) as [?|?]; [right|by left]. split; [done|]. apply tc_once. by exists t.
  - exists t, p. split_and!; try done. left. apply tc_once. exists stage. by rewrite <-Hsid.
Qed.

Lemma chain_trans a b c : chain a b → chain b c → chain a c.
Proof.
  intros (ta & tb & Ha & Hb & <- & <- & Hab) (tb' & tc' & Hb' & Hc & He & <- & Hbc).
  apply (NoDup_key_inj pt_id _ tb' tb (proj1 Ho)) in He; [|done..]. subst tb'.
  exists ta, tc'. split_and!; try done.
  destruct Hab as [?|[Heq ?]], Hbc as [?|[Heq' ?]]; rewrite ?Heq, <-?Heq'.
  - left. by eapply tc_transitive.
  - by left.
  - by left.
  - right. split; [done|]. by eapply tc_transitive.
Qed.

Lemma layered_orderable :
  orderable ws_id ws_depends_on (wf_stages recipe) → orderable frozen_id frozen_deps frozen.
Proof.
  intros (_ & _ & Hac). pose proof Ho as (Hnd & _ & Hdec). split_and!.
  - by rewrite (frozen_tasks_ids _ _ _ Hf).
  - intros f d Hfr Hd. destruct (frozen_tasks_elem _ _ _ _ Hf Hfr) as (t & Ht & Hft).
    rewrite (frozen_tasks_ids _ _ _ Hf).
    destruct (proj1 (ff_deps _ _ _ _ Hft d) Hd) as [Hown|(_ & p & _ & _ & Hp & <- & _)].
    + by apply (ff_known _ _ _ _ Hft).
    + by apply list_elem_of_fmap_2.
  - intros a Ha.
    assert (∀ x y, tc (waits_for frozen_id frozen_deps frozen) x y → chain x y) as Hch.
    { induction 1 as [x y ?%frozen_edge_chain|x y z ?%frozen_edge_chain _ IH];
        [done|by eapply chain_trans]. }
    apply Hch in Ha as (t & u & Ht & Hu & <- & He & Hcase).
    apply (NoDup_key_inj pt_id _ u t Hnd) in He; [|done..]. subst u.
    destruct Hcase as [Hs|[_ Hd]]; [by eapply Hac|by eapply Hdec].
Qed.
End Layered.

(** [C40] The stage dependencies the compiler adds never turn a sound proposal
    into a cycle: when the proposed dependencies have no cycle and stay inside a
    stage or point to an earlier stage of an accepted recipe, the frozen tasks
    can be ordered. *)
Theorem layered_plan_has_order (proposal : WorkflowPlanProposal) (recipe : WorkflowRecipeV1)
    (frozen : list FrozenWorkflowTask) :
  recipe_validate recipe = Ok tt →
  rmapM (freeze_task proposal recipe) (pp_tasks proposal) = Ok frozen →
  orderable pt_id pt_depends_on (pp_tasks proposal) → layered proposal recipe →
  ∃ o, order_items frozen_id frozen_deps "workflow task dependencies contain a cycle" frozen = Ok o.
Proof.
  intros Hwf%recipe_validate_ok Hf%freeze_tasks_sound Ho Hl; [|done].
  apply order_complete, (layered_orderable proposal recipe); try done. apply (wfr_order _ Hwf).
Qed.

(** ** Shared plans *)

(** The stage as stored: its own profile, or the run's worker. *)
Definition with_worker (worker : option string) (s : RunPlanStageInput) : RunPlanStageInput :=
  match si_profile s with None => with_si_profile worker s | Some _ => s end.

Definition shared_stage_ok (worker : option string) (s : RunPlanStageInput) : Prop :=
  portable_id (si_id s) = Ok tt ∧
  ∃ name, si_profile (with_worker worker s) = Some name ∧ is_blank name = false.

Record shared_plan_ok (stages : list RunPlanStageInput) (tasks : list RunPlanTaskInput)
    (worker : option string) : Prop := {
  spo_stages : stages ≠ [];
  spo_stage : Forall (shared_stage_ok worker) stages;
  spo_stage_ids : NoDup (si_id <$> stages);
  spo_task_ids : NoDup (ti_id <$> tasks);
  spo_task : ∀ t, t ∈ tasks → portable_id (ti_id t) = Ok tt ∧ good_text (ti_title t) 256 ∧
    good_text (ti_spec t) 16384 ∧ ti_stage_id t ∈ (si_id <$> stages);
  spo_order : orderable ti_id ti_depends_on tasks
}.

Lemma with_worker_id worker s : si_id (with_worker worker s) = si_id s.
Proof. unfold with_worker. by destruct (si_profile s). Qed.

Lemma shared_stages_ok worker ids l res :
  shared_stages worker ids l = Ok res ↔
  Forall (shared_stage_ok worker) l ∧ fresh_keys si_id ids l ∧
  res = (list_to_set (si_id <$> l) ∪ ids, with_worker worker <$> l).
Proof.
  revert ids res. induction l as [|s l IH]; intros ids res; cbn [shared_stages].
  - cbn. rewrite (left_id_L ∅ (∪)). pose proof (fresh_keys_nil si_id ids). rewrite Forall_nil.
    naive_solver.
  - fold (with_worker worker s).
    rewrite rbind_unit_ok, Forall_cons, fresh_keys_cons. case_bool_decide as Hm;
      [split; [by intros (_ & ?)|]; by intros (_ & [? _] & _)|].
    cbv zeta. rewrite rbind_unit_ok, ensure_ok, rbind_ok, with_worker_id.
    assert (match si_profile (with_worker worker s) with
            | Some name => negb (is_blank name)
            | None => false
            end = true ↔
            ∃ name, si_profile (with_worker worker s) = Some name ∧ is_blank name = false) as ->.
    { clear. destruct (si_profile (with_worker worker s)); [rewrite negb_true_iff|]; naive_solver. }
    unfold shared_stage_ok at 2. cbn [fmap list_fmap list_to_set].
    assert (∀ X Y Z : gset string, X ∪ (Y ∪ Z) = Y ∪ X ∪ Z) as Hun by (clear; set_solver).
    split.
    + intros (? & ? & [ids' l'] & (? & ? & [= -> ->])%IH & [= <-]). rewrite Hun. done.
    + intros ([[? ?] ?] & [? ?] & ->). split_and!; [done..|]. eexists (_, _).
      rewrite IH, Hun. split_and!; done.
Qed.

Lemma shared_task_checked_ok stage_ids ids t :
  shared_task_checked stage_ids ids t = Ok tt ↔
  portable_id (ti_id t) = Ok tt ∧ good_text (ti_title t) 256 ∧ good_text (ti_spec t) 16384 ∧
  ti_stage_id t ∈ stage_ids ∧ ∀ d, d ∈ ti_depends_on t → d ≠ ti_id t ∧ d ∈ ids.
Proof.
  unfold shared_task_checked. rewrite !rbind_unit_ok, !workflow_text_ok, ensure_ok, bool_decide_eq_true,
    rmap_ok. setoid_rewrite ensure_ok. setoid_rewrite negb_true_iff. setoid_rewrite orb_false_iff.
  setoid_rewrite negb_false_iff. setoid_rewrite bool_decide_eq_true. by setoid_rewrite String.eqb_neq.
Qed.

(** A shared run's plan is accepted exactly when it has stages with distinct
    portable names and a profile each (their own or the run's worker), tasks
    with distinct names in known stages, and dependencies that can be ordered;
    the stored plan is then the submitted one with the profiles filled in. *)
Theorem shared_plan_spec (objective : string) (stages : list RunPlanStageInput)
    (tasks : list RunPlanTaskInput) (worker : option string) (stall_policy : string)
    (max_concurrent : Z) (plan : SharedRunPlanSnapshot) :
  shared_plan objective stages tasks worker stall_policy max_concurrent = Ok plan ↔
  shared_plan_ok stages tasks worker ∧
  plan = MkSharedPlan 2 objective (with_worker worker <$> stages) tasks stall_policy max_concurrent
    (shared_plan_hash (MkSharedPlan 2 objective (with_worker worker <$> stages) tasks stall_policy
                         max_concurrent "")).
Proof.
  unfold shared_plan. rewrite rbind_unit_ok, ensure_ok, negb_true_iff, Nat.eqb_neq, rbind_ok.
  setoid_rewrite shared_stages_ok. setoid_rewrite fresh_keys_empty. split.
  - intros (Hn & [ids l] & (Hst & Hnd & [= -> ->]) & Hrest).
    rewrite !rbind_unit_ok, ensure_ok, bool_decide_eq_true, distinct_ok, rmap_ok in Hrest.
    destruct Hrest as (Htn & Hchk & Hrest).
    apply rbind_ok in Hrest as (o & (_ & _ & Ho)%order_sound & [= <-]). split; [|done].
    split; try done; [by destruct stages|]. intros t Ht.
    apply Hchk, shared_task_checked_ok in Ht as (? & ? & ? & Hs & _).
    by rewrite (right_id_L ∅ (∪)), elem_of_list_to_set in Hs.
  - intros [[] ->]. split; [by destruct stages|]. eexists (_, _). split; [done|].
    rewrite !rbind_unit_ok, ensure_ok, bool_decide_eq_true, distinct_ok, rmap_ok. split_and!; [done| |].
    + intros t Ht. apply shared_task_checked_ok. destruct (spo_task0 t Ht) as (? & ? & ? & ?).
      rewrite (right_id_L ∅ (∪)), elem_of_list_to_set. split_and!; try done.
      destruct spo_order0 as (_ & Hk & Hac). intros d Hd. rewrite elem_of_list_to_set.
      split; [|by eapply Hk]. intros ->. eapply (Hac (ti_id t)), tc_once. by exists t.
    + apply (order_complete _ _ "plan task dependencies contain a cycle") in spo_order0 as (o & ->).
      done.
Qed.
End Facts.
