(* ===== verification/WorkflowYaml.v ===== *)
(** * WorkflowYaml: loading workflow documents

    run_yaml.rs and run_json_escapes.rs.  The event stream of the YAML scanner
    (the yaml-rust2 crate), serde's number syntax and its JSON recogniser are
    parameters ([YamlLib]); the loader over the events is modelled: node and
    nesting limits, rejected features (aliases, anchors, tags, merge keys, a
    second document), mapping keys, duplicate keys, plain scalars.  The [loop]
    recurses on the stream; a stream that stops before [StreamEnd] is [None]. *)

From S2P Require Import Prelude Text Models Store RoleContract Recipe.
From Stdlib Require Import ZArith Lia Ascii String.
From stdpp Require Import strings pretty gmap prelude.

Inductive TScalarStyle : Type := Any | Plain | SingleQuoted | DoubleQuoted | Literal | Folded.
#[export] Instance TScalarStyle_eq_dec : EqDecision TScalarStyle.
Proof. solve_decision. Defined.

(** [yaml_rust2::parser::Event]; an anchor is 0 when absent, [tag] says whether
    the node carries a tag. *)
Inductive Event : Type :=
| Nothing
| StreamStart
| StreamEnd
| DocumentStart
| DocumentEnd
| Alias (anchor : N)
| Scalar (text : string) (style : TScalarStyle) (anchor : N) (tag : bool)
| SequenceStart (anchor : N) (tag : bool)
| SequenceEnd
| MappingStart (anchor : N) (tag : bool)
| MappingEnd.

Record Marker : Type := MkMarker { mk_line : N; mk_col : N }.

(** What [next_token] answers: an event and its place, or a scan error's place. *)
Definition Token : Type := Event * Marker + Marker.

Class YamlLib : Type := {
  yaml_tokens : string → list Token;
  parse_number : string → option string;   (** [str::parse::<serde_json::Number>], its digits *)
  is_json : string → bool                  (** [serde_json::from_str::<IgnoredAny>] succeeds *)
}.

Definition MAX_NODES : N := 8192.
Definition MAX_DEPTH : nat := 24.

Inductive Collection : Type :=
| Sequence (values : list json)
| Mapping (values : list (string * json)) (key : option string).

Record Loader : Type := MkLoader {
  ld_stack : list Collection;      (** innermost first *)
  ld_root : option json;
  ld_documents : N;
  ld_nodes : N
}.
Definition with_ld_stack (v : list Collection) (l : Loader) : Loader :=
  MkLoader v (ld_root l) (ld_documents l) (ld_nodes l).
Definition with_ld_root (v : option json) (l : Loader) : Loader :=
  MkLoader (ld_stack l) v (ld_documents l) (ld_nodes l).
Definition with_ld_documents (v : N) (l : Loader) : Loader :=
  MkLoader (ld_stack l) (ld_root l) v (ld_nodes l).
Definition with_ld_nodes (v : N) (l : Loader) : Loader :=
  MkLoader (ld_stack l) (ld_root l) (ld_documents l) v.

Definition count_node (l : Loader) : R Loader :=
  let nodes := (ld_nodes l + 1)%N in
  if (MAX_NODES <? nodes)%N || Nat.leb MAX_DEPTH (length (ld_stack l))
  then Err (Bail "workflow YAML exceeds the node or nesting limit")
  else Ok (with_ld_nodes nodes l).

Definition append_value (value : json) (l : Loader) : R Loader :=
  match ld_stack l with
  | Sequence items :: stack => Ok (with_ld_stack (Sequence (items ++ [value]) :: stack) l)
  | Mapping items (Some key) :: stack =>
      if bool_decide (key ∈ items.*1) then Err (Bail "workflow YAML has a duplicate mapping key")
      else Ok (with_ld_stack (Mapping (items ++ [(key, value)]) None :: stack) l)
  | Mapping items None :: stack =>
      match value with
      | JString key =>
          if String.eqb key "<<" then Err (Bail "workflow YAML merge keys are not allowed")
          else Ok (with_ld_stack (Mapping items (Some key) :: stack) l)
      | _ => Err (Bail "workflow YAML mapping keys must be strings")
      end
  | [] =>
      match ld_root l with
      | None => Ok (with_ld_root (Some value) l)
      | Some _ => Err (Bail "workflow YAML contains multiple root values")
      end
  end.

Section Loading.
Context `{YamlLib}.

Definition scalar (text : string) (style : TScalarStyle) : json :=
  if bool_decide (style = Plain) then
    if String.eqb text "" || String.eqb text "~" || String.eqb text "null" then JNull
    else if String.eqb text "true" then JBool true
    else if String.eqb text "false" then JBool false
    else match parse_number text with
         | Some number => JNumber number
         | None => JString text
         end
  else JString text.

(** [result.map_err]: the place of an error that [append_value] reports. *)
Definition located {A} (m : Marker) (r : R A) : R A :=
  match r with
  | Err (Bail e) => Err (Bail (e +:+ " at line " +:+ pretty (mk_line m) +:+ ", column "
                               +:+ pretty (mk_col m)))
  | _ => r
  end.

(** One iteration of the loop on an event other than [StreamEnd]. *)
Definition on_event (event : Event) (marker : Marker) (l : Loader) : R Loader :=
  match event with
  | StreamStart | DocumentEnd | StreamEnd => Ok l
  | DocumentStart =>
      let documents := (ld_documents l + 1)%N in
      if negb (documents =? 1)%N
      then Err (Bail "workflow YAML must contain exactly one document")
      else Ok (with_ld_documents documents l)
  | Alias _ => Err (Bail "workflow YAML aliases and anchors are not allowed")
  | Scalar text style anchor tag =>
      if negb (anchor =? 0)%N || tag
      then Err (Bail "workflow YAML anchors and tags are not allowed")
      else
        try! l := count_node l in
        located marker (append_value (scalar text style) l)
  | SequenceStart anchor tag =>
      if negb (anchor =? 0)%N || tag
      then Err (Bail "workflow YAML anchors and tags are not allowed")
      else
        try! l := count_node l in
        Ok (with_ld_stack (Sequence [] :: ld_stack l) l)
  | MappingStart anchor tag =>
      if negb (anchor =? 0)%N || tag
      then Err (Bail "workflow YAML anchors and tags are not allowed")
      else
        try! l := count_node l in
        Ok (with_ld_stack (Mapping [] None :: ld_stack l) l)
  | SequenceEnd | MappingEnd =>
      match ld_stack l with
      | Sequence values :: stack => located marker (append_value (JArray values) (with_ld_stack stack l))
      | Mapping values None :: stack =>
          located marker (append_value (JObject values) (with_ld_stack stack l))
      | _ => Err (Bail "workflow YAML contains an incomplete collection")
      end
  | Nothing => Err (Bail "workflow YAML parser emitted an unexpected event")
  end.

(** The [loop]: up to and without [StreamEnd]. *)
Fixpoint load (tokens : list Token) (l : Loader) : option (R Loader) :=
  match tokens with
  | [] => None
  | inr m :: _ =>
      Some (Err (Bail ("invalid workflow YAML at line " +:+ pretty (mk_line m) +:+ ", column "
                       +:+ pretty (mk_col m))))
  | inl (StreamEnd, _) :: _ => Some (Ok l)
  | inl (event, m) :: tokens =>
      match on_event event m l with
      | Ok l => load tokens l
      | Err e => Some (Err e)
      end
  end.

Definition finish (l : Loader) : R json :=
  if negb (ld_documents l =? 1)%N || negb (Nat.eqb (length (ld_stack l)) 0)
  then Err (Bail "workflow YAML must contain one complete document")
  else match ld_root l with
       | Some (JObject fields) => Ok (JObject fields)
       | _ => Err (Bail "workflow YAML must have a mapping root")
       end.

Definition load_document (tokens : list Token) : option (R json) :=
  match load tokens (MkLoader [] None 0 0) with
  | Some (Ok l) => Some (finish l)
  | Some (Err e) => Some (Err e)
  | None => None
  end.

(** ** [run_json_escapes.rs] *)

(** [u16::from_str_radix(_, 16)]: an optional leading plus, then hex digits; at
    most four here, so no overflow. *)
Definition hex_digit (c : ascii) : option N :=
  let n := byte_val c in
  if ((48 <=? n) && (n <=? 57))%N%bool then Some (n - 48)%N
  else if ((97 <=? n) && (n <=? 102))%N%bool then Some (n - 87)%N
  else if ((65 <=? n) && (n <=? 70))%N%bool then Some (n - 55)%N
  else None.

Fixpoint hex_digits (acc : N) (l : list ascii) : option N :=
  match l with
  | [] => Some acc
  | c :: l => d ← hex_digit c; hex_digits (acc * 16 + d)%N l
  end.

Definition from_str_radix_16 (l : list ascii) : option N :=
  match l with
  | [] => None
  | c :: rest =>
      if Ascii.eqb c "+" then match rest with [] => None | _ => hex_digits 0 rest end
      else hex_digits 0 l
  end.

Definition unicode_escape (bytes : list ascii) : option N :=
  match bytes with
  | a :: b :: rest =>
      if Ascii.eqb a "\" && Ascii.eqb b "u" then from_str_radix_16 rest else None
  | _ => None
  end.

(** [bytes.get(from..to)]: [None] past the end. *)
Definition get_range (n : nat) (bytes : list ascii) : option (list ascii) :=
  if Nat.leb n (length bytes) then Some (take n bytes) else None.

(** [char::encode_utf8] of a character beyond the basic plane. *)
Definition utf8_4 (c : N) : list ascii :=
  ascii_of_N <$> [240 + c / 262144; 128 + (c / 4096) mod 64; 128 + (c / 64) mod 64; 128 + c mod 64]%N.

Definition surrogate_pair (bytes : list ascii) : option N :=
  high ← get_range 6 bytes ≫= unicode_escape;
  low ← get_range 6 (drop 6 bytes) ≫= unicode_escape;
  if ((55296 <=? high) && (high <=? 56319) && (56320 <=? low) && (low <=? 57343))%N%bool
  then Some (65536 + (high - 55296) * 1024 + low - 56320)%N
  else None.

(** The scan, one unit of fuel per byte; what is left at the end is copied. *)
Fixpoint normalize_loop (fuel : nat) (quoted : bool) (bytes : list ascii) : list ascii :=
  match fuel, bytes with
  | S fuel, b :: rest =>
      if Ascii.eqb b "034" then b :: normalize_loop fuel (negb quoted) rest
      else if Ascii.eqb b "\" && quoted then
        match surrogate_pair bytes with
        | Some value => utf8_4 value ++ normalize_loop fuel quoted (drop 12 bytes)
        | None => take 2 bytes ++ normalize_loop fuel quoted (drop 2 bytes)
        end
      else b :: normalize_loop fuel quoted rest
  | _, _ => bytes
  end.

Definition normalize_json_surrogate_pairs (source : string) : string :=
  if negb (str_contains "\u" source) || negb (is_json source) then source
  else string_of_list_ascii
         (normalize_loop (String.length source) false (list_ascii_of_string source)).

Definition parse_workflow_yaml (source : string) : option (R json) :=
  if String.eqb source "" || (WORKFLOW_DOCUMENT_MAX_BYTES <? zlen source)%Z || has_nul source
  then Some (Err (Bail "workflow YAML is empty, too large or contains NUL"))
  else load_document (yaml_tokens (normalize_json_surrogate_pairs source)).
End Loading.
