(* ===== verification/YamlFacts.v ===== *)
(** * YamlFacts: what the workflow loader accepts

    [yaml_load_bounded]: whatever the scanner emits, a loaded document is an
    object of at most 8192 nodes (keys counted) and 24 levels, without duplicate
    or merge keys anywhere.  [yaml_load_roundtrip]: conversely every such value
    is loaded unchanged from its events.  Normalising surrogate escapes never
    lengthens a source, so the scanner sees at most the accepted bytes. *)

From S2P Require Import Prelude Text Models Store RoleContract Recipe WorkflowYaml.
From Stdlib Require Import ZArith Lia Ascii String.
From stdpp Require Import strings pretty gmap prelude.

(** ** JSON values as trees *)

Lemma json_tree_ind (P : json → Prop) :
  P JNull → (∀ b, P (JBool b)) → (∀ r, P (JNumber r)) → (∀ s, P (JString s)) →
  (∀ l, Forall P l → P (JArray l)) →
  (∀ fields, Forall (λ kv, P kv.2) fields → P (JObject fields)) →
  ∀ v, P v.
Proof.
  intros Hn Hb Hr Hs Ha Ho. fix IH 1. intros [| | | |l|fields].
  - exact Hn.
  - apply Hb.
  - apply Hr.
  - apply Hs.
  - apply Ha. induction l; constructor; [apply IH|done].
  - apply Ho. induction fields as [|[k w] fields IHf]; constructor; [apply IH|done].
Qed.

(** Nodes of a value: itself, its elements, its keys and their values. *)
Fixpoint json_nodes (v : json) : nat :=
  match v with
  | JArray l => S (sum_list (json_nodes <$> l))
  | JObject fields => S (sum_list ((λ kv : string * json, S (json_nodes kv.2)) <$> fields))
  | _ => 1
  end.

Fixpoint json_height (v : json) : nat :=
  match v with
  | JArray l => S (max_list (json_height <$> l))
  | JObject fields => S (max_list ((λ kv : string * json, json_height kv.2) <$> fields))
  | _ => 1
  end.

(** No object repeats a key or has the merge key. *)
Fixpoint plain_keys (v : json) : Prop :=
  match v with
  | JArray l => foldr (λ x P, plain_keys x ∧ P) True l
  | JObject fields =>
      NoDup fields.*1 ∧ ("<<" ∉ fields.*1) ∧
      foldr (λ (kv : string * json) P, plain_keys kv.2 ∧ P) True fields
  | _ => True
  end.

Lemma foldr_and {A} (P : A → Prop) l : foldr (λ x Q, P x ∧ Q) True l ↔ Forall P l.
Proof. induction l; cbn; [by rewrite Forall_nil|]. rewrite Forall_cons. naive_solver. Qed.

Lemma plain_keys_array l : plain_keys (JArray l) ↔ Forall plain_keys l.
Proof. apply foldr_and. Qed.

Lemma plain_keys_object fields :
  plain_keys (JObject fields) ↔
  NoDup fields.*1 ∧ ("<<" ∉ fields.*1) ∧ Forall (λ kv, plain_keys kv.2) fields.
Proof. cbn [plain_keys]. by rewrite (foldr_and (λ kv : string * json, plain_keys kv.2)). Qed.

Lemma max_list_le l n : Forall (λ x, x ≤ n) l → max_list l ≤ n.
Proof. induction 1; cbn; lia. Qed.

(** ** Loaded values are bounded *)

Definition collection_values (c : Collection) : list json :=
  match c with Sequence values => values | Mapping values _ => values.*2 end.

Definition collection_nodes (c : Collection) : nat :=
  match c with
  | Sequence values => json_nodes (JArray values)
  | Mapping values key => json_nodes (JObject values) + length (option_list key)
  end.

Definition collection_keys (c : Collection) : Prop :=
  match c with
  | Sequence values => plain_keys (JArray values)
  | Mapping values key => plain_keys (JObject values) ∧ key ≠ Some "<<"
  end.

(** What an open stack may hold: [depth] levels lie around its innermost
    collection's elements. *)
Fixpoint stack_fits (stack : list Collection) : Prop :=
  match stack with
  | [] => True
  | c :: rest =>
      Forall (λ v, json_height v + length stack ≤ MAX_DEPTH) (collection_values c) ∧
      collection_keys c ∧ stack_fits rest
  end.

Definition open_nodes (l : Loader) : nat :=
  sum_list (collection_nodes <$> ld_stack l) + from_option json_nodes 0 (ld_root l).

Record loading (l : Loader) : Prop := {
  lo_depth : length (ld_stack l) ≤ MAX_DEPTH;
  lo_stack : stack_fits (ld_stack l);
  lo_root : ∀ v, ld_root l = Some v → json_height v ≤ MAX_DEPTH ∧ plain_keys v;
  lo_nodes : (N.of_nat (open_nodes l) ≤ ld_nodes l)%N;
  lo_limit : (ld_nodes l ≤ MAX_NODES)%N
}.

Lemma sum_list_app l k : sum_list (l ++ k) = sum_list l + sum_list k.
Proof. induction l; cbn; lia. Qed.

(** Appending a value whose nodes are already counted. *)
Lemma append_loading v l l' :
  length (ld_stack l) ≤ MAX_DEPTH → stack_fits (ld_stack l) →
  (∀ v, ld_root l = Some v → json_height v ≤ MAX_DEPTH ∧ plain_keys v) →
  (N.of_nat (open_nodes l + json_nodes v)%nat ≤ ld_nodes l)%N →
  (ld_nodes l ≤ MAX_NODES)%N →
  json_height v + length (ld_stack l) ≤ MAX_DEPTH → plain_keys v →
  append_value v l = Ok l' → loading l'.
Proof.
  intros Hd Hs Hr Hn Hlim Hh Hk. unfold append_value, open_nodes in *.
  destruct (ld_stack l) as [|[items|items [key|]] stack] eqn:Es.
  - destruct (ld_root l) eqn:Er; [done|]. intros [= <-].
    split; unfold open_nodes; cbn; rewrite ?Es; cbn in *; try done; try lia.
    intros w [= <-]. split; [lia|done].
  - intros [= <-]. cbn in Hs. destruct Hs as (Hf & Hc & Hrest).
    split; unfold open_nodes; cbn; try done.
    + split_and!; [|apply foldr_and; apply foldr_and in Hc; by apply Forall_app_2, Forall_singleton|done].
      apply Forall_app_2; [done|]. by apply Forall_singleton.
    + cbn in Hn. rewrite fmap_app, sum_list_app. cbn. lia.
  - case_bool_decide as Hdup; [done|]. intros [= <-]. cbn in Hs.
    destruct Hs as (Hf & [(Hnd & Hmerge & Hc) Hkey] & Hrest). split; unfold open_nodes; cbn; try done.
    + rewrite !fmap_app. cbn. split_and!; try done.
      * apply Forall_app_2; [done|]. by apply Forall_singleton.
      * apply NoDup_app. split_and!; [done|set_solver|apply NoDup_singleton].
      * set_solver.
      * apply (foldr_and (λ kv : string * json, plain_keys kv.2)).
        apply (foldr_and (λ kv : string * json, plain_keys kv.2)) in Hc.
        by apply Forall_app_2, Forall_singleton.
    + cbn in Hn. rewrite fmap_app, sum_list_app. cbn. lia.
  - destruct v as [| | |key| |]; try done. destruct (String.eqb_spec key "<<") as [|Hne]; [done|].
    intros [= <-]. cbn in Hs. destruct Hs as (Hf & [Hc _] & Hrest). split; unfold open_nodes; cbn; try done.
    + destruct Hc as (? & ? & ?). split_and!; try done. congruence.
    + cbn in Hn. lia.
Qed.

Section Bounded.
Context `{YamlLib}.

Lemma located_ok {A} m (r : R A) a : located m r = Ok a ↔ r = Ok a.
Proof. by destruct r as [|[]]. Qed.

Lemma count_node_ok l l' :
  count_node l = Ok l' →
  l' = with_ld_nodes (ld_nodes l + 1) l ∧ (ld_nodes l + 1 ≤ MAX_NODES)%N ∧
  length (ld_stack l) < MAX_DEPTH.
Proof.
  unfold count_node. destruct (N.ltb_spec MAX_NODES (ld_nodes l + 1)); [done|]. cbn [orb].
  destruct (Nat.leb_spec MAX_DEPTH (length (ld_stack l))); [done|]. by intros [= <-].
Qed.

Lemma scalar_leaf text style :
  json_nodes (scalar text style) = 1 ∧ json_height (scalar text style) = 1 ∧
  plain_keys (scalar text style).
Proof. unfold scalar. repeat case_match; done. Qed.

Lemma stack_max c rest :
  stack_fits (c :: rest) → length (c :: rest) ≤ MAX_DEPTH →
  max_list (json_height <$> collection_values c) + length (c :: rest) ≤ MAX_DEPTH.
Proof.
  intros (Hf & _ & _) Hd.
  assert (max_list (json_height <$> collection_values c) ≤ MAX_DEPTH - length (c :: rest)); [|lia].
  apply max_list_le, Forall_fmap. eapply Forall_impl; [exact Hf|]. intros x Hx. unfold MAX_DEPTH in *. cbn in *. lia.
Qed.

(** Opening and closing a collection. *)
Lemma open_loading c l :
  loading l → length (ld_stack l) < MAX_DEPTH → (ld_nodes l + 1 ≤ MAX_NODES)%N →
  c = Sequence [] ∨ c = Mapping [] None →
  loading (with_ld_stack (c :: ld_stack l) (with_ld_nodes (ld_nodes l + 1) l)).
Proof.
  intros [] Hd Hn Hc. unfold open_nodes in *.
  split; unfold open_nodes; cbn; try done; try lia.
  - destruct Hc as [-> | ->]; cbn; split_and!; try done; try constructor. set_solver.
  - destruct Hc as [-> | ->]; cbn; lia.
Qed.

Lemma close_loading v c rest l l' :
  loading l → ld_stack l = c :: rest →
  v = JArray (collection_values c) ∧ (∃ values, c = Sequence values) ∨
  (∃ values, c = Mapping values None ∧ v = JObject values) →
  append_value v (with_ld_stack rest l) = Ok l' → loading l'.
Proof.
  intros [] Es Hv. unfold open_nodes in *. rewrite Es in *. pose proof (stack_max c rest lo_stack0 lo_depth0) as Hm.
  destruct lo_stack0 as (Hf & Hk & Hrest).
  assert (json_nodes v = collection_nodes c ∧ json_height v = S (max_list (json_height <$> collection_values c))
          ∧ plain_keys v) as (Hn & Hh & Hp).
  { destruct Hv as [[-> (values & ->)]|(values & -> & ->)]; [done|]. cbn. rewrite <-list_fmap_compose.
    destruct Hk as [(? & ? & ?) _]. split_and!; try done. }
  cbn in *. apply append_loading; cbn; try done; unfold open_nodes; cbn; lia.
Qed.

Lemma on_event_loading event m l l' : loading l → on_event event m l = Ok l' → loading l'.
Proof.
  intros Hl. destruct event as [| | | | |a|text style a tag|a tag| |a tag|]; cbn [on_event];
    try done; try (by intros [= <-]).
  - destruct (negb _); [done|]. intros [= <-]. by destruct Hl.
  - destruct (_ || _); [done|].
    intros (l1 & (-> & Hn & Hd)%count_node_ok & Ha%located_ok)%rbind_ok_inv.
    destruct (scalar_leaf text style) as (Hs1 & Hs2 & Hs3). destruct Hl.
    eapply append_loading; [..|exact Ha]; cbn; try done; unfold open_nodes in *; cbn; lia.
  - destruct (_ || _); [done|].
    intros (l1 & (-> & Hn & Hd)%count_node_ok & [= <-])%rbind_ok_inv. apply open_loading; auto.
  - destruct (ld_stack l) as [|[values|values [|]] rest] eqn:Es; try done; rewrite located_ok;
      eapply close_loading; eauto.
  - destruct (_ || _); [done|].
    intros (l1 & (-> & Hn & Hd)%count_node_ok & [= <-])%rbind_ok_inv. apply open_loading; auto.
  - destruct (ld_stack l) as [|[values|values [|]] rest] eqn:Es; try done; rewrite located_ok;
      eapply close_loading; eauto.
Qed.

Lemma load_loading tokens l l' : loading l → load tokens l = Some (Ok l') → loading l'.
Proof.
  revert l. induction tokens as [|[[event m]|m] tokens IH]; intros l Hl; cbn [load]; try done.
  destruct event; try (by intros [= <-]);
    (destruct (on_event _ m l) eqn:E; [|done]; apply IH; by eapply on_event_loading).
Qed.

(** Whatever events the scanner emits, a document the loader accepts is an
    object of at most 8192 nodes, mapping keys included, and at most 24 levels,
    in which no object repeats a key or carries the merge key. *)
Theorem yaml_load_bounded (tokens : list Token) (v : json) :
  load_document tokens = Some (Ok v) →
  (N.of_nat (json_nodes v) ≤ MAX_NODES)%N ∧ json_height v ≤ MAX_DEPTH ∧ plain_keys v ∧
  ∃ fields, v = JObject fields.
Proof.
  unfold load_document. destruct (load tokens _) as [[l|]|] eqn:E; try done.
  apply load_loading in E as [].
  2: { split; cbn; try done; try lia. }
  unfold finish. destruct (negb _ || _) eqn:Eb; [done|]. split_bools. apply Nat.eqb_eq, length_zero_iff_nil in H1.
  intros [= Hf]. destruct (ld_root l) as [[| | | | |fields]|] eqn:Er; try done. injection Hf as <-.
  destruct (lo_root0 _ eq_refl) as [Hh Hk]. unfold open_nodes in lo_nodes0. rewrite H1, Er in lo_nodes0.
  split_and!; try done; [|by eexists]. cbn in *. lia.
Qed.
End Bounded.

(** ** Every bounded value is loaded from its events *)

(** The events of a value: strings quoted, other scalars plain. *)
Fixpoint events (v : json) : list Event :=
  match v with
  | JNull => [Scalar "null" Plain 0 false]
  | JBool b => [Scalar (if b then "true" else "false") Plain 0 false]
  | JNumber r => [Scalar r Plain 0 false]
  | JString s => [Scalar s DoubleQuoted 0 false]
  | JArray l => SequenceStart 0 false :: concat (events <$> l) ++ [SequenceEnd]
  | JObject fields =>
      MappingStart 0 false ::
      concat ((λ kv : string * json, Scalar kv.1 DoubleQuoted 0 false :: events kv.2) <$> fields) ++
      [MappingEnd]
  end.

Section RoundTrip.
Context `{YamlLib}.

(** Every number is written the way serde reads it. *)
Fixpoint readable (v : json) : Prop :=
  match v with
  | JNumber r => scalar r Plain = JNumber r
  | JArray l => foldr (λ x P, readable x ∧ P) True l
  | JObject fields => foldr (λ (kv : string * json) P, readable kv.2 ∧ P) True fields
  | _ => True
  end.

Fixpoint feed (m : Marker) (evs : list Event) (l : Loader) : R Loader :=
  match evs with
  | [] => Ok l
  | e :: evs => try! l := on_event e m l in feed m evs l
  end.

Lemma feed_app m evs evs' l l' :
  feed m evs l = Ok l' → feed m (evs ++ evs') l = feed m evs' l'.
Proof.
  revert l. induction evs as [|e evs IH]; cbn; intros l; [by intros [= ->]|].
  destruct (on_event e m l); cbn; [apply IH|done].
Qed.

(** The nodes are counted before the value is appended. *)
Definition counted (n : nat) (l : Loader) : Loader := with_ld_nodes (ld_nodes l + N.of_nat n) l.

Lemma counted_counted a b l : counted a (counted b l) = counted (b + a) l.
Proof. unfold counted, with_ld_nodes. destruct l. cbn. f_equal. lia. Qed.

Lemma count_node_counted l :
  (ld_nodes l + 1 ≤ MAX_NODES)%N → length (ld_stack l) < MAX_DEPTH → count_node l = Ok (counted 1 l).
Proof.
  intros Hn Hd. unfold count_node. destruct (N.ltb_spec MAX_NODES (ld_nodes l + 1)); [lia|].
  destruct (Nat.leb_spec MAX_DEPTH (length (ld_stack l))); [lia|]. done.
Qed.

Lemma feed_scalar m text style v l :
  scalar text style = v →
  (ld_nodes l + 1 ≤ MAX_NODES)%N → length (ld_stack l) < MAX_DEPTH →
  on_event (Scalar text style 0 false) m l = located m (append_value v (counted 1 l)).
Proof. intros <- Hn Hd. cbn. by rewrite count_node_counted. Qed.

Definition fits (v : json) (l : Loader) : Prop :=
  (ld_nodes l + N.of_nat (json_nodes v) ≤ MAX_NODES)%N ∧
  json_height v + length (ld_stack l) ≤ MAX_DEPTH.

Definition feeds (m : Marker) (v : json) : Prop :=
  ∀ l l', fits v l → append_value v (counted (json_nodes v) l) = Ok l' → feed m (events v) l = Ok l'.

Lemma feeds_leaf m v text style :
  events v = [Scalar text style 0 false] → scalar text style = v →
  json_nodes v = 1 → json_height v = 1 → feeds m v.
Proof.
  intros He Hs Hn Hh l l' [Hf1 Hf2] Ha. rewrite Hn in *. rewrite Hh in *. rewrite He. cbn [feed].
  rewrite (feed_scalar m text style v l Hs) by lia. rewrite Ha. done.
Qed.

Lemma feeds_items m items : Forall (feeds m) items →
  ∀ acc st l, ld_stack l = Sequence acc :: st →
  (ld_nodes l + N.of_nat (sum_list (json_nodes <$> items)) ≤ MAX_NODES)%N →
  Forall (λ v, json_height v + S (length st) ≤ MAX_DEPTH) items →
  feed m (concat (events <$> items)) l =
  Ok (with_ld_stack (Sequence (acc ++ items) :: st) (counted (sum_list (json_nodes <$> items)) l)).
Proof.
  induction 1 as [|v items Hv Hitems IH]; intros acc st l Es Hn Hh; cbn.
  - rewrite app_nil_r. destruct l; cbn in *; subst. unfold counted, with_ld_stack, with_ld_nodes. cbn.
    do 2 f_equal. lia.
  - apply Forall_cons in Hh as [Hh1 Hh2]. cbn in Hn.
    assert (feed m (events v) l =
            Ok (with_ld_stack (Sequence (acc ++ [v]) :: st) (counted (json_nodes v) l))) as Hf.
    { apply Hv; [split; [lia|rewrite Es; cbn; lia]|]. unfold append_value. cbn. rewrite Es. done. }
    erewrite feed_app by exact Hf. rewrite (IH (acc ++ [v]) st); cbn; [|done|lia|done].
    rewrite <-app_assoc. unfold counted, with_ld_stack, with_ld_nodes. cbn. do 2 f_equal. lia.
Qed.

Lemma feed_key m k acc st l :
  ld_stack l = Mapping acc None :: st → (ld_nodes l + 1 ≤ MAX_NODES)%N → S (length st) < MAX_DEPTH →
  k ≠ "<<" →
  on_event (Scalar k DoubleQuoted 0 false) m l =
  Ok (with_ld_stack (Mapping acc (Some k) :: st) (counted 1 l)).
Proof.
  intros Es Hn Hd Hk. rewrite (feed_scalar m k DoubleQuoted (JString k)) by (done || rewrite ?Es; cbn; lia).
  unfold append_value. cbn [ld_stack counted with_ld_nodes]. rewrite Es.
  by rewrite (proj2 (String.eqb_neq k "<<")).
Qed.

Lemma feeds_fields m fields : Forall (λ kv, feeds m kv.2) fields →
  ∀ acc st l, ld_stack l = Mapping acc None :: st →
  (ld_nodes l + N.of_nat (sum_list ((λ kv, S (json_nodes kv.2)) <$> fields)) ≤ MAX_NODES)%N →
  Forall (λ kv, json_height kv.2 + S (length st) ≤ MAX_DEPTH) fields →
  S (length st) < MAX_DEPTH ∨ fields = [] →
  NoDup (acc ++ fields).*1 → ("<<" ∉ fields.*1) →
  feed m (concat ((λ kv, Scalar kv.1 DoubleQuoted 0 false :: events kv.2) <$> fields)) l =
  Ok (with_ld_stack (Mapping (acc ++ fields) None :: st)
        (counted (sum_list ((λ kv, S (json_nodes kv.2)) <$> fields)) l)).
Proof.
  induction 1 as [|[k v] fields Hv Hitems IH]; intros acc st l Es Hn Hh Hd Hnd Hm; cbn [fmap list_fmap concat app feed fst].
  - cbn. rewrite app_nil_r. destruct l; cbn in *; subst. unfold counted, with_ld_stack, with_ld_nodes. cbn.
    do 2 f_equal. lia.
  - apply Forall_cons in Hh as [Hh1 Hh2]. cbn in Hn, Hm, Hh1. apply not_elem_of_cons in Hm as [Hk Hm].
    assert (json_nodes v ≥ 1 ∧ json_height v ≥ 1) as [? ?] by (destruct v; cbn; lia).
    rewrite (feed_key m k acc st l) by (done || lia). cbn [rbind].
    assert (k ∉ acc.*1) as Hka.
    { rewrite fmap_app in Hnd. apply NoDup_app in Hnd as (_ & Hx & _). intros Hin. apply (Hx k Hin). left. }
    set (l1 := with_ld_stack (Mapping acc (Some k) :: st) (counted 1 l)).
    assert (feed m (events v) l1 =
            Ok (with_ld_stack (Mapping (acc ++ [(k, v)]) None :: st) (counted (S (json_nodes v)) l))) as Hf.
    { apply Hv; [split; unfold l1; cbn; lia|]. unfold append_value. cbn.
      rewrite bool_decide_false by done. unfold counted, with_ld_stack, with_ld_nodes. cbn. do 2 f_equal. lia. }
    erewrite feed_app by exact Hf. rewrite (IH (acc ++ [(k, v)]) st); cbn; [|done|lia|done| | |done].
    + rewrite <-app_assoc. unfold counted, with_ld_stack, with_ld_nodes. cbn. do 2 f_equal. lia.
    + left. lia.
    + by rewrite <-app_assoc.
Qed.

Lemma value_feeds m v : readable v → plain_keys v → feeds m v.
Proof.
  induction v as [| | | |items IH|fields IH] using json_tree_ind; intros Hr Hk.
  - by eapply feeds_leaf.
  - destruct b; by eapply feeds_leaf.
  - by eapply feeds_leaf.
  - by eapply feeds_leaf.
  - apply plain_keys_array in Hk. apply (foldr_and readable) in Hr.
    assert (Forall (feeds m) items) as Hitems.
    { rewrite Forall_forall in *. intros v Hv. by apply IH; [|apply Hr|apply Hk]. }
    intros l l' [Hn Hh] Ha. cbn in Hn, Hh. cbn [events feed on_event].
    cbn. rewrite count_node_counted by lia. cbn.
    erewrite feed_app; [|apply (feeds_items m items Hitems [] (ld_stack l)); cbn; [done|lia|]].
    + cbn. unfold append_value in *. cbn in *. unfold counted, with_ld_stack, with_ld_nodes in *. cbn in *.
      replace (ld_nodes l + 1 + N.of_nat (sum_list (json_nodes <$> items)))%N
        with (ld_nodes l + N.of_nat (S (sum_list (json_nodes <$> items))))%N by lia.
      destruct l; cbn in *. rewrite Ha. done.
    + apply Forall_forall. intros v Hv.
      assert (json_height v ≤ max_list (json_height <$> items)); [|lia].
      apply max_list_elem_of_le. by apply list_elem_of_fmap_2.
  - apply plain_keys_object in Hk as (Hnd & Hm & Hk).
    apply (foldr_and (λ kv : string * json, readable kv.2)) in Hr.
    assert (Forall (λ kv, feeds m kv.2) fields) as Hitems.
    { rewrite Forall_forall in *. intros v Hv. by apply IH; [|apply Hr|apply Hk]. }
    intros l l' [Hn Hh] Ha. cbn in Hn, Hh. cbn [events feed on_event].
    cbn. rewrite count_node_counted by lia. cbn.
    erewrite feed_app; [|apply (feeds_fields m fields Hitems [] (ld_stack l)); cbn; [done|lia| | |done|done]].
    + cbn. unfold append_value in *. cbn in *. unfold counted, with_ld_stack, with_ld_nodes in *. cbn in *.
      replace (ld_nodes l + 1 + N.of_nat (sum_list ((λ kv, S (json_nodes kv.2)) <$> fields)))%N
        with (ld_nodes l + N.of_nat (S (sum_list ((λ kv, S (json_nodes kv.2)) <$> fields))))%N by lia.
      destruct l; cbn in *. rewrite Ha. done.
    + apply Forall_forall. intros v Hv.
      assert (json_height v.2 ≤ max_list ((λ kv : string * json, json_height kv.2) <$> fields)); [|lia].
      apply max_list_elem_of_le. by apply (list_elem_of_fmap_2 (λ kv : string * json, json_height kv.2)).
    + destruct fields as [|kv fields]; [by right|left]. cbn in Hh.
      assert (json_height kv.2 ≥ 1) by (destruct kv.2; cbn; lia). lia.
Qed.

(** A stream whose events load feeds the loader, wherever its events lie. *)
Lemma on_event_marker e m m' l l' : on_event e m l = Ok l' → on_event e m' l = Ok l'.
Proof.
  destruct e; cbn; try done.
  - destruct (_ || _); [done|]. destruct (count_node l); cbn; [|done]. by rewrite !located_ok.
  - destruct (ld_stack l) as [|[|? []]]; try done; by rewrite !located_ok.
  - destruct (ld_stack l) as [|[|? []]]; try done; by rewrite !located_ok.
Qed.

Lemma load_feed m evs rest l l' :
  StreamEnd ∉ evs.*1 → feed m evs.*1 l = Ok l' → load ((inl <$> evs) ++ rest) l = load rest l'.
Proof.
  revert l. induction evs as [|[e m'] evs IH]; cbn; intros l Hne; [by intros [= ->]|].
  apply not_elem_of_cons in Hne as [He Hne].
  intros (l1 & Hl1 & Hf)%rbind_ok_inv. rewrite (on_event_marker e m m' l l1 Hl1).
  destruct e; try (by apply IH). done.
Qed.

Lemma elem_of_concat_fmap {A B} (f : A → list B) l (b : B) :
  b ∈ concat (f <$> l) → ∃ a, a ∈ l ∧ b ∈ f a.
Proof. induction l as [|x l IH]; cbn; [set_solver|]. rewrite elem_of_app. set_solver. Qed.

Lemma events_no_end v : StreamEnd ∉ events v.
Proof.
  induction v as [| | | |items IH|fields IH] using json_tree_ind; cbn; try (destruct b); try set_solver.
  - rewrite not_elem_of_cons, not_elem_of_app. split_and!; [done| |set_solver].
    intros (v & Hv & Hin)%elem_of_concat_fmap.
    rewrite Forall_forall in IH. by eapply IH.
  - rewrite not_elem_of_cons, not_elem_of_app. split_and!; [done| |set_solver].
    intros (v & Hv & Hin)%elem_of_concat_fmap.
    rewrite Forall_forall in IH. apply elem_of_cons in Hin as [|Hin]; [done|]. by eapply IH.
Qed.

(** Every object within the limits is loaded unchanged: the events of its
    single document, at whatever places, give the value back. *)
Theorem yaml_load_roundtrip (fields : list (string * json)) (evs : list (Event * Marker)) :
  let v := JObject fields in
  (N.of_nat (json_nodes v) ≤ MAX_NODES)%N → json_height v ≤ MAX_DEPTH →
  plain_keys v → readable v →
  evs.*1 = StreamStart :: DocumentStart :: events v ++ [DocumentEnd; StreamEnd] →
  load_document (inl <$> evs) = Some (Ok v).
Proof.
  intros v Hn Hh Hk Hr He. remember (events v) as es eqn:Ees.
  destruct evs as [|[e1 m1] [|[e2 m2] evs]]; cbn in He; try done. injection He as -> -> He.
  apply fmap_app_inv in He as (evs1 & evs2 & He1 & He2 & ->).
  destruct evs2 as [|[e3 m3] [|[e4 m4] [|]]]; cbn in He2; try done. injection He2 as <- <-.
  unfold load_document. cbn [fmap list_fmap load on_event]. cbn [ld_documents].
  assert (feed m1 evs1.*1 (with_ld_documents (0 + 1) (MkLoader [] None 0 0)) =
          Ok (MkLoader [] (Some v) 1 (N.of_nat (json_nodes v)))) as Hf.
  { rewrite <-He1, Ees. apply value_feeds; [done..| |done]. split; [|cbn [ld_stack with_ld_documents]]; cbn in *; lia. }
  replace (negb (0 + 1 =? 1)%N) with false by done. cbv beta iota. rewrite fmap_app.
  erewrite load_feed; [|by rewrite <-He1, Ees; apply events_no_end|exact Hf].
  done.
Qed.
End RoundTrip.

(** ** Normalised escapes *)

Lemma surrogate_pair_length bytes c : surrogate_pair bytes = Some c → 12 ≤ length bytes.
Proof.
  unfold surrogate_pair, get_range.
  destruct (Nat.leb_spec 6 (length (drop 6 bytes))) as [Hl|]; [rewrite length_drop in Hl; lia|].
  intros (high & _ & (low & He & _)%bind_Some)%bind_Some. done.
Qed.

Lemma normalize_loop_length fuel quoted bytes :
  length (normalize_loop fuel quoted bytes) ≤ length bytes.
Proof.
  revert quoted bytes. induction fuel as [|fuel IH]; intros quoted [|b rest]; cbn [normalize_loop]; try done.
  destruct (Ascii.eqb b "034"); [cbn; specialize (IH (negb quoted) rest); lia|].
  destruct (Ascii.eqb b "\" && quoted); [|cbn; specialize (IH quoted rest); lia].
  destruct (surrogate_pair (b :: rest)) as [c|] eqn:E; rewrite length_app.
  - apply surrogate_pair_length in E. specialize (IH quoted (drop 12 (b :: rest))).
    rewrite length_drop in IH. cbn [utf8_4 length fmap list_fmap] in *. lia.
  - specialize (IH quoted (drop 2 (b :: rest))). rewrite length_drop in IH.
    rewrite length_take. lia.
Qed.

Theorem normalize_length `{YamlLib} (source : string) :
  String.length (normalize_json_surrogate_pairs source) ≤ String.length source.
Proof.
  unfold normalize_json_surrogate_pairs. destruct (_ || _); [done|].
  assert (∀ l, String.length (string_of_list_ascii l) = length l) as Hlen
    by (induction l; cbn; congruence).
  pose proof (Hlen (list_ascii_of_string source)) as Hs. rewrite string_of_list_ascii_of_string in Hs.
  rewrite Hlen, Hs. apply normalize_loop_length.
Qed.
