(* ===== verification/Catalog.v ===== *)
(** * Catalog: the catalogue of workflow recipes

    run_catalog.rs (built-in, personal and project recipes in one listing),
    run_catalog_store.rs (personal recipes, saved under a revision token),
    run_project_files.rs (the documents of a project's [.alera/workflows]) and
    the documents of run_recipe.rs ([from_yaml], [portable_document]).

    The state is the personalRecipes table together with the columns of the
    workspaces and projects tables the code reads; a project's files are a tree
    of nodes.  serde's view of a recipe is a parameter ([CatalogLib]). *)

From S2P Require Import Prelude Text Models Store RoleContract Ordering Recipe RecipeFacts Plan WorkflowYaml.
From Stdlib Require Import ZArith Lia Ascii String.
From stdpp Require Import strings gmap pretty prelude.

(** ** State *)

Record PersonalRecipe : Type := MkPersonal {
  pr_id : string;
  pr_revision : Z;
  pr_document : string
}.

Record CatalogWorkspace : Type := MkCatalogWorkspace {
  cw_id : string;
  cw_project_id : string;
  cw_path : string;
  cw_active : bool;       (** [status = active] *)
  cw_host_id : string
}.
Record CatalogProject : Type := MkCatalogProject {
  cp_id : string;
  cp_git : bool           (** [kind = gitRepository] *)
}.

Record CatalogDb : Type := MkCatalogDb {
  cd_personal : list PersonalRecipe;
  cd_workspaces : list CatalogWorkspace;
  cd_projects : list CatalogProject
}.
Definition set_personal (v : list PersonalRecipe) (db : CatalogDb) : CatalogDb :=
  MkCatalogDb v (cd_workspaces db) (cd_projects db).

Abbreviation CM := (M CatalogDb).

(** An [anyhow] result inside an operation. *)
Definition lift {S A} (r : R A) : M S A := match r with Ok a => ret a | Err e => fail e end.

(** A transaction: an error restores the tables. *)
Definition catalog_tx {A} (m : CM A) : CM A := λ db,
  match m db with
  | (db', Ok a) => (db', Ok a)
  | (_, Err e) => (db, Err e)
  end.

(** Files of a project; [Unreadable] stands for any I/O error. *)
Inductive FsNode : Type :=
| File (bytes : string)
| Symlink
| Special
| Directory (entries : list (string * FsNode))
| Unreadable (msg : string).

Class CatalogLib : Type := {
  recipe_decode : json → option WorkflowRecipeV1;   (** derived [Deserialize] *)
  recipe_pretty : WorkflowRecipeV1 → string;        (** [to_string_pretty] *)
  recipe_compact : WorkflowRecipeV1 → string;       (** [to_string] *)
  is_utf8 : string → bool;                          (** [String::from_utf8] succeeds *)
  builtin_documents : list string;                  (** the embedded recipes/*.yaml *)
  workspace_files : string → FsNode                 (** the directory at a path *)
}.

Definition LOCAL_HOST_ID : string := "local".
Definition CATALOG_MAX_ENTRIES : nat := 128.
Definition DIRECTORY_MAX_ENTRIES : nat := 2048.
Definition CATALOG_MAX_BYTES : Z := 8 * 1024 * 1024.
Definition I64_MAX : Z := 2 ^ 63 - 1.

Section Catalogs.
Context `{Env, ContractLib, RecipeLib, YamlLib, CatalogLib}.

(** ** Recipe documents *)

Definition from_yaml (source : string) : R WorkflowRecipeV1 :=
  try! value := default (Err (Bail "scanner stopped")) (parse_workflow_yaml source) in
  try! recipe := with_context (recipe_decode value)
    "workflow recipe does not match the versioned format" in
  try! _ := recipe_validate recipe in
  Ok recipe.

Definition newline : string := String lf EmptyString.

Definition portable_document (r : WorkflowRecipeV1) : R string :=
  try! _ := recipe_validate r in
  let document := recipe_pretty r +:+ newline in
  if (WORKFLOW_DOCUMENT_MAX_BYTES <? zlen document)%Z then Ok (recipe_compact r) else Ok document.

(** [expect] on an embedded recipe: an error is a panic. *)
Definition builtin_workflow_recipes : R (list WorkflowRecipeV1) := rmapM from_yaml builtin_documents.

(** ** Personal recipes *)

Definition personal_workflow_documents : CM (list PersonalRecipe) :=
  let! rows := gets (λ db, take (CATALOG_MAX_ENTRIES + 1)
    (sort_by (λ a b, String.leb (pr_id a) (pr_id b)) (cd_personal db))) in
  if Nat.ltb CATALOG_MAX_ENTRIES (length rows)
  then fail (Bail "personal workflow catalog exceeds the entry limit")
  else ret rows.

Record WorkflowCatalogRecipe : Type := MkCatalogRecipe {
  cr_source : WorkflowRecipeSource;
  cr_catalog_revision : option Z;
  cr_digest : string;
  cr_recipe : WorkflowRecipeV1
}.

Definition personal_by_id (id : string) (db : CatalogDb) : option PersonalRecipe :=
  find_where (λ p, String.eqb (pr_id p) id) (cd_personal db).

(** INSERT ... ON CONFLICT(id) DO UPDATE, with the CHECKs of personalRecipes. *)
Definition upsert_personal (row : PersonalRecipe) : CM unit := λ db,
  if (pr_revision row <=? 0)%Z || (262144 <? zlen (pr_document row))%Z
  then (db, Err (Database "CHECK constraint failed: personalRecipes"))
  else match personal_by_id (pr_id row) db with
       | Some _ => (set_personal (update_where (λ p, String.eqb (pr_id p) (pr_id row)) (λ _, row)
                                    (cd_personal db)) db, Ok tt)
       | None => (set_personal (cd_personal db ++ [row]) db, Ok tt)
       end.

Definition save_personal_workflow_recipe (document : string) (expected_revision : option Z)
    : CM WorkflowCatalogRecipe :=
  do! lift (ensure (match expected_revision with Some r => negb (r <? 1)%Z | None => true end)
        "expected catalog revision must be positive") in
  let! recipe := lift (from_yaml document) in
  let digest := recipe_hash recipe in
  let! canonical := lift (portable_document recipe) in
  let! revision := catalog_tx (
    let! current := gets (λ db, pr_revision <$> personal_by_id (wf_id recipe) db) in
    do! lift (ensure (bool_decide (current = expected_revision))
          "personal workflow recipe changed; refresh before saving") in
    do! (match current with
         | None =>
             let! count := gets (λ db, length (cd_personal db)) in
             lift (ensure (Nat.ltb count CATALOG_MAX_ENTRIES) "personal workflow catalog is full")
         | Some _ => ret tt
         end) in
    let! revision := lift (with_context
        (let next := (default 0 current + 1)%Z in if (next <=? I64_MAX)%Z then Some next else None)
        "catalog revision exhausted") in
    do! upsert_personal (MkPersonal (wf_id recipe) revision canonical) in
    ret revision) in
  ret (MkCatalogRecipe (Personal (wf_id recipe)) (Some revision) digest recipe).

(** ** Project recipes *)

Definition entry_of (name : string) (entries : list (string * FsNode)) : option FsNode :=
  snd <$> find_where (λ e, String.eqb (fst e) name) entries.

Definition optional_directory (parent : list (string * FsNode)) (name : string)
    : R (option (list (string * FsNode))) :=
  match entry_of name parent with
  | None => Ok None
  | Some (Directory entries) => Ok (Some entries)
  | Some (Unreadable msg) => Err (Bail msg)
  | Some _ => Err (Bail "workflow catalog directory must not be a symlink or special file")
  end.

Definition read_document (directory : list (string * FsNode)) (name : string) : R string :=
  try! _ := artifact_path name in
  try! _ := ensure (negb (str_contains "/" name)) "workflow filename must be a single component" in
  match entry_of name directory with
  | Some (File bytes) =>
      try! _ := ensure (zlen bytes <=? WORKFLOW_DOCUMENT_MAX_BYTES)%Z
        "workflow YAML exceeds the byte limit" in
      try! _ := ensure (is_utf8 bytes) "workflow YAML must be UTF-8" in
      Ok bytes
  | Some (Unreadable msg) => Err (Bail msg)
  | Some _ => Err (Bail "workflow recipe must be a regular file, not a symlink")
  | None => Err (Bail "entity not found")
  end.

(** [Path::extension]: what follows the last dot, unless the name starts there. *)
Definition extension (name : string) : option string :=
  match reverse (split_on "." name) with
  | ext :: (_ :: _ as stem) => if bool_decide (stem = [""]) then None else Some ext
  | _ => None
  end.

Fixpoint workflow_names (index : nat) (names : list string) (entries : list string)
    : R (list string) :=
  match entries with
  | [] => Ok names
  | name :: entries =>
      if Nat.leb DIRECTORY_MAX_ENTRIES index
      then Err (Bail "workflow directory exceeds the entry limit")
      else if negb (bool_decide (extension name = Some "yaml"))
      then workflow_names (S index) names entries
      else if negb (is_utf8 name) then Err (Bail "workflow filenames must be valid UTF-8")
      else if Nat.ltb CATALOG_MAX_ENTRIES (S (length names))
      then Err (Bail "project workflow catalog allows at most 128 recipes")
      else workflow_names (S index) (names ++ [name]) entries
  end.

Record ProjectWorkflowDocument : Type := MkProjectDocument {
  pd_path : string;
  pd_source : R string
}.

Fixpoint read_documents (directory : list (string * FsNode)) (total_bytes : Z) (names : list string)
    : R (list ProjectWorkflowDocument) :=
  match names with
  | [] => Ok []
  | name :: names =>
      let source := read_document directory name in
      let total_bytes := match source with Ok s => (total_bytes + zlen s)%Z | Err _ => total_bytes end in
      if match source with Ok _ => (CATALOG_MAX_BYTES <? total_bytes)%Z | Err _ => false end
      then Err (Bail "project workflow catalog exceeds the byte limit")
      else
        try! documents := read_documents directory total_bytes names in
        Ok (MkProjectDocument (".alera/workflows/" +:+ name) source :: documents)
  end.

Definition read_project_workflow_documents (workspace : string) : R (list ProjectWorkflowDocument) :=
  match workspace_files workspace with
  | Directory root =>
      try! alera := optional_directory root ".alera" in
      match alera with
      | None => Ok []
      | Some alera =>
          try! directory := optional_directory alera "workflows" in
          match directory with
          | None => Ok []
          | Some directory =>
              try! names := workflow_names 0 [] (fst <$> directory) in
              read_documents directory 0 (sort_by String.leb names)
          end
      end
  | Unreadable msg => Err (Bail msg)
  | _ => Err (Bail "not a directory")
  end.

(** ** The listing *)

Record WorkflowCatalogEntry : Type := MkCatalogEntry {
  ce_source : WorkflowRecipeSource;
  ce_name : option string;
  ce_description : option string;
  ce_recipe_revision : option Z;
  ce_catalog_revision : option Z;
  ce_digest : option string;
  ce_error : option string
}.

Record CatalogContents : Type := MkContents {
  cc_entries : list WorkflowCatalogEntry;
  cc_project_error : option string;
  cc_recipes : list WorkflowCatalogRecipe
}.

Definition error_text (e : Error) : string := match e with Bail m | Database m => m end.

(** [CatalogContents::add] *)
Definition add (source : WorkflowRecipeSource) (catalog_revision : option Z)
    (recipe : R WorkflowRecipeV1) (c : CatalogContents) : CatalogContents :=
  let result :=
    try! recipe := recipe in
    try! _ := source_validate source (wf_id recipe) in
    Ok (MkCatalogRecipe source catalog_revision (recipe_hash recipe) recipe) in
  match result with
  | Ok record =>
      MkContents
        (cc_entries c ++ [MkCatalogEntry source (Some (wf_name (cr_recipe record)))
           (Some (wf_description (cr_recipe record))) (Some (wf_revision (cr_recipe record)))
           catalog_revision (Some (cr_digest record)) None])
        (cc_project_error c) (cc_recipes c ++ [record])
  | Err error =>
      MkContents
        (cc_entries c ++ [MkCatalogEntry source None None None catalog_revision None
                            (Some (error_text error))])
        (cc_project_error c) (cc_recipes c)
  end.

Definition catalog_workspace (workspace_id : string) : CM CatalogWorkspace :=
  let! workspace := gets (λ db, find_where (λ w, String.eqb (cw_id w) workspace_id) (cd_workspaces db)) in
  let! workspace := lift (with_context workspace "workflow workspace not found") in
  do! lift (ensure (negb (negb (cw_active workspace) || negb (String.eqb (cw_host_id workspace) LOCAL_HOST_ID)))
        "workflow catalogs require an active workspace on this host") in
  let! project := gets (λ db, find_where (λ p, String.eqb (cp_id p) (cw_project_id workspace))
                                (cd_projects db)) in
  let! project := lift (with_context project "workflow project not found") in
  do! lift (ensure (cp_git project) "workflow catalogs require a Git project") in
  ret workspace.

Definition add_builtin (c : CatalogContents) (r : WorkflowRecipeV1) : CatalogContents :=
  add (BuiltIn (wf_id r)) None (Ok r) c.
Definition add_personal (c : CatalogContents) (p : PersonalRecipe) : CatalogContents :=
  add (Personal (pr_id p)) (Some (pr_revision p)) (from_yaml (pr_document p)) c.
Definition add_project (workspace_id : string) (c : CatalogContents) (d : ProjectWorkflowDocument)
    : CatalogContents :=
  add (Project workspace_id (pd_path d)) None (try! source := pd_source d in from_yaml source) c.

Definition workflow_catalog_contents (workspace_id : option string) : CM CatalogContents :=
  let! workspace :=
    (match workspace_id with
     | Some id => let! w := catalog_workspace id in ret (Some w)
     | None => ret None
     end) in
  let! personal := personal_workflow_documents in
  let! builtin := lift builtin_workflow_recipes in
  let contents := foldl add_builtin (MkContents [] None []) builtin in
  let contents := foldl add_personal contents personal in
  ret (match workspace with
       | None => contents
       | Some workspace =>
           match read_project_workflow_documents (cw_path workspace) with
           | Ok documents => foldl (add_project (cw_id workspace)) contents documents
           | Err error => MkContents (cc_entries contents) (Some (error_text error)) (cc_recipes contents)
           end
       end).

Definition workflow_catalog_recipe (source : WorkflowRecipeSource) : CM WorkflowCatalogRecipe :=
  let workspace_id := match source with Project workspace_id _ => Some workspace_id | _ => None end in
  let! contents := workflow_catalog_contents workspace_id in
  match cc_project_error contents with
  | Some error => fail (Bail ("project workflow catalog is unavailable: " +:+ error))
  | None =>
      lift (with_context (find_where (λ r, bool_decide (cr_source r = source)) (cc_recipes contents))
              "workflow recipe is missing or invalid; refresh its catalog")
  end.
End Catalogs.
