(* ===== verification/CatalogFacts.v ===== *)
(** * CatalogFacts: the catalogue offers only valid recipes

    A recipe the catalogue hands out validates and can be frozen; personal
    recipes keep their limits whatever is saved, so the catalogue can always be
    read; and a saved recipe is the one listed afterwards, under the revision
    the save returned. *)

From S2P Require Import Prelude Text Models Store RoleContract Ordering Recipe RecipeFacts Plan PlanFacts WorkflowYaml Catalog.
From Stdlib Require Import ZArith Lia Ascii String.
From stdpp Require Import strings gmap pretty prelude relations.

Lemma lift_ok {S A} (r : R A) (s s' : S) a : lift r s = (s', Ok a) ↔ s' = s ∧ r = Ok a.
Proof. destruct r; cbn; unfold ret, fail; naive_solver. Qed.

Lemma bind_ok_iff {S A B} (m : M S A) (k : A → M S B) s s' b :
  bind m k s = (s', Ok b) ↔ ∃ s1 a, m s = (s1, Ok a) ∧ k a s1 = (s', Ok b).
Proof. unfold bind. destruct (m s) as [s1 [a|e]]; naive_solver. Qed.

Lemma lift_state {S A} (r : R A) (s s' : S) x : lift r s = (s', x) → s' = s.
Proof. destruct r; cbn; unfold ret, fail; naive_solver. Qed.

Lemma bind_err_inv {S A B} (m : M S A) (k : A → M S B) s s' e :
  bind m k s = (s', Err e) →
  m s = (s', Err e) ∨ ∃ s1 a, m s = (s1, Ok a) ∧ k a s1 = (s', Err e).
Proof. unfold bind. destruct (m s) as [s1 [a|e']]; naive_solver. Qed.

Section Facts.
Context `{Env, ContractLib, RecipeLib, YamlLib, CatalogLib}.

(** ** The listing *)

(** What [add] makes of one candidate. *)
Definition record_of (source : WorkflowRecipeSource) (revision : option Z)
    (recipe : R WorkflowRecipeV1) : option WorkflowCatalogRecipe :=
  match (try! recipe := recipe in
         try! _ := source_validate source (wf_id recipe) in
         Ok (MkCatalogRecipe source revision (recipe_hash recipe) recipe)) with
  | Ok r => Some r
  | Err _ => None
  end.

Lemma add_recipes source revision recipe c :
  cc_recipes (add source revision recipe c) = cc_recipes c ++ option_list (record_of source revision recipe) ∧
  cc_project_error (add source revision recipe c) = cc_project_error c.
Proof. unfold add, record_of. destruct (rbind _ _); cbn; [done|]. by rewrite app_nil_r. Qed.

Lemma foldl_add_recipes {A} (src : A → WorkflowRecipeSource) (rev : A → option Z)
    (rec : A → R WorkflowRecipeV1) l c :
  cc_recipes (foldl (λ c x, add (src x) (rev x) (rec x) c) c l) =
    cc_recipes c ++ omap (λ x, record_of (src x) (rev x) (rec x)) l ∧
  cc_project_error (foldl (λ c x, add (src x) (rev x) (rec x) c) c l) = cc_project_error c.
Proof.
  revert c. induction l as [|x l IH]; intros c; cbn; [by rewrite app_nil_r|].
  destruct (IH (add (src x) (rev x) (rec x) c)) as [-> ->].
  destruct (add_recipes (src x) (rev x) (rec x) c) as [-> ->]. split; [|done].
  rewrite <-app_assoc. by destruct (record_of _ _ _).
Qed.

Lemma from_yaml_valid source r : from_yaml source = Ok r → recipe_validate r = Ok tt.
Proof. unfold from_yaml. intros Hy. inv_r Hy. destruct a1. by injection Hy as ->. Qed.

Definition offered (r : WorkflowCatalogRecipe) : Prop :=
  recipe_validate (cr_recipe r) = Ok tt ∧ source_validate (cr_source r) (wf_id (cr_recipe r)) = Ok tt ∧
  cr_digest r = recipe_hash (cr_recipe r).

Lemma record_of_offered source revision recipe r :
  (∀ x, recipe = Ok x → recipe_validate x = Ok tt) →
  record_of source revision recipe = Some r → offered r ∧ cr_source r = source.
Proof.
  intros Hv. unfold record_of. destruct (rbind _ _) as [r'|] eqn:E; [|done]. intros [= <-].
  inv_r E. destruct a0. injection E as <-. by split; [split_and!; [apply Hv| |]|].
Qed.

Lemma omap_offered {A} (src : A → WorkflowRecipeSource) (rev : A → option Z)
    (rec : A → R WorkflowRecipeV1) l :
  (∀ x r, x ∈ l → rec x = Ok r → recipe_validate r = Ok tt) →
  Forall offered (omap (λ x, record_of (src x) (rev x) (rec x)) l).
Proof.
  intros Hv. apply Forall_forall. intros r (x & Hx & Hr)%list_elem_of_omap.
  eapply record_of_offered; [|exact Hr]. intros y. by apply Hv.
Qed.

Lemma builtin_valid bs r : builtin_workflow_recipes = Ok bs → r ∈ bs → recipe_validate r = Ok tt.
Proof.
  unfold builtin_workflow_recipes. intros Hb%rmapM_ok (i & Hi)%list_elem_of_lookup.
  destruct (Forall2_lookup_r _ _ _ _ _ Hb Hi) as (d & _ & Hd). by eapply from_yaml_valid.
Qed.

(** A read leaves the tables alone. *)
Lemma personal_workflow_documents_ok db db' rows :
  personal_workflow_documents db = (db', Ok rows) →
  db' = db ∧ rows = take (CATALOG_MAX_ENTRIES + 1)
                     (sort_by (λ a b, String.leb (pr_id a) (pr_id b)) (cd_personal db)).
Proof.
  unfold personal_workflow_documents. intros Hp. inv_ok Hp. inv_ok Hstep.
  destruct (Nat.ltb _ _); [done|]. by unfold ret in Hp; simplify_eq.
Qed.

Lemma catalog_workspace_ok id db db' w : catalog_workspace id db = (db', Ok w) → db' = db ∧ cw_id w = id.
Proof.
  unfold catalog_workspace. intros Hw. inv_ok Hw. inv_ok Hstep. inv_ok Hw.
  apply lift_ok in Hstep as [-> Hf%with_context_ok]. inv_ok Hw. apply lift_ok in Hstep as [-> _].
  inv_ok Hw. inv_ok Hstep. inv_ok Hw. apply lift_ok in Hstep as [-> _]. inv_ok Hw.
  apply lift_ok in Hstep as [-> _]. inv_ok Hw. apply find_where_Some in Hf as [_ Hf%String.eqb_eq]. done.
Qed.

Lemma contents_offered workspace_id db db' c :
  workflow_catalog_contents workspace_id db = (db', Ok c) →
  db' = db ∧ Forall offered (cc_recipes c).
Proof.
  unfold workflow_catalog_contents. intros Hc. inv_ok Hc.
  assert (s = db) as ->.
  { destruct workspace_id; [|by inv_ok Hstep]. inv_ok Hstep.
    apply catalog_workspace_ok in Hstep0 as [-> _]. by inv_ok Hstep. }
  inv_ok Hc. apply personal_workflow_documents_ok in Hstep0 as [-> ->]. inv_ok Hc.
  apply lift_ok in Hstep0 as [-> Hb]. unfold ret in Hc. injection Hc as <- <-. split; [done|].
  set (c1 := foldl add_builtin (MkContents [] None []) a0).
  assert (Forall offered (cc_recipes c1)) as H1'.
  { unfold c1, add_builtin. rewrite (proj1 (foldl_add_recipes _ _ _ _ _)). apply omap_offered.
    intros x r Hx [= <-]. by eapply builtin_valid. }
  set (c2 := foldl add_personal c1 _).
  assert (Forall offered (cc_recipes c2)) as H2'.
  { unfold c2, add_personal. rewrite (proj1 (foldl_add_recipes _ _ _ _ _)). apply Forall_app_2; [done|].
    apply omap_offered. intros x r _ Hr. by eapply from_yaml_valid. }
  destruct a as [w|]; [|done]. destruct (read_project_workflow_documents _); [|done].
  unfold add_project. rewrite (proj1 (foldl_add_recipes _ _ _ _ _)). apply Forall_app_2; [done|].
  apply omap_offered. intros x r _ Hr. apply rbind_ok in Hr as (y & _ & Hr). by eapply from_yaml_valid.
Qed.

(** A recipe the catalogue hands out comes from the source asked for, is
    valid together with that source and carries its own digest; so it can be
    frozen, and the frozen snapshot passes its validation.  Reading the
    catalogue changes nothing. *)
Theorem catalog_recipe_freezes (source : WorkflowRecipeSource) (db db' : CatalogDb)
    (r : WorkflowCatalogRecipe) :
  workflow_catalog_recipe source db = (db', Ok r) →
  db' = db ∧ cr_source r = source ∧ cr_digest r = recipe_hash (cr_recipe r) ∧
  ∃ snapshot, recipe_freeze source (cr_recipe r) = Ok snapshot ∧
    recipe_snapshot_validate snapshot = Ok tt.
Proof.
  unfold workflow_catalog_recipe. intros Hr. inv_ok Hr. apply contents_offered in Hstep as [-> Hall].
  destruct (cc_project_error a); [by inv_ok Hr|].
  apply lift_ok in Hr as [-> [Hin Hs]%with_context_ok%find_where_Some]. split_bools. subst source.
  rewrite Forall_forall in Hall. destruct (Hall r Hin) as (Hv & Hsrc & Hd).
  split_and!; try done. unfold recipe_freeze. rewrite Hv. cbn. rewrite Hsrc. cbn.
  eexists. split; [done|]. unfold recipe_snapshot_validate. cbn. rewrite Hv. cbn. rewrite Hsrc. cbn.
  by rewrite String.eqb_refl.
Qed.

(** ** Saving *)

Definition personal_ok (p : PersonalRecipe) : Prop :=
  (0 < pr_revision p ≤ I64_MAX)%Z ∧ (zlen (pr_document p) ≤ 262144)%Z.

Record catalog_ok (db : CatalogDb) : Prop := {
  co_ids : NoDup (pr_id <$> cd_personal db);
  co_rows : Forall personal_ok (cd_personal db);
  co_limit : length (cd_personal db) ≤ CATALOG_MAX_ENTRIES
}.

(** A successful save, taken apart: the token matched, and one row was written. *)
Lemma save_ok document expected db db' rec :
  save_personal_workflow_recipe document expected db = (db', Ok rec) →
  ∃ r canonical, from_yaml document = Ok r ∧ portable_document r = Ok canonical ∧
    pr_revision <$> personal_by_id (wf_id r) db = expected ∧
    (expected = None → length (cd_personal db) < CATALOG_MAX_ENTRIES) ∧
    (default 0 expected + 1 ≤ I64_MAX)%Z ∧
    upsert_personal (MkPersonal (wf_id r) (default 0 expected + 1)%Z canonical) db = (db', Ok tt) ∧
    rec = MkCatalogRecipe (Personal (wf_id r)) (Some (default 0 expected + 1)%Z) (recipe_hash r) r.
Proof.
  unfold save_personal_workflow_recipe. intros Hs. inv_ok Hs. apply lift_ok in Hstep as [-> _].
  inv_ok Hs. apply lift_ok in Hstep as [-> Hy]. inv_ok Hs. apply lift_ok in Hstep as [-> Hc].
  inv_ok Hs. unfold catalog_tx in Hstep.
  match type of Hstep with (match ?m with _ => _ end) = _ => destruct m as [db1 [rev|]] eqn:Etx end;
    simplify_eq. unfold ret in Hs. injection Hs as <- <-.
  inv_ok Etx. inv_ok Hstep. inv_ok Etx. apply lift_ok in Hstep as [-> Hexp%ensure_ok_inv]. split_bools.
  inv_ok Etx.
  assert (s1 = s0 ∧ (expected = None → length (cd_personal s0) < CATALOG_MAX_ENTRIES)) as [-> Hfull].
  { rewrite Hexp in Hstep. destruct expected; [inv_ok Hstep; done|]. inv_ok Hstep. inv_ok Hstep0.
    apply lift_ok in Hstep as [-> Hl%ensure_ok_inv]. split; [done|]. intros _. by apply Nat.ltb_lt. }
  inv_ok Etx. apply lift_ok in Hstep0 as [-> Hrev%with_context_ok]. cbv zeta in Hrev.
  rewrite Hexp in Hrev. destruct (Z.leb_spec (default 0 expected + 1) I64_MAX)%Z; [|done].
  injection Hrev as <-. inv_ok Etx. unfold ret in Etx. injection Etx as <- <-.
  match goal with x : unit |- _ => destruct x end. exists a0, a1. by split_and!.
Qed.

(** What the upsert leaves: the row itself, and every other row as it was. *)
Lemma upsert_personal_ok row db db' :
  upsert_personal row db = (db', Ok tt) → NoDup (pr_id <$> cd_personal db) →
  (0 < pr_revision row)%Z ∧ (zlen (pr_document row) ≤ 262144)%Z ∧
  NoDup (pr_id <$> cd_personal db') ∧
  (∀ p, p ∈ cd_personal db' ↔ p = row ∨ (p ∈ cd_personal db ∧ pr_id p ≠ pr_id row)) ∧
  length (cd_personal db') =
    length (cd_personal db) + (if personal_by_id (pr_id row) db is Some _ then 0 else 1).
Proof.
  unfold upsert_personal. destruct (Z.leb_spec (pr_revision row) 0); [done|].
  destruct (Z.ltb_spec 262144 (zlen (pr_document row))); [done|]. cbn [orb].
  destruct (personal_by_id (pr_id row) db) as [old|] eqn:E; intros [= <-] Hnd; cbn.
  - apply find_key_Some in E as [Hold Hid]. split_and!; try done.
    + rewrite fmap_update_where; [done|]. intros x _ ?%String.eqb_eq. done.
    + intros p. rewrite elem_of_update_where. split.
      * intros (x & Hx & ->). destruct (String.eqb_spec (pr_id x) (pr_id row)); auto.
      * intros [->|[Hp Hne]]; [exists old|exists p].
        -- by rewrite Hid, String.eqb_refl.
        -- apply String.eqb_neq in Hne. by rewrite Hne.
    + unfold update_where. rewrite length_fmap. lia.
  - assert (pr_id row ∉ (pr_id <$> cd_personal db)) as Hni.
    { intros (x & Hx & Hin)%list_elem_of_fmap. unfold personal_by_id in E. rewrite find_where_None in E.
      specialize (E x Hin). by rewrite Hx, String.eqb_refl in E. }
    split_and!; try done.
    + rewrite fmap_app. apply NoDup_app. split_and!; [done|set_solver|apply NoDup_singleton].
    + intros p. rewrite elem_of_app, list_elem_of_singleton. split; [|tauto].
      intros [Hp|?]; [right|by left]. split; [done|]. intros He. apply Hni. rewrite <-He.
      by apply list_elem_of_fmap_2.
    + by rewrite length_app.
Qed.

(** A refused save leaves the tables as they were. *)
Lemma save_error document expected db db' e :
  save_personal_workflow_recipe document expected db = (db', Err e) → db' = db.
Proof.
  unfold save_personal_workflow_recipe. intros Hs.
  apply bind_err_inv in Hs as [Hs|(s1 & a & [-> _]%lift_ok & Hs)]; [by eapply lift_state|].
  apply bind_err_inv in Hs as [Hs|(s1 & r & [-> _]%lift_ok & Hs)]; [by eapply lift_state|].
  apply bind_err_inv in Hs as [Hs|(s1 & c & [-> _]%lift_ok & Hs)]; [by eapply lift_state|].
  apply bind_err_inv in Hs as [Hs|(s1 & rev & _ & Hs)]; [|done].
  unfold catalog_tx in Hs. destruct (bind _ _ db) as [? []]; naive_solver.
Qed.

Lemma save_preserves document expected db db' rec :
  catalog_ok db → save_personal_workflow_recipe document expected db = (db', rec) → catalog_ok db'.
Proof.
  intros Hok Hs. destruct rec as [rec|e].
  - pose proof Hok as [Hnd Hrows Hlim].
    apply save_ok in Hs as (r & canonical & _ & _ & Hcur & Hfull & Hmax & Hup & _).
    pose proof (upsert_personal_ok _ _ _ Hup Hnd) as (Hpos & Hdoc & Hnd' & Hin & Hlen). split.
    + done.
    + rewrite Forall_forall in *. intros p [->|[Hp _]]%Hin; [|by apply Hrows]. by split.
    + rewrite Hlen. cbn in Hcur |- *. destruct (personal_by_id (wf_id r) db); cbn in Hcur; [lia|].
      specialize (Hfull (eq_sym Hcur)). lia.
  - by rewrite (save_error _ _ _ _ _ Hs).
Qed.

(** ** Reachable catalogues *)

Definition saves (db db' : CatalogDb) : Prop :=
  ∃ document expected, (save_personal_workflow_recipe document expected db).1 = db'.

Lemma saves_preserve db db' : rtc saves db db' → catalog_ok db → catalog_ok db'.
Proof.
  induction 1 as [|db db1 db2 (document & expected & <-) _ IH]; [done|]. intros Hok. apply IH.
  by eapply save_preserves; [|apply surjective_pairing].
Qed.

Lemma personal_readable db :
  catalog_ok db →
  personal_workflow_documents db =
  (db, Ok (sort_by (λ a b, String.leb (pr_id a) (pr_id b)) (cd_personal db))).
Proof.
  intros [_ _ Hl]. unfold personal_workflow_documents, bind, gets.
  rewrite take_ge by (rewrite length_sort_by; lia).
  destruct (Nat.ltb_spec CATALOG_MAX_ENTRIES
    (length (sort_by (λ a b, String.leb (pr_id a) (pr_id b)) (cd_personal db)))) as [Hlt|]; [|done].
  rewrite length_sort_by in Hlt. lia.
Qed.

(** Whatever is saved, by whatever sequence of saves, starting from an empty
    table: personal recipes have distinct identifiers and positive revisions
    within i64, at most 128 of them are kept, and so the personal part of the
    catalogue can always be read, in full. *)
Theorem personal_catalog_invariant (db : CatalogDb) (ws : list CatalogWorkspace)
    (ps : list CatalogProject) :
  rtc saves (MkCatalogDb [] ws ps) db →
  catalog_ok db ∧
  personal_workflow_documents db =
    (db, Ok (sort_by (λ a b, String.leb (pr_id a) (pr_id b)) (cd_personal db))).
Proof.
  intros Hr. assert (catalog_ok db) as Hok; [|split; [done|by apply personal_readable]].
  apply (saves_preserve _ _ Hr). split; [constructor|constructor|cbn; lia].
Qed.

(** ** A saved recipe is the one listed *)

Lemma find_where_app {A} (p : A → bool) l k :
  find_where p (l ++ k) = match find_where p l with Some x => Some x | None => find_where p k end.
Proof. unfold find_where. induction l as [|x l IH]; cbn; [done|]. by destruct (p x). Qed.

Lemma find_unique {A} (p : A → bool) l x :
  x ∈ l → p x = true → (∀ y, y ∈ l → p y = true → y = x) → find_where p l = Some x.
Proof.
  intros Hx Hp Hu. destruct (find_where_is_Some p l x Hx Hp) as [y Hy]. rewrite Hy. f_equal.
  apply find_where_Some in Hy as [Hin Hpy]. by apply Hu.
Qed.

Lemma personal_contents db bs :
  catalog_ok db → builtin_workflow_recipes = Ok bs →
  ∃ c, workflow_catalog_contents None db = (db, Ok c) ∧ cc_project_error c = None ∧
    cc_recipes c =
      omap (λ r, record_of (BuiltIn (wf_id r)) None (Ok r)) bs ++
      omap (λ p, record_of (Personal (pr_id p)) (Some (pr_revision p)) (from_yaml (pr_document p)))
        (sort_by (λ a b, String.leb (pr_id a) (pr_id b)) (cd_personal db)).
Proof.
  intros Hok Hb. unfold workflow_catalog_contents.
  erewrite bind_ok by done. erewrite bind_ok by (by apply personal_readable).
  erewrite bind_ok by (by apply lift_ok). eexists. split; [done|].
  unfold add_builtin, add_personal.
  destruct (foldl_add_recipes (λ p, Personal (pr_id p)) (λ p, Some (pr_revision p))
    (λ p, from_yaml (pr_document p)) (sort_by (λ a b, String.leb (pr_id a) (pr_id b)) (cd_personal db))
    (foldl (λ c r, add (BuiltIn (wf_id r)) None (Ok r) c) (MkContents [] None []) bs)) as [-> ->].
  destruct (foldl_add_recipes (λ r, BuiltIn (wf_id r)) (λ _, None) (λ r, Ok r) bs
    (MkContents [] None [])) as [-> ->]. done.
Qed.

Lemma record_of_source source revision recipe r :
  record_of source revision recipe = Some r → cr_source r = source.
Proof.
  unfold record_of. destruct (rbind _ _) as [r'|] eqn:E; [|done]. intros [= <-].
  apply rbind_ok_inv in E as (? & _ & E). apply rbind_ok_inv in E as (? & _ & E). by injection E as <-.
Qed.

(** The portable document of a recipe reads back as that recipe: serde prints
    JSON, which the YAML scanner reads. *)
Definition reads_back (r : WorkflowRecipeV1) : Prop :=
  ∀ document, portable_document r = Ok document → from_yaml document = Ok r.

(** A save succeeds only against the revision it names; it then writes
    exactly the recipe's own row, numbered one higher, and the catalogue answers
    a request for that recipe with what was saved, under that number. *)
Theorem saved_recipe_is_listed (document : string) (expected : option Z) (db db' : CatalogDb)
    (rec : WorkflowCatalogRecipe) (bs : list WorkflowRecipeV1) :
  reads_back (cr_recipe rec) → builtin_workflow_recipes = Ok bs → catalog_ok db →
  save_personal_workflow_recipe document expected db = (db', Ok rec) →
  pr_revision <$> personal_by_id (wf_id (cr_recipe rec)) db = expected ∧
  cr_catalog_revision rec = Some (default 0 expected + 1)%Z ∧
  (∀ p, pr_id p ≠ wf_id (cr_recipe rec) → p ∈ cd_personal db' ↔ p ∈ cd_personal db) ∧
  workflow_catalog_recipe (Personal (wf_id (cr_recipe rec))) db' = (db', Ok rec).
Proof.
  intros Hback Hb Hok Hs. pose proof (save_preserves _ _ _ _ _ Hok Hs) as Hok'.
  apply save_ok in Hs as (r & canonical & Hy & Hdoc & Hcur & _ & _ & Hup & ->).
  pose proof (upsert_personal_ok _ _ _ Hup (co_ids _ Hok)) as (_ & _ & _ & Hin & _). cbn in *.
  split_and!; [done|done| |].
  { intros p Hp. rewrite Hin. split; [|by auto]. by intros [->|[? _]]. }
  destruct (personal_contents db' bs Hok' Hb) as (c & Hc & He & Hr).
  unfold workflow_catalog_recipe. erewrite bind_ok by exact Hc. rewrite He, Hr, find_where_app.
  assert (source_validate (Personal (wf_id r)) (wf_id r) = Ok tt) as Hsrc.
  { cbn. rewrite (wfr_id r) by (by apply recipe_validate_ok; eapply from_yaml_valid). cbn.
    by rewrite String.eqb_refl. }
  set (row := MkPersonal (wf_id r) (default 0%Z expected + 1) canonical).
  assert (record_of (Personal (pr_id row)) (Some (pr_revision row)) (from_yaml (pr_document row)) =
          Some (MkCatalogRecipe (Personal (wf_id r)) (Some (default 0 expected + 1)%Z) (recipe_hash r) r))
    as Hrow by (unfold record_of, row; cbn [pr_id pr_revision pr_document];
        rewrite (Hback _ Hdoc); cbn [rbind]; by rewrite Hsrc).
  rewrite (proj2 (find_where_None _ (omap _ bs))).
  2: { intros x (y & _ & Hx%record_of_source)%list_elem_of_omap. by rewrite Hx, bool_decide_false. }
  apply lift_ok. split; [done|]. apply with_context_ok, find_unique.
  - apply list_elem_of_omap. exists row. split; [|done]. apply elem_of_sort_by, Hin. by left.
  - by apply bool_decide_true.
  - intros y (p & Hp%elem_of_sort_by & Hy')%list_elem_of_omap Hsy%bool_decide_eq_true.
    pose proof (record_of_source _ _ _ _ Hy') as Hsp. rewrite Hsy in Hsp. injection Hsp as Hid.
    apply Hin in Hp as [->|[_ Hne]]; [|by rewrite Hid in Hne]. change (record_of (Personal (pr_id row))
      (Some (pr_revision row)) (from_yaml (pr_document row)) = Some y) in Hy'. congruence.
Qed.
End Facts.
