(* ===== verification/Execution.v ===== *)
(** * Execution: the next step of an isolated run

    run_execution_step.rs: [execution_choose] looks at the frozen plan, the state of its
    tasks and the approved stage gates and names the one thing to do next:
    integrate a result, prepare a workspace, launch a task, ask for attention,
    wait, or complete.  [gates_allow] walks the stages before a task's stage; the
    walk carries fuel for every dependency edge ([gates_allow_spec] shows it is
    enough).  The digests of run_plan.rs are parameters ([StepLib]). *)

From S2P Require Import Prelude Text Models Store RoleContract Ordering Recipe RecipeFacts Plan.
From Stdlib Require Import ZArith Lia Ascii String.
From stdpp Require Import strings gmap prelude.

Inductive WorkflowIntegrationState : Type :=
| In_Pending | In_Prepared | In_Integrated | In_Conflict | In_Attention | In_Cancelled.
#[export] Instance WorkflowIntegrationState_eq_dec : EqDecision WorkflowIntegrationState.
Proof. solve_decision. Defined.

Record PrepareWorkflowWorkspace : Type := MkPrepare {
  prep_request_id : string;
  prep_run_id : string;
  prep_revision : Z;
  prep_task_id : option string;
  prep_retry_of : option string
}.
Record LaunchWorkflowTask : Type := MkLaunchTask {
  lt_request_id : string;
  lt_run_id : string;
  lt_revision : Z;
  lt_task_id : string;
  lt_workspace_id : string
}.
Record IntegrateWorkflowResult : Type := MkIntegrate {
  ir_request_id : string;
  ir_run_id : string;
  ir_revision : Z;
  ir_task_id : string;
  ir_workspace_id : string
}.

Inductive WorkflowExecutionStep : Type :=
| PrepareWorkspace (request : PrepareWorkflowWorkspace)
| LaunchTask (request : LaunchWorkflowTask)
| IntegrateResult (request : IntegrateWorkflowResult)
| Waiting
| Attention (reason : string)
| Complete.

Record TaskState : Type := MkTaskState {
  ts_id : string;
  ts_logical_id : string;
  ts_status : OrchestrationTaskStatus;
  ts_integrated : bool;
  ts_workspace : option string;
  ts_phase : option RunWorkspacePhase;
  ts_integration : option WorkflowIntegrationState;
  ts_integration_request : option string
}.

(** [workflow_digest] of the request tuples. *)
Class StepLib : Type := {
  prepare_digest : string → Z → option string → string;
  launch_digest : string → Z → string → string → string;
  integrate_digest : string → Z → string → string → string
}.

Definition gate_approved (gates : gmap string string) (id : string) : bool :=
  bool_decide (gates !! id = Some "approved").

Definition stage_of (plan : WorkflowPlanSnapshot) (id : string) : option WorkflowRecipeStage :=
  find_where (λ s, String.eqb (ws_id s) id) (wf_stages (rs_recipe (ps_recipe plan))).

(** The [while let] of [gates_allow] over the stack of stages left to look at. *)
Fixpoint gates_loop (fuel : nat) (plan : WorkflowPlanSnapshot) (gates : gmap string string)
    (seen : gset string) (remaining : list string) : option (R bool) :=
  match remaining with
  | [] => Some (Ok true)
  | id :: remaining =>
      match fuel with
      | 0%nat => None
      | S fuel =>
          if bool_decide (id ∈ seen) then gates_loop fuel plan gates seen remaining
          else
            match stage_of plan id with
            | None => Some (Err (Bail "prerequisite stage is absent from frozen plan"))
            | Some prior =>
                if bool_decide (is_Some (ws_gate prior)) && negb (gate_approved gates id)
                then Some (Ok false)
                else gates_loop fuel plan gates ({[id]} ∪ seen)
                       (reverse (ws_depends_on prior) ++ remaining)
            end
      end
  end.

Definition gates_allow (plan : WorkflowPlanSnapshot) (stage : string) (gates : gmap string string)
    : R bool :=
  try! first := with_context (stage_of plan stage) "task stage is absent from frozen plan" in
  default (Err (Bail "out of fuel"))
    (gates_loop (length (ws_depends_on first) + stage_edges (wf_stages (rs_recipe (ps_recipe plan))))
       plan gates ∅ (reverse (ws_depends_on first))).

(** [run_workspace_eligibility::planned_task] and the same search in [execution_choose]. *)
Definition planned_task (plan : WorkflowPlanSnapshot) (logical_id : string)
    : option FrozenWorkflowTask :=
  find_where (λ t, String.eqb (pt_id (ft_task t)) logical_id) (ps_tasks plan).

Section Step.
Context `{StepLib}.

Definition prepare (run : string) (revision : Z) (task_id : option string) : WorkflowExecutionStep :=
  PrepareWorkspace (MkPrepare (prepare_digest run revision task_id) run revision task_id None).

Definition needs_attention (t : TaskState) : bool :=
  bool_decide (ts_phase t = Some Wp_Attention)
  || bool_decide (ts_status t = Ts_Failed) || bool_decide (ts_status t = Ts_Stalled)
  || bool_decide (ts_status t = Ts_Cancelled)
  || bool_decide (ts_integration t = Some In_Conflict) || bool_decide (ts_integration t = Some In_Attention).

Definition awaits_integration (t : TaskState) : bool :=
  bool_decide (ts_status t = Ts_Completed) && negb (ts_integrated t).

Definition integrate (run : string) (revision : Z) (t : TaskState) : WorkflowExecutionStep :=
  if bool_decide (ts_integration t = Some In_Integrated)
  then Attention "The integrated task evidence changed; prepare a correction revision."
  else match ts_workspace t with
       | None => Attention "The completed task has no managed execution workspace."
       | Some workspace =>
           IntegrateResult (MkIntegrate
             (default (integrate_digest run revision (ts_id t) workspace) (ts_integration_request t))
             run revision (ts_id t) workspace)
       end.

Definition active_count (tasks : list TaskState) : nat :=
  count_where (λ t, negb (ts_integrated t) && negb (bool_decide (ts_status t = Ts_Completed))
                    && bool_decide (is_Some (ts_workspace t))) tasks.

Definition integrated_ids (tasks : list TaskState) : gset string :=
  list_to_set (ts_logical_id <$> List.filter ts_integrated tasks).

Definition unstarted (t : TaskState) : bool :=
  bool_decide (ts_status t = Ts_Pending) || bool_decide (ts_status t = Ts_Ready).

(** The loop over the tasks awaiting execution. *)
Fixpoint choose_loop (run : string) (revision : Z) (plan : WorkflowPlanSnapshot)
    (gates : gmap string string) (active : nat) (integrated : gset string) (tasks : list TaskState)
    : R WorkflowExecutionStep :=
  match tasks with
  | [] => Ok Waiting
  | task :: tasks =>
      let continue_ := choose_loop run revision plan gates active integrated tasks in
      if negb (unstarted task) then continue_
      else
        try! frozen := with_context (planned_task plan (ts_logical_id task))
          "task is absent from frozen plan" in
        if negb (forallb (λ d, bool_decide (d ∈ integrated)) (pt_depends_on (ft_task frozen)))
        then continue_
        else
          try! allowed := gates_allow plan (pt_stage_id (ft_task frozen)) gates in
          if negb allowed then continue_
          else
            match ts_workspace task, ts_phase task with
            | None, _ =>
                if (Z.of_nat active <? ps_max_concurrent plan)%Z
                then Ok (prepare run revision (Some (ts_id task)))
                else continue_
            | Some workspace, Some Wp_Ready =>
                Ok (LaunchTask (MkLaunchTask (launch_digest run revision (ts_id task) workspace) run
                                  revision (ts_id task) workspace))
            | _, _ => continue_
            end
  end.

Definition all_gates_approved (plan : WorkflowPlanSnapshot) (gates : gmap string string) : bool :=
  forallb (λ s, gate_approved gates (ws_id s))
    (List.filter (λ s, bool_decide (is_Some (ws_gate s))) (wf_stages (rs_recipe (ps_recipe plan)))).

Definition execution_choose (run : string) (revision : Z) (plan : WorkflowPlanSnapshot) (tasks : list TaskState)
    (gates : gmap string string) : R WorkflowExecutionStep :=
  if existsb needs_attention tasks
  then Ok (Attention "Inspect the failed task, workspace or integration before continuing.")
  else
    match find_where awaits_integration tasks with
    | Some task => Ok (integrate run revision task)
    | None =>
        if forallb ts_integrated tasks
        then Ok (if all_gates_approved plan gates then Complete else Waiting)
        else choose_loop run revision plan gates (active_count tasks) (integrated_ids tasks) tasks
    end.
End Step.
