(* ===== verification/ExecutionFacts.v ===== *)
(** * ExecutionFacts: scheduling an isolated run is safe and never gets stuck

    [choose_safe]: a task is prepared or launched only when everything it
    depends on is integrated, every gate before its stage is approved and (for a
    new workspace) a worker slot is free; a run completes only when every task is
    integrated and every gate approved.  [choose_never_stuck]: with a free slot
    and no attempt under way, a run of a compiled plan waits only for a person:
    some gate stands open whose stage is completely integrated. *)

From S2P Require Import Prelude Text Models Store RoleContract Ordering Recipe RecipeFacts Plan PlanFacts Execution.
From Stdlib Require Import ZArith Lia Ascii String.
From stdpp Require Import strings gmap prelude relations.

Definition plan_stages (plan : WorkflowPlanSnapshot) : list WorkflowRecipeStage :=
  wf_stages (rs_recipe (ps_recipe plan)).

(** Every gated stage before stage [b] is approved. *)
Definition gates_open (plan : WorkflowPlanSnapshot) (gates : gmap string string) (b : string) : Prop :=
  ∀ s, s ∈ plan_stages plan → stage_before (rs_recipe (ps_recipe plan)) b (ws_id s) →
    is_Some (ws_gate s) → gate_approved gates (ws_id s) = true.

(** A gate before stage [b] that nobody approved. *)
Definition gate_closed (plan : WorkflowPlanSnapshot) (gates : gmap string string) (b : string) : Prop :=
  ∃ s, s ∈ plan_stages plan ∧ stage_before (rs_recipe (ps_recipe plan)) b (ws_id s) ∧
       is_Some (ws_gate s) ∧ gate_approved gates (ws_id s) = false.

Section Gates.
Context (plan : WorkflowPlanSnapshot) (gates : gmap string string) (b : string).
Hypothesis Hnd : NoDup (ws_id <$> plan_stages plan).
Hypothesis Hknown : ∀ s d, s ∈ plan_stages plan → d ∈ ws_depends_on s → d ∈ (ws_id <$> plan_stages plan).

Lemma stage_of_elem s : s ∈ plan_stages plan → stage_of plan (ws_id s) = Some s.
Proof. by apply (find_key_elem ws_id). Qed.

Definition seen_approved (seen : gset string) : Prop :=
  ∀ s, s ∈ plan_stages plan → ws_id s ∈ seen → is_Some (ws_gate s) → gate_approved gates (ws_id s) = true.

Lemma gates_loop_spec fuel seen remaining :
  walking (plan_stages plan) b seen remaining →
  (∀ d, d ∈ remaining → d ∈ (ws_id <$> plan_stages plan)) → seen_approved seen →
  length remaining + edges_left seen (plan_stages plan) ≤ fuel →
  ∃ ok, gates_loop fuel plan gates seen remaining = Some (Ok ok) ∧
        if ok then gates_open plan gates b else gate_closed plan gates b.
Proof.
  revert seen remaining. induction fuel as [|fuel IH]; intros seen [|id remaining] Hw Hp Hs Hf;
    cbn [gates_loop].
  1,3: exists true; split; [done|]; intros s Hin Hb Hg;
    apply Hs; try done; by apply (walking_done _ _ _ _ Hw).
  { cbn in Hf. lia. }
  case_bool_decide as Hid.
  { apply IH; [by eapply walking_skip|intros d Hd; apply Hp; by right|done|cbn in Hf; lia]. }
  destruct (proj1 (list_elem_of_fmap ws_id _ id) (Hp id ltac:(left))) as (s & -> & Hin).
  rewrite (stage_of_elem s Hin).
  destruct (bool_decide (is_Some (ws_gate s)) && negb (gate_approved gates (ws_id s))) eqn:Eg.
  - split_bools. exists false. split; [done|]. exists s. split_and!; try done.
    apply Hw. right. left.
  - apply IH; [by apply walking_visit| | |].
    + intros d. rewrite elem_of_app, elem_of_reverse. intros [Hd|Hd]; [by eapply Hknown|].
      apply Hp. by right.
    + intros t Ht Hti Hg. apply elem_of_union in Hti as [Hti|Hti]; [|by apply Hs].
      apply elem_of_singleton in Hti.
      apply (NoDup_key_inj ws_id _ t s Hnd Ht Hin) in Hti as ->.
      apply andb_false_iff in Eg as [Eg|Eg]; split_bools; done.
    + pose proof (edges_left_visit seen (plan_stages plan) s Hin Hid).
      rewrite length_app, length_reverse. cbn in Hf. lia.
Qed.
End Gates.

Lemma gates_allow_spec plan gates s :
  orderable ws_id ws_depends_on (plan_stages plan) → s ∈ plan_stages plan →
  ∃ ok, gates_allow plan (ws_id s) gates = Ok ok ∧
        if ok then gates_open plan gates (ws_id s) else gate_closed plan gates (ws_id s).
Proof.
  intros (Hnd & Hknown & _) Hs. unfold gates_allow. rewrite (stage_of_elem plan Hnd s Hs). cbn [with_context rbind].
  destruct (gates_loop_spec plan gates (ws_id s) Hnd Hknown
    (length (ws_depends_on s) + stage_edges (plan_stages plan)) ∅ (reverse (ws_depends_on s)))
    as (ok & Hok & Hcase).
  - by apply walking_start.
  - intros d. rewrite elem_of_reverse. by apply Hknown.
  - intros t _ Hin. by apply not_elem_of_empty in Hin.
  - rewrite length_reverse, edges_left_empty. done.
  - exists ok. split; [|done]. unfold plan_stages in Hok. by rewrite Hok.
Qed.

(** ** The loop over the tasks *)

Section Choose.
Context `{StepLib}.

Definition startable (plan : WorkflowPlanSnapshot) (gates : gmap string string)
    (integrated : gset string) (t : TaskState) (f : FrozenWorkflowTask) : Prop :=
  unstarted t = true ∧ planned_task plan (ts_logical_id t) = Some f ∧
  (∀ d, d ∈ frozen_deps f → d ∈ integrated) ∧
  gates_allow plan (pt_stage_id (ft_task f)) gates = Ok true.

(** What the loop does with one task, [None] when it passes on to the next. *)
Definition start_step (run : string) (revision : Z) (plan : WorkflowPlanSnapshot) (active : nat)
    (t : TaskState) : option WorkflowExecutionStep :=
  match ts_workspace t, ts_phase t with
  | None, _ => if (Z.of_nat active <? ps_max_concurrent plan)%Z
               then Some (prepare run revision (Some (ts_id t))) else None
  | Some w, Some Wp_Ready => Some (LaunchTask (MkLaunchTask (launch_digest run revision (ts_id t) w)
                                                 run revision (ts_id t) w))
  | _, _ => None
  end.

Lemma forallb_deps (integrated : gset string) l :
  forallb (λ d, bool_decide (d ∈ integrated)) l = true ↔ ∀ d, d ∈ l → d ∈ integrated.
Proof.
  rewrite forallb_forall. setoid_rewrite bool_decide_eq_true. by setoid_rewrite <-list_elem_of_In.
Qed.

Lemma start_step_unfold run revision plan active t (k : R WorkflowExecutionStep) :
  match ts_workspace t, ts_phase t with
  | None, _ => if (Z.of_nat active <? ps_max_concurrent plan)%Z
               then Ok (prepare run revision (Some (ts_id t))) else k
  | Some w, Some Wp_Ready => Ok (LaunchTask (MkLaunchTask (launch_digest run revision (ts_id t) w)
                                               run revision (ts_id t) w))
  | _, _ => k
  end = match start_step run revision plan active t with Some step => Ok step | None => k end.
Proof. unfold start_step. destruct (ts_workspace t), (ts_phase t) as [[]|]; try done; by destruct (_ <? _)%Z. Qed.

Lemma choose_loop_inv run revision plan gates active integrated tasks step :
  choose_loop run revision plan gates active integrated tasks = Ok step →
  (step = Waiting ∧
   ∀ t f, t ∈ tasks → startable plan gates integrated t f → start_step run revision plan active t = None) ∨
  (∃ t f, t ∈ tasks ∧ startable plan gates integrated t f ∧
          start_step run revision plan active t = Some step).
Proof.
  induction tasks as [|t tasks IH]; cbn [choose_loop].
  { intros [= <-]. left. split; [done|]. intros t f Ht. by apply not_elem_of_nil in Ht. }
  assert (∀ r, choose_loop run revision plan gates active integrated tasks = r → r = Ok step →
    (∀ f, startable plan gates integrated t f → start_step run revision plan active t = None) →
    (step = Waiting ∧ ∀ u f, u ∈ t :: tasks → startable plan gates integrated u f →
       start_step run revision plan active u = None) ∨
    (∃ u f, u ∈ t :: tasks ∧ startable plan gates integrated u f ∧
            start_step run revision plan active u = Some step)) as Hskip.
  { intros r <- Hr Hno. destruct (IH Hr) as [[-> Hall]|(u & f & Hu & Hrest)].
    - left. split; [done|]. intros u f [->|Hu]%elem_of_cons; eauto.
    - right. exists u, f. split; [by right|done]. }
  destruct (unstarted t) eqn:Eu; cbn [negb].
  2: { intros Hr. eapply Hskip; [done|done|]. intros f (? & _). congruence. }
  destruct (planned_task plan (ts_logical_id t)) as [f|] eqn:Ef; [|done]. cbn [with_context rbind].
  destruct (forallb _ _) eqn:Ed; cbn [negb].
  2: { intros Hr. eapply Hskip; [done|done|]. intros f' (_ & Hf' & Hdeps & _).
       rewrite Ef in Hf'. injection Hf' as <-. apply forallb_deps in Hdeps. unfold frozen_deps in Hdeps.
       congruence. }
  destruct (gates_allow plan (pt_stage_id (ft_task f)) gates) as [[]|] eqn:Eg; cbn [rbind negb]; [| |done].
  2: { intros Hr. eapply Hskip; [done|done|]. intros f' (_ & Hf' & _ & Hg).
       rewrite Ef in Hf'. injection Hf' as <-. congruence. }
  assert (startable plan gates integrated t f) as Hst.
  { split_and!; try done. by apply forallb_deps. }
  intros Hr. rewrite start_step_unfold in Hr.
  destruct (start_step run revision plan active t) as [step'|] eqn:Es.
  - injection Hr as <-. right. exists t, f. split_and!; [left|done|done].
  - eapply Hskip; [done|done|]. intros f' _. done.
Qed.

Lemma elem_of_integrated_ids tasks d :
  d ∈ integrated_ids tasks ↔ ∃ u, u ∈ tasks ∧ ts_integrated u = true ∧ ts_logical_id u = d.
Proof.
  unfold integrated_ids. rewrite elem_of_list_to_set, list_elem_of_fmap.
  setoid_rewrite list_elem_of_In. setoid_rewrite filter_In. setoid_rewrite <-list_elem_of_In.
  naive_solver.
Qed.

(** Everything a task may wait for is there. *)
Definition may_start (plan : WorkflowPlanSnapshot) (tasks : list TaskState)
    (gates : gmap string string) (t : TaskState) : Prop :=
  unstarted t = true ∧
  ∃ f, f ∈ ps_tasks plan ∧ frozen_id f = ts_logical_id t ∧
    (∀ d, d ∈ frozen_deps f → ∃ u, u ∈ tasks ∧ ts_integrated u = true ∧ ts_logical_id u = d) ∧
    gates_open plan gates (pt_stage_id (ft_task f)).

Lemma startable_may_start plan gates tasks t f :
  orderable ws_id ws_depends_on (plan_stages plan) →
  startable plan gates (integrated_ids tasks) t f → may_start plan tasks gates t.
Proof.
  intros Ho (Hu & Hf & Hd & Hg). split; [done|]. exists f.
  pose proof (find_key_Some frozen_id _ _ _ Hf) as [Hin Hid]. split_and!; [done|done| |].
  - intros d Hdd. by apply elem_of_integrated_ids, Hd.
  - assert (∃ s, s ∈ plan_stages plan ∧ ws_id s = pt_stage_id (ft_task f)) as (s & Hs & Hsid).
    { unfold gates_allow in Hg. apply rbind_ok_inv in Hg as (s & Hs%with_context_ok & _).
      apply (find_key_Some ws_id) in Hs as [? ?]. eauto. }
    rewrite <-Hsid in *. destruct (gates_allow_spec plan gates s Ho Hs) as (ok & Hok & Hcase).
    rewrite Hg in Hok. injection Hok as <-. done.
Qed.

Lemma all_gates_approved_ok plan gates :
  all_gates_approved plan gates = true ↔
  ∀ s, s ∈ plan_stages plan → is_Some (ws_gate s) → gate_approved gates (ws_id s) = true.
Proof.
  unfold all_gates_approved. rewrite forallb_forall. setoid_rewrite filter_In.
  setoid_rewrite <-list_elem_of_In. setoid_rewrite bool_decide_eq_true. naive_solver.
Qed.

(** [C11] The scheduler of an isolated run names only steps that may be taken: a
    task is prepared or launched when all it depends on is integrated and every
    gate before its stage is approved, a workspace is prepared only while a
    worker slot is free and the task has none, only a completed task that is not
    integrated is integrated, and the run completes only when every task is
    integrated and every gate approved. *)
Theorem choose_safe (run : string) (revision : Z) (plan : WorkflowPlanSnapshot)
    (tasks : list TaskState) (gates : gmap string string) (step : WorkflowExecutionStep) :
  orderable ws_id ws_depends_on (plan_stages plan) →
  execution_choose run revision plan tasks gates = Ok step →
  match step with
  | PrepareWorkspace q => ∃ t, t ∈ tasks ∧ prep_task_id q = Some (ts_id t) ∧
      ts_workspace t = None ∧ (Z.of_nat (active_count tasks) < ps_max_concurrent plan)%Z ∧
      may_start plan tasks gates t
  | LaunchTask q => ∃ t, t ∈ tasks ∧ lt_task_id q = ts_id t ∧
      ts_workspace t = Some (lt_workspace_id q) ∧ ts_phase t = Some Wp_Ready ∧
      may_start plan tasks gates t
  | IntegrateResult q => ∃ t, t ∈ tasks ∧ ir_task_id q = ts_id t ∧
      ts_workspace t = Some (ir_workspace_id q) ∧ ts_status t = Ts_Completed ∧
      ts_integrated t = false
  | Complete => (∀ t, t ∈ tasks → ts_integrated t = true) ∧
      (∀ s, s ∈ plan_stages plan → is_Some (ws_gate s) → gate_approved gates (ws_id s) = true)
  | Waiting | Attention _ => True
  end.
Proof.
  intros Ho. unfold execution_choose. destruct (existsb needs_attention tasks); [by intros [= <-]|].
  destruct (find_where awaits_integration tasks) as [t|] eqn:Ei.
  - apply find_where_Some in Ei as [Ht Hi]. unfold awaits_integration in Hi. split_bools.
    intros [= <-]. unfold integrate. case_bool_decide; [done|].
    destruct (ts_workspace t) as [w|] eqn:Ew; [|done]. exists t. done.
  - destruct (forallb ts_integrated tasks) eqn:Eall.
    + rewrite forallb_forall in Eall. setoid_rewrite <-list_elem_of_In in Eall.
      destruct (all_gates_approved plan gates) eqn:Eg; intros [= <-]; [|done].
      split; [done|by apply all_gates_approved_ok].
    + intros [[-> _]|(t & f & Ht & Hst & Hs)]%choose_loop_inv; [done|].
      apply startable_may_start in Hst; [|done]. unfold start_step in Hs.
      destruct (ts_workspace t) as [w|] eqn:Ew.
      * destruct (ts_phase t) as [[]|] eqn:Ep; simplify_eq. exists t. done.
      * destruct (Z.ltb_spec (Z.of_nat (active_count tasks)) (ps_max_concurrent plan)); [|done].
        injection Hs as <-. exists t. done.
Qed.

(** ** Progress *)

Lemma forallb_false_exists {A} (p : A → bool) l : forallb p l = false → ∃ x, In x l ∧ p x = false.
Proof.
  induction l as [|y l IH]; cbn; [done|]. intros [Hy|Hl]%andb_false_iff; [eauto|].
  destruct (IH Hl) as (x & Hx & Hp). eauto.
Qed.

Lemma first_split {A} (p : A → bool) l x :
  x ∈ l → p x = false →
  ∃ before y after, l = before ++ y :: after ∧ p y = false ∧ ∀ z, z ∈ before → p z = true.
Proof.
  induction l as [|y l IH]; intros Hx Hp; [by apply not_elem_of_nil in Hx|].
  destruct (p y) eqn:E; [|by exists [], y, l; split_and!; [|done|intros z Hz%not_elem_of_nil]].
  apply elem_of_cons in Hx as [->|Hx]; [congruence|].
  destruct (IH Hx Hp) as (before & z & after & -> & Hz & Hb).
  exists (y :: before), z, after. split_and!; try done. intros w [->|Hw]%elem_of_cons; auto.
Qed.

Lemma tc_flip {A} (R : relation A) x y : tc R x y → tc (flip R) y x.
Proof. induction 1 as [x y Hxy|x y z Hxy _ IH]; [by apply tc_once|]. by eapply tc_r. Qed.

Lemma Acc_tc {A} (R : relation A) x : Acc R x → Acc (tc R) x.
Proof.
  induction 1 as [x _ IH]. constructor. intros y Hyx.
  induction Hyx as [y x Hyx|y z x Hyz _ IHz]; [by apply IH|].
  apply (Acc_inv (IHz IH)). by apply tc_once.
Qed.

Section Progress.
Context `{Env, ContractLib, RecipeLib, PlanLib}.
Context (proposal : WorkflowPlanProposal) (recipe : WorkflowRecipeSnapshot)
  (profiles : gmap string AgentProfile) (ws : WorkflowSourceWorkspace) (plan : WorkflowPlanSnapshot)
  (tasks : list TaskState) (gates : gmap string string) (run : string) (revision : Z).
Hypothesis Hplan : compile_plan proposal recipe profiles ws = Ok plan.
Hypothesis Htasks : ts_logical_id <$> tasks ≡ₚ frozen_id <$> ps_tasks plan.

Lemma compiled_stages : orderable ws_id ws_depends_on (plan_stages plan).
Proof.
  destruct (compile_plan_inv _ _ _ _ _ Hplan) as (Hr & Hwf & _). unfold plan_stages. rewrite Hr.
  apply (wfr_order _ Hwf).
Qed.

Lemma compiled_ids : NoDup (frozen_id <$> ps_tasks plan).
Proof.
  destruct (compile_plan_inv _ _ _ _ _ Hplan) as (_ & _ & Hnd & frozen & Hf & _ & Ho).
  apply order_sound in Ho as (Hp & _). by rewrite Hp, (frozen_tasks_ids _ _ _ Hf).
Qed.

Lemma compiled_stage f :
  f ∈ ps_tasks plan → ∃ s, s ∈ plan_stages plan ∧ ws_id s = pt_stage_id (ft_task f).
Proof.
  destruct (compile_plan_inv _ _ _ _ _ Hplan) as (Hr & _ & _ & frozen & Hf & _ & Ho). intros Hin.
  apply order_sound in Ho as (Hp & _). rewrite Hp in Hin.
  destruct (frozen_tasks_elem _ _ _ _ Hf Hin) as (t & _ & Hft).
  destruct (ff_stage _ _ _ _ Hft) as (s & Hs & Hid & _). exists s. unfold plan_stages. rewrite Hr.
  split; [done|]. by rewrite (ff_task _ _ _ _ Hft).
Qed.

Lemma compiled_gates_allow f :
  f ∈ ps_tasks plan →
  ∃ ok, gates_allow plan (pt_stage_id (ft_task f)) gates = Ok ok ∧
        if ok then gates_open plan gates (pt_stage_id (ft_task f))
        else gate_closed plan gates (pt_stage_id (ft_task f)).
Proof. intros (s & Hs & <-)%compiled_stage. apply gates_allow_spec; [apply compiled_stages|done]. Qed.

Lemma task_planned t : t ∈ tasks → ∃ f, f ∈ ps_tasks plan ∧ frozen_id f = ts_logical_id t ∧
  planned_task plan (ts_logical_id t) = Some f.
Proof.
  intros Ht. assert (ts_logical_id t ∈ (frozen_id <$> ps_tasks plan)) as (f & Hid & Hf)%list_elem_of_fmap.
  { rewrite <-Htasks. by apply list_elem_of_fmap_2. }
  exists f. split_and!; try done. rewrite Hid. by apply (find_key_elem frozen_id); [apply compiled_ids|].
Qed.

Lemma planned_has_task f : f ∈ ps_tasks plan → ∃ t, t ∈ tasks ∧ ts_logical_id t = frozen_id f.
Proof.
  intros Hf. assert (frozen_id f ∈ (ts_logical_id <$> tasks)) as (t & Hid & Ht)%list_elem_of_fmap.
  { rewrite Htasks. by apply list_elem_of_fmap_2. } eauto.
Qed.

Lemma choose_loop_total active integrated l :
  (∀ t, t ∈ l → t ∈ tasks) →
  ∃ step, choose_loop run revision plan gates active integrated l = Ok step.
Proof.
  induction l as [|t l IH]; intros Hl; cbn [choose_loop]; [eauto|].
  destruct IH as [k Hk]; [intros u Hu; apply Hl; by right|]. rewrite Hk.
  destruct (negb (unstarted t)); [eauto|].
  destruct (task_planned t (Hl t ltac:(left))) as (f & Hf & _ & ->). cbn [with_context rbind].
  destruct (negb (forallb _ _)); [eauto|].
  destruct (compiled_gates_allow f Hf) as (ok & -> & _). cbn [rbind].
  destruct (negb ok); [eauto|]. rewrite start_step_unfold. destruct (start_step _ _ _ _ _); eauto.
Qed.

(** Nobody approved the gate of a stage although every task of the stage and of
    the stages before it is integrated. *)
Definition gate_held (s : WorkflowRecipeStage) : Prop :=
  s ∈ plan_stages plan ∧ is_Some (ws_gate s) ∧ gate_approved gates (ws_id s) = false ∧
  ∀ f, f ∈ ps_tasks plan →
    pt_stage_id (ft_task f) = ws_id s ∨
    stage_before (rs_recipe (ps_recipe plan)) (ws_id s) (pt_stage_id (ft_task f)) →
    ∃ u, u ∈ tasks ∧ ts_integrated u = true ∧ ts_logical_id u = frozen_id f.

(** Such a gate is due: every gate before it is approved. *)
Definition gate_due (s : WorkflowRecipeStage) : Prop := gate_held s ∧ gates_open plan gates (ws_id s).

(** Of the gates held up, one has no other before it. *)
Lemma held_due s : gate_held s → ∃ s', gate_due s'.
Proof.
  intros Hs. pose proof compiled_stages as Ho. pose proof Ho as (_ & Hknown & Hac).
  assert (sn (waits_for ws_id ws_depends_on (plan_stages plan)) (ws_id s)) as Hsn.
  { apply tc_finite_sn; [exact Hac|]. exists (ws_id <$> plan_stages plan). intros y Hy. clear -Hy Hknown.
    induction Hy as [? ? (z & Hz & <- & Hd)|]; [by eapply Hknown|done]. }
  apply Acc_tc in Hsn. remember (ws_id s) as a eqn:Ea. revert s Hs Ea.
  induction Hsn as [a _ IH]. intros s Hs ->. pose proof Hs as (Hin & _ & _ & Hall).
  destruct (gates_allow_spec plan gates s Ho Hin) as ([] & _ & Hcase); [by exists s|].
  destruct Hcase as (s' & Hs' & Hb & Hg & Hna). apply (IH (ws_id s')) with s'; [|split_and!; try done|done].
  - by apply tc_flip.
  - intros f Hf Hcase. apply Hall; [done|]. right.
    destruct Hcase as [->|Hc]; [done|]. by eapply tc_transitive.
Qed.

(** No attempt is under way: a task is integrated, or unstarted with no
    workspace or one that is ready. *)
Definition quiet : Prop :=
  ∀ t, t ∈ tasks → ts_integrated t = true ∨
    (unstarted t = true ∧ (ts_workspace t = None ∨ ts_phase t = Some Wp_Ready)).

(** The first task of the plan that is not integrated could start, or waits for
    a gate whose stage lies before it and is therefore integrated. *)
Lemma unfinished_due t :
  quiet → (Z.of_nat (active_count tasks) < ps_max_concurrent plan)%Z →
  t ∈ tasks → ts_integrated t = false →
  choose_loop run revision plan gates (active_count tasks) (integrated_ids tasks) tasks = Ok Waiting →
  ∃ s, gate_due s.
Proof.
  intros Hq Hmax Ht Hni Hloop.
  destruct (compile_plan_inv _ _ _ _ _ Hplan) as (Hrec & Hwf & Hnd & frozen & Hf & Hcov & Ho).
  apply order_sound in Ho as (Hp & Hord & _).
  assert (∀ u, u ∈ tasks → ts_logical_id u ∈ integrated_ids tasks → ts_integrated u = true) as Huniq.
  { intros u Hu (v & Hv & Hvi & Hvl)%elem_of_integrated_ids.
    by rewrite <-(NoDup_key_inj ts_logical_id tasks v u) by (done || rewrite Htasks; apply compiled_ids). }
  destruct (task_planned t Ht) as (ft0 & Hft0 & Hid0 & _).
  destruct (first_split (λ f, bool_decide (frozen_id f ∈ integrated_ids tasks)) (ps_tasks plan) ft0)
    as (before & f & after & Heq & Hfni & Hbefore); [done| |].
  { apply bool_decide_eq_false. rewrite Hid0. intros Hin%Huniq; [congruence|done]. }
  apply bool_decide_eq_false in Hfni. setoid_rewrite bool_decide_eq_true in Hbefore.
  assert (f ∈ ps_tasks plan) as Hfin by (rewrite Heq; apply elem_of_app; right; left).
  destruct (planned_has_task f Hfin) as (u & Hu & Hul).
  destruct (compiled_gates_allow f Hfin) as ([] & Hg & Hcase).
  - exfalso. destruct (Hq u Hu) as [Hui|[Huns Hws]].
    { apply Hfni, elem_of_integrated_ids. eauto. }
    assert (startable plan gates (integrated_ids tasks) u f) as Hst.
    { split_and!; try done.
      - rewrite Hul. by apply (find_key_elem frozen_id); [apply compiled_ids|].
      - intros d Hd. destruct (proj1 (list_elem_of_fmap frozen_id before d) (Hord _ _ _ Heq d Hd))
          as (g & -> & Hgb). by apply Hbefore. }
    destruct (choose_loop_inv _ _ _ _ _ _ _ _ Hloop) as [[_ Hnone]|(v & g & _ & _ & Hs)].
    + specialize (Hnone u f Hu Hst). unfold start_step in Hnone.
      destruct (ts_workspace u); [destruct Hws as [?|Hph]; [done|by rewrite Hph in Hnone]|].
      destruct (Z.ltb_spec (Z.of_nat (active_count tasks)) (ps_max_concurrent plan)); [done|lia].
    + unfold start_step in Hs. by destruct (ts_workspace v), (ts_phase v) as [[]|]; try done;
        destruct (_ <? _)%Z.
  - destruct Hcase as (s & Hs & Hb & Hgate & Hna). apply (held_due s). split_and!; try done.
    intros g Hgin Hgs. apply elem_of_integrated_ids, Hbefore.
    rewrite Heq in Hord, Hp. rewrite Hrec in Hb.
    eapply (stages_in_order proposal (rs_recipe recipe) frozen before f after g); try done.
    + destruct Hgs as [->|Hgs]; [done|]. rewrite Hrec in Hgs. by eapply tc_transitive.
    + by rewrite <-Hp, <-Heq.
Qed.

(** [C24] Scheduling never gets stuck: for a compiled plan whose tasks are in the
    store, the scheduler always answers; and while no attempt is under way and a
    worker slot is free it waits only for a person: some stage gate is not
    approved although every task of its stage and of the stages before it is
    integrated and every gate before it is approved. *)
Theorem execution_never_stuck :
  (∃ step, execution_choose run revision plan tasks gates = Ok step) ∧
  (quiet → (Z.of_nat (active_count tasks) < ps_max_concurrent plan)%Z →
   execution_choose run revision plan tasks gates = Ok Waiting → ∃ s, gate_due s).
Proof.
  unfold execution_choose. split.
  - destruct (existsb _ _); [eauto|]. destruct (find_where _ _); [eauto|].
    destruct (forallb _ _); [eauto|]. by apply choose_loop_total.
  - intros Hq Hmax. destruct (existsb _ _); [done|].
    destruct (find_where _ _) as [t|]; [unfold integrate; repeat case_match; congruence|].
    destruct (forallb ts_integrated tasks) eqn:Eall.
    + rewrite forallb_forall in Eall. setoid_rewrite <-list_elem_of_In in Eall.
      destruct (all_gates_approved plan gates) eqn:Eg; [done|]. intros _.
      unfold all_gates_approved in Eg. apply forallb_false_exists in Eg as (s & Hs & Hna).
      rewrite filter_In, <-list_elem_of_In, bool_decide_eq_true in Hs. destruct Hs as [Hs Hg].
      apply (held_due s). split_and!; try done. intros f (u & Hu & Hul)%planned_has_task _. eauto.
    + apply forallb_false_exists in Eall as (t & Ht & Hni). rewrite <-list_elem_of_In in Ht.
      by apply unfinished_due with t.
Qed.
End Progress.
End Choose.
