(* ===== verification/PlanStore.v ===== *)
(** * PlanStore: proposing a run plan

    run_plan_proposal.rs (a coordinator submits a plan; the revision, its tasks
    and gates are written in one transaction), run_plan_materialization.rs (the
    tasks and the stage gates of a revision), run_plan_gate_store.rs (run gates)
    and run_source_identity.rs.

    The columns only this code reads stay outside the rows of Models.v, in
    tables keyed by the row's identifier ([PlanTables]): the plan columns of a
    task and of a gate, the frozen inputs of a run, the plan revisions, the
    workspaces joined with their projects, and the tables RunControl.v works on:
    task evidence, integrations, cancellation targets, terminal shutdowns and
    command receipts. *)

From S2P Require Import Prelude Text Models Store RoleContract Gates Runs Ordering Recipe RecipeFacts Plan Execution.
From Stdlib Require Import ZArith Lia Ascii String.
From stdpp Require Import strings gmap pretty prelude.

(** ** State *)

(** A runPlanRevisions row. *)
Record RunPlanRevision : Type := MkPlanRevision {
  pv_run_id : string;
  pv_revision : Z;
  pv_request_id : string;
  pv_request_digest : string;
  pv_snapshot : string;
  pv_digest : string;
  pv_previous_revision : option Z;
  pv_change_reason : option string;
  pv_change_task_ids : option string;
  pv_created_at : string
}.

Record TaskPlanColumns : Type := MkTaskPlan {
  tp_logical_id : string;
  tp_role_id : option string;
  tp_inputs : option string;
  tp_corrects_task_id : option string
}.
Record GatePlanColumns : Type := MkGatePlan {
  gp_scope : string;
  gp_plan_revision : option Z;
  gp_evidence_digest : option string;
  gp_integration_sha : option string;
  gp_reason : option string;
  gp_actor_kind : option string;
  gp_actor_id : option string;
  gp_audit_id : option string
}.
Record RunPlanColumns : Type := MkRunPlan {
  rp_coordinator_profile_id : option string;
  rp_profiles_snapshot : option string;
  rp_source_snapshot : option string;
  rp_integration_sha : option string;
  rp_integration_workspace_id : option string
}.
(** A workspaces row joined with its project; the name, source branch and stamps of
    a workspace are read by no modelled code. *)
Record SourceRow : Type := MkSourceRow {
  sr_source : WorkflowSourceWorkspace;
  sr_active : bool;
  sr_host_id : string;
  sr_git : bool;
  sr_branch : option string;
  sr_kind : WorkspaceKind
}.

(** A runTaskEvidence row, keyed by its task. *)
Record TaskEvidenceRow : Type := MkTaskEvidenceRow {
  te_result_digest : string;
  te_artifact_digest : string;
  te_integration_sha : string
}.

(** A runIntegrations row; [sequence] is its rowid. *)
Record RunIntegration : Type := MkRunIntegration {
  ig_sequence : Z;
  ig_request_id : string;
  ig_run_id : string;
  ig_workspace_id : string;
  ig_state : WorkflowIntegrationState;
  ig_receipt : option string;
  ig_error : option string;
  ig_cancelled : bool
}.

Inductive CancellationKind : Type := Ck_Worker | Ck_Coordinator.
Inductive CancellationState : Type := Ct_Pending | Ct_Settled | Ct_Attention.
#[export] Instance CancellationState_eq_dec : EqDecision CancellationState.
Proof. solve_decision. Defined.

(** A runCancellationTargets row. *)
Record CancellationTarget : Type := MkCancellationTarget {
  ct_id : string;
  ct_launch_id : option string;
  ct_run_id : string;
  ct_kind : CancellationKind;
  ct_tab_id : option string;
  ct_workspace_id : option string;
  ct_state : CancellationState;
  ct_error : option string
}.

(** A runTerminalShutdowns row, keyed by its tab. *)
Record TerminalShutdown : Type := MkTerminalShutdown {
  tsd_workspace_id : string;
  tsd_verified : bool
}.

(** A runCommandReceipts row. *)
Record CommandReceipt : Type := MkCommandReceipt {
  cmr_request_id : string;
  cmr_request_digest : string;
  cmr_run_id : string;
  cmr_receipt : string
}.

(** The columns of orchestrationAuditEvents only gate decisions fill. *)
Record AuditColumns : Type := MkAuditColumns {
  ac_payload : json;
  ac_actor_kind : string;
  ac_actor_id : option string
}.

Record PlanTables : Type := MkPlanTables {
  pl_revisions : list RunPlanRevision;
  pl_tasks : gmap string TaskPlanColumns;
  pl_gates : gmap string GatePlanColumns;
  pl_runs : gmap string RunPlanColumns;
  pl_sources : list SourceRow;
  pl_evidence : gmap string TaskEvidenceRow;
  pl_integrations : list RunIntegration;
  pl_targets : list CancellationTarget;
  pl_shutdowns : gmap string TerminalShutdown;
  pl_receipts : list CommandReceipt;
  pl_audits : gmap string AuditColumns
}.
Definition set_pl_revisions (v : list RunPlanRevision) (t : PlanTables) : PlanTables :=
  MkPlanTables v (pl_tasks t) (pl_gates t) (pl_runs t) (pl_sources t) (pl_evidence t) (pl_integrations t) (pl_targets t) (pl_shutdowns t) (pl_receipts t) (pl_audits t).
Definition set_pl_tasks (v : gmap string TaskPlanColumns) (t : PlanTables) : PlanTables :=
  MkPlanTables (pl_revisions t) v (pl_gates t) (pl_runs t) (pl_sources t) (pl_evidence t) (pl_integrations t) (pl_targets t) (pl_shutdowns t) (pl_receipts t) (pl_audits t).
Definition set_pl_gates (v : gmap string GatePlanColumns) (t : PlanTables) : PlanTables :=
  MkPlanTables (pl_revisions t) (pl_tasks t) v (pl_runs t) (pl_sources t) (pl_evidence t) (pl_integrations t) (pl_targets t) (pl_shutdowns t) (pl_receipts t) (pl_audits t).
Definition set_pl_runs (v : gmap string RunPlanColumns) (t : PlanTables) : PlanTables :=
  MkPlanTables (pl_revisions t) (pl_tasks t) (pl_gates t) v (pl_sources t) (pl_evidence t) (pl_integrations t) (pl_targets t) (pl_shutdowns t) (pl_receipts t) (pl_audits t).
Definition set_pl_sources (v : list SourceRow) (t : PlanTables) : PlanTables :=
  MkPlanTables (pl_revisions t) (pl_tasks t) (pl_gates t) (pl_runs t) v (pl_evidence t) (pl_integrations t) (pl_targets t) (pl_shutdowns t) (pl_receipts t) (pl_audits t).
Definition set_pl_evidence (v : gmap string TaskEvidenceRow) (t : PlanTables) : PlanTables :=
  MkPlanTables (pl_revisions t) (pl_tasks t) (pl_gates t) (pl_runs t) (pl_sources t) v (pl_integrations t) (pl_targets t) (pl_shutdowns t) (pl_receipts t) (pl_audits t).
Definition set_pl_integrations (v : list RunIntegration) (t : PlanTables) : PlanTables :=
  MkPlanTables (pl_revisions t) (pl_tasks t) (pl_gates t) (pl_runs t) (pl_sources t) (pl_evidence t) v (pl_targets t) (pl_shutdowns t) (pl_receipts t) (pl_audits t).
Definition set_pl_targets (v : list CancellationTarget) (t : PlanTables) : PlanTables :=
  MkPlanTables (pl_revisions t) (pl_tasks t) (pl_gates t) (pl_runs t) (pl_sources t) (pl_evidence t) (pl_integrations t) v (pl_shutdowns t) (pl_receipts t) (pl_audits t).
Definition set_pl_shutdowns (v : gmap string TerminalShutdown) (t : PlanTables) : PlanTables :=
  MkPlanTables (pl_revisions t) (pl_tasks t) (pl_gates t) (pl_runs t) (pl_sources t) (pl_evidence t) (pl_integrations t) (pl_targets t) v (pl_receipts t) (pl_audits t).
Definition set_pl_receipts (v : list CommandReceipt) (t : PlanTables) : PlanTables :=
  MkPlanTables (pl_revisions t) (pl_tasks t) (pl_gates t) (pl_runs t) (pl_sources t) (pl_evidence t) (pl_integrations t) (pl_targets t) (pl_shutdowns t) v (pl_audits t).
Definition set_pl_audits (v : gmap string AuditColumns) (t : PlanTables) : PlanTables :=
  MkPlanTables (pl_revisions t) (pl_tasks t) (pl_gates t) (pl_runs t) (pl_sources t) (pl_evidence t) (pl_integrations t) (pl_targets t) (pl_shutdowns t) (pl_receipts t) v.

Record PlanWorld : Type := MkPlanWorld { pw_world : World; pw_tables : PlanTables }.
Abbreviation PM := (M PlanWorld).

Definition in_world {A} (m : SM A) : PM A := λ w,
  let (w', r) := m (pw_world w) in (MkPlanWorld w' (pw_tables w), r).
Definition in_tables (f : PlanTables → PlanTables) : PM unit :=
  modify (λ w, MkPlanWorld (pw_world w) (f (pw_tables w))).
Definition raise {A} (r : R A) : PM A := match r with Ok a => ret a | Err e => fail e end.
Definition pselect {A} (q : Db → PlanTables → A) : PM A :=
  gets (λ w, q (w_db (pw_world w)) (pw_tables w)).

(** A transaction over both; identifiers drawn stay drawn. *)
Definition plan_tx {A} (m : PM A) : PM A := λ w,
  match m w with
  | (w', Ok a) => (w', Ok a)
  | (w', Err e) =>
      (MkPlanWorld (MkWorld (w_db (pw_world w)) (w_rng (pw_world w'))) (pw_tables w), Err e)
  end.

Record RunActor : Type := MkRunActor { ra_kind : RunActorKind; ra_id : option string }.

(** [workflow_digest] of a proposal. *)
Class ProposalLib : Type := { propose_digest : string → RunPlanInput → string }.

Definition PLAN_GATE_APPROVE : string := "approve".
Definition PLAN_GATE_REQUEST_CHANGES : string := "requestChanges".
Definition PLAN_GATE_REJECT : string := "reject".
Definition RUN_GATE_OPTIONS : list string :=
  [PLAN_GATE_APPROVE; PLAN_GATE_REQUEST_CHANGES; PLAN_GATE_REJECT].
Definition PLAN_GATE_QUESTION : string := "Approve the execution plan?".
Definition RUN_STALL_POLICIES : list string := ["ask"; "auto-failover"; "wait"].

(** [Uuid] displayed with hyphens. *)
Definition hyphenated (simple : string) : string :=
  String.substring 0 8 simple +:+ "-" +:+ String.substring 8 4 simple +:+ "-"
  +:+ String.substring 12 4 simple +:+ "-" +:+ String.substring 16 4 simple +:+ "-"
  +:+ String.substring 20 12 simple.

Section Proposals.
Context `{Env, ContractLib, RecipeLib, PlanLib, ProposalLib}.

Definition new_uuid : PM string := λ w,
  (MkPlanWorld (MkWorld (w_db (pw_world w)) (S (w_rng (pw_world w)))) (pw_tables w),
   Ok (hyphenated (uuid_simple (w_rng (pw_world w))))).

(** ** Run gates *)

Record NewRunGate : Type := MkNewRunGate {
  ng_run_id : string;
  ng_kind : RunGateKind;
  ng_scope : string;
  ng_question : string;
  ng_plan_revision : option Z;
  ng_evidence_digest : option string;
  ng_integration_sha : option string
}.

Definition record_gate_opened (run_id gate_id : string) (kind : RunGateKind) (scope question : string)
    : PM unit :=
  do! in_world (record_run_event
        (with_ne_payload (Some (JObject [("kind", JString (RunGateKind_as_str kind));
                                         ("scope", JString scope)]))
        (with_ne_actor_kind (Some Ak_Runtime) (with_ne_summary question
        (with_ne_gate_id (Some gate_id) (new_run_event run_id Ev_GateOpened)))))) in
  ret tt.

Definition insert_run_gate (gate : NewRunGate) : PM string :=
  let! id := in_world (orchestration_id "gate") in
  do! in_world (insert_gate (MkOrchestrationDecisionGate id (Some (ng_run_id gate)) None (ng_kind gate)
        (ng_question gate) RUN_GATE_OPTIONS Gs_Pending None now None)) in
  do! in_tables (λ t, set_pl_gates (<[id := MkGatePlan (ng_scope gate) (ng_plan_revision gate)
        (ng_evidence_digest gate) (ng_integration_sha gate) None None None None]> (pl_gates t)) t) in
  do! (if bool_decide (ng_kind gate = Gk_Plan) || bool_decide (is_Some (ng_evidence_digest gate))
       then record_gate_opened (ng_run_id gate) id (ng_kind gate) (ng_scope gate) (ng_question gate)
       else ret tt) in
  ret id.

Definition invalidate_gates (p : OrchestrationDecisionGate → bool) : PM nat :=
  in_world (update_gates p (λ g, with_g_resolved_at (Some now) (with_g_status Gs_Invalidated g))).

Definition pending_run_gate (run_id : string) (kinds : list RunGateKind)
    (g : OrchestrationDecisionGate) : bool :=
  bool_decide (g_run_id g = Some run_id) && bool_decide (g_kind g ∈ kinds)
  && bool_decide (g_status g = Gs_Pending).

Definition open_plan_gate (run_id : string) (revision : Z) (plan_digest : string) : PM string :=
  do! invalidate_gates (pending_run_gate run_id [Gk_Plan]) in
  insert_run_gate (MkNewRunGate run_id Gk_Plan "plan" PLAN_GATE_QUESTION (Some revision)
                     (Some plan_digest) None).

Definition create_run_gate (run_id : string) (kind : RunGateKind) (question : string)
    : PM OrchestrationDecisionGate :=
  do! raise (ensure (bool_decide (kind = Gk_Plan) || bool_decide (kind = Gk_Stage))
        "gate_invalid_kind: only plan and stage gates belong to a run") in
  let! id := plan_tx (
    let! run := pselect (λ db _, run_by_id db run_id) in
    let! run := raise (with_context run ("coordinator run not found: " +:+ run_id)) in
    let! existing := pselect (λ db _, find_last_where (pending_run_gate run_id [kind]) (db_gates db)) in
    match existing with
    | Some g => ret (g_id g)
    | None => insert_run_gate (MkNewRunGate run_id kind (RunGateKind_as_str kind) question
                                 (r_plan_revision run) (Some "") None)
    end) in
  let! gate := in_world (orchestration_gate_by_id id) in
  raise (with_context gate ("run gate not found: " +:+ id)).

Definition run_has_pending_plan_gate (run_id : string) : PM bool :=
  pselect (λ db _, existsb (pending_run_gate run_id [Gk_Plan]) (db_gates db)).

Definition plan_gate_approved (run_id : string) (g : OrchestrationDecisionGate) : bool :=
  bool_decide (g_run_id g = Some run_id) && bool_decide (g_kind g = Gk_Plan)
  && bool_decide (g_status g = Gs_Resolved) && bool_decide (g_resolution g = Some PLAN_GATE_APPROVE).

Definition run_has_approved_plan_gate (run_id : string) : PM bool :=
  pselect (λ db _, existsb (plan_gate_approved run_id) (db_gates db)).

(** ** The run as the proposal reads it *)

Definition load_run (run_id : string) : PM RunRow :=
  let! run := pselect (λ db _, run_by_id db run_id) in
  let! r := raise (with_context run ("run_not_found: no run " +:+ run_id)) in
  let! columns := pselect (λ _ t, default (MkRunPlan None None None None None) (pl_runs t !! run_id)) in
  let! plan_approved := run_has_approved_plan_gate run_id in
  ret (MkRunRow (r_isolation r) (r_status r) (r_plan_revision r) (r_approval_required r) (r_spec r)
         (r_max_concurrent r) (r_stall_policy r) (r_coordinator_handle r) (r_workspace_id r)
         (rp_coordinator_profile_id columns) (rp_profiles_snapshot columns)
         (rp_source_snapshot columns) plan_approved).

Definition proposable (run : RunRow) : bool :=
  match rr_isolation run, rr_status run with
  | _, (Cs_Planning | Cs_AwaitingApproval) => true
  | Is_Shared, (Cs_Running | Cs_Paused) => true
  | _, _ => false
  end.

Definition require_proposable (run : RunRow) : R unit :=
  ensure (proposable run)
    ("run_not_planning: the run does not accept a plan while "
     +:+ OrchestrationCoordinatorStatus_as_str (rr_status run)).

Definition require_source_workspace (source : WorkflowSourceWorkspace) : PM unit :=
  let! current := pselect (λ _ t, existsb (λ r,
      String.eqb (sw_workspace_id (sr_source r)) (sw_workspace_id source)
      && String.eqb (sw_instance_id (sr_source r)) (sw_instance_id source)
      && String.eqb (sw_project_id (sr_source r)) (sw_project_id source)
      && String.eqb (sw_path (sr_source r)) (sw_path source)
      && String.eqb (sw_project_repo_path (sr_source r)) (sw_project_repo_path source)
      && sr_active r && String.eqb (sr_host_id r) "local" && sr_git r) (pl_sources t)) in
  raise (ensure current "workflow source workspace changed or is no longer active").

(** ** Superseding and materializing *)

Definition unstarted_planned (db : Db) (run_id : string) (t : OrchestrationTask) : bool :=
  bool_decide (t_run_id t = Some run_id) && bool_decide (is_Some (t_plan_revision t))
  && (bool_decide (t_status t = Ts_Pending) || bool_decide (t_status t = Ts_Ready))
  && negb (existsb (λ d, String.eqb (d_task_id d) (t_id t)) (db_dispatches db)).

Definition supersede (t : OrchestrationTask) : OrchestrationTask :=
  with_t_completed_at (Some now) (with_t_cancelled_at (Some now) (with_t_status Ts_Cancelled t)).

Definition supersede_unstarted_plan (run_id : string) : PM unit :=
  let! db := pselect (λ db _, db) in
  do! in_world (update_tasks false (unstarted_planned db run_id) supersede) in
  do! invalidate_gates (pending_run_gate run_id [Gk_Plan; Gk_Stage]) in
  ret tt.

(** [Row] of [materialize]. *)
Record PlanRow : Type := MkPlanRow {
  row_logical : string;
  row_title : string;
  row_spec : string;
  row_stage : string;
  row_role : option string;
  row_depends_on : list string;
  row_inputs : option string;
  row_corrects : option string;
  row_contract : option ContractText
}.

Definition plan_rows (plan : CompiledPlan) : list PlanRow :=
  match plan with
  | Cp_Isolated plan =>
      (λ t, MkPlanRow (pt_id (ft_task t)) (pt_title (ft_task t)) (pt_spec (ft_task t))
              (pt_stage_id (ft_task t)) (Some (pt_role_id (ft_task t))) (pt_depends_on (ft_task t))
              (Some (json_encode (pt_inputs (ft_task t)))) (pt_corrects_task_id (ft_task t))
              (Some (snapshot_encode (ft_contract t)))) <$> ps_tasks plan
  | Cp_Shared plan =>
      (λ t, MkPlanRow (ti_id t) (ti_title t) (ti_spec t) (ti_stage_id t) (ti_role_id t)
              (ti_depends_on t) (json_encode <$> ti_inputs t) (ti_corrects_task_id t) None)
        <$> sp_tasks plan
  end.

(** The identifiers drawn for the rows, in order. *)
Fixpoint draw_ids (rows : list PlanRow) : PM (list (string * string)) :=
  match rows with
  | [] => ret []
  | row :: rows =>
      let! uuid := new_uuid in
      let! ids := draw_ids rows in
      ret ((row_logical row, "task_" +:+ uuid) :: ids)
  end.

Definition row_status (isolated : bool) (dependencies : list string) : OrchestrationTaskStatus :=
  if isolated || negb (Nat.eqb (length dependencies) 0) then Ts_Pending else Ts_Ready.

Definition task_row (run_id : string) (run : RunRow) (revision : Z) (id : string)
    (dependencies : list string) (row : PlanRow) : OrchestrationTask :=
  let isolated := bool_decide (rr_isolation run = Is_Isolated) in
  MkOrchestrationTask id None (rr_coordinator_handle run) (Some (row_title row)) (Some (row_title row))
    (row_spec row) (row_status isolated dependencies) dependencies None now None (Some run_id)
    (rr_workspace_id run)
    (if isolated then "" else default "" (rr_coordinator_handle run)) None 0 None None
    (Some (row_stage row)) (row_contract row) (Some revision).

(** runPlanTaskLogicalIdx: one task per run, revision and logical name. *)
Definition logical_taken (db : Db) (t : PlanTables) (run_id : string) (revision : Z) (logical : string)
    : bool :=
  existsb (λ x, bool_decide (t_run_id x = Some run_id) && bool_decide (t_plan_revision x = Some revision)
                && bool_decide (tp_logical_id <$> pl_tasks t !! t_id x = Some logical)) (db_tasks db).

Definition insert_plan_row (run_id : string) (run : RunRow) (revision : Z)
    (ids : gmap string string) (row : PlanRow) : PM unit :=
  let! id := raise (with_context (ids !! row_logical row) "panic: row without an identifier") in
  let! dependencies := raise (with_context (mapM (λ logical, ids !! logical) (row_depends_on row))
    "panic: unknown dependency") in
  let! taken := pselect (λ db t, logical_taken db t run_id revision (row_logical row)) in
  do! (if taken : bool
       then fail (Database "UNIQUE constraint failed: runPlanTaskLogicalIdx") else ret tt) in
  do! in_world (insert_task (task_row run_id run revision id dependencies row)) in
  do! in_tables (λ t, set_pl_tasks (<[id := MkTaskPlan (row_logical row) (row_role row)
        (row_inputs row) (row_corrects row)]> (pl_tasks t)) t) in
  do! in_world (record_run_event
        (with_ne_payload (Some (JObject [("logicalId", JString (row_logical row));
                                         ("stageId", JString (row_stage row))]))
        (with_ne_summary (row_title row) (with_ne_task_id (Some id)
           (new_run_event run_id Ev_TaskCreated))))) in
  ret tt.

Definition gated_stages (plan : CompiledPlan) : list (string * string) :=
  match plan with
  | Cp_Isolated plan =>
      (λ s, (ws_id s, ws_name s))
        <$> List.filter (λ s, bool_decide (is_Some (ws_gate s))) (wf_stages (rs_recipe (ps_recipe plan)))
  | Cp_Shared plan =>
      (λ s, (si_id s, default (si_id s) (si_title s))) <$> List.filter si_gate (sp_stages plan)
  end.

Definition materialize (run_id : string) (run : RunRow) (revision : Z) (plan : CompiledPlan) : PM nat :=
  let rows := plan_rows plan in
  let! drawn := draw_ids rows in
  let ids : gmap string string := list_to_map (reverse drawn) in
  do! mapM_ (insert_plan_row run_id run revision ids) rows in
  do! mapM_ (λ '(stage, name),
        do! insert_run_gate (MkNewRunGate run_id Gk_Stage stage ("Approve stage " +:+ name +:+ "?")
              (Some revision) None None) in ret tt) (gated_stages plan) in
  ret (length rows).

(** The stage-to-profile map dispatch reads for a shared run's workers. *)
Definition json_opt (o : option string) : json := match o with Some s => JString s | None => JNull end.
Definition execution_policy (plan : SharedRunPlanSnapshot) : string :=
  json_encode (JObject [("version", JNumber "1"); ("stallPolicy", JString (sp_stall_policy plan));
    ("stages", JArray ((λ s, JObject [("id", JString (si_id s)); ("title", json_opt (si_title s));
       ("profile", json_opt (si_profile s)); ("fallbacks", JArray (JString <$> si_fallbacks s))])
      <$> sp_stages plan))]).

(** ** [propose_run_plan] *)

Record RunPlanProposed : Type := MkProposed {
  rpp_run_id : string;
  rpp_revision : Z;
  rpp_status : OrchestrationCoordinatorStatus;
  rpp_isolation : Isolation;
  rpp_approval_required : bool;
  rpp_plan_gate_id : option string;
  rpp_digest : string;
  rpp_task_count : nat
}.

Definition portable_request_id (id : string) : R unit :=
  try! _ := workflow_text id 160 in
  ensure (all_bytes (λ c, is_ascii_alphanumeric c || Ascii.eqb c "-" || Ascii.eqb c "_"
                          || Ascii.eqb c ":" || Ascii.eqb c ".") id)
    "requestId must be a portable identifier".

Definition revision_of (t : PlanTables) (run_id : string) (revision : Z) : option RunPlanRevision :=
  find_where (λ p, String.eqb (pv_run_id p) run_id && (pv_revision p =? revision)%Z) (pl_revisions t).

Definition run_plan_proposed (run_id : string) (revision : Z) : PM RunPlanProposed :=
  let! row := pselect (λ db t, r ← run_by_id db run_id; p ← revision_of t run_id revision; Some (r, p)) in
  match row with
  | None => fail (Database "no rows returned by a query that expected to return at least one row")
  | Some (r, p) =>
      pselect (λ db t, MkProposed run_id revision (r_status r) (r_isolation r) (r_approval_required r)
        (g_id <$> find_last_where (λ g, bool_decide (g_run_id g = Some run_id)
             && bool_decide (g_kind g = Gk_Plan)
             && bool_decide ((pl_gates t !! g_id g ≫= gp_plan_revision) = Some revision)) (db_gates db))
        (pv_digest p)
        (count_where (λ x, bool_decide (t_run_id x = Some run_id)
                           && bool_decide (t_plan_revision x = Some revision)) (db_tasks db)))
  end.

(** INSERT on runPlanRevisions: the key and the unique request. *)
Definition insert_plan_revision (p : RunPlanRevision) : PM unit := λ w,
  let t := pw_tables w in
  if bool_decide (is_Some (revision_of t (pv_run_id p) (pv_revision p)))
  then (w, Err (Database "UNIQUE constraint failed: runPlanRevisions.run_id, runPlanRevisions.revision"))
  else if bool_decide (pv_request_id p ∈ pv_request_id <$> pl_revisions t)
  then (w, Err (Database "UNIQUE constraint failed: runPlanRevisions.request_id"))
  else (MkPlanWorld (pw_world w) (set_pl_revisions (pl_revisions t ++ [p]) t), Ok tt).

Definition plan_member (db : Db) (run_id id : string) : bool :=
  existsb (λ t, bool_decide (t_run_id t = Some run_id) && String.eqb (t_id t) id
                && bool_decide (is_Some (t_plan_revision t))) (db_tasks db).

Definition with_plan (revision : Z) (status : OrchestrationCoordinatorStatus)
    (policy : option string) (stall_policy : string) (max_concurrent : Z)
    (r : OrchestrationCoordinatorRun) : OrchestrationCoordinatorRun :=
  MkOrchestrationCoordinatorRun (r_id r) (r_spec r) status (r_coordinator_handle r)
    (r_poll_interval_ms r) (r_created_at r) (r_completed_at r) (r_workspace_id r) max_concurrent now
    (r_stop_reason r) (match policy with Some p => Some p | None => r_execution_policy r end)
    (r_approval_required r) stall_policy (r_paused_by r) (r_isolation r) (r_attention_reason r)
    (Some revision) (r_control_sequence r) (r_coordinator_tab_id r).

Definition plan_event (run_id : string) (kind : RunEventKind) (actor : RunActor) (summary : string)
    (payload : option json) : NewRunEvent :=
  with_ne_payload payload (with_ne_summary summary (with_ne_actor_id (ra_id actor)
    (with_ne_actor_kind (Some (ra_kind actor)) (new_run_event run_id kind)))).

(** The statements between the start of the transaction and its commit, for a
    request that was not seen before. *)
Definition store_plan (run_id : string) (input : RunPlanInput) (actor : RunActor)
    (request_digest : string) (compiled : CompiledPlan) : PM RunPlanProposed :=
  let! run := load_run run_id in
  do! raise (require_proposable run) in
  do! (match compiled with
       | Cp_Isolated plan => require_source_workspace (ps_source_workspace plan)
       | Cp_Shared _ => ret tt
       end) in
  let revision := (default 0 (rr_plan_revision run) + 1)%Z in
  do! supersede_unstarted_plan run_id in
  do! mapM_ (λ corrects,
        let! member := pselect (λ db _, plan_member db run_id corrects) in
        raise (ensure member "a correction references a task outside this run"))
      (omap ti_corrects_task_id (pi_tasks input)) in
  let! request_id :=
    (match pi_request_id input with
     | Some id => ret id
     | None => let! uuid := new_uuid in
               ret ("plan:" +:+ run_id +:+ ":" +:+ pretty revision +:+ ":" +:+ uuid)
     end) in
  do! insert_plan_revision (MkPlanRevision run_id revision request_id request_digest
        (plan_encode compiled) (compiled_digest compiled) (rr_plan_revision run) None None now) in
  let summary := "Revision " +:+ pretty revision in
  do! in_world (record_run_event (plan_event run_id Ev_PlanProposed actor summary
        (Some (JObject [("revision", JNumber (pretty revision));
                        ("digest", JString (compiled_digest compiled))])))) in
  let! task_count := materialize run_id run revision compiled in
  let stall_policy := default (rr_stall_policy run) (pi_stall_policy input) in
  let policy := match compiled with Cp_Shared plan => Some (execution_policy plan) | Cp_Isolated _ => None end in
  let needs_gate := rr_approval_required run
    && (bool_decide (rr_isolation run = Is_Isolated) || negb (rr_plan_approved run)) in
  let! plan_gate_id :=
    (if needs_gate : bool
     then let! id := open_plan_gate run_id revision (compiled_digest compiled) in ret (Some id)
     else do! in_world (record_run_event (plan_event run_id Ev_PlanApproved
                (MkRunActor Ak_Runtime None) summary None)) in ret None) in
  let status := if needs_gate then Cs_AwaitingApproval
                else if bool_decide (rr_status run = Cs_Paused) then Cs_Paused else Cs_Running in
  do! in_world (update_runs (λ r, String.eqb (r_id r) run_id)
        (with_plan revision status policy stall_policy (compiled_max_concurrent compiled))) in
  ret (MkProposed run_id revision status (rr_isolation run) (rr_approval_required run) plan_gate_id
         (compiled_digest compiled) task_count).

Definition replayed_revision (t : PlanTables) (run_id request_id request_digest : string)
    : option RunPlanRevision :=
  find_where (λ p, String.eqb (pv_request_id p) request_id && String.eqb (pv_run_id p) run_id
                   && String.eqb (pv_request_digest p) request_digest) (pl_revisions t).

Definition by_request (t : PlanTables) (id : string) : option RunPlanRevision :=
  find_where (λ p, String.eqb (pv_request_id p) id) (pl_revisions t).

Definition propose_run_plan (run_id : string) (input : RunPlanInput) (actor : RunActor)
    : PM RunPlanProposed :=
  do! raise (workflow_text run_id 160) in
  do! raise (match pi_request_id input with Some id => portable_request_id id | None => Ok tt end) in
  do! raise (match pi_stall_policy input with
             | Some policy => ensure (bool_decide (policy ∈ RUN_STALL_POLICIES))
                 "plan.stallPolicy must be one of ask, auto-failover, wait"
             | None => Ok tt
             end) in
  do! raise (ensure (Nat.leb (length (pi_tasks input)) WORKFLOW_PLAN_MAX_TASKS)
        "a plan holds at most 128 tasks") in
  let request_digest := propose_digest run_id input in
  let! seen := pselect (λ _ t, pi_request_id input ≫= by_request t) in
  match seen with
  | Some p =>
      do! raise (ensure (String.eqb (pv_request_digest p) request_digest
                         && String.eqb (pv_run_id p) run_id)
            "run_request_conflict: plan request id was already used") in
      run_plan_proposed run_id (pv_revision p)
  | None =>
      let! run := load_run run_id in
      do! raise (require_proposable run) in
      let! compiled := raise (compile run input) in
      let! result := plan_tx (
        let! existing := pselect (λ _ t, id ← pi_request_id input;
                                         replayed_revision t run_id id request_digest) in
        match existing with
        | Some p => ret (inl (pv_revision p))
        | None => let! proposed := store_plan run_id input actor request_digest compiled in
                  ret (inr proposed)
        end) in
      match result with
      | inl revision => run_plan_proposed run_id revision
      | inr proposed => ret proposed
      end
  end.
End Proposals.
