(* ===== verification/PlanStoreFacts.v ===== *)
(** * PlanStoreFacts: a proposed plan is stored once, whole, or not at all

    What each statement of [store_plan] leaves behind, the row-by-row effect of
    [materialize], and the theorems on [propose_run_plan]: it is atomic, it
    writes exactly the compiled plan, and a repeated request finds the revision
    it made. *)

From S2P Require Import Prelude Text Models Store StoreFacts RoleContract Gates Runs Ordering Recipe RecipeFacts Plan PlanStore.
From Stdlib Require Import ZArith Lia Ascii String.
From stdpp Require Import strings gmap pretty prelude.

(** ** Views of the state *)

Definition tasks_of (w : PlanWorld) : list OrchestrationTask := db_tasks (w_db (pw_world w)).
Definition gates_of (w : PlanWorld) : list OrchestrationDecisionGate := db_gates (w_db (pw_world w)).
Definition runs_of (w : PlanWorld) : list OrchestrationCoordinatorRun := db_runs (w_db (pw_world w)).
Definition revisions_of (w : PlanWorld) : list RunPlanRevision := pl_revisions (pw_tables w).

(** What no statement between the revision row and the final update touches. *)
Record steady (w w' : PlanWorld) : Prop := {
  steady_runs : runs_of w' = runs_of w;
  steady_dispatches : db_dispatches (w_db (pw_world w')) = db_dispatches (w_db (pw_world w));
  steady_revisions : revisions_of w' = revisions_of w;
  steady_columns : pl_runs (pw_tables w') = pl_runs (pw_tables w)
}.

#[export] Instance steady_refl : Reflexive steady.
Proof. by intros w. Qed.
#[export] Instance steady_trans : Transitive steady.
Proof. intros w1 w2 w3 [] []. split; congruence. Qed.

(** ** Reading a successful step *)

Lemma in_world_ok {A} (m : SM A) w w' a :
  in_world m w = (w', Ok a) → ∃ v, m (pw_world w) = (v, Ok a) ∧ w' = MkPlanWorld v (pw_tables w).
Proof. unfold in_world. destruct (m (pw_world w)) as [v r]. intros [= <- ->]. eauto. Qed.

Lemma raise_ok {A} (r : R A) w w' a : raise r w = (w', Ok a) → w' = w ∧ r = Ok a.
Proof. destruct r; cbn; unfold ret, fail; naive_solver. Qed.

Lemma plan_tx_ok {A} (m : PM A) w w' a : plan_tx m w = (w', Ok a) → m w = (w', Ok a).
Proof. unfold plan_tx. destruct (m w) as [v [b|e]]; naive_solver. Qed.

Lemma pselect_ok {A} (q : Db → PlanTables → A) w w' a :
  pselect q w = (w', Ok a) → w' = w ∧ a = q (w_db (pw_world w)) (pw_tables w).
Proof. unfold pselect, gets. naive_solver. Qed.

Lemma in_tables_ok f w w' u :
  in_tables f w = (w', Ok u) → w' = MkPlanWorld (pw_world w) (f (pw_tables w)).
Proof. unfold in_tables, modify. naive_solver. Qed.

Ltac plan_inv :=
  repeat match goal with
  | Hs : in_world _ _ = (_, Ok _) |- _ => apply in_world_ok in Hs as (? & Hs & ?); subst
  | Hs : in_tables _ _ = (_, Ok _) |- _ => apply in_tables_ok in Hs; subst
  | Hs : raise _ _ = (_, Ok _) |- _ => apply raise_ok in Hs as [? Hs]; subst
  | Hs : pselect _ _ = (_, Ok _) |- _ => apply pselect_ok in Hs as [? ?]; subst
  | Hs : bind _ _ _ = (_, Ok _) |- _ => inv_ok Hs
  | Hs : ret _ _ = (_, Ok _) |- _ => unfold ret in Hs; simplify_eq
  end.

Section Facts.
Context `{Env, ContractLib, RecipeLib, PlanLib, ProposalLib}.

Lemma in_event_ok event (w w' : PlanWorld) id :
  in_world (record_run_event event) w = (w', Ok id) →
  events_only (pw_world w) (pw_world w') ∧ pw_tables w' = pw_tables w.
Proof. intros (v & Hv & ->)%in_world_ok. by apply record_run_event_frame in Hv. Qed.

Lemma in_event_steady (w w' : PlanWorld) :
  events_only (pw_world w) (pw_world w') → pw_tables w' = pw_tables w →
  steady w w' ∧ tasks_of w' = tasks_of w ∧ gates_of w' = gates_of w.
Proof.
  intros Hev Ht. unfold tasks_of, gates_of. rewrite (events_only_tasks _ _ Hev), (events_only_gates _ _ Hev).
  split; [|done]. split; unfold runs_of, revisions_of; rewrite ?Ht; try done.
  - by apply events_only_runs.
  - by apply events_only_dispatches.
Qed.

(** ** Gates *)

Definition gate_row (gate : NewRunGate) (id : string) : OrchestrationDecisionGate :=
  MkOrchestrationDecisionGate id (Some (ng_run_id gate)) None (ng_kind gate)
    (ng_question gate) RUN_GATE_OPTIONS Gs_Pending None now None.
Definition gate_columns (gate : NewRunGate) : GatePlanColumns :=
  MkGatePlan (ng_scope gate) (ng_plan_revision gate) (ng_evidence_digest gate) (ng_integration_sha gate)
    None None None None.

Lemma gate_opened_frame (b : bool) run_id id kind scope question w w' u :
  (if b then record_gate_opened run_id id kind scope question else ret tt) w = (w', Ok u) →
  steady w w' ∧ tasks_of w' = tasks_of w ∧ gates_of w' = gates_of w ∧ pw_tables w' = pw_tables w.
Proof.
  destruct b; intros Hm; [|unfold ret in Hm; by simplify_eq].
  unfold record_gate_opened in Hm. inv_ok Hm. inv_ok Hm. apply in_event_ok in Hstep as [Hev Htab].
  destruct (in_event_steady _ _ Hev Htab) as (? & ? & ?). by split_and!.
Qed.

Lemma insert_run_gate_ok gate w w' id :
  insert_run_gate gate w = (w', Ok id) →
  steady w w' ∧ tasks_of w' = tasks_of w ∧ pl_tasks (pw_tables w') = pl_tasks (pw_tables w) ∧
  (id ∉ (g_id <$> gates_of w)) ∧ gates_of w' = gates_of w ++ [gate_row gate id] ∧
  pl_gates (pw_tables w') = <[id := gate_columns gate]> (pl_gates (pw_tables w)).
Proof.
  unfold insert_run_gate. intros Hm. inv_ok Hm. inv_ok Hm. inv_ok Hm. inv_ok Hm.
  apply in_world_ok in Hstep as (v & Hv & ->). unfold orchestration_id in Hv. simplify_eq.
  apply in_world_ok in Hstep0 as (v & [-> Hfresh]%insert_gate_ok & ->). apply in_tables_ok in Hstep1 as ->.
  apply gate_opened_frame in Hstep2 as (Hst & Ht & Hg & Htab). unfold ret in Hm. simplify_eq.
  rewrite Ht, Hg, Htab. split_and!; try done. etransitivity; [|exact Hst]. by split.
Qed.

Definition invalidated (g : OrchestrationDecisionGate) : OrchestrationDecisionGate :=
  with_g_resolved_at (Some now) (with_g_status Gs_Invalidated g).

Lemma invalidate_gates_ok p w w' n :
  invalidate_gates p w = (w', Ok n) →
  steady w w' ∧ tasks_of w' = tasks_of w ∧ pw_tables w' = pw_tables w ∧
  gates_of w' = update_where p invalidated (gates_of w).
Proof. intros (v & [-> _]%update_gates_ok & ->)%in_world_ok. by split_and!. Qed.

(** The gates a revision opens: each was inserted fresh, in order. *)
Inductive gates_added : list NewRunGate → list string → PlanWorld → PlanWorld → Prop :=
| ga_nil w : gates_added [] [] w w
| ga_cons gate gates id ids w w1 w' :
    insert_run_gate gate w = (w1, Ok id) → gates_added gates ids w1 w' →
    gates_added (gate :: gates) (id :: ids) w w'.

Definition stage_gate (run_id : string) (revision : Z) (s : string * string) : NewRunGate :=
  MkNewRunGate run_id Gk_Stage s.1 ("Approve stage " +:+ s.2 +:+ "?") (Some revision) None None.

Lemma stage_gates_added run_id revision stages w w' u :
  mapM_ (λ '(stage, name),
    do! insert_run_gate (MkNewRunGate run_id Gk_Stage stage ("Approve stage " +:+ name +:+ "?")
          (Some revision) None None) in ret tt) stages w = (w', Ok u) →
  ∃ ids, gates_added (stage_gate run_id revision <$> stages) ids w w'.
Proof.
  revert w u. induction stages as [|[stage name] stages IH]; intros w u Hm.
  { cbn in Hm. unfold ret in Hm. simplify_eq. exists []. constructor. }
  cbn [mapM_] in Hm. inv_ok Hm. inv_ok Hstep. inv_ok Hstep. destruct (IH _ _ Hm) as [ids Hadd]. eexists. econstructor; [exact Hstep0|exact Hadd].
Qed.

(** What a batch of new gates does to the tables. *)
Lemma gates_added_frame gates ids w w' :
  gates_added gates ids w w' →
  steady w w' ∧ tasks_of w' = tasks_of w ∧ pl_tasks (pw_tables w') = pl_tasks (pw_tables w) ∧
  gates_of w' = gates_of w ++ zip_with gate_row gates ids ∧ length ids = length gates ∧
    NoDup ids ∧ (∀ id, id ∈ ids → id ∉ (g_id <$> gates_of w)) ∧
    (∀ id, id ∉ ids → pl_gates (pw_tables w') !! id = pl_gates (pw_tables w) !! id) ∧
    (∀ i gate id, gates !! i = Some gate → ids !! i = Some id →
       pl_gates (pw_tables w') !! id = Some (gate_columns gate)).
Proof.
  induction 1 as [w|gate gates id ids w w1 w' Hone _ IH].
  { cbn. rewrite app_nil_r. split_and!; try done; [constructor|by intros ? ?%elem_of_nil]. }
  destruct (insert_run_gate_ok _ _ _ _ Hone) as (Hst & Ht & Hpt & Hfresh & Hg & Hpg).
  destruct IH as (Hst' & Ht' & Hpt' & Hg' & Hlen & Hnd & Hout & Hkeep & Hcols).
  assert (id ∉ ids) as Hid.
  { intros Hin. apply (Hout _ Hin). rewrite Hg, fmap_app. apply elem_of_app. right. by left. }
  cbn. split_and!; [by transitivity w1|congruence|congruence|..].
  - by rewrite Hg', Hg, <-(assoc_L (++)).
  - by f_equal.
  - by constructor.
  - intros x [->|Hx]%elem_of_cons; [done|]. intros Hin. apply (Hout _ Hx). rewrite Hg, fmap_app. apply elem_of_app. by left.
  - intros x Hx. apply not_elem_of_cons in Hx as [Hne Hx]. rewrite Hkeep, Hpg by done. by apply lookup_insert_ne.
  - intros [|i] g x Hgi Hxi; cbn in *; simplify_eq; [|by eapply Hcols].
    rewrite Hkeep, Hpg by done. apply lookup_insert_eq.
Qed.

(** ** Task rows *)

(** [t] is the row [materialize] writes for [row] under the identifiers [ids]. *)
Definition row_stored (run_id : string) (run : RunRow) (revision : Z) (ids : gmap string string)
    (row : PlanRow) (t : OrchestrationTask) : Prop :=
  ∃ id deps, ids !! row_logical row = Some id ∧
    mapM (λ logical, ids !! logical) (row_depends_on row) = Some deps ∧
    t = task_row run_id run revision id deps row.

Lemma draw_ids_ok rows w w' drawn :
  draw_ids rows w = (w', Ok drawn) →
  w_db (pw_world w') = w_db (pw_world w) ∧ pw_tables w' = pw_tables w ∧ drawn.*1 = row_logical <$> rows.
Proof.
  revert w drawn. induction rows as [|row rows IH]; intros w drawn Hm; cbn [draw_ids] in Hm.
  { inv_ok Hm. done. }
  inv_ok Hm. inv_ok Hm. inv_ok Hm. unfold new_uuid in Hstep. simplify_eq.
  destruct (IH _ _ Hstep0) as (Hdb & Htab & Hfst). cbn. by rewrite Hfst.
Qed.

Lemma insert_plan_row_ok run_id run revision ids row w w' u :
  insert_plan_row run_id run revision ids row w = (w', Ok u) →
  steady w w' ∧ gates_of w' = gates_of w ∧ pl_gates (pw_tables w') = pl_gates (pw_tables w) ∧
  ∃ t, row_stored run_id run revision ids row t ∧ (t_id t ∉ (t_id <$> tasks_of w)) ∧
       tasks_of w' = tasks_of w ++ [t].
Proof.
  unfold insert_plan_row. intros Hm. do 7 inv_ok Hm. apply raise_ok in Hstep as [-> Hid%with_context_ok].
  apply raise_ok in Hstep0 as [-> Hdeps%with_context_ok]. apply pselect_ok in Hstep1 as [-> ->].
  destruct (logical_taken _ _ _ _ _); [done|]. unfold ret in Hstep2. injection Hstep2 as <- _.
  apply in_world_ok in Hstep3 as (v & (-> & Hfresh & _)%insert_task_ok & ->).
  apply in_tables_ok in Hstep4 as ->. apply in_event_ok in Hstep5 as [Hev Htab].
  destruct (in_event_steady _ _ Hev Htab) as (Hst & Ht & Hg). inv_ok Hm. rewrite Ht, Hg, Htab.
  split_and!; try done.
  - etransitivity; [|exact Hst]. by split.
  - eexists. split_and!; [by eexists _, _|exact Hfresh|done].
Qed.

Lemma rows_inserted run_id run revision ids rows w w' u :
  mapM_ (insert_plan_row run_id run revision ids) rows w = (w', Ok u) →
  steady w w' ∧ gates_of w' = gates_of w ∧ pl_gates (pw_tables w') = pl_gates (pw_tables w) ∧
  ∃ new, tasks_of w' = tasks_of w ++ new ∧ Forall2 (row_stored run_id run revision ids) rows new ∧
    NoDup (t_id <$> new) ∧ (∀ t, t ∈ new → t_id t ∉ (t_id <$> tasks_of w)).
Proof.
  revert w u. induction rows as [|row rows IH]; intros w u Hm; cbn [mapM_] in Hm.
  { inv_ok Hm. split_and!; try done. exists []. rewrite app_nil_r.
    split_and!; try done; [constructor|by intros ? ?%elem_of_nil]. }
  inv_ok Hm. destruct (insert_plan_row_ok _ _ _ _ _ _ _ _ Hstep) as (Hst & Hg & Hpg & t & Hrow & Hfresh & Ht).
  destruct (IH _ _ Hm) as (Hst' & Hg' & Hpg' & new & Ht' & Hall & Hnd & Hout).
  split_and!; [by etransitivity|congruence|congruence|]. exists (t :: new). split_and!.
  - by rewrite Ht', Ht, <-(assoc_L (++)).
  - by constructor.
  - cbn. constructor; [|done]. intros (t' & Heq & Hin)%list_elem_of_fmap. apply (Hout _ Hin).
    rewrite Ht, fmap_app. apply elem_of_app. right. rewrite <-Heq. by left.
  - intros t' [->|Hin]%elem_of_cons; [done|]. intros Hold. apply (Hout _ Hin). rewrite Ht, fmap_app.
    apply elem_of_app. by left.
Qed.

(** The rows of a revision and its stage gates, in one description. *)
Lemma materialize_ok run_id run revision plan w w' n :
  materialize run_id run revision plan w = (w', Ok n) →
  n = length (plan_rows plan) ∧
  ∃ w1 ids gate_ids, steady w w1 ∧ gates_of w1 = gates_of w ∧
    pl_gates (pw_tables w1) = pl_gates (pw_tables w) ∧
    gates_added (stage_gate run_id revision <$> gated_stages plan) gate_ids w1 w' ∧
    dom ids = list_to_set (row_logical <$> plan_rows plan) ∧
    ∃ new, tasks_of w1 = tasks_of w ++ new ∧
      Forall2 (row_stored run_id run revision ids) (plan_rows plan) new ∧
      NoDup (t_id <$> new) ∧ (∀ t, t ∈ new → t_id t ∉ (t_id <$> tasks_of w)).
Proof.
  unfold materialize. intros Hm. do 3 inv_ok Hm. apply stage_gates_added in Hstep1 as [gids Hgates]. inv_ok Hm.
  apply draw_ids_ok in Hstep as (Hdb & Htab & Hfst).
  apply rows_inserted in Hstep0 as (Hst & Hg & Hpg & new & Ht & Hall & Hnd & Hout).
  split; [done|]. eexists _, _, _. split_and!; [| | |exact Hgates| |].
  - etransitivity; [|exact Hst]. unfold runs_of, revisions_of. split; unfold runs_of, revisions_of; by rewrite ?Hdb, ?Htab.
  - rewrite Hg. unfold gates_of. by rewrite Hdb.
  - by rewrite Hpg, Htab.
  - apply set_eq. intros x. rewrite elem_of_dom, elem_of_list_to_set, <-Hfst. split.
    + intros [y Hy%elem_of_list_to_map_2]. apply list_elem_of_fmap. exists (x, y). by rewrite elem_of_reverse in Hy.
    + intros Hx. destruct (list_to_map (M:=gmap string string) (reverse a) !! x) eqn:E; [by eexists|].
      apply not_elem_of_list_to_map in E. by rewrite fmap_reverse, elem_of_reverse in E.
  - exists new. unfold tasks_of in *. rewrite Hdb in *. by split_and!.
Qed.

(** ** The transaction of a proposal *)

Definition needs_plan_gate (run : RunRow) : bool :=
  rr_approval_required run && (bool_decide (rr_isolation run = Is_Isolated) || negb (rr_plan_approved run)).

Definition plan_status (run : RunRow) : OrchestrationCoordinatorStatus :=
  if needs_plan_gate run then Cs_AwaitingApproval
  else if bool_decide (rr_status run = Cs_Paused) then Cs_Paused else Cs_Running.

Definition plan_policy (compiled : CompiledPlan) : option string :=
  match compiled with Cp_Shared plan => Some (execution_policy plan) | Cp_Isolated _ => None end.

Definition plan_gate (run_id : string) (revision : Z) (compiled : CompiledPlan) : NewRunGate :=
  MkNewRunGate run_id Gk_Plan "plan" PLAN_GATE_QUESTION (Some revision) (Some (compiled_digest compiled)) None.

(** The gates a revision opens: one per gated stage, then the plan's own. *)
Definition new_gates (run_id : string) (run : RunRow) (revision : Z) (compiled : CompiledPlan) : list NewRunGate :=
  (stage_gate run_id revision <$> gated_stages compiled)
  ++ (if needs_plan_gate run then [plan_gate run_id revision compiled] else []).

Definition no_longer_pending (run_id : string) (gates : list OrchestrationDecisionGate) :=
  update_where (pending_run_gate run_id [Gk_Plan; Gk_Stage]) invalidated gates.

Definition revision_row (run_id : string) (run : RunRow) (revision : Z) (request_id request_digest : string)
    (compiled : CompiledPlan) : RunPlanRevision :=
  MkPlanRevision run_id revision request_id request_digest (plan_encode compiled)
    (compiled_digest compiled) (rr_plan_revision run) None None now.

(** What a committed proposal wrote. *)
Record plan_stored (run_id : string) (input : RunPlanInput) (run : RunRow) (compiled : CompiledPlan)
    (w w' : PlanWorld) (p : RunPlanProposed) : Prop := {
  stored_result :
    rpp_run_id p = run_id ∧ rpp_revision p = (default 0 (rr_plan_revision run) + 1)%Z ∧
    rpp_status p = plan_status run ∧ rpp_isolation p = rr_isolation run ∧
    rpp_approval_required p = rr_approval_required run ∧ rpp_digest p = compiled_digest compiled ∧
    rpp_task_count p = length (plan_rows compiled);
  stored_revision : ∃ request_id,
    (∀ id, pi_request_id input = Some id → request_id = id) ∧
    (request_id ∉ (pv_request_id <$> revisions_of w)) ∧
    revision_of (pw_tables w) run_id (rpp_revision p) = None ∧
    revisions_of w' = revisions_of w ++
      [revision_row run_id run (rpp_revision p) request_id (propose_digest run_id input) compiled];
  stored_tasks : ∃ ids new,
    tasks_of w' = update_where (unstarted_planned (w_db (pw_world w)) run_id) supersede (tasks_of w) ++ new ∧
    dom ids = list_to_set (row_logical <$> plan_rows compiled) ∧
    Forall2 (row_stored run_id run (rpp_revision p) ids) (plan_rows compiled) new ∧
    NoDup (t_id <$> new) ∧ (∀ t, t ∈ new → t_id t ∉ (t_id <$> tasks_of w));
  stored_gates : ∃ ids,
    gates_of w' = no_longer_pending run_id (gates_of w)
                  ++ zip_with gate_row (new_gates run_id run (rpp_revision p) compiled) ids ∧
    length ids = length (new_gates run_id run (rpp_revision p) compiled) ∧ NoDup ids ∧
    (∀ id, id ∈ ids → id ∉ (g_id <$> gates_of w)) ∧
    (∀ id, id ∉ ids → pl_gates (pw_tables w') !! id = pl_gates (pw_tables w) !! id) ∧
    (∀ i gate id, new_gates run_id run (rpp_revision p) compiled !! i = Some gate → ids !! i = Some id →
       pl_gates (pw_tables w') !! id = Some (gate_columns gate)) ∧
    rpp_plan_gate_id p = (if needs_plan_gate run then last ids else None);
  stored_run :
    runs_of w' = update_where (λ r, String.eqb (r_id r) run_id)
      (with_plan (rpp_revision p) (plan_status run) (plan_policy compiled)
         (default (rr_stall_policy run) (pi_stall_policy input)) (compiled_max_concurrent compiled)) (runs_of w)
}.

Lemma supersede_ok run_id w w' u :
  supersede_unstarted_plan run_id w = (w', Ok u) →
  steady w w' ∧ pw_tables w' = pw_tables w ∧
  tasks_of w' = update_where (unstarted_planned (w_db (pw_world w)) run_id) supersede (tasks_of w) ∧
  gates_of w' = no_longer_pending run_id (gates_of w).
Proof.
  unfold supersede_unstarted_plan. intros Hm. do 3 inv_ok Hm. inv_ok Hm.
  apply pselect_ok in Hstep as [-> ->]. apply in_world_ok in Hstep0 as (v & [-> _]%update_tasks_ok & ->).
  apply invalidate_gates_ok in Hstep1 as (Hst & Ht & Htab & Hg). rewrite Ht, Hg, Htab. split_and!; try done.
  etransitivity; [|exact Hst]. by split.
Qed.

Lemma insert_plan_revision_ok p w w' u :
  insert_plan_revision p w = (w', Ok u) →
  revision_of (pw_tables w) (pv_run_id p) (pv_revision p) = None ∧
  (pv_request_id p ∉ (pv_request_id <$> revisions_of w)) ∧
  w' = MkPlanWorld (pw_world w) (set_pl_revisions (revisions_of w ++ [p]) (pw_tables w)).
Proof.
  unfold insert_plan_revision. case_bool_decide as Hkey; [done|]. case_bool_decide; [done|].
  intros [= <- _]. split_and!; try done. by apply eq_None_not_Some.
Qed.

Lemma invalidate_none p w :
  (∀ g, g ∈ gates_of w → p g = false) → invalidate_gates p w = (w, Ok 0).
Proof.
  unfold gates_of, invalidate_gates, in_world, update_gates, with_db, set_gates. destruct w as [[[] ?] ?].
  cbn -[update_where count_where]. intros Hno.
  by rewrite (update_where_none p _ _ Hno), (proj2 (count_where_0 p _) Hno).
Qed.

Lemma gates_added_snoc gates gate id ids w w1 w' :
  gates_added gates ids w w1 → insert_run_gate gate w1 = (w', Ok id) →
  gates_added (gates ++ [gate]) (ids ++ [id]) w w'.
Proof. induction 1; intros Hone; cbn; econstructor; eauto. constructor. Qed.

Lemma no_longer_pending_plan run_id gates ids old g :
  Forall (λ gate, ng_kind gate ≠ Gk_Plan) gates →
  g ∈ no_longer_pending run_id old ++ zip_with gate_row gates ids →
  pending_run_gate run_id [Gk_Plan] g = false.
Proof.
  intros Hk [(g0 & _ & ->)%elem_of_update_where|Hin]%elem_of_app.
  - unfold pending_run_gate at 1. destruct (pending_run_gate _ _ g0) eqn:E; cbn; [by rewrite andb_false_r|].
    unfold pending_run_gate in E. destruct (bool_decide (g_run_id g0 = _)); [|done].
    destruct (bool_decide_reflect (g_kind g0 ∈ [Gk_Plan])) as [Hp|]; [|done]. cbn in *.
    apply list_elem_of_singleton in Hp. rewrite Hp in E. by rewrite bool_decide_true in E by by left.
  - apply elem_of_lookup_zip_with in Hin as (i & gate & id & -> & Hg & _). rewrite Forall_lookup in Hk.
    specialize (Hk _ _ Hg). unfold pending_run_gate. cbn.
    rewrite (bool_decide_false (ng_kind gate ∈ _)); [by rewrite andb_false_r|].
    by rewrite list_elem_of_singleton.
Qed.

(** The decision on the plan's own gate. *)
Lemma plan_gate_step run_id run revision compiled summary gates ids w w1 w' o :
  gates_added gates ids w w1 →
  (∀ g, g ∈ gates_of w1 → pending_run_gate run_id [Gk_Plan] g = false) →
  (if needs_plan_gate run
   then let! id := open_plan_gate run_id revision (compiled_digest compiled) in ret (Some id)
   else do! in_world (record_run_event (plan_event run_id Ev_PlanApproved
              (MkRunActor Ak_Runtime None) summary None)) in ret None) w1 = (w', Ok o) →
  ∃ w2 ids', gates_added (gates ++ (if needs_plan_gate run then [plan_gate run_id revision compiled] else [])) ids' w w2 ∧
    events_only (pw_world w2) (pw_world w') ∧ pw_tables w' = pw_tables w2 ∧
    o = (if needs_plan_gate run then last ids' else None).
Proof.
  intros Hadd Hno Hm. destruct (needs_plan_gate run).
  - inv_ok Hm. inv_ok Hm. unfold open_plan_gate in Hstep. rewrite (bind_ok _ _ _ _ _ (invalidate_none _ _ Hno)) in Hstep.
    eexists _, _. split_and!; [by eapply gates_added_snoc|reflexivity|done|by rewrite last_snoc].
  - inv_ok Hm. inv_ok Hm. apply in_event_ok in Hstep as [Hev Htab]. rewrite app_nil_r. by eexists _, _.
Qed.

Lemma mapM_reads {A} (f : A → PM unit) l w w' u :
  (∀ x v v' a, f x v = (v', Ok a) → v' = v) → mapM_ f l w = (w', Ok u) → w' = w.
Proof.
  intros Hf. revert u. induction l as [|x l IH]; intros u Hm; cbn [mapM_] in Hm; inv_ok Hm; [done|].
  apply Hf in Hstep as ->. by eapply IH.
Qed.

Lemma load_run_ok run_id w w' run :
  load_run run_id w = (w', Ok run) →
  w' = w ∧ ∃ r, run_by_id (w_db (pw_world w)) run_id = Some r ∧
    rr_plan_revision run = r_plan_revision r ∧ rr_isolation run = r_isolation r ∧
    rr_status run = r_status r ∧ rr_approval_required run = r_approval_required r.
Proof.
  unfold load_run, run_has_approved_plan_gate. intros Hm. do 4 inv_ok Hm. inv_ok Hm.
  apply pselect_ok in Hstep as [-> ->]. apply raise_ok in Hstep0 as [-> Hr%with_context_ok].
  apply pselect_ok in Hstep1 as [-> ->]. apply pselect_ok in Hstep2 as [-> ->]. split; [done|]. by eexists.
Qed.

Lemma source_check_reads compiled w w' u :
  (match compiled with
   | Cp_Isolated plan => require_source_workspace (ps_source_workspace plan)
   | Cp_Shared _ => ret tt
   end) w = (w', Ok u) → w' = w.
Proof.
  destruct compiled; intros Hm; [|inv_ok Hm; done]. unfold require_source_workspace in Hm. inv_ok Hm.
  apply pselect_ok in Hstep as [-> ->]. by apply raise_ok in Hm as [-> _].
Qed.

Lemma request_id_ok run_id revision input w w' request_id :
  (match pi_request_id input with
   | Some id => ret id
   | None => let! uuid := new_uuid in
             ret ("plan:" +:+ run_id +:+ ":" +:+ pretty (revision : Z) +:+ ":" +:+ uuid)
   end) w = (w', Ok request_id) →
  w_db (pw_world w') = w_db (pw_world w) ∧ pw_tables w' = pw_tables w ∧
  ∀ id, pi_request_id input = Some id → request_id = id.
Proof.
  destruct (pi_request_id input); intros Hm.
  - inv_ok Hm. naive_solver.
  - inv_ok Hm. unfold new_uuid in Hstep. simplify_eq. inv_ok Hm. naive_solver.
Qed.

Lemma steady_same_db w w' :
  w_db (pw_world w') = w_db (pw_world w) → pw_tables w' = pw_tables w → steady w w'.
Proof. intros Hdb Ht. split; unfold runs_of, revisions_of; by rewrite ?Hdb, ?Ht. Qed.

(** The state after the statements that precede the plan's rows. *)
Lemma store_plan_head run_id input run compiled w w' p actor :
  store_plan run_id input actor (propose_digest run_id input) compiled w = (w', Ok p) →
  load_run run_id w = (w, Ok run) →
  require_proposable run = Ok tt ∧
  let revision := (default 0 (rr_plan_revision run) + 1)%Z in
  ∃ request_id w1 w2 w3 task_count o,
    (∀ id, pi_request_id input = Some id → request_id = id) ∧
    (request_id ∉ (pv_request_id <$> revisions_of w)) ∧
    revision_of (pw_tables w) run_id revision = None ∧
    runs_of w1 = runs_of w ∧
    pl_gates (pw_tables w1) = pl_gates (pw_tables w) ∧
    tasks_of w1 = update_where (unstarted_planned (w_db (pw_world w)) run_id) supersede (tasks_of w) ∧
    gates_of w1 = no_longer_pending run_id (gates_of w) ∧
    revisions_of w1 = revisions_of w ++
      [revision_row run_id run revision request_id (propose_digest run_id input) compiled] ∧
    materialize run_id run revision compiled w1 = (w2, Ok task_count) ∧
    (if needs_plan_gate run
     then let! id := open_plan_gate run_id revision (compiled_digest compiled) in ret (Some id)
     else do! in_world (record_run_event (plan_event run_id Ev_PlanApproved
                (MkRunActor Ak_Runtime None) ("Revision " +:+ pretty revision) None)) in ret None) w2
      = (w3, Ok o) ∧
    (∃ n, in_world (update_runs (λ r, String.eqb (r_id r) run_id)
        (with_plan revision (plan_status run) (plan_policy compiled)
           (default (rr_stall_policy run) (pi_stall_policy input)) (compiled_max_concurrent compiled))) w3
      = (w', Ok n)) ∧
    p = MkProposed run_id revision (plan_status run) (rr_isolation run) (rr_approval_required run) o
          (compiled_digest compiled) task_count.
Proof.
  intros Hm Hload. unfold store_plan in Hm. rewrite (bind_ok _ _ _ _ _ Hload) in Hm. do 10 inv_ok Hm.
  apply raise_ok in Hstep as [-> Hreq]. apply source_check_reads in Hstep0 as ->.
  apply supersede_ok in Hstep1 as (Hst1 & Htab1 & Ht1 & Hg1).
  apply mapM_reads in Hstep2 as ->; last first.
  { intros x v v' u Hx. inv_ok Hx. apply pselect_ok in Hstep as [-> ->]. by apply raise_ok in Hx as [-> _]. }
  apply request_id_ok in Hstep3 as (Hdb & Htab & Hid).
  apply insert_plan_revision_ok in Hstep4 as (Hnew & Hfresh & ->).
  apply in_event_ok in Hstep5 as [Hev Htab5]. destruct (in_event_steady _ _ Hev Htab5) as (Hst5 & Ht5 & Hg5).
  inv_ok Hm. split; [by match type of Hreq with _ = Ok ?u => destruct u end|]. cbn zeta. eexists _, s5, s6, s7, _, _.
  unfold revisions_of in *. rewrite Htab, Htab1 in *. cbn in Hnew, Hfresh. split_and!.
  - exact Hid.
  - done.
  - done.
  - rewrite (steady_runs _ _ Hst5). unfold runs_of. cbn. rewrite Hdb. apply (steady_runs _ _ Hst1).
  - by rewrite Htab5.
  - rewrite Ht5. unfold tasks_of in *. cbn. by rewrite Hdb.
  - rewrite Hg5. unfold gates_of in *. cbn. by rewrite Hdb.
  - by rewrite Htab5.
  - exact Hstep6.
  - exact Hstep7.
  - eexists. exact Hstep8.
  - done.
Qed.

Lemma stage_gates_not_plan run_id revision stages :
  Forall (λ gate, ng_kind gate ≠ Gk_Plan) (stage_gate run_id revision <$> stages).
Proof. by apply Forall_fmap, Forall_true. Qed.

Lemma store_plan_ok run_id input run compiled w w' p actor :
  store_plan run_id input actor (propose_digest run_id input) compiled w = (w', Ok p) →
  load_run run_id w = (w, Ok run) → plan_stored run_id input run compiled w w' p.
Proof.
  intros Hm Hload. destruct (store_plan_head _ _ _ _ _ _ _ _ Hm Hload) as (_ & Hrest).
  cbn zeta in Hrest. set (revision := (default 0 (rr_plan_revision run) + 1)%Z) in *.
  destruct Hrest as (request_id & w1 & w2 & w3 & count & o & Hid & Hfresh & Hnew & Hruns & Hpg & Ht & Hg
    & Hrev & Hmat & Hgate & (n & Hup) & ->).
  apply materialize_ok in Hmat as (-> & v & ids & gids & Hst & Hvg & Hvpg & Hadd & Hdom & new & Hvt & Hall & Hnd & Hout).
  destruct (gates_added_frame _ _ _ _ Hadd) as (_ & _ & _ & Hg2 & _).
  rewrite Hvg, Hg in Hg2. assert (∀ g, g ∈ gates_of w2 → pending_run_gate run_id [Gk_Plan] g = false) as Hno.
  { intros g Hin. rewrite Hg2 in Hin. by eapply no_longer_pending_plan; [apply stage_gates_not_plan|]. }
  destruct (plan_gate_step _ _ _ _ _ _ _ _ _ _ _ Hadd Hno Hgate) as (v2 & gids' & Hadd' & Hev & Htab & ->).
  destruct (gates_added_frame _ _ _ _ Hadd') as (Hst' & Ht' & _ & Hg' & Hlen & Hgnd & Hgout & Hkeep & Hcols).
  destruct (in_event_steady _ _ Hev Htab) as (Hst3 & Ht3 & Hg3).
  apply in_world_ok in Hup as (u & (-> & _)%update_runs_ok & ->).
  assert (steady w1 w3) as Hst13 by (by do 2 (etransitivity; [eassumption|])).
  split; cbn [rpp_run_id rpp_revision rpp_status rpp_isolation rpp_approval_required rpp_digest rpp_task_count rpp_plan_gate_id].
  - by split_and!.
  - exists request_id. split_and!; try done.
    transitivity (revisions_of w3); [done|]. by rewrite (steady_revisions _ _ Hst13).
  - exists ids, new. split_and!; try done.
    + transitivity (tasks_of w3); [done|]. by rewrite Ht3, Ht', Hvt, Ht.
    + intros t Hin Hold. apply (Hout _ Hin). rewrite Ht, (fmap_update_where t_id) by done. done.
  - exists gids'. split_and!; try done.
    + transitivity (gates_of w3); [done|]. by rewrite Hg3, Hg', Hvg, Hg.
    + intros id Hin Hold. apply (Hgout _ Hin). rewrite Hvg, Hg. unfold no_longer_pending.
      by rewrite (fmap_update_where g_id).
    + intros id Hin. cbn. by rewrite Htab, Hkeep, Hvpg, Hpg.
    + intros i gate id Hi Hidi. cbn. rewrite Htab. by eapply Hcols.
  - rewrite <-Hruns, <-(steady_runs _ _ Hst13). done.
Qed.

(** ** [propose_run_plan] *)

Lemma by_request_replay t run_id id digest :
  by_request t id = None → replayed_revision t run_id id digest = None.
Proof.
  unfold by_request, replayed_revision. rewrite !find_where_None. intros Hno x Hx. by rewrite (Hno x Hx).
Qed.

(** A request that was not seen before reaches the transaction. *)
Lemma propose_fresh run_id input actor w w' p :
  propose_run_plan run_id input actor w = (w', Ok p) →
  pi_request_id input ≫= by_request (pw_tables w) = None →
  ∃ run compiled, load_run run_id w = (w, Ok run) ∧ require_proposable run = Ok tt ∧
    compile run input = Ok compiled ∧ plan_stored run_id input run compiled w w' p.
Proof.
  intros Hm Hseen. unfold propose_run_plan in Hm. do 5 inv_ok Hm.
  apply raise_ok in Hstep as [-> _]. apply raise_ok in Hstep0 as [-> _]. apply raise_ok in Hstep1 as [-> _].
  apply raise_ok in Hstep2 as [-> _]. apply pselect_ok in Hstep3 as [-> ->]. rewrite Hseen in Hm.
  do 4 inv_ok Hm. destruct (load_run_ok _ _ _ _ Hstep) as [-> _].
  apply raise_ok in Hstep0 as [-> Hreq]. apply raise_ok in Hstep1 as [-> Hcomp].
  apply plan_tx_ok in Hstep2. inv_ok Hstep2. apply pselect_ok in Hstep0 as [-> ->].
  replace (pi_request_id input ≫= _) with (@None RunPlanRevision) in Hstep2; last first.
  { destruct (pi_request_id input) as [id|] eqn:Eid; [|done]. cbn in *. symmetry. by apply by_request_replay. }
  inv_ok Hstep2. inv_ok Hstep2. inv_ok Hm. exists a3, a5. split_and!; try done.
  - by destruct a4.
  - by eapply store_plan_ok.
Qed.

(** A read leaves the state alone, whatever it answers. *)
Definition reads {A} (m : PM A) : Prop := ∀ w, fst (m w) = w.

Lemma reads_bind {A B} (m : PM A) (k : A → PM B) : reads m → (∀ a, reads (k a)) → reads (bind m k).
Proof.
  intros Hm Hk w. unfold bind. specialize (Hm w). destruct (m w) as [v [a|e]]; cbn in *; subst; [|done].
  apply Hk.
Qed.
Lemma reads_raise {A} (r : R A) : reads (raise r).
Proof. by destruct r. Qed.
Lemma reads_pselect {A} (q : Db → PlanTables → A) : reads (pselect q).
Proof. done. Qed.
Lemma reads_ret {A} (a : A) : reads (ret (S := PlanWorld) a).
Proof. done. Qed.

Lemma reads_load_run run_id : reads (load_run run_id).
Proof.
  repeat first [apply reads_bind; [|intros] | apply reads_raise | apply reads_pselect | apply reads_ret].
Qed.

Lemma reads_proposed run_id revision : reads (run_plan_proposed run_id revision).
Proof. apply reads_bind; [apply reads_pselect|]. intros [[]|]; [apply reads_pselect|done]. Qed.

(** [m] leaves database and tables as they were when it fails. *)
Definition rolls_back {A} (m : PM A) : Prop := ∀ w w' e,
  m w = (w', Err e) → w_db (pw_world w') = w_db (pw_world w) ∧ pw_tables w' = pw_tables w.

Lemma rolls_back_reads {A B} (m : PM A) (k : A → PM B) :
  reads m → (∀ a, rolls_back (k a)) → rolls_back (bind m k).
Proof.
  intros Hm Hk w w' e. unfold bind. specialize (Hm w). destruct (m w) as [v [a|e']]; cbn in *; subst.
  - apply Hk.
  - by intros [= -> ->].
Qed.

Lemma reads_rolls_back {A} (m : PM A) : reads m → rolls_back m.
Proof. intros Hm w w' e Heq. specialize (Hm w). rewrite Heq in Hm. cbn in Hm. by subst. Qed.

Lemma rolls_back_tx {A B} (m : PM A) (k : A → PM B) :
  (∀ w w' a, m w = (w', Ok a) → ∀ v e, k a w' = (v, Err e) → 
     w_db (pw_world v) = w_db (pw_world w) ∧ pw_tables v = pw_tables w) →
  rolls_back (bind (plan_tx m) k).
Proof.
  intros Hk w w' e. unfold bind, plan_tx. destruct (m w) as [v [a|e']] eqn:Em.
  - intros Hka. by eapply Hk.
  - by intros [= <- _].
Qed.

(** Proposing a plan is atomic: whatever refuses it (the text limits, an
    unknown run, a run that does not accept plans, the compiler, a changed source
    workspace, a foreign correction, a key of the database), the database and
    the plan tables are left as they were. *)
Theorem propose_atomic (run_id : string) (input : RunPlanInput) (actor : RunActor)
    (w w' : PlanWorld) (e : Error) :
  propose_run_plan run_id input actor w = (w', Err e) →
  w_db (pw_world w') = w_db (pw_world w) ∧ pw_tables w' = pw_tables w.
Proof.
  revert w w' e. change (rolls_back (propose_run_plan run_id input actor)). unfold propose_run_plan.
  do 4 (apply rolls_back_reads; [apply reads_raise|intros _]).
  apply rolls_back_reads; [apply reads_pselect|intros [seen|]].
  { apply rolls_back_reads; [apply reads_raise|intros _]. apply reads_rolls_back, reads_proposed. }
  apply rolls_back_reads; [apply reads_load_run|intros run].
  apply rolls_back_reads; [apply reads_raise|intros _].
  apply rolls_back_reads; [apply reads_raise|intros compiled].
  apply rolls_back_tx. intros w w' r Hm v e Hk. inv_ok Hm. apply pselect_ok in Hstep as [-> ->].
  destruct (_ ≫= _) as [seen|].
  - inv_ok Hm. by apply (reads_rolls_back _ (reads_proposed _ _)) in Hk.
  - inv_ok Hm. inv_ok Hm.
Qed.

(** ** Numbering and replay *)

(** No task, gate or revision of the run is numbered past its current plan. *)
Definition plan_numbered (run_id : string) (w : PlanWorld) : Prop :=
  ∀ r, run_by_id (w_db (pw_world w)) run_id = Some r →
  (∀ t v, t ∈ tasks_of w → t_run_id t = Some run_id → t_plan_revision t = Some v →
     (v ≤ default 0 (r_plan_revision r))%Z) ∧
  (∀ g v, g ∈ gates_of w → g_run_id g = Some run_id →
     (pl_gates (pw_tables w) !! g_id g ≫= gp_plan_revision) = Some v →
     (v ≤ default 0 (r_plan_revision r))%Z).

Lemma stored_task_row run_id run revision ids rows new t :
  Forall2 (row_stored run_id run revision ids) rows new → t ∈ new →
  t_run_id t = Some run_id ∧ t_plan_revision t = Some revision.
Proof.
  intros Hall Hin. apply list_elem_of_lookup in Hin as [i Hi].
  destruct (Forall2_lookup_r _ _ _ _ _ Hall Hi) as (row & _ & id & deps & _ & _ & ->). done.
Qed.

Lemma stored_run_row run_id input run compiled w w' p r :
  plan_stored run_id input run compiled w w' p → run_by_id (w_db (pw_world w)) run_id = Some r →
  run_by_id (w_db (pw_world w')) run_id = Some (with_plan (rpp_revision p) (plan_status run)
    (plan_policy compiled) (default (rr_stall_policy run) (pi_stall_policy input))
    (compiled_max_concurrent compiled) r).
Proof.
  intros [_ _ _ _ Hruns] Hr. unfold run_by_id in *. fold (runs_of w'). rewrite Hruns.
  rewrite (find_update_where r_id) by done. fold (runs_of w) in Hr. rewrite Hr.
  pose proof (find_key_Some r_id _ _ _ Hr) as [_ Hid]. cbn. by rewrite Hid, String.eqb_refl.
Qed.

(** A gate of the run after a proposal is an old one, with its number, or one
    of the new ones. *)
Lemma stored_gate run_id input run compiled w w' p g v :
  plan_stored run_id input run compiled w w' p → g ∈ gates_of w' →
  (pl_gates (pw_tables w') !! g_id g ≫= gp_plan_revision) = Some v →
  (∃ g0, g0 ∈ gates_of w ∧ g_id g0 = g_id g ∧ g_run_id g0 = g_run_id g ∧
     (pl_gates (pw_tables w) !! g_id g0 ≫= gp_plan_revision) = Some v) ∨
  (v = rpp_revision p ∧ ∃ gate, gate ∈ new_gates run_id run (rpp_revision p) compiled ∧ g_kind g = ng_kind gate).
Proof.
  intros [_ _ _ (ids & Hg & Hlen & Hnd & Hout & Hkeep & Hcols & _) _] Hin Hv.
  rewrite Hg in Hin. apply elem_of_app in Hin as [(g0 & Hg0 & ->)%elem_of_update_where|Hin].
  - left. exists g0. assert (∀ b : bool, g_id (if b then invalidated g0 else g0) = g_id g0) as Hid by by intros [].
    rewrite Hid in Hv |- *. split_and!; try done; [by destruct (pending_run_gate _ _ _)|].
    rewrite <-Hkeep; [done|]. intros Hids. apply (Hout _ Hids). by apply list_elem_of_fmap_2.
  - right. apply elem_of_lookup_zip_with in Hin as (i & gate & id & -> & Hgi & Hidi). cbn in Hv.
    rewrite (Hcols _ _ _ Hgi Hidi) in Hv. split; [|exists gate; split; [by eapply list_elem_of_lookup_2|done]].
    unfold new_gates in Hgi. apply list_elem_of_lookup_2 in Hgi.
    apply elem_of_app in Hgi as [(s & -> & _)%list_elem_of_fmap|Hgi]; [by injection Hv|].
    destruct (needs_plan_gate run); [|by apply elem_of_nil in Hgi].
    apply list_elem_of_singleton in Hgi as ->. by injection Hv.
Qed.

Lemma stored_numbered run_id input run compiled w w' p r :
  plan_numbered run_id w → run_by_id (w_db (pw_world w)) run_id = Some r →
  rr_plan_revision run = r_plan_revision r →
  plan_stored run_id input run compiled w w' p → plan_numbered run_id w'.
Proof.
  intros Hnum Hr Hrev Hst r' Hr'. rewrite (stored_run_row _ _ _ _ _ _ _ _ Hst Hr) in Hr'. injection Hr' as <-.
  destruct (Hnum _ Hr) as [Htasks Hgates]. pose proof (stored_result _ _ _ _ _ _ _ Hst) as (_ & Hp & _).
  rewrite Hrev in Hp. cbn. split.
  - destruct (stored_tasks _ _ _ _ _ _ _ Hst) as (ids & new & Ht & _ & Hall & _). rewrite Ht.
    intros t v [(t0 & Ht0 & ->)%elem_of_update_where|Hin]%elem_of_app Hrun Hv.
    + specialize (Htasks t0 v Ht0). destruct (unstarted_planned _ _ _) in *; cbn in *; specialize (Htasks Hrun Hv); lia.
    + destruct (stored_task_row _ _ _ _ _ _ _ Hall Hin) as [_ Hv']. simplify_eq. lia.
  - intros g v Hin Hrun Hv.
    destruct (stored_gate _ _ _ _ _ _ _ _ _ Hst Hin Hv) as [(g0 & Hg0 & _ & Hrun0 & Hv0)|[-> _]]; [|lia].
    specialize (Hgates g0 v Hg0). rewrite Hrun0 in Hgates. specialize (Hgates Hrun Hv0). lia.
Qed.

Lemma stored_plan_gate run_id input run compiled w w' p r :
  plan_numbered run_id w → run_by_id (w_db (pw_world w)) run_id = Some r →
  rr_plan_revision run = r_plan_revision r → plan_stored run_id input run compiled w w' p →
  g_id <$> find_last_where (λ g, bool_decide (g_run_id g = Some run_id) && bool_decide (g_kind g = Gk_Plan)
     && bool_decide ((pl_gates (pw_tables w') !! g_id g ≫= gp_plan_revision) = Some (rpp_revision p)))
    (gates_of w') = rpp_plan_gate_id p.
Proof.
  intros Hnum Hr Hrev Hst. destruct (Hnum _ Hr) as [_ Hgates].
  pose proof (stored_result _ _ _ _ _ _ _ Hst) as (_ & Hp & _). rewrite Hrev in Hp.
  pose proof (λ g v Hin Hv, stored_gate _ _ _ _ _ _ _ g v Hst Hin Hv) as Hcase.
  destruct (stored_gates _ _ _ _ _ _ _ Hst) as (ids & Hg & Hlen & _ & _ & _ & Hcols & ->).
  unfold new_gates in *. destruct (needs_plan_gate run).
  - destruct ids as [|id ids _] using rev_ind; [rewrite length_app in Hlen; cbn in Hlen; lia|].
    rewrite !length_app in Hlen. cbn in Hlen. rewrite Hg, zip_with_app, (assoc_L (++)), last_snoc by lia.
    cbn [zip_with]. rewrite find_last_where_snoc; [done|]. cbn -[lookup].
    rewrite (Hcols (length ids) (plan_gate run_id (rpp_revision p) compiled) id).
    + cbn. by rewrite !bool_decide_true.
    + rewrite lookup_app_r by lia. replace (length ids - _) with 0 by lia. done.
    + rewrite lookup_app_r, Nat.sub_diag by lia. done.
  - rewrite (proj2 (find_last_where_None _ _)); [done|]. intros g Hin.
    destruct (bool_decide_reflect (g_run_id g = Some run_id)) as [Hrun|]; [|done].
    destruct (bool_decide_reflect (g_kind g = Gk_Plan)) as [Hk|]; [|done].
    destruct (bool_decide_reflect (pl_gates (pw_tables w') !! g_id g ≫= gp_plan_revision = Some (rpp_revision p))) as [Hv|]; [|done].
    destruct (Hcase _ _ Hin Hv) as [(g0 & Hg0 & _ & Hrun0 & Hv0)|(_ & gate & Hgate & Hkind)].
    + rewrite <-Hrun0 in Hrun. specialize (Hgates _ _ Hg0 Hrun Hv0). lia.
    + rewrite app_nil_r in Hgate. apply list_elem_of_fmap in Hgate as (s & -> & _). cbn in Hkind. congruence.
Qed.

Lemma stored_task_count run_id input run compiled w w' p r :
  plan_numbered run_id w → run_by_id (w_db (pw_world w)) run_id = Some r →
  rr_plan_revision run = r_plan_revision r → plan_stored run_id input run compiled w w' p →
  count_where (λ x, bool_decide (t_run_id x = Some run_id)
                    && bool_decide (t_plan_revision x = Some (rpp_revision p))) (tasks_of w') = rpp_task_count p.
Proof.
  intros Hnum Hr Hrev Hst. destruct (Hnum _ Hr) as [Htasks _].
  pose proof (stored_result _ _ _ _ _ _ _ Hst) as (_ & Hp & _ & _ & _ & _ & ->). rewrite Hrev in Hp.
  destruct (stored_tasks _ _ _ _ _ _ _ Hst) as (ids & new & -> & _ & Hall & _).
  rewrite count_where_app, (proj2 (count_where_0 _ (update_where _ _ _))), count_where_all, (Forall2_length _ _ _ Hall); [done| |].
  - intros t Hin. destruct (stored_task_row _ _ _ _ _ _ _ Hall Hin) as [-> ->]. by rewrite !bool_decide_true.
  - intros t (t0 & Ht0 & ->)%elem_of_update_where. apply andb_false_iff.
    destruct (bool_decide_reflect (t_run_id t0 = Some run_id)) as [Hrun|Hrun]; last first.
    { left. apply bool_decide_eq_false. by destruct (unstarted_planned _ _ _). }
    right. apply bool_decide_eq_false. intros Hv. assert (t_plan_revision t0 = Some (rpp_revision p)) as Hv0
      by (by destruct (unstarted_planned _ _ _)). specialize (Htasks _ _ Ht0 Hrun Hv0). lia.
Qed.

(** The answer a repeated request reads back is the first answer. *)
Lemma stored_answer run_id input run compiled w w' p r :
  plan_numbered run_id w → run_by_id (w_db (pw_world w)) run_id = Some r →
  rr_plan_revision run = r_plan_revision r → rr_isolation run = r_isolation r →
  rr_approval_required run = r_approval_required r →
  plan_stored run_id input run compiled w w' p → run_plan_proposed run_id (rpp_revision p) w' = (w', Ok p).
Proof.
  intros Hnum Hr Hrev Hiso Happ Hst.
  pose proof (stored_plan_gate _ _ _ _ _ _ _ _ Hnum Hr Hrev Hst) as Hgate.
  pose proof (stored_task_count _ _ _ _ _ _ _ _ Hnum Hr Hrev Hst) as Hcount.
  pose proof (stored_run_row _ _ _ _ _ _ _ _ Hst Hr) as Hrun.
  destruct (stored_revision _ _ _ _ _ _ _ Hst) as (request_id & _ & _ & Hno & Hnew).
  assert (revision_of (pw_tables w') run_id (rpp_revision p) = Some (revision_row run_id run (rpp_revision p)
    request_id (propose_digest run_id input) compiled)) as Hof.
  { unfold revision_of. fold (revisions_of w'). rewrite Hnew. apply find_where_snoc; [done|].
    cbn. by rewrite String.eqb_refl, Z.eqb_refl. }
  pose proof (stored_result _ _ _ _ _ _ _ Hst) as (Hid & _ & Hs & Hi & Ha & Hd & _).
  unfold run_plan_proposed, pselect, bind, gets. cbn. rewrite Hrun. cbn. rewrite Hof. cbn.
  fold (tasks_of w') (gates_of w'). rewrite Hgate. fold (count_where (λ x : OrchestrationTask,
    bool_decide (t_run_id x = Some run_id) && bool_decide (t_plan_revision x = Some (rpp_revision p))) (tasks_of w')).
  rewrite Hcount, <-Hiso, <-Happ. destruct p; cbn in *. by subst.
Qed.

(** The checks before the transaction do not look at the state. *)
Lemma propose_seen run_id input actor actor' w w' v p q id :
  propose_run_plan run_id input actor w = (w', Ok p) → pi_request_id input = Some id →
  by_request (pw_tables v) id = Some q → pv_request_digest q = propose_digest run_id input → pv_run_id q = run_id →
  propose_run_plan run_id input actor' v = run_plan_proposed run_id (pv_revision q) v.
Proof.
  intros Hm Hid Hq Hdig Hrun. unfold propose_run_plan in *. do 4 inv_ok Hm.
  apply raise_ok in Hstep as [-> Hc1]. apply raise_ok in Hstep0 as [-> Hc2]. apply raise_ok in Hstep1 as [-> Hc3].
  apply raise_ok in Hstep2 as [-> Hc4]. rewrite Hc1, Hc2, Hc3, Hc4. unfold bind, raise, ret, pselect, gets.
  rewrite Hid. cbn. by rewrite Hq, Hdig, Hrun, !String.eqb_refl.
Qed.

(** [C10] A new proposal is stored whole: the run exists and accepts plans, the plan
    compiles against it, and the transaction leaves exactly the next revision of
    the run (its number, request, digest and predecessor), the compiled tasks
    with their dependencies renamed to the drawn task identifiers, the planned
    tasks no attempt had touched cancelled and every other task as it was, the
    run's pending plan and stage gates invalidated and the new ones opened, and
    the run's status, policies and worker limit set. *)
Theorem proposal_stores_the_plan (run_id : string) (input : RunPlanInput) (actor : RunActor)
    (w w' : PlanWorld) (p : RunPlanProposed) :
  propose_run_plan run_id input actor w = (w', Ok p) →
  pi_request_id input ≫= by_request (pw_tables w) = None →
  ∃ run compiled, load_run run_id w = (w, Ok run) ∧ require_proposable run = Ok tt ∧
    compile run input = Ok compiled ∧ plan_stored run_id input run compiled w w' p.
Proof. apply propose_fresh. Qed.

(** Plan revisions of a run are numbered upwards: when no task, gate or revision
    of the run is numbered past the run's current plan, the same holds after any
    proposal for it, and a proposal not seen before moves the run to a greater
    number. *)
Theorem proposals_number_upwards (run_id : string) (input : RunPlanInput) (actor : RunActor)
    (w w' : PlanWorld) (p : RunPlanProposed) :
  plan_numbered run_id w → propose_run_plan run_id input actor w = (w', Ok p) →
  pi_request_id input ≫= by_request (pw_tables w) = None →
  plan_numbered run_id w' ∧ ∃ r r', run_by_id (w_db (pw_world w)) run_id = Some r ∧
    run_by_id (w_db (pw_world w')) run_id = Some r' ∧ r_plan_revision r' = Some (rpp_revision p) ∧
    (default 0 (r_plan_revision r) < rpp_revision p)%Z.
Proof.
  intros Hnum Hm Hseen. destruct (propose_fresh _ _ _ _ _ _ Hm Hseen) as (run & compiled & Hload & _ & _ & Hst).
  destruct (load_run_ok _ _ _ _ Hload) as (_ & r & Hr & Hrev & _).
  split; [by eapply stored_numbered|]. pose proof (stored_run_row _ _ _ _ _ _ _ _ Hst Hr) as Hr'.
  pose proof (stored_result _ _ _ _ _ _ _ Hst) as (_ & Hp & _). rewrite Hrev in Hp.
  eexists _, _. split_and!; [done|exact Hr'|done|lia].
Qed.

(** A repeated request is answered, not repeated: sending a stored proposal
    again, by the same or another actor, changes nothing and gives the first
    answer word for word. *)
Theorem proposal_replays (run_id id : string) (input : RunPlanInput) (actor actor' : RunActor)
    (w w' : PlanWorld) (p : RunPlanProposed) :
  plan_numbered run_id w → pi_request_id input = Some id → by_request (pw_tables w) id = None →
  propose_run_plan run_id input actor w = (w', Ok p) →
  propose_run_plan run_id input actor' w' = (w', Ok p).
Proof.
  intros Hnum Hid Hno Hm. assert (pi_request_id input ≫= by_request (pw_tables w) = None) as Hseen by by rewrite Hid.
  destruct (propose_fresh _ _ _ _ _ _ Hm Hseen) as (run & compiled & Hload & _ & _ & Hst).
  destruct (load_run_ok _ _ _ _ Hload) as (_ & r & Hr & Hrev & Hiso & _ & Happ).
  destruct (stored_revision _ _ _ _ _ _ _ Hst) as (request_id & Hreq & _ & _ & Hnew).
  rewrite (propose_seen _ _ _ actor' _ _ w' _ (revision_row run_id run (rpp_revision p) request_id
    (propose_digest run_id input) compiled) id Hm Hid); [|..]; try done.
  - by eapply stored_answer.
  - unfold by_request. fold (revisions_of w'). rewrite Hnew. apply find_where_snoc; [done|]. cbn.
    rewrite (Hreq _ Hid). apply String.eqb_refl.
Qed.
End Facts.
