(* ===== verification/RunControl.v ===== *)
(** * RunControl: a person pauses, resumes, cancels or replans a run

    run_control.rs (sequence-checked commands with receipts), run_changes.rs
    (request changes), run_cancellation.rs (the cancellation barrier and the
    processes it must see closed), the attention pause of run_execution.rs and
    the receipts of run_lifecycle.rs.

    Receipts are stored as JSON text; their serde forms and the request digests
    are parameters ([ControlLib]).  The statements that only take SQLite's write
    lock ([SET control_sequence = control_sequence]) change nothing. *)

From S2P Require Import Prelude Text Models Store RoleContract Gates Runs Ordering Recipe RecipeFacts Plan Catalog Execution PlanStore.
From Stdlib Require Import ZArith Lia Ascii String.
From stdpp Require Import strings gmap pretty prelude.

(** ** Requests and receipts *)

Inductive RunControlAction : Type := Rca_Cancel | Rca_Pause | Rca_Resume | Rca_Replan.
#[export] Instance RunControlAction_eq_dec : EqDecision RunControlAction.
Proof. solve_decision. Defined.
Definition RunControlAction_as_str (a : RunControlAction) : string :=
  match a with
  | Rca_Cancel => "cancel"
  | Rca_Pause => "pause"
  | Rca_Resume => "resume"
  | Rca_Replan => "replan"
  end.

Record RunControl : Type := MkRunControl {
  ctl_request_id : string;
  ctl_run_id : string;
  ctl_expected_sequence : Z;
  ctl_action : RunControlAction;
  ctl_reason : option string;
  ctl_task_ids : option (list string)
}.

Record RetryRunCancellation : Type := MkRetryCancellation {
  rty_request_id : string;
  rty_run_id : string;
  rty_expected_sequence : Z
}.

Record RunControlReceipt : Type := MkControlReceipt {
  rcp_request_id : string;
  rcp_run_id : string;
  rcp_action : string;
  rcp_sequence : Z;
  rcp_status : OrchestrationCoordinatorStatus;
  rcp_plan_revision : option Z;
  rcp_changes_requested : bool;
  rcp_replayed : bool
}.
Definition with_rcp_replayed (v : bool) (r : RunControlReceipt) : RunControlReceipt :=
  MkControlReceipt (rcp_request_id r) (rcp_run_id r) (rcp_action r) (rcp_sequence r) (rcp_status r)
    (rcp_plan_revision r) (rcp_changes_requested r) v.

(** serde and SHA-256.  [replayed] is not serialized, so a decoded receipt has
    it cleared. *)
Class ControlLib : Type := {
  control_digest : RunControl → string;
  retry_digest : RetryRunCancellation → string;
  changes_digest : string → list string → string;
  control_receipt_encode : RunControlReceipt → string;
  control_receipt_decode : string → option RunControlReceipt
}.

(** ** Updates of a run row *)

Definition with_r_control_sequence (v : Z) (x : OrchestrationCoordinatorRun) : OrchestrationCoordinatorRun :=
  MkOrchestrationCoordinatorRun (r_id x) (r_spec x) (r_status x) (r_coordinator_handle x)
    (r_poll_interval_ms x) (r_created_at x) (r_completed_at x) (r_workspace_id x) (r_max_concurrent x)
    (r_last_activity_at x) (r_stop_reason x) (r_execution_policy x) (r_approval_required x)
    (r_stall_policy x) (r_paused_by x) (r_isolation x) (r_attention_reason x) (r_plan_revision x) v
    (r_coordinator_tab_id x).
Definition with_r_attention_reason (v : option string) (x : OrchestrationCoordinatorRun) : OrchestrationCoordinatorRun :=
  MkOrchestrationCoordinatorRun (r_id x) (r_spec x) (r_status x) (r_coordinator_handle x)
    (r_poll_interval_ms x) (r_created_at x) (r_completed_at x) (r_workspace_id x) (r_max_concurrent x)
    (r_last_activity_at x) (r_stop_reason x) (r_execution_policy x) (r_approval_required x)
    (r_stall_policy x) (r_paused_by x) (r_isolation x) v (r_plan_revision x) (r_control_sequence x)
    (r_coordinator_tab_id x).
Definition with_r_plan_revision (v : option Z) (x : OrchestrationCoordinatorRun) : OrchestrationCoordinatorRun :=
  MkOrchestrationCoordinatorRun (r_id x) (r_spec x) (r_status x) (r_coordinator_handle x)
    (r_poll_interval_ms x) (r_created_at x) (r_completed_at x) (r_workspace_id x) (r_max_concurrent x)
    (r_last_activity_at x) (r_stop_reason x) (r_execution_policy x) (r_approval_required x)
    (r_stall_policy x) (r_paused_by x) (r_isolation x) (r_attention_reason x) v (r_control_sequence x)
    (r_coordinator_tab_id x).

Definition is_run (run_id : string) (r : OrchestrationCoordinatorRun) : bool := String.eqb (r_id r) run_id.

(** [reason.map(str::trim).filter(not empty)] *)
Definition trimmed (reason : option string) : option string :=
  match reason with
  | Some r => let t := trim r in if String.eqb t "" then None else Some t
  | None => None
  end.

Definition not_found {A} : PM A :=
  fail (Database "no rows returned by a query that expected to return at least one row").

Section Control.
Context `{Env, ContractLib, RecipeLib, PlanLib, ProposalLib, ControlLib}.

Definition actor_event (run_id : string) (kind : RunEventKind) (actor : RunActor) (gate_id : option string)
    (summary : string) (payload : option json) : NewRunEvent :=
  with_ne_gate_id gate_id (plan_event run_id kind actor summary payload).

Definition record_event (event : NewRunEvent) : PM unit := do! in_world (record_run_event event) in ret tt.

(** ** Cancellation (run_cancellation.rs) *)

(** INSERT OR IGNORE: the key and the unique launch. *)
Definition insert_target (row : CancellationTarget) : PM unit :=
  in_tables (λ t,
    if existsb (λ c, String.eqb (ct_id c) (ct_id row)
                     || (bool_decide (is_Some (ct_launch_id row))
                         && bool_decide (ct_launch_id c = ct_launch_id row))) (pl_targets t)
    then t else set_pl_targets (pl_targets t ++ [row]) t).

Definition worker_target (l : WorkflowLaunch) : CancellationTarget :=
  MkCancellationTarget ("worker:" +:+ l_id l) (Some (l_id l)) (l_run_id l) Ck_Worker None None Ct_Pending None.
Definition coordinator_target (r : OrchestrationCoordinatorRun) (tab : string) : CancellationTarget :=
  MkCancellationTarget ("coordinator:" +:+ tab) None (r_id r) Ck_Coordinator (Some tab)
    (Some (r_workspace_id r)) Ct_Pending None.

Definition retry_target (c : CancellationTarget) : CancellationTarget :=
  MkCancellationTarget (ct_id c) (ct_launch_id c) (ct_run_id c) (ct_kind c) (ct_tab_id c)
    (ct_workspace_id c) Ct_Pending None.

(** UPDATE on runIntegrations with its immutability triggers. *)
Definition update_integrations (p : RunIntegration → bool) (f : RunIntegration → RunIntegration) : PM unit := λ w,
  let rows := pl_integrations (pw_tables w) in
  if existsb (λ i, p i && bool_decide (ig_state i = In_Integrated)) rows
  then (w, Err (Database "integrated workflow receipt is immutable"))
  else if existsb (λ i, p i && ig_cancelled i) rows
  then (w, Err (Database "cancelled integration settlement is immutable"))
  else (MkPlanWorld (pw_world w) (set_pl_integrations (update_where p f rows) (pw_tables w)), Ok tt).

Definition reopen_integration (i : RunIntegration) : RunIntegration :=
  MkRunIntegration (ig_sequence i) (ig_request_id i) (ig_run_id i) (ig_workspace_id i)
    (match ig_receipt i with None => In_Pending | Some _ => In_Prepared end) (ig_receipt i) None
    (ig_cancelled i).

Definition task_settled (t : OrchestrationTask) : bool :=
  match t_status t with Ts_Completed | Ts_Failed | Ts_Cancelled => true | _ => false end.

(** [run_cancellation::finish] *)
Definition finish_cancellation (run : string) : PM unit :=
  let! open := pselect (λ _ t, existsb (λ c, String.eqb (ct_run_id c) run
                                              && negb (bool_decide (ct_state c = Ct_Settled))) (pl_targets t)) in
  do! in_world (update_runs (λ r, is_run run r && bool_decide (r_status r = Cs_Cancelled)
                                  && bool_decide (r_completed_at r = None) && negb open)
        (with_r_completed_at (Some now))) in
  ret tt.

Definition cancelled_run (reason : string) (r : OrchestrationCoordinatorRun) : OrchestrationCoordinatorRun :=
  with_r_last_activity_at now (with_r_stop_reason (Some (default reason (r_stop_reason r)))
    (with_r_paused_by None (with_r_status Cs_Cancelled r))).

(** [run_cancellation::cancel] *)
Definition cancel_run (run reason : string) : PM unit :=
  let! launches := pselect (λ db _, List.filter (λ l, String.eqb (l_run_id l) run) (db_launches db)) in
  do! mapM_ (λ l, insert_target (worker_target l)) launches in
  let! runs := pselect (λ db _, List.filter (is_run run) (db_runs db)) in
  do! mapM_ (λ r, match r_coordinator_tab_id r with
                  | Some tab => insert_target (coordinator_target r tab)
                  | None => ret tt
                  end) runs in
  do! in_tables (λ t, set_pl_targets (update_where
        (λ c, String.eqb (ct_run_id c) run && bool_decide (ct_state c = Ct_Attention)) retry_target
        (pl_targets t)) t) in
  do! update_integrations (λ i, String.eqb (ig_run_id i) run && negb (ig_cancelled i)
                                && bool_decide (ig_state i = In_Attention)) reopen_integration in
  do! in_world (update_tasks false
        (λ t, bool_decide (t_run_id t = Some run) && negb (task_settled t)) supersede) in
  do! in_world (update_dispatches true (λ d, bool_decide (d_run_id d = Some run) && d_active d)
        (λ d, with_d_completed_at (Some now) (with_d_status Ds_Cancelled d))) in
  do! invalidate_gates (λ g, bool_decide (g_run_id g = Some run) && bool_decide (g_status g = Gs_Pending)) in
  do! in_world (update_runs (is_run run) (cancelled_run reason)) in
  finish_cancellation run.

(** *** The processes a cancellation closes *)

Record WorkflowCancellationTarget : Type := MkWorkflowTarget {
  wct_id : string;
  wct_launch_id : option string;
  wct_run_id : string;
  wct_terminal_handle : string;
  wct_workspace_id : string
}.

(** LEFT JOIN runLaunches ON l.id = c.launch_id AND l.run_id = c.run_id *)
Definition target_launch (db : Db) (c : CancellationTarget) : option WorkflowLaunch :=
  id ← ct_launch_id c;
  find_where (λ l, String.eqb (l_id l) id && String.eqb (l_run_id l) (ct_run_id c)) (db_launches db).

Definition target_workspace (db : Db) (c : CancellationTarget) : option string :=
  match target_launch db c with Some l => Some (l_workspace_id l) | None => ct_workspace_id c end.
Definition target_terminal (db : Db) (c : CancellationTarget) : option string :=
  match target_launch db c with Some l => Some (l_terminal_handle l) | None => ct_tab_id c end.

Definition run_cancelled (db : Db) (run : string) : bool :=
  existsb (λ r, is_run run r && bool_decide (r_status r = Cs_Cancelled)) (db_runs db).

(** A row as the page and its readers name it; a NULL column fails the read. *)
Definition target_row (db : Db) (c : CancellationTarget) : option WorkflowCancellationTarget :=
  w ← target_workspace db c; h ← target_terminal db c;
  Some (MkWorkflowTarget (ct_id c) (ct_launch_id c) (ct_run_id c) h w).

(** [workflow_cancellation_page] *)
Definition workflow_cancellation_page : PM (list WorkflowCancellationTarget) :=
  let! rows := pselect (λ db t,
    mapM (target_row db) (take 25 (sort_by (λ a b, String.ltb (ct_run_id a) (ct_run_id b)
                                 || (String.eqb (ct_run_id a) (ct_run_id b) && String.leb (ct_id a) (ct_id b)))
      (List.filter (λ c, bool_decide (ct_state c = Ct_Pending) && run_cancelled db (ct_run_id c)) (pl_targets t))))) in
  match rows with
  | Some rows => ret rows
  | None => fail (Database "unexpected null; try decoding as an Option")
  end.

(** [run_cancellation::validate] *)
Definition validate_target (target : WorkflowCancellationTarget) (pending_only : bool) : PM unit :=
  let! valid := pselect (λ db t, existsb (λ c,
      String.eqb (ct_id c) (wct_id target) && bool_decide (ct_launch_id c = wct_launch_id target)
      && String.eqb (ct_run_id c) (wct_run_id target)
      && bool_decide (target_workspace db c = Some (wct_workspace_id target))
      && bool_decide (target_terminal db c = Some (wct_terminal_handle target))
      && run_cancelled db (ct_run_id c)
      && (negb pending_only || bool_decide (ct_state c = Ct_Pending))) (pl_targets t)) in
  raise (ensure valid "run cancellation identity changed").

Definition require_workflow_cancellation_target (target : WorkflowCancellationTarget) : PM unit :=
  plan_tx (validate_target target true).

Inductive WorkflowTerminalShutdownState : Type := Tss_Unstarted | Tss_Started | Tss_Verified.

Definition workflow_terminal_shutdown_state (tab workspace : string) : PM WorkflowTerminalShutdownState :=
  let! row := pselect (λ _ t, pl_shutdowns t !! tab) in
  match row with
  | None => ret Tss_Unstarted
  | Some s =>
      do! raise (ensure (String.eqb (tsd_workspace_id s) workspace)
            "workflow terminal shutdown belongs to another workspace") in
      ret (if tsd_verified s then Tss_Verified else Tss_Started)
  end.

Definition begin_workflow_terminal_shutdown (tab workspace : string) : PM unit :=
  let! row := pselect (λ _ t, pl_shutdowns t !! tab) in
  match row with
  | Some _ => fail (Bail "workflow terminal shutdown already started; process closure remains unverified")
  | None => in_tables (λ t, set_pl_shutdowns (<[tab := MkTerminalShutdown workspace false]> (pl_shutdowns t)) t)
  end.

Definition verify_workflow_terminal_shutdown (tab workspace : string) : PM unit :=
  let! row := pselect (λ _ t, pl_shutdowns t !! tab) in
  match row with
  | Some s =>
      if String.eqb (tsd_workspace_id s) workspace
      then in_tables (λ t, set_pl_shutdowns (<[tab := MkTerminalShutdown workspace true]> (pl_shutdowns t)) t)
      else fail (Bail "workflow terminal shutdown identity changed")
  | None => fail (Bail "workflow terminal shutdown identity changed")
  end.

Definition require_terminal_shutdown_settle (tab workspace : string) : PM unit :=
  let! row := pselect (λ _ t, pl_shutdowns t !! tab) in
  match row with
  | Some s => raise (ensure (String.eqb (tsd_workspace_id s) workspace && tsd_verified s)
                "workflow terminal process closure remains unverified")
  | None => ret tt
  end.

Definition settled_target (error : option string) (c : CancellationTarget) : CancellationTarget :=
  MkCancellationTarget (ct_id c) (ct_launch_id c) (ct_run_id c) (ct_kind c) (ct_tab_id c) (ct_workspace_id c)
    (match error with Some _ => Ct_Attention | None => Ct_Settled end)
    ((λ e, of_chars (take 1000 (chars e))) <$> error).

Definition settle_workflow_cancellation (target : WorkflowCancellationTarget) (error : option string) : PM unit :=
  plan_tx (
    do! validate_target target false in
    do! (match error with
         | None => require_terminal_shutdown_settle (wct_terminal_handle target) (wct_workspace_id target)
         | Some _ => ret tt
         end) in
    do! in_tables (λ t, set_pl_targets (update_where
          (λ c, String.eqb (ct_id c) (wct_id target) && bool_decide (ct_state c = Ct_Pending))
          (settled_target error) (pl_targets t)) t) in
    finish_cancellation (wct_run_id target)).

(** ** Request changes (run_changes.rs) *)

Definition unsettled_integration (run_id : string) (t : PlanTables) : bool :=
  existsb (λ i, String.eqb (ig_run_id i) run_id && negb (ig_cancelled i)
                && bool_decide (ig_state i ∈ [In_Pending; In_Prepared; In_Attention])) (pl_integrations t).

Definition active_work (run_id : string) (db : Db) : bool :=
  existsb (λ t, bool_decide (t_run_id t = Some run_id)
                && bool_decide (t_status t ∈ [Ts_Dispatched; Ts_Stalled])) (db_tasks db).

Definition ensure_no_active_work (run_id : string) : PM unit :=
  let! active := pselect (λ db _, active_work run_id db) in
  do! raise (ensure (negb active)
        "run_has_active_work: stop or finish active attempts before requesting changes") in
  let! unsettled := pselect (λ _ t, unsettled_integration run_id t) in
  raise (ensure (negb unsettled)
    "run_integration_pending: reconcile the pending integration before requesting changes").

Definition run_member (db : Db) (run_id id : string) : bool :=
  existsb (λ t, bool_decide (t_run_id t = Some run_id) && String.eqb (t_id t) id) (db_tasks db).

(** The current plan revision of a run. *)
Definition current_revision (db : Db) (t : PlanTables) (run_id : string)
    : option (OrchestrationCoordinatorRun * RunPlanRevision) :=
  r ← run_by_id db run_id; v ← r_plan_revision r; p ← revision_of t run_id v; Some (r, p).

Definition replanned_task (t : OrchestrationTask) : OrchestrationTask :=
  with_t_completed_at (Some (default now (t_completed_at t)))
    (with_t_cancelled_at (Some now) (with_t_status Ts_Cancelled t)).

Definition unfinished (t : OrchestrationTask) : bool :=
  bool_decide (t_status t ∈ [Ts_Pending; Ts_Ready; Ts_Blocked; Ts_Failed]).

Definition replanned_run (placeholder : option Z) (r : OrchestrationCoordinatorRun) : OrchestrationCoordinatorRun :=
  with_r_last_activity_at now (with_r_plan_revision (match placeholder with Some v => Some v | None => r_plan_revision r end)
    (with_r_attention_reason None (with_r_paused_by None (with_r_status Cs_Planning r)))).

Definition request_run_changes (run_id reason : string) (task_ids : list string) (actor : RunActor)
    (gate_id : option string) : PM (option Z) :=
  do! raise (ensure (negb (is_blank reason)) "run_reason_required: explain the changes you request") in
  do! ensure_no_active_work run_id in
  do! mapM_ (λ task,
        let! member := pselect (λ db _, run_member db run_id task) in
        raise (ensure member ("run_task_not_found: task " +:+ task +:+ " does not belong to this run"))) task_ids in
  let! current := pselect (λ db t, current_revision db t run_id) in
  let! placeholder :=
    (match current with
     | Some (_, p) =>
         let! uuid := new_uuid in
         do! insert_plan_revision (MkPlanRevision run_id (pv_revision p + 1) ("changes:" +:+ uuid)
               (changes_digest reason task_ids) (pv_snapshot p) (pv_digest p) (Some (pv_revision p))
               (Some reason) (Some (json_encode (JArray (JString <$> task_ids)))) now) in
         ret (Some (pv_revision p + 1)%Z)
     | None => ret None
     end) in
  do! in_world (update_tasks false (λ t, bool_decide (t_run_id t = Some run_id) && unfinished t) replanned_task) in
  do! invalidate_gates (λ g, bool_decide (g_run_id g = Some run_id) && bool_decide (g_status g = Gs_Pending)
                             && negb (bool_decide (gate_id = Some (g_id g)))) in
  do! in_world (update_runs (is_run run_id) (replanned_run placeholder)) in
  do! record_event (actor_event run_id Ev_ChangesRequested actor gate_id reason
        (Some (JObject [("taskIds", JArray (JString <$> task_ids));
                        ("revision", match placeholder with Some v => JNumber (pretty v) | None => JNull end)]))) in
  ret placeholder.

(** ** Commands (run_control.rs) *)

Definition due_run_gate (run_id : string) (t : PlanTables) (g : OrchestrationDecisionGate) : bool :=
  pending_run_gate run_id [Gk_Plan; Gk_Stage] g
  && bool_decide (is_Some (pl_gates t !! g_id g ≫= gp_evidence_digest)).

Definition control (request : RunControl) (status : OrchestrationCoordinatorStatus) (reason : option string)
    (actor : RunActor) : PM bool :=
  let run_id := ctl_run_id request in
  match ctl_action request with
  | Rca_Pause =>
      do! raise (ensure (bool_decide (status = Cs_Running)) "run_not_running: only a running run can be paused") in
      do! in_world (update_runs (is_run run_id)
            (λ r, with_r_paused_by (Some "user") (with_r_status Cs_Paused r))) in
      do! record_event (actor_event run_id Ev_Paused actor None "Paused." None) in
      ret false
  | Rca_Resume =>
      do! raise (ensure (bool_decide (status = Cs_Paused)) "run_not_paused: only a paused run can be resumed") in
      let! gated := pselect (λ db t, existsb (due_run_gate run_id t) (db_gates db)) in
      do! raise (ensure (negb gated) "run_gate_pending: resolve the pending gate to continue") in
      do! in_world (update_runs (is_run run_id)
            (λ r, with_r_attention_reason None (with_r_paused_by None (with_r_status Cs_Running r)))) in
      do! record_event (actor_event run_id Ev_Resumed actor None "Resumed." None) in
      ret false
  | Rca_Cancel =>
      do! raise (ensure (negb (bool_decide (status ∈ [Cs_Completed; Cs_Failed; Cs_Cancelled])))
            ("run_finished: the run is already " +:+ OrchestrationCoordinatorStatus_as_str status)) in
      let summary := default "Cancelled." reason in
      do! cancel_run run_id summary in
      do! record_event (actor_event run_id Ev_Cancelled actor None summary None) in
      ret false
  | Rca_Replan =>
      do! raise (ensure (bool_decide (status ∈ [Cs_Planning; Cs_AwaitingApproval; Cs_Running; Cs_Paused]))
            ("run_finished: a " +:+ OrchestrationCoordinatorStatus_as_str status +:+ " run cannot be replanned")) in
      let! reason := raise (with_context reason "run_reason_required: explain the changes") in
      do! request_run_changes run_id reason (default [] (ctl_task_ids request)) actor None in
      ret true
  end.

Definition cancellation_attention (run_id : string) (t : PlanTables) : bool :=
  existsb (λ c, String.eqb (ct_run_id c) run_id && bool_decide (ct_state c = Ct_Attention)) (pl_targets t)
  || existsb (λ i, String.eqb (ig_run_id i) run_id && negb (ig_cancelled i)
                   && bool_decide (ig_state i = In_Attention)) (pl_integrations t).

Definition retry_cancellation (run_id : string) (status : OrchestrationCoordinatorStatus) (actor : RunActor)
    : PM bool :=
  do! raise (ensure (bool_decide (status = Cs_Cancelled))
        "run_not_cancelled: only a cancelled run retries its cancellation") in
  let! attention := pselect (λ _ t, cancellation_attention run_id t) in
  do! raise (ensure attention "run_nothing_to_retry: the cancellation needs no retry") in
  do! cancel_run run_id "Run cancelled." in
  do! record_event (actor_event run_id Ev_Retried actor None "Cancellation retried." None) in
  ret false.

Definition receipt_row (request_id : string) (t : PlanTables) : option CommandReceipt :=
  find_where (λ c, String.eqb (cmr_request_id c) request_id) (pl_receipts t).

(** [run_command_receipt], and the same statement inside a transaction. *)
Definition run_command_receipt (request_id digest : string) : PM (option string) :=
  let! row := pselect (λ _ t, receipt_row request_id t) in
  match row with
  | None => ret None
  | Some c =>
      do! raise (ensure (String.eqb (cmr_request_digest c) digest)
            "run_request_conflict: request id was already used for different contents") in
      ret (Some (cmr_receipt c))
  end.

Definition insert_receipt (c : CommandReceipt) : PM unit := λ w,
  let t := pw_tables w in
  if bool_decide (is_Some (receipt_row (cmr_request_id c) t))
  then (w, Err (Database "UNIQUE constraint failed: runCommandReceipts.request_id"))
  else (MkPlanWorld (pw_world w) (set_pl_receipts (pl_receipts t ++ [c]) t), Ok tt).

Definition replayed_control (raw : string) : PM RunControlReceipt :=
  let! receipt := raise (with_context (control_receipt_decode raw) "invalid command receipt") in
  ret (with_rcp_replayed true receipt).

Definition run_command (request_id run_id : string) (expected_sequence : Z) (digest action : string)
    (command : OrchestrationCoordinatorStatus → PM bool) : PM RunControlReceipt :=
  do! raise (portable_request_id request_id) in
  do! raise (workflow_text run_id 160) in
  do! raise (ensure (negb (expected_sequence <? 0)%Z) "expectedSequence must not be negative") in
  let! seen := run_command_receipt request_id digest in
  match seen with
  | Some raw => replayed_control raw
  | None =>
      plan_tx (
        let! seen := run_command_receipt request_id digest in
        match seen with
        | Some raw => replayed_control raw
        | None =>
            let! row := pselect (λ db _, run_by_id db run_id) in
            let! run := raise (with_context row ("run_not_found: no run " +:+ run_id)) in
            let sequence := r_control_sequence run in
            do! raise (ensure (sequence =? expected_sequence)%Z
                  "run_sequence_stale: the run changed; refresh before acting on it") in
            let! changes_requested := command (r_status run) in
            do! in_world (update_runs (is_run run_id)
                  (λ r, with_r_last_activity_at now (with_r_control_sequence (sequence + 1) r))) in
            let! row := pselect (λ db _, run_by_id db run_id) in
            let! run := (match row with Some r => ret r | None => not_found end) in
            let receipt := MkControlReceipt request_id run_id action (sequence + 1) (r_status run)
              (r_plan_revision run) changes_requested false in
            do! insert_receipt (MkCommandReceipt request_id digest run_id (control_receipt_encode receipt)) in
            ret receipt
        end)
  end.

Definition control_run (request : RunControl) (actor : RunActor) : PM RunControlReceipt :=
  run_command (ctl_request_id request) (ctl_run_id request) (ctl_expected_sequence request)
    (control_digest request) (RunControlAction_as_str (ctl_action request))
    (λ status, control request status (trimmed (ctl_reason request)) actor).

Definition retry_run_cancellation (request : RetryRunCancellation) (actor : RunActor) : PM RunControlReceipt :=
  run_command (rty_request_id request) (rty_run_id request) (rty_expected_sequence request)
    (retry_digest request) "retryCancellation"
    (λ status, retry_cancellation (rty_run_id request) status actor).

(** ** The attention pause (run_execution.rs) *)

Definition pause_workflow_execution_for_attention (run : string) (revision sequence : Z) (reason : string)
    : PM bool :=
  do! raise (ensure (sequence + 1 <=? I64_MAX)%Z "run control sequence exhausted") in
  let reason := of_chars (take 1000 (chars reason)) in
  plan_tx (
    let! changed := in_world (update_runs (λ r, is_run run r && bool_decide (r_plan_revision r = Some revision)
          && (r_control_sequence r =? sequence)%Z && bool_decide (r_status r = Cs_Running))
        (λ r, with_r_last_activity_at now (with_r_control_sequence (r_control_sequence r + 1)
                (with_r_attention_reason (Some reason) (with_r_paused_by (Some "runtime")
                   (with_r_status Cs_Paused r)))))) in
    do! (if Nat.eqb changed 1
         then record_event (plan_event run Ev_Attention (MkRunActor Ak_Runtime None) reason None)
         else ret tt) in
    ret (Nat.eqb changed 1)).
End Control.
