(* ===== verification/RunControlFacts.v ===== *)
(** * RunControlFacts: the cancellation barrier and the command fence

    [cancellation_barrier]: once a run is cancelled nothing of it is left
    running or waiting, and every process it started is on the list of
    processes to close; the run counts as completed only when all of them are.
    [command_fence]: a command takes effect only at the control sequence its
    sender saw, and spends it. *)

From S2P Require Import Prelude Text Models Store StoreFacts RoleContract Gates Runs Ordering Recipe RecipeFacts Plan Catalog Execution PlanStore PlanStoreFacts RunControl.
From Stdlib Require Import ZArith Lia Ascii String.
From stdpp Require Import strings gmap pretty prelude.

(** ** Relations a successful operation guarantees *)

Definition guarantees {A} (R : relation PlanWorld) (m : PM A) : Prop :=
  ∀ w w' a, m w = (w', Ok a) → R w w'.

Lemma guarantees_bind {A B} (R : relation PlanWorld) `{!Transitive R} (m : PM A) (k : A → PM B) :
  guarantees R m → (∀ a, guarantees R (k a)) → guarantees R (bind m k).
Proof. intros Hm Hk w w' b Hb. inv_ok Hb. etransitivity; [by eapply Hm|by eapply Hk]. Qed.

Lemma guarantees_reads {A} (R : relation PlanWorld) `{!Reflexive R} (m : PM A) : reads m → guarantees R m.
Proof. intros Hm w w' a Ha. specialize (Hm w). rewrite Ha in Hm. cbn in Hm. by subst. Qed.

Lemma guarantees_tx {A} (R : relation PlanWorld) (m : PM A) : guarantees R m → guarantees R (plan_tx m).
Proof. intros Hm w w' a Ha%plan_tx_ok. by eapply Hm. Qed.

Lemma guarantees_mapM {A} (R : relation PlanWorld) `{!PreOrder R} (f : A → PM unit) l :
  (∀ x, guarantees R (f x)) → guarantees R (mapM_ f l).
Proof.
  intros Hf. induction l as [|x l IH]; cbn [mapM_]; [by apply guarantees_reads; [apply _|]|].
  apply guarantees_bind; [apply _|apply Hf|done].
Qed.

(** A guard that let the operation pass. *)
Lemma guard_ok b msg w w' u : raise (ensure b msg) w = (w', Ok u) → w' = w ∧ b = true.
Proof. destruct u. by intros [-> Hb%ensure_ok]%raise_ok. Qed.

(** Views of the state this file adds to those of PlanStoreFacts. *)
Definition dispatches_of (w : PlanWorld) : list OrchestrationDispatchContext := db_dispatches (w_db (pw_world w)).
Definition launches_of (w : PlanWorld) : list WorkflowLaunch := db_launches (w_db (pw_world w)).
Definition targets_of (w : PlanWorld) : list CancellationTarget := pl_targets (pw_tables w).
Definition run_of (w : PlanWorld) (run : string) : option OrchestrationCoordinatorRun :=
  run_by_id (w_db (pw_world w)) run.


(** What run control and gate decisions leave alone: the launches, what was
    frozen of tasks, runs and revisions, and the receipts already written. *)
Record untouched (w w' : PlanWorld) : Prop := {
  untouched_launches : launches_of w' = launches_of w;
  untouched_receipts : pl_receipts (pw_tables w') = pl_receipts (pw_tables w);
  untouched_gate_columns : pl_gates (pw_tables w') = pl_gates (pw_tables w);
  untouched_columns : pl_runs (pw_tables w') = pl_runs (pw_tables w)
}.
#[export] Instance untouched_preorder : PreOrder untouched.
Proof. split; [by intros w|]. intros w1 w2 w3 [] []. split; congruence. Qed.

(** ** Cancellation *)

(** A target for [row]'s process is listed. *)
Definition covered (row : CancellationTarget) (targets : list CancellationTarget) : Prop :=
  ∃ c, c ∈ targets ∧ (ct_id c = ct_id row ∨ (is_Some (ct_launch_id row) ∧ ct_launch_id c = ct_launch_id row)).

Lemma insert_target_ok row w w' u :
  insert_target row w = (w', Ok u) →
  pw_world w' = pw_world w ∧
  ∃ new, pw_tables w' = set_pl_targets (targets_of w ++ new) (pw_tables w) ∧
    (∀ c, c ∈ new → c = row) ∧ covered row (targets_of w ++ new).
Proof.
  unfold insert_target. intros ->%in_tables_ok. split; [done|]. cbn [pw_tables].
  destruct (existsb _ (pl_targets (pw_tables w))) eqn:E.
  - exists []. rewrite app_nil_r. split_and!; [by destruct w as [? []]|by intros ? ?%elem_of_nil|].
    apply existsb_exists in E as (c & Hc & Hsame). exists c. rewrite list_elem_of_In. split; [done|].
    apply orb_true_iff in Hsame as [?%String.eqb_eq|Hl]; [by left|right]. by split_bools.
  - exists [row]. split_and!; [done|by intros ? ->%list_elem_of_singleton|].
    exists row. split; [|by left]. apply elem_of_app. right. by left.
Qed.

Lemma covered_app row l l' : covered row l → covered row (l ++ l').
Proof. intros (c & Hc & Hs). exists c. rewrite elem_of_app. eauto. Qed.

(** A batch of targets: the new rows are among those asked for, and each of
    those is covered. *)
Lemma insert_targets_ok {A} (f : A → PM unit) (rows : A → list CancellationTarget) l w w' u :
  (∀ x v v' b, f x v = (v', Ok b) → pw_world v' = pw_world v ∧
     ∃ new, pw_tables v' = set_pl_targets (targets_of v ++ new) (pw_tables v) ∧
       (∀ c, c ∈ new → c ∈ rows x) ∧ (∀ row, row ∈ rows x → covered row (targets_of v ++ new))) →
  mapM_ f l w = (w', Ok u) →
  pw_world w' = pw_world w ∧
  ∃ new, pw_tables w' = set_pl_targets (targets_of w ++ new) (pw_tables w) ∧
    (∀ c, c ∈ new → ∃ x, x ∈ l ∧ c ∈ rows x) ∧
    (∀ x row, x ∈ l → row ∈ rows x → covered row (targets_of w ++ new)).
Proof.
  intros Hf. revert w u. induction l as [|x l IH]; intros w u Hm; cbn [mapM_] in Hm.
  { inv_ok Hm. split; [done|]. exists []. rewrite app_nil_r.
    split_and!; [by destruct w' as [? []]|by intros ? ?%elem_of_nil|by intros ? ? ?%elem_of_nil]. }
  inv_ok Hm. destruct (Hf _ _ _ _ Hstep) as (Hw & new & Ht & Hnew & Hcov).
  destruct (IH _ _ Hm) as (Hw' & new' & Ht' & Hnew' & Hcov'). split; [congruence|]. exists (new ++ new').
  assert (targets_of s = targets_of w ++ new) as Hts by (unfold targets_of at 1; by rewrite Ht).
  rewrite Hts in *. rewrite (assoc_L (++)). split_and!.
  - rewrite Ht', Ht. done.
  - intros c [Hc|Hc]%elem_of_app; [exists x; split; [by left|by apply Hnew]|].
    destruct (Hnew' c Hc) as (y & ? & ?). exists y. split; [by right|done].
  - intros y row [->|Hy]%elem_of_cons Hrow; [by apply covered_app, Hcov|by eapply Hcov'].
Qed.

Section Facts.
Context `{Env, ContractLib, RecipeLib, PlanLib, ProposalLib, ControlLib}.

(** The targets of a run's processes. *)
Definition process_targets (run : string) (w : PlanWorld) : list CancellationTarget :=
  (worker_target <$> List.filter (λ l, String.eqb (l_run_id l) run) (launches_of w))
  ++ (r ← List.filter (is_run run) (runs_of w);
      match r_coordinator_tab_id r with Some tab => [coordinator_target r tab] | None => [] end).

Definition in_attention (run : string) (c : CancellationTarget) : bool :=
  String.eqb (ct_run_id c) run && bool_decide (ct_state c = Ct_Attention).
Definition unsettled_of (run : string) (t : OrchestrationTask) : bool :=
  bool_decide (t_run_id t = Some run) && negb (task_settled t).
Definition active_of (run : string) (d : OrchestrationDispatchContext) : bool :=
  bool_decide (d_run_id d = Some run) && d_active d.
Definition open_of (run : string) (g : OrchestrationDecisionGate) : bool :=
  bool_decide (g_run_id g = Some run) && bool_decide (g_status g = Gs_Pending).
Definition open_targets (run : string) (l : list CancellationTarget) : bool :=
  existsb (λ c, String.eqb (ct_run_id c) run && negb (bool_decide (ct_state c = Ct_Settled))) l.
Definition finishes (run : string) (l : list CancellationTarget) (r : OrchestrationCoordinatorRun) : bool :=
  is_run run r && bool_decide (r_status r = Cs_Cancelled) && bool_decide (r_completed_at r = None)
  && negb (open_targets run l).

(** What [cancel_run] writes. *)
Record run_stopped (run reason : string) (w w' : PlanWorld) : Prop := {
  stopped_frame : untouched w w';
  stopped_revisions : revisions_of w' = revisions_of w;
  stopped_tasks : tasks_of w' = update_where (unsettled_of run) supersede (tasks_of w);
  stopped_dispatches : dispatches_of w' =
    update_where (active_of run) (λ d, with_d_completed_at (Some now) (with_d_status Ds_Cancelled d)) (dispatches_of w);
  stopped_gates : gates_of w' = update_where (open_of run) invalidated (gates_of w);
  stopped_targets : ∃ new, targets_of w' = update_where (in_attention run) retry_target (targets_of w ++ new) ∧
    (∀ c, c ∈ new → c ∈ process_targets run w) ∧
    (∀ row, row ∈ process_targets run w → covered row (targets_of w ++ new));
  stopped_runs : runs_of w' = update_where (finishes run (targets_of w')) (with_r_completed_at (Some now))
    (update_where (is_run run) (cancelled_run reason) (runs_of w))
}.

Lemma finish_ok run w w' u :
  finish_cancellation run w = (w', Ok u) →
  pw_tables w' = pw_tables w ∧
  pw_world w' = with_db (set_runs (update_where (finishes run (targets_of w)) (with_r_completed_at (Some now)) (runs_of w)))
                  (pw_world w).
Proof.
  unfold finish_cancellation. intros Hm. do 2 inv_ok Hm. inv_ok Hm. apply pselect_ok in Hstep as [-> ->].
  apply in_world_ok in Hstep0 as (v & (-> & _)%update_runs_ok & ->). done.
Qed.

Lemma update_integrations_ok p f w w' u :
  update_integrations p f w = (w', Ok u) →
  pw_world w' = pw_world w ∧
  pw_tables w' = set_pl_integrations (update_where p f (pl_integrations (pw_tables w))) (pw_tables w).
Proof. unfold update_integrations. do 2 (case_match; [done|]). by intros [= <- _]. Qed.

Lemma cancel_run_ok run reason w w' u :
  cancel_run run reason w = (w', Ok u) → run_stopped run reason w w'.
Proof.
  unfold cancel_run. intros Hm. do 10 inv_ok Hm. apply pselect_ok in Hstep as [-> ->].
  apply (insert_targets_ok _ (λ l, [worker_target l])) in Hstep0 as (Hw1 & new1 & Ht1 & Hn1 & Hc1); last first.
  { intros l v v' b (Hv & new & Hnew & Hall & Hcov)%insert_target_ok. split; [done|]. exists new.
    split_and!; [done|intros c ->%Hall; by left|by intros row ->%list_elem_of_singleton]. }
  apply pselect_ok in Hstep1 as [-> ->].
  apply (insert_targets_ok _ (λ r, match r_coordinator_tab_id r with Some tab => [coordinator_target r tab] | None => [] end))
    in Hstep2 as (Hw2 & new2 & Ht2 & Hn2 & Hc2); last first.
  { intros r v v' b Hv. destruct (r_coordinator_tab_id r) as [tab|].
    - apply insert_target_ok in Hv as (Hv & new & Hnew & Hall & Hcov). split; [done|]. exists new.
      split_and!; [done|intros c ->%Hall; by left|by intros row ->%list_elem_of_singleton].
    - inv_ok Hv. split; [done|]. exists []. rewrite app_nil_r.
      split_and!; [by destruct v' as [? []]|done|by intros ? ?%elem_of_nil]. }
  apply in_tables_ok in Hstep3 as ->. apply update_integrations_ok in Hstep4 as [Hw4 Ht4].
  apply in_world_ok in Hstep5 as (v5 & [-> _]%update_tasks_ok & ->).
  apply in_world_ok in Hstep6 as (v6 & [-> _]%update_dispatches_ok & ->).
  unfold invalidate_gates in Hstep7. apply in_world_ok in Hstep7 as (v7 & [-> _]%update_gates_ok & ->).
  apply in_world_ok in Hstep8 as (v8 & (-> & _)%update_runs_ok & ->). apply finish_ok in Hm as [Ht9 Hw9].
  cbn in Hw4, Ht4, Ht9, Hw9. rewrite ?Hw4, ?Hw2, ?Hw1 in *.
  assert (pw_tables w' = set_pl_targets (targets_of w') (set_pl_integrations (pl_integrations (pw_tables w')) (pw_tables w))) as Htab.
  { unfold targets_of. rewrite Ht9, Ht4, Ht2, Ht1. done. }
  assert (targets_of w' = update_where (in_attention run) retry_target (targets_of w ++ new1 ++ new2)) as Htgt.
  { unfold targets_of at 1. rewrite Ht9, Ht4, Ht2, Ht1. cbn. unfold targets_of. rewrite Ht1. cbn. by rewrite (assoc_L (++)). }
  assert (targets_of s0 = targets_of w ++ new1) as Hs0 by (unfold targets_of at 1; by rewrite Ht1).
  rewrite Hs0, <-(assoc_L (++)) in Hc2. split.
  - split; [unfold launches_of; by rewrite Hw9|by rewrite Htab..].
  - unfold revisions_of. by rewrite Htab.
  - unfold tasks_of. by rewrite Hw9.
  - unfold dispatches_of. by rewrite Hw9.
  - unfold gates_of. by rewrite Hw9.
  - exists (new1 ++ new2). split_and!; [done|..].
    + intros c [Hc|Hc]%elem_of_app; apply elem_of_app.
      * left. destruct (Hn1 c Hc) as (l & Hl & ->%list_elem_of_singleton). by apply list_elem_of_fmap_2.
      * right. apply list_elem_of_bind. destruct (Hn2 c Hc) as (r & ? & ?). eauto.
    + intros row [(l & -> & Hl)%list_elem_of_fmap|(r & Hr & Hin)%list_elem_of_bind]%elem_of_app.
      * rewrite (assoc_L (++)). apply covered_app, (Hc1 l); [done|by left].
      * by apply (Hc2 r).
  - unfold runs_of at 1. rewrite Hw9. cbn. unfold targets_of. by rewrite Ht9.
Qed.

(** ** The command fence *)

Lemma run_command_receipt_ok request_id digest w w' o :
  run_command_receipt request_id digest w = (w', Ok o) →
  w' = w ∧
  match o with
  | None => receipt_row request_id (pw_tables w) = None
  | Some raw => ∃ c, receipt_row request_id (pw_tables w) = Some c ∧ cmr_request_digest c = digest ∧ raw = cmr_receipt c
  end.
Proof.
  unfold run_command_receipt. intros Hm. inv_ok Hm. apply pselect_ok in Hstep as [-> ->].
  destruct (receipt_row _ _) as [c|] eqn:Ec; [|by inv_ok Hm]. inv_ok Hm.
  apply guard_ok in Hstep as [-> He%String.eqb_eq]. inv_ok Hm. split; [done|]. by exists c.
Qed.

(** The row a command leaves of its run. *)
Definition commanded (sequence : Z) (r : OrchestrationCoordinatorRun) : OrchestrationCoordinatorRun :=
  with_r_last_activity_at now (with_r_control_sequence (sequence + 1) r).

(** A command answered from its receipt. *)
Definition answered_before (request_id digest : string) (w : PlanWorld) (receipt : RunControlReceipt) : Prop :=
  ∃ c original, receipt_row request_id (pw_tables w) = Some c ∧ cmr_request_digest c = digest ∧
    control_receipt_decode (cmr_receipt c) = Some original ∧ receipt = with_rcp_replayed true original.

Lemma replayed_control_ok raw w w' receipt :
  replayed_control raw w = (w', Ok receipt) →
  w' = w ∧ ∃ original, control_receipt_decode raw = Some original ∧ receipt = with_rcp_replayed true original.
Proof.
  unfold replayed_control. intros Hm. inv_ok Hm. apply raise_ok in Hstep as [-> Hd%with_context_ok]. inv_ok Hm. eauto.
Qed.

Lemma insert_receipt_ok c w w' u :
  insert_receipt c w = (w', Ok u) →
  receipt_row (cmr_request_id c) (pw_tables w) = None ∧
  w' = MkPlanWorld (pw_world w) (set_pl_receipts (pl_receipts (pw_tables w) ++ [c]) (pw_tables w)).
Proof. unfold insert_receipt. case_bool_decide as Hn; [done|]. intros [= <- _]. split; [|done]. by apply eq_None_not_Some. Qed.

(** An UPDATE of run rows, seen by identifier. *)
Lemma find_run_update p f l run :
  (∀ r, r_id (f r) = r_id r) →
  find_where (λ r, String.eqb (r_id r) run) (update_where p f l) =
  (λ r, if p r then f r else r) <$> find_where (λ r, String.eqb (r_id r) run) l.
Proof. apply (find_update_where r_id). Qed.

Lemma find_run_is l run r :
  find_where (λ r, String.eqb (r_id r) run) l = Some r → is_run run r = true.
Proof. intros [_ Hr]%find_where_Some. done. Qed.

(** A command that took effect: the run stood at the expected sequence. *)
Record took_effect (request_id run_id : string) (expected : Z) (digest action : string)
    (command : OrchestrationCoordinatorStatus → PM bool) (w w' : PlanWorld) (receipt : RunControlReceipt) : Prop := {
  effect_new : receipt_row request_id (pw_tables w) = None;
  effect_run : ∃ r r1 w1 changes, run_of w run_id = Some r ∧ r_control_sequence r = expected ∧
    command (r_status r) w = (w1, Ok changes) ∧ run_of w1 run_id = Some r1 ∧
    receipt = MkControlReceipt request_id run_id action (expected + 1) (r_status r1) (r_plan_revision r1) changes false ∧
    receipt_row request_id (pw_tables w1) = None ∧
    w' = MkPlanWorld (with_db (set_runs (update_where (is_run run_id) (commanded expected) (runs_of w1))) (pw_world w1))
           (set_pl_receipts (pl_receipts (pw_tables w1)
              ++ [MkCommandReceipt request_id digest run_id (control_receipt_encode receipt)]) (pw_tables w1))
}.

Lemma run_command_ok request_id run_id expected digest action command w w' receipt :
  run_command request_id run_id expected digest action command w = (w', Ok receipt) →
  (w' = w ∧ answered_before request_id digest w receipt) ∨
  took_effect request_id run_id expected digest action command w w' receipt.
Proof.
  unfold run_command. intros Hm. do 4 inv_ok Hm. apply raise_ok in Hstep as [-> _].
  apply raise_ok in Hstep0 as [-> _]. apply raise_ok in Hstep1 as [-> _].
  apply run_command_receipt_ok in Hstep2 as [-> Hseen]. destruct a2 as [raw|].
  { destruct Hseen as (c & Hc & Hdig & ->). apply replayed_control_ok in Hm as (-> & o & Ho & ->).
    left. split; [done|]. by exists c, o. }
  apply plan_tx_ok in Hm. inv_ok Hm. apply run_command_receipt_ok in Hstep as [-> Hs2]. destruct a2 as [raw|].
  { destruct Hs2 as (c & Hc & _). congruence. }
  right. split; [done|]. do 8 inv_ok Hm. apply pselect_ok in Hstep as [-> ->].
  apply raise_ok in Hstep0 as [-> Hr%with_context_ok]. apply guard_ok in Hstep1 as [-> Hseq%Z.eqb_eq].
  apply in_world_ok in Hstep3 as (v & (-> & _)%update_runs_ok & ->). apply pselect_ok in Hstep4 as [-> ->].
  inv_ok Hm. destruct (run_by_id _ run_id) as [r'|] eqn:Er' in Hstep5; [|done]. inv_ok Hstep5.
  apply insert_receipt_ok in Hstep6 as [Hnone ->]. unfold run_by_id in Er'. cbn [pw_world w_db with_db set_runs db_runs] in Er'.
  rewrite find_run_update in Er' by done. apply fmap_Some in Er' as (r1 & Hr1 & Heq).
  rewrite (find_run_is _ _ _ Hr1) in Heq. subst a8. by exists a3, r1, s2, a5.
Qed.

(** ** What never goes back *)

(** A run keeps its identity and what it was created with; its control sequence
    only grows. *)
Definition run_advances (r r' : OrchestrationCoordinatorRun) : Prop :=
  r_id r' = r_id r ∧ r_isolation r' = r_isolation r ∧ r_approval_required r' = r_approval_required r ∧
  (r_control_sequence r ≤ r_control_sequence r')%Z.
#[export] Instance run_advances_preorder : PreOrder run_advances.
Proof. split; [by intros r|]. intros r1 r2 r3 (?&?&?&?) (?&?&?&?). split_and!; [congruence..|lia]. Qed.

Record advances (w w' : PlanWorld) : Prop := {
  advances_run : ∀ run r, run_of w run = Some r → ∃ r', run_of w' run = Some r' ∧ run_advances r r';
  advances_receipts : ∃ new, pl_receipts (pw_tables w') = pl_receipts (pw_tables w) ++ new
}.
#[export] Instance advances_preorder : PreOrder advances.
Proof.
  split.
  - intros w. split; [intros run r Hr; by exists r|]. exists []. by rewrite app_nil_r.
  - intros w1 w2 w3 [H12 [n1 E1]] [H23 [n2 E2]]. split.
    + intros run r (r2 & (r3 & ? & ?)%H23 & ?)%H12. exists r3. split; [done|by etransitivity].
    + exists (n1 ++ n2). by rewrite E2, E1, (assoc_L (++)).
Qed.

Lemma advances_receipt w w' id c :
  advances w w' → receipt_row id (pw_tables w) = Some c → receipt_row id (pw_tables w') = Some c.
Proof. intros [_ [new Hnew]] Hc. unfold receipt_row in *. rewrite Hnew. by apply find_where_prefix. Qed.

(** The statements of a command leave the sequence and the receipts to
    [run_command]. *)
Definition run_kept (r r' : OrchestrationCoordinatorRun) : Prop :=
  run_advances r r' ∧ r_control_sequence r' = r_control_sequence r.
#[export] Instance run_kept_preorder : PreOrder run_kept.
Proof.
  split; [by intros r|]. intros r1 r2 r3 [??] [??]. split; [by etransitivity|congruence].
Qed.
Record within_command (w w' : PlanWorld) : Prop := {
  within_runs : Forall2 run_kept (runs_of w) (runs_of w');
  within_receipts : pl_receipts (pw_tables w') = pl_receipts (pw_tables w)
}.
#[export] Instance within_command_preorder : PreOrder within_command.
Proof.
  split; [intros w; split; [by apply Forall2_same|done]|]. intros w1 w2 w3 [H12 E1] [H23 E2].
  split; [|congruence]. eapply Forall2_compose; [|done|done]. by intros ? ? ?; etransitivity.
Qed.

Lemma within_advances w w' : within_command w w' → advances w w'.
Proof.
  intros [Hruns Hp]. split; [|exists []; by rewrite app_nil_r]. intros run r Hr.
  pose proof (Forall2_find r_id run_kept _ _ run ltac:(by intros ? ? [(?&_) _]) Hruns) as Hf.
  unfold run_of, run_by_id in *. fold (runs_of w) in Hr. fold (runs_of w'). rewrite Hr in Hf.
  inversion Hf as [? r' [Hadv _]|]; subst. eauto.
Qed.
Lemma guarantees_within {A} (m : PM A) : guarantees within_command m → guarantees advances m.
Proof. intros Hm w w' a Ha. by eapply within_advances, Hm. Qed.

Lemma within_same w w' :
  runs_of w' = runs_of w → pl_receipts (pw_tables w') = pl_receipts (pw_tables w) → within_command w w'.
Proof. intros Hr Hp. split; [rewrite Hr; by apply Forall2_same|done]. Qed.

Lemma within_updates p f :
  (∀ r, run_kept r (f r)) →
  guarantees within_command (in_world (update_runs p f)).
Proof.
  intros Hf w w' n (v & (-> & _)%update_runs_ok & ->)%in_world_ok. split; [|done].
  unfold runs_of. cbn. apply Forall2_update_where; [auto|done].
Qed.
Lemma advances_updates p f :
  (∀ r, run_advances r (f r)) → guarantees advances (in_world (update_runs p f)).
Proof.
  intros Hf w w' n (v & (-> & _)%update_runs_ok & ->)%in_world_ok. split; [|by exists []; rewrite app_nil_r].
  intros run r Hr. unfold run_of, run_by_id in *. cbn. rewrite find_run_update; [|by intros ?; apply Hf].
  rewrite Hr. cbn. eexists. split; [done|]. by destruct (p r).
Qed.

Lemma within_event event : guarantees within_command (record_event event).
Proof.
  unfold record_event. intros w w' u Hm. inv_ok Hm. inv_ok Hm. apply in_event_ok in Hstep as [Hev Ht].
  apply within_same; [by apply events_only_runs|by rewrite Ht].
Qed.
Lemma within_tasks sr p f : guarantees within_command (in_world (update_tasks sr p f)).
Proof. intros w w' n (v & [-> _]%update_tasks_ok & ->)%in_world_ok. by apply within_same. Qed.
Lemma within_gates p f : guarantees within_command (in_world (update_gates p f)).
Proof. intros w w' n (v & [-> _]%update_gates_ok & ->)%in_world_ok. by apply within_same. Qed.
Lemma within_revision p : guarantees within_command (insert_plan_revision p).
Proof. intros w w' u (_ & _ & ->)%insert_plan_revision_ok. by apply within_same. Qed.
Lemma within_uuid : guarantees within_command new_uuid.
Proof. intros w w' id Hm. unfold new_uuid in Hm. simplify_eq. by apply within_same. Qed.
Lemma within_tables f : (∀ t, pl_receipts (f t) = pl_receipts t) → guarantees within_command (in_tables f).
Proof. intros Hf w w' u ->%in_tables_ok. by apply within_same; [|apply Hf]. Qed.

Lemma within_cancel run reason : guarantees within_command (cancel_run run reason).
Proof.
  intros w w' u Hst%cancel_run_ok. split; [|by apply Hst]. rewrite (stopped_runs _ _ _ _ Hst).
  eapply Forall2_compose; [by intros ? ? ?; etransitivity|apply Forall2_update_where..]; done.
Qed.
End Facts.

Create HintDb runs discriminated.
#[export] Hint Resolve within_event within_tasks within_gates within_revision within_uuid within_cancel : runs.

(** An operation built from statements that guarantee a relation guarantees it. *)
Ltac by_statements :=
  repeat match goal with
  | |- guarantees _ (bind _ _) => apply guarantees_bind; [apply _| |intros ?]
  | |- guarantees _ (mapM_ _ _) => apply guarantees_mapM; [apply _|intros ?]
  | |- guarantees _ (plan_tx _) => apply guarantees_tx
  | |- guarantees _ (match ?x with _ => _ end) => destruct x
  | |- guarantees _ (let _ := _ in _) => cbn zeta
  | |- guarantees _ (raise _) => apply guarantees_reads; [apply _|apply reads_raise]
  | |- guarantees _ (pselect _) => apply guarantees_reads; [apply _|apply reads_pselect]
  | |- guarantees _ (ret _) => apply guarantees_reads; [apply _|apply reads_ret]
  | |- guarantees _ (fail _) => by intros ? ? ?
  | |- guarantees within_command (in_world (update_runs _ _)) => by apply within_updates
  | |- guarantees within_command (in_tables _) => by apply within_tables
  | |- guarantees advances (in_tables _) => by apply guarantees_within, within_tables
  | |- guarantees advances (in_world (update_runs _ _)) =>
      apply advances_updates; intros ?; split_and!; [done|done|done|cbn; try lia]
  | |- guarantees advances _ => solve [auto with runs | apply guarantees_within; auto with runs]
  | |- guarantees _ _ => solve [auto with runs]
  end.

Section Commands.
Context `{Env, ContractLib, RecipeLib, PlanLib, ProposalLib, ControlLib}.

Lemma within_changes run reason ids actor gate :
  guarantees within_command (request_run_changes run reason ids actor gate).
Proof. unfold request_run_changes, ensure_no_active_work, invalidate_gates. by_statements. Qed.

Lemma within_control request status reason actor :
  guarantees within_command (control request status reason actor).
Proof. pose proof within_changes. unfold control. by_statements. Qed.

Lemma within_retry run status actor : guarantees within_command (retry_cancellation run status actor).
Proof. unfold retry_cancellation. by_statements. Qed.

(** *** What a command that took effect leaves *)

Lemma run_of_commanded run sequence w r tables :
  run_of w run = Some r →
  run_of (MkPlanWorld (with_db (set_runs (update_where (is_run run) (commanded sequence) (runs_of w))) (pw_world w)) tables)
    run = Some (commanded sequence r).
Proof.
  unfold run_of, run_by_id, runs_of. cbn. intros Hr. rewrite find_run_update, Hr by done. cbn.
  by rewrite (find_run_is _ _ _ Hr).
Qed.

Lemma effect_fence request_id run_id expected digest action command w w' receipt :
  (∀ status, guarantees within_command (command status)) →
  took_effect request_id run_id expected digest action command w w' receipt →
  ∃ r r', run_of w run_id = Some r ∧ r_control_sequence r = expected ∧ run_of w' run_id = Some r' ∧
    r_control_sequence r' = (expected + 1)%Z ∧
    receipt = MkControlReceipt request_id run_id action (expected + 1) (r_status r') (r_plan_revision r')
                (rcp_changes_requested receipt) false ∧
    receipt_row request_id (pw_tables w) = None ∧
    pl_receipts (pw_tables w') = pl_receipts (pw_tables w)
      ++ [MkCommandReceipt request_id digest run_id (control_receipt_encode receipt)].
Proof.
  intros Hin [Hnew (r & r1 & w1 & changes & Hr & Hseq & Hcmd & Hr1 & Hrec & _ & ->)].
  exists r, (commanded expected r1). destruct (Hin _ _ _ _ Hcmd) as [_ Hp].
  split_and!; try done; [by apply run_of_commanded|by rewrite Hrec|cbn; by rewrite Hp].
Qed.

Lemma effect_advances request_id run_id expected digest action command w w' receipt :
  (∀ status, guarantees within_command (command status)) →
  took_effect request_id run_id expected digest action command w w' receipt → advances w w'.
Proof.
  intros Hin [_ (r & r1 & w1 & changes & Hr & Hseq & Hcmd & Hr1 & Hrec & _ & ->)].
  pose proof (Hin _ _ _ _ Hcmd) as Hw. destruct (within_advances _ _ Hw) as [Hadv _].
  split; [|eexists; cbn; by rewrite (within_receipts _ _ Hw)]. intros run x Hx. destruct (Hadv _ _ Hx) as (y & Hy & Hxy).
  unfold run_of, run_by_id in *. cbn. fold (runs_of w1) in Hy, Hr1. rewrite find_run_update, Hy by done. cbn.
  eexists. split; [done|]. destruct (is_run run_id y) eqn:Ey; [|done].
  apply String.eqb_eq in Ey. pose proof (find_key_Some r_id _ _ _ Hy) as [_ Hid]. subst run run_id.
  rewrite Hr in Hx. simplify_eq. by split_and!; try apply Hxy; cbn; [..|lia].
Qed.

(** ** Halted runs *)

(** A worker target is named after its launch, a coordinator's after its tab. *)
Definition target_named (c : CancellationTarget) : Prop :=
  match ct_launch_id c with
  | Some launch => ct_id c = "worker:" +:+ launch
  | None => ∃ tab, ct_id c = "coordinator:" +:+ tab
  end.

Lemma covered_worker l targets :
  Forall target_named targets → covered (worker_target l) targets →
  ∃ c, c ∈ targets ∧ ct_launch_id c = Some (l_id l).
Proof.
  intros Hall (c & Hc & Hcase). exists c. split; [done|]. rewrite Forall_forall in Hall. specialize (Hall c Hc).
  destruct Hcase as [Hid|[_ Hl]]; [|done]. unfold target_named in Hall. rewrite Hid in Hall. cbn in Hall.
  destruct (ct_launch_id c) as [launch|]; [by simplify_eq|by destruct Hall as [tab ?]].
Qed.

(** Nothing of the run is working or waiting, and every process it started is
    listed for closing. *)
Record halted (run : string) (w : PlanWorld) : Prop := {
  halted_run : ∀ r, r ∈ runs_of w → r_id r = run → r_status r = Cs_Cancelled ∧ r_paused_by r = None;
  halted_tasks : ∀ t, t ∈ tasks_of w → t_run_id t = Some run → task_settled t = true;
  halted_dispatches : ∀ d, d ∈ dispatches_of w → d_run_id d = Some run → d_active d = false;
  halted_gates : ∀ g, g ∈ gates_of w → g_run_id g = Some run → g_status g ≠ Gs_Pending;
  halted_workers : ∀ l, l ∈ launches_of w → l_run_id l = run →
    ∃ c, c ∈ targets_of w ∧ ct_launch_id c = Some (l_id l);
  halted_coordinator : ∀ r tab, r ∈ runs_of w → r_id r = run → r_coordinator_tab_id r = Some tab →
    ∃ c, c ∈ targets_of w ∧ ct_id c = "coordinator:" +:+ tab;
  halted_retried : ∀ c, c ∈ targets_of w → ct_run_id c = run → ct_state c ≠ Ct_Attention
}.

Lemma process_target_named run w : Forall target_named (process_targets run w).
Proof.
  apply Forall_forall. intros c [(l & -> & _)%list_elem_of_fmap|(r & Hc & _)%list_elem_of_bind]%elem_of_app; [done|].
  destruct (r_coordinator_tab_id r) as [tab|]; [|by apply elem_of_nil in Hc].
  apply list_elem_of_singleton in Hc as ->. by exists tab.
Qed.

Lemma stopped_listed run reason w w' row :
  Forall target_named (targets_of w) → run_stopped run reason w w' → row ∈ process_targets run w →
  covered row (targets_of w') ∧ Forall target_named (targets_of w').
Proof.
  intros Hn Hst Hrow. destruct (stopped_targets _ _ _ _ Hst) as (new & -> & Hnew & Hcov). split.
  - destruct (Hcov _ Hrow) as (c & Hc & Hs). exists (if in_attention run c then retry_target c else c).
    rewrite elem_of_update_where. split; [by eauto|]. by destruct (in_attention run c).
  - apply Forall_forall. intros c (c0 & Hc0 & ->)%elem_of_update_where.
    assert (target_named c0) as Hc0n; [|by destruct (in_attention run c0)].
    apply elem_of_app in Hc0 as [Hc0|Hc0]; [by eapply Forall_forall|].
    eapply Forall_forall; [apply process_target_named|by apply Hnew].
Qed.

(** The rows of the run after it was stopped, one by one. *)
Lemma stopped_run_row run reason w w' r' :
  run_stopped run reason w w' → r' ∈ runs_of w' → r_id r' = run →
  ∃ r, r ∈ runs_of w ∧ r_id r = run ∧ r_status r' = Cs_Cancelled ∧ r_paused_by r' = None ∧
    r_coordinator_tab_id r' = r_coordinator_tab_id r ∧
    r_completed_at r' = (if bool_decide (r_completed_at r = None) && negb (open_targets run (targets_of w'))
                         then Some now else r_completed_at r).
Proof.
  intros Hst Hin Hid. rewrite (stopped_runs _ _ _ _ Hst) in Hin.
  apply elem_of_update_where in Hin as (r1 & (r & Hr & ->)%elem_of_update_where & ->). exists r.
  assert (r_id r = run) as Hrid by (destruct (is_run run r), (finishes _ _ _) in Hid; done).
  assert (is_run run r = true) as Hrun by (unfold is_run; rewrite Hrid; apply String.eqb_refl).
  unfold finishes. rewrite Hrun. assert (is_run run (cancelled_run reason r) = true) as -> by exact Hrun.
  cbn [r_status cancelled_run with_r_last_activity_at with_r_stop_reason with_r_paused_by with_r_status r_completed_at].
  rewrite (bool_decide_true (Cs_Cancelled = _)) by done. cbn [andb].
  destruct (bool_decide (r_completed_at r = None) && _); done.
Qed.

Lemma stopped_run_of run reason w w' r r' :
  run_stopped run reason w w' → run_of w run = Some r → run_of w' run = Some r' →
  r_completed_at r' = (if bool_decide (r_completed_at r = None) && negb (open_targets run (targets_of w'))
                       then Some now else r_completed_at r).
Proof.
  unfold run_of, run_by_id. intros Hst Hr Hr'. fold (runs_of w) in Hr. fold (runs_of w') in Hr'.
  rewrite (stopped_runs _ _ _ _ Hst), !find_run_update, Hr in Hr' by done. cbn -[finishes] in Hr'.
  pose proof (find_run_is _ _ _ Hr) as Hrun. rewrite Hrun in Hr'. injection Hr' as <-. unfold finishes.
  assert (is_run run (cancelled_run reason r) = true) as -> by exact Hrun.
  cbn [r_status cancelled_run with_r_last_activity_at with_r_stop_reason with_r_paused_by with_r_status r_completed_at].
  rewrite (bool_decide_true (Cs_Cancelled = _)) by done. cbn [andb].
  destruct (bool_decide (r_completed_at r = None) && _); done.
Qed.

Lemma stopped_halts run reason w w' :
  Forall target_named (targets_of w) → run_stopped run reason w w' → halted run w'.
Proof.
  intros Hn Hst. split.
  - intros r' Hr' Hid. by destruct (stopped_run_row _ _ _ _ _ Hst Hr' Hid) as (r & _ & _ & ? & ? & _).
  - rewrite (stopped_tasks _ _ _ _ Hst). intros t (t0 & _ & ->)%elem_of_update_where.
    unfold unsettled_of. case_bool_decide as Hrun; [|done]. by destruct (task_settled t0) eqn:E.
  - rewrite (stopped_dispatches _ _ _ _ Hst). intros d (d0 & _ & ->)%elem_of_update_where.
    unfold active_of. case_bool_decide as Hrun; [|done]. by destruct (d_active d0) eqn:E.
  - rewrite (stopped_gates _ _ _ _ Hst). intros g (g0 & _ & ->)%elem_of_update_where.
    unfold open_of. case_bool_decide as Hrun; [|done]. by case_bool_decide.
  - rewrite (untouched_launches _ _ (stopped_frame _ _ _ _ Hst)). intros l Hl Hrun.
    destruct (stopped_listed _ _ _ _ (worker_target l) Hn Hst) as [Hcov Hn']; [|by apply covered_worker].
    apply elem_of_app. left. apply list_elem_of_fmap_2, list_elem_of_In, filter_In.
    by rewrite <-list_elem_of_In, Hrun, String.eqb_refl.
  - intros r' tab Hr' Hid Htab. destruct (stopped_run_row _ _ _ _ _ Hst Hr' Hid) as (r & Hr & Hrid & _ & _ & Hc & _).
    destruct (stopped_listed _ _ _ _ (coordinator_target r tab) Hn Hst) as [(c & Hc' & [?|[[? ?] _]]) _]; [|by eauto|done].
    apply elem_of_app. right. apply list_elem_of_bind. exists r. rewrite <-Hc, Htab. split; [by left|].
    apply list_elem_of_In, filter_In. unfold is_run. by rewrite <-list_elem_of_In, Hrid, String.eqb_refl.
  - destruct (stopped_targets _ _ _ _ Hst) as (new & -> & _). intros c (c0 & _ & ->)%elem_of_update_where.
    unfold in_attention. destruct (String.eqb_spec (ct_run_id c0) run); cbn; [|done]. by case_bool_decide.
Qed.

(** The update of the sequence keeps a halted run halted. *)
Lemma halted_commanded run sequence w receipts :
  halted run w →
  halted run (MkPlanWorld (with_db (set_runs (update_where (is_run run) (commanded sequence) (runs_of w))) (pw_world w))
                (set_pl_receipts receipts (pw_tables w))).
Proof.
  intros [Hr Ht Hd Hg Hl Hc Ha]. split; try assumption; unfold runs_of at 1; cbn [pw_world w_db with_db set_runs db_runs].
  - intros r (r0 & Hr0 & ->)%elem_of_update_where Hid.
    assert (r_id r0 = run) as Hid0 by (by destruct (is_run run r0)).
    specialize (Hr _ Hr0 Hid0). by destruct (is_run run r0).
  - intros r tab (r0 & Hr0 & ->)%elem_of_update_where Hid Htab.
    apply (Hc r0); [done|by destruct (is_run run r0)..].
Qed.

Lemma run_stopped_event run reason w w1 w2 :
  run_stopped run reason w w1 → events_only (pw_world w1) (pw_world w2) → pw_tables w2 = pw_tables w1 →
  run_stopped run reason w w2.
Proof.
  intros [[] Hrev Ht Hd Hg Htg Hr] Hev Htab. assert (targets_of w2 = targets_of w1) as Htgt by (unfold targets_of; by rewrite Htab).
  split; [split|..]; rewrite ?Htgt; unfold revisions_of, tasks_of, dispatches_of, gates_of, runs_of, launches_of in *;
    rewrite ?Htab, ?(events_only_tasks _ _ Hev), ?(events_only_dispatches _ _ Hev), ?(events_only_gates _ _ Hev),
    ?(events_only_runs _ _ Hev), ?(events_only_launches _ _ Hev); assumption.
Qed.

Lemma event_recorded event w w' u :
  record_event event w = (w', Ok u) → events_only (pw_world w) (pw_world w') ∧ pw_tables w' = pw_tables w.
Proof. unfold record_event. intros Hm. inv_ok Hm. inv_ok Hm. by apply in_event_ok in Hstep. Qed.

(** A row an UPDATE does not match stays. *)
Lemma update_where_keeps {A} (p : A → bool) f l x : x ∈ l → p x = false → x ∈ update_where p f l.
Proof. intros Hx Hp. apply elem_of_update_where. exists x. by rewrite Hp. Qed.

Lemma control_run_fresh request actor w w' receipt :
  control_run request actor w = (w', Ok receipt) → rcp_replayed receipt = false →
  took_effect (ctl_request_id request) (ctl_run_id request) (ctl_expected_sequence request) (control_digest request)
    (RunControlAction_as_str (ctl_action request))
    (λ status, control request status (trimmed (ctl_reason request)) actor) w w' receipt.
Proof.
  intros [[_ (c & o & _ & _ & _ & ->)]|Heff]%run_command_ok Hno; [|done]. by destruct o.
Qed.

(** [C7] The cancellation barrier, in a store whose listed processes carry the
    identifiers the code gives them ([target_named]): a cancellation that is not a
    replay leaves every task of the run settled, no active dispatch and no gate
    waiting, and every worker it launched and its coordinator's terminal listed for
    closing; tasks that had settled, and the rows, tasks, dispatches, gates and
    listed processes of every other run, stay as they were; and a run that did not
    count as completed before does so only when all of its processes are already
    closed. *)
Theorem cancellation_barrier (request : RunControl) (actor : RunActor) (w w' : PlanWorld)
    (receipt : RunControlReceipt) :
  Forall target_named (targets_of w) → ctl_action request = Rca_Cancel →
  control_run request actor w = (w', Ok receipt) → rcp_replayed receipt = false →
  let run := ctl_run_id request in
  halted run w' ∧
  (∀ t, t ∈ tasks_of w → t_run_id t ≠ Some run ∨ task_settled t = true → t ∈ tasks_of w') ∧
  (∀ d, d ∈ dispatches_of w → d_run_id d ≠ Some run → d ∈ dispatches_of w') ∧
  (∀ r, r ∈ runs_of w → r_id r ≠ run → r ∈ runs_of w') ∧
  (∀ g, g ∈ gates_of w → g_run_id g ≠ Some run → g ∈ gates_of w') ∧
  (∀ c, c ∈ targets_of w → ct_run_id c ≠ run → c ∈ targets_of w') ∧
  (∃ r r', run_of w run = Some r ∧ run_open r = true ∧ run_of w' run = Some r' ∧
     (r_completed_at r = None → is_Some (r_completed_at r') →
      ∀ c, c ∈ targets_of w' → ct_run_id c = run → ct_state c = Ct_Settled)).
Proof.
  intros Hn Hact Hm Hno run. destruct (control_run_fresh _ _ _ _ _ Hm Hno) as
    [_ (r & r1 & w1 & changes & Hr & Hseq & Hcmd & Hr1 & _ & _ & ->)].
  unfold control in Hcmd. rewrite Hact in Hcmd. do 3 inv_ok Hcmd. inv_ok Hcmd.
  apply guard_ok in Hstep as [-> Hopen]. apply cancel_run_ok in Hstep0.
  apply event_recorded in Hstep1 as [Hev Htab]. pose proof (run_stopped_event _ _ _ _ _ Hstep0 Hev Htab) as Hst.
  split_and!.
  - by eapply halted_commanded, stopped_halts.
  - intros t Ht Hkeep. change (t ∈ tasks_of w1). rewrite (stopped_tasks _ _ _ _ Hst). apply update_where_keeps; [done|].
    unfold unsettled_of. destruct Hkeep as [Hk|Hk]; [by rewrite bool_decide_false|by rewrite Hk, andb_false_r].
  - intros d Hd Hk. change (d ∈ dispatches_of w1). rewrite (stopped_dispatches _ _ _ _ Hst).
    apply update_where_keeps; [done|]. unfold active_of. by rewrite bool_decide_false.
  - intros x Hx Hk. apply String.eqb_neq in Hk. unfold runs_of. cbn. apply update_where_keeps; [|exact Hk]. fold (runs_of w1).
    rewrite (stopped_runs _ _ _ _ Hst). apply update_where_keeps; [apply update_where_keeps; [done|exact Hk]|].
    unfold finishes, is_run. unfold run in Hk. by rewrite Hk.
  - intros g Hg Hk. change (g ∈ gates_of w1). rewrite (stopped_gates _ _ _ _ Hst). apply update_where_keeps; [done|].
    unfold open_of. by rewrite bool_decide_false.
  - intros c Hc Hk. change (c ∈ targets_of w1). destruct (stopped_targets _ _ _ _ Hst) as (new & -> & _).
    apply update_where_keeps; [apply elem_of_app; by left|]. unfold in_attention. apply String.eqb_neq in Hk. unfold run in Hk. by rewrite Hk.
  - exists r, (commanded (ctl_expected_sequence request) r1). split_and!.
    + done.
    + split_bools. unfold run_open. destruct (r_status r); try done; exfalso; apply Hopen; set_solver.
    + by apply run_of_commanded.
    + intros Hnone. cbn. rewrite (stopped_run_of _ _ _ _ _ _ Hst Hr Hr1), Hnone. cbn.
      destruct (open_targets _ _) eqn:Eo; [by intros []|]. intros _ c Hc Hrun.
      destruct (bool_decide_reflect (ct_state c = Ct_Settled)) as [|Hne]; [done|]. exfalso.
      assert (open_targets run (targets_of w1) = true) as Ht; [|unfold run in Ht; congruence].
      apply existsb_exists. exists c. rewrite <-list_elem_of_In, Hrun, String.eqb_refl, bool_decide_false by done. done.
Qed.

(** The command fence: a control command takes effect only when the run stands at
    the control sequence its sender expected, moves it on by one and records its
    receipt, which names the new sequence and the run's status and plan; and a
    request that was answered before changes nothing and is answered again. *)
Theorem command_fence (request : RunControl) (actor : RunActor) (w w' : PlanWorld) (receipt : RunControlReceipt) :
  control_run request actor w = (w', Ok receipt) →
  (w' = w ∧ answered_before (ctl_request_id request) (control_digest request) w receipt) ∨
  (∃ r r', run_of w (ctl_run_id request) = Some r ∧ r_control_sequence r = ctl_expected_sequence request ∧
     run_of w' (ctl_run_id request) = Some r' ∧ r_control_sequence r' = (r_control_sequence r + 1)%Z ∧
     receipt = MkControlReceipt (ctl_request_id request) (ctl_run_id request)
       (RunControlAction_as_str (ctl_action request)) (r_control_sequence r') (r_status r') (r_plan_revision r')
       (bool_decide (ctl_action request = Rca_Replan)) false ∧
     pl_receipts (pw_tables w') = pl_receipts (pw_tables w) ++
       [MkCommandReceipt (ctl_request_id request) (control_digest request) (ctl_run_id request)
          (control_receipt_encode receipt)]).
Proof.
  intros [?|Heff]%run_command_ok; [by left|right].
  assert (rcp_changes_requested receipt = bool_decide (ctl_action request = Rca_Replan)) as Hch.
  { destruct Heff as [_ (r & r1 & w1 & changes & _ & _ & Hcmd & _ & -> & _)]. cbn. revert Hcmd. unfold control.
    destruct (ctl_action request); intros Hcmd; repeat (inv_ok Hcmd; try done). }
  destruct (effect_fence _ _ _ _ _ _ _ _ _ (λ _, within_control _ _ _ _) Heff)
    as (r & r' & Hr & Hseq & Hr' & Hseq' & Hrec & _ & Hp).
  exists r, r'. rewrite Hseq, Hseq', <-Hch. by split_and!.
Qed.

(** ** Closing the processes of a cancelled run *)

(** The host may settle the target: its shutdown was never begun, or was
    verified for the same workspace. *)
Definition closed (w : PlanWorld) (x : WorkflowCancellationTarget) : Prop :=
  match pl_shutdowns (pw_tables w) !! wct_terminal_handle x with
  | None => True
  | Some s => tsd_workspace_id s = wct_workspace_id x ∧ tsd_verified s = true
  end.

Definition settles (x : WorkflowCancellationTarget) (c : CancellationTarget) : bool :=
  String.eqb (ct_id c) (wct_id x) && bool_decide (ct_state c = Ct_Pending).

(** The state after a settlement without an error. *)
Definition after_settling (x : WorkflowCancellationTarget) (w : PlanWorld) : PlanWorld :=
  let targets := update_where (settles x) (settled_target None) (targets_of w) in
  MkPlanWorld (with_db (set_runs (update_where (finishes (wct_run_id x) targets) (with_r_completed_at (Some now)) (runs_of w)))
                 (pw_world w))
    (set_pl_targets targets (pw_tables w)).

(** A cancelled run holds its workspace until it counts as completed, so
    completing it can only free a slot. *)
Lemma slots_completed p runs :
  workspace_slots_unique runs = true →
  workspace_slots_unique (update_where p (with_r_completed_at (Some now)) runs) = true.
Proof.
  unfold workspace_slots_unique. rewrite !bool_decide_eq_true. intros Hnd. eapply sublist_NoDup; [exact Hnd|]. clear Hnd.
  unfold update_where. induction runs as [|r runs IH]; cbn; [done|].
  assert (holds_workspace r = false → holds_workspace (if p r then with_r_completed_at (Some now) r else r) = false).
  { destruct (p r); [|done]. unfold holds_workspace. cbn. by destruct (r_status r). }
  destruct (holds_workspace r), (holds_workspace (if p r then _ else r)); cbn; try naive_solver.
  - replace (r_workspace_id (if p r then _ else r)) with (r_workspace_id r) by (by destruct (p r)). by constructor.
  - by constructor.
Qed.

Lemma settle_success x c w :
  c ∈ targets_of w → target_row (w_db (pw_world w)) c = Some x → run_cancelled (w_db (pw_world w)) (ct_run_id c) = true →
  closed w x → workspace_slots_unique (runs_of w) = true →
  settle_workflow_cancellation x None w = (after_settling x w, Ok tt).
Proof.
  intros Hc Hx Hrun Hclosed Hslots. unfold target_row in Hx.
  destruct (target_workspace _ c) as [ws|] eqn:Ew; [|done]. destruct (target_terminal _ c) as [h|] eqn:Eh; [|done].
  cbn in Hx. injection Hx as <-. unfold settle_workflow_cancellation, plan_tx.
  assert (validate_target (MkWorkflowTarget (ct_id c) (ct_launch_id c) (ct_run_id c) h ws) false w = (w, Ok tt)) as Hv.
  { unfold validate_target, bind, pselect, gets. cbn beta iota. match goal with |- context [ensure ?b _] => assert (b = true) as -> end; [|done].
    apply existsb_exists. exists c. split; [by apply list_elem_of_In|].
    cbn. by rewrite !String.eqb_refl, Ew, Eh, Hrun, !bool_decide_true. }
  rewrite (bind_ok _ _ _ _ _ Hv).
  assert (require_terminal_shutdown_settle h ws w = (w, Ok tt)) as Hs.
  { unfold require_terminal_shutdown_settle, bind, pselect, gets, closed in *. cbn in *.
    destruct (pl_shutdowns _ !! h) as [sd|]; [|done]. destruct Hclosed as [-> ->]. by rewrite String.eqb_refl. }
  cbn [wct_terminal_handle wct_workspace_id]. rewrite (bind_ok _ _ _ _ _ Hs).
  unfold finish_cancellation, bind, in_tables, modify, pselect, gets, in_world, update_runs. cbn [pw_world pw_tables].
  change (db_runs (w_db (pw_world w))) with (runs_of w). by rewrite slots_completed.
Qed.

Lemma run_cancelled_completed p db run runs :
  db_runs db = update_where p (with_r_completed_at (Some now)) runs →
  run_cancelled db run = existsb (λ r, is_run run r && bool_decide (r_status r = Cs_Cancelled)) runs.
Proof.
  unfold run_cancelled. intros ->. unfold update_where. induction runs as [|r runs IH]; cbn; [done|].
  rewrite IH. by destruct (p r).
Qed.

(** The processes of [run] left to close are the targets [pending], read as [xs]. *)
Record closing (run : string) (w : PlanWorld) (pending : list CancellationTarget)
    (xs : list WorkflowCancellationTarget) : Prop := {
  closing_slots : workspace_slots_unique (runs_of w) = true;
  closing_cancelled : run_cancelled (w_db (pw_world w)) run = true;
  closing_ids : NoDup (ct_id <$> targets_of w);
  closing_rows : Forall2 (λ c x, c ∈ targets_of w ∧ ct_state c = Ct_Pending ∧ ct_run_id c = run ∧
    target_row (w_db (pw_world w)) c = Some x ∧ closed w x) pending xs;
  closing_distinct : NoDup (ct_id <$> pending);
  closing_all : ∀ c, c ∈ targets_of w → ct_run_id c = run → ct_state c ≠ Ct_Settled → c ∈ pending
}.

Lemma target_row_names db c x : target_row db c = Some x → wct_id x = ct_id c ∧ wct_run_id x = ct_run_id c.
Proof. unfold target_row. destruct (target_workspace db c), (target_terminal db c); naive_solver. Qed.

Lemma closing_step run w c x pending xs :
  closing run w (c :: pending) (x :: xs) → closing run (after_settling x w) pending xs.
Proof.
  intros [Hslots Hcan Hids Hrows Hnd Hall]. inversion Hrows as [|? ? ? ? (Hc & Hp & Hrun & Hx & Hcl) Hrest]; subst.
  destruct (target_row_names _ _ _ Hx) as [Hxid _]. cbn in Hnd. apply NoDup_cons in Hnd as [Hni Hnd].
  assert (targets_of (after_settling x w) = update_where (settles x) (settled_target None) (targets_of w)) as Ht by done.
  split; rewrite ?Ht.
  - by apply slots_completed.
  - by erewrite run_cancelled_completed.
  - by rewrite (fmap_update_where ct_id).
  - eapply Forall2_impl; [|intros d y Hd; exact Hd]. apply Forall2_same_length_lookup_2;
      [by eapply Forall2_length|]. intros i d y Hd Hy.
    pose proof (Forall2_lookup_lr _ _ _ _ _ _ Hrest Hd Hy) as (Hdin & Hdp & Hdrun & Hdx & Hdcl). split_and!; try done.
    apply update_where_keeps; [done|]. unfold settles. apply andb_false_iff. left. apply String.eqb_neq.
    rewrite Hxid. intros Heq. apply Hni. rewrite <-Heq. by eapply list_elem_of_fmap_2, list_elem_of_lookup_2.
  - done.
  - intros d (d0 & Hd0 & ->)%elem_of_update_where. destruct (settles x d0) eqn:Es; [done|]. intros Hdr Hds.
    pose proof (Hall _ Hd0 Hdr Hds) as [->|?]%elem_of_cons; [|done]. unfold settles in Es.
    rewrite Hxid, String.eqb_refl, bool_decide_true in Es by done. done.
Qed.

(** [C25] A cancellation ends: when the host closes the processes listed for a
    cancelled run one after another, every settlement is accepted and after the
    last one no process is open and the run counts as completed. *)
Theorem cancellation_completes (run : string) (w : PlanWorld) (pending : list CancellationTarget)
    (xs : list WorkflowCancellationTarget) :
  closing run w pending xs → pending ≠ [] →
  ∃ w', mapM_ (λ x, settle_workflow_cancellation x None) xs w = (w', Ok tt) ∧
    open_targets run (targets_of w') = false ∧
    (∀ r, r ∈ runs_of w' → r_id r = run → r_status r = Cs_Cancelled → is_Some (r_completed_at r)).
Proof.
  revert w xs. induction pending as [|c pending IH]; [done|]. intros w xs Hcl _. pose proof Hcl as [Hslots Hcan Hids Hrows _ _].
  inversion Hrows as [|? x ? xs' (Hc & Hp & Hrun & Hx & Hclosed) Hrest]; subst. cbn [mapM_].
  assert (settle_workflow_cancellation x None w = (after_settling x w, Ok tt)) as Hs by (by eapply settle_success).
  rewrite (bind_ok _ _ _ _ _ Hs). apply closing_step in Hcl. destruct pending as [|c' pending]; [|by apply IH].
  inversion Hrest; subst. eexists. split; [done|]. assert (open_targets (ct_run_id c) (targets_of (after_settling x w)) = false) as Hopen.
  { apply not_true_is_false. intros (d & Hd & Hb)%existsb_exists. apply list_elem_of_In in Hd.
    apply andb_true_iff in Hb as [Hdr%String.eqb_eq Hds]. split_bools.
    by apply (closing_all _ _ _ _ Hcl d Hd Hdr), elem_of_nil in Hds. }
  split; [done|]. intros r (r0 & Hr0 & ->)%elem_of_update_where Hid Hst. unfold finishes in *.
  clear Hcl. destruct (target_row_names _ _ _ Hx) as [_ Hxr]. rewrite Hxr in Hid, Hst |- *.
  change (update_where (settles x) (settled_target None) (targets_of w)) with (targets_of (after_settling x w)) in *.
  rewrite Hopen in *. assert (r_id r0 = ct_run_id c ∧ r_status r0 = Cs_Cancelled) as [Hid0 Hst0]
    by (by destruct (is_run _ _ && _ && _ && _)).
  assert (is_run (ct_run_id c) r0 = true) as -> by (unfold is_run; rewrite Hid0; apply String.eqb_refl).
  rewrite (bool_decide_true (r_status r0 = _)) by done.
  destruct (bool_decide_reflect (r_completed_at r0 = None)) as [|Hn]; cbn; [by eexists|].
  destruct (r_completed_at r0); [by eexists|done].
Qed.
End Commands.
