(* ===== verification/GateResolution.v ===== *)
(** * GateResolution: decisions on gates and the evidence they rest on

    run_gate_evidence.rs (the evidence of a stage, the gates that become due)
    and run_gate_resolution.rs (the resolution of a gate of any kind, with its
    audit row, timeline event, effect on the run and receipt). *)

From S2P Require Import Prelude Text Models Store RoleContract Gates Runs Ordering Recipe RecipeFacts Plan Execution PlanStore RunControl.
From Stdlib Require Import ZArith Lia Ascii String.
From stdpp Require Import strings gmap pretty prelude.

(** ** Requests, gates as clients see them, receipts *)

Record ResolveRunGate : Type := MkResolve {
  res_request_id : string;
  res_gate_id : string;
  res_decision : string;
  res_reason : option string;
  res_task_ids : option (list string);
  res_expected_evidence_digest : option string;
  res_caller_terminal : option string
}.

Record RunGate : Type := MkRunGate {
  gt_id : string;
  gt_run_id : option string;
  gt_task_id : option string;
  gt_kind : RunGateKind;
  gt_scope : string;
  gt_question : string;
  gt_options : list string;
  gt_status : OrchestrationGateStatus;
  gt_due : bool;
  gt_resolution : option string;
  gt_reason : option string;
  gt_plan_revision : option Z;
  gt_evidence_digest : option string;
  gt_integration_sha : option string;
  gt_actor_kind : option string;
  gt_actor_id : option string;
  gt_created_at : string;
  gt_resolved_at : option string
}.

Record RunGateResolution : Type := MkResolution {
  rgr_request_id : string;
  rgr_gate : RunGate;
  rgr_run_id : option string;
  rgr_run_status : option OrchestrationCoordinatorStatus;
  rgr_plan_revision : option Z;
  rgr_changes_requested : bool;
  rgr_replayed : bool
}.
Definition with_rgr_replayed (v : bool) (r : RunGateResolution) : RunGateResolution :=
  MkResolution (rgr_request_id r) (rgr_gate r) (rgr_run_id r) (rgr_run_status r) (rgr_plan_revision r)
    (rgr_changes_requested r) v.

Record TaskEvidence : Type := MkTaskEvidence {
  tv_id : string;
  tv_result_digest : option string;
  tv_artifact_digest : option string;
  tv_integration_sha : option string
}.

(** serde and SHA-256. *)
Class GateLib : Type := {
  resolve_digest : ResolveRunGate → string;
  result_digest : option string → string;             (** [workflow_digest] of a stored result *)
  evidence_digest : list TaskEvidence → string;
  plan_decode : string → option WorkflowPlanSnapshot;
  shared_plan_decode : string → option SharedRunPlanSnapshot;
  gate_receipt_encode : RunGateResolution → string;
  gate_receipt_decode : string → option RunGateResolution
}.

(** A gate no plan column was written for: a decision or stall gate. *)
Definition no_gate_columns : GatePlanColumns := MkGatePlan "" None None None None None None None.
Definition columns_of (t : PlanTables) (g : OrchestrationDecisionGate) : GatePlanColumns :=
  default no_gate_columns (pl_gates t !! g_id g).

(** [run_gate_from_row] *)
Definition run_gate_from_row (t : PlanTables) (g : OrchestrationDecisionGate) : RunGate :=
  let c := columns_of t g in
  MkRunGate (g_id g) (g_run_id g) (g_task_id g) (g_kind g) (gp_scope c) (g_question g) (g_options g)
    (g_status g)
    (bool_decide (g_status g = Gs_Pending)
     && (negb (bool_decide (g_kind g = Gk_Stage)) || bool_decide (is_Some (gp_evidence_digest c))))
    (g_resolution g) (gp_reason c) (gp_plan_revision c)
    (match gp_evidence_digest c with
     | Some d => if String.eqb d "" then None else Some d
     | None => None
     end)
    (gp_integration_sha c) (gp_actor_kind c) (gp_actor_id c) (g_created_at g) (g_resolved_at g).

Definition actor_label (a : RunActor) : string :=
  match ra_id a with
  | Some id => RunActorKind_as_str (ra_kind a) +:+ ":" +:+ id
  | None => RunActorKind_as_str (ra_kind a)
  end.

(** ** Evidence of a stage *)

(** The [while let] of [ancestors]. *)
Fixpoint ancestors_walk (fuel : nat) (plan : WorkflowPlanSnapshot) (seen : gset string) (remaining : list string)
    : option (R (gset string)) :=
  match remaining with
  | [] => Some (Ok seen)
  | id :: remaining =>
      match fuel with
      | 0%nat => None
      | S fuel =>
          if bool_decide (id ∈ seen) then ancestors_walk fuel plan seen remaining
          else match stage_of plan id with
               | None => Some (Err (Bail "run stage dependency is missing"))
               | Some stage => ancestors_walk fuel plan ({[id]} ∪ seen) (reverse (ws_depends_on stage) ++ remaining)
               end
      end
  end.

Definition ancestors (plan : WorkflowPlanSnapshot) (stage_id : string) : R (gset string) :=
  default (Err (Bail "out of fuel"))
    (ancestors_walk (1 + stage_edges (wf_stages (rs_recipe (ps_recipe plan)))) plan ∅ [stage_id]).

Definition stage_gate_approved (db : Db) (t : PlanTables) (run_id : string) (revision : Z) (stage_id : string) : bool :=
  existsb (λ g, bool_decide (g_run_id g = Some run_id) && bool_decide (g_kind g = Gk_Stage)
                && String.eqb (gp_scope (columns_of t g)) stage_id
                && bool_decide (gp_plan_revision (columns_of t g) = Some revision)
                && bool_decide (g_status g = Gs_Resolved) && bool_decide (g_resolution g = Some PLAN_GATE_APPROVE))
    (db_gates db).

Definition stage_gated (plan : WorkflowPlanSnapshot) (id : string) : bool :=
  existsb (λ s, String.eqb (ws_id s) id && bool_decide (is_Some (ws_gate s)))
    (wf_stages (rs_recipe (ps_recipe plan))).

Definition prerequisite_gates_approved (db : Db) (t : PlanTables) (run_id : string) (revision : Z)
    (plan : WorkflowPlanSnapshot) (stage_id : string) : R bool :=
  try! prior := ancestors plan stage_id in
  Ok (forallb (λ id, String.eqb id stage_id || negb (stage_gated plan id)
                     || stage_gate_approved db t run_id revision id) (sorted_elements prior)).

(** The rows of a revision with their logical names, ORDER BY logical_id. *)
Definition logical_of (t : PlanTables) (x : OrchestrationTask) : string :=
  default "" (tp_logical_id <$> pl_tasks t !! t_id x).
Definition revision_tasks (db : Db) (t : PlanTables) (run_id : string) (revision : Z) : list OrchestrationTask :=
  sort_by (λ x y, String.leb (logical_of t x) (logical_of t y))
    (List.filter (λ x, bool_decide (t_run_id x = Some run_id) && bool_decide (t_plan_revision x = Some revision))
       (db_tasks db)).

Section Gates.
Context `{Env, ContractLib, RecipeLib, PlanLib, ProposalLib, ControlLib, GateLib}.

(** A task is integrated with current evidence. *)
Definition task_evidence (t : PlanTables) (x : OrchestrationTask) : option TaskEvidence :=
  e ← pl_evidence t !! t_id x;
  if bool_decide (t_status x = Ts_Completed) && bool_decide (is_Some (t_result x))
     && String.eqb (te_result_digest e) (result_digest (t_result x))
  then Some (MkTaskEvidence (logical_of t x) (Some (te_result_digest e)) (Some (te_artifact_digest e))
               (Some (te_integration_sha e)))
  else None.

Definition in_stages (stages : gset string) (x : OrchestrationTask) : bool :=
  bool_decide (default "" (t_stage_id x) ∈ stages).

Definition isolated_stage_evidence (db : Db) (t : PlanTables) (run_id : string) (revision : Z)
    (plan : WorkflowPlanSnapshot) (stage_id : string) : R (option string) :=
  if unsettled_integration run_id t then Ok None
  else
    try! approved := prerequisite_gates_approved db t run_id revision plan stage_id in
    if negb approved then Ok None
    else
      try! stages := ancestors plan stage_id in
      let expected := length (List.filter (λ f, bool_decide (pt_stage_id (ft_task f) ∈ stages)) (ps_tasks plan)) in
      match mapM (task_evidence t) (List.filter (in_stages stages) (revision_tasks db t run_id revision)) with
      | None => Ok None
      | Some evidence =>
          if negb (Nat.eqb (length evidence) expected) || Nat.eqb expected 0 then Ok None
          else Ok (Some (evidence_digest evidence))
      end.

Definition shared_evidence (t : PlanTables) (x : OrchestrationTask) : option TaskEvidence :=
  if bool_decide (t_status x = Ts_Completed)
  then Some (MkTaskEvidence (logical_of t x) (Some (result_digest (t_result x))) None None)
  else None.

Definition shared_stage_evidence (db : Db) (t : PlanTables) (run_id : string) (revision : Z) (stage_id : string)
    : option string :=
  match List.filter (λ x, bool_decide (t_stage_id x = Some stage_id)) (revision_tasks db t run_id revision) with
  | [] => None
  | rows => evidence_digest <$> mapM (shared_evidence t) rows
  end.

Definition stage_evidence (db : Db) (t : PlanTables) (run_id stage_id : string)
    : R (option (string * option string)) :=
  match current_revision db t run_id with
  | None => Ok None
  | Some (r, p) =>
      match r_isolation r with
      | Is_Isolated =>
          try! plan := with_context (plan_decode (pv_snapshot p)) "invalid plan snapshot" in
          try! digest := isolated_stage_evidence db t run_id (pv_revision p) plan stage_id in
          Ok ((λ d, (d, pl_runs t !! run_id ≫= rp_integration_sha)) <$> digest)
      | Is_Shared =>
          try! _ := with_context (shared_plan_decode (pv_snapshot p)) "invalid plan snapshot" in
          Ok ((λ d, (d, None)) <$> shared_stage_evidence db t run_id (pv_revision p) stage_id)
      end
  end.

(** ** Gates that become due *)

Definition due_candidate (run_id : string) (db : Db) (t : PlanTables) (g : OrchestrationDecisionGate) : bool :=
  pending_run_gate run_id [Gk_Stage] g
  && bool_decide (gp_evidence_digest (columns_of t g) = None)
  && existsb (λ r, is_run run_id r && bool_decide (gp_plan_revision (columns_of t g) = r_plan_revision r)
                   && bool_decide (r_status r = Cs_Running)) (db_runs db).

Definition bind_evidence (digest : string) (sha : option string) (c : GatePlanColumns) : GatePlanColumns :=
  MkGatePlan (gp_scope c) (gp_plan_revision c) (Some digest) sha (gp_reason c) (gp_actor_kind c)
    (gp_actor_id c) (gp_audit_id c).

Definition update_gate_columns (id : string) (f : GatePlanColumns → GatePlanColumns) : PM unit :=
  in_tables (λ t, set_pl_gates (<[id := f (default no_gate_columns (pl_gates t !! id))]> (pl_gates t)) t).

Definition open_due_gate (run_id : string) (g : OrchestrationDecisionGate) : PM (list string) :=
  let! columns := pselect (λ _ t, columns_of t g) in
  let! found := pselect (λ db t, stage_evidence db t run_id (gp_scope columns)) in
  let! found := raise found in
  match found with
  | None => ret []
  | Some (digest, sha) =>
      do! update_gate_columns (g_id g) (bind_evidence digest sha) in
      do! record_gate_opened run_id (g_id g) Gk_Stage (gp_scope columns) (g_question g) in
      ret [g_id g]
  end.

Fixpoint open_due_gates (run_id : string) (candidates : list OrchestrationDecisionGate) : PM (list string) :=
  match candidates with
  | [] => ret []
  | g :: candidates =>
      let! opened := open_due_gate run_id g in
      let! rest := open_due_gates run_id candidates in
      ret (opened ++ rest)
  end.

Definition open_due_stage_gates (run_id : string) : PM (list string) :=
  plan_tx (
    let! candidates := pselect (λ db t, List.filter (due_candidate run_id db t) (db_gates db)) in
    let! opened := open_due_gates run_id candidates in
    do! (if Nat.eqb (length opened) 0 then ret tt
         else
           let! paused := in_world (update_runs (λ r, is_run run_id r && bool_decide (r_status r = Cs_Running))
             (λ r, with_r_last_activity_at now (with_r_control_sequence (r_control_sequence r + 1)
                     (with_r_paused_by (Some "runtime") (with_r_status Cs_Paused r))))) in
           if Nat.eqb paused 1
           then record_event (plan_event run_id Ev_Paused (MkRunActor Ak_Runtime None)
                  "A stage gate is waiting for a decision." None)
           else ret tt) in
    ret opened).

(** ** Resolution *)

Definition is_run_participant (db : Db) (run_id : option string) (terminal : string) : bool :=
  match run_id with
  | None => false
  | Some id =>
      existsb (λ r, is_run id r && bool_decide (r_coordinator_handle r = Some terminal)) (db_runs db)
      || existsb (λ d, bool_decide (d_run_id d = Some id) && bool_decide (d_assignee_handle d = Some terminal))
           (db_dispatches db)
      || existsb (λ l, String.eqb (l_run_id l) id && String.eqb (l_terminal_handle l) terminal) (db_launches db)
      || existsb (λ t, bool_decide (t_run_id t = Some id)
                       && bool_decide (t_created_by_terminal_handle t = Some terminal)) (db_tasks db)
  end.

Definition person_gate (k : RunGateKind) : bool :=
  match k with Gk_Plan | Gk_Stage | Gk_Stall => true | Gk_Decision => false end.

(** The checks between reading the gate and the first write. *)
Definition check_resolution (db : Db) (t : PlanTables) (gate : RunGate) (request : ResolveRunGate)
    (decision : string) : R unit :=
  try! _ := ensure (bool_decide (gt_status gate = Gs_Pending))
    ("gate_not_pending: gate " +:+ gt_id gate +:+ " is " +:+ OrchestrationGateStatus_as_str (gt_status gate)) in
  try! _ := ensure (gt_due gate) "gate_not_due: the stage is not finished yet" in
  try! _ := ensure (Nat.eqb (length (gt_options gate)) 0 || bool_decide (decision ∈ gt_options gate))
    ("gate_invalid_resolution: resolve gate " +:+ gt_id gate +:+ " with one of: "
     +:+ String.concat ", " (gt_options gate)) in
  try! _ := ensure (negb (String.eqb decision "")) "gate_invalid_resolution: a decision is required" in
  try! _ := (match res_caller_terminal request with
             | Some terminal => ensure (negb (person_gate (gt_kind gate)
                                              && is_run_participant db (gt_run_id gate) terminal))
                 ("gate_not_resolvable: a person decides " +:+ RunGateKind_as_str (gt_kind gate)
                  +:+ " gates; the run's own terminals cannot resolve them")
             | None => Ok tt
             end) in
  try! _ := (match gt_evidence_digest gate with
             | Some stored =>
                 match res_expected_evidence_digest request with
                 | Some expected => ensure (String.eqb expected stored)
                     "gate_stale: this gate changed; refresh before deciding"
                 | None => Err (Bail "gate_stale: send the gate's evidenceDigest as expectedEvidenceDigest so a gate that changed is not decided")
                 end
             | None => Ok tt
             end) in
  if bool_decide (gt_kind gate = Gk_Stage)
  then
    try! current := stage_evidence db t (default "" (gt_run_id gate)) (gt_scope gate) in
    ensure (bool_decide (fst <$> current = gt_evidence_digest gate))
      "gate_stale: the stage evidence changed; refresh before deciding"
  else Ok tt.

Definition insert_gate_audit (actor : RunActor) (gate_id reason : string) (payload : json) : PM string :=
  let! id := in_world (orchestration_id "audit") in
  do! in_world (λ w, let db := w_db w in
    if bool_decide (id ∈ a_id <$> db_audits db)
    then (w, Err (Database "UNIQUE constraint failed: orchestrationAuditEvents.id"))
    else (with_db (set_audits (db_audits db ++ [MkAuditEvent id (Some (actor_label actor)) "gate.resolve" gate_id reason])) w,
          Ok tt)) in
  do! in_tables (λ t, set_pl_audits (<[id := MkAuditColumns payload (RunActorKind_as_str (ra_kind actor)) (ra_id actor)]>
        (pl_audits t)) t) in
  ret id.

Definition decided_columns (reason : option string) (actor : RunActor) (audit_id : string) (c : GatePlanColumns)
    : GatePlanColumns :=
  MkGatePlan (gp_scope c) (gp_plan_revision c) (gp_evidence_digest c) (gp_integration_sha c) reason
    (Some (RunActorKind_as_str (ra_kind actor))) (ra_id actor) (Some audit_id).

Definition decided_gate (decision : string) (g : OrchestrationDecisionGate) : OrchestrationDecisionGate :=
  with_g_resolved_at (Some now) (with_g_resolution (Some decision) (with_g_status Gs_Resolved g)).

Definition resumed_run (r : OrchestrationCoordinatorRun) : OrchestrationCoordinatorRun :=
  with_r_last_activity_at now (with_r_control_sequence (r_control_sequence r + 1)
    (with_r_paused_by None (with_r_status Cs_Running r))).

(** [apply] *)
Definition apply_resolution (gate : RunGate) (decision : string) (reason : option string)
    (request : ResolveRunGate) (actor : RunActor) : PM bool :=
  let run_id := default "" (gt_run_id gate) in
  match gt_kind gate with
  | Gk_Decision =>
      do! in_world (update_tasks false (λ t, bool_decide (gt_task_id gate = Some (t_id t))
              && bool_decide (t_status t = Ts_Blocked)) (with_t_status Ts_Ready)) in
      ret false
  | Gk_Stall => ret false
  | Gk_Plan | Gk_Stage =>
      if String.eqb decision PLAN_GATE_APPROVE
      then
        if bool_decide (gt_kind gate = Gk_Plan)
        then
          do! in_world (update_runs (λ r, is_run run_id r && bool_decide (r_status r = Cs_AwaitingApproval)) resumed_run) in
          do! record_event (actor_event run_id Ev_PlanApproved actor (Some (gt_id gate)) "" None) in
          ret false
        else
          let! blocked := pselect (λ db t, existsb (due_run_gate run_id t) (db_gates db)) in
          do! in_world (update_runs (λ r, is_run run_id r && bool_decide (r_status r = Cs_Paused)
                && bool_decide (r_paused_by r = Some "runtime") && bool_decide (r_attention_reason r = None)
                && negb blocked) resumed_run) in
          ret false
      else if String.eqb decision PLAN_GATE_REJECT
      then
        do! (if bool_decide (gt_kind gate = Gk_Plan)
             then record_event (actor_event run_id Ev_PlanRejected actor (Some (gt_id gate)) "" None)
             else ret tt) in
        let reason := default (RunGateKind_as_str (gt_kind gate) +:+ " gate rejected") reason in
        do! cancel_run run_id reason in
        do! record_event (actor_event run_id Ev_Cancelled actor (Some (gt_id gate)) reason None) in
        ret false
      else if String.eqb decision PLAN_GATE_REQUEST_CHANGES
      then
        do! request_run_changes run_id (default "" reason) (default [] (res_task_ids request)) actor (Some (gt_id gate)) in
        do! in_world (update_runs (is_run run_id) (λ r, with_r_control_sequence (r_control_sequence r + 1) r)) in
        ret true
      else fail (Bail ("gate_invalid_resolution: unsupported decision " +:+ decision))
  end.

Definition replayed_resolution (raw : string) : PM RunGateResolution :=
  let! receipt := raise (with_context (gate_receipt_decode raw) "invalid command receipt") in
  ret (with_rgr_replayed true receipt).

Definition gate_row_by_id (db : Db) (id : string) : option OrchestrationDecisionGate :=
  find_where (λ g, String.eqb (g_id g) id) (db_gates db).

(** The statements of the transaction after the receipt was looked up. *)
Definition decide_gate (request : ResolveRunGate) (actor : RunActor) : PM RunGateResolution :=
  let! row := pselect (λ db t, run_gate_from_row t <$> gate_row_by_id db (res_gate_id request)) in
  let! gate := raise (with_context row ("gate_not_found: no gate " +:+ res_gate_id request)) in
  let decision := trim (res_decision request) in
  let! checked := pselect (λ db t, check_resolution db t gate request decision) in
  do! raise checked in
  let reason := trimmed (res_reason request) in
  let! audit_id := insert_gate_audit actor (gt_id gate) (default decision reason)
    (JObject [("decision", JString decision); ("kind", JString (RunGateKind_as_str (gt_kind gate)))]) in
  do! in_world (update_gates (λ g, String.eqb (g_id g) (gt_id gate) && bool_decide (g_status g = Gs_Pending))
        (decided_gate decision)) in
  do! update_gate_columns (gt_id gate) (decided_columns reason actor audit_id) in
  do! (match gt_run_id gate with
       | Some run_id =>
           record_event (with_ne_task_id (gt_task_id gate)
             (actor_event run_id Ev_GateResolved actor (Some (gt_id gate)) decision
               (Some (JObject [("kind", JString (RunGateKind_as_str (gt_kind gate))); ("scope", JString (gt_scope gate));
                               ("resolution", JString decision); ("reason", json_opt reason)]))))
       | None => ret tt
       end) in
  let! changes_requested := apply_resolution gate decision reason request actor in
  let! row := pselect (λ db t, run_gate_from_row t <$> gate_row_by_id db (gt_id gate)) in
  let! resolved := (match row with Some g => ret g | None => not_found end) in
  let! run := (match gt_run_id gate with
               | Some run_id =>
                   let! r := pselect (λ db _, run_by_id db run_id) in
                   match r with Some r => ret (Some (r_status r), r_plan_revision r) | None => not_found end
               | None => ret (None, None)
               end) in
  let receipt := MkResolution (res_request_id request) resolved (gt_run_id gate) (fst run) (snd run)
    changes_requested false in
  do! (match gt_run_id gate with
       | Some run_id => insert_receipt (MkCommandReceipt (res_request_id request) (resolve_digest request) run_id
                          (gate_receipt_encode receipt))
       | None => ret tt
       end) in
  ret receipt.

Definition resolve_run_gate (request : ResolveRunGate) (actor : RunActor) : PM RunGateResolution :=
  do! raise (portable_request_id (res_request_id request)) in
  do! raise (workflow_text (res_gate_id request) 160) in
  do! raise (workflow_text (res_decision request) 4096) in
  do! raise (ensure (match res_reason request with Some r => negb (4096 <? zlen r)%Z | None => true end)
        "reason exceeds 4096 bytes") in
  let digest := resolve_digest request in
  let! seen := run_command_receipt (res_request_id request) digest in
  match seen with
  | Some raw => replayed_resolution raw
  | None =>
      plan_tx (
        let! seen := run_command_receipt (res_request_id request) digest in
        match seen with
        | Some raw => replayed_resolution raw
        | None => decide_gate request actor
        end)
  end.
End Gates.
