(* ===== verification/RunCreation.v ===== *)
(** * RunCreation: a run is created, gets its coordinator and its first plan

    run_lifecycle.rs (one request freezes recipe, profiles and source, inserts the
    run in [planning] and reserves the terminal of its coordinator),
    run_coordinator.rs (the launch state of that coordinator) and
    run_plan_store.rs (creation and first plan in one call, and reading a revision
    back).

    [CreationWorld] puts beside the plan tables the coordinator columns of the
    runs, the personal recipes and the agent profiles.  The catalogue reads the
    workspaces from the same rows ([catalog_view]); a workspace row is joined with
    its project, so a workspace without one is not found.  serde, SHA-256 and the
    commit libgit2 finds at a path are parameters ([CreationLib]); the check of a
    profile is an argument, as in the code. *)

From S2P Require Import Prelude Text Models Store RoleContract Gates Runs Ordering Recipe RecipeFacts Plan WorkflowYaml Catalog Execution PlanStore RunControl GateResolution.
From Stdlib Require Import ZArith Lia Ascii String.
From stdpp Require Import strings gmap pretty prelude.

(** ** Requests and receipts *)

Record CreateRun : Type := MkCreateRun {
  crq_request_id : string;
  crq_workspace_id : string;
  crq_objective : string;
  crq_recipe_source : option WorkflowRecipeSource;
  crq_isolation : option Isolation;
  crq_coordinator_profile_id : string;
  crq_role_profiles : gmap string string;
  crq_worker_profile_id : option string;
  crq_max_concurrent : option Z;
  crq_approval_required : bool;
  crq_stall_policy : option string
}.

Record RunCreated : Type := MkRunCreated {
  rcd_run_id : string;
  rcd_status : string;
  rcd_isolation : Isolation;
  rcd_coordinator_tab_id : option string;
  rcd_coordinator_profile_id : string
}.

Inductive CoordinatorState : Type := Co_None | Co_Reserved | Co_Started | Co_Attention.
#[export] Instance CoordinatorState_eq_dec : EqDecision CoordinatorState.
Proof. solve_decision. Defined.
Definition CoordinatorState_as_str (s : CoordinatorState) : string :=
  match s with
  | Co_None => "none" | Co_Reserved => "reserved" | Co_Started => "started" | Co_Attention => "attention"
  end.

(** The columns of a run only this code reads. *)
Record CoordinatorColumns : Type := MkCoordinator {
  co_state : CoordinatorState;
  co_error : option string;
  co_recipe_source : option string;
  co_recipe_snapshot : option string
}.
Definition no_coordinator : CoordinatorColumns := MkCoordinator Co_None None None None.
Definition with_co_state (state : CoordinatorState) (error : option string) (c : CoordinatorColumns) : CoordinatorColumns :=
  MkCoordinator state error (co_recipe_source c) (co_recipe_snapshot c).

Record WorkflowCoordinatorReceipt : Type := MkCoordinatorReceipt {
  wco_run_id : string;
  wco_tab_id : string;
  wco_workspace_id : string;
  wco_profile_id : option string;
  wco_status : string;
  wco_error : option string
}.

Record PrepareWorkflowPlan : Type := MkPreparePlan {
  ppl_request_id : string;
  ppl_workspace_id : string;
  ppl_run_id : option string;
  ppl_expected_revision : option Z;
  ppl_proposal : WorkflowPlanProposal
}.

Record WorkflowPlanRevision : Type := MkWorkflowPlanRevision {
  wpr_run_id : string;
  wpr_workspace_id : string;
  wpr_revision : Z;
  wpr_status : OrchestrationCoordinatorStatus;
  wpr_current_revision : Z;
  wpr_integration_sha : string;
  wpr_plan : WorkflowPlanSnapshot;
  wpr_previous_revision : option Z;
  wpr_change_reason : option string
}.

(** ** State *)

Record CreationWorld : Type := MkCreationWorld {
  cr_plan : PlanWorld;
  cr_columns : gmap string CoordinatorColumns;
  cr_personal : list PersonalRecipe;
  cr_profiles : list AgentProfile
}.
Abbreviation CRM := (M CreationWorld).

Definition in_run {A} (m : PM A) : CRM A := λ w,
  let (p, r) := m (cr_plan w) in (MkCreationWorld p (cr_columns w) (cr_personal w) (cr_profiles w), r).
Definition set_coordinators (f : gmap string CoordinatorColumns → gmap string CoordinatorColumns) : CRM unit :=
  modify (λ w, MkCreationWorld (cr_plan w) (f (cr_columns w)) (cr_personal w) (cr_profiles w)).
Definition cselect {A} (q : Db → PlanTables → gmap string CoordinatorColumns → A) : CRM A :=
  gets (λ w, q (w_db (pw_world (cr_plan w))) (pw_tables (cr_plan w)) (cr_columns w)).
Definition verify {A} (r : R A) : CRM A := match r with Ok a => ret a | Err e => fail e end.

(** A transaction: identifiers drawn stay drawn. *)
Definition create_tx {A} (m : CRM A) : CRM A := λ w,
  match m w with
  | (w', Ok a) => (w', Ok a)
  | (w', Err e) =>
      (MkCreationWorld
         (MkPlanWorld (MkWorld (w_db (pw_world (cr_plan w))) (w_rng (pw_world (cr_plan w')))) (pw_tables (cr_plan w)))
         (cr_columns w) (cr_personal w) (cr_profiles w), Err e)
  end.

(** The catalogue's view of the same tables. *)
Definition catalog_view (personal : list PersonalRecipe) (sources : list SourceRow) : CatalogDb :=
  MkCatalogDb personal
    ((λ r, MkCatalogWorkspace (sw_workspace_id (sr_source r)) (sw_project_id (sr_source r)) (sw_path (sr_source r))
             (sr_active r) (sr_host_id r)) <$> sources)
    ((λ r, MkCatalogProject (sw_project_id (sr_source r)) (sr_git r)) <$> sources).

Class CreationLib : Type := {
  create_digest : CreateRun → string;                    (** [workflow_digest(("runs.create", request))] *)
  created_encode : RunCreated → string;
  created_decode : string → option RunCreated;
  selection_encode : FrozenRunSelection → string;
  run_source_encode : RunSourceSnapshot → string;
  recipe_snapshot_encode : WorkflowRecipeSnapshot → string;
  recipe_source_encode : WorkflowRecipeSource → string;
  recipe_source_value : WorkflowRecipeSource → json;
  head_commit : string → option string                   (** the commit HEAD names at a path *)
}.
Definition FREEFORM_RECIPE_ID : string := "freeform".

Section Creation.
Context `{Env, ContractLib, RecipeLib, YamlLib, CatalogLib, PlanLib, ProposalLib, ControlLib, GateLib, CreationLib}.

(** ** Creation (run_lifecycle.rs) *)

Definition validate_create (request : CreateRun) : R unit :=
  try! _ := portable_request_id (crq_request_id request) in
  try! _ := workflow_text (crq_workspace_id request) 160 in
  try! _ := workflow_text (crq_objective request) 16384 in
  try! _ := workflow_text (crq_coordinator_profile_id request) 160 in
  try! _ := ensure (match crq_stall_policy request with
                    | Some policy => bool_decide (policy ∈ RUN_STALL_POLICIES)
                    | None => true
                    end) "stallPolicy must be one of ask, auto-failover, wait" in
  try! _ := ensure (match crq_max_concurrent request with
                    | Some value => (1 <=? value)%Z && (value <=? 16)%Z
                    | None => true
                    end) "maxConcurrent must be between 1 and 16" in
  ensure (Nat.leb (size (crq_role_profiles request)) 32) "too many role profile bindings".

(** [RunIsolation::default()] *)
Definition requested_isolation (request : CreateRun) : Isolation := default Is_Isolated (crq_isolation request).

Definition chosen_source (request : CreateRun) : R (option WorkflowRecipeSource) :=
  try! source := (match requested_isolation request, crq_recipe_source request with
                  | Is_Shared, Some _ => Err (Bail "shared runs do not use a recipe")
                  | Is_Shared, None => Ok None
                  | Is_Isolated, Some source => Ok (Some source)
                  | Is_Isolated, None => Ok (Some (BuiltIn FREEFORM_RECIPE_ID))
                  end) in
  try! _ := ensure (match source with
                    | Some (Project workspace _) => String.eqb workspace (crq_workspace_id request)
                    | _ => true
                    end) "project recipe must belong to the run workspace" in
  Ok source.

(** The workspace, checked for the isolation asked for. *)
Definition run_workspace (request : CreateRun) : CRM SourceRow :=
  let! row := cselect (λ _ t _, find_where (λ r, String.eqb (sw_workspace_id (sr_source r)) (crq_workspace_id request))
                                  (pl_sources t)) in
  let! row := verify (with_context row "run workspace not found") in
  do! verify (ensure (sr_active row) "runs require an active workspace") in
  do! verify (ensure (negb (bool_decide (requested_isolation request = Is_Isolated)
                            && (negb (String.eqb (sr_host_id row) LOCAL_HOST_ID) || negb (sr_git row))))
        "isolated runs require an active local Git workspace") in
  ret row.

(** [workflow_catalog_recipe], which changes nothing. *)
Definition catalogued (source : WorkflowRecipeSource) : CRM WorkflowCatalogRecipe := λ w,
  (w, snd (workflow_catalog_recipe source (catalog_view (cr_personal w) (pl_sources (pw_tables (cr_plan w)))))).

Definition selected_recipe (source : option WorkflowRecipeSource) : CRM (option WorkflowCatalogRecipe) :=
  match source with
  | Some source => let! r := catalogued source in ret (Some r)
  | None => ret None
  end.

Definition worker_profile (request : CreateRun) : string :=
  default (crq_coordinator_profile_id request) (crq_worker_profile_id request).

(** Every role of the recipe without a binding gets the worker's profile. *)
Definition bind_role (worker : string) (m : gmap string string) (role : WorkflowRecipeRole) : gmap string string :=
  match m !! wr_id role with Some _ => m | None => <[wr_id role := worker]> m end.
Definition role_bindings (request : CreateRun) (selected : option WorkflowCatalogRecipe) : gmap string string :=
  match selected with
  | Some r => foldl (bind_role (worker_profile request)) (crq_role_profiles request) (wf_roles (cr_recipe r))
  | None => crq_role_profiles request
  end.

Definition required_profiles (request : CreateRun) (bindings : gmap string string) : gset string :=
  list_to_set (snd <$> map_to_list bindings) ∪ {[crq_coordinator_profile_id request; worker_profile request]}.

Definition stored_profiles (required : gset string) (rows : list AgentProfile) : gmap string AgentProfile :=
  list_to_map (reverse ((λ p, (ap_id p, p)) <$> List.filter (λ p, bool_decide (ap_id p ∈ required)) rows)).

Definition creation_proposal (request : CreateRun) (sha : option string) (recipe : WorkflowRecipeSnapshot)
    (bindings : gmap string string) : WorkflowPlanProposal :=
  MkProposal (crq_objective request) (default "" sha) (rs_source recipe) (recipe_hash (rs_recipe recipe))
    (crq_coordinator_profile_id request) bindings (default 4%Z (crq_max_concurrent request)) [].

(** The blocking part: profiles, the source commit and the frozen recipe. *)
Definition freeze_selection (request : CreateRun) (validate_profile : AgentProfile → R unit) (workspace : SourceRow)
    (selected : option WorkflowCatalogRecipe) (bindings : gmap string string) (profiles : gmap string AgentProfile)
    : R (RunSourceSnapshot * FrozenRunSelection) :=
  try! _ := rmap_ (λ entry, validate_profile (snd entry)) (sorted_entries profiles) in
  let sha := head_commit (sw_path (sr_source workspace)) in
  try! _ := ensure (negb (bool_decide (requested_isolation request = Is_Isolated) && bool_decide (sha = None)))
    "isolated runs require a source commit in the workspace" in
  try! recipe := (match selected with
                  | Some s =>
                      try! recipe := recipe_freeze (cr_source s) (cr_recipe s) in
                      try! _ := validate_selection (creation_proposal request sha recipe bindings) recipe
                        (bound_profiles (MkSelection (Some recipe) profiles bindings None) (crq_coordinator_profile_id request)) in
                      Ok (Some recipe)
                  | None => Ok None
                  end) in
  Ok (MkRunSource (sr_source workspace) sha, MkSelection recipe profiles bindings (Some (worker_profile request))).

Definition created_row (request : CreateRun) (run_id : string) (tab : option string) : OrchestrationCoordinatorRun :=
  MkOrchestrationCoordinatorRun run_id (crq_objective request) Cs_Planning tab 2000 now None (crq_workspace_id request)
    (default 4%Z (crq_max_concurrent request)) now None None (crq_approval_required request)
    (default "ask" (crq_stall_policy request)) None (requested_isolation request) None None 0 tab.

(** INSERT with orchestrationCoordinatorRunsTabIdx. *)
Definition insert_created_run (r : OrchestrationCoordinatorRun) : CRM unit :=
  let! taken := cselect (λ db _ _, existsb (λ x, bool_decide (is_Some (r_coordinator_tab_id r))
                                                && bool_decide (r_coordinator_tab_id x = r_coordinator_tab_id r)) (db_runs db)) in
  if taken : bool then verify (Err (Database "UNIQUE constraint failed: orchestrationCoordinatorRuns.coordinator_tab_id"))
  else in_run (in_world (insert_run r)).

Definition created_columns (request : CreateRun) (source : RunSourceSnapshot) (selection : FrozenRunSelection) : RunPlanColumns :=
  MkRunPlan (Some (crq_coordinator_profile_id request)) (Some (selection_encode selection)) (Some (run_source_encode source))
    (match requested_isolation request with Is_Isolated => src_source_sha source | Is_Shared => None end) None.

Definition created_event (request : CreateRun) (run_id : string) (actor : RunActor)
    (recipe_source : option WorkflowRecipeSource) (sha : option string) : NewRunEvent :=
  plan_event run_id Ev_Created actor (crq_objective request)
    (Some (JObject [("isolation", JString (Isolation_as_str (requested_isolation request)));
                    ("recipe", match recipe_source with Some s => recipe_source_value s | None => JNull end);
                    ("sourceSha", json_opt sha);
                    ("approvalRequired", JBool (crq_approval_required request))])).

(** The writes of a creation. *)
Definition insert_creation (request : CreateRun) (actor : RunActor) (reserve : bool)
    (recipe_source : option WorkflowRecipeSource) (source : RunSourceSnapshot) (selection : FrozenRunSelection) : CRM RunCreated :=
  let! run_id := in_run (in_world (orchestration_id "run")) in
  let! tab := (if reserve then let! uuid := in_run new_uuid in ret (Some uuid) else ret None) in
  do! insert_created_run (created_row request run_id tab) in
  do! in_run (in_tables (λ t, set_pl_runs (<[run_id := created_columns request source selection]> (pl_runs t)) t)) in
  do! set_coordinators (<[run_id := MkCoordinator (if reserve then Co_Reserved else Co_None) None
         (recipe_source_encode <$> recipe_source) (recipe_snapshot_encode <$> sel_recipe selection)]>) in
  do! in_run (record_event (created_event request run_id actor recipe_source (src_source_sha source))) in
  let receipt := MkRunCreated run_id "planning" (requested_isolation request) tab (crq_coordinator_profile_id request) in
  do! in_run (insert_receipt (MkCommandReceipt (crq_request_id request) (create_digest request) run_id (created_encode receipt))) in
  ret receipt.

Definition replayed_creation (raw : string) : CRM (RunCreated * bool) :=
  let! receipt := verify (with_context (created_decode raw) "invalid creation receipt") in ret (receipt, false).

(** The transaction of a creation. *)
Definition create_in_tx (request : CreateRun) (actor : RunActor) (reserve : bool)
    (recipe_source : option WorkflowRecipeSource) (source : RunSourceSnapshot) (selection : FrozenRunSelection)
    : CRM (RunCreated * bool) :=
  let! seen := in_run (run_command_receipt (crq_request_id request) (create_digest request)) in
  match seen with
  | Some raw => replayed_creation raw
  | None =>
      let! active := cselect (λ db _ _, find_where
        (λ r, String.eqb (r_workspace_id r) (crq_workspace_id request) && holds_workspace r) (db_runs db)) in
      match active with
      | Some r => verify (Err (Bail ("run_workspace_busy: a run is already active in this workspace: " +:+ r_id r)))
      | None =>
          let! receipt := insert_creation request actor reserve recipe_source source selection in
          ret (receipt, true)
      end
  end.

Definition create_run_with (request : CreateRun) (validate_profile : AgentProfile → R unit) (actor : RunActor)
    (reserve_coordinator : bool) : CRM (RunCreated * bool) :=
  do! verify (validate_create request) in
  let! seen := in_run (run_command_receipt (crq_request_id request) (create_digest request)) in
  match seen with
  | Some raw => replayed_creation raw
  | None =>
      let! workspace := run_workspace request in
      let! recipe_source := verify (chosen_source request) in
      let! selected := selected_recipe recipe_source in
      let bindings := role_bindings request selected in
      let required := required_profiles request bindings in
      let! rows := gets cr_profiles in
      let profiles := stored_profiles required rows in
      do! verify (ensure (Nat.eqb (size profiles) (size required)) "run references a missing agent profile") in
      let! frozen := verify (freeze_selection request validate_profile workspace selected bindings profiles) in
      create_tx (create_in_tx request actor reserve_coordinator recipe_source (fst frozen) (snd frozen))
  end.

Definition create_run (request : CreateRun) (validate_profile : AgentProfile → R unit) (actor : RunActor)
    : CRM (RunCreated * bool) := create_run_with request validate_profile actor true.

(** ** The coordinator (run_coordinator.rs) *)

Definition coordinator_columns (m : gmap string CoordinatorColumns) (run : string) : CoordinatorColumns :=
  default no_coordinator (m !! run).

(** [receipt] *)
Definition coordinator_receipt (t : PlanTables) (m : gmap string CoordinatorColumns) (r : OrchestrationCoordinatorRun)
    : R WorkflowCoordinatorReceipt :=
  try! tab := with_context (r_coordinator_tab_id r) "unexpected null; try decoding as an Option" in
  let c := coordinator_columns m (r_id r) in
  Ok (MkCoordinatorReceipt (r_id r) tab (r_workspace_id r) (pl_runs t !! r_id r ≫= rp_coordinator_profile_id)
        (CoordinatorState_as_str (co_state c)) (co_error c)).

Definition has_coordinator (m : gmap string CoordinatorColumns) (r : OrchestrationCoordinatorRun) : bool :=
  bool_decide (is_Some (r_coordinator_tab_id r)) && negb (bool_decide (co_state (coordinator_columns m (r_id r)) = Co_None)).

Definition optional_receipt (p : gmap string CoordinatorColumns → OrchestrationCoordinatorRun → bool)
    : CRM (option WorkflowCoordinatorReceipt) :=
  let! row := cselect (λ db t m, (λ r, coordinator_receipt t m r) <$> find_where (p m) (db_runs db)) in
  match row with
  | None => ret None
  | Some r => let! receipt := verify r in ret (Some receipt)
  end.

Definition workflow_coordinator_for_terminal (terminal : string) : CRM (option WorkflowCoordinatorReceipt) :=
  optional_receipt (λ m r, bool_decide (r_coordinator_tab_id r = Some terminal) && has_coordinator m r).

Definition workflow_coordinator (run_id : string) : CRM (option WorkflowCoordinatorReceipt) :=
  optional_receipt (λ m r, is_run run_id r && has_coordinator m r).

Definition spawn_allowed (t : PlanTables) (m : gmap string CoordinatorColumns) (terminal : string)
    (r : OrchestrationCoordinatorRun) : bool :=
  bool_decide (r_coordinator_tab_id r = Some terminal)
  && bool_decide (co_state (coordinator_columns m (r_id r)) = Co_Reserved) && bool_decide (r_status r = Cs_Planning)
  && negb (existsb (λ c, String.eqb (ct_run_id c) (r_id r) && match ct_kind c with Ck_Coordinator => true | Ck_Worker => false end)
             (pl_targets t)).

Definition require_workflow_coordinator_spawnable (terminal : string) : CRM unit :=
  let! allowed := cselect (λ db t m, existsb (spawn_allowed t m terminal) (db_runs db)) in
  verify (ensure allowed "run coordinator launch is no longer authorized").

(** An UPDATE of the coordinator columns: the runs it changed. *)
Definition update_coordinators (p : gmap string CoordinatorColumns → OrchestrationCoordinatorRun → bool)
    (f : CoordinatorColumns → CoordinatorColumns) : CRM nat :=
  let! rows := cselect (λ db _ m, List.filter (p m) (db_runs db)) in
  do! set_coordinators (λ m, foldr (λ r m', <[r_id r := f (coordinator_columns m (r_id r))]> m') m rows) in
  ret (length rows).

Definition reserve_run_coordinator_relaunch (run_id : string) : CRM WorkflowCoordinatorReceipt :=
  let! changed := update_coordinators
    (λ m r, is_run run_id r && bool_decide (r_status r = Cs_Planning) && bool_decide (is_Some (r_coordinator_tab_id r))
            && bool_decide (co_state (coordinator_columns m (r_id r)) ∈ [Co_Started; Co_Attention]))
    (with_co_state Co_Reserved None) in
  do! verify (ensure (Nat.eqb changed 1) "run coordinator cannot be relaunched") in
  let! receipt := workflow_coordinator run_id in
  verify (with_context receipt "run coordinator not found").

Definition coordinator_event (run_id tab_id : string) (error : option string) : NewRunEvent :=
  with_ne_payload (Some (JObject [("tabId", JString tab_id)])) (with_ne_summary (default "" error)
    (with_ne_actor_kind (Some Ak_Runtime)
      (new_run_event run_id (if bool_decide (is_Some error) then Ev_Attention else Ev_CoordinatorStarted)))).

Definition settle_workflow_coordinator (run_id tab_id : string) (error : option string) : CRM WorkflowCoordinatorReceipt :=
  let error := (λ e, of_chars (take 1024 (chars e))) <$> error in
  do! create_tx (
    let! changed := update_coordinators
      (λ m r, is_run run_id r && bool_decide (r_coordinator_tab_id r = Some tab_id)
              && bool_decide (co_state (coordinator_columns m (r_id r)) = Co_Reserved))
      (with_co_state (if bool_decide (is_Some error) then Co_Attention else Co_Started) error) in
    if Nat.eqb changed 1 then in_run (record_event (coordinator_event run_id tab_id error)) else ret tt) in
  let! receipt := workflow_coordinator run_id in
  let! receipt := verify (with_context receipt "coordinator reservation not found") in
  do! verify (ensure (String.eqb (wco_tab_id receipt) tab_id) "coordinator terminal identity does not match") in
  ret receipt.

Definition recovery_error (state : CoordinatorState) : string :=
  match state with
  | Co_Started => "Coordinator process did not survive the host restart. Inspect its retained terminal, then request changes or cancel the run."
  | _ => "Coordinator launch was interrupted. Inspect its terminal, then request changes or cancel the run."
  end.

Definition recover_workflow_coordinators : CRM unit :=
  do! update_coordinators
        (λ m r, bool_decide (r_status r = Cs_Planning)
                && bool_decide (co_state (coordinator_columns m (r_id r)) ∈ [Co_Reserved; Co_Started]))
        (λ c, with_co_state Co_Attention (Some (recovery_error (co_state c))) c) in
  ret tt.

(** ** Reading a run (run_lifecycle.rs) *)

Definition run_columns (t : PlanTables) (run_id : string) : RunPlanColumns :=
  default (MkRunPlan None None None None None) (pl_runs t !! run_id).

Definition run_coordinator_launch (run_id : string) : CRM (AgentProfile * WorkflowCoordinatorReceipt) :=
  let! row := cselect (λ db t _, (λ _, run_columns t run_id) <$> run_by_id db run_id) in
  let! columns := verify (with_context row ("run not found: " +:+ run_id)) in
  let! raw := verify (with_context (rp_profiles_snapshot columns) "run has no frozen profiles") in
  let! selection := verify (with_context (selection_decode raw) "invalid frozen selection") in
  let! profile_id := verify (with_context (rp_coordinator_profile_id columns) "run has no coordinator profile") in
  let! profile := verify (with_context (sel_profiles selection !! profile_id) "run coordinator profile is unavailable") in
  let! receipt := workflow_coordinator run_id in
  let! receipt := verify (with_context receipt "run has no coordinator terminal") in
  ret (profile, receipt).

Definition run_worker_agent_type (run_id : string) : CRM (option string) :=
  let! raw := cselect (λ db t _, _ ← run_by_id db run_id; rp_profiles_snapshot (run_columns t run_id)) in
  match raw with
  | None => ret None
  | Some raw =>
      let! selection := verify (with_context (selection_decode raw) "invalid frozen selection") in
      ret (id ← sel_worker_profile_id selection; p ← sel_profiles selection !! id; Some (ap_agent_type p))
  end.

(** ** Creation and first plan (run_plan_store.rs) *)

Definition workflow_plan_revision (run_id : string) (revision : option Z) : CRM WorkflowPlanRevision :=
  let! row := cselect (λ db t _,
    r ← find_where (λ r, is_run run_id r && bool_decide (r_isolation r = Is_Isolated)) (db_runs db);
    n ← (match revision with Some n => Some n | None => r_plan_revision r end);
    p ← revision_of t run_id n; Some (r, p, rp_integration_sha (run_columns t run_id))) in
  let! row := verify (with_context row "run plan not found") in
  let '(r, p, sha) := row in
  let! current := verify (with_context (r_plan_revision r) "unexpected null; try decoding as an Option") in
  let! plan := verify (with_context (plan_decode (pv_snapshot p)) "invalid plan snapshot") in
  ret (MkWorkflowPlanRevision run_id (r_workspace_id r) (pv_revision p) (r_status r) current (default "" sha) plan
         (pv_previous_revision p) (pv_change_reason p)).

Definition task_input (task : WorkflowPlanTask) : RunPlanTaskInput :=
  MkPlanTaskInput (pt_id task) (pt_title task) (pt_spec task) (pt_stage_id task) (Some (pt_role_id task))
    (pt_depends_on task) (Some (pt_inputs task)) (pt_corrects_task_id task).

Definition runtime_actor : RunActor := MkRunActor Ak_Runtime None.

Definition prepared_run (request : PrepareWorkflowPlan) : CreateRun :=
  let proposal := ppl_proposal request in
  MkCreateRun (ppl_request_id request) (ppl_workspace_id request) (pp_objective proposal)
    (Some (pp_recipe_source proposal)) (Some Is_Isolated) (pp_coordinator_profile_id proposal)
    (pp_role_profiles proposal) None (Some (pp_max_concurrent proposal)) true None.

Definition prepare_workflow_plan (request : PrepareWorkflowPlan) (validate_profile : AgentProfile → R unit)
    : CRM WorkflowPlanRevision :=
  let! run_id := (match ppl_run_id request with
                  | Some run_id => ret run_id
                  | None => let! created := create_run_with (prepared_run request) validate_profile runtime_actor false in
                            ret (rcd_run_id (fst created))
                  end) in
  let! proposed := in_run (propose_run_plan run_id
    (MkPlanInput (Some (ppl_request_id request +:+ ".plan")) [] (task_input <$> pp_tasks (ppl_proposal request)) None
       (Some (pp_max_concurrent (ppl_proposal request)))) runtime_actor) in
  do! verify (ensure (negb (bool_decide (rpp_status proposed = Cs_Planning))) "run plan was not accepted") in
  workflow_plan_revision run_id (Some (rpp_revision proposed)).
End Creation.
