(* ===== verification/GateResolutionFacts.v ===== *)
(** * GateResolutionFacts: decisions are checked, recorded once and kept

    [decision_checked]: a gate is decided only while it is pending and due, by
    somebody who may, on the evidence they were shown; the decision, who made it
    and its audit row are stored.  [due_gates_opened]: the gates that open are
    exactly those whose stage is finished, each bound to that evidence, and the
    run pauses for them. *)

From S2P Require Import Prelude Text Models Store StoreFacts RoleContract Gates Runs Ordering Recipe RecipeFacts Plan PlanFacts Catalog Execution ExecutionFacts PlanStore PlanStoreFacts RunControl RunControlFacts GateResolution.
From Stdlib Require Import ZArith Lia Ascii String.
From stdpp Require Import strings gmap pretty prelude.

(** ** The stages a gate is about *)

Section Collecting.
Context (W : relation string) (b : string).

(** Everything found is [b] or before it; what [b] or a found stage waits for is
    found or pending. *)
Definition collecting (seen : gset string) (pending : list string) : Prop :=
  (∀ a, a ∈ seen ∨ a ∈ pending → a = b ∨ tc W b a) ∧ (b ∈ seen ∨ b ∈ pending) ∧
  (∀ a d, a ∈ seen → W a d → d ∈ seen ∨ d ∈ pending).

Lemma collecting_start : collecting ∅ [b].
Proof.
  split_and!; [|right; by left|by intros a d Ha%not_elem_of_empty].
  intros a [?%not_elem_of_empty|?%list_elem_of_singleton]; [done|by left].
Qed.

Lemma collecting_done seen a : collecting seen [] → a ∈ seen ↔ a = b ∨ tc W b a.
Proof.
  intros (Hin & Hb & Hout). assert (b ∈ seen) as Hbs by (destruct Hb as [?|?%elem_of_nil]; done).
  split; [by auto|]. intros [->|Ht]; [done|].
  assert (∀ x, tc W x a → x ∈ seen → a ∈ seen) as Hgo; [|by eauto]. clear Ht. intros x.
  induction 1 as [x a Hxa|x y a Hxy _ IH]; intros Hx.
  - by destruct (Hout x a Hx Hxa) as [?|?%not_elem_of_nil].
  - apply IH. by destruct (Hout x y Hx Hxy) as [?|?%not_elem_of_nil].
Qed.

Lemma collecting_skip seen id pending : collecting seen (id :: pending) → id ∈ seen → collecting seen pending.
Proof.
  intros (Hin & Hb & Hout) Hid. split_and!.
  - intros a Ha. apply Hin. rewrite elem_of_cons. tauto.
  - rewrite elem_of_cons in Hb. destruct Hb as [?|[->|?]]; auto.
  - intros a d Ha Hd. destruct (Hout a d Ha Hd) as [?|Hp]; [by left|].
    apply elem_of_cons in Hp as [->|?]; [by left|by right].
Qed.

Lemma collecting_visit seen pending s :
  collecting seen (ws_id s :: pending) → (∀ d, d ∈ ws_depends_on s ↔ W (ws_id s) d) →
  collecting ({[ws_id s]} ∪ seen) (reverse (ws_depends_on s) ++ pending).
Proof.
  intros (Hin & Hb & Hout) Hw.
  assert (ws_id s = b ∨ tc W b (ws_id s)) as Hsb by (apply Hin; right; by left).
  split_and!.
  - intros a. rewrite elem_of_union, elem_of_singleton, elem_of_app, elem_of_reverse.
    intros [[->|?]|[Hd|?]]; [done|by apply Hin; left| |apply Hin; right; by right].
    right. apply Hw in Hd. destruct Hsb as [<-|Hsb]; [by apply tc_once|by eapply tc_r].
  - rewrite elem_of_cons in Hb. rewrite elem_of_union, elem_of_singleton, elem_of_app. tauto.
  - intros a d. rewrite !elem_of_union, !elem_of_singleton, elem_of_app, elem_of_reverse. intros [->|Ha] Hd.
    + right. left. by apply Hw.
    + destruct (Hout a d Ha Hd) as [?|Hp]; [auto|]. apply elem_of_cons in Hp as [->|?]; auto.
Qed.

End Collecting.

Section Ancestors.
Context (plan : WorkflowPlanSnapshot) (b : string).
Hypothesis Hnd : NoDup (ws_id <$> plan_stages plan).
Hypothesis Hknown : ∀ s d, s ∈ plan_stages plan → d ∈ ws_depends_on s → d ∈ (ws_id <$> plan_stages plan).
Local Abbreviation W := (waits_for ws_id ws_depends_on (plan_stages plan)).

Lemma ancestors_walk_spec fuel seen pending :
  collecting W b seen pending → (∀ d, d ∈ pending → d ∈ (ws_id <$> plan_stages plan)) →
  length pending + edges_left seen (plan_stages plan) ≤ fuel →
  ∃ A, ancestors_walk fuel plan seen pending = Some (Ok A) ∧ ∀ a, a ∈ A ↔ a = b ∨ tc W b a.
Proof.
  revert seen pending. induction fuel as [|fuel IH]; intros seen [|id pending] Hc Hp Hf; cbn [ancestors_walk].
  1,3: exists seen; split; [done|]; intros a; by apply collecting_done.
  { cbn in Hf. lia. }
  case_bool_decide as Hid.
  { apply IH; [by eapply collecting_skip|intros d Hd; apply Hp; by right|cbn in Hf; lia]. }
  destruct (proj1 (list_elem_of_fmap ws_id _ id) (Hp id ltac:(left))) as (s & -> & Hin).
  rewrite (stage_of_elem plan Hnd s Hin). apply IH; [by apply collecting_visit; [|intros d; symmetry; apply waits_for_stage]| |].
  - intros d. rewrite elem_of_app, elem_of_reverse. intros [Hd|Hd]; [by eapply Hknown|]. apply Hp. by right.
  - pose proof (edges_left_visit seen (plan_stages plan) s Hin Hid).
    rewrite length_app, length_reverse. cbn in Hf. lia.
Qed.
End Ancestors.

(** The stages a gate collects are its own and all before it, and the walk has
    fuel enough. *)
Lemma stage_ancestors_total plan s :
  orderable ws_id ws_depends_on (plan_stages plan) → s ∈ plan_stages plan →
  ∃ A, ancestors plan (ws_id s) = Ok A ∧
       ∀ a, a ∈ A ↔ a = ws_id s ∨ stage_before (rs_recipe (ps_recipe plan)) (ws_id s) a.
Proof.
  intros (Hnd & Hknown & _) Hs.
  destruct (ancestors_walk_spec plan (ws_id s) Hnd Hknown (1 + stage_edges (plan_stages plan)) ∅ [ws_id s]) as (A & HA & Hspec).
  - apply collecting_start.
  - intros d ->%list_elem_of_singleton. by apply list_elem_of_fmap_2.
  - rewrite edges_left_empty. done.
  - exists A. split; [|done]. unfold ancestors. unfold plan_stages in HA. by rewrite HA.
Qed.

(** What a stage of any stored plan waits for. *)
Definition stage_needs (plan : WorkflowPlanSnapshot) (a d : string) : Prop :=
  ∃ s, stage_of plan a = Some s ∧ d ∈ ws_depends_on s.

Lemma ancestors_walk_found plan b fuel seen pending A :
  collecting (stage_needs plan) b seen pending → ancestors_walk fuel plan seen pending = Some (Ok A) →
  ∀ a, a ∈ A ↔ a = b ∨ tc (stage_needs plan) b a.
Proof.
  revert seen pending. induction fuel as [|fuel IH]; intros seen [|id pending] Hc Hw; cbn [ancestors_walk] in Hw; try done.
  1,2: injection Hw as <-; intros a; by apply collecting_done.
  case_bool_decide as Hid; [by eapply IH; [eapply collecting_skip|]|].
  destruct (stage_of plan id) as [s|] eqn:E; [|done].
  assert (ws_id s = id) as <- by (unfold stage_of in E; by apply find_where_Some in E as [_ ?%String.eqb_eq]).
  eapply IH; [|exact Hw]. apply collecting_visit; [done|]. intros d. unfold stage_needs. rewrite E. naive_solver.
Qed.
Lemma ancestors_found plan b A :
  ancestors plan b = Ok A → ∀ a, a ∈ A ↔ a = b ∨ tc (stage_needs plan) b a.
Proof.
  unfold ancestors. destruct (ancestors_walk _ _ _ _) as [[A'|]|] eqn:E; intros [= <-].
  eapply ancestors_walk_found; [|exact E]. apply collecting_start.
Qed.

Definition gate_of (w : PlanWorld) (id : string) : option OrchestrationDecisionGate :=
  gate_row_by_id (w_db (pw_world w)) id.

(** A gate that is no longer pending keeps its row and its columns. *)
Definition decided_kept (w w' : PlanWorld) : Prop := ∀ id g,
  gate_of w id = Some g → g_status g ≠ Gs_Pending →
  gate_of w' id = Some g ∧ pl_gates (pw_tables w') !! id = pl_gates (pw_tables w) !! id.
#[export] Instance decided_kept_preorder : PreOrder decided_kept.
Proof.
  split; [by intros w id g|]. intros w1 w2 w3 H12 H23 id g Hg Hs.
  destruct (H12 _ _ Hg Hs) as [Hg2 <-]. by apply H23.
Qed.

Section Facts.
Context `{Env, ContractLib, RecipeLib, PlanLib, ProposalLib, ControlLib, GateLib}.

Lemma kept_same w w' :
  gates_of w' = gates_of w → pl_gates (pw_tables w') = pl_gates (pw_tables w) → decided_kept w w'.
Proof.
  intros Hg Hc id g Hid _. unfold gate_of, gate_row_by_id in *. fold (gates_of w'). rewrite Hg. by rewrite Hc.
Qed.

Lemma kept_gates p f :
  (∀ g, p g = true → g_status g = Gs_Pending) → (∀ g, g_id (f g) = g_id g) →
  guarantees decided_kept (in_world (update_gates p f)).
Proof.
  intros Hp Hf w w' n (v & [-> _]%update_gates_ok & ->)%in_world_ok id g Hid Hs. split; [|done].
  unfold gate_of, gate_row_by_id in *. cbn. rewrite (find_update_where g_id), Hid by done. cbn.
  destruct (p g) eqn:E; [by apply Hp in E|done].
Qed.

Lemma kept_event event : guarantees decided_kept (record_event event).
Proof.
  intros w w' u [Hev Ht]%event_recorded. apply kept_same; [by apply events_only_gates|by rewrite Ht].
Qed.
Lemma kept_tasks sr p f : guarantees decided_kept (in_world (update_tasks sr p f)).
Proof. intros w w' n (v & [-> _]%update_tasks_ok & ->)%in_world_ok. by apply kept_same. Qed.
Lemma kept_runs p f : guarantees decided_kept (in_world (update_runs p f)).
Proof. intros w w' n (v & (-> & _)%update_runs_ok & ->)%in_world_ok. by apply kept_same. Qed.
Lemma kept_revision p : guarantees decided_kept (insert_plan_revision p).
Proof. intros w w' u (_ & _ & ->)%insert_plan_revision_ok. by apply kept_same. Qed.
Lemma kept_uuid : guarantees decided_kept new_uuid.
Proof. intros w w' id Hm. unfold new_uuid in Hm. simplify_eq. by apply kept_same. Qed.
Lemma kept_cancel run reason : guarantees decided_kept (cancel_run run reason).
Proof.
  intros w w' u Hst%cancel_run_ok id g Hid Hs. rewrite (untouched_gate_columns _ _ (stopped_frame _ _ _ _ Hst)).
  split; [|done]. unfold gate_of, gate_row_by_id in *. fold (gates_of w'). rewrite (stopped_gates _ _ _ _ Hst).
  rewrite (find_update_where g_id) by done. fold (gates_of w) in Hid. rewrite Hid. cbn.
  unfold open_of. by rewrite (bool_decide_false (g_status g = _)), andb_false_r.
Qed.
End Facts.
#[export] Hint Resolve kept_event kept_tasks kept_runs kept_revision kept_uuid kept_cancel : runs.

Section Decisions.
Context `{Env, ContractLib, RecipeLib, PlanLib, ProposalLib, ControlLib, GateLib}.

Lemma kept_changes run reason ids actor gate : guarantees decided_kept (request_run_changes run reason ids actor gate).
Proof.
  unfold request_run_changes, ensure_no_active_work, invalidate_gates. by_statements. apply kept_gates; [|done]. intros g Hg. by split_bools.
Qed.

Lemma kept_apply gate decision reason request actor :
  guarantees decided_kept (apply_resolution gate decision reason request actor).
Proof. pose proof kept_changes. unfold apply_resolution. by_statements. Qed.

(** *** What [decide_gate] checked and wrote *)

Lemma checks_inv db t gate request decision :
  check_resolution db t gate request decision = Ok tt →
  gt_status gate = Gs_Pending ∧ gt_due gate = true ∧
  (gt_options gate ≠ [] → decision ∈ gt_options gate) ∧ decision ≠ "" ∧
  (∀ terminal, res_caller_terminal request = Some terminal → person_gate (gt_kind gate) = true →
     is_run_participant db (gt_run_id gate) terminal = false) ∧
  (∀ d, gt_evidence_digest gate = Some d → res_expected_evidence_digest request = Some d) ∧
  (gt_kind gate = Gk_Stage → ∃ current, stage_evidence db t (default "" (gt_run_id gate)) (gt_scope gate) = Ok current ∧
     fst <$> current = gt_evidence_digest gate).
Proof.
  unfold check_resolution. intros Hc.
  apply rbind_ok_inv in Hc as ([] & Hk1%ensure_ok & Hc). apply rbind_ok_inv in Hc as ([] & Hk2%ensure_ok & Hc).
  apply rbind_ok_inv in Hc as ([] & Hk3%ensure_ok & Hc). apply rbind_ok_inv in Hc as ([] & Hk4%ensure_ok & Hc).
  apply rbind_ok_inv in Hc as ([] & Hk5 & Hc). apply rbind_ok_inv in Hc as ([] & Hk6 & Hc). split_bools. split_and!.
  - done.
  - done.
  - intros Hne. apply orb_true_iff in Hk3 as [Hk3%Nat.eqb_eq|Hk3]; [by apply nil_length_inv in Hk3|by split_bools].
  - intros ->. done.
  - intros terminal Ht Hk. rewrite Ht in Hk5. apply ensure_ok in Hk5. split_bools. rewrite Hk in Hk5. done.
  - intros d Hd. rewrite Hd in Hk6. destruct (res_expected_evidence_digest request) as [x|]; [|done].
    apply ensure_ok, String.eqb_eq in Hk6. by subst.
  - intros Hk. rewrite Hk in Hc. cbn in Hc. apply rbind_ok_inv in Hc as (current & Hcur & Hc%ensure_ok). split_bools. eauto.
Qed.

(** The state between the decision's own rows and its effect on the run. *)
Record decision_written (request : ResolveRunGate) (actor : RunActor) (g : OrchestrationDecisionGate)
    (w w1 : PlanWorld) : Prop := {
  written_gates : gates_of w1 = update_where
    (λ x, String.eqb (g_id x) (g_id g) && bool_decide (g_status x = Gs_Pending))
    (decided_gate (trim (res_decision request))) (gates_of w);
  written_columns : ∃ audit, pl_gates (pw_tables w1) =
    <[g_id g := decided_columns (trimmed (res_reason request)) actor audit (columns_of (pw_tables w) g)]> (pl_gates (pw_tables w));
  written_tables : ∃ audits, pw_tables w1 = set_pl_audits audits (set_pl_gates (pl_gates (pw_tables w1)) (pw_tables w));
  written_runs : runs_of w1 = runs_of w;
  written_tasks : tasks_of w1 = tasks_of w;
  written_launches : launches_of w1 = launches_of w
}.

Lemma insert_gate_audit_ok actor gate_id reason payload w w' id :
  insert_gate_audit actor gate_id reason payload w = (w', Ok id) →
  gates_of w' = gates_of w ∧ runs_of w' = runs_of w ∧ tasks_of w' = tasks_of w ∧ launches_of w' = launches_of w ∧
  ∃ audits, pw_tables w' = set_pl_audits audits (pw_tables w).
Proof.
  unfold insert_gate_audit. intros Hm. do 3 inv_ok Hm. inv_ok Hm. apply in_world_ok in Hstep as (v & Hv & ->).
  unfold orchestration_id in Hv. simplify_eq. apply in_world_ok in Hstep0 as (v & Hv & ->). cbn in Hv.
  case_bool_decide; [done|]. simplify_eq. apply in_tables_ok in Hstep1 as ->. split_and!; try done. by eexists.
Qed.

Lemma gate_of_id w id g : gate_of w id = Some g → g ∈ gates_of w ∧ g_id g = id.
Proof. apply (find_key_Some g_id). Qed.

Lemma optional_event_ok {A} (o : option A) (event : A → NewRunEvent) w w' u :
  (match o with Some x => record_event (event x) | None => ret tt end) w = (w', Ok u) →
  events_only (pw_world w) (pw_world w') ∧ pw_tables w' = pw_tables w.
Proof. destruct o; [apply event_recorded|]. intros Hm. inv_ok Hm. done. Qed.

(** The receipt of a decision; a gate without a run has none. *)
Definition decision_receipt (request : ResolveRunGate) (g : OrchestrationDecisionGate) (res : RunGateResolution)
    : list CommandReceipt :=
  match g_run_id g with
  | Some run_id => [MkCommandReceipt (res_request_id request) (resolve_digest request) run_id (gate_receipt_encode res)]
  | None => []
  end.

Lemma decide_gate_ok request actor w w' res :
  decide_gate request actor w = (w', Ok res) →
  ∃ g w1 w2 changes, gate_of w (res_gate_id request) = Some g ∧
    check_resolution (w_db (pw_world w)) (pw_tables w) (run_gate_from_row (pw_tables w) g) request
      (trim (res_decision request)) = Ok tt ∧
    decision_written request actor g w w1 ∧
    apply_resolution (run_gate_from_row (pw_tables w) g) (trim (res_decision request)) (trimmed (res_reason request))
      request actor w1 = (w2, Ok changes) ∧
    pw_world w' = pw_world w2 ∧
    pw_tables w' = set_pl_receipts (pl_receipts (pw_tables w2) ++ decision_receipt request g res) (pw_tables w2) ∧
    rgr_replayed res = false ∧
    (∃ g', gate_of w2 (g_id g) = Some g' ∧ rgr_gate res = run_gate_from_row (pw_tables w2) g') ∧
    (is_Some (g_run_id g) → receipt_row (res_request_id request) (pw_tables w2) = None).
Proof.
  unfold decide_gate. intros Hm. do 13 inv_ok Hm. inv_ok Hm. apply pselect_ok in Hstep as [-> ->].
  apply raise_ok in Hstep0 as [-> Hg%with_context_ok]. apply fmap_Some in Hg as (g & Hg & ->).
  apply pselect_ok in Hstep1 as [-> ->]. apply raise_ok in Hstep2 as [-> Hchk].
  apply insert_gate_audit_ok in Hstep3 as (Hg3 & Hr3 & Ht3 & Hl3 & audits & Htab3).
  apply in_world_ok in Hstep4 as (v4 & [-> _]%update_gates_ok & ->).
  unfold update_gate_columns in Hstep5. apply in_tables_ok in Hstep5 as ->.
  apply optional_event_ok in Hstep6 as [Hev6 Htab6]. apply pselect_ok in Hstep8 as [-> ->].
  destruct (fmap _ _) as [resolved|] eqn:Eres in Hstep9; [|done]. inv_ok Hstep9.
  apply fmap_Some in Eres as (g' & Hg' & ->).
  assert (s10 = s9) as ->.
  { destruct (gt_run_id _); [|by inv_ok Hstep10]. inv_ok Hstep10. apply pselect_ok in Hstep as [-> ->].
    destruct (run_by_id _ _); [by inv_ok Hstep10|done]. }
  eexists g, s6, s9, a7. split_and!; try done.
  - by destruct a2.
  - split; unfold gates_of, runs_of, tasks_of, launches_of in *.
    + by rewrite (events_only_gates _ _ Hev6); cbn; rewrite Hg3.
    + rewrite Htab6. cbn. rewrite Htab3. cbn. by eexists.
    + rewrite Htab6. cbn. rewrite Htab3. by eexists.
    + by rewrite (events_only_runs _ _ Hev6).
    + by rewrite (events_only_tasks _ _ Hev6).
    + by rewrite (events_only_launches _ _ Hev6).
  - cbn in Hstep11. destruct (g_run_id g); [by apply insert_receipt_ok in Hstep11 as [_ ->]|by inv_ok Hstep11].
  - unfold decision_receipt. cbn in Hstep11 |- *. destruct (g_run_id g); [by apply insert_receipt_ok in Hstep11 as [_ ->]|].
    inv_ok Hstep11. rewrite app_nil_r. by destruct w' as [? []].
  - by exists g'.
  - intros [run Hrun]. cbn in Hstep11. rewrite Hrun in Hstep11. by apply insert_receipt_ok in Hstep11 as [? _].
Qed.

Lemma written_row request actor g w w1 :
  decision_written request actor g w w1 → gate_of w (g_id g) = Some g → g_status g = Gs_Pending →
  gate_of w1 (g_id g) = Some (decided_gate (trim (res_decision request)) g).
Proof.
  intros Hw Hg Hs. unfold gate_of, gate_row_by_id in *. fold (gates_of w1). rewrite (written_gates _ _ _ _ _ Hw).
  rewrite (find_update_where g_id) by done. fold (gates_of w) in Hg. rewrite Hg. cbn [fmap option_fmap option_map].
  by rewrite String.eqb_refl, Hs.
Qed.

(** A resolution answered from its receipt. *)
Definition resolved_before (request : ResolveRunGate) (w : PlanWorld) (res : RunGateResolution) : Prop :=
  ∃ c original, receipt_row (res_request_id request) (pw_tables w) = Some c ∧
    cmr_request_digest c = resolve_digest request ∧
    gate_receipt_decode (cmr_receipt c) = Some original ∧ res = with_rgr_replayed true original.

Lemma replayed_resolution_ok raw w w' res :
  replayed_resolution raw w = (w', Ok res) →
  w' = w ∧ ∃ original, gate_receipt_decode raw = Some original ∧ res = with_rgr_replayed true original.
Proof.
  unfold replayed_resolution. intros Hm. inv_ok Hm. apply raise_ok in Hstep as [-> Hd%with_context_ok]. inv_ok Hm. eauto.
Qed.

Lemma resolve_run_gate_ok request actor w w' res :
  resolve_run_gate request actor w = (w', Ok res) →
  (w' = w ∧ resolved_before request w res) ∨
  (receipt_row (res_request_id request) (pw_tables w) = None ∧ decide_gate request actor w = (w', Ok res)).
Proof.
  unfold resolve_run_gate. intros Hm. do 5 inv_ok Hm. apply raise_ok in Hstep as [-> _].
  apply raise_ok in Hstep0 as [-> _]. apply raise_ok in Hstep1 as [-> _]. apply raise_ok in Hstep2 as [-> _].
  apply run_command_receipt_ok in Hstep3 as [-> Hseen]. destruct a3 as [raw|].
  { destruct Hseen as (c & Hc & Hdig & ->). apply replayed_resolution_ok in Hm as (-> & o & Ho & ->).
    left. split; [done|]. by exists c, o. }
  apply plan_tx_ok in Hm. inv_ok Hm. apply run_command_receipt_ok in Hstep as [-> Hs2]. destruct a3 as [raw|].
  { destruct Hs2 as (c & Hc & _). congruence. }
  by right.
Qed.

Lemma resolve_fresh request actor w w' res :
  resolve_run_gate request actor w = (w', Ok res) → rgr_replayed res = false →
  decide_gate request actor w = (w', Ok res).
Proof. intros [[_ (c & o & _ & _ & _ & ->)]|[_ ?]]%resolve_run_gate_ok Hno; [by destruct o|done]. Qed.

(** [C18] A gate is decided only while it is pending and due, with one of its options,
    by a caller that is not one of the run's own terminals where a person
    decides, naming the evidence digest the gate shows; a stage gate moreover
    only while the stage's evidence is still the one it was opened with.  The
    decision, its reason, its author and its audit row are stored with the gate
    and answered. *)
Theorem decision_checked (request : ResolveRunGate) (actor : RunActor) (w w' : PlanWorld) (res : RunGateResolution) :
  resolve_run_gate request actor w = (w', Ok res) → rgr_replayed res = false →
  let decision := trim (res_decision request) in
  ∃ g audit, gate_of w (res_gate_id request) = Some g ∧ g_status g = Gs_Pending ∧
    (g_kind g = Gk_Stage → is_Some (gp_evidence_digest (columns_of (pw_tables w) g))) ∧
    (g_options g ≠ [] → decision ∈ g_options g) ∧ decision ≠ "" ∧
    (∀ terminal, res_caller_terminal request = Some terminal → person_gate (g_kind g) = true →
       is_run_participant (w_db (pw_world w)) (g_run_id g) terminal = false) ∧
    (∀ d, gp_evidence_digest (columns_of (pw_tables w) g) = Some d → d ≠ "" →
       res_expected_evidence_digest request = Some d ∧
       (g_kind g = Gk_Stage → ∃ sha, stage_evidence (w_db (pw_world w)) (pw_tables w) (default "" (g_run_id g))
          (gp_scope (columns_of (pw_tables w) g)) = Ok (Some (d, sha)))) ∧
    gate_of w' (res_gate_id request) = Some (decided_gate decision g) ∧
    pl_gates (pw_tables w') !! res_gate_id request =
      Some (decided_columns (trimmed (res_reason request)) actor audit (columns_of (pw_tables w) g)) ∧
    rgr_gate res = run_gate_from_row (pw_tables w') (decided_gate decision g).
Proof.
  intros Hm Hno decision. apply resolve_fresh in Hm; [|done].
  destruct (decide_gate_ok _ _ _ _ _ Hm) as (g & w1 & w2 & changes & Hg & Hchk & Hwr & Happ & Hworld & Htab & _ & (g' & Hg' & Hres) & _).
  destruct (gate_of_id _ _ _ Hg) as [_ Hid]. rewrite <-Hid in *.
  destruct (checks_inv _ _ _ _ _ Hchk) as (Hpend & Hdue & Hopt & Hne & Hpart & Hexp & Hstage).
  destruct (written_columns _ _ _ _ _ Hwr) as [audit Hcols]. exists g, audit.
  pose proof (written_row _ _ _ _ _ Hwr Hg Hpend) as Hrow.
  destruct (kept_apply _ _ _ _ _ _ _ _ Happ _ _ Hrow) as [Hrow2 Hcols2]; [done|].
  split_and!; try done.
  - intros Hk. cbn in Hdue. rewrite Hk in Hdue. split_bools.
    match goal with Hor : _ || _ = true |- _ => apply orb_true_iff in Hor as [Hor|Hor]; by split_bools end.
  - intros d Hd Hne'. assert (gt_evidence_digest (run_gate_from_row (pw_tables w) g) = Some d) as Hdig.
    { cbn. rewrite Hd. by rewrite (proj2 (String.eqb_neq _ _)) by done. }
    split; [by apply Hexp|]. intros Hk. destruct (Hstage Hk) as (current & Hcur & Hfst). rewrite Hdig in Hfst.
    apply fmap_Some in Hfst as ([d' sha] & -> & ->). by exists sha.
  - unfold gate_of. by rewrite Hworld.
  - rewrite Htab. cbn. rewrite Hcols2, Hcols. apply lookup_insert_eq.
  - rewrite Hres, Htab. rewrite Hrow2 in Hg'. by injection Hg' as <-.
Qed.

(** Rejecting a plan or a stage cancels the run, with the same barrier. *)
Lemma rejection_halts request actor w w' res g run :
  resolve_run_gate request actor w = (w', Ok res) → rgr_replayed res = false →
  gate_of w (res_gate_id request) = Some g → g_run_id g = Some run → g_kind g = Gk_Plan ∨ g_kind g = Gk_Stage →
  trim (res_decision request) = PLAN_GATE_REJECT → Forall target_named (targets_of w) → halted run w'.
Proof.
  intros Hm Hno Hg Hrun Hkind Hdec Hn. apply resolve_fresh in Hm; [|done].
  destruct (decide_gate_ok _ _ _ _ _ Hm) as (g0 & w1 & w2 & changes & Hg0 & _ & Hwr & Happ & Hworld & Htab & _).
  rewrite Hg in Hg0. injection Hg0 as <-.
  assert (halted run w2) as [Hr Ht Hd Hgs Hl Hc Ha]; last first.
  { split; unfold runs_of, tasks_of, dispatches_of, gates_of, launches_of, targets_of in *; rewrite ?Hworld, ?Htab; done. }
  destruct (written_tables _ _ _ _ _ Hwr) as [audits Htab1].
  assert (targets_of w1 = targets_of w) as Htg by (unfold targets_of; rewrite Htab1; done).
  unfold apply_resolution in Happ. cbn [gt_kind gt_run_id run_gate_from_row] in Happ. rewrite Hrun, Hdec in Happ.
  assert (∃ wa reason wb u, (targets_of wa = targets_of w) ∧ cancel_run run reason wa = (wb, Ok u) ∧
    events_only (pw_world wb) (pw_world w2) ∧ pw_tables w2 = pw_tables wb) as (wa & reason & wb & u & Hta & Hcan & Hev & Htb).
  { destruct Hkind as [Hk|Hk]; rewrite Hk in Happ; cbn in Happ; do 3 inv_ok Happ; inv_ok Happ.
    - apply event_recorded in Hstep as [Hev1 Ht1]. apply event_recorded in Hstep1 as [Hev2 Ht2].
      eexists _, _, _, _. split_and!; [|exact Hstep0|done|done]. unfold targets_of in *. by rewrite Ht1.
    - rewrite bool_decide_false in Hstep by done. inv_ok Hstep. apply event_recorded in Hstep1 as [Hev2 Ht2]. by eexists _, _, _, _. }
  apply (stopped_halts _ reason wa); [by rewrite Hta|]. eapply run_stopped_event; [by eapply cancel_run_ok|done|done].
Qed.

(** ** Evidence *)

(** Every gate before stage [b] is approved. *)
Definition approved_before (db : Db) (t : PlanTables) (run : string) (revision : Z) (plan : WorkflowPlanSnapshot)
    (b : string) : Prop :=
  ∀ p, p ∈ plan_stages plan → stage_before (rs_recipe (ps_recipe plan)) b (ws_id p) → is_Some (ws_gate p) →
    stage_gate_approved db t run revision (ws_id p) = true.

Lemma stage_gated_true plan id :
  stage_gated plan id = true ↔ ∃ p, p ∈ plan_stages plan ∧ ws_id p = id ∧ is_Some (ws_gate p).
Proof.
  unfold stage_gated. rewrite existsb_exists. setoid_rewrite <-list_elem_of_In. setoid_rewrite andb_true_iff.
  setoid_rewrite String.eqb_eq. setoid_rewrite bool_decide_eq_true. done.
Qed.

Lemma prerequisite_gates_spec db t run revision plan s :
  orderable ws_id ws_depends_on (plan_stages plan) → s ∈ plan_stages plan →
  ∃ ok, prerequisite_gates_approved db t run revision plan (ws_id s) = Ok ok ∧
        (ok = true ↔ approved_before db t run revision plan (ws_id s)).
Proof.
  intros Ho Hs. destruct (stage_ancestors_total plan s Ho Hs) as (A & HA & Hspec).
  unfold prerequisite_gates_approved. rewrite HA. cbn [rbind]. eexists. split; [done|].
  rewrite forallb_forall. setoid_rewrite <-list_elem_of_In. setoid_rewrite elem_of_sorted_elements.
  setoid_rewrite orb_true_iff. setoid_rewrite orb_true_iff. setoid_rewrite negb_true_iff. setoid_rewrite String.eqb_eq. split.
  - intros Hall p Hp Hb Hg. destruct (Hall (ws_id p)) as [[Heq|Hn]|]; [apply Hspec; by right| | |done].
    + exfalso. destruct Ho as (_ & _ & Hac). apply (Hac (ws_id s)). unfold stage_before in Hb. by rewrite Heq in Hb.
    + apply not_true_iff_false in Hn. exfalso. apply Hn, stage_gated_true. eauto.
  - intros Hall a Ha. apply Hspec in Ha as [->|Hb]; [by left; left|].
    destruct (stage_gated plan a) eqn:Eg; [|by left; right]. right.
    apply stage_gated_true in Eg as (p & Hp & <- & Hg). by apply Hall.
Qed.

Lemma mapM_all_Some {A B} (f : A → option B) l : is_Some (mapM f l) ↔ ∀ x, x ∈ l → is_Some (f x).
Proof. rewrite mapM_is_Some, Forall_forall. done. Qed.

(** The evidence of a stage of an isolated run exists exactly when no integration
    is unsettled, every gate before the stage is approved, the store holds all
    planned tasks of the stage and the stages before it (and there is one), and
    each is completed and integrated on its current result. *)
Lemma isolated_evidence_spec db t run revision plan s :
  orderable ws_id ws_depends_on (plan_stages plan) → s ∈ plan_stages plan →
  ∃ (A : gset string) o,
    (∀ a, a ∈ A ↔ a = ws_id s ∨ stage_before (rs_recipe (ps_recipe plan)) (ws_id s) a) ∧
    isolated_stage_evidence db t run revision plan (ws_id s) = Ok o ∧
    let rows := List.filter (in_stages A) (revision_tasks db t run revision) in
    let planned := List.filter (λ f, bool_decide (pt_stage_id (ft_task f) ∈ A)) (ps_tasks plan) in
    (is_Some o ↔ unsettled_integration run t = false ∧ approved_before db t run revision plan (ws_id s) ∧
       (∀ x, x ∈ rows → is_Some (task_evidence t x)) ∧ length rows = length planned ∧ planned ≠ []).
Proof.
  intros Ho Hs. destruct (stage_ancestors_total plan s Ho Hs) as (A & HA & Hspec).
  destruct (prerequisite_gates_spec db t run revision plan s Ho Hs) as (ok & Hok & Hiff). exists A.
  unfold isolated_stage_evidence. rewrite Hok, HA. cbn [rbind].
  destruct (unsettled_integration run t); [exists None; split_and!; [done|done|]; cbn; split; [by intros []|by intros [? _]]|].
  destruct ok; cbn [negb]; last first.
  { exists None. split_and!; [done|done|]. cbn. split; [by intros []|]. intros (_ & Ha & _). by apply Hiff in Ha. }
  pose proof (mapM_all_Some (task_evidence t) (List.filter (in_stages A) (revision_tasks db t run revision))) as Hev.
  destruct (mapM _ _) as [evidence|] eqn:Em; last first.
  { exists None. split_and!; [done|done|]. cbn. split; [by intros []|]. intros (_ & _ & Hx & _). by apply Hev, is_Some_None in Hx. }
  apply length_mapM in Em as Hlen. rewrite <-Hlen.
  set (planned := List.filter _ (ps_tasks plan)). destruct (negb _ || _) eqn:Eb.
  - exists None. split_and!; [done|done|]. cbn. split; [by intros []|]. intros (_ & _ & _ & Hl & Hne).
    apply orb_true_iff in Eb as [Eb|Eb].
    + apply negb_true_iff, Nat.eqb_neq in Eb. congruence.
    + apply Nat.eqb_eq, nil_length_inv in Eb. done.
  - eexists. split_and!; [done|done|]. cbn. split; [|by eexists]. intros _.
    apply orb_false_iff in Eb as [Eb1 Eb2]. apply negb_false_iff, Nat.eqb_eq in Eb1. apply Nat.eqb_neq in Eb2.
    split_and!; [done|by apply Hiff|by apply Hev; eexists|done|]. intros ->. done.
Qed.

(** ** Gates that become due *)

(** Binding evidence to gates does not change what the evidence of a stage is
    computed from. *)
Record same_evidence (db db' : Db) (t t' : PlanTables) : Prop := {
  se_gates : db_gates db' = db_gates db;
  se_runs : db_runs db' = db_runs db;
  se_tasks : db_tasks db' = db_tasks db;
  se_tables : t' = set_pl_gates (pl_gates t') t;
  se_columns : ∀ g, gp_scope (columns_of t' g) = gp_scope (columns_of t g) ∧
                    gp_plan_revision (columns_of t' g) = gp_plan_revision (columns_of t g)
}.

Lemma existsb_ext {A} (p q : A → bool) l : (∀ x, p x = q x) → existsb p l = existsb q l.
Proof. intros Hpq. induction l as [|x l IH]; cbn; [done|]. by rewrite Hpq, IH. Qed.
Lemma forallb_ext {A} (p q : A → bool) l : (∀ x, p x = q x) → forallb p l = forallb q l.
Proof. intros Hpq. induction l as [|x l IH]; cbn; [done|]. by rewrite Hpq, IH. Qed.

Lemma stage_evidence_same db db' t t' run stage :
  same_evidence db db' t t' → stage_evidence db' t' run stage = stage_evidence db t run stage.
Proof.
  intros [Hg Hr Ht Htab Hcol].
  assert (∀ v s, stage_gate_approved db' t' run v s = stage_gate_approved db t run v s) as Happ.
  { intros v s. unfold stage_gate_approved. rewrite Hg. apply existsb_ext. intros g. by destruct (Hcol g) as [-> ->]. }
  assert (∀ v, revision_tasks db' t' run v = revision_tasks db t run v) as Hrt.
  { intros v. unfold revision_tasks, logical_of. by rewrite Ht, Htab. }
  assert (current_revision db' t' run = current_revision db t run) as Hcur.
  { unfold current_revision, run_by_id. by rewrite Hr, Htab. }
  assert (∀ plan v, prerequisite_gates_approved db' t' run v plan stage = prerequisite_gates_approved db t run v plan stage) as Hpre.
  { intros plan v. unfold prerequisite_gates_approved. destruct (ancestors plan stage); [|done]. cbn. f_equal.
    apply forallb_ext. intros id. by rewrite Happ. }
  assert (∀ plan v, isolated_stage_evidence db' t' run v plan stage = isolated_stage_evidence db t run v plan stage) as Hiso.
  { intros plan v. unfold isolated_stage_evidence. rewrite Hpre, Htab at 1. cbn [unsettled_integration pl_integrations set_pl_gates].
    unfold unsettled_integration. cbn [pl_integrations set_pl_gates]. destruct (existsb _ _); [done|].
    destruct (prerequisite_gates_approved db t run v plan stage) as [[]|]; cbn [rbind negb]; [|done..].
    destruct (ancestors plan stage) as [stages|]; cbn [rbind]; [|done]. rewrite Hrt.
    assert (task_evidence t' = task_evidence t) as ->; [|done]. unfold task_evidence, logical_of. by rewrite Htab. }
  unfold stage_evidence. rewrite Hcur. destruct (current_revision db t run) as [[r p]|]; [|done].
  destruct (r_isolation r).
  - unfold shared_stage_evidence. assert (shared_evidence t' = shared_evidence t) as ->; [|by rewrite Hrt].
    unfold shared_evidence, logical_of. by rewrite Htab.
  - destruct (with_context _ _) as [plan|]; [|done]. cbn [rbind]. rewrite Hiso. by rewrite Htab.
Qed.

(** Nothing but columns of gates and the timeline changes. *)
Definition binding (w w' : PlanWorld) : Prop :=
  events_only (pw_world w) (pw_world w') ∧
  same_evidence (w_db (pw_world w)) (w_db (pw_world w')) (pw_tables w) (pw_tables w').
#[export] Instance binding_preorder : PreOrder binding.
Proof.
  split.
  - intros w. split; [done|]. split; try done. by destruct w as [? []].
  - intros w1 w2 w3 [E1 [? ? ? Ht1 Hc1]] [E2 [? ? ? Ht2 Hc2]]. split; [by etransitivity|].
    split; try congruence; [by rewrite Ht2, Ht1|]. intros g. destruct (Hc1 g), (Hc2 g). split; congruence.
Qed.

(** The evidence of the stage a gate guards. *)
Definition evidence_for (run : string) (w : PlanWorld) (g : OrchestrationDecisionGate) : R (option (string * option string)) :=
  stage_evidence (w_db (pw_world w)) (pw_tables w) run (gp_scope (columns_of (pw_tables w) g)).
Definition finished (run : string) (w : PlanWorld) (g : OrchestrationDecisionGate) : bool :=
  match evidence_for run w g with Ok (Some _) => true | _ => false end.

Lemma evidence_for_binding run w w' g : binding w w' → evidence_for run w' g = evidence_for run w g.
Proof.
  intros [_ Hse]. unfold evidence_for. destruct (se_columns _ _ _ _ Hse g) as [-> _]. by apply stage_evidence_same.
Qed.
Lemma finished_binding run w w' g : binding w w' → finished run w' g = finished run w g.
Proof. intros Hb. unfold finished. by rewrite (evidence_for_binding _ _ _ _ Hb). Qed.

Lemma columns_binding w w' g : binding w w' → pl_gates (pw_tables w') !! g_id g = pl_gates (pw_tables w) !! g_id g →
  columns_of (pw_tables w') g = columns_of (pw_tables w) g.
Proof. intros _ Hl. unfold columns_of. by rewrite Hl. Qed.

Lemma open_due_gate_ok run g w w' opened :
  open_due_gate run g w = (w', Ok opened) →
  binding w w' ∧
  match evidence_for run w g with
  | Ok (Some (d, sha)) => opened = [g_id g] ∧
      pl_gates (pw_tables w') = <[g_id g := bind_evidence d sha (columns_of (pw_tables w) g)]> (pl_gates (pw_tables w))
  | Ok None => opened = [] ∧ pl_gates (pw_tables w') = pl_gates (pw_tables w)
  | Err _ => False
  end.
Proof.
  unfold open_due_gate. intros Hm. do 3 inv_ok Hm. apply pselect_ok in Hstep as [-> ->]. apply pselect_ok in Hstep0 as [-> ->].
  apply raise_ok in Hstep1 as [-> Hev]. unfold evidence_for. rewrite Hev. destruct a1 as [[d sha]|]; [|by inv_ok Hm].
  do 2 inv_ok Hm. inv_ok Hm. unfold update_gate_columns in Hstep. apply in_tables_ok in Hstep as ->.
  unfold record_gate_opened in Hstep0. inv_ok Hstep0. inv_ok Hstep0. apply in_event_ok in Hstep as [Hevs Htab].
  split; [|by rewrite Htab]. split; [exact Hevs|]. split.
  - by apply events_only_gates.
  - by apply events_only_runs.
  - by apply events_only_tasks.
  - by rewrite Htab.
  - intros x. rewrite Htab. unfold columns_of. cbn [pl_gates set_pl_gates pw_tables].
    destruct (decide (g_id x = g_id g)) as [->|Hne]; [by rewrite lookup_insert_eq|by rewrite lookup_insert_ne].
Qed.

Lemma open_due_gates_ok run cands w w' opened :
  NoDup (g_id <$> cands) → open_due_gates run cands w = (w', Ok opened) →
  binding w w' ∧ (∀ g, g ∈ cands → ∃ o, evidence_for run w g = Ok o) ∧
  opened = g_id <$> List.filter (finished run w) cands ∧
  (∀ g d sha, g ∈ cands → evidence_for run w g = Ok (Some (d, sha)) →
     pl_gates (pw_tables w') !! g_id g = Some (bind_evidence d sha (columns_of (pw_tables w) g))) ∧
  (∀ id, id ∉ opened → pl_gates (pw_tables w') !! id = pl_gates (pw_tables w) !! id).
Proof.
  revert w opened. induction cands as [|g cands IH]; intros w opened Hnd Hm; cbn [open_due_gates] in Hm.
  { inv_ok Hm. split_and!; try done; by intros ? ?%elem_of_nil || intros ? ? ? ?%elem_of_nil. }
  do 2 inv_ok Hm. inv_ok Hm. apply NoDup_cons in Hnd as [Hni Hnd].
  apply open_due_gate_ok in Hstep as [Hb1 Hone]. destruct (IH _ _ Hnd Hstep0) as (Hb2 & Hok & -> & Hcols & Hkeep).
  assert (List.filter (finished run s) cands = List.filter (finished run w) cands) as Hfil.
  { apply filter_ext. intros x. by apply finished_binding. }
  assert (∀ x, x ∈ cands → pl_gates (pw_tables s) !! g_id x = pl_gates (pw_tables w) !! g_id x) as Hrest.
  { intros x Hx. destruct (evidence_for run w g) as [[[d sha]|]|]; [|by destruct Hone as [_ ->]|done].
    destruct Hone as [_ ->]. apply lookup_insert_ne. intros Heq. apply Hni. rewrite Heq. by apply list_elem_of_fmap_2. }
  split_and!.
  - by etransitivity.
  - intros x [->|Hx]%elem_of_cons; [|rewrite <-(evidence_for_binding _ _ _ _ Hb1); by apply Hok].
    destruct (evidence_for run w g); [by eexists|done].
  - rewrite Hfil. cbn [List.filter]. unfold finished at 2. destruct (evidence_for run w g) as [[[d sha]|]|]; [..|done];
      destruct Hone as [-> _]; done.
  - intros x d sha [->|Hx]%elem_of_cons Hev.
    + rewrite Hev in Hone. destruct Hone as [_ Hins]. rewrite Hkeep, Hins; [apply lookup_insert_eq|].
      intros (y & Heq & Hy)%list_elem_of_fmap. apply list_elem_of_In, filter_In in Hy as [Hy _].
      apply Hni. rewrite Heq. by apply list_elem_of_fmap_2, list_elem_of_In.
    + rewrite <-(evidence_for_binding _ _ _ _ Hb1) in Hev. rewrite (Hcols _ _ _ Hx Hev). do 2 f_equal.
      unfold columns_of. by rewrite Hrest.
  - intros id Hid. apply not_elem_of_app in Hid as [Hid1 Hid2]. rewrite Hkeep by done.
    destruct (evidence_for run w g) as [[[d sha]|]|]; [|by destruct Hone as [_ ->]|done].
    destruct Hone as [-> ->]. apply lookup_insert_ne. intros <-. apply Hid1. by left.
Qed.

Lemma open_due_stage_gates_ok (run : string) (w w' : PlanWorld) (opened : list string) :
  NoDup (g_id <$> gates_of w) → open_due_stage_gates run w = (w', Ok opened) →
  let due := List.filter (due_candidate run (w_db (pw_world w)) (pw_tables w)) (gates_of w) in
  opened = g_id <$> List.filter (finished run w) due ∧
  (∀ g d sha, g ∈ due → evidence_for run w g = Ok (Some (d, sha)) →
     pl_gates (pw_tables w') !! g_id g = Some (bind_evidence d sha (columns_of (pw_tables w) g))) ∧
  (∀ id, id ∉ opened → pl_gates (pw_tables w') !! id = pl_gates (pw_tables w) !! id) ∧
  gates_of w' = gates_of w ∧ tasks_of w' = tasks_of w ∧
  runs_of w' = (if Nat.eqb (length opened) 0 then runs_of w
                else update_where (λ r, is_run run r && bool_decide (r_status r = Cs_Running))
                  (λ r, with_r_last_activity_at now (with_r_control_sequence (r_control_sequence r + 1)
                     (with_r_paused_by (Some "runtime") (with_r_status Cs_Paused r)))) (runs_of w)) ∧
  (∀ g, g ∈ due → ∃ o, evidence_for run w g = Ok o).
Proof.
  intros Hnd Hm due. unfold open_due_stage_gates in Hm. apply plan_tx_ok in Hm. do 3 inv_ok Hm. inv_ok Hm.
  apply pselect_ok in Hstep as [-> ->]. apply open_due_gates_ok in Hstep0 as ([Hev Hse] & Hall & Hopen & Hcols & Hkeep); last first.
  { fold (gates_of w). clear -Hnd. induction (gates_of w) as [|g l IH]; cbn in *; [done|].
    apply NoDup_cons in Hnd as [Hni Hnd]. destruct (due_candidate _ _ _ g); cbn; [|by apply IH].
    constructor; [|by apply IH]. intros (x & Heq & Hx)%list_elem_of_fmap. apply Hni. rewrite Heq.
    apply list_elem_of_fmap_2. apply list_elem_of_In, filter_In in Hx as [Hx _]. by apply list_elem_of_In. }
  assert (pw_tables w' = pw_tables s0 ∧ gates_of w' = gates_of s0 ∧ tasks_of w' = tasks_of s0 ∧
    runs_of w' = (if Nat.eqb (length opened) 0 then runs_of s0
                else update_where (λ r, is_run run r && bool_decide (r_status r = Cs_Running))
                  (λ r, with_r_last_activity_at now (with_r_control_sequence (r_control_sequence r + 1)
                     (with_r_paused_by (Some "runtime") (with_r_status Cs_Paused r)))) (runs_of s0))) as (Ht & Hg & Hk & Hr).
  { destruct (Nat.eqb (length opened) 0); [by inv_ok Hstep1|]. inv_ok Hstep1.
    apply in_world_ok in Hstep as (v & (-> & _)%update_runs_ok & ->). destruct (Nat.eqb a 1); [|by inv_ok Hstep1].
    apply event_recorded in Hstep1 as [Hev2 Htab2]. unfold gates_of, tasks_of, runs_of.
    by rewrite Htab2, (events_only_gates _ _ Hev2), (events_only_tasks _ _ Hev2), (events_only_runs _ _ Hev2). }
  assert (runs_of s0 = runs_of w) as Hr0 by apply Hse. rewrite Ht, Hg, Hk, Hr, Hr0.
  split_and!; try done; apply Hse.
Qed.

(** ** What a finished stage is *)

(** Somebody approved the gate of the stage for the revision. *)
Definition approved_for (w : PlanWorld) (run stage : string) (revision : Z) : Prop :=
  ∃ g, g ∈ gates_of w ∧ g_run_id g = Some run ∧ g_kind g = Gk_Stage ∧ gp_scope (columns_of (pw_tables w) g) = stage ∧
    gp_plan_revision (columns_of (pw_tables w) g) = Some revision ∧ g_status g = Gs_Resolved ∧ g_resolution g = Some PLAN_GATE_APPROVE.

(** A task that is completed and integrated with the evidence of the result it has. *)
Definition integrated (t : PlanTables) (x : OrchestrationTask) (v : TaskEvidence) : Prop :=
  ∃ result e, t_status x = Ts_Completed ∧ t_result x = Some result ∧ pl_evidence t !! t_id x = Some e ∧
    te_result_digest e = result_digest (Some result) ∧
    v = MkTaskEvidence (logical_of t x) (Some (te_result_digest e)) (Some (te_artifact_digest e)) (Some (te_integration_sha e)).
Definition completed_in (t : PlanTables) (x : OrchestrationTask) (v : TaskEvidence) : Prop :=
  t_status x = Ts_Completed ∧ v = MkTaskEvidence (logical_of t x) (Some (result_digest (t_result x))) None None.

(** The stage itself or one it waits for, directly or not. *)
Definition up_to (plan : WorkflowPlanSnapshot) (stage a : string) : Prop := a = stage ∨ tc (stage_needs plan) stage a.

(** In an isolated run nothing is left to integrate, the gates of the stages
    before are approved for the revision, and there are as many tasks of the
    stage and the stages before as the plan froze, at least one, all integrated
    with current evidence. *)
Definition isolated_stage_finished (w : PlanWorld) (run : string) (revision : Z) (plan : WorkflowPlanSnapshot) (stage digest : string)
    : Prop :=
  (∀ i, i ∈ pl_integrations (pw_tables w) → ig_run_id i = run → ig_cancelled i = false → ig_state i ∈ [In_Integrated; In_Conflict; In_Cancelled]) ∧
  (∀ s, s ∈ plan_stages plan → is_Some (ws_gate s) → ws_id s ≠ stage → up_to plan stage (ws_id s) → approved_for w run (ws_id s) revision) ∧
  ∃ (A : gset string) rows evidence, (∀ a, a ∈ A ↔ up_to plan stage a) ∧
    rows = List.filter (in_stages A) (revision_tasks (w_db (pw_world w)) (pw_tables w) run revision) ∧
    Forall2 (integrated (pw_tables w)) rows evidence ∧
    length rows = length (List.filter (λ f, bool_decide (pt_stage_id (ft_task f) ∈ A)) (ps_tasks plan)) ∧ rows ≠ [] ∧
    digest = evidence_digest evidence.

(** In a shared run the stage has tasks and all of them are completed; the stages
    before are not looked at. *)
Definition shared_stage_finished (w : PlanWorld) (run : string) (revision : Z) (stage digest : string) : Prop :=
  ∃ rows evidence, rows = List.filter (λ x, bool_decide (t_stage_id x = Some stage))
      (revision_tasks (w_db (pw_world w)) (pw_tables w) run revision) ∧
    rows ≠ [] ∧ Forall2 (completed_in (pw_tables w)) rows evidence ∧ digest = evidence_digest evidence.

Definition stage_finished (w : PlanWorld) (run stage digest : string) (sha : option string) : Prop :=
  ∃ r revision p, run_of w run = Some r ∧ r_plan_revision r = Some revision ∧ revision_of (pw_tables w) run revision = Some p ∧
    match r_isolation r with
    | Is_Isolated => sha = pl_runs (pw_tables w) !! run ≫= rp_integration_sha ∧
        ∃ plan, plan_decode (pv_snapshot p) = Some plan ∧ isolated_stage_finished w run revision plan stage digest
    | Is_Shared => sha = None ∧ shared_stage_finished w run revision stage digest
    end.

Lemma task_evidence_integrated t x v : task_evidence t x = Some v ↔ integrated t x v.
Proof.
  unfold task_evidence, integrated. destruct (pl_evidence t !! t_id x) as [e|]; cbn; [|naive_solver].
  split.
  - destruct (_ && _) eqn:E; [|done]. intros [= <-]. split_bools. destruct (t_result x) as [result|] eqn:Er; [|by destruct (is_Some_None (A := string))].
    exists result, e. split_and!; try done. by apply String.eqb_eq.
  - intros (result & e' & Hs & Hr & [= <-] & Hd & ->). rewrite Hs, Hr, !bool_decide_true by done. cbn. by rewrite Hd, String.eqb_refl.
Qed.
Lemma shared_evidence_completed t x v : shared_evidence t x = Some v ↔ completed_in t x v.
Proof. unfold shared_evidence, completed_in. case_bool_decide; naive_solver. Qed.

Lemma mapM_evidence {A} (f : OrchestrationTask → option A) (P : OrchestrationTask → A → Prop) rows evidence :
  (∀ x v, f x = Some v ↔ P x v) → mapM f rows = Some evidence ↔ Forall2 P rows evidence.
Proof.
  intros HP. rewrite mapM_Some. split; intros Hf; (eapply Forall2_impl; [exact Hf|]); intros x v; apply HP.
Qed.

Lemma approved_for_iff w run stage revision :
  stage_gate_approved (w_db (pw_world w)) (pw_tables w) run revision stage = true ↔ approved_for w run stage revision.
Proof.
  unfold stage_gate_approved, approved_for. rewrite existsb_exists. split.
  - intros (g & Hg & Hp). split_bools. exists g. split_and!; try done; [by apply list_elem_of_In|by apply String.eqb_eq].
  - intros (g & Hg & ? & ? & Hs & ? & ? & ?). exists g. split; [by apply list_elem_of_In|]. split_bools; try done. by apply String.eqb_eq.
Qed.

Lemma unsettled_iff w run :
  unsettled_integration run (pw_tables w) = false ↔
  ∀ i, i ∈ pl_integrations (pw_tables w) → ig_run_id i = run → ig_cancelled i = false → ig_state i ∈ [In_Integrated; In_Conflict; In_Cancelled].
Proof.
  unfold unsettled_integration. rewrite <-not_true_iff_false, existsb_exists. split.
  - intros Hno i Hi Hr Hc. destruct (decide (ig_state i ∈ [In_Integrated; In_Conflict; In_Cancelled])) as [?|Hn]; [done|].
    exfalso. apply Hno. exists i. split; [by apply list_elem_of_In|]. split_bools; [by apply String.eqb_eq|by rewrite Hc|].
    destruct (ig_state i); set_solver.
  - intros Hall (i & Hi & Hb). split_bools. apply list_elem_of_In in Hi.
    match goal with Hr : String.eqb _ _ = true, Hc : ig_cancelled _ = false |- _ => apply String.eqb_eq in Hr; specialize (Hall i Hi Hr Hc) end.
    destruct (ig_state i); set_solver.
Qed.

Lemma prerequisites_iff w run revision plan stage A :
  (∀ a, a ∈ A ↔ up_to plan stage a) →
  forallb (λ id, String.eqb id stage || negb (stage_gated plan id) ||
     stage_gate_approved (w_db (pw_world w)) (pw_tables w) run revision id) (sorted_elements A) = true ↔
  ∀ s, s ∈ plan_stages plan → is_Some (ws_gate s) → ws_id s ≠ stage → up_to plan stage (ws_id s) → approved_for w run (ws_id s) revision.
Proof.
  intros HA. rewrite forallb_forall. split.
  - intros Hall s Hs Hg Hne Hup. apply approved_for_iff. specialize (Hall (ws_id s)).
    apply HA in Hup. apply elem_of_sorted_elements, list_elem_of_In in Hup. specialize (Hall Hup).
    assert (stage_gated plan (ws_id s) = true) as Hgt.
    { unfold stage_gated. apply existsb_exists. exists s. split; [by apply list_elem_of_In|]. by rewrite String.eqb_refl, bool_decide_true. }
    rewrite Hgt in Hall. apply String.eqb_neq in Hne. by rewrite Hne in Hall.
  - intros Hall a Ha. apply list_elem_of_In, elem_of_sorted_elements, HA in Ha. destruct (String.eqb_spec a stage) as [->|Hne]; [done|].
    cbn. destruct (stage_gated plan a) eqn:E; [|done]. cbn. apply approved_for_iff. unfold stage_gated in E.
    apply existsb_exists in E as (s & Hs & Hb). split_bools. match goal with Hr : String.eqb _ _ = true |- _ => apply String.eqb_eq in Hr as <- end.
    apply Hall; try done. by apply list_elem_of_In.
Qed.
Lemma isolated_evidence_iff w run revision plan stage o :
  isolated_stage_evidence (w_db (pw_world w)) (pw_tables w) run revision plan stage = Ok o →
  ∀ digest, o = Some digest ↔ isolated_stage_finished w run revision plan stage digest.
Proof.
  unfold isolated_stage_evidence. intros He digest. unfold isolated_stage_finished. rewrite <-unsettled_iff.
  destruct (unsettled_integration run (pw_tables w)); [injection He as <-; naive_solver|].
  unfold prerequisite_gates_approved in He. destruct (ancestors plan stage) as [A|] eqn:EA; [|done]. cbn [rbind] in He.
  pose proof (ancestors_found _ _ _ EA) as HA. rewrite <-(prerequisites_iff _ _ _ _ _ _ HA).
  destruct (forallb _ (sorted_elements A)); cbn [negb] in He; [|injection He as <-; naive_solver].
  set (rows := List.filter (in_stages A) _) in He. set (expected := length _) in He.
  assert ((∃ (A' : gset string) rows' evidence, (∀ a, a ∈ A' ↔ up_to plan stage a) ∧
    rows' = List.filter (in_stages A') (revision_tasks (w_db (pw_world w)) (pw_tables w) run revision) ∧
    Forall2 (integrated (pw_tables w)) rows' evidence ∧
    length rows' = length (List.filter (λ f, bool_decide (pt_stage_id (ft_task f) ∈ A')) (ps_tasks plan)) ∧ rows' ≠ [] ∧
    digest = evidence_digest evidence) ↔
    ∃ evidence, mapM (task_evidence (pw_tables w)) rows = Some evidence ∧ length rows = expected ∧ rows ≠ [] ∧ digest = evidence_digest evidence) as ->.
  { split.
    - intros (A' & rows' & evidence & HA' & -> & Hf & Hlen & Hne & ->). assert (A' = A) as -> by (apply set_eq; intros a; by rewrite HA', HA).
      exists evidence. split_and!; try done. by apply (mapM_evidence _ _ _ _ (task_evidence_integrated _)).
    - intros (evidence & Hm & ? & ? & ->). exists A, rows, evidence. split_and!; try done.
      by apply (mapM_evidence _ _ _ _ (task_evidence_integrated _)). }
  destruct (mapM (task_evidence (pw_tables w)) rows) as [evidence|] eqn:Em; [|injection He as <-; naive_solver].
  pose proof (Forall2_length _ _ _ (proj1 (mapM_Some _ _ _) Em)) as Hlen.
  destruct (negb (Nat.eqb (length evidence) expected) || Nat.eqb expected 0) eqn:Ec; injection He as <-.
  - split; [done|]. intros (_ & _ & ev & [= <-] & Hl & Hne & _). exfalso. apply orb_true_iff in Ec as [Ec|Ec%Nat.eqb_eq].
    + apply negb_true_iff, Nat.eqb_neq in Ec. lia.
    + destruct rows; [done|]. cbn in Hl. lia.
  - apply orb_false_iff in Ec as [Ec1%negb_false_iff%Nat.eqb_eq Ec2%Nat.eqb_neq]. split.
    + intros [= <-]. split_and!; try done. exists evidence. split_and!; try done; [lia|]. intros Hnil. rewrite Hnil in Hlen. cbn in Hlen. lia.
    + by intros (_ & _ & ev & [= <-] & _ & _ & ->).
Qed.

Lemma shared_evidence_iff w run revision stage digest :
  shared_stage_evidence (w_db (pw_world w)) (pw_tables w) run revision stage = Some digest ↔ shared_stage_finished w run revision stage digest.
Proof.
  unfold shared_stage_evidence, shared_stage_finished. set (rows := List.filter _ _). split.
  - destruct rows as [|x rows'] eqn:E; [done|]. intros (evidence & Hm & ->)%fmap_Some. exists (x :: rows'), evidence.
    split_and!; try done. by apply (mapM_evidence _ _ _ _ (shared_evidence_completed _)).
  - intros (? & evidence & -> & Hne & Hf & ->). destruct rows as [|x rows'] eqn:E; [done|].
    apply (mapM_evidence _ _ _ _ (shared_evidence_completed _)) in Hf. by rewrite Hf.
Qed.

Lemma stage_evidence_iff w run stage o :
  stage_evidence (w_db (pw_world w)) (pw_tables w) run stage = Ok o →
  ∀ digest sha, o = Some (digest, sha) ↔ stage_finished w run stage digest sha.
Proof.
  unfold stage_evidence, current_revision, stage_finished, run_of. intros He digest sha.
  destruct (run_by_id _ run) as [r|]; cbn in He; [|injection He as <-; naive_solver].
  destruct (r_plan_revision r) as [revision|] eqn:Er; cbn in He; [|injection He as <-; naive_solver].
  destruct (revision_of _ run revision) as [p|] eqn:Ep; cbn in He; [|injection He as <-; naive_solver].
  assert (pv_revision p = revision) as Hrev.
  { unfold revision_of in Ep. apply find_where_Some in Ep as [_ Hp]. split_bools. by apply Z.eqb_eq. }
  rewrite Hrev in He.
  destruct (r_isolation r) eqn:Ei.
  - destruct (shared_plan_decode _); [|done]. cbn in He. injection He as <-. split.
    + intros (d & Hd & Hpair)%fmap_Some. injection Hpair as -> ->. exists r, revision, p. rewrite Ei. split_and!; try done. by apply shared_evidence_iff.
    + intros (r' & v' & p' & [= <-] & Hv & Hp & Hm). rewrite Hv in Er. injection Er as ->. rewrite Hp in Ep. injection Ep as ->.
      rewrite Ei in Hm. destruct Hm as [-> Hm]. apply shared_evidence_iff in Hm. by rewrite Hm.
  - destruct (plan_decode (pv_snapshot p)) as [plan|] eqn:Epl; [|done]. cbn [with_context rbind] in He.
    destruct (isolated_stage_evidence _ _ _ _ _ _) as [d|] eqn:Ed; [|done]. cbn in He. injection He as <-.
    pose proof (isolated_evidence_iff _ _ _ _ _ _ Ed) as Hiff. split.
    + intros (d' & -> & Hpair)%fmap_Some. injection Hpair as -> ->. exists r, revision, p. rewrite Ei. split_and!; try done. exists plan. split; [done|]. by apply Hiff.
    + intros (r' & v' & p' & [= <-] & Hv & Hp & Hm). rewrite Hv in Er. injection Er as ->. rewrite Hp in Ep. injection Ep as ->.
      rewrite Ei in Hm. destruct Hm as [-> (plan' & Hpl & Hm)]. rewrite Hpl in Epl. injection Epl as ->. apply Hiff in Hm as ->. done.
Qed.

(** A stage gate of the plan a running run executes, not bound to evidence yet. *)
Definition waiting_gate (w : PlanWorld) (run : string) (g : OrchestrationDecisionGate) : Prop :=
  g_run_id g = Some run ∧ g_kind g = Gk_Stage ∧ g_status g = Gs_Pending ∧ gp_evidence_digest (columns_of (pw_tables w) g) = None ∧
  ∃ r, r ∈ runs_of w ∧ r_id r = run ∧ gp_plan_revision (columns_of (pw_tables w) g) = r_plan_revision r ∧ r_status r = Cs_Running.

Lemma due_candidate_waiting w run g : due_candidate run (w_db (pw_world w)) (pw_tables w) g = true ↔ waiting_gate w run g.
Proof.
  unfold due_candidate, pending_run_gate, waiting_gate. rewrite !andb_true_iff, !bool_decide_eq_true, existsb_exists, list_elem_of_singleton.
  split.
  - intros [[[[? ?] ?] ?] (r & Hr & Hb)]. split_and!; try done. exists r. unfold is_run in Hb. split_bools.
    split_and!; try done; [by apply list_elem_of_In|by apply String.eqb_eq].
  - intros (? & ? & ? & ? & r & Hr & Hid & ? & ?). split_and!; try done. exists r. split; [by apply list_elem_of_In|].
    unfold is_run. rewrite Hid, String.eqb_refl. cbn. by split_bools.
Qed.

(** The tasks of other stages do not matter to a shared stage. *)
Lemma shared_stage_local db db' t run revision stage :
  List.filter (λ x, bool_decide (t_stage_id x = Some stage)) (revision_tasks db t run revision)
    = List.filter (λ x, bool_decide (t_stage_id x = Some stage)) (revision_tasks db' t run revision) →
  shared_stage_evidence db t run revision stage = shared_stage_evidence db' t run revision stage.
Proof. unfold shared_stage_evidence. by intros ->. Qed.

End Decisions.
