(* ===== verification/ExecutionStore.v ===== *)
(** * ExecutionStore: the scheduler's reads and the completion of an isolated run

    run_execution.rs (scheduling state), run_workspace_eligibility.rs (what an
    attempt needs), workflow_execution_step of run_execution_step.rs (the state
    [execution_choose] decides on) and run_execution_completion.rs.

    A planned task always has a stage and a logical name ([PlanStore.task_row]
    and [insert_plan_row] write them, a trigger keeps them), so the NULLs the row
    decoders would refuse do not occur. *)

From S2P Require Import Prelude Text Models Store RoleContract Gates Runs Ordering Recipe RecipeFacts Plan Execution PlanStore RunControl GateResolution.
From Stdlib Require Import ZArith Lia Ascii String.
From stdpp Require Import strings gmap pretty prelude.

Record WorkflowExecutionState : Type := MkExecutionState {
  es_run_id : string;
  es_revision : Z;
  es_sequence : Z;
  es_status : OrchestrationCoordinatorStatus;
  es_attention : option string
}.

Definition execution_state (r : OrchestrationCoordinatorRun) : option WorkflowExecutionState :=
  v ← r_plan_revision r;
  Some (MkExecutionState (r_id r) v (r_control_sequence r) (r_status r) (r_attention_reason r)).

(** [json_extract(r.source_snapshot, '$.sourceSha')] *)
Class SourceJson : Type := { source_sha_of : string → option string }.

Section Store.
Context `{Env, ContractLib, RecipeLib, PlanLib, ProposalLib, ControlLib, GateLib, StepLib, SourceJson}.

Definition workflow_execution (run : string) : PM (option WorkflowExecutionState) :=
  do! raise (workflow_text run 160) in
  pselect (λ db _, r ← find_where (λ r, is_run run r && bool_decide (r_isolation r = Is_Isolated)
                                     && bool_decide (is_Some (r_plan_revision r))) (db_runs db);
                   execution_state r).

Definition workflow_execution_page (after : option string) : PM (list WorkflowExecutionState) :=
  pselect (λ db _, omap execution_state (take 25 (sort_by (λ a b, String.leb (r_id a) (r_id b))
    (List.filter (λ r, bool_decide (r_isolation r = Is_Isolated) && bool_decide (r_status r = Cs_Running)
       && bool_decide (is_Some (r_plan_revision r))
       && match after with Some a => String.ltb a (r_id r) | None => true end) (db_runs db))))).

Definition run_is_running (db : Db) (run : string) (revision : Z) : bool :=
  existsb (λ r, is_run run r && bool_decide (r_plan_revision r = Some revision)
                && bool_decide (r_status r = Cs_Running)) (db_runs db).

Definition require_running (run : string) (revision : Z) : PM unit :=
  let! running := pselect (λ db _, run_is_running db run revision) in
  raise (ensure running "run is paused or belongs to an obsolete plan").

(** ** Eligibility (run_workspace_eligibility.rs) *)

Definition approved_plan (run : string) (revision : Z) : PM (WorkflowPlanSnapshot * string) :=
  let! row := pselect (λ db t,
    r ← find_where (λ r, is_run run r && bool_decide (r_plan_revision r = Some revision)
                         && bool_decide (r_isolation r = Is_Isolated)
                         && bool_decide (r_status r ∈ [Cs_Running; Cs_Paused])) (db_runs db);
    p ← revision_of t run revision; Some p) in
  let! p := raise (with_context row "the run needs its current accepted plan and must be active") in
  let! plan := raise (with_context (plan_decode (pv_snapshot p)) "invalid plan snapshot") in
  do! raise (ensure (String.eqb (ps_digest plan) (plan_hash (with_ps_digest "" plan)))
        "workflow plan snapshot is invalid") in
  do! require_source_workspace (ps_source_workspace plan) in
  let! sha := pselect (λ _ t, default "" (pl_runs t !! run ≫= rp_integration_sha)) in
  ret (plan, sha).

Definition prerequisite (db : Db) (t : PlanTables) (run : string) (revision : Z) (logical : string)
    : option (OrchestrationTask * TaskEvidenceRow) :=
  x ← find_where (λ x, bool_decide (t_run_id x = Some run) && bool_decide (t_plan_revision x = Some revision)
                       && bool_decide (tp_logical_id <$> pl_tasks t !! t_id x = Some logical)
                       && bool_decide (is_Some (pl_evidence t !! t_id x))) (db_tasks db);
  e ← pl_evidence t !! t_id x; Some (x, e).

Definition check_prerequisite (db : Db) (t : PlanTables) (run : string) (revision : Z) (logical : string) : R unit :=
  try! found := with_context (prerequisite db t run revision logical)
    "workflow prerequisite has not been integrated" in
  let (x, e) := found in
  ensure (bool_decide (t_status x = Ts_Completed) && bool_decide (is_Some (t_result x))
          && String.eqb (te_result_digest e) (result_digest (t_result x)))
    "workflow prerequisite integration evidence is stale".

(** The [while let] over the stages before the task's. *)
Fixpoint stage_gates_loop (fuel : nat) (db : Db) (t : PlanTables) (run : string) (revision : Z)
    (plan : WorkflowPlanSnapshot) (visited : gset string) (remaining : list string) : option (R unit) :=
  match remaining with
  | [] => Some (Ok tt)
  | id :: remaining =>
      match fuel with
      | 0%nat => None
      | S fuel =>
          if bool_decide (id ∈ visited) then stage_gates_loop fuel db t run revision plan visited remaining
          else match stage_of plan id with
               | None => Some (Err (Bail "workflow prerequisite stage is missing"))
               | Some prior =>
                   if bool_decide (is_Some (ws_gate prior)) && negb (stage_gate_approved db t run revision id)
                   then Some (Err (Bail "a prerequisite stage gate is not approved"))
                   else stage_gates_loop fuel db t run revision plan ({[id]} ∪ visited)
                          (reverse (ws_depends_on prior) ++ remaining)
               end
      end
  end.

Definition eligible_task_state (db : Db) (t : PlanTables) (run : string) (revision : Z) (task_id : string)
    (plan : WorkflowPlanSnapshot) (allowed_states : list OrchestrationTaskStatus) : R unit :=
  try! x := with_context (find_where (λ x, bool_decide (t_run_id x = Some run)
        && bool_decide (t_plan_revision x = Some revision) && String.eqb (t_id x) task_id
        && String.eqb (t_workspace_id x) (sw_workspace_id (ps_source_workspace plan))) (db_tasks db))
    "task does not belong to this workflow plan" in
  try! _ := ensure (bool_decide (t_status x ∈ allowed_states)) "workflow task is not awaiting execution" in
  try! frozen := with_context (planned_task plan (logical_of t x)) "task is absent from its frozen plan" in
  try! _ := rmap_ (check_prerequisite db t run revision) (pt_depends_on (ft_task frozen)) in
  try! stage := with_context (stage_of plan (pt_stage_id (ft_task frozen))) "workflow task stage is missing" in
  default (Err (Bail "out of fuel"))
    (stage_gates_loop (length (ws_depends_on stage) + stage_edges (wf_stages (rs_recipe (ps_recipe plan))))
       db t run revision plan ∅ (reverse (ws_depends_on stage))).

Definition eligible_task (run : string) (revision : Z) (task_id : string) (plan : WorkflowPlanSnapshot) : PM unit :=
  let! checked := pselect (λ db t, eligible_task_state db t run revision task_id plan [Ts_Pending; Ts_Ready]) in
  raise checked.

Definition frozen_task (task_id : string) : PM FrozenWorkflowTask :=
  let! row := pselect (λ db t,
    x ← find_where (λ x, String.eqb (t_id x) task_id) (db_tasks db);
    run ← t_run_id x; v ← t_plan_revision x; p ← revision_of t run v; Some (logical_of t x, p)) in
  let! found := raise (with_context row "task does not belong to a run plan") in
  let! plan := raise (with_context (plan_decode (pv_snapshot (snd found))) "invalid plan snapshot") in
  raise (with_context (planned_task plan (fst found)) "task is absent from its frozen plan").

(** ** The step *)

Definition approved_stage_gates (db : Db) (t : PlanTables) (run : string) (revision : Z) : gmap string string :=
  list_to_map ((λ g, (gp_scope (columns_of t g), "approved"))
    <$> List.filter (λ g, bool_decide (g_run_id g = Some run)
          && bool_decide (gp_plan_revision (columns_of t g) = Some revision) && bool_decide (g_kind g = Gk_Stage)
          && bool_decide (g_status g = Gs_Resolved) && bool_decide (g_resolution g = Some PLAN_GATE_APPROVE)) (db_gates db)).

Definition max_by (l : list Z) : option Z :=
  foldr (λ x acc, Some (match acc with Some m => Z.max x m | None => x end)) None l.

(** The latest attempt of a task and the latest integration of a workspace. *)
Definition latest_workspace (db : Db) (task_id : string) : option RunWorkspace :=
  let rows := List.filter (λ x, bool_decide (x_task_id x = Some task_id)) (db_workspaces db) in
  m ← max_by (x_attempt <$> rows); find_where (λ x, (x_attempt x =? m)%Z) rows.
Definition latest_integration (t : PlanTables) (workspace_id : string) : option RunIntegration :=
  let rows := List.filter (λ i, String.eqb (ig_workspace_id i) workspace_id) (pl_integrations t) in
  m ← max_by (ig_sequence <$> rows); find_where (λ i, (ig_sequence i =? m)%Z) rows.

Definition task_state (db : Db) (t : PlanTables) (x : OrchestrationTask) : TaskState :=
  let workspace := latest_workspace db (t_id x) in
  let integration := workspace ≫= λ x, latest_integration t (x_id x) in
  MkTaskState (t_id x) (logical_of t x) (t_status x)
    (bool_decide (t_status x = Ts_Completed) && bool_decide (is_Some (t_result x))
     && bool_decide (te_result_digest <$> pl_evidence t !! t_id x = Some (result_digest (t_result x))))
    (x_id <$> workspace) (x_phase <$> workspace) (ig_state <$> integration) (ig_request_id <$> integration).

Definition integration_phase (db : Db) (run_id : string) : option RunWorkspacePhase :=
  x_phase <$> find_where (λ x, String.eqb (x_run_id x) run_id && bool_decide (x_task_id x = None)) (db_workspaces db).

Definition workflow_execution_step (run_id : string) (revision : Z) : PM WorkflowExecutionStep :=
  plan_tx (
    let! running := pselect (λ db _, existsb (λ r, is_run run_id r && bool_decide (r_plan_revision r = Some revision)
        && bool_decide (r_status r = Cs_Running) && bool_decide (r_isolation r = Is_Isolated)) (db_runs db)) in
    if negb running then ret Waiting
    else
      let! found := approved_plan run_id revision in
      let plan := fst found in
      let! phase := pselect (λ db _, integration_phase db run_id) in
      match phase with
      | None => ret (prepare run_id revision None)
      | Some Wp_Attention => ret (Attention "Inspect the integration workspace before continuing.")
      | Some Wp_Ready =>
          let! tasks := pselect (λ db t, task_state db t <$> take 129 (revision_tasks db t run_id revision)) in
          if negb (Nat.eqb (length tasks) (length (ps_tasks plan))) || Nat.ltb 128 (length tasks)
          then ret (Attention "The executable tasks do not match the approved plan.")
          else
            let! gates := pselect (λ db t, approved_stage_gates db t run_id revision) in
            raise (execution_choose run_id revision plan tasks gates)
      | Some _ => ret Waiting
      end).

(** ** Completion (run_execution_completion.rs) *)

Definition completion_ready (t : PlanTables) (x : OrchestrationTask) : bool :=
  bool_decide (t_status x = Ts_Completed) && bool_decide (is_Some (t_result x))
  && bool_decide (te_result_digest <$> pl_evidence t !! t_id x = Some (result_digest (t_result x))).

Definition complete_workflow_execution (run : string) (revision sequence : Z) : PM bool :=
  plan_tx (
    let! current := pselect (λ db _, existsb (λ r, is_run run r && bool_decide (r_plan_revision r = Some revision)
        && (r_control_sequence r =? sequence)%Z && bool_decide (r_status r = Cs_Running)
        && bool_decide (r_isolation r = Is_Isolated)) (db_runs db)) in
    if negb current then ret false
    else
      let! found := approved_plan run revision in
      let plan := fst found in
      let! unsettled := pselect (λ _ t, unsettled_integration run t) in
      do! raise (ensure (negb unsettled) "workflow integration must settle before completion") in
      let! rows := pselect (λ db _, take 129 (List.filter (λ x, bool_decide (t_run_id x = Some run)
          && bool_decide (t_plan_revision x = Some revision)) (db_tasks db))) in
      do! raise (ensure (Nat.eqb (length rows) (length (ps_tasks plan)) && Nat.leb (length rows) 128)
            "workflow completion is missing tasks") in
      let! ready := pselect (λ _ t, forallb (completion_ready t) rows) in
      do! raise (ensure ready "workflow completion requires current integrated task evidence") in
      let! gates := pselect (λ db t, approved_stage_gates db t run revision) in
      do! raise (ensure (forallb (λ s, bool_decide (is_Some (gates !! ws_id s)))
              (List.filter (λ s, bool_decide (is_Some (ws_gate s))) (wf_stages (rs_recipe (ps_recipe plan)))))
            "run completion requires every stage gate") in
      do! in_world (update_runs (is_run run)
            (λ r, with_r_paused_by None (with_r_completed_at (Some now) (with_r_status Cs_Completed r)))) in
      let! columns := pselect (λ _ t, default (MkRunPlan None None None None None) (pl_runs t !! run)) in
      let! workspace := pselect (λ db _, match rp_integration_workspace_id columns with
          | Some w => Some w
          | None => x_id <$> find_where (λ x, String.eqb (x_run_id x) run && bool_decide (x_task_id x = None))
                      (db_workspaces db)
          end) in
      do! record_event (plan_event run Ev_Completed (MkRunActor Ak_Runtime None) ""
            (Some (JObject [("workspaceId", json_opt workspace); ("sha", json_opt (rp_integration_sha columns));
                            ("baseSha", json_opt (rp_source_snapshot columns ≫= source_sha_of))]))) in
      ret true).
End Store.
