(* ===== verification/Attempts.v ===== *)
(** * Attempts: the worktrees an isolated run works in

    run_workspace.rs and run_workspace_store.rs (the integration workspace of a run
    and one workspace per attempt of a task: reservation, pages and ownership) and
    run_workspace_transitions.rs (the phases from the reservation to a ready
    worktree).

    [AttemptWorld] puts beside the plan tables the columns of runWorkspaces,
    runLaunches and runIntegrations that only this code reads, the requests, the
    relations between workspaces and the tables of reviewed cleanup.  A workspace
    row is a [SourceRow]; registering a worktree appends one.  Rows are numbered
    by AUTOINCREMENT and never deleted (triggers refuse it), so the next number is
    one past the largest.  serde, SHA-256 and the uuid crate are parameters
    ([AttemptLib]). *)

From S2P Require Import Prelude Text Models Store RoleContract Dispatch Gates Runs Ordering Recipe RecipeFacts Plan Catalog Execution PlanStore RunControl GateResolution ExecutionStore SetupReport.
From Stdlib Require Import ZArith Lia Ascii String.
From stdpp Require Import strings gmap pretty prelude.

(** ** Workspaces and identities *)

Inductive WorkspaceStatus : Type := Wst_Active | Wst_Removed.

Record Workspace : Type := MkWorkspace {
  wsp_id : string;
  wsp_instance_id : string;
  wsp_host_id : string;
  wsp_project_id : string;
  wsp_name : string;
  wsp_branch : option string;
  wsp_path : string;
  wsp_created_at : string;
  wsp_updated_at : string;
  wsp_kind : WorkspaceKind;
  wsp_status : WorkspaceStatus;
  wsp_source_branch : option string;
  wsp_reuses_existing_branch : bool;
  wsp_is_pinned : bool;
  wsp_is_archived : bool;
  wsp_tag_ids : list string;
  wsp_tag_names : list string;
  wsp_section_id : option string;
  wsp_parent_workspace_id : option string;
  wsp_child_count : Z
}.
Definition with_wsp_source_branch (v : option string) (w : Workspace) : Workspace :=
  MkWorkspace (wsp_id w) (wsp_instance_id w) (wsp_host_id w) (wsp_project_id w) (wsp_name w) (wsp_branch w)
    (wsp_path w) (wsp_created_at w) (wsp_updated_at w) (wsp_kind w) (wsp_status w) v
    (wsp_reuses_existing_branch w) (wsp_is_pinned w) (wsp_is_archived w) (wsp_tag_ids w) (wsp_tag_names w)
    (wsp_section_id w) (wsp_parent_workspace_id w) (wsp_child_count w).

Record WorkflowWorkspaceIdentity : Type := MkIdentity {
  wi_workspace : Workspace;
  wi_repo_path : string;
  wi_owner_workspace_id : string;
  wi_run_id : string;
  wi_revision : Z;
  wi_task_id : option string;
  wi_attempt : Z;
  wi_base_sha : string
}.

Record WorkflowWorkspaceRecord : Type := MkWorkspaceRecord {
  wrec_identity : WorkflowWorkspaceIdentity;
  wrec_phase : RunWorkspacePhase;
  wrec_setup_report : option WorktreeSetupReport;
  wrec_error : option string;
  wrec_dispatch_id : option string
}.

Record WorkflowWorkspaceQuery : Type := MkWorkspaceQuery {
  wq_run_id : string;
  wq_before_row : option Z;
  wq_limit : option Z
}.
Record WorkflowWorkspacePage : Type := MkWorkspacePage {
  wp_items : list WorkflowWorkspaceRecord;
  wp_next_before_row : option Z
}.

(** ** Tables *)

Record WorkspaceColumns : Type := MkWorkspaceColumns {
  wc_sequence : Z;
  wc_path : string;
  wc_identity : string;
  wc_setup_report : option string;
  wc_error : option string
}.
(** A runWorkspaceRequests row, keyed by the request. *)
Record WorkspaceRequest : Type := MkWorkspaceRequest { wr_digest : string; wr_workspace_id : string }.
Record LaunchColumns : Type := MkLaunchColumns {
  lc_sequence : Z;
  lc_request_id : string;
  lc_request_digest : string;
  lc_request : string;
  lc_profile_id : string;
  lc_profile_revision : Z;
  lc_inputs : string
}.
(** The columns of runIntegrations beside [RunIntegration], keyed by the request. *)
Record IntegrationColumns : Type := MkIntegrationColumns {
  ic_id : string;
  ic_request_digest : string;
  ic_revision : Z;
  ic_task_id : string;
  ic_request : string;
  ic_conflict_paths : list string;
  ic_conflicts_truncated : bool
}.
(** A workspaceRelations row. *)
Record WorkspaceRelation : Type := MkRelation {
  rel_id : string;
  rel_parent : string;
  rel_parent_instance : string;
  rel_child : string;
  rel_child_instance : string
}.
Inductive RunCleanupState : Type := Cl_Preview | Cl_Applying | Cl_Retired | Cl_Attention.
#[export] Instance RunCleanupState_eq_dec : EqDecision RunCleanupState.
Proof. solve_decision. Defined.
(** A runCleanup row, keyed by its id. *)
Record CleanupRow : Type := MkCleanupRow {
  cl_run_id : string;
  cl_digest : string;
  cl_document : string;
  cl_expires_at : Z;
  cl_state : RunCleanupState;
  cl_error : option string;
  cl_abandoned : bool
}.
(** A runCleanupResources row, keyed by the workspace. *)
Record CleanupClaim : Type := MkCleanupClaim { cc_cleanup_id : string; cc_retired : bool }.

Record AttemptTables : Type := MkAttemptTables {
  at_workspaces : gmap string WorkspaceColumns;
  at_requests : gmap string WorkspaceRequest;
  at_launches : gmap string LaunchColumns;
  at_integrations : gmap string IntegrationColumns;
  at_relations : list WorkspaceRelation;
  at_cleanups : gmap string CleanupRow;
  at_claims : gmap string CleanupClaim
}.
Definition set_at_workspaces (v : gmap string WorkspaceColumns) (t : AttemptTables) : AttemptTables :=
  MkAttemptTables v (at_requests t) (at_launches t) (at_integrations t) (at_relations t) (at_cleanups t) (at_claims t).
Definition set_at_requests (v : gmap string WorkspaceRequest) (t : AttemptTables) : AttemptTables :=
  MkAttemptTables (at_workspaces t) v (at_launches t) (at_integrations t) (at_relations t) (at_cleanups t) (at_claims t).
Definition set_at_launches (v : gmap string LaunchColumns) (t : AttemptTables) : AttemptTables :=
  MkAttemptTables (at_workspaces t) (at_requests t) v (at_integrations t) (at_relations t) (at_cleanups t) (at_claims t).
Definition set_at_integrations (v : gmap string IntegrationColumns) (t : AttemptTables) : AttemptTables :=
  MkAttemptTables (at_workspaces t) (at_requests t) (at_launches t) v (at_relations t) (at_cleanups t) (at_claims t).
Definition set_at_relations (v : list WorkspaceRelation) (t : AttemptTables) : AttemptTables :=
  MkAttemptTables (at_workspaces t) (at_requests t) (at_launches t) (at_integrations t) v (at_cleanups t) (at_claims t).
Definition set_at_cleanups (v : gmap string CleanupRow) (t : AttemptTables) : AttemptTables :=
  MkAttemptTables (at_workspaces t) (at_requests t) (at_launches t) (at_integrations t) (at_relations t) v (at_claims t).
Definition set_at_claims (v : gmap string CleanupClaim) (t : AttemptTables) : AttemptTables :=
  MkAttemptTables (at_workspaces t) (at_requests t) (at_launches t) (at_integrations t) (at_relations t) (at_cleanups t) v.

Record AttemptWorld : Type := MkAttemptWorld { aw_plan : PlanWorld; aw_tables : AttemptTables }.
Abbreviation AM := (M AttemptWorld).

Definition in_plan {A} (m : PM A) : AM A := λ w,
  let (p, r) := m (aw_plan w) in (MkAttemptWorld p (aw_tables w), r).
Definition in_attempts (f : AttemptTables → AttemptTables) : AM unit :=
  modify (λ w, MkAttemptWorld (aw_plan w) (f (aw_tables w))).
Definition check {A} (r : R A) : AM A := in_plan (raise r).
Definition aselect {A} (q : Db → PlanTables → AttemptTables → A) : AM A :=
  gets (λ w, q (w_db (pw_world (aw_plan w))) (pw_tables (aw_plan w)) (aw_tables w)).

(** A transaction over all tables; identifiers drawn stay drawn. *)
Definition attempt_tx {A} (m : AM A) : AM A := λ w,
  match m w with
  | (w', Ok a) => (w', Ok a)
  | (w', Err e) =>
      let p := aw_plan w in
      (MkAttemptWorld (MkPlanWorld (MkWorld (w_db (pw_world p)) (w_rng (pw_world (aw_plan w')))) (pw_tables p))
         (aw_tables w), Err e)
  end.

(** [fetch_one]: the row, or sqlx's RowNotFound. *)
Definition fetch_one {A} (row : option A) : AM A :=
  match row with Some a => ret a | None => in_plan not_found end.

Definition next_sequence (l : list Z) : Z := 1 + foldr Z.max 0%Z l.

(** serde, SHA-256 and the uuid crate. *)
Class AttemptLib : Type := {
  identity_encode : WorkflowWorkspaceIdentity → string;
  identity_decode : string → option WorkflowWorkspaceIdentity;
  reserve_digest : PrepareWorkflowWorkspace → string;    (** [workflow_digest(request)] *)
  uuid_valid : string → bool                             (** [Uuid::parse_str] succeeds *)
}.

Definition run_branch_name (id : string) : string := "alera/runs/" +:+ id.

(** [Path::is_absolute] on a Unix host. *)
Definition is_absolute (path : string) : bool := String.prefix "/" path.

Section Attempts.
Context `{Env, ContractLib, RecipeLib, PlanLib, ProposalLib, ControlLib, GateLib, StepLib, SourceJson, ReportLib, AttemptLib}.

(** ** Reading *)

Definition workspace_row (db : Db) (t : AttemptTables) (id : string) : option (RunWorkspace * WorkspaceColumns) :=
  x ← find_where (λ x, String.eqb (x_id x) id) (db_workspaces db); c ← at_workspaces t !! id; Some (x, c).

(** [run_workspace_store::decode] *)
Definition decode_workspace (row : RunWorkspace * WorkspaceColumns) : R WorkflowWorkspaceRecord :=
  let (x, c) := row in
  try! identity := with_context (identity_decode (wc_identity c)) "invalid workspace identity" in
  try! report := (match wc_setup_report c with
                  | None => Ok None
                  | Some raw => try! r := with_context (report_decode raw) "invalid setup report" in Ok (Some r)
                  end) in
  Ok (MkWorkspaceRecord identity (x_phase x) report (wc_error c) (x_dispatch_id x)).

Definition workflow_workspace (id : string) : AM WorkflowWorkspaceRecord :=
  let! row := aselect (λ db _ t, workspace_row db t id) in
  let! row := check (with_context row "workflow workspace not found") in
  check (decode_workspace row).

Definition integration_row (db : Db) (run : string) : option RunWorkspace :=
  find_where (λ x, String.eqb (x_run_id x) run && bool_decide (x_task_id x = None)) (db_workspaces db).

Definition workflow_integration_workspace (run : string) : AM WorkflowWorkspaceRecord :=
  let! row := aselect (λ db _ t, x ← integration_row db run; workspace_row db t (x_id x)) in
  let! row := fetch_one row in
  check (decode_workspace row).

Definition workflow_workspace_owned (id : string) : AM bool :=
  aselect (λ db _ _, existsb (λ x, String.eqb (x_id x) id) (db_workspaces db)).

Definition sequence_of (t : AttemptTables) (x : RunWorkspace) : Z :=
  default 0%Z (wc_sequence <$> at_workspaces t !! x_id x).

Definition workflow_resource_ownership_page (after : Z) : AM (list (Z * WorkflowWorkspaceIdentity)) :=
  let! rows := aselect (λ db _ t,
    omap (λ x, (λ c, (x, c)) <$> at_workspaces t !! x_id x)
      (take 32 (sort_by (λ a b, sequence_of t a <=? sequence_of t b)%Z
         (List.filter (λ x, (after <? sequence_of t x)%Z) (db_workspaces db))))) in
  check (rmapM (λ row, try! i := with_context (identity_decode (wc_identity (snd row))) "invalid workspace identity" in
                       Ok (wc_sequence (snd row), i)) rows).

Definition workflow_workspaces (query : WorkflowWorkspaceQuery) : AM WorkflowWorkspacePage :=
  do! check (workflow_text (wq_run_id query) 160) in
  let limit := Z.to_nat (Z.max 1 (Z.min 25 (default 20%Z (wq_limit query)))) in
  let! rows := aselect (λ db _ t,
    omap (λ x, (λ c, (x, c)) <$> at_workspaces t !! x_id x)
      (take (limit + 1) (sort_by (λ a b, sequence_of t b <=? sequence_of t a)%Z
         (List.filter (λ x, String.eqb (x_run_id x) (wq_run_id query)
                            && (sequence_of t x <? default I64_MAX (wq_before_row query))%Z) (db_workspaces db))))) in
  let next := if Nat.ltb limit (length rows) then (λ row, wc_sequence (snd row)) <$> rows !! Nat.pred limit else None in
  let! items := check (rmapM decode_workspace (take limit rows)) in
  ret (MkWorkspacePage items next).

(** ** Reservation *)

(** INSERT on runWorkspaces: its keys and unique indexes. *)
Definition insert_run_workspace (x : RunWorkspace) (c : WorkspaceColumns) : AM unit := λ w,
  let p := aw_plan w in
  let db := w_db (pw_world p) in
  if existsb (λ y, String.eqb (x_id y) (x_id x)) (db_workspaces db)
  then (w, Err (Database "UNIQUE constraint failed: runWorkspaces.id"))
  else if existsb (λ y, bool_decide (wc_path <$> at_workspaces (aw_tables w) !! x_id y = Some (wc_path c))) (db_workspaces db)
  then (w, Err (Database "UNIQUE constraint failed: runWorkspaces.path"))
  else if bool_decide (x_task_id x = None) && bool_decide (is_Some (integration_row db (x_run_id x)))
  then (w, Err (Database "UNIQUE constraint failed: runWorkspaces.run_id"))
  else if bool_decide (is_Some (x_task_id x))
          && existsb (λ y, bool_decide (x_task_id y = x_task_id x) && (x_attempt y =? x_attempt x)%Z) (db_workspaces db)
  then (w, Err (Database "UNIQUE constraint failed: runWorkspaces.task_id, runWorkspaces.attempt"))
  else (MkAttemptWorld
          (MkPlanWorld (with_db (set_workspaces (db_workspaces db ++ [x])) (pw_world p)) (pw_tables p))
          (set_at_workspaces (<[x_id x := c]> (at_workspaces (aw_tables w))) (aw_tables w)), Ok tt).

(** An attempt that holds a worker slot of the run. *)
Definition slot_released (db : Db) (x : RunWorkspace) : bool :=
  (bool_decide (x_dispatch_id x = None)
   && existsb (λ t, bool_decide (x_task_id x = Some (t_id t)) && bool_decide (t_status t = Ts_Cancelled)) (db_tasks db))
  || existsb (λ d, bool_decide (x_dispatch_id x = Some (d_id d))
       && bool_decide (d_status d ∈ [Ds_Completed; Ds_Failed; Ds_StartupFailed; Ds_Superseded; Ds_CircuitBroken]))
       (db_dispatches db).
Definition active_attempt (db : Db) (run : string) (revision : Z) (x : RunWorkspace) : bool :=
  String.eqb (x_run_id x) run && (x_revision x =? revision)%Z && bool_decide (is_Some (x_task_id x))
  && negb (bool_decide (x_phase x = Wp_Attention)) && negb (slot_released db x).
Definition active_attempts (db : Db) (run : string) (revision : Z) : Z :=
  Z.of_nat (count_where (active_attempt db run revision) (db_workspaces db)).

(** The attempt number of the workspace, and the workspace that exists already. *)
Definition attempt_target (request : PrepareWorkflowWorkspace) (plan : WorkflowPlanSnapshot) : AM (Z * option string) :=
  let run := prep_run_id request in
  let retries := bool_decide (is_Some (prep_retry_of request)) in
  match prep_task_id request with
  | Some task =>
      do! in_plan (eligible_task run (prep_revision request) task plan) in
      let! ready := aselect (λ db _ _, existsb (λ x, String.eqb (x_run_id x) run && bool_decide (x_task_id x = None)
                                                     && bool_decide (x_phase x = Wp_Ready)) (db_workspaces db)) in
      do! check (ensure ready "workflow integration workspace is not ready") in
      let! previous := aselect (λ db _ _, current_attempt db task) in
      let! target :=
        (match previous with
         | Some x =>
             match prep_retry_of request with
             | Some retry =>
                 do! check (ensure (String.eqb retry (x_id x) && bool_decide (x_phase x = Wp_Attention))
                       "retry requires the latest attempt in Attention") in
                 ret ((x_attempt x + 1)%Z, None)
             | None => ret ((x_attempt x + 1)%Z, Some (x_id x))
             end
         | None =>
             do! check (ensure (negb retries) "workflow attempt to retry was not found") in
             ret (1%Z, None)
         end) in
      match snd target with
      | Some _ => ret target
      | None =>
          let! active := aselect (λ db _ _, active_attempts db run (prep_revision request)) in
          do! check (ensure (active <? ps_max_concurrent plan)%Z "workflow concurrency limit reached") in
          ret target
      end
  | None =>
      do! check (ensure (negb retries) "integration workspace cannot be replaced by a task retry") in
      let! existing := aselect (λ db _ _, x_id <$> integration_row db run) in
      ret (0%Z, existing)
  end.

Definition valid_candidate (candidate : Workspace) (plan : WorkflowPlanSnapshot) : bool :=
  String.eqb (wsp_project_id candidate) (sw_project_id (ps_source_workspace plan))
  && String.eqb (wsp_host_id candidate) LOCAL_HOST_ID && bool_decide (wsp_kind candidate = Wk_Linked)
  && is_absolute (wsp_path candidate)
  && bool_decide (wsp_branch candidate = Some (run_branch_name (wsp_id candidate))).

Definition workspace_collides (candidate : Workspace) (r : SourceRow) : bool :=
  String.eqb (sw_workspace_id (sr_source r)) (wsp_id candidate)
  || String.eqb (sw_path (sr_source r)) (wsp_path candidate)
  || (String.eqb (sw_project_id (sr_source r)) (wsp_project_id candidate)
      && bool_decide (is_Some (wsp_branch candidate)) && bool_decide (sr_branch r = wsp_branch candidate)).

Definition reserved_identity (request : PrepareWorkflowWorkspace) (plan : WorkflowPlanSnapshot) (integration_sha : string)
    (candidate : Workspace) (attempt : Z) : WorkflowWorkspaceIdentity :=
  MkIdentity (with_wsp_source_branch (Some integration_sha) candidate)
    (sw_project_repo_path (ps_source_workspace plan)) (sw_workspace_id (ps_source_workspace plan))
    (prep_run_id request) (prep_revision request) (prep_task_id request) attempt
    (match prep_task_id request with Some _ => integration_sha | None => ps_source_sha plan end).

Definition insert_attempt (request : PrepareWorkflowWorkspace) (plan : WorkflowPlanSnapshot) (integration_sha : string)
    (candidate : Workspace) (attempt : Z) : AM string :=
  do! check (ensure (uuid_valid (wsp_id candidate)) "invalid uuid") in
  do! check (ensure (uuid_valid (wsp_instance_id candidate)) "invalid uuid") in
  do! check (ensure (valid_candidate candidate plan) "invalid managed workflow workspace candidate") in
  let! collision := aselect (λ _ t _, existsb (workspace_collides candidate) (pl_sources t)) in
  do! check (ensure (negb collision) "workflow workspace identity is already in use") in
  let identity := reserved_identity request plan integration_sha candidate attempt in
  let id := wsp_id candidate in
  let! sequence := aselect (λ db _ t, next_sequence (sequence_of t <$> db_workspaces db)) in
  do! insert_run_workspace
        (MkRunWorkspace id (prep_run_id request) (prep_revision request) (prep_task_id request) attempt Wp_Reserved None)
        (MkWorkspaceColumns sequence (wsp_path candidate) (identity_encode identity) None None) in
  do! (match prep_task_id request, prep_retry_of request with
       | Some task, Some previous =>
           in_plan (record_event (with_ne_payload (Some (JObject [("retryOf", JString previous)]))
             (with_ne_summary ("Attempt " +:+ pretty attempt +:+ " replaces the attempt that needed attention.")
             (with_ne_task_id (Some task) (new_run_event (prep_run_id request) Ev_Retried)))))
       | _, _ => ret tt
       end) in
  ret id.

Definition insert_workspace_request (request_id : string) (row : WorkspaceRequest) : AM unit :=
  let! taken := aselect (λ _ _ t, bool_decide (is_Some (at_requests t !! request_id))) in
  if taken : bool then in_plan (fail (Database "UNIQUE constraint failed: runWorkspaceRequests.request_id"))
  else in_attempts (λ t, set_at_requests (<[request_id := row]> (at_requests t)) t).

Definition optional_text (value : option string) (max : Z) : R unit :=
  match value with Some v => workflow_text v max | None => Ok tt end.

(** The transaction of [reserve_workflow_workspace]. *)
Definition reserve_in_tx (request : PrepareWorkflowWorkspace) (candidate : Workspace) : AM string :=
  let! seen := aselect (λ _ _ t, at_requests t !! prep_request_id request) in
  match seen with
  | Some r =>
      do! check (ensure (String.eqb (wr_digest r) (reserve_digest request))
            "workflow request id was already used for different contents") in
      ret (wr_workspace_id r)
  | None =>
      let! found := in_plan (approved_plan (prep_run_id request) (prep_revision request)) in
      let! running := aselect (λ db _ _, existsb (λ r, is_run (prep_run_id request) r
                                                       && bool_decide (r_status r = Cs_Running)) (db_runs db)) in
      do! check (ensure (negb (bool_decide (is_Some (prep_retry_of request)) && running))
            "pause the run before preparing a fresh attempt") in
      let! target := attempt_target request (fst found) in
      let! id := (match snd target with
                  | Some id => ret id
                  | None => insert_attempt request (fst found) (snd found) candidate (fst target)
                  end) in
      do! insert_workspace_request (prep_request_id request) (MkWorkspaceRequest (reserve_digest request) id) in
      ret id
  end.

Definition reserve_workflow_workspace (request : PrepareWorkflowWorkspace) (candidate : Workspace)
    : AM WorkflowWorkspaceRecord :=
  do! check (workflow_text (prep_request_id request) 160) in
  do! check (workflow_text (prep_run_id request) 160) in
  do! check (optional_text (prep_task_id request) 160) in
  do! check (optional_text (prep_retry_of request) 160) in
  let! id := attempt_tx (reserve_in_tx request candidate) in
  workflow_workspace id.

(** ** Phases *)

Definition transition_allowed (expected next : RunWorkspacePhase) : bool :=
  (bool_decide (next = Wp_Attention)
   || match expected, next with
      | Wp_Reserved, Wp_Creating | Wp_Creating, Wp_Created | Wp_Created, Wp_SetupRunning
      | Wp_Created, Wp_Ready | Wp_SetupRunning, Wp_Ready => true
      | _, _ => false
      end)
  && negb (bool_decide (expected = Wp_Attention)).

(** [run_workspace_transitions::validate] *)
Definition validate_identity (identity : WorkflowWorkspaceIdentity) (revision : Z) : PM unit :=
  let! found := approved_plan (wi_run_id identity) revision in
  let plan := fst found in
  do! raise (ensure (String.eqb (wi_owner_workspace_id identity) (sw_workspace_id (ps_source_workspace plan))
                     && String.eqb (wi_repo_path identity) (sw_project_repo_path (ps_source_workspace plan))
                     && String.eqb (wsp_project_id (wi_workspace identity)) (sw_project_id (ps_source_workspace plan)))
        "workflow resource belongs to another owner") in
  match wi_task_id identity with
  | Some task =>
      do! raise (ensure (revision =? wi_revision identity)%Z "workflow attempt revision changed") in
      eligible_task (wi_run_id identity) revision task plan
  | None => raise (ensure (String.eqb (ps_source_sha plan) (wi_base_sha identity)) "workflow integration source changed")
  end.

Definition validate_workflow_workspace (id : string) (revision : Z) : AM WorkflowWorkspaceRecord :=
  attempt_tx (
    let! row := aselect (λ db _ t, workspace_row db t id) in
    let! row := fetch_one row in
    let! record := check (decode_workspace row) in
    do! in_plan (validate_identity (wrec_identity record) revision) in
    ret record).

(** The project columns a joined row of this project shows. *)
Definition project_columns (t : PlanTables) (project : string) : string * bool :=
  match find_where (λ r, String.eqb (sw_project_id (sr_source r)) project) (pl_sources t) with
  | Some r => (sw_project_repo_path (sr_source r), sr_git r)
  | None => ("", false)
  end.

(** INSERT on workspaces: runRetiredWorkspaceInsert, the key and the unique instance. *)
Definition insert_workspace (identity : WorkflowWorkspaceIdentity) : AM unit := λ w,
  let ws := wi_workspace identity in
  let p := aw_plan w in
  let rows := pl_sources (pw_tables p) in
  if bool_decide (cc_retired <$> at_claims (aw_tables w) !! wsp_id ws = Some true)
  then (w, Err (Database "retired workflow workspace cannot be recreated"))
  else if existsb (λ r, String.eqb (sw_workspace_id (sr_source r)) (wsp_id ws)) rows
  then (w, Err (Database "UNIQUE constraint failed: workspaces.id"))
  else if existsb (λ r, String.eqb (sw_instance_id (sr_source r)) (wsp_instance_id ws)) rows
  then (w, Err (Database "UNIQUE constraint failed: workspaces.instanceId"))
  else
    let project := project_columns (pw_tables p) (wsp_project_id ws) in
    let row := MkSourceRow (MkSourceWorkspace (wsp_id ws) (wsp_instance_id ws) (wsp_project_id ws) (wsp_path ws) (fst project))
                 true "local" (snd project) (wsp_branch ws) Wk_Linked in
    (MkAttemptWorld (MkPlanWorld (pw_world p) (set_pl_sources (rows ++ [row]) (pw_tables p))) (aw_tables w), Ok tt).

(** INSERT on workspaceRelations: its unique child. *)
Definition insert_relation (r : WorkspaceRelation) : AM unit :=
  let! taken := aselect (λ _ _ t, existsb (λ x, String.eqb (rel_id x) (rel_id r) || String.eqb (rel_child x) (rel_child r))
                                    (at_relations t)) in
  if taken : bool then in_plan (fail (Database "UNIQUE constraint failed: workspaceRelations.childWorkspaceId"))
  else in_attempts (λ t, set_at_relations (at_relations t ++ [r]) t).

Definition register_workspace (identity : WorkflowWorkspaceIdentity) : AM unit :=
  do! insert_workspace identity in
  let! owner := aselect (λ _ t _, find_where (λ r, String.eqb (sw_workspace_id (sr_source r)) (wi_owner_workspace_id identity))
                                    (pl_sources t)) in
  let! owner := fetch_one owner in
  let! id := in_plan new_uuid in
  insert_relation (MkRelation id (wi_owner_workspace_id identity) (sw_instance_id (sr_source owner))
    (wsp_id (wi_workspace identity)) (wsp_instance_id (wi_workspace identity))).

Definition with_x_phase (v : RunWorkspacePhase) (x : RunWorkspace) : RunWorkspace :=
  MkRunWorkspace (x_id x) (x_run_id x) (x_revision x) (x_task_id x) (x_attempt x) v (x_dispatch_id x).
Definition with_x_dispatch_id (v : option string) (x : RunWorkspace) : RunWorkspace :=
  MkRunWorkspace (x_id x) (x_run_id x) (x_revision x) (x_task_id x) (x_attempt x) (x_phase x) v.
Definition update_run_workspaces (p : RunWorkspace → bool) (f : RunWorkspace → RunWorkspace) : AM unit :=
  in_plan (in_world (modify (with_db (λ db, set_workspaces (update_where p f (db_workspaces db)) db)))).

Definition transition_columns (report error : option string) (c : WorkspaceColumns) : WorkspaceColumns :=
  MkWorkspaceColumns (wc_sequence c) (wc_path c) (wc_identity c)
    (match report with Some r => Some r | None => wc_setup_report c end) error.

Definition prepared_event (identity : WorkflowWorkspaceIdentity) (task : string) : NewRunEvent :=
  with_ne_payload (Some (JObject [("workspaceId", JString (wsp_id (wi_workspace identity)));
                                  ("attempt", JNumber (pretty (wi_attempt identity)));
                                  ("branch", json_opt (wsp_branch (wi_workspace identity)));
                                  ("baseSha", JString (wi_base_sha identity))]))
  (with_ne_summary ("Attempt " +:+ pretty (wi_attempt identity)) (with_ne_actor_kind (Some Ak_Runtime)
  (with_ne_task_id (Some task) (new_run_event (wi_run_id identity) Ev_AttemptPrepared)))).

(** The transaction of [transition_workflow_workspace]. *)
Definition transition_in_tx (id : string) (revision : Z) (expected next : RunWorkspacePhase)
    (report error : option string) : AM unit :=
  let! row := aselect (λ db _ t, workspace_row db t id) in
  let! row := fetch_one row in
  let! record := check (decode_workspace row) in
  do! check (ensure (bool_decide (wrec_phase record = expected)) "workflow workspace phase changed") in
  let identity := wrec_identity record in
  do! (if bool_decide (next = Wp_Attention) then ret tt else in_plan (validate_identity identity revision)) in
  do! (if bool_decide (next = Wp_Created) then register_workspace identity else ret tt) in
  do! update_run_workspaces (λ x, String.eqb (x_id x) id) (with_x_phase next) in
  do! in_attempts (λ t, set_at_workspaces (alter (transition_columns report error) id (at_workspaces t)) t) in
  match next, wi_task_id identity with
  | Wp_Ready, Some task => in_plan (record_event (prepared_event identity task))
  | _, _ => ret tt
  end.

Definition transition_workflow_workspace (id : string) (revision : Z) (expected next : RunWorkspacePhase)
    (report : option WorktreeSetupReport) (error : option string) : AM WorkflowWorkspaceRecord :=
  do! check (ensure (transition_allowed expected next) "invalid workflow workspace transition") in
  do! check (ensure (match error with Some e => negb (4096 <? zlen e)%Z | None => true end)
        "workflow setup error exceeds the byte limit") in
  do! attempt_tx (transition_in_tx id revision expected next (bounded_report <$> report) error) in
  workflow_workspace id.
End Attempts.
