(* ===== verification/Launches.v ===== *)
(** * Launches: starting a worker in an attempt of an isolated run

    run_launch.rs, run_launch_validation.rs (what a launch needs), run_launch_store.rs
    (the reservation, which creates the dispatch in the same transaction, its
    replay and the pages) and run_launch_transitions.rs (the one-shot claim, the
    last check before the process starts, the outcomes and the settlement of a
    launch whose process is gone). *)

From S2P Require Import Prelude Text Models Store RoleContract Dispatch Gates Runs Ordering Recipe RecipeFacts Plan Catalog Execution PlanStore RunControl GateResolution ExecutionStore SetupReport Attempts.
From Stdlib Require Import ZArith Lia Ascii String.
From stdpp Require Import strings gmap pretty prelude.

Record WorkflowLaunchRecord : Type := MkLaunchRecord {
  lr_id : string;
  lr_request : LaunchWorkflowTask;
  lr_terminal_handle : string;
  lr_dispatch_id : string;
  lr_base_sha : string;
  lr_profile_id : string;
  lr_profile_revision : Z;
  lr_status : WorkflowLaunchStatus;
  lr_error : option string
}.
Record WorkflowLaunchInputs : Type := MkLaunchInputs {
  li_workspace : WorkflowWorkspaceIdentity;
  li_task : FrozenWorkflowTask;
  li_profile : AgentProfile;
  li_plan_digest : string
}.
Record WorkflowLaunchQuery : Type := MkLaunchQuery { lq_run_id : string; lq_after_row : option Z }.
Record WorkflowLaunchPage : Type := MkLaunchPage {
  lp_items : list WorkflowLaunchRecord;
  lp_next_after_row : option Z
}.

(** serde and SHA-256. *)
Class LaunchLib : Type := {
  launch_request_encode : LaunchWorkflowTask → string;
  launch_request_decode : string → option LaunchWorkflowTask;
  launch_inputs_encode : WorkflowLaunchInputs → string;
  launch_inputs_decode : string → option WorkflowLaunchInputs;
  launch_request_digest : LaunchWorkflowTask → string;
  launch_inputs_digest : WorkflowLaunchInputs → string
}.

Section Launches.
Context `{Env, ContractLib, RecipeLib, PlanLib, ProposalLib, ControlLib, GateLib, StepLib, SourceJson, ReportLib, AttemptLib, LaunchLib}.

(** ** Validation (run_launch_validation.rs) *)

(** [run_integration_validation::require_resource] *)
Definition resource_registered (t : PlanTables) (ws : Workspace) : bool :=
  existsb (λ r, String.eqb (sw_workspace_id (sr_source r)) (wsp_id ws)
                && String.eqb (sw_instance_id (sr_source r)) (wsp_instance_id ws)
                && String.eqb (sw_project_id (sr_source r)) (wsp_project_id ws) && String.eqb (sr_host_id r) "local"
                && String.eqb (sw_path (sr_source r)) (wsp_path ws)
                && bool_decide (is_Some (wsp_branch ws)) && bool_decide (sr_branch r = wsp_branch ws)
                && bool_decide (sr_kind r = Wk_Linked) && sr_active r) (pl_sources t).
Definition require_resource (record : WorkflowWorkspaceRecord) : AM unit :=
  let! valid := aselect (λ _ t _, resource_registered t (wi_workspace (wrec_identity record))) in
  check (ensure (bool_decide (wrec_phase record = Wp_Ready) && valid)
    "integration requires ready, active, owned workflow workspaces").

(** The identity columns that tie a workspace to the owner of a plan. *)
Definition owned_by_plan (plan : WorkflowPlanSnapshot) (i : WorkflowWorkspaceIdentity) : bool :=
  String.eqb (wi_owner_workspace_id i) (sw_workspace_id (ps_source_workspace plan))
  && String.eqb (wi_repo_path i) (sw_project_repo_path (ps_source_workspace plan))
  && String.eqb (wsp_project_id (wi_workspace i)) (sw_project_id (ps_source_workspace plan)).

Definition fetch_workspace (id : string) : AM WorkflowWorkspaceRecord :=
  let! row := aselect (λ db _ t, workspace_row db t id) in
  let! row := fetch_one row in
  check (decode_workspace row).

Definition inputs (request : LaunchWorkflowTask) (dispatched : bool) : AM WorkflowLaunchInputs :=
  let run := lt_run_id request in
  let revision := lt_revision request in
  let! found := in_plan (approved_plan run revision) in
  let plan := fst found in
  do! in_plan (require_running run revision) in
  let! unsettled := aselect (λ _ t _, unsettled_integration run t) in
  do! check (ensure (negb unsettled) "reconcile the pending integration before launching a worker") in
  let! eligible := aselect (λ db t _, eligible_task_state db t run revision (lt_task_id request) plan
                              (if dispatched then [Ts_Dispatched] else [Ts_Pending; Ts_Ready])) in
  do! check eligible in
  let! source := fetch_workspace (lt_workspace_id request) in
  do! require_resource source in
  let identity := wrec_identity source in
  do! check (ensure (String.eqb (wi_run_id identity) run && (wi_revision identity =? revision)%Z
                     && bool_decide (wi_task_id identity = Some (lt_task_id request)) && owned_by_plan plan identity)
        "worker attempt does not belong to this approved plan") in
  let! latest := aselect (λ db _ _, x_id <$> current_attempt db (lt_task_id request)) in
  let! latest := fetch_one latest in
  do! check (ensure (String.eqb latest (lt_workspace_id request)) "worker requires the latest task attempt") in
  let! task := in_plan (frozen_task (lt_task_id request)) in
  let! profile := check (with_context (ps_profiles plan !! ft_profile_id task) "frozen worker profile is missing") in
  do! check (ensure (dispatched || bool_decide (wrec_dispatch_id source = None))
        "workflow attempt was already dispatched") in
  let! active := aselect (λ db _ _, active_attempts db run revision) in
  do! check (ensure (active <=? ps_max_concurrent plan)%Z "workflow concurrency limit reached") in
  ret (MkLaunchInputs identity task profile (ps_digest plan)).

Definition validate_request (request : LaunchWorkflowTask) : R unit :=
  try! _ := rmap_ (λ v, workflow_text v 160)
    [lt_request_id request; lt_run_id request; lt_task_id request; lt_workspace_id request] in
  ensure (1 <=? lt_revision request)%Z "workflow revision must be positive".

(** ** Reading (run_launch_store.rs) *)

Definition launch_row (t : AttemptTables) (l : WorkflowLaunch) : option (WorkflowLaunch * LaunchColumns) :=
  (λ c, (l, c)) <$> at_launches t !! l_id l.

(** [run_launch_store::decode] *)
Definition decode_launch (row : WorkflowLaunch * LaunchColumns) : R WorkflowLaunchRecord :=
  let (l, c) := row in
  try! request := with_context (launch_request_decode (lc_request c)) "invalid launch request" in
  Ok (MkLaunchRecord (l_id l) request (l_terminal_handle l) (l_dispatch_id l) (l_base_sha l) (lc_profile_id c)
        (lc_profile_revision c) (l_status l) (l_error l)).

Definition launch_where (p : WorkflowLaunch → LaunchColumns → bool) (db : Db) (t : AttemptTables)
    : option (WorkflowLaunch * LaunchColumns) :=
  find_where (λ row, p (fst row) (snd row)) (omap (launch_row t) (db_launches db)).

Definition launch_replay (row : WorkflowLaunch * LaunchColumns) (request : LaunchWorkflowTask) : R WorkflowLaunchRecord :=
  try! _ := ensure (String.eqb (lc_request_digest (snd row)) (launch_request_digest request))
    "launch request id was already used for different contents" in
  decode_launch row.

Definition launch_by_id (id : string) : AM (WorkflowLaunch * LaunchColumns) :=
  let! row := aselect (λ db _ t, launch_where (λ l _, String.eqb (l_id l) id) db t) in
  fetch_one row.

Definition workflow_launch (id : string) : AM WorkflowLaunchRecord :=
  let! row := launch_by_id id in check (decode_launch row).

Definition optional_launch (row : option (WorkflowLaunch * LaunchColumns)) : AM (option WorkflowLaunchRecord) :=
  match row with
  | None => ret None
  | Some row => let! record := check (decode_launch row) in ret (Some record)
  end.

Definition workflow_launch_for_terminal (terminal : string) : AM (option WorkflowLaunchRecord) :=
  let! row := aselect (λ db _ t, launch_where (λ l _, String.eqb (l_terminal_handle l) terminal) db t) in
  optional_launch row.

Definition launch_for_request (request_id : string) : AM (option (WorkflowLaunch * LaunchColumns)) :=
  aselect (λ db _ t, launch_where (λ _ c, String.eqb (lc_request_id c) request_id) db t).

Definition workflow_launch_for_request (request : LaunchWorkflowTask) : AM (option WorkflowLaunchRecord) :=
  do! check (validate_request request) in
  let! row := launch_for_request (lt_request_id request) in
  match row with
  | None => ret None
  | Some row => let! record := check (launch_replay row request) in ret (Some record)
  end.

Definition workflow_launch_inputs_for_dispatch (dispatch : string) : AM (option WorkflowLaunchInputs) :=
  let! row := aselect (λ db _ t, launch_where (λ l _, String.eqb (l_dispatch_id l) dispatch) db t) in
  match row with
  | None => ret None
  | Some row => let! i := check (with_context (launch_inputs_decode (lc_inputs (snd row))) "invalid launch inputs") in ret (Some i)
  end.

(** Rows past a sequence number, in order. *)
Definition launches_after (p : Db → WorkflowLaunch → bool) (after : Z) (limit : nat) (db : Db) (t : AttemptTables)
    : list (WorkflowLaunch * LaunchColumns) :=
  take limit (sort_by (λ a b, lc_sequence (snd a) <=? lc_sequence (snd b))%Z
    (List.filter (λ row, p db (fst row) && (after <? lc_sequence (snd row))%Z) (omap (launch_row t) (db_launches db)))).

Definition numbered_launch (row : WorkflowLaunch * LaunchColumns) : R (Z * WorkflowLaunchRecord) :=
  try! record := decode_launch row in Ok (lc_sequence (snd row), record).

Definition workflow_launches_page (run : string) (after : Z) : AM (list (Z * WorkflowLaunchRecord)) :=
  let! rows := aselect (λ db _ t, launches_after (λ _ l, String.eqb (l_run_id l) run) after 25 db t) in
  check (rmapM numbered_launch rows).

Definition workflow_launch_summaries (query : WorkflowLaunchQuery) : AM WorkflowLaunchPage :=
  do! check (workflow_text (lq_run_id query) 160) in
  let! rows := aselect (λ db _ t, launches_after (λ _ l, String.eqb (l_run_id l) (lq_run_id query))
                                    (default 0%Z (lq_after_row query)) 26 db t) in
  let next := if Nat.ltb 25 (length rows) then (λ row, lc_sequence (snd row)) <$> rows !! 24 else None in
  let! items := check (rmapM decode_launch (take 25 rows)) in
  ret (MkLaunchPage items next).

(** A launch whose process or dispatch is not settled. *)
Definition launch_unsettled (db : Db) (l : WorkflowLaunch) : bool :=
  match d_status <$> dispatch_by_id db (l_dispatch_id l) with
  | None => negb (bool_decide (l_status l = Ls_Attention))
  | Some status =>
      if bool_decide (l_status l = Ls_Attention)
      then bool_decide (status ∈ [Ds_Pending; Ds_AwaitingAcceptance; Ds_Dispatched; Ds_Stalled])
      else negb (bool_decide (status = Ds_Completed))
  end.

Definition workflow_launch_recovery_page (after : Z) : AM (list (Z * WorkflowLaunchRecord)) :=
  let! rows := aselect (λ db _ t, launches_after launch_unsettled after 25 db t) in
  check (rmapM numbered_launch rows).

Definition validate_workflow_launch (request : LaunchWorkflowTask) : AM WorkflowLaunchInputs :=
  do! check (validate_request request) in
  attempt_tx (inputs request false).

(** ** Reservation *)

(** INSERT on runLaunches: its keys. *)
Definition insert_launch (l : WorkflowLaunch) (c : LaunchColumns) : AM unit := λ w,
  let p := aw_plan w in
  let db := w_db (pw_world p) in
  if existsb (λ m, String.eqb (l_id m) (l_id l) || String.eqb (l_workspace_id m) (l_workspace_id l)
                   || String.eqb (l_terminal_handle m) (l_terminal_handle l)
                   || String.eqb (l_dispatch_id m) (l_dispatch_id l)
                   || bool_decide (lc_request_id <$> at_launches (aw_tables w) !! l_id m = Some (lc_request_id c)))
       (db_launches db)
  then (w, Err (Database "UNIQUE constraint failed: runLaunches"))
  else (MkAttemptWorld
          (MkPlanWorld (with_db (set_launches (db_launches db ++ [l])) (pw_world p)) (pw_tables p))
          (set_at_launches (<[l_id l := c]> (at_launches (aw_tables w))) (aw_tables w)), Ok tt).

Definition sha256_hex (hash : string) : bool := (zlen hash =? 64)%Z && all_bytes is_lower_hex hash.

Definition launch_sequence (t : AttemptTables) (l : WorkflowLaunch) : Z :=
  default 0%Z (lc_sequence <$> at_launches t !! l_id l).

(** The writes of a new reservation. *)
Definition create_launch (request : LaunchWorkflowTask) (context_hash : string) (frozen : WorkflowLaunchInputs) : AM string :=
  let! id := in_plan new_uuid in
  let! terminal := in_plan new_uuid in
  let! uuid := in_plan new_uuid in
  let dispatch := "ctx_" +:+ uuid in
  let! sequence := aselect (λ db _ t, next_sequence (launch_sequence t <$> db_launches db)) in
  do! insert_launch
        (MkWorkflowLaunch id (lt_run_id request) (lt_revision request) (lt_task_id request) (lt_workspace_id request)
           terminal dispatch (wi_base_sha (li_workspace frozen)) context_hash Ls_Reserved None now)
        (MkLaunchColumns sequence (lt_request_id request) (launch_request_digest request) (launch_request_encode request)
           (ap_id (li_profile frozen)) (ap_revision (li_profile frozen)) (launch_inputs_encode frozen)) in
  do! update_run_workspaces (λ x, String.eqb (x_id x) (lt_workspace_id request) && bool_decide (x_dispatch_id x = None))
        (with_x_dispatch_id (Some dispatch)) in
  do! in_plan (in_world (create_run_dispatch
        (MkNewRunDispatch dispatch (lt_task_id request) (Some (lt_run_id request)) (lt_workspace_id request)
           (Some context_hash) 0
           (Target_Attempt (lt_workspace_id request) terminal id (ap_name (li_profile frozen))
              (ap_quota_group (li_profile frozen)))))) in
  ret id.

Definition reserve_launch_in_tx (request : LaunchWorkflowTask) (context_hash : string)
    : AM (WorkflowLaunchRecord + string) :=
  let! row := launch_for_request (lt_request_id request) in
  match row with
  | Some row => let! record := check (launch_replay row request) in ret (inl record)
  | None =>
      let! frozen := inputs request false in
      let! id := create_launch request context_hash frozen in
      ret (inr id)
  end.

Definition reserve_workflow_launch (request : LaunchWorkflowTask) (context_hash : string)
    : AM (WorkflowLaunchRecord * bool) :=
  do! check (validate_request request) in
  do! check (ensure (sha256_hex context_hash) "workflow context requires a SHA-256 token hash") in
  let! reserved := attempt_tx (reserve_launch_in_tx request context_hash) in
  match reserved with
  | inl record => ret (record, false)
  | inr id => let! record := workflow_launch id in ret (record, true)
  end.

(** ** Transitions (run_launch_transitions.rs) *)

Definition update_launch_rows (p : WorkflowLaunch → bool) (f : WorkflowLaunch → WorkflowLaunch) : AM nat :=
  in_plan (in_world (update_launches p (λ l, with_l_updated_at now (f l)))).

Definition is_launch (id : string) (l : WorkflowLaunch) : bool := String.eqb (l_id l) id.

(** The inputs frozen at the reservation are still those of the plan. *)
Definition current_inputs (row : WorkflowLaunch * LaunchColumns) (record : WorkflowLaunchRecord) : AM WorkflowLaunchInputs :=
  let! frozen := check (with_context (launch_inputs_decode (lc_inputs (snd row))) "invalid launch inputs") in
  let! current := inputs (lr_request record) true in
  do! check (ensure (String.eqb (launch_inputs_digest frozen) (launch_inputs_digest current))
        "workflow launch inputs changed") in
  ret frozen.

Definition awaits_worker (db : Db) (record : WorkflowLaunchRecord) : bool :=
  existsb (λ d, String.eqb (d_id d) (lr_dispatch_id record) && bool_decide (d_status d = Ds_AwaitingAcceptance)
                && bool_decide (d_assignee_handle d = Some (lr_terminal_handle record))) (db_dispatches db)
  && existsb (λ x, bool_decide (x_dispatch_id x = Some (lr_dispatch_id record))
                   && String.eqb (x_id x) (lt_workspace_id (lr_request record))) (db_workspaces db).

Definition claim_workflow_launch (id : string) : AM WorkflowLaunchInputs :=
  attempt_tx (
    let! row := launch_by_id id in
    let! record := check (decode_launch row) in
    do! check (ensure (bool_decide (lr_status record = Ls_Reserved)) "workflow launch has already been claimed") in
    let! frozen := current_inputs row record in
    let! valid := aselect (λ db _ _, awaits_worker db record) in
    do! check (ensure valid "workflow launch dispatch is no longer awaiting acceptance") in
    do! update_launch_rows (is_launch id) (with_l_status Ls_Starting) in
    ret frozen).

Definition spawnable (db : Db) (record : WorkflowLaunchRecord) : bool :=
  let request := lr_request record in
  existsb (λ d, String.eqb (d_id d) (lr_dispatch_id record) && String.eqb (d_task_id d) (lt_task_id request)
                && bool_decide (d_run_id d = Some (lt_run_id request))
                && String.eqb (d_workspace_id d) (lt_workspace_id request)
                && bool_decide (d_status d = Ds_AwaitingAcceptance)
                && bool_decide (d_assignee_handle d = Some (lr_terminal_handle record))) (db_dispatches db)
  && existsb (λ x, bool_decide (x_dispatch_id x = Some (lr_dispatch_id record))
                   && String.eqb (x_id x) (lt_workspace_id request) && String.eqb (x_run_id x) (lt_run_id request)
                   && (x_revision x =? lt_revision request)%Z
                   && bool_decide (x_task_id x = Some (lt_task_id request))) (db_workspaces db).

Definition require_workflow_launch_spawnable (id : string) : AM unit :=
  attempt_tx (
    let! row := launch_by_id id in
    let! record := check (decode_launch row) in
    do! check (ensure (bool_decide (lr_status record = Ls_Starting)) "workflow launch is no longer starting") in
    do! current_inputs row record in
    let! valid := aselect (λ db _ _, spawnable db record) in
    check (ensure valid "workflow launch dispatch is no longer awaiting acceptance")).

Definition mark_workflow_launch_started (id : string) : AM WorkflowLaunchRecord :=
  let! changed := update_launch_rows (λ l, is_launch id l && bool_decide (l_status l = Ls_Starting))
    (with_l_status Ls_Started) in
  do! check (ensure (Nat.eqb changed 1) "workflow launch is not starting") in
  workflow_launch id.

Definition bounded_error (error : string) : string := of_chars (take 1000 (chars error)).

Definition workflow_launch_attention (id error : string) : AM WorkflowLaunchRecord :=
  do! update_launch_rows (is_launch id) (λ l, with_l_error (Some (bounded_error error)) (with_l_status Ls_Attention l)) in
  workflow_launch id.

Definition error_columns (error : string) (c : WorkspaceColumns) : WorkspaceColumns :=
  MkWorkspaceColumns (wc_sequence c) (wc_path c) (wc_identity c) (wc_setup_report c) (Some error).

(** The task waits again, unless its run moved on or a later attempt exists. *)
Definition task_waits_again (db : Db) (request : LaunchWorkflowTask) (t : OrchestrationTask) : bool :=
  String.eqb (t_id t) (lt_task_id request)
  && bool_decide (t_status t ∈ [Ts_Dispatched; Ts_Ready; Ts_Stalled; Ts_Failed])
  && existsb (λ r, is_run (lt_run_id request) r && bool_decide (r_plan_revision r = Some (lt_revision request))
                   && bool_decide (r_status r ∈ [Cs_Running; Cs_Paused])) (db_runs db)
  && negb (existsb (λ x, bool_decide (x_task_id x = Some (lt_task_id request))
       && match find_where (λ y, String.eqb (x_id y) (lt_workspace_id request)) (db_workspaces db) with
          | Some y => (x_attempt y <? x_attempt x)%Z
          | None => false
          end) (db_workspaces db)).

(** The writes of a settlement. *)
Definition settle_launch (record : WorkflowLaunchRecord) (reason : string) : AM unit :=
  let request := lr_request record in
  do! update_launch_rows (is_launch (lr_id record)) (λ l, with_l_error (Some reason) (with_l_status Ls_Attention l)) in
  do! update_run_workspaces (λ x, String.eqb (x_id x) (lt_workspace_id request)) (with_x_phase Wp_Attention) in
  do! in_attempts (λ t, set_at_workspaces (alter (error_columns reason) (lt_workspace_id request) (at_workspaces t)) t) in
  do! in_plan (in_world (update_dispatches true (λ d, String.eqb (d_id d) (lr_dispatch_id record) && d_active d)
        (λ d, with_d_completed_at (Some now) (with_d_startup_error (Some reason) (with_d_status Ds_StartupFailed d))))) in
  let! db := aselect (λ db _ _, db) in
  do! in_plan (in_world (update_tasks false (task_waits_again db request) (with_t_status Ts_Pending))) in
  ret tt.

Definition settle_workflow_launch_without_session (terminal reason : string) : AM unit :=
  attempt_tx (
    let! row := aselect (λ db _ t, launch_where (λ l _, String.eqb (l_terminal_handle l) terminal) db t) in
    match row with
    | None => ret tt
    | Some row =>
        let! record := check (decode_launch row) in
        let! status := aselect (λ db _ _, d_status <$> dispatch_by_id db (lr_dispatch_id record)) in
        if bool_decide (status = Some Ds_Completed) then ret tt
        else settle_launch record (bounded_error reason)
    end).
End Launches.
