(* ===== verification/Integrations.v ===== *)
(** * Integrations: bringing a finished attempt into the run's branch

    run_integration_validation.rs (what an integration captures and must still
    find), run_integration_store.rs (reservation, the prepared receipt, completion
    with the task's evidence, attention), run_integration_cancellation.rs (the
    settlement of an integration whose run was cancelled) and
    run_integration_snapshot.rs (the page clients read).  The merge itself is
    Git's; its outcomes are the arguments of the operations. *)

From S2P Require Import Prelude Text Models Store RoleContract Dispatch Gates Runs Ordering Recipe RecipeFacts Plan Catalog Execution PlanStore RunControl GateResolution ExecutionStore SetupReport Attempts Launches.
From Stdlib Require Import ZArith Lia Ascii String.
From stdpp Require Import strings gmap pretty prelude.

Record WorkflowGitResource : Type := MkGitResource { gr_id : string; gr_path : string; gr_base_sha : string }.
Record WorkflowIntegrationRequest : Type := MkIntegrationRequest {
  iq_id : string;
  iq_repo_path : string;
  iq_run_id : string;
  iq_revision : Z;
  iq_task_id : string;
  iq_dispatch_id : string;
  iq_integration : WorkflowGitResource;
  iq_source : WorkflowGitResource;
  iq_expected_sha : string;
  iq_source_sha : string;
  iq_result_digest : string;
  iq_artifacts : list string
}.
Record WorkflowIntegrationReceipt : Type := MkIntegrationReceipt {
  rc_version : Z;
  rc_request : WorkflowIntegrationRequest;
  rc_integrated_sha : string;
  rc_artifact_digest : string
}.
Inductive WorkflowGitPreparation : Type :=
| Gp_Ready (receipt : WorkflowIntegrationReceipt)
| Gp_Conflict (paths : list string) (truncated : bool)
| Gp_Refused (paths : list string) (truncated : bool) (reason : string).
Record WorkflowIntegrationRecord : Type := MkIntegrationRecord {
  irec_request : WorkflowIntegrationRequest;
  irec_state : WorkflowIntegrationState;
  irec_receipt : option WorkflowIntegrationReceipt;
  irec_conflict_paths : list string;
  irec_conflicts_truncated : bool;
  irec_error : option string
}.
Record WorkflowIntegrationQuery : Type := MkIntegrationQuery { iqy_run_id : string; iqy_after_row : option Z }.
Record WorkflowIntegrationSummary : Type := MkIntegrationSummary {
  isum_id : string;
  isum_task_id : string;
  isum_workspace_id : string;
  isum_state : WorkflowIntegrationState;
  isum_expected_sha : string;
  isum_integrated_sha : option string;
  isum_error : option string
}.
Record WorkflowIntegrationPage : Type := MkIntegrationPage {
  ipg_items : list WorkflowIntegrationSummary;
  ipg_next_after_row : option Z
}.
#[export] Instance WorkflowGitResource_eq_dec : EqDecision WorkflowGitResource.
Proof. solve_decision. Defined.
#[export] Instance WorkflowIntegrationRequest_eq_dec : EqDecision WorkflowIntegrationRequest.
Proof. solve_decision. Defined.
#[export] Instance WorkflowIntegrationReceipt_eq_dec : EqDecision WorkflowIntegrationReceipt.
Proof. solve_decision. Defined.

(** serde, SHA-256 and SQLite's json_extract. *)
Class IntegrationLib : Type := {
  integration_request_encode : WorkflowIntegrationRequest → string;
  integration_request_decode : string → option WorkflowIntegrationRequest;
  receipt_encode : WorkflowIntegrationReceipt → string;
  receipt_decode : string → option WorkflowIntegrationReceipt;
  integrate_input_digest : IntegrateWorkflowResult → string;
  extract_expected_sha : string → option string;       (** [json_extract(request, '$.expected_sha')] *)
  extract_integrated_sha : string → option string      (** [json_extract(receipt, '$.integrated_sha')] *)
}.
Class IntegrationCodec `{IntegrationLib} : Prop := {
  integration_request_roundtrip : ∀ r, integration_request_decode (integration_request_encode r) = Some r;
  receipt_roundtrip : ∀ r, receipt_decode (receipt_encode r) = Some r
}.

Definition unsettled_state (s : WorkflowIntegrationState) : bool :=
  match s with In_Pending | In_Prepared | In_Attention => true | _ => false end.

Section Integrations.
Context `{Env, ContractLib, RecipeLib, PlanLib, ProposalLib, ControlLib, GateLib, StepLib, SourceJson, ReportLib, AttemptLib, LaunchLib, IntegrationLib}.

(** ** What an integration captures (run_integration_validation.rs) *)

Definition resource (record : WorkflowWorkspaceRecord) : WorkflowGitResource :=
  MkGitResource (wsp_id (wi_workspace (wrec_identity record))) (wsp_path (wi_workspace (wrec_identity record)))
    (wi_base_sha (wrec_identity record)).

Definition require_integration_resource (plan : WorkflowPlanSnapshot) (run : string) (record : WorkflowWorkspaceRecord)
    : AM unit :=
  do! require_resource record in
  check (ensure (String.eqb (wi_run_id (wrec_identity record)) run && owned_by_plan plan (wrec_identity record))
    "integration resource belongs to another workflow").

(** The completed task and the completed dispatch of the attempt. *)
Definition completed_result (db : Db) (input : IntegrateWorkflowResult) (owner dispatch : string)
    : option (OrchestrationTask * OrchestrationDispatchContext) :=
  t ← find_where (λ t, bool_decide (t_run_id t = Some (ir_run_id input))
        && bool_decide (t_plan_revision t = Some (ir_revision input)) && String.eqb (t_id t) (ir_task_id input)
        && String.eqb (t_workspace_id t) owner && bool_decide (t_status t = Ts_Completed)) (db_tasks db);
  d ← find_where (λ d, String.eqb (d_id d) dispatch && String.eqb (d_task_id d) (t_id t)
        && bool_decide (d_run_id d = t_run_id t) && String.eqb (d_workspace_id d) (ir_workspace_id input)
        && bool_decide (d_status d = Ds_Completed)) (db_dispatches db);
  Some (t, d).

Definition commit_hex (sha : string) : bool := (zlen sha =? 40)%Z && all_bytes is_lower_hex sha.

Definition artifact_name (v : json) : R string :=
  match v with JString s => Ok s | _ => Err (Bail "invalid result artifact") end.
Definition result_artifacts (raw : string) : R (list string) :=
  try! value := with_context (json_decode raw) "invalid result" in
  try! items := (match json_get "artifacts" value with
                 | Some (JArray l) => Ok l
                 | _ => Err (Bail "result artifacts are missing")
                 end) in
  try! names := rmapM artifact_name items in
  try! _ := ensure (Z.of_nat (length names) <=? MAX_WORKFLOW_ARTIFACTS)%Z "workflow result has too many artifacts" in
  Ok names.

Definition capture (input : IntegrateWorkflowResult) (id : string) : AM WorkflowIntegrationRequest :=
  let! found := in_plan (approved_plan (ir_run_id input) (ir_revision input)) in
  let plan := fst found in
  let! source := fetch_workspace (ir_workspace_id input) in
  let! integration := workflow_integration_workspace (ir_run_id input) in
  do! require_integration_resource plan (ir_run_id input) source in
  do! require_integration_resource plan (ir_run_id input) integration in
  do! check (ensure (bool_decide (wi_task_id (wrec_identity source) = Some (ir_task_id input))
                     && (wi_revision (wrec_identity source) =? ir_revision input)%Z)
        "integration attempt does not belong to this task revision") in
  let! dispatch := check (with_context (wrec_dispatch_id source) "workflow attempt has not been dispatched") in
  let! row := aselect (λ db _ _, completed_result db input (sw_workspace_id (ps_source_workspace plan)) dispatch) in
  let! row := check (with_context row "integration requires a completed result from this isolated dispatch") in
  let result := t_result (fst row) in
  let! source_sha := check (with_context (d_completion_sha (snd row))
    "workflow completion is missing its committed result SHA") in
  do! check (ensure (commit_hex source_sha) "workflow completion has an invalid committed result SHA") in
  let! raw := check (with_context result "workflow result is missing") in
  let! logical := aselect (λ _ t _, logical_of t (fst row)) in
  let! frozen := check (with_context (planned_task plan logical) "task is absent from its frozen plan") in
  do! check (validate_success_result (ft_contract frozen) raw) in
  let! artifacts := check (result_artifacts raw) in
  ret (MkIntegrationRequest id (wi_repo_path (wrec_identity source)) (ir_run_id input) (ir_revision input)
         (ir_task_id input) dispatch (resource integration) (resource source) (snd found) source_sha
         (result_digest result) artifacts).

Definition captured_input (request : WorkflowIntegrationRequest) : IntegrateWorkflowResult :=
  MkIntegrate (iq_id request) (iq_run_id request) (iq_revision request) (iq_task_id request) (gr_id (iq_source request)).

Definition require_current (request : WorkflowIntegrationRequest) : AM unit :=
  let! current := capture (captured_input request) (iq_id request) in
  check (ensure (bool_decide (current = request))
    "integration result, resources or expected SHA changed after reservation").

(** ** Rows (run_integration_store.rs) *)

Definition integration_rows (pt : PlanTables) (t : AttemptTables) : list (RunIntegration * IntegrationColumns) :=
  omap (λ i, (λ c, (i, c)) <$> at_integrations t !! ig_request_id i) (pl_integrations pt).

(** [run_integration_store::decode] *)
Definition decode_integration (row : RunIntegration * IntegrationColumns) : R WorkflowIntegrationRecord :=
  let (i, c) := row in
  try! request := with_context (integration_request_decode (ic_request c)) "invalid integration request" in
  try! receipt := (match ig_receipt i with
                   | None => Ok None
                   | Some raw => try! r := with_context (receipt_decode raw) "invalid integration receipt" in Ok (Some r)
                   end) in
  Ok (MkIntegrationRecord request (if ig_cancelled i then In_Cancelled else ig_state i) receipt
        (ic_conflict_paths c) (ic_conflicts_truncated c) (ig_error i)).

Definition integration_by_id (id : string) (pt : PlanTables) (t : AttemptTables) : option (RunIntegration * IntegrationColumns) :=
  find_where (λ row, String.eqb (ic_id (snd row)) id) (integration_rows pt t).
Definition integration_by_request (request_id : string) (pt : PlanTables) (t : AttemptTables)
    : option (RunIntegration * IntegrationColumns) :=
  find_where (λ row, String.eqb (ig_request_id (fst row)) request_id) (integration_rows pt t).

Definition workflow_integration (id : string) : AM WorkflowIntegrationRecord :=
  let! row := aselect (λ _ pt t, integration_by_id id pt t) in
  let! row := check (with_context row "workflow integration not found") in
  check (decode_integration row).

Definition fetch_integration (id : string) : AM WorkflowIntegrationRecord :=
  let! row := aselect (λ _ pt t, integration_by_id id pt t) in
  let! row := fetch_one row in
  check (decode_integration row).

Definition integrate_texts (input : IntegrateWorkflowResult) : R unit :=
  rmap_ (λ v, workflow_text v 160) [ir_request_id input; ir_run_id input; ir_task_id input; ir_workspace_id input].

Definition integration_replay (row : RunIntegration * IntegrationColumns) (input : IntegrateWorkflowResult)
    : R WorkflowIntegrationRecord :=
  try! _ := ensure (String.eqb (ic_request_digest (snd row)) (integrate_input_digest input))
    "integration request id was already used for different contents" in
  decode_integration row.

Definition workflow_integration_for_request (input : IntegrateWorkflowResult) : AM (option WorkflowIntegrationRecord) :=
  do! check (integrate_texts input) in
  let! row := aselect (λ _ pt t, integration_by_request (ir_request_id input) pt t) in
  match row with
  | None => ret None
  | Some row => let! record := check (integration_replay row input) in ret (Some record)
  end.

Definition integrations_after (run : string) (after : Z) (limit : nat) (pt : PlanTables) (t : AttemptTables)
    : list (RunIntegration * IntegrationColumns) :=
  take limit (sort_by (λ a b, ig_sequence (fst a) <=? ig_sequence (fst b))%Z
    (List.filter (λ row, String.eqb (ig_run_id (fst row)) run && (after <? ig_sequence (fst row))%Z) (integration_rows pt t))).

Definition workflow_integrations_page (run : string) (after : Z) : AM (list (Z * WorkflowIntegrationRecord)) :=
  do! check (workflow_text run 160) in
  let! rows := aselect (λ _ pt t, integrations_after run after 25 pt t) in
  check (rmapM (λ row, try! record := decode_integration row in Ok (ig_sequence (fst row), record)) rows).

(** run_integration_snapshot.rs *)
Definition integration_summary (row : RunIntegration * IntegrationColumns) : R WorkflowIntegrationSummary :=
  let (i, c) := row in
  try! expected := with_context (extract_expected_sha (ic_request c)) "unexpected null; try decoding as an Option" in
  Ok (MkIntegrationSummary (ic_id c) (ic_task_id c) (ig_workspace_id i)
        (if ig_cancelled i then In_Cancelled else ig_state i) expected
        (ig_receipt i ≫= extract_integrated_sha) (ig_error i)).

Definition workflow_integration_summaries (query : WorkflowIntegrationQuery) : AM WorkflowIntegrationPage :=
  do! check (workflow_text (iqy_run_id query) 160) in
  let! rows := aselect (λ _ pt t, integrations_after (iqy_run_id query) (default 0%Z (iqy_after_row query)) 26 pt t) in
  let next := if Nat.ltb 25 (length rows) then (λ row, ig_sequence (fst row)) <$> rows !! 24 else None in
  let! items := check (rmapM integration_summary (take 25 rows)) in
  ret (MkIntegrationPage items next).

(** ** Reservation *)

(** INSERT on runIntegrations: its keys and the one unsettled integration of a run. *)
Definition insert_integration (i : RunIntegration) (c : IntegrationColumns) : AM unit := λ w,
  let p := aw_plan w in
  let rows := pl_integrations (pw_tables p) in
  if existsb (λ j, String.eqb (ig_request_id j) (ig_request_id i)
                   || bool_decide (ic_id <$> at_integrations (aw_tables w) !! ig_request_id j = Some (ic_id c))) rows
  then (w, Err (Database "UNIQUE constraint failed: runIntegrations.request_id"))
  else if unsettled_state (ig_state i) && existsb (λ j, String.eqb (ig_run_id j) (ig_run_id i) && unsettled_state (ig_state j)) rows
  then (w, Err (Database "UNIQUE constraint failed: runIntegrations.run_id"))
  else (MkAttemptWorld (MkPlanWorld (pw_world p) (set_pl_integrations (rows ++ [i]) (pw_tables p)))
          (set_at_integrations (<[ig_request_id i := c]> (at_integrations (aw_tables w))) (aw_tables w)), Ok tt).

Definition reserve_integration_in_tx (input : IntegrateWorkflowResult) : AM (WorkflowIntegrationRecord + string) :=
  let! row := aselect (λ _ pt t, integration_by_request (ir_request_id input) pt t) in
  match row with
  | Some row => let! record := check (integration_replay row input) in ret (inl record)
  | None =>
      let! done := aselect (λ _ pt _, bool_decide (is_Some (pl_evidence pt !! ir_task_id input))) in
      do! check (ensure (negb done) "workflow task is already integrated") in
      let! id := in_plan new_uuid in
      let! request := capture input id in
      let! sequence := aselect (λ _ pt _, next_sequence (ig_sequence <$> pl_integrations pt)) in
      do! insert_integration
            (MkRunIntegration sequence (ir_request_id input) (ir_run_id input) (ir_workspace_id input) In_Pending None None false)
            (MkIntegrationColumns id (integrate_input_digest input) (ir_revision input) (ir_task_id input)
               (integration_request_encode request) [] false) in
      do! in_plan (record_event (with_ne_payload (Some (JObject [("integrationId", JString id)]))
            (with_ne_actor_kind (Some Ak_Runtime) (with_ne_dispatch_id (Some (iq_dispatch_id request))
            (with_ne_task_id (Some (ir_task_id input)) (new_run_event (ir_run_id input) Ev_IntegrationStarted)))))) in
      ret (inr id)
  end.

Definition reserve_workflow_integration (input : IntegrateWorkflowResult) : AM WorkflowIntegrationRecord :=
  do! check (integrate_texts input) in
  let! reserved := attempt_tx (reserve_integration_in_tx input) in
  match reserved with
  | inl record => ret record
  | inr id => workflow_integration id
  end.

(** ** Outcomes *)

Definition with_ig (state : WorkflowIntegrationState) (receipt error : option string) (cancelled : bool)
    (i : RunIntegration) : RunIntegration :=
  MkRunIntegration (ig_sequence i) (ig_request_id i) (ig_run_id i) (ig_workspace_id i) state receipt error cancelled.
Definition with_ic_conflicts (paths : list string) (truncated : bool) (c : IntegrationColumns) : IntegrationColumns :=
  MkIntegrationColumns (ic_id c) (ic_request_digest c) (ic_revision c) (ic_task_id c) (ic_request c) paths truncated.

Definition row_id (t : AttemptTables) (i : RunIntegration) : option string := ic_id <$> at_integrations t !! ig_request_id i.
Definition row_task (t : AttemptTables) (i : RunIntegration) : option string := ic_task_id <$> at_integrations t !! ig_request_id i.

(** The unique indexes after an UPDATE: one unsettled integration per run, one
    integrated one per task. *)
Definition integrations_unique (t : AttemptTables) (rows : list RunIntegration) : bool :=
  bool_decide (NoDup (ig_run_id <$> List.filter (λ i, unsettled_state (ig_state i)) rows))
  && bool_decide (NoDup (omap (row_task t) (List.filter (λ i, bool_decide (ig_state i = In_Integrated)) rows))).

Definition update_integration (p : RunIntegration → bool) (f : RunIntegration → RunIntegration)
    (g : IntegrationColumns → IntegrationColumns) : AM unit := λ w,
  let t := aw_tables w in
  let rows := pl_integrations (pw_tables (aw_plan w)) in
  match update_integrations p f (aw_plan w) with
  | (v, Err e) => (MkAttemptWorld v t, Err e)
  | (v, Ok u) =>
      if integrations_unique t (pl_integrations (pw_tables v))
      then (MkAttemptWorld v
              (set_at_integrations (foldr (λ i m, alter g (ig_request_id i) m) (at_integrations t) (List.filter p rows)) t), Ok u)
      else (w, Err (Database "UNIQUE constraint failed: runIntegrations"))
  end.

Definition update_integration_id (id : string) (f : RunIntegration → RunIntegration)
    (g : IntegrationColumns → IntegrationColumns) : AM unit := λ w,
  update_integration (λ i, bool_decide (row_id (aw_tables w) i = Some id)) f g w.

Definition conflict_event (request : WorkflowIntegrationRequest) (summary : string) (paths : list string) (truncated : bool)
    : NewRunEvent :=
  with_ne_payload (Some (JObject [("integrationId", JString (iq_id request));
                                  ("paths", JArray (JString <$> take 20 paths));
                                  ("truncated", JBool (truncated || Nat.ltb 20 (length paths)))]))
  (with_ne_summary summary (with_ne_actor_kind (Some Ak_Runtime) (with_ne_dispatch_id (Some (iq_dispatch_id request))
  (with_ne_task_id (Some (iq_task_id request)) (new_run_event (iq_run_id request) Ev_Conflict))))).

Definition paths_bounded (paths : list string) : bool :=
  Nat.leb (length paths) 128 && forallb (λ p, Nat.leb (length (chars p)) 1024) paths.

Definition settled_already (s : WorkflowIntegrationState) : bool :=
  match s with In_Integrated | In_Cancelled => true | _ => false end.

Definition apply_preparation (id : string) (record : WorkflowIntegrationRecord) (outcome : WorkflowGitPreparation) : AM unit :=
  match outcome with
  | Gp_Ready receipt =>
      do! check (ensure (bool_decide (rc_request receipt = irec_request record) && (rc_version receipt =? 1)%Z
                         && match irec_receipt record with Some stored => bool_decide (stored = receipt) | None => true end)
            "Git receipt does not match the integration reservation") in
      update_integration_id id (λ i, with_ig In_Prepared (Some (receipt_encode receipt)) None (ig_cancelled i) i)
        (with_ic_conflicts [] false)
  | Gp_Conflict paths truncated =>
      do! check (ensure (bool_decide (irec_receipt record = None) && paths_bounded paths)
            "conflict report is invalid or integration already has a prepared receipt") in
      do! update_integration_id id (λ i, with_ig In_Conflict (ig_receipt i) None (ig_cancelled i) i)
            (with_ic_conflicts paths truncated) in
      let count := length paths in
      in_plan (record_event (conflict_event (irec_request record)
        (if Nat.eqb count 1 then "1 conflicting path" else pretty count +:+ " conflicting paths") paths truncated))
  | Gp_Refused paths truncated reason =>
      do! check (ensure (bool_decide (irec_receipt record = None) && negb (String.eqb reason "")
                         && negb (1000 <? zlen reason)%Z && paths_bounded paths)
            "terminal workflow integration refusal is invalid") in
      do! update_integration_id id (λ i, with_ig In_Conflict (ig_receipt i) (Some reason) (ig_cancelled i) i)
            (with_ic_conflicts paths truncated) in
      in_plan (record_event (conflict_event (irec_request record) reason paths truncated))
  end.

Definition record_workflow_integration_preparation (id : string) (outcome : WorkflowGitPreparation)
    : AM WorkflowIntegrationRecord :=
  let! answered := attempt_tx (
    let! record := fetch_integration id in
    if settled_already (irec_state record) then ret (Some record)
    else
      do! require_current (irec_request record) in
      do! apply_preparation id record outcome in
      ret None) in
  match answered with Some record => ret record | None => workflow_integration id end.

Definition insert_evidence (task : string) (row : TaskEvidenceRow) : AM unit :=
  let! taken := aselect (λ _ pt _, bool_decide (is_Some (pl_evidence pt !! task))) in
  if taken : bool then in_plan (fail (Database "UNIQUE constraint failed: runTaskEvidence.task_id"))
  else in_plan (in_tables (λ t, set_pl_evidence (<[task := row]> (pl_evidence t)) t)).

Definition with_rp_integration_sha (sha : string) (c : RunPlanColumns) : RunPlanColumns :=
  MkRunPlan (rp_coordinator_profile_id c) (rp_profiles_snapshot c) (rp_source_snapshot c) (Some sha)
    (rp_integration_workspace_id c).

Definition set_integration_sha (run sha : string) : AM unit :=
  in_plan (in_tables (λ t, set_pl_runs
    (<[run := with_rp_integration_sha sha (default (MkRunPlan None None None None None) (pl_runs t !! run))]> (pl_runs t)) t)).

Definition integrated_event (request : WorkflowIntegrationRequest) (sha : string) : NewRunEvent :=
  with_ne_payload (Some (JObject [("workspaceId", JString (gr_id (iq_integration request))); ("sha", JString sha);
                                  ("baseSha", JString (iq_expected_sha request))]))
  (with_ne_actor_kind (Some Ak_Runtime) (with_ne_dispatch_id (Some (iq_dispatch_id request))
  (with_ne_task_id (Some (iq_task_id request)) (new_run_event (iq_run_id request) Ev_Integrated)))).

(** The writes of a completed integration. *)
Definition integrate_receipt (id : string) (request : WorkflowIntegrationRequest) (receipt : WorkflowIntegrationReceipt) : AM unit :=
  do! insert_evidence (iq_task_id request)
        (MkTaskEvidenceRow (iq_result_digest request) (rc_artifact_digest receipt) (rc_integrated_sha receipt)) in
  do! set_integration_sha (iq_run_id request) (rc_integrated_sha receipt) in
  do! update_integration_id id (λ i, with_ig In_Integrated (ig_receipt i) None (ig_cancelled i) i) (λ c, c) in
  in_plan (record_event (integrated_event request (rc_integrated_sha receipt))).

(** The transaction of [complete_workflow_integration]; [None] when it wrote. *)
Definition complete_in_tx (receipt : WorkflowIntegrationReceipt) : AM (option WorkflowIntegrationRecord) :=
  let id := iq_id (rc_request receipt) in
  let! record := fetch_integration id in
  do! check (ensure (bool_decide (irec_receipt record = Some receipt)) "integration receipt was not prepared durably") in
  if settled_already (irec_state record) then ret (Some record)
  else
    do! check (ensure (bool_decide (irec_state record = In_Prepared)) "integration is not prepared") in
    do! require_current (irec_request record) in
    do! integrate_receipt id (irec_request record) receipt in
    ret None.

Definition complete_workflow_integration (receipt : WorkflowIntegrationReceipt) : AM WorkflowIntegrationRecord :=
  let! answered := attempt_tx (complete_in_tx receipt) in
  match answered with Some record => ret record | None => workflow_integration (iq_id (rc_request receipt)) end.

Definition workflow_integration_attention (id error : string) : AM WorkflowIntegrationRecord :=
  let! t := aselect (λ _ _ t, t) in
  do! update_integration (λ i, bool_decide (row_id t i = Some id)
          && negb (bool_decide (ig_state i ∈ [In_Integrated; In_Conflict])) && negb (ig_cancelled i))
        (λ i, with_ig In_Attention (ig_receipt i) (Some (bounded_error error)) (ig_cancelled i) i) (λ c, c) in
  workflow_integration id.

(** ** Cancellation (run_integration_cancellation.rs) *)

Definition workflow_integration_run_cancelled (id : string) : AM bool :=
  aselect (λ db pt t, existsb (λ row, String.eqb (ic_id (snd row)) id
      && existsb (λ r, is_run (ig_run_id (fst row)) r && bool_decide (r_status r = Cs_Cancelled)
                       && bool_decide (r_plan_revision r = Some (ic_revision (snd row)))) (db_runs db))
    (integration_rows pt t)).

Definition require_workflow_integration_current (id : string) : AM unit :=
  attempt_tx (
    let! record := fetch_integration id in
    do! check (ensure (unsettled_state (irec_state record)) "integration is already settled") in
    require_current (irec_request record)).

Definition receipt_kept (record : WorkflowIntegrationRecord) (receipt : option WorkflowIntegrationReceipt) : bool :=
  match receipt with
  | Some r => (rc_version r =? 1)%Z && bool_decide (rc_request r = irec_request record)
  | None => true
  end
  && match irec_receipt record with Some _ => bool_decide (irec_receipt record = receipt) | None => true end.

Definition require_cancelled_resource (request : WorkflowIntegrationRequest) (expected : WorkflowGitResource) : AM unit :=
  let! found := fetch_workspace (gr_id expected) in
  do! require_resource found in
  check (ensure (String.eqb (wi_run_id (wrec_identity found)) (iq_run_id request)
                 && String.eqb (wi_repo_path (wrec_identity found)) (iq_repo_path request)
                 && String.eqb (wsp_path (wi_workspace (wrec_identity found))) (gr_path expected)
                 && String.eqb (wi_base_sha (wrec_identity found)) (gr_base_sha expected))
    "cancelled integration resource identity changed").

Definition settle_cancelled_workflow_integration (id : string) (receipt : option WorkflowIntegrationReceipt)
    : AM WorkflowIntegrationRecord :=
  let! answered := attempt_tx (
    let! record := fetch_integration id in
    if bool_decide (irec_state record = In_Cancelled) then ret (Some record)
    else
      do! check (ensure (unsettled_state (irec_state record)) "integration is already settled") in
      let request := irec_request record in
      let! cancelled := aselect (λ db _ _, existsb (λ r, is_run (iq_run_id request) r
          && bool_decide (r_plan_revision r = Some (iq_revision request)) && bool_decide (r_status r = Cs_Cancelled)) (db_runs db)) in
      do! check (ensure cancelled "integration run is not cancelled at this revision") in
      do! check (ensure (receipt_kept record receipt) "cancelled integration receipt changed or disappeared") in
      do! require_cancelled_resource request (iq_integration request) in
      do! require_cancelled_resource request (iq_source request) in
      let! t := aselect (λ _ _ t, t) in
      do! update_integration (λ i, bool_decide (row_id t i = Some id) && negb (ig_cancelled i))
            (λ i, with_ig (ig_state i) (receipt_encode <$> receipt) (ig_error i) true i) (λ c, c) in
      ret None) in
  match answered with Some record => ret record | None => workflow_integration id end.
End Integrations.
