(* ===== verification/Cleanup.v ===== *)
(** * Cleanup: retiring the worktrees of a closed run

    run_cleanup.rs (the reviewed preview and what it must find), run_cleanup_claim.rs
    (the durable claim of the selected workspaces and their retirement),
    run_cleanup_abandon.rs (the release of a claim) and run_cleanup_status.rs (the
    pages, the failure and the explicit retry).

    The clock of an operation is its argument [clock], the seconds of
    [chrono::Utc::now()].  [remove_workspace_in_transaction] is modelled on the
    tables of this development: the tabs, reviews, layouts and tags it also
    deletes, and the automations it detaches, live in other stores. *)

From S2P Require Import Prelude Text Models Store RoleContract Dispatch Gates Runs Ordering Recipe RecipeFacts Plan Catalog Execution PlanStore RunControl GateResolution ExecutionStore SetupReport Attempts.
From Stdlib Require Import ZArith Lia Ascii String.
From stdpp Require Import strings gmap pretty prelude.

Record WorkflowCleanupGitPreview : Type := MkCleanupGitPreview {
  cg_head_sha : string;
  cg_dirty : bool;
  cg_operation_in_progress : bool;
  cg_locked : bool;
  cg_changed_paths : list string;
  cg_paths_truncated : bool
}.
Record WorkflowCleanupItem : Type := MkCleanupItem {
  cit_identity : WorkflowWorkspaceIdentity;
  cit_git : WorkflowCleanupGitPreview;
  cit_remove_branch : bool
}.
Record WorkflowCleanupPreview : Type := MkCleanupPreview {
  cp_id : string;
  cp_run_id : string;
  cp_digest : string;
  cp_expires_at : Z;
  cp_items : list WorkflowCleanupItem
}.
Record WorkflowCleanupClaim : Type := MkWorkflowCleanupClaim {
  wcc_preview : WorkflowCleanupPreview;
  wcc_retired_workspace_ids : list string
}.
Inductive WorkflowCleanupState : Type := Wcs_Preview | Wcs_Applying | Wcs_Retired | Wcs_Attention | Wcs_Abandoned.
Record WorkflowCleanupStatus : Type := MkCleanupStatus {
  cs_preview : WorkflowCleanupPreview;
  cs_state : WorkflowCleanupState;
  cs_error : option string;
  cs_retired_workspace_ids : list string
}.

(** serde and SHA-256. *)
Class CleanupLib : Type := {
  preview_value : WorkflowCleanupPreview → json;
  preview_encode : WorkflowCleanupPreview → string;
  preview_decode : string → option WorkflowCleanupPreview;
  cleanup_digest : string → list WorkflowCleanupItem → string
}.

Definition item_id (item : WorkflowCleanupItem) : string := wsp_id (wi_workspace (cit_identity item)).
Definition item_of (preview : WorkflowCleanupPreview) (id : string) : option WorkflowCleanupItem :=
  find_where (λ item, String.eqb (item_id item) id) (cp_items preview).

Definition with_cl_state (state : RunCleanupState) (error : option string) (c : CleanupRow) : CleanupRow :=
  MkCleanupRow (cl_run_id c) (cl_digest c) (cl_document c) (cl_expires_at c) state error (cl_abandoned c).
Definition with_cl_abandoned (c : CleanupRow) : CleanupRow :=
  MkCleanupRow (cl_run_id c) (cl_digest c) (cl_document c) (cl_expires_at c) (cl_state c) (cl_error c) true.

Section Cleanup.
Context `{Env, ContractLib, RecipeLib, PlanLib, ProposalLib, ControlLib, GateLib, StepLib, SourceJson, ReportLib, AttemptLib, CleanupLib}.

(** ** Preview (run_cleanup.rs) *)

Definition record_cleanup_event (run cleanup : string) (kind : RunEventKind) (resources : nat) : AM unit :=
  in_plan (record_event
    (with_ne_payload (Some (JObject [("cleanupId", JString cleanup); ("resourceCount", JNumber (pretty resources))]))
    (with_ne_summary (if Nat.eqb resources 1 then "1 resource" else pretty resources +:+ " resources")
    (new_run_event run kind)))).

Definition run_closed (db : Db) (run : string) : bool :=
  existsb (λ r, is_run run r && bool_decide (r_isolation r = Is_Isolated)
                && bool_decide (r_status r ∈ [Cs_Completed; Cs_Failed; Cs_Cancelled])
                && bool_decide (is_Some (r_completed_at r))) (db_runs db).

Definition run_unsettled (db : Db) (t : PlanTables) (run : string) : bool :=
  unsettled_integration run t
  || existsb (λ c, String.eqb (ct_run_id c) run && negb (bool_decide (ct_state c = Ct_Settled))) (pl_targets t)
  || active_work run db.

Definition selected_rows (db : Db) (preview : WorkflowCleanupPreview) : list RunWorkspace :=
  take 26 (List.filter (λ x, String.eqb (x_run_id x) (cp_run_id preview)
                             && bool_decide (x_id x ∈ item_id <$> cp_items preview)) (db_workspaces db)).

(** A selected row is still the reviewed workspace, and its setup settled.  The
    values serde builds from two identities are equal when their texts are. *)
Definition check_selected (t : AttemptTables) (preview : WorkflowCleanupPreview) (x : RunWorkspace) : R unit :=
  try! item := with_context (item_of preview (x_id x)) "selected resource" in
  try! recorded := with_context (at_workspaces t !! x_id x ≫= (λ c, identity_decode (wc_identity c)))
    "invalid workspace identity" in
  try! _ := ensure (String.eqb (identity_encode recorded) (identity_encode (cit_identity item)))
    "workflow cleanup resource identity changed" in
  ensure (bool_decide (x_phase x ∈ [Wp_Ready; Wp_Attention])) "workflow resource setup must settle before cleanup".

Definition require_cleanup_quiescent (preview : WorkflowCleanupPreview) : AM unit :=
  let! closed := aselect (λ db _ _, run_closed db (cp_run_id preview)) in
  do! check (ensure closed "finish or cancel the run before cleaning its resources") in
  let! pending := aselect (λ db t _, run_unsettled db t (cp_run_id preview)) in
  do! check (ensure (negb pending) "reconcile active workflow operations before cleanup") in
  let! rows := aselect (λ db _ _, selected_rows db preview) in
  do! check (ensure (Nat.eqb (length rows) (length (cp_items preview))) "cleanup resources no longer belong to this run") in
  let! t := aselect (λ _ _ t, t) in
  check (rmap_ (check_selected t preview) rows).

Definition set_cleanup (id : string) (row : CleanupRow) : AM unit :=
  in_attempts (λ t, set_at_cleanups (<[id := row]> (at_cleanups t)) t).

Definition selection_valid (run : string) (items : list WorkflowCleanupItem) : bool :=
  forallb (λ item, String.eqb (wi_run_id (cit_identity item)) run) items
  && bool_decide (NoDup (item_id <$> items)).

Definition publish_workflow_cleanup_preview (clock : Z) (id run : string) (items : list WorkflowCleanupItem)
    : AM WorkflowCleanupPreview :=
  do! check (ensure (uuid_valid id) "invalid uuid") in
  do! check (workflow_text run 160) in
  do! check (ensure (negb (Nat.eqb (length items) 0 || Nat.ltb 25 (length items)))
        "select between one and 25 workflow resources") in
  do! check (ensure (selection_valid run items) "cleanup selection contains duplicate or foreign resources") in
  let preview := MkCleanupPreview id run (cleanup_digest run items) (clock + 300) items in
  do! check (bounded_json (preview_value preview) WORKFLOW_PLAN_MAX_BYTES) in
  attempt_tx (
    let! row := aselect (λ _ _ t, at_cleanups t !! id) in
    match row with
    | Some c =>
        do! check (ensure (String.eqb (cl_digest c) (cp_digest preview))
              "cleanup preview id already has different contents") in
        check (with_context (preview_decode (cl_document c)) "invalid cleanup document")
    | None =>
        do! require_cleanup_quiescent preview in
        do! set_cleanup id (MkCleanupRow run (cp_digest preview) (preview_encode preview) (cp_expires_at preview)
                              Cl_Preview None false) in
        do! record_cleanup_event run id Ev_CleanupPrepared (length items) in
        ret preview
    end).

Definition fetch_cleanup (id : string) : AM CleanupRow :=
  let! row := aselect (λ _ _ t, at_cleanups t !! id) in fetch_one row.

Definition cleanup_document (c : CleanupRow) : AM WorkflowCleanupPreview :=
  check (with_context (preview_decode (cl_document c)) "invalid cleanup document").

Definition workflow_cleanup_preview (id : string) : AM WorkflowCleanupPreview :=
  let! c := fetch_cleanup id in cleanup_document c.

(** ** Claim and retirement (run_cleanup_claim.rs) *)

(** The claim of a workspace, joined with its cleanup. *)
Definition claim_of (t : AttemptTables) (id digest workspace : string) : option (CleanupRow * CleanupClaim) :=
  c ← at_cleanups t !! id; r ← at_claims t !! workspace;
  if String.eqb (cl_digest c) digest && negb (cl_abandoned c) && String.eqb (cc_cleanup_id r) id then Some (c, r) else None.

Definition require_claimed_cleanup_resource (id digest workspace : string) : AM unit :=
  let! claim := aselect (λ _ _ t, claim_of t id digest workspace) in
  check (ensure (match claim with
                 | Some (c, r) => bool_decide (cl_state c = Cl_Applying) && negb (cc_retired r)
                 | None => false
                 end) "cleanup resource has no active matching claim").

Definition require_workspace_outside_cleanup (workspace : string) : AM unit :=
  let! claimed := aselect (λ _ _ t, bool_decide (is_Some (at_claims t !! workspace))) in
  check (ensure (negb claimed) "workspace is reserved for reviewed cleanup").

(** [LIMIT 25] of the retired workspaces of a cleanup. *)
Definition retired_workspaces (t : AttemptTables) (id : string) : list string :=
  take 25 (sort_by String.leb (fst <$> List.filter (λ row, String.eqb (cc_cleanup_id (snd row)) id && cc_retired (snd row))
                                         (map_to_list (at_claims t)))).

(** INSERT on runCleanupResources: its key. *)
Definition insert_claim (id : string) (item : WorkflowCleanupItem) : AM unit :=
  let! taken := aselect (λ _ _ t, bool_decide (is_Some (at_claims t !! item_id item))) in
  if taken : bool then in_plan (fail (Database "UNIQUE constraint failed: runCleanupResources.workspace_id"))
  else in_attempts (λ t, set_at_claims (<[item_id item := MkCleanupClaim id false]> (at_claims t)) t).

Fixpoint insert_claims (id : string) (items : list WorkflowCleanupItem) : AM unit :=
  match items with
  | [] => ret tt
  | item :: rest => do! insert_claim id item in insert_claims id rest
  end.

Definition git_blocks (item : WorkflowCleanupItem) : bool :=
  cg_dirty (cit_git item) || cg_locked (cit_git item) || cg_operation_in_progress (cit_git item).

Definition confirmed_cleanup (id digest : string) : AM CleanupRow :=
  let! c := fetch_cleanup id in
  do! check (ensure (String.eqb (cl_digest c) digest) "cleanup confirmation does not match its preview") in
  ret c.

Definition claim_workflow_cleanup (clock : Z) (id digest : string) : AM WorkflowCleanupClaim :=
  attempt_tx (
    let! c := confirmed_cleanup id digest in
    do! check (ensure (negb (cl_abandoned c)) "cleanup was abandoned; review a new preview") in
    let! preview := cleanup_document c in
    do! (match cl_state c with
         | Cl_Preview =>
             do! check (ensure (negb (cl_expires_at c <=? clock)%Z) "cleanup preview expired; inspect the resources again") in
             do! check (ensure (negb (existsb git_blocks (cp_items preview)))
                   "cleanup requires clean, unlocked worktrees with no Git operation") in
             do! require_cleanup_quiescent preview in
             do! insert_claims id (cp_items preview) in
             set_cleanup id (with_cl_state Cl_Applying (cl_error c) c)
         | Cl_Applying | Cl_Retired => ret tt
         | Cl_Attention => check (Err (Bail "cleanup needs attention before it can continue"))
         end) in
    let! retired := aselect (λ _ _ t, retired_workspaces t id) in
    ret (MkWorkflowCleanupClaim preview retired)).

(** The registered row shows the columns of the reviewed workspace. *)
Definition same_registration (ws : Workspace) (r : SourceRow) : bool :=
  String.eqb (sw_instance_id (sr_source r)) (wsp_instance_id ws)
  && String.eqb (sw_project_id (sr_source r)) (wsp_project_id ws) && String.eqb (sr_host_id r) (wsp_host_id ws)
  && String.eqb (sw_path (sr_source r)) (wsp_path ws) && bool_decide (sr_branch r = wsp_branch ws)
  && bool_decide (sr_kind r = wsp_kind ws).
Definition is_source (workspace : string) (r : SourceRow) : bool := String.eqb (sw_workspace_id (sr_source r)) workspace.

Definition remove_workspace_in_transaction (workspace : string) : AM unit :=
  do! in_attempts (λ t, set_at_relations
        (List.filter (λ r, negb (String.eqb (rel_parent r) workspace || String.eqb (rel_child r) workspace))
           (at_relations t)) t) in
  in_plan (in_tables (λ t, set_pl_sources (List.filter (λ r, negb (is_source workspace r)) (pl_sources t)) t)).

Definition cleanup_settled (t : AttemptTables) (id : string) : bool :=
  forallb (λ row, negb (String.eqb (cc_cleanup_id (snd row)) id) || cc_retired (snd row)) (map_to_list (at_claims t)).

Definition retire_claim (id workspace : string) : AM unit :=
  in_attempts (λ t, set_at_claims (<[workspace := MkCleanupClaim id true]> (at_claims t)) t).

Definition retire_workspace (id workspace : string) (c : CleanupRow) : AM unit :=
  let! preview := cleanup_document c in
  let! item := check (with_context (item_of preview workspace) "cleanup resource is absent from its preview") in
  let ws := wi_workspace (cit_identity item) in
  let! changed := aselect (λ _ t _, existsb (λ r, is_source workspace r && negb (same_registration ws r)) (pl_sources t)) in
  do! check (ensure (negb changed) "cleanup workspace registration changed") in
  do! retire_claim id workspace in
  do! remove_workspace_in_transaction workspace in
  let! settled := aselect (λ _ _ t, cleanup_settled t id) in
  if settled : bool
  then do! set_cleanup id (with_cl_state Cl_Retired (cl_error c) c) in
       record_cleanup_event (cp_run_id preview) id Ev_CleanupApplied (length (cp_items preview))
  else ret tt.

Definition record_workflow_cleanup_retirement (id digest workspace : string) : AM unit :=
  attempt_tx (
    let! claim := aselect (λ _ _ t, claim_of t id digest workspace) in
    let! claim := check (with_context
      (match claim with
       | Some (c, r) => if bool_decide (cl_state c ∈ [Cl_Applying; Cl_Retired]) then Some (c, r) else None
       | None => None
       end) "cleanup retirement does not match a claimed resource") in
    if cc_retired (snd claim) then ret tt else retire_workspace id workspace (fst claim)).

(** ** Abandonment (run_cleanup_abandon.rs) *)

Definition require_retained_cleanup_resource (id digest workspace : string) : AM unit :=
  let! claim := aselect (λ _ _ t, claim_of t id digest workspace) in
  check (ensure (match claim with
                 | Some (c, r) => bool_decide (cl_state c ∈ [Cl_Applying; Cl_Attention]) && negb (cc_retired r)
                 | None => false
                 end) "cleanup resource has no retained matching claim").

Definition claims_of (t : AttemptTables) (id : string) : list (string * CleanupClaim) :=
  List.filter (λ row, String.eqb (cc_cleanup_id (snd row)) id) (map_to_list (at_claims t)).

Definition check_claim (sources : list SourceRow) (preview : WorkflowCleanupPreview) (row : string * CleanupClaim) : R unit :=
  try! item := with_context (item_of preview (fst row)) "cleanup claim has a foreign resource" in
  if cc_retired (snd row) then Ok tt
  else
    let ws := wi_workspace (cit_identity item) in
    ensure (existsb (λ r, is_source (wsp_id ws) r && same_registration ws r) sources) "cleanup workspace registration changed".

Definition release_claims (id : string) (t : AttemptTables) : AttemptTables :=
  set_at_claims (filter (λ row, ¬ (cc_cleanup_id row.2 = id ∧ cc_retired row.2 = false)) (at_claims t)) t.

Definition abandon_workflow_cleanup (id digest : string) : AM unit :=
  attempt_tx (
    let! c := confirmed_cleanup id digest in
    if cl_abandoned c then ret tt
    else
      do! check (ensure (bool_decide (cl_state c = Cl_Attention)) "only a cleanup needing attention can be abandoned") in
      let! preview := cleanup_document c in
      do! require_cleanup_quiescent preview in
      let! claims := aselect (λ _ _ t, take 26 (claims_of t id)) in
      do! check (ensure (Nat.eqb (length claims) (length (cp_items preview))) "cleanup claims changed") in
      let! sources := aselect (λ _ t _, pl_sources t) in
      do! check (rmap_ (check_claim sources preview) claims) in
      do! in_attempts (release_claims id) in
      do! set_cleanup id (with_cl_abandoned c) in
      record_cleanup_event (cp_run_id preview) id Ev_CleanupAbandoned (length (cp_items preview))).

(** ** Status (run_cleanup_status.rs) *)

Definition pending_workflow_cleanup_page (after : string) : AM (list (string * string)) :=
  aselect (λ _ _ t, (λ row, (fst row, cl_digest (snd row))) <$> take 25 (sort_by (λ a b, String.leb (fst a) (fst b))
    (List.filter (λ row, bool_decide (cl_state (snd row) = Cl_Applying) && negb (cl_abandoned (snd row))
                         && String.ltb after (fst row)) (map_to_list (at_cleanups t))))).

Definition shown_state (c : CleanupRow) : WorkflowCleanupState :=
  if cl_abandoned c then Wcs_Abandoned
  else match cl_state c with
       | Cl_Preview => Wcs_Preview | Cl_Applying => Wcs_Applying
       | Cl_Retired => Wcs_Retired | Cl_Attention => Wcs_Attention
       end.

Definition workflow_cleanup_status (id : string) : AM WorkflowCleanupStatus :=
  attempt_tx (
    let! c := fetch_cleanup id in
    let! retired := aselect (λ _ _ t, retired_workspaces t id) in
    let! preview := cleanup_document c in
    ret (MkCleanupStatus preview (shown_state c) (cl_error c) retired)).

Definition mark_workflow_cleanup_attention (id digest error : string) : AM unit :=
  let stored := String.substring 0 (floor_boundary error (Nat.min (String.length error) 4096)) error in
  attempt_tx (
    let! row := aselect (λ _ _ t, at_cleanups t !! id) in
    match row with
    | Some c =>
        if String.eqb (cl_digest c) digest && bool_decide (cl_state c = Cl_Applying) && negb (cl_abandoned c)
        then set_cleanup id (with_cl_state Cl_Attention (Some stored) c) else ret tt
    | None => ret tt
    end).

Definition resume_workflow_cleanup (id digest : string) : AM unit :=
  attempt_tx (
    let! c := confirmed_cleanup id digest in
    do! check (ensure (negb (cl_abandoned c)) "cleanup was abandoned; review a new preview") in
    if bool_decide (cl_state c = Cl_Attention)
    then let! preview := cleanup_document c in
         do! require_cleanup_quiescent preview in
         set_cleanup id (with_cl_state Cl_Applying None c)
    else ret tt).
End Cleanup.
