(* ===== verification/ExecutionStoreFacts.v ===== *)
(** * ExecutionStoreFacts: what the scheduler picks may run, what completes is complete

    [step_is_eligible]: a task the execution step prepares or launches passes
    the eligibility check the workspace and launch code makes afterwards, on the
    same state.  [completion_is_complete]: a run completes only with every task
    of its plan integrated on its current result and every stage gate approved. *)

From S2P Require Import Prelude Text Models Store StoreFacts RoleContract Gates Runs Ordering Recipe RecipeFacts Plan Catalog Execution ExecutionFacts PlanStore PlanStoreFacts RunControl RunControlFacts GateResolution GateResolutionFacts ExecutionStore.
From Stdlib Require Import ZArith Lia Ascii String.
From stdpp Require Import strings gmap pretty prelude.

(** ** The rows of a revision *)

Lemma elem_of_revision_tasks db t run revision x :
  x ∈ revision_tasks db t run revision ↔
  x ∈ db_tasks db ∧ t_run_id x = Some run ∧ t_plan_revision x = Some revision.
Proof.
  unfold revision_tasks. rewrite elem_of_sort_by, list_elem_of_In, filter_In, <-list_elem_of_In, andb_true_iff,
    !bool_decide_eq_true. done.
Qed.

(** ** Gates *)

Lemma approved_gate_row db t run revision id :
  gate_approved (approved_stage_gates db t run revision) id = true →
  stage_gate_approved db t run revision id = true.
Proof.
  unfold gate_approved, approved_stage_gates. rewrite bool_decide_eq_true. intros Hin%elem_of_list_to_map_2.
  apply list_elem_of_fmap in Hin as (g & Heq & Hin). injection Heq as ->.
  apply list_elem_of_In, filter_In in Hin as [Hin Hg]. split_bools. apply existsb_exists. exists g. split; [done|].
  by rewrite String.eqb_refl, !bool_decide_true.
Qed.

(** The scheduler's walk over the stages and the eligibility check's agree. *)
Lemma gates_loops_agree fuel db t run revision plan seen remaining :
  gates_loop fuel plan (approved_stage_gates db t run revision) seen remaining = Some (Ok true) →
  stage_gates_loop fuel db t run revision plan seen remaining = Some (Ok tt).
Proof.
  revert seen remaining. induction fuel as [|fuel IH]; intros seen [|id remaining]; cbn; try done.
  case_bool_decide; [by apply IH|]. destruct (stage_of plan id) as [prior|]; [|done].
  case_bool_decide; cbn; [|by apply IH].
  destruct (gate_approved _ id) eqn:Eg; cbn; [|done]. rewrite (approved_gate_row _ _ _ _ _ Eg). apply IH.
Qed.

(** The rows of a plan revision as [materialize] writes them. *)
Record revision_rows (run : string) (revision : Z) (plan : WorkflowPlanSnapshot) (w : PlanWorld) : Prop := {
  rows_ids : NoDup (t_id <$> tasks_of w);
  rows_named : ∀ x, x ∈ revision_tasks (w_db (pw_world w)) (pw_tables w) run revision →
    is_Some (pl_tasks (pw_tables w) !! t_id x);
  rows_logical : ∀ x y, x ∈ revision_tasks (w_db (pw_world w)) (pw_tables w) run revision →
    y ∈ revision_tasks (w_db (pw_world w)) (pw_tables w) run revision →
    logical_of (pw_tables w) x = logical_of (pw_tables w) y → x = y;
  rows_workspace : ∀ x, x ∈ revision_tasks (w_db (pw_world w)) (pw_tables w) run revision →
    t_workspace_id x = sw_workspace_id (ps_source_workspace plan)
}.

Section Facts.
Context `{Env, ContractLib, RecipeLib, PlanLib, ProposalLib, ControlLib, GateLib, StepLib, SourceJson}.

Lemma integrated_prerequisite run revision plan w x d :
  revision_rows run revision plan w →
  x ∈ revision_tasks (w_db (pw_world w)) (pw_tables w) run revision → logical_of (pw_tables w) x = d →
  ts_integrated (task_state (w_db (pw_world w)) (pw_tables w) x) = true →
  check_prerequisite (w_db (pw_world w)) (pw_tables w) run revision d = Ok tt.
Proof.
  intros Hrows Hx Hd Hint. cbn in Hint. split_bools. destruct (rows_named _ _ _ _ Hrows x Hx) as [c Hc].
  destruct (pl_evidence (pw_tables w) !! t_id x) as [e|] eqn:He; [|done].
  pose proof Hx as (Hin & Hrun & Hrev)%elem_of_revision_tasks.
  unfold check_prerequisite, prerequisite.
  edestruct (find_where_is_Some (λ y, bool_decide (t_run_id y = Some run) && bool_decide (t_plan_revision y = Some revision)
    && bool_decide (tp_logical_id <$> pl_tasks (pw_tables w) !! t_id y = Some d)
    && bool_decide (is_Some (pl_evidence (pw_tables w) !! t_id y))) (db_tasks (w_db (pw_world w))) x Hin) as [y Hy].
  { rewrite !bool_decide_true; [done|by rewrite He|..|done|done]. unfold logical_of in Hd. rewrite Hc in Hd |- *. cbn in *. by subst. }
  rewrite Hy. apply find_where_Some in Hy as [Hyin Hyp]. split_bools.
  assert (y = x) as ->.
  { apply (rows_logical _ _ _ _ Hrows); [by apply elem_of_revision_tasks|done|].
    unfold logical_of at 1. match goal with Hl : tp_logical_id <$> _ = Some d |- _ => rewrite Hl end. by rewrite Hd. }
  cbn [mbind option_bind]. rewrite He. cbn [mbind option_bind with_context rbind]. apply ensure_ok. rewrite !bool_decide_true by done. cbn.
  match goal with Hl : te_result_digest <$> _ = _ |- _ => injection Hl as -> end. apply String.eqb_refl.
Qed.

(** ** The step *)

Lemma approved_plan_ok run revision w w' found :
  approved_plan run revision w = (w', Ok found) →
  w' = w ∧ ∃ r p, r ∈ runs_of w ∧ r_id r = run ∧ r_plan_revision r = Some revision ∧ r_isolation r = Is_Isolated ∧
    (r_status r = Cs_Running ∨ r_status r = Cs_Paused) ∧ revision_of (pw_tables w) run revision = Some p ∧
    plan_decode (pv_snapshot p) = Some (fst found).
Proof.
  unfold approved_plan. intros Hm. do 6 inv_ok Hm. inv_ok Hm. apply pselect_ok in Hstep as [-> ->].
  apply raise_ok in Hstep0 as [-> Hrow%with_context_ok]. apply raise_ok in Hstep1 as [-> Hdec%with_context_ok].
  apply guard_ok in Hstep2 as [-> _]. unfold require_source_workspace in Hstep3. inv_ok Hstep3.
  apply pselect_ok in Hstep as [-> ->]. apply guard_ok in Hstep3 as [-> _]. apply pselect_ok in Hstep4 as [-> ->].
  split; [done|]. apply bind_Some in Hrow as (r & Hr & Hrow). apply bind_Some in Hrow as (p & Hp & [= ->]).
  apply find_where_Some in Hr as [Hr Hb]. split_bools. exists r, a0. split_and!; try done.
  - by apply String.eqb_eq.
  - match goal with Hs : r_status r ∈ _ |- _ => apply elem_of_cons in Hs as [?|Hs]; [by left|apply list_elem_of_singleton in Hs; by right] end.
Qed.

(** A step chosen among the tasks of an approved plan. *)
Lemma execution_step_ok run revision w w' step :
  workflow_execution_step run revision w = (w', Ok step) →
  w' = w ∧ (step = Waiting ∨ step = prepare run revision None ∨ (∃ reason, step = Attention reason) ∨
    ∃ plan sha, approved_plan run revision w = (w, Ok (plan, sha)) ∧
      integration_phase (w_db (pw_world w)) run = Some Wp_Ready ∧
      (let rows := revision_tasks (w_db (pw_world w)) (pw_tables w) run revision in
       length rows = length (ps_tasks plan) ∧
       execution_choose run revision plan (task_state (w_db (pw_world w)) (pw_tables w) <$> rows)
         (approved_stage_gates (w_db (pw_world w)) (pw_tables w) run revision) = Ok step)).
Proof.
  unfold workflow_execution_step. intros Hm%plan_tx_ok. inv_ok Hm. apply pselect_ok in Hstep as [-> ->].
  destruct (negb (existsb _ _)); [by inv_ok Hm; split; [|left]|]. inv_ok Hm. destruct a as [plan sha].
  pose proof (proj1 (approved_plan_ok _ _ _ _ _ Hstep)) as ->. inv_ok Hm. apply pselect_ok in Hstep0 as [-> ->].
  destruct (integration_phase _ _) as [phase|] eqn:Eph; [|by inv_ok Hm; split; [|right; left]].
  destruct phase; try (inv_ok Hm; split; [done|]; first [by left|by right; right; left; eexists]).
  inv_ok Hm. apply pselect_ok in Hstep0 as [-> ->].
  destruct (negb (Nat.eqb _ _) || _) eqn:Elen; [by inv_ok Hm; split; [|right; right; left; eexists]|].
  inv_ok Hm. apply pselect_ok in Hstep0 as [-> ->]. apply raise_ok in Hm as [-> Hch]. split; [done|]. do 3 right.
  exists plan, sha. apply orb_false_iff in Elen as [El1 El2]. apply negb_false_iff, Nat.eqb_eq in El1. apply Nat.ltb_ge in El2.
  rewrite length_fmap, length_take in El1, El2. cbn [fst] in *.
  assert (take 129 (revision_tasks (w_db (pw_world w)) (pw_tables w) run revision) =
    revision_tasks (w_db (pw_world w)) (pw_tables w) run revision) as Htk by (apply take_ge; lia).
  rewrite Htk in Hch. split_and!; try done. lia.
Qed.

Lemma startable_eligible run revision plan w x f :
  revision_rows run revision plan w →
  x ∈ revision_tasks (w_db (pw_world w)) (pw_tables w) run revision →
  startable plan (approved_stage_gates (w_db (pw_world w)) (pw_tables w) run revision)
    (integrated_ids (task_state (w_db (pw_world w)) (pw_tables w)
       <$> revision_tasks (w_db (pw_world w)) (pw_tables w) run revision))
    (task_state (w_db (pw_world w)) (pw_tables w) x) f →
  eligible_task run revision (t_id x) plan w = (w, Ok tt).
Proof.
  intros Hrows Hx (Hun & Hf & Hdeps & Hgates). unfold eligible_task, bind, pselect, gets.
  cut (eligible_task_state (w_db (pw_world w)) (pw_tables w) run revision (t_id x) plan [Ts_Pending; Ts_Ready] = Ok tt);
    [by intros ->|].
  pose proof Hx as (Hin & Hrun & Hrev)%elem_of_revision_tasks. unfold eligible_task_state.
  assert (find_where (λ y, bool_decide (t_run_id y = Some run) && bool_decide (t_plan_revision y = Some revision)
    && String.eqb (t_id y) (t_id x) && String.eqb (t_workspace_id y) (sw_workspace_id (ps_source_workspace plan)))
    (db_tasks (w_db (pw_world w))) = Some x) as ->.
  { destruct (find_where_is_Some (λ y, bool_decide (t_run_id y = Some run) && bool_decide (t_plan_revision y = Some revision)
      && String.eqb (t_id y) (t_id x) && String.eqb (t_workspace_id y) (sw_workspace_id (ps_source_workspace plan)))
      (db_tasks (w_db (pw_world w))) x Hin) as [y Hy].
    { by rewrite (rows_workspace _ _ _ _ Hrows x Hx), !String.eqb_refl, !bool_decide_true. }
    rewrite Hy. apply find_where_Some in Hy as [Hyin Hb]. split_bools. f_equal.
    eapply (NoDup_key_inj t_id); [apply Hrows|done|done|by apply String.eqb_eq]. }
  cbn [with_context rbind]. rewrite (proj2 (ensure_ok _ _)); cbn [rbind]; last first.
  { apply bool_decide_eq_true. unfold unstarted in Hun. cbn [ts_status task_state] in Hun.
    apply orb_true_iff in Hun as [Hs|Hs]; apply bool_decide_eq_true in Hs; rewrite Hs; [left|right; left]. }
  cbn [ts_logical_id task_state] in Hf. rewrite Hf. cbn [with_context rbind].
  rewrite (proj2 (rmap_ok _ _)); cbn [rbind]; last first.
  { intros d Hd. specialize (Hdeps d Hd). apply elem_of_integrated_ids in Hdeps as (u & Hu & Hui & Hul).
    apply list_elem_of_fmap in Hu as (y & -> & Hy). by eapply integrated_prerequisite. }
  unfold gates_allow in Hgates. apply rbind_ok_inv in Hgates as (stage & Hst%with_context_ok & Hloop).
  rewrite Hst. cbn [with_context rbind]. destruct (gates_loop _ _ _ _ _) as [r|] eqn:El in Hloop; [|done].
  cbn in Hloop. subst r. by rewrite (gates_loops_agree _ _ _ _ _ _ _ _ El).
Qed.

(** A prepared or launched task was startable in the state read. *)
Lemma chosen_startable run revision plan tasks gates step :
  execution_choose run revision plan tasks gates = Ok step →
  match step with
  | PrepareWorkspace q => ∃ t f, t ∈ tasks ∧ prep_task_id q = Some (ts_id t) ∧ startable plan gates (integrated_ids tasks) t f
  | LaunchTask q => ∃ t f, t ∈ tasks ∧ lt_task_id q = ts_id t ∧ startable plan gates (integrated_ids tasks) t f
  | _ => True
  end.
Proof.
  unfold execution_choose. destruct (existsb needs_attention tasks); [by intros [= <-]|].
  destruct (find_where awaits_integration tasks) as [t|].
  { intros [= <-]. unfold integrate. case_bool_decide; [done|]. by destruct (ts_workspace t). }
  destruct (forallb ts_integrated tasks); [by destruct (all_gates_approved plan gates); intros [= <-]|].
  intros [[-> _]|(t & f & Ht & Hst & Hs)]%choose_loop_inv; [done|]. unfold start_step in Hs.
  destruct (ts_workspace t) as [v|]; [destruct (ts_phase t) as [[]|]; simplify_eq; by exists t, f|].
  destruct (_ <? _)%Z; simplify_eq. by exists t, f.
Qed.

(** What the scheduler starts may start: given that the rows of the revision are
    those of the plan ([revision_rows]), a task the execution step of an isolated
    run prepares a workspace for or launches passes, on the state the step read,
    the eligibility check of the code that prepares and launches (its row awaits
    execution, every prerequisite is integrated on its current result, every gate
    before its stage is approved), and the step itself changes nothing. *)
Theorem step_is_eligible (run : string) (revision : Z) (w w' : PlanWorld) (step : WorkflowExecutionStep)
    (plan : WorkflowPlanSnapshot) (sha : string) :
  approved_plan run revision w = (w, Ok (plan, sha)) → revision_rows run revision plan w →
  workflow_execution_step run revision w = (w', Ok step) →
  w' = w ∧
  match step with
  | PrepareWorkspace q => ∀ task, prep_task_id q = Some task → eligible_task run revision task plan w = (w, Ok tt)
  | LaunchTask q => eligible_task run revision (lt_task_id q) plan w = (w, Ok tt)
  | _ => True
  end.
Proof.
  intros Hplan Hrows [-> Hstep]%execution_step_ok. split; [done|].
  destruct Hstep as [->|[->|[[reason ->]|(plan' & sha' & Hplan' & _ & _ & Hch)]]]; try done.
  rewrite Hplan in Hplan'. injection Hplan' as <- <-. apply chosen_startable in Hch.
  destruct step; try done; destruct Hch as (t & f & Ht & Hid & Hst);
    apply list_elem_of_fmap in Ht as (x & -> & Hx); cbn in Hid.
  - intros task Htask. rewrite Htask in Hid. injection Hid as ->. by eapply startable_eligible.
  - rewrite Hid. by eapply startable_eligible.
Qed.

(** ** Completion *)

Lemma lookup_approved_gate db t run revision id :
  is_Some (approved_stage_gates db t run revision !! id) → stage_gate_approved db t run revision id = true.
Proof.
  intros [v Hv]. apply approved_gate_row. unfold gate_approved. apply bool_decide_eq_true. rewrite Hv.
  unfold approved_stage_gates in Hv. apply elem_of_list_to_map_2, list_elem_of_fmap in Hv as (g & Heq & _).
  by injection Heq as _ ->.
Qed.

(** [C22] An isolated run completes only when it is complete: it was running at the
    plan revision and control sequence the scheduler saw, no integration is
    unsettled, the store holds as many tasks of the revision as the approved plan
    freezes, each of them completed and integrated on its current result, and
    every gated stage has its approval; completing touches only that run's row and the timeline. *)
Theorem completion_is_complete (run : string) (revision sequence : Z) (w w' : PlanWorld) :
  complete_workflow_execution run revision sequence w = (w', Ok true) →
  let db := w_db (pw_world w) in let t := pw_tables w in
  ∃ plan sha, approved_plan run revision w = (w, Ok (plan, sha)) ∧
    (∃ r, r ∈ runs_of w ∧ r_id r = run ∧ r_plan_revision r = Some revision ∧ r_control_sequence r = sequence ∧
          r_status r = Cs_Running ∧ r_isolation r = Is_Isolated) ∧
    unsettled_integration run t = false ∧
    length (revision_tasks db t run revision) = length (ps_tasks plan) ∧
    (∀ x, x ∈ revision_tasks db t run revision → ts_integrated (task_state db t x) = true) ∧
    (∀ s, s ∈ plan_stages plan → is_Some (ws_gate s) → stage_gate_approved db t run revision (ws_id s) = true) ∧
    pw_tables w' = pw_tables w ∧ tasks_of w' = tasks_of w ∧ gates_of w' = gates_of w ∧
    runs_of w' = update_where (is_run run)
      (λ r, with_r_paused_by None (with_r_completed_at (Some now) (with_r_status Cs_Completed r))) (runs_of w).
Proof.
  intros Hm db t. unfold complete_workflow_execution in Hm. apply plan_tx_ok in Hm. inv_ok Hm.
  apply pselect_ok in Hstep as [-> ->]. destruct (existsb _ _) eqn:Ecur in Hm; cbn [negb] in Hm; [|by inv_ok Hm].
  inv_ok Hm. destruct a as [plan sha]. pose proof (proj1 (approved_plan_ok _ _ _ _ _ Hstep)) as ->.
  do 12 inv_ok Hm. apply pselect_ok in Hstep0 as [-> ->]. apply guard_ok in Hstep1 as [-> Huns].
  apply pselect_ok in Hstep2 as [-> ->]. apply guard_ok in Hstep3 as [-> Hlen]. apply pselect_ok in Hstep4 as [-> ->].
  apply guard_ok in Hstep5 as [-> Hready]. apply pselect_ok in Hstep6 as [-> ->]. apply guard_ok in Hstep7 as [-> Hgates].
  apply in_world_ok in Hstep8 as (v & (-> & _)%update_runs_ok & ->). apply pselect_ok in Hstep9 as [-> ->].
  apply pselect_ok in Hstep10 as [-> ->]. apply event_recorded in Hstep11 as [Hev Htab]. inv_ok Hm. cbn [fst] in *.
  set (rows := List.filter _ _) in Hlen, Hready.
  assert (∀ x, x ∈ revision_tasks db t run revision ↔ x ∈ rows) as Hrows.
  { intros x. unfold revision_tasks. by rewrite elem_of_sort_by. }
  assert (length (revision_tasks db t run revision) = length rows) as Hlr by apply length_sort_by.
  apply andb_true_iff in Hlen as [Hl1%Nat.eqb_eq Hl2%Nat.leb_le]. rewrite length_take in Hl1, Hl2.
  rewrite take_ge in Hready by lia. rewrite forallb_forall in Hready, Hgates. exists plan, sha. split_bools.
  split_and!; try done.
  - apply existsb_exists in Ecur as (r & Hr & Hb). split_bools. exists r. rewrite list_elem_of_In. split_and!; try done.
    + by apply String.eqb_eq.
    + by apply Z.eqb_eq.
  - lia.
  - intros x Hx%Hrows%list_elem_of_In. exact (Hready x Hx).
  - intros s Hs Hg. apply lookup_approved_gate. apply (bool_decide_eq_true_1 _), Hgates, filter_In.
    split; [by apply list_elem_of_In|by apply bool_decide_eq_true].
  - unfold tasks_of. by rewrite (events_only_tasks _ _ Hev).
  - unfold gates_of. by rewrite (events_only_gates _ _ Hev).
  - unfold runs_of. by rewrite (events_only_runs _ _ Hev).
Qed.
End Facts.
