(* ===== verification/RunTriggers.v ===== *)
(** * RunTriggers: what the schema does beside the statements

    run_plan_schema.rs installs triggers on orchestrationTasks and
    runTaskEvidence: a task whose result changes loses its evidence, and changed
    evidence revokes the stage gates of the run that were bound to it, due or
    approved, each replaced by a fresh gate of the same stage.  They fire inside
    the statements that update tasks; every operation writes a task at most once,
    and a revoked gate is not revoked twice, so [fire_triggers] runs them after
    the operation, comparing the tasks before with the tasks after.

    [reset_orchestration] is the reset with what the foreign keys do: plan
    revisions, evidence and command receipts go with the runs and tasks they
    belong to, and a cancellation target, whose key does not cascade, refuses it.

    [store_operation] is one operation of the orchestration store, [triggered] the
    triggers that follow what an operation did. *)

From S2P Require Import Prelude Text Models Store StoreFacts RoleContract Tasks Dag Cancellation Dispatch Gates Messages Runs Reachability Ordering Recipe RecipeFacts Plan Catalog Execution PlanStore PlanStoreFacts RunControl RunControlFacts GateResolution GateResolutionFacts.
From Stdlib Require Import ZArith Lia Ascii String.
From stdpp Require Import strings gmap pretty prelude relations.

Section Triggers.
Context `{Env}.

(** [STAGE_GATE_INVALIDATION] *)
Definition revocable (run : string) (t : PlanTables) (g : OrchestrationDecisionGate) : bool :=
  bool_decide (g_run_id g = Some run) && bool_decide (g_kind g = Gk_Stage)
  && bool_decide (is_Some (gp_evidence_digest (columns_of t g)))
  && (bool_decide (g_status g = Gs_Pending)
      || bool_decide (g_status g = Gs_Resolved) && bool_decide (g_resolution g = Some PLAN_GATE_APPROVE)).

Definition replaced_gates (run : string) (db : Db) (t : PlanTables) : list OrchestrationDecisionGate :=
  match run_by_id db run with
  | Some r => List.filter (λ g, revocable run t g
                && bool_decide (gp_plan_revision (columns_of t g) = r_plan_revision r)) (db_gates db)
  | None => []
  end.

(** [lower(hex(randomblob(16)))] has the form of a simple UUID. *)
Definition blob_gate_id : PM string := λ w,
  (MkPlanWorld (MkWorld (w_db (pw_world w)) (S (w_rng (pw_world w)))) (pw_tables w),
   Ok ("gate_" +:+ uuid_simple (w_rng (pw_world w)))).

Definition fresh_gate (id : string) (g : OrchestrationDecisionGate) : OrchestrationDecisionGate :=
  MkOrchestrationDecisionGate id (g_run_id g) None Gk_Stage (g_question g) (g_options g) Gs_Pending None now None.

Definition replace_gate (g : OrchestrationDecisionGate) : PM unit :=
  let! id := blob_gate_id in
  let! columns := pselect (λ _ t, columns_of t g) in
  do! in_world (insert_gate (fresh_gate id g)) in
  in_tables (λ t, set_pl_gates (<[id := MkGatePlan (gp_scope columns) (gp_plan_revision columns)
                                          None None None None None None]> (pl_gates t)) t).

Definition revoked_gate (g : OrchestrationDecisionGate) : OrchestrationDecisionGate :=
  with_g_resolved_at (Some (default now (g_resolved_at g))) (with_g_status Gs_Invalidated g).

(** [run] is NULL for a task outside every run: the statements match no row. *)
Definition revoke_stage_gates (run : option string) : PM unit :=
  match run with
  | None => ret tt
  | Some run =>
      let! bound := pselect (replaced_gates run) in
      do! mapM_ replace_gate bound in
      let! revoked := pselect (λ _ t, revocable run t) in
      do! in_world (update_gates revoked revoked_gate) in
      ret tt
  end.

(** [runResultInvalidatesGates] *)
Definition result_invalidates (old new : OrchestrationTask) : bool :=
  bool_decide (t_status old = Ts_Completed)
  && (negb (bool_decide (t_result old = t_result new)) || negb (bool_decide (t_status new = Ts_Completed)))
  && bool_decide (is_Some (t_plan_revision new)).

(** [runResultChangeInvalidatesEvidence], whose DELETE fires
    [runEvidenceDeleteInvalidatesGates]. *)
Definition loses_evidence (t : PlanTables) (old new : OrchestrationTask) : bool :=
  negb (bool_decide (t_result old = t_result new)) && bool_decide (is_Some (pl_evidence t !! t_id new)).

Definition fire_task (old new : OrchestrationTask) : PM unit :=
  let! stale := pselect (λ _ t, loses_evidence t old new) in
  do! (if stale
       then do! revoke_stage_gates (t_run_id new) in
            in_tables (λ t, set_pl_evidence (delete (t_id new) (pl_evidence t)) t)
       else ret tt) in
  if result_invalidates old new then revoke_stage_gates (t_run_id new) else ret tt.

Definition task_named (id : string) (tasks : list OrchestrationTask) : option OrchestrationTask :=
  find_where (λ t, String.eqb (t_id t) id) tasks.

Definition fire_triggers (before : list OrchestrationTask) : PM unit :=
  let! after := pselect (λ db _, db_tasks db) in
  mapM_ (λ new, match task_named (t_id new) before with
                | Some old => fire_task old new
                | None => ret tt
                end) after.

(** ** Reset *)

(** The rows and columns that go with the deleted tasks, gates and runs. *)
Definition cascade_reset (t : PlanTables) : PlanTables :=
  set_pl_revisions [] (set_pl_tasks ∅ (set_pl_gates ∅ (set_pl_runs ∅ (set_pl_evidence ∅ (set_pl_receipts [] t))))).

Definition reset_orchestration : PM unit :=
  plan_tx (
    let! referenced := pselect (λ db t, existsb (λ c, bool_decide (is_Some (run_by_id db (ct_run_id c)))) (pl_targets t)) in
    do! in_world reset_orchestration_tasks in
    if referenced then fail (Database "FOREIGN KEY constraint failed") else in_tables cascade_reset).
End Triggers.

(** ** What firing leaves *)

(** The gate after an approval or a request was withdrawn. *)
Definition withdrawn (g g' : OrchestrationDecisionGate) : Prop :=
  ∃ moment, g' = with_g_resolved_at (Some (default moment (g_resolved_at g))) (with_g_status Gs_Invalidated g).

(** A task whose evidence is no longer what it was. *)
Definition evidence_changed (old new : OrchestrationTask) : Prop :=
  t_result new ≠ t_result old ∨ (t_status old = Ts_Completed ∧ t_status new ≠ Ts_Completed).

Definition gate_stands (cause : string → Prop) (t : PlanTables) (g g' : OrchestrationDecisionGate) : Prop :=
  g' = g ∨ ∃ run, revocable run t g = true ∧ cause run ∧ withdrawn g g'.

(** No due or approved gate of the run's stages is bound to evidence. *)
Definition nothing_bound (run : string) (w : PlanWorld) : Prop :=
  ∀ g, g ∈ gates_of w → revocable run (pw_tables w) g = false.

Definition no_stage_gate (g : OrchestrationDecisionGate) : bool := negb (bool_decide (g_kind g = Gk_Stage)).

(** Gates of the runs in [cause] may be withdrawn and evidence dropped; nothing
    else is written. *)
Record revokes (cause : string → Prop) (w w' : PlanWorld) : Prop := {
  rv_db : w_db (pw_world w') = set_gates (gates_of w') (w_db (pw_world w));
  rv_tables : pw_tables w' = set_pl_gates (pl_gates (pw_tables w')) (set_pl_evidence (pl_evidence (pw_tables w')) (pw_tables w));
  rv_evidence : pl_evidence (pw_tables w') ⊆ pl_evidence (pw_tables w);
  rv_columns : ∀ id, id ∈ (g_id <$> gates_of w) → pl_gates (pw_tables w') !! id = pl_gates (pw_tables w) !! id;
  rv_rows : ∀ id g, gate_of w id = Some g → ∃ g', gate_of w' id = Some g' ∧ gate_stands cause (pw_tables w) g g';
  rv_ids : NoDup (g_id <$> gates_of w) → NoDup (g_id <$> gates_of w');
  rv_none : ∀ run, nothing_bound run w → nothing_bound run w';
  rv_others : List.filter no_stage_gate (gates_of w') = List.filter no_stage_gate (gates_of w)
}.

Lemma withdrawn_kept g g' run t : withdrawn g g' → g_id g' = g_id g ∧ revocable run t g' = false.
Proof.
  intros [moment ->]. split; [done|]. unfold revocable. cbn.
  by rewrite (bool_decide_false (Gs_Invalidated = Gs_Pending)), (bool_decide_false (Gs_Invalidated = Gs_Resolved)), !andb_false_r by done.
Qed.
Lemma stands_id cause t g g' : gate_stands cause t g g' → g_id g' = g_id g.
Proof. intros [->|(run & _ & _ & Hw)]; [done|]. by eapply (withdrawn_kept _ _ run t). Qed.
Lemma revocable_columns run t t' g : pl_gates t' !! g_id g = pl_gates t !! g_id g → revocable run t' g = revocable run t g.
Proof. intros Hc. unfold revocable, columns_of. by rewrite Hc. Qed.
Lemma gate_of_named w id g : gate_of w id = Some g → g_id g = id ∧ id ∈ (g_id <$> gates_of w).
Proof. intros [Hin <-]%gate_of_id. split; [done|]. by apply list_elem_of_fmap_2. Qed.
Lemma gate_named w id : id ∈ (g_id <$> gates_of w) → is_Some (gate_of w id).
Proof.
  intros (g & -> & Hin)%list_elem_of_fmap. unfold gate_of, gate_row_by_id. fold (gates_of w).
  destruct (find_where _ _) eqn:E; [done|]. rewrite find_where_None in E. specialize (E g Hin). by rewrite String.eqb_refl in E.
Qed.

#[export] Instance revokes_refl cause : Reflexive (revokes cause).
Proof.
  intros w. split; try done; [by destruct w as [[[] ?] ?]|by destruct w as [? []]|]. intros id g Hg. exists g. split; [done|by left].
Qed.
#[export] Instance revokes_trans cause : Transitive (revokes cause).
Proof.
  intros w1 w2 w3 [H1 H2 H3 H4 H5 H6 H7 H8] [K1 K2 K3 K4 K5 K6 K7 K8]. split.
  - rewrite K1, H1. done.
  - rewrite K2, H2. done.
  - by etransitivity.
  - intros id Hid. rewrite K4, H4; [done|done|]. apply gate_named in Hid as [g Hg].
    destruct (H5 _ _ Hg) as (g1 & Hg1 & _). by apply gate_of_named in Hg1 as [_ ?].
  - intros id g Hg. destruct (H5 _ _ Hg) as (g1 & Hg1 & Hs1). destruct (K5 _ _ Hg1) as (g2 & Hg2 & Hs2).
    exists g2. split; [done|]. destruct Hs1 as [->|(run & Hr & Hc & Hw)].
    + destruct Hs2 as [->|(run & Hr & Hc & Hw)]; [by left|]. right. exists run. split_and!; try done.
      rewrite <-Hr. symmetry. apply revocable_columns, H4. by apply gate_of_named in Hg as [-> ?].
    + destruct Hs2 as [->|(run' & Hr' & _)]; [right; by exists run|].
      by rewrite (proj2 (withdrawn_kept _ _ run' _ Hw)) in Hr'.
  - auto.
  - auto.
  - congruence.
Qed.

Section Firing.
Context `{Env}.

Lemma blob_gate_id_ok w w' id : blob_gate_id w = (w', Ok id) → w_db (pw_world w') = w_db (pw_world w) ∧ pw_tables w' = pw_tables w.
Proof. unfold blob_gate_id. intros [= <- _]. done. Qed.

Lemma replace_gate_ok g w w' u :
  replace_gate g w = (w', Ok u) → ∃ id, (id ∉ (g_id <$> gates_of w)) ∧
    w_db (pw_world w') = set_gates (gates_of w ++ [fresh_gate id g]) (w_db (pw_world w)) ∧
    pw_tables w' = set_pl_gates (<[id := MkGatePlan (gp_scope (columns_of (pw_tables w) g))
      (gp_plan_revision (columns_of (pw_tables w) g)) None None None None None None]> (pl_gates (pw_tables w))) (pw_tables w).
Proof.
  unfold replace_gate. intros Hm. do 3 inv_ok Hm. apply blob_gate_id_ok in Hstep as [Hdb Ht]. apply pselect_ok in Hstep0 as [-> ->].
  apply in_world_ok in Hstep1 as (v & [-> Hfresh]%insert_gate_ok & ->). apply in_tables_ok in Hm as ->. cbn in Hfresh.
  exists a. cbn. unfold gates_of. rewrite <-Hdb, <-Ht. done.
Qed.

Lemma revokes_replace cause g : guarantees (revokes cause) (replace_gate g).
Proof.
  intros w w' u (id & Hid & Hdb & Ht)%replace_gate_ok.
  assert (gates_of w' = gates_of w ++ [fresh_gate id g]) as Hg by (unfold gates_of at 1; by rewrite Hdb).
  split.
  - by rewrite Hg.
  - rewrite Ht. by destruct (pw_tables w).
  - by rewrite Ht.
  - intros k Hk. rewrite Ht. cbn. apply lookup_insert_ne. by intros ->.
  - intros k x Hx. exists x. split; [|by left]. unfold gate_of, gate_row_by_id in *. fold (gates_of w'). rewrite Hg.
    by apply find_where_prefix.
  - intros Hnd. rewrite Hg, fmap_app. apply NoDup_app. split_and!; [done| |by apply NoDup_singleton].
    intros k Hk Hn%list_elem_of_singleton. cbn in Hn. by subst.
  - intros run Hnone x. rewrite Hg. intros [Hx|Hx%list_elem_of_singleton]%elem_of_app; [|subst x].
    + rewrite (revocable_columns _ (pw_tables w)); [by apply Hnone|]. rewrite Ht. cbn. apply lookup_insert_ne.
      intros ->. by apply Hid, list_elem_of_fmap_2.
    + unfold revocable, columns_of. rewrite Ht. cbn -[bool_decide]. rewrite lookup_insert_eq.
      apply andb_false_intro1, andb_false_intro2, bool_decide_eq_false. by intros [].
  - rewrite Hg, List.filter_app. cbn. by rewrite app_nil_r.
Qed.

Lemma revokes_withdraw (cause : string → Prop) run w w' n :
  cause run → in_world (update_gates (revocable run (pw_tables w)) revoked_gate) w = (w', Ok n) → revokes cause w w'.
Proof.
  intros Hc (v & [-> _]%update_gates_ok & ->)%in_world_ok. split; try done.
  - by destruct w as [? []].
  - intros id g Hg. eexists. split.
    + unfold gate_of, gate_row_by_id. cbn. rewrite (find_update_where g_id) by done.
      unfold gate_of, gate_row_by_id in Hg. rewrite Hg. done.
    + cbn. destruct (revocable run (pw_tables w) g) eqn:E; [|by left]. right. exists run. split_and!; try done. by eexists.
  - unfold gates_of. cbn. by rewrite (fmap_update_where g_id).
  - intros run' Hnone x (y & -> & Hy)%list_elem_of_fmap. destruct (revocable run _ y) eqn:E; [|by apply Hnone].
    eapply withdrawn_kept. by eexists.
  - unfold gates_of. cbn. unfold update_where. induction (db_gates _) as [|x l IH]; [done|].
    cbn [fmap list_fmap List.filter]. rewrite IH. destruct (revocable run (pw_tables w) x) eqn:E; [|done].
    assert (no_stage_gate (revoked_gate x) = false ∧ no_stage_gate x = false) as [-> ->]; [|done].
    unfold no_stage_gate, revocable in *. split_bools. cbn [revoked_gate g_kind with_g_resolved_at with_g_status].
    by rewrite negb_false_iff, bool_decide_eq_true.
Qed.

Lemma revokes_run (cause : string → Prop) run :
  (∀ id, run = Some id → cause id) → guarantees (revokes cause) (revoke_stage_gates run).
Proof.
  intros Hc w w' u Hm. destruct run as [run|]; [|unfold revoke_stage_gates, ret in Hm; by simplify_eq].
  unfold revoke_stage_gates in Hm. do 4 inv_ok Hm. apply pselect_ok in Hstep as [-> ->], Hstep1 as [-> ->]. unfold ret in Hm. simplify_eq.
  etransitivity; [|by eapply revokes_withdraw; [apply Hc|]].
  revert Hstep0. apply guarantees_mapM; [split; apply _|]. intros g. apply revokes_replace.
Qed.

Lemma revokes_drop cause id : guarantees (revokes cause) (in_tables (λ t, set_pl_evidence (delete id (pl_evidence t)) t)).
Proof.
  intros w w' u ->%in_tables_ok. split; try (by destruct w as [[[] ?] []]); [apply delete_subseteq|].
  intros k g Hg. exists g. split; [done|by left].
Qed.

(** The runs of the tasks whose evidence changed. *)
Definition changed_runs (before after : list OrchestrationTask) (run : string) : Prop :=
  ∃ old new, new ∈ after ∧ task_named (t_id new) before = Some old ∧ t_run_id new = Some run ∧ evidence_changed old new.

Lemma revokes_task (cause : string → Prop) old new :
  (∀ run, t_run_id new = Some run → evidence_changed old new → cause run) → guarantees (revokes cause) (fire_task old new).
Proof.
  intros Hc w w' u Hm. unfold fire_task in Hm. do 2 inv_ok Hm. apply pselect_ok in Hstep as [-> ->].
  transitivity s0.
  - destruct (loses_evidence _ _ _) eqn:E; [|unfold ret in Hstep0; by simplify_eq].
    inv_ok Hstep0. apply revokes_drop with (cause := cause) in Hstep0. etransitivity; [|exact Hstep0]. revert Hstep.
    apply revokes_run. intros run Hr. apply Hc; [done|]. unfold loses_evidence in E. split_bools. left. congruence.
  - destruct (result_invalidates old new) eqn:E; [|unfold ret in Hm; by simplify_eq]. revert Hm. apply revokes_run.
    intros run Hr. apply Hc; [done|]. unfold result_invalidates in E. split_bools.
    match goal with Ho : orb _ _ = true |- _ => apply orb_true_iff in Ho as [Ho|Ho] end; split_bools; [left; congruence|by right].
Qed.

(** Firing withdraws gates only of runs a task of which changed its evidence. *)
Lemma revokes_fire before w w' u :
  fire_triggers before w = (w', Ok u) → revokes (changed_runs before (tasks_of w)) w w'.
Proof.
  unfold fire_triggers. intros Hm. inv_ok Hm. apply pselect_ok in Hstep as [-> ->]. fold (tasks_of w) in Hm.
  assert (∀ l w0, (∀ t, t ∈ l → t ∈ tasks_of w) → mapM_ (λ new, match task_named (t_id new) before with
    Some old => fire_task old new | None => ret tt end) l w0 = (w', Ok u) → revokes (changed_runs before (tasks_of w)) w0 w') as Hall.
  2: by eapply Hall.
  induction l as [|new l IH]; intros w0 Hin Hl; cbn [mapM_] in Hl; [unfold ret in Hl; by simplify_eq|].
  inv_ok Hl. etransitivity; [|eapply IH; [intros t Ht; apply Hin; by right|exact Hl]].
  destruct (task_named (t_id new) before) as [old|] eqn:E; [|unfold ret in Hstep; by simplify_eq].
  eapply revokes_task; [|exact Hstep]. intros run Hr Hch. exists old, new. split_and!; try done. apply Hin. left.
Qed.

(** ** Replacing what was withdrawn *)

(** A fresh gate of the same stage, question and revision, bound to no evidence. *)
Definition replacement (w : PlanWorld) (g : OrchestrationDecisionGate) (w' : PlanWorld) : Prop :=
  ∃ id, gate_of w id = None ∧ gate_of w' id = Some (fresh_gate id g) ∧
    pl_gates (pw_tables w') !! id = Some (MkGatePlan (gp_scope (columns_of (pw_tables w) g))
      (gp_plan_revision (columns_of (pw_tables w) g)) None None None None None None).

Lemma replacement_later cause w g w1 w2 : replacement w g w1 → revokes cause w1 w2 → replacement w g w2.
Proof.
  intros (id & Hnew & Hg & Hc) Hr. exists id. destruct (gate_of_named _ _ _ Hg) as [_ Hid].
  split_and!; [done| |by rewrite (rv_columns _ _ _ Hr)]. destruct (rv_rows _ _ _ Hr _ _ Hg) as (g' & Hg' & [->|(run & Hrv & _)]); [done|].
  exfalso. unfold revocable, columns_of in Hrv. cbn [fresh_gate g_id] in Hrv. rewrite Hc in Hrv. cbn -[bool_decide] in Hrv. split_bools.
  by match goal with Hs : is_Some None |- _ => destruct Hs end.
Qed.

(** Every gate of the current revision that no longer stands has a replacement. *)
Definition replaces (cause : string → Prop) (w w' : PlanWorld) : Prop :=
  revokes cause w w' ∧ ∀ run r id g, run_of w run = Some r → gate_of w id = Some g → revocable run (pw_tables w) g = true →
    gp_plan_revision (columns_of (pw_tables w) g) = r_plan_revision r → gate_of w' id ≠ Some g → replacement w g w'.
#[export] Instance replaces_preorder cause : PreOrder (replaces cause).
Proof.
  split; [by intros w; split|]. intros w1 w2 w3 [H1 H2] [K1 K2]. split; [by etransitivity|]. intros run r id g Hrun Hg Hrv Hrev Hne.
  destruct (gate_of_named _ _ _ Hg) as [Hgid Hin]. destruct (rv_rows _ _ _ H1 _ _ Hg) as (g2 & Hg2 & Hst).
  destruct (decide (gate_of w2 id = Some g)) as [Heq|Hch]; [|by eapply replacement_later; [by eapply H2|]].
  assert (columns_of (pw_tables w2) g = columns_of (pw_tables w1) g) as Hcol.
  { unfold columns_of. rewrite (rv_columns _ _ _ H1); [done|]. by rewrite Hgid. }
  destruct (K2 run r id g) as (k & Hk & Hk3 & Hkc); try done.
  - unfold run_of in *. rewrite (rv_db _ _ _ H1). done.
  - rewrite <-Hrv. apply revocable_columns, (rv_columns _ _ _ H1). by rewrite Hgid.
  - by rewrite Hcol.
  - exists k. rewrite Hcol in Hkc. split_and!; try done. destruct (gate_of w1 k) as [x|] eqn:E; [|done].
    destruct (rv_rows _ _ _ H1 _ _ E) as (? & ? & _). congruence.
Qed.

(** A replacement, seen from an earlier state. *)
Lemma replacement_earlier cause w w1 g w' : revokes cause w w1 → g ∈ gates_of w → replacement w1 g w' → replacement w g w'.
Proof.
  intros Hr Hg (k & Hk & Hk' & Hc). exists k. split_and!; [|done|].
  - destruct (gate_of w k) as [x|] eqn:E; [|done]. destruct (rv_rows _ _ _ Hr _ _ E) as (? & ? & _). congruence.
  - unfold columns_of in *. by rewrite (rv_columns _ _ _ Hr) in Hc by by apply list_elem_of_fmap_2.
Qed.

Lemma replace_all l w w' u :
  mapM_ replace_gate l w = (w', Ok u) → (∀ g, g ∈ l → g ∈ gates_of w) → ∀ g, g ∈ l → replacement w g w'.
Proof.
  revert w. induction l as [|x l IH]; intros w Hm Hin g Hg; [by apply not_elem_of_nil in Hg|].
  cbn [mapM_] in Hm. inv_ok Hm. pose proof (revokes_replace (λ _, False) x _ _ _ Hstep) as Hr.
  assert (revokes (λ _, False) s w') as Hr'.
  { revert Hm. apply guarantees_mapM; [split; apply _|]. intros y. apply revokes_replace. }
  apply replace_gate_ok in Hstep as (id & Hid & Hdb & Ht). apply elem_of_cons in Hg as [->|Hg].
  - eapply replacement_later; [|exact Hr']. assert (gate_of w id = None) as Hnone.
    { destruct (gate_of w id) as [y|] eqn:E; [|done]. by apply gate_of_named in E as [_ ?]. }
    exists id. split_and!; [done| |by rewrite Ht; cbn; rewrite lookup_insert_eq].
    unfold gate_of, gate_row_by_id in *. rewrite Hdb. cbn. apply find_where_snoc; [done|]. apply String.eqb_refl.
  - eapply replacement_earlier; [exact Hr|apply Hin; by right|]. eapply IH; try done. intros y Hy.
    unfold gates_of at 1. rewrite Hdb. cbn. apply elem_of_app. left. apply Hin. by right.
Qed.

Lemma replaces_run (cause : string → Prop) run :
  (∀ id, run = Some id → cause id) → guarantees (replaces cause) (revoke_stage_gates run).
Proof.
  intros Hc w w' u Hm. split; [by eapply revokes_run|]. intros run' r id g Hrun Hg Hrv Hrev Hne.
  destruct run as [run|]; [|unfold revoke_stage_gates, ret in Hm; by simplify_eq].
  destruct (rv_rows _ _ _ (revokes_run (λ x, x = run) (Some run) ltac:(naive_solver) _ _ _ Hm) _ _ Hg) as (g' & Hg' & [->|(? & Hrv' & -> & _)]); [done|].
  assert (run' = run) as ->. { unfold revocable in Hrv, Hrv'. split_bools. congruence. }
  unfold revoke_stage_gates in Hm. do 4 inv_ok Hm. apply pselect_ok in Hstep as [-> ->], Hstep1 as [-> ->]. unfold ret in Hm. simplify_eq.
  eapply replacement_later; [|by eapply (revokes_withdraw (λ _, True) run)].
  eapply replace_all; [exact Hstep0| |].
  - unfold replaced_gates. intros y. destruct (run_by_id _ _); [|by intros ?%not_elem_of_nil].
    intros [Hy _]%list_elem_of_In%List.filter_In. by apply list_elem_of_In.
  - unfold replaced_gates. unfold run_of in Hrun. rewrite Hrun. apply list_elem_of_In, List.filter_In.
    rewrite Hrv, bool_decide_true by done. split; [|done]. by apply list_elem_of_In; apply gate_of_id in Hg as [? _].
Qed.

Lemma replaces_same cause w w' : revokes cause w w' → gates_of w' = gates_of w → replaces cause w w'.
Proof.
  intros Hr Hg. split; [done|]. intros run r id g _ Hid _ _ Hne. exfalso. apply Hne.
  unfold gate_of, gate_row_by_id in *. fold (gates_of w'). by rewrite Hg.
Qed.

Lemma replaces_task (cause : string → Prop) old new :
  (∀ run, t_run_id new = Some run → cause run) → guarantees (replaces cause) (fire_task old new).
Proof.
  intros Hc. unfold fire_task. apply guarantees_bind; [apply _|apply guarantees_reads; [apply _|apply reads_pselect]|].
  intros stale. apply guarantees_bind; [apply _| |intros _].
  - destruct stale; [|apply guarantees_reads; [apply _|apply reads_ret]]. apply guarantees_bind; [apply _|by apply replaces_run|intros _].
    intros w w' u Hm. apply replaces_same; [by eapply revokes_drop|]. by apply in_tables_ok in Hm as ->.
  - destruct (result_invalidates old new); [by apply replaces_run|apply guarantees_reads; [apply _|apply reads_ret]].
Qed.

Lemma replaces_fire before : guarantees (replaces (λ _, True)) (fire_triggers before).
Proof.
  unfold fire_triggers. apply guarantees_bind; [apply _|apply guarantees_reads; [apply _|apply reads_pselect]|].
  intros after. apply guarantees_mapM; [apply _|]. intros new.
  destruct (task_named _ _); [by apply replaces_task|apply guarantees_reads; [apply _|apply reads_ret]].
Qed.

Lemma revoke_clears run w w' u : revoke_stage_gates (Some run) w = (w', Ok u) → nothing_bound run w'.
Proof.
  unfold revoke_stage_gates. intros Hm. do 4 inv_ok Hm. apply pselect_ok in Hstep as [-> ->], Hstep1 as [-> ->]. unfold ret in Hm. simplify_eq.
  apply in_world_ok in Hstep2 as (v & [-> _]%update_gates_ok & ->). intros g (y & -> & Hy)%list_elem_of_fmap.
  cbn [pw_tables]. destruct (revocable run _ y) eqn:E; [|done]. eapply withdrawn_kept. by eexists.
Qed.

Lemma fire_task_clears old new run w w' u :
  result_invalidates old new = true → t_run_id new = Some run → fire_task old new w = (w', Ok u) → nothing_bound run w'.
Proof. intros Hri Hrun Hm. unfold fire_task in Hm. do 2 inv_ok Hm. rewrite Hri, Hrun in Hm. by eapply revoke_clears. Qed.

Lemma fire_task_drops old new w w' u :
  t_result new ≠ t_result old → fire_task old new w = (w', Ok u) → pl_evidence (pw_tables w') !! t_id new = None.
Proof.
  intros Hne Hm. unfold fire_task in Hm. do 2 inv_ok Hm. apply pselect_ok in Hstep as [-> ->].
  assert (pl_evidence (pw_tables s0) !! t_id new = None) as Hs0.
  { unfold loses_evidence in Hstep0. rewrite bool_decide_false in Hstep0 by congruence. cbn [negb andb] in Hstep0.
    destruct (pl_evidence (pw_tables w) !! t_id new) eqn:E.
    - rewrite bool_decide_true in Hstep0 by done. inv_ok Hstep0. apply in_tables_ok in Hstep0 as ->. cbn. apply lookup_delete_eq.
    - rewrite bool_decide_false in Hstep0 by by intros []. unfold ret in Hstep0. by simplify_eq. }
  assert (revokes (λ _, True) s0 w') as Hr.
  { destruct (result_invalidates old new); [by eapply revokes_run|unfold ret in Hm; by simplify_eq]. }
  eapply lookup_weaken_None; [exact Hs0|apply (rv_evidence _ _ _ Hr)].
Qed.

(** Evidence goes only with a changed result. *)
Definition evidence_kept (w w' : PlanWorld) : Prop := pl_evidence (pw_tables w') = pl_evidence (pw_tables w).
#[export] Instance evidence_kept_preorder : PreOrder evidence_kept.
Proof. unfold evidence_kept. split; [by intros w|]. intros w1 w2 w3 H12 H23. congruence. Qed.
Lemma revoke_evidence run : guarantees evidence_kept (revoke_stage_gates run).
Proof.
  destruct run as [run|]; [|apply guarantees_reads; [apply _|apply reads_ret]]. intros w w' u Hm. unfold revoke_stage_gates in Hm.
  do 4 inv_ok Hm. apply pselect_ok in Hstep as [-> ->], Hstep1 as [-> ->]. unfold ret in Hm. simplify_eq.
  transitivity s0; [|by apply in_world_ok in Hstep2 as (v & _ & ->)].
  revert Hstep0. apply guarantees_mapM; [apply _|]. intros g x x' y (id & _ & _ & Ht)%replace_gate_ok. unfold evidence_kept. by rewrite Ht.
Qed.

Lemma fire_task_evidence old new w w' u task e :
  fire_task old new w = (w', Ok u) → pl_evidence (pw_tables w) !! task = Some e →
  pl_evidence (pw_tables w') !! task = Some e ∨ (t_id new = task ∧ t_result new ≠ t_result old).
Proof.
  intros Hm He. unfold fire_task in Hm. do 2 inv_ok Hm. apply pselect_ok in Hstep as [-> ->].
  assert (pl_evidence (pw_tables w') = pl_evidence (pw_tables s0)) as Heq.
  { destruct (result_invalidates old new); [by apply revoke_evidence in Hm|unfold ret in Hm; by simplify_eq]. }
  rewrite Heq. destruct (loses_evidence _ _ _) eqn:E; [|unfold ret in Hstep0; simplify_eq; by left].
  inv_ok Hstep0. apply revoke_evidence in Hstep. unfold evidence_kept in Hstep. apply in_tables_ok in Hstep0 as ->. cbn. rewrite Hstep.
  destruct (decide (t_id new = task)) as [->|Hne]; [|left; by rewrite lookup_delete_ne].
  right. split; [done|]. unfold loses_evidence in E. split_bools. congruence.
Qed.

Lemma fire_evidence before w w' u task e :
  fire_triggers before w = (w', Ok u) → pl_evidence (pw_tables w) !! task = Some e →
  pl_evidence (pw_tables w') !! task = Some e ∨
  ∃ old new, new ∈ tasks_of w ∧ t_id new = task ∧ task_named task before = Some old ∧ t_result new ≠ t_result old.
Proof.
  unfold fire_triggers. intros Hm He. inv_ok Hm. apply pselect_ok in Hstep as [-> ->]. fold (tasks_of w) in Hm. revert Hm.
  assert (∀ t, t ∈ tasks_of w → t ∈ tasks_of w) as Hin by done. revert Hin He. generalize (tasks_of w) at 1 3 as l.
  generalize w at 2 3. intros v l. revert v. induction l as [|new l IH]; intros v Hin He Hl; cbn [mapM_] in Hl.
  { left. unfold ret in Hl. by simplify_eq. }
  inv_ok Hl. destruct (task_named (t_id new) before) as [old|] eqn:E.
  - destruct (fire_task_evidence _ _ _ _ _ _ _ Hstep He) as [He'|[<- Hne]].
    + eapply IH; [intros t Ht; apply Hin; by right|exact He'|exact Hl].
    + right. exists old, new. split_and!; try done. apply Hin. left.
  - unfold ret in Hstep. simplify_eq. eapply IH; [intros t Ht; apply Hin; by right|exact He|exact Hl].
Qed.

(** The turn of one task among those the triggers look at. *)
Lemma fire_turn before w w' u old new :
  fire_triggers before w = (w', Ok u) → new ∈ tasks_of w → task_named (t_id new) before = Some old →
  ∃ w1 w2 u2, fire_task old new w1 = (w2, Ok u2) ∧ revokes (λ _, True) w2 w'.
Proof.
  unfold fire_triggers. intros Hm. inv_ok Hm. apply pselect_ok in Hstep as [-> ->]. fold (tasks_of w) in Hm. revert Hm.
  generalize (tasks_of w) as l. intros l. revert w. induction l as [|x l IH]; intros w Hl Hin Hold; [by apply not_elem_of_nil in Hin|].
  cbn [mapM_] in Hl. inv_ok Hl. apply elem_of_cons in Hin as [->|Hin]; [|by eapply IH].
  rewrite Hold in Hstep. exists w, s, a. split; [done|]. revert Hl. apply guarantees_mapM; [split; apply _|]. intros y.
  destruct (task_named (t_id y) before) as [z|]; [by apply revokes_task|apply guarantees_reads; [apply _|apply reads_ret]].
Qed.

(** [C21] Changed evidence revokes approvals: when a completed task of a plan loses
    its completion or its result changes, every stage gate of its run that was
    bound to evidence, due or approved, is invalidated, and for each one of the
    run's current revision a fresh gate of the same stage with the same question
    is opened that is bound to no evidence yet; no due or approved gate of the
    run stays bound to evidence, and a changed result takes the task's evidence
    with it. *)
Theorem changed_evidence_revokes (before : list OrchestrationTask) (w w' : PlanWorld) (u : unit)
    (old new : OrchestrationTask) (run : string) :
  fire_triggers before w = (w', Ok u) → new ∈ tasks_of w → task_named (t_id new) before = Some old →
  t_run_id new = Some run → is_Some (t_plan_revision new) → t_status old = Ts_Completed → evidence_changed old new →
  nothing_bound run w' ∧
  (∀ id g, gate_of w id = Some g → revocable run (pw_tables w) g = true →
     (∃ g', gate_of w' id = Some g' ∧ withdrawn g g') ∧
     (∀ r, run_of w run = Some r → gp_plan_revision (columns_of (pw_tables w) g) = r_plan_revision r → replacement w g w')) ∧
  (t_result new ≠ t_result old → pl_evidence (pw_tables w') !! t_id new = None).
Proof.
  intros Hm Hin Hold Hrun Hplan Hdone Hch. destruct (fire_turn _ _ _ _ _ _ Hm Hin Hold) as (w1 & w2 & u2 & Hfire & Hlater).
  assert (result_invalidates old new = true) as Hri.
  { unfold result_invalidates. apply andb_true_intro. split; [apply andb_true_intro; split|]; [by split_bools| |by split_bools].
    apply orb_true_iff.
    destruct Hch as [Hne|[_ Hne]]; [left|right]; apply negb_true_iff, bool_decide_eq_false; congruence. }
  assert (nothing_bound run w') as Hnb by (eapply (rv_none _ _ _ Hlater), fire_task_clears; done).
  destruct (replaces_fire _ _ _ _ Hm) as [Hr Hrep]. split_and!; [done| |].
  - intros id g Hg Hrv. destruct (gate_of_named _ _ _ Hg) as [Hid Hkey].
    destruct (rv_rows _ _ _ Hr _ _ Hg) as (g' & Hg' & Hst).
    assert (gate_of w' id ≠ Some g) as Hne.
    { intros Hsame. apply gate_of_id in Hsame as [Hsame _]. specialize (Hnb _ Hsame).
      rewrite (revocable_columns _ (pw_tables w)), Hrv in Hnb; [done|]. apply (rv_columns _ _ _ Hr). by rewrite Hid. }
    split; [|by intros r Hr0 Hrev; eapply Hrep]. exists g'. split; [done|]. destruct Hst as [->|(? & _ & _ & Hw)]; done.
  - intros Hne. eapply lookup_weaken_None; [by eapply fire_task_drops|apply (rv_evidence _ _ _ Hlater)].
Qed.
End Firing.

(** ** Reset *)

Section Reset.
Context `{Env}.

(** Targets are never deleted and their key does not cascade: once a recorded run
    has one, no reset succeeds, settled or not. *)
Theorem cancelled_run_blocks_reset (c : CancellationTarget) (w w' : PlanWorld) (r : Result unit) :
  c ∈ pl_targets (pw_tables w) → is_Some (run_of w (ct_run_id c)) → reset_orchestration w = (w', r) →
  (∃ e, r = Err e) ∧ w_db (pw_world w') = w_db (pw_world w) ∧ pw_tables w' = pw_tables w.
Proof.
  intros Hc Hrun. unfold reset_orchestration, plan_tx, bind, pselect, gets. unfold in_world at 1, reset_orchestration_tasks, tx, bind, select, gets.
  destruct (existsb _ (db_launches _)); cbn; [intros [= <- <-]; split_and!; [by eexists|done..]|].
  assert (existsb (λ c, bool_decide (is_Some (run_by_id (w_db (pw_world w)) (ct_run_id c)))) (pl_targets (pw_tables w)) = true) as ->.
  { apply existsb_exists. exists c. split; [by apply list_elem_of_In|by apply bool_decide_eq_true]. }
  intros [= <- <-]. split_and!; [by eexists|done..].
Qed.
End Reset.

(** ** Operations of the store, with their triggers *)

(** A decided gate is not rewritten, and gates keep distinct identifiers. *)
Definition decided_gates_kept (db db' : Db) : Prop :=
  (∀ id g, gate_row_by_id db id = Some g → g_status g ≠ Gs_Pending → gate_row_by_id db' id = Some g) ∧
  (NoDup (g_id <$> db_gates db) → NoDup (g_id <$> db_gates db')).
#[export] Instance decided_gates_framed : Framed decided_gates_kept.
Proof.
  split; try by (intros; split).
  - split; [by intros db; split|]. intros db1 db2 db3 [H1 H2] [K1 K2]. split; auto.
  - intros db p f Hp Hf. split; [|cbn; by rewrite (fmap_update_where g_id)]. intros id g Hg Hs.
    unfold gate_row_by_id in *. cbn. rewrite (find_update_where g_id), Hg by done. cbn.
    destruct (p g) eqn:E; [by apply Hp in E|done].
  - intros db g Hg. split.
    + intros id x Hx _. unfold gate_row_by_id in *. cbn. by apply find_where_prefix.
    + intros Hnd. cbn. rewrite fmap_app. apply NoDup_app. split_and!; [done| |by apply NoDup_singleton].
      intros x Hx Hn%list_elem_of_singleton. by subst.
Qed.

Section Events.
Context `{Env, ContractLib}.

(** The schema's answer to what an operation did to the tasks. *)
Definition triggered (w w1 w' : PlanWorld) : Prop := fire_triggers (tasks_of w) w1 = (w', Ok tt).

(** The operation itself: the plan tables are not its own. *)
Definition store_operation (w w' : PlanWorld) : Prop :=
  Operation (pw_world w) (pw_world w') ∧ pw_tables w' = pw_tables w.

Lemma triggered_revokes w w1 w' : triggered w w1 w' → revokes (changed_runs (tasks_of w) (tasks_of w1)) w1 w'.
Proof. apply revokes_fire. Qed.
Lemma revokes_tasks cause w w' : revokes cause w w' → tasks_of w' = tasks_of w.
Proof. intros Hr. unfold tasks_of. by rewrite (rv_db _ _ _ Hr). Qed.
End Events.
