(* ===== verification/RunHistory.v ===== *)
(** * RunHistory: planning, controlling and executing runs, in any order

    [run_step] is one call of any operation of PlanStore.v, RunControl.v,
    GateResolution.v or ExecutionStore.v, with whatever arguments and outcome;
    [run_tick] is one at some moment with the triggers it fires (RunTriggers.v),
    and [run_event] is a tick or an operation of the orchestration store.  Along
    every sequence of events control sequences only grow and receipts stay
    ([advances]), and decided gates never change except that changed evidence
    withdraws approvals ([event_decided]). *)

From S2P Require Import Prelude Text Models Store StoreFacts RoleContract Gates Runs Reachability Ordering Recipe RecipeFacts Plan Catalog Execution PlanStore PlanStoreFacts RunControl RunControlFacts GateResolution GateResolutionFacts ExecutionStore ExecutionStoreFacts RunTriggers.
From Stdlib Require Import ZArith Lia Ascii String.
From stdpp Require Import strings gmap pretty prelude relations.

(** Read a successful call as an instance of what the operation guarantees. *)
Ltac as_guarantee R :=
  match goal with Hm : ?m ?w = (?w', Ok _) |- _ => revert Hm; cut (guarantees R m); [intros Hg; apply Hg|] end.

Section Steps.
Context `{Env, ContractLib, RecipeLib, PlanLib, ProposalLib, ControlLib, GateLib, StepLib, SourceJson}.

Inductive run_step (w w' : PlanWorld) : Prop :=
| st_propose run input actor p : propose_run_plan run input actor w = (w', Ok p) → run_step w w'
| st_create_gate run kind question g : create_run_gate run kind question w = (w', Ok g) → run_step w w'
| st_control request actor receipt : control_run request actor w = (w', Ok receipt) → run_step w w'
| st_retry request actor receipt : retry_run_cancellation request actor w = (w', Ok receipt) → run_step w w'
| st_settle target error u : settle_workflow_cancellation target error w = (w', Ok u) → run_step w w'
| st_begin tab workspace u : begin_workflow_terminal_shutdown tab workspace w = (w', Ok u) → run_step w w'
| st_verify tab workspace u : verify_workflow_terminal_shutdown tab workspace w = (w', Ok u) → run_step w w'
| st_resolve request actor res : resolve_run_gate request actor w = (w', Ok res) → run_step w w'
| st_open run opened : open_due_stage_gates run w = (w', Ok opened) → run_step w w'
| st_attention run revision sequence reason b :
    pause_workflow_execution_for_attention run revision sequence reason w = (w', Ok b) → run_step w w'
| st_complete run revision sequence b : complete_workflow_execution run revision sequence w = (w', Ok b) → run_step w w'
| st_refused : w_db (pw_world w') = w_db (pw_world w) → pw_tables w' = pw_tables w → run_step w w'.

(** ** Refused calls are steps *)

Lemma reads_receipt request_id digest : reads (run_command_receipt request_id digest).
Proof.
  apply reads_bind; [apply reads_pselect|]. intros [c|]; [|apply reads_ret].
  apply reads_bind; [apply reads_raise|]. intros _. apply reads_ret.
Qed.

Lemma plan_tx_rolls_back {A} (m : PM A) : rolls_back (plan_tx m).
Proof. intros w w' e. unfold plan_tx. destruct (m w) as [v [a|e']]; [done|]. by intros [= <- _]. Qed.

Lemma rolls_back_fail {A} e : rolls_back (A := A) (fail e).
Proof. by intros w w' e' [= <- _]. Qed.

(** The commands read first and write inside one transaction. *)
Ltac refuse :=
  repeat first
    [ apply plan_tx_rolls_back | apply rolls_back_fail
    | apply rolls_back_reads; [first [apply reads_raise | apply reads_pselect | apply reads_receipt]|intros ?]
    | match goal with
      | |- rolls_back (match ?x with _ => _ end) => destruct x
      | |- rolls_back (let _ := _ in _) => cbn zeta
      | |- rolls_back (in_tables _) => by intros ? ? ?
      end
    | apply reads_rolls_back, reads_ret ].

Lemma run_command_refused request_id run expected digest action command :
  rolls_back (run_command request_id run expected digest action command).
Proof. unfold run_command, replayed_control. refuse. Qed.
Lemma resolve_refused request actor : rolls_back (resolve_run_gate request actor).
Proof. unfold resolve_run_gate, replayed_resolution. refuse. Qed.
Lemma attention_refused run revision sequence reason :
  rolls_back (pause_workflow_execution_for_attention run revision sequence reason).
Proof. unfold pause_workflow_execution_for_attention. refuse. Qed.
Lemma shutdown_refused tab workspace :
  rolls_back (begin_workflow_terminal_shutdown tab workspace) ∧ rolls_back (verify_workflow_terminal_shutdown tab workspace).
Proof. split; [unfold begin_workflow_terminal_shutdown|unfold verify_workflow_terminal_shutdown]; refuse. Qed.

(** Whatever a call answers, it is a step. *)
Lemma outcome_step {A} (m : PM A) w w' r :
  rolls_back m → (∀ a, m w = (w', Ok a) → run_step w w') → m w = (w', r) → run_step w w'.
Proof. intros Hb Hok Hm. destruct r as [a|e]; [by eapply Hok|]. destruct (Hb _ _ _ Hm). by apply st_refused. Qed.

Lemma control_run_step request actor w w' r : control_run request actor w = (w', r) → run_step w w'.
Proof. apply outcome_step; [apply run_command_refused|]. intros a. apply st_control. Qed.
Lemma resolve_step request actor w w' r : resolve_run_gate request actor w = (w', r) → run_step w w'.
Proof. apply outcome_step; [apply resolve_refused|]. intros a. apply st_resolve. Qed.

(** ** Every step advances the state *)

Lemma within_world {A} (m : SM A) :
  (∀ v v' a, m v = (v', Ok a) → db_runs (w_db v') = db_runs (w_db v)) → guarantees within_command (in_world m).
Proof. intros Hm w w' a (v & Hv & ->)%in_world_ok. apply within_same; [|done]. by apply (Hm _ _ _ Hv). Qed.

Lemma within_run_event event : guarantees within_command (in_world (record_run_event event)).
Proof. apply within_world. intros v v' a Hev%record_run_event_frame. by apply events_only_runs. Qed.
Lemma within_id prefix : guarantees within_command (in_world (orchestration_id prefix)).
Proof. apply within_world. intros v v' a Hid. unfold orchestration_id in Hid. by simplify_eq. Qed.
Lemma within_insert_gate g : guarantees within_command (in_world (insert_gate g)).
Proof. apply within_world. by intros v v' a [-> _]%insert_gate_ok. Qed.
Lemma within_insert_task t : guarantees within_command (in_world (insert_task t)).
Proof. apply within_world. by intros v v' a (-> & _)%insert_task_ok. Qed.
Lemma within_supersede run : guarantees within_command (supersede_unstarted_plan run).
Proof.
  intros w w' u (Hst & Ht & _)%supersede_ok. apply within_same; [by apply Hst|by rewrite Ht].
Qed.
Lemma within_load_run run : guarantees within_command (load_run run).
Proof. apply guarantees_reads; [apply _|apply reads_load_run]. Qed.
Lemma within_proposed run revision : guarantees within_command (run_plan_proposed run revision).
Proof. apply guarantees_reads; [apply _|apply reads_proposed]. Qed.
Lemma within_draw rows : guarantees within_command (draw_ids rows).
Proof. intros w w' a (Hdb & Ht & _)%draw_ids_ok. apply within_same; [unfold runs_of; by rewrite Hdb|by rewrite Ht]. Qed.
End Steps.
#[export] Hint Resolve within_run_event within_id within_insert_gate within_insert_task within_supersede
  within_load_run within_proposed within_draw : runs.

Section History.
Context `{Env, ContractLib, RecipeLib, PlanLib, ProposalLib, ControlLib, GateLib, StepLib, SourceJson}.

Lemma within_insert_run_gate gate : guarantees within_command (insert_run_gate gate).
Proof. unfold insert_run_gate, record_gate_opened. by_statements. Qed.

Lemma within_plan_row run_id run revision ids row : guarantees within_command (insert_plan_row run_id run revision ids row).
Proof. unfold insert_plan_row. by_statements. Qed.

Lemma within_propose run input actor : guarantees within_command (propose_run_plan run input actor).
Proof.
  pose proof within_insert_run_gate. pose proof within_plan_row.
  unfold propose_run_plan, store_plan, materialize, open_plan_gate, invalidate_gates, require_source_workspace.
  by_statements.
Qed.

Lemma within_create_gate run kind question : guarantees within_command (create_run_gate run kind question).
Proof.
  pose proof within_insert_run_gate. unfold create_run_gate. by_statements.
  apply within_world. unfold orchestration_gate_by_id, select, gets. by intros ? ? ? [= <- _].
Qed.

Lemma within_columns id f : guarantees within_command (update_gate_columns id f).
Proof. unfold update_gate_columns. by_statements. Qed.

Lemma within_audit actor gate reason payload : guarantees within_command (insert_gate_audit actor gate reason payload).
Proof.
  intros w w' id (_ & Hr & _ & _ & audits & Ht)%insert_gate_audit_ok. apply within_same; [done|by rewrite Ht].
Qed.

Lemma advances_receipt_row c : guarantees advances (insert_receipt c).
Proof.
  intros w w' u [_ ->]%insert_receipt_ok. split; [|by eexists]. intros run r Hr. by exists r.
Qed.

Lemma advances_apply gate decision reason request actor :
  guarantees advances (apply_resolution gate decision reason request actor).
Proof. pose proof within_changes. unfold apply_resolution. by_statements. Qed.

Lemma advances_resolve request actor : guarantees advances (resolve_run_gate request actor).
Proof.
  pose proof advances_apply. pose proof within_columns. pose proof within_audit. pose proof advances_receipt_row.
  unfold resolve_run_gate, run_command_receipt, replayed_resolution, decide_gate, not_found. by_statements.
Qed.

Lemma advances_open run : guarantees advances (open_due_stage_gates run).
Proof.
  pose proof within_columns. unfold open_due_stage_gates. by_statements.
  apply guarantees_within. match goal with |- guarantees _ (open_due_gates _ ?l) => induction l as [|g l IH] end;
    cbn [open_due_gates]; unfold open_due_gate, record_gate_opened; by_statements.
Qed.

Lemma advances_settlement target error : guarantees advances (settle_workflow_cancellation target error).
Proof.
  unfold settle_workflow_cancellation, validate_target, require_terminal_shutdown_settle, finish_cancellation. by_statements.
Qed.

Lemma advances_command request_id run expected digest action command :
  (∀ status, guarantees within_command (command status)) →
  guarantees advances (run_command request_id run expected digest action command).
Proof. intros Hc w w' r [[-> _]|Heff]%run_command_ok; [done|]. by eapply effect_advances. Qed.

Lemma step_advances w w' : run_step w w' → advances w w'.
Proof.
  destruct 1 as [??? p Hm|? ? ? ? Hm|? ? ? Hm|? ? ? Hm|? ? ? Hm|? ? ? Hm|? ? ? Hm|? ? ? Hm|? ? Hm|? ? ? ? ? Hm|? ? ? ? Hm|Hdb Ht].
  - by apply within_advances, (within_propose _ _ _ _ _ _ Hm).
  - by apply within_advances, (within_create_gate _ _ _ _ _ _ Hm).
  - revert Hm. apply advances_command. intros status. apply within_control.
  - revert Hm. apply advances_command. intros status. apply within_retry.
  - by apply advances_settlement in Hm.
  - as_guarantee advances. unfold begin_workflow_terminal_shutdown. by_statements.
  - as_guarantee advances. unfold verify_workflow_terminal_shutdown. by_statements.
  - by apply advances_resolve in Hm.
  - by apply advances_open in Hm.
  - as_guarantee advances. unfold pause_workflow_execution_for_attention. by_statements.
  - as_guarantee advances. unfold complete_workflow_execution. unfold approved_plan, require_source_workspace. by_statements.
  - apply within_advances, within_same; [unfold runs_of; by rewrite Hdb|by rewrite Ht].
Qed.

End History.

(** ** Events *)

Definition runs_advance (db db' : Db) : Prop :=
  ∀ run r, run_by_id db run = Some r → ∃ r', run_by_id db' run = Some r' ∧ run_advances r r'.
#[export] Instance runs_advance_framed : Framed runs_advance.
Proof.
  split; try by (intros; intros run r Hr; by exists r).
  - split; [by intros db run r Hr; exists r|]. intros db1 db2 db3 H12 H23 run r (r2 & (r3 & ? & ?)%H23 & ?)%H12.
    exists r3. split; [done|by etransitivity].
  - intros db p f Hf run r Hr. unfold run_by_id in *. cbn. rewrite find_run_update, Hr by (intros x; apply Hf). cbn. eexists. split; [done|].
    destruct (p r); [|done]. destruct (Hf r) as (? & ? & ? & _ & Hs). unfold run_advances. rewrite Hs. by split_and!.
  - intros db x Hx run r Hr. exists r. split; [|done]. unfold run_by_id in *. cbn. by apply find_where_prefix.
Qed.

Section Events.
Context `{Env, ContractLib, RecipeLib, PlanLib, ProposalLib, ControlLib, GateLib, StepLib, SourceJson}.

(** One call of an operation on plans at some moment, with the triggers it fires. *)
Definition run_tick (w w' : PlanWorld) : Prop :=
  ∃ moment w1, run_step (H := at_time _ moment) w w1 ∧ triggered (H := at_time _ moment) w w1 w'.

(** The same, or one operation of the orchestration store, resets apart. *)
Definition run_event (w w' : PlanWorld) : Prop :=
  ∃ moment w1, (run_step (H := at_time _ moment) w w1 ∨ store_operation (H := at_time _ moment) w w1) ∧
    triggered (H := at_time _ moment) w w1 w'.

Lemma tick_event w w' : run_tick w w' → run_event w w'.
Proof. intros (moment & w1 & Hs & Ht). exists moment, w1. split; [by left|done]. Qed.

Lemma revokes_advances cause w w' : revokes cause w w' → advances w w'.
Proof.
  intros Hr. apply within_advances, within_same; [unfold runs_of; by rewrite (rv_db _ _ _ Hr)|by rewrite (rv_tables _ _ _ Hr)].
Qed.

Lemma event_advances w w' : run_event w w' → advances w w'.
Proof.
  intros (moment & w1 & Hs & Ht). transitivity w1; [|by eapply revokes_advances, (triggered_revokes (H := at_time _ moment))].
  destruct Hs as [Hs|[Hop Htab]]; [by apply (step_advances (H := at_time _ moment))|].
  split; [|rewrite Htab; exists []; by rewrite app_nil_r].
  exact (operation_framed (H := at_time _ moment) runs_advance _ _ Hop).
Qed.

Lemma events_advance w w' : rtc run_event w w' → advances w w'.
Proof. induction 1; [done|]. by etransitivity; [apply event_advances|]. Qed.

(** ** Commands, once *)

(** [C19] A control sequence is spent once: after a command took effect, no other
    command for the run that expects the same sequence ever takes effect, however
    many plans, commands, decisions, steps and store operations, resets apart,
    happen in between; it is refused,
    or answered from its own earlier receipt without changing anything. *)
Theorem sequence_spent_once (first second : RunControl) (actor actor' : RunActor) (w w1 w2 w3 : PlanWorld)
    (receipt receipt' : RunControlReceipt) :
  control_run first actor w = (w1, Ok receipt) → rcp_replayed receipt = false → rtc run_event w1 w2 →
  ctl_run_id second = ctl_run_id first → ctl_expected_sequence second = ctl_expected_sequence first →
  control_run second actor' w2 = (w3, Ok receipt') → rcp_replayed receipt' = true ∧ w3 = w2.
Proof.
  intros Hm Hno Hsteps Hrun Hexp Hm'. apply control_run_fresh in Hm; [|done].
  destruct (effect_fence _ _ _ _ _ _ _ _ _ (λ _, within_control _ _ _ _) Hm)
    as (r & r1 & _ & _ & Hr1 & Hseq1 & _). apply run_command_ok in Hm' as [[-> (c & o & _ & _ & _ & ->)]|Heff]; [by destruct o|].
  exfalso. destruct (effect_fence _ _ _ _ _ _ _ _ _ (λ _, within_control _ _ _ _) Heff) as (r2 & _ & Hr2 & Hseq2 & _).
  destruct (advances_run _ _ (events_advance _ _ Hsteps) _ _ Hr1) as (r' & Hr' & _ & _ & _ & Hle).
  rewrite Hrun in Hr2. simplify_eq. lia.
Qed.

(** A command can be repeated safely: sending a command that took effect again,
    at any later time and by anybody, changes nothing and answers the receipt of
    the first time, marked as replayed. *)
Theorem control_replays (request : RunControl) (actor actor' : RunActor) (w w1 w2 : PlanWorld)
    (receipt : RunControlReceipt) :
  control_run request actor w = (w1, Ok receipt) → rcp_replayed receipt = false →
  control_receipt_decode (control_receipt_encode receipt) = Some receipt → rtc run_event w1 w2 → control_run request actor' w2 = (w2, Ok (with_rcp_replayed true receipt)).
Proof.
  intros Hm Hno Hdec Hsteps. pose proof (control_run_fresh _ _ _ _ _ Hm Hno) as Heff.
  destruct (effect_fence _ _ _ _ _ _ _ _ _ (λ _, within_control _ _ _ _) Heff) as (r & r1 & _ & _ & _ & _ & _ & Hnone & Hp).
  set (row := MkCommandReceipt _ _ _ _) in Hp.
  assert (receipt_row (ctl_request_id request) (pw_tables w1) = Some row) as Hrow.
  { unfold receipt_row. rewrite Hp. apply find_where_snoc; [done|]. apply String.eqb_refl. }
  apply (advances_receipt _ _ _ _ (events_advance _ _ Hsteps)) in Hrow.
  unfold control_run, run_command in *. do 3 inv_ok Hm. apply raise_ok in Hstep as [-> Hc1].
  apply raise_ok in Hstep0 as [-> Hc2]. apply raise_ok in Hstep1 as [-> Hc3]. rewrite Hc1, Hc2, Hc3.
  unfold bind, raise, ret, run_command_receipt, pselect, gets, bind. rewrite Hrow. cbn. rewrite String.eqb_refl. cbn.
  unfold replayed_control, bind. by rewrite Hdec.
Qed.

(** A decision can be repeated safely: sending the decision on a run's gate again,
    at any later time and by anybody, changes nothing and answers the first
    receipt, marked as replayed. *)
Theorem decision_replays (request : ResolveRunGate) (actor actor' : RunActor) (w w1 w2 : PlanWorld)
    (res : RunGateResolution) (g : OrchestrationDecisionGate) :
  resolve_run_gate request actor w = (w1, Ok res) → rgr_replayed res = false →
  gate_of w (res_gate_id request) = Some g → is_Some (g_run_id g) →
  gate_receipt_decode (gate_receipt_encode res) = Some res → rtc run_event w1 w2 →
  resolve_run_gate request actor' w2 = (w2, Ok (with_rgr_replayed true res)).
Proof.
  intros Hm Hno Hg Hrun Hdec Hsteps. pose proof (resolve_fresh _ _ _ _ _ Hm Hno) as Hd.
  destruct (decide_gate_ok _ _ _ _ _ Hd) as (g0 & v1 & v2 & changes & Hg0 & _ & _ & _ & _ & Htab & _ & _ & Hnone).
  rewrite Hg in Hg0. injection Hg0 as <-. specialize (Hnone Hrun). destruct Hrun as [run Hrun].
  unfold decision_receipt in Htab. rewrite Hrun in Htab. set (row := MkCommandReceipt _ _ _ _) in Htab.
  assert (receipt_row (res_request_id request) (pw_tables w1) = Some row) as Hrow.
  { unfold receipt_row. rewrite Htab. cbn. apply find_where_snoc; [exact Hnone|]. apply String.eqb_refl. }
  apply (advances_receipt _ _ _ _ (events_advance _ _ Hsteps)) in Hrow.
  unfold resolve_run_gate in *. do 4 inv_ok Hm. apply raise_ok in Hstep as [-> Hc1].
  apply raise_ok in Hstep0 as [-> Hc2]. apply raise_ok in Hstep1 as [-> Hc3]. apply raise_ok in Hstep2 as [-> Hc4].
  rewrite Hc1, Hc2, Hc3, Hc4.
  unfold bind, raise, ret, run_command_receipt, pselect, gets, bind. rewrite Hrow. cbn. rewrite String.eqb_refl. cbn.
  unfold replayed_resolution, bind. by rewrite Hdec.
Qed.

End Events.

Section Finality.
Context `{Env, ContractLib, RecipeLib, PlanLib, ProposalLib, ControlLib, GateLib, StepLib, SourceJson}.

(** ** Decisions are final *)

Lemma kept_world {A} (m : SM A) :
  (∀ v v' a, m v = (v', Ok a) → db_gates (w_db v') = db_gates (w_db v)) → guarantees decided_kept (in_world m).
Proof. intros Hm w w' a (v & Hv & ->)%in_world_ok. apply kept_same; [|done]. by apply (Hm _ _ _ Hv). Qed.

Lemma kept_tables f : (∀ t, pl_gates (f t) = pl_gates t) → guarantees decided_kept (in_tables f).
Proof. intros Hf w w' u ->%in_tables_ok. by apply kept_same; [|apply Hf]. Qed.

(** A new gate does not disturb the old ones. *)
Lemma kept_fresh w w' new ids :
  gates_of w' = new (gates_of w) ++ ids →
  (∀ id g, gate_of w id = Some g → g_status g ≠ Gs_Pending → find_where (λ x, String.eqb (g_id x) id) (new (gates_of w)) = Some g) →
  (∀ id, id ∈ (g_id <$> gates_of w) → pl_gates (pw_tables w') !! id = pl_gates (pw_tables w) !! id) →
  decided_kept w w'.
Proof.
  intros Hg Hold Hcols id g Hid Hs. split.
  - unfold gate_of, gate_row_by_id. fold (gates_of w'). rewrite Hg. apply find_where_prefix. by apply Hold.
  - apply Hcols. apply gate_of_id in Hid as [Hin <-]. by apply list_elem_of_fmap_2.
Qed.

Lemma propose_cases run input actor w w' p :
  propose_run_plan run input actor w = (w', Ok p) →
  w' = w ∨ ∃ r compiled, load_run run w = (w, Ok r) ∧ require_proposable r = Ok tt ∧ plan_stored run input r compiled w w' p.
Proof.
  intros Hm. destruct (pi_request_id input ≫= by_request (pw_tables w)) as [q|] eqn:Eseen.
  - left. unfold propose_run_plan in Hm. do 5 inv_ok Hm. apply raise_ok in Hstep as [-> _]. apply raise_ok in Hstep0 as [-> _].
    apply raise_ok in Hstep1 as [-> _]. apply raise_ok in Hstep2 as [-> _]. apply pselect_ok in Hstep3 as [-> ->].
    rewrite Eseen in Hm. inv_ok Hm. apply raise_ok in Hstep as [-> _]. pose proof (reads_proposed run (pv_revision q) w) as Hr.
    rewrite Hm in Hr. done.
  - right. destruct (propose_fresh _ _ _ _ _ _ Hm Eseen) as (r & compiled & ? & ? & _ & ?). eauto.
Qed.

Lemma kept_propose run input actor : guarantees decided_kept (propose_run_plan run input actor).
Proof.
  intros w w' p [->|(r & compiled & _ & _ & Hst)]%propose_cases; [done|].
  destruct (stored_gates _ _ _ _ _ _ _ Hst) as (ids & Hg & _ & _ & Hout & Hkeep & _).
  eapply (kept_fresh w w' (no_longer_pending run)); [exact Hg| |].
  - intros id g Hid Hs. unfold no_longer_pending. rewrite (find_update_where g_id) by done.
    unfold gate_of, gate_row_by_id in Hid. fold (gates_of w) in Hid. rewrite Hid. cbn. unfold pending_run_gate.
    by rewrite (bool_decide_false (g_status g = _)), andb_false_r.
  - intros id Hid. apply Hkeep. intros Hin. by apply (Hout _ Hin).
Qed.

Lemma kept_insert_run_gate gate : guarantees decided_kept (insert_run_gate gate).
Proof.
  intros w w' id (_ & _ & _ & Hfresh & Hg & Hpg)%insert_run_gate_ok.
  eapply (kept_fresh w w' (λ l, l)); [exact Hg|by intros ? ? ?|].
  intros k Hk. rewrite Hpg. apply lookup_insert_ne. by intros ->.
Qed.

(** The key of runGates. *)
Definition gate_ids (w : PlanWorld) : Prop := NoDup (g_id <$> gates_of w).
Definition ids_kept (w w' : PlanWorld) : Prop := gate_ids w → gate_ids w'.
#[export] Instance ids_kept_preorder : PreOrder ids_kept.
Proof. unfold ids_kept. split; [by intros w Hw|]. intros w1 w2 w3 H12 H23 Hw. by apply H23, H12. Qed.

Lemma ids_same w w' : gates_of w' = gates_of w → ids_kept w w'.
Proof. unfold ids_kept, gate_ids. by intros ->. Qed.
Lemma ids_world {A} (m : SM A) :
  (∀ v v' a, m v = (v', Ok a) → db_gates (w_db v') = db_gates (w_db v)) → guarantees ids_kept (in_world m).
Proof. intros Hm w w' a (v & Hv & ->)%in_world_ok. apply ids_same. by apply (Hm _ _ _ Hv). Qed.
Lemma ids_event event : guarantees ids_kept (record_event event).
Proof. intros w w' u [Hev _]%event_recorded. by apply ids_same, events_only_gates. Qed.
Lemma ids_tasks sr p f : guarantees ids_kept (in_world (update_tasks sr p f)).
Proof. apply ids_world. by intros v v' a [-> _]%update_tasks_ok. Qed.
Lemma ids_runs p f : guarantees ids_kept (in_world (update_runs p f)).
Proof. apply ids_world. by intros v v' a (-> & _)%update_runs_ok. Qed.
Lemma ids_gates p f : (∀ g, g_id (f g) = g_id g) → guarantees ids_kept (in_world (update_gates p f)).
Proof.
  intros Hf w w' n (v & [-> _]%update_gates_ok & ->)%in_world_ok. unfold ids_kept, gate_ids, gates_of.
  cbn [pw_world w_db with_db set_gates db_gates]. by rewrite (fmap_update_where g_id).
Qed.
Lemma ids_revision p : guarantees ids_kept (insert_plan_revision p).
Proof. intros w w' u (_ & _ & ->)%insert_plan_revision_ok. by apply ids_same. Qed.
Lemma ids_uuid : guarantees ids_kept new_uuid.
Proof. intros w w' id Hm. unfold new_uuid in Hm. simplify_eq. by apply ids_same. Qed.
Lemma ids_tables f : guarantees ids_kept (in_tables f).
Proof. intros w w' u ->%in_tables_ok. by apply ids_same. Qed.
Lemma ids_cancel run reason : guarantees ids_kept (cancel_run run reason).
Proof.
  intros w w' u Hst%cancel_run_ok. unfold ids_kept, gate_ids. rewrite (stopped_gates _ _ _ _ Hst).
  by rewrite (fmap_update_where g_id).
Qed.
Lemma ids_receipt c : guarantees ids_kept (insert_receipt c).
Proof. intros w w' u [_ ->]%insert_receipt_ok. by apply ids_same. Qed.
Lemma ids_audit actor gate reason payload : guarantees ids_kept (insert_gate_audit actor gate reason payload).
Proof. intros w w' id (Hg & _)%insert_gate_audit_ok. by apply ids_same. Qed.
Lemma ids_insert_run_gate gate : guarantees ids_kept (insert_run_gate gate).
Proof.
  intros w w' id (_ & _ & _ & Hfresh & Hg & _)%insert_run_gate_ok Hnd. unfold gate_ids. rewrite Hg, fmap_app.
  apply NoDup_app. split_and!; [done| |by apply NoDup_singleton].
  intros x Hx Hn. apply list_elem_of_singleton in Hn. by subst.
Qed.
Lemma ids_propose run input actor : guarantees ids_kept (propose_run_plan run input actor).
Proof.
  intros w w' p [->|(r & compiled & _ & _ & Hst)]%propose_cases Hnd; [done|].
  destruct (stored_gates _ _ _ _ _ _ _ Hst) as (ids & Hg & Hlen & Hndi & Hout & _). unfold gate_ids. rewrite Hg, fmap_app.
  unfold no_longer_pending. rewrite (fmap_update_where g_id) by done.
  assert (g_id <$> zip_with gate_row (new_gates run r (rpp_revision p) compiled) ids = ids) as ->.
  { revert Hlen. generalize (new_gates run r (rpp_revision p) compiled). clear. intros l.
    revert l. induction ids as [|id ids IH]; intros [|g l] Hl; cbn in *; try done. f_equal. apply IH. lia. }
  apply NoDup_app. split_and!; [done| |done]. intros x Hx Hin. by apply (Hout x).
Qed.
End Finality.
#[export] Hint Resolve ids_event ids_tasks ids_runs ids_revision ids_uuid ids_tables ids_cancel ids_receipt
  ids_audit ids_insert_run_gate kept_insert_run_gate : runs.

Section Decisions.
Context `{Env, ContractLib, RecipeLib, PlanLib, ProposalLib, ControlLib, GateLib, StepLib, SourceJson}.

Lemma ids_changes run reason ids actor gate : guarantees ids_kept (request_run_changes run reason ids actor gate).
Proof. unfold request_run_changes, ensure_no_active_work, invalidate_gates. by_statements. by apply ids_gates. Qed.
Lemma ids_control request status reason actor : guarantees ids_kept (control request status reason actor).
Proof. pose proof ids_changes. unfold control. by_statements. Qed.
Lemma ids_retry run status actor : guarantees ids_kept (retry_cancellation run status actor).
Proof. unfold retry_cancellation. by_statements. Qed.
Lemma ids_command request_id run expected digest action command :
  (∀ status, guarantees ids_kept (command status)) →
  guarantees ids_kept (run_command request_id run expected digest action command).
Proof.
  intros Hc. unfold run_command, run_command_receipt, replayed_control, not_found. by_statements.
Qed.
Lemma ids_apply gate decision reason request actor : guarantees ids_kept (apply_resolution gate decision reason request actor).
Proof. pose proof ids_changes. unfold apply_resolution. by_statements. Qed.
Lemma ids_resolve request actor : guarantees ids_kept (resolve_run_gate request actor).
Proof.
  pose proof ids_apply. unfold resolve_run_gate, run_command_receipt, replayed_resolution, decide_gate, update_gate_columns, not_found.
  by_statements. by apply ids_gates.
Qed.
Lemma ids_open run : guarantees ids_kept (open_due_stage_gates run).
Proof.
  unfold open_due_stage_gates. by_statements.
  match goal with |- guarantees _ (open_due_gates _ ?l) => induction l as [|g l IH] end;
    cbn [open_due_gates]; unfold open_due_gate, record_gate_opened, update_gate_columns; by_statements.
  apply ids_world. intros ? ? ? Hev%record_run_event_frame. by apply events_only_gates.
Qed.

Lemma step_ids w w' : run_step w w' → ids_kept w w'.
Proof.
  destruct 1 as [??? p Hm|? ? ? ? Hm|? ? ? Hm|? ? ? Hm|? ? ? Hm|? ? ? Hm|? ? ? Hm|? ? ? Hm|? ? Hm|? ? ? ? ? Hm|? ? ? ? Hm|Hdb Ht].
  - by apply ids_propose in Hm.
  - as_guarantee ids_kept. unfold create_run_gate.
    by_statements. apply ids_world. unfold orchestration_gate_by_id, select, gets. by intros ? ? ? [= <- _].
  - revert Hm. apply ids_command. intros status. apply ids_control.
  - revert Hm. apply ids_command. intros status. apply ids_retry.
  - as_guarantee ids_kept. unfold settle_workflow_cancellation, validate_target, require_terminal_shutdown_settle, finish_cancellation. by_statements.
  - as_guarantee ids_kept. unfold begin_workflow_terminal_shutdown. by_statements.
  - as_guarantee ids_kept. unfold verify_workflow_terminal_shutdown. by_statements.
  - by apply ids_resolve in Hm.
  - by apply ids_open in Hm.
  - as_guarantee ids_kept. unfold pause_workflow_execution_for_attention. by_statements.
  - as_guarantee ids_kept. unfold complete_workflow_execution. unfold approved_plan, require_source_workspace. by_statements.
  - apply ids_same. unfold gates_of. by rewrite Hdb.
Qed.

Lemma kept_control request status reason actor : guarantees decided_kept (control request status reason actor).
Proof. pose proof kept_changes. unfold control. by_statements. Qed.
Lemma kept_retry run status actor : guarantees decided_kept (retry_cancellation run status actor).
Proof. unfold retry_cancellation. by_statements. Qed.
Lemma kept_command request_id run expected digest action command :
  (∀ status, guarantees decided_kept (command status)) →
  guarantees decided_kept (run_command request_id run expected digest action command).
Proof.
  intros Hc w w' receipt [[-> _]|[_ (r & r1 & w1 & changes & _ & _ & Hcmd & _ & _ & _ & ->)]]%run_command_ok; [done|].
  etransitivity; [by eapply Hc|]. by apply kept_same.
Qed.

(** Writing to the columns of a pending gate leaves the decided ones. *)
Lemma kept_pending_columns g w w' :
  gates_of w' = gates_of w → gate_of w (g_id g) = Some g → g_status g = Gs_Pending →
  (∀ id, id ≠ g_id g → pl_gates (pw_tables w') !! id = pl_gates (pw_tables w) !! id) → decided_kept w w'.
Proof.
  intros Hg Hrow Hs Hcols id x Hid Hx. split; [unfold gate_of, gate_row_by_id in *; fold (gates_of w'); by rewrite Hg|].
  apply Hcols. intros ->. by simplify_eq.
Qed.

Lemma kept_resolve request actor : guarantees decided_kept (resolve_run_gate request actor).
Proof.
  intros w w' res [[-> _]|[_ Hm]]%resolve_run_gate_ok; [done|].
  destruct (decide_gate_ok _ _ _ _ _ Hm) as (g & w1 & w2 & changes & Hg & Hchk & Hwr & Happ & Hworld & Htab & _).
  destruct (gate_of_id _ _ _ Hg) as [_ Hid]. rewrite <-Hid in Hg.
  destruct (checks_inv _ _ _ _ _ Hchk) as (Hpend & _). destruct (written_columns _ _ _ _ _ Hwr) as [audit Hcols].
  assert (decided_kept w w1) as Hk1.
  { intros id x Hx Hs. split.
    - unfold gate_of, gate_row_by_id in *. fold (gates_of w1). rewrite (written_gates _ _ _ _ _ Hwr).
      rewrite (find_update_where g_id) by done. fold (gates_of w) in Hx. rewrite Hx. cbn.
      by rewrite (bool_decide_false (g_status x = _)), andb_false_r.
    - rewrite Hcols. apply lookup_insert_ne. intros <-. rewrite Hg in Hx. injection Hx as <-. by apply Hs. }
  etransitivity; [exact Hk1|]. etransitivity; [by eapply kept_apply|].
  apply kept_same; [unfold gates_of; by rewrite Hworld|by rewrite Htab].
Qed.

Lemma candidate_gate run w g :
  gate_ids w → g ∈ List.filter (due_candidate run (w_db (pw_world w)) (pw_tables w)) (gates_of w) →
  gate_of w (g_id g) = Some g ∧ g_status g = Gs_Pending.
Proof.
  intros Hnd [Hin Hd]%list_elem_of_In%filter_In. apply list_elem_of_In in Hin. split.
  - by apply (find_key_elem g_id).
  - unfold due_candidate, pending_run_gate in Hd. by split_bools.
Qed.

Lemma kept_open run w w' opened :
  gate_ids w → open_due_stage_gates run w = (w', Ok opened) → decided_kept w w'.
Proof.
  intros Hnd Hm. destruct (open_due_stage_gates_ok _ _ _ _ Hnd Hm) as (Hop & _ & Hkeep & Hg & _).
  intros id x Hx Hs. split; [unfold gate_of, gate_row_by_id in *; fold (gates_of w'); by rewrite Hg|].
  apply Hkeep. rewrite Hop. intros (g & -> & Hin)%list_elem_of_fmap.
  apply list_elem_of_In, filter_In in Hin as [Hin _]. apply list_elem_of_In in Hin.
  destruct (candidate_gate _ _ _ Hnd Hin) as [Hrow Hp]. by simplify_eq.
Qed.

Lemma step_kept w w' : gate_ids w → run_step w w' → decided_kept w w'.
Proof.
  intros Hnd.
  destruct 1 as [??? p Hm|? ? ? ? Hm|? ? ? Hm|? ? ? Hm|? ? ? Hm|? ? ? Hm|? ? ? Hm|? ? ? Hm|? ? Hm|? ? ? ? ? Hm|? ? ? ? Hm|Hdb Ht].
  - by apply kept_propose in Hm.
  - as_guarantee decided_kept. unfold create_run_gate. by_statements.
    apply kept_world. unfold orchestration_gate_by_id, select, gets. by intros ? ? ? [= <- _].
  - revert Hm. apply kept_command. intros status. apply kept_control.
  - revert Hm. apply kept_command. intros status. apply kept_retry.
  - as_guarantee decided_kept. unfold settle_workflow_cancellation, validate_target, require_terminal_shutdown_settle, finish_cancellation.
    by_statements; by apply kept_tables.
  - as_guarantee decided_kept. unfold begin_workflow_terminal_shutdown. by_statements; by apply kept_tables.
  - as_guarantee decided_kept. unfold verify_workflow_terminal_shutdown. by_statements; by apply kept_tables.
  - by apply kept_resolve in Hm.
  - by eapply kept_open.
  - as_guarantee decided_kept. unfold pause_workflow_execution_for_attention. by_statements.
  - as_guarantee decided_kept. unfold complete_workflow_execution, approved_plan, require_source_workspace. by_statements.
  - apply kept_same; [unfold gates_of; by rewrite Hdb|by rewrite Ht].
Qed.

End Decisions.

(** ** Decided gates along events *)

Section DecidedGates.
Context `{Env, ContractLib, RecipeLib, PlanLib, ProposalLib, ControlLib, GateLib, StepLib, SourceJson}.

Lemma operation_kept moment w w1 :
  @store_operation (at_time _ moment) _ w w1 → decided_kept w w1 ∧ ids_kept w w1.
Proof.
  intros [Hop Ht]. apply (operation_framed (H := at_time _ moment) decided_gates_kept) in Hop as [Hk Hn]. split; [|done].
  intros id g Hg Hs. split; [by apply Hk|by rewrite Ht].
Qed.

Lemma event_ids w w' : run_event w w' → ids_kept w w'.
Proof.
  intros (moment & w1 & Hstep & Ht). transitivity w1.
  - destruct Hstep as [Hs|Hs]; [by apply (step_ids (H := at_time _ moment))|by apply (operation_kept moment)].
  - unfold ids_kept, gate_ids. by apply (rv_ids _ _ _ (triggered_revokes (H := at_time _ moment) _ _ _ Ht)).
Qed.

(** One event leaves a decided gate as it is, or withdraws an approval bound to
    evidence that the event changed. *)
Lemma event_decided w w' id g :
  gate_ids w → run_event w w' → gate_of w id = Some g → g_status g ≠ Gs_Pending →
  pl_gates (pw_tables w') !! id = pl_gates (pw_tables w) !! id ∧
  ∃ g', gate_of w' id = Some g' ∧
    (g' = g ∨ ∃ run, revocable run (pw_tables w) g = true ∧ changed_runs (tasks_of w) (tasks_of w') run ∧ withdrawn g g').
Proof.
  intros Hnd (moment & w1 & Hstep & Ht) Hg Hs.
  assert (decided_kept w w1) as Hk.
  { destruct Hstep as [Hone|Hone]; [by apply (step_kept (H := at_time _ moment))|by apply (operation_kept moment)]. }
  destruct (Hk _ _ Hg Hs) as [Hg1 Hc1]. apply (triggered_revokes (H := at_time _ moment)) in Ht.
  destruct (gate_of_named _ _ _ Hg1) as [Hid Hin]. destruct (rv_rows _ _ _ Ht _ _ Hg1) as (g' & Hg' & Hst).
  split; [by rewrite (rv_columns _ _ _ Ht)|]. exists g'. split; [done|]. destruct Hst as [->|(run & Hr & Hc & Hw)]; [by left|right].
  exists run. rewrite (revokes_tasks _ _ _ Ht). split_and!; try done. rewrite <-Hr. symmetry. apply revocable_columns. by rewrite Hid.
Qed.

(** [C26] Decisions are final, apart from approvals of evidence that changed: once a
    gate is resolved or invalidated, no sequence of plans, commands, decisions,
    steps and store operations ever changes its row, its reason, its author or
    the evidence it was decided on, except that the approval of a stage bound to
    evidence may be marked as invalidated, keeping the decision; that happens
    only in an event that changed the result or took back the completion of a
    task of the gate's run.  A reset, which deletes every gate, is not among
    these events. *)
Theorem decisions_are_final (w w' : PlanWorld) (id : string) (g : OrchestrationDecisionGate) :
  gate_ids w → rtc run_event w w' → gate_of w id = Some g → g_status g ≠ Gs_Pending →
  pl_gates (pw_tables w') !! id = pl_gates (pw_tables w) !! id ∧
  ∃ g', gate_of w' id = Some g' ∧
    (g' = g ∨
     g_kind g = Gk_Stage ∧ g_status g = Gs_Resolved ∧ g_resolution g = Some PLAN_GATE_APPROVE ∧ withdrawn g g' ∧
     ∃ run w1 w2, g_run_id g = Some run ∧ rtc run_event w w1 ∧ run_event w1 w2 ∧ rtc run_event w2 w' ∧
       changed_runs (tasks_of w1) (tasks_of w2) run).
Proof.
  intros Hnd Hsteps. revert g Hnd. induction Hsteps as [w|w w1 w' Hone Hrest IH]; intros g Hnd Hg Hs.
  { split; [done|]. exists g. split; [done|by left]. }
  destruct (event_decided _ _ _ _ Hnd Hone Hg Hs) as (Hc & g1 & Hg1 & Hst).
  pose proof (event_ids _ _ Hone Hnd) as Hnd1. destruct Hst as [->|(run & Hrv & Hch & Hw)].
  - destruct (IH g Hnd1 Hg1 Hs) as (Hc' & g' & Hg' & Hst). split; [by rewrite Hc'|]. exists g'. split; [done|].
    destruct Hst as [->|(? & ? & ? & ? & run & w2 & w3 & ? & ? & ? & ? & ?)]; [by left|right]. split_and!; try done.
    exists run, w2, w3. split_and!; try done. by eapply rtc_l.
  - assert (g_status g1 = Gs_Invalidated) as Hinv by (destruct Hw as [moment ->]; done).
    destruct (IH g1 Hnd1 Hg1 ltac:(by rewrite Hinv)) as (Hc' & g' & Hg' & Hst). split; [by rewrite Hc'|]. exists g'. split; [done|].
    destruct Hst as [->|(_ & Hres & _)]; [|by rewrite Hinv in Hres]. right. unfold revocable in Hrv. split_bools.
    match goal with Ho : orb _ _ = true |- _ => apply orb_true_iff in Ho as [Ho|Ho]; split_bools; [done|] end.
    split_and!; try done. exists run, w, w1. by split_and!.
Qed.
End DecidedGates.
