(* ===== verification/CreationFacts.v ===== *)
(** * CreationFacts: what creating a run promises

    A creation writes the run, its frozen selection, its coordinator and its
    receipt together or nothing ([creation]); what it froze never stands in the way
    of a plan ([created_run_plans]); repeated at any later time before a reset ([creation_event]) it
    is answered from its receipt ([creation_replays]); and the launch of the
    coordinator is settled once per reservation ([coordinator_settles]). *)

From S2P Require Import Prelude Text Models Store StoreFacts RoleContract Gates Runs Reachability Ordering Recipe RecipeFacts Plan WorkflowYaml Catalog Execution PlanStore PlanStoreFacts RunControl RunControlFacts GateResolution RunCreation ExecutionStore ExecutionStoreFacts RunTriggers RunHistory.
From Stdlib Require Import ZArith Lia Ascii String.
From stdpp Require Import strings gmap pretty prelude relations.

(** ** Taking an operation apart *)

Lemma in_run_ok {A} (m : PM A) w w' a :
  in_run m w = (w', Ok a) →
  ∃ p, m (cr_plan w) = (p, Ok a) ∧ w' = MkCreationWorld p (cr_columns w) (cr_personal w) (cr_profiles w).
Proof. unfold in_run. destruct (m (cr_plan w)) as [p r]. intros [= <- ->]. eauto. Qed.
Lemma in_run_world_ok {A} (m : SM A) w w' a :
  in_run (in_world m) w = (w', Ok a) →
  ∃ v, m (pw_world (cr_plan w)) = (v, Ok a) ∧
    w' = MkCreationWorld (MkPlanWorld v (pw_tables (cr_plan w))) (cr_columns w) (cr_personal w) (cr_profiles w).
Proof. intros (p & (v & Hv & ->)%in_world_ok & ->)%in_run_ok. eauto. Qed.
Lemma verify_ok {A} (r : R A) w w' a : verify r w = (w', Ok a) → w' = w ∧ r = Ok a.
Proof. destruct r; cbn; unfold ret, fail; naive_solver. Qed.
Lemma verify_ensure_ok b msg w w' u : verify (ensure b msg) w = (w', Ok u) → w' = w ∧ b = true.
Proof. destruct u. by intros [-> Hb%ensure_ok]%verify_ok. Qed.
Lemma verify_some_ok {A} (o : option A) msg w w' a : verify (with_context o msg) w = (w', Ok a) → w' = w ∧ o = Some a.
Proof. by intros [-> Ho%with_context_ok]%verify_ok. Qed.
Lemma cselect_ok {A} (q : Db → PlanTables → gmap string CoordinatorColumns → A) w w' a :
  cselect q w = (w', Ok a) → w' = w ∧ a = q (w_db (pw_world (cr_plan w))) (pw_tables (cr_plan w)) (cr_columns w).
Proof. unfold cselect, gets. naive_solver. Qed.
Lemma set_coordinators_ok f w w' u :
  set_coordinators f w = (w', Ok u) → w' = MkCreationWorld (cr_plan w) (f (cr_columns w)) (cr_personal w) (cr_profiles w).
Proof. unfold set_coordinators, modify. naive_solver. Qed.
Lemma create_tx_ok {A} (m : CRM A) w w' a : create_tx m w = (w', Ok a) → m w = (w', Ok a).
Proof. unfold create_tx. destruct (m w) as [v [b|e]]; naive_solver. Qed.

Ltac creation_inv :=
  repeat (match goal with
  | Hm : bind _ _ _ = (_, Ok _) |- _ => inv_ok Hm
  | Hm : ret _ _ = (_, Ok _) |- _ => inv_ok Hm
  | Hm : gets _ _ = (_, Ok _) |- _ => inv_ok Hm
  | Hm : verify (ensure _ _) _ = (_, Ok _) |- _ => apply verify_ensure_ok in Hm as [-> ?]
  | Hm : verify (with_context _ _) _ = (_, Ok _) |- _ => apply verify_some_ok in Hm as [-> ?]
  | Hm : verify _ _ = (_, Ok _) |- _ => apply verify_ok in Hm as [-> ?]
  | Hm : cselect _ _ = (_, Ok _) |- _ => apply cselect_ok in Hm as [-> ->]
  | Hm : set_coordinators _ _ = (_, Ok _) |- _ => apply set_coordinators_ok in Hm as ->
  end; cbn [fst snd] in *).

(** Views of the state. *)
Definition cdb (w : CreationWorld) : Db := w_db (pw_world (cr_plan w)).
Definition cpt (w : CreationWorld) : PlanTables := pw_tables (cr_plan w).

Section Creation.
Context `{Env, ContractLib, RecipeLib, YamlLib, CatalogLib, PlanLib, ProposalLib, ControlLib, GateLib, CreationLib}.

(** ** What a creation writes *)

Record creation (request : CreateRun) (reserve : bool) (source : RunSourceSnapshot) (selection : FrozenRunSelection)
    (w w' : CreationWorld) (receipt : RunCreated) : Prop := {
  cn_free : ∀ r, r ∈ db_runs (cdb w) → r_workspace_id r = crq_workspace_id request → holds_workspace r = false;
  cn_fresh : rcd_run_id receipt ∉ r_id <$> db_runs (cdb w);
  cn_tab : is_Some (rcd_coordinator_tab_id receipt) ↔ reserve = true;
  cn_tab_fresh : ∀ r tab, r ∈ db_runs (cdb w) → rcd_coordinator_tab_id receipt = Some tab → r_coordinator_tab_id r ≠ Some tab;
  cn_receipt : (rcd_status receipt, rcd_isolation receipt, rcd_coordinator_profile_id receipt)
    = ("planning", requested_isolation request, crq_coordinator_profile_id request);
  cn_runs : db_runs (cdb w') = db_runs (cdb w) ++ [created_row request (rcd_run_id receipt) (rcd_coordinator_tab_id receipt)];
  cn_kept : (db_tasks (cdb w'), db_dispatches (cdb w'), db_gates (cdb w')) = (db_tasks (cdb w), db_dispatches (cdb w), db_gates (cdb w));
  cn_tables : cpt w' = set_pl_receipts
      (pl_receipts (cpt w) ++ [MkCommandReceipt (crq_request_id request) (create_digest request) (rcd_run_id receipt) (created_encode receipt)])
      (set_pl_runs (<[rcd_run_id receipt := created_columns request source selection]> (pl_runs (cpt w))) (cpt w));
  cn_unseen : receipt_row (crq_request_id request) (cpt w) = None;
  cn_coordinator : co_state <$> cr_columns w' !! rcd_run_id receipt = Some (if reserve then Co_Reserved else Co_None);
  cn_others : ∀ run, run ≠ rcd_run_id receipt → cr_columns w' !! run = cr_columns w !! run
}.

Lemma insert_creation_ok request actor reserve rs source selection w w' receipt :
  (∀ r, r ∈ db_runs (cdb w) → r_workspace_id r = crq_workspace_id request → holds_workspace r = false) →
  insert_creation request actor reserve rs source selection w = (w', Ok receipt) →
  creation request reserve source selection w w' receipt.
Proof.
  intros Hfree Hm. unfold insert_creation in Hm. do 7 inv_ok Hm. inv_ok Hm.
  apply in_run_world_ok in Hstep as (v & Hid & ->). apply orchestration_id_frame in Hid.
  assert (∃ n, s0 = MkCreationWorld (MkPlanWorld (MkWorld (w_db v) n) (cpt w)) (cr_columns w) (cr_personal w) (cr_profiles w)
    ∧ (is_Some a0 ↔ reserve = true)) as (n & -> & Htab).
  { destruct reserve; creation_inv.
    - apply in_run_ok in Hstep as (p & Hp & ->). unfold new_uuid in Hp. injection Hp as <- _. eexists. split; [done|]. split; eauto.
    - exists (w_rng v). split; [by destruct v|]. split; [by intros []|done]. }
  unfold insert_created_run in Hstep1. inv_ok Hstep1. apply cselect_ok in Hstep as [-> ->].
  destruct (existsb _ _) eqn:Et; [by apply verify_ok in Hstep1 as [_ ?]|]. apply in_run_world_ok in Hstep1 as (v1 & (-> & Hnew & _)%insert_run_ok & ->).
  apply in_run_ok in Hstep2 as (p & ->%in_tables_ok & ->). apply set_coordinators_ok in Hstep3 as ->.
  apply in_run_ok in Hstep4 as (p4 & [Hev Ht4]%event_recorded & ->). apply in_run_ok in Hstep5 as (p5 & [Hnone ->]%insert_receipt_ok & ->).
  unfold cdb, cpt in *. cbn in *. rewrite Hid in *. rewrite Ht4 in *. split; unfold cdb, cpt; cbn; try done.
  - intros r tab Hr -> Heq. apply not_true_iff_false in Et. apply Et, existsb_exists. exists r. split; [by apply list_elem_of_In|].
    cbn. by rewrite Heq, bool_decide_true.
  - by rewrite (events_only_runs _ _ Hev).
  - by rewrite (events_only_tasks _ _ Hev), (events_only_dispatches _ _ Hev), (events_only_gates _ _ Hev).
  - by rewrite lookup_insert_eq.
  - intros run Hne. by rewrite lookup_insert_ne.
Qed.

(** ** The two outcomes of a request *)

Definition answered (request : CreateRun) (w : CreationWorld) (receipt : RunCreated) : Prop :=
  ∃ c, receipt_row (crq_request_id request) (cpt w) = Some c ∧ cmr_request_digest c = create_digest request ∧
       created_decode (cmr_receipt c) = Some receipt.

Record frozen_for (request : CreateRun) (validate_profile : AgentProfile → R unit) (w : CreationWorld)
    (source : RunSourceSnapshot) (selection : FrozenRunSelection) : Prop := {
  fz_request : validate_create request = Ok tt;
  fz_frozen : ∃ row rs selected, row ∈ pl_sources (cpt w) ∧ sw_workspace_id (sr_source row) = crq_workspace_id request ∧
    sr_active row = true ∧ (requested_isolation request = Is_Isolated → sr_host_id row = LOCAL_HOST_ID ∧ sr_git row = true) ∧
    chosen_source request = Ok rs ∧ (selected_recipe rs w).2 = Ok selected ∧
    freeze_selection request validate_profile row selected (role_bindings request selected)
      (stored_profiles (required_profiles request (role_bindings request selected)) (cr_profiles w)) = Ok (source, selection)
}.

Lemma replayed_creation_ok raw w w' answer :
  replayed_creation raw w = (w', Ok answer) → w' = w ∧ snd answer = false ∧ created_decode raw = Some (fst answer).
Proof. unfold replayed_creation. intros Hm. by creation_inv. Qed.

Lemma selected_recipe_reads rs w w' r : selected_recipe rs w = (w', Ok r) → w' = w ∧ (selected_recipe rs w).2 = Ok r.
Proof.
  destruct rs as [source|]; unfold selected_recipe; [|by intros [= <- <-]]. unfold bind, catalogued.
  destruct (workflow_catalog_recipe source _) as [? [?|?]]; cbn; by intros [= <- <-].
Qed.

Lemma run_workspace_ok request w w' row :
  run_workspace request w = (w', Ok row) →
  w' = w ∧ row ∈ pl_sources (cpt w) ∧ sw_workspace_id (sr_source row) = crq_workspace_id request ∧ sr_active row = true ∧
  (requested_isolation request = Is_Isolated → sr_host_id row = LOCAL_HOST_ID ∧ sr_git row = true).
Proof.
  unfold run_workspace. intros Hm. creation_inv.
  match goal with Hf : find_where _ _ = Some _ |- _ => apply find_where_Some in Hf as [Hin Hid%String.eqb_eq] end.
  do 4 (split; [done|]). intros Hiso. match goal with Hb : negb _ = true |- _ => rewrite Hiso in Hb end.
  destruct (sr_git row); [|by rewrite orb_true_r in *]. destruct (String.eqb_spec (sr_host_id row) LOCAL_HOST_ID); done.
Qed.

Lemma create_ok request validate_profile actor reserve w w' receipt created :
  create_run_with request validate_profile actor reserve w = (w', Ok (receipt, created)) →
  (created = false ∧ w' = w ∧ answered request w receipt) ∨
  (created = true ∧ ∃ source selection, frozen_for request validate_profile w source selection ∧
     creation request reserve source selection w w' receipt).
Proof.
  unfold create_run_with. intros Hm. do 2 inv_ok Hm. apply verify_ok in Hstep as [-> Hv]. destruct a.
  apply in_run_ok in Hstep0 as (p & [-> Hseen]%run_command_receipt_ok & ->). destruct w as [pw cols pers profs]. cbn in Hseen, Hm.
  destruct a0 as [raw|].
  { destruct Hseen as (c & Hc & Hd & ->). apply replayed_creation_ok in Hm as (-> & ? & ?). left. by split_and!; [..|exists c]. }
  set (w := MkCreationWorld pw cols pers profs) in *. do 6 inv_ok Hm. apply run_workspace_ok in Hstep as (-> & Hrow).
  apply verify_ok in Hstep0 as [-> Hs], Hstep4 as [-> Hf]. apply selected_recipe_reads in Hstep1 as [-> Hsel]. inv_ok Hstep2.
  apply verify_ensure_ok in Hstep3 as [-> _]. destruct a4 as [source selection]. apply create_tx_ok in Hm. unfold create_in_tx in Hm.
  inv_ok Hm. apply in_run_ok in Hstep as (p & [-> Hseen2]%run_command_receipt_ok & ->). match type of Hseen2 with match ?o with _ => _ end => destruct o as [raw|] end.
  { destruct Hseen2 as (c & Hc & _). cbn in Hc. congruence. }
  inv_ok Hm. apply cselect_ok in Hstep as [-> ->]. destruct (find_where _ _) eqn:Eact; [by apply verify_ok in Hm as [_ ?]|].
  do 2 inv_ok Hm. right. split; [done|]. exists source, selection. split.
  - split; [done|]. exists a, a0, a1. destruct Hrow as (?&?&?&?). split_and!; try done.
  - apply insert_creation_ok in Hstep; [done|]. intros r Hr Hws. cbn in Hr.
    rewrite find_where_None in Eact. specialize (Eact r Hr). by rewrite Hws, String.eqb_refl in Eact.
Qed.

(** ** What was frozen fits every plan *)

(** The check of a selection looks at the tasks only through the size of the
    proposal, and at the number of workers only for its range. *)
Lemma validate_selection_tasks recipe profiles p p' :
  (pp_objective p', pp_source_sha p', pp_recipe_source p', pp_expected_recipe_digest p', pp_coordinator_profile_id p', pp_role_profiles p')
    = (pp_objective p, pp_source_sha p, pp_recipe_source p, pp_expected_recipe_digest p, pp_coordinator_profile_id p, pp_role_profiles p) →
  bounded_json (proposal_value p') WORKFLOW_PLAN_MAX_BYTES = Ok tt → (1 ≤ pp_max_concurrent p' ≤ 16)%Z →
  validate_selection p recipe profiles = Ok tt → validate_selection p' recipe profiles = Ok tt.
Proof.
  intros [= E1 E2 E3 E4 E5 E6] Hb Hn. unfold validate_selection. rewrite Hb, E1, E2, E3, E4, E5, E6. cbn. intros Hv.
  apply rbind_ok in Hv as (? & _ & Hv). apply rbind_ok in Hv as (u1 & -> & Hv). cbn. apply rbind_ok in Hv as (u2 & -> & Hv). cbn.
  apply rbind_ok in Hv as (u3 & -> & Hv). cbn. apply rbind_ok in Hv as (u4 & _ & Hv).
  assert ((1 <=? pp_max_concurrent p')%Z && (pp_max_concurrent p' <=? 16)%Z = true) as -> by lia. cbn. exact Hv.
Qed.

(** What an isolated run froze. *)
Lemma frozen_isolated request validate_profile w source selection :
  frozen_for request validate_profile w source selection → requested_isolation request = Is_Isolated →
  ∃ recipe sha, sel_recipe selection = Some recipe ∧ src_source_sha source = Some sha ∧
    sw_workspace_id (src_workspace source) = crq_workspace_id request ∧
    validate_selection (creation_proposal request (Some sha) recipe (sel_role_profiles selection)) recipe
      (bound_profiles selection (crq_coordinator_profile_id request)) = Ok tt.
Proof.
  intros [_ (row & rs & selected & _ & Hws & _ & _ & Hs & Hsel & Hf)] Hiso. unfold chosen_source in Hs. rewrite Hiso in Hs.
  assert (∃ r, selected = Some r) as [r ->].
  { assert (∃ src, rs = Some src) as [src ->].
    { destruct (crq_recipe_source request); [|injection Hs as <-; eauto]. apply rbind_ok in Hs as (? & [= <-] & Hs).
      apply rbind_ok in Hs as (? & _ & [= <-]). eauto. }
    cbn in Hsel. unfold bind in Hsel. destruct (workflow_catalog_recipe src _).2 as [r|]; cbn in Hsel; [|done]. injection Hsel as <-. eauto. }
  unfold freeze_selection in Hf. apply rbind_ok in Hf as (u & _ & Hf). apply rbind_ok in Hf as (u1 & Hsha%ensure_ok_inv & Hf).
  apply rbind_ok in Hf as (o & Ho & [= <- <-]). apply rbind_ok in Ho as (recipe & _ & Ho). apply rbind_ok in Ho as ([] & Hv & [= <-]).
  rewrite Hiso in Hsha. cbn in Hsha. destruct (head_commit _) as [sha|]; [|done]. by exists recipe, sha.
Qed.

(** [C9] What a run froze when it was created never stands in the way of its plan: an
    isolated run is created in planning, at the commit of its workspace, with a
    recipe that validates, and for every plan its coordinator may propose, with a
    number of workers in range and a size within the limit, the frozen recipe,
    role bindings, profiles and source commit pass the compiler's check of the
    selection, so only the tasks themselves can make the plan fail. *)
Theorem created_run_plans (request : CreateRun) (validate_profile : AgentProfile → R unit) (actor : RunActor)
    (reserve : bool) (w w' : CreationWorld) (receipt : RunCreated) :
  create_run_with request validate_profile actor reserve w = (w', Ok (receipt, true)) →
  requested_isolation request = Is_Isolated →
  ∃ recipe selection source sha row, frozen_for request validate_profile w source selection ∧
    load_run (rcd_run_id receipt) (cr_plan w') = (cr_plan w', Ok row) ∧ rr_status row = Cs_Planning ∧ rr_plan_revision row = None ∧
    sel_recipe selection = Some recipe ∧ recipe_snapshot_validate recipe = Ok tt ∧
    src_source_sha source = Some sha ∧ pl_runs (cpt w') !! rcd_run_id receipt = Some (created_columns request source selection) ∧
    ∀ input tasks n, selection_decode (selection_encode selection) = Some selection → source_decode (run_source_encode source) = Some source →
      pi_stages input = [] → rmapM (isolated_task recipe (crq_objective request)) (pi_tasks input) = Ok tasks →
      n = default (default 4%Z (crq_max_concurrent request)) (pi_max_concurrent input) → (1 ≤ n ≤ 16)%Z →
      let proposal := MkProposal (crq_objective request) sha (rs_source recipe) (recipe_hash (rs_recipe recipe))
        (crq_coordinator_profile_id request) (sel_role_profiles selection) n tasks in
      let profiles := bound_profiles selection (crq_coordinator_profile_id request) in
      bounded_json (proposal_value proposal) WORKFLOW_PLAN_MAX_BYTES = Ok tt →
      validate_selection proposal recipe profiles = Ok tt ∧
      compile row input = (try! plan := compile_plan proposal recipe profiles (src_workspace source) in Ok (Cp_Isolated plan)).
Proof.
  intros [[? _]|(_ & source & selection & Hfz & Hc)]%create_ok Hiso; [done|].
  destruct (frozen_isolated _ _ _ _ _ Hfz Hiso) as (recipe & sha & Hr & Hsha & _ & Hv).
  assert (run_by_id (cdb w') (rcd_run_id receipt) = Some (created_row request (rcd_run_id receipt) (rcd_coordinator_tab_id receipt))) as Hrun.
  { unfold run_by_id. rewrite (cn_runs _ _ _ _ _ _ _ Hc). apply find_where_snoc; [|apply String.eqb_refl].
    apply find_where_None. intros r Hin. apply String.eqb_neq. intros Heq. apply (cn_fresh _ _ _ _ _ _ _ Hc).
    rewrite <- Heq. by apply list_elem_of_fmap_2. }
  assert (pl_runs (cpt w') !! rcd_run_id receipt = Some (created_columns request source selection)) as Hcols.
  { rewrite (cn_tables _ _ _ _ _ _ _ Hc). cbn. apply lookup_insert_eq. }
  eexists recipe, selection, source, sha, _. split; [exact Hfz|]. split; [|split; [|split; [|split; [done|split; [|split; [done|split]]]]]].
  - unfold load_run, run_has_approved_plan_gate, bind, pselect, gets, raise. unfold cdb in Hrun. unfold cpt in Hcols. rewrite Hrun. cbn. rewrite Hcols. reflexivity.
  - done.
  - done.
  - unfold validate_selection in Hv. apply rbind_ok in Hv as (? & _ & Hv). apply rbind_ok in Hv as ([] & Hrv & _). done.
  - exact Hcols.
  - intros input tasks n Hsel Hsrc Hst Ht Hn Hrange proposal profiles Hb. split.
    + eapply validate_selection_tasks; [..|exact Hv]; done.
    + unfold compile. cbn. rewrite Hsel. cbn. rewrite Hiso, Hst. cbn. rewrite Hr. cbn. rewrite Hsrc. cbn.
      rewrite Ht. cbn. rewrite Hsha. cbn.
      assert (default (clamp_workers (default 4%Z (crq_max_concurrent request))) (pi_max_concurrent input) = n) as ->; [|done].
      subst n. destruct (pi_max_concurrent input); [done|]. cbn in Hrange |- *. unfold clamp_workers. lia.
Qed.

(** ** The launch of the coordinator *)

Definition reserved_for (run tab : string) (m : gmap string CoordinatorColumns) (r : OrchestrationCoordinatorRun) : bool :=
  is_run run r && bool_decide (r_coordinator_tab_id r = Some tab) && bool_decide (co_state (coordinator_columns m (r_id r)) = Co_Reserved).
Definition settled (error : option string) : CoordinatorColumns → CoordinatorColumns :=
  with_co_state (if bool_decide (is_Some error) then Co_Attention else Co_Started) error.

Lemma settled_state error c : co_state (settled error c) = (if bool_decide (is_Some error) then Co_Attention else Co_Started).
Proof. done. Qed.
Lemma settled_not_reserved error c : co_state (settled error c) ≠ Co_Reserved.
Proof. rewrite settled_state. by case_bool_decide. Qed.

(** An UPDATE whose rows all carry one id changes that id's columns or nothing. *)
Lemma updated_columns f run (rows : list OrchestrationCoordinatorRun) (m : gmap string CoordinatorColumns) :
  (∀ r, r ∈ rows → r_id r = run) →
  foldr (λ r m', <[r_id r := f (coordinator_columns m (r_id r))]> m') m rows
  = match rows with [] => m | _ :: _ => <[run := f (coordinator_columns m run)]> m end.
Proof.
  induction rows as [|r rows IH]; intros Hid; [done|]. cbn. rewrite IH by (intros; apply Hid; by right). rewrite (Hid r) by (by left).
  destruct rows; [done|]. by rewrite insert_insert_eq.
Qed.

Lemma coordinator_columns_insert m run c : coordinator_columns (<[run := c]> m) run = c.
Proof. unfold coordinator_columns. by rewrite lookup_insert_eq. Qed.

Lemma reserved_rows run tab m runs r : r ∈ List.filter (reserved_for run tab m) runs → r_id r = run.
Proof. intros [_ Hr]%list_elem_of_In%filter_In. unfold reserved_for, is_run in Hr. apply andb_prop in Hr as [[Hr _]%andb_prop _]. by apply String.eqb_eq. Qed.

(** Nothing stays reserved for the terminal. *)
Lemma settled_rows run tab error m runs :
  List.filter (reserved_for run tab
    (match List.filter (reserved_for run tab m) runs with [] => m | _ :: _ => <[run := settled error (coordinator_columns m run)]> m end)) runs = [].
Proof.
  destruct (List.filter (reserved_for run tab m) runs) as [|r0 rows] eqn:E; [done|].
  match goal with |- ?l = [] => destruct l as [|r rs] eqn:E1; [done|] end. exfalso.
  assert (r ∈ r :: rs) as Hr by left. rewrite <- E1 in Hr. pose proof (reserved_rows _ _ _ _ _ Hr) as Hid.
  apply list_elem_of_In, filter_In in Hr as [_ [_ Hc%bool_decide_eq_true]%andb_prop]. rewrite Hid in Hc.
  rewrite coordinator_columns_insert in Hc. by apply settled_not_reserved in Hc.
Qed.

Lemma optional_receipt_reads p w w' r : optional_receipt p w = (w', r) → w' = w.
Proof.
  unfold optional_receipt, bind, cselect, gets. destruct (find_where _ _) as [x|]; cbn; [|by intros [= <- _]].
  destruct (coordinator_receipt _ _ _); by intros [= <- _].
Qed.

(** What settling does to the columns, and where it reads its answer. *)
Lemma settle_ok run tab error w w1 receipt :
  settle_workflow_coordinator run tab error w = (w1, Ok receipt) →
  let cut := (λ e, of_chars (take 1024 (chars e))) <$> error in
  db_runs (cdb w1) = db_runs (cdb w) ∧
  cr_columns w1 = match List.filter (reserved_for run tab (cr_columns w)) (db_runs (cdb w)) with
                  | [] => cr_columns w
                  | _ :: _ => <[run := settled cut (coordinator_columns (cr_columns w) run)]> (cr_columns w)
                  end ∧
  workflow_coordinator run w1 = (w1, Ok (Some receipt)) ∧ wco_tab_id receipt = tab.
Proof.
  intros Hm cut. unfold settle_workflow_coordinator in Hm. fold cut in Hm. do 4 inv_ok Hm. inv_ok Hm. apply create_tx_ok in Hstep.
  apply verify_some_ok in Hstep1 as [-> ->]. apply verify_ensure_ok in Hstep2 as [-> Ht%String.eqb_eq].
  pose proof (optional_receipt_reads _ _ _ _ Hstep0) as ->.
  inv_ok Hstep. unfold update_coordinators in Hstep1. do 2 inv_ok Hstep1. apply cselect_ok in Hstep2 as [-> ->].
  apply set_coordinators_ok in Hstep3 as ->. inv_ok Hstep1.
  rewrite (updated_columns _ run) in Hstep by apply reserved_rows.
  match type of Hstep with (if ?b then _ else _) _ = _ => destruct b end.
  - apply in_run_ok in Hstep as (p & [Hev _]%event_recorded & ->). split; [|done]. unfold cdb. cbn. by rewrite (events_only_runs _ _ Hev).
  - inv_ok Hstep. done.
Qed.

Lemma workflow_coordinator_ok run w w' receipt :
  workflow_coordinator run w = (w', Ok (Some receipt)) →
  wco_run_id receipt = run ∧ wco_status receipt = CoordinatorState_as_str (co_state (coordinator_columns (cr_columns w) run)) ∧
  wco_error receipt = co_error (coordinator_columns (cr_columns w) run).
Proof.
  unfold workflow_coordinator, optional_receipt. intros Hm. inv_ok Hm. apply cselect_ok in Hstep as [-> ->].
  destruct (find_where _ _) as [r|] eqn:E; cbn in Hm; [|done]. apply find_where_Some in E as [_ [Hid%String.eqb_eq _]%andb_prop].
  inv_ok Hm. apply verify_ok in Hstep as [-> Hr]. inv_ok Hm. unfold coordinator_receipt in Hr.
  apply rbind_ok in Hr as (t & _ & [= <-]). cbn. done.
Qed.

(** The launch of a coordinator is settled once: the first report decides between
    started and needing attention, and every later report about the same terminal
    changes nothing and is answered with the same receipt. *)
Theorem coordinator_settles run tab error w w1 receipt :
  settle_workflow_coordinator run tab error w = (w1, Ok receipt) →
  (∀ error', settle_workflow_coordinator run tab error' w1 = (w1, Ok receipt)) ∧
  (List.filter (reserved_for run tab (cr_columns w)) (db_runs (cdb w)) ≠ [] →
    (wco_run_id receipt, wco_status receipt, wco_error receipt)
    = (run, if bool_decide (is_Some error) then "attention" else "started", (λ e, of_chars (take 1024 (chars e))) <$> error)).
Proof.
  intros (Hruns & Hcols & Hread & Htab)%settle_ok. split.
  - intros error'. assert (List.filter (reserved_for run tab (cr_columns w1)) (db_runs (cdb w1)) = []) as Hnone
      by (rewrite Hcols, Hruns; apply settled_rows).
    unfold settle_workflow_coordinator, create_tx, update_coordinators, bind, cselect, set_coordinators, gets, modify. unfold cdb, reserved_for in Hnone.
    rewrite Hnone. cbn. destruct w1. cbn in *. rewrite Hread. cbn. by rewrite Htab, String.eqb_refl.
  - intros Hres. apply workflow_coordinator_ok in Hread as (-> & -> & ->). rewrite Hcols. destruct (List.filter _ _); [done|].
    rewrite coordinator_columns_insert. by destruct error.
Qed.

(** ** The store beside creations *)

Inductive creation_step `{StepLib, SourceJson} (w w' : CreationWorld) : Prop :=
| cs_store : store_operation (cr_plan w) (cr_plan w') → cr_columns w' = cr_columns w → creation_step w w'
| cs_run : run_step (cr_plan w) (cr_plan w') → cr_columns w' = cr_columns w → creation_step w w'
| cs_create request validate_profile actor reserve r :
    create_run_with request validate_profile actor reserve w = (w', r) → creation_step w w'
| cs_prepare request validate_profile r : prepare_workflow_plan request validate_profile w = (w', r) → creation_step w w'
| cs_relaunch run r : reserve_run_coordinator_relaunch run w = (w', r) → creation_step w w'
| cs_settle run tab error r : settle_workflow_coordinator run tab error w = (w', r) → creation_step w w'
| cs_recover r : recover_workflow_coordinators w = (w', r) → creation_step w w'
| cs_catalogues : cr_plan w' = cr_plan w → cr_columns w' = cr_columns w → creation_step w w'.

(** Receipts are only ever added. *)
Definition receipts_kept (w w' : CreationWorld) : Prop := ∃ new, pl_receipts (cpt w') = pl_receipts (cpt w) ++ new.
#[export] Instance receipts_kept_preorder : PreOrder receipts_kept.
Proof.
  split; [intros w; exists []; by rewrite app_nil_r|]. intros w1 w2 w3 [l Hl] [k Hk]. exists (l ++ k). by rewrite Hk, Hl, (assoc_L (++)).
Qed.
Definition retains {A} (m : CRM A) : Prop := ∀ w w' r, m w = (w', r) → receipts_kept w w'.

Lemma retains_same {A} (m : CRM A) : (∀ w w' r, m w = (w', r) → cpt w' = cpt w) → retains m.
Proof. intros Hm w w' r Hw. exists []. by rewrite (Hm _ _ _ Hw), app_nil_r. Qed.
Lemma retains_bind {A B} (m : CRM A) (k : A → CRM B) : retains m → (∀ a, retains (k a)) → retains (bind m k).
Proof.
  intros Hm Hk w w' r. unfold bind. destruct (m w) as [v [a|e]] eqn:E; intros Hr.
  - etransitivity; [by eapply Hm|by eapply Hk].
  - injection Hr as <- <-. by eapply Hm.
Qed.
Lemma retains_ret {A} (a : A) : retains (ret a).
Proof. apply retains_same. by intros w w' r [= <- <-]. Qed.
Lemma retains_verify {A} (r : R A) : retains (verify r).
Proof. apply retains_same. destruct r; by intros w w' r' [= <- <-]. Qed.
Lemma retains_cselect {A} (q : Db → PlanTables → gmap string CoordinatorColumns → A) : retains (cselect q).
Proof. apply retains_same. by intros w w' r [= <- <-]. Qed.
Lemma retains_gets {A} (q : CreationWorld → A) : retains (gets q).
Proof. apply retains_same. by intros w w' r [= <- <-]. Qed.
Lemma retains_coordinators f : retains (set_coordinators f).
Proof. apply retains_same. by intros w w' r [= <- <-]. Qed.
Lemma retains_tx {A} (m : CRM A) : (∀ w w' a, m w = (w', Ok a) → receipts_kept w w') → retains (create_tx m).
Proof.
  intros Hm w w' r. unfold create_tx. destruct (m w) as [v [a|e]] eqn:E; intros [= <- <-]; [by eapply Hm|].
  exists []. by rewrite app_nil_r.
Qed.
Lemma retains_create_tx {A} (m : CRM A) : retains m → retains (create_tx m).
Proof. intros Hm. apply retains_tx. intros w w' a. apply Hm. Qed.
Lemma retains_in_run {A} (m : PM A) : (∀ p p' r, m p = (p', r) → pl_receipts (pw_tables p') = pl_receipts (pw_tables p)) → retains (in_run m).
Proof.
  intros Hm w w' r. unfold in_run. destruct (m (cr_plan w)) as [p a] eqn:E. intros [= <- <-]. exists []. unfold cpt. cbn. by rewrite (Hm _ _ _ E), app_nil_r.
Qed.

Ltac retains_step :=
  first
    [ apply retains_bind; [|intros ?] | apply retains_ret | apply retains_verify | apply retains_cselect | apply retains_gets | apply retains_coordinators
    | match goal with |- retains (match ?x with _ => _ end) => destruct x end ].
Ltac retains_only := repeat retains_step.

Lemma retains_receipt request_id digest : retains (in_run (run_command_receipt request_id digest)).
Proof. apply retains_in_run. intros p p' r Hm. pose proof (reads_receipt request_id digest p) as Hp. rewrite Hm in Hp. cbn in Hp. by subst. Qed.
Lemma retains_selected rs : retains (selected_recipe rs).
Proof. destruct rs as [source|]; unfold selected_recipe; [|apply retains_ret]. apply retains_bind; [|intros ?; apply retains_ret]. apply retains_same. by intros w w' r [= <- _]. Qed.
Lemma creation_kept request reserve source selection w w' receipt :
  creation request reserve source selection w w' receipt → receipts_kept w w'.
Proof. intros Hc. unfold receipts_kept. rewrite (cn_tables _ _ _ _ _ _ _ Hc). cbn. by eexists. Qed.

Lemma retains_create request validate_profile actor reserve : retains (create_run_with request validate_profile actor reserve).
Proof.
  unfold create_run_with, replayed_creation, run_workspace. apply retains_bind; [apply retains_verify|intros _].
  apply retains_bind; [apply retains_receipt|intros [raw|]]; [retains_only|]. retains_only; [apply retains_selected|].
  apply retains_tx. intros w w' answer Hm. unfold create_in_tx in Hm. inv_ok Hm.
  apply in_run_ok in Hstep as (p & [-> _]%run_command_receipt_ok & ->).
  match type of Hm with context [match ?o with Some _ => _ | None => _ end] => destruct o as [raw|] end.
  { apply replayed_creation_ok in Hm as [-> _]. exists []. by rewrite app_nil_r. }
  inv_ok Hm. apply cselect_ok in Hstep as [-> ->]. destruct (find_where _ _) eqn:Ef; [by apply verify_ok in Hm as [_ ?]|].
  do 2 inv_ok Hm. apply insert_creation_ok in Hstep; [by eapply creation_kept in Hstep|].
  intros r Hr Hws. rewrite find_where_None in Ef. specialize (Ef r Hr). by rewrite Hws, String.eqb_refl in Ef.
Qed.

Lemma retains_relaunch run : retains (reserve_run_coordinator_relaunch run).
Proof. unfold reserve_run_coordinator_relaunch. retains_only. Qed.
Lemma retains_recover : retains recover_workflow_coordinators.
Proof. unfold recover_workflow_coordinators. retains_only. Qed.
Lemma retains_event event : retains (in_run (record_event event)).
Proof.
  apply retains_in_run. intros p p' r. unfold record_event, bind, in_world. destruct (record_run_event event (pw_world p)) as [v [a|e]]; by intros [= <- _].
Qed.
Lemma retains_settle run tab error : retains (settle_workflow_coordinator run tab error).
Proof. unfold settle_workflow_coordinator. retains_only; apply retains_create_tx; retains_only; apply retains_event. Qed.
Lemma retains_propose `{StepLib, SourceJson} run input actor : retains (in_run (propose_run_plan run input actor)).
Proof.
  intros w w' r. unfold in_run. destruct (propose_run_plan run input actor (cr_plan w)) as [p [proposed|e]] eqn:E; intros [= <- <-].
  - destruct (step_advances _ _ (st_propose _ _ _ _ _ _ E)) as [_ Hnew]. exact Hnew.
  - apply propose_atomic in E as [_ E]. exists []. unfold cpt. cbn. by rewrite E, app_nil_r.
Qed.
Lemma retains_prepare `{StepLib, SourceJson} request validate_profile : retains (prepare_workflow_plan request validate_profile).
Proof.
  unfold prepare_workflow_plan, workflow_plan_revision. repeat first [apply retains_create | apply retains_propose | retains_step].
Qed.

Lemma step_keeps `{StepLib, SourceJson} w w' : creation_step w w' → receipts_kept w w'.
Proof.
  intros [[_ Ht] _|Hs _|? ? ? ? ? Hm|? ? ? Hm|? ? Hm|? ? ? ? Hm|? Hm|Hp _].
  - exists []. unfold cpt. by rewrite Ht, app_nil_r.
  - destruct (step_advances _ _ Hs) as [_ Hnew]. exact Hnew.
  - by eapply retains_create.
  - by eapply retains_prepare.
  - by eapply retains_relaunch.
  - by eapply retains_settle.
  - by eapply retains_recover.
  - exists []. unfold cpt. by rewrite Hp, app_nil_r.
Qed.

End Creation.

Section Replays.
Context `{Env, ContractLib, RecipeLib, PlanLib, ProposalLib, ControlLib, GateLib, CatalogLib, CreationLib, YamlLib, StepLib, SourceJson}.

(** A step at some moment, with the triggers it fires. *)
Definition creation_event (w w' : CreationWorld) : Prop :=
  ∃ moment w1, creation_step (H := at_time _ moment) w w1 ∧
    triggered (H := at_time _ moment) (cr_plan w) (cr_plan w1) (cr_plan w') ∧ cr_columns w' = cr_columns w1.

Lemma event_keeps w w' : creation_event w w' → receipts_kept w w'.
Proof.
  intros (moment & w1 & Hs & Ht & _). etransitivity; [by apply (step_keeps (H := at_time _ moment))|].
  apply (triggered_revokes (H := at_time _ moment)) in Ht. exists []. unfold cpt. by rewrite (rv_tables _ _ _ Ht), app_nil_r.
Qed.

(** [C30] A run is created once per request: repeated at any later time before the
    orchestration is reset (which deletes the receipt with the run), by anybody,
    with whatever profile check and whether or not a coordinator is asked for, the
    request changes nothing and is answered with the first receipt, marked as not
    created, so only the first caller launches the coordinator. *)
Theorem creation_replays (request : CreateRun) (validate_profile validate_profile' : AgentProfile → R unit)
    (actor actor' : RunActor) (reserve reserve' : bool) (w w1 w2 : CreationWorld) (receipt : RunCreated) :
  create_run_with request validate_profile actor reserve w = (w1, Ok (receipt, true)) →
  created_decode (created_encode receipt) = Some receipt → rtc creation_event w1 w2 →
  create_run_with request validate_profile' actor' reserve' w2 = (w2, Ok (receipt, false)).
Proof.
  intros [[? _]|(_ & source & selection & [Hv _] & Hc)]%create_ok Hread Hsteps; [done|].
  assert (receipts_kept w1 w2) as [new Hnew] by (clear -Hsteps; induction Hsteps; [done|]; by etransitivity; [apply event_keeps|]).
  assert (receipt_row (crq_request_id request) (cpt w2)
    = Some (MkCommandReceipt (crq_request_id request) (create_digest request) (rcd_run_id receipt) (created_encode receipt))) as Hrow.
  { unfold receipt_row. rewrite Hnew, (cn_tables _ _ _ _ _ _ _ Hc). cbn. apply find_where_prefix, find_where_snoc; [|apply String.eqb_refl].
    exact (cn_unseen _ _ _ _ _ _ _ Hc). }
  unfold create_run_with, bind at 1. rewrite Hv. cbn. unfold bind at 1, in_run, run_command_receipt, bind at 1, pselect, gets.
  unfold cpt in Hrow. rewrite Hrow. cbn. rewrite String.eqb_refl. cbn. unfold replayed_creation, bind. rewrite Hread. cbn. by destruct w2.
Qed.
End Replays.
