(* ===== verification/AttemptFacts.v ===== *)
(** * AttemptFacts: reading the operations on attempts

    First what the rest of the store leaves of attempts: the operations of the
    orchestration store ([Operation]) and of the plans ([run_step]) never touch a run's
    workspaces, the registered workspaces, the evidence or the SHA of a run; a
    store operation moves a launch only from attention back to started, and a
    cancellation reopens an integration in attention.

    Then how a successful operation of [AM] is taken apart, the relations every
    outcome of an operation upholds ([upholds]), and what a fresh reservation of
    an attempt leaves behind: the run stays within its worker slots. *)

From S2P Require Import Prelude Text Models Store StoreFacts RoleContract Tasks Dag Cancellation Dispatch Gates Messages Runs SetupReport Reachability Ordering Recipe RecipeFacts Plan Catalog Execution PlanStore PlanStoreFacts RunControl RunControlFacts GateResolution GateResolutionFacts ExecutionStore Attempts Launches ExecutionStoreFacts RunHistory.
From Stdlib Require Import ZArith Lia Ascii String.
From stdpp Require Import strings gmap pretty prelude relations.

(** ** Launches *)

(** The columns of a launch nothing rewrites. *)
Definition launch_key (l : WorkflowLaunch) : string * string * Z * string * string * string * string * string * string :=
  (l_id l, l_run_id l, l_revision l, l_task_id l, l_workspace_id l, l_terminal_handle l, l_dispatch_id l,
   l_base_sha l, l_context_hash l).
(** How far a launch has come: no operation takes it back. *)
Definition launch_rank (s : WorkflowLaunchStatus) : nat :=
  match s with Ls_Reserved => 0 | Ls_Starting => 1 | Ls_Started | Ls_Attention => 2 end.
Definition launch_moves (l l' : WorkflowLaunch) : Prop :=
  launch_key l' = launch_key l ∧ launch_rank (l_status l) ≤ launch_rank (l_status l').
#[export] Instance launch_moves_preorder : PreOrder launch_moves.
Proof. split; [by intros l|]. intros l1 l2 l3 [H1 H2] [H3 H4]. split; [congruence|lia]. Qed.

(** ** The orchestration store *)

Definition db_kept (db db' : Db) : Prop :=
  db_workspaces db' = db_workspaces db ∧ Forall2 launch_moves (db_launches db) (db_launches db').
#[export] Instance db_kept_refl : Reflexive db_kept.
Proof. intros db. split; [done|]. by apply Forall2_same. Qed.
#[export] Instance db_kept_trans : Transitive db_kept.
Proof.
  intros db1 db2 db3 [H1 H2] [H3 H4]. split; [congruence|].
  eapply Forall2_compose; [|exact H2|exact H4]. intros ???; by etransitivity.
Qed.
Lemma db_kept_same db db' :
  db_workspaces db' = db_workspaces db → db_launches db' = db_launches db → db_kept db db'.
Proof. intros Hw Hl. split; [done|]. rewrite Hl. by apply Forall2_same. Qed.

#[export] Instance db_kept_framed : Framed db_kept.
Proof.
  split; [split; exact _|..]; intros; try by apply db_kept_same.
  split; [done|]. cbn. apply Forall2_update_where; [|by intros l]. intros l _ Hl.
  match goal with Hp : ∀ l, _ → l_status l = _, Hf : ∀ l, ∃ _, _ |- _ => apply Hp in Hl; destruct (Hf l) as [moment ->] end.
  split; [done|]. cbn. by rewrite Hl.
Qed.

Section Store.
Context `{Env, ContractLib}.

Lemma worktrees_frame {A} (m : SM A) :
  (∀ w w' r, m w = (w', r) → db_workspaces (w_db w') = db_workspaces (w_db w) ∧ db_launches (w_db w') = db_launches (w_db w)) →
  respects db_kept m.
Proof. intros Hm w w' r [Hw Hl]%Hm. by apply db_kept_same. Qed.
Lemma worktrees_update_gates p f : respects db_kept (update_gates p f).
Proof. apply worktrees_frame. by intros w w' r [= <- _]. Qed.
Lemma worktrees_update_runs p f : respects db_kept (update_runs p f).
Proof. apply worktrees_frame. intros w w' r. unfold update_runs. case_match; by intros [= <- _]. Qed.
End Store.

(** ** Plans *)

Definition integration_kept (i i' : RunIntegration) : Prop :=
  i' = i ∨ (ig_state i = In_Attention ∧ i' = reopen_integration i).
Record plan_kept (p p' : PlanWorld) : Prop := {
  pk_db : db_kept (w_db (pw_world p)) (w_db (pw_world p'));
  pk_sources : pl_sources (pw_tables p') = pl_sources (pw_tables p);
  pk_runs : pl_runs (pw_tables p') = pl_runs (pw_tables p);
  pk_evidence : pl_evidence (pw_tables p') = pl_evidence (pw_tables p);
  pk_integrations : Forall2 integration_kept (pl_integrations (pw_tables p)) (pl_integrations (pw_tables p'))
}.
#[export] Instance integration_kept_preorder : PreOrder integration_kept.
Proof.
  split; [by left|]. intros i1 i2 i3 [->|[H1 ->]] [->|[H3 ->]]; [by left|by right|by right|].
  right. split; [done|]. by destruct i1 as [???? ? [] ? ?].
Qed.
#[export] Instance plan_kept_preorder : PreOrder plan_kept.
Proof.
  split; [intros p; split; try done; by try apply Forall2_same|].
  intros p1 p2 p3 [] []. split; try congruence; [by etransitivity|].
  eapply Forall2_compose; [|done|done]. intros ???; by etransitivity.
Qed.

Lemma plan_kept_same p p' :
  db_kept (w_db (pw_world p)) (w_db (pw_world p')) → pw_tables p' = pw_tables p → plan_kept p p'.
Proof. intros Hd Ht. split; try done; rewrite Ht; try done. Qed.

Section Plans.
Context `{Env, ContractLib, RecipeLib, PlanLib, ProposalLib, ControlLib, GateLib, StepLib, SourceJson}.

Lemma pk_world {A} (m : SM A) : respects db_kept m → guarantees plan_kept (in_world m).
Proof. intros Hm p p' a (v & Hv%Hm & ->)%in_world_ok. by apply plan_kept_same. Qed.
Lemma pk_tables f :
  (∀ t, pl_sources (f t) = pl_sources t) → (∀ t, pl_runs (f t) = pl_runs t) → (∀ t, pl_evidence (f t) = pl_evidence t) →
  (∀ t, pl_integrations (f t) = pl_integrations t) → guarantees plan_kept (in_tables f).
Proof.
  intros Hf1 Hf2 Hf3 Hf4 p p' u ->%in_tables_ok. split; cbn; [done| by rewrite ?Hf1, ?Hf2, ?Hf3..|].
  rewrite Hf4. by apply Forall2_same.
Qed.
Lemma pk_tasks sr p f : guarantees plan_kept (in_world (update_tasks sr p f)).
Proof. apply pk_world, (respects_update_tasks db_kept). Qed.
Lemma pk_insert_task t : guarantees plan_kept (in_world (insert_task t)).
Proof. apply pk_world, (respects_insert_task db_kept). Qed.
Lemma pk_dispatches ss p f : guarantees plan_kept (in_world (update_dispatches ss p f)).
Proof. apply pk_world, (respects_update_dispatches db_kept). Qed.
Lemma pk_gates p f : guarantees plan_kept (in_world (update_gates p f)).
Proof. apply pk_world, worktrees_update_gates. Qed.
Lemma pk_insert_gate g : guarantees plan_kept (in_world (insert_gate g)).
Proof. apply pk_world, (respects_insert_gate db_kept). Qed.
Lemma pk_update_runs p f : guarantees plan_kept (in_world (update_runs p f)).
Proof. apply pk_world, worktrees_update_runs. Qed.
Lemma pk_run_event ev : guarantees plan_kept (in_world (record_run_event ev)).
Proof. apply pk_world, (respects_run_event db_kept). Qed.
Lemma pk_orchestration_id prefix : guarantees plan_kept (in_world (orchestration_id prefix)).
Proof. apply pk_world, (respects_id db_kept). Qed.
Lemma pk_event ev : guarantees plan_kept (record_event ev).
Proof. unfold record_event. intros p p' u Hm. inv_ok Hm. inv_ok Hm. by eapply pk_run_event. Qed.
Lemma pk_revision r : guarantees plan_kept (insert_plan_revision r).
Proof.
  intros p p' u (_ & _ & ->)%insert_plan_revision_ok. split; try done.
Qed.
Lemma pk_uuid : guarantees plan_kept new_uuid.
Proof. intros p p' id Hm. unfold new_uuid in Hm. simplify_eq. by apply plan_kept_same. Qed.
Lemma pk_draw rows : guarantees plan_kept (draw_ids rows).
Proof. intros p p' a (Hdb & Ht & _)%draw_ids_ok. apply plan_kept_same; [by rewrite Hdb|done]. Qed.
Lemma pk_receipt c : guarantees plan_kept (insert_receipt c).
Proof. intros p p' u [_ ->]%insert_receipt_ok. split; try done. Qed.
Lemma pk_load_run run : guarantees plan_kept (load_run run).
Proof. apply guarantees_reads; [apply _|apply reads_load_run]. Qed.
Lemma pk_proposed run revision : guarantees plan_kept (run_plan_proposed run revision).
Proof. apply guarantees_reads; [apply _|apply reads_proposed]. Qed.
Lemma pk_reopen run :
  guarantees plan_kept (update_integrations (λ i, String.eqb (ig_run_id i) run && negb (ig_cancelled i)
    && bool_decide (ig_state i = In_Attention)) reopen_integration).
Proof.
  intros p p' u [Hw Ht]%update_integrations_ok. split; rewrite ?Ht, ?Hw; try done. cbn.
  apply Forall2_update_where; [|by left]. intros i _ Hi. split_bools. by right.
Qed.
End Plans.

(** Statements that touch nothing of the attempts. *)
#[export] Hint Resolve pk_tasks pk_insert_task pk_dispatches pk_gates pk_insert_gate pk_update_runs pk_run_event
  pk_orchestration_id pk_event pk_revision pk_uuid pk_draw pk_receipt pk_load_run pk_proposed pk_reopen : runs.
Ltac leaves_attempts :=
  repeat first [ progress by_statements | match goal with |- guarantees plan_kept (in_tables _) => by apply pk_tables end ].

Section Steps.
Context `{Env, ContractLib, RecipeLib, PlanLib, ProposalLib, ControlLib, GateLib, StepLib, SourceJson}.

Lemma pk_insert_target row : guarantees plan_kept (insert_target row).
Proof. unfold insert_target. apply pk_tables; intros t; by case_match. Qed.
Lemma pk_cancel run reason : guarantees plan_kept (cancel_run run reason).
Proof. pose proof pk_insert_target. unfold cancel_run, finish_cancellation, invalidate_gates. leaves_attempts. Qed.
Lemma pk_insert_run_gate gate : guarantees plan_kept (insert_run_gate gate).
Proof. unfold insert_run_gate, record_gate_opened. leaves_attempts. Qed.
Lemma pk_changes run reason ids actor gate : guarantees plan_kept (request_run_changes run reason ids actor gate).
Proof. unfold request_run_changes, ensure_no_active_work, invalidate_gates. leaves_attempts. Qed.
Lemma pk_control request status reason actor : guarantees plan_kept (control request status reason actor).
Proof. pose proof pk_changes. pose proof pk_cancel. unfold control. leaves_attempts. Qed.
Lemma pk_retry run status actor : guarantees plan_kept (retry_cancellation run status actor).
Proof. pose proof pk_cancel. unfold retry_cancellation. leaves_attempts. Qed.
Lemma pk_command request_id run expected digest action command :
  (∀ status, guarantees plan_kept (command status)) →
  guarantees plan_kept (run_command request_id run expected digest action command).
Proof. intros Hc. unfold run_command, run_command_receipt, replayed_control, not_found. leaves_attempts. Qed.
Lemma pk_apply gate decision reason request actor : guarantees plan_kept (apply_resolution gate decision reason request actor).
Proof. pose proof pk_changes. pose proof pk_cancel. unfold apply_resolution. leaves_attempts. Qed.
Lemma pk_audit actor gate reason payload : guarantees plan_kept (insert_gate_audit actor gate reason payload).
Proof. unfold insert_gate_audit. leaves_attempts. apply pk_world, worktrees_frame. intros ? ? ?; repeat case_match; by intros [= <- _]. Qed.
Lemma pk_resolve request actor : guarantees plan_kept (resolve_run_gate request actor).
Proof.
  pose proof pk_apply. pose proof pk_audit.
  unfold resolve_run_gate, run_command_receipt, replayed_resolution, decide_gate, update_gate_columns, not_found.
  leaves_attempts.
Qed.
Lemma pk_propose run input actor : guarantees plan_kept (propose_run_plan run input actor).
Proof.
  pose proof pk_insert_run_gate.
  unfold propose_run_plan, store_plan, materialize, open_plan_gate, require_source_workspace,
    supersede_unstarted_plan, insert_plan_row, invalidate_gates. leaves_attempts.
Qed.
Lemma pk_open run : guarantees plan_kept (open_due_stage_gates run).
Proof.
  unfold open_due_stage_gates. leaves_attempts.
  match goal with |- guarantees _ (open_due_gates _ ?l) => induction l as [|g l IH] end;
    cbn [open_due_gates]; unfold open_due_gate, record_gate_opened, update_gate_columns; leaves_attempts.
Qed.

Lemma run_step_kept p p' : run_step p p' → plan_kept p p'.
Proof.
  pose proof pk_insert_run_gate.
  destruct 1 as [??? q Hm|? ? ? ? Hm|? ? ? Hm|? ? ? Hm|? ? ? Hm|? ? ? Hm|? ? ? Hm|? ? ? Hm|? ? Hm|? ? ? ? ? Hm|? ? ? ? Hm|Hdb Ht].
  - by apply pk_propose in Hm.
  - as_guarantee plan_kept. unfold create_run_gate. leaves_attempts.
    apply pk_world. unfold orchestration_gate_by_id. by apply (respects_select db_kept).
  - revert Hm. apply pk_command. intros status. apply pk_control.
  - revert Hm. apply pk_command. intros status. apply pk_retry.
  - as_guarantee plan_kept. unfold settle_workflow_cancellation, validate_target, require_terminal_shutdown_settle,
      finish_cancellation. leaves_attempts.
  - as_guarantee plan_kept. unfold begin_workflow_terminal_shutdown. leaves_attempts.
  - as_guarantee plan_kept. unfold verify_workflow_terminal_shutdown. leaves_attempts.
  - by apply pk_resolve in Hm.
  - by apply pk_open in Hm.
  - as_guarantee plan_kept. unfold pause_workflow_execution_for_attention. leaves_attempts.
  - as_guarantee plan_kept. unfold complete_workflow_execution, approved_plan, require_source_workspace. leaves_attempts.
  - apply plan_kept_same; [by rewrite Hdb|done].
Qed.
End Steps.

(** ** Reading the operations *)

(** ** Views *)

Definition adb (w : AttemptWorld) : Db := w_db (pw_world (aw_plan w)).
Definition apt (w : AttemptWorld) : PlanTables := pw_tables (aw_plan w).
Definition workspaces_of (w : AttemptWorld) : list RunWorkspace := db_workspaces (adb w).
Definition launches_of (w : AttemptWorld) : list WorkflowLaunch := db_launches (adb w).

(** Equal but for the identifiers drawn. *)
Definition same_state (w w' : AttemptWorld) : Prop :=
  adb w' = adb w ∧ apt w' = apt w ∧ aw_tables w' = aw_tables w.
#[export] Instance same_state_preorder : PreOrder same_state.
Proof. unfold same_state. split; [by intros w|]. intros w1 w2 w3 (?&?&?) (?&?&?). split_and!; congruence. Qed.

(** ** Taking a successful operation apart *)

Lemma in_plan_ok {A} (m : PM A) w w' a :
  in_plan m w = (w', Ok a) → ∃ p, m (aw_plan w) = (p, Ok a) ∧ w' = MkAttemptWorld p (aw_tables w).
Proof. unfold in_plan. destruct (m (aw_plan w)) as [p r]. intros [= <- ->]. eauto. Qed.
Lemma in_plan_reads {A} (m : PM A) w w' a :
  reads m → in_plan m w = (w', Ok a) → w' = w ∧ m (aw_plan w) = (aw_plan w, Ok a).
Proof.
  intros Hr (p & Hp & ->)%in_plan_ok. specialize (Hr (aw_plan w)). rewrite Hp in Hr. cbn in Hr. subst.
  by destruct w.
Qed.
Lemma in_attempts_ok f w w' u : in_attempts f w = (w', Ok u) → w' = MkAttemptWorld (aw_plan w) (f (aw_tables w)).
Proof. unfold in_attempts, modify. naive_solver. Qed.
Lemma check_ok {A} (r : R A) w w' a : check r w = (w', Ok a) → w' = w ∧ r = Ok a.
Proof. destruct w as [p t]. unfold check, in_plan. destruct r; cbn; unfold ret, fail; naive_solver. Qed.
Lemma check_ensure_ok b msg w w' u : check (ensure b msg) w = (w', Ok u) → w' = w ∧ b = true.
Proof. destruct u. by intros [-> Hb%ensure_ok]%check_ok. Qed.
Lemma check_some_ok {A} (o : option A) msg w w' a : check (with_context o msg) w = (w', Ok a) → w' = w ∧ o = Some a.
Proof. intros [-> Ho]%check_ok. destruct o; cbn in Ho; naive_solver. Qed.
Lemma aselect_ok {A} (q : Db → PlanTables → AttemptTables → A) w w' a :
  aselect q w = (w', Ok a) → w' = w ∧ a = q (adb w) (apt w) (aw_tables w).
Proof. unfold aselect, gets. naive_solver. Qed.
Lemma fetch_one_ok {A} (row : option A) w w' a : fetch_one row w = (w', Ok a) → w' = w ∧ row = Some a.
Proof.
  destruct row; cbn; unfold in_plan, not_found, fail, ret; [naive_solver|].
  by destruct w.
Qed.
Lemma attempt_tx_ok {A} (m : AM A) w w' a : attempt_tx m w = (w', Ok a) → m w = (w', Ok a).
Proof. unfold attempt_tx. destruct (m w) as [v [b|e]]; naive_solver. Qed.

Ltac attempt_inv :=
  repeat match goal with
  | Hs : bind _ _ _ = (_, Ok _) |- _ => inv_ok Hs
  | Hs : ret _ _ = (_, Ok _) |- _ => unfold ret in Hs; simplify_eq
  | Hs : check (ensure _ _) _ = (_, Ok _) |- _ => apply check_ensure_ok in Hs as [? Hs]; subst
  | Hs : check (with_context _ _) _ = (_, Ok _) |- _ => apply check_some_ok in Hs as [? Hs]; subst
  | Hs : check _ _ = (_, Ok _) |- _ => apply check_ok in Hs as [? Hs]; subst
  | Hs : aselect _ _ = (_, Ok _) |- _ => apply aselect_ok in Hs as [? ?]; subst
  | Hs : fetch_one _ _ = (_, Ok _) |- _ => apply fetch_one_ok in Hs as [? Hs]; subst
  | Hs : in_attempts _ _ = (_, Ok _) |- _ => apply in_attempts_ok in Hs; subst
  | Hs : attempt_tx _ _ = (_, Ok _) |- _ => apply attempt_tx_ok in Hs
  end.

(** ** Relations every outcome upholds *)

Definition upholds (R : relation AttemptWorld) {A} (m : AM A) : Prop := ∀ w w' r, m w = (w', r) → R w w'.
(** [R] does not see which identifiers were drawn. *)
Class Insensitive (R : relation AttemptWorld) : Prop := insensitive : ∀ w w', same_state w w' → R w w'.
Definition areads {A} (m : AM A) : Prop := ∀ w, (m w).1 = w.

Section Upholds.
Context (R : relation AttemptWorld) `{!Transitive R, !Insensitive R}.

Lemma upholds_reads {A} (m : AM A) : areads m → upholds R m.
Proof. intros Hm w w' r Hr. specialize (Hm w). rewrite Hr in Hm. cbn in Hm. subst. by apply insensitive. Qed.
Lemma upholds_bind {A B} (m : AM A) (k : A → AM B) : upholds R m → (∀ a, upholds R (k a)) → upholds R (bind m k).
Proof.
  intros Hm Hk w w' r. unfold bind. destruct (m w) as [w1 [a|e]] eqn:E; apply Hm in E.
  - intros Hr%Hk. by etransitivity.
  - by intros [= <- _].
Qed.
(** A transaction counts when it commits. *)
Lemma upholds_tx {A} (m : AM A) : (∀ w w' a, m w = (w', Ok a) → R w w') → upholds R (attempt_tx m).
Proof.
  intros Hm w w' r. unfold attempt_tx. destruct (m w) as [w1 [a|e]] eqn:E.
  - intros [= <- _]. by eapply Hm.
  - intros [= <- _]. by apply insensitive.
Qed.
End Upholds.

Lemma areads_ret {A} (a : A) : areads (ret a).
Proof. by intros w. Qed.
Lemma areads_check {A} (r : R A) : areads (check r).
Proof. intros [p t]. by destruct r. Qed.
Lemma areads_aselect {A} (q : Db → PlanTables → AttemptTables → A) : areads (aselect q).
Proof. by intros w. Qed.
Lemma areads_fetch {A} (row : option A) : areads (fetch_one row).
Proof. intros [p t]. by destruct row. Qed.
Lemma areads_bind {A B} (m : AM A) (k : A → AM B) : areads m → (∀ a, areads (k a)) → areads (bind m k).
Proof.
  intros Hm Hk w. unfold bind. specialize (Hm w). destruct (m w) as [w1 [a|e]]; cbn in Hm; subst; [apply Hk|done].
Qed.
Lemma areads_in_plan {A} (m : PM A) : reads m → areads (in_plan m).
Proof. intros Hm [p t]. unfold in_plan. specialize (Hm p). cbn in *. destruct (m p). cbn in *. by subst. Qed.
#[export] Hint Resolve areads_ret areads_check areads_aselect areads_fetch : runs.

(** Reading only: no statement of the operation writes. *)
Ltac areads_only :=
  repeat match goal with
  | |- areads (bind _ _) => apply areads_bind; [|intros ?]
  | |- areads (match ?x with _ => _ end) => destruct x
  | |- areads (let _ := _ in _) => cbn zeta
  | |- areads (in_plan _) => apply areads_in_plan; solve [auto with runs]
  | |- areads _ => solve [auto with runs]
  end.

Section Reads.
Context `{Env, ContractLib, RecipeLib, PlanLib, ProposalLib, ControlLib, GateLib, StepLib, SourceJson, ReportLib, AttemptLib}.

Lemma reads_source source : reads (require_source_workspace source).
Proof. unfold require_source_workspace. apply reads_bind; [apply reads_pselect|intros ?; apply reads_raise]. Qed.
Lemma reads_approved_plan run revision : reads (approved_plan run revision).
Proof.
  unfold approved_plan. repeat (apply reads_bind; [first [apply reads_pselect|apply reads_raise|apply reads_source]|intros ?]).
  apply reads_ret.
Qed.
Lemma reads_running run revision : reads (require_running run revision).
Proof. apply reads_bind; [apply reads_pselect|intros ?; apply reads_raise]. Qed.
Lemma reads_eligible run revision task plan : reads (eligible_task run revision task plan).
Proof. apply reads_bind; [apply reads_pselect|intros ?; apply reads_raise]. Qed.
Lemma reads_frozen task : reads (frozen_task task).
Proof.
  unfold frozen_task. repeat (apply reads_bind; [first [apply reads_pselect|apply reads_raise]|intros ?]). apply reads_raise.
Qed.
Lemma reads_validate identity revision : reads (validate_identity identity revision).
Proof.
  unfold validate_identity. apply reads_bind; [apply reads_approved_plan|intros found].
  apply reads_bind; [apply reads_raise|intros ?]. case_match; [|apply reads_raise].
  apply reads_bind; [apply reads_raise|intros ?; apply reads_eligible].
Qed.
Lemma areads_workspace id : areads (workflow_workspace id).
Proof. unfold workflow_workspace. areads_only. Qed.
Lemma areads_integration_workspace run : areads (workflow_integration_workspace run).
Proof. unfold workflow_integration_workspace. areads_only. Qed.
Lemma areads_fetch_workspace id : areads (fetch_workspace id).
Proof. unfold fetch_workspace. areads_only. Qed.
Lemma areads_resource record : areads (require_resource record).
Proof. unfold require_resource. areads_only. Qed.
End Reads.
#[export] Hint Resolve reads_source reads_approved_plan reads_running reads_eligible reads_frozen reads_validate
  areads_workspace areads_integration_workspace areads_fetch_workspace areads_resource : runs.

Lemma areads_ok {A} (m : AM A) w w' a : areads m → m w = (w', Ok a) → w' = w.
Proof. intros Hm Ha. specialize (Hm w). rewrite Ha in Hm. done. Qed.

(** ** Reservation *)

Section Reservation.
Context `{Env, ContractLib, RecipeLib, PlanLib, ProposalLib, ControlLib, GateLib, StepLib, SourceJson, ReportLib, AttemptLib}.

Lemma insert_run_workspace_ok x c w w' u :
  insert_run_workspace x c w = (w', Ok u) →
  (x_id x ∉ (x_id <$> workspaces_of w)) ∧
  w' = MkAttemptWorld
         (MkPlanWorld (with_db (set_workspaces (workspaces_of w ++ [x])) (pw_world (aw_plan w))) (apt w))
         (set_at_workspaces (<[x_id x := c]> (at_workspaces (aw_tables w))) (aw_tables w)).
Proof.
  unfold insert_run_workspace. destruct (existsb _ _) eqn:E; [done|]. repeat (case_match; [done|]). intros [= <- _].
  split; [|done]. intros (y & Hy & Hin)%list_elem_of_fmap. apply not_true_iff_false in E. apply E, existsb_exists.
  exists y. split; [by apply list_elem_of_In|]. by apply String.eqb_eq.
Qed.

Lemma aevent_ok event w w' u :
  in_plan (record_event event) w = (w', Ok u) →
  events_only (pw_world (aw_plan w)) (pw_world (aw_plan w')) ∧ apt w' = apt w ∧ aw_tables w' = aw_tables w.
Proof. intros (p & [Hev Ht]%event_recorded & ->)%in_plan_ok. by split_and!. Qed.

(** The attempt a new workspace of a task becomes. *)
Record fresh_target (request : PrepareWorkflowWorkspace) (plan : WorkflowPlanSnapshot) (w : AttemptWorld) (attempt : Z) : Prop := {
  ft_attempt : attempt = (1 + default 0 (x_attempt <$> (prep_task_id request ≫= current_attempt (adb w))))%Z;
  ft_retry : match prep_task_id request ≫= current_attempt (adb w) with
             | Some y => prep_retry_of request = Some (x_id y) ∧ x_phase y = Wp_Attention
             | None => prep_retry_of request = None
             end;
  ft_slot : (active_attempts (adb w) (prep_run_id request) (prep_revision request) < ps_max_concurrent plan)%Z
}.

Lemma attempt_target_ok request plan w w' target task :
  attempt_target request plan w = (w', Ok target) → prep_task_id request = Some task →
  w' = w ∧ eligible_task_state (adb w) (apt w) (prep_run_id request) (prep_revision request) task plan [Ts_Pending; Ts_Ready] = Ok tt ∧
  (snd target = None → fresh_target request plan w (fst target)) ∧
  (∀ id, snd target = Some id → x_id <$> current_attempt (adb w) task = Some id).
Proof.
  unfold attempt_target. intros Hm Ht. rewrite Ht in Hm. inv_ok Hm.
  apply in_plan_reads in Hstep as [-> He]; [|apply reads_eligible]. unfold eligible_task in He. inv_ok He.
  apply pselect_ok in Hstep as [_ ->]. apply raise_ok in He as [_ He]. destruct a. attempt_inv.
  destruct (current_attempt (adb w) task) as [y|] eqn:Ey; [destruct (prep_retry_of request) as [retry|] eqn:Er|].
  all: attempt_inv; cbn [snd] in Hm; attempt_inv.
  - split_bools. match goal with He : String.eqb _ _ = true |- _ => apply String.eqb_eq in He end.
    split; [done|]. split; [done|]. split; [|done]. intros _. split.
    + rewrite Ht. cbn. rewrite Ey. cbn. lia.
    + rewrite Ht. cbn. rewrite Ey. naive_solver.
    + by apply Z.ltb_lt.
  - split; [done|]. split; [done|]. split; [done|]. cbn. by intros id [= ->].
  - split_bools. split; [done|]. split; [done|]. split; [|done]. intros _. split.
    + rewrite Ht. cbn. by rewrite Ey.
    + rewrite Ht. cbn. rewrite Ey. by apply eq_None_not_Some.
    + by apply Z.ltb_lt.
Qed.

(** What inserting a new attempt writes. *)
Record attempt_written (request : PrepareWorkflowWorkspace) (plan : WorkflowPlanSnapshot) (sha : string)
    (candidate : Workspace) (attempt : Z) (w w' : AttemptWorld) : Prop := {
  wr_fresh : wsp_id candidate ∉ (x_id <$> workspaces_of w);
  wr_rows : workspaces_of w' = workspaces_of w ++ [MkRunWorkspace (wsp_id candidate) (prep_run_id request)
              (prep_revision request) (prep_task_id request) attempt Wp_Reserved None];
  wr_columns : ∃ sequence, at_workspaces (aw_tables w') = <[wsp_id candidate := MkWorkspaceColumns sequence (wsp_path candidate)
    (identity_encode (reserved_identity request plan sha candidate attempt)) None None]> (at_workspaces (aw_tables w));
  wr_valid : valid_candidate candidate plan = true;
  wr_tables : apt w' = apt w;
  wr_tasks : db_tasks (adb w') = db_tasks (adb w);
  wr_dispatches : db_dispatches (adb w') = db_dispatches (adb w);
  wr_launches : db_launches (adb w') = db_launches (adb w);
  wr_rest : ∃ v, aw_tables w' = set_at_workspaces v (aw_tables w)
}.

Lemma insert_attempt_inv request plan sha candidate attempt w w' id :
  insert_attempt request plan sha candidate attempt w = (w', Ok id) →
  id = wsp_id candidate ∧ attempt_written request plan sha candidate attempt w w'.
Proof.
  unfold insert_attempt. intros Hm. attempt_inv.
  match goal with Hi : insert_run_workspace _ _ _ = _ |- _ => apply insert_run_workspace_ok in Hi as [Hfresh ->] end.
  cbn [x_id] in Hfresh. set (w1 := MkAttemptWorld _ _) in *.
  assert (adb w' = adb w1 ∨ events_only (pw_world (aw_plan w1)) (pw_world (aw_plan w'))) as Hdb.
  { match goal with He : match prep_task_id request with _ => _ end _ = _ |- _ => revert He end.
    destruct (prep_task_id request), (prep_retry_of request); try (intros [= <-]; by left).
    intros (Hev & _)%aevent_ok. by right. }
  assert (apt w' = apt w1 ∧ aw_tables w' = aw_tables w1) as [Ht Hat].
  { match goal with He : match prep_task_id request with _ => _ end _ = _ |- _ => revert He end.
    destruct (prep_task_id request), (prep_retry_of request); try (intros [= <-]; done). by intros (_ & ? & ?)%aevent_ok. }
  split; [done|]. split; unfold workspaces_of, adb in *; rewrite ?Ht, ?Hat;
    first [done | by eexists | by destruct Hdb as [->|(evs & seq & ->)]].
Qed.

Lemma areads_target request plan : areads (attempt_target request plan).
Proof. unfold attempt_target. areads_only. Qed.

Lemma insert_workspace_request_ok id row w w' u :
  insert_workspace_request id row w = (w', Ok u) →
  w' = MkAttemptWorld (aw_plan w) (set_at_requests (<[id := row]> (at_requests (aw_tables w))) (aw_tables w)).
Proof.
  unfold insert_workspace_request. intros Hm. inv_ok Hm. apply aselect_ok in Hstep as [-> ->]. case_match.
  - by apply in_plan_ok in Hm as (p & Hf & _).
  - by apply in_attempts_ok in Hm.
Qed.

(** The three answers of a reservation. *)
Lemma reserve_ok request candidate w w' record :
  reserve_workflow_workspace request candidate w = (w', Ok record) →
  ∃ id, workflow_workspace id w' = (w', Ok record) ∧
    ((w' = w ∧ ∃ r, at_requests (aw_tables w) !! prep_request_id request = Some r ∧ wr_digest r = reserve_digest request
                   ∧ wr_workspace_id r = id)
     ∨ (at_requests (aw_tables w) !! prep_request_id request = None ∧
        ∃ plan sha w1 target, approved_plan (prep_run_id request) (prep_revision request) (aw_plan w) = (aw_plan w, Ok (plan, sha)) ∧
          attempt_target request plan w = (w, Ok target) ∧
          (snd target = Some id ∧ w1 = w ∨
           snd target = None ∧ id = wsp_id candidate ∧ attempt_written request plan sha candidate (fst target) w w1) ∧
          w' = MkAttemptWorld (aw_plan w1) (set_at_requests
                 (<[prep_request_id request := MkWorkspaceRequest (reserve_digest request) id]> (at_requests (aw_tables w1))) (aw_tables w1)))).
Proof.
  unfold reserve_workflow_workspace. intros Hm. do 5 inv_ok Hm. pose proof (areads_ok _ _ _ _ (areads_workspace _) Hm) as ->.
  exists a3. split; [done|]. apply check_ok in Hstep as [-> _], Hstep0 as [-> _], Hstep1 as [-> _], Hstep2 as [-> _].
  apply attempt_tx_ok in Hstep3 as Hr. clear Hm Hstep3. unfold reserve_in_tx in Hr. inv_ok Hr.
  apply aselect_ok in Hstep as [-> ->]. destruct (at_requests _ !! _) as [r|] eqn:Er.
  - left. attempt_inv. split; [done|]. exists r. split_and!; [done|by apply String.eqb_eq|done].
  - right. split; [done|]. do 2 inv_ok Hr. apply aselect_ok in Hstep0 as [-> ->].
    apply in_plan_reads in Hstep as [-> Hp]; [|apply reads_approved_plan]. inv_ok Hr.
    apply check_ensure_ok in Hstep as [-> _]. destruct a4 as [plan sha].
    inv_ok Hr. pose proof (areads_ok _ _ _ _ (areads_target _ _) Hstep) as ->. do 2 inv_ok Hr. attempt_inv.
    apply insert_workspace_request_ok in Hstep1 as ->. exists plan, sha, s, a4. split_and!; try done.
    destruct a4 as [attempt [id|]]; cbn in Hstep0.
    + attempt_inv. by left.
    + right. by apply insert_attempt_inv in Hstep0.
Qed.

(** A row appended to a table adds at most one to a count. *)
Lemma count_where_snoc {A} (p : A → bool) l x : count_where p (l ++ [x]) ≤ S (count_where p l).
Proof. unfold count_where. rewrite List.filter_app, length_app. cbn. destruct (p x); cbn; lia. Qed.

Lemma written_active request plan sha candidate attempt w w' run revision :
  attempt_written request plan sha candidate attempt w w' →
  (active_attempts (adb w') run revision ≤ active_attempts (adb w) run revision + 1)%Z.
Proof.
  intros Hw. unfold active_attempts. fold (workspaces_of w') (workspaces_of w). rewrite (wr_rows _ _ _ _ _ _ _ Hw).
  assert (∀ x, active_attempt (adb w') run revision x = active_attempt (adb w) run revision x) as Heq.
  { intros x. unfold active_attempt, slot_released. by rewrite (wr_tasks _ _ _ _ _ _ _ Hw), (wr_dispatches _ _ _ _ _ _ _ Hw). }
  unfold count_where at 1. rewrite (filter_ext _ _ Heq). fold (count_where (active_attempt (adb w) run revision)
    (workspaces_of w ++ [MkRunWorkspace (wsp_id candidate) (prep_run_id request) (prep_revision request)
       (prep_task_id request) attempt Wp_Reserved None])).
  pose proof (count_where_snoc (active_attempt (adb w) run revision) (workspaces_of w)
    (MkRunWorkspace (wsp_id candidate) (prep_run_id request) (prep_revision request) (prep_task_id request) attempt Wp_Reserved None)).
  lia.
Qed.

(** [C6] A run never prepares more attempts than it has worker slots: when a
    reservation adds a workspace for a task, the task is eligible under the
    approved plan, the new row is its first attempt or replaces the latest one,
    which must need attention and be named by the request, it starts from the
    run's integration SHA, and the attempts that hold a slot stay within the
    plan's limit. *)
Theorem attempts_stay_within_slots (request : PrepareWorkflowWorkspace) (candidate : Workspace) (task : string)
    (w w' : AttemptWorld) (record : WorkflowWorkspaceRecord) :
  reserve_workflow_workspace request candidate w = (w', Ok record) → prep_task_id request = Some task →
  workspaces_of w' ≠ workspaces_of w →
  ∃ plan sha attempt,
    approved_plan (prep_run_id request) (prep_revision request) (aw_plan w) = (aw_plan w, Ok (plan, sha)) ∧
    eligible_task_state (adb w) (apt w) (prep_run_id request) (prep_revision request) task plan [Ts_Pending; Ts_Ready] = Ok tt ∧
    attempt = (1 + default 0 (x_attempt <$> current_attempt (adb w) task))%Z ∧
    match current_attempt (adb w) task with
    | Some y => prep_retry_of request = Some (x_id y) ∧ x_phase y = Wp_Attention
    | None => prep_retry_of request = None
    end ∧
    workspaces_of w' = workspaces_of w ++ [MkRunWorkspace (wsp_id candidate) (prep_run_id request) (prep_revision request)
                                             (Some task) attempt Wp_Reserved None] ∧
    wc_identity <$> at_workspaces (aw_tables w') !! wsp_id candidate
      = Some (identity_encode (reserved_identity request plan sha candidate attempt)) ∧
    wi_base_sha (reserved_identity request plan sha candidate attempt) = sha ∧
    (active_attempts (adb w') (prep_run_id request) (prep_revision request) ≤ ps_max_concurrent plan)%Z.
Proof.
  intros Hm Ht Hne. apply reserve_ok in Hm as (id & _ & [[-> _]|(_ & plan & sha & w1 & target & Hp & Htg & Hw1 & ->)]); [done|].
  destruct (attempt_target_ok _ _ _ _ _ _ Htg Ht) as (_ & He & Hfresh & _).
  destruct Hw1 as [[_ ->]|(Hn & -> & Hw)]; [done|]. destruct (Hfresh Hn) as [Ha Hr Hs]. rewrite Ht in Ha, Hr. cbn in Ha, Hr.
  exists plan, sha, (fst target). split_and!; try done.
  - pose proof (wr_rows _ _ _ _ _ _ _ Hw) as Hrows. by rewrite Ht in Hrows.
  - destruct (wr_columns _ _ _ _ _ _ _ Hw) as [sequence Hc]. cbn. rewrite Hc. by rewrite lookup_insert_eq.
  - unfold reserved_identity. cbn. by rewrite Ht.
  - pose proof (written_active _ _ _ _ _ _ _ (prep_run_id request) (prep_revision request) Hw) as Hle.
    unfold adb in *. cbn [aw_plan] in *. lia.
Qed.
End Reservation.
