(* ===== verification/AttemptHistory.v ===== *)
(** * AttemptHistory: attempts, launches, integrations and cleanups in any order

    [attempt_step] is one call of any operation of Attempts.v, Launches.v,
    Integrations.v or Cleanup.v with whatever arguments and outcome, or one step
    of the plans or of the orchestration store; [attempt_event] is a step at some
    moment with the triggers it fires, and [attempt_tick] an event or a reset of
    the orchestration.  Along every sequence of ticks an attempt keeps its identity and only moves forward through its
    phases, a launch is claimed at most once, a reservation answers the same
    attempt again, and a retired workspace stays retired ([evolves]). *)

From S2P Require Import Prelude Text Models Store StoreFacts RoleContract Cancellation Dispatch Gates Runs SetupReport Reachability Ordering Recipe RecipeFacts Plan Catalog Execution PlanStore PlanStoreFacts RunControl RunControlFacts GateResolution ExecutionStore Attempts Launches Integrations Cleanup ExecutionStoreFacts RunTriggers RunHistory AttemptFacts.
From Stdlib Require Import ZArith Lia Ascii String.
From stdpp Require Import strings gmap pretty prelude relations.

(** ** One step *)

Section Step.
Context `{Env, ContractLib, RecipeLib, PlanLib, ProposalLib, ControlLib, GateLib, StepLib, SourceJson, ReportLib, AttemptLib, LaunchLib, IntegrationLib, CleanupLib}.

Inductive attempt_step (w w' : AttemptWorld) : Prop :=
| as_store : store_operation (aw_plan w) (aw_plan w') → aw_tables w' = aw_tables w → attempt_step w w'
| as_plan : run_step (aw_plan w) (aw_plan w') → aw_tables w' = aw_tables w → attempt_step w w'
| as_reserve request candidate r : reserve_workflow_workspace request candidate w = (w', r) → attempt_step w w'
| as_transition id revision expected next report error r :
    transition_workflow_workspace id revision expected next report error w = (w', r) → attempt_step w w'
| as_launch request hash r : reserve_workflow_launch request hash w = (w', r) → attempt_step w w'
| as_claim id r : claim_workflow_launch id w = (w', r) → attempt_step w w'
| as_started id r : mark_workflow_launch_started id w = (w', r) → attempt_step w w'
| as_launch_attention id error r : workflow_launch_attention id error w = (w', r) → attempt_step w w'
| as_settle terminal reason r : settle_workflow_launch_without_session terminal reason w = (w', r) → attempt_step w w'
| as_integrate input r : reserve_workflow_integration input w = (w', r) → attempt_step w w'
| as_prepared id outcome r : record_workflow_integration_preparation id outcome w = (w', r) → attempt_step w w'
| as_complete receipt r : complete_workflow_integration receipt w = (w', r) → attempt_step w w'
| as_integration_attention id error r : workflow_integration_attention id error w = (w', r) → attempt_step w w'
| as_settle_cancelled id receipt r : settle_cancelled_workflow_integration id receipt w = (w', r) → attempt_step w w'
| as_preview clock id run items r : publish_workflow_cleanup_preview clock id run items w = (w', r) → attempt_step w w'
| as_claim_cleanup clock id digest r : claim_workflow_cleanup clock id digest w = (w', r) → attempt_step w w'
| as_retire id digest workspace r : record_workflow_cleanup_retirement id digest workspace w = (w', r) → attempt_step w w'
| as_abandon id digest r : abandon_workflow_cleanup id digest w = (w', r) → attempt_step w w'
| as_cleanup_attention id digest error r : mark_workflow_cleanup_attention id digest error w = (w', r) → attempt_step w w'
| as_resume id digest r : resume_workflow_cleanup id digest w = (w', r) → attempt_step w w'.
End Step.

Section Ticks.
Context `{Env, ContractLib, RecipeLib, PlanLib, ProposalLib, ControlLib, GateLib, StepLib, SourceJson, ReportLib, AttemptLib, LaunchLib, IntegrationLib, CleanupLib}.

(** A step at some moment, with the triggers it fires. *)
Definition attempt_event (w w' : AttemptWorld) : Prop :=
  ∃ moment w1, attempt_step (H := at_time _ moment) w w1 ∧
    triggered (H := at_time _ moment) (aw_plan w) (aw_plan w1) (aw_plan w') ∧ aw_tables w' = aw_tables w1.

(** An event, or a reset of the orchestration: attempts, launches, integrations
    and cleanups survive it. *)
Definition attempt_tick (w w' : AttemptWorld) : Prop :=
  attempt_event w w' ∨ ∃ r, reset_orchestration (aw_plan w) = (aw_plan w', r) ∧ aw_tables w' = aw_tables w.
End Ticks.

(** ** What every step keeps *)

Definition phase_moves : relation RunWorkspacePhase := λ a b, transition_allowed a b = true.
Lemma attention_final a : rtc phase_moves Wp_Attention a → a = Wp_Attention.
Proof.
  intros Hr. inversion Hr as [|? b ? Hm]; [done|]. exfalso. unfold phase_moves, transition_allowed in Hm.
  by rewrite (bool_decide_true (Wp_Attention = Wp_Attention)), andb_false_r in Hm.
Qed.
Lemma to_attention a : rtc phase_moves a Wp_Attention.
Proof. destruct a; try done; by apply rtc_once. Qed.

Record row_moves (x x' : RunWorkspace) : Prop := {
  rm_id : x_id x' = x_id x;
  rm_run : x_run_id x' = x_run_id x;
  rm_revision : x_revision x' = x_revision x;
  rm_task : x_task_id x' = x_task_id x;
  rm_attempt : x_attempt x' = x_attempt x;
  rm_phase : rtc phase_moves (x_phase x) (x_phase x');
  rm_dispatch : ∀ d, x_dispatch_id x = Some d → x_dispatch_id x' = Some d
}.
#[export] Instance row_moves_preorder : PreOrder row_moves.
Proof.
  split; [by intros x; split|]. intros x1 x2 x3 [] []. split; try congruence; [by etransitivity|by eauto].
Qed.

Section Evolution.
Context `{ReportLib}.

Definition reports_decode (c : WorkspaceColumns) : Prop :=
  ∀ raw, wc_setup_report c = Some raw → is_Some (report_decode raw).
Record columns_move (c c' : WorkspaceColumns) : Prop := {
  cm_sequence : wc_sequence c' = wc_sequence c;
  cm_path : wc_path c' = wc_path c;
  cm_identity : wc_identity c' = wc_identity c;
  cm_report : reports_decode c → reports_decode c'
}.
#[export] Instance columns_move_preorder : PreOrder columns_move.
Proof. split; [by intros c; split|]. intros c1 c2 c3 [] []. split; try congruence. auto. Qed.

Definition attempt_row (w : AttemptWorld) (id : string) : option (RunWorkspace * WorkspaceColumns) :=
  workspace_row (adb w) (aw_tables w) id.
Definition launch_named (w : AttemptWorld) (id : string) : option WorkflowLaunch :=
  find_where (λ l, String.eqb (l_id l) id) (launches_of w).
Definition retired (w : AttemptWorld) (id : string) : Prop := cc_retired <$> at_claims (aw_tables w) !! id = Some true.

Record evolves (w w' : AttemptWorld) : Prop := {
  ev_attempts : ∀ id x c, attempt_row w id = Some (x, c) →
    ∃ x' c', attempt_row w' id = Some (x', c') ∧ row_moves x x' ∧ columns_move c c';
  ev_launches : ∀ id l, launch_named w id = Some l → ∃ l', launch_named w' id = Some l' ∧ launch_moves l l';
  ev_requests : at_requests (aw_tables w) ⊆ at_requests (aw_tables w');
  ev_retired : ∀ id, retired w id → retired w' id
}.
#[export] Instance attempts_evolve_trans : Transitive evolves.
Proof.
  intros w1 w2 w3 H12 H23. split.
  - intros id x c Hx. destruct (ev_attempts _ _ H12 _ _ _ Hx) as (x2 & c2 & Hx2 & ? & ?).
    destruct (ev_attempts _ _ H23 _ _ _ Hx2) as (x3 & c3 & ? & ? & ?). exists x3, c3.
    split_and!; [done|by etransitivity|by etransitivity].
  - intros id l Hl. destruct (ev_launches _ _ H12 _ _ Hl) as (l2 & Hl2 & ?).
    destruct (ev_launches _ _ H23 _ _ Hl2) as (l3 & ? & ?). exists l3. split; [done|by etransitivity].
  - etransitivity; [by apply H12|by apply H23].
  - intros id Hr. by apply H23, H12.
Qed.
#[export] Instance evolves_insensitive : Insensitive evolves.
Proof.
  intros w w' (Hdb & Ht & Ha). split; unfold attempt_row, launch_named, launches_of, retired; rewrite ?Hdb, ?Ha; eauto 10.
  - intros id x c Hx. exists x, c. done.
  - intros id l Hl. by exists l.
Qed.
#[export] Instance attempts_evolve_refl : Reflexive evolves.
Proof. intros w. by apply insensitive. Qed.

Lemma attempt_row_Some w id x c :
  attempt_row w id = Some (x, c) ↔
  find_where (λ x, String.eqb (x_id x) id) (workspaces_of w) = Some x ∧ at_workspaces (aw_tables w) !! id = Some c.
Proof.
  unfold attempt_row, workspace_row. rewrite bind_Some. split.
  - intros (y & Hy & (d & Hd & [= -> ->])%bind_Some). done.
  - intros [Hx Hc]. exists x. split; [done|]. by rewrite Hc.
Qed.

(** Steps that write only rows of one table. *)
Lemma evolves_frame w w' :
  (∀ id x c, attempt_row w id = Some (x, c) → ∃ x' c', attempt_row w' id = Some (x', c') ∧ row_moves x x' ∧ columns_move c c') →
  launches_of w' = launches_of w → at_requests (aw_tables w') = at_requests (aw_tables w) →
  at_claims (aw_tables w') = at_claims (aw_tables w) → evolves w w'.
Proof.
  intros Hr Hl Hq Hc. split; [done|unfold launch_named; rewrite Hl; intros id l Hx; by exists l| by rewrite Hq|unfold retired; by rewrite Hc].
Qed.
Lemma evolves_plan w w' :
  db_kept (adb w) (adb w') → at_workspaces (aw_tables w') = at_workspaces (aw_tables w) →
  at_requests (aw_tables w) ⊆ at_requests (aw_tables w') → (∀ id, retired w id → retired w' id) → evolves w w'.
Proof.
  intros [Hw Hl] Ha Hq Hc. split; try done.
  - intros id x c Hx. exists x, c. split; [|done]. rewrite attempt_row_Some in *. unfold workspaces_of. by rewrite Hw, Ha.
  - intros id l Hx. pose proof (Forall2_find l_id launch_moves _ _ id ltac:(by intros ? ? [[=] _]) Hl) as Hf.
    unfold launch_named, launches_of in *. rewrite Hx in Hf. inversion Hf; subst. eauto.
Qed.
End Evolution.

(** ** Statements *)

Definition commits (R : relation AttemptWorld) {A} (m : AM A) : Prop := ∀ w w' a, m w = (w', Ok a) → R w w'.

Section Commits.
Context (R : relation AttemptWorld) `{!Transitive R, !Insensitive R}.
Lemma commits_bind {A B} (m : AM A) (k : A → AM B) : commits R m → (∀ a, commits R (k a)) → commits R (bind m k).
Proof. intros Hm Hk w w' b Hb. inv_ok Hb. etransitivity; [by eapply Hm|by eapply Hk]. Qed.
Lemma commits_reads {A} (m : AM A) : areads m → commits R m.
Proof. intros Hm w w' a ->%areads_ok; [|done]. by apply insensitive. Qed.
Lemma commits_fail {A} (e : Error) : commits R (in_plan (fail (A := A) e)).
Proof. intros w w' a (p & Hp & _)%in_plan_ok. done. Qed.
Lemma commits_tx {A} (m : AM A) : commits R m → commits R (attempt_tx m).
Proof. intros Hm w w' a Ha%attempt_tx_ok. by eapply Hm. Qed.
Lemma commits_upholds {A} (m : AM A) : commits R m → upholds R (attempt_tx m).
Proof. apply upholds_tx. exact _. Qed.
End Commits.

(** A read commits no change. *)
Ltac commit_step :=
  match goal with
  | |- commits _ (bind _ _) => apply commits_bind; [apply _| |intros ?]
  | |- commits _ (attempt_tx _) => apply commits_tx
  | |- commits _ (let _ := _ in _) => cbn zeta
  | |- commits _ (in_plan (fail _)) => apply commits_fail
  | |- commits _ (in_plan not_found) => apply commits_fail
  | |- commits _ _ => solve [auto with attempts | apply commits_reads; [apply _|solve [auto with runs | areads_only]]]
  | |- commits _ (match ?x with _ => _ end) => destruct x
  end.
Ltac commit := repeat commit_step.
Ltac uphold_step :=
  match goal with
  | |- upholds _ (bind _ _) => apply upholds_bind; [apply _| |intros ?]
  | |- upholds _ (attempt_tx _) => apply commits_upholds; [apply _|]
  | |- upholds _ (let _ := _ in _) => cbn zeta
  | |- upholds _ _ => solve [apply upholds_reads; [apply _|solve [auto with runs | areads_only]]]
  | |- upholds _ (match ?x with _ => _ end) => destruct x
  end.
Ltac uphold := repeat uphold_step.
Create HintDb attempts discriminated.

Section Statements.
Context `{Env, ContractLib, RecipeLib, PlanLib, ProposalLib, ControlLib, GateLib, StepLib, SourceJson, ReportLib, AttemptLib, LaunchLib, IntegrationLib, CleanupLib}.

Lemma ev_plan_statement {A} (m : PM A) :
  (∀ p p' a, m p = (p', Ok a) → db_kept (w_db (pw_world p)) (w_db (pw_world p'))) → commits evolves (in_plan m).
Proof. intros Hm w w' a (p & Hp%Hm & ->)%in_plan_ok. by apply evolves_plan. Qed.
Lemma ev_event event : commits evolves (in_plan (record_event event)).
Proof. apply ev_plan_statement. intros p p' a Hm. by eapply pk_db, pk_event. Qed.
Lemma ev_uuid : commits evolves (in_plan new_uuid).
Proof. apply ev_plan_statement. intros p p' a Hm. by eapply pk_db, pk_uuid. Qed.
Lemma ev_world {A} (m : SM A) : respects db_kept m → commits evolves (in_plan (in_world m)).
Proof. intros Hm. apply ev_plan_statement. intros p p' a (v & Hv & ->)%in_world_ok. by eapply Hm. Qed.
Lemma ev_tables f : commits evolves (in_plan (in_tables f)).
Proof. apply ev_plan_statement. by intros p p' a ->%in_tables_ok. Qed.

Lemma ev_attempt_tables f :
  (∀ t, at_workspaces (f t) = at_workspaces t) → (∀ t, at_requests (f t) = at_requests t) →
  (∀ t id, cc_retired <$> at_claims t !! id = Some true → cc_retired <$> at_claims (f t) !! id = Some true) →
  commits evolves (in_attempts f).
Proof.
  intros Hf1 Hf2 Hf3 w w' u ->%in_attempts_ok. apply evolves_plan; [done|apply Hf1|cbn; by rewrite Hf2|]. intros id. apply Hf3.
Qed.

(** Rewriting rows of runWorkspaces and their columns. *)
Lemma ev_update_rows p f w w' u :
  (∀ x, x_id (f x) = x_id x) → (∀ id x c, attempt_row w id = Some (x, c) → p x = true → row_moves x (f x)) →
  update_run_workspaces p f w = (w', Ok u) → evolves w w'.
Proof.
  intros Hid Hf (q & (v & Hv & ->)%in_world_ok & ->)%in_plan_ok. unfold modify in Hv. simplify_eq.
  apply evolves_frame; try done. intros id x c Hx. pose proof (Hf _ _ _ Hx) as Hmv.
  apply attempt_row_Some in Hx as [Hx Hc]. exists (if p x then f x else x), c. split.
  - apply attempt_row_Some. split; [|done]. unfold workspaces_of, adb. cbn. rewrite (find_update_where x_id) by done.
    unfold workspaces_of, adb in Hx. by rewrite Hx.
  - split; [|done]. destruct (p x); [by apply Hmv|done].
Qed.
Lemma ev_alter_columns g id : (∀ c, columns_move c (g c)) →
  commits evolves (in_attempts (λ t, set_at_workspaces (alter g id (at_workspaces t)) t)).
Proof.
  intros Hg w w' u ->%in_attempts_ok. apply evolves_frame; try done. intros k x c [Hx Hc]%attempt_row_Some.
  exists x. destruct (decide (k = id)) as [->|Hne].
  - exists (g c). split; [|by split]. apply attempt_row_Some. split; [done|]. cbn. rewrite lookup_alter_eq. by rewrite Hc.
  - exists c. split; [|by split]. apply attempt_row_Some. split; [done|]. cbn. by rewrite lookup_alter_ne.
Qed.
Lemma ev_insert_run_workspace x c : commits evolves (insert_run_workspace x c).
Proof.
  intros w w' u [Hfresh ->]%insert_run_workspace_ok. apply evolves_frame; try done. intros id y d [Hy Hd]%attempt_row_Some.
  exists y, d. split; [|by split]. apply attempt_row_Some. split; [by apply find_where_prefix|]. cbn.
  rewrite lookup_insert_ne; [done|]. intros <-. apply Hfresh. apply find_key_Some in Hy as [Hy Hid].
  rewrite <-Hid. by apply list_elem_of_fmap_2.
Qed.
Lemma ev_insert_request id row : commits evolves (insert_workspace_request id row).
Proof.
  intros w w' u Hm. pose proof (insert_workspace_request_ok _ _ _ _ _ Hm) as ->. apply evolves_plan; try done. cbn.
  unfold insert_workspace_request in Hm. inv_ok Hm. apply aselect_ok in Hstep as [-> ->]. apply insert_subseteq.
  destruct (at_requests _ !! id) eqn:E; [|done]. rewrite bool_decide_true in Hm by done.
  by apply in_plan_ok in Hm as (p & Hf & _).
Qed.

(** Rewriting launches. *)
Lemma ev_update_workflow_launches p f w w' n :
  (∀ l, l_id (f l) = l_id l) → (∀ id l, launch_named w id = Some l → p l = true → launch_moves l (f l)) →
  update_launch_rows p f w = (w', Ok n) → evolves w w'.
Proof.
  intros Hid Hf (q & (v & [-> _]%update_launches_ok & ->)%in_world_ok & ->)%in_plan_ok. split; try done.
  - intros id x c [Hx Hc]%attempt_row_Some. exists x, c. split; [|by split]. by apply attempt_row_Some.
  - intros id l Hl. exists (if p l then with_l_updated_at now (f l) else l). split.
    + unfold launch_named, launches_of, adb. cbn. rewrite (find_update_where l_id) by (intros; cbn; apply Hid).
      unfold launch_named, launches_of, adb in Hl. by rewrite Hl.
    + specialize (Hf _ _ Hl). destruct (p l); [|done]. destruct (Hf eq_refl) as [Hk Hr]. by split.
Qed.
Lemma ev_any_launches p f :
  (∀ l, l_id (f l) = l_id l) → (∀ l, p l = true → launch_moves l (f l)) → upholds evolves (update_launch_rows p f).
Proof.
  intros Hid Hf w w' r Hm. destruct r as [n|e]; [|done]. by eapply ev_update_workflow_launches; [| |exact Hm]; eauto.
Qed.
Lemma ev_insert_launch l c : commits evolves (insert_launch l c).
Proof.
  intros w w' u. unfold insert_launch. case_match; [done|]. intros [= <-]. split; try done.
  - intros id x d [Hx Hd]%attempt_row_Some. exists x, d. split; [|by split]. by apply attempt_row_Some.
  - intros id k Hk. exists k. split; [|done]. unfold launch_named, launches_of, adb. cbn. by apply find_where_prefix.
Qed.
End Statements.
#[export] Hint Resolve ev_event ev_uuid ev_tables ev_insert_run_workspace ev_insert_request ev_insert_launch : attempts.

(** ** Reads *)

Section Reads.
Context `{Env, ContractLib, RecipeLib, PlanLib, ProposalLib, ControlLib, GateLib, StepLib, SourceJson, ReportLib, AttemptLib, LaunchLib, IntegrationLib, CleanupLib}.

Lemma areads_inputs request dispatched : areads (inputs request dispatched).
Proof. unfold inputs. areads_only. Qed.
Lemma areads_launch_by_id id : areads (launch_by_id id).
Proof. unfold launch_by_id. areads_only. Qed.
Lemma areads_launch_for_request id : areads (launch_for_request id).
Proof. unfold launch_for_request. areads_only. Qed.
Lemma areads_integration_resource plan run record : areads (require_integration_resource plan run record).
Proof. unfold require_integration_resource. areads_only. Qed.
Lemma areads_workflow_integration id : areads (workflow_integration id).
Proof. unfold workflow_integration. areads_only. Qed.
Lemma areads_fetch_integration id : areads (fetch_integration id).
Proof. unfold fetch_integration. areads_only. Qed.
Lemma areads_cancelled_resource request expected : areads (require_cancelled_resource request expected).
Proof. unfold require_cancelled_resource. areads_only. Qed.
Lemma areads_quiescent preview : areads (require_cleanup_quiescent preview).
Proof. unfold require_cleanup_quiescent. areads_only. Qed.
Lemma areads_fetch_cleanup id : areads (fetch_cleanup id).
Proof. unfold fetch_cleanup. areads_only. Qed.
Lemma areads_document c : areads (cleanup_document c).
Proof. unfold cleanup_document. areads_only. Qed.
End Reads.
#[export] Hint Resolve areads_inputs areads_launch_by_id areads_launch_for_request areads_integration_resource
  areads_workflow_integration areads_fetch_integration areads_cancelled_resource areads_quiescent areads_fetch_cleanup
  areads_document areads_target : runs.

Section MoreReads.
Context `{Env, ContractLib, RecipeLib, PlanLib, ProposalLib, ControlLib, GateLib, StepLib, SourceJson, ReportLib, AttemptLib, LaunchLib, IntegrationLib, CleanupLib}.

Lemma areads_workflow_launch id : areads (workflow_launch id).
Proof. unfold workflow_launch. areads_only. Qed.
Lemma areads_current_inputs row record : areads (current_inputs row record).
Proof. unfold current_inputs. areads_only. Qed.
Lemma areads_capture input id : areads (capture input id).
Proof. unfold capture. areads_only. Qed.
Lemma areads_confirmed id digest : areads (confirmed_cleanup id digest).
Proof. unfold confirmed_cleanup. areads_only. Qed.
End MoreReads.
#[export] Hint Resolve areads_workflow_launch areads_current_inputs areads_capture areads_confirmed : runs.
Lemma areads_require_current `{Env, ContractLib, RecipeLib, PlanLib, ProposalLib, ControlLib, GateLib, StepLib, SourceJson, ReportLib, AttemptLib, LaunchLib, IntegrationLib} request :
  areads (require_current request).
Proof. unfold require_current. areads_only. Qed.
#[export] Hint Resolve areads_require_current : runs.

(** ** Every operation evolves the state *)

Section Operations.
Context `{Env, ContractLib, RecipeLib, PlanLib, ProposalLib, ControlLib, GateLib, StepLib, SourceJson, ReportLib, AttemptLib, LaunchLib, IntegrationLib, CleanupLib}.

Lemma ev_insert_attempt request plan sha candidate attempt : commits evolves (insert_attempt request plan sha candidate attempt).
Proof. unfold insert_attempt. commit. Qed.
Lemma ev_reserve request candidate : upholds evolves (reserve_workflow_workspace request candidate).
Proof. pose proof ev_insert_attempt. unfold reserve_workflow_workspace, reserve_in_tx. uphold. commit. Qed.

Lemma ev_insert_workspace identity : commits evolves (insert_workspace identity).
Proof. intros w w' u. unfold insert_workspace. repeat (case_match; [done|]). intros [= <-]. by apply evolves_plan. Qed.
Lemma ev_insert_relation r : commits evolves (insert_relation r).
Proof. unfold insert_relation. commit. by apply ev_attempt_tables. Qed.
Lemma ev_register identity : commits evolves (register_workspace identity).
Proof. pose proof ev_insert_workspace. pose proof ev_insert_relation. unfold register_workspace. commit. Qed.
Lemma register_keeps_rows identity w w' u :
  register_workspace identity w = (w', Ok u) → workspaces_of w' = workspaces_of w ∧ at_workspaces (aw_tables w') = at_workspaces (aw_tables w).
Proof.
  unfold register_workspace, insert_relation. intros Hm. inv_ok Hm. inv_ok Hm. inv_ok Hm. inv_ok Hm. inv_ok Hm.
  apply aselect_ok in Hstep0 as [-> ->], Hstep3 as [-> ->]. apply fetch_one_ok in Hstep1 as [-> _].
  apply in_plan_ok in Hstep2 as (p & Hp & ->). unfold new_uuid in Hp. simplify_eq.
  assert (workspaces_of s = workspaces_of w ∧ at_workspaces (aw_tables s) = at_workspaces (aw_tables w)) as [<- <-].
  { revert Hstep. unfold insert_workspace. repeat (case_match; [done|]). by intros [= <-]. }
  case_match; [by apply in_plan_ok in Hm as (q & Hq & _)|]. by apply in_attempts_ok in Hm as ->.
Qed.

Lemma ev_transition_tx id revision expected next report error :
  transition_allowed expected next = true → (∀ raw, report = Some raw → is_Some (report_decode raw)) →
  commits evolves (transition_in_tx id revision expected next report error).
Proof.
  intros Hallow Hrep w w' u Hm. unfold transition_in_tx in Hm. do 4 inv_ok Hm.
  apply aselect_ok in Hstep as [-> ->]. apply fetch_one_ok in Hstep0 as [-> Hstep0]. apply check_ok in Hstep1 as [-> Hstep1].
  apply check_ensure_ok in Hstep2 as [-> Hstep2]. destruct a0 as [x c]. change (attempt_row w id = Some (x, c)) in Hstep0.
  assert (wrec_phase a1 = x_phase x) as Hph.
  { unfold decode_workspace in Hstep1. destruct (identity_decode _); [|done]. cbn in Hstep1.
    destruct (wc_setup_report c); cbn in Hstep1; [|by simplify_eq]. destruct (report_decode _); [|done]. cbn in Hstep1. by simplify_eq. }
  split_bools. rewrite Hph in Hstep2. inv_ok Hm.
  assert (s = w) as ->.
  { destruct (bool_decide (next = _)); [by unfold ret in Hstep; simplify_eq|]. by apply in_plan_reads in Hstep as [-> _]; [|apply reads_validate]. }
  inv_ok Hm. assert (evolves w s ∧ attempt_row s id = Some (x, c)) as [Hev Hrow].
  { destruct (bool_decide (next = Wp_Created)); [|by unfold ret in Hstep3; simplify_eq]. pose proof (ev_register _ _ _ _ Hstep3). split; [done|].
    destruct (register_keeps_rows _ _ _ _ Hstep3) as [Hws Hcs]. rewrite attempt_row_Some in *. by rewrite Hws, Hcs. }
  do 2 inv_ok Hm. etransitivity; [exact Hev|]. etransitivity.
  { eapply ev_update_rows; [| |exact Hstep4]; [done|]. intros k y d Hy Hk%String.eqb_eq.
    assert (y = x) as ->.
    { apply attempt_row_Some in Hy as [Hy _]. apply find_key_Some in Hy as Hy'. destruct Hy' as [_ Hid]. rewrite Hid in Hk. subst k.
      apply attempt_row_Some in Hrow as [Hrow _]. congruence. }
    split; try done. cbn. apply rtc_once. unfold phase_moves. by rewrite Hstep2. }
  etransitivity.
  { eapply (ev_alter_columns (transition_columns report error)); [|exact Hstep5]. intros d. split; try done. intros Hd raw Hraw. cbn in Hraw.
    destruct report; [apply Hrep; by simplify_eq|by apply Hd]. }
  revert Hm. cut (commits evolves (match next, wi_task_id (wrec_identity a1) with
    | Wp_Ready, Some task => in_plan (record_event (prepared_event (wrec_identity a1) task)) | _, _ => ret tt end)).
  { intros Hc Hm. by eapply Hc. } commit.
Qed.

Lemma ev_transition `{!ReportCodec} id revision expected next report error :
  upholds evolves (transition_workflow_workspace id revision expected next report error).
Proof.
  destruct (transition_allowed expected next) eqn:Et.
  - unfold transition_workflow_workspace. uphold. apply ev_transition_tx; [done|].
    intros raw Hraw. destruct report as [rep|]; [|done]. injection Hraw as <-. unfold bounded_report. by rewrite report_roundtrip.
  - intros [p t] w' r. unfold transition_workflow_workspace. rewrite Et. by intros [= <- _].
Qed.

(** *** Launches *)

Lemma ev_create_launch request hash frozen : commits evolves (create_launch request hash frozen).
Proof.
  unfold create_launch. commit.
  - intros w w' u. apply ev_update_rows; [done|]. intros id x c _ Hx. split_bools. split; try done. cbn. congruence.
  - apply ev_world, (respects_create_dispatch db_kept).
Qed.
Lemma ev_reserve_launch request hash : upholds evolves (reserve_workflow_launch request hash).
Proof. pose proof ev_create_launch. unfold reserve_workflow_launch, reserve_launch_in_tx. uphold. commit. Qed.

(** The row a launch is read from is the launch of that name. *)
Lemma launch_by_id_ok id w w' l c :
  launch_by_id id w = (w', Ok (l, c)) → w' = w ∧ launch_named w id = Some l ∧ at_launches (aw_tables w) !! id = Some c.
Proof.
  unfold launch_by_id. intros Hm. attempt_inv. split; [done|]. unfold launch_where, launch_named, launches_of in *.
  revert Hm. induction (db_launches (adb w)) as [|k ls IH]; cbn; [done|].
  unfold launch_row at 1. destruct (at_launches (aw_tables w) !! l_id k) as [d|] eqn:Ed; cbn.
  - destruct (String.eqb (l_id k) id) eqn:Ek; [|exact IH]. apply String.eqb_eq in Ek as <-. by intros [= -> ->].
  - intros Hf. destruct (String.eqb (l_id k) id) eqn:Ek; [|by apply IH]. exfalso. apply String.eqb_eq in Ek as <-.
    apply IH in Hf as [_ Hc]. congruence.
Qed.

Lemma claim_ok id w w' frozen :
  claim_workflow_launch id w = (w', Ok frozen) →
  ∃ l l', launch_named w id = Some l ∧ l_status l = Ls_Reserved ∧ evolves w w' ∧
          launch_named w' id = Some l' ∧ l_status l' = Ls_Starting.
Proof.
  intros Hm. apply attempt_tx_ok in Hm. do 7 inv_ok Hm. unfold ret in Hm. simplify_eq. destruct a as [l c].
  apply launch_by_id_ok in Hstep as (-> & Hl & Hc). apply check_ok in Hstep0 as [-> Hdec]. apply check_ensure_ok in Hstep1 as [-> Hs].
  apply (areads_ok _ _ _ _ (areads_current_inputs _ _)) in Hstep2 as ->. apply aselect_ok in Hstep3 as [-> ->].
  apply check_ensure_ok in Hstep4 as [-> _].
  assert (lr_status a0 = l_status l) as Hst.
  { unfold decode_launch in Hdec. destruct (launch_request_decode _); [|done]. cbn in Hdec. by simplify_eq. }
  apply bool_decide_eq_true in Hs. rewrite Hst in Hs.
  assert (evolves w w') as Hev.
  { eapply ev_update_workflow_launches; [| |exact Hstep5]; [done|]. intros k j Hj Hk%String.eqb_eq.
    assert (j = l) as ->.
    { unfold launch_named in *. apply find_key_Some in Hj as Hj'. destruct Hj' as [_ Hid]. rewrite Hid in Hk. subst k. congruence. }
    split; [done|]. rewrite Hs. cbn. lia. }
  exists l, (with_l_updated_at now (with_l_status Ls_Starting l)). split_and!; try done.
  apply in_plan_ok in Hstep5 as (q & (v & [-> _]%update_launches_ok & ->)%in_world_ok & ->).
  unfold launch_named, launches_of, adb in *. cbn. rewrite (find_update_where l_id) by done. rewrite Hl. cbn.
  apply find_key_Some in Hl as [_ Hid]. unfold is_launch. rewrite Hid. by rewrite String.eqb_refl.
Qed.
Lemma ev_claim id : upholds evolves (claim_workflow_launch id).
Proof.
  intros w w' [frozen|e] Hm; [by apply claim_ok in Hm as (? & ? & _ & _ & ? & _)|]. revert w w' e Hm.
  unfold claim_workflow_launch, attempt_tx. intros w w' e. case_match. case_match; [done|]. intros [= <- _]. by apply insensitive.
Qed.
Lemma ev_started id : upholds evolves (mark_workflow_launch_started id).
Proof.
  unfold mark_workflow_launch_started. uphold. apply ev_any_launches; [done|]. intros l Hl. split_bools.
  split; [done|]. match goal with Hs : l_status l = _ |- _ => rewrite Hs end. cbn. lia.
Qed.
Lemma attention_moves error l : launch_moves l (with_l_error error (with_l_status Ls_Attention l)).
Proof. split; [done|]. cbn. by destruct (l_status l); cbn; lia. Qed.
Lemma ev_launch_attention id error : upholds evolves (workflow_launch_attention id error).
Proof.
  unfold workflow_launch_attention. uphold. apply ev_any_launches; [done|]. intros l _. apply attention_moves.
Qed.
Lemma ev_settle terminal reason : upholds evolves (settle_workflow_launch_without_session terminal reason).
Proof.
  unfold settle_workflow_launch_without_session. uphold. unfold settle_launch. commit.
  - intros w w' n Hm. eapply ev_any_launches; [| |exact Hm]; [done|]. intros l _. apply attention_moves.
  - intros w w' u. apply ev_update_rows; [done|]. intros id x c _ _. split; try done. apply to_attention.
  - apply ev_alter_columns. intros c. by split.
  - apply ev_world, (respects_update_dispatches db_kept).
  - apply ev_world, (respects_update_tasks db_kept).
Qed.

(** *** Integrations: nothing but the rows of integrations, evidence and SHAs *)

Lemma ev_insert_integration i c : commits evolves (insert_integration i c).
Proof. intros w w' u. unfold insert_integration. repeat (case_match; [done|]). intros [= <-]. by apply evolves_plan. Qed.
Lemma ev_update_integration p f g : upholds evolves (update_integration p f g).
Proof.
  intros w w' r. unfold update_integration. destruct (update_integrations p f (aw_plan w)) as [v [u|e]] eqn:E.
  - apply update_integrations_ok in E as [Hw _].
    destruct (integrations_unique _ _); intros [= <- _]; [|done]. apply evolves_plan; try done. unfold adb. cbn. by rewrite Hw.
  - assert (v = aw_plan w) as -> by (revert E; unfold update_integrations; by repeat (case_match; [by intros [= <- _]|])).
    intros [= <- _]. by destruct w.
Qed.
Lemma ev_update_integration_id id f g : commits evolves (update_integration_id id f g).
Proof. intros w w' u Hm. by eapply ev_update_integration. Qed.
Lemma ev_insert_evidence task row : commits evolves (insert_evidence task row).
Proof. unfold insert_evidence. commit. Qed.
Lemma ev_set_sha run sha : commits evolves (set_integration_sha run sha).
Proof. unfold set_integration_sha. commit. Qed.
Lemma ev_integrate input : upholds evolves (reserve_workflow_integration input).
Proof. pose proof ev_insert_integration. unfold reserve_workflow_integration, reserve_integration_in_tx. uphold. commit. Qed.
Lemma ev_prepared id outcome : upholds evolves (record_workflow_integration_preparation id outcome).
Proof.
  pose proof ev_update_integration_id. unfold record_workflow_integration_preparation, apply_preparation. uphold. commit.
Qed.
Lemma ev_complete_integration receipt : upholds evolves (complete_workflow_integration receipt).
Proof.
  pose proof ev_update_integration_id. pose proof ev_insert_evidence. pose proof ev_set_sha.
  unfold complete_workflow_integration, complete_in_tx, integrate_receipt. uphold. commit.
Qed.
Lemma ev_integration_attention id error : upholds evolves (workflow_integration_attention id error).
Proof. unfold workflow_integration_attention. uphold. apply ev_update_integration. Qed.
Lemma ev_settle_cancelled id receipt : upholds evolves (settle_cancelled_workflow_integration id receipt).
Proof.
  unfold settle_cancelled_workflow_integration. uphold. commit. intros w w' u Hm. by eapply ev_update_integration.
Qed.

(** *** Cleanup *)

Lemma ev_set_cleanup id row : commits evolves (set_cleanup id row).
Proof. unfold set_cleanup. by apply ev_attempt_tables. Qed.
Lemma ev_cleanup_event run id kind n : commits evolves (record_cleanup_event run id kind n).
Proof. unfold record_cleanup_event. commit. Qed.
Lemma ev_insert_claim id item : commits evolves (insert_claim id item).
Proof.
  intros w w' u Hm. unfold insert_claim in Hm. inv_ok Hm. apply aselect_ok in Hstep as [-> ->].
  destruct (at_claims _ !! _) as [k|] eqn:E; cbn in Hm.
  - done.
  - unfold in_attempts, modify in Hm. simplify_eq. apply evolves_plan; try done.
    unfold retired. cbn. intros k Hk. rewrite lookup_insert_ne; [done|]. intros <-. by rewrite E in Hk.
Qed.
Lemma ev_insert_claims id items : commits evolves (insert_claims id items).
Proof.
  induction items as [|item items IH]; cbn [insert_claims]; [commit|]. pose proof ev_insert_claim. commit.
Qed.
Lemma ev_retire_claim id workspace : commits evolves (retire_claim id workspace).
Proof.
  apply ev_attempt_tables; try done. intros t k Hk. cbn. destruct (decide (k = workspace)) as [->|Hne].
  - by rewrite lookup_insert_eq.
  - by rewrite lookup_insert_ne.
Qed.
Lemma ev_remove_workspace workspace : commits evolves (remove_workspace_in_transaction workspace).
Proof. unfold remove_workspace_in_transaction. commit. by apply ev_attempt_tables. Qed.
Lemma ev_release id : commits evolves (in_attempts (release_claims id)).
Proof.
  apply ev_attempt_tables; try done. intros t k Hk. unfold release_claims. cbn.
  destruct (at_claims t !! k) as [claim|] eqn:E; [|done]. cbn in Hk. injection Hk as Hk.
  erewrite (map_lookup_filter_Some_2 _ _ _ claim); [cbn; by rewrite Hk|done|]. cbn. rewrite Hk. by intros [_ ?].
Qed.
Lemma ev_preview clock id run items : upholds evolves (publish_workflow_cleanup_preview clock id run items).
Proof.
  pose proof ev_set_cleanup. pose proof ev_cleanup_event. unfold publish_workflow_cleanup_preview. uphold. commit.
Qed.
Lemma ev_claim_cleanup clock id digest : upholds evolves (claim_workflow_cleanup clock id digest).
Proof.
  pose proof ev_set_cleanup. pose proof ev_insert_claims. unfold claim_workflow_cleanup. uphold. commit.
Qed.
Lemma ev_retire id digest workspace : upholds evolves (record_workflow_cleanup_retirement id digest workspace).
Proof.
  pose proof ev_set_cleanup. pose proof ev_cleanup_event. pose proof ev_retire_claim. pose proof ev_remove_workspace.
  unfold record_workflow_cleanup_retirement, retire_workspace. uphold. commit.
Qed.
Lemma ev_abandon id digest : upholds evolves (abandon_workflow_cleanup id digest).
Proof.
  pose proof ev_set_cleanup. pose proof ev_cleanup_event. pose proof ev_release.
  unfold abandon_workflow_cleanup. uphold. commit.
Qed.
Lemma ev_cleanup_attention id digest error : upholds evolves (mark_workflow_cleanup_attention id digest error).
Proof. pose proof ev_set_cleanup. unfold mark_workflow_cleanup_attention. uphold. commit. Qed.
Lemma ev_resume_cleanup id digest : upholds evolves (resume_workflow_cleanup id digest).
Proof. pose proof ev_set_cleanup. unfold resume_workflow_cleanup. uphold. commit. Qed.

Lemma step_evolves `{!ReportCodec} w w' : attempt_step w w' → evolves w w'.
Proof.
  destruct 1.
  - apply evolves_plan; [by apply (operation_framed db_kept); match goal with Hs : store_operation _ _ |- _ => apply Hs end|congruence|by replace (aw_tables w') with (aw_tables w)|].
    unfold retired. by replace (aw_tables w') with (aw_tables w).
  - apply evolves_plan; [by apply run_step_kept|congruence|by replace (aw_tables w') with (aw_tables w)|].
    unfold retired. by replace (aw_tables w') with (aw_tables w).
  - by eapply ev_reserve.
  - by eapply ev_transition.
  - by eapply ev_reserve_launch.
  - by eapply ev_claim.
  - by eapply ev_started.
  - by eapply ev_launch_attention.
  - by eapply ev_settle.
  - by eapply ev_integrate.
  - by eapply ev_prepared.
  - by eapply ev_complete_integration.
  - by eapply ev_integration_attention.
  - by eapply ev_settle_cancelled.
  - by eapply ev_preview.
  - by eapply ev_claim_cleanup.
  - by eapply ev_retire.
  - by eapply ev_abandon.
  - by eapply ev_cleanup_attention.
  - by eapply ev_resume_cleanup.
Qed.
End Operations.

(** What triggers and resets leave of attempts. *)
Lemma revokes_db_kept cause p p' : revokes cause p p' → db_kept (w_db (pw_world p)) (w_db (pw_world p')).
Proof. intros Hr. rewrite (rv_db _ _ _ Hr). by apply db_kept_same. Qed.
Lemma reset_ok `{Env} p p' r :
  reset_orchestration p = (p', r) →
  (w_db (pw_world p') = w_db (pw_world p) ∧ pw_tables p' = pw_tables p) ∨
  (pw_tables p' = cascade_reset (pw_tables p) ∧
   w_db (pw_world p') = set_tasks [] (set_dispatches [] (set_gates [] (set_events [] (set_runs [] (w_db (pw_world p))))))).
Proof.
  unfold reset_orchestration, plan_tx, bind, pselect, gets. unfold in_world at 1, reset_orchestration_tasks, tx, bind, select, gets.
  destruct (existsb _ (db_launches _)); cbn; [intros [= <- _]; by left|].
  destruct (existsb _ (pl_targets _)); cbn; intros [= <- _]; [by left|by right].
Qed.

Section Histories.
Context `{Env, ContractLib, RecipeLib, PlanLib, ProposalLib, ControlLib, GateLib, StepLib, SourceJson, ReportLib, AttemptLib, LaunchLib, IntegrationLib, CleanupLib}.

Lemma event_split (R : relation AttemptWorld) `{!Transitive R} w w' :
  (∀ moment w1, attempt_step (H := at_time _ moment) w w1 → R w w1) →
  (∀ cause w1, revokes cause (aw_plan w1) (aw_plan w') → aw_tables w' = aw_tables w1 → R w1 w') →
  attempt_event w w' → R w w'.
Proof.
  intros Hstep Hrev (moment & w1 & Hs & Ht & Htab). transitivity w1; [by eapply Hstep|].
  by eapply Hrev; [apply (triggered_revokes (H := at_time _ moment))|].
Qed.

Lemma evolves_kept w w' :
  db_kept (adb w) (adb w') → aw_tables w' = aw_tables w → evolves w w'.
Proof. intros Hk Ht. apply evolves_plan; [done|by rewrite Ht|by rewrite Ht|]. unfold retired. by rewrite Ht. Qed.

Lemma tick_evolves `{!ReportCodec} w w' : attempt_tick w w' → evolves w w'.
Proof.
  intros [He|(r & Hr & Ht)].
  - revert He. apply event_split; [apply _| |].
    + intros moment w1. apply (step_evolves (H := at_time _ moment)).
    + intros cause w1 Hr%revokes_db_kept Ht. by apply evolves_kept.
  - apply evolves_kept; [|done]. unfold adb. apply reset_ok in Hr as [[-> _]|[_ ->]]; [done|by apply db_kept_same].
Qed.
Lemma steps_evolve `{!ReportCodec} w w' : rtc attempt_tick w w' → evolves w w'.
Proof. induction 1; [done|]. by etransitivity; [apply tick_evolves|]. Qed.

(** ** Theorems *)

(** [C27] An attempt keeps what it is and only moves forward: however reservations,
    transitions, launches, integrations, cleanups, plans, commands, dispatches and
    resets follow each other, the run, revision, task, attempt number, path and recorded
    identity of a workspace row never change, its phase advances along the legal
    transitions only, an attempt that needs attention stays there, and a dispatch
    once bound to it is never replaced. *)
Theorem attempts_move_forward `{!ReportCodec} (w w' : AttemptWorld) (id : string) (x : RunWorkspace) (c : WorkspaceColumns) :
  rtc attempt_tick w w' → attempt_row w id = Some (x, c) →
  ∃ x' c', attempt_row w' id = Some (x', c') ∧
    (x_run_id x', x_revision x', x_task_id x', x_attempt x') = (x_run_id x, x_revision x, x_task_id x, x_attempt x) ∧
    (wc_path c', wc_identity c') = (wc_path c, wc_identity c) ∧
    rtc phase_moves (x_phase x) (x_phase x') ∧ (x_phase x = Wp_Attention → x_phase x' = Wp_Attention) ∧
    (∀ d, x_dispatch_id x = Some d → x_dispatch_id x' = Some d).
Proof.
  intros Hs Hx. destruct (ev_attempts _ _ (steps_evolve _ _ Hs) _ _ _ Hx) as (x' & c' & Hx' & [] & []).
  exists x', c'. split_and!; try done; [congruence|congruence|]. intros Ha. rewrite Ha in *. by apply attention_final.
Qed.

(** [C12] A worker is started at most once per launch: after a launch was claimed no
    later claim of it succeeds, whatever happens in between, failures,
    settlements and completions included. *)
Theorem launch_claimed_once `{!ReportCodec} (id : string) (w w1 w2 w3 : AttemptWorld) (frozen frozen' : WorkflowLaunchInputs) :
  claim_workflow_launch id w = (w1, Ok frozen) → rtc attempt_tick w1 w2 → claim_workflow_launch id w2 ≠ (w3, Ok frozen').
Proof.
  intros (l & l1 & _ & _ & _ & Hl1 & Hs1)%claim_ok Hsteps (l2 & l3 & Hl2 & Hs2 & _)%claim_ok.
  destruct (ev_launches _ _ (steps_evolve _ _ Hsteps) _ _ Hl1) as (l2' & Hl2' & _ & Hr). simplify_eq.
  rewrite Hs1, Hs2 in Hr. cbn in Hr. lia.
Qed.

Lemma decode_ok x c record :
  decode_workspace (x, c) = Ok record →
  identity_decode (wc_identity c) = Some (wrec_identity record) ∧ wrec_phase record = x_phase x ∧ reports_decode c.
Proof.
  unfold decode_workspace, reports_decode. destruct (identity_decode (wc_identity c)) as [i|]; [|done]. cbn.
  destruct (wc_setup_report c) as [raw|]; cbn; [destruct (report_decode raw) as [r|] eqn:E; cbn|].
  all: intros Hd; simplify_eq; split_and!; try done. intros raw' [= <-]. by eexists.
Qed.
Lemma decode_moved x c x' c' record :
  decode_workspace (x, c) = Ok record → columns_move c c' → row_moves x x' →
  ∃ record', decode_workspace (x', c') = Ok record' ∧ wrec_identity record' = wrec_identity record ∧
             rtc phase_moves (wrec_phase record) (wrec_phase record').
Proof.
  intros (Hi & Hp & Hr)%decode_ok [_ _ Hid Hrep] Hx. unfold decode_workspace. rewrite Hid, Hi, Hp. cbn.
  destruct (wc_setup_report c') as [raw|] eqn:E; [|eexists; split_and!; [done..|apply Hx]].
  destruct (Hrep Hr _ E) as [r Hd]. rewrite Hd. eexists. split_and!; [done..|apply Hx].
Qed.

Lemma check_pass {A} (r : R A) a (w : AttemptWorld) : r = Ok a → check r w = (w, Ok a).
Proof. intros ->. by destruct w. Qed.
Lemma workspace_read id w record :
  workflow_workspace id w = (w, Ok record) ↔ ∃ x c, attempt_row w id = Some (x, c) ∧ decode_workspace (x, c) = Ok record.
Proof.
  split.
  - unfold workflow_workspace. intros Hm. do 2 inv_ok Hm. apply aselect_ok in Hstep as [-> ->].
    apply check_some_ok in Hstep0 as [-> Hrow]. apply check_ok in Hm as [_ Hd]. destruct a0 as [x c]. eauto.
  - intros (x & c & Hrow & Hd). unfold workflow_workspace, bind, aselect, gets.
    fold (adb w). change (workspace_row (adb w) (aw_tables w) id) with (attempt_row w id). rewrite Hrow.
    rewrite (check_pass _ (x, c)) by done. by apply check_pass.
Qed.

(** [C31] Reserving a workspace can be repeated: the same request, at any later time
    and with whatever candidate, changes nothing and answers the workspace of the
    first time with the phase it has reached. *)
Theorem reservation_replays `{!ReportCodec} (request : PrepareWorkflowWorkspace) (candidate candidate' : Workspace)
    (w w1 w2 : AttemptWorld) (record : WorkflowWorkspaceRecord) :
  reserve_workflow_workspace request candidate w = (w1, Ok record) → rtc attempt_tick w1 w2 →
  ∃ record', reserve_workflow_workspace request candidate' w2 = (w2, Ok record') ∧
    wrec_identity record' = wrec_identity record ∧ rtc phase_moves (wrec_phase record) (wrec_phase record').
Proof.
  intros Hm Hsteps. pose proof (steps_evolve _ _ Hsteps) as Hev.
  assert (∃ id, workflow_workspace id w1 = (w1, Ok record) ∧
    at_requests (aw_tables w1) !! prep_request_id request = Some (MkWorkspaceRequest (reserve_digest request) id)) as (id & Hrec & Hreq).
  { apply reserve_ok in Hm as (id & Hrec & [[-> (r & Hr & Hd & Hid)]|(_ & plan & sha & v & target & _ & _ & _ & ->)]).
    - exists id. split; [done|]. rewrite Hr. destruct r. cbn in *. by subst.
    - exists id. split; [done|]. cbn. apply lookup_insert_eq. }
  apply workspace_read in Hrec as (x & c & Hrow & Hdec).
  destruct (ev_attempts _ _ Hev _ _ _ Hrow) as (x' & c' & Hrow' & Hx & Hc).
  destruct (decode_moved _ _ _ _ _ Hdec Hc Hx) as (record' & Hdec' & Hi & Hp). exists record'. split; [|done].
  eapply lookup_weaken in Hreq; [|apply (ev_requests _ _ Hev)].
  unfold reserve_workflow_workspace in *. do 4 inv_ok Hm. apply check_ok in Hstep as [-> Ht], Hstep0 as [-> Ht0], Hstep1 as [-> Ht1], Hstep2 as [-> Ht2].
  unfold bind at 1. rewrite (check_pass _ _ _ Ht). unfold bind at 1. rewrite (check_pass _ _ _ Ht0).
  unfold bind at 1. rewrite (check_pass _ _ _ Ht1). unfold bind at 1. rewrite (check_pass _ _ _ Ht2).
  unfold bind at 1, attempt_tx, reserve_in_tx, bind at 1, aselect, gets. rewrite Hreq. cbn [wr_digest wr_workspace_id].
  rewrite String.eqb_refl. unfold bind. rewrite (check_pass _ tt) by done. unfold ret at 1.
  apply workspace_read. eauto.
Qed.
End Histories.
