(* ===== verification/LaunchFacts.v ===== *)
(** * LaunchFacts: a launch is reserved whole

    What a new launch needs ([launch_allowed]) and the four tables it writes in
    one transaction: the launch, the attempt bound to its dispatch, the dispatch
    awaiting its worker and the dispatched task. *)

From S2P Require Import Prelude Text Models Store StoreFacts RoleContract Dispatch Gates Runs SetupReport Lifecycle Ordering Recipe RecipeFacts Plan Catalog Execution PlanStore PlanStoreFacts RunControl RunControlFacts GateResolution ExecutionStore Attempts Launches ExecutionStoreFacts RunHistory AttemptFacts AttemptHistory.
From Stdlib Require Import ZArith Lia Ascii String.
From stdpp Require Import strings gmap pretty prelude relations.

Section Launch.
Context `{Env, ContractLib, RecipeLib, PlanLib, ProposalLib, ControlLib, GateLib, StepLib, SourceJson, ReportLib, AttemptLib, LaunchLib}.

(** What a launch of a task in an attempt needs. *)
Record launch_allowed (request : LaunchWorkflowTask) (w : AttemptWorld) (frozen : WorkflowLaunchInputs) : Prop := {
  la_plan : ∃ plan sha, approved_plan (lt_run_id request) (lt_revision request) (aw_plan w) = (aw_plan w, Ok (plan, sha)) ∧
    eligible_task_state (adb w) (apt w) (lt_run_id request) (lt_revision request) (lt_task_id request) plan [Ts_Pending; Ts_Ready] = Ok tt ∧
    owned_by_plan plan (li_workspace frozen) = true ∧ ps_profiles plan !! ft_profile_id (li_task frozen) = Some (li_profile frozen) ∧
    (active_attempts (adb w) (lt_run_id request) (lt_revision request) ≤ ps_max_concurrent plan)%Z;
  la_running : run_is_running (adb w) (lt_run_id request) (lt_revision request) = true;
  la_settled : unsettled_integration (lt_run_id request) (apt w) = false;
  la_latest : x_id <$> current_attempt (adb w) (lt_task_id request) = Some (lt_workspace_id request);
  la_attempt : ∃ x c, attempt_row w (lt_workspace_id request) = Some (x, c) ∧ x_phase x = Wp_Ready ∧ x_dispatch_id x = None ∧
    identity_decode (wc_identity c) = Some (li_workspace frozen) ∧ wi_run_id (li_workspace frozen) = lt_run_id request ∧
    wi_task_id (li_workspace frozen) = Some (lt_task_id request)
}.

Lemma fetch_workspace_ok id w w' record :
  fetch_workspace id w = (w', Ok record) → w' = w ∧ ∃ x c, attempt_row w id = Some (x, c) ∧ decode_workspace (x, c) = Ok record.
Proof. unfold fetch_workspace. intros Hm. attempt_inv. split; [done|]. destruct a0 as [x c]. eauto. Qed.

Lemma decode_dispatch x c record : decode_workspace (x, c) = Ok record → wrec_dispatch_id record = x_dispatch_id x.
Proof.
  unfold decode_workspace. destruct (identity_decode _); [|done]. cbn.
  destruct (wc_setup_report c); cbn; [destruct (report_decode _); cbn|]; naive_solver.
Qed.

Lemma inputs_allowed request w w' frozen : inputs request false w = (w', Ok frozen) → w' = w ∧ launch_allowed request w frozen.
Proof.
  intros Hm. pose proof (areads_ok _ _ _ _ (areads_inputs _ _) Hm) as ->. split; [done|]. unfold inputs in Hm. inv_ok Hm.
  apply in_plan_reads in Hstep as [-> Hp]; [|apply reads_approved_plan]. inv_ok Hm.
  apply in_plan_reads in Hstep as [-> Hrun]; [|apply reads_running]. destruct a as [plan sha]. cbn [fst snd] in *.
  unfold require_running in Hrun. inv_ok Hrun. apply pselect_ok in Hstep as [_ ->]. apply guard_ok in Hrun as [_ Hrun].
  do 5 inv_ok Hm. apply fetch_workspace_ok in Hstep3 as [-> (x & c & Hrow & Hdec)].
  apply aselect_ok in Hstep as [-> ->], Hstep1 as [-> ->]. apply check_ensure_ok in Hstep0 as [-> Hun]. apply check_ok in Hstep2 as [-> Hel].
  destruct a3. inv_ok Hm. unfold require_resource in Hstep. inv_ok Hstep. apply aselect_ok in Hstep0 as [-> ->].
  apply check_ensure_ok in Hstep as [-> Hres]. do 4 inv_ok Hm. apply check_ensure_ok in Hstep as [-> Hown].
  apply aselect_ok in Hstep0 as [-> ->]. apply fetch_one_ok in Hstep1 as [-> Hlat]. apply check_ensure_ok in Hstep2 as [-> Heq].
  inv_ok Hm. apply in_plan_reads in Hstep as [-> Hfr]; [|apply reads_frozen]. attempt_inv.
  split_bools. apply String.eqb_eq in Heq as ->. destruct (decode_ok _ _ _ Hdec) as (Hi & Hph & _).
  cbn [orb] in Hstep0. apply bool_decide_eq_true in Hstep0.
  pose proof (decode_dispatch _ _ _ Hdec) as Hd. split; cbn.
  - exists plan, sha. split_and!; try done. by apply Z.leb_le.
  - done.
  - done.
  - done.
  - exists x, c. split_and!; try done; [congruence|congruence|by apply String.eqb_eq].
Qed.

(** What a new reservation leaves: everything it writes, and nothing else but the timeline. *)
Lemma create_launch_ok request hash frozen w w' id :
  create_launch request hash frozen w = (w', Ok id) →
  ∃ terminal dispatch,
    let l := MkWorkflowLaunch id (lt_run_id request) (lt_revision request) (lt_task_id request) (lt_workspace_id request)
               terminal dispatch (wi_base_sha (li_workspace frozen)) hash Ls_Reserved None now in
    let d := new_dispatch_row (MkNewRunDispatch dispatch (lt_task_id request) (Some (lt_run_id request)) (lt_workspace_id request)
               (Some hash) 0 (Target_Attempt (lt_workspace_id request) terminal id (ap_name (li_profile frozen))
                                (ap_quota_group (li_profile frozen)))) in
    launches_of w' = launches_of w ++ [l] ∧
    (∀ m, m ∈ launches_of w → l_id m ≠ id ∧ l_workspace_id m ≠ lt_workspace_id request ∧ l_terminal_handle m ≠ terminal ∧ l_dispatch_id m ≠ dispatch) ∧
    db_dispatches (adb w') = db_dispatches (adb w) ++ [d] ∧ (dispatch ∉ (d_id <$> db_dispatches (adb w))) ∧
    db_tasks (adb w') = update_where (λ t, String.eqb (t_id t) (lt_task_id request)) (with_t_status Ts_Dispatched) (db_tasks (adb w)) ∧
    workspaces_of w' = update_where (λ x, String.eqb (x_id x) (lt_workspace_id request) && bool_decide (x_dispatch_id x = None))
                         (with_x_dispatch_id (Some dispatch)) (workspaces_of w) ∧
    apt w' = apt w ∧ lc_inputs <$> at_launches (aw_tables w') !! id = Some (launch_inputs_encode frozen).
Proof.
  unfold create_launch. intros Hm. do 7 inv_ok Hm. unfold ret in Hm. simplify_eq.
  apply in_plan_ok in Hstep as (p1 & Hp1 & ->), Hstep0 as (p2 & Hp2 & ->), Hstep1 as (p3 & Hp3 & ->).
  unfold new_uuid in Hp1, Hp2, Hp3. simplify_eq. apply aselect_ok in Hstep2 as [-> ->].
  unfold insert_launch in Hstep3. destruct (existsb _ _) eqn:Efresh; [done|]. injection Hstep3 as <-.
  apply in_plan_ok in Hstep4 as (p4 & (v4 & Hv4 & ->)%in_world_ok & ->). unfold modify in Hv4. simplify_eq.
  apply in_plan_ok in Hstep5 as (p5 & (v5 & (Hd & w1 & (evs & seq & Hv5) & ->)%create_run_dispatch_ok & ->)%in_world_ok & ->).
  eexists _, _. cbn zeta. unfold launches_of, workspaces_of, adb, apt. cbn [aw_plan pw_world pw_tables aw_tables]. rewrite Hv5.
  split_and!; try reflexivity.
  - intros m Hm. apply not_true_iff_false in Efresh.
    split_and!; intros Heq; apply Efresh, existsb_exists; exists m; (split; [by apply list_elem_of_In|]);
      cbn; rewrite Heq, String.eqb_refl; by rewrite ?orb_true_r.
  - exact Hd.
  - cbn. by rewrite lookup_insert_eq.
Qed.

(** [C23] A worker is launched whole or not at all: a launch that is not a replay is
    allowed by the plan as it stands, the run runs the revision, no integration is
    unsettled, the task is eligible and the attempt is its latest, ready and never
    dispatched; the launch, the attempt's dispatch, the dispatch that awaits its
    worker in the launch's own terminal and the dispatched task are written
    together, each for one launch only. *)
Theorem launch_reserved_whole (request : LaunchWorkflowTask) (hash : string) (w w' : AttemptWorld) (record : WorkflowLaunchRecord) :
  reserve_workflow_launch request hash w = (w', Ok (record, true)) →
  ∃ frozen id terminal dispatch, launch_allowed request w frozen ∧
    let l := MkWorkflowLaunch id (lt_run_id request) (lt_revision request) (lt_task_id request) (lt_workspace_id request)
               terminal dispatch (wi_base_sha (li_workspace frozen)) hash Ls_Reserved None now in
    launches_of w' = launches_of w ++ [l] ∧
    (∀ m, m ∈ launches_of w → l_id m ≠ id ∧ l_workspace_id m ≠ lt_workspace_id request ∧ l_terminal_handle m ≠ terminal ∧ l_dispatch_id m ≠ dispatch) ∧
    (∃ d, db_dispatches (adb w') = db_dispatches (adb w) ++ [d] ∧ d_id d = dispatch ∧ d_task_id d = lt_task_id request ∧
       d_status d = Ds_AwaitingAcceptance ∧ d_assignee_handle d = Some terminal ∧ d_workspace_id d = lt_workspace_id request ∧
       d_context_token_hash d = Some hash) ∧
    db_tasks (adb w') = update_where (λ t, String.eqb (t_id t) (lt_task_id request)) (with_t_status Ts_Dispatched) (db_tasks (adb w)) ∧
    x_dispatch_id <$> find_where (λ x, String.eqb (x_id x) (lt_workspace_id request)) (workspaces_of w') = Some (Some dispatch) ∧
    lc_inputs <$> at_launches (aw_tables w') !! id = Some (launch_inputs_encode frozen).
Proof.
  unfold reserve_workflow_launch. intros Hm. do 3 inv_ok Hm. apply check_ok in Hstep as [-> _], Hstep0 as [-> _].
  apply attempt_tx_ok in Hstep1. destruct a1 as [r|id]; [inv_ok Hm|].
  inv_ok Hm. pose proof (areads_ok _ _ _ _ (areads_workflow_launch _) Hstep) as ->. inv_ok Hm. clear Hstep.
  unfold reserve_launch_in_tx in Hstep1. inv_ok Hstep1. apply aselect_ok in Hstep as [-> ->].
  destruct (launch_where _ _ _); [by do 2 inv_ok Hstep1|]. do 2 inv_ok Hstep1. unfold ret in Hstep1. simplify_eq.
  apply inputs_allowed in Hstep as [-> Hall]. apply create_launch_ok in Hstep0 as (terminal & dispatch & Hl & Hfresh & Hd & _ & Ht & Hx & _ & Hi).
  exists a1, id, terminal, dispatch. split; [done|]. cbn zeta. split_and!; try done.
  - eexists. split; [exact Hd|done].
  - rewrite Hx, (find_update_where x_id) by done. destruct (la_attempt _ _ _ Hall) as (x & c & Hrow & _ & Hnone & _).
    apply attempt_row_Some in Hrow as [Hrow _]. rewrite Hrow. cbn. apply find_key_Some in Hrow as [_ ->].
    by rewrite String.eqb_refl, Hnone.
Qed.
End Launch.
