(* ===== verification/IntegrationFacts.v ===== *)
(** * IntegrationFacts: the line of integrations of a run

    Along every sequence of calls ([attempt_step]) the integrated receipts of a
    run form one line from the SHA it started with to the SHA it is at
    ([line]), a run has at most one unsettled integration, and the evidence of a
    task is what its integrated receipt says ([integrations_ok]). *)

From S2P Require Import Prelude Text Models Store StoreFacts RoleContract Dispatch Gates Runs SetupReport Reachability Ordering Recipe RecipeFacts Plan Catalog Execution PlanStore PlanStoreFacts RunControl RunControlFacts GateResolution ExecutionStore Attempts Launches Integrations Cleanup ExecutionStoreFacts RunTriggers RunHistory AttemptFacts AttemptHistory.
From Stdlib Require Import ZArith Lia Ascii String.
From stdpp Require Import strings gmap pretty prelude relations sorting.

(** ** Rows *)

Abbreviation irow := (RunIntegration * IntegrationColumns)%type.
Definition irows (w : AttemptWorld) : list irow := integration_rows (apt w) (aw_tables w).
Definition sha_of (w : AttemptWorld) (run : string) : string := default "" (pl_runs (apt w) !! run ≫= rp_integration_sha).
Definition evidence_of (w : AttemptWorld) : gmap string TaskEvidenceRow := pl_evidence (apt w).

(** The columns no update writes. *)
Definition columns_key (c : IntegrationColumns) : string * string * Z * string * string :=
  (ic_id c, ic_request_digest c, ic_revision c, ic_task_id c, ic_request c).
Definition row_rel (p : RunIntegration → bool) (f : RunIntegration → RunIntegration) (r r' : irow) : Prop :=
  fst r' = (if p (fst r) then f (fst r) else fst r) ∧ columns_key (snd r') = columns_key (snd r).

(** Integrated SHAs in the order of their completion. *)
Fixpoint line (from : string) (links : list (string * string)) (to : string) : Prop :=
  match links with
  | [] => from = to
  | (expected, integrated) :: rest => expected = from ∧ line integrated rest to
  end.
Lemma line_snoc from links mid expected integrated :
  line from links mid → expected = mid → line from (links ++ [(expected, integrated)]) integrated.
Proof.
  intros Hl ->. revert from Hl. induction links as [|[e i] links IH]; cbn; intros from Hl; [by subst|].
  destruct Hl as [-> Hl]. split; [done|]. by apply IH.
Qed.

Section Rows.
Context `{IntegrationLib}.

(** What an integrated row says. *)
Record integrated_as (r : irow) (rq : WorkflowIntegrationRequest) (rc : WorkflowIntegrationReceipt) : Prop := {
  ia_state : ig_state (fst r) = In_Integrated;
  ia_request : integration_request_decode (ic_request (snd r)) = Some rq;
  ia_receipt : ig_receipt (fst r) ≫= receipt_decode = Some rc
}.
Definition evidence_row (rq : WorkflowIntegrationRequest) (rc : WorkflowIntegrationReceipt) : TaskEvidenceRow :=
  MkTaskEvidenceRow (iq_result_digest rq) (rc_artifact_digest rc) (rc_integrated_sha rc).

Definition link_of (run : string) (r : irow) : option (string * string) :=
  if bool_decide (ig_state (fst r) = In_Integrated) && String.eqb (ig_run_id (fst r)) run
  then rq ← integration_request_decode (ic_request (snd r)); raw ← ig_receipt (fst r); rc ← receipt_decode raw;
       Some (iq_expected_sha rq, rc_integrated_sha rc)
  else None.
Definition links_of (w : AttemptWorld) (run : string) : list (string * string) := omap (link_of run) (irows w).

Definition unsettled_runs (w : AttemptWorld) : list string :=
  ig_run_id <$> List.filter (λ i, unsettled_state (ig_state i)) (pl_integrations (apt w)).

(** A row stores the request of its own run and task. *)
Definition row_bound (r : irow) : Prop :=
  ∃ rq, integration_request_decode (ic_request (snd r)) = Some rq ∧
    iq_run_id rq = ig_run_id (fst r) ∧ iq_task_id rq = ic_task_id (snd r) ∧ iq_id rq = ic_id (snd r).

(** The evidence rows some of [l] account for. *)
Definition accounts (l : list irow) (task : string) (e : TaskEvidenceRow) : Prop :=
  ∃ r : irow, r ∈ l ∧ ∃ rq rc, integrated_as r rq rc ∧ ic_task_id (snd r) = task ∧ e = evidence_row rq rc.

(** [start] is the SHA each run started from; the tasks in [lost] no longer have
    the result that was integrated. *)
Record integrations_ok (start : string → string) (lost : string → Prop) (w : AttemptWorld) : Prop := {
  io_ids : NoDup ((λ r : irow, ic_id (snd r)) <$> irows w);
  io_bound : Forall row_bound (irows w);
  io_line : ∀ run, ∃ links, links ≡ₚ links_of w run ∧ line (start run) links (sha_of w run);
  io_evidence : ∀ task e, evidence_of w !! task = Some e → accounts (irows w) task e;
  io_accounts : ∀ task e, accounts (irows w) task e → evidence_of w !! task = Some e ∨ lost task;
  io_unsettled : NoDup (unsettled_runs w)
}.

(** ** Updates *)

Lemma irows_elem w i c : (i, c) ∈ irows w ↔ i ∈ pl_integrations (apt w) ∧ at_integrations (aw_tables w) !! ig_request_id i = Some c.
Proof.
  unfold irows, integration_rows. rewrite list_elem_of_omap. split.
  - intros (j & Hj & (d & Hd & [= -> ->])%fmap_Some). done.
  - intros [Hi Hc]. exists i. split; [done|]. by rewrite Hc.
Qed.

(** Columns that only lost their conflict report are the same rows. *)
Lemma alter_all_key (g : IntegrationColumns → IntegrationColumns) (l : list RunIntegration) m k :
  (∀ c, columns_key (g c) = columns_key c) →
  columns_key <$> foldr (λ i m, alter g (ig_request_id i) m) m l !! k = columns_key <$> (m : gmap string IntegrationColumns) !! k.
Proof.
  intros Hg. induction l as [|i l IH]; cbn; [done|]. destruct (decide (ig_request_id i = k)) as [->|Hne].
  - rewrite lookup_alter_eq, <-IH. destruct (foldr _ _ l !! k); cbn; [by rewrite Hg|done].
  - by rewrite lookup_alter_ne.
Qed.

Lemma irows_update p f (rows : list RunIntegration) (m m' : gmap string IntegrationColumns) :
  (∀ i, ig_request_id (f i) = ig_request_id i) → (∀ k, columns_key <$> m' !! k = columns_key <$> m !! k) →
  Forall2 (row_rel p f) (omap (λ i, (λ c, (i, c)) <$> m !! ig_request_id i) rows)
    (omap (λ i, (λ c, (i, c)) <$> m' !! ig_request_id i) (update_where p f rows)).
Proof.
  intros Hf Hm. induction rows as [|i rows IH]; cbn; [constructor|].
  assert (ig_request_id (if p i then f i else i) = ig_request_id i) as Hk by (by destruct (p i)).
  rewrite Hk. specialize (Hm (ig_request_id i)).
  destruct (m !! ig_request_id i) as [c|], (m' !! ig_request_id i) as [c'|]; cbn in Hm |- *; try discriminate; [|exact IH].
  constructor; [|exact IH]. split; [done|]. cbn. congruence.
Qed.

Lemma update_integration_ok p f g w w' u :
  (∀ i, ig_request_id (f i) = ig_request_id i) → (∀ c, columns_key (g c) = columns_key c) →
  update_integration p f g w = (w', Ok u) →
  Forall2 (row_rel p f) (irows w) (irows w') ∧
  (∀ i, i ∈ pl_integrations (apt w) → p i = true → ig_state i ≠ In_Integrated ∧ ig_cancelled i = false) ∧
  apt w' = set_pl_integrations (update_where p f (pl_integrations (apt w))) (apt w) ∧ adb w' = adb w ∧
  NoDup (unsettled_runs w').
Proof.
  intros Hf Hg. unfold update_integration, update_integrations.
  destruct (existsb (λ i, p i && bool_decide _) _) eqn:E1; [done|]. destruct (existsb (λ i, p i && ig_cancelled i) _) eqn:E2; [done|].
  destruct (integrations_unique _ _) eqn:E3; [|done]. intros [= <-]. unfold irows, apt. cbn [aw_plan aw_tables pw_tables]. split_and!; try done.
  - apply irows_update; [done|]. intros k. cbn. by apply alter_all_key.
  - intros i Hi Hp. apply not_true_iff_false in E1, E2. split.
    + intros Hs. apply E1, existsb_exists. exists i. split; [by apply list_elem_of_In|]. rewrite Hp. by rewrite bool_decide_true.
    + destruct (ig_cancelled i) eqn:Ec; [|done]. exfalso. apply E2, existsb_exists. exists i. split; [by apply list_elem_of_In|]. by rewrite Hp.
  - unfold integrations_unique in E3. by split_bools.
Qed.
End Rows.

(** ** Rows that say the same *)

Definition row_quiet (r r' : irow) : Prop :=
  columns_key (snd r') = columns_key (snd r) ∧ ig_run_id (fst r') = ig_run_id (fst r) ∧
  (fst r' = fst r ∨ (ig_state (fst r) ≠ In_Integrated ∧ ig_state (fst r') ≠ In_Integrated)).

Section Quiet.
Context `{IntegrationLib}.

Lemma quiet_links run l l' : Forall2 row_quiet l l' → omap (link_of run) l' = omap (link_of run) l.
Proof.
  induction 1 as [|[i c] [i' c'] l l' (Hk & Hr & Hi) _ IH]; cbn; [done|]. rewrite IH. unfold columns_key in Hk. cbn in *. simplify_eq.
  assert (link_of run (i', c') = link_of run (i, c)) as ->; [|done]. unfold link_of. cbn. destruct Hi as [->|[Hn Hn']]; [by replace (ic_request c') with (ic_request c)|].
  by rewrite !bool_decide_false.
Qed.
Lemma quiet_integrated r r' rq rc : row_quiet r r' → integrated_as r' rq rc ↔ integrated_as r rq rc.
Proof.
  intros (Hk & _ & Hi). unfold columns_key in Hk. injection Hk as _ _ _ _ Hreq.
  split; intros [Hs Hq Hc]; destruct Hi as [Hi|[Hn Hn']]; try done; split; congruence.
Qed.
Lemma quiet_elem l l' (P : irow → Prop) :
  Forall2 row_quiet l l' → (∀ r r', row_quiet r r' → P r ↔ P r') → (∃ r, r ∈ l ∧ P r) ↔ (∃ r, r ∈ l' ∧ P r).
Proof.
  intros Hf HP. induction Hf as [|r r' l l' Hr _ IH]; [by split; intros (? & ?%not_elem_of_nil & _)|].
  split; intros (x & [->|Hx]%elem_of_cons & Hp).
  - exists r'. split; [left|]. by apply (HP _ _ Hr).
  - destruct (proj1 IH) as (y & ? & ?); [eauto|]. exists y. split; [by right|done].
  - exists r. split; [left|]. by apply (HP _ _ Hr).
  - destruct (proj2 IH) as (y & ? & ?); [eauto|]. exists y. split; [by right|done].
Qed.

Lemma quiet_ids l l' : Forall2 row_quiet l l' → (λ r : irow, ic_id (snd r)) <$> l' = (λ r : irow, ic_id (snd r)) <$> l.
Proof.
  induction 1 as [|r r' l l' (Hk & _) _ IH]; cbn; [done|]. rewrite IH. injection Hk as Hk _ _ _ _. by rewrite Hk.
Qed.
Lemma quiet_bound l l' : Forall2 row_quiet l l' → Forall row_bound l → Forall row_bound l'.
Proof.
  induction 1 as [|r r' l l' (Hk & Hr & _) _ IH]; [done|]. rewrite !Forall_cons. intros [Hrow Hl].
  split; [|by apply IH]. destruct Hrow as (rq & ? & ? & ? & ?). injection Hk as ? ? ? ? ?. exists rq. split_and!; congruence.
Qed.
Lemma quiet_accounts l l' task e : Forall2 row_quiet l l' → accounts l task e ↔ accounts l' task e.
Proof.
  intros Hq. apply quiet_elem; [done|]. intros r r' Hrr. pose proof (λ rq rc, quiet_integrated _ _ rq rc Hrr) as Hint.
  destruct Hrr as (Hk & _). injection Hk as _ _ _ Ht _. setoid_rewrite Hint. by rewrite Ht.
Qed.
Lemma accounts_app l k task e : accounts (l ++ k) task e ↔ accounts l task e ∨ accounts k task e.
Proof. unfold accounts. setoid_rewrite elem_of_app. naive_solver. Qed.

Lemma ok_quiet start lost w w' :
  integrations_ok start lost w → Forall2 row_quiet (irows w) (irows w') → pl_runs (apt w') = pl_runs (apt w) →
  evidence_of w' = evidence_of w → NoDup (unsettled_runs w') → integrations_ok start lost w'.
Proof.
  intros [Hids Hb Hl He Hacc Hu] Hq Hr Hev Hu'. split; [| | | | |done].
  - by rewrite (quiet_ids _ _ Hq).
  - by apply (quiet_bound _ _ Hq).
  - intros run. destruct (Hl run) as (links & Hp & Hline). exists links. unfold links_of, sha_of. rewrite (quiet_links _ _ _ Hq), Hr. done.
  - intros task e. rewrite Hev, <-(quiet_accounts _ _ _ _ Hq). apply He.
  - intros task e. rewrite Hev, <-(quiet_accounts _ _ _ _ Hq). apply Hacc.
Qed.
End Quiet.

(** ** Operations that leave integrations alone *)

Definition isame (w w' : AttemptWorld) : Prop :=
  pl_integrations (apt w') = pl_integrations (apt w) ∧ at_integrations (aw_tables w') = at_integrations (aw_tables w) ∧
  pl_runs (apt w') = pl_runs (apt w) ∧ pl_evidence (apt w') = pl_evidence (apt w).
#[export] Instance isame_trans : Transitive isame.
Proof. unfold isame. intros w1 w2 w3 (?&?&?&?) (?&?&?&?). split_and!; congruence. Qed.
#[export] Instance isame_insensitive : Insensitive isame.
Proof. unfold isame. intros w w' (Hd & -> & ->). done. Qed.

Lemma isame_ok `{IntegrationLib} start lost w w' : isame w w' → integrations_ok start lost w → integrations_ok start lost w'.
Proof.
  intros (Hi & Ha & Hr & He) Hok. assert (irows w' = irows w) as Hrows by (unfold irows, integration_rows; by rewrite Hi, Ha).
  eapply ok_quiet; [exact Hok| |done|done|].
  - rewrite Hrows. apply Forall_Forall2_diag, Forall_forall. intros r _. split_and!; try done. by left.
  - unfold unsettled_runs. rewrite Hi. apply Hok.
Qed.

Section Alone.
Context `{Env, ContractLib, RecipeLib, PlanLib, ProposalLib, ControlLib, GateLib, StepLib, SourceJson, ReportLib, AttemptLib, LaunchLib, IntegrationLib, CleanupLib}.

Lemma is_plan {A} (m : PM A) :
  (∀ p p' a, m p = (p', Ok a) → pl_integrations (pw_tables p') = pl_integrations (pw_tables p) ∧
     pl_runs (pw_tables p') = pl_runs (pw_tables p) ∧ pl_evidence (pw_tables p') = pl_evidence (pw_tables p)) →
  commits isame (in_plan m).
Proof. intros Hm w w' a (p & (? & ? & ?)%Hm & ->)%in_plan_ok. by split_and!. Qed.
Lemma is_world {A} (m : SM A) : commits isame (in_plan (in_world m)).
Proof. apply is_plan. by intros p p' a (v & _ & ->)%in_world_ok. Qed.
Lemma is_event event : commits isame (in_plan (record_event event)).
Proof. apply is_plan. by intros p p' a [_ ->]%event_recorded. Qed.
Lemma is_uuid : commits isame (in_plan new_uuid).
Proof. apply is_plan. intros p p' a Hm. unfold new_uuid in Hm. by simplify_eq. Qed.
Lemma is_attempts f : (∀ t, at_integrations (f t) = at_integrations t) → commits isame (in_attempts f).
Proof. intros Hf w w' u ->%in_attempts_ok. split_and!; try done. apply Hf. Qed.
Lemma is_insert_run_workspace x c : commits isame (insert_run_workspace x c).
Proof. by intros w w' u [_ ->]%insert_run_workspace_ok. Qed.
Lemma is_update_rows p f : commits isame (update_run_workspaces p f).
Proof. apply is_world. Qed.
Lemma is_update_launches p f : upholds isame (update_launch_rows p f).
Proof.
  intros w w' r. unfold update_launch_rows, in_plan, in_world. destruct (update_launches _ _ _) as [v s] eqn:E.
  by intros [= <- _].
Qed.
Lemma is_commit_launches p f : commits isame (update_launch_rows p f).
Proof. intros w w' r Hm. by eapply is_update_launches. Qed.
Lemma is_insert_launch l c : commits isame (insert_launch l c).
Proof. intros w w' u. unfold insert_launch. case_match; [done|]. by intros [= <-]. Qed.
Lemma is_insert_workspace identity : commits isame (insert_workspace identity).
Proof. intros w w' u. unfold insert_workspace. repeat (case_match; [done|]). by intros [= <-]. Qed.
End Alone.
#[export] Hint Resolve is_world is_event is_uuid is_insert_run_workspace is_update_rows is_commit_launches is_insert_launch
  is_insert_workspace : attempts.
#[export] Hint Extern 1 (commits isame (in_attempts _)) => (apply is_attempts; reflexivity) : attempts.

Section MoreAlone.
Context `{Env, ContractLib, RecipeLib, PlanLib, ProposalLib, ControlLib, GateLib, StepLib, SourceJson, ReportLib, AttemptLib, LaunchLib, IntegrationLib, CleanupLib}.

Lemma is_reserve request candidate : upholds isame (reserve_workflow_workspace request candidate).
Proof. unfold reserve_workflow_workspace, reserve_in_tx, insert_attempt, insert_workspace_request. uphold. commit. Qed.
Lemma is_transition id revision expected next report error :
  upholds isame (transition_workflow_workspace id revision expected next report error).
Proof. unfold transition_workflow_workspace, transition_in_tx, register_workspace, insert_relation. uphold. commit. Qed.
Lemma is_reserve_launch request hash : upholds isame (reserve_workflow_launch request hash).
Proof. unfold reserve_workflow_launch, reserve_launch_in_tx, create_launch. uphold. commit. Qed.
Lemma is_claim id : upholds isame (claim_workflow_launch id).
Proof. unfold claim_workflow_launch. uphold. commit. Qed.
Lemma is_started id : upholds isame (mark_workflow_launch_started id).
Proof. unfold mark_workflow_launch_started. uphold. apply is_update_launches. Qed.
Lemma is_launch_attention id error : upholds isame (workflow_launch_attention id error).
Proof. unfold workflow_launch_attention. uphold. apply is_update_launches. Qed.
Lemma is_settle terminal reason : upholds isame (settle_workflow_launch_without_session terminal reason).
Proof. unfold settle_workflow_launch_without_session, settle_launch. uphold. commit. Qed.
Lemma is_preview clock id run items : upholds isame (publish_workflow_cleanup_preview clock id run items).
Proof. unfold publish_workflow_cleanup_preview, set_cleanup, record_cleanup_event. uphold. commit. Qed.
Lemma is_insert_claims id items : commits isame (insert_claims id items).
Proof. induction items as [|item items IH]; cbn [insert_claims]; unfold insert_claim; commit. Qed.
Lemma is_claim_cleanup clock id digest : upholds isame (claim_workflow_cleanup clock id digest).
Proof. pose proof is_insert_claims. unfold claim_workflow_cleanup, set_cleanup. uphold. commit. Qed.
Lemma is_remove_workspace workspace : commits isame (remove_workspace_in_transaction workspace).
Proof. unfold remove_workspace_in_transaction. commit. apply is_plan. by intros ? ? ? ->%in_tables_ok. Qed.
Lemma is_retire id digest workspace : upholds isame (record_workflow_cleanup_retirement id digest workspace).
Proof.
  pose proof is_remove_workspace.
  unfold record_workflow_cleanup_retirement, retire_workspace, set_cleanup, record_cleanup_event, retire_claim. uphold. commit.
Qed.
Lemma is_abandon id digest : upholds isame (abandon_workflow_cleanup id digest).
Proof. unfold abandon_workflow_cleanup, set_cleanup, record_cleanup_event. uphold. commit. Qed.
Lemma is_cleanup_attention id digest error : upholds isame (mark_workflow_cleanup_attention id digest error).
Proof. unfold mark_workflow_cleanup_attention, set_cleanup. uphold. commit. Qed.
Lemma is_resume id digest : upholds isame (resume_workflow_cleanup id digest).
Proof. unfold resume_workflow_cleanup, set_cleanup. uphold. commit. Qed.
End MoreAlone.

(** ** Integrations *)

Definition iok_kept `{IntegrationLib} (start : string → string) (lost : string → Prop) (w w' : AttemptWorld) : Prop :=
  integrations_ok start lost w → integrations_ok start lost w'.
#[export] Instance iok_trans `{IntegrationLib} start lost : Transitive (iok_kept start lost).
Proof. unfold iok_kept. intros w1 w2 w3 H12 H23 Hw. by apply H23, H12. Qed.
#[export] Instance iok_insensitive `{IntegrationLib} start lost : Insensitive (iok_kept start lost).
Proof. intros w w' Hs. unfold iok_kept. apply isame_ok. by apply insensitive. Qed.

Section Integrate.
Context `{Env, ContractLib, RecipeLib, PlanLib, ProposalLib, ControlLib, GateLib, StepLib, SourceJson, ReportLib, AttemptLib, LaunchLib, IntegrationLib, CleanupLib}.
Variable start : string → string.
Variable lost : string → Prop.

Lemma iok_isame {A} (m : AM A) : commits isame m → commits (iok_kept start lost) m.
Proof. intros Hm w w' a Ha. unfold iok_kept. apply isame_ok. by eapply Hm. Qed.
Lemma iok_alone {A} (m : AM A) : upholds isame m → upholds (iok_kept start lost) m.
Proof. intros Hm w w' a Ha. unfold iok_kept. apply isame_ok. by eapply Hm. Qed.
Lemma iok_event event : commits (iok_kept start lost) (in_plan (record_event event)).
Proof. apply iok_isame, is_event. Qed.
Lemma iok_uuid : commits (iok_kept start lost) (in_plan new_uuid).
Proof. apply iok_isame, is_uuid. Qed.

Lemma iok_plan w w' :
  plan_kept (aw_plan w) (aw_plan w') → aw_tables w' = aw_tables w → iok_kept start lost w w'.
Proof.
  intros [_ _ Hr He Hi] Ha Hok. eapply ok_quiet; [exact Hok| |exact Hr|exact He|].
  - unfold irows, integration_rows, apt. rewrite Ha. clear -Hi. induction Hi as [|i i' l l' Hk _ IH]; cbn; [constructor|].
    assert (ig_request_id i' = ig_request_id i ∧ ig_run_id i' = ig_run_id i) as [Hq Hrun] by (by destruct Hk as [->|[_ ->]]).
    rewrite Hq. destruct (at_integrations (aw_tables w) !! ig_request_id i) as [c|]; cbn; [|exact IH]. constructor; [|exact IH].
    split_and!; try done. cbn. destruct Hk as [->|[Hs ->]]; [by left|right]. rewrite Hs. split; [done|]. cbn. by destruct (ig_receipt i).
  - assert (unsettled_runs w' = unsettled_runs w) as ->; [|apply Hok]. unfold unsettled_runs, apt. clear -Hi.
    induction Hi as [|i i' l l' Hk _ IH]; cbn; [done|].
    assert (unsettled_state (ig_state i') = unsettled_state (ig_state i) ∧ ig_run_id i' = ig_run_id i) as [Hu Hr].
    { destruct Hk as [->|[Hs ->]]; [done|]. cbn. rewrite Hs. by destruct (ig_receipt i). }
    rewrite Hu. destruct (unsettled_state (ig_state i)); cbn; [|exact IH]. by rewrite Hr, IH.
Qed.

Lemma iok_update p f g :
  (∀ i, ig_request_id (f i) = ig_request_id i) → (∀ i, ig_run_id (f i) = ig_run_id i) →
  (∀ i, ig_state i ≠ In_Integrated → ig_state (f i) ≠ In_Integrated) → (∀ c, columns_key (g c) = columns_key c) →
  commits (iok_kept start lost) (update_integration p f g).
Proof.
  intros Hf1 Hf2 Hf3 Hg w w' u Hm Hok.
  destruct (update_integration_ok _ _ _ _ _ _ Hf1 Hg Hm) as (Hrel & Htrig & Ht & _ & Hu).
  eapply ok_quiet; [exact Hok| |by rewrite Ht|by unfold evidence_of; rewrite Ht|done].
  assert (∀ r, r ∈ irows w → p (fst r) = true → ig_state (fst r) ≠ In_Integrated) as Hn.
  { intros [i c] [Hi _]%irows_elem Hp. by apply Htrig. }
  revert Hn. induction Hrel as [|r r' l l' [Hr Hk] _ IH]; intros Hn; constructor.
  - split; [done|]. rewrite Hr. destruct (p (fst r)) eqn:Ep; [|by split; [|left]]. split; [apply Hf2|]. right.
    assert (ig_state (fst r) ≠ In_Integrated) by (apply Hn; [left|done]). split; [done|]. by apply Hf3.
  - apply IH. intros x Hx. apply Hn. by right.
Qed.
Lemma iok_update_id id f g :
  (∀ i, ig_request_id (f i) = ig_request_id i) → (∀ i, ig_run_id (f i) = ig_run_id i) →
  (∀ i, ig_state i ≠ In_Integrated → ig_state (f i) ≠ In_Integrated) → (∀ c, columns_key (g c) = columns_key c) →
  commits (iok_kept start lost) (update_integration_id id f g).
Proof. intros Hf1 Hf2 Hf3 Hg w w' u Hm. by eapply iok_update in Hm. Qed.

Lemma iok_prepared id outcome : upholds (iok_kept start lost) (record_workflow_integration_preparation id outcome).
Proof.
  pose proof iok_event. unfold record_workflow_integration_preparation, apply_preparation. uphold. commit.
  all: by apply iok_update_id.
Qed.
Lemma iok_attention id error : upholds (iok_kept start lost) (workflow_integration_attention id error).
Proof.
  unfold workflow_integration_attention. uphold. intros w w' [u|e] Hm; [by eapply iok_update in Hm|].
  unfold iok_kept. apply isame_ok. revert Hm. unfold update_integration, update_integrations. do 2 (destruct (existsb _ _); [by intros [= <- _]|]).
  destruct (integrations_unique _ _); [done|]. by intros [= <- _].
Qed.
Lemma iok_settle_cancelled id receipt : upholds (iok_kept start lost) (settle_cancelled_workflow_integration id receipt).
Proof. unfold settle_cancelled_workflow_integration. uphold. commit. by apply iok_update. Qed.
End Integrate.

(** ** Reservation and completion *)

Section Complete.
Context `{Env, ContractLib, RecipeLib, PlanLib, ProposalLib, ControlLib, GateLib, StepLib, SourceJson, ReportLib, AttemptLib, LaunchLib, IntegrationLib, CleanupLib}.

(** What an integration captures is what the store holds. *)
Record captured (input : IntegrateWorkflowResult) (id : string) (w : AttemptWorld) (rq : WorkflowIntegrationRequest) : Prop := {
  ca_names : (iq_id rq, iq_run_id rq, iq_revision rq, iq_task_id rq) = (id, ir_run_id input, ir_revision input, ir_task_id input);
  ca_plan : ∃ plan, approved_plan (ir_run_id input) (ir_revision input) (aw_plan w) = (aw_plan w, Ok (plan, iq_expected_sha rq)) ∧
    ∃ t d, completed_result (adb w) input (sw_workspace_id (ps_source_workspace plan)) (iq_dispatch_id rq) = Some (t, d) ∧
      iq_result_digest rq = result_digest (t_result t) ∧ d_completion_sha d = Some (iq_source_sha rq)
}.

Lemma capture_ok input id w w' rq : capture input id w = (w', Ok rq) → w' = w ∧ captured input id w rq.
Proof.
  intros Hm. pose proof (areads_ok _ _ _ _ (areads_capture _ _) Hm) as ->. split; [done|]. unfold capture in Hm. inv_ok Hm.
  apply in_plan_reads in Hstep as [-> Hp]; [|apply reads_approved_plan]. destruct a as [plan sha]. cbn [fst snd] in *.
  do 4 inv_ok Hm. apply (areads_ok _ _ _ _ (areads_fetch_workspace _)) in Hstep as ->.
  apply (areads_ok _ _ _ _ (areads_integration_workspace _)) in Hstep0 as ->.
  apply (areads_ok _ _ _ _ (areads_integration_resource _ _ _)) in Hstep1 as ->.
  apply (areads_ok _ _ _ _ (areads_integration_resource _ _ _)) in Hstep2 as ->.
  attempt_inv. destruct a6 as [t d]. split; [done|]. exists plan. split; [done|]. exists t, d. done.
Qed.

Lemma approved_sha run revision p p' plan sha :
  approved_plan run revision p = (p', Ok (plan, sha)) → sha = default "" (pl_runs (pw_tables p) !! run ≫= rp_integration_sha).
Proof.
  unfold approved_plan. intros Hm. do 6 inv_ok Hm. inv_ok Hm. apply pselect_ok in Hstep as [-> ->].
  apply raise_ok in Hstep0 as [-> _], Hstep1 as [-> _]. apply guard_ok in Hstep2 as [-> _].
  pose proof (reads_source (ps_source_workspace plan) p) as Hr. rewrite Hstep3 in Hr. cbn in Hr. subst.
  apply pselect_ok in Hstep4 as [_ ->]. done.
Qed.
Lemma captured_sha input id w rq : captured input id w rq → iq_expected_sha rq = sha_of w (iq_run_id rq).
Proof. intros [Hn (plan & Hp & _)]. injection Hn as _ -> _ _. by apply approved_sha in Hp. Qed.

Lemma require_current_ok rq w w' u :
  require_current rq w = (w', Ok u) → w' = w ∧ captured (captured_input rq) (iq_id rq) w rq.
Proof.
  unfold require_current. intros Hm. inv_ok Hm. apply capture_ok in Hstep as [-> Hc]. apply check_ensure_ok in Hm as [-> He].
  apply bool_decide_eq_true in He as ->. done.
Qed.

Lemma fetch_integration_ok id w w' record :
  fetch_integration id w = (w', Ok record) →
  w' = w ∧ ∃ r, r ∈ irows w ∧ ic_id (snd r) = id ∧ decode_integration r = Ok record.
Proof.
  unfold fetch_integration. intros Hm. attempt_inv. split; [done|]. unfold integration_by_id in *.
  match goal with Hf : find_where _ _ = Some _ |- _ => apply find_where_Some in Hf as [Hin Hid%String.eqb_eq] end. eauto.
Qed.
Lemma decode_integration_ok r record :
  decode_integration r = Ok record →
  integration_request_decode (ic_request (snd r)) = Some (irec_request record) ∧
  ig_receipt (fst r) ≫= receipt_decode = irec_receipt record ∧
  irec_state record = (if ig_cancelled (fst r) then In_Cancelled else ig_state (fst r)).
Proof.
  destruct r as [i c]. unfold decode_integration. cbn. destruct (integration_request_decode _); [|done]. cbn.
  destruct (ig_receipt i) as [raw|]; cbn; [destruct (receipt_decode raw); cbn|]; intros Hd; by simplify_eq.
Qed.

(** What completing an integration changes. *)
Record integration_done (receipt : WorkflowIntegrationReceipt) (id_row : irow) (id_request : WorkflowIntegrationRequest)
    (w w' : AttemptWorld) : Prop := {
  id_elem : id_row ∈ irows w;
  id_id : ic_id (snd id_row) = iq_id (rc_request receipt);
  id_prepared : ig_state (fst id_row) = In_Prepared ∧ ig_cancelled (fst id_row) = false;
  id_receipt : ig_receipt (fst id_row) ≫= receipt_decode = Some receipt;
  id_decode : integration_request_decode (ic_request (snd id_row)) = Some id_request;
  id_current : captured (captured_input id_request) (iq_id id_request) w id_request;
  id_fresh : evidence_of w !! iq_task_id id_request = None;
  id_evidence : evidence_of w' = <[iq_task_id id_request := evidence_row id_request receipt]> (evidence_of w);
  id_sha : ∀ run, sha_of w' run = if String.eqb run (iq_run_id id_request) then rc_integrated_sha receipt else sha_of w run;
  id_rows : Forall2 (row_rel (λ i, bool_decide (row_id (aw_tables w) i = Some (iq_id (rc_request receipt))))
    (λ i, with_ig In_Integrated (ig_receipt i) None (ig_cancelled i) i)) (irows w) (irows w');
  id_unsettled : NoDup (unsettled_runs w')
}.

Lemma insert_evidence_ok task row w w' u :
  insert_evidence task row w = (w', Ok u) → evidence_of w !! task = None ∧
  w' = MkAttemptWorld (MkPlanWorld (pw_world (aw_plan w)) (set_pl_evidence (<[task := row]> (pl_evidence (apt w))) (apt w))) (aw_tables w).
Proof.
  unfold insert_evidence. intros Hm. inv_ok Hm. apply aselect_ok in Hstep as [-> ->]. unfold evidence_of.
  destruct (pl_evidence (apt w) !! task) eqn:E; cbn in Hm; [done|]. split; [done|].
  unfold in_plan, in_tables, modify in Hm. by simplify_eq.
Qed.

Lemma complete_in_tx_ok receipt w s o :
  complete_in_tx receipt w = (s, Ok o) → s = w ∨ ∃ r rq, integration_done receipt r rq w s.
Proof.
  intros Hstep. unfold complete_in_tx in Hstep.
  do 2 inv_ok Hstep. apply fetch_integration_ok in Hstep0 as [-> (r & Hr & Hid & Hdec)]. apply check_ensure_ok in Hstep1 as [-> Hrc].
  apply bool_decide_eq_true in Hrc. destruct (settled_already (irec_state a)) eqn:Es; [left; by inv_ok Hstep|].
  right. apply decode_integration_ok in Hdec as (Hq & Hrec & Hst). do 3 inv_ok Hstep. unfold ret in Hstep. simplify_eq.
  apply check_ensure_ok in Hstep0 as [-> Hp%bool_decide_eq_true]. apply require_current_ok in Hstep1 as [-> Hcur].
  unfold integrate_receipt in Hstep2. do 3 inv_ok Hstep2. apply insert_evidence_ok in Hstep as [Hfresh ->].
  unfold set_integration_sha, in_plan, in_tables, modify in Hstep0. injection Hstep0 as <-.
  apply update_integration_ok in Hstep1 as (Hrel & _ & Ht & _ & Hu); [|done|done].
  apply aevent_ok in Hstep2 as (_ & Htab & Hat). exists r, (irec_request a). split; try done.
  - rewrite Hp in Hst. by destruct (ig_cancelled (fst r)).
  - by rewrite Hrec.
  - unfold evidence_of. by rewrite Htab, Ht.
  - intros run. unfold sha_of. rewrite Htab, Ht. cbn. destruct (String.eqb run _) eqn:Erun.
    + apply String.eqb_eq in Erun as ->. by rewrite lookup_insert_eq.
    + apply String.eqb_neq in Erun. by rewrite lookup_insert_ne.
  - assert (irows s = irows s2) as -> by (unfold irows; by rewrite Htab, Hat). exact Hrel.
  - unfold unsettled_runs in *. by rewrite Htab.
Qed.

Section Kept.
Variable start : string → string.
Variable lost : string → Prop.

Lemma iok_insert i c :
  row_bound (i, c) → ig_state i = In_Pending → commits (iok_kept start lost) (insert_integration i c).
Proof.
  intros Hb Hs w w' u. unfold insert_integration. destruct (existsb _ _) eqn:E1; [done|]. rewrite Hs. cbn [unsettled_state andb].
  destruct (existsb (λ j, String.eqb (ig_run_id j) (ig_run_id i) && _) _) eqn:E2; [done|]. intros [= <-] [Hids Hbd Hl He Hacc Hu].
  set (w' := MkAttemptWorld _ _). apply not_true_iff_false in E1, E2.
  assert (∀ j, j ∈ pl_integrations (apt w) → ig_request_id j ≠ ig_request_id i ∧
    ic_id <$> at_integrations (aw_tables w) !! ig_request_id j ≠ Some (ic_id c)) as Hfresh.
  { intros j Hj. split; intros Heq; apply E1, existsb_exists; exists j; (split; [by apply list_elem_of_In|]).
    - by rewrite Heq, String.eqb_refl.
    - by rewrite bool_decide_true, orb_true_r. }
  assert (irows w' = irows w ++ [(i, c)]) as Hrows.
  { unfold irows, integration_rows, w', apt in *. cbn. rewrite omap_app. f_equal; [|cbn; by rewrite lookup_insert_eq].
    clear -Hfresh. induction (pl_integrations (pw_tables (aw_plan w))) as [|j l IH]; cbn; [done|].
    rewrite lookup_insert_ne by (intros Heq; by destruct (Hfresh j ltac:(left))).
    rewrite IH; [done|]. intros k Hk. apply Hfresh. by right. }
  split.
  - rewrite Hrows, fmap_app. apply NoDup_app. split_and!; [done| |apply NoDup_singleton].
    intros x ([j d] & -> & [Hj Hd]%irows_elem)%list_elem_of_fmap Hx%list_elem_of_singleton. cbn in Hx.
    destruct (Hfresh j Hj) as [_ Hne]. apply Hne. rewrite Hd. cbn. by rewrite Hx.
  - rewrite Hrows. apply Forall_app. split; [done|by constructor].
  - intros run. destruct (Hl run) as (links & Hp & Hline). exists links. split; [|done]. unfold links_of. rewrite Hrows, omap_app. cbn.
    unfold link_of at 2. cbn. rewrite Hs, bool_decide_false by done. by rewrite app_nil_r.
  - intros task e Hev. rewrite Hrows, accounts_app. left. by apply He.
  - intros task e. rewrite Hrows, accounts_app. intros [Ha|(r & ->%list_elem_of_singleton & rq & rc & [Hi _ _] & _)]; [by apply Hacc|].
    cbn in Hi. congruence.
  - unfold unsettled_runs, w', apt in *. cbn. rewrite List.filter_app, fmap_app. cbn. rewrite Hs. cbn.
    apply NoDup_app. split_and!; [done| |apply NoDup_singleton]. intros x (j & -> & Hj)%list_elem_of_fmap Hx%list_elem_of_singleton.
    apply list_elem_of_In, List.filter_In in Hj as [Hj Hju]. apply E2, existsb_exists. exists j. split; [done|].
    by rewrite Hx, String.eqb_refl, Hju.
Qed.

Lemma iok_reserve `{!IntegrationCodec} input : upholds (iok_kept start lost) (reserve_workflow_integration input).
Proof.
  unfold reserve_workflow_integration. uphold. intros w w' o Hm. unfold reserve_integration_in_tx in Hm. inv_ok Hm.
  apply aselect_ok in Hstep as [-> ->]. destruct (integration_by_request _ _ _).
  { inv_ok Hm. apply check_ok in Hstep as [-> _]. inv_ok Hm. by apply insensitive. }
  do 7 inv_ok Hm. inv_ok Hm. apply aselect_ok in Hstep as [-> ->], Hstep3 as [-> ->]. apply check_ensure_ok in Hstep0 as [-> _].
  apply (iok_uuid start lost) in Hstep1. apply capture_ok in Hstep2 as [-> [Hn _]]. etransitivity; [exact Hstep1|]. etransitivity; [|by eapply iok_event].
  eapply iok_insert; [| |exact Hstep4]; [|done]. exists a3. cbn. rewrite integration_request_roundtrip. injection Hn as ? ? ? ?. by split_and!.
Qed.

(** The one row the completion marks, between rows it leaves alone. *)
Lemma done_split receipt r rq w w' :
  integration_done receipt r rq w w' → NoDup ((λ r : irow, ic_id (snd r)) <$> irows w) →
  ∃ l1 l2 l1' l2' c', irows w = l1 ++ r :: l2 ∧
    irows w' = l1' ++ (with_ig In_Integrated (ig_receipt (fst r)) None (ig_cancelled (fst r)) (fst r), c') :: l2' ∧
    columns_key c' = columns_key (snd r) ∧ Forall2 row_quiet l1 l1' ∧ Forall2 row_quiet l2 l2'.
Proof.
  intros Hd Hnd. pose proof (id_rows _ _ _ _ _ Hd) as Hrel. set (p := λ i : RunIntegration, bool_decide _) in Hrel.
  assert (∀ x, x ∈ irows w → p (fst x) = bool_decide (ic_id (snd x) = ic_id (snd r))) as Hp.
  { intros [i c] [_ Hc]%irows_elem. unfold p, row_id. cbn. rewrite Hc, (id_id _ _ _ _ _ Hd). cbn.
    apply bool_decide_ext. split; [by intros [= ->]|by intros ->]. }
  destruct (list_elem_of_split _ _ (id_elem _ _ _ _ _ Hd)) as (l1 & l2 & Hsplit). rewrite Hsplit in Hrel, Hnd, Hp.
  apply Forall2_app_inv_l in Hrel as (l1' & l' & Hl1 & Hl & Hw'). apply Forall2_cons_inv_l in Hl as ([i' c'] & l2' & [Hi' Hc'] & Hl2 & ->).
  assert (∀ f (l l0 : list irow), (∀ x, x ∈ l → x ∈ l1 ∨ x ∈ l2) → Forall2 (row_rel p f) l l0 → Forall2 row_quiet l l0) as Hquiet.
  { intros f l l0 Hin Hf. induction Hf as [|x x' l l0 [Hx Hk] _ IH]; constructor; [|apply IH; intros y Hy; apply Hin; by right].
    assert (p (fst x) = false) as Hpx; [|rewrite Hpx in Hx; split; [exact Hk|]; split; [by rewrite Hx|by left]].
    assert (x ∈ l1 ∨ x ∈ l2) as Hx12 by (apply Hin; left).
    rewrite Hp by (apply elem_of_app; destruct Hx12; [by left|right; by right]). apply bool_decide_eq_false. intros Heq.
    rewrite fmap_app, fmap_cons in Hnd. apply NoDup_app in Hnd as (_ & Hd1 & Hd2). apply NoDup_cons in Hd2 as [Hd2 _].
    destruct Hx12 as [Hx12|Hx12].
    - apply (Hd1 (ic_id (snd x))); [by apply (list_elem_of_fmap_2 (λ r : irow, ic_id (snd r)))|]. rewrite Heq. left.
    - apply Hd2. rewrite <-Heq. by apply (list_elem_of_fmap_2 (λ r : irow, ic_id (snd r))). }
  exists l1, l2, l1', l2', c'. rewrite Hp in Hi' by (apply elem_of_app; right; left).
  rewrite bool_decide_true in Hi' by done. cbn in Hi'. subst i'. split_and!; [done|done|exact Hc'| |]; (eapply Hquiet; [|done]); auto.
Qed.

(** What the marked row says, given that rows hold their own requests. *)
Lemma done_names receipt r rq w w' :
  integration_done receipt r rq w w' → Forall row_bound (irows w) →
  iq_run_id rq = ig_run_id (fst r) ∧ iq_task_id rq = ic_task_id (snd r).
Proof.
  intros Hd Hb. rewrite Forall_forall in Hb. destruct (Hb _ (id_elem _ _ _ _ _ Hd)) as (rq' & Hrq' & ? & ? & _).
  pose proof (id_decode _ _ _ _ _ Hd). by simplify_eq.
Qed.

Lemma done_links receipt r rq w w' run :
  integration_done receipt r rq w w' → integrations_ok start lost w →
  links_of w' run ≡ₚ links_of w run ++ (if String.eqb run (iq_run_id rq) then [(iq_expected_sha rq, rc_integrated_sha receipt)] else []).
Proof.
  intros Hd Hok. destruct (done_split _ _ _ _ _ Hd (io_ids _ _ _ Hok)) as (l1 & l2 & l1' & l2' & c' & Hrows & Hrows' & Hc' & Hq1 & Hq2).
  pose proof (id_receipt _ _ _ _ _ Hd) as Hrec. destruct (done_names _ _ _ _ _ Hd (io_bound _ _ _ Hok)) as [Hrun _]. injection Hc' as _ _ _ _ Hcr.
  set (r' := (with_ig In_Integrated (ig_receipt (fst r)) None (ig_cancelled (fst r)) (fst r), c')) in *.
  assert (link_of run r = None) as Hold.
  { unfold link_of. by rewrite bool_decide_false by (by rewrite (proj1 (id_prepared _ _ _ _ _ Hd))). }
  assert (link_of run r' = if String.eqb run (iq_run_id rq) then Some (iq_expected_sha rq, rc_integrated_sha receipt) else None) as Hnew.
  { unfold link_of. cbn. rewrite bool_decide_true by done. cbn. rewrite Hrun, String.eqb_sym. destruct (String.eqb run _); [|done].
    rewrite Hcr, (id_decode _ _ _ _ _ Hd). cbn. destruct (ig_receipt (fst r)); [|done]. cbn in Hrec |- *. by rewrite Hrec. }
  unfold links_of. rewrite Hrows, Hrows', !omap_app. cbn [omap list_omap]. rewrite (quiet_links _ _ _ Hq1), (quiet_links _ _ _ Hq2), Hold, Hnew.
  destruct (String.eqb run _); [|by rewrite app_nil_r]. rewrite <-app_assoc. by rewrite (Permutation_app_comm (omap (link_of run) l2)).
Qed.

Lemma done_accounts receipt r rq w w' task e :
  integration_done receipt r rq w w' → integrations_ok start lost w →
  accounts (irows w') task e ↔ accounts (irows w) task e ∨ (task = iq_task_id rq ∧ e = evidence_row rq receipt).
Proof.
  intros Hd Hok. destruct (done_split _ _ _ _ _ Hd (io_ids _ _ _ Hok)) as (l1 & l2 & l1' & l2' & c' & Hrows & Hrows' & Hc' & Hq1 & Hq2).
  destruct (done_names _ _ _ _ _ Hd (io_bound _ _ _ Hok)) as [_ Htask]. injection Hc' as _ _ _ Hct Hcr.
  set (r' := (with_ig In_Integrated (ig_receipt (fst r)) None (ig_cancelled (fst r)) (fst r), c')) in *.
  assert (integrated_as r' rq receipt) as Hint.
  { split; [done|cbn; rewrite Hcr; apply (id_decode _ _ _ _ _ Hd)|apply (id_receipt _ _ _ _ _ Hd)]. }
  rewrite Hrows, Hrows'.
  change (r :: l2) with ([r] ++ l2). change (r' :: l2') with ([r'] ++ l2').
  rewrite !accounts_app, <-(quiet_accounts _ _ _ _ Hq1), <-(quiet_accounts _ _ _ _ Hq2).
  assert (¬ accounts [r] task e) as Hno.
  { intros (x & ->%list_elem_of_singleton & q & c & [Hs _ _] & _). rewrite (proj1 (id_prepared _ _ _ _ _ Hd)) in Hs. done. }
  assert (accounts [r'] task e ↔ task = iq_task_id rq ∧ e = evidence_row rq receipt) as Hone; [|tauto].
  split; [intros (x & ->%list_elem_of_singleton & q & c & Hi & <- & ->)|intros [-> ->]].
  - destruct Hi as [_ Hi1 Hi2], Hint as [_ Hj1 Hj2]. simplify_eq. cbn. split; [congruence|done].
  - exists r'. split; [by apply list_elem_of_singleton|]. exists rq, receipt. split_and!; [done|cbn; congruence|done].
Qed.

Lemma done_rows receipt r rq w w' :
  integration_done receipt r rq w w' → integrations_ok start lost w →
  NoDup ((λ r : irow, ic_id (snd r)) <$> irows w') ∧ Forall row_bound (irows w').
Proof.
  intros Hd Hok. destruct (done_split _ _ _ _ _ Hd (io_ids _ _ _ Hok)) as (l1 & l2 & l1' & l2' & c' & Hrows & Hrows' & Hc' & Hq1 & Hq2).
  injection Hc' as Hcid _ _ Hct Hcr. rewrite Hrows'. split.
  - rewrite fmap_app, fmap_cons, (quiet_ids _ _ Hq1), (quiet_ids _ _ Hq2). cbn. rewrite Hcid.
    pose proof (io_ids _ _ _ Hok) as Hids. by rewrite Hrows, fmap_app, fmap_cons in Hids.
  - pose proof (io_bound _ _ _ Hok) as Hb. rewrite Hrows, Forall_app, Forall_cons in Hb. destruct Hb as (Hb1 & (q & ? & ? & ? & ?) & Hb2).
    rewrite Forall_app, Forall_cons. split_and!; [by eapply quiet_bound| |by eapply quiet_bound].
    exists q. cbn. by rewrite Hcr, Hct, Hcid.
Qed.

Lemma iok_done receipt r rq w w' : integration_done receipt r rq w w' → iok_kept start lost w w'.
Proof.
  intros Hd Hok. destruct (done_rows _ _ _ _ _ Hd Hok) as [Hids Hb]. split; [done|done| | | |apply (id_unsettled _ _ _ _ _ Hd)].
  - intros run. destruct (io_line _ _ _ Hok run) as (links & Hp & Hl). rewrite (id_sha _ _ _ _ _ Hd).
    eexists. split; [symmetry; rewrite (done_links _ _ _ _ _ _ Hd Hok), <-Hp; reflexivity|].
    destruct (String.eqb_spec run (iq_run_id rq)) as [->|Hne]; [|by rewrite app_nil_r].
    eapply line_snoc; [exact Hl|]. by eapply captured_sha, id_current.
  - intros task e. rewrite (done_accounts _ _ _ _ _ _ _ Hd Hok), (id_evidence _ _ _ _ _ Hd).
    destruct (decide (task = iq_task_id rq)) as [->|Hne].
    + rewrite lookup_insert_eq. intros [= <-]. by right.
    + rewrite lookup_insert_ne by done. intros He. left. by apply (io_evidence _ _ _ Hok).
  - intros task e. rewrite (done_accounts _ _ _ _ _ _ _ Hd Hok), (id_evidence _ _ _ _ _ Hd).
    intros [Hacc|[-> ->]]; [|left; apply lookup_insert_eq]. destruct (io_accounts _ _ _ Hok _ _ Hacc) as [He|Hlost]; [|by right].
    left. rewrite lookup_insert_ne; [done|]. intros <-. by rewrite (id_fresh _ _ _ _ _ Hd) in He.
Qed.
Lemma iok_complete receipt : upholds (iok_kept start lost) (complete_workflow_integration receipt).
Proof.
  unfold complete_workflow_integration. uphold. intros w w' o [->|(r & rq & Hd)]%complete_in_tx_ok; [by apply insensitive|].
  by eapply iok_done.
Qed.
End Kept.

Lemma step_iok `{!IntegrationCodec} start lost w w' : attempt_step w w' → iok_kept start lost w w'.
Proof.
  destruct 1.
  - unfold iok_kept. apply isame_ok. unfold isame, apt. replace (aw_tables w') with (aw_tables w).
    by match goal with Hs : store_operation _ _ |- _ => rewrite (proj2 Hs) end.
  - apply iok_plan; [by apply run_step_kept|done].
  - by eapply iok_alone; [apply is_reserve|done].
  - by eapply iok_alone; [apply is_transition|done].
  - by eapply iok_alone; [apply is_reserve_launch|done].
  - by eapply iok_alone; [apply is_claim|done].
  - by eapply iok_alone; [apply is_started|done].
  - by eapply iok_alone; [apply is_launch_attention|done].
  - by eapply iok_alone; [apply is_settle|done].
  - by eapply iok_reserve.
  - by eapply iok_prepared.
  - by eapply iok_complete.
  - by eapply iok_attention.
  - by eapply iok_settle_cancelled.
  - by eapply iok_alone; [apply is_preview|done].
  - by eapply iok_alone; [apply is_claim_cleanup|done].
  - by eapply iok_alone; [apply is_retire|done].
  - by eapply iok_alone; [apply is_abandon|done].
  - by eapply iok_alone; [apply is_cleanup_attention|done].
  - by eapply iok_alone; [apply is_resume|done].
Qed.

End Complete.

Section Histories.
Context `{Env, ContractLib, RecipeLib, PlanLib, ProposalLib, ControlLib, GateLib, StepLib, SourceJson, ReportLib, AttemptLib, LaunchLib, IntegrationLib, CleanupLib}.

(** The task got another result. *)
Definition result_changed (task : string) (w w' : AttemptWorld) : Prop :=
  ∃ old new, task_named task (db_tasks (adb w)) = Some old ∧ new ∈ db_tasks (adb w') ∧ t_id new = task ∧ t_result new ≠ t_result old.

Lemma event_iok `{!IntegrationCodec} start (lost lost' : string → Prop) w w' :
  attempt_event w w' → (∀ task, lost task → lost' task) → (∀ task, result_changed task w w' → lost' task) →
  integrations_ok start lost w → integrations_ok start lost' w'.
Proof.
  intros (moment & w1 & Hs & Ht & Htab) Hmon Hch Hok.
  apply (step_iok (H := at_time _ moment) start lost) in Hs. apply Hs in Hok as [Hids Hb Hl He Hacc Hu]. clear Hs.
  pose proof (triggered_revokes (H := at_time _ moment) _ _ _ Ht) as Hr.
  assert (pl_integrations (apt w') = pl_integrations (apt w1) ∧ pl_runs (apt w') = pl_runs (apt w1)) as [Hi Hruns]
    by (unfold apt; by rewrite (rv_tables _ _ _ Hr)).
  assert (irows w' = irows w1) as Hrows by (unfold irows, integration_rows; by rewrite Hi, Htab).
  split; unfold links_of, unsettled_runs, sha_of in *; rewrite ?Hrows, ?Hi, ?Hruns; try done.
  - intros task e Hev. apply He. by eapply lookup_weaken; [|apply (rv_evidence _ _ _ Hr)].
  - intros task e [Hev|Hlost]%Hacc; [|right; auto].
    destruct (fire_evidence (H := at_time _ moment) _ _ _ _ task e Ht Hev) as [?|(old & new & Hin & Hid & Hold & Hne)]; [by left|right].
    apply Hch. exists old, new. split_and!; try done. by rewrite <-(revokes_tasks _ _ _ Hr) in Hin.
Qed.

(** A store in which nothing was integrated yet. *)
Definition nothing_integrated (w : AttemptWorld) : Prop := pl_integrations (apt w) = [] ∧ evidence_of w = ∅.
Lemma nothing_ok w lost : nothing_integrated w → integrations_ok (sha_of w) lost w.
Proof.
  intros [Hi He]. assert (irows w = []) as Hr by (unfold irows, integration_rows; by rewrite Hi).
  split; unfold links_of, unsettled_runs; rewrite ?Hr, ?Hi.
  - apply NoDup_nil_2.
  - done.
  - by intros run; exists [].
  - by rewrite He.
  - by intros task e (r & ?%not_elem_of_nil & _).
  - apply NoDup_nil_2.
Qed.

(** Some event between the two states gave the task another result. *)
Definition changed_between (w0 w : AttemptWorld) (task : string) : Prop :=
  ∃ w1 w2, rtc attempt_event w0 w1 ∧ attempt_event w1 w2 ∧ rtc attempt_event w2 w ∧ result_changed task w1 w2.

End Histories.

Section Completion.
Context `{Env, ContractLib, RecipeLib, PlanLib, ProposalLib, ControlLib, GateLib, StepLib, SourceJson, ReportLib, AttemptLib, LaunchLib, IntegrationLib, CleanupLib}.

(** [C13] An integration completes only when it is prepared and still current: the
    stored receipt is the one presented, the row is prepared and not cancelled,
    the run is active under the revision and still at the SHA the merge started
    from, the task is completed with the result whose digest was captured and the
    attempt's dispatch with the commit that was merged; the task gets its
    evidence, which it did not have, and the run moves to the merged SHA while
    every other run and task keeps its own.  A repeated completion changes
    nothing. *)
Theorem integration_completes (receipt : WorkflowIntegrationReceipt) (w w' : AttemptWorld) (record : WorkflowIntegrationRecord) :
  complete_workflow_integration receipt w = (w', Ok record) →
  w' = w ∨ ∃ r rq plan t d, r ∈ irows w ∧ ic_id (snd r) = iq_id (rc_request receipt) ∧
    ig_state (fst r) = In_Prepared ∧ ig_cancelled (fst r) = false ∧ ig_receipt (fst r) ≫= receipt_decode = Some receipt ∧
    integration_request_decode (ic_request (snd r)) = Some rq ∧
    approved_plan (iq_run_id rq) (iq_revision rq) (aw_plan w) = (aw_plan w, Ok (plan, iq_expected_sha rq)) ∧
    sha_of w (iq_run_id rq) = iq_expected_sha rq ∧
    completed_result (adb w) (captured_input rq) (sw_workspace_id (ps_source_workspace plan)) (iq_dispatch_id rq) = Some (t, d) ∧
    result_digest (t_result t) = iq_result_digest rq ∧ d_completion_sha d = Some (iq_source_sha rq) ∧
    evidence_of w !! iq_task_id rq = None ∧
    evidence_of w' = <[iq_task_id rq := evidence_row rq receipt]> (evidence_of w) ∧
    (∀ run, sha_of w' run = if String.eqb run (iq_run_id rq) then rc_integrated_sha receipt else sha_of w run).
Proof.
  unfold complete_workflow_integration. intros Hm. inv_ok Hm. apply attempt_tx_ok, complete_in_tx_ok in Hstep.
  assert (w' = s) as ->. { destruct a; [by inv_ok Hm|]. by eapply areads_ok; [|exact Hm]; auto with runs. }
  destruct Hstep as [->|(r & rq & Hd)]; [by left|right]. pose proof (captured_sha _ _ _ _ (id_current _ _ _ _ _ Hd)) as Hsha.
  destruct (id_current _ _ _ _ _ Hd) as [_ (plan & Hp & t & d & Hres & Hdig & Hcs)]. destruct (id_prepared _ _ _ _ _ Hd).
  exists r, rq, plan, t, d. split_and!; try done; apply Hd.
Qed.

(** While a run has an unsettled row, cancelled or not, no new request of it is
    accepted: the index on the unsettled rows does not look at [cancelled]. *)
Lemma cancelled_integration_blocks_run input w w' record j :
  j ∈ pl_integrations (apt w) → ig_run_id j = ir_run_id input → unsettled_state (ig_state j) = true →
  integration_by_request (ir_request_id input) (apt w) (aw_tables w) = None →
  reserve_workflow_integration input w ≠ (w', Ok record).
Proof.
  intros Hj Hrun Hu Hnew Hm. unfold reserve_workflow_integration in Hm. do 2 inv_ok Hm. apply check_ok in Hstep as [-> _].
  apply attempt_tx_ok in Hstep0. unfold reserve_integration_in_tx in Hstep0. inv_ok Hstep0. apply aselect_ok in Hstep as [-> ->].
  rewrite Hnew in Hstep0. do 7 inv_ok Hstep0. apply aselect_ok in Hstep as [-> ->], Hstep4 as [-> ->]. apply check_ensure_ok in Hstep1 as [-> _].
  apply is_uuid in Hstep2 as [Hpl _]. apply capture_ok in Hstep3 as [-> _]. unfold insert_integration in Hstep5.
  destruct (existsb _ _); [done|]. destruct (existsb _ _) eqn:E in Hstep5; [done|]. apply not_true_iff_false in E. apply E, existsb_exists.
  exists j. split; [apply list_elem_of_In; unfold apt in *; congruence|]. cbn. by rewrite Hrun, String.eqb_refl, Hu.
Qed.
End Completion.
