(* ===== verification/CleanupFacts.v ===== *)
(** * CleanupFacts: a workspace is cleaned up once, and only after its run

    [retired_gone]: along every sequence of calls ([attempt_step]) a retired
    workspace has no registered row, and it stays retired.  A claim takes only
    workspaces of a closed run with nothing left to settle, each for one cleanup. *)

From S2P Require Import Prelude Text Models Store StoreFacts RoleContract Dispatch Gates Runs SetupReport Reachability Ordering Recipe RecipeFacts Plan Catalog Execution PlanStore PlanStoreFacts RunControl RunControlFacts GateResolution ExecutionStore Attempts Launches Integrations Cleanup ExecutionStoreFacts RunTriggers RunHistory AttemptFacts AttemptHistory.
From Stdlib Require Import ZArith Lia Ascii String.
From stdpp Require Import strings gmap pretty prelude relations.

Definition sources_of (w : AttemptWorld) : list SourceRow := pl_sources (apt w).
Definition retired_gone (w : AttemptWorld) : Prop :=
  ∀ id r, retired w id → r ∈ sources_of w → is_source id r = false.

(** ** Operations that leave claims and registrations alone *)

Definition csame (w w' : AttemptWorld) : Prop :=
  sources_of w' = sources_of w ∧ at_claims (aw_tables w') = at_claims (aw_tables w).
#[export] Instance csame_trans : Transitive csame.
Proof. unfold csame. intros w1 w2 w3 (?&?) (?&?). split; congruence. Qed.
#[export] Instance csame_insensitive : Insensitive csame.
Proof. unfold csame, sources_of. intros w w' (Hd & -> & ->). done. Qed.

Definition gone_kept (w w' : AttemptWorld) : Prop := retired_gone w → retired_gone w'.
#[export] Instance gone_trans : Transitive gone_kept.
Proof. unfold gone_kept. intros w1 w2 w3 H12 H23 Hw. by apply H23, H12. Qed.
Lemma csame_gone w w' : csame w w' → gone_kept w w'.
Proof. intros [Hs Hc] Hg id r. unfold retired. rewrite Hs, Hc. apply Hg. Qed.
#[export] Instance gone_insensitive : Insensitive gone_kept.
Proof. intros w w' Hs. apply csame_gone. by apply insensitive. Qed.

Section Alone.
Context `{Env, ContractLib, RecipeLib, PlanLib, ProposalLib, ControlLib, GateLib, StepLib, SourceJson, ReportLib, AttemptLib, LaunchLib, IntegrationLib, CleanupLib}.

Lemma cs_plan {A} (m : PM A) :
  (∀ p p' a, m p = (p', Ok a) → pl_sources (pw_tables p') = pl_sources (pw_tables p)) → commits csame (in_plan m).
Proof. intros Hm w w' a (p & ?%Hm & ->)%in_plan_ok. by split. Qed.
Lemma cs_world {A} (m : SM A) : commits csame (in_plan (in_world m)).
Proof. apply cs_plan. by intros p p' a (v & _ & ->)%in_world_ok. Qed.
Lemma cs_event event : commits csame (in_plan (record_event event)).
Proof. apply cs_plan. by intros p p' a [_ ->]%event_recorded. Qed.
Lemma cs_uuid : commits csame (in_plan new_uuid).
Proof. apply cs_plan. intros p p' a Hm. unfold new_uuid in Hm. by simplify_eq. Qed.
Lemma cs_tables f : (∀ t, pl_sources (f t) = pl_sources t) → commits csame (in_plan (in_tables f)).
Proof. intros Hf. apply cs_plan. intros p p' a ->%in_tables_ok. apply Hf. Qed.
Lemma cs_attempts f : (∀ t, at_claims (f t) = at_claims t) → commits csame (in_attempts f).
Proof. intros Hf w w' u ->%in_attempts_ok. split; [done|]. apply Hf. Qed.
Lemma cs_insert_run_workspace x c : commits csame (insert_run_workspace x c).
Proof. by intros w w' u [_ ->]%insert_run_workspace_ok. Qed.
Lemma cs_update_rows p f : commits csame (update_run_workspaces p f).
Proof. apply cs_world. Qed.
Lemma cs_update_launches p f : upholds csame (update_launch_rows p f).
Proof.
  intros w w' r. unfold update_launch_rows, in_plan, in_world. destruct (update_launches _ _ _) as [v s] eqn:E.
  by intros [= <- _].
Qed.
Lemma cs_commit_launches p f : commits csame (update_launch_rows p f).
Proof. intros w w' r Hm. by eapply cs_update_launches. Qed.
Lemma cs_insert_launch l c : commits csame (insert_launch l c).
Proof. intros w w' u. unfold insert_launch. case_match; [done|]. by intros [= <-]. Qed.
Lemma cs_insert_integration i c : commits csame (insert_integration i c).
Proof. intros w w' u. unfold insert_integration. repeat (case_match; [done|]). by intros [= <-]. Qed.
Lemma cs_update_integration p f g : upholds csame (update_integration p f g).
Proof.
  intros w w' r. unfold update_integration, update_integrations. do 2 (destruct (existsb _ _); [by intros [= <- _]|]).
  destruct (integrations_unique _ _); by intros [= <- _].
Qed.
Lemma cs_commit_integration p f g : commits csame (update_integration p f g).
Proof. intros w w' u Hm. by eapply cs_update_integration. Qed.
Lemma cs_commit_integration_id id f g : commits csame (update_integration_id id f g).
Proof. intros w w' u Hm. by eapply cs_update_integration. Qed.
End Alone.
#[export] Hint Resolve cs_world cs_event cs_uuid cs_insert_run_workspace cs_update_rows cs_commit_launches cs_insert_launch
  cs_insert_integration cs_commit_integration cs_commit_integration_id : attempts.
#[export] Hint Extern 1 (commits csame (in_attempts _)) => (apply cs_attempts; reflexivity) : attempts.
#[export] Hint Extern 1 (commits csame (in_plan (in_tables _))) => (apply cs_tables; reflexivity) : attempts.

Section MoreAlone.
Context `{Env, ContractLib, RecipeLib, PlanLib, ProposalLib, ControlLib, GateLib, StepLib, SourceJson, ReportLib, AttemptLib, LaunchLib, IntegrationLib, CleanupLib}.

Lemma cs_reserve request candidate : upholds csame (reserve_workflow_workspace request candidate).
Proof. unfold reserve_workflow_workspace, reserve_in_tx, insert_attempt, insert_workspace_request. uphold. commit. Qed.
Lemma cs_reserve_launch request hash : upholds csame (reserve_workflow_launch request hash).
Proof. unfold reserve_workflow_launch, reserve_launch_in_tx, create_launch. uphold. commit. Qed.
Lemma cs_claim id : upholds csame (claim_workflow_launch id).
Proof. unfold claim_workflow_launch. uphold. commit. Qed.
Lemma cs_started id : upholds csame (mark_workflow_launch_started id).
Proof. unfold mark_workflow_launch_started. uphold. apply cs_update_launches. Qed.
Lemma cs_launch_attention id error : upholds csame (workflow_launch_attention id error).
Proof. unfold workflow_launch_attention. uphold. apply cs_update_launches. Qed.
Lemma cs_settle terminal reason : upholds csame (settle_workflow_launch_without_session terminal reason).
Proof. unfold settle_workflow_launch_without_session, settle_launch. uphold. commit. Qed.
Lemma cs_integrate input : upholds csame (reserve_workflow_integration input).
Proof. unfold reserve_workflow_integration, reserve_integration_in_tx. uphold. commit. Qed.
Lemma cs_prepared id outcome : upholds csame (record_workflow_integration_preparation id outcome).
Proof. unfold record_workflow_integration_preparation, apply_preparation. uphold. commit. Qed.
Lemma cs_complete receipt : upholds csame (complete_workflow_integration receipt).
Proof.
  unfold complete_workflow_integration, complete_in_tx, integrate_receipt, insert_evidence, set_integration_sha. uphold. commit.
Qed.
Lemma cs_integration_attention id error : upholds csame (workflow_integration_attention id error).
Proof. unfold workflow_integration_attention. uphold. apply cs_update_integration. Qed.
Lemma cs_settle_cancelled id receipt : upholds csame (settle_cancelled_workflow_integration id receipt).
Proof. unfold settle_cancelled_workflow_integration. uphold. commit. Qed.
Lemma cs_preview clock id run items : upholds csame (publish_workflow_cleanup_preview clock id run items).
Proof. unfold publish_workflow_cleanup_preview, set_cleanup, record_cleanup_event. uphold. commit. Qed.
Lemma cs_cleanup_attention id digest error : upholds csame (mark_workflow_cleanup_attention id digest error).
Proof. unfold mark_workflow_cleanup_attention, set_cleanup. uphold. commit. Qed.
Lemma cs_resume id digest : upholds csame (resume_workflow_cleanup id digest).
Proof. unfold resume_workflow_cleanup, set_cleanup. uphold. commit. Qed.
Lemma gone_alone {A} (m : AM A) : upholds csame m → upholds gone_kept m.
Proof. intros Hm w w' r Hr. by eapply csame_gone, Hm. Qed.
Lemma gone_same {A} (m : AM A) : commits csame m → commits gone_kept m.
Proof. intros Hm w w' r Hr. by eapply csame_gone, Hm. Qed.

(** ** Registering, claiming and retiring *)

(** runRetiredWorkspaceInsert refuses to register a retired workspace again. *)
Lemma gone_insert_workspace identity : commits gone_kept (insert_workspace identity).
Proof.
  intros w w' u. unfold insert_workspace. case_bool_decide as Hr; [done|]. do 2 (case_match; [done|]). intros [= <-] Hg id r Hid.
  unfold retired in Hid. cbn in Hid. unfold sources_of. cbn. intros [Hin|Hin%list_elem_of_singleton]%elem_of_app; [by apply Hg|].
  subst r. unfold is_source. cbn. apply String.eqb_neq. intros Heq. apply Hr. by rewrite Heq.
Qed.
Lemma gone_transition id revision expected next report error :
  upholds gone_kept (transition_workflow_workspace id revision expected next report error).
Proof.
  pose proof gone_insert_workspace. unfold transition_workflow_workspace, transition_in_tx, register_workspace, insert_relation.
  uphold. commit. all: apply gone_same; commit.
Qed.

(** A claim is taken on workspaces no cleanup holds. *)
Lemma insert_claim_ok id item w w' u :
  insert_claim id item w = (w', Ok u) →
  at_claims (aw_tables w) !! item_id item = None ∧
  w' = MkAttemptWorld (aw_plan w) (set_at_claims (<[item_id item := MkCleanupClaim id false]> (at_claims (aw_tables w))) (aw_tables w)).
Proof.
  unfold insert_claim. intros Hm. inv_ok Hm. apply aselect_ok in Hstep as [-> ->].
  destruct (at_claims _ !! _) as [k|] eqn:E; cbn in Hm; [done|]. unfold in_attempts, modify in Hm. by simplify_eq.
Qed.
Lemma insert_claims_ok id items w w' u :
  insert_claims id items w = (w', Ok u) →
  (∀ item, item ∈ items → at_claims (aw_tables w) !! item_id item = None) ∧
  (∀ k, at_claims (aw_tables w') !! k = if bool_decide (k ∈ item_id <$> items) then Some (MkCleanupClaim id false) else at_claims (aw_tables w) !! k) ∧
  aw_plan w' = aw_plan w ∧ at_cleanups (aw_tables w') = at_cleanups (aw_tables w).
Proof.
  revert w. induction items as [|item items IH]; intros w Hm; cbn [insert_claims] in Hm.
  - unfold ret in Hm. simplify_eq. split_and!; try done. by intros ? ?%not_elem_of_nil.
  - inv_ok Hm. apply insert_claim_ok in Hstep as [Hnone ->]. apply IH in Hm as (Hfree & Hafter & Hp & Hc). cbn in *. split_and!; try done.
    + intros x [->|Hx]%elem_of_cons; [done|]. specialize (Hfree x Hx). by apply lookup_insert_None in Hfree as [? _].
    + intros k. rewrite Hafter. destruct (decide (k = item_id item)) as [->|Hne].
      * rewrite (bool_decide_true (item_id item ∈ item_id item :: _)) by left. case_bool_decide; [done|]. apply lookup_insert_eq.
      * rewrite lookup_insert_ne by done. erewrite bool_decide_ext; [done|]. rewrite elem_of_cons. naive_solver.
Qed.
Lemma gone_insert_claims id items : commits gone_kept (insert_claims id items).
Proof.
  intros w w' u (_ & Hafter & Hp & _)%insert_claims_ok Hg k r Hk. unfold sources_of, apt. rewrite Hp. apply Hg. revert Hk. unfold retired. rewrite Hafter.
  by case_bool_decide.
Qed.
Lemma gone_claim_cleanup clock id digest : upholds gone_kept (claim_workflow_cleanup clock id digest).
Proof.
  pose proof gone_insert_claims. unfold claim_workflow_cleanup, set_cleanup. uphold. commit. all: apply gone_same; commit.
Qed.
Lemma gone_release id : commits gone_kept (in_attempts (release_claims id)).
Proof.
  intros w w' u ->%in_attempts_ok Hg k r Hk. apply Hg. revert Hk. unfold retired, release_claims. cbn.
  intros (claim & Hc & Hr)%fmap_Some. apply map_lookup_filter_Some in Hc as [Hc _]. rewrite Hc. cbn. by rewrite Hr.
Qed.
Lemma gone_abandon id digest : upholds gone_kept (abandon_workflow_cleanup id digest).
Proof.
  pose proof gone_release. unfold abandon_workflow_cleanup, set_cleanup, record_cleanup_event. uphold. commit. all: apply gone_same; commit.
Qed.

(** Retiring a claim removes the registration with it. *)
Lemma retire_gone id workspace (w w1 w2 : AttemptWorld) u v :
  retire_claim id workspace w = (w1, Ok u) → remove_workspace_in_transaction workspace w1 = (w2, Ok v) →
  gone_kept w w2 ∧ retired w2 workspace ∧ (∀ r, r ∈ sources_of w2 → is_source workspace r = false).
Proof.
  intros ->%in_attempts_ok Hm. unfold remove_workspace_in_transaction in Hm. inv_ok Hm. apply in_attempts_ok in Hstep as ->.
  apply in_plan_ok in Hm as (p & ->%in_tables_ok & ->). unfold gone_kept, retired_gone, retired, sources_of. cbn.
  assert (∀ r, r ∈ List.filter (λ r, negb (is_source workspace r)) (pl_sources (pw_tables (aw_plan w))) → r ∈ sources_of w ∧ is_source workspace r = false) as Hf.
  { intros r [Hr Hn%negb_true_iff]%list_elem_of_In%List.filter_In. by apply list_elem_of_In in Hr. }
  split_and!.
  - intros Hg k r Hk [Hr Hn]%Hf. destruct (decide (k = workspace)) as [->|Hne]; [done|]. rewrite lookup_insert_ne in Hk by done. by apply Hg.
  - by rewrite lookup_insert_eq.
  - by intros r [_ Hn]%Hf.
Qed.

Lemma retirement_ok id digest workspace w w' u :
  record_workflow_cleanup_retirement id digest workspace w = (w', Ok u) →
  gone_kept w w' ∧ retired w' workspace.
Proof.
  unfold record_workflow_cleanup_retirement. intros Hm%attempt_tx_ok. do 2 inv_ok Hm. apply aselect_ok in Hstep as [-> ->].
  apply check_some_ok in Hstep0 as [-> Hclaim]. destruct a0 as [c k]. cbn [fst snd] in Hm.
  assert (at_claims (aw_tables w) !! workspace = Some k) as Hk.
  { destruct (claim_of _ _ _ _) as [[c' k']|] eqn:E; [|done]. destruct (bool_decide _); [|done]. simplify_eq.
    unfold claim_of in E. apply bind_Some in E as (c0 & _ & (k0 & Hk0 & E)%bind_Some). by destruct (_ && _); simplify_eq. }
  destruct (cc_retired k) eqn:Er.
  - inv_ok Hm. split; [by apply insensitive|]. unfold retired. rewrite Hk. cbn. by rewrite Er.
  - unfold retire_workspace in Hm. do 6 inv_ok Hm. apply (areads_ok _ _ _ _ (areads_document _)) in Hstep as ->.
    apply check_some_ok in Hstep0 as [-> _]. apply aselect_ok in Hstep1 as [-> ->]. apply check_ensure_ok in Hstep2 as [-> _].
    destruct (retire_gone _ _ _ _ _ _ _ Hstep3 Hstep4) as (Hg & Hr & _).
    assert (csame s4 w') as Hsame.
    { revert Hm. cut (commits csame (let! settled := aselect (λ _ _ t, cleanup_settled t id) in
        if settled then do! set_cleanup id (with_cl_state Cl_Retired (cl_error c) c) in
          record_cleanup_event (cp_run_id a) id Ev_CleanupApplied (length (cp_items a)) else ret tt)).
      { intros Hc Hm. by eapply Hc. } unfold set_cleanup, record_cleanup_event. commit. }
    split; [etransitivity; [exact Hg|by apply csame_gone]|]. unfold retired. by rewrite (proj2 Hsame).
Qed.
Lemma gone_retire id digest workspace : upholds gone_kept (record_workflow_cleanup_retirement id digest workspace).
Proof.
  intros w w' [u|e] Hm; [by apply retirement_ok in Hm as [? _]|]. revert Hm. unfold record_workflow_cleanup_retirement, attempt_tx.
  case_match. case_match; [done|]. intros [= <- _]. by apply insensitive.
Qed.
End MoreAlone.

(** ** Theorems *)

Section Steps.
Context `{Env, ContractLib, RecipeLib, PlanLib, ProposalLib, ControlLib, GateLib, StepLib, SourceJson, ReportLib, AttemptLib, LaunchLib, IntegrationLib, CleanupLib}.

Lemma step_gone w w' : attempt_step w w' → gone_kept w w'.
Proof.
  destruct 1.
  - apply csame_gone. split; [|congruence]. unfold sources_of, apt. by match goal with Hs : store_operation _ _ |- _ => rewrite (proj2 Hs) end.
  - apply csame_gone. split; [|congruence]. unfold sources_of, apt. by apply pk_sources, run_step_kept.
  - by eapply gone_alone; [apply cs_reserve|done].
  - by eapply gone_transition.
  - by eapply gone_alone; [apply cs_reserve_launch|done].
  - by eapply gone_alone; [apply cs_claim|done].
  - by eapply gone_alone; [apply cs_started|done].
  - by eapply gone_alone; [apply cs_launch_attention|done].
  - by eapply gone_alone; [apply cs_settle|done].
  - by eapply gone_alone; [apply cs_integrate|done].
  - by eapply gone_alone; [apply cs_prepared|done].
  - by eapply gone_alone; [apply cs_complete|done].
  - by eapply gone_alone; [apply cs_integration_attention|done].
  - by eapply gone_alone; [apply cs_settle_cancelled|done].
  - by eapply gone_alone; [apply cs_preview|done].
  - by eapply gone_claim_cleanup.
  - by eapply gone_retire.
  - by eapply gone_abandon.
  - by eapply gone_alone; [apply cs_cleanup_attention|done].
  - by eapply gone_alone; [apply cs_resume|done].
Qed.
End Steps.

Section Theorems.
Context `{Env, ContractLib, RecipeLib, PlanLib, ProposalLib, ControlLib, GateLib, StepLib, SourceJson, ReportLib, AttemptLib, LaunchLib, IntegrationLib, CleanupLib}.

Lemma tick_gone w w' : attempt_tick w w' → gone_kept w w'.
Proof.
  intros [He|(r & Hr & Ht)].
  - revert He. apply event_split; [apply _| |].
    + intros moment w1. apply (step_gone (H := at_time _ moment)).
    + intros cause w1 Hr Ht. apply csame_gone. split; [|by rewrite Ht]. unfold sources_of, apt. by rewrite (rv_tables _ _ _ Hr).
  - apply csame_gone. split; [|by rewrite Ht]. unfold sources_of, apt. by apply reset_ok in Hr as [[_ ->]|[-> _]].
Qed.
Lemma steps_gone w w' : rtc attempt_tick w w' → gone_kept w w'.
Proof. induction 1; [by apply insensitive|]. by etransitivity; [apply tick_gone|]. Qed.

(** [C20] A retired workspace never comes back: in a store that started without
    cleanup claims, once a cleanup recorded the retirement of a workspace, then
    whatever follows, reservations, transitions, new previews, abandoned cleanups
    and resets included, it stays retired and no workspace is registered under its
    identifier again. *)
Theorem retired_workspaces_stay_retired `{!ReportCodec} (id digest workspace : string) (w0 w w1 w2 : AttemptWorld) :
  at_claims (aw_tables w0) = ∅ → rtc attempt_tick w0 w →
  record_workflow_cleanup_retirement id digest workspace w = (w1, Ok tt) → rtc attempt_tick w1 w2 →
  retired w2 workspace ∧ ∀ r, r ∈ sources_of w2 → sw_workspace_id (sr_source r) ≠ workspace.
Proof.
  intros Hw0 Hs Hm Hs'. assert (retired_gone w0) as Hg0 by (intros k r Hk; unfold retired in Hk; by rewrite Hw0 in Hk).
  destruct (retirement_ok _ _ _ _ _ _ Hm) as [Hg Hr].
  assert (retired w2 workspace) as Hr2 by (by apply (ev_retired _ _ (steps_evolve _ _ Hs'))). split; [done|].
  intros r Hin. apply String.eqb_neq. by apply (steps_gone _ _ Hs' (Hg (steps_gone _ _ Hs Hg0))).
Qed.

(** What quiescence checks. *)
Lemma quiescent_ok preview w w' u :
  require_cleanup_quiescent preview w = (w', Ok u) →
  w' = w ∧ run_closed (adb w) (cp_run_id preview) = true ∧ run_unsettled (adb w) (apt w) (cp_run_id preview) = false ∧
  length (selected_rows (adb w) preview) = length (cp_items preview) ∧
  Forall (λ x, x_phase x ∈ [Wp_Ready; Wp_Attention]) (selected_rows (adb w) preview).
Proof.
  intros Hm. pose proof (areads_ok _ _ _ _ (areads_quiescent _) Hm) as ->. unfold require_cleanup_quiescent in Hm. attempt_inv.
  split_bools. split_and!; try done; [by apply Nat.eqb_eq|]. destruct u. rewrite rmap_ok in Hm. apply Forall_forall.
  intros x Hx%Hm. unfold check_selected in Hx. destruct (item_of _ _); [|done]. cbn in Hx. destruct (at_workspaces _ !! _ ≫= _); [|done]. cbn in Hx.
  apply rbind_ok_inv in Hx as (? & _ & Hx%ensure_ok). by apply bool_decide_eq_true in Hx.
Qed.

(** [C28] A cleanup claims only the worktrees of finished work: confirming a preview
    takes effect once, while the preview is fresh and every selected worktree was
    clean, unlocked and idle, when the run is isolated and closed with no
    integration, process or task left to settle and the selected workspaces are
    the run's with their setup settled; each of them was claimed by no cleanup
    and is now claimed by this one, every other claim is kept, and confirming
    again claims nothing. *)
Theorem cleanup_claims_finished_work (clock : Z) (id digest : string) (w w' : AttemptWorld) (claim : WorkflowCleanupClaim) :
  claim_workflow_cleanup clock id digest w = (w', Ok claim) →
  ∃ c preview, at_cleanups (aw_tables w) !! id = Some c ∧ cl_digest c = digest ∧ cl_abandoned c = false ∧
    preview_decode (cl_document c) = Some preview ∧ wcc_preview claim = preview ∧
    (cl_state c ∈ [Cl_Applying; Cl_Retired] ∧ w' = w ∨
     cl_state c = Cl_Preview ∧ (clock < cl_expires_at c)%Z ∧ Forall (λ item, git_blocks item = false) (cp_items preview) ∧
     run_closed (adb w) (cp_run_id preview) = true ∧ run_unsettled (adb w) (apt w) (cp_run_id preview) = false ∧
     length (selected_rows (adb w) preview) = length (cp_items preview) ∧
     Forall (λ x, x_phase x ∈ [Wp_Ready; Wp_Attention]) (selected_rows (adb w) preview) ∧
     (∀ item, item ∈ cp_items preview → at_claims (aw_tables w) !! item_id item = None) ∧
     (∀ k, at_claims (aw_tables w') !! k = if bool_decide (k ∈ item_id <$> cp_items preview)
                                           then Some (MkCleanupClaim id false) else at_claims (aw_tables w) !! k) ∧
     cl_state <$> at_cleanups (aw_tables w') !! id = Some Cl_Applying).
Proof.
  unfold claim_workflow_cleanup. intros Hm%attempt_tx_ok. inv_ok Hm. unfold confirmed_cleanup, fetch_cleanup in Hstep.
  inv_ok Hstep. inv_ok Hstep0. apply aselect_ok in Hstep1 as [-> ->]. apply fetch_one_ok in Hstep0 as [-> Hrow].
  inv_ok Hstep. apply check_ensure_ok in Hstep0 as [-> Hdig%String.eqb_eq]. unfold ret in Hstep. simplify_eq.
  do 4 inv_ok Hm. unfold ret in Hm. simplify_eq. apply check_ensure_ok in Hstep as [-> Hab%negb_true_iff].
  unfold cleanup_document in Hstep0. apply check_some_ok in Hstep0 as [-> Hdoc]. apply aselect_ok in Hstep2 as [-> ->].
  eexists a, _. split_and!; try done. destruct (cl_state a) eqn:Es.
  - right. do 4 inv_ok Hstep1. apply check_ensure_ok in Hstep as [-> Hex%negb_true_iff%Z.leb_gt], Hstep0 as [-> Hgit%negb_true_iff].
    apply quiescent_ok in Hstep2 as (-> & ? & ? & ? & ?). apply insert_claims_ok in Hstep3 as (Hfree & Hafter & _ & _).
    apply in_attempts_ok in Hstep1 as ->. split_and!; try done; cbn.
    + apply Forall_forall. intros item Hi. destruct (git_blocks item) eqn:Eg; [|done]. apply not_true_iff_false in Hgit. exfalso. apply Hgit, existsb_exists.
      exists item. by rewrite <-list_elem_of_In.
    + by rewrite lookup_insert_eq.
  - left. unfold ret in Hstep1. simplify_eq. split; [left|done].
  - left. unfold ret in Hstep1. simplify_eq. split; [right; left|done].
  - by apply check_ok in Hstep1 as [_ ?].
Qed.
End Theorems.
