(* ===== verification/RunApproval.v ===== *)
(** * RunApproval: a run that needs approval executes only an approved plan

    [approvals] relates the run rows to the gates: a pending plan gate is about
    the run's current plan, and a run that requires approval is running or paused
    only when a plan of it was approved, the current one for an isolated run.
    [approvals_are_required] shows that every call keeps it. *)

From S2P Require Import Prelude Text Models Store StoreFacts RoleContract Gates Runs Ordering Recipe RecipeFacts Plan Catalog Execution PlanStore PlanStoreFacts RunControl RunControlFacts GateResolution GateResolutionFacts ExecutionStore ExecutionStoreFacts RunTriggers RunHistory.
From Stdlib Require Import ZArith Lia Ascii String.
From stdpp Require Import strings gmap pretty prelude relations.

(** ** The invariant, on the rows it is about *)

Definition find_run (runs : list OrchestrationCoordinatorRun) (run : string) : option OrchestrationCoordinatorRun :=
  find_where (λ r, String.eqb (r_id r) run) runs.
Definition revision_at (cols : gmap string GatePlanColumns) (g : OrchestrationDecisionGate) : option Z :=
  gp_plan_revision (default no_gate_columns (cols !! g_id g)).
Definition executing (r : OrchestrationCoordinatorRun) : bool :=
  match r_status r with Cs_Running | Cs_Paused => true | _ => false end.
Definition pending_plan (run : string) (g : OrchestrationDecisionGate) : bool :=
  pending_run_gate run [Gk_Plan] g.

Record approvals (gates : list OrchestrationDecisionGate) (cols : gmap string GatePlanColumns)
    (runs : list OrchestrationCoordinatorRun) : Prop := {
  ap_current : ∀ g run r, g ∈ gates → pending_plan run g = true → find_run runs run = Some r →
    revision_at cols g = r_plan_revision r;
  ap_approved : ∀ run r, find_run runs run = Some r → r_approval_required r = true → executing r = true →
    ∃ g, g ∈ gates ∧ plan_gate_approved run g = true ∧
         (r_isolation r = Is_Isolated → revision_at cols g = r_plan_revision r);
  ap_owned : ∀ g, g ∈ gates → g_kind g = Gk_Plan → is_Some (g_run_id g)
}.

Lemma find_run_updated p f runs run r' :
  (∀ r, r_id (f r) = r_id r) → find_run (update_where p f runs) run = Some r' →
  ∃ r, find_run runs run = Some r ∧ r' = (if p r then f r else r).
Proof. intros Hf. unfold find_run. rewrite find_run_update by done. intros (r & ? & ->)%fmap_Some. eauto. Qed.

(** What an update of run rows may change without asking the gates. *)
Definition run_steady (r r' : OrchestrationCoordinatorRun) : Prop :=
  r_id r' = r_id r ∧ r_isolation r' = r_isolation r ∧ r_approval_required r' = r_approval_required r ∧
  r_plan_revision r' = r_plan_revision r ∧ (executing r' = true → executing r = true).

Lemma approvals_runs gates cols runs p f :
  (∀ r, r_id (f r) = r_id r) → (∀ k r, find_run runs k = Some r → p r = true → run_steady r (f r)) →
  approvals gates cols runs → approvals gates cols (update_where p f runs).
Proof.
  intros Hid Hf [Hcur Happ Hown]. split; [| |done].
  - intros g run r' Hg Hp (r & Hr & ->)%find_run_updated; [|done]. rewrite (Hcur _ _ _ Hg Hp Hr).
    destruct (p r) eqn:E; [|done]. by destruct (Hf _ r Hr E) as (_ & _ & _ & -> & _).
  - intros run r' (r & Hr & ->)%find_run_updated; [|done]. destruct (p r) eqn:E; [|by apply Happ].
    destruct (Hf _ r Hr E) as (_ & -> & -> & -> & Hx). intros Ha He. by apply (Happ run); [..|by apply Hx].
Qed.

(** Pending gates may be decided or invalidated; nothing else of a gate moves. *)
Lemma approvals_gates gates cols runs p f :
  (∀ g, p g = true → g_status g = Gs_Pending) → (∀ g, g_kind (f g) = g_kind g ∧ g_run_id (f g) = g_run_id g) →
  (∀ g, g_status (f g) ≠ Gs_Pending) →
  approvals gates cols runs → approvals (update_where p f gates) cols runs.
Proof.
  intros Hp Hf Hs [Hcur Happ Hown]. split; last first.
  { intros g (g0 & Hg0 & ->)%elem_of_update_where Hk. specialize (Hown g0 Hg0). destruct (p g0); [|by apply Hown].
    destruct (Hf g0) as [Hk0 ->]. apply Hown. by rewrite <-Hk0. }
  - intros run r Hr Ha He. destruct (Happ _ _ Hr Ha He) as (g & Hg & Hpa & Hrev). exists g. split; [|done].
    apply update_where_keeps; [done|]. destruct (p g) eqn:E; [|done]. apply Hp in E.
    unfold plan_gate_approved in Hpa. split_bools. congruence.
  - intros g run r (g0 & Hg0 & ->)%elem_of_update_where Hpend Hr. destruct (p g0) eqn:E; [|by eapply Hcur].
    unfold pending_plan, pending_run_gate in Hpend. split_bools. by destruct (Hs g0).
Qed.

Lemma approvals_columns gates cols cols' runs :
  (∀ g, g ∈ gates → revision_at cols' g = revision_at cols g) → approvals gates cols runs → approvals gates cols' runs.
Proof.
  intros Hc [Hcur Happ Hown]. split; [| |done].
  - intros g run r Hg Hp Hr. rewrite (Hc g Hg). by eapply Hcur.
  - intros run r Hr Ha He. destruct (Happ _ _ Hr Ha He) as (g & Hg & Hpa & Hrev). exists g. by rewrite (Hc g Hg).
Qed.

(** A run without a pending plan gate may be sent back to planning. *)
Lemma approvals_replanned gates cols runs run f :
  (∀ r, r_id (f r) = r_id r) → (∀ r, executing (f r) = false) → (∀ g, g ∈ gates → pending_plan run g = false) →
  approvals gates cols runs → approvals gates cols (update_where (is_run run) f runs).
Proof.
  intros Hid Hx Hno [Hcur Happ Hown]. split; [| |done].
  - intros g k r' Hg Hp (r & Hr & ->)%find_run_updated; [|done]. destruct (is_run run r) eqn:E; [|by eapply Hcur].
    apply String.eqb_eq in E. apply (find_key_Some r_id) in Hr as [_ Hk]. subst. rewrite (Hno g Hg) in Hp. done.
  - intros k r' (r & Hr & ->)%find_run_updated; [|done]. destruct (is_run run r) eqn:E; [|by apply Happ].
    intros _ He. by rewrite Hx in He.
Qed.

(** A run may start executing when its current plan was approved. *)
Lemma approvals_started gates cols runs run p f g :
  (∀ r, r_id (f r) = r_id r ∧ r_isolation (f r) = r_isolation r ∧ r_approval_required (f r) = r_approval_required r ∧
        r_plan_revision (f r) = r_plan_revision r) →
  (∀ r, p r = true → r_id r = run) → g ∈ gates → plan_gate_approved run g = true →
  (∀ r, find_run runs run = Some r → revision_at cols g = r_plan_revision r) →
  approvals gates cols runs → approvals gates cols (update_where p f runs).
Proof.
  intros Hf Hp Hg Hpa Hrev [Hcur Happ Hown]. assert (∀ r, r_id (f r) = r_id r) as Hid by (intros r; apply Hf).
  split; [| |done].
  - intros x k r' Hx Hpx (r & Hr & ->)%find_run_updated; [|done]. rewrite (Hcur _ _ _ Hx Hpx Hr).
    destruct (p r); [|done]. by destruct (Hf r) as (_ & _ & _ & ->).
  - intros k r' (r & Hr & ->)%find_run_updated; [|done]. destruct (p r) eqn:E; [|by apply Happ].
    pose proof (Hp r E) as Hrid. apply (find_key_Some r_id) in Hr as Hk. destruct Hk as [_ Hk]. subst.
    intros _ _. exists g. split_and!; [done|done|]. intros _. destruct (Hf r) as (_ & _ & _ & ->). by apply Hrev.
Qed.

Definition approvals_hold (w : PlanWorld) : Prop :=
  gate_ids w ∧ approvals (gates_of w) (pl_gates (pw_tables w)) (runs_of w).

Definition ap (w : PlanWorld) : Prop := approvals (gates_of w) (pl_gates (pw_tables w)) (runs_of w).
Definition ap_kept (w w' : PlanWorld) : Prop := ap w → ap w'.
#[export] Instance ap_kept_preorder : PreOrder ap_kept.
Proof. unfold ap_kept. split; [by intros w Hw|]. intros w1 w2 w3 H12 H23 Hw. by apply H23, H12. Qed.

Section Statements.
Context `{Env, ContractLib, RecipeLib, PlanLib, ProposalLib, ControlLib, GateLib, StepLib, SourceJson}.

Lemma ap_same w w' :
  gates_of w' = gates_of w → pl_gates (pw_tables w') = pl_gates (pw_tables w) → runs_of w' = runs_of w → ap_kept w w'.
Proof. unfold ap_kept, ap. by intros -> -> ->. Qed.
Lemma ap_event event : guarantees ap_kept (record_event event).
Proof.
  intros w w' u [Hev Ht]%event_recorded.
  apply ap_same; [by apply events_only_gates|by rewrite Ht|by apply events_only_runs].
Qed.
Lemma ap_tasks sr p f : guarantees ap_kept (in_world (update_tasks sr p f)).
Proof. intros w w' n (v & [-> _]%update_tasks_ok & ->)%in_world_ok. by apply ap_same. Qed.
Lemma ap_revision p : guarantees ap_kept (insert_plan_revision p).
Proof. intros w w' u (_ & _ & ->)%insert_plan_revision_ok. by apply ap_same. Qed.
Lemma ap_uuid : guarantees ap_kept new_uuid.
Proof. intros w w' id Hm. unfold new_uuid in Hm. simplify_eq. by apply ap_same. Qed.
Lemma ap_receipt c : guarantees ap_kept (insert_receipt c).
Proof. intros w w' u [_ ->]%insert_receipt_ok. by apply ap_same. Qed.
Lemma ap_runs p f :
  (∀ r, r_id (f r) = r_id r) → (∀ r, p r = true → run_steady r (f r)) → guarantees ap_kept (in_world (update_runs p f)).
Proof. intros Hid Hf w w' n (v & (-> & _)%update_runs_ok & ->)%in_world_ok Hap. apply approvals_runs; eauto. Qed.
Lemma ap_tables f : (∀ t, pl_gates (f t) = pl_gates t) → guarantees ap_kept (in_tables f).
Proof. intros Hf w w' u ->%in_tables_ok. by apply ap_same; [|apply Hf|]. Qed.
Lemma ap_cancel run reason : guarantees ap_kept (cancel_run run reason).
Proof.
  intros w w' u Hst%cancel_run_ok. unfold ap_kept, ap. rewrite (untouched_gate_columns _ _ (stopped_frame _ _ _ _ Hst)).
  rewrite (stopped_gates _ _ _ _ Hst), (stopped_runs _ _ _ _ Hst). intros Hap.
  apply approvals_runs; [done|by intros ? r _ _|]. apply approvals_runs; [done|by intros ? r _ _|].
  apply approvals_gates; [|done|done|done]. intros g Hg. unfold open_of in Hg. by split_bools.
Qed.
End Statements.
#[export] Hint Resolve ap_event ap_tasks ap_revision ap_uuid ap_receipt ap_cancel : runs.

Section Approvals.
Context `{Env, ContractLib, RecipeLib, PlanLib, ProposalLib, ControlLib, GateLib, StepLib, SourceJson}.

(** Back to planning: every pending plan gate of the run but the one being
    decided is invalidated first. *)
Lemma ap_changes run reason ids actor gate w w' v :
  (∀ g, g ∈ gates_of w → Some (g_id g) = gate → g_status g ≠ Gs_Pending) →
  request_run_changes run reason ids actor gate w = (w', Ok v) → ap_kept w w'.
Proof.
  intros Hgate Hm Hap. unfold request_run_changes in Hm. do 9 inv_ok Hm. inv_ok Hm.
  apply guard_ok in Hstep as [-> _]. unfold ensure_no_active_work in Hstep0. do 3 inv_ok Hstep0.
  apply pselect_ok in Hstep as [-> ->]. apply guard_ok in Hstep8 as [-> _]. apply pselect_ok in Hstep9 as [-> ->].
  apply guard_ok in Hstep0 as [-> _]. apply mapM_reads in Hstep1 as ->; last first.
  { intros x v0 v0' u Hx. inv_ok Hx. apply pselect_ok in Hstep as [-> ->]. by apply guard_ok in Hx as [-> _]. }
  apply pselect_ok in Hstep2 as [-> ->].
  assert (gates_of s3 = gates_of w ∧ pl_gates (pw_tables s3) = pl_gates (pw_tables w) ∧ runs_of s3 = runs_of w) as (Hg3 & Hc3 & Hr3).
  { destruct (current_revision _ _ _) as [[r p]|]; [|by inv_ok Hstep3]. do 2 inv_ok Hstep3. inv_ok Hstep3.
    unfold new_uuid in Hstep. simplify_eq. by apply insert_plan_revision_ok in Hstep0 as (_ & _ & ->). }
  apply in_world_ok in Hstep4 as (v4 & [-> _]%update_tasks_ok & ->).
  apply invalidate_gates_ok in Hstep5 as (Hst5 & _ & Ht5 & Hg5). apply in_world_ok in Hstep6 as (v6 & (-> & _)%update_runs_ok & ->).
  apply (ap_event _ _ _ _ Hstep7). unfold ap. cbn [pw_tables].
  match goal with |- approvals (gates_of ?x) _ _ =>
    change (gates_of x) with (gates_of s5); change (runs_of x) with (update_where (is_run run) (replanned_run v) (runs_of s5)) end.
  assert (pl_gates (pw_tables s5) = pl_gates (pw_tables w)) as -> by (rewrite Ht5; exact Hc3).
  assert (runs_of s5 = runs_of w) as -> by (rewrite (steady_runs _ _ Hst5); exact Hr3).
  rewrite Hg5. match goal with |- context [gates_of ?x] => change (gates_of x) with (gates_of s3) end. rewrite Hg3. apply approvals_replanned; try done.
  - intros g (g0 & Hg0 & ->)%elem_of_update_where. apply not_true_is_false. unfold pending_plan, pending_run_gate.
    destruct (bool_decide (g_run_id g0 = Some run) && _ && _) eqn:E; intros Hp; split_bools; [done|].
    rewrite !bool_decide_true in E by done. cbn in E. split_bools. by apply (Hgate g0).
  - apply approvals_gates; try done. intros g Hg. by split_bools.
Qed.

(** An update of one run's row, executing as it was. *)
Lemma ap_one_run run f r w w' n :
  run_of w run = Some r → executing r = true → (∀ x, r_id (f x) = r_id x) →
  (∀ x, r_isolation (f x) = r_isolation x ∧ r_approval_required (f x) = r_approval_required x ∧
        r_plan_revision (f x) = r_plan_revision x) →
  in_world (update_runs (is_run run) f) w = (w', Ok n) → ap_kept w w'.
Proof.
  intros Hr Hx Hid Hf (v & (-> & _)%update_runs_ok & ->)%in_world_ok Hap. apply approvals_runs; [done| |done].
  intros k y Hy Hk%String.eqb_eq. unfold run_of, run_by_id in Hr. pose proof (find_key_Some r_id _ _ _ Hy) as [_ Hyk].
  subst k. subst run. unfold find_run, runs_of in Hy. rewrite Hr in Hy. injection Hy as <-.
  destruct (Hf r) as (?&?&?). by split_and!; [apply Hid|..].
Qed.

Lemma ap_control request reason actor r w w' b :
  run_of w (ctl_run_id request) = Some r → control request (r_status r) reason actor w = (w', Ok b) → ap_kept w w'.
Proof.
  intros Hr Hm. unfold control in Hm. destruct (ctl_action request).
  - as_guarantee ap_kept. by_statements.
  - do 3 inv_ok Hm. inv_ok Hm. apply guard_ok in Hstep as [-> Hs]. split_bools.
    etransitivity; [|by eapply ap_event]. eapply ap_one_run; [exact Hr| |..|exact Hstep0]; try done. unfold executing. by rewrite Hs.
  - do 5 inv_ok Hm. inv_ok Hm. apply guard_ok in Hstep as [-> Hs]. apply pselect_ok in Hstep0 as [-> ->].
    apply guard_ok in Hstep1 as [-> _]. split_bools.
    etransitivity; [|by eapply ap_event]. eapply ap_one_run; [exact Hr| |..|exact Hstep2]; try done. unfold executing. by rewrite Hs.
  - do 3 inv_ok Hm. inv_ok Hm. apply guard_ok in Hstep as [-> _]. apply raise_ok in Hstep0 as [-> _].
    eapply ap_changes; [|exact Hstep1]. by intros ? ? [=].
Qed.

Lemma ap_command request_id run expected digest action command w w' receipt :
  (∀ r v b, run_of w run = Some r → command (r_status r) w = (v, Ok b) → ap_kept w v) →
  run_command request_id run expected digest action command w = (w', Ok receipt) → ap_kept w w'.
Proof.
  intros Hc [[-> _]|[_ (r & r1 & w1 & changes & Hr & _ & Hcmd & _ & _ & _ & ->)]]%run_command_ok; [done|].
  etransitivity; [by eapply Hc|]. intros Hap. unfold ap. apply (approvals_runs (gates_of w1)); [done| |exact Hap].
  by intros k x _ _.
Qed.

(** ** Decisions *)

Lemma ap_written request actor g w w1 :
  decision_written request actor g w w1 → ap_kept w w1.
Proof.
  intros Hw Hap. unfold ap. rewrite (written_gates _ _ _ _ _ Hw), (written_runs _ _ _ _ _ Hw).
  destruct (written_columns _ _ _ _ _ Hw) as [audit ->]. apply approvals_gates; try done.
  - intros x Hx. by split_bools.
  - eapply approvals_columns; [|exact Hap]. intros x _. unfold revision_at, columns_of.
    destruct (decide (g_id x = g_id g)) as [->|Hne]; [by rewrite lookup_insert_eq|by rewrite lookup_insert_ne].
Qed.

(** Approving a pending plan gate approves the run's current plan. *)
Lemma written_approval request actor g run w w1 :
  decision_written request actor g w w1 → gate_of w (g_id g) = Some g → g_status g = Gs_Pending →
  g_kind g = Gk_Plan → g_run_id g = Some run → trim (res_decision request) = PLAN_GATE_APPROVE → ap w →
  ∃ x, x ∈ gates_of w1 ∧ plan_gate_approved run x = true ∧
    ∀ r, find_run (runs_of w1) run = Some r → revision_at (pl_gates (pw_tables w1)) x = r_plan_revision r.
Proof.
  intros Hw Hg Hs Hk Hrun Hdec Hap. exists (decided_gate PLAN_GATE_APPROVE g). split_and!.
  - pose proof (written_row _ _ _ _ _ Hw Hg Hs) as Hrow. rewrite Hdec in Hrow. by apply gate_of_id in Hrow as [? _].
  - unfold plan_gate_approved. cbn. by rewrite Hk, Hrun, !bool_decide_true.
  - rewrite (written_runs _ _ _ _ _ Hw). intros r Hr. destruct (written_columns _ _ _ _ _ Hw) as [audit ->].
    unfold revision_at. cbn. rewrite lookup_insert_eq. cbn.
    apply (ap_current _ _ _ Hap g run r); [by apply gate_of_id in Hg as [? _]| |done].
    unfold pending_plan, pending_run_gate. rewrite Hrun, Hk, Hs, !bool_decide_true; [done|done|set_solver|done].
Qed.

(** The decisions that end or replan a run. *)
Lemma ap_not_approved g run reason request actor (event : PM unit) cause w w' b decision :
  guarantees ap_kept event → (∀ x, x ∈ gates_of w → g_id x = g → g_status x ≠ Gs_Pending) →
  (if String.eqb decision PLAN_GATE_REJECT
   then do! event in
        do! cancel_run run cause in
        do! record_event (actor_event run Ev_Cancelled actor (Some g) cause None) in
        ret false
   else if String.eqb decision PLAN_GATE_REQUEST_CHANGES
   then do! request_run_changes run (default "" reason) (default [] (res_task_ids request)) actor (Some g) in
        do! in_world (update_runs (is_run run) (λ r, with_r_control_sequence (r_control_sequence r + 1) r)) in
        ret true
   else fail (Bail ("gate_invalid_resolution: unsupported decision " +:+ decision))) w = (w', Ok b) →
  ap_kept w w'.
Proof.
  intros Hev Hdone Hm. destruct (String.eqb decision PLAN_GATE_REJECT); [as_guarantee ap_kept; by_statements|].
  destruct (String.eqb decision PLAN_GATE_REQUEST_CHANGES); [|done]. do 2 inv_ok Hm. inv_ok Hm.
  etransitivity; [eapply ap_changes; [|exact Hstep]; intros x Hx [= Hid]; by apply Hdone|].
  eapply ap_runs; [| |exact Hstep0]; [done|by intros r _].
Qed.

(** After the decision was written its gate is not pending. *)
Lemma written_not_pending request actor g w w1 x :
  gate_ids w → decision_written request actor g w w1 → gate_of w (g_id g) = Some g → g_status g = Gs_Pending →
  x ∈ gates_of w1 → g_id x = g_id g → g_status x ≠ Gs_Pending.
Proof.
  intros Hnd Hw Hg Hs. rewrite (written_gates _ _ _ _ _ Hw). intros (x0 & Hx0 & ->)%elem_of_update_where Hid.
  assert (g_id x0 = g_id g) as Hid0 by (by destruct (String.eqb (g_id x0) (g_id g) && _)).
  apply gate_of_id in Hg as [Hin _]. assert (x0 = g) as -> by (by eapply (NoDup_key_inj g_id)).
  by rewrite String.eqb_refl, (bool_decide_true (g_status g = _)).
Qed.

Lemma ap_resolve request actor w w' res :
  gate_ids w → resolve_run_gate request actor w = (w', Ok res) → ap_kept w w'.
Proof.
  intros Hnd [[-> _]|[_ Hm]]%resolve_run_gate_ok Hap; [done|].
  destruct (decide_gate_ok _ _ _ _ _ Hm) as (g & w1 & w2 & changes & Hg & Hchk & Hwr & Happ & Hworld & Htab & _). clear Hm.
  destruct (gate_of_id _ _ _ Hg) as [Hin Hid]. rewrite <-Hid in Hg.
  destruct (checks_inv _ _ _ _ _ Hchk) as (Hpend & _). pose proof (ap_written _ _ _ _ _ Hwr Hap) as Hap1.
  pose proof (λ x, written_not_pending _ _ _ _ _ x Hnd Hwr Hg Hpend) as Hdone.
  cut (ap w2). { unfold ap, gates_of, runs_of. by rewrite Hworld, Htab. }
  revert Happ. unfold apply_resolution. cbn [gt_kind gt_run_id run_gate_from_row gt_task_id gt_id].
  destruct (g_kind g) eqn:Hk; intros Happ.
  - inv_ok Happ. inv_ok Happ. by apply (ap_tasks _ _ _ _ _ _ Hstep).
  - inv_ok Happ. done.
  - destruct (ap_owned _ _ _ Hap g Hin Hk) as [run Hrun]. rewrite Hrun in Happ. cbn [default] in Happ.
    destruct (String.eqb_spec (trim (res_decision request)) PLAN_GATE_APPROVE) as [Hdec|_].
    { rewrite bool_decide_true in Happ by done. do 2 inv_ok Happ. inv_ok Happ.
      apply (ap_event _ _ _ _ Hstep0). apply in_world_ok in Hstep as (v & (-> & _)%update_runs_ok & ->).
      destruct (written_approval _ _ _ _ _ _ Hwr Hg Hpend Hk Hrun Hdec Hap) as (x & Hx & Hpa & Hrev).
      eapply (approvals_started (gates_of w1)); [| |exact Hx|exact Hpa|exact Hrev|exact Hap1]; [done|].
      intros r Hr. split_bools. by apply String.eqb_eq. }
    eapply ap_not_approved; [| |exact Happ|exact Hap1]; [by_statements|done].
  - destruct (String.eqb (trim (res_decision request)) PLAN_GATE_APPROVE).
    { rewrite bool_decide_false in Happ by done. do 2 inv_ok Happ. inv_ok Happ. apply pselect_ok in Hstep as [-> ->].
      eapply ap_runs; [| |exact Hstep0|exact Hap1]; [done|]. intros r Hr. cbn beta in Hr. split_bools. split_and!; try done.
      intros _. unfold executing. by match goal with Hs : r_status r = _ |- _ => rewrite Hs end. }
    eapply ap_not_approved; [| |exact Happ|exact Hap1]; [by_statements|done].
Qed.

(** ** Proposals and new gates *)

Lemma load_run_approved run w w' row :
  load_run run w = (w', Ok row) → rr_plan_approved row = existsb (plan_gate_approved run) (gates_of w).
Proof.
  unfold load_run, run_has_approved_plan_gate. intros Hm. do 4 inv_ok Hm. inv_ok Hm.
  apply pselect_ok in Hstep as [-> ->]. apply raise_ok in Hstep0 as [-> _].
  apply pselect_ok in Hstep1 as [-> ->]. by apply pselect_ok in Hstep2 as [-> ->].
Qed.

Lemma revision_at_same cols cols' g : cols' !! g_id g = cols !! g_id g → revision_at cols' g = revision_at cols g.
Proof. unfold revision_at. by intros ->. Qed.

Lemma ap_propose run input actor w w' p : propose_run_plan run input actor w = (w', Ok p) → ap_kept w w'.
Proof.
  intros [->|(row & compiled & Hload & _ & Hst)]%propose_cases Hap; [done|].
  pose proof (load_run_approved _ _ _ _ Hload) as Hpa. destruct (load_run_ok _ _ _ _ Hload) as (_ & r & Hr & Hrev & Hiso & _ & Hreq).
  pose proof (stored_run_row _ _ _ _ _ _ _ _ Hst Hr) as Hr'. unfold run_by_id in Hr'. fold (runs_of w') in Hr'.
  destruct (stored_gates _ _ _ _ _ _ _ Hst) as (ids & Hg & _ & _ & Hout & Hkeep & Hcols & _).
  assert (∀ g, g ∈ gates_of w → revision_at (pl_gates (pw_tables w')) g = revision_at (pl_gates (pw_tables w)) g) as Hold.
  { intros g Hin. apply revision_at_same, Hkeep. intros Hids. apply (Hout _ Hids). by apply list_elem_of_fmap_2. }
  assert (∀ k r', find_run (runs_of w') k = Some r' → k ≠ run → find_run (runs_of w) k = Some r') as Hother.
  { intros k r' Hk Hne. rewrite (stored_run _ _ _ _ _ _ _ Hst) in Hk. apply find_run_updated in Hk as (r0 & Hr0 & ->); [|done].
    apply (find_key_Some r_id) in Hr0 as Hk. destruct Hk as [_ Hk]. rewrite Hk, (proj2 (String.eqb_neq k run)) by done. done. }
  assert (∀ g k, g ∈ no_longer_pending run (gates_of w) → pending_plan k g = true → g ∈ gates_of w ∧ k ≠ run) as Hpend.
  { intros g k (g0 & Hg0 & ->)%elem_of_update_where Hp. unfold pending_plan, pending_run_gate in *.
    destruct (bool_decide (g_run_id g0 = Some run) && _ && _) eqn:E; split_bools; [done|]. split; [done|]. intros ->.
    rewrite !bool_decide_true in E; [done|done|set_solver|done]. }
  assert (∀ g k, g ∈ gates_of w → plan_gate_approved k g = true → g ∈ gates_of w') as Hkept.
  { intros g k Hin Ha. rewrite Hg. apply elem_of_app. left. apply update_where_keeps; [done|].
    unfold plan_gate_approved in Ha. unfold pending_run_gate. split_bools.
    match goal with Hs : g_status g = _ |- _ => by rewrite Hs, andb_false_r end. }
  destruct Hap as [Hcur Happ Hown]. split.
  - rewrite Hg. intros g k r' [Hin|Hin]%elem_of_app Hp Hk.
    + destruct (Hpend _ _ Hin Hp) as [Hin0 Hne]. rewrite (Hold g Hin0). by apply (Hcur g k); [..|by apply Hother].
    + apply elem_of_lookup_zip_with in Hin as (i & gate & id & -> & Hgi & Hidi).
      unfold pending_plan, pending_run_gate in Hp. split_bools. cbn in *. unfold revision_at. cbn.
      rewrite (Hcols _ _ _ Hgi Hidi). cbn. apply list_elem_of_lookup_2 in Hgi. unfold new_gates in Hgi.
      apply elem_of_app in Hgi as [(s & -> & _)%list_elem_of_fmap|Hgi].
      { match goal with Hs : _ ∈ [Gk_Plan] |- _ => by apply list_elem_of_singleton in Hs end. }
      destruct (needs_plan_gate row); [|by apply elem_of_nil in Hgi]. apply list_elem_of_singleton in Hgi as ->. cbn in *.
      simplify_eq. unfold find_run in Hk. rewrite Hr' in Hk. by injection Hk as <-.
  - intros k r' Hk Ha He. destruct (decide (k = run)) as [->|Hne].
    + unfold find_run in Hk. rewrite Hr' in Hk. injection Hk as <-. cbn in Ha, He. unfold executing in He. cbn in He.
      unfold plan_status, needs_plan_gate in He. rewrite Hreq, Ha, Hiso in He.
      destruct (r_isolation r) eqn:Ei; cbn in He; [|done].
      destruct (rr_plan_approved row); [|done]. symmetry in Hpa. apply existsb_exists in Hpa as (g & Hin & Hg0).
      apply list_elem_of_In in Hin. exists g. split_and!; [by eapply Hkept|done|]. cbn. by rewrite Ei.
    + destruct (Happ k r' (Hother _ _ Hk Hne) Ha He) as (g & Hin & Hg0 & Hi). exists g.
      rewrite (Hold g Hin). split_and!; [by eapply Hkept|done|done].
  - rewrite Hg. intros g [(g0 & Hg0 & ->)%elem_of_update_where|Hin]%elem_of_app Hk.
    + destruct (pending_run_gate _ _ g0); by apply (Hown g0).
    + apply elem_of_lookup_zip_with in Hin as (i & gate & id & -> & _). by eexists.
Qed.

Lemma ap_insert_gate gate w w' id :
  insert_run_gate gate w = (w', Ok id) →
  (∀ r, find_run (runs_of w) (ng_run_id gate) = Some r → ng_plan_revision gate = r_plan_revision r) → ap_kept w w'.
Proof.
  intros (Hst & _ & _ & Hfresh & Hg & Hc)%insert_run_gate_ok Hrev [Hcur Happ Hown].
  assert (∀ g, g ∈ gates_of w → revision_at (pl_gates (pw_tables w')) g = revision_at (pl_gates (pw_tables w)) g) as Hold.
  { intros g Hin. apply revision_at_same. rewrite Hc. apply lookup_insert_ne. intros ->. apply Hfresh. by apply list_elem_of_fmap_2. }
  unfold ap. rewrite (steady_runs _ _ Hst), Hg. split.
  - intros g k r [Hin|Hin]%elem_of_app Hp Hk; [rewrite (Hold g Hin); by eapply Hcur|].
    apply list_elem_of_singleton in Hin as ->. unfold pending_plan, pending_run_gate in Hp. split_bools. cbn in *. simplify_eq.
    unfold revision_at. cbn. rewrite Hc, lookup_insert_eq. cbn. by apply Hrev.
  - intros k r Hk Ha He. destruct (Happ k r Hk Ha He) as (g & Hin & Hg0 & Hi). exists g. rewrite (Hold g Hin).
    split_and!; [apply elem_of_app; by left|done|done].
  - intros g [Hin|Hin]%elem_of_app; [by apply Hown|]. apply list_elem_of_singleton in Hin as ->. by eexists.
Qed.

Lemma ap_create_gate run kind question w w' g : create_run_gate run kind question w = (w', Ok g) → ap_kept w w'.
Proof.
  unfold create_run_gate. intros Hm. do 3 inv_ok Hm. apply guard_ok in Hstep as [-> _].
  apply raise_ok in Hm as [-> _]. apply in_world_ok in Hstep1 as (v & Hv & ->).
  unfold orchestration_gate_by_id, select, gets in Hv. injection Hv as <- _. intros Hap. change (ap s0). revert Hap.
  apply plan_tx_ok in Hstep0. do 3 inv_ok Hstep0. apply pselect_ok in Hstep as [-> ->].
  apply raise_ok in Hstep1 as [-> Hr%with_context_ok]. apply pselect_ok in Hstep2 as [-> ->].
  destruct (find_last_where _ _); [by inv_ok Hstep0|]. eapply ap_insert_gate; [exact Hstep0|]. cbn. intros r Hr'.
  unfold run_by_id in Hr. unfold find_run, runs_of in Hr'. rewrite Hr in Hr'. by injection Hr' as <-.
Qed.

Lemma ap_open run w w' opened : gate_ids w → open_due_stage_gates run w = (w', Ok opened) → ap_kept w w'.
Proof.
  intros Hnd Hm Hap. destruct (open_due_stage_gates_ok _ _ _ _ Hnd Hm) as (Hop & Hbound & Hkeep & Hg & _ & Hr & _).
  unfold ap. rewrite Hg, Hr.
  assert (approvals (gates_of w) (pl_gates (pw_tables w')) (runs_of w)) as Hap'.
  { eapply approvals_columns; [|exact Hap]. intros g Hin. destruct (decide (g_id g ∈ opened)) as [Hi|Hi];
      [|by apply revision_at_same, Hkeep].
    rewrite Hop in Hi. apply list_elem_of_fmap in Hi as (x & Hid & Hx). apply list_elem_of_In, filter_In in Hx as [Hx Hfin].
    apply list_elem_of_In in Hx. unfold finished in Hfin. destruct (evidence_for run w x) as [[[d sha]|]|] eqn:Ee; try done.
    unfold revision_at. rewrite Hid, (Hbound _ _ _ Hx Ee). cbn. unfold columns_of. done. }
  destruct (Nat.eqb (length opened) 0); [done|]. apply approvals_runs; [done| |done].
  intros k r _ Hp. split_bools. split_and!; try done. intros _. unfold executing.
  by match goal with Hs : r_status r = _ |- _ => rewrite Hs end.
Qed.

Lemma step_approvals w w' : run_step w w' → approvals_hold w → approvals_hold w'.
Proof.
  intros Hstep [Hnd Hap]. split; [by apply (step_ids _ _ Hstep)|]. revert Hap. change (ap_kept w w').
  destruct Hstep as [??? p Hm|? ? ? ? Hm|? ? ? Hm|? ? ? Hm|? ? ? Hm|? ? ? Hm|? ? ? Hm|? ? ? Hm|? ? Hm|? ? ? ? ? Hm|? ? ? ? Hm|Hdb Ht].
  - by eapply ap_propose.
  - by eapply ap_create_gate.
  - eapply ap_command; [|exact Hm]. intros r v b Hr. by apply ap_control.
  - eapply ap_command; [|exact Hm]. intros r v b _ Hc. clear Hm. as_guarantee ap_kept. unfold retry_cancellation. by_statements.
  - as_guarantee ap_kept. unfold settle_workflow_cancellation, validate_target, require_terminal_shutdown_settle, finish_cancellation.
    by_statements; [by apply ap_tables..|by apply ap_runs].
  - as_guarantee ap_kept. unfold begin_workflow_terminal_shutdown. by_statements; by apply ap_tables.
  - as_guarantee ap_kept. unfold verify_workflow_terminal_shutdown. by_statements; by apply ap_tables.
  - by eapply ap_resolve.
  - by eapply ap_open.
  - as_guarantee ap_kept. unfold pause_workflow_execution_for_attention. by_statements.
    apply ap_runs; [done|]. intros r Hp. split_bools. split_and!; try done. intros _. unfold executing.
    by match goal with Hs : r_status r = _ |- _ => rewrite Hs end.
  - as_guarantee ap_kept. unfold complete_workflow_execution, approved_plan, require_source_workspace. by_statements.
    by apply ap_runs.
  - apply ap_same; [unfold gates_of; by rewrite Hdb|by rewrite Ht|unfold runs_of; by rewrite Hdb].
Qed.

(** Withdrawing stage gates leaves the plan gates. *)
Lemma ap_revokes cause w w' : revokes cause w w' → ap_kept w w'.
Proof.
  intros Hr. assert (∀ g, g_kind g = Gk_Plan → g ∈ gates_of w' ↔ g ∈ gates_of w) as Hsame.
  { intros g Hk. assert (∀ l, g ∈ l ↔ g ∈ List.filter no_stage_gate l) as Hf.
    { intros l. rewrite !list_elem_of_In, List.filter_In. unfold no_stage_gate. rewrite Hk.
      rewrite bool_decide_false by done. cbn. tauto. }
    by rewrite (Hf (gates_of w')), (Hf (gates_of w)), (rv_others _ _ _ Hr). }
  assert (∀ g, g ∈ gates_of w → revision_at (pl_gates (pw_tables w')) g = revision_at (pl_gates (pw_tables w)) g) as Hcol.
  { intros g Hg. unfold revision_at. rewrite (rv_columns _ _ _ Hr); [done|]. by apply (list_elem_of_fmap_2 g_id). }
  assert (runs_of w' = runs_of w) as Hruns by (unfold runs_of; by rewrite (rv_db _ _ _ Hr)).
  intros [Hcur Happ Hown]. unfold ap. rewrite Hruns. split.
  - intros g run r Hg Hp Hfr. assert (g_kind g = Gk_Plan) as Hk.
    { unfold pending_plan, pending_run_gate in Hp. split_bools. by match goal with Hx : _ ∈ [_] |- _ => apply list_elem_of_singleton in Hx end. }
    rewrite (Hsame g Hk) in Hg. rewrite Hcol by done. by eapply Hcur.
  - intros run r Hfr Ha He. destruct (Happ _ _ Hfr Ha He) as (g & Hg & Hpa & Hrev). exists g.
    assert (g_kind g = Gk_Plan) as Hk by (unfold plan_gate_approved in Hpa; by split_bools). by rewrite (Hsame g Hk), Hcol.
  - intros g Hg Hk. rewrite (Hsame g Hk) in Hg. by apply Hown.
Qed.

End Approvals.

Section Ticks.
Context `{Env, ContractLib, RecipeLib, PlanLib, ProposalLib, ControlLib, GateLib, StepLib, SourceJson}.

Lemma tick_approvals w w' : run_tick w w' → approvals_hold w → approvals_hold w'.
Proof.
  intros (moment & w1 & Hs & Ht) Hw. apply (step_approvals (H := at_time _ moment)) in Hs as [Hnd Hap]; [|done].
  apply (triggered_revokes (H := at_time _ moment)) in Ht. split; [by apply (rv_ids _ _ _ Ht)|by apply (ap_revokes _ _ _ Ht)].
Qed.

(** [C8] A run that requires approval never executes an unapproved plan: whatever
    sequence of plans, commands, decisions and steps happens, a run of this kind
    that is running or paused has an approved plan gate, and an isolated run has
    one for the very plan revision it is executing. *)
Theorem approvals_are_required (w w' : PlanWorld) :
  approvals_hold w → rtc run_tick w w' →
  ∀ run r, run_of w' run = Some r → r_approval_required r = true → r_status r = Cs_Running ∨ r_status r = Cs_Paused →
  ∃ g, g ∈ gates_of w' ∧ plan_gate_approved run g = true ∧
       (r_isolation r = Is_Isolated → gp_plan_revision (columns_of (pw_tables w') g) = r_plan_revision r).
Proof.
  intros Hap Hsteps. assert (approvals_hold w') as [_ [_ Happ _]].
  { induction Hsteps; [done|]. by eauto using tick_approvals. }
  intros run r Hr Ha Hs. apply (Happ run r Hr Ha). unfold executing. by destruct Hs as [-> | ->].
Qed.
End Ticks.
