(* ===== verification/Scenario.v ===== *)
(** * Scenario: a concrete store

    A small run, executed by the operations of the model: a run with a
    contracted task and a task that depends on it, dispatched to a terminal,
    accepted, with one message queued.  The libraries the model takes as
    parameters are instantiated by concrete functions, so every definition
    evaluates.  The witnesses apply the theorems of the development here, which
    shows that their hypotheses can hold together. *)

From S2P Require Import Prelude Text Models Store StoreFacts RoleContract Tasks Dag Cancellation Dispatch Gates Messages Runs Invariants CancelFacts Lifecycle Reachability TaskFacts Evidence DispatchFacts Atomicity LeaseFacts RunFacts.
From Stdlib Require Import ZArith Lia Ascii String.
From stdpp Require Import strings prelude pretty.
Import MailQueue.

#[export] Instance demo_env : Env :=
  Build_Env "2026-01-01 12:00:00" (λ n, pretty n) (λ _, "{}").

Definition demo_contract : RoleContractV1 :=
  MkRoleContract 1 "reviewer" 1 "Reviewer" "Review the change" "Read the diff and report"
    (JObject [("type", JString "object"); ("properties", JObject []);
              ("additionalProperties", JBool false)])
    (JObject [("type", JString "object")])
    ["report.md"] [MkChecklistItem "tests" "The tests pass"].

Definition demo_snapshot : RoleContractSnapshot := MkSnapshot 1 demo_contract (JObject []) "digest".

Definition demo_result : json :=
  JObject [("completionKind", JString "success"); ("summary", JString "Done");
    ("artifacts", JArray [JString "report.md"]);
    ("validation", JArray [JObject [("id", JString "tests"); ("passed", JBool true);
                                    ("evidence", JString "all tests pass")]]);
    ("filesModified", JArray [])].

(** JSON texts are decoded by name: the scenario uses two of them. *)
#[export] Instance demo_lib : ContractLib := {|
  json_decode := λ raw, if String.eqb raw "result" then Some demo_result else None;
  snapshot_decode := λ raw, if String.eqb raw "contract" then Some demo_snapshot else None;
  snapshot_encode := λ _, "contract";
  contract_value := λ _, JObject [];
  schema_builds := λ _, true;
  schema_error := λ _ _, None;
  content_hash := λ _ _ _, "digest";
  to_lowercase := λ s, s
|}.

Example demo_freeze : freeze demo_contract (JObject []) = Ok demo_snapshot.
Proof. vm_compute. reflexivity. Qed.

Definition demo_task (name : string) (deps : list string) : NewOrchestrationTask :=
  MkNewTask name (Some name) None deps None None (Some (id_of "run" 0)) "ws" "coordinator" None.

Definition demo_message : NewOrchestrationMessage :=
  MkNewMessage "coordinator" "terminal" "status?" "how far are you?" Mt_Status Mp_Normal None None
    (Some (id_of "run" 0)) (Some "ws") (Some (id_of "task" 2)) (Some (id_of "ctx" 4)) None None None
    Md_TurnEnd.

Definition run_id0 : string := id_of "run" 0.
Definition task_a : string := id_of "task" 2.
Definition task_b : string := id_of "task" 3.
Definition ctx_a : string := id_of "ctx" 4.
Definition msg_a : string := id_of "msg" 7.

Definition demo0 : World := MkWorld empty_db 0.
Definition demo1 : World :=
  (create_planned_orchestration_coordinator_run "review" (Some "coordinator") 1000 "ws" 4
     NewRunPlan_default demo0).1.
Definition demo2 : World :=
  (create_orchestration_task_with_contract (demo_task "review" []) (Some demo_snapshot) demo1).1.
Definition demo3 : World :=
  (create_orchestration_task_with_contract (demo_task "merge" [task_a]) None demo2).1.
Definition demo4 : World :=
  (create_scoped_orchestration_dispatch task_a "terminal" (Some run_id0) "ws" "coordinator"
     (Some "token") "keep-open" demo3).1.
Definition demo5 : World := (accept_orchestration_dispatch ctx_a "terminal" "token" demo4).1.
Definition demo6 : World := (insert_orchestration_message demo_message demo5).1.
Definition demo_stalled : World :=
  (stall_expired_orchestration_dispatches "2026-01-01 13:00:00" demo6).1.
Definition demo_completed : World :=
  (complete_orchestration_dispatch_at_sha ctx_a "terminal" "result" None demo6).1.

Definition demo_asked : World :=
  (create_orchestration_stall_gate task_a "the worker is silent" demo_stalled).1.
Definition demo_finished : World :=
  (finish_orchestration_coordinator_run run_id0 Cs_Completed demo_completed).1.
Definition demo_delivered : World := (mark_orchestration_messages_delivered [msg_a] demo6).1.

(** The scenario runs as the code intends: statuses of the two tasks. *)
Definition statuses (w : World) : list OrchestrationTaskStatus := t_status <$> db_tasks (w_db w).

Example demo_statuses :
  statuses demo3 = [Ts_Ready; Ts_Pending] ∧ statuses demo6 = [Ts_Dispatched; Ts_Pending] ∧
  statuses demo_stalled = [Ts_Stalled; Ts_Pending] ∧
  statuses demo_completed = [Ts_Completed; Ts_Ready].
Proof. vm_compute. done. Qed.

(** ** Reachability of the scenario *)

Lemma reachable_step w w' : reachable w → @Operation demo_env _ w w' → reachable w'.
Proof. intros [n Hr] Hs. exists n. eapply rtc_r; [done|]. exists "2026-01-01 12:00:00". by apply Step_operation. Qed.

Lemma demo0_reachable : reachable demo0.
Proof. by exists 0. Qed.
Lemma demo3_reachable : reachable demo3.
Proof.
  eapply reachable_step; [|eapply Step_create_task, surjective_pairing].
  eapply reachable_step; [|eapply Step_create_task, surjective_pairing].
  eapply reachable_step; [apply demo0_reachable|eapply Step_create_run, surjective_pairing].
Qed.
Lemma demo6_reachable : reachable demo6.
Proof.
  eapply reachable_step; [|eapply Step_send, surjective_pairing].
  eapply reachable_step; [|eapply Step_accept, surjective_pairing].
  eapply reachable_step; [apply demo3_reachable|eapply Step_create_dispatch, surjective_pairing].
Qed.
Lemma demo_stalled_reachable : reachable demo_stalled.
Proof. eapply reachable_step; [apply demo6_reachable|eapply Step_stall, surjective_pairing]. Qed.
Lemma demo_completed_reachable : reachable demo_completed.
Proof. eapply reachable_step; [apply demo6_reachable|eapply Step_complete, surjective_pairing]. Qed.

Lemma demo_finished_reachable : reachable demo_finished.
Proof. eapply reachable_step; [apply demo_completed_reachable|eapply Step_finish_run, surjective_pairing]. Qed.

(** ** Evaluation *)

Ltac evaluate := vm_compute; reflexivity.

Lemma demo_marker : marker_fits.
Proof. apply Nat.leb_le. evaluate. Qed.

(** Decide a closed proposition by evaluating its decision procedure. *)
Ltac decided := apply (bool_decide_unpack _); vm_compute; exact I.

Lemma the_one {A} (P : A → Prop) (o : option A) (a : A) :
  o = Some a → P a → ∀ t, o = Some t → P t.
Proof. intros -> Ha t [= <-]. exact Ha. Qed.

Lemma all_elem {A} (p : A → bool) (l : list A) : forallb p l = true → ∀ x, x ∈ l → p x = true.
Proof. rewrite forallb_forall. intros Hp x Hx. apply Hp. by apply list_elem_of_In. Qed.

Lemma launchless (w : World) (id : string) :
  db_launches (w_db w) = [] →
  ∀ d, d ∈ db_dispatches (w_db w) → d_task_id d = id → has_launch (w_db w) (d_id d) = false.
Proof. intros Hl d _ _. unfold has_launch, launch_of. by rewrite Hl. Qed.

(** ** The theorems at work

    One witness per theorem with hypotheses, applied to a state above, its
    hypotheses discharged by evaluation. *)

(** The rows of the scenario the witnesses name. *)
Definition the_task (w : World) (id : string) : OrchestrationTask :=
  default (new_task_row (demo_task "" []) None "" Ts_Pending) (task_by_id (w_db w) id).
Definition the_dispatch (w : World) (id : string) : OrchestrationDispatchContext :=
  default (new_dispatch_row (MkNewRunDispatch "" "" None "" None 0 (Target_Terminal "" "" "")))
    (dispatch_by_id (w_db w) id).

(** ** The store *)

Lemma store_invariant_witness :
  ∃ t, task_by_id (w_db demo6) (d_task_id (the_dispatch demo6 ctx_a)) = Some t ∧
       (t_status t = Ts_Dispatched ∨ t_status t = Ts_Stalled).
Proof.
  destruct (store_invariant demo6 demo6_reachable) as (_ & _ & _ & Hholder & _).
  apply Hholder; [decided|evaluate].
Defined.

Lemma completed_contracts_have_evidence_witness :
  ∃ contract result, snapshot_decode "contract" = Some contract ∧
    t_result (the_task demo_completed task_a) = Some result ∧
    validate_success_result contract result = Ok tt.
Proof.
  apply (completed_contracts_have_evidence demo_completed (the_task demo_completed task_a) "contract"
           demo_completed_reachable); [decided|evaluate|evaluate].
Defined.

Lemma run_event_recorded_witness :
  ∃ w' e, record_run_event (new_run_event run_id0 Ev_Created) demo6 = (w', Ok (e_id e)) ∧
    db_events (w_db w') = db_events (w_db demo6) ++ [e].
Proof.
  destruct (run_event_recorded (new_run_event run_id0 Ev_Created) demo6 demo_marker) as (w' & e & Hr & Hd & _).
  - decided.
  - exists w', e. exact (conj Hr Hd).
Defined.

(** ** Tasks *)

Lemma cancel_orchestration_task_spec_witness :
  ∃ w', cancel_orchestration_task task_a "stop" demo6 = (w', Ok (cancel_row "stop" (the_task demo6 task_a))) ∧
    ∀ d, d ∈ db_dispatches (w_db w') → d_task_id d = task_a → d_active d = false.
Proof.
  destruct (cancel_orchestration_task_spec task_a "stop" demo6 (the_task demo6 task_a))
    as (w' & L & Hr & _ & _ & Hd & _); [evaluate|evaluate|apply demo_marker|decided|].
  exists w'. split; [exact Hr|]. intros d Hin Hid. apply Hd; [exact Hin|]. rewrite Hid. apply doomed_root.
Defined.

Lemma cancel_orchestration_task_closed_witness :
  ∃ r, cancel_orchestration_task task_a "stop" demo_completed = (demo_completed, r) ∧
    r = Err (Bail ("cannot cancel terminal orchestration task " +:+ task_a)).
Proof.
  assert (task_by_id (w_db demo_completed) task_a = Some (the_task demo_completed task_a)) as Et
    by evaluate.
  destruct (cancel_orchestration_task_closed task_a "stop" demo_completed) as (r & Hr & Hc).
  - apply (the_one (λ t, open_task t = false) _ _ Et). evaluate.
  - exists r. split; [exact Hr|]. rewrite Et in Hc.
    assert (bool_decide (t_status (the_task demo_completed task_a) = Ts_Cancelled) = false) as Ec
      by evaluate.
    rewrite Ec in Hc. exact Hc.
Defined.

Lemma update_status_settles_witness :
  ∃ w' t', update_orchestration_task_status task_b Ts_Failed (Some "no") demo6 = (w', Ok t') ∧
    t_status t' = Ts_Failed ∧ t_result t' = Some "no".
Proof.
  destruct (update_status_settles task_b Ts_Failed (Some "no") demo6 (the_task demo6 task_b))
    as (w' & t' & Hr & Hs & _ & Ht & _).
  - exact (reachable_inv _ demo6_reachable).
  - evaluate.
  - evaluate.
  - evaluate.
  - right. reflexivity.
  - apply launchless. evaluate.
  - exact demo_marker.
  - decided.
  - exists w', t'. exact (conj Hr (conj Hs Ht)).
Defined.

Lemma create_orchestration_task_spec_witness :
  ∃ w', create_orchestration_task (demo_task "next" [task_b]) demo6 =
    (w', Ok (new_task_row (demo_task "next" [task_b]) None (id_of "task" (w_rng demo6)) Ts_Pending)).
Proof.
  pose proof (create_orchestration_task_spec (demo_task "next" [task_b]) demo6) as Hc.
  assert (status_for_deps (w_db demo6) (nt_deps (demo_task "next" [task_b])) = Ok Ts_Pending) as Es
    by evaluate.
  rewrite Es in Hc. destruct Hc as (w' & Hr & _); [decided|evaluate|]. exists w'. exact Hr.
Defined.

Lemma startup_failure_three_strikes_witness :
  ∃ w' r, record_orchestration_task_startup_failure task_a "no terminal" demo3 = (w', r) ∧
    r = Ok (startup_failed_row "no terminal" (the_task demo3 task_a)).
Proof.
  destruct (startup_failure_three_strikes task_a "no terminal" demo3 (the_task demo3 task_a))
    as (w' & r & Hr & Hc); [exact (reachable_inv _ demo3_reachable)|evaluate|evaluate|].
  assert (bool_decide (t_status (the_task demo3 task_a) = Ts_Ready) = true) as E by evaluate.
  rewrite E in Hc. exists w', r. exact (conj Hr (proj1 Hc)).
Defined.

(** ** Dispatches *)

Lemma circuit_breaker_witness :
  ∃ w' d', fail_orchestration_dispatch_with_result ctx_a "crashed" None demo6 = (w', Ok d') ∧
    d_failure_count d' = 1%Z ∧ d_status d' = Ds_Failed ∧ task_status (w_db w') task_a = Some Ts_Ready.
Proof.
  destruct (circuit_breaker ctx_a "crashed" None demo6 (the_dispatch demo6 ctx_a) (the_task demo6 task_a))
    as (w' & d' & Hr & Hn & _ & Hs & Ht & _).
  - exact (reachable_inv _ demo6_reachable).
  - evaluate.
  - evaluate.
  - evaluate.
  - left. evaluate.
  - exact demo_marker.
  - decided.
  - exists w', d'. exact (conj Hr (conj Hn (conj Hs Ht))).
Defined.

Lemma completion_settles_witness :
  ∃ w' d', complete_orchestration_dispatch_at_sha ctx_a "terminal" "result" None demo6 = (w', Ok d') ∧
    d_status d' = Ds_Completed ∧ dependents_settled task_a (w_db demo6) (w_db w').
Proof.
  assert (t_role_contract (the_task demo6 task_a) = Some "contract") as Ec by evaluate.
  destruct (completion_settles ctx_a "terminal" "result" None demo6 (the_dispatch demo6 ctx_a)
              (the_task demo6 task_a)) as (w' & d' & Hr & Hs & _ & _ & Hd & _).
  - exact (reachable_inv _ demo6_reachable).
  - evaluate.
  - left. evaluate.
  - evaluate.
  - evaluate.
  - evaluate.
  - evaluate.
  - apply (the_one (λ raw, ∃ c, snapshot_decode raw = Some c ∧ validate_success_result c "result" = Ok tt)
             _ _ Ec).
    exists demo_snapshot. split; evaluate.
  - exact demo_marker.
  - decided.
  - exists w', d'. exact (conj Hr (conj Hs Hd)).
Defined.

Lemma settling_operations_are_atomic_witness :
  w_db (complete_orchestration_dispatch_at_sha ctx_a "intruder" "result" None demo6).1 = w_db demo6.
Proof.
  destruct (settling_operations_are_atomic demo6
    (complete_orchestration_dispatch_at_sha ctx_a "intruder" "result" None demo6).1
    (Bail (match (complete_orchestration_dispatch_at_sha ctx_a "intruder" "result" None demo6).2 with
           | Err (Bail m) => m | _ => "" end))) as (_ & _ & _ & _ & _ & Hc).
  apply (Hc ctx_a "intruder" "result" None). evaluate.
Defined.

Lemma stall_sweep_witness :
  ∃ w', stall_expired_orchestration_dispatches "2026-01-01 13:00:00" demo6 =
    (w', Ok [the_dispatch demo6 ctx_a]) ∧ task_status (w_db w') task_a = Some Ts_Stalled.
Proof.
  assert (List.filter (lease_expired "2026-01-01 13:00:00") (db_dispatches (w_db demo6)) =
          [the_dispatch demo6 ctx_a]) as Ef by evaluate.
  pose proof (stall_sweep "2026-01-01 13:00:00" demo6) as Hs. cbv zeta in Hs. rewrite Ef in Hs.
  destruct Hs as (w' & Hr & _ & Hd & _);
    [exact (reachable_inv _ demo6_reachable)|exact demo_marker|decided|].
  exists w'. split; [exact Hr|].
  exact (proj2 (Hd (the_dispatch demo6 ctx_a) (proj2 (list_elem_of_singleton _ _) eq_refl))).
Defined.

Lemma activity_revives_witness :
  ∃ w', record_orchestration_activity ctx_a demo_stalled = (w', Ok Revived) ∧
    task_status (w_db w') task_a = Some Ts_Dispatched.
Proof.
  assert (d_status (the_dispatch demo_stalled ctx_a) = Ds_Stalled) as Es by evaluate.
  assert (d_task_id (the_dispatch demo_stalled ctx_a) = task_a) as Et by evaluate.
  pose proof (activity_revives ctx_a demo_stalled (the_dispatch demo_stalled ctx_a)) as Ha.
  cbv zeta in Ha. rewrite Es, Et in Ha.
  destruct Ha as (w' & Hr & Hd & Ht & _);
    [exact (reachable_inv _ demo_stalled_reachable)|evaluate|evaluate|].
  exists w'. exact (conj Hr Ht).
Defined.

(** ** Gates *)

Lemma decision_gate_blocks_witness :
  ∃ w' g, create_orchestration_gate task_a "merge?" ["yes"; "no"] demo6 = (w', Ok g) ∧
    task_status (w_db w') task_a = Some Ts_Blocked.
Proof.
  destruct (decision_gate_blocks task_a "merge?" ["yes"; "no"] demo6 (the_task demo6 task_a))
    as (w' & Hr & _ & _ & _ & _ & Ht & _).
  - exact (reachable_inv _ demo6_reachable).
  - evaluate.
  - right. evaluate.
  - apply launchless. evaluate.
  - decided.
  - exact demo_marker.
  - decided.
  - eexists w', _. exact (conj Hr Ht).
Defined.

Lemma stall_gate_once_witness :
  ∃ w' g, create_orchestration_stall_gate task_a "silent" demo_stalled = (w', Ok g) ∧
    create_orchestration_stall_gate task_a "still silent" w' = (w', Ok g).
Proof.
  destruct (stall_gate_once task_a "silent" "still silent" demo_stalled (the_task demo_stalled task_a))
    as (w' & g & Hr & _ & _ & _ & _ & _ & _ & _ & Ha);
    [evaluate|evaluate|evaluate|decided|exact demo_marker|decided|].
  exists w', g. exact (conj Hr Ha).
Defined.

Lemma resumed_gate_is_inert_witness :
  let w' := (resolve_stall_gate_as_resumed task_a demo_asked).1 in
  ∃ g, g_status g = Gs_Resolved ∧ actionable_stall_gate (w_db w') g = false.
Proof.
  intros w'. destruct (gate_by_id (w_db w') (id_of "gate" (w_rng demo_stalled))) as [g|] eqn:Eg;
    [|vm_compute in Eg; discriminate].
  exists g. destruct (resumed_gate_is_inert task_a demo_asked w' g) as (Hs & _ & _ & Ha & _).
  - decided.
  - unfold w'. rewrite (surjective_pairing (resolve_stall_gate_as_resumed task_a demo_asked)) at 1.
    f_equal. rewrite <-Eg. evaluate.
  - exact (conj Hs Ha).
Defined.

(** ** Runs *)

Lemma create_run_spec_witness :
  ∃ w' run, create_planned_orchestration_coordinator_run "again" None 1000 "other" 2
    (MkNewRunPlan true "wait") demo6 = (w', Ok run) ∧ r_status run = Cs_Planning.
Proof.
  pose proof (create_run_spec "again" None 1000 "other" 2 (MkNewRunPlan true "wait") demo6) as Hc.
  assert (find_where (λ r, String.eqb (r_workspace_id r) "other" && holds_workspace r)
            (db_runs (w_db demo6)) = None) as Ef by evaluate.
  rewrite Ef in Hc. destruct Hc as (w' & Hr & Hs & _);
    [exact (reachable_inv _ demo6_reachable)|decided|decided|exact demo_marker|decided|].
  eexists w', _. exact (conj Hr Hs).
Defined.

Lemma finish_is_final_witness :
  finish_orchestration_coordinator_run run_id0 Cs_Failed demo_finished = (demo_finished, Ok tt).
Proof.
  apply (finish_is_final run_id0 Cs_Failed demo_finished (reachable_inv _ demo_finished_reachable)).
  intros r Hr _. apply negb_true_iff. revert r Hr. apply all_elem. evaluate.
Defined.

Lemma run_transfer_moves_everything_witness :
  ∃ w' r, transfer_orchestration_run_coordinator run_id0 "coordinator" "successor" "handover" false demo6
    = (w', Ok r) ∧ r_coordinator_handle r = Some "successor".
Proof.
  destruct (transfer_orchestration_run_coordinator run_id0 "coordinator" "successor" "handover" false demo6)
    as [w' [r|e]] eqn:E; [|vm_compute in E; discriminate].
  exists w', r. split; [reflexivity|].
  exact (proj1 (proj2 (proj2 (run_transfer_moves_everything _ _ _ _ _ _ _ _ E)))).
Defined.

(** ** Messages *)

Lemma poll_tick (w : World) : mailbox_tick w (undelivered_messages "terminal" false w).1.
Proof. exists "2026-01-01 12:00:00". eapply Mb_undelivered, surjective_pairing. Qed.

Lemma mailbox_refines_queue_witness :
  ∃ w' m, insert_orchestration_message demo_message demo6 = (w', Ok m) ∧
    waiting_letters (w_db w') = post (letter_of m) (waiting_letters (w_db demo6)) ∧
    length (waiting_letters (w_db demo6)) = 1.
Proof.
  destruct (mailbox_refines_queue demo6 demo_marker) as [Hs _]; [decided|decided|].
  specialize (Hs demo_message).
  assert (validate_new_orchestration_message demo_message = Ok tt) as Ev by evaluate.
  rewrite Ev in Hs. destruct Hs as (w' & m & Hr & _ & Hw).
  exists w', m. split; [exact Hr|]. split; [exact Hw|]. by vm_compute.
Defined.

Lemma mailbox_history_witness :
  mailbox_le (w_db demo6) (w_db (undelivered_messages "terminal" false demo6).1).
Proof. exact (mailbox_history _ _ (rtc_once _ _ (poll_tick demo6))). Defined.

Lemma delivered_once_witness :
  (undelivered_messages "terminal" false demo6).2 ≠ Ok [] ∧
  ∀ m, m ∈ (match (undelivered_messages "terminal" false demo_delivered).2 with
            | Ok ms => ms | Err _ => [] end) → m_id m ∉ [msg_a].
Proof.
  split; [by vm_compute|].
  destruct (undelivered_messages "terminal" false demo_delivered) as [w3 [ms|e]] eqn:E;
    [|vm_compute in E; discriminate].
  apply (delivered_once [msg_a] demo6 demo_delivered demo_delivered w3 "terminal" false ms).
  - intros id ->%list_elem_of_singleton. decided.
  - evaluate.
  - apply rtc_refl.
  - exact E.
Defined.

Lemma undelivered_queue_witness :
  ∃ m, m ∈ db_messages (w_db demo6) ∧ deliverable "terminal" false m = true ∧
    (undelivered_messages "terminal" false demo6).2 = Ok [m].
Proof.
  destruct (undelivered_messages "terminal" false demo6) as [w' [[|m [|]]|e]] eqn:E;
    try (vm_compute in E; discriminate).
  exists m. destruct (undelivered_queue demo5 demo6 w' "terminal" false [m]) as [_ Hq].
  - split; [|intros x Hx; exfalso; revert Hx]; vm_compute; [constructor|by intros ?%not_elem_of_nil].
  - apply rtc_once. exists "2026-01-01 12:00:00". eapply Mb_insert, surjective_pairing.
  - exact E.
  - destruct (proj1 (Hq m) (proj2 (list_elem_of_singleton _ _) eq_refl)) as (Hin & Hd & _).
    exact (conj Hin (conj Hd eq_refl)).
Defined.

(** ** Contracts *)

Lemma artifact_path_contained_witness :
  lexical_resolve ["repo"] (split_on "/" "docs/report.md") = Some ["report.md"; "docs"; "repo"].
Proof. exact (proj1 (artifact_path_contained "docs/report.md" ["repo"] eq_refl)). Defined.

Lemma validate_success_result_evidence_witness :
  ∃ result, json_decode "result" = Some result ∧
    json_get "completionKind" result = Some (JString "success").
Proof.
  destruct (validate_success_result_evidence demo_snapshot "result") as (r & Hr & Hk & _); [evaluate|].
  exists r. exact (conj Hr Hk).
Defined.

Lemma freeze_validates_witness : snapshot_validate demo_snapshot = Ok tt.
Proof. exact (freeze_validates demo_contract (JObject []) demo_snapshot demo_freeze). Defined.
