(* ===== verification/PlanScenario.v ===== *)
(** * PlanScenario: a concrete recipe, plan and catalogue

    A recipe with a Foundation and a Product stage, an isolated run whose two
    tasks follow it, a shared run with two dependent tasks, and a catalogue with
    a project file.  The libraries the plan files take as parameters are
    instantiated by concrete functions; the witnesses apply the theorems here. *)

From S2P Require Import Prelude Text Models Store StoreFacts RoleContract Tasks Gates Runs Reachability Ordering Recipe RecipeFacts Plan PlanFacts WorkflowYaml YamlFacts Catalog CatalogFacts Execution ExecutionFacts PlanStore PlanStoreFacts Scenario.
From Stdlib Require Import ZArith Lia Ascii String.
From stdpp Require Import strings gmap prelude pretty.

(** ** The recipe *)

Definition demo_recipe : WorkflowRecipeV1 :=
  MkRecipe 1 "demo" 1 "Demo" "A small recipe" "Plan the work"
    [MkRecipeRole "author" "Author" "reviewer" 1; MkRecipeRole "checker" "Checker" "reviewer" 1]
    [demo_contract]
    [MkRecipeStage "ship" "Ship" "Check the change" ["checker"] ["build"] (Some Product);
     MkRecipeStage "build" "Build" "Write the change" ["author"] [] (Some Foundation)].

#[export] Instance demo_recipe_lib : RecipeLib := {|
  recipe_value := λ _, JObject [];
  recipe_hash := λ r, "hash of " +:+ wf_id r;
  recipe_snapshot_hash := λ _ _ r, "snapshot of " +:+ wf_id r
|}.

Definition demo_source : WorkflowRecipeSource := Personal "demo".
Definition demo_frozen_recipe : WorkflowRecipeSnapshot :=
  MkRecipeSnapshot 1 demo_source demo_recipe "snapshot of demo".

Example demo_recipe_freezes : recipe_freeze demo_source demo_recipe = Ok demo_frozen_recipe.
Proof. vm_compute. reflexivity. Qed.

(** ** The isolated plan *)

Definition demo_profile (id : string) : AgentProfile :=
  MkAgentProfile id "Agent" 0 "claude" "claude" Lm_Command None "" "" None true 1 "" "".
Definition demo_profiles : gmap string AgentProfile :=
  {["lead" := demo_profile "lead"; "worker" := demo_profile "worker"]}.
Definition demo_bindings : gmap string string := {["author" := "worker"; "checker" := "lead"]}.
Definition demo_sha : string := "0123456789abcdef0123456789abcdef01234567".
Definition demo_workspace : WorkflowSourceWorkspace := MkSourceWorkspace "ws" "inst" "proj" "/w" "/r".

Definition demo_plan_task (id stage role : string) : WorkflowPlanTask :=
  MkPlanTask id id "do it" stage role [] (JObject []) None.
Definition demo_proposal : WorkflowPlanProposal :=
  MkProposal "Ship it" demo_sha demo_source "hash of demo" "lead" demo_bindings 2
    [demo_plan_task "check" "ship" "checker"; demo_plan_task "write" "build" "author"].

Definition demo_selection : FrozenRunSelection :=
  MkSelection (Some demo_frozen_recipe) demo_profiles demo_bindings (Some "worker").

#[export] Instance demo_plan_lib : PlanLib := {|
  proposal_value := λ _, JObject [];
  plan_value := λ _, JObject [];
  plan_hash := λ _, "plan digest";
  shared_plan_hash := λ _, "shared digest";
  selection_decode := λ raw, if String.eqb raw "selection" then Some demo_selection else None;
  source_decode := λ raw, if String.eqb raw "source"
                          then Some (MkRunSource demo_workspace (Some demo_sha)) else None;
  plan_encode := λ _, "plan"
|}.

Definition demo_frozen (deps : list string) (id stage role profile : string) : FrozenWorkflowTask :=
  MkFrozenTask (MkPlanTask id id "do it" stage role deps (JObject []) None) demo_snapshot profile.
Definition frozen_write : FrozenWorkflowTask := demo_frozen [] "write" "build" "author" "worker".
Definition frozen_check : FrozenWorkflowTask := demo_frozen ["write"] "check" "ship" "checker" "lead".

Definition demo_plan : WorkflowPlanSnapshot :=
  MkPlanSnapshot 1 demo_workspace "Ship it" demo_sha demo_frozen_recipe "lead" demo_profiles 2
    [frozen_write; frozen_check] "plan digest".

(** The check waits for the write, although the proposal names no dependency. *)
Lemma demo_plan_compiles :
  compile_plan demo_proposal demo_frozen_recipe demo_profiles demo_workspace = Ok demo_plan.
Proof. vm_compute. reflexivity. Qed.

(** ** Documents *)

Definition demo_value : json := JObject [("id", JString "demo"); ("tags", JArray [JNull; JBool true])].
Definition demo_tokens : list Token :=
  inl <$> ((λ e, (e, MkMarker 0 0)) <$>
    (StreamStart :: DocumentStart :: events demo_value ++ [DocumentEnd; StreamEnd])).

#[export] Instance demo_yaml_lib : YamlLib := {|
  yaml_tokens := λ _, demo_tokens;
  parse_number := λ _, None;
  is_json := λ _, true
|}.

#[export] Instance demo_catalog_lib : CatalogLib := {|
  recipe_decode := λ v, match v with JObject _ => Some demo_recipe | _ => None end;
  recipe_pretty := λ _, "{}";
  recipe_compact := λ _, "{}";
  is_utf8 := λ _, true;
  builtin_documents := ["id: demo"];
  workspace_files := λ _, Directory [(".alera", Directory [("workflows", Directory [("demo.yaml", File "id: demo")])])]
|}.

Example demo_builtins : builtin_workflow_recipes = Ok [demo_recipe].
Proof. vm_compute. reflexivity. Qed.

Definition empty_catalog : CatalogDb := MkCatalogDb [] [] [].
Definition saved_catalog : CatalogDb := (save_personal_workflow_recipe "id: demo" None empty_catalog).1.
Definition demo_entry : WorkflowCatalogRecipe :=
  MkCatalogRecipe demo_source (Some 1%Z) "hash of demo" demo_recipe.

Example demo_saved : save_personal_workflow_recipe "id: demo" None empty_catalog = (saved_catalog, Ok demo_entry).
Proof. vm_compute. reflexivity. Qed.

(** ** The scheduler's view *)

#[export] Instance demo_step_lib : StepLib := {|
  prepare_digest := λ run _ _, "prepare " +:+ run;
  launch_digest := λ run _ _ _, "launch " +:+ run;
  integrate_digest := λ run _ _ _, "integrate " +:+ run
|}.

Definition demo_state (logical : string) (integrated : bool) : TaskState :=
  MkTaskState ("task_" +:+ logical) logical (if integrated then Ts_Completed else Ts_Pending) integrated
    None None None None.

(** ** A shared run and its proposal *)

#[export] Instance demo_proposal_lib : ProposalLib := {| propose_digest := λ run_id _, "propose " +:+ run_id |}.

Definition demo_stage (id : string) (gate : bool) : RunPlanStageInput :=
  MkPlanStageInput id (Some id) (Some "worker") [] gate.
Definition demo_task_input (id stage : string) (deps : list string) : RunPlanTaskInput :=
  MkPlanTaskInput id id "do it" stage None deps None None.
Definition demo_input : RunPlanInput :=
  MkPlanInput (Some "request-1") [demo_stage "build" false; demo_stage "ship" true]
    [demo_task_input "write" "build" []; demo_task_input "check" "ship" ["write"]] None (Some 2%Z).
Definition demo_actor : RunActor := MkRunActor Ak_Agent (Some "coordinator").

(** A run that waits for a plan and asks for its approval. *)
Definition plan_world0 : PlanWorld :=
  MkPlanWorld
    (create_planned_orchestration_coordinator_run "Ship it" (Some "coordinator") 1000 "ws" 4
       (MkNewRunPlan true "ask") (MkWorld empty_db 0)).1
    (MkPlanTables [] ∅ ∅ ∅ [] ∅ [] [] ∅ [] ∅).
Definition plan_world1 : PlanWorld := (propose_run_plan run_id0 demo_input demo_actor plan_world0).1.

Definition answer_of {S A} (r : S * Result A) (default : A) : A :=
  match r.2 with Ok a => a | Err _ => default end.
Definition demo_proposed : RunPlanProposed :=
  answer_of (propose_run_plan run_id0 demo_input demo_actor plan_world0)
    (MkProposed "" 0 Cs_Failed Is_Shared false None "" 0).

Example demo_proposal_runs :
  propose_run_plan run_id0 demo_input demo_actor plan_world0 = (plan_world1, Ok demo_proposed) ∧
  rpp_status demo_proposed = Cs_AwaitingApproval ∧
  ((λ t, (t_status t, length (t_deps t))) <$> tasks_of plan_world1) = [(Ts_Ready, 0); (Ts_Pending, 1)] ∧
  (g_kind <$> gates_of plan_world1) = [Gk_Stage; Gk_Plan].
Proof. vm_compute. done. Qed.

(** ** Recipes, plans, catalogues and the scheduler at work *)

Lemma orders_orderable {A} (id : A → string) (deps : A → list string) items o :
  order_items id deps "" items = Ok o → orderable id deps items.
Proof. intros Ho. by apply order_sound in Ho as (_ & _ & ?). Qed.

Lemma demo_stages_orderable : orderable ws_id ws_depends_on (plan_stages demo_plan).
Proof. eapply orders_orderable. vm_compute. reflexivity. Qed.

(** ** Plans *)

Lemma compile_plan_sound_witness :
  in_order frozen_id frozen_deps [frozen_write; frozen_check] ∧ covered demo_recipe [frozen_write; frozen_check].
Proof.
  destruct (compile_plan_sound demo_proposal demo_frozen_recipe demo_profiles demo_workspace demo_plan
    demo_plan_compiles) as (_ & _ & Hin & Hcov). split; [exact Hin|exact Hcov].
Defined.

Lemma plan_respects_stages_witness : frozen_write ∈ [frozen_write].
Proof.
  refine (proj2 (plan_respects_stages demo_proposal demo_frozen_recipe demo_profiles demo_workspace demo_plan
    [frozen_write] [] frozen_check frozen_write demo_plan_compiles eq_refl _)
    (MkRecipeStage "ship" "Ship" "Check the change" ["checker"] ["build"] (Some Product)) _ eq_refl eq_refl _).
  - left.
  - left.
  - discriminate.
Defined.

Lemma layered_plan_has_order_witness :
  ∃ o, order_items frozen_id frozen_deps "workflow task dependencies contain a cycle"
         [frozen_check; frozen_write] = Ok o.
Proof.
  apply (layered_plan_has_order demo_proposal demo_recipe [frozen_check; frozen_write]).
  - vm_compute. reflexivity.
  - vm_compute. reflexivity.
  - eapply orders_orderable. vm_compute. reflexivity.
  - intros t u Ht _ Hd. cbn in Ht. apply elem_of_cons in Ht as [->|Ht%list_elem_of_singleton]; [|subst t];
      by apply elem_of_nil in Hd.
Defined.

(** ** Documents and the catalogue *)

Lemma demo_plain_keys : plain_keys demo_value.
Proof. cbn. repeat split; try decided; by repeat constructor. Qed.

Lemma yaml_load_bounded_witness :
  (N.of_nat (json_nodes demo_value) ≤ MAX_NODES)%N ∧ plain_keys demo_value.
Proof.
  destruct (yaml_load_bounded demo_tokens demo_value) as (Hn & _ & Hk & _).
  - vm_compute. reflexivity.
  - exact (conj Hn Hk).
Defined.

Lemma yaml_load_roundtrip_witness : load_document demo_tokens = Some (Ok demo_value).
Proof.
  apply (yaml_load_roundtrip [("id", JString "demo"); ("tags", JArray [JNull; JBool true])]).
  - apply N.leb_le. vm_compute. reflexivity.
  - apply Nat.leb_le. vm_compute. reflexivity.
  - apply demo_plain_keys.
  - cbn. tauto.
  - reflexivity.
Defined.

Lemma catalog_recipe_freezes_witness :
  ∃ snapshot, recipe_freeze demo_source demo_recipe = Ok snapshot ∧ recipe_snapshot_validate snapshot = Ok tt.
Proof.
  destruct (catalog_recipe_freezes demo_source saved_catalog saved_catalog demo_entry) as (_ & _ & _ & Hs).
  - vm_compute. reflexivity.
  - exact Hs.
Defined.

Lemma personal_catalog_invariant_witness : catalog_ok saved_catalog.
Proof.
  refine (proj1 (personal_catalog_invariant saved_catalog [] [] _)). apply rtc_once. by exists "id: demo", None.
Defined.

Lemma saved_recipe_is_listed_witness :
  workflow_catalog_recipe demo_source saved_catalog = (saved_catalog, Ok demo_entry).
Proof.
  refine (proj2 (proj2 (proj2 (saved_recipe_is_listed "id: demo" None empty_catalog saved_catalog demo_entry
    [demo_recipe] _ demo_builtins _ demo_saved)))).
  - intros document Hdoc. vm_compute in Hdoc. injection Hdoc as <-. vm_compute. reflexivity.
  - split; [constructor|constructor|apply Nat.leb_le; vm_compute; reflexivity].
Defined.

(** ** The scheduler *)

Lemma choose_safe_witness :
  ∃ t, t ∈ [demo_state "write" false; demo_state "check" false] ∧ Some (ts_id t) = Some "task_write" ∧
    may_start demo_plan [demo_state "write" false; demo_state "check" false] ∅ t.
Proof.
  destruct (choose_safe "run" 1 demo_plan [demo_state "write" false; demo_state "check" false] ∅
    (prepare "run" 1 (Some "task_write")) demo_stages_orderable) as (t & Ht & Hid & _ & _ & Hm).
  - vm_compute. reflexivity.
  - exists t. split; [exact Ht|]. split; [exact (eq_sym Hid)|exact Hm].
Defined.

(** The write is integrated and the Foundation gate open: the run waits for it. *)
Lemma execution_never_stuck_witness :
  execution_choose "run" 1 demo_plan [demo_state "write" true; demo_state "check" false] ∅ = Ok Waiting ∧
  ∃ s, gate_due demo_plan [demo_state "write" true; demo_state "check" false] ∅ s.
Proof.
  assert (execution_choose "run" 1 demo_plan [demo_state "write" true; demo_state "check" false] ∅ = Ok Waiting)
    as Hw by (vm_compute; reflexivity).
  split; [exact Hw|].
  refine (proj2 (execution_never_stuck demo_proposal demo_frozen_recipe demo_profiles demo_workspace demo_plan
    [demo_state "write" true; demo_state "check" false] ∅ "run" 1 demo_plan_compiles _) _ _ Hw).
  - reflexivity.
  - intros t Ht. apply elem_of_cons in Ht as [->|Ht%list_elem_of_singleton]; [by left|subst t]. right.
    split; [reflexivity|by left].
  - apply Z.ltb_lt. vm_compute. reflexivity.
Defined.

(** ** Proposals *)

Lemma demo_numbered : plan_numbered run_id0 plan_world0.
Proof. intros r _. split; [intros t v Ht|intros g v Hg]; vm_compute in *; by apply elem_of_nil in Ht || apply elem_of_nil in Hg. Qed.

Lemma propose_atomic_witness :
  w_db (pw_world (propose_run_plan "missing" demo_input demo_actor plan_world0).1) = w_db (pw_world plan_world0).
Proof.
  refine (proj1 (propose_atomic "missing" demo_input demo_actor plan_world0 _
    (Bail "run_not_found: no run missing") _)). vm_compute. reflexivity.
Defined.

Lemma proposal_stores_the_plan_witness :
  ∃ run compiled, compile run demo_input = Ok compiled ∧
    plan_stored run_id0 demo_input run compiled plan_world0 plan_world1 demo_proposed.
Proof.
  destruct (proposal_stores_the_plan run_id0 demo_input demo_actor plan_world0 plan_world1 demo_proposed)
    as (run & compiled & _ & _ & Hc & Hst).
  - exact (proj1 demo_proposal_runs).
  - reflexivity.
  - exists run, compiled. exact (conj Hc Hst).
Defined.

Lemma proposals_number_upwards_witness : plan_numbered run_id0 plan_world1.
Proof.
  refine (proj1 (proposals_number_upwards run_id0 demo_input demo_actor plan_world0 plan_world1 demo_proposed
    demo_numbered (proj1 demo_proposal_runs) eq_refl)).
Defined.

Lemma proposal_replays_witness :
  propose_run_plan run_id0 demo_input (MkRunActor Ak_Runtime None) plan_world1 = (plan_world1, Ok demo_proposed).
Proof.
  refine (proposal_replays run_id0 "request-1" demo_input demo_actor _ plan_world0 plan_world1 demo_proposed
    demo_numbered eq_refl eq_refl (proj1 demo_proposal_runs)).
Defined.
