(* ===== verification/RunScenario.v ===== *)
(** * RunScenario: approving, steering, cancelling and executing runs

    The shared run of [PlanScenario] is approved, finishes its work, meets its
    stage gate and is cancelled with a worker still open; an isolated run is
    scheduled and completed, and another one is created, its coordinator started and
    its plan proposed.  The receipts' JSON forms and the digests are
    concrete functions. *)

From S2P Require Import Prelude Text Models Store StoreFacts RoleContract Tasks Gates Runs Ordering Recipe RecipeFacts Plan PlanFacts Execution ExecutionFacts PlanStore PlanStoreFacts Reachability RunControl RunControlFacts GateResolution GateResolutionFacts ExecutionStore ExecutionStoreFacts RunTriggers RunHistory CreationFacts RunApproval WorkflowYaml Catalog RunCreation Scenario PlanScenario.
From Stdlib Require Import ZArith Lia Ascii String.
From stdpp Require Import strings gmap prelude pretty relations.

(** ** Libraries *)

Definition pause_request : RunControl := MkRunControl "pause-1" run_id0 1 Rca_Pause None None.
Definition pause_receipt : RunControlReceipt :=
  MkControlReceipt "pause-1" run_id0 "pause" 2 Cs_Paused (Some 1%Z) false false.
#[export] Instance demo_control_lib : ControlLib := {|
  control_digest := λ r, "control " +:+ ctl_request_id r;
  retry_digest := λ r, "retry " +:+ rty_request_id r;
  changes_digest := λ reason _, "changes " +:+ reason;
  control_receipt_encode := λ r, "receipt of " +:+ rcp_request_id r;
  control_receipt_decode := λ raw, if String.eqb raw "receipt of pause-1" then Some pause_receipt else None
|}.

Definition demo_shared_plan : SharedRunPlanSnapshot :=
  MkSharedPlan 1 "Ship it" (pi_stages demo_input) (pi_tasks demo_input) "ask" 2 "shared digest".

#[export] Instance demo_gate_lib : GateLib := {|
  resolve_digest := λ r, "resolve " +:+ res_request_id r;
  result_digest := λ r, "digest of " +:+ default "" r;
  evidence_digest := λ l, "evidence of " +:+ String.concat "," (tv_id <$> l);
  plan_decode := λ raw, if String.eqb raw "plan" then Some demo_plan else None;
  shared_plan_decode := λ raw, if String.eqb raw "plan" then Some demo_shared_plan else None;
  gate_receipt_encode := λ r, "resolution of " +:+ rgr_request_id r;
  gate_receipt_decode := λ _, None
|}.
#[export] Instance demo_source_json : SourceJson := {| source_sha_of := λ _, Some demo_sha |}.

(** ** The shared run *)

Definition person : RunActor := MkRunActor Ak_Desktop (Some "ana").
Definition plan_gate_id : string := default "" (rpp_plan_gate_id demo_proposed).
Definition decision_on (id gate decision digest : string) : ResolveRunGate :=
  MkResolve id gate decision (Some " looks good ") None (Some digest) (Some "desktop").
Definition approve_plan : ResolveRunGate := decision_on "approve-1" plan_gate_id "approve" "shared digest".

(** The plan is approved and the run starts. *)
Definition approved_world : PlanWorld := (resolve_run_gate approve_plan person plan_world1).1.
Definition approved_answer : RunGateResolution :=
  answer_of (resolve_run_gate approve_plan person plan_world1)
    (MkResolution "" (run_gate_from_row (pw_tables plan_world1) (MkOrchestrationDecisionGate "" None None Gk_Plan "" [] Gs_Pending None "" None))
       None None None false true).

Example plan_approved :
  resolve_run_gate approve_plan person plan_world1 = (approved_world, Ok approved_answer) ∧
  rgr_replayed approved_answer = false ∧
  (r_status <$> runs_of approved_world) = [Cs_Running] ∧ (r_control_sequence <$> runs_of approved_world) = [1%Z].
Proof. vm_compute. done. Qed.

(** A person pauses it. *)
Definition paused_world : PlanWorld := (control_run pause_request person approved_world).1.
Example run_paused :
  control_run pause_request person approved_world = (paused_world, Ok pause_receipt) ∧
  (r_status <$> runs_of paused_world) = [Cs_Paused].
Proof. vm_compute. done. Qed.

(** The work is done and the gate of the last stage is due. *)
Definition finished_world : PlanWorld :=
  (in_world (update_tasks false (λ _, true) (with_t_status Ts_Completed)) approved_world).1.
Definition due_world : PlanWorld := (open_due_stage_gates run_id0 finished_world).1.
Definition opened_gates : list string := answer_of (open_due_stage_gates run_id0 finished_world) [].

Example stage_gate_opens :
  open_due_stage_gates run_id0 finished_world = (due_world, Ok opened_gates) ∧ length opened_gates = 1%nat ∧
  (r_status <$> runs_of due_world) = [Cs_Paused].
Proof. vm_compute. done. Qed.

(** It is cancelled while a worker and the coordinator's terminal are open. *)
Definition with_tab (tab : string) (r : OrchestrationCoordinatorRun) : OrchestrationCoordinatorRun :=
  MkOrchestrationCoordinatorRun (r_id r) (r_spec r) (r_status r) (r_coordinator_handle r)
    (r_poll_interval_ms r) (r_created_at r) (r_completed_at r) (r_workspace_id r) (r_max_concurrent r)
    (r_last_activity_at r) (r_stop_reason r) (r_execution_policy r) (r_approval_required r)
    (r_stall_policy r) (r_paused_by r) (r_isolation r) (r_attention_reason r) (r_plan_revision r)
    (r_control_sequence r) (Some tab).
Definition demo_launch : WorkflowLaunch :=
  MkWorkflowLaunch "launch-1" run_id0 1 "task" "ws-1" "terminal-1" "dispatch-1" demo_sha "" Ls_Started None "".
Definition working_world : PlanWorld :=
  MkPlanWorld (with_db (λ db, set_launches [demo_launch] (set_runs (with_tab "tab-1" <$> db_runs db) db)) (pw_world approved_world))
    (pw_tables approved_world).
Definition cancel_request : RunControl := MkRunControl "cancel-1" run_id0 1 Rca_Cancel (Some "wrong goal") None.
Definition cancelled_world : PlanWorld := (control_run cancel_request person working_world).1.
Definition cancel_receipt : RunControlReceipt :=
  MkControlReceipt "cancel-1" run_id0 "cancel" 2 Cs_Cancelled (Some 1%Z) false false.

Example run_is_cancelled :
  control_run cancel_request person working_world = (cancelled_world, Ok cancel_receipt) ∧
  (t_status <$> tasks_of cancelled_world) = [Ts_Cancelled; Ts_Cancelled] ∧
  (ct_id <$> targets_of cancelled_world) = ["worker:launch-1"; "coordinator:tab-1"] ∧
  (r_completed_at <$> runs_of cancelled_world) = [None].
Proof. vm_compute. done. Qed.

(** The processes are closed one after the other. *)
Definition open_processes : list WorkflowCancellationTarget :=
  [MkWorkflowTarget "worker:launch-1" (Some "launch-1") run_id0 "terminal-1" "ws-1";
   MkWorkflowTarget "coordinator:tab-1" None run_id0 "tab-1" "ws"].

Example open_processes_listed : workflow_cancellation_page cancelled_world = (cancelled_world, Ok (rev open_processes)).
Proof. vm_compute. reflexivity. Qed.

(** A run that was stopped goes back to planning when somebody asks for changes
    on the plan gate it left pending: [stop_orchestration_coordinator_run] leaves
    the gate, and [request_run_changes] does not look at the run's status. *)
Definition stopped_world : PlanWorld := (in_world (stop_orchestration_coordinator_run run_id0 "enough") plan_world1).1.
Definition revived_world : PlanWorld :=
  (resolve_run_gate (decision_on "changes-1" plan_gate_id "requestChanges" "shared digest") person stopped_world).1.

Example stopped_run_revives :
  ((λ r, (r_status r, bool_decide (is_Some (r_completed_at r)))) <$> runs_of stopped_world) = [(Cs_Cancelled, true)] ∧
  ((λ r, (r_status r, bool_decide (is_Some (r_completed_at r)))) <$> runs_of revived_world) = [(Cs_Planning, true)].
Proof. vm_compute. done. Qed.

(** ** An isolated run *)

Definition isolated_row : RunRow :=
  MkRunRow Is_Isolated Cs_Running (Some 1%Z) true "Ship it" 2 "ask" None "ws" (Some "lead") None (Some "source") true.
Definition isolated_task (status : OrchestrationTaskStatus) (result : option string) (f : FrozenWorkflowTask) : OrchestrationTask :=
  with_t_result result (with_t_status status
    (task_row "run_i" isolated_row 1 ("task_" +:+ frozen_id f) []
       (MkPlanRow (frozen_id f) (frozen_id f) "do it" (pt_stage_id (ft_task f)) None [] None None None))).
Definition isolated_run : OrchestrationCoordinatorRun :=
  MkOrchestrationCoordinatorRun "run_i" "Ship it" Cs_Running None 1000 "" None "ws" 2 "" None None true "ask" None
    Is_Isolated None (Some 1%Z) 3 None.
Definition isolated_gate (kind : RunGateKind) (scope : string) : OrchestrationDecisionGate :=
  MkOrchestrationDecisionGate ("gate_" +:+ scope) (Some "run_i") None kind "Approve?" RUN_GATE_OPTIONS Gs_Resolved
    (Some PLAN_GATE_APPROVE) "" (Some "").
Definition isolated_columns (scope : string) : GatePlanColumns :=
  MkGatePlan scope (Some 1%Z) (Some "digest") None None None None None.
Definition task_columns (f : FrozenWorkflowTask) : string * TaskPlanColumns :=
  ("task_" +:+ frozen_id f, MkTaskPlan (frozen_id f) None None None).
Definition isolated_tables (evidence : gmap string TaskEvidenceRow) : PlanTables :=
  MkPlanTables [MkPlanRevision "run_i" 1 "request-2" "" "plan" "plan digest" None None None ""]
    (list_to_map [task_columns frozen_write; task_columns frozen_check])
    {["gate_plan" := isolated_columns "plan"; "gate_build" := isolated_columns "build"; "gate_ship" := isolated_columns "ship"]}
    ∅ [MkSourceRow demo_workspace true "local" true (Some "main") Wk_Main] evidence [] [] ∅ [] ∅.
Definition isolated_db (tasks : list OrchestrationTask) (gates : list OrchestrationDecisionGate) : Db :=
  MkDb tasks [] [] gates [isolated_run] [] [] [] [MkRunWorkspace "integration" "run_i" 1 None 1 Wp_Ready None] 0 0.

(** Nothing is done yet: the first task of the plan gets a workspace. *)
Definition start_world : PlanWorld :=
  MkPlanWorld (MkWorld (isolated_db [isolated_task Ts_Pending None frozen_write; isolated_task Ts_Pending None frozen_check]
      [isolated_gate Gk_Plan "plan"]) 0) (isolated_tables ∅).
Definition first_step : WorkflowExecutionStep := prepare "run_i" 1 (Some "task_write").

Example first_step_chosen : workflow_execution_step "run_i" 1 start_world = (start_world, Ok first_step).
Proof. vm_compute. reflexivity. Qed.

(** Everything is integrated and approved. *)
Definition done_evidence : TaskEvidenceRow := MkTaskEvidenceRow "digest of done" "" demo_sha.
Definition done_world : PlanWorld :=
  MkPlanWorld (MkWorld (isolated_db [isolated_task Ts_Completed (Some "done") frozen_write;
                                     isolated_task Ts_Completed (Some "done") frozen_check]
      [isolated_gate Gk_Plan "plan"; isolated_gate Gk_Stage "build"; isolated_gate Gk_Stage "ship"]) 0)
    (isolated_tables {["task_write" := done_evidence; "task_check" := done_evidence]}).
Definition completed_world : PlanWorld := (complete_workflow_execution "run_i" 1 3 done_world).1.

Example isolated_run_completes :
  workflow_execution_step "run_i" 1 done_world = (done_world, Ok Complete) ∧
  complete_workflow_execution "run_i" 1 3 done_world = (completed_world, Ok true) ∧
  (r_status <$> runs_of completed_world) = [Cs_Completed].
Proof. vm_compute. done. Qed.

(** ** The theorems on steering and executing runs at work *)

(** ** Commands *)

Lemma working_targets_named : Forall target_named (targets_of working_world).
Proof. vm_compute. constructor. Qed.

Lemma cancellation_barrier_witness : halted run_id0 cancelled_world.
Proof.
  destruct (cancellation_barrier cancel_request person working_world cancelled_world cancel_receipt) as [Hh _].
  - exact working_targets_named.
  - reflexivity.
  - vm_compute. reflexivity.
  - reflexivity.
  - exact Hh.
Defined.

Definition listed : list CancellationTarget :=
  [worker_target demo_launch;
   MkCancellationTarget "coordinator:tab-1" None run_id0 Ck_Coordinator (Some "tab-1") (Some "ws") Ct_Pending None].
Lemma listed_targets : targets_of cancelled_world = listed.
Proof. vm_compute. reflexivity. Qed.

Lemma cancelled_closing : closing run_id0 cancelled_world listed open_processes.
Proof.
  split.
  - vm_compute. reflexivity.
  - vm_compute. reflexivity.
  - rewrite listed_targets. apply (bool_decide_eq_true_1 _). vm_compute. reflexivity.
  - rewrite listed_targets. constructor; [|constructor; [|constructor]].
    + split_and!; [left|reflexivity|reflexivity|vm_compute; reflexivity|vm_compute; exact I].
    + split_and!; [right; left|reflexivity|reflexivity|vm_compute; reflexivity|vm_compute; exact I].
  - apply (bool_decide_eq_true_1 _). vm_compute. reflexivity.
  - rewrite listed_targets. by intros c Hc _ _.
Qed.

Lemma cancellation_completes_witness :
  ∃ w', mapM_ (λ x, settle_workflow_cancellation x None) open_processes cancelled_world = (w', Ok tt) ∧
        open_targets run_id0 (targets_of w') = false.
Proof.
  destruct (cancellation_completes run_id0 cancelled_world listed open_processes) as (w' & Hm & Ho & _).
  - exact cancelled_closing.
  - discriminate.
  - exists w'. split; [exact Hm|exact Ho].
Defined.

Lemma command_fence_witness :
  ∃ r r', run_of approved_world run_id0 = Some r ∧ r_control_sequence r = 1%Z ∧
    run_of paused_world run_id0 = Some r' ∧ r_control_sequence r' = 2%Z.
Proof.
  destruct (command_fence pause_request person approved_world paused_world pause_receipt)
    as [[_ (c & o & Hc & _)]|(r & r' & Hr & Hs & Hr' & Hs' & _)].
  - vm_compute. reflexivity.
  - exfalso. vm_compute in Hc. discriminate.
  - exists r, r'. rewrite Hs', Hs. split; [exact Hr|split; [reflexivity|split; [exact Hr'|reflexivity]]].
Defined.

Lemma sequence_spent_once_witness :
  ¬ (∃ w receipt, control_run (MkRunControl "resume-1" run_id0 1 Rca_Resume None None) person paused_world = (w, Ok receipt)
                  ∧ rcp_replayed receipt = false).
Proof.
  intros (w & receipt & Hm & Hno).
  destruct (sequence_spent_once pause_request (MkRunControl "resume-1" run_id0 1 Rca_Resume None None) person person
    approved_world paused_world paused_world w pause_receipt receipt) as [Hr _].
  - vm_compute. reflexivity.
  - reflexivity.
  - apply rtc_refl.
  - reflexivity.
  - reflexivity.
  - exact Hm.
  - rewrite Hno in Hr. discriminate.
Defined.

(** The pause is repeated after the run was resumed. *)
Definition resume_request : RunControl := MkRunControl "resume-1" run_id0 2 Rca_Resume None None.
Definition resumed_world : PlanWorld := (control_run resume_request person paused_world).1.
(** A call that fires no trigger. *)
Lemma quiet_tick w w' : run_step w w' → triggered w w' w' → run_tick w w'.
Proof. intros Hs Ht. exists now, w'. split; [exact Hs|exact Ht]. Qed.
Lemma quiet_event w w' : run_step w w' → triggered w w' w' → run_event w w'.
Proof. intros Hs Ht. apply tick_event. by apply quiet_tick. Qed.

Lemma resumed_after_pause : rtc run_event paused_world resumed_world.
Proof.
  apply rtc_once, quiet_event; [exact (control_run_step resume_request person _ _ _ (surjective_pairing _))|].
  vm_compute. reflexivity.
Qed.
Lemma paused_after_approval : rtc run_event approved_world paused_world.
Proof.
  apply rtc_once, quiet_event; [exact (control_run_step pause_request person _ _ _ (surjective_pairing _))|].
  vm_compute. reflexivity.
Qed.
Lemma approved_by_steps : rtc run_tick plan_world0 approved_world.
Proof.
  apply (rtc_l _ _ plan_world1).
  - apply quiet_tick; [apply (st_propose _ _ run_id0 demo_input demo_actor demo_proposed)|]; vm_compute; reflexivity.
  - apply rtc_once, quiet_tick; [exact (resolve_step approve_plan person _ _ _ (surjective_pairing _))|].
    vm_compute. reflexivity.
Qed.

Lemma control_replays_witness :
  control_run pause_request demo_actor resumed_world = (resumed_world, Ok (with_rcp_replayed true pause_receipt)).
Proof.
  apply (control_replays pause_request person demo_actor approved_world paused_world resumed_world pause_receipt).
  - vm_compute. reflexivity.
  - reflexivity.
  - vm_compute. reflexivity.
  - exact resumed_after_pause.
Defined.

(** ** Gates *)

Lemma decision_checked_witness :
  ∃ g audit, gate_of plan_world1 plan_gate_id = Some g ∧
    pl_gates (pw_tables approved_world) !! plan_gate_id =
      Some (decided_columns (Some "looks good") person audit (columns_of (pw_tables plan_world1) g)).
Proof.
  destruct (decision_checked approve_plan person plan_world1 approved_world approved_answer)
    as (g & audit & Hg & _ & _ & _ & _ & _ & _ & _ & Hc & _).
  - vm_compute. reflexivity.
  - vm_compute. reflexivity.
  - exists g, audit. split; [exact Hg|exact Hc].
Defined.

Lemma unique_gates (w : PlanWorld) : bool_decide (NoDup (g_id <$> gates_of w)) = true → gate_ids w.
Proof. apply bool_decide_eq_true_1. Qed.

Definition approved_gate : OrchestrationDecisionGate :=
  default (MkOrchestrationDecisionGate "" None None Gk_Plan "" [] Gs_Pending None "" None)
    (gate_of approved_world plan_gate_id).

Lemma decisions_are_final_witness : gate_of paused_world plan_gate_id = Some approved_gate.
Proof.
  destruct (decisions_are_final approved_world paused_world plan_gate_id approved_gate)
    as (_ & g' & Hg' & [->|(Hk & _)]).
  - apply unique_gates. vm_compute. reflexivity.
  - exact paused_after_approval.
  - vm_compute. reflexivity.
  - vm_compute. discriminate.
  - exact Hg'.
  - vm_compute in Hk. discriminate Hk.
Defined.

Definition waiting_stage_gate : OrchestrationDecisionGate := default approved_gate (gate_of finished_world "gate_7").

(** A finished task is completed again with another result. *)
Definition reworked_world : PlanWorld :=
  MkPlanWorld (update_orchestration_task_status "task_3----" Ts_Completed (Some "another result") (pw_world due_world)).1
    (pw_tables due_world).
Definition revoked_world : PlanWorld := (fire_triggers (tasks_of due_world) reworked_world).1.
Definition finished_task (w : PlanWorld) : OrchestrationTask := the_task (pw_world w) "task_3----".
Definition due_gate : OrchestrationDecisionGate := default approved_gate (gate_of due_world "gate_7").

Lemma changed_evidence_revokes_witness :
  (∃ g', gate_of revoked_world "gate_7" = Some g' ∧ g_status g' = Gs_Invalidated) ∧ replacement reworked_world due_gate revoked_world.
Proof.
  destruct (changed_evidence_revokes (tasks_of due_world) reworked_world revoked_world tt
              (finished_task due_world) (finished_task reworked_world) run_id0) as (_ & Hgates & _).
  - vm_compute. reflexivity.
  - vm_compute. left.
  - vm_compute. reflexivity.
  - vm_compute. reflexivity.
  - vm_compute. eexists. reflexivity.
  - vm_compute. reflexivity.
  - left. vm_compute. discriminate.
  - destruct (Hgates "gate_7" due_gate) as [(g' & Hg' & [moment ->]) Hrep].
    + vm_compute. reflexivity.
    + vm_compute. reflexivity.
    + split; [eexists; split; [exact Hg'|reflexivity]|].
      eapply Hrep; vm_compute; reflexivity.
Defined.

Lemma planning_approvals : approvals_hold plan_world0.
Proof.
  split; [apply unique_gates; vm_compute; reflexivity|]. split.
  - intros g run r Hg. vm_compute in Hg. by apply elem_of_nil in Hg.
  - intros run r Hr Ha He. unfold find_run in Hr. apply find_where_Some in Hr as [Hin _].
    vm_compute in Hin. apply list_elem_of_singleton in Hin as ->. discriminate He.
  - intros g Hg. vm_compute in Hg. by apply elem_of_nil in Hg.
Qed.

Definition approved_run : OrchestrationCoordinatorRun := default isolated_run (run_of approved_world run_id0).

Lemma approvals_are_required_witness :
  ∃ g, g ∈ gates_of approved_world ∧ plan_gate_approved run_id0 g = true.
Proof.
  destruct (approvals_are_required plan_world0 approved_world) with (run := run_id0) (r := approved_run) as (g & Hg & Hp & _).
  - exact planning_approvals.
  - exact approved_by_steps.
  - vm_compute. reflexivity.
  - vm_compute. reflexivity.
  - left. vm_compute. reflexivity.
  - exists g. split; [exact Hg|exact Hp].
Defined.

(** ** The isolated run *)

Definition write_row : OrchestrationTask := isolated_task Ts_Pending None frozen_write.
Definition check_row : OrchestrationTask := isolated_task Ts_Pending None frozen_check.
Lemma start_tasks :
  revision_tasks (w_db (pw_world start_world)) (pw_tables start_world) "run_i" 1 = [check_row; write_row].
Proof. vm_compute. reflexivity. Qed.

Lemma start_row_cases x : x ∈ [check_row; write_row] → x = check_row ∨ x = write_row.
Proof. intros [Hx|Hx%list_elem_of_singleton]%elem_of_cons; [by left|by right]. Qed.

Lemma start_rows : revision_rows "run_i" 1 demo_plan start_world.
Proof.
  split; rewrite ?start_tasks.
  - apply (bool_decide_eq_true_1 _). vm_compute. reflexivity.
  - intros x [Hx|Hx]%start_row_cases; rewrite Hx; apply (bool_decide_eq_true_1 _); vm_compute; reflexivity.
  - intros x y [Hx|Hx]%start_row_cases [Hy|Hy]%start_row_cases Hl; rewrite Hx, Hy in *;
      first [reflexivity|exfalso; vm_compute in Hl; discriminate].
  - intros x [Hx|Hx]%start_row_cases; rewrite Hx; reflexivity.
Qed.

Lemma step_is_eligible_witness : eligible_task "run_i" 1 "task_write" demo_plan start_world = (start_world, Ok tt).
Proof.
  destruct (step_is_eligible "run_i" 1 start_world start_world first_step demo_plan "") as [_ Hq].
  - vm_compute. reflexivity.
  - exact start_rows.
  - vm_compute. reflexivity.
  - exact (Hq "task_write" eq_refl).
Defined.

Lemma completion_is_complete_witness :
  unsettled_integration "run_i" (pw_tables done_world) = false ∧ pw_tables completed_world = pw_tables done_world.
Proof.
  destruct (completion_is_complete "run_i" 1 3 done_world completed_world)
    as (plan & sha & _ & _ & Hu & _ & _ & _ & Ht & _).
  - vm_compute. reflexivity.
  - split; [exact Hu|exact Ht].
Defined.

(** ** A run is created *)

Definition demo_create : CreateRun :=
  MkCreateRun "create-1" "ws" "Ship it" (Some demo_source) None "lead" {["checker" := "lead"]} (Some "worker") None true None.
Definition created_id : string := "run_" +:+ uuid_simple 0.
Definition demo_created : RunCreated := MkRunCreated created_id "planning" Is_Isolated (Some "1----") "lead".
#[export] Instance demo_creation_lib : CreationLib := {|
  create_digest := λ r, "create " +:+ crq_objective r;
  created_encode := rcd_run_id;
  created_decode := λ raw, if String.eqb raw created_id then Some demo_created else None;
  selection_encode := λ _, "selection";
  run_source_encode := λ _, "source";
  recipe_snapshot_encode := rs_digest;
  recipe_source_encode := λ _, "recipe source";
  recipe_source_value := λ _, JObject [];
  head_commit := λ path, if String.eqb path "/w" then Some demo_sha else None
|}.
Definition creation_world0 : CreationWorld :=
  MkCreationWorld
    (MkPlanWorld (MkWorld empty_db 0)
       (MkPlanTables [] ∅ ∅ ∅ [MkSourceRow demo_workspace true "local" true (Some "main") Wk_Main] ∅ [] [] ∅ [] ∅))
    ∅ (cd_personal saved_catalog) [demo_profile "lead"; demo_profile "worker"; demo_profile "other"].
Definition any_profile : AgentProfile → R unit := λ _, Ok tt.
Definition creation_world1 : CreationWorld := (create_run demo_create any_profile person creation_world0).1.

Example demo_creates :
  create_run_with demo_create any_profile person true creation_world0 = (creation_world1, Ok (demo_created, true)).
Proof. vm_compute. reflexivity. Qed.

(** Its coordinator reports that it runs and proposes the plan. *)
Definition isolated_input : RunPlanInput :=
  MkPlanInput (Some "plan-1") []
    ((λ e, MkPlanTaskInput (fst e) (fst e) "do it" (snd e) None [] (Some (JObject [])) None) <$> [("check", "ship"); ("write", "build")])
    None (Some 2%Z).
Definition creation_world2 : CreationWorld := (settle_workflow_coordinator created_id "1----" None creation_world1).1.
Definition coordinator_started : WorkflowCoordinatorReceipt :=
  MkCoordinatorReceipt created_id "1----" "ws" (Some "lead") "started" None.
Definition creation_world3 : CreationWorld := (in_run (propose_run_plan created_id isolated_input demo_actor) creation_world2).1.

Example coordinator_starts :
  settle_workflow_coordinator created_id "1----" None creation_world1 = (creation_world2, Ok coordinator_started) ∧
  settle_workflow_coordinator created_id "1----" (Some "late") creation_world2 = (creation_world2, Ok coordinator_started).
Proof.
  assert (settle_workflow_coordinator created_id "1----" None creation_world1 = (creation_world2, Ok coordinator_started)) as H
    by (vm_compute; reflexivity).
  split; [exact H|]. apply (coordinator_settles created_id "1----" None creation_world1). exact H.
Qed.

Definition plan_proposed : RunPlanProposed :=
  answer_of (propose_run_plan created_id isolated_input demo_actor (cr_plan creation_world2)) (MkProposed "" 0 Cs_Failed Is_Shared false None "" 0).
Example created_run_proposes :
  propose_run_plan created_id isolated_input demo_actor (cr_plan creation_world2) = (cr_plan creation_world3, Ok plan_proposed) ∧
  rpp_status plan_proposed = Cs_AwaitingApproval.
Proof. vm_compute. done. Qed.

Lemma quiet_creation w w' : creation_step w w' → triggered (cr_plan w) (cr_plan w') (cr_plan w') → creation_event w w'.
Proof. intros Hs Ht. exists now, w'. split; [exact Hs|]. split; [exact Ht|reflexivity]. Qed.

Lemma creation_replays_witness :
  create_run_with demo_create (λ _, Err (Bail "no agent")) demo_actor false creation_world3 = (creation_world3, Ok (demo_created, false)).
Proof.
  apply (creation_replays demo_create any_profile _ person _ true _ creation_world0 creation_world1 creation_world3).
  - exact demo_creates.
  - vm_compute. reflexivity.
  - eapply rtc_l; [|apply rtc_once].
    + apply (quiet_creation _ creation_world2); [eapply cs_settle; exact (proj1 coordinator_starts)|vm_compute; reflexivity].
    + apply quiet_creation; [apply cs_run; [eapply st_propose; exact (proj1 created_run_proposes)|reflexivity]|vm_compute; reflexivity].
Defined.

Lemma created_run_plans_witness :
  ∃ row, load_run created_id (cr_plan creation_world1) = (cr_plan creation_world1, Ok row) ∧
    compile row isolated_input
    = (try! plan := compile_plan demo_proposal demo_frozen_recipe demo_profiles demo_workspace in Ok (Cp_Isolated plan)).
Proof.
  destruct (created_run_plans demo_create any_profile person true creation_world0 creation_world1 demo_created demo_creates eq_refl)
    as (recipe & selection & source & sha & row & [_ Hf] & Hrow & _ & _ & Hr & _ & Hsha & _ & Hplan).
  destruct Hf as (x & rs & selected & Hx & _ & _ & _ & Hs & Hsel & Hf).
  apply list_elem_of_singleton in Hx as ->. vm_compute in Hs. injection Hs as <-. vm_compute in Hsel. injection Hsel as <-.
  vm_compute in Hf. injection Hf as <- <-. injection Hr as <-. injection Hsha as <-.
  exists row. split; [exact Hrow|].
  refine (proj2 (Hplan isolated_input (pp_tasks demo_proposal) 2%Z _ _ _ _ _ _ _)); try (vm_compute; reflexivity). lia.
Defined.
