(* ===== verification/AttemptScenario.v ===== *)
(** * AttemptScenario: one task from its worktree to the run's branch, and a cleanup

    The isolated run of [RunScenario] gets a worktree for its first task, a worker
    is launched in it, completes the task and its commit is integrated; a closed
    run has its worktree reviewed, claimed and retired.  Setup reports and
    integrations are stored in a text format of their own ([pack]) that reads back
    what was written. *)

From S2P Require Import Prelude Text Models Store StoreFacts RoleContract Tasks Dispatch Gates Runs SetupReport Reachability Ordering Recipe RecipeFacts Plan PlanFacts Execution ExecutionFacts PlanStore PlanStoreFacts RunControl RunControlFacts GateResolution GateResolutionFacts ExecutionStore Attempts Launches Integrations Cleanup ExecutionStoreFacts RunTriggers RunHistory AttemptFacts AttemptHistory LaunchFacts IntegrationFacts CleanupFacts Scenario PlanScenario RunScenario.
From Stdlib Require Import ZArith Lia Ascii String.
From stdpp Require Import strings gmap prelude pretty relations.

(** ** Texts that read back *)

(** Every byte of a field is marked by an x, and a field ends with a full stop. *)
Fixpoint mark (s rest : string) : string :=
  match s with
  | EmptyString => String "." rest
  | String c s => String "x" (String c (mark s rest))
  end.
Fixpoint pack (fields : list string) : string :=
  match fields with
  | [] => EmptyString
  | s :: fields => mark s (pack fields)
  end.
Fixpoint unpack_from (field : string) (raw : string) : option (list string) :=
  match raw with
  | EmptyString => if String.eqb field "" then Some [] else None
  | String m raw =>
      if Ascii.eqb m "." then fields ← unpack_from "" raw; Some (field :: fields)
      else match raw with
           | String c raw => unpack_from (field +:+ String c "") raw
           | EmptyString => None
           end
  end.
Definition unpack : string → option (list string) := unpack_from "".

Lemma app_snoc (a : string) c b : (a +:+ String c "") +:+ b = a +:+ String c b.
Proof. induction a as [|d a IH]; [done|]. change (String d ((a +:+ String c "") +:+ b) = String d (a +:+ String c b)). by rewrite IH. Qed.
Lemma app_empty (a : string) : a +:+ "" = a.
Proof. induction a as [|d a IH]; [done|]. change (String d (a +:+ "") = String d a). by rewrite IH. Qed.
Lemma unpack_mark field s rest fields :
  unpack_from "" rest = Some fields → unpack_from field (mark s rest) = Some ((field +:+ s) :: fields).
Proof.
  revert field. induction s as [|c s IH]; intros field Hr; cbn.
  - rewrite Hr. cbn. by rewrite app_empty.
  - rewrite IH by done. by rewrite app_snoc.
Qed.
Lemma unpack_pack fields : unpack (pack fields) = Some fields.
Proof. unfold unpack. induction fields as [|s fields IH]; cbn; [done|]. by apply unpack_mark. Qed.

(** Numbers as the bits of their code, and optional texts. *)
Fixpoint bits (p : positive) : string :=
  match p with xH => "" | xO p => String "0" (bits p) | xI p => String "1" (bits p) end.
Fixpoint unbits (s : string) : positive :=
  match s with
  | EmptyString => xH
  | String c s => if Ascii.eqb c "1" then xI (unbits s) else xO (unbits s)
  end.
Lemma unbits_bits p : unbits (bits p) = p.
Proof. induction p as [p IH|p IH|]; cbn; by rewrite ?IH. Qed.
Definition number (z : Z) : string := bits (encode z).
Definition unnumber (s : string) : option Z := decode (unbits s).
Lemma unnumber_number z : unnumber (number z) = Some z.
Proof. unfold unnumber, number. by rewrite unbits_bits, decode_encode. Qed.
Definition opt {A} (f : A → string) (o : option A) : string := match o with Some a => String "s" (f a) | None => "" end.
Definition unopt {A} (f : string → option A) (s : string) : option (option A) :=
  match s with EmptyString => Some None | String _ s => a ← f s; Some (Some a) end.
Lemma unopt_opt {A} (f : A → string) g (o : option A) : (∀ a, g (f a) = Some a) → unopt g (opt f o) = Some o.
Proof. intros Hf. destruct o as [a|]; cbn; [|done]. by rewrite Hf. Qed.

(** ** Setup reports *)

Definition kind_text (k : WorktreeSetupStepKind) : string :=
  match k with Sk_Copy => "copy" | Sk_Command => "command" | Sk_Config => "config" end.
Definition unkind (s : string) : WorktreeSetupStepKind :=
  if String.eqb s "copy" then Sk_Copy else if String.eqb s "command" then Sk_Command else Sk_Config.
Definition step_text (s : WorktreeSetupStepReport) : string :=
  pack [kind_text (sp_kind s); sp_label s; if sp_succeeded s then "yes" else "no"; opt id (sp_message s);
        opt number (sp_exit_code s); opt id (sp_stdout_tail s); opt id (sp_stderr_tail s)].
Definition unstep (raw : string) : option WorktreeSetupStepReport :=
  fields ← unpack raw;
  match fields with
  | [kind; label; ok; message; code; stdout; stderr] =>
      message ← unopt Some message; code ← unopt unnumber code; stdout ← unopt Some stdout; stderr ← unopt Some stderr;
      Some (MkSetupStep (unkind kind) label (String.eqb ok "yes") message code stdout stderr)
  | _ => None
  end.
Lemma unstep_text s : unstep (step_text s) = Some s.
Proof.
  unfold unstep, step_text. rewrite unpack_pack. cbn [mbind option_bind].
  rewrite !(unopt_opt id Some) by done. rewrite (unopt_opt number unnumber) by apply unnumber_number. destruct s as [[] ? [] ? ? ? ?]; done.
Qed.

#[export] Instance demo_report_lib : ReportLib := {|
  step_size := λ s, zlen (step_text s);
  report_encode := λ r, pack (step_text <$> rep_steps r);
  report_decode := λ raw, fields ← unpack raw; steps ← mapM unstep fields; Some (MkSetupReport steps)
|}.
#[export] Instance demo_report_codec : ReportCodec.
Proof.
  split. intros [steps]. cbn. rewrite unpack_pack. cbn.
  assert (mapM unstep (step_text <$> steps) = Some steps) as ->; [|done].
  apply mapM_fmap_Some, unstep_text.
Qed.

(** ** Integrations *)

Definition resource_text (r : WorkflowGitResource) : string := pack [gr_id r; gr_path r; gr_base_sha r].
Definition unresource (raw : string) : option WorkflowGitResource :=
  fields ← unpack raw; match fields with [id; path; sha] => Some (MkGitResource id path sha) | _ => None end.
Lemma unresource_text r : unresource (resource_text r) = Some r.
Proof. unfold unresource, resource_text. rewrite unpack_pack. by destruct r. Qed.
Definition request_text (r : WorkflowIntegrationRequest) : string :=
  pack (iq_id r :: iq_repo_path r :: iq_run_id r :: number (iq_revision r) :: iq_task_id r :: iq_dispatch_id r
        :: resource_text (iq_integration r) :: resource_text (iq_source r) :: iq_expected_sha r :: iq_source_sha r
        :: iq_result_digest r :: iq_artifacts r).
Definition unrequest (raw : string) : option WorkflowIntegrationRequest :=
  fields ← unpack raw;
  match fields with
  | id :: repo :: run :: revision :: task :: dispatch :: integration :: source :: expected :: sha :: digest :: artifacts =>
      revision ← unnumber revision; integration ← unresource integration; source ← unresource source;
      Some (MkIntegrationRequest id repo run revision task dispatch integration source expected sha digest artifacts)
  | _ => None
  end.
Lemma unrequest_text r : unrequest (request_text r) = Some r.
Proof.
  unfold unrequest, request_text. rewrite unpack_pack. cbn [mbind option_bind]. rewrite unnumber_number. cbn [mbind option_bind].
  rewrite !unresource_text. by destruct r.
Qed.
Definition receipt_text (r : WorkflowIntegrationReceipt) : string :=
  pack [number (rc_version r); request_text (rc_request r); rc_integrated_sha r; rc_artifact_digest r].
Definition unreceipt (raw : string) : option WorkflowIntegrationReceipt :=
  fields ← unpack raw;
  match fields with
  | [version; request; sha; digest] =>
      version ← unnumber version; request ← unrequest request; Some (MkIntegrationReceipt version request sha digest)
  | _ => None
  end.
Lemma unreceipt_text r : unreceipt (receipt_text r) = Some r.
Proof.
  unfold unreceipt, receipt_text. rewrite unpack_pack. cbn [mbind option_bind]. rewrite unnumber_number. cbn [mbind option_bind].
  rewrite unrequest_text. by destruct r.
Qed.

#[export] Instance demo_integration_lib : IntegrationLib := {|
  integration_request_encode := request_text;
  integration_request_decode := unrequest;
  receipt_encode := receipt_text;
  receipt_decode := unreceipt;
  integrate_input_digest := λ i, "integrate " +:+ ir_workspace_id i;
  extract_expected_sha := λ raw, iq_expected_sha <$> unrequest raw;
  extract_integrated_sha := λ raw, rc_integrated_sha <$> unreceipt raw
|}.
#[export] Instance demo_integration_codec : IntegrationCodec.
Proof. split; [apply unrequest_text|apply unreceipt_text]. Qed.

(** ** The other documents of the scenario, by name *)

Definition tree (id instance path : string) : Workspace :=
  MkWorkspace id instance "local" "proj" id (Some (run_branch_name id)) path "" "" Wk_Linked Wst_Active None false false false
    [] [] None None 0.
Definition write_tree : Workspace := tree "attempt-1" "instance-1" "/w/attempt-1".
Definition integration_tree : Workspace := tree "integration" "instance-0" "/w/integration".
Definition prepare_write : PrepareWorkflowWorkspace := MkPrepare "prepare-1" "run_i" 1 (Some "task_write") None.
Definition integration_identity : WorkflowWorkspaceIdentity :=
  MkIdentity (with_wsp_source_branch (Some demo_sha) integration_tree) "/r" "ws" "run_i" 1 None 0 demo_sha.
Definition write_identity : WorkflowWorkspaceIdentity := reserved_identity prepare_write demo_plan demo_sha write_tree 1.

#[export] Instance demo_attempt_lib : AttemptLib := {|
  identity_encode := λ i, "identity of " +:+ wsp_id (wi_workspace i);
  identity_decode := λ raw, if String.eqb raw "identity of integration" then Some integration_identity
                            else if String.eqb raw "identity of attempt-1" then Some write_identity else None;
  reserve_digest := λ r, "reserve " +:+ prep_request_id r;
  uuid_valid := λ _, true
|}.

Definition launch_write : LaunchWorkflowTask := MkLaunchTask "launch-1" "run_i" 1 "task_write" "attempt-1".
Definition write_inputs : WorkflowLaunchInputs := MkLaunchInputs write_identity frozen_write (demo_profile "worker") "plan digest".
#[export] Instance demo_launch_lib : LaunchLib := {|
  launch_request_encode := λ r, lt_request_id r;
  launch_request_decode := λ raw, if String.eqb raw "launch-1" then Some launch_write else None;
  launch_inputs_encode := λ _, "inputs";
  launch_inputs_decode := λ raw, if String.eqb raw "inputs" then Some write_inputs else None;
  launch_request_digest := λ r, "launch " +:+ lt_request_id r;
  launch_inputs_digest := λ i, "inputs of " +:+ wsp_id (wi_workspace (li_workspace i))
|}.

(** ** From the reservation to the run's branch *)

Definition source_row (ws : Workspace) : SourceRow :=
  MkSourceRow (MkSourceWorkspace (wsp_id ws) (wsp_instance_id ws) "proj" (wsp_path ws) "/r") true "local" true (wsp_branch ws) Wk_Linked.
Definition start_tables : PlanTables :=
  set_pl_runs {["run_i" := MkRunPlan (Some "lead") None (Some "source") (Some demo_sha) (Some "integration")]}
    (set_pl_sources [MkSourceRow demo_workspace true "local" true (Some "main") Wk_Main; source_row integration_tree] (isolated_tables ∅)).
Definition attempts0 : AttemptTables :=
  MkAttemptTables {["integration" := MkWorkspaceColumns 1 "/w/integration" (identity_encode integration_identity) None None]}
    ∅ ∅ ∅ [] ∅ ∅.
Definition at0 : AttemptWorld := MkAttemptWorld (MkPlanWorld (pw_world start_world) start_tables) attempts0.
Definition at1 : AttemptWorld := (reserve_workflow_workspace prepare_write write_tree at0).1.
Definition at2 : AttemptWorld := (transition_workflow_workspace "attempt-1" 1 Wp_Reserved Wp_Creating None None at1).1.
Definition at3 : AttemptWorld := (transition_workflow_workspace "attempt-1" 1 Wp_Creating Wp_Created None None at2).1.
Definition setup_done : WorktreeSetupReport := MkSetupReport [MkSetupStep Sk_Copy "Copy .env" true None None None None].
Definition at4 : AttemptWorld := (transition_workflow_workspace "attempt-1" 1 Wp_Created Wp_Ready (Some setup_done) None at3).1.
Definition token_hash : string := "0123456789abcdef0123456789abcdef0123456789abcdef0123456789abcdef".
Definition at5 : AttemptWorld := (reserve_workflow_launch launch_write token_hash at4).1.

Example preparation_runs :
  (x_phase <$> workspaces_of at4) = [Wp_Ready; Wp_Ready] ∧ ((λ r, sw_workspace_id (sr_source r)) <$> pl_sources (apt at4)) = ["ws"; "integration"; "attempt-1"]
  ∧ (l_status <$> launches_of at5) = [Ls_Reserved] ∧ (t_status <$> db_tasks (adb at5)) = [Ts_Dispatched; Ts_Pending].
Proof. vm_compute. done. Qed.

Definition launch_1 : string := default "" (head (l_id <$> launches_of at5)).
Definition terminal_1 : string := default "" (head (l_terminal_handle <$> launches_of at5)).
Definition dispatch_1 : string := default "" (head (l_dispatch_id <$> launches_of at5)).
Definition at6 : AttemptWorld := (claim_workflow_launch launch_1 at5).1.
Definition at7 : AttemptWorld := (mark_workflow_launch_started launch_1 at6).1.
(** A call of the orchestration store. *)
Definition in_store {A} (m : SM A) (w : AttemptWorld) : AttemptWorld :=
  MkAttemptWorld (MkPlanWorld (m (pw_world (aw_plan w))).1 (apt w)) (aw_tables w).
Definition at8 : AttemptWorld := in_store (accept_orchestration_dispatch dispatch_1 terminal_1 token_hash) at7.
Definition write_sha : string := "89abcdef0123456789abcdef0123456789abcdef".
Definition at9 : AttemptWorld := in_store (complete_orchestration_dispatch_at_sha dispatch_1 terminal_1 "result" (Some write_sha)) at8.
Definition integrate_write : IntegrateWorkflowResult := MkIntegrate "integrate-1" "run_i" 1 "task_write" "attempt-1".
Definition at10 : AttemptWorld := (reserve_workflow_integration integrate_write at9).1.
Definition captured_write : WorkflowIntegrationRequest :=
  default (MkIntegrationRequest "" "" "" 0 "" "" (MkGitResource "" "" "") (MkGitResource "" "" "") "" "" "" [])
    (head (irows at10) ≫= λ r, unrequest (ic_request (snd r))).
Definition merged_sha : string := "fedcba9876543210fedcba9876543210fedcba98".
Definition write_receipt : WorkflowIntegrationReceipt := MkIntegrationReceipt 1 captured_write merged_sha "artifacts".
Definition at11 : AttemptWorld := (record_workflow_integration_preparation (iq_id captured_write) (Gp_Ready write_receipt) at10).1.
Definition at12 : AttemptWorld := (complete_workflow_integration write_receipt at11).1.

Example integration_runs :
  (l_status <$> launches_of at7) = [Ls_Started] ∧ (t_status <$> db_tasks (adb at9)) = [Ts_Completed; Ts_Pending] ∧
  (ig_state <$> pl_integrations (apt at10)) = [In_Pending] ∧ (ig_state <$> pl_integrations (apt at11)) = [In_Prepared] ∧
  (ig_state <$> pl_integrations (apt at12)) = [In_Integrated] ∧ sha_of at0 "run_i" = demo_sha ∧ sha_of at12 "run_i" = merged_sha ∧
  evidence_of at12 !! "task_write" = Some (MkTaskEvidenceRow "digest of result" "artifacts" merged_sha).
Proof. vm_compute. done. Qed.

(** ** Cleaning up after the run *)

Definition closed_run : OrchestrationCoordinatorRun :=
  with_r_completed_at (Some "2026-01-01 13:00:00") (with_r_status Cs_Completed isolated_run).
Definition cl0 : AttemptWorld := in_store (λ w, (with_db (set_runs [closed_run]) w, Ok tt)) at12.
Definition clean_tree : WorkflowCleanupGitPreview := MkCleanupGitPreview write_sha false false false [] false.
Definition write_item : WorkflowCleanupItem := MkCleanupItem write_identity clean_tree true.
Definition write_preview : WorkflowCleanupPreview := MkCleanupPreview "cleanup-1" "run_i" "cleanup of run_i" 1300 [write_item].
#[export] Instance demo_cleanup_lib : CleanupLib := {|
  preview_value := λ _, JObject [];
  preview_encode := λ p, "preview " +:+ cp_id p;
  preview_decode := λ raw, if String.eqb raw "preview cleanup-1" then Some write_preview else None;
  cleanup_digest := λ run _, "cleanup of " +:+ run
|}.
Definition cl1 : AttemptWorld := (publish_workflow_cleanup_preview 1000 "cleanup-1" "run_i" [write_item] cl0).1.
Definition cl2 : AttemptWorld := (claim_workflow_cleanup 1100 "cleanup-1" "cleanup of run_i" cl1).1.
Definition cl3 : AttemptWorld := (record_workflow_cleanup_retirement "cleanup-1" "cleanup of run_i" "attempt-1" cl2).1.

Example cleanup_runs :
  publish_workflow_cleanup_preview 1000 "cleanup-1" "run_i" [write_item] cl0 = (cl1, Ok write_preview) ∧
  at_claims (aw_tables cl2) !! "attempt-1" = Some (MkCleanupClaim "cleanup-1" false) ∧
  at_claims (aw_tables cl3) !! "attempt-1" = Some (MkCleanupClaim "cleanup-1" true) ∧
  cl_state <$> at_cleanups (aw_tables cl3) !! "cleanup-1" = Some Cl_Retired ∧
  ((λ r, sw_workspace_id (sr_source r)) <$> sources_of cl3) = ["ws"; "integration"].
Proof. vm_compute. done. Qed.

(** ** The scenario as a sequence of steps *)

(** Compare a state of the scenario by the call that made it. *)
Strategy expand [at1 at2 at3 at4 at5 at6 at7 at8 at9 at10 at11 at12].
Lemma in_store_step {A} (m : SM A) w : (∀ v, Operation v (m v).1) → attempt_step w (in_store m w).
Proof. intros Hm. apply as_store; [split; [apply Hm|reflexivity]|reflexivity]. Qed.

(** A step that fires no trigger. *)
Lemma quiet_attempt w w' : attempt_step w w' → triggered (aw_plan w) (aw_plan w') (aw_plan w') → attempt_event w w'.
Proof. intros Hs Ht. exists now, w'. split; [exact Hs|]. split; [exact Ht|reflexivity]. Qed.
Lemma events_ticks w w' : rtc attempt_event w w' → rtc attempt_tick w w'.
Proof. induction 1; [apply rtc_refl|]. by eapply rtc_l; [left|]. Qed.
Ltac quiet_step w := apply (rtc_l _ _ w); [apply quiet_attempt; [|vm_compute; reflexivity]|].

Lemma at1_to_at5 : rtc attempt_event at1 at5.
Proof.
  quiet_step at2; [eapply as_transition, surjective_pairing|]. quiet_step at3; [eapply as_transition, surjective_pairing|].
  quiet_step at4; [eapply as_transition, surjective_pairing|]. quiet_step at5; [eapply as_launch, surjective_pairing|]. apply rtc_refl.
Qed.
Lemma at6_to_at12 : rtc attempt_event at6 at12.
Proof.
  quiet_step at7; [eapply as_started, surjective_pairing|].
  quiet_step at8; [apply in_store_step; intros w; by eapply Step_accept, surjective_pairing|].
  quiet_step at9; [apply in_store_step; intros w; by eapply Step_complete, surjective_pairing|].
  quiet_step at10; [eapply as_integrate, surjective_pairing|]. quiet_step at11; [eapply as_prepared, surjective_pairing|].
  quiet_step at12; [eapply as_complete, surjective_pairing|]. apply rtc_refl.
Qed.
Lemma at0_to_at12 : rtc attempt_event at0 at12.
Proof.
  quiet_step at1; [exact (as_reserve _ _ prepare_write write_tree _ (surjective_pairing _))|].
  transitivity at5; [exact at1_to_at5|].
  quiet_step at6; [exact (as_claim _ _ launch_1 _ (surjective_pairing _))|]. exact at6_to_at12.
Qed.

(** ** The theorems on attempts, integrations and cleanups at work *)

Definition no_record : WorkflowWorkspaceRecord := MkWorkspaceRecord integration_identity Wp_Attention None None None.
Definition reserved_record : WorkflowWorkspaceRecord := answer_of (reserve_workflow_workspace prepare_write write_tree at0) no_record.
Lemma reservation_ok : reserve_workflow_workspace prepare_write write_tree at0 = (at1, Ok reserved_record).
Proof. vm_compute. reflexivity. Qed.

Lemma attempts_stay_within_slots_witness :
  (active_attempts (adb at1) "run_i" 1 ≤ 2)%Z ∧ x_attempt <$> last (workspaces_of at1) = Some 1%Z.
Proof.
  destruct (attempts_stay_within_slots prepare_write write_tree "task_write" at0 at1 reserved_record)
    as (plan & sha & attempt & Hp & _ & Ha & _ & Hw & _ & _ & Hle).
  - exact reservation_ok.
  - reflexivity.
  - vm_compute. discriminate.
  - assert (ps_max_concurrent plan = 2%Z) as Hmax.
    { vm_compute in Hp. injection Hp as <- <-. reflexivity. }
    rewrite Hmax in Hle. split; [exact Hle|]. rewrite Hw, last_snoc. cbn [fmap option_fmap option_map x_attempt]. rewrite Ha. vm_compute. reflexivity.
Defined.

Definition reserved_row : RunWorkspace := MkRunWorkspace "attempt-1" "run_i" 1 (Some "task_write") 1 Wp_Reserved None.
Definition reserved_columns : WorkspaceColumns :=
  MkWorkspaceColumns 2 "/w/attempt-1" "identity of attempt-1" None None.
Lemma attempts_move_forward_witness :
  ∃ x c, attempt_row at5 "attempt-1" = Some (x, c) ∧ x_attempt x = 1%Z ∧ wc_identity c = "identity of attempt-1" ∧
    rtc phase_moves Wp_Reserved (x_phase x).
Proof.
  destruct (attempts_move_forward at1 at5 "attempt-1" reserved_row reserved_columns)
    as (x & c & Hr & Hx & Hc & Hp & _).
  - exact (events_ticks _ _ at1_to_at5).
  - vm_compute. reflexivity.
  - exists x, c. injection Hx as _ _ _ Hx. injection Hc as _ Hc. split; [exact Hr|]. split; [exact Hx|]. split; [exact Hc|]. exact Hp.
Defined.

Lemma claim_succeeds : claim_workflow_launch launch_1 at5 = (at6, Ok write_inputs).
Proof. vm_compute. reflexivity. Qed.
Lemma launch_claimed_once_witness : claim_workflow_launch launch_1 at12 ≠ (at12, Ok write_inputs).
Proof.
  apply (launch_claimed_once launch_1 at5 at6 at12 at12 write_inputs write_inputs).
  - exact claim_succeeds.
  - exact (events_ticks _ _ at6_to_at12).
Defined.

Lemma reservation_replays_witness :
  ∃ record, reserve_workflow_workspace prepare_write integration_tree at5 = (at5, Ok record) ∧
    wrec_identity record = wrec_identity reserved_record.
Proof.
  destruct (reservation_replays prepare_write write_tree integration_tree at0 at1 at5 reserved_record)
    as (record & Hr & Hi & _).
  - exact reservation_ok.
  - exact (events_ticks _ _ at1_to_at5).
  - exists record. split; [exact Hr|exact Hi].
Defined.

Definition launch_record : WorkflowLaunchRecord :=
  MkLaunchRecord launch_1 launch_write terminal_1 dispatch_1 demo_sha "worker" 1 Ls_Reserved None.
Lemma launch_reserved_whole_witness :
  ∃ d, db_dispatches (adb at5) = db_dispatches (adb at4) ++ [d] ∧ d_status d = Ds_AwaitingAcceptance ∧ d_task_id d = "task_write".
Proof.
  destruct (launch_reserved_whole launch_write token_hash at4 at5 launch_record)
    as (frozen & id & terminal & dispatch & _ & _ & _ & (d & Hd & _ & Ht & Hs & _) & _).
  - vm_compute. reflexivity.
  - exists d. split; [exact Hd|]. split; [exact Hs|exact Ht].
Defined.

Lemma at0_nothing : nothing_integrated at0.
Proof. split; reflexivity. Qed.

Definition integrated_record : WorkflowIntegrationRecord :=
  MkIntegrationRecord captured_write In_Integrated (Some write_receipt) [] false None.
Lemma integration_completes_witness :
  ∃ rq, sha_of at11 (iq_run_id rq) = iq_expected_sha rq ∧ evidence_of at11 !! iq_task_id rq = None ∧
    evidence_of at12 !! iq_task_id rq = Some (evidence_row rq write_receipt) ∧ sha_of at12 (iq_run_id rq) = merged_sha.
Proof.
  destruct (integration_completes write_receipt at11 at12 integrated_record)
    as [Heq|(r & rq & plan & t & d & _ & _ & _ & _ & _ & _ & _ & Hsha & _ & _ & _ & Hnone & He & Hrun)].
  - vm_compute. reflexivity.
  - exfalso. assert (ig_state <$> pl_integrations (apt at12) = ig_state <$> pl_integrations (apt at11)) as Hs by (rewrite Heq; reflexivity).
    vm_compute in Hs. discriminate.
  - exists rq. split; [exact Hsha|]. split; [exact Hnone|]. split; [rewrite He; apply lookup_insert_eq|].
    rewrite Hrun, String.eqb_refl. reflexivity.
Defined.

Lemma cl0_to_cl2 : rtc attempt_tick cl0 cl2.
Proof.
  apply events_ticks. quiet_step cl1; [exact (as_preview _ _ 1000 "cleanup-1" "run_i" [write_item] _ (surjective_pairing _))|].
  quiet_step cl2; [exact (as_claim_cleanup _ _ 1100 "cleanup-1" "cleanup of run_i" _ (surjective_pairing _))|]. apply rtc_refl.
Qed.
Lemma retired_workspaces_stay_retired_witness :
  retired cl3 "attempt-1" ∧ ∀ r, r ∈ sources_of cl3 → sw_workspace_id (sr_source r) ≠ "attempt-1".
Proof.
  apply (retired_workspaces_stay_retired "cleanup-1" "cleanup of run_i" "attempt-1" cl0 cl2 cl3 cl3).
  - reflexivity.
  - exact cl0_to_cl2.
  - vm_compute. reflexivity.
  - apply rtc_refl.
Defined.

Lemma cleanup_claims_finished_work_witness :
  at_claims (aw_tables cl1) !! "attempt-1" = None ∧ at_claims (aw_tables cl2) !! "attempt-1" = Some (MkCleanupClaim "cleanup-1" false) ∧
  run_closed (adb cl1) "run_i" = true.
Proof.
  destruct (cleanup_claims_finished_work 1100 "cleanup-1" "cleanup of run_i" cl1 cl2 (MkWorkflowCleanupClaim write_preview []))
    as (c & preview & Hc & _ & _ & Hp & Hw & Hcases).
  - vm_compute. reflexivity.
  - cbn in Hw. subst preview. destruct Hcases as [[Hs _]|(_ & _ & _ & Hclosed & _ & _ & _ & Hfree & Hafter & _)].
    + exfalso. vm_compute in Hc. injection Hc as <-. revert Hs. apply (bool_decide_unpack (¬ _)). vm_compute. exact I.
    + split; [apply (Hfree write_item); left|]. split; [rewrite Hafter; vm_compute; reflexivity|exact Hclosed].
Defined.
