(* ===== verification/AutomationModels.v ===== *)
(** * AutomationModels: the data of automations

    The enums with their stored spellings and the records of
    automation_models.rs, automation_run_models.rs, automation_target.rs,
    automation_reuse.rs and automation_workspace_placement.rs, with the small
    functions those files define on them.

    A [DateTime<Utc>] is the number of nanoseconds since the Unix epoch.
    Record fields carry a prefix: [ad_] definitions, [ar_] runs, [at_]
    attempts, [ac_] actors, [ao_] occurrences. *)

From S2P Require Import Prelude Text.
From Stdlib Require Import ZArith Lia Ascii String.
From stdpp Require Import strings prelude.

Definition DateTime : Type := Z.

(** ** Enums *)

(** The lifecycle of a definition; an unknown stored value reads as a draft. *)
Inductive AutomationState : Type :=
| As_Draft
| As_Active
| As_Paused
| As_Blocked
| As_Archived
| As_Trashed.
#[export] Instance AutomationState_eq_dec : EqDecision AutomationState.
Proof. solve_decision. Defined.

Definition AutomationState_as_str (x : AutomationState) : string :=
  match x with
  | As_Draft => "draft"
  | As_Active => "active"
  | As_Paused => "paused"
  | As_Blocked => "blocked"
  | As_Archived => "archived"
  | As_Trashed => "trashed"
  end.

Definition AutomationState_from_db (value : string) : AutomationState :=
  if String.eqb value "active" then As_Active
  else if String.eqb value "paused" then As_Paused
  else if String.eqb value "blocked" then As_Blocked
  else if String.eqb value "archived" then As_Archived
  else if String.eqb value "trashed" then As_Trashed
  else As_Draft.

Definition is_editable (s : AutomationState) : bool :=
  match s with As_Archived | As_Trashed => false | _ => true end.

(** Whether a run waits for the workspace setup. *)
Inductive AutomationSetupPolicy : Type :=
| Sp_Wait
| Sp_Parallel
| Sp_Skip.
#[export] Instance AutomationSetupPolicy_eq_dec : EqDecision AutomationSetupPolicy.
Proof. solve_decision. Defined.

Definition AutomationSetupPolicy_as_str (x : AutomationSetupPolicy) : string :=
  match x with
  | Sp_Wait => "wait"
  | Sp_Parallel => "parallel"
  | Sp_Skip => "skip"
  end.

(** What happens to the workspace of a successful run. *)
Inductive AutomationCleanupPolicy : Type :=
| Cp_Preserve
| Cp_OnSuccess.
#[export] Instance AutomationCleanupPolicy_eq_dec : EqDecision AutomationCleanupPolicy.
Proof. solve_decision. Defined.

Definition AutomationCleanupPolicy_as_str (x : AutomationCleanupPolicy) : string :=
  match x with
  | Cp_Preserve => "preserve"
  | Cp_OnSuccess => "onSuccess"
  end.

(** What a run does about other active runs of its automation. *)
Inductive AutomationOverlapPolicy : Type :=
| Op_Skip
| Op_RunLatestOnce
| Op_Queue
| Op_ForceParallel.
#[export] Instance AutomationOverlapPolicy_eq_dec : EqDecision AutomationOverlapPolicy.
Proof. solve_decision. Defined.

Definition AutomationOverlapPolicy_as_str (x : AutomationOverlapPolicy) : string :=
  match x with
  | Op_Skip => "skip"
  | Op_RunLatestOnce => "runLatestOnce"
  | Op_Queue => "queue"
  | Op_ForceParallel => "forceParallel"
  end.

(** What happens to occurrences missed while the runtime was away. *)
Inductive AutomationMisfirePolicy : Type :=
| Mf_Skip
| Mf_RunLatestOnce
| Mf_Queue.
#[export] Instance AutomationMisfirePolicy_eq_dec : EqDecision AutomationMisfirePolicy.
Proof. solve_decision. Defined.

Definition AutomationMisfirePolicy_as_str (x : AutomationMisfirePolicy) : string :=
  match x with
  | Mf_Skip => "skip"
  | Mf_RunLatestOnce => "runLatestOnce"
  | Mf_Queue => "queue"
  end.

(** What started a run. *)
Inductive AutomationRunTrigger : Type :=
| Tr_Scheduled
| Tr_Manual.
#[export] Instance AutomationRunTrigger_eq_dec : EqDecision AutomationRunTrigger.
Proof. solve_decision. Defined.

Definition AutomationRunTrigger_as_str (x : AutomationRunTrigger) : string :=
  match x with
  | Tr_Scheduled => "scheduled"
  | Tr_Manual => "manual"
  end.

(** The status of a run; an unknown stored value reads as pending. *)
Inductive AutomationRunStatus : Type :=
| Rs_Pending
| Rs_PrecheckSkipped
| Rs_MisfireSkipped
| Rs_OverlapSkipped
| Rs_QueueLimitSkipped
| Rs_Dispatching
| Rs_Dispatched
| Rs_WaitingForUser
| Rs_Success
| Rs_Failure
| Rs_Blocked
| Rs_Timeout
| Rs_Cancelled.
#[export] Instance AutomationRunStatus_eq_dec : EqDecision AutomationRunStatus.
Proof. solve_decision. Defined.

Definition AutomationRunStatus_as_str (x : AutomationRunStatus) : string :=
  match x with
  | Rs_Pending => "pending"
  | Rs_PrecheckSkipped => "precheckSkipped"
  | Rs_MisfireSkipped => "misfireSkipped"
  | Rs_OverlapSkipped => "overlapSkipped"
  | Rs_QueueLimitSkipped => "queueLimitSkipped"
  | Rs_Dispatching => "dispatching"
  | Rs_Dispatched => "dispatched"
  | Rs_WaitingForUser => "waitingForUser"
  | Rs_Success => "success"
  | Rs_Failure => "failure"
  | Rs_Blocked => "blocked"
  | Rs_Timeout => "timeout"
  | Rs_Cancelled => "cancelled"
  end.

Definition AutomationRunStatus_from_db (value : string) : AutomationRunStatus :=
  if String.eqb value "precheckSkipped" then Rs_PrecheckSkipped
  else if String.eqb value "misfireSkipped" then Rs_MisfireSkipped
  else if String.eqb value "overlapSkipped" then Rs_OverlapSkipped
  else if String.eqb value "queueLimitSkipped" then Rs_QueueLimitSkipped
  else if String.eqb value "dispatching" then Rs_Dispatching
  else if String.eqb value "dispatched" then Rs_Dispatched
  else if String.eqb value "waitingForUser" then Rs_WaitingForUser
  else if String.eqb value "success" then Rs_Success
  else if String.eqb value "failure" then Rs_Failure
  else if String.eqb value "blocked" then Rs_Blocked
  else if String.eqb value "timeout" then Rs_Timeout
  else if String.eqb value "cancelled" then Rs_Cancelled
  else Rs_Pending.

Definition is_final (s : AutomationRunStatus) : bool :=
  match s with
  | Rs_PrecheckSkipped | Rs_MisfireSkipped | Rs_OverlapSkipped | Rs_QueueLimitSkipped
  | Rs_Success | Rs_Failure | Rs_Blocked | Rs_Timeout | Rs_Cancelled => true
  | _ => false
  end.

Definition counts_as_failure (s : AutomationRunStatus) : bool :=
  match s with Rs_Failure | Rs_Timeout => true | _ => false end.

(** Who acts on an automation. *)
Inductive AutomationActorKind : Type :=
| Ack_HumanDesktop
| Ack_AuthenticatedMobile
| Ack_LocalCli
| Ack_ManagedAgent.
#[export] Instance AutomationActorKind_eq_dec : EqDecision AutomationActorKind.
Proof. solve_decision. Defined.

Definition AutomationActorKind_as_str (x : AutomationActorKind) : string :=
  match x with
  | Ack_HumanDesktop => "humanDesktop"
  | Ack_AuthenticatedMobile => "authenticatedMobile"
  | Ack_LocalCli => "localCli"
  | Ack_ManagedAgent => "managedAgent"
  end.

(** Where a run after the first one is delivered. *)
Inductive AutomationReusePolicy : Type :=
| Rp_NewEachRun
| Rp_ReuseWorkspace
| Rp_ReuseConversation.
#[export] Instance AutomationReusePolicy_eq_dec : EqDecision AutomationReusePolicy.
Proof. solve_decision. Defined.

Definition AutomationReusePolicy_as_str (x : AutomationReusePolicy) : string :=
  match x with
  | Rp_NewEachRun => "newEachRun"
  | Rp_ReuseWorkspace => "reuseWorkspace"
  | Rp_ReuseConversation => "reuseConversation"
  end.

(** How one run reached its target under a reuse policy. *)
Inductive AutomationRunReuse : Type :=
| Ru_Bound
| Ru_Conversation
| Ru_ResumedConversation
| Ru_Workspace.
#[export] Instance AutomationRunReuse_eq_dec : EqDecision AutomationRunReuse.
Proof. solve_decision. Defined.

Definition AutomationRunReuse_as_str (x : AutomationRunReuse) : string :=
  match x with
  | Ru_Bound => "bound"
  | Ru_Conversation => "conversation"
  | Ru_ResumedConversation => "resumedConversation"
  | Ru_Workspace => "workspace"
  end.

Definition reuses (policy : AutomationReusePolicy) : bool :=
  negb (bool_decide (policy = Rp_NewEachRun)).

(** ** Schedules and targets *)

Inductive AutomationSchedule : Type :=
| Sch_OneTime (at_ : DateTime) (timezone : string)
| Sch_Recurring (cron timezone : string) (start_at end_at : option DateTime)
    (max_scheduled_runs : option Z).

#[export] Instance AutomationSchedule_eq_dec : EqDecision AutomationSchedule.
Proof. solve_decision. Defined.

Definition schedule_timezone (s : AutomationSchedule) : string :=
  match s with Sch_OneTime _ timezone => timezone | Sch_Recurring _ timezone _ _ _ => timezone end.

Definition schedule_max_scheduled_runs (s : AutomationSchedule) : option Z :=
  match s with Sch_OneTime _ _ => Some 1%Z | Sch_Recurring _ _ _ _ m => m end.

Inductive AutomationTarget : Type :=
| Tg_ProjectCheckout (project_id host_id name_template agent_profile_id : string)
| Tg_ExistingTab (workspace_id tab_id : string) (conversation_id : option string)
| Tg_FreshTab (workspace_id agent_profile_id : string)
| Tg_Worktree (project_id parent_workspace_id : option string)
    (source_branch name_template agent_profile_id : string).

#[export] Instance AutomationTarget_eq_dec : EqDecision AutomationTarget.
Proof. solve_decision. Defined.

Definition target_kind (t : AutomationTarget) : string :=
  match t with
  | Tg_ProjectCheckout _ _ _ _ => "projectCheckout"
  | Tg_ExistingTab _ _ _ => "existingTab"
  | Tg_FreshTab _ _ => "freshTab"
  | Tg_Worktree _ _ _ _ _ => "worktree"
  end.

Definition target_workspace_id (t : AutomationTarget) : option string :=
  match t with
  | Tg_ExistingTab workspace_id _ _ | Tg_FreshTab workspace_id _ => Some workspace_id
  | _ => None
  end.

Definition target_agent_profile_id (t : AutomationTarget) : option string :=
  match t with
  | Tg_ExistingTab _ _ _ => None
  | Tg_FreshTab _ p | Tg_Worktree _ _ _ _ p | Tg_ProjectCheckout _ _ _ p => Some p
  end.

(** An empty identifier reads as absent. *)
Definition non_empty (value : option string) : option string :=
  match value with
  | Some v => if String.eqb (trim v) "" then None else Some v
  | None => None
  end.

Record AutomationWorktreeSpec : Type := MkWorktreeSpec {
  ws_project_id : option string;
  ws_parent_workspace_id : option string;
  ws_source_branch : string;
  ws_name_template : string;
  ws_agent_profile_id : string
}.

Definition target_worktree (t : AutomationTarget) : option AutomationWorktreeSpec :=
  match t with
  | Tg_Worktree project_id parent_workspace_id source_branch name_template agent_profile_id =>
      Some (MkWorktreeSpec (non_empty project_id) (non_empty parent_workspace_id) source_branch
              name_template agent_profile_id)
  | _ => None
  end.

Definition target_source_workspace_id (t : AutomationTarget) : option string :=
  match target_worktree t with
  | Some spec => ws_parent_workspace_id spec
  | None => target_workspace_id t
  end.

Definition target_project_checkout (t : AutomationTarget) : option (string * string) :=
  match t with
  | Tg_ProjectCheckout project_id host_id _ _ => Some (project_id, host_id)
  | _ => None
  end.

Definition target_direct_project_id (t : AutomationTarget) : option string :=
  match target_project_checkout t with
  | Some (project_id, _) => Some project_id
  | None => target_worktree t ≫= ws_project_id
  end.

Definition any_blank (values : list string) : bool :=
  existsb (λ v, String.eqb (trim v) "") values.

(** The tail of [validate_project_target]: a definition's project, when set, is
    the one the target names. *)
Definition project_matches (definition_project : option string) (kind project : string)
    : Result unit :=
  match definition_project with
  | Some id =>
      if String.eqb id project then Ok tt
      else Err (Bail ("Automation project does not match its project " +:+ kind +:+ " target"))
  | None => Ok tt
  end.

Definition validate_project_target (t : AutomationTarget) (definition_project : option string)
    : Result unit :=
  match t with
  | Tg_ProjectCheckout project_id host_id name_template agent_profile_id =>
      if any_blank [project_id; host_id; name_template; agent_profile_id]
      then Err (Bail "Project checkout automations require a project, host, task name template and agent profile")
      else project_matches definition_project "checkout" project_id
  | Tg_Worktree project_id parent_workspace_id source_branch name_template agent_profile_id =>
      if any_blank [source_branch; name_template; agent_profile_id]
      then Err (Bail "Worktree automations require a source branch, task name template and agent profile")
      else match non_empty project_id, non_empty parent_workspace_id with
           | None, None => Err (Bail "Worktree automations require a project or a parent workspace")
           | None, Some _ => Ok tt
           | Some project, _ => project_matches definition_project "worktree" project
           end
  | _ => Ok tt
  end.

Definition validate_reuse (policy : AutomationReusePolicy) (target : AutomationTarget)
    (cleanup : option AutomationCleanupPolicy) : Result unit :=
  if bool_decide (policy = Rp_ReuseWorkspace)
     && match target with Tg_ExistingTab _ _ _ => true | _ => false end
  then Err (Bail "Reuse Workspace does not apply to an existing tab target; choose Reuse Conversation or New Each Run")
  else if reuses policy && bool_decide (cleanup = Some Cp_OnSuccess)
  then Err (Bail "Cleanup on success would remove what a reusing automation returns to; choose Preserve cleanup or New Each Run")
  else Ok tt.

(** ** Records *)

(** Who did something, for the audit log. *)
Record AutomationActor : Type := MkAutomationActor {
  ac_kind : AutomationActorKind;
  ac_id : option string;
  ac_label : option string
}.


(** The command that decides whether a run starts. *)
Record AutomationPrecheck : Type := MkAutomationPrecheck {
  apc_command : string;
  apc_timeout_seconds : Z
}.


#[export] Instance AutomationPrecheck_eq_dec : EqDecision AutomationPrecheck.
Proof. solve_decision. Defined.

(** Tags and section of the workspaces a run creates. *)
Record AutomationWorkspacePlacement : Type := MkAutomationWorkspacePlacement {
  awp_tag_ids : list string;
  awp_section_id : option string
}.


(** What a reusing automation returns to. *)
Record AutomationBoundTarget : Type := MkAutomationBoundTarget {
  abt_workspace_id : string;
  abt_tab_id : option string;
  abt_conversation_id : option string;
  abt_agent_profile_id : option string;
  abt_bound_run_id : string;
  abt_bound_at : DateTime;
  abt_last_run_id : option string;
  abt_last_verified_at : option DateTime
}.

Definition with_abt_tab_id (v : option string) (x : AutomationBoundTarget) : AutomationBoundTarget :=
  MkAutomationBoundTarget (abt_workspace_id x) v (abt_conversation_id x) (abt_agent_profile_id x)
    (abt_bound_run_id x) (abt_bound_at x) (abt_last_run_id x) (abt_last_verified_at x).
Definition with_abt_conversation_id (v : option string) (x : AutomationBoundTarget) : AutomationBoundTarget :=
  MkAutomationBoundTarget (abt_workspace_id x) (abt_tab_id x) v (abt_agent_profile_id x)
    (abt_bound_run_id x) (abt_bound_at x) (abt_last_run_id x) (abt_last_verified_at x).
Definition with_abt_last_run_id (v : option string) (x : AutomationBoundTarget) : AutomationBoundTarget :=
  MkAutomationBoundTarget (abt_workspace_id x) (abt_tab_id x) (abt_conversation_id x)
    (abt_agent_profile_id x) (abt_bound_run_id x) (abt_bound_at x) v (abt_last_verified_at x).
Definition with_abt_last_verified_at (v : option DateTime) (x : AutomationBoundTarget) : AutomationBoundTarget :=
  MkAutomationBoundTarget (abt_workspace_id x) (abt_tab_id x) (abt_conversation_id x)
    (abt_agent_profile_id x) (abt_bound_run_id x) (abt_bound_at x) (abt_last_run_id x) v.

(** A definition. *)
Record AutomationDefinition : Type := MkAutomationDefinition {
  ad_id : string;
  ad_slug : string;
  ad_name : string;
  ad_description : string;
  ad_project_id : option string;
  ad_tag_ids : list string;
  ad_prompt_template : string;
  ad_schedule : AutomationSchedule;
  ad_target : AutomationTarget;
  ad_setup_policy : AutomationSetupPolicy;
  ad_cleanup_policy : option AutomationCleanupPolicy;
  ad_overlap_policy : AutomationOverlapPolicy;
  ad_queue_cap : Z;
  ad_inactivity_timeout_seconds : Z;
  ad_heartbeat_interval_seconds : Z;
  ad_misfire_grace_seconds : Z;
  ad_misfire_policy : AutomationMisfirePolicy;
  ad_retry_max_attempts : Z;
  ad_retry_backoff_seconds : Z;
  ad_circuit_failure_threshold : Z;
  ad_circuit_open_seconds : Z;
  ad_precheck : option AutomationPrecheck;
  ad_notify_on_success : bool;
  ad_circuit_opened : bool;
  ad_circuit_opened_at : option DateTime;
  ad_state : AutomationState;
  ad_revision : Z;
  ad_approved_revision : option Z;
  ad_origin_workspace_id : option string;
  ad_schedule_cursor_at : option DateTime;
  ad_creation_request_key : option string;
  ad_creation_request_fingerprint : option string;
  ad_state_before_trash : option AutomationState;
  ad_workspace_placement : AutomationWorkspacePlacement;
  ad_reuse_policy : AutomationReusePolicy;
  ad_bound_target : option AutomationBoundTarget;
  ad_created_by : AutomationActor;
  ad_modified_by : AutomationActor;
  ad_created_at : DateTime;
  ad_updated_at : DateTime
}.

Definition with_ad_id (v : string) (x : AutomationDefinition) : AutomationDefinition :=
  MkAutomationDefinition v (ad_slug x) (ad_name x) (ad_description x) (ad_project_id x)
    (ad_tag_ids x) (ad_prompt_template x) (ad_schedule x) (ad_target x) (ad_setup_policy x)
    (ad_cleanup_policy x) (ad_overlap_policy x) (ad_queue_cap x) (ad_inactivity_timeout_seconds x)
    (ad_heartbeat_interval_seconds x) (ad_misfire_grace_seconds x) (ad_misfire_policy x)
    (ad_retry_max_attempts x) (ad_retry_backoff_seconds x) (ad_circuit_failure_threshold x)
    (ad_circuit_open_seconds x) (ad_precheck x) (ad_notify_on_success x) (ad_circuit_opened x)
    (ad_circuit_opened_at x) (ad_state x) (ad_revision x) (ad_approved_revision x)
    (ad_origin_workspace_id x) (ad_schedule_cursor_at x) (ad_creation_request_key x)
    (ad_creation_request_fingerprint x) (ad_state_before_trash x) (ad_workspace_placement x)
    (ad_reuse_policy x) (ad_bound_target x) (ad_created_by x) (ad_modified_by x) (ad_created_at x)
    (ad_updated_at x).
Definition with_ad_slug (v : string) (x : AutomationDefinition) : AutomationDefinition :=
  MkAutomationDefinition (ad_id x) v (ad_name x) (ad_description x) (ad_project_id x)
    (ad_tag_ids x) (ad_prompt_template x) (ad_schedule x) (ad_target x) (ad_setup_policy x)
    (ad_cleanup_policy x) (ad_overlap_policy x) (ad_queue_cap x) (ad_inactivity_timeout_seconds x)
    (ad_heartbeat_interval_seconds x) (ad_misfire_grace_seconds x) (ad_misfire_policy x)
    (ad_retry_max_attempts x) (ad_retry_backoff_seconds x) (ad_circuit_failure_threshold x)
    (ad_circuit_open_seconds x) (ad_precheck x) (ad_notify_on_success x) (ad_circuit_opened x)
    (ad_circuit_opened_at x) (ad_state x) (ad_revision x) (ad_approved_revision x)
    (ad_origin_workspace_id x) (ad_schedule_cursor_at x) (ad_creation_request_key x)
    (ad_creation_request_fingerprint x) (ad_state_before_trash x) (ad_workspace_placement x)
    (ad_reuse_policy x) (ad_bound_target x) (ad_created_by x) (ad_modified_by x) (ad_created_at x)
    (ad_updated_at x).
Definition with_ad_name (v : string) (x : AutomationDefinition) : AutomationDefinition :=
  MkAutomationDefinition (ad_id x) (ad_slug x) v (ad_description x) (ad_project_id x)
    (ad_tag_ids x) (ad_prompt_template x) (ad_schedule x) (ad_target x) (ad_setup_policy x)
    (ad_cleanup_policy x) (ad_overlap_policy x) (ad_queue_cap x) (ad_inactivity_timeout_seconds x)
    (ad_heartbeat_interval_seconds x) (ad_misfire_grace_seconds x) (ad_misfire_policy x)
    (ad_retry_max_attempts x) (ad_retry_backoff_seconds x) (ad_circuit_failure_threshold x)
    (ad_circuit_open_seconds x) (ad_precheck x) (ad_notify_on_success x) (ad_circuit_opened x)
    (ad_circuit_opened_at x) (ad_state x) (ad_revision x) (ad_approved_revision x)
    (ad_origin_workspace_id x) (ad_schedule_cursor_at x) (ad_creation_request_key x)
    (ad_creation_request_fingerprint x) (ad_state_before_trash x) (ad_workspace_placement x)
    (ad_reuse_policy x) (ad_bound_target x) (ad_created_by x) (ad_modified_by x) (ad_created_at x)
    (ad_updated_at x).
Definition with_ad_description (v : string) (x : AutomationDefinition) : AutomationDefinition :=
  MkAutomationDefinition (ad_id x) (ad_slug x) (ad_name x) v (ad_project_id x) (ad_tag_ids x)
    (ad_prompt_template x) (ad_schedule x) (ad_target x) (ad_setup_policy x) (ad_cleanup_policy x)
    (ad_overlap_policy x) (ad_queue_cap x) (ad_inactivity_timeout_seconds x)
    (ad_heartbeat_interval_seconds x) (ad_misfire_grace_seconds x) (ad_misfire_policy x)
    (ad_retry_max_attempts x) (ad_retry_backoff_seconds x) (ad_circuit_failure_threshold x)
    (ad_circuit_open_seconds x) (ad_precheck x) (ad_notify_on_success x) (ad_circuit_opened x)
    (ad_circuit_opened_at x) (ad_state x) (ad_revision x) (ad_approved_revision x)
    (ad_origin_workspace_id x) (ad_schedule_cursor_at x) (ad_creation_request_key x)
    (ad_creation_request_fingerprint x) (ad_state_before_trash x) (ad_workspace_placement x)
    (ad_reuse_policy x) (ad_bound_target x) (ad_created_by x) (ad_modified_by x) (ad_created_at x)
    (ad_updated_at x).
Definition with_ad_project_id (v : option string) (x : AutomationDefinition) : AutomationDefinition :=
  MkAutomationDefinition (ad_id x) (ad_slug x) (ad_name x) (ad_description x) v (ad_tag_ids x)
    (ad_prompt_template x) (ad_schedule x) (ad_target x) (ad_setup_policy x) (ad_cleanup_policy x)
    (ad_overlap_policy x) (ad_queue_cap x) (ad_inactivity_timeout_seconds x)
    (ad_heartbeat_interval_seconds x) (ad_misfire_grace_seconds x) (ad_misfire_policy x)
    (ad_retry_max_attempts x) (ad_retry_backoff_seconds x) (ad_circuit_failure_threshold x)
    (ad_circuit_open_seconds x) (ad_precheck x) (ad_notify_on_success x) (ad_circuit_opened x)
    (ad_circuit_opened_at x) (ad_state x) (ad_revision x) (ad_approved_revision x)
    (ad_origin_workspace_id x) (ad_schedule_cursor_at x) (ad_creation_request_key x)
    (ad_creation_request_fingerprint x) (ad_state_before_trash x) (ad_workspace_placement x)
    (ad_reuse_policy x) (ad_bound_target x) (ad_created_by x) (ad_modified_by x) (ad_created_at x)
    (ad_updated_at x).
Definition with_ad_target (v : AutomationTarget) (x : AutomationDefinition) : AutomationDefinition :=
  MkAutomationDefinition (ad_id x) (ad_slug x) (ad_name x) (ad_description x) (ad_project_id x)
    (ad_tag_ids x) (ad_prompt_template x) (ad_schedule x) v (ad_setup_policy x)
    (ad_cleanup_policy x) (ad_overlap_policy x) (ad_queue_cap x) (ad_inactivity_timeout_seconds x)
    (ad_heartbeat_interval_seconds x) (ad_misfire_grace_seconds x) (ad_misfire_policy x)
    (ad_retry_max_attempts x) (ad_retry_backoff_seconds x) (ad_circuit_failure_threshold x)
    (ad_circuit_open_seconds x) (ad_precheck x) (ad_notify_on_success x) (ad_circuit_opened x)
    (ad_circuit_opened_at x) (ad_state x) (ad_revision x) (ad_approved_revision x)
    (ad_origin_workspace_id x) (ad_schedule_cursor_at x) (ad_creation_request_key x)
    (ad_creation_request_fingerprint x) (ad_state_before_trash x) (ad_workspace_placement x)
    (ad_reuse_policy x) (ad_bound_target x) (ad_created_by x) (ad_modified_by x) (ad_created_at x)
    (ad_updated_at x).
Definition with_ad_circuit_opened (v : bool) (x : AutomationDefinition) : AutomationDefinition :=
  MkAutomationDefinition (ad_id x) (ad_slug x) (ad_name x) (ad_description x) (ad_project_id x)
    (ad_tag_ids x) (ad_prompt_template x) (ad_schedule x) (ad_target x) (ad_setup_policy x)
    (ad_cleanup_policy x) (ad_overlap_policy x) (ad_queue_cap x) (ad_inactivity_timeout_seconds x)
    (ad_heartbeat_interval_seconds x) (ad_misfire_grace_seconds x) (ad_misfire_policy x)
    (ad_retry_max_attempts x) (ad_retry_backoff_seconds x) (ad_circuit_failure_threshold x)
    (ad_circuit_open_seconds x) (ad_precheck x) (ad_notify_on_success x) v
    (ad_circuit_opened_at x) (ad_state x) (ad_revision x) (ad_approved_revision x)
    (ad_origin_workspace_id x) (ad_schedule_cursor_at x) (ad_creation_request_key x)
    (ad_creation_request_fingerprint x) (ad_state_before_trash x) (ad_workspace_placement x)
    (ad_reuse_policy x) (ad_bound_target x) (ad_created_by x) (ad_modified_by x) (ad_created_at x)
    (ad_updated_at x).
Definition with_ad_circuit_opened_at (v : option DateTime) (x : AutomationDefinition) : AutomationDefinition :=
  MkAutomationDefinition (ad_id x) (ad_slug x) (ad_name x) (ad_description x) (ad_project_id x)
    (ad_tag_ids x) (ad_prompt_template x) (ad_schedule x) (ad_target x) (ad_setup_policy x)
    (ad_cleanup_policy x) (ad_overlap_policy x) (ad_queue_cap x) (ad_inactivity_timeout_seconds x)
    (ad_heartbeat_interval_seconds x) (ad_misfire_grace_seconds x) (ad_misfire_policy x)
    (ad_retry_max_attempts x) (ad_retry_backoff_seconds x) (ad_circuit_failure_threshold x)
    (ad_circuit_open_seconds x) (ad_precheck x) (ad_notify_on_success x) (ad_circuit_opened x) v
    (ad_state x) (ad_revision x) (ad_approved_revision x) (ad_origin_workspace_id x)
    (ad_schedule_cursor_at x) (ad_creation_request_key x) (ad_creation_request_fingerprint x)
    (ad_state_before_trash x) (ad_workspace_placement x) (ad_reuse_policy x) (ad_bound_target x)
    (ad_created_by x) (ad_modified_by x) (ad_created_at x) (ad_updated_at x).
Definition with_ad_state (v : AutomationState) (x : AutomationDefinition) : AutomationDefinition :=
  MkAutomationDefinition (ad_id x) (ad_slug x) (ad_name x) (ad_description x) (ad_project_id x)
    (ad_tag_ids x) (ad_prompt_template x) (ad_schedule x) (ad_target x) (ad_setup_policy x)
    (ad_cleanup_policy x) (ad_overlap_policy x) (ad_queue_cap x) (ad_inactivity_timeout_seconds x)
    (ad_heartbeat_interval_seconds x) (ad_misfire_grace_seconds x) (ad_misfire_policy x)
    (ad_retry_max_attempts x) (ad_retry_backoff_seconds x) (ad_circuit_failure_threshold x)
    (ad_circuit_open_seconds x) (ad_precheck x) (ad_notify_on_success x) (ad_circuit_opened x)
    (ad_circuit_opened_at x) v (ad_revision x) (ad_approved_revision x) (ad_origin_workspace_id x)
    (ad_schedule_cursor_at x) (ad_creation_request_key x) (ad_creation_request_fingerprint x)
    (ad_state_before_trash x) (ad_workspace_placement x) (ad_reuse_policy x) (ad_bound_target x)
    (ad_created_by x) (ad_modified_by x) (ad_created_at x) (ad_updated_at x).
Definition with_ad_revision (v : Z) (x : AutomationDefinition) : AutomationDefinition :=
  MkAutomationDefinition (ad_id x) (ad_slug x) (ad_name x) (ad_description x) (ad_project_id x)
    (ad_tag_ids x) (ad_prompt_template x) (ad_schedule x) (ad_target x) (ad_setup_policy x)
    (ad_cleanup_policy x) (ad_overlap_policy x) (ad_queue_cap x) (ad_inactivity_timeout_seconds x)
    (ad_heartbeat_interval_seconds x) (ad_misfire_grace_seconds x) (ad_misfire_policy x)
    (ad_retry_max_attempts x) (ad_retry_backoff_seconds x) (ad_circuit_failure_threshold x)
    (ad_circuit_open_seconds x) (ad_precheck x) (ad_notify_on_success x) (ad_circuit_opened x)
    (ad_circuit_opened_at x) (ad_state x) v (ad_approved_revision x) (ad_origin_workspace_id x)
    (ad_schedule_cursor_at x) (ad_creation_request_key x) (ad_creation_request_fingerprint x)
    (ad_state_before_trash x) (ad_workspace_placement x) (ad_reuse_policy x) (ad_bound_target x)
    (ad_created_by x) (ad_modified_by x) (ad_created_at x) (ad_updated_at x).
Definition with_ad_approved_revision (v : option Z) (x : AutomationDefinition) : AutomationDefinition :=
  MkAutomationDefinition (ad_id x) (ad_slug x) (ad_name x) (ad_description x) (ad_project_id x)
    (ad_tag_ids x) (ad_prompt_template x) (ad_schedule x) (ad_target x) (ad_setup_policy x)
    (ad_cleanup_policy x) (ad_overlap_policy x) (ad_queue_cap x) (ad_inactivity_timeout_seconds x)
    (ad_heartbeat_interval_seconds x) (ad_misfire_grace_seconds x) (ad_misfire_policy x)
    (ad_retry_max_attempts x) (ad_retry_backoff_seconds x) (ad_circuit_failure_threshold x)
    (ad_circuit_open_seconds x) (ad_precheck x) (ad_notify_on_success x) (ad_circuit_opened x)
    (ad_circuit_opened_at x) (ad_state x) (ad_revision x) v (ad_origin_workspace_id x)
    (ad_schedule_cursor_at x) (ad_creation_request_key x) (ad_creation_request_fingerprint x)
    (ad_state_before_trash x) (ad_workspace_placement x) (ad_reuse_policy x) (ad_bound_target x)
    (ad_created_by x) (ad_modified_by x) (ad_created_at x) (ad_updated_at x).
Definition with_ad_schedule_cursor_at (v : option DateTime) (x : AutomationDefinition) : AutomationDefinition :=
  MkAutomationDefinition (ad_id x) (ad_slug x) (ad_name x) (ad_description x) (ad_project_id x)
    (ad_tag_ids x) (ad_prompt_template x) (ad_schedule x) (ad_target x) (ad_setup_policy x)
    (ad_cleanup_policy x) (ad_overlap_policy x) (ad_queue_cap x) (ad_inactivity_timeout_seconds x)
    (ad_heartbeat_interval_seconds x) (ad_misfire_grace_seconds x) (ad_misfire_policy x)
    (ad_retry_max_attempts x) (ad_retry_backoff_seconds x) (ad_circuit_failure_threshold x)
    (ad_circuit_open_seconds x) (ad_precheck x) (ad_notify_on_success x) (ad_circuit_opened x)
    (ad_circuit_opened_at x) (ad_state x) (ad_revision x) (ad_approved_revision x)
    (ad_origin_workspace_id x) v (ad_creation_request_key x) (ad_creation_request_fingerprint x)
    (ad_state_before_trash x) (ad_workspace_placement x) (ad_reuse_policy x) (ad_bound_target x)
    (ad_created_by x) (ad_modified_by x) (ad_created_at x) (ad_updated_at x).
Definition with_ad_creation_request_key (v : option string) (x : AutomationDefinition) : AutomationDefinition :=
  MkAutomationDefinition (ad_id x) (ad_slug x) (ad_name x) (ad_description x) (ad_project_id x)
    (ad_tag_ids x) (ad_prompt_template x) (ad_schedule x) (ad_target x) (ad_setup_policy x)
    (ad_cleanup_policy x) (ad_overlap_policy x) (ad_queue_cap x) (ad_inactivity_timeout_seconds x)
    (ad_heartbeat_interval_seconds x) (ad_misfire_grace_seconds x) (ad_misfire_policy x)
    (ad_retry_max_attempts x) (ad_retry_backoff_seconds x) (ad_circuit_failure_threshold x)
    (ad_circuit_open_seconds x) (ad_precheck x) (ad_notify_on_success x) (ad_circuit_opened x)
    (ad_circuit_opened_at x) (ad_state x) (ad_revision x) (ad_approved_revision x)
    (ad_origin_workspace_id x) (ad_schedule_cursor_at x) v (ad_creation_request_fingerprint x)
    (ad_state_before_trash x) (ad_workspace_placement x) (ad_reuse_policy x) (ad_bound_target x)
    (ad_created_by x) (ad_modified_by x) (ad_created_at x) (ad_updated_at x).
Definition with_ad_creation_request_fingerprint (v : option string) (x : AutomationDefinition) : AutomationDefinition :=
  MkAutomationDefinition (ad_id x) (ad_slug x) (ad_name x) (ad_description x) (ad_project_id x)
    (ad_tag_ids x) (ad_prompt_template x) (ad_schedule x) (ad_target x) (ad_setup_policy x)
    (ad_cleanup_policy x) (ad_overlap_policy x) (ad_queue_cap x) (ad_inactivity_timeout_seconds x)
    (ad_heartbeat_interval_seconds x) (ad_misfire_grace_seconds x) (ad_misfire_policy x)
    (ad_retry_max_attempts x) (ad_retry_backoff_seconds x) (ad_circuit_failure_threshold x)
    (ad_circuit_open_seconds x) (ad_precheck x) (ad_notify_on_success x) (ad_circuit_opened x)
    (ad_circuit_opened_at x) (ad_state x) (ad_revision x) (ad_approved_revision x)
    (ad_origin_workspace_id x) (ad_schedule_cursor_at x) (ad_creation_request_key x) v
    (ad_state_before_trash x) (ad_workspace_placement x) (ad_reuse_policy x) (ad_bound_target x)
    (ad_created_by x) (ad_modified_by x) (ad_created_at x) (ad_updated_at x).
Definition with_ad_state_before_trash (v : option AutomationState) (x : AutomationDefinition) : AutomationDefinition :=
  MkAutomationDefinition (ad_id x) (ad_slug x) (ad_name x) (ad_description x) (ad_project_id x)
    (ad_tag_ids x) (ad_prompt_template x) (ad_schedule x) (ad_target x) (ad_setup_policy x)
    (ad_cleanup_policy x) (ad_overlap_policy x) (ad_queue_cap x) (ad_inactivity_timeout_seconds x)
    (ad_heartbeat_interval_seconds x) (ad_misfire_grace_seconds x) (ad_misfire_policy x)
    (ad_retry_max_attempts x) (ad_retry_backoff_seconds x) (ad_circuit_failure_threshold x)
    (ad_circuit_open_seconds x) (ad_precheck x) (ad_notify_on_success x) (ad_circuit_opened x)
    (ad_circuit_opened_at x) (ad_state x) (ad_revision x) (ad_approved_revision x)
    (ad_origin_workspace_id x) (ad_schedule_cursor_at x) (ad_creation_request_key x)
    (ad_creation_request_fingerprint x) v (ad_workspace_placement x) (ad_reuse_policy x)
    (ad_bound_target x) (ad_created_by x) (ad_modified_by x) (ad_created_at x) (ad_updated_at x).
Definition with_ad_bound_target (v : option AutomationBoundTarget) (x : AutomationDefinition) : AutomationDefinition :=
  MkAutomationDefinition (ad_id x) (ad_slug x) (ad_name x) (ad_description x) (ad_project_id x)
    (ad_tag_ids x) (ad_prompt_template x) (ad_schedule x) (ad_target x) (ad_setup_policy x)
    (ad_cleanup_policy x) (ad_overlap_policy x) (ad_queue_cap x) (ad_inactivity_timeout_seconds x)
    (ad_heartbeat_interval_seconds x) (ad_misfire_grace_seconds x) (ad_misfire_policy x)
    (ad_retry_max_attempts x) (ad_retry_backoff_seconds x) (ad_circuit_failure_threshold x)
    (ad_circuit_open_seconds x) (ad_precheck x) (ad_notify_on_success x) (ad_circuit_opened x)
    (ad_circuit_opened_at x) (ad_state x) (ad_revision x) (ad_approved_revision x)
    (ad_origin_workspace_id x) (ad_schedule_cursor_at x) (ad_creation_request_key x)
    (ad_creation_request_fingerprint x) (ad_state_before_trash x) (ad_workspace_placement x)
    (ad_reuse_policy x) v (ad_created_by x) (ad_modified_by x) (ad_created_at x) (ad_updated_at x).
Definition with_ad_created_by (v : AutomationActor) (x : AutomationDefinition) : AutomationDefinition :=
  MkAutomationDefinition (ad_id x) (ad_slug x) (ad_name x) (ad_description x) (ad_project_id x)
    (ad_tag_ids x) (ad_prompt_template x) (ad_schedule x) (ad_target x) (ad_setup_policy x)
    (ad_cleanup_policy x) (ad_overlap_policy x) (ad_queue_cap x) (ad_inactivity_timeout_seconds x)
    (ad_heartbeat_interval_seconds x) (ad_misfire_grace_seconds x) (ad_misfire_policy x)
    (ad_retry_max_attempts x) (ad_retry_backoff_seconds x) (ad_circuit_failure_threshold x)
    (ad_circuit_open_seconds x) (ad_precheck x) (ad_notify_on_success x) (ad_circuit_opened x)
    (ad_circuit_opened_at x) (ad_state x) (ad_revision x) (ad_approved_revision x)
    (ad_origin_workspace_id x) (ad_schedule_cursor_at x) (ad_creation_request_key x)
    (ad_creation_request_fingerprint x) (ad_state_before_trash x) (ad_workspace_placement x)
    (ad_reuse_policy x) (ad_bound_target x) v (ad_modified_by x) (ad_created_at x)
    (ad_updated_at x).
Definition with_ad_modified_by (v : AutomationActor) (x : AutomationDefinition) : AutomationDefinition :=
  MkAutomationDefinition (ad_id x) (ad_slug x) (ad_name x) (ad_description x) (ad_project_id x)
    (ad_tag_ids x) (ad_prompt_template x) (ad_schedule x) (ad_target x) (ad_setup_policy x)
    (ad_cleanup_policy x) (ad_overlap_policy x) (ad_queue_cap x) (ad_inactivity_timeout_seconds x)
    (ad_heartbeat_interval_seconds x) (ad_misfire_grace_seconds x) (ad_misfire_policy x)
    (ad_retry_max_attempts x) (ad_retry_backoff_seconds x) (ad_circuit_failure_threshold x)
    (ad_circuit_open_seconds x) (ad_precheck x) (ad_notify_on_success x) (ad_circuit_opened x)
    (ad_circuit_opened_at x) (ad_state x) (ad_revision x) (ad_approved_revision x)
    (ad_origin_workspace_id x) (ad_schedule_cursor_at x) (ad_creation_request_key x)
    (ad_creation_request_fingerprint x) (ad_state_before_trash x) (ad_workspace_placement x)
    (ad_reuse_policy x) (ad_bound_target x) (ad_created_by x) v (ad_created_at x)
    (ad_updated_at x).
Definition with_ad_created_at (v : DateTime) (x : AutomationDefinition) : AutomationDefinition :=
  MkAutomationDefinition (ad_id x) (ad_slug x) (ad_name x) (ad_description x) (ad_project_id x)
    (ad_tag_ids x) (ad_prompt_template x) (ad_schedule x) (ad_target x) (ad_setup_policy x)
    (ad_cleanup_policy x) (ad_overlap_policy x) (ad_queue_cap x) (ad_inactivity_timeout_seconds x)
    (ad_heartbeat_interval_seconds x) (ad_misfire_grace_seconds x) (ad_misfire_policy x)
    (ad_retry_max_attempts x) (ad_retry_backoff_seconds x) (ad_circuit_failure_threshold x)
    (ad_circuit_open_seconds x) (ad_precheck x) (ad_notify_on_success x) (ad_circuit_opened x)
    (ad_circuit_opened_at x) (ad_state x) (ad_revision x) (ad_approved_revision x)
    (ad_origin_workspace_id x) (ad_schedule_cursor_at x) (ad_creation_request_key x)
    (ad_creation_request_fingerprint x) (ad_state_before_trash x) (ad_workspace_placement x)
    (ad_reuse_policy x) (ad_bound_target x) (ad_created_by x) (ad_modified_by x) v
    (ad_updated_at x).
Definition with_ad_updated_at (v : DateTime) (x : AutomationDefinition) : AutomationDefinition :=
  MkAutomationDefinition (ad_id x) (ad_slug x) (ad_name x) (ad_description x) (ad_project_id x)
    (ad_tag_ids x) (ad_prompt_template x) (ad_schedule x) (ad_target x) (ad_setup_policy x)
    (ad_cleanup_policy x) (ad_overlap_policy x) (ad_queue_cap x) (ad_inactivity_timeout_seconds x)
    (ad_heartbeat_interval_seconds x) (ad_misfire_grace_seconds x) (ad_misfire_policy x)
    (ad_retry_max_attempts x) (ad_retry_backoff_seconds x) (ad_circuit_failure_threshold x)
    (ad_circuit_open_seconds x) (ad_precheck x) (ad_notify_on_success x) (ad_circuit_opened x)
    (ad_circuit_opened_at x) (ad_state x) (ad_revision x) (ad_approved_revision x)
    (ad_origin_workspace_id x) (ad_schedule_cursor_at x) (ad_creation_request_key x)
    (ad_creation_request_fingerprint x) (ad_state_before_trash x) (ad_workspace_placement x)
    (ad_reuse_policy x) (ad_bound_target x) (ad_created_by x) (ad_modified_by x) (ad_created_at x)
    v.

(** The live target a run is bound to. *)
Record AutomationTargetIdentity : Type := MkAutomationTargetIdentity {
  ati_workspace_id : option string;
  ati_tab_id : option string;
  ati_session_id : option string;
  ati_profile_id : option string;
  ati_conversation_id : option string;
  ati_terminal_handle : option string
}.


#[export] Instance AutomationTargetIdentity_eq_dec : EqDecision AutomationTargetIdentity.
Proof. solve_decision. Defined.

(** [AutomationTargetIdentity::matches] compares every field. *)
Definition identity_matches (a b : AutomationTargetIdentity) : bool :=
  bool_decide (ati_workspace_id a = ati_workspace_id b) && bool_decide (ati_tab_id a = ati_tab_id b)
  && bool_decide (ati_session_id a = ati_session_id b)
  && bool_decide (ati_profile_id a = ati_profile_id b)
  && bool_decide (ati_conversation_id a = ati_conversation_id b)
  && bool_decide (ati_terminal_handle a = ati_terminal_handle b).

(** The state of a recovery after an interruption. *)
Record AutomationRecovery : Type := MkAutomationRecovery {
  arc_status : string;
  arc_attempt : Z;
  arc_max_attempts : Z;
  arc_interrupted_at : option DateTime;
  arc_code : option string
}.

Definition with_arc_status (v : string) (x : AutomationRecovery) : AutomationRecovery :=
  MkAutomationRecovery v (arc_attempt x) (arc_max_attempts x) (arc_interrupted_at x) (arc_code x).

(** The process that owns a run. *)
Record AutomationProcessIdentity : Type := MkAutomationProcessIdentity {
  api_pid : Z;
  api_start_marker : Z;
  api_boot_id : option string
}.


(** A run of an automation. *)
Record AutomationRun : Type := MkAutomationRun {
  ar_id : string;
  ar_automation_id : string;
  ar_number : Z;
  ar_occurrence_key : string;
  ar_definition_revision : option Z;
  ar_definition_snapshot : option AutomationDefinition;
  ar_attempt_id : option string;
  ar_native_conversation_id : option string;
  ar_recovery : option AutomationRecovery;
  ar_last_activity_at : option DateTime;
  ar_continue_from_run_id : option string;
  ar_owner_reserved : bool;
  ar_owner_process : option AutomationProcessIdentity;
  ar_owner_boot_id : option string;
  ar_scheduled_at : DateTime;
  ar_trigger : AutomationRunTrigger;
  ar_actor_kind : option AutomationActorKind;
  ar_actor_id : option string;
  ar_target_identity : option AutomationTargetIdentity;
  ar_overlap_policy : option AutomationOverlapPolicy;
  ar_precheck : option bool;
  ar_status : AutomationRunStatus;
  ar_summary : option string;
  ar_error : option string;
  ar_rendered_prompt : option string;
  ar_reuse : option AutomationRunReuse;
  ar_workspace_id : option string;
  ar_tab_id : option string;
  ar_setup_tab_id : option string;
  ar_workspace_branch : option string;
  ar_session_id : option string;
  ar_owned_workspace : bool;
  ar_owned_tab : bool;
  ar_taken_over : bool;
  ar_attempt_count : Z;
  ar_started_at : option DateTime;
  ar_last_heartbeat_at : option DateTime;
  ar_absolute_deadline_at : option DateTime;
  ar_waiting_extension_until : option DateTime;
  ar_cancel_requested_at : option DateTime;
  ar_retry_after : option DateTime;
  ar_finished_at : option DateTime;
  ar_created_at : DateTime;
  ar_updated_at : DateTime
}.

Definition with_ar_number (v : Z) (x : AutomationRun) : AutomationRun :=
  MkAutomationRun (ar_id x) (ar_automation_id x) v (ar_occurrence_key x)
    (ar_definition_revision x) (ar_definition_snapshot x) (ar_attempt_id x)
    (ar_native_conversation_id x) (ar_recovery x) (ar_last_activity_at x)
    (ar_continue_from_run_id x) (ar_owner_reserved x) (ar_owner_process x) (ar_owner_boot_id x)
    (ar_scheduled_at x) (ar_trigger x) (ar_actor_kind x) (ar_actor_id x) (ar_target_identity x)
    (ar_overlap_policy x) (ar_precheck x) (ar_status x) (ar_summary x) (ar_error x)
    (ar_rendered_prompt x) (ar_reuse x) (ar_workspace_id x) (ar_tab_id x) (ar_setup_tab_id x)
    (ar_workspace_branch x) (ar_session_id x) (ar_owned_workspace x) (ar_owned_tab x)
    (ar_taken_over x) (ar_attempt_count x) (ar_started_at x) (ar_last_heartbeat_at x)
    (ar_absolute_deadline_at x) (ar_waiting_extension_until x) (ar_cancel_requested_at x)
    (ar_retry_after x) (ar_finished_at x) (ar_created_at x) (ar_updated_at x).
Definition with_ar_scheduled_at (v : DateTime) (x : AutomationRun) : AutomationRun :=
  MkAutomationRun (ar_id x) (ar_automation_id x) (ar_number x) (ar_occurrence_key x)
    (ar_definition_revision x) (ar_definition_snapshot x) (ar_attempt_id x)
    (ar_native_conversation_id x) (ar_recovery x) (ar_last_activity_at x)
    (ar_continue_from_run_id x) (ar_owner_reserved x) (ar_owner_process x) (ar_owner_boot_id x) v
    (ar_trigger x) (ar_actor_kind x) (ar_actor_id x) (ar_target_identity x) (ar_overlap_policy x)
    (ar_precheck x) (ar_status x) (ar_summary x) (ar_error x) (ar_rendered_prompt x) (ar_reuse x)
    (ar_workspace_id x) (ar_tab_id x) (ar_setup_tab_id x) (ar_workspace_branch x)
    (ar_session_id x) (ar_owned_workspace x) (ar_owned_tab x) (ar_taken_over x)
    (ar_attempt_count x) (ar_started_at x) (ar_last_heartbeat_at x) (ar_absolute_deadline_at x)
    (ar_waiting_extension_until x) (ar_cancel_requested_at x) (ar_retry_after x)
    (ar_finished_at x) (ar_created_at x) (ar_updated_at x).
Definition with_ar_created_at (v : DateTime) (x : AutomationRun) : AutomationRun :=
  MkAutomationRun (ar_id x) (ar_automation_id x) (ar_number x) (ar_occurrence_key x)
    (ar_definition_revision x) (ar_definition_snapshot x) (ar_attempt_id x)
    (ar_native_conversation_id x) (ar_recovery x) (ar_last_activity_at x)
    (ar_continue_from_run_id x) (ar_owner_reserved x) (ar_owner_process x) (ar_owner_boot_id x)
    (ar_scheduled_at x) (ar_trigger x) (ar_actor_kind x) (ar_actor_id x) (ar_target_identity x)
    (ar_overlap_policy x) (ar_precheck x) (ar_status x) (ar_summary x) (ar_error x)
    (ar_rendered_prompt x) (ar_reuse x) (ar_workspace_id x) (ar_tab_id x) (ar_setup_tab_id x)
    (ar_workspace_branch x) (ar_session_id x) (ar_owned_workspace x) (ar_owned_tab x)
    (ar_taken_over x) (ar_attempt_count x) (ar_started_at x) (ar_last_heartbeat_at x)
    (ar_absolute_deadline_at x) (ar_waiting_extension_until x) (ar_cancel_requested_at x)
    (ar_retry_after x) (ar_finished_at x) v (ar_updated_at x).
Definition with_ar_attempt_id (v : option string) (x : AutomationRun) : AutomationRun :=
  MkAutomationRun (ar_id x) (ar_automation_id x) (ar_number x) (ar_occurrence_key x)
    (ar_definition_revision x) (ar_definition_snapshot x) v (ar_native_conversation_id x)
    (ar_recovery x) (ar_last_activity_at x) (ar_continue_from_run_id x) (ar_owner_reserved x)
    (ar_owner_process x) (ar_owner_boot_id x) (ar_scheduled_at x) (ar_trigger x) (ar_actor_kind x)
    (ar_actor_id x) (ar_target_identity x) (ar_overlap_policy x) (ar_precheck x) (ar_status x)
    (ar_summary x) (ar_error x) (ar_rendered_prompt x) (ar_reuse x) (ar_workspace_id x)
    (ar_tab_id x) (ar_setup_tab_id x) (ar_workspace_branch x) (ar_session_id x)
    (ar_owned_workspace x) (ar_owned_tab x) (ar_taken_over x) (ar_attempt_count x)
    (ar_started_at x) (ar_last_heartbeat_at x) (ar_absolute_deadline_at x)
    (ar_waiting_extension_until x) (ar_cancel_requested_at x) (ar_retry_after x)
    (ar_finished_at x) (ar_created_at x) (ar_updated_at x).
Definition with_ar_owner_process (v : option AutomationProcessIdentity) (x : AutomationRun) : AutomationRun :=
  MkAutomationRun (ar_id x) (ar_automation_id x) (ar_number x) (ar_occurrence_key x)
    (ar_definition_revision x) (ar_definition_snapshot x) (ar_attempt_id x)
    (ar_native_conversation_id x) (ar_recovery x) (ar_last_activity_at x)
    (ar_continue_from_run_id x) (ar_owner_reserved x) v (ar_owner_boot_id x) (ar_scheduled_at x)
    (ar_trigger x) (ar_actor_kind x) (ar_actor_id x) (ar_target_identity x) (ar_overlap_policy x)
    (ar_precheck x) (ar_status x) (ar_summary x) (ar_error x) (ar_rendered_prompt x) (ar_reuse x)
    (ar_workspace_id x) (ar_tab_id x) (ar_setup_tab_id x) (ar_workspace_branch x)
    (ar_session_id x) (ar_owned_workspace x) (ar_owned_tab x) (ar_taken_over x)
    (ar_attempt_count x) (ar_started_at x) (ar_last_heartbeat_at x) (ar_absolute_deadline_at x)
    (ar_waiting_extension_until x) (ar_cancel_requested_at x) (ar_retry_after x)
    (ar_finished_at x) (ar_created_at x) (ar_updated_at x).
Definition with_ar_owner_boot_id (v : option string) (x : AutomationRun) : AutomationRun :=
  MkAutomationRun (ar_id x) (ar_automation_id x) (ar_number x) (ar_occurrence_key x)
    (ar_definition_revision x) (ar_definition_snapshot x) (ar_attempt_id x)
    (ar_native_conversation_id x) (ar_recovery x) (ar_last_activity_at x)
    (ar_continue_from_run_id x) (ar_owner_reserved x) (ar_owner_process x) v (ar_scheduled_at x)
    (ar_trigger x) (ar_actor_kind x) (ar_actor_id x) (ar_target_identity x) (ar_overlap_policy x)
    (ar_precheck x) (ar_status x) (ar_summary x) (ar_error x) (ar_rendered_prompt x) (ar_reuse x)
    (ar_workspace_id x) (ar_tab_id x) (ar_setup_tab_id x) (ar_workspace_branch x)
    (ar_session_id x) (ar_owned_workspace x) (ar_owned_tab x) (ar_taken_over x)
    (ar_attempt_count x) (ar_started_at x) (ar_last_heartbeat_at x) (ar_absolute_deadline_at x)
    (ar_waiting_extension_until x) (ar_cancel_requested_at x) (ar_retry_after x)
    (ar_finished_at x) (ar_created_at x) (ar_updated_at x).
Definition with_ar_attempt_count (v : Z) (x : AutomationRun) : AutomationRun :=
  MkAutomationRun (ar_id x) (ar_automation_id x) (ar_number x) (ar_occurrence_key x)
    (ar_definition_revision x) (ar_definition_snapshot x) (ar_attempt_id x)
    (ar_native_conversation_id x) (ar_recovery x) (ar_last_activity_at x)
    (ar_continue_from_run_id x) (ar_owner_reserved x) (ar_owner_process x) (ar_owner_boot_id x)
    (ar_scheduled_at x) (ar_trigger x) (ar_actor_kind x) (ar_actor_id x) (ar_target_identity x)
    (ar_overlap_policy x) (ar_precheck x) (ar_status x) (ar_summary x) (ar_error x)
    (ar_rendered_prompt x) (ar_reuse x) (ar_workspace_id x) (ar_tab_id x) (ar_setup_tab_id x)
    (ar_workspace_branch x) (ar_session_id x) (ar_owned_workspace x) (ar_owned_tab x)
    (ar_taken_over x) v (ar_started_at x) (ar_last_heartbeat_at x) (ar_absolute_deadline_at x)
    (ar_waiting_extension_until x) (ar_cancel_requested_at x) (ar_retry_after x)
    (ar_finished_at x) (ar_created_at x) (ar_updated_at x).
Definition with_ar_started_at (v : option DateTime) (x : AutomationRun) : AutomationRun :=
  MkAutomationRun (ar_id x) (ar_automation_id x) (ar_number x) (ar_occurrence_key x)
    (ar_definition_revision x) (ar_definition_snapshot x) (ar_attempt_id x)
    (ar_native_conversation_id x) (ar_recovery x) (ar_last_activity_at x)
    (ar_continue_from_run_id x) (ar_owner_reserved x) (ar_owner_process x) (ar_owner_boot_id x)
    (ar_scheduled_at x) (ar_trigger x) (ar_actor_kind x) (ar_actor_id x) (ar_target_identity x)
    (ar_overlap_policy x) (ar_precheck x) (ar_status x) (ar_summary x) (ar_error x)
    (ar_rendered_prompt x) (ar_reuse x) (ar_workspace_id x) (ar_tab_id x) (ar_setup_tab_id x)
    (ar_workspace_branch x) (ar_session_id x) (ar_owned_workspace x) (ar_owned_tab x)
    (ar_taken_over x) (ar_attempt_count x) v (ar_last_heartbeat_at x) (ar_absolute_deadline_at x)
    (ar_waiting_extension_until x) (ar_cancel_requested_at x) (ar_retry_after x)
    (ar_finished_at x) (ar_created_at x) (ar_updated_at x).
Definition with_ar_recovery (v : option AutomationRecovery) (x : AutomationRun) : AutomationRun :=
  MkAutomationRun (ar_id x) (ar_automation_id x) (ar_number x) (ar_occurrence_key x)
    (ar_definition_revision x) (ar_definition_snapshot x) (ar_attempt_id x)
    (ar_native_conversation_id x) v (ar_last_activity_at x) (ar_continue_from_run_id x)
    (ar_owner_reserved x) (ar_owner_process x) (ar_owner_boot_id x) (ar_scheduled_at x)
    (ar_trigger x) (ar_actor_kind x) (ar_actor_id x) (ar_target_identity x) (ar_overlap_policy x)
    (ar_precheck x) (ar_status x) (ar_summary x) (ar_error x) (ar_rendered_prompt x) (ar_reuse x)
    (ar_workspace_id x) (ar_tab_id x) (ar_setup_tab_id x) (ar_workspace_branch x)
    (ar_session_id x) (ar_owned_workspace x) (ar_owned_tab x) (ar_taken_over x)
    (ar_attempt_count x) (ar_started_at x) (ar_last_heartbeat_at x) (ar_absolute_deadline_at x)
    (ar_waiting_extension_until x) (ar_cancel_requested_at x) (ar_retry_after x)
    (ar_finished_at x) (ar_created_at x) (ar_updated_at x).
Definition with_ar_last_activity_at (v : option DateTime) (x : AutomationRun) : AutomationRun :=
  MkAutomationRun (ar_id x) (ar_automation_id x) (ar_number x) (ar_occurrence_key x)
    (ar_definition_revision x) (ar_definition_snapshot x) (ar_attempt_id x)
    (ar_native_conversation_id x) (ar_recovery x) v (ar_continue_from_run_id x)
    (ar_owner_reserved x) (ar_owner_process x) (ar_owner_boot_id x) (ar_scheduled_at x)
    (ar_trigger x) (ar_actor_kind x) (ar_actor_id x) (ar_target_identity x) (ar_overlap_policy x)
    (ar_precheck x) (ar_status x) (ar_summary x) (ar_error x) (ar_rendered_prompt x) (ar_reuse x)
    (ar_workspace_id x) (ar_tab_id x) (ar_setup_tab_id x) (ar_workspace_branch x)
    (ar_session_id x) (ar_owned_workspace x) (ar_owned_tab x) (ar_taken_over x)
    (ar_attempt_count x) (ar_started_at x) (ar_last_heartbeat_at x) (ar_absolute_deadline_at x)
    (ar_waiting_extension_until x) (ar_cancel_requested_at x) (ar_retry_after x)
    (ar_finished_at x) (ar_created_at x) (ar_updated_at x).
Definition with_ar_status (v : AutomationRunStatus) (x : AutomationRun) : AutomationRun :=
  MkAutomationRun (ar_id x) (ar_automation_id x) (ar_number x) (ar_occurrence_key x)
    (ar_definition_revision x) (ar_definition_snapshot x) (ar_attempt_id x)
    (ar_native_conversation_id x) (ar_recovery x) (ar_last_activity_at x)
    (ar_continue_from_run_id x) (ar_owner_reserved x) (ar_owner_process x) (ar_owner_boot_id x)
    (ar_scheduled_at x) (ar_trigger x) (ar_actor_kind x) (ar_actor_id x) (ar_target_identity x)
    (ar_overlap_policy x) (ar_precheck x) v (ar_summary x) (ar_error x) (ar_rendered_prompt x)
    (ar_reuse x) (ar_workspace_id x) (ar_tab_id x) (ar_setup_tab_id x) (ar_workspace_branch x)
    (ar_session_id x) (ar_owned_workspace x) (ar_owned_tab x) (ar_taken_over x)
    (ar_attempt_count x) (ar_started_at x) (ar_last_heartbeat_at x) (ar_absolute_deadline_at x)
    (ar_waiting_extension_until x) (ar_cancel_requested_at x) (ar_retry_after x)
    (ar_finished_at x) (ar_created_at x) (ar_updated_at x).
Definition with_ar_summary (v : option string) (x : AutomationRun) : AutomationRun :=
  MkAutomationRun (ar_id x) (ar_automation_id x) (ar_number x) (ar_occurrence_key x)
    (ar_definition_revision x) (ar_definition_snapshot x) (ar_attempt_id x)
    (ar_native_conversation_id x) (ar_recovery x) (ar_last_activity_at x)
    (ar_continue_from_run_id x) (ar_owner_reserved x) (ar_owner_process x) (ar_owner_boot_id x)
    (ar_scheduled_at x) (ar_trigger x) (ar_actor_kind x) (ar_actor_id x) (ar_target_identity x)
    (ar_overlap_policy x) (ar_precheck x) (ar_status x) v (ar_error x) (ar_rendered_prompt x)
    (ar_reuse x) (ar_workspace_id x) (ar_tab_id x) (ar_setup_tab_id x) (ar_workspace_branch x)
    (ar_session_id x) (ar_owned_workspace x) (ar_owned_tab x) (ar_taken_over x)
    (ar_attempt_count x) (ar_started_at x) (ar_last_heartbeat_at x) (ar_absolute_deadline_at x)
    (ar_waiting_extension_until x) (ar_cancel_requested_at x) (ar_retry_after x)
    (ar_finished_at x) (ar_created_at x) (ar_updated_at x).
Definition with_ar_error (v : option string) (x : AutomationRun) : AutomationRun :=
  MkAutomationRun (ar_id x) (ar_automation_id x) (ar_number x) (ar_occurrence_key x)
    (ar_definition_revision x) (ar_definition_snapshot x) (ar_attempt_id x)
    (ar_native_conversation_id x) (ar_recovery x) (ar_last_activity_at x)
    (ar_continue_from_run_id x) (ar_owner_reserved x) (ar_owner_process x) (ar_owner_boot_id x)
    (ar_scheduled_at x) (ar_trigger x) (ar_actor_kind x) (ar_actor_id x) (ar_target_identity x)
    (ar_overlap_policy x) (ar_precheck x) (ar_status x) (ar_summary x) v (ar_rendered_prompt x)
    (ar_reuse x) (ar_workspace_id x) (ar_tab_id x) (ar_setup_tab_id x) (ar_workspace_branch x)
    (ar_session_id x) (ar_owned_workspace x) (ar_owned_tab x) (ar_taken_over x)
    (ar_attempt_count x) (ar_started_at x) (ar_last_heartbeat_at x) (ar_absolute_deadline_at x)
    (ar_waiting_extension_until x) (ar_cancel_requested_at x) (ar_retry_after x)
    (ar_finished_at x) (ar_created_at x) (ar_updated_at x).
Definition with_ar_taken_over (v : bool) (x : AutomationRun) : AutomationRun :=
  MkAutomationRun (ar_id x) (ar_automation_id x) (ar_number x) (ar_occurrence_key x)
    (ar_definition_revision x) (ar_definition_snapshot x) (ar_attempt_id x)
    (ar_native_conversation_id x) (ar_recovery x) (ar_last_activity_at x)
    (ar_continue_from_run_id x) (ar_owner_reserved x) (ar_owner_process x) (ar_owner_boot_id x)
    (ar_scheduled_at x) (ar_trigger x) (ar_actor_kind x) (ar_actor_id x) (ar_target_identity x)
    (ar_overlap_policy x) (ar_precheck x) (ar_status x) (ar_summary x) (ar_error x)
    (ar_rendered_prompt x) (ar_reuse x) (ar_workspace_id x) (ar_tab_id x) (ar_setup_tab_id x)
    (ar_workspace_branch x) (ar_session_id x) (ar_owned_workspace x) (ar_owned_tab x) v
    (ar_attempt_count x) (ar_started_at x) (ar_last_heartbeat_at x) (ar_absolute_deadline_at x)
    (ar_waiting_extension_until x) (ar_cancel_requested_at x) (ar_retry_after x)
    (ar_finished_at x) (ar_created_at x) (ar_updated_at x).
Definition with_ar_last_heartbeat_at (v : option DateTime) (x : AutomationRun) : AutomationRun :=
  MkAutomationRun (ar_id x) (ar_automation_id x) (ar_number x) (ar_occurrence_key x)
    (ar_definition_revision x) (ar_definition_snapshot x) (ar_attempt_id x)
    (ar_native_conversation_id x) (ar_recovery x) (ar_last_activity_at x)
    (ar_continue_from_run_id x) (ar_owner_reserved x) (ar_owner_process x) (ar_owner_boot_id x)
    (ar_scheduled_at x) (ar_trigger x) (ar_actor_kind x) (ar_actor_id x) (ar_target_identity x)
    (ar_overlap_policy x) (ar_precheck x) (ar_status x) (ar_summary x) (ar_error x)
    (ar_rendered_prompt x) (ar_reuse x) (ar_workspace_id x) (ar_tab_id x) (ar_setup_tab_id x)
    (ar_workspace_branch x) (ar_session_id x) (ar_owned_workspace x) (ar_owned_tab x)
    (ar_taken_over x) (ar_attempt_count x) (ar_started_at x) v (ar_absolute_deadline_at x)
    (ar_waiting_extension_until x) (ar_cancel_requested_at x) (ar_retry_after x)
    (ar_finished_at x) (ar_created_at x) (ar_updated_at x).
Definition with_ar_absolute_deadline_at (v : option DateTime) (x : AutomationRun) : AutomationRun :=
  MkAutomationRun (ar_id x) (ar_automation_id x) (ar_number x) (ar_occurrence_key x)
    (ar_definition_revision x) (ar_definition_snapshot x) (ar_attempt_id x)
    (ar_native_conversation_id x) (ar_recovery x) (ar_last_activity_at x)
    (ar_continue_from_run_id x) (ar_owner_reserved x) (ar_owner_process x) (ar_owner_boot_id x)
    (ar_scheduled_at x) (ar_trigger x) (ar_actor_kind x) (ar_actor_id x) (ar_target_identity x)
    (ar_overlap_policy x) (ar_precheck x) (ar_status x) (ar_summary x) (ar_error x)
    (ar_rendered_prompt x) (ar_reuse x) (ar_workspace_id x) (ar_tab_id x) (ar_setup_tab_id x)
    (ar_workspace_branch x) (ar_session_id x) (ar_owned_workspace x) (ar_owned_tab x)
    (ar_taken_over x) (ar_attempt_count x) (ar_started_at x) (ar_last_heartbeat_at x) v
    (ar_waiting_extension_until x) (ar_cancel_requested_at x) (ar_retry_after x)
    (ar_finished_at x) (ar_created_at x) (ar_updated_at x).
Definition with_ar_waiting_extension_until (v : option DateTime) (x : AutomationRun) : AutomationRun :=
  MkAutomationRun (ar_id x) (ar_automation_id x) (ar_number x) (ar_occurrence_key x)
    (ar_definition_revision x) (ar_definition_snapshot x) (ar_attempt_id x)
    (ar_native_conversation_id x) (ar_recovery x) (ar_last_activity_at x)
    (ar_continue_from_run_id x) (ar_owner_reserved x) (ar_owner_process x) (ar_owner_boot_id x)
    (ar_scheduled_at x) (ar_trigger x) (ar_actor_kind x) (ar_actor_id x) (ar_target_identity x)
    (ar_overlap_policy x) (ar_precheck x) (ar_status x) (ar_summary x) (ar_error x)
    (ar_rendered_prompt x) (ar_reuse x) (ar_workspace_id x) (ar_tab_id x) (ar_setup_tab_id x)
    (ar_workspace_branch x) (ar_session_id x) (ar_owned_workspace x) (ar_owned_tab x)
    (ar_taken_over x) (ar_attempt_count x) (ar_started_at x) (ar_last_heartbeat_at x)
    (ar_absolute_deadline_at x) v (ar_cancel_requested_at x) (ar_retry_after x) (ar_finished_at x)
    (ar_created_at x) (ar_updated_at x).
Definition with_ar_cancel_requested_at (v : option DateTime) (x : AutomationRun) : AutomationRun :=
  MkAutomationRun (ar_id x) (ar_automation_id x) (ar_number x) (ar_occurrence_key x)
    (ar_definition_revision x) (ar_definition_snapshot x) (ar_attempt_id x)
    (ar_native_conversation_id x) (ar_recovery x) (ar_last_activity_at x)
    (ar_continue_from_run_id x) (ar_owner_reserved x) (ar_owner_process x) (ar_owner_boot_id x)
    (ar_scheduled_at x) (ar_trigger x) (ar_actor_kind x) (ar_actor_id x) (ar_target_identity x)
    (ar_overlap_policy x) (ar_precheck x) (ar_status x) (ar_summary x) (ar_error x)
    (ar_rendered_prompt x) (ar_reuse x) (ar_workspace_id x) (ar_tab_id x) (ar_setup_tab_id x)
    (ar_workspace_branch x) (ar_session_id x) (ar_owned_workspace x) (ar_owned_tab x)
    (ar_taken_over x) (ar_attempt_count x) (ar_started_at x) (ar_last_heartbeat_at x)
    (ar_absolute_deadline_at x) (ar_waiting_extension_until x) v (ar_retry_after x)
    (ar_finished_at x) (ar_created_at x) (ar_updated_at x).
Definition with_ar_target_identity (v : option AutomationTargetIdentity) (x : AutomationRun) : AutomationRun :=
  MkAutomationRun (ar_id x) (ar_automation_id x) (ar_number x) (ar_occurrence_key x)
    (ar_definition_revision x) (ar_definition_snapshot x) (ar_attempt_id x)
    (ar_native_conversation_id x) (ar_recovery x) (ar_last_activity_at x) (ar_continue_from_run_id
    x) (ar_owner_reserved x) (ar_owner_process x) (ar_owner_boot_id x) (ar_scheduled_at x)
    (ar_trigger x) (ar_actor_kind x) (ar_actor_id x) v (ar_overlap_policy x) (ar_precheck x)
    (ar_status x) (ar_summary x) (ar_error x) (ar_rendered_prompt x) (ar_reuse x) (ar_workspace_id
    x) (ar_tab_id x) (ar_setup_tab_id x) (ar_workspace_branch x) (ar_session_id x)
    (ar_owned_workspace x) (ar_owned_tab x) (ar_taken_over x) (ar_attempt_count x) (ar_started_at x)
    (ar_last_heartbeat_at x) (ar_absolute_deadline_at x) (ar_waiting_extension_until x)
    (ar_cancel_requested_at x) (ar_retry_after x) (ar_finished_at x) (ar_created_at x)
    (ar_updated_at x).

Definition with_ar_retry_after (v : option DateTime) (x : AutomationRun) : AutomationRun :=
  MkAutomationRun (ar_id x) (ar_automation_id x) (ar_number x) (ar_occurrence_key x)
    (ar_definition_revision x) (ar_definition_snapshot x) (ar_attempt_id x)
    (ar_native_conversation_id x) (ar_recovery x) (ar_last_activity_at x)
    (ar_continue_from_run_id x) (ar_owner_reserved x) (ar_owner_process x) (ar_owner_boot_id x)
    (ar_scheduled_at x) (ar_trigger x) (ar_actor_kind x) (ar_actor_id x) (ar_target_identity x)
    (ar_overlap_policy x) (ar_precheck x) (ar_status x) (ar_summary x) (ar_error x)
    (ar_rendered_prompt x) (ar_reuse x) (ar_workspace_id x) (ar_tab_id x) (ar_setup_tab_id x)
    (ar_workspace_branch x) (ar_session_id x) (ar_owned_workspace x) (ar_owned_tab x)
    (ar_taken_over x) (ar_attempt_count x) (ar_started_at x) (ar_last_heartbeat_at x)
    (ar_absolute_deadline_at x) (ar_waiting_extension_until x) (ar_cancel_requested_at x) v
    (ar_finished_at x) (ar_created_at x) (ar_updated_at x).
Definition with_ar_finished_at (v : option DateTime) (x : AutomationRun) : AutomationRun :=
  MkAutomationRun (ar_id x) (ar_automation_id x) (ar_number x) (ar_occurrence_key x)
    (ar_definition_revision x) (ar_definition_snapshot x) (ar_attempt_id x)
    (ar_native_conversation_id x) (ar_recovery x) (ar_last_activity_at x)
    (ar_continue_from_run_id x) (ar_owner_reserved x) (ar_owner_process x) (ar_owner_boot_id x)
    (ar_scheduled_at x) (ar_trigger x) (ar_actor_kind x) (ar_actor_id x) (ar_target_identity x)
    (ar_overlap_policy x) (ar_precheck x) (ar_status x) (ar_summary x) (ar_error x)
    (ar_rendered_prompt x) (ar_reuse x) (ar_workspace_id x) (ar_tab_id x) (ar_setup_tab_id x)
    (ar_workspace_branch x) (ar_session_id x) (ar_owned_workspace x) (ar_owned_tab x)
    (ar_taken_over x) (ar_attempt_count x) (ar_started_at x) (ar_last_heartbeat_at x)
    (ar_absolute_deadline_at x) (ar_waiting_extension_until x) (ar_cancel_requested_at x)
    (ar_retry_after x) v (ar_created_at x) (ar_updated_at x).
Definition with_ar_updated_at (v : DateTime) (x : AutomationRun) : AutomationRun :=
  MkAutomationRun (ar_id x) (ar_automation_id x) (ar_number x) (ar_occurrence_key x)
    (ar_definition_revision x) (ar_definition_snapshot x) (ar_attempt_id x)
    (ar_native_conversation_id x) (ar_recovery x) (ar_last_activity_at x)
    (ar_continue_from_run_id x) (ar_owner_reserved x) (ar_owner_process x) (ar_owner_boot_id x)
    (ar_scheduled_at x) (ar_trigger x) (ar_actor_kind x) (ar_actor_id x) (ar_target_identity x)
    (ar_overlap_policy x) (ar_precheck x) (ar_status x) (ar_summary x) (ar_error x)
    (ar_rendered_prompt x) (ar_reuse x) (ar_workspace_id x) (ar_tab_id x) (ar_setup_tab_id x)
    (ar_workspace_branch x) (ar_session_id x) (ar_owned_workspace x) (ar_owned_tab x)
    (ar_taken_over x) (ar_attempt_count x) (ar_started_at x) (ar_last_heartbeat_at x)
    (ar_absolute_deadline_at x) (ar_waiting_extension_until x) (ar_cancel_requested_at x)
    (ar_retry_after x) (ar_finished_at x) (ar_created_at x) v.

(** One attempt of a run. *)
Record AutomationAttempt : Type := MkAutomationAttempt {
  at_id : string;
  at_run_id : string;
  at_number : Z;
  at_launch_kind : option string;
  at_session_id : option string;
  at_tab_id : option string;
  at_interruption_code : option string;
  at_last_activity_at : option DateTime;
  at_status : AutomationRunStatus;
  at_error : option string;
  at_started_at : DateTime;
  at_finished_at : option DateTime
}.

Definition with_at_session_id (v : option string) (x : AutomationAttempt) : AutomationAttempt :=
  MkAutomationAttempt (at_id x) (at_run_id x) (at_number x) (at_launch_kind x) v (at_tab_id x)
    (at_interruption_code x) (at_last_activity_at x) (at_status x) (at_error x) (at_started_at x)
    (at_finished_at x).
Definition with_at_tab_id (v : option string) (x : AutomationAttempt) : AutomationAttempt :=
  MkAutomationAttempt (at_id x) (at_run_id x) (at_number x) (at_launch_kind x) (at_session_id x) v
    (at_interruption_code x) (at_last_activity_at x) (at_status x) (at_error x) (at_started_at x)
    (at_finished_at x).
Definition with_at_launch_kind (v : option string) (x : AutomationAttempt) : AutomationAttempt :=
  MkAutomationAttempt (at_id x) (at_run_id x) (at_number x) v (at_session_id x) (at_tab_id x)
    (at_interruption_code x) (at_last_activity_at x) (at_status x) (at_error x) (at_started_at x)
    (at_finished_at x).
Definition with_at_last_activity_at (v : option DateTime) (x : AutomationAttempt) : AutomationAttempt :=
  MkAutomationAttempt (at_id x) (at_run_id x) (at_number x) (at_launch_kind x) (at_session_id x)
    (at_tab_id x) (at_interruption_code x) v (at_status x) (at_error x) (at_started_at x)
    (at_finished_at x).
Definition with_at_status (v : AutomationRunStatus) (x : AutomationAttempt) : AutomationAttempt :=
  MkAutomationAttempt (at_id x) (at_run_id x) (at_number x) (at_launch_kind x) (at_session_id x)
    (at_tab_id x) (at_interruption_code x) (at_last_activity_at x) v (at_error x)
    (at_started_at x) (at_finished_at x).
Definition with_at_error (v : option string) (x : AutomationAttempt) : AutomationAttempt :=
  MkAutomationAttempt (at_id x) (at_run_id x) (at_number x) (at_launch_kind x) (at_session_id x)
    (at_tab_id x) (at_interruption_code x) (at_last_activity_at x) (at_status x) v
    (at_started_at x) (at_finished_at x).
Definition with_at_finished_at (v : option DateTime) (x : AutomationAttempt) : AutomationAttempt :=
  MkAutomationAttempt (at_id x) (at_run_id x) (at_number x) (at_launch_kind x) (at_session_id x)
    (at_tab_id x) (at_interruption_code x) (at_last_activity_at x) (at_status x) (at_error x)
    (at_started_at x) v.

(** A moment at which a schedule fires. *)
Record AutomationOccurrence : Type := MkAutomationOccurrence {
  ao_automation_id : string;
  ao_key : string;
  ao_scheduled_at : DateTime;
  ao_local_time : string
}.


(** ** Functions on records *)

Definition max_instant (a b : option DateTime) : option DateTime :=
  match a, b with
  | Some x, Some y => Some (Z.max x y)
  | Some x, None => Some x
  | None, b => b
  end.

(** The latest of the three signals of life. *)
Definition inactivity_reference (run : AutomationRun) : option DateTime :=
  max_instant (ar_started_at run) (max_instant (ar_last_heartbeat_at run) (ar_last_activity_at run)).

Definition second : Z := 1000000000.

(** [checked_add_signed] is [None] outside the range of dates chrono represents,
    which is a parameter. *)
Definition circuit_reset_at (representable : DateTime → bool) (d : AutomationDefinition)
    : option DateTime :=
  if negb (ad_circuit_opened d) then None
  else
    let at_ := (default (ad_updated_at d) (ad_circuit_opened_at d) + ad_circuit_open_seconds d * second)%Z in
    if representable at_ then Some at_ else None.

Definition circuit_reset_due (representable : DateTime → bool) (d : AutomationDefinition)
    (now : DateTime) : bool :=
  match circuit_reset_at representable d with
  | Some deadline => (deadline <=? now)%Z
  | None => false
  end.

(** What an edit must change to count as material: the text is a JSON array of
    these values, so two texts agree exactly when the values do. *)
Definition material_fingerprint (d : AutomationDefinition) :=
  ((ad_slug d, ad_prompt_template d, ad_project_id d, ad_schedule d, ad_target d),
   (ad_setup_policy d, ad_cleanup_policy d, ad_overlap_policy d, ad_queue_cap d,
    ad_inactivity_timeout_seconds d, ad_heartbeat_interval_seconds d, ad_misfire_grace_seconds d),
   (ad_misfire_policy d, ad_retry_max_attempts d, ad_retry_backoff_seconds d,
    ad_circuit_failure_threshold d, ad_circuit_open_seconds d, ad_precheck d,
    ad_notify_on_success d, ad_reuse_policy d)).

(** ** What the functions guarantee *)

(** Reading back a stored automation state or run status gives the same
    value, and every unknown text reads as a draft or a pending run: a damaged
    row is never taken for an active or finished one. *)
Theorem automation_status_roundtrip :
  (∀ s, AutomationState_from_db (AutomationState_as_str s) = s) ∧
  (∀ s, AutomationRunStatus_from_db (AutomationRunStatus_as_str s) = s) ∧
  (∀ text, (∀ s, AutomationState_as_str s ≠ text) → AutomationState_from_db text = As_Draft) ∧
  (∀ text, (∀ s, AutomationRunStatus_as_str s ≠ text) →
     is_final (AutomationRunStatus_from_db text) = false).
Proof.
  split_and!; try (by intros []); intros text Hne.
  - unfold AutomationState_from_db. repeat case_match; try done;
      match goal with H : String.eqb _ _ = true |- _ => apply String.eqb_eq in H end;
      subst; exfalso; [by apply (Hne As_Active)|by apply (Hne As_Paused)|by apply (Hne As_Blocked)
        |by apply (Hne As_Archived)|by apply (Hne As_Trashed)].
  - destruct (is_final (AutomationRunStatus_from_db text)) eqn:E; [|done]. exfalso.
    apply (Hne (AutomationRunStatus_from_db text)). revert E. unfold AutomationRunStatus_from_db.
    repeat case_match; intros; try done;
      match goal with H : String.eqb _ _ = true |- _ => apply String.eqb_eq in H; by subst end.
Qed.
