(* ===== verification/Schedule.v ===== *)
(** * Schedule: when an automation fires (automation_schedule.rs)

    Cron expressions of five fields, their matching against local time, and
    the search for the next occurrence: minute by minute from the current local
    minute, mapping each matching local time back to an instant, and taking the
    first of two instants when the clock was turned back.

    A local date and time ([NaiveDateTime]) is the number of nanoseconds since
    1970-01-01T00:00 on the local clock.  The calendar, the time zone database
    and text formatting are those of the chrono and chrono-tz crates and enter
    as the class [Chrono]. *)

From S2P Require Import Prelude Text AutomationModels.
From Stdlib Require Import ZArith Lia Ascii String.
From stdpp Require Import strings prelude gmap.

Definition NaiveDateTime : Type := Z.

Inductive LocalResult : Type :=
| LocalNone
| LocalSingle (value : DateTime)
| LocalAmbiguous (first second : DateTime).

Class Chrono : Type := {
  Tz : Type;
  tz_from_str : string → option Tz;               (** [Tz::from_str] *)
  naive_local : Tz → DateTime → NaiveDateTime;    (** [with_timezone(tz).naive_local()] *)
  from_local_datetime : Tz → NaiveDateTime → LocalResult;
  nd_minute : NaiveDateTime → Z;
  nd_hour : NaiveDateTime → Z;
  nd_day : NaiveDateTime → Z;
  nd_month : NaiveDateTime → Z;
  nd_weekday : NaiveDateTime → Z;                 (** [weekday().num_days_from_sunday()] *)
  format_minute : NaiveDateTime → string;         (** [format("%Y-%m-%dT%H:%M")] *)
  to_rfc3339 : DateTime → string
}.

(** ** Numbers *)

Definition digit_value (c : ascii) : option Z :=
  let n := byte_val c in
  if ((48 <=? n) && (n <=? 57))%N%bool then Some (Z.of_N n - 48)%Z else None.

Fixpoint digits_value (acc : Z) (s : string) : option Z :=
  match s with
  | EmptyString => Some acc
  | String c s => match digit_value c with
                  | Some d => digits_value (acc * 10 + d)%Z s
                  | None => None
                  end
  end.

Definition u32_max : Z := 4294967295.

(** [str::parse::<u32>]: digits, with one leading [+] allowed. *)
Definition parse_u32 (s : string) : option Z :=
  let body := match s with String "+" s => s | _ => s end in
  match body with
  | EmptyString => None
  | _ => match digits_value 0 body with
         | Some v => if (v <=? u32_max)%Z then Some v else None
         | None => None
         end
  end.

(** [str::split_whitespace] *)
Fixpoint split_words (word : list string) (l : list string) : list (list string) :=
  match l with
  | [] => match word with [] => [] | _ => [word] end
  | c :: l => if is_whitespace c
              then match word with [] => split_words [] l | _ => word :: split_words [] l end
              else split_words (word ++ [c]) l
  end.
Definition split_whitespace (s : string) : list string := of_chars <$> split_words [] (chars s).

(** [str::split_once] *)
Fixpoint split_once (sep : ascii) (s : string) : option (string * string) :=
  match s with
  | EmptyString => None
  | String c s => if Ascii.eqb c sep then Some ("", s)
                  else match split_once sep s with
                       | Some (a, b) => Some (String c a, b)
                       | None => None
                       end
  end.

(** ** Cron fields *)

Record CronField : Type := MkCronField { cf_values : gset Z; cf_min : Z; cf_max : Z }.

Record CronExpression : Type := MkCronExpression {
  ce_minute : CronField;
  ce_hour : CronField;
  ce_day_of_month : CronField;
  ce_month : CronField;
  ce_day_of_week : CronField;
  ce_day_of_month_restricted : bool;
  ce_day_of_week_restricted : bool
}.

Definition parse_cron_number (raw : string) (names : option (list (string * Z))) (field : string)
    : Result Z :=
  match default [] names ≫= λ e, if String.eqb e.1 (to_ascii_uppercase raw) then [e.2] else [] with
  | value :: _ => Ok value
  | [] => match parse_u32 raw with
          | Some v => Ok v
          | None => Err (Bail ("invalid cron " +:+ field +:+ " value"))
          end
  end.

(** The start, end and step one comma-separated part stands for. *)
Definition parse_part (raw : string) (min max : Z) (field : string)
    (names : option (list (string * Z))) : Result (Z * Z * Z) :=
  let part := trim raw in
  if String.eqb part "" then Err (Bail ("invalid cron " +:+ field))
  else
    let bad_step := Err (Bail ("invalid cron " +:+ field +:+ " step")) in
    match split_on "/" part with
    | [] => bad_step
    | range :: rest =>
        match (match rest with
               | [] => Some 1%Z
               | [value] => parse_u32 value
               | _ => None
               end) with
        | None => bad_step
        | Some step =>
            if (step =? 0)%Z then bad_step
            else
              try! bounds :=
                (if String.eqb range "*" then Ok (min, max)
                 else match split_once "-" range with
                      | Some (a, b) =>
                          try! start := parse_cron_number a names field in
                          try! end_ := parse_cron_number b names field in
                          Ok (start, end_)
                      | None => try! value := parse_cron_number range names field in
                                Ok (value, value)
                      end) in
              if ((bounds.1 <? min) || (max <? bounds.2) || (bounds.2 <? bounds.1))%Z
              then Err (Bail ("invalid cron " +:+ field +:+ " range"))
              else Ok (bounds.1, bounds.2, step)
        end
    end.

(** The inner loop: every [step]-th value of the range is inserted. *)
Fixpoint expand (fuel : nat) (normalize : Z → Z) (value end_ step : Z) (values : gset Z)
    : option (gset Z) :=
  match fuel with
  | O => None
  | S fuel =>
      let values := {[normalize value]} ∪ values in
      if (end_ - value <? step)%Z then Some values
      else expand fuel normalize (value + step)%Z end_ step values
  end.

Fixpoint parse_parts (parts : list string) (min max : Z) (field : string)
    (names : option (list (string * Z))) (normalize : Z → Z) (values : gset Z) : Result (gset Z) :=
  match parts with
  | [] => Ok values
  | part :: parts =>
      try! r := parse_part part min max field names in
      let '(start, end_, step) := r in
      match expand (S (Z.to_nat (end_ - start))) normalize start end_ step values with
      | Some values => parse_parts parts min max field names normalize values
      | None => Err (Bail "out of fuel")
      end
  end.

Definition CronField_parse (raw : string) (min max : Z) (field : string)
    (names : option (list (string * Z))) (normalize : option (Z → Z)) : Result CronField :=
  try! values := parse_parts (split_on "," raw) min max field names (default id normalize) ∅ in
  if bool_decide (values = ∅) then Err (Bail ("invalid cron " +:+ field))
  else Ok (MkCronField values min max).

Definition CronField_matches (f : CronField) (value : Z) : bool :=
  (cf_min f <=? value)%Z && (value <=? cf_max f)%Z && bool_decide (value ∈ cf_values f).

Definition is_unrestricted (f : CronField) : bool :=
  if ((cf_min f =? 0) && (cf_max f =? 7))%Z
  then forallb (λ v, bool_decide (v ∈ cf_values f)) [0; 1; 2; 3; 4; 5; 6]%Z
  else (Z.of_nat (size (cf_values f)) =? cf_max f - cf_min f + 1)%Z.

(** ** Cron expressions *)

Definition AUTOMATION_CRON_MAX_BYTES : nat := 2 * 1024.

Definition cron_months : list (string * Z) :=
  [("JAN", 1); ("FEB", 2); ("MAR", 3); ("APR", 4); ("MAY", 5); ("JUN", 6);
   ("JUL", 7); ("AUG", 8); ("SEP", 9); ("OCT", 10); ("NOV", 11); ("DEC", 12)]%Z.
Definition cron_weekdays : list (string * Z) :=
  [("SUN", 0); ("MON", 1); ("TUE", 2); ("WED", 3); ("THU", 4); ("FRI", 5); ("SAT", 6)]%Z.
Definition cron_sunday (value : Z) : Z := if (value =? 7)%Z then 0%Z else value.

Definition parse_expression (expression : string) : Result CronExpression :=
  if Nat.ltb AUTOMATION_CRON_MAX_BYTES (String.length expression)
  then Err (Bail "cron expression is too large")
  else match split_whitespace expression with
       | [minute; hour; day; month; weekday] =>
           try! day_of_month := CronField_parse day 1 31 "day of month" None None in
           try! day_of_week :=
             CronField_parse weekday 0 7 "day of week" (Some cron_weekdays) (Some cron_sunday) in
           try! minute := CronField_parse minute 0 59 "minute" None None in
           try! hour := CronField_parse hour 0 23 "hour" None None in
           try! month := CronField_parse month 1 12 "month" (Some cron_months) None in
           Ok (MkCronExpression minute hour day_of_month month day_of_week
                 (negb (is_unrestricted day_of_month)) (negb (is_unrestricted day_of_week)))
       | _ => Err (Bail "cron schedule must have five fields")
       end.

Section WithChrono.
Context `{Chrono}.

Definition cron_matches (e : CronExpression) (local : NaiveDateTime) : bool :=
  if negb (CronField_matches (ce_minute e) (nd_minute local))
     || negb (CronField_matches (ce_hour e) (nd_hour local))
     || negb (CronField_matches (ce_month e) (nd_month local))
  then false
  else
    let month_day := CronField_matches (ce_day_of_month e) (nd_day local) in
    let week_day := CronField_matches (ce_day_of_week e) (nd_weekday local) in
    match ce_day_of_month_restricted e, ce_day_of_week_restricted e with
    | true, true => month_day || week_day
    | true, false => month_day
    | false, true => week_day
    | false, false => true
    end.

(** ** Occurrences *)

Definition timezone (value : string) : Result Tz :=
  match tz_from_str (trim value) with
  | Some tz => Ok tz
  | None => Err (Bail ("unknown IANA timezone: " +:+ value))
  end.

Definition occurrence_key (zone : string) (local : NaiveDateTime) : string :=
  zone +:+ "|" +:+ format_minute local.

Definition minute : Z := 60 * second.

(** [with_second(0)], [with_nanosecond(0)]. *)
Definition to_minute (local : NaiveDateTime) : NaiveDateTime := (local - local `mod` minute)%Z.

(** The instant a local time stands for; the first when the clock repeats it,
    none when the clock skips it. *)
Definition first_instant (tz : Tz) (local : NaiveDateTime) : option DateTime :=
  match from_local_datetime tz local with
  | LocalNone => None
  | LocalSingle value => Some value
  | LocalAmbiguous first second => Some (Z.min first second)
  end.

Definition MAX_CRON_SCAN_MINUTES : positive := 9 * 366 * 24 * 60.

(** [for offset in i..i+n]: the first offset at which the body returns. *)
Fixpoint scan {A} (body : Z → option A) (n : positive) (i : Z) : option A :=
  match n with
  | xH => body i
  | xO n => match scan body n i with
            | Some a => Some a
            | None => scan body n (i + Zpos n)%Z
            end
  | xI n => match body i with
            | Some a => Some a
            | None => match scan body n (i + 1)%Z with
                      | Some a => Some a
                      | None => scan body n (i + 1 + Zpos n)%Z
                      end
            end
  end.

(** The body of the search at one local time: [None] continues, [Some None]
    ends the schedule, [Some (Some o)] is the occurrence. *)
Definition cron_step (automation_id zone : string) (parsed : CronExpression) (tz : Tz)
    (start_at end_at : option DateTime) (after : DateTime) (local : NaiveDateTime)
    : option (option AutomationOccurrence) :=
  if negb (cron_matches parsed local) then None
  else match first_instant tz local with
       | None => None
       | Some utc =>
           if (utc <=? after)%Z || match start_at with Some s => (utc <? s)%Z | None => false end
           then None
           else if match end_at with Some e => (e <? utc)%Z | None => false end
           then Some None
           else Some (Some (MkAutomationOccurrence automation_id (occurrence_key zone local) utc
                              (format_minute local)))
       end.

Definition next_occurrence (automation_id : string) (schedule : AutomationSchedule)
    (after : DateTime) : Result (option AutomationOccurrence) :=
  match schedule with
  | Sch_OneTime at_ zone =>
      try! _ := timezone zone in
      if (at_ <=? after)%Z then Ok None
      else Ok (Some (MkAutomationOccurrence automation_id ("oneTime|" +:+ to_rfc3339 at_) at_
                       (to_rfc3339 at_)))
  | Sch_Recurring cron zone start_at end_at _ =>
      try! parsed := parse_expression cron in
      try! tz := timezone zone in
      let local_minute := to_minute (naive_local tz after) in
      match scan (λ offset, cron_step automation_id zone parsed tz start_at end_at after
                              (local_minute + offset * minute)%Z)
                 (MAX_CRON_SCAN_MINUTES + 1) 0 with
      | Some found => Ok found
      | None => Err (Bail "cron schedule has no occurrence in the scan window")
      end
  end.

Definition validate_schedule (schedule : AutomationSchedule) : Result unit :=
  match schedule with
  | Sch_OneTime _ zone => try! _ := timezone zone in Ok tt
  | Sch_Recurring cron zone start_at end_at max_scheduled_runs =>
      try! _ := parse_expression cron in
      try! _ := timezone zone in
      if match start_at, end_at with Some s, Some e => (e <=? s)%Z | _, _ => false end
      then Err (Bail "automation schedule start must be before its end")
      else if match max_scheduled_runs with Some v => (v <? 1)%Z | None => false end
      then Err (Bail "max scheduled runs must be positive")
      else Ok tt
  end.

Fixpoint preview_loop (automation_id : string) (schedule : AutomationSchedule) (cursor : DateTime)
    (count : nat) : Result (list AutomationOccurrence) :=
  match count with
  | O => Ok []
  | S count =>
      try! next := next_occurrence automation_id schedule cursor in
      match next with
      | None => Ok []
      | Some o =>
          try! rest := preview_loop automation_id schedule (ao_scheduled_at o) count in
          Ok (o :: rest)
      end
  end.

Definition preview_occurrences (automation_id : string) (schedule : AutomationSchedule)
    (after : DateTime) (count : nat) : Result (list AutomationOccurrence) :=
  try! _ := validate_schedule schedule in
  preview_loop automation_id schedule after count.

End WithChrono.
