(* ===== verification/ScheduleFacts.v ===== *)
(** * ScheduleFacts: cron fields mean what they say, and the next occurrence
    is the earliest one

    [denotes] is the textbook meaning of a comma-separated cron field;
    [eligible] says that a schedule fires at a local time.  The theorems relate
    the parser and the search to them. *)

From S2P Require Import Prelude Text AutomationModels Schedule.
From Stdlib Require Import ZArith Lia Ascii String Sorted.
From stdpp Require Import strings prelude gmap.

Lemma split_on_cons sep s : ∃ p ps, split_on sep s = p :: ps.
Proof. destruct s as [|c s]; cbn; [by eexists _, _|]. repeat case_match; by eexists _, _. Qed.

(** ** Cron fields *)

(** The values of an arithmetic progression. *)
Definition progression (start end_ step v : Z) : Prop :=
  (start ≤ v ≤ end_)%Z ∧ (step | v - start)%Z.

(** A part of a field stands for [v], before normalisation. *)
Definition denotes (min max : Z) (field : string) (names : option (list (string * Z)))
    (part : string) (v : Z) : Prop :=
  ∃ start end_ step, parse_part part min max field names = Ok (start, end_, step) ∧
    progression start end_ step v.

Lemma parse_part_bounds part min max field names start end_ step :
  parse_part part min max field names = Ok (start, end_, step) →
  (min ≤ start ≤ end_ ∧ end_ ≤ max ∧ step ≠ 0)%Z.
Proof.
  unfold parse_part. case_match; [done|]. destruct (split_on "/" (trim part)) as [|range rest]; [done|].
  destruct (match rest with [] => _ | _ => _ end) as [st|]; [|done].
  destruct (Z.eqb_spec st 0); [done|]. intros (bounds & _ & Hb)%rbind_ok_inv.
  destruct (_ || _) eqn:E; [done|]. injection Hb as <- <- <-. apply orb_false_iff in E as [[? ?]%orb_false_iff ?].
  lia.
Qed.

Lemma parse_u32_range s v : parse_u32 s = Some v → (0 ≤ v ≤ u32_max)%Z.
Proof.
  assert (∀ t acc r, (0 ≤ acc)%Z → digits_value acc t = Some r → (0 ≤ r)%Z) as Hd.
  { induction t as [|c t IH]; intros acc r Ha; cbn; [by intros [= <-]|].
    unfold digit_value. destruct (_ && _)%bool eqn:E; [|done]. apply andb_true_iff in E as [E%N.leb_le _].
    apply IH. lia. }
  unfold parse_u32. set (body := match s with String "+" s => s | _ => s end).
  destruct body as [|c b] eqn:E; [done|]. destruct (digits_value 0 (String c b)) as [r|] eqn:Er; [|done].
  destruct (Z.leb_spec r u32_max); [|done]. intros [= <-]. split; [by eapply Hd|lia].
Qed.

Lemma parse_part_step part min max field names start end_ step :
  parse_part part min max field names = Ok (start, end_, step) → (0 < step)%Z.
Proof.
  unfold parse_part. case_match; [done|]. destruct (split_on "/" (trim part)) as [|range rest]; [done|].
  destruct (match rest with [] => _ | _ => _ end) as [st|] eqn:Es; [|done].
  assert (0 ≤ st)%Z as Hst.
  { destruct rest as [|value [|]]; [by injection Es as <-|by apply parse_u32_range in Es as [? _]|done]. }
  destruct (Z.eqb_spec st 0); [done|]. intros (bounds & _ & Hb)%rbind_ok_inv.
  destruct (_ || _); [done|]. injection Hb as _ _ <-. lia.
Qed.

Lemma progression_end start end_ step v :
  (0 < step)%Z → (end_ - start < step)%Z → (start ≤ end_)%Z → progression start end_ step v ↔ v = start.
Proof.
  intros Hs He Hle. split.
  - intros [Hb [k Hk]]. assert (k = 0)%Z as -> by nia. lia.
  - intros ->. split; [lia|]. rewrite Z.sub_diag. apply Z.divide_0_r.
Qed.

Lemma progression_next start end_ step v :
  (0 < step)%Z → (step ≤ end_ - start)%Z →
  progression start end_ step v ↔ v = start ∨ progression (start + step) end_ step v.
Proof.
  intros Hs He. split.
  - intros [Hb [k Hk]]. destruct (Z.eq_dec k 0%Z) as [->|Hne]; [left; lia|]. right.
    split; [nia|]. exists (k - 1)%Z. lia.
  - intros [->|[Hb [k Hk]]]; (split; [lia|]); [exists 0%Z|exists (k + 1)%Z]; lia.
Qed.

(** The loop inserts exactly the values of the progression, never passes the
    end of the range, and the fuel suffices. *)
Lemma expand_spec normalize end_ step fuel value values :
  (0 < step)%Z → (value ≤ end_)%Z → Z.to_nat (end_ - value) < fuel →
  ∃ vs, expand fuel normalize value end_ step values = Some vs ∧
    ∀ v, v ∈ vs ↔ v ∈ values ∨ ∃ v0, progression value end_ step v0 ∧ v = normalize v0.
Proof.
  intros Hs. revert value values. induction fuel as [|fuel IH]; intros value values Hle Hf; [lia|]. cbn.
  destruct (Z.ltb_spec (end_ - value) step) as [Hlt|Hge].
  - eexists. split; [done|]. intros v. rewrite elem_of_union, elem_of_singleton.
    setoid_rewrite (progression_end value end_ step); [|lia..]. naive_solver.
  - destruct (IH (value + step)%Z ({[normalize value]} ∪ values)) as (vs & -> & Hvs); [lia|lia|].
    eexists. split; [done|]. intros v. rewrite Hvs, elem_of_union, elem_of_singleton.
    setoid_rewrite (progression_next value end_ step); [|lia..]. naive_solver.
Qed.

Lemma parse_parts_spec parts min max field names normalize values :
  match parse_parts parts min max field names normalize values with
  | Ok vs => (∀ part, part ∈ parts → is_ok (parse_part part min max field names) = true) ∧
      ∀ v, v ∈ vs ↔ v ∈ values ∨
        ∃ part v0, part ∈ parts ∧ denotes min max field names part v0 ∧ v = normalize v0
  | Err e => ∃ part, part ∈ parts ∧ parse_part part min max field names = Err e
  end.
Proof.
  revert values. induction parts as [|part parts IH]; intros values; cbn [parse_parts].
  - split; [by intros p ?%not_elem_of_nil|]. intros v. split; [by left|].
    intros [?|(p & v0 & ?%not_elem_of_nil & _)]; done.
  - destruct (parse_part part min max field names) as [[[start end_] step]|e] eqn:Ep; cbn [rbind];
      [|by exists part; split; [left|]].
    pose proof (parse_part_bounds _ _ _ _ _ _ _ _ Ep) as Hb. pose proof (parse_part_step _ _ _ _ _ _ _ _ Ep) as Hs.
    destruct (expand_spec normalize end_ step (S (Z.to_nat (end_ - start))) start values)
      as (vs & -> & Hvs); [lia..|].
    specialize (IH vs). destruct (parse_parts parts _ _ _ _ _ vs) as [ws|e].
    + destruct IH as [Hok Hws]. split.
      { intros p [->|Hp]%elem_of_cons; [by rewrite Ep|by apply Hok]. }
      assert (∀ v0, denotes min max field names part v0 ↔ progression start end_ step v0) as Hden.
      { intros v0. unfold denotes. rewrite Ep. naive_solver. }
      intros v. rewrite Hws, Hvs. setoid_rewrite elem_of_cons. split.
      * intros [[?|(v0 & Hv0 & ->)]|(p & v0 & Hp & Hd & ->)]; [by left|right|right].
        -- exists part, v0. split_and!; [by left|by apply Hden|done].
        -- exists p, v0. split_and!; [by right|done|done].
      * intros [?|(p & v0 & [->|Hp] & Hd & ->)]; [by do 2 left| |right; by exists p, v0].
        left. right. exists v0. split; [by apply Hden|done].
    + destruct IH as (p & Hp & He). exists p. split; [by right|done].
Qed.

(** ** The search *)

Lemma scan_spec {A} (body : Z → option A) n i :
  match scan body n i with
  | Some a => ∃ k, (i ≤ k < i + Zpos n)%Z ∧ body k = Some a ∧ ∀ j, (i ≤ j < k)%Z → body j = None
  | None => ∀ k, (i ≤ k < i + Zpos n)%Z → body k = None
  end.
Proof.
  revert i. induction n as [n IH|n IH|]; intros i; cbn [scan].
  - destruct (body i) as [a|] eqn:Ei; [exists i; split; [lia|split; [done|lia]]|].
    pose proof (IH (i + 1)%Z) as H1. destruct (scan body n (i + 1)%Z) as [a|].
    { destruct H1 as (k & Hk & Hb & Hj). exists k. split; [lia|split; [done|]]. intros j Hji.
      destruct (Z.eq_dec j i) as [->|]; [done|apply Hj; lia]. }
    pose proof (IH (i + 1 + Z.pos n)%Z) as H2. destruct (scan body n (i + 1 + Z.pos n)%Z) as [a|].
    + destruct H2 as (k & Hk & Hb & Hj). exists k. split; [lia|split; [done|]]. intros j Hji.
      destruct (Z.eq_dec j i) as [->|]; [done|].
      destruct (Z.lt_ge_cases j (i + 1 + Z.pos n)); [apply H1; lia|apply Hj; lia].
    + intros k Hk. destruct (Z.eq_dec k i) as [->|]; [done|].
      destruct (Z.lt_ge_cases k (i + 1 + Z.pos n)); [apply H1; lia|apply H2; lia].
  - pose proof (IH i) as H1. destruct (scan body n i) as [a|].
    { destruct H1 as (k & Hk & Hb & Hj). exists k. split; [lia|split; [done|done]]. }
    pose proof (IH (i + Z.pos n)%Z) as H2. destruct (scan body n (i + Z.pos n)%Z) as [a|].
    + destruct H2 as (k & Hk & Hb & Hj). exists k. split; [lia|split; [done|]]. intros j Hji.
      destruct (Z.lt_ge_cases j (i + Z.pos n)); [apply H1; lia|apply Hj; lia].
    + intros k Hk. destruct (Z.lt_ge_cases k (i + Z.pos n)); [apply H1; lia|apply H2; lia].
  - destruct (body i) as [a|] eqn:Ei; [exists i; split; [lia|split; [done|lia]]|].
    intros k Hk. by assert (k = i) as -> by lia.
Qed.

(** ** What chrono promises *)

Class ChronoLaws `{Chrono} : Prop := {
  (** A local time maps back to all the instants that show it. *)
  from_local_instants tz local u :
    match from_local_datetime tz local with
    | LocalNone => False
    | LocalSingle v => u = v
    | LocalAmbiguous a b => u = a ∨ u = b
    end ↔ naive_local tz u = local;
  (** Later local times are first shown later: a clock that is turned back
      repeats times it has shown before. *)
  first_instant_mono tz l1 l2 u1 u2 :
    first_instant tz l1 = Some u1 → first_instant tz l2 = Some u2 → (l1 < l2)%Z → (u1 < u2)%Z
}.

Section Occurrences.
Context `{ChronoLaws}.

(** The schedule fires at [u], which the clock first shows as [local], a whole
    minute: the expression matches, and [u] is after [after] and not before the
    schedule's start. *)
Definition eligible (parsed : CronExpression) (tz : Tz) (start_at : option DateTime)
    (after : DateTime) (local : NaiveDateTime) (u : DateTime) : Prop :=
  (minute | local)%Z ∧ cron_matches parsed local = true ∧ first_instant tz local = Some u ∧
  (after < u)%Z ∧ (∀ s, start_at = Some s → s ≤ u)%Z.

Lemma first_instant_local tz local u : first_instant tz local = Some u → naive_local tz u = local.
Proof.
  unfold first_instant. intros Hf. apply from_local_instants.
  destruct (from_local_datetime tz local) as [|v|a b]; [done|by injection Hf as <-|].
  injection Hf as <-. destruct (Z.min_spec a b) as [[_ ->]|[_ ->]]; auto.
Qed.

Lemma first_instant_le tz u : ∃ v, first_instant tz (naive_local tz u) = Some v ∧ (v ≤ u)%Z.
Proof.
  pose proof (proj2 (from_local_instants tz (naive_local tz u) u) eq_refl) as Hu.
  unfold first_instant. destruct (from_local_datetime tz _) as [|v|a b]; [done| |].
  - exists v. split; [done|]. lia.
  - eexists. split; [done|]. lia.
Qed.

Lemma to_minute_divides local : (minute | to_minute local)%Z.
Proof.
  unfold to_minute. exists (local `div` minute)%Z. pose proof (Z.div_mod local minute) as Hd.
  unfold minute, second in *. lia.
Qed.

Lemma to_minute_le local : (to_minute local ≤ local)%Z.
Proof. unfold to_minute. pose proof (Z.mod_pos_bound local minute eq_refl). lia. Qed.

(** Every eligible time lies a whole number of minutes ahead of the search's
    first candidate. *)
Lemma eligible_offset parsed tz start_at after local u :
  eligible parsed tz start_at after local u →
  ∃ k, (0 ≤ k)%Z ∧ local = (to_minute (naive_local tz after) + k * minute)%Z.
Proof.
  intros ([q Hq] & _ & Hf & Hu & _). set (la := naive_local tz after).
  assert (la ≤ local)%Z as Hle.
  { destruct (Z.le_gt_cases la local) as [|Hlt]; [done|].
    destruct (first_instant_le tz after) as (v & Hv & Hva).
    pose proof (first_instant_mono tz local la u v Hf Hv Hlt). lia. }
  destruct (to_minute_divides la) as [p Hp]. pose proof (to_minute_le la).
  exists (q - p)%Z. unfold minute, second in *. lia.
Qed.

Lemma cron_step_spec id zone parsed tz start_at end_at after local :
  (minute | local)%Z →
  match cron_step id zone parsed tz start_at end_at after local with
  | Some (Some o) => eligible parsed tz start_at after local (ao_scheduled_at o) ∧
      (∀ e, end_at = Some e → ao_scheduled_at o ≤ e)%Z ∧ ao_key o = occurrence_key zone local
  | Some None => ∃ u e, eligible parsed tz start_at after local u ∧ end_at = Some e ∧ (e < u)%Z
  | None => ∀ u, ¬ eligible parsed tz start_at after local u
  end.
Proof.
  intros Hm. unfold cron_step, eligible. destruct (cron_matches parsed local); cbn; [|naive_solver].
  destruct (first_instant tz local) as [u|]; [|naive_solver].
  destruct (Z.leb_spec u after); cbn.
  { intros u' (_ & _ & [= <-] & ? & _). lia. }
  assert ((∀ s, start_at = Some s → s ≤ u)%Z ∨ ∃ s, start_at = Some s ∧ (u < s)%Z) as Hstart.
  { destruct start_at as [s|]; [|by left]. destruct (Z.le_gt_cases s u); [left|right]; naive_solver. }
  destruct start_at as [s|]; [destruct (Z.ltb_spec u s)|].
  { intros u' (_ & _ & [= <-] & _ & Hs). specialize (Hs s eq_refl). lia. }
  all: destruct Hstart as [Hstart|(s' & Hs' & ?)]; [|exfalso; simplify_eq; lia].
  all: destruct end_at as [e|]; [destruct (Z.ltb_spec e u)|]; [by exists u, e| |].
  all: cbn; split_and!; try done; try naive_solver.
  all: intros ? [= <-]; lia.
Qed.

(** ** Claims *)

(** [C38] The next occurrence of a recurring schedule.  Given a parsed expression
    and a known zone, the search returns the earliest moment strictly after
    [after], not before the start and not after the end, at which the clock of
    the zone first shows a whole minute the expression matches; it ends the
    schedule exactly when every such moment lies past the end; and it gives up
    only when there is none for the next nine years of local time. *)
Theorem next_occurrence_earliest (id cron zone : string) (start_at end_at : option DateTime)
    (max : option Z) (after : DateTime) (parsed : CronExpression) (tz : Tz) :
  parse_expression cron = Ok parsed → timezone zone = Ok tz →
  match next_occurrence id (Sch_Recurring cron zone start_at end_at max) after with
  | Ok (Some o) =>
      let local := naive_local tz (ao_scheduled_at o) in
      eligible parsed tz start_at after local (ao_scheduled_at o) ∧
      (∀ e, end_at = Some e → ao_scheduled_at o ≤ e)%Z ∧ ao_key o = occurrence_key zone local ∧
      (∀ l u, eligible parsed tz start_at after l u → ao_scheduled_at o ≤ u)%Z
  | Ok None => ∃ e, end_at = Some e ∧ (∀ l u, eligible parsed tz start_at after l u → e < u)%Z
  | Err _ => ∀ l u, eligible parsed tz start_at after l u →
      (to_minute (naive_local tz after) + Zpos MAX_CRON_SCAN_MINUTES * minute < l)%Z
  end.
Proof.
  intros Hp Hz. cbn [next_occurrence]. rewrite Hp, Hz. cbn [rbind].
  set (lm := to_minute (naive_local tz after)).
  set (body := λ offset, cron_step id zone parsed tz start_at end_at after (lm + offset * minute)%Z).
  assert (∀ k, (minute | lm + k * minute)%Z) as Hdiv.
  { intros k. apply Z.divide_add_r; [apply to_minute_divides|]. by exists k. }
  assert (∀ k l u, eligible parsed tz start_at after l u → (∀ j, 0 ≤ j < k → body j = None)%Z →
            lm + k * minute ≤ l)%Z as Hahead.
  { intros k l u He Hn. destruct (eligible_offset _ _ _ _ _ _ He) as (j & Hj & ->). fold lm.
    destruct (Z.lt_ge_cases j k) as [Hlt|]; [|unfold minute, second; lia]. exfalso.
    pose proof (cron_step_spec id zone parsed tz start_at end_at after _ (Hdiv j)) as Hstep.
    fold (body j) in Hstep. rewrite (Hn j) in Hstep by lia. by apply (Hstep u). }
  assert (∀ k l u u', eligible parsed tz start_at after (lm + k * minute) u →
            (∀ j, 0 ≤ j < k → body j = None)%Z → eligible parsed tz start_at after l u' → u ≤ u')%Z as Hmin.
  { intros k l u u' Hu Hn Hu'. pose proof (Hahead k l u' Hu' Hn) as Hle.
    destruct (Z.eq_dec (lm + k * minute)%Z l) as [<-|].
    - destruct Hu as (_ & _ & H1 & _), Hu' as (_ & _ & H2 & _). rewrite H1 in H2. injection H2 as <-. lia.
    - apply Z.lt_le_incl. eapply (first_instant_mono tz (lm + k * minute)%Z l); [apply Hu|apply Hu'|lia]. }
  pose proof (scan_spec body (MAX_CRON_SCAN_MINUTES + 1) 0) as Hscan.
  destruct (scan body _ 0) as [found|].
  - destruct Hscan as (k & Hk & Hb & Hn).
    pose proof (cron_step_spec id zone parsed tz start_at end_at after _ (Hdiv k)) as Hstep.
    fold (body k) in Hstep. rewrite Hb in Hstep. destruct found as [o|].
    + destruct Hstep as (He & Hend & Hkey). cbn zeta.
      rewrite (first_instant_local tz (lm + k * minute)%Z) by apply He. split_and!; [done..|].
      intros l u Hu. by apply (Hmin k l (ao_scheduled_at o) u He).
    + destruct Hstep as (u & e & He & -> & Hlt). exists e. split; [done|]. intros l u' Hu'.
      pose proof (Hmin k l u u' He Hn Hu'). lia.
  - intros l u Hu. assert (∀ j, (0 ≤ j < Z.pos (MAX_CRON_SCAN_MINUTES + 1))%Z → body j = None) as Hn.
    { intros j Hj. by apply Hscan. }
    pose proof (Hahead _ l u Hu Hn). unfold minute, second in *. lia.
Qed.

(** A one-time schedule fires once, at its own moment, and only while that
    moment lies ahead; an unknown zone is an error. *)
Theorem one_time_occurrence (id zone : string) (at_ after : DateTime) :
  match next_occurrence id (Sch_OneTime at_ zone) after with
  | Ok (Some o) => ao_scheduled_at o = at_ ∧ (after < at_)%Z ∧
      next_occurrence id (Sch_OneTime at_ zone) (ao_scheduled_at o) = Ok None
  | Ok None => (at_ ≤ after)%Z
  | Err _ => tz_from_str (trim zone) = None
  end.
Proof.
  cbn [next_occurrence]. unfold timezone. destruct (tz_from_str (trim zone)) as [tz|]; cbn; [|done].
  destruct (Z.leb_spec at_ after); cbn; [done|]. by rewrite Z.leb_refl.
Qed.

Lemma next_occurrence_after id schedule after o :
  next_occurrence id schedule after = Ok (Some o) → (after < ao_scheduled_at o)%Z.
Proof.
  destruct schedule as [at_ zone|cron zone start_at end_at max]; cbn [next_occurrence].
  - intros (tz & _ & Ho)%rbind_ok_inv. destruct (Z.leb_spec at_ after); by simplify_eq.
  - intros (parsed & Hp & (tz & Hz & Ho)%rbind_ok_inv)%rbind_ok_inv.
    set (body := λ offset, _) in Ho. pose proof (scan_spec body (MAX_CRON_SCAN_MINUTES + 1) 0) as Hscan.
    destruct (scan body _ 0) as [found|]; [|done]. injection Ho as ->.
    destruct Hscan as (k & _ & Hb & _). unfold body, cron_step in Hb. destruct (negb _); [done|].
    destruct (first_instant tz _) as [u|]; [|done]. destruct (Z.leb_spec u after); cbn in Hb; [done|].
    repeat case_match; simplify_eq; cbn; lia.
Qed.

(** A preview lists at most the requested number of occurrences, all after
    the given moment and strictly one after the other. *)
Theorem preview_strictly_increasing (id : string) (schedule : AutomationSchedule) (after : DateTime)
    (count : nat) (os : list AutomationOccurrence) :
  preview_occurrences id schedule after count = Ok os →
  length os ≤ count ∧ StronglySorted Z.lt (after :: (ao_scheduled_at <$> os)).
Proof.
  unfold preview_occurrences. intros (u & _ & Hp)%rbind_ok_inv. revert after os Hp.
  induction count as [|count IH]; intros after os; cbn.
  { intros [= <-]. split; [done|]. repeat constructor. }
  intros (next & Hn & Hp)%rbind_ok_inv. destruct next as [o|]; [|].
  - apply rbind_ok_inv in Hp as (rest & Hr & [= <-]). apply next_occurrence_after in Hn.
    destruct (IH _ _ Hr) as [Hlen Hsort]. split; [cbn; lia|]. cbn. constructor; [done|].
    constructor; [done|]. apply StronglySorted_inv in Hsort as [_ Hall].
    eapply List.Forall_impl; [|done]. cbn. lia.
  - injection Hp as <-. split; [cbn; lia|]. repeat constructor.
Qed.

End Occurrences.

(** A cron field means what its text says: it is accepted exactly when each
    comma-separated part is, and then its values are exactly those of the
    arithmetic progressions the parts stand for, all within the field's range
    before normalisation; in particular it is never empty. *)
Theorem cron_field_meaning (raw : string) (min max : Z) (field : string)
    (names : option (list (string * Z))) (normalize : option (Z → Z)) :
  let parts := split_on "," raw in
  match CronField_parse raw min max field names normalize with
  | Ok f =>
      cf_min f = min ∧ cf_max f = max ∧ cf_values f ≠ ∅ ∧
      (∀ v, v ∈ cf_values f ↔ ∃ part v0, part ∈ parts ∧ denotes min max field names part v0 ∧
         v = default id normalize v0) ∧
      (∀ part v0, part ∈ parts → denotes min max field names part v0 → min ≤ v0 ≤ max)%Z
  | Err e => ∃ part, part ∈ parts ∧ parse_part part min max field names = Err e
  end.
Proof.
  cbn zeta. unfold CronField_parse.
  pose proof (parse_parts_spec (split_on "," raw) min max field names (default id normalize) ∅) as Hspec.
  destruct (parse_parts _ _ _ _ _ _ _) as [vs|e]; [|done]. cbn [rbind]. destruct Hspec as [Hok Hvs].
  assert (∀ part v0, denotes min max field names part v0 → (min ≤ v0 ≤ max)%Z) as Hrange.
  { intros part v0 (start & end_ & step & Hp & [Hb _]). apply parse_part_bounds in Hp. lia. }
  assert (vs ≠ ∅) as Hne.
  { destruct (split_on_cons "," raw) as (p & ps & Hps). rewrite Hps in Hok, Hvs.
    specialize (Hok p (list_elem_of_here p ps)).
    destruct (parse_part p min max field names) as [[[start end_] step]|] eqn:Ep; [|done].
    apply (non_empty_inhabited_L (default id normalize start)), Hvs. right. exists p, start.
    split_and!; [left|exists start, end_, step|done]. split; [done|]. pose proof (parse_part_bounds _ _ _ _ _ _ _ _ Ep).
    split; [lia|]. rewrite Z.sub_diag. apply Z.divide_0_r. }
  rewrite bool_decide_false by done. cbn [cf_min cf_max cf_values]. split_and!; [done..| |naive_solver].
  intros v. rewrite Hvs. set_solver.
Qed.
