(* ===== verification/Overlap.v ===== *)
(** * Overlap: runs of one automation that meet (automation_overlap.rs)

    What a run about to start does about the other active runs of its
    automation, by overlap policy, and the guarantees the policies give. *)

From S2P Require Import Prelude Text AutomationModels.
From Stdlib Require Import ZArith Lia Ascii String.
From stdpp Require Import strings prelude.

Inductive AutomationOverlapDecision : Type :=
| Proceed
| Wait
| Skip (reason : string)
| QueueLimit.
#[export] Instance AutomationOverlapDecision_eq_dec : EqDecision AutomationOverlapDecision.
Proof. solve_decision. Defined.

Definition AUTOMATION_OVERLAP_SKIP_REASON : string := "an automation run is already active".
Definition AUTOMATION_OVERLAP_SUPERSEDED_REASON : string :=
  "a newer occurrence replaced this queued run".
Definition AUTOMATION_QUEUE_LIMIT_REASON : string := "automation queue cap reached".
Definition AUTOMATION_TARGET_BUSY_REASON : string := "the automation target is busy".
Definition i64_max : Z := 9223372036854775807.

(** [x.clamp(lo, hi)] *)
Definition clamp (x lo hi : Z) : Z := Z.max lo (Z.min x hi).

Definition run_pending (run : AutomationRun) : bool := bool_decide (ar_status run = Rs_Pending).

Definition this_number (this_run_id : string) (active : list AutomationRun) : Z :=
  match find_where (λ run, String.eqb (ar_id run) this_run_id) active with
  | Some run => ar_number run
  | None => i64_max
  end.

Definition others (this_run_id : string) (active : list AutomationRun) : list AutomationRun :=
  List.filter (λ run, negb (String.eqb (ar_id run) this_run_id)) active.

Definition decide_overlap (policy : AutomationOverlapPolicy) (queue_cap : Z) (this_run_id : string)
    (active : list AutomationRun) : AutomationOverlapDecision * list string :=
  let this_number := this_number this_run_id active in
  let others := others this_run_id active in
  let older_pending :=
    List.filter (λ run, run_pending run && (ar_number run <? this_number)%Z) others in
  let newer_pending := existsb (λ run, run_pending run && (this_number <? ar_number run)%Z) others in
  let running := existsb (λ run, negb (run_pending run)) others in
  match policy with
  | Op_ForceParallel => (Proceed, [])
  | Op_Skip => match others with
               | [] => (Proceed, [])
               | _ => (Skip AUTOMATION_OVERLAP_SKIP_REASON, [])
               end
  | Op_RunLatestOnce =>
      if newer_pending then (Skip AUTOMATION_OVERLAP_SUPERSEDED_REASON, [])
      else (if running then Wait else Proceed, ar_id <$> older_pending)
  | Op_Queue =>
      (if (clamp queue_cap 1 10 <=? Z.of_nat (length older_pending))%Z then QueueLimit
       else if running || negb (match older_pending with [] => true | _ => false end) then Wait
       else Proceed, [])
  end.

Definition busy_target_decision (policy : AutomationOverlapPolicy) : AutomationOverlapDecision :=
  match policy with
  | Op_Skip => Skip AUTOMATION_TARGET_BUSY_REASON
  | Op_Queue | Op_RunLatestOnce => Wait
  | Op_ForceParallel => Proceed
  end.

(** ** Lemmas *)

Lemma others_elem id active run : run ∈ others id active ↔ run ∈ active ∧ ar_id run ≠ id.
Proof.
  unfold others. rewrite list_elem_of_In, filter_In, <-list_elem_of_In, negb_true_iff, String.eqb_neq.
  done.
Qed.

Lemma this_number_elem run active :
  NoDup (ar_id <$> active) → run ∈ active → this_number (ar_id run) active = ar_number run.
Proof.
  intros Hnd Hr. unfold this_number.
  destruct (find_where_is_Some (λ x, String.eqb (ar_id x) (ar_id run)) active run Hr) as [x Hx];
    [apply String.eqb_refl|].
  rewrite Hx. apply find_where_Some in Hx as [Hin He%String.eqb_eq].
  by rewrite (NoDup_key_inj ar_id active x run Hnd Hin Hr He).
Qed.

Lemma existsb_false {A} (p : A → bool) (l : list A) x : existsb p l = false → x ∈ l → p x = false.
Proof.
  intros He Hx. destruct (p x) eqn:E; [|done]. rewrite <-He. symmetry. apply existsb_exists.
  exists x. split; [by apply list_elem_of_In|done].
Qed.

(** A run that proceeds under a policy other than force-parallel meets no run
    that already started and no pending one that comes first. *)
Lemma proceed_alone policy cap run active other :
  policy ≠ Op_ForceParallel → NoDup (ar_id <$> active) → run ∈ active →
  (decide_overlap policy cap (ar_id run) active).1 = Proceed →
  other ∈ active → ar_id other ≠ ar_id run →
  run_pending other = true ∧
  match policy with
  | Op_Queue => (ar_number run ≤ ar_number other)%Z
  | Op_RunLatestOnce => (ar_number other ≤ ar_number run)%Z
  | _ => False
  end.
Proof.
  intros Hp Hnd Hr Hd Ho Hne. assert (other ∈ others (ar_id run) active) as Hin by (by apply others_elem).
  revert Hd. unfold decide_overlap. rewrite (this_number_elem run active Hnd Hr). destruct policy; [| | |done].
  - destruct (others (ar_id run) active); [by apply not_elem_of_nil in Hin|done].
  - destruct (existsb _ _) eqn:En; [done|]. destruct (existsb (λ r, negb _) _) eqn:Er; [done|]. intros _.
    pose proof (existsb_false _ _ _ Er Hin) as Hpend. apply negb_false_iff in Hpend.
    pose proof (existsb_false _ _ _ En Hin) as Hnew. cbn in Hnew. rewrite Hpend in Hnew. split; [done|].
    cbn in Hnew. lia.
  - cbn. destruct (Z.leb _ _); [done|]. destruct (existsb (λ r, negb _) _) eqn:Er; [done|]. cbn.
    destruct (List.filter _ _) eqn:Ef; [|done]. intros _.
    pose proof (existsb_false _ _ _ Er Hin) as Hpend. apply negb_false_iff in Hpend. split; [done|].
    destruct (Z.ltb_spec (ar_number other) (ar_number run)) as [Hlt|]; [|lia]. exfalso.
    assert (other ∈ ([] : list AutomationRun)) as Hnil; [|by apply not_elem_of_nil in Hnil].
    rewrite <-Ef, list_elem_of_In, filter_In, <-list_elem_of_In. split; [done|].
    rewrite Hpend. cbn. lia.
Qed.

(** ** Claims *)

(** Runs of one automation do not overlap unless the policy forces it: of two
    active runs with distinct numbers, at most one is told to proceed, and one
    that is told to proceed meets no run that already started. *)
Theorem overlap_exclusive (policy : AutomationOverlapPolicy) (cap : Z) (active : list AutomationRun)
    (run other : AutomationRun) :
  policy ≠ Op_ForceParallel → NoDup (ar_id <$> active) → NoDup (ar_number <$> active) →
  run ∈ active → other ∈ active → ar_id run ≠ ar_id other →
  (decide_overlap policy cap (ar_id run) active).1 = Proceed →
  ar_status other = Rs_Pending ∧ (decide_overlap policy cap (ar_id other) active).1 ≠ Proceed.
Proof.
  intros Hp Hid Hnum Hr Ho Hne Hd.
  destruct (proceed_alone policy cap run active other) as [Hpend H1]; try done.
  split; [by apply bool_decide_eq_true in Hpend|]. intros Hd'.
  destruct (proceed_alone policy cap other active run) as [_ H2]; try done.
  destruct policy; try done; apply Hne; f_equal;
    (eapply (NoDup_key_inj ar_number active); [done|done|done|lia]).
Qed.

(** The latest-once policy keeps one queued run: a run with a newer pending
    one is skipped as superseded, and otherwise it supersedes exactly the older
    pending runs, none of which has started. *)
Theorem run_latest_once_supersedes (cap : Z) (active : list AutomationRun) (run : AutomationRun) :
  NoDup (ar_id <$> active) → run ∈ active →
  let '(decision, superseded) := decide_overlap Op_RunLatestOnce cap (ar_id run) active in
  if existsb (λ x, run_pending x && (ar_number run <? ar_number x)%Z) active
  then decision = Skip AUTOMATION_OVERLAP_SUPERSEDED_REASON ∧ superseded = []
  else ∀ id, id ∈ superseded ↔
         ∃ x, x ∈ active ∧ ar_id x = id ∧ id ≠ ar_id run ∧ ar_status x = Rs_Pending ∧
              (ar_number x < ar_number run)%Z.
Proof.
  intros Hnd Hr. unfold decide_overlap. rewrite (this_number_elem run active Hnd Hr).
  assert (existsb (λ x, run_pending x && (ar_number run <? ar_number x)%Z) (others (ar_id run) active) =
          existsb (λ x, run_pending x && (ar_number run <? ar_number x)%Z) active) as ->.
  { apply eq_true_iff_eq. rewrite !existsb_exists. setoid_rewrite <-list_elem_of_In.
    setoid_rewrite others_elem. split; intros (x & Hx); exists x; [naive_solver|].
    destruct Hx as [Hx Hb]. split_and!; [done| |done]. intros He.
    rewrite (NoDup_key_inj ar_id active x run Hnd Hx Hr He), Z.ltb_irrefl, andb_false_r in Hb. done. }
  destruct (existsb _ active); [done|]. intros id.
  rewrite list_elem_of_fmap. setoid_rewrite list_elem_of_In. setoid_rewrite filter_In.
  setoid_rewrite <-list_elem_of_In. setoid_rewrite others_elem. unfold run_pending.
  setoid_rewrite andb_true_iff. setoid_rewrite bool_decide_eq_true. setoid_rewrite Z.ltb_lt.
  naive_solver.
Qed.

(** The queue is bounded: a run is told to wait only while fewer than the
    clamped cap (never more than ten) older runs are already queued. *)
Theorem queue_is_bounded (cap : Z) (id : string) (active : list AutomationRun) :
  (decide_overlap Op_Queue cap id active).1 = Wait →
  (Z.of_nat (count_where (λ x, negb (String.eqb (ar_id x) id) &&
                               (run_pending x && (ar_number x <? this_number id active)%Z)) active)
     < clamp cap 1 10 ≤ 10)%Z.
Proof.
  cbn. intros Hd. assert (∀ l p q, length (List.filter p (List.filter q l)) =
    count_where (λ x : AutomationRun, q x && p x) l) as Hcount.
  { unfold count_where. induction l as [|x l IH]; intros p q; cbn; [done|].
    destruct (q x); cbn; [|apply IH]. destruct (p x); cbn; by rewrite IH. }
  unfold others in Hd. rewrite Hcount in Hd.
  match type of Hd with (if ?b then _ else _) = _ => destruct b eqn:E end; [done|].
  unfold clamp in *. lia.
Qed.
