(* ===== verification/Prompt.v ===== *)
(** * Prompt: prompt templates of automations (automation_templates.rs)

    A template is text with variables in double braces.  [validate_prompt_template]
    accepts it, [render_prompt_template] fills it in and masks tokens that look
    like credentials.  Both loops advance past one variable per round, so the
    length of the template bounds them.

    [Reads] is the reference reading of a template: literal text and variables
    in double braces, up to a tail without an opening pair.  Validation and
    rendering, written as loops over byte offsets, are equivalent to it; the
    fuel of the loops, the length of the template plus one, never runs out.
    Redaction leaves no token with a known credential prefix. *)

From S2P Require Import Prelude Text AutomationModels Schedule.
From Stdlib Require Import ZArith Lia Ascii String.
From stdpp Require Import strings prelude gmap.

Definition AUTOMATION_MAX_PROMPT_BYTES : nat := 128 * 1024.
Definition AUTOMATION_MAX_RENDERED_PROMPT_BYTES : nat := 128 * 1024.

Definition KNOWN_VARIABLES : list string :=
  ["automation.id"; "automation.name"; "automation.slug"; "run.id"; "run.number"; "run.scheduledAt";
   "workspace.id"; "workspace.name"; "workspace.path"; "project.id"; "project.name"].

(** [str::find] for a pattern of two equal bytes: the text before the first
    occurrence and the text after it. *)
Fixpoint find_pair (c : ascii) (s : string) : option (string * string) :=
  match s with
  | String a ((String b rest) as tail) =>
      if Ascii.eqb a c && Ascii.eqb b c then Some (EmptyString, rest)
      else match find_pair c tail with
           | Some (before, after) => Some (String a before, after)
           | None => None
           end
  | _ => None
  end.

Definition brace_open : ascii := "{".
Definition brace_close : ascii := "}".

(** The loop of [validate_prompt_template] on the text that is left. *)
Fixpoint validate_loop (fuel : nat) (rest : string) : Result unit :=
  match fuel with
  | O => Err (Bail "out of fuel")
  | S fuel =>
      match find_pair brace_open rest with
      | None =>
          match find_pair brace_close rest with
          | Some _ => Err (Bail "prompt template contains an unmatched closing delimiter")
          | None => Ok tt
          end
      | Some (_, inner) =>
          match find_pair brace_close inner with
          | None => Err (Bail "prompt template contains an unterminated variable")
          | Some (variable, rest) =>
              if bool_decide (trim variable ∈ KNOWN_VARIABLES) then validate_loop fuel rest
              else Err (Bail ("unknown prompt variable: {{" +:+ trim variable +:+ "}}"))
          end
      end
  end.

Definition validate_prompt_template (template : string) : Result unit :=
  if String.eqb (trim template) "" then Err (Bail "prompt template is required")
  else if Nat.ltb AUTOMATION_MAX_PROMPT_BYTES (String.length template)
  then Err (Bail "prompt template is too large")
  else validate_loop (S (String.length template)) template.

(** The loop of [render_prompt_template]. *)
Fixpoint render_loop (fuel : nat) (values : gmap string string) (rest rendered : string) : Result string :=
  match fuel with
  | O => Err (Bail "out of fuel")
  | S fuel =>
      match find_pair brace_open rest with
      | None => Ok (rendered +:+ rest)
      | Some (literal, inner) =>
          match find_pair brace_close inner with
          | None => Err (Bail "prompt template contains an unterminated variable")
          | Some (variable, rest) =>
              match values !! trim variable with
              | None => Err (Bail ("could not resolve prompt variable: " +:+ trim variable))
              | Some value => render_loop fuel values rest (rendered +:+ literal +:+ value)
              end
          end
      end
  end.

(** [str::starts_with] *)
Fixpoint starts_with (prefix s : string) : bool :=
  match prefix, s with
  | EmptyString, _ => true
  | String a p, String b s => Ascii.eqb a b && starts_with p s
  | _, _ => false
  end.

Definition ascii_lower (c : ascii) : ascii :=
  let n := byte_val c in
  if ((65 <=? n) && (n <=? 90))%N then ascii_of_N (n + 32) else c.
Fixpoint to_ascii_lowercase (s : string) : string :=
  match s with
  | EmptyString => EmptyString
  | String c s => String (ascii_lower c) (to_ascii_lowercase s)
  end.

Definition CREDENTIAL_PREFIXES : list string :=
  ["sk-"; "ghp_"; "github_pat_"; "xoxb-"; "bearer="; "token="].

Definition redact_token (token : string) : string :=
  let lower := to_ascii_lowercase token in
  if existsb (λ p, starts_with p lower) CREDENTIAL_PREFIXES then "[redacted]" else token.

(** [join(" ")] *)
Fixpoint join (sep : string) (l : list string) : string :=
  match l with
  | [] => ""
  | [x] => x
  | x :: l => x +:+ sep +:+ join sep l
  end.

Definition redact_known_patterns (value : string) : string :=
  join " " (redact_token <$> split_whitespace value).

Definition render_prompt_template (definition : AutomationDefinition) (values : gmap string string)
    : Result string :=
  let template := ad_prompt_template definition in
  try! _ := validate_prompt_template template in
  try! rendered := render_loop (S (String.length template)) values template "" in
  if Nat.ltb AUTOMATION_MAX_RENDERED_PROMPT_BYTES (String.length rendered)
  then Err (Bail "rendered prompt is too large")
  else Ok (redact_known_patterns rendered).

Section WithChrono.
Context `{Chrono}.

(** The values a template may name; a number is written in decimal. *)
Definition prompt_value_map (definition : AutomationDefinition) (run : AutomationRun)
    (workspace : option (string * string * string)) (project : option (string * string))
    : gmap string string :=
  let values : gmap string string :=
    <["automation.id" := ad_id definition]> (<["automation.name" := ad_name definition]>
    (<["automation.slug" := ad_slug definition]> (<["run.id" := ar_id run]>
    (<["run.number" := pretty.pretty (ar_number run)]>
    (<["run.scheduledAt" := to_rfc3339 (ar_scheduled_at run)]> ∅))))) in
  let values :=
    match workspace with
    | Some (id, name, path) =>
        <["workspace.path" := path]> (<["workspace.name" := name]> (<["workspace.id" := id]> values))
    | None => values
    end in
  match project with
  | Some (id, name) => <["project.name" := name]> (<["project.id" := id]> values)
  | None => values
  end.

End WithChrono.

#[local] Arguments String.append !_ _ / : simpl nomatch.

(** ** Pairs of bytes *)

Definition pair_of (c : ascii) : string := String c (String c EmptyString).
Definition one_of (c : ascii) : string := String c EmptyString.

Lemma find_pair_cons c x y s :
  find_pair c (String x (String y s)) =
  if Ascii.eqb x c && Ascii.eqb y c then Some (EmptyString, s)
  else match find_pair c (String y s) with Some (b, a) => Some (String x b, a) | None => None end.
Proof. reflexivity. Qed.

(** No pair in a text, none in what is left after its first byte. *)
Lemma find_pair_tail c x s : find_pair c (String x s) = None → find_pair c s = None.
Proof.
  destruct s as [|y s]; [done|]. rewrite find_pair_cons. destruct (_ && _); [done|].
  by destruct (find_pair c (String y s)) as [[? ?]|].
Qed.

(** The first pair in [s] comes after [before]: nothing earlier forms one, not
    even together with the first byte of the pair. *)
Lemma find_pair_spec c s before after :
  find_pair c s = Some (before, after) ↔
  s = before +:+ pair_of c +:+ after ∧ find_pair c (before +:+ one_of c) = None.
Proof.
  revert before after. induction s as [|x s IH]; intros before after.
  { split; [done|]. intros [E _]. by destruct before. }
  destruct s as [|y s].
  { split; [done|]. intros [E _]. destruct before as [|? [|? ?]]; cbn in E; by simplify_eq. }
  rewrite find_pair_cons. destruct (Ascii.eqb x c && Ascii.eqb y c) eqn:Exy.
  - apply andb_true_iff in Exy as [->%Ascii.eqb_eq ->%Ascii.eqb_eq]. split; [by intros [= <- <-]|].
    intros [E Hn]. destruct before as [|b0 [|b1 before]]; cbn in E; simplify_eq; [done|..];
      cbn in Hn; by rewrite !Ascii.eqb_refl in Hn.
  - split.
    + destruct (find_pair c (String y s)) as [[b a]|]; [|done]. intros [= <- <-].
      destruct (proj1 (IH b a) eq_refl) as [E Hn]. rewrite E. split; [done|].
      destruct b as [|b0 b]; cbn in E |- *; simplify_eq; [by rewrite Exy|].
      change (find_pair c (String x (String b0 (b +:+ one_of c))) = None). rewrite find_pair_cons, Exy.
      by change (String b0 (b +:+ one_of c)) with (String b0 b +:+ one_of c); rewrite Hn.
    + intros [E Hn]. destruct before as [|b0 before]; cbn in E; [simplify_eq; by rewrite !Ascii.eqb_refl in Exy|].
      injection E as -> E. rewrite (proj2 (IH before after)); [done|]. split; [done|]. by eapply find_pair_tail.
Qed.

Lemma find_pair_length c s before after :
  find_pair c s = Some (before, after) → String.length after < String.length s.
Proof. intros [-> _]%find_pair_spec. rewrite !length_string_app. cbn. lia. Qed.

(** ** The reading of a template *)

Definition no_pair (c : ascii) (s : string) : Prop := find_pair c s = None.

(** Literal texts each followed by the inside of a variable, and the tail. *)
Inductive Reads : string → list (string * string) → string → Prop :=
| Reads_tail tail : no_pair brace_open tail → Reads tail [] tail
| Reads_variable literal variable rest segments tail :
    no_pair brace_open (literal +:+ one_of brace_open) →
    no_pair brace_close (variable +:+ one_of brace_close) →
    Reads rest segments tail →
    Reads (literal +:+ pair_of brace_open +:+ variable +:+ pair_of brace_close +:+ rest)
      ((literal, variable) :: segments) tail.

(** The text a reading stands for. *)
Fixpoint fill (values : gmap string string) (segments : list (string * string)) (tail : string) : string :=
  match segments with
  | [] => tail
  | (literal, variable) :: segments =>
      literal +:+ default "" (values !! trim variable) +:+ fill values segments tail
  end.

(** One step of either loop, and of a reading. *)
Lemma Reads_step s segments tail :
  Reads s segments tail ↔
  match find_pair brace_open s with
  | None => segments = [] ∧ tail = s
  | Some (literal, inner) =>
      match find_pair brace_close inner with
      | None => False
      | Some (variable, rest) => ∃ segments', segments = (literal, variable) :: segments' ∧ Reads rest segments' tail
      end
  end.
Proof.
  split.
  - destruct 1 as [tail Hn|literal variable rest segments tail Ho Hc Hr]; [by rewrite Hn|].
    rewrite (proj2 (find_pair_spec _ _ literal (variable +:+ pair_of brace_close +:+ rest))) by done.
    rewrite (proj2 (find_pair_spec _ _ variable rest)) by done. by exists segments.
  - destruct (find_pair brace_open s) as [[literal inner]|] eqn:Eo; [|intros [-> ->]; by constructor].
    destruct (find_pair brace_close inner) as [[variable rest]|] eqn:Ec; [|done].
    intros (segments' & -> & Hr). apply find_pair_spec in Eo as [-> Ho]. apply find_pair_spec in Ec as [-> Hc].
    by constructor.
Qed.

Lemma Reads_deterministic s segments tail segments' tail' :
  Reads s segments tail → Reads s segments' tail' → segments' = segments ∧ tail' = tail.
Proof.
  intros H. revert segments' tail'. induction H as [tail Hn|literal variable rest segments tail Ho Hc _ IH];
    intros segments' tail'; rewrite Reads_step.
  - by rewrite Hn.
  - rewrite (proj2 (find_pair_spec _ _ literal (variable +:+ pair_of brace_close +:+ rest))) by done.
    rewrite (proj2 (find_pair_spec _ _ variable rest)) by done.
    intros (segments'' & -> & [-> ->]%IH). done.
Qed.

Definition known (v : string * string) : Prop := trim v.2 ∈ KNOWN_VARIABLES.
Definition bound (values : gmap string string) (v : string * string) : Prop := is_Some (values !! trim v.2).

Lemma validate_loop_spec fuel s :
  String.length s < fuel →
  validate_loop fuel s = Ok tt ↔
  ∃ segments tail, Reads s segments tail ∧ Forall known segments ∧ no_pair brace_close tail.
Proof.
  revert s. induction fuel as [|fuel IH]; intros s Hlen; [lia|]. cbn [validate_loop]. setoid_rewrite Reads_step.
  destruct (find_pair brace_open s) as [[literal inner]|] eqn:Eo.
  - destruct (find_pair brace_close inner) as [[variable rest]|] eqn:Ec; [|split; [done|naive_solver]].
    apply find_pair_length in Eo, Ec. case_bool_decide as Hk.
    + rewrite IH by lia. split.
      * intros (segments & tail & Hr & Hf & Hn). exists ((literal, variable) :: segments), tail. naive_solver.
      * intros (segments & tail & (segments' & -> & Hr) & Hf & Hn). inversion Hf; subst. eauto.
    + split; [done|]. intros (segments & tail & (segments' & -> & Hr) & Hf & Hn). by inversion Hf; subst.
  - destruct (find_pair brace_close s) as [[? ?]|] eqn:Ec; split; try done.
    + intros (segments & tail & [-> ->] & _ & Hn). congruence.
    + intros _. by exists [], s.
Qed.

Lemma render_loop_spec fuel values s acc out :
  String.length s < fuel →
  render_loop fuel values s acc = Ok out ↔
  ∃ segments tail, Reads s segments tail ∧ Forall (bound values) segments ∧ out = acc +:+ fill values segments tail.
Proof.
  revert s acc. induction fuel as [|fuel IH]; intros s acc Hlen; [lia|]. cbn [render_loop]. setoid_rewrite Reads_step.
  destruct (find_pair brace_open s) as [[literal inner]|] eqn:Eo.
  - destruct (find_pair brace_close inner) as [[variable rest]|] eqn:Ec; [|split; [done|naive_solver]].
    apply find_pair_length in Eo, Ec. destruct (values !! trim variable) as [value|] eqn:Ev.
    + rewrite IH by lia. split.
      * intros (segments & tail & Hr & Hf & ->). exists ((literal, variable) :: segments), tail.
        split_and!; [by eexists|constructor; [by eexists|done]|]. cbn. rewrite Ev. cbn. by rewrite !app_string_assoc.
      * intros (segments & tail & (segments' & -> & Hr) & Hf & ->). inversion Hf; subst.
        exists segments', tail. split_and!; try done. cbn. rewrite Ev. cbn. by rewrite !app_string_assoc.
    + split; [done|]. intros (segments & tail & (segments' & -> & Hr) & Hf & _). apply Forall_cons in Hf as [[v Hv] _].
      change (values !! trim variable = Some v) in Hv. congruence.
  - split.
    + intros [= <-]. by exists [], s.
    + by intros (segments & tail & [-> ->] & _ & ->).
Qed.

(** The conditions on a template: not blank, not too large, and read as text
    and known variables, with no closing pair after the last one. *)
Definition accepted (template : string) (segments : list (string * string)) (tail : string) : Prop :=
  trim template ≠ "" ∧ String.length template ≤ AUTOMATION_MAX_PROMPT_BYTES ∧
  Reads template segments tail ∧ Forall known segments ∧ no_pair brace_close tail.

Lemma validate_prompt_template_spec template :
  validate_prompt_template template = Ok tt ↔ ∃ segments tail, accepted template segments tail.
Proof.
  unfold validate_prompt_template, accepted. destruct (String.eqb_spec (trim template) "") as [E|E].
  - split; [done|naive_solver].
  - destruct (Nat.ltb_spec AUTOMATION_MAX_PROMPT_BYTES (String.length template)) as [Hlt|Hle].
    + split; [done|]. intros (? & ? & _ & Hle & _). lia.
    + rewrite validate_loop_spec by lia. naive_solver.
Qed.

(** Rendering a template is equivalent to its reference reading: it yields
    exactly the texts obtained by reading an accepted template into literals
    and variables, each bound, putting the values in place and masking
    credentials, when the filled text is not too large; every other template
    is refused. *)
Theorem render_prompt_template_equiv (d : AutomationDefinition) (values : gmap string string) (out : string) :
  render_prompt_template d values = Ok out ↔
  ∃ segments tail, accepted (ad_prompt_template d) segments tail ∧ Forall (bound values) segments ∧
  String.length (fill values segments tail) ≤ AUTOMATION_MAX_RENDERED_PROMPT_BYTES ∧
  out = redact_known_patterns (fill values segments tail).
Proof.
  unfold render_prompt_template. set (t := ad_prompt_template d). split.
  - intros Hr. apply rbind_ok_inv in Hr as ([] & (segments & tail & Ha)%validate_prompt_template_spec & Hr).
    apply rbind_ok_inv in Hr as (text & Hl & Hr). apply render_loop_spec in Hl as (segments' & tail' & Hr' & Hb & ->);
      [|lia]. destruct (Reads_deterministic t segments tail segments' tail') as [-> ->]; [apply Ha|done|].
    change ("" +:+ fill values segments tail) with (fill values segments tail) in Hr. revert Hr. destruct (Nat.ltb_spec AUTOMATION_MAX_RENDERED_PROMPT_BYTES (String.length (fill values segments tail)));
      [done|]. intros [= <-]. by exists segments, tail.
  - intros (segments & tail & Ha & Hb & Hlen & ->).
    assert (validate_prompt_template t = Ok tt) as -> by (apply validate_prompt_template_spec; eauto). cbn [rbind].
    assert (render_loop (S (String.length t)) values t "" = Ok (fill values segments tail)) as ->.
    { apply render_loop_spec; [lia|]. exists segments, tail. split_and!; [apply Ha|done|done]. }
    cbn [rbind]. destruct (Nat.ltb_spec AUTOMATION_MAX_RENDERED_PROMPT_BYTES (String.length (fill values segments tail)));
      [lia|done].
Qed.

(** ** Redaction *)

Definition credential (token : string) : bool :=
  existsb (λ p, starts_with p (to_ascii_lowercase token)) CREDENTIAL_PREFIXES.

Definition visible (g : string) : Prop := is_whitespace g = false.
Definition word_ok (w : list string) : Prop := w ≠ [] ∧ Forall visible w.

(** The words of a text, as groups of bytes: only the very first group of the
    text may start inside a character. *)
Definition words_ok (ws : list (list string)) : Prop :=
  Forall word_ok ws ∧
  match ws with
  | [] => True
  | w :: ws => Forall group_ok w ∧ Forall starts_char (tail w) ∧
               Forall (Forall (λ g, group_ok g ∧ starts_char g)) ws
  end.

Fixpoint join_words (ws : list (list string)) : list string :=
  match ws with
  | [] => []
  | [w] => w
  | w :: ws => w ++ [" "] ++ join_words ws
  end.

Lemma groups_ok_iff gs : groups_ok gs ↔ Forall group_ok gs ∧ Forall starts_char (tail gs).
Proof.
  split.
  - induction 1 as [|g gs Hg Hgs [IH1 IH2] Hh]; [done|]. split; [by constructor|]. cbn.
    destruct gs as [|h gs]; [done|]. constructor; [by apply Hh|done].
  - induction gs as [|g gs IH]; intros [H1 H2]; [constructor|]. apply Forall_cons in H1 as [Hg H1].
    constructor; [done|apply IH; split; [done|by apply Forall_tail]|]. intros h Hh. cbn in H2.
    destruct gs; cbn in Hh; simplify_eq. by apply Forall_cons in H2 as [? _].
Qed.

Lemma split_words_visible word gs : Forall visible word → Forall word_ok (split_words word gs).
Proof.
  revert word. induction gs as [|c gs IH]; intros word Hw; cbn.
  - destruct word; [constructor|]. apply Forall_singleton. by split.
  - destruct (is_whitespace c) eqn:E.
    + destruct word; [by apply IH|]. constructor; [by split|by apply IH].
    + apply IH, Forall_app. split; [done|by repeat constructor].
Qed.

Lemma split_words_sublist word gs : concat (split_words word gs) `sublist_of` word ++ gs.
Proof.
  revert word. induction gs as [|c gs IH]; intros word; cbn.
  - rewrite app_nil_r. destruct word; cbn; [done|]. by rewrite app_nil_r.
  - destruct (is_whitespace c).
    + assert (concat (split_words [] gs) `sublist_of` c :: gs) by (apply sublist_cons, (IH [])).
      destruct word; cbn; [done|]. apply sublist_skip, sublist_app; done.
    + rewrite (IH (word ++ [c])). by rewrite <-app_assoc.
Qed.

Lemma split_words_app word w gs :
  Forall visible w → split_words word (w ++ gs) = split_words (word ++ w) gs.
Proof.
  revert word. induction w as [|c w IH]; intros word Hw; cbn; [by rewrite app_nil_r|].
  apply Forall_cons in Hw as [Hc Hw]. rewrite Hc, IH by done. by rewrite <-app_assoc.
Qed.

Lemma split_words_join ws : Forall word_ok ws → split_words [] (join_words ws) = ws.
Proof.
  induction ws as [|w ws IH]; intros Hf; [done|]. apply Forall_cons in Hf as [[Hne Hw] Hf].
  destruct ws as [|w' ws].
  - cbn. rewrite <-(app_nil_r w) at 1. rewrite split_words_app by done. cbn. by destruct w.
  - change (join_words (w :: w' :: ws)) with (w ++ [" "] ++ join_words (w' :: ws)).
    rewrite split_words_app by done. set (rest := join_words (w' :: ws)) in *. cbn [app split_words].
    change (is_whitespace " ") with true. destruct w; [done|]. by rewrite IH.
Qed.

Lemma Forall_sublist {A} (P : A → Prop) (l k : list A) : l `sublist_of` k → Forall P k → Forall P l.
Proof. induction 1; rewrite ?Forall_cons; naive_solver. Qed.

Lemma tail_sublist {A} (l k : list A) : l `sublist_of` k → tail l `sublist_of` tail k.
Proof.
  induction 1 as [|x l k Hs _|x l k Hs IH]; [done|done|]. cbn. etransitivity; [exact IH|]. destruct k; [done|].
  by apply sublist_cons.
Qed.

Lemma split_words_ok s : words_ok (split_words [] (chars s)).
Proof.
  split; [by apply split_words_visible|]. pose proof (chars_groups s) as Hg. apply groups_ok_iff in Hg as [Hg Hs].
  pose proof (split_words_sublist [] (chars s)) as Hsub. cbn [app] in Hsub.
  pose proof (tail_sublist _ _ Hsub) as Htail.
  apply (Forall_sublist _ _ _ Hsub) in Hg. apply (Forall_sublist _ _ _ Htail) in Hs.
  pose proof (split_words_visible [] (chars s) (Forall_nil_2 _)) as Hv.
  destruct (split_words [] (chars s)) as [|[|g w] ws]; [done|by apply Forall_cons in Hv as [[? _] _]|].
  cbn in Hg, Hs. apply Forall_cons in Hg as [Hg1 Hg]. apply Forall_app in Hg as [Hg2 Hg3], Hs as [Hs2 Hs3].
  split_and!; [by constructor|done|]. apply Forall_concat in Hg3. apply Forall_concat in Hs3.
  clear - Hg3 Hs3. induction ws as [|w ws IH]; [constructor|]. apply Forall_cons in Hg3 as [? ?], Hs3 as [? ?].
  constructor; [by apply Forall_and|auto].
Qed.

Lemma words_ok_groups ws : words_ok ws → groups_ok (join_words ws).
Proof.
  intros [Hv Hw]. apply groups_ok_iff. destruct ws as [|w ws]; [done|]. destruct Hw as (Hg & Hs & Hr).
  apply Forall_cons in Hv as [[Hne _] Hv].
  assert (Forall (λ g, group_ok g ∧ starts_char g) (join_words ws)) as Hj.
  { clear - Hr. induction Hr as [|w' ws Hw' Hr IH]; [done|]. destruct ws; [done|]. cbn [join_words].
    rewrite !Forall_app. split_and!; [done|by repeat constructor|done]. }
  destruct ws as [|w' ws]; [done|]. set (rest := join_words (w' :: ws)) in *.
  change (join_words (w :: w' :: ws)) with (w ++ [" "] ++ rest). destruct w as [|g w]; [done|].
  cbn [tail app]. cbn in Hs. apply Forall_and in Hj as [Hj1 Hj2]. apply Forall_cons in Hg as [Hg1 Hg2].
  rewrite Forall_cons, !Forall_app, !Forall_cons. split_and!; done.
Qed.

Lemma of_chars_join ws : of_chars (join_words ws) = Prompt.join " " (of_chars <$> ws).
Proof.
  induction ws as [|w ws IH]; [done|]. destruct ws as [|w' ws]; [done|].
  change (join_words (w :: w' :: ws)) with (w ++ [" "] ++ join_words (w' :: ws)).
  rewrite !of_chars_app, IH. done.
Qed.

Definition redact_word (w : list string) : list string :=
  if credential (of_chars w) then chars "[redacted]" else w.

Lemma of_chars_redact w : of_chars (redact_word w) = redact_token (of_chars w).
Proof.
  unfold redact_word, redact_token. fold (credential (of_chars w)). destruct (credential _); [|done]. reflexivity.
Qed.

Lemma redacted_groups : Forall (λ g, visible g ∧ group_ok g ∧ starts_char g) (chars "[redacted]").
Proof. cbv. repeat constructor. Qed.

Lemma redact_words_ok ws : words_ok ws → words_ok (redact_word <$> ws).
Proof.
  assert (∀ w P, Forall P w → (∀ g, visible g ∧ group_ok g ∧ starts_char g → P g) → Forall P (redact_word w)) as Hr.
  { intros w P Hw HP. unfold redact_word. destruct (credential _); [|done].
    eapply Forall_impl; [apply redacted_groups|done]. }
  intros [Hv Hw]. split.
  - apply Forall_fmap. eapply Forall_impl; [done|]. intros w [Hne Hvis]. split; [|apply Hr; naive_solver].
    unfold redact_word. by destruct (credential _).
  - destruct ws as [|w ws]; [done|]. destruct Hw as (Hg & Hs & Hrest). cbn. split_and!.
    + apply Hr; naive_solver.
    + unfold redact_word. destruct (credential _); [cbv; by repeat constructor|done].
    + apply Forall_fmap. eapply Forall_impl; [done|]. intros w' Hw'. apply Hr; naive_solver.
Qed.

(** Redaction masks credentials token by token and nothing else: the tokens
    of the masked text are the tokens of the text, in order, each one that
    starts with a known credential prefix, in any case of letters, replaced by
    the mask; none with such a prefix is left, so masking again changes
    nothing. *)
Theorem redaction_masks_credentials (value : string) :
  split_whitespace (redact_known_patterns value) = redact_token <$> split_whitespace value ∧
  Forall (λ token, credential token = false) (split_whitespace (redact_known_patterns value)) ∧
  redact_known_patterns (redact_known_patterns value) = redact_known_patterns value.
Proof.
  set (ws := split_words [] (chars value)). pose proof (split_words_ok value) as Hok. fold ws in Hok.
  assert (redact_known_patterns value = of_chars (join_words (redact_word <$> ws))) as Hv.
  { unfold redact_known_patterns, split_whitespace. fold ws. rewrite of_chars_join. f_equal.
    rewrite <-!list_fmap_compose. apply list_fmap_ext. intros i w _. cbn. by rewrite of_chars_redact. }
  apply redact_words_ok in Hok as Hok'.
  assert (split_whitespace (redact_known_patterns value) = redact_token <$> split_whitespace value) as Hsplit.
  { rewrite Hv. unfold split_whitespace. rewrite chars_of_chars by (by apply words_ok_groups).
    rewrite split_words_join by apply Hok'. fold ws. rewrite <-!list_fmap_compose. apply list_fmap_ext.
    intros i w _. cbn. by rewrite of_chars_redact. }
  assert (∀ token, credential (redact_token token) = false) as Hmask.
  { intros token. unfold redact_token. fold (credential token). destruct (credential token) eqn:E; [by vm_compute|done]. }
  split_and!; [done| |].
  - rewrite Hsplit. apply Forall_fmap, Forall_true. intros token. apply Hmask.
  - unfold redact_known_patterns at 1. rewrite Hsplit. unfold redact_known_patterns. f_equal.
    rewrite <-list_fmap_compose. apply list_fmap_ext. intros i token _. cbn. unfold redact_token at 1.
    fold (credential (redact_token token)). by rewrite Hmask.
Qed.

(** ** Corners of the template language *)

(** A closing delimiter is only looked for behind the last variable: one in
    front of a variable passes. *)
Lemma stray_closing_delimiter_accepted :
  validate_prompt_template "}} {{run.id}}" = Ok tt ∧
  validate_prompt_template "{{run.id}} }}" = Err (Bail "prompt template contains an unmatched closing delimiter").
Proof. split; vm_compute; reflexivity. Qed.

(** Redaction also rewrites the white space of a text without credentials: line
    breaks and indentation become single spaces. *)
Lemma redaction_flattens_layout :
  redact_known_patterns (String "a" (String "010" (String "010" (String " " (String " " "b"))))) = "a b".
Proof. vm_compute. reflexivity. Qed.
