(* ===== verification/AutomationDb.v ===== *)
(** * AutomationDb: the tables of automations

    The rows of the automation tables (runtime_schema.rs,
    automation_precheck_process_store.rs, automation_shared_workspace_store.rs,
    automation_cleanup_attempt_store.rs) and the statements issued on them,
    with the unique indexes and the aborting triggers that guard them, one
    definition per trigger.

    Definitions, runs and attempts are stored as JSON next to columns that
    repeat some of their fields; a row holds both, since the code reads the
    column for some fields and the JSON for others.  A time column is written
    in RFC 3339 with milliseconds, so it holds the instant truncated to
    milliseconds ([format_timestamp]); comparing two such texts compares the
    instants.

    The tables of workspaces, checkouts, projects, agent profiles and tabs are
    owned by other components and only read here, except for the mark a
    takeover leaves on a tab.

    Prefixes: [au_] automations, [oc_] occurrences, [rr_] runs, [tt_] attempts,
    [ae_] audit events, [pp_] precheck processes, [al_] allocations, [ci_]
    cleanup intents, [tb_] tabs, [ck_] checkouts, [wk_] workspaces. *)

From S2P Require Import Prelude Text Models Store AutomationModels.
From Stdlib Require Import ZArith Lia Ascii String.
From stdpp Require Import strings prelude.

(** ** Rows *)

(** A stored definition. *)
Record AutomationRow : Type := MkAutomationRow {
  au_id : string;
  au_slug : string;
  au_state : AutomationState;
  au_revision : Z;
  au_data : AutomationDefinition;
  au_created_at : DateTime;
  au_updated_at : DateTime;
  au_trashed_at : option DateTime
}.

Definition with_au_data (v : AutomationDefinition) (x : AutomationRow) : AutomationRow :=
  MkAutomationRow (au_id x) (au_slug x) (au_state x) (au_revision x) v (au_created_at x)
    (au_updated_at x) (au_trashed_at x).
Definition with_au_state (v : AutomationState) (x : AutomationRow) : AutomationRow :=
  MkAutomationRow (au_id x) (au_slug x) v (au_revision x) (au_data x) (au_created_at x)
    (au_updated_at x) (au_trashed_at x).
Definition with_au_updated_at (v : DateTime) (x : AutomationRow) : AutomationRow :=
  MkAutomationRow (au_id x) (au_slug x) (au_state x) (au_revision x) (au_data x) (au_created_at x)
    v (au_trashed_at x).
Definition with_au_trashed_at (v : option DateTime) (x : AutomationRow) : AutomationRow :=
  MkAutomationRow (au_id x) (au_slug x) (au_state x) (au_revision x) (au_data x) (au_created_at x)
    (au_updated_at x) v.

(** An occurrence that was admitted or skipped. *)
Record OccurrenceRow : Type := MkOccurrenceRow {
  oc_automation_id : string;
  oc_key : string;
  oc_scheduled_at : DateTime;
  oc_claimed_at : DateTime
}.

(** A stored run. *)
Record RunRow : Type := MkRunRow {
  rr_id : string;
  rr_automation_id : string;
  rr_number : Z;
  rr_occurrence_key : string;
  rr_scheduled_at : DateTime;
  rr_trigger : AutomationRunTrigger;
  rr_status : AutomationRunStatus;
  rr_data : AutomationRun;
  rr_created_at : DateTime;
  rr_updated_at : DateTime;
  rr_finished_at : option DateTime
}.

Definition with_rr_status (v : AutomationRunStatus) (x : RunRow) : RunRow :=
  MkRunRow (rr_id x) (rr_automation_id x) (rr_number x) (rr_occurrence_key x) (rr_scheduled_at x)
    (rr_trigger x) v (rr_data x) (rr_created_at x) (rr_updated_at x) (rr_finished_at x).
Definition with_rr_data (v : AutomationRun) (x : RunRow) : RunRow :=
  MkRunRow (rr_id x) (rr_automation_id x) (rr_number x) (rr_occurrence_key x) (rr_scheduled_at x)
    (rr_trigger x) (rr_status x) v (rr_created_at x) (rr_updated_at x) (rr_finished_at x).
Definition with_rr_updated_at (v : DateTime) (x : RunRow) : RunRow :=
  MkRunRow (rr_id x) (rr_automation_id x) (rr_number x) (rr_occurrence_key x) (rr_scheduled_at x)
    (rr_trigger x) (rr_status x) (rr_data x) (rr_created_at x) v (rr_finished_at x).
Definition with_rr_finished_at (v : option DateTime) (x : RunRow) : RunRow :=
  MkRunRow (rr_id x) (rr_automation_id x) (rr_number x) (rr_occurrence_key x) (rr_scheduled_at x)
    (rr_trigger x) (rr_status x) (rr_data x) (rr_created_at x) (rr_updated_at x) v.

(** A stored attempt. *)
Record AttemptRow : Type := MkAttemptRow {
  tt_id : string;
  tt_run_id : string;
  tt_number : Z;
  tt_status : AutomationRunStatus;
  tt_data : AutomationAttempt;
  tt_started_at : DateTime;
  tt_finished_at : option DateTime
}.

Definition with_tt_status (v : AutomationRunStatus) (x : AttemptRow) : AttemptRow :=
  MkAttemptRow (tt_id x) (tt_run_id x) (tt_number x) v (tt_data x) (tt_started_at x)
    (tt_finished_at x).
Definition with_tt_data (v : AutomationAttempt) (x : AttemptRow) : AttemptRow :=
  MkAttemptRow (tt_id x) (tt_run_id x) (tt_number x) (tt_status x) v (tt_started_at x)
    (tt_finished_at x).
Definition with_tt_finished_at (v : option DateTime) (x : AttemptRow) : AttemptRow :=
  MkAttemptRow (tt_id x) (tt_run_id x) (tt_number x) (tt_status x) (tt_data x) (tt_started_at x) v.

(** An audit event. *)
Record AutomationAuditEvent : Type := MkAutomationAuditEvent {
  ae_id : string;
  ae_automation_id : option string;
  ae_run_id : option string;
  ae_action : string;
  ae_actor : AutomationActor;
  ae_revision : option Z;
  ae_details : json;
  ae_created_at : DateTime
}.

(** The life of a precheck process. *)
Inductive WorkspaceProcessJobPhase : Type :=
| Ph_LaunchIntent
| Ph_Spawned
| Ph_SpawnFailed
| Ph_RootExited
| Ph_ClosureVerified.
#[export] Instance WorkspaceProcessJobPhase_eq_dec : EqDecision WorkspaceProcessJobPhase.
Proof. solve_decision. Defined.

(** The workspace a precheck runs in. *)
Record AutomationPrecheckWorkspace : Type := MkAutomationPrecheckWorkspace {
  apw_workspace_id : string;
  apw_instance_id : string;
  apw_kind : WorkspaceKind;
  apw_repository_path : option string
}.

#[export] Instance AutomationPrecheckWorkspace_eq_dec : EqDecision AutomationPrecheckWorkspace.
Proof. solve_decision. Defined.

(** A precheck process; its columns id, runId and projectId repeat the record. *)
Record AutomationPrecheckProcess : Type := MkAutomationPrecheckProcess {
  pp_id : string;
  pp_run_id : string;
  pp_attempt_count : Z;
  pp_project_id : string;
  pp_host_id : string;
  pp_path : string;
  pp_precheck : AutomationPrecheck;
  pp_workspace : option AutomationPrecheckWorkspace;
  pp_phase : WorkspaceProcessJobPhase;
  pp_platform : string;
  pp_boot_id : option string;
  pp_pid : option Z;
  pp_start_marker : option Z;
  pp_closure_boot_id : option string
}.

Definition with_pp_phase (v : WorkspaceProcessJobPhase) (x : AutomationPrecheckProcess) : AutomationPrecheckProcess :=
  MkAutomationPrecheckProcess (pp_id x) (pp_run_id x) (pp_attempt_count x) (pp_project_id x)
    (pp_host_id x) (pp_path x) (pp_precheck x) (pp_workspace x) v (pp_platform x) (pp_boot_id x)
    (pp_pid x) (pp_start_marker x) (pp_closure_boot_id x).
Definition with_pp_pid (v : option Z) (x : AutomationPrecheckProcess) : AutomationPrecheckProcess :=
  MkAutomationPrecheckProcess (pp_id x) (pp_run_id x) (pp_attempt_count x) (pp_project_id x)
    (pp_host_id x) (pp_path x) (pp_precheck x) (pp_workspace x) (pp_phase x) (pp_platform x)
    (pp_boot_id x) v (pp_start_marker x) (pp_closure_boot_id x).
Definition with_pp_start_marker (v : option Z) (x : AutomationPrecheckProcess) : AutomationPrecheckProcess :=
  MkAutomationPrecheckProcess (pp_id x) (pp_run_id x) (pp_attempt_count x) (pp_project_id x)
    (pp_host_id x) (pp_path x) (pp_precheck x) (pp_workspace x) (pp_phase x) (pp_platform x)
    (pp_boot_id x) (pp_pid x) v (pp_closure_boot_id x).
Definition with_pp_closure_boot_id (v : option string) (x : AutomationPrecheckProcess) : AutomationPrecheckProcess :=
  MkAutomationPrecheckProcess (pp_id x) (pp_run_id x) (pp_attempt_count x) (pp_project_id x)
    (pp_host_id x) (pp_path x) (pp_precheck x) (pp_workspace x) (pp_phase x) (pp_platform x)
    (pp_boot_id x) (pp_pid x) (pp_start_marker x) v.

#[export] Instance AutomationPrecheckProcess_eq_dec : EqDecision AutomationPrecheckProcess.
Proof. solve_decision. Defined.

(** The identity and location of a workspace. *)
Record WorkspaceRef : Type := MkWorkspaceRef {
  wk_id : string;
  wk_instance_id : string;
  wk_host_id : string;
  wk_project_id : string;
  wk_path : string;
  wk_kind : WorkspaceKind;
  wk_active : bool
}.

(** The workspace a run was given. *)
Record AllocationRow : Type := MkAllocationRow {
  al_run_id : string;
  al_workspace_id : string;
  al_workspace : WorkspaceRef
}.

Inductive CleanupState : Type := Ci_Pending | Ci_Running | Ci_Completed | Ci_Preserved.
#[export] Instance CleanupState_eq_dec : EqDecision CleanupState.
Proof. solve_decision. Defined.

(** A promised cleanup of the workspace of a successful run; [ready_at] counts milliseconds. *)
Record CleanupIntent : Type := MkCleanupIntent {
  ci_run_id : string;
  ci_run : AutomationRun;
  ci_workspace_id : string;
  ci_instance_id : string;
  ci_workspace : WorkspaceRef;
  ci_state : CleanupState;
  ci_attempt_id : option string;
  ci_ready_at : Z;
  ci_attempts : Z;
  ci_last_error : option string
}.

Definition with_ci_state (v : CleanupState) (x : CleanupIntent) : CleanupIntent :=
  MkCleanupIntent (ci_run_id x) (ci_run x) (ci_workspace_id x) (ci_instance_id x) (ci_workspace x)
    v (ci_attempt_id x) (ci_ready_at x) (ci_attempts x) (ci_last_error x).
Definition with_ci_attempt_id (v : option string) (x : CleanupIntent) : CleanupIntent :=
  MkCleanupIntent (ci_run_id x) (ci_run x) (ci_workspace_id x) (ci_instance_id x) (ci_workspace x)
    (ci_state x) v (ci_ready_at x) (ci_attempts x) (ci_last_error x).
Definition with_ci_ready_at (v : Z) (x : CleanupIntent) : CleanupIntent :=
  MkCleanupIntent (ci_run_id x) (ci_run x) (ci_workspace_id x) (ci_instance_id x) (ci_workspace x)
    (ci_state x) (ci_attempt_id x) v (ci_attempts x) (ci_last_error x).
Definition with_ci_attempts (v : Z) (x : CleanupIntent) : CleanupIntent :=
  MkCleanupIntent (ci_run_id x) (ci_run x) (ci_workspace_id x) (ci_instance_id x) (ci_workspace x)
    (ci_state x) (ci_attempt_id x) (ci_ready_at x) v (ci_last_error x).
Definition with_ci_last_error (v : option string) (x : CleanupIntent) : CleanupIntent :=
  MkCleanupIntent (ci_run_id x) (ci_run x) (ci_workspace_id x) (ci_instance_id x) (ci_workspace x)
    (ci_state x) (ci_attempt_id x) (ci_ready_at x) (ci_attempts x) v.

(** What the automation code reads and writes of a workspace tab. *)
Record TabRow : Type := MkTabRow {
  tb_id : string;
  tb_workspace_id : string;
  tb_run_id : option string;
  tb_taken_over : bool;
  tb_profile_id : option string;
  tb_launch_profile_id : option string
}.

Definition with_tb_taken_over (v : bool) (x : TabRow) : TabRow :=
  MkTabRow (tb_id x) (tb_workspace_id x) (tb_run_id x) v (tb_profile_id x)
    (tb_launch_profile_id x).

(** A registered checkout. *)
Record CheckoutRow : Type := MkCheckoutRow {
  ck_id : string;
  ck_project_id : string;
  ck_host_id : string;
  ck_path : string;
  ck_kind : string;
  ck_repository_path : option string
}.

(** Retention settings, as [automation_settings] returns them. *)
Record RuntimeAutomationSettings : Type := MkRuntimeAutomationSettings {
  ras_autostart : bool;
  ras_run_retention_days : Z;
  ras_audit_retention_days : Z;
  ras_trash_retention_days : Z
}.

(** ** The database *)

(** Projects carry their repository path, bindings pair a workspace with a checkout, retirements a workspace with the instance that was removed; [adb_boot_id] is the metadata entry automations.runtimeBootId, [adb_runtime_started_at] automations.runtimeStartedAt. *)
Record AutomationDb : Type := MkAutomationDb {
  adb_automations : list AutomationRow;
  adb_occurrences : list OccurrenceRow;
  adb_runs : list RunRow;
  adb_attempts : list AttemptRow;
  adb_audits : list AutomationAuditEvent;
  adb_prechecks : list AutomationPrecheckProcess;
  adb_allocations : list AllocationRow;
  adb_intents : list CleanupIntent;
  adb_tabs : list TabRow;
  adb_profiles : list string;
  adb_projects : list (string * string);
  adb_checkouts : list CheckoutRow;
  adb_workspaces : list WorkspaceRef;
  adb_bindings : list (string * string);
  adb_retirements : list (string * string);
  adb_settings : RuntimeAutomationSettings;
  adb_boot_id : option string;
  adb_runtime_started_at : option DateTime
}.

Definition with_adb_automations (v : list AutomationRow) (x : AutomationDb) : AutomationDb :=
  MkAutomationDb v (adb_occurrences x) (adb_runs x) (adb_attempts x) (adb_audits x)
    (adb_prechecks x) (adb_allocations x) (adb_intents x) (adb_tabs x) (adb_profiles x)
    (adb_projects x) (adb_checkouts x) (adb_workspaces x) (adb_bindings x) (adb_retirements x)
    (adb_settings x) (adb_boot_id x) (adb_runtime_started_at x).
Definition with_adb_occurrences (v : list OccurrenceRow) (x : AutomationDb) : AutomationDb :=
  MkAutomationDb (adb_automations x) v (adb_runs x) (adb_attempts x) (adb_audits x)
    (adb_prechecks x) (adb_allocations x) (adb_intents x) (adb_tabs x) (adb_profiles x)
    (adb_projects x) (adb_checkouts x) (adb_workspaces x) (adb_bindings x) (adb_retirements x)
    (adb_settings x) (adb_boot_id x) (adb_runtime_started_at x).
Definition with_adb_runs (v : list RunRow) (x : AutomationDb) : AutomationDb :=
  MkAutomationDb (adb_automations x) (adb_occurrences x) v (adb_attempts x) (adb_audits x)
    (adb_prechecks x) (adb_allocations x) (adb_intents x) (adb_tabs x) (adb_profiles x)
    (adb_projects x) (adb_checkouts x) (adb_workspaces x) (adb_bindings x) (adb_retirements x)
    (adb_settings x) (adb_boot_id x) (adb_runtime_started_at x).
Definition with_adb_attempts (v : list AttemptRow) (x : AutomationDb) : AutomationDb :=
  MkAutomationDb (adb_automations x) (adb_occurrences x) (adb_runs x) v (adb_audits x)
    (adb_prechecks x) (adb_allocations x) (adb_intents x) (adb_tabs x) (adb_profiles x)
    (adb_projects x) (adb_checkouts x) (adb_workspaces x) (adb_bindings x) (adb_retirements x)
    (adb_settings x) (adb_boot_id x) (adb_runtime_started_at x).
Definition with_adb_audits (v : list AutomationAuditEvent) (x : AutomationDb) : AutomationDb :=
  MkAutomationDb (adb_automations x) (adb_occurrences x) (adb_runs x) (adb_attempts x) v
    (adb_prechecks x) (adb_allocations x) (adb_intents x) (adb_tabs x) (adb_profiles x)
    (adb_projects x) (adb_checkouts x) (adb_workspaces x) (adb_bindings x) (adb_retirements x)
    (adb_settings x) (adb_boot_id x) (adb_runtime_started_at x).
Definition with_adb_prechecks (v : list AutomationPrecheckProcess) (x : AutomationDb) : AutomationDb :=
  MkAutomationDb (adb_automations x) (adb_occurrences x) (adb_runs x) (adb_attempts x)
    (adb_audits x) v (adb_allocations x) (adb_intents x) (adb_tabs x) (adb_profiles x)
    (adb_projects x) (adb_checkouts x) (adb_workspaces x) (adb_bindings x) (adb_retirements x)
    (adb_settings x) (adb_boot_id x) (adb_runtime_started_at x).
Definition with_adb_allocations (v : list AllocationRow) (x : AutomationDb) : AutomationDb :=
  MkAutomationDb (adb_automations x) (adb_occurrences x) (adb_runs x) (adb_attempts x)
    (adb_audits x) (adb_prechecks x) v (adb_intents x) (adb_tabs x) (adb_profiles x)
    (adb_projects x) (adb_checkouts x) (adb_workspaces x) (adb_bindings x) (adb_retirements x)
    (adb_settings x) (adb_boot_id x) (adb_runtime_started_at x).
Definition with_adb_intents (v : list CleanupIntent) (x : AutomationDb) : AutomationDb :=
  MkAutomationDb (adb_automations x) (adb_occurrences x) (adb_runs x) (adb_attempts x)
    (adb_audits x) (adb_prechecks x) (adb_allocations x) v (adb_tabs x) (adb_profiles x)
    (adb_projects x) (adb_checkouts x) (adb_workspaces x) (adb_bindings x) (adb_retirements x)
    (adb_settings x) (adb_boot_id x) (adb_runtime_started_at x).
Definition with_adb_tabs (v : list TabRow) (x : AutomationDb) : AutomationDb :=
  MkAutomationDb (adb_automations x) (adb_occurrences x) (adb_runs x) (adb_attempts x)
    (adb_audits x) (adb_prechecks x) (adb_allocations x) (adb_intents x) v (adb_profiles x)
    (adb_projects x) (adb_checkouts x) (adb_workspaces x) (adb_bindings x) (adb_retirements x)
    (adb_settings x) (adb_boot_id x) (adb_runtime_started_at x).
Definition with_adb_runtime_started_at (v : option DateTime) (x : AutomationDb) : AutomationDb :=
  MkAutomationDb (adb_automations x) (adb_occurrences x) (adb_runs x) (adb_attempts x)
    (adb_audits x) (adb_prechecks x) (adb_allocations x) (adb_intents x) (adb_tabs x)
    (adb_profiles x) (adb_projects x) (adb_checkouts x) (adb_workspaces x) (adb_bindings x)
    (adb_retirements x) (adb_settings x) (adb_boot_id x) v.

(** What the code does not decide: the clock and the random identifiers, as
    sequences of answers, and how serde writes a moment. *)
Class AutomationEnv : Type := {
  utc_now : nat → DateTime;        (** the n-th answer of [Utc::now] *)
  uuid_v4 : nat → string;          (** the n-th [Uuid::new_v4().to_string()] *)
  json_time : DateTime → json;     (** a moment as [serde_json] writes it *)
  to_lowercase : string → string;  (** [str::to_lowercase] *)
  representable : DateTime → bool  (** the range of dates chrono can hold *)
}.

(** The database with the number of clock readings and identifiers drawn, which
    no rollback takes back. *)
Record AutomationWorld : Type := MkAutomationWorld { aw_db : AutomationDb; aw_ticks : nat; aw_uuids : nat }.

Abbreviation AM := (M AutomationWorld).

Definition with_adb (f : AutomationDb → AutomationDb) (w : AutomationWorld) : AutomationWorld :=
  MkAutomationWorld (f (aw_db w)) (aw_ticks w) (aw_uuids w).

Definition read {A} (q : AutomationDb → A) : AM A := gets (λ w, q (aw_db w)).
Definition write (f : AutomationDb → AutomationDb) : AM unit := modify (with_adb f).
Definition abail {A} (msg : string) : AM A := fail (Bail msg).

(** A transaction: commit on success, roll back on error. *)
Definition atomically {A} (m : AM A) : AM A := λ w,
  match m w with
  | (w', Ok a) => (w', Ok a)
  | (w', Err e) => (MkAutomationWorld (aw_db w) (aw_ticks w') (aw_uuids w'), Err e)
  end.

(** A result computed from the database, or its error. *)
Definition of_result {A} (r : Result A) : AM A := λ w, (w, r).

(** [row.ok_or_else(...)]. *)
Definition require {A} (o : option A) (msg : string) : AM A :=
  match o with Some a => ret a | None => abail msg end.

(** [format_timestamp]: RFC 3339 with milliseconds. *)
Definition format_timestamp (t : DateTime) : DateTime := (t - t `mod` 1000000)%Z.

(** ** Guards *)

Definition phase_closed (p : WorkspaceProcessJobPhase) : bool :=
  match p with Ph_SpawnFailed | Ph_ClosureVerified => true | _ => false end.

Definition has_unclosed (db : AutomationDb) (run_id : string) : bool :=
  existsb (λ p, String.eqb (pp_run_id p) run_id && negb (phase_closed (pp_phase p)))
    (adb_prechecks db).

(** Trigger preservePrecheckRunCompletion. *)
Definition preservePrecheckRunCompletion (db : AutomationDb) (old new : RunRow) : option string :=
  if has_unclosed db (rr_id old)
     && (negb (String.eqb (rr_id new) (rr_id old))
         || negb (String.eqb (rr_automation_id new) (rr_automation_id old))
         || negb (bool_decide (rr_status new = Rs_Dispatching)
                  || bool_decide (rr_status new = Rs_WaitingForUser))
         || negb (ar_attempt_count (rr_data new) =? ar_attempt_count (rr_data old))%Z)
  then Some "Automation precheck process closure is unverified; retain the run and its dependencies"
  else None.

(** Trigger preserveAutomationSharedWorkspaceAllocation. *)
Definition preserveAutomationSharedWorkspaceAllocation (db : AutomationDb) (old new : RunRow)
    : option string :=
  if existsb (λ a, String.eqb (al_run_id a) (rr_id old)
                   && (negb (String.eqb (rr_id new) (rr_id old))
                       || negb (String.eqb (default "" (ar_workspace_id (rr_data new))) (al_workspace_id a))
                       || negb (ar_owned_workspace (rr_data new)))) (adb_allocations db)
  then Some "Automation run task ownership changed; reload the current run"
  else None.

Definition project_exists (db : AutomationDb) (id : string) : bool :=
  existsb (λ p, String.eqb p.1 id) (adb_projects db).

Definition checkout_project_missing (db : AutomationDb) (d : AutomationDefinition) : bool :=
  match target_project_checkout (ad_target d) with
  | Some (project, _) => negb (project_exists db project)
  | None => false
  end.

(** Triggers projectCheckoutRunInsertGuard and projectCheckoutRunUpdateGuard. *)
Definition projectCheckoutRunGuard (db : AutomationDb) (new : RunRow) : option string :=
  if negb (is_final (rr_status new))
     && existsb (λ a, String.eqb (au_id a) (rr_automation_id new)
                      && checkout_project_missing db (au_data a)) (adb_automations db)
  then Some "Automation target project no longer exists"
  else None.

(** Triggers projectCheckoutAutomationInsertGuard and -UpdateGuard. *)
Definition projectCheckoutAutomationGuard (db : AutomationDb) (new : AutomationRow) : option string :=
  if bool_decide (au_state new = As_Active) && checkout_project_missing db (au_data new)
  then Some "Automation target project no longer exists"
  else None.

(** Triggers automationsAgentProfileInsertGuard and -UpdateGuard. *)
Definition automationsAgentProfileGuard (db : AutomationDb) (new : AutomationRow) : option string :=
  match target_agent_profile_id (ad_target (au_data new)) with
  | Some profile => if bool_decide (profile ∈ adb_profiles db) then None
                    else Some "agent profile reference does not exist"
  | None => None
  end.

(** Trigger preservePrecheckDefinition. *)
Definition preservePrecheckDefinition (db : AutomationDb) (old : AutomationRow) : option string :=
  if existsb (λ r, String.eqb (rr_automation_id r) (au_id old) && has_unclosed db (rr_id r)) (adb_runs db)
  then Some "Automation precheck process closure is unverified; retain its automation"
  else None.

(** Trigger preservePrecheckRunDeletion. *)
Definition preservePrecheckRunDeletion (db : AutomationDb) (old : RunRow) : option string :=
  if has_unclosed db (rr_id old)
  then Some "Automation precheck process closure is unverified; retain its run"
  else None.

(** Triggers workspaceTabsAgentProfileUpdateGuard and
    workspaceTabsAgentProfileSnapshotUpdateGuard. *)
Definition workspaceTabsAgentProfileGuard (db : AutomationDb) (new : TabRow) : option string :=
  if existsb (λ o, match o with Some p => negb (bool_decide (p ∈ adb_profiles db)) | None => false end)
       [tb_profile_id new; tb_launch_profile_id new]
  then Some "agent profile reference does not exist"
  else None.

Definition or_else {A} (a b : option A) : option A := match a with Some x => Some x | None => b end.

Definition run_update_guard (db : AutomationDb) (old new : RunRow) : option string :=
  or_else (preservePrecheckRunCompletion db old new)
    (or_else (preserveAutomationSharedWorkspaceAllocation db old new) (projectCheckoutRunGuard db new)).

(** The agent profile guard watches the dataJson column only. *)
Definition automation_update_guard (sets_data : bool) (db : AutomationDb) (new : AutomationRow)
    : option string :=
  or_else (projectCheckoutAutomationGuard db new)
    (if sets_data then automationsAgentProfileGuard db new else None).

(** ** Statements *)

Section WithEnv.
Context `{AutomationEnv}.

Definition now_utc : AM DateTime := λ w,
  (MkAutomationWorld (aw_db w) (S (aw_ticks w)) (aw_uuids w), Ok (utc_now (aw_ticks w))).
Definition new_uuid : AM string := λ w,
  (MkAutomationWorld (aw_db w) (aw_ticks w) (S (aw_uuids w)), Ok (uuid_v4 (aw_uuids w))).

(** Abort with the message of the first trigger, or apply the change. *)
Definition guarded (abort : option string) (f : AutomationDb → AutomationDb) : AM unit :=
  match abort with Some msg => fail (Database msg) | None => write f end.

Definition update_run_rows (p : RunRow → bool) (f : RunRow → RunRow) : AM nat :=
  let! db := read (λ db, db) in
  do! guarded (first_abort (run_update_guard db) p f (adb_runs db))
        (with_adb_runs (update_where p f (adb_runs db))) in
  ret (count_where p (adb_runs db)).

Definition insert_run_row (r : RunRow) : AM unit :=
  let! db := read (λ db, db) in
  guarded
    (or_else (projectCheckoutRunGuard db r)
      (if existsb (λ x, String.eqb (rr_id x) (rr_id r)) (adb_runs db)
       then Some "UNIQUE constraint failed: automationRuns.id"
       else if existsb (λ x, String.eqb (rr_automation_id x) (rr_automation_id r)
                             && String.eqb (rr_occurrence_key x) (rr_occurrence_key r)) (adb_runs db)
       then Some "UNIQUE constraint failed: automationRuns.automationId, automationRuns.occurrenceKey"
       else None))
    (with_adb_runs (adb_runs db ++ [r])).

(** Deleting a run also deletes its precheck records (trigger
    cleanupClosedPrecheckProcesses). *)
Definition delete_run_rows (p : RunRow → bool) : AM unit :=
  let! db := read (λ db, db) in
  guarded (first_abort (λ old _, preservePrecheckRunDeletion db old) p id (adb_runs db))
    (λ db, with_adb_prechecks
       (List.filter (λ q, negb (existsb (λ r, p r && String.eqb (rr_id r) (pp_run_id q)) (adb_runs db)))
          (adb_prechecks db))
       (with_adb_runs (List.filter (λ r, negb (p r)) (adb_runs db)) db)).

Definition update_automation_rows (sets_data : bool) (p : AutomationRow → bool)
    (f : AutomationRow → AutomationRow) : AM nat :=
  let! db := read (λ db, db) in
  do! guarded (first_abort (λ _ new, automation_update_guard sets_data db new) p f (adb_automations db))
        (with_adb_automations (update_where p f (adb_automations db))) in
  ret (count_where p (adb_automations db)).

Definition delete_automation_rows (p : AutomationRow → bool) : AM nat :=
  let! db := read (λ db, db) in
  do! guarded (first_abort (λ old _, preservePrecheckDefinition db old) p id (adb_automations db))
        (with_adb_automations (List.filter (λ a, negb (p a)) (adb_automations db))) in
  ret (count_where p (adb_automations db)).

(** [INSERT ... ON CONFLICT(id) DO UPDATE]: the insert triggers run first, the
    update triggers when the row exists; the unique indexes on the slug and on
    the creation request key watch both. *)
Definition upsert_automation_row (new : AutomationRow) (merge : AutomationRow → AutomationRow)
    : AM unit :=
  let! db := read (λ db, db) in
  let same a := String.eqb (au_id a) (au_id new) in
  let exists_ := existsb same (adb_automations db) in
  guarded
    (or_else (automation_update_guard true db new)
      (or_else (if exists_
                then first_abort (λ _ new, automation_update_guard true db new) same merge
                       (adb_automations db)
                else None)
        (if existsb (λ a, negb (same a) && eq_ignore_ascii_case (au_slug a) (au_slug new))
              (adb_automations db)
         then Some "UNIQUE constraint failed: index 'automationsSlugIdx'"
         else if existsb (λ a, negb (same a) && bool_decide (is_Some (ad_creation_request_key (au_data a)))
                               && bool_decide (ad_creation_request_key (au_data a)
                                               = ad_creation_request_key (au_data new)))
              (adb_automations db)
         then Some "UNIQUE constraint failed: index 'automationsRequestKeyIdx'"
         else None)))
    (with_adb_automations (if exists_ then update_where same merge (adb_automations db)
                           else adb_automations db ++ [new])).

(** [INSERT ... ON CONFLICT DO NOTHING]: whether the occurrence was new. *)
Definition claim_occurrence (row : OccurrenceRow) : AM bool :=
  let! db := read (λ db, db) in
  if existsb (λ o, String.eqb (oc_automation_id o) (oc_automation_id row)
                   && String.eqb (oc_key o) (oc_key row)) (adb_occurrences db)
  then ret false
  else do! write (with_adb_occurrences (adb_occurrences db ++ [row])) in ret true.

Definition insert_audit_row (e : AutomationAuditEvent) : AM unit :=
  let! db := read (λ db, db) in
  guarded (if existsb (λ x, String.eqb (ae_id x) (ae_id e)) (adb_audits db)
           then Some "UNIQUE constraint failed: automationAuditEvents.id" else None)
    (with_adb_audits (adb_audits db ++ [e])).

Definition insert_attempt_row (t : AttemptRow) : AM unit :=
  let! db := read (λ db, db) in
  guarded (if existsb (λ x, String.eqb (tt_id x) (tt_id t)) (adb_attempts db)
           then Some "UNIQUE constraint failed: automationAttempts.id" else None)
    (with_adb_attempts (adb_attempts db ++ [t])).

Definition update_attempt_rows (p : AttemptRow → bool) (f : AttemptRow → AttemptRow) : AM unit :=
  write (λ db, with_adb_attempts (update_where p f (adb_attempts db)) db).

Definition update_tab_rows (p : TabRow → bool) (f : TabRow → TabRow) : AM unit :=
  let! db := read (λ db, db) in
  guarded (first_abort (λ _ new, workspaceTabsAgentProfileGuard db new) p f (adb_tabs db))
    (with_adb_tabs (update_where p f (adb_tabs db))).

(** The index oneUnclosedPrecheckPerRun allows one process of a run that is not
    closed. *)
Definition unclosed_of (run_id : string) (p : AutomationPrecheckProcess) : bool :=
  String.eqb (pp_run_id p) run_id && negb (phase_closed (pp_phase p)).

Definition insert_precheck_row (p : AutomationPrecheckProcess) : AM unit :=
  let! db := read (λ db, db) in
  guarded
    (if existsb (λ x, String.eqb (pp_id x) (pp_id p)) (adb_prechecks db)
     then Some "UNIQUE constraint failed: automationPrecheckProcesses.id"
     else if negb (phase_closed (pp_phase p)) && existsb (unclosed_of (pp_run_id p)) (adb_prechecks db)
     then Some "UNIQUE constraint failed: automationPrecheckProcesses.runId"
     else None)
    (with_adb_prechecks (adb_prechecks db ++ [p])).

End WithEnv.
