(* ===== verification/AutomationStore.v ===== *)
(** * AutomationStore: definitions, runs and attempts of automations

    automation_run_audit_store.rs, automation_store.rs,
    automation_run_store.rs, automation_run_lifecycle_store.rs,
    automation_recovery_store.rs and automation_circuit_store.rs: the
    definitions and their revisions, admission of an occurrence as a run,
    attempts, the lifecycle of a run up to a final status, retention, and the
    circuit breaker.  [enqueue_completed_run] of
    automation_cleanup_attempt_store.rs is part of saving a run. *)

From S2P Require Import Prelude Text Models Store AutomationModels Schedule Prompt AutomationDb.
From Stdlib Require Import ZArith Lia Ascii String.
From stdpp Require Import strings prelude gmap.

(** [decode_definition]: state and revision come from their columns. *)
Definition decode_definition (row : AutomationRow) : AutomationDefinition :=
  with_ad_revision (au_revision row) (with_ad_state (au_state row) (au_data row)).

(** [decode_run]: the columns override the JSON. *)
Definition decode_run (row : RunRow) : AutomationRun :=
  with_ar_finished_at (rr_finished_at row) (with_ar_updated_at (rr_updated_at row)
    (with_ar_created_at (rr_created_at row) (with_ar_scheduled_at (rr_scheduled_at row)
      (with_ar_number (rr_number row) (with_ar_status (rr_status row) (rr_data row)))))).

Definition days (n : Z) : Z := (n * 86400 * second)%Z.

(** [x.clamp(lo, hi)] *)
Definition clamp_z (x lo hi : Z) : Z := Z.max lo (Z.min x hi).

(** [ORDER BY createdAt DESC, runNumber DESC] and [ORDER BY createdAt DESC]. *)
Definition newest_run_first (a b : RunRow) : bool :=
  (rr_created_at b <? rr_created_at a)%Z
  || ((rr_created_at a =? rr_created_at b)%Z && (rr_number b <=? rr_number a)%Z).
Definition latest_created_first (a b : RunRow) : bool := (rr_created_at b <=? rr_created_at a)%Z.

Definition of_automation (automation_id : string) (r : RunRow) : bool :=
  String.eqb (rr_automation_id r) automation_id.

Definition find_automation_row (db : AutomationDb) (id : string) : option AutomationRow :=
  find_where (λ a, String.eqb (au_id a) id) (adb_automations db).
Definition find_run_row (db : AutomationDb) (id : string) : option RunRow :=
  find_where (λ r, String.eqb (rr_id r) id) (adb_runs db).

(** ** Validation of a definition (automation_store.rs) *)

Definition in_range (lo hi v : Z) : bool := (lo <=? v)%Z && (v <=? hi)%Z.

Definition AUTOMATION_MAX_INACTIVITY_TIMEOUT_SECONDS : Z := 24 * 60 * 60.

Definition ensure (b : bool) (msg : string) : Result unit := if b then Ok tt else Err (Bail msg).

Definition validate_definition `{Chrono} (d : AutomationDefinition) : Result unit :=
  try! _ := validate_project_target (ad_target d) (ad_project_id d) in
  try! _ := validate_reuse (ad_reuse_policy d) (ad_target d) (ad_cleanup_policy d) in
  try! _ := ensure (negb (String.eqb (trim (ad_id d)) "")) "automation id is required" in
  try! _ := ensure (negb (String.eqb (trim (ad_slug d)) "")) "automation slug is required" in
  try! _ := ensure (negb (String.eqb (trim (ad_name d)) "")) "automation name is required" in
  try! _ := validate_prompt_template (ad_prompt_template d) in
  try! _ := validate_schedule (ad_schedule d) in
  try! _ := ensure (in_range 1 10 (ad_queue_cap d)) "automation queue cap must be between 1 and 10" in
  try! _ := ensure (in_range 1 AUTOMATION_MAX_INACTIVITY_TIMEOUT_SECONDS (ad_inactivity_timeout_seconds d))
              "automation inactivity timeout must be between 1 second and 24 hours" in
  try! _ := ensure (in_range 1 (ad_inactivity_timeout_seconds d) (ad_heartbeat_interval_seconds d))
              "automation heartbeat interval must be positive and no longer than inactivity timeout" in
  try! _ := ensure (in_range 0 (24 * 60 * 60) (ad_misfire_grace_seconds d))
              "automation misfire grace must be between 0 and 24 hours" in
  try! _ := ensure (in_range 1 3 (ad_retry_max_attempts d))
              "automation retry max attempts must be between 1 and 3 attempts (at most two retries)" in
  try! _ := ensure (in_range 1 (24 * 60 * 60) (ad_retry_backoff_seconds d))
              "automation retry backoff must be between 1 second and 24 hours" in
  try! _ := ensure (in_range 1 10 (ad_circuit_failure_threshold d))
              "automation circuit failure threshold must be between 1 and 10" in
  try! _ := ensure (in_range 1 (7 * 24 * 60 * 60) (ad_circuit_open_seconds d))
              "automation circuit open duration must be between 1 second and 7 days" in
  match ad_precheck d with
  | None => Ok tt
  | Some precheck =>
      try! _ := ensure (negb (String.eqb (trim (apc_command precheck)) ""))
                  "automation precheck command is required" in
      ensure (in_range 1 (15 * 60) (apc_timeout_seconds precheck))
        "automation precheck timeout must be between 1 second and 15 minutes"
  end.

(** [material_fields] *)
Definition material_fields (previous current : AutomationDefinition) : list string :=
  (if bool_decide (ad_prompt_template previous = ad_prompt_template current) then [] else ["promptTemplate"])
  ++ (if bool_decide (ad_schedule previous = ad_schedule current) then [] else ["schedule"])
  ++ (if bool_decide (ad_target previous = ad_target current) then [] else ["target"])
  ++ (if bool_decide (ad_precheck previous = ad_precheck current) then [] else ["precheck"])
  ++ (if bool_decide (ad_overlap_policy previous = ad_overlap_policy current) then [] else ["overlapPolicy"])
  ++ (if bool_decide (ad_misfire_policy previous = ad_misfire_policy current) then [] else ["misfirePolicy"])
  ++ (if bool_decide (ad_cleanup_policy previous = ad_cleanup_policy current) then [] else ["cleanupPolicy"])
  ++ (if bool_decide (ad_reuse_policy previous = ad_reuse_policy current) then [] else ["reusePolicy"]).

(** [take_stored_binding]: the definition with the binding it keeps, and the
    binding this edit dropped. *)
Definition take_stored_binding (definition : AutomationDefinition)
    (existing : option AutomationDefinition)
    : AutomationDefinition * option (AutomationBoundTarget * string) :=
  let cleared := with_ad_bound_target None definition in
  match existing with
  | None => (cleared, None)
  | Some previous =>
      match ad_bound_target previous with
      | None => (cleared, None)
      | Some binding =>
          if negb (reuses (ad_reuse_policy definition)) then (cleared, Some (binding, "reuseDisabled"))
          else if negb (bool_decide (ad_target previous = ad_target definition))
          then (cleared, Some (binding, "targetChanged"))
          else (with_ad_bound_target (Some binding) definition, None)
      end
  end.

(** The text fields of a definition as [upsert_automation] normalises them. *)
Definition normalize_definition (d : AutomationDefinition) : AutomationDefinition :=
  let d := with_ad_description (trim (ad_description d)) (with_ad_name (trim (ad_name d))
             (with_ad_slug (to_ascii_lowercase (trim (ad_slug d))) (with_ad_id (trim (ad_id d)) d))) in
  let d := with_ad_project_id
             (match ad_project_id d with
              | Some v => if String.eqb (trim v) "" then None else Some (trim v)
              | None => None
              end) d in
  match target_worktree (ad_target d) ≫= ws_project_id, ad_project_id d with
  | Some project, None => with_ad_project_id (Some project) d
  | _, _ => d
  end.

(** An integer in JSON. *)
Definition json_int (n : Z) : json := JNumber (pretty.pretty n).

Definition json_opt {A} (f : A → json) (o : option A) : json :=
  match o with Some a => f a | None => JNull end.

Section WithEnv.
Context `{AutomationEnv}.

(** ** Audit events (automation_run_audit_store.rs) *)

Definition insert_automation_audit_event (automation_id run_id : option string) (action : string)
    (actor : AutomationActor) (revision : option Z) (details : json) : AM AutomationAuditEvent :=
  let! id := new_uuid in
  let! at_ := now_utc in
  let event := MkAutomationAuditEvent id automation_id run_id action actor revision details at_ in
  do! insert_audit_row (MkAutomationAuditEvent id automation_id run_id action actor revision details
                          (format_timestamp at_)) in
  ret event.

(** [list_automation_audit_events] *)
Definition list_automation_audit_events (automation_id : option string) (limit : Z)
    : AM (list AutomationAuditEvent) :=
  read (λ db, take (Z.to_nat (clamp_z limit 1 1000))
    (sort_by (λ a b, (ae_created_at b <=? ae_created_at a)%Z)
      (List.filter (λ e, match automation_id with
                         | Some id => bool_decide (ae_automation_id e = Some id)
                         | None => true
                         end) (adb_audits db)))).

(** The rows [prune_automation_runs_with_limits] deletes: final runs without an
    open cleanup, too old or not among the newest hundred final runs. *)
Definition pruned (db : AutomationDb) (automation_id : string) (cutoff : DateTime) (r : RunRow) : bool :=
  let newest := take 100 (sort_by latest_created_first
    (List.filter (λ x, of_automation automation_id x && is_final (rr_status x)) (adb_runs db))) in
  of_automation automation_id r
  && negb (existsb (λ c, String.eqb (ci_run_id c) (rr_id r)
                         && (bool_decide (ci_state c = Ci_Pending) || bool_decide (ci_state c = Ci_Running)))
             (adb_intents db))
  && is_final (rr_status r)
  && ((rr_created_at r <? cutoff)%Z
      || negb (existsb (λ x, String.eqb (rr_id x) (rr_id r)) newest)).

Definition prune_automation_runs_with_limits (automation_id : string) (at_ : DateTime)
    (retention_days : Z) : AM unit :=
  let cutoff := format_timestamp (at_ - days (Z.max retention_days 1))%Z in
  let! db := read (λ db, db) in
  delete_run_rows (pruned db automation_id cutoff).

Definition prune_automation_runs (automation_id : string) (at_ : DateTime) : AM unit :=
  let! settings := read adb_settings in
  prune_automation_runs_with_limits automation_id at_ (ras_run_retention_days settings).

Definition prune_automation_history (at_ : DateTime) : AM unit :=
  let! settings := read adb_settings in
  let! ids := read (λ db, au_id <$> adb_automations db) in
  do! mapM_ (λ id, prune_automation_runs_with_limits id at_ (ras_run_retention_days settings)) ids in
  let cutoff := format_timestamp (at_ - days (Z.max (ras_audit_retention_days settings) 1))%Z in
  write (λ db, with_adb_audits
    (List.filter (λ e, negb (ae_created_at e <? cutoff)%Z) (adb_audits db)) db).

(** ** Definitions (automation_store.rs) *)

Definition find_automation (id : string) : AM (option AutomationDefinition) :=
  read (λ db, decode_definition <$> find_automation_row db id).

Definition find_automation_by_slug (slug : string) : AM (option AutomationDefinition) :=
  read (λ db, decode_definition <$>
    find_where (λ a, eq_ignore_ascii_case (au_slug a) (trim slug)) (adb_automations db)).

Definition list_automations (include_trashed : bool) : AM (list AutomationDefinition) :=
  read (λ db, sort_by (λ a b, String.leb (to_lowercase (ad_name a)) (to_lowercase (ad_name b)))
    (decode_definition <$>
       List.filter (λ a, include_trashed || negb (bool_decide (au_state a = As_Trashed)))
         (adb_automations db))).

Definition has_active_automations : AM bool :=
  read (λ db, existsb (λ a, bool_decide (au_state a = As_Active)) (adb_automations db)).

(** The row an edit writes. *)
Definition edited_definition (definition : AutomationDefinition) (existing : option AutomationDefinition)
    (actor : AutomationActor) (at_ : DateTime) : AutomationDefinition :=
  let '(revision, created_at, created_by) :=
    match existing with
    | Some previous => ((ad_revision previous + 1)%Z, ad_created_at previous, ad_created_by previous)
    | None => (1%Z, at_, actor)
    end in
  let d := with_ad_created_by created_by definition in
  let d := match existing with
           | Some previous =>
               with_ad_schedule_cursor_at
                 (if bool_decide (ad_schedule previous = ad_schedule d)
                  then ad_schedule_cursor_at previous else Some at_)
                 (with_ad_creation_request_fingerprint (ad_creation_request_fingerprint previous)
                   (with_ad_creation_request_key (ad_creation_request_key previous)
                     (with_ad_state (ad_state previous) d)))
           | None => d
           end in
  with_ad_approved_revision (Some revision) (with_ad_modified_by actor (with_ad_updated_at at_
    (with_ad_created_at created_at (with_ad_revision revision d)))).

Definition edit_details (existing : option AutomationDefinition) (d : AutomationDefinition) : json :=
  JObject
    [("material", JBool (match existing with
                         | Some previous =>
                             negb (bool_decide (material_fingerprint previous = material_fingerprint d))
                         | None => false
                         end));
     ("fromState", json_opt (λ p, JString (AutomationState_as_str (ad_state p))) existing);
     ("toState", JString (AutomationState_as_str (ad_state d)));
     ("previousRevision", json_opt (λ p, json_int (ad_revision p)) existing);
     ("changedFields", json_opt (λ p, JArray (JString <$> material_fields p d)) existing)].

Definition upsert_automation `{Chrono} (input : AutomationDefinition) (actor : AutomationActor)
    : AM AutomationDefinition :=
  let definition := normalize_definition input in
  let! existing := find_automation (ad_id definition) in
  let '(definition, unbound) := take_stored_binding definition existing in
  let! conflict := read (λ db, find_where (λ a, eq_ignore_ascii_case (au_slug a) (ad_slug definition)
                                   && negb (String.eqb (au_id a) (ad_id definition))) (adb_automations db)) in
  match conflict with
  | Some owner => abail ("automation slug already exists: " +:+ au_id owner)
  | None =>
      do! of_result (validate_definition definition) in
      let! at_ := now_utc in
      let d := edited_definition definition existing actor at_ in
      do! upsert_automation_row
            (MkAutomationRow (ad_id d) (ad_slug d) (ad_state d) (ad_revision d) d
               (format_timestamp (ad_created_at d)) (format_timestamp (ad_updated_at d)) None)
            (λ old, MkAutomationRow (au_id old) (ad_slug d) (ad_state d) (ad_revision d) d
               (au_created_at old) (format_timestamp (ad_updated_at d))
               (if bool_decide (ad_state d = As_Trashed)
                then Some (format_timestamp (ad_updated_at d)) else None)) in
      do! insert_automation_audit_event (Some (ad_id d)) None "edit" actor (Some (ad_revision d))
            (edit_details existing d) in
      do! match unbound with
          | Some (binding, reason) =>
              do! insert_automation_audit_event (Some (ad_id d)) None "targetUnbound" (ad_modified_by d)
                    (Some (ad_revision d))
                    (JObject [("reason", JString reason);
                              ("workspaceId", JString (abt_workspace_id binding))]) in
              ret tt
          | None => ret tt
          end in
      let! after := find_automation (ad_id d) in
      require after "automation disappeared after upsert"
  end.

(** Whether [set_automation_state] accepts a move. *)
Definition state_change_allowed (from to_ : AutomationState) : bool :=
  is_editable from
  || (bool_decide (from = As_Archived) && bool_decide (to_ = As_Trashed))
  || (bool_decide (from = As_Trashed) && bool_decide (to_ = As_Draft)).

(** The state a definition really moves to, with what it was before the trash. *)
Definition resolve_state (d : AutomationDefinition) (to_ : AutomationState)
    : AutomationState * option AutomationState :=
  if bool_decide (to_ = As_Trashed) then (to_, Some (ad_state d))
  else if bool_decide (ad_state d = As_Trashed)
  then (if bool_decide (ad_state_before_trash d = Some As_Archived) then As_Archived else As_Paused, None)
  else (to_, ad_state_before_trash d).

Definition reason_json (reason : option string) : json :=
  JObject [("reason", json_opt JString reason)].

Definition set_automation_state (id : string) (state : AutomationState) (actor : AutomationActor)
    (reason : option string) : AM AutomationDefinition :=
  let! found := find_automation id in
  let! definition := require found ("automation not found: " +:+ id) in
  if negb (state_change_allowed (ad_state definition) state)
  then abail "automation is archived or trashed"
  else
    let '(state, before_trash) := resolve_state definition state in
    let definition := with_ad_state_before_trash before_trash definition in
    let! definition :=
      (if bool_decide (state = As_Active)
       then let! at_ := now_utc in
            ret (with_ad_schedule_cursor_at (Some at_)
                   (with_ad_approved_revision (Some (ad_revision definition)) definition))
       else ret definition) in
    let! at_ := now_utc in
    let definition := with_ad_modified_by actor (with_ad_updated_at at_ (with_ad_state state definition)) in
    do! update_automation_rows true (λ a, String.eqb (au_id a) id)
          (λ a, with_au_trashed_at (if bool_decide (state = As_Trashed)
                                    then Some (format_timestamp at_) else None)
                  (with_au_updated_at (format_timestamp at_)
                    (with_au_data definition (with_au_state state a)))) in
    do! insert_automation_audit_event (Some id) None (AutomationState_as_str state) actor
          (Some (ad_revision definition)) (reason_json reason) in
    ret definition.

Definition purge_trashed_automations (at_ : DateTime) : AM nat :=
  let! settings := read adb_settings in
  let before := format_timestamp (at_ - days (Z.max (ras_trash_retention_days settings) 1))%Z in
  delete_automation_rows (λ a, bool_decide (au_state a = As_Trashed)
    && match au_trashed_at a with Some t => (t <? before)%Z | None => false end).

Definition archive_one_time_automation_if_final (automation_id : string) (actor : AutomationActor)
    : AM bool :=
  let! found := find_automation automation_id in
  match found with
  | None => ret false
  | Some definition =>
      if negb (match ad_schedule definition with Sch_OneTime _ _ => true | _ => false end)
         || bool_decide (ad_state definition = As_Archived) || bool_decide (ad_state definition = As_Trashed)
      then ret false
      else
        let! at_ := now_utc in
        let definition := with_ad_modified_by actor (with_ad_updated_at at_
                            (with_ad_state As_Archived definition)) in
        do! update_automation_rows true (λ a, String.eqb (au_id a) automation_id)
              (λ a, with_au_updated_at (format_timestamp at_)
                      (with_au_data definition (with_au_state As_Archived a))) in
        do! insert_automation_audit_event (Some automation_id) None "archived" actor
              (Some (ad_revision definition))
              (JObject [("reason", JString "one-time run reached a final outcome")]) in
        ret true
  end.

(** ** Runs (automation_run_store.rs) *)

Definition find_automation_run (id : string) : AM (option AutomationRun) :=
  read (λ db, decode_run <$> find_run_row db id).

(** [find_automation_run(id)?.ok_or_else(...)] *)
Definition existing_run (id : string) : AM AutomationRun :=
  let! found := find_automation_run id in
  require found ("automation run not found: " +:+ id).

Definition skipped_status (s : AutomationRunStatus) : bool :=
  match s with
  | Rs_PrecheckSkipped | Rs_MisfireSkipped | Rs_OverlapSkipped | Rs_QueueLimitSkipped => true
  | _ => false
  end.

Definition scheduled_run (automation_id : string) (r : RunRow) : bool :=
  of_automation automation_id r && bool_decide (rr_trigger r = Tr_Scheduled).

Definition count_scheduled_automation_executions (automation_id : string) : AM Z :=
  read (λ db, Z.of_nat (count_where
    (λ r, scheduled_run automation_id r && negb (skipped_status (rr_status r))) (adb_runs db))).

(** [LIKE 'manual|%'] ignores ASCII case. *)
Definition manual_key (key : string) : bool := starts_with "manual|" (to_ascii_lowercase key).

Definition latest_automation_occurrence (automation_id : string) : AM (option DateTime) :=
  read (λ db, oc_scheduled_at <$>
    head (sort_by (λ a b, (oc_scheduled_at b <=? oc_scheduled_at a)%Z)
      (List.filter (λ o, String.eqb (oc_automation_id o) automation_id && negb (manual_key (oc_key o)))
        (adb_occurrences db)))).

Definition new_run (id : string) (at_ : DateTime) (definition : AutomationDefinition)
    (occurrence : AutomationOccurrence) (trigger : AutomationRunTrigger) (number : Z) : AutomationRun :=
  {| ar_id := id; ar_automation_id := ad_id definition; ar_number := number;
     ar_occurrence_key := ao_key occurrence; ar_definition_revision := Some (ad_revision definition);
     ar_definition_snapshot := Some definition; ar_attempt_id := None;
     ar_native_conversation_id := None; ar_recovery := None; ar_last_activity_at := None;
     ar_continue_from_run_id := None; ar_owner_reserved := false; ar_owner_process := None;
     ar_owner_boot_id := None; ar_scheduled_at := ao_scheduled_at occurrence; ar_trigger := trigger;
     ar_actor_kind := None; ar_actor_id := None; ar_target_identity := None;
     ar_overlap_policy := None; ar_precheck := None; ar_status := Rs_Pending; ar_summary := None;
     ar_error := None; ar_rendered_prompt := None; ar_reuse := None;
     ar_workspace_id := target_workspace_id (ad_target definition); ar_tab_id := None;
     ar_setup_tab_id := None; ar_workspace_branch := None; ar_session_id := None;
     ar_owned_workspace := false; ar_owned_tab := false; ar_taken_over := false;
     ar_attempt_count := 0; ar_started_at := None; ar_last_heartbeat_at := None;
     ar_absolute_deadline_at := None; ar_waiting_extension_until := None;
     ar_cancel_requested_at := None; ar_retry_after := None; ar_finished_at := None;
     ar_created_at := at_; ar_updated_at := at_ |}.

Definition new_run_row (run : AutomationRun) : RunRow :=
  MkRunRow (ar_id run) (ar_automation_id run) (ar_number run) (ar_occurrence_key run)
    (format_timestamp (ar_scheduled_at run)) (ar_trigger run) (ar_status run) run
    (format_timestamp (ar_created_at run)) (format_timestamp (ar_updated_at run)) None.

(** [COALESCE(MAX(runNumber), 0) + 1] over the runs of an automation. *)
Definition next_run_number (db : AutomationDb) (automation_id : string) : Z :=
  (match rr_number <$> List.filter (of_automation automation_id) (adb_runs db) with
   | [] => 0
   | z :: zs => foldr Z.max z zs
   end + 1)%Z.

Definition admit_automation_run (definition : AutomationDefinition) (occurrence : AutomationOccurrence)
    (trigger : AutomationRunTrigger) (claim : bool) : AM (option AutomationRun) :=
  atomically (
    let! claimed :=
      (if claim
       then let! at_ := now_utc in
            claim_occurrence (MkOccurrenceRow (ad_id definition) (ao_key occurrence)
              (format_timestamp (ao_scheduled_at occurrence)) (format_timestamp at_))
       else do! update_automation_rows false (λ a, String.eqb (au_id a) (ad_id definition)) id in
            ret true) in
    if negb claimed then ret None
    else
      let! number := read (λ db, next_run_number db (ad_id definition)) in
      let! at_ := now_utc in
      let! id := new_uuid in
      let run := new_run id at_ definition occurrence trigger number in
      do! insert_run_row (new_run_row run) in
      ret (Some run)).

Definition create_automation_run (definition : AutomationDefinition) (occurrence : AutomationOccurrence)
    (trigger : AutomationRunTrigger) : AM AutomationRun :=
  let! admitted := admit_automation_run definition occurrence trigger false in
  require admitted "automation occurrence already admitted".

Definition target_bound (run : AutomationRun) (identity : AutomationTargetIdentity) : bool :=
  match ar_target_identity run with Some bound => identity_matches bound identity | None => false end.

Definition verify_automation_run_identity (id : string) (actor : AutomationActor)
    (identity : AutomationTargetIdentity) : AM AutomationRun :=
  let! run := existing_run id in
  if negb (bool_decide (ar_actor_kind run = Some (ac_kind actor)))
     || negb (bool_decide (ar_actor_id run = ac_id actor)) || negb (target_bound run identity)
  then abail "automation run target identity does not match the live run"
  else ret run.

Definition verify_automation_run_target (id : string) (identity : AutomationTargetIdentity)
    : AM AutomationRun :=
  let! run := existing_run id in
  if negb (target_bound run identity)
  then abail "automation run target identity does not match the live run"
  else ret run.

Definition list_automation_runs (automation_id : option string) (limit : Z) : AM (list AutomationRun) :=
  read (λ db, decode_run <$> take (Z.to_nat (clamp_z limit 1 1000))
    match automation_id with
    | Some id => sort_by newest_run_first (List.filter (of_automation id) (adb_runs db))
    | None => sort_by latest_created_first (reverse (adb_runs db))
    end).

Definition latest_automation_run_error (automation_id : string) : AM (option string) :=
  read (λ db, head (sort_by newest_run_first
    (List.filter (λ r, of_automation automation_id r && bool_decide (is_Some (ar_error (rr_data r))))
      (adb_runs db))) ≫= λ r, ar_error (rr_data r)).

(** [enqueue_completed_run] (automation_cleanup_attempt_store.rs): a successful
    run that owns a project checkout is promised a cleanup. *)
Definition enqueue_completed_run (run : AutomationRun) : AM unit :=
  if negb (bool_decide (ar_status run = Rs_Success)) || negb (ar_owned_workspace run)
     || ar_taken_over run || bool_decide (is_Some (ar_cancel_requested_at run))
  then ret tt
  else
    let! db := read (λ db, db) in
    match ar_workspace_id run, find_automation_row db (ar_automation_id run) with
    | Some workspace_id, Some row =>
        let definition := default (au_data row) (ar_definition_snapshot run) in
        match target_project_checkout (ad_target definition),
              find_where (λ a, String.eqb (al_run_id a) (ar_id run)
                               && String.eqb (al_workspace_id a) workspace_id) (adb_allocations db) with
        | Some checkout, Some allocation =>
            let workspace := al_workspace allocation in
            if negb (bool_decide (ad_cleanup_policy definition = Some Cp_OnSuccess))
               || negb (bool_decide (checkout = (wk_project_id workspace, wk_host_id workspace)))
            then ret tt
            else
              let! at_ := now_utc in
              if existsb (λ c, String.eqb (ci_run_id c) (ar_id run)) (adb_intents db) then ret tt
              else write (with_adb_intents (adb_intents db ++
                     [MkCleanupIntent (ar_id run) run (wk_id workspace) (wk_instance_id workspace)
                        workspace Ci_Pending None (at_ `div` 1000000)%Z 0 None]))
        | _, _ => ret tt
        end
    | _, _ => ret tt
    end.

Definition saved_row (run : AutomationRun) (r : RunRow) : RunRow :=
  with_rr_finished_at (format_timestamp <$> ar_finished_at run)
    (with_rr_updated_at (format_timestamp (ar_updated_at run))
      (with_rr_data run (with_rr_status (ar_status run) r))).

Definition save_automation_run (run : AutomationRun) : AM AutomationRun :=
  let! existing := existing_run (ar_id run) in
  if is_final (ar_status existing) && negb (bool_decide (ar_status existing = ar_status run))
  then abail ("automation run is already final: " +:+ ar_id run)
  else
    atomically (
      do! update_run_rows (λ r, String.eqb (rr_id r) (ar_id run)) (saved_row run) in
      let! row := read (λ db, find_run_row db (ar_id run)) in
      match row with
      | None => fail (Database "no rows returned")
      | Some row =>
          let saved := decode_run row in
          do! (if bool_decide (ar_status existing = Rs_Success) then ret tt
               else enqueue_completed_run saved) in
          ret saved
      end).

(** The failures at the front of a list of runs. *)
Fixpoint failure_prefix (rows : list RunRow) : Z :=
  match rows with
  | r :: rows => if counts_as_failure (rr_status r) then (1 + failure_prefix rows)%Z else 0%Z
  | [] => 0%Z
  end.

Definition count_automation_failure_streak (automation_id : string) (threshold : Z) : AM Z :=
  read (λ db, failure_prefix (take (Z.to_nat (clamp_z threshold 1 10))
    (sort_by newest_run_first (List.filter (scheduled_run automation_id) (adb_runs db))))).

Fixpoint claim_all (automation_id : string) (claimed_at : DateTime)
    (occurrences : list AutomationOccurrence) (claimed : Z) : AM Z :=
  match occurrences with
  | [] => ret claimed
  | o :: occurrences =>
      let! new := claim_occurrence (MkOccurrenceRow automation_id (ao_key o)
                    (format_timestamp (ao_scheduled_at o)) claimed_at) in
      claim_all automation_id claimed_at occurrences (if new then (claimed + 1)%Z else claimed)
  end.

Definition claim_skipped_automation_occurrences (automation_id : string)
    (occurrences : list AutomationOccurrence) : AM Z :=
  atomically (
    let! at_ := now_utc in
    claim_all automation_id (format_timestamp at_) occurrences 0).

Definition list_active_automation_runs : AM (list AutomationRun) :=
  read (λ db, decode_run <$> sort_by (λ a b, (rr_created_at a <=? rr_created_at b)%Z)
    (List.filter (λ r, negb (is_final (rr_status r))) (adb_runs db))).

(** ** Attempts (automation_recovery_store.rs, automation_run_lifecycle_store.rs) *)

Definition of_run (run_id : string) (t : AttemptRow) : bool := String.eqb (tt_run_id t) run_id.

Definition finish_latest_automation_attempt (run_id : string) (status : AutomationRunStatus)
    (error : option string) : AM unit :=
  let! latest := read (λ db, head (sort_by (λ a b, (tt_number b <=? tt_number a)%Z)
                                     (List.filter (of_run run_id) (adb_attempts db)))) in
  match latest with
  | None => ret tt
  | Some row =>
      let! at_ := now_utc in
      let attempt := with_at_finished_at (Some at_) (with_at_error error (with_at_status status (tt_data row))) in
      update_attempt_rows (λ t, String.eqb (tt_id t) (tt_id row))
        (λ t, with_tt_finished_at (Some (format_timestamp at_)) (with_tt_data attempt (with_tt_status status t)))
  end.

(** Why an attempt may not begin. *)
Definition attempt_refused (run : AutomationRun) (max_attempts : Z) (at_ : DateTime) : bool :=
  ar_taken_over run || ar_owner_reserved run
  || negb (bool_decide (ar_status run = Rs_Pending) || bool_decide (ar_status run = Rs_Dispatching))
  || (bool_decide (ar_status run = Rs_Dispatching) && bool_decide (is_Some (ar_started_at run)))
  || bool_decide (is_Some (ar_cancel_requested_at run))
  || (max_attempts <=? ar_attempt_count run)%Z
  || match ar_absolute_deadline_at run with Some deadline => (deadline <=? at_)%Z | None => false end.

Definition hours (n : Z) : Z := (n * 3600 * second)%Z.

(** The run as its next attempt begins. *)
Definition attempted_run (run : AutomationRun) (boot_id : option string) (attempt_id : string)
    (at_ : DateTime) : AutomationRun :=
  with_ar_attempt_id (Some attempt_id) (with_ar_updated_at at_ (with_ar_retry_after None
    (with_ar_last_activity_at (Some at_) (with_ar_last_heartbeat_at (Some at_)
      (with_ar_absolute_deadline_at (Some (default (at_ + hours 24)%Z (ar_absolute_deadline_at run)))
        (with_ar_started_at (Some (default at_ (ar_started_at run)))
          (with_ar_status Rs_Dispatching
            (with_ar_attempt_count (ar_attempt_count run + 1)%Z
              (with_ar_owner_boot_id boot_id (with_ar_owner_process None run)))))))))).

Definition new_attempt (run : AutomationRun) (attempt_id : string) (at_ : DateTime) : AutomationAttempt :=
  {| at_id := attempt_id; at_run_id := ar_id run; at_number := ar_attempt_count run;
     at_launch_kind := Some (if (ar_attempt_count run =? 1)%Z then "initial" else "contextRetry");
     at_session_id := ar_session_id run; at_tab_id := ar_tab_id run;
     at_interruption_code := ar_recovery run ≫= arc_code; at_last_activity_at := Some at_;
     at_status := ar_status run; at_error := None; at_started_at := at_; at_finished_at := None |}.

Definition begin_automation_attempt (id : string) (max_attempts : Z) : AM AutomationRun :=
  let! boot_id := read adb_boot_id in
  atomically (
    do! update_run_rows (λ r, String.eqb (rr_id r) id) (λ r, r) in
    let! row := read (λ db, find_run_row db id) in
    let! row := require row "Automation run not found" in
    let run := decode_run row in
    let! at_ := now_utc in
    if attempt_refused run max_attempts at_
    then abail "Automation attempt budget or deadline exhausted"
    else
      let! attempt_id := new_uuid in
      let run := attempted_run run boot_id attempt_id at_ in
      let attempt := new_attempt run attempt_id at_ in
      do! insert_attempt_row (MkAttemptRow attempt_id id (at_number attempt) (at_status attempt) attempt
                                (format_timestamp at_) None) in
      do! update_run_rows (λ r, String.eqb (rr_id r) id)
            (λ r, with_rr_updated_at (format_timestamp at_) (with_rr_data run (with_rr_status (ar_status run) r))) in
      ret run).

Definition automation_attempts (run_id : string) : AM (list AutomationAttempt) :=
  read (λ db, tt_data <$> sort_by (λ a b, (tt_number a <=? tt_number b)%Z)
                            (List.filter (of_run run_id) (adb_attempts db))).

Definition bind_automation_attempt (run : AutomationRun) (launch_kind : string) : AM unit :=
  match ar_attempt_id run with
  | None => ret tt
  | Some id =>
      let! row := read (λ db, find_where (λ t, String.eqb (tt_id t) id && of_run (ar_id run) t)
                                (adb_attempts db)) in
      match row with
      | None => fail (Database "no rows returned")
      | Some row =>
          let attempt := with_at_last_activity_at (ar_last_activity_at run)
            (with_at_launch_kind (Some launch_kind) (with_at_tab_id (ar_tab_id run)
              (with_at_session_id (ar_session_id run) (tt_data row)))) in
          update_attempt_rows (λ t, String.eqb (tt_id t) id) (with_tt_data attempt)
      end
  end.

Definition reserved_automation_runs : AM (list AutomationRun) :=
  read (λ db, decode_run <$> List.filter (λ r, ar_owner_reserved (rr_data r)) (adb_runs db)).

Definition min_instant (a : option DateTime) (b : DateTime) : option DateTime :=
  Some (match a with Some x => Z.min x b | None => b end).

(** The moments at which one active run needs attention. *)
Definition run_deadlines (run : AutomationRun) (definition : option AutomationDefinition)
    (soon : DateTime) : list DateTime :=
  omap id
    ([if ar_owner_reserved run then None else ar_retry_after run; ar_absolute_deadline_at run;
      (λ at_, (at_ + 30 * second)%Z) <$> ar_cancel_requested_at run]
     ++ (if negb (ar_owner_reserved run) && negb (bool_decide (ar_status run = Rs_WaitingForUser))
            && negb (bool_decide (ar_status run = Rs_Pending))
         then match definition with
              | Some d => [(λ at_, (at_ + ad_inactivity_timeout_seconds d * second)%Z)
                             <$> inactivity_reference run]
              | None => []
              end
         else [])
     ++ [Some soon]).

Fixpoint wakeup_loop (runs : list AutomationRun) (nearest : option DateTime) : AM (option DateTime) :=
  match runs with
  | [] => ret nearest
  | run :: runs =>
      let! current := find_automation (ar_automation_id run) in
      let! at_ := now_utc in
      let definition := or_else (ar_definition_snapshot run) current in
      wakeup_loop runs
        (foldl min_instant nearest (run_deadlines run definition (at_ + 5 * second)%Z))
  end.

Definition next_automation_run_wakeup : AM (option DateTime) :=
  let! runs := list_active_automation_runs in
  let! nearest := wakeup_loop runs None in
  let! reserved := reserved_automation_runs in
  match reserved with
  | [] => ret nearest
  | _ => let! at_ := now_utc in ret (min_instant nearest (at_ + 5 * second)%Z)
  end.

(** ** Lifecycle (automation_run_lifecycle_store.rs) *)

Definition audit_run (run : AutomationRun) (action : string) (actor : AutomationActor) (details : json)
    : AM unit :=
  do! insert_automation_audit_event (Some (ar_automation_id run)) (Some (ar_id run)) action actor None
        details in
  ret tt.

Definition already_final {A} (id : string) : AM A := abail ("automation run is already final: " +:+ id).

Definition complete_automation_run (id : string) (status : AutomationRunStatus)
    (summary error : option string) (actor : AutomationActor) : AM AutomationRun :=
  if negb (match status with Rs_Success | Rs_Failure | Rs_Blocked => true | _ => false end)
  then abail "automation complete requires success, failure, or blocked"
  else if match summary with Some v => String.eqb (trim v) "" | None => true end
  then abail "automation completion summary is required"
  else
    let! run := existing_run id in
    if is_final (ar_status run) then ret run
    else
      let! at_ := now_utc in
      let run := with_ar_updated_at at_ (with_ar_finished_at (Some at_) (with_ar_error error
                   (with_ar_summary summary (with_ar_status status run)))) in
      let! saved := save_automation_run run in
      do! finish_latest_automation_attempt id status (ar_error run) in
      do! archive_one_time_automation_if_final (ar_automation_id run) actor in
      do! audit_run run "complete" actor (JObject [("status", JString (AutomationRunStatus_as_str status))]) in
      do! prune_automation_runs (ar_automation_id run) at_ in
      ret saved.

Definition heartbeat_automation_run (id : string) (actor : AutomationActor) : AM AutomationRun :=
  let! run := existing_run id in
  if is_final (ar_status run) then already_final id
  else
    let! at_ := now_utc in
    let run := with_ar_updated_at at_ (with_ar_recovery None (with_ar_last_activity_at (Some at_)
                 (with_ar_last_heartbeat_at (Some at_) run))) in
    let! saved := save_automation_run run in
    do! audit_run run "heartbeat" actor (JObject []) in
    ret saved.

Definition set_automation_run_waiting (id : string) (actor : AutomationActor) (waiting : bool)
    : AM AutomationRun :=
  let! run := existing_run id in
  if is_final (ar_status run) then already_final id
  else if negb waiting && negb (bool_decide (ar_status run = Rs_WaitingForUser))
  then abail ("automation run is not waiting for user input: " +:+ id)
  else
    let! at_ := now_utc in
    let run := with_ar_updated_at at_
                 (with_ar_status (if waiting then Rs_WaitingForUser else Rs_Dispatched) run) in
    let! saved := save_automation_run run in
    do! audit_run run (if waiting then "waiting" else "waitingResumed") actor (JObject []) in
    ret saved.

Definition extend_waiting_automation_run (id : string) (until : DateTime) (actor : AutomationActor)
    : AM AutomationRun :=
  let! run := existing_run id in
  if negb (bool_decide (ar_status run = Rs_WaitingForUser))
  then abail ("automation run is not waiting for user input: " +:+ id)
  else
    let! at_ := now_utc in
    let run := with_ar_updated_at at_
      (with_ar_absolute_deadline_at
         (Some (match ar_absolute_deadline_at run with Some current => Z.max current until | None => until end))
         (with_ar_waiting_extension_until (Some until) run)) in
    let! saved := save_automation_run run in
    do! audit_run run "waitingExtended" actor (JObject [("until", json_time until)]) in
    ret saved.

Definition request_automation_cancel (id : string) (actor : AutomationActor) : AM AutomationRun :=
  let! run := existing_run id in
  if is_final (ar_status run) then ret run
  else
    let! requested := now_utc in
    let! at_ := now_utc in
    let run := with_ar_updated_at at_
      (with_ar_cancel_requested_at (Some (default requested (ar_cancel_requested_at run))) run) in
    let! saved := save_automation_run run in
    do! audit_run run "cancelRequested" actor (JObject []) in
    ret saved.

Definition mark_automation_run_taken_over (id : string) (actor : AutomationActor) : AM AutomationRun :=
  let! run := existing_run id in
  do! update_tab_rows (λ t, bool_decide (tb_run_id t = Some id)) (with_tb_taken_over true) in
  if is_final (ar_status run) || ar_taken_over run then ret run
  else
    let! at_ := now_utc in
    let run := with_ar_updated_at at_ (with_ar_retry_after None
      (with_ar_recovery (with_arc_status "stoppedByTakeover" <$> ar_recovery run)
        (with_ar_taken_over true run))) in
    let! saved := save_automation_run run in
    do! audit_run run "takenOver" actor
          (JObject [("reason", JString "user attached to automation-owned tab")]) in
    ret saved.

Definition finalizer_actor (run : AutomationRun) : AutomationActor :=
  MkAutomationActor Ack_ManagedAgent (ar_actor_id run) (Some "one-time automation finalizer").

Definition update_automation_run_status (id : string) (status : AutomationRunStatus)
    (error : option string) : AM AutomationRun :=
  let! run := existing_run id in
  let! at_ := now_utc in
  let run := with_ar_updated_at at_ (with_ar_error error (with_ar_status status run)) in
  let run := if is_final status then with_ar_finished_at (Some at_) run else run in
  let! saved := save_automation_run run in
  do! (if is_final status
       then do! finish_latest_automation_attempt id status (ar_error run) in
            do! archive_one_time_automation_if_final (ar_automation_id run) (finalizer_actor run) in
            ret tt
       else ret tt) in
  ret saved.

Definition schedule_automation_retry (id : string) (retry_after : DateTime) (error : string)
    (actor : AutomationActor) : AM AutomationRun :=
  let! run := existing_run id in
  if is_final (ar_status run) then already_final id
  else
    let! at_ := now_utc in
    let run := with_ar_updated_at at_ (with_ar_finished_at None
      (with_ar_retry_after (Some retry_after) (with_ar_error (Some error)
        (with_ar_recovery (with_arc_status "waitingBackoff" <$> ar_recovery run)
          (with_ar_status Rs_Pending run))))) in
    let! saved := save_automation_run run in
    do! finish_latest_automation_attempt id Rs_Failure (Some error) in
    do! audit_run run "retryScheduled" actor
          (JObject [("retryAt", json_time retry_after); ("error", JString error)]) in
    ret saved.

(** ** The circuit breaker (automation_circuit_store.rs) *)

Definition audit_definition (automation_id : string) (d : AutomationDefinition) (action : string) (actor : AutomationActor)
    (details : json) (at_ : DateTime) : AM unit :=
  let! id := new_uuid in
  insert_audit_row (MkAutomationAuditEvent id (Some automation_id) None action actor (Some (ad_revision d))
                      details (format_timestamp at_)).

Definition existing_automation (id : string) : AM AutomationDefinition :=
  let! found := find_automation id in
  require found ("automation not found: " +:+ id).

Definition set_automation_circuit_opened (id : string) (opened : bool) (actor : AutomationActor)
    (reason : option string) : AM AutomationDefinition :=
  let! definition := existing_automation id in
  if Bool.eqb (ad_circuit_opened definition) opened then ret definition
  else
    let! opened_at := (if opened then let! at_ := now_utc in ret (Some at_) else ret None) in
    let! at_ := now_utc in
    let definition := with_ad_modified_by actor (with_ad_updated_at at_
      (with_ad_circuit_opened_at opened_at (with_ad_circuit_opened opened definition))) in
    do! update_automation_rows true (λ a, String.eqb (au_id a) id)
          (λ a, with_au_updated_at (format_timestamp at_) (with_au_data definition a)) in
    do! insert_automation_audit_event (Some id) None (if opened then "circuitOpened" else "circuitReset")
          actor (Some (ad_revision definition)) (reason_json reason) in
    ret definition.

(** The statement that writes a definition with its state. *)
Definition write_definition (id : string) (d : AutomationDefinition) : AM nat :=
  update_automation_rows true (λ a, String.eqb (au_id a) id)
    (λ a, with_au_updated_at (format_timestamp (ad_updated_at d)) (with_au_data d (with_au_state (ad_state d) a))).

Definition open_automation_circuit (id : string) (actor : AutomationActor) (reason : option string)
    : AM AutomationDefinition :=
  let! definition := existing_automation id in
  let open_circuit := negb (ad_circuit_opened definition) in
  let block_active := bool_decide (ad_state definition = As_Active) in
  if negb open_circuit && negb block_active then ret definition
  else
    let! definition :=
      (if open_circuit
       then let! at_ := now_utc in
            ret (with_ad_circuit_opened_at (Some at_) (with_ad_circuit_opened true definition))
       else ret definition) in
    let definition := if block_active then with_ad_state As_Blocked definition else definition in
    let! at_ := now_utc in
    let definition := with_ad_modified_by actor (with_ad_updated_at at_ definition) in
    atomically (
      do! write_definition id definition in
      do! (if open_circuit then audit_definition id definition "circuitOpened" actor (reason_json reason) at_
           else ret tt) in
      do! (if block_active
           then audit_definition id definition (AutomationState_as_str As_Blocked) actor (reason_json reason) at_
           else ret tt) in
      ret definition).

Definition reset_opened_automation_circuit (definition : AutomationDefinition) (actor : AutomationActor)
    (reason : string) : AM AutomationDefinition :=
  let restore_active := bool_decide (ad_state definition = As_Blocked) in
  let definition := with_ad_circuit_opened_at None (with_ad_circuit_opened false definition) in
  let definition := if restore_active then with_ad_state As_Active definition else definition in
  let! at_ := now_utc in
  let definition := with_ad_modified_by actor (with_ad_updated_at at_ definition) in
  atomically (
    do! write_definition (ad_id definition) definition in
    do! audit_definition (ad_id definition) definition "circuitReset" actor (reason_json (Some reason)) at_ in
    do! (if restore_active
         then audit_definition (ad_id definition) definition (AutomationState_as_str As_Active) actor
                (reason_json (Some reason)) at_
         else ret tt) in
    ret definition).

Definition reset_automation_circuit (id : string) (actor : AutomationActor) (reason : option string)
    : AM AutomationDefinition :=
  let! definition := existing_automation id in
  if negb (ad_circuit_opened definition) then ret definition
  else reset_opened_automation_circuit definition actor (default "automation circuit reset" reason).

(** The loop of [reset_expired_automation_circuits]: how many were reset, and
    the errors of the others with their automation. *)
Fixpoint reset_loop (at_ : DateTime) (actor : AutomationActor) (definitions : list AutomationDefinition)
    (reset : nat) (errors : list (string * Error)) : AM (nat * list (string * Error)) :=
  match definitions with
  | [] => ret (reset, errors)
  | d :: definitions =>
      if negb (ad_circuit_opened d) || negb (circuit_reset_due representable d at_)
      then reset_loop at_ actor definitions reset errors
      else λ w,
        match reset_opened_automation_circuit d actor "automation circuit open duration elapsed" w with
        | (w', Ok _) => reset_loop at_ actor definitions (S reset) errors w'
        | (w', Err e) => reset_loop at_ actor definitions reset (errors ++ [(ad_id d, e)]) w'
        end
  end.

Definition reset_expired_automation_circuits (at_ : DateTime) (actor : AutomationActor)
    : AM (nat * list (string * Error)) :=
  let! definitions := list_automations false in
  reset_loop at_ actor definitions 0 [].

Definition record_automation_runtime_started : AM DateTime :=
  let! at_ := now_utc in
  do! now_utc in
  do! write (with_adb_runtime_started_at (Some (format_timestamp at_))) in
  ret at_.

End WithEnv.
