(* ===== verification/AutomationPrecheck.v ===== *)
(** * AutomationPrecheck: processes that decide whether a run starts

    automation_precheck_process_store.rs and [capture_workspace] of
    automation_precheck_workspace_store.rs; owner_automation_precheck_store.rs (the
    prechecks this host runs for another one) and
    remote_automation_precheck_result_store.rs (the result another host reports).  A
    process is recorded before it is
    launched and followed until its closure is verified; every change compares
    the stored record with the one the caller saw. *)

From S2P Require Import Prelude Text Models Store AutomationModels Schedule Prompt AutomationDb AutomationStore.
From Stdlib Require Import ZArith Lia Ascii String.
From stdpp Require Import strings gmap prelude.

Definition LOCAL_HOST_ID : string := "local".

(** [Uuid::parse_str], up to what the code uses: the text of a valid identifier
    and whether it is the nil one. *)
Class UuidParser : Type := { parse_uuid : string → option string; nil_uuid : string }.

Definition no_rows {A} : AM A := fail (Database "no rows returned").
Definition fetch_one {A} (o : option A) : AM A := match o with Some a => ret a | None => no_rows end.

Section WithEnv.
Context `{AutomationEnv}.

(** The workspace of a target with its checkout. *)
Definition checkout_of_workspace (db : AutomationDb) (w : WorkspaceRef) : option CheckoutRow :=
  head (omap (λ b : string * string,
    if String.eqb b.1 (wk_id w)
    then find_where (λ c, String.eqb (ck_id c) b.2 && String.eqb (ck_project_id c) (wk_project_id w)
                          && String.eqb (ck_host_id c) (wk_host_id w) && String.eqb (ck_path c) (wk_path w)
                          && match wk_kind w with
                             | Wk_Main => String.eqb (ck_kind c) "project"
                             | Wk_Linked => String.eqb (ck_kind c) "linked"
                             end) (adb_checkouts db)
    else None) (adb_bindings db)).

Definition capture_workspace (workspace_id : option string) : AM (option AutomationPrecheckWorkspace) :=
  match workspace_id with
  | None => ret None
  | Some id =>
      let! row := read (λ db, head (omap (λ w, if String.eqb (wk_id w) id && wk_active w
                                               then pair w <$> checkout_of_workspace db w else None)
                                      (adb_workspaces db))) in
      let! found := fetch_one row in
      let '(w, c) := found in
      if String.eqb (trim (wk_instance_id w)) ""
      then abail "A precheck requires stable workspace instance ownership"
      else ret (Some (MkAutomationPrecheckWorkspace id (wk_instance_id w) (wk_kind w) (ck_repository_path c)))
  end.

(** Project, host and path a precheck of this target runs in. *)
Definition precheck_location (db : AutomationDb) (target : AutomationTarget)
    : Result (string * string * string) :=
  let found o := match o with Some x => Ok x | None => Err (Database "no rows returned") end in
  match target_project_checkout target with
  | Some (project, host) =>
      found ((λ c, (ck_project_id c, ck_host_id c, ck_path c)) <$>
             find_where (λ c, String.eqb (ck_project_id c) project && String.eqb (ck_host_id c) host
                              && String.eqb (ck_kind c) "project") (adb_checkouts db))
  | None =>
      match (match target_worktree target with
             | Some spec => if bool_decide (ws_parent_workspace_id spec = None) then ws_project_id spec else None
             | None => None
             end) with
      | Some project =>
          found ((λ p : string * string, (p.1, LOCAL_HOST_ID, p.2)) <$>
                 find_where (λ p : string * string, String.eqb p.1 project) (adb_projects db))
      | None =>
          match target_source_workspace_id target with
          | None => Err (Bail "Precheck target workspace is missing")
          | Some workspace =>
              found ((λ w, (wk_project_id w, wk_host_id w, wk_path w)) <$>
                     find_where (λ w, String.eqb (wk_id w) workspace) (adb_workspaces db))
          end
      end
  end.

(** Whether a run still waits for this precheck. *)
Definition precheck_current (current run : AutomationRun) (definition : AutomationDefinition) : bool :=
  bool_decide (ar_status current = Rs_Dispatching) && bool_decide (ar_precheck current = Some true)
  && bool_decide (ar_started_at current = None) && bool_decide (ar_cancel_requested_at current = None)
  && (ar_attempt_count current =? ar_attempt_count run)%Z
  && String.eqb (ar_automation_id current) (ad_id definition).

Definition begin_automation_precheck_process (run : AutomationRun) (definition : AutomationDefinition)
    (operation_id platform : string) (boot_id : option string) : AM AutomationPrecheckProcess :=
  if String.eqb (trim operation_id) "" || String.eqb (trim platform) ""
  then abail "Precheck operation identity and platform are required"
  else atomically (
    let! row := read (λ db, find_run_row db (ar_id run)) in
    let! row := fetch_one row in
    let current := decode_run row in
    if negb (precheck_current current run definition)
    then abail "Automation precheck reservation is cancelled, stale or no longer current"
    else
      let! stored := read (λ db, au_data <$> find_automation_row db (ad_id definition)) in
      let! stored := fetch_one stored in
      let latest := default stored (ar_definition_snapshot current) in
      if negb ((ad_revision latest =? ad_revision definition)%Z
               && bool_decide (ad_state latest = ad_state definition)
               && bool_decide (ad_target latest = ad_target definition)
               && bool_decide (ad_precheck latest = ad_precheck definition))
      then abail "Automation changed before precheck process launch"
      else
        let! precheck := require (ad_precheck latest) "Automation has no precheck" in
        let! db := read (λ db, db) in
        let! location := of_result (precheck_location db (ad_target latest)) in
        let '(project_id, host_id, path) := location in
        let! workspace := capture_workspace (target_source_workspace_id (ad_target latest)) in
        let record := MkAutomationPrecheckProcess operation_id (ar_id run) (ar_attempt_count run)
                        project_id host_id path precheck workspace Ph_LaunchIntent platform boot_id
                        None None None in
        do! insert_precheck_row record in
        ret record).

Definition automation_precheck_processes (run_id : string) : AM (list AutomationPrecheckProcess) :=
  read (λ db, sort_by (λ a b, String.leb (pp_id a) (pp_id b))
    (List.filter (λ p, String.eqb (pp_run_id p) run_id) (adb_prechecks db))).

(** [UPDATE ... WHERE id = ? AND recordJson = ?]: compare and swap. *)
Definition swap_precheck_process (changed : string) (previous next : AutomationPrecheckProcess)
    : AM AutomationPrecheckProcess :=
  let! db := read (λ db, db) in
  let same p := bool_decide (p = previous) in
  do! write (with_adb_prechecks (update_where same (λ _, next) (adb_prechecks db))) in
  if negb (Nat.eqb (count_where same (adb_prechecks db)) 1) then abail changed
  else ret next.
Definition update_precheck_process : AutomationPrecheckProcess → AutomationPrecheckProcess → AM AutomationPrecheckProcess :=
  swap_precheck_process "Precheck process evidence changed; reload before retrying".

Definition record_automation_precheck_spawn (previous : AutomationPrecheckProcess) (pid : Z)
    (start_marker : option Z) : AM AutomationPrecheckProcess :=
  if negb (bool_decide (pp_phase previous = Ph_LaunchIntent)) || (pid =? 0)%Z
  then abail "Invalid precheck spawn transition"
  else update_precheck_process previous
         (with_pp_phase Ph_Spawned (with_pp_start_marker start_marker (with_pp_pid (Some pid) previous))).

Definition phase_step (from to_ : WorkspaceProcessJobPhase) : bool :=
  match from, to_ with
  | Ph_LaunchIntent, Ph_SpawnFailed | Ph_Spawned, Ph_RootExited | Ph_RootExited, Ph_ClosureVerified => true
  | _, _ => false
  end.

Definition record_automation_precheck_phase (previous : AutomationPrecheckProcess)
    (phase : WorkspaceProcessJobPhase) : AM AutomationPrecheckProcess :=
  if negb (phase_step (pp_phase previous) phase)
  then abail "Invalid precheck process lifecycle transition"
  else update_precheck_process previous (with_pp_phase phase previous).

Definition close_automation_precheck_from_previous_boot `{UuidParser}
    (previous : AutomationPrecheckProcess) (current_boot_id : string) : AM AutomationPrecheckProcess :=
  if negb (String.eqb (pp_host_id previous) LOCAL_HOST_ID) || negb (String.eqb (pp_platform previous) "linux")
  then abail "Precheck reboot recovery requires evidence from its owning Linux host"
  else
    let! old_boot := require (parse_uuid (default "" (pp_boot_id previous))) "invalid identifier" in
    let! current_boot := require (parse_uuid current_boot_id) "invalid identifier" in
    if String.eqb old_boot current_boot || String.eqb old_boot nil_uuid || String.eqb current_boot nil_uuid
    then abail "Precheck reboot recovery requires a different verified boot"
    else if phase_closed (pp_phase previous)
    then abail "Precheck process is already closed"
    else update_precheck_process previous
           (with_pp_closure_boot_id (Some current_boot) (with_pp_phase Ph_ClosureVerified previous)).

End WithEnv.

(** ** Prechecks this host runs for another (owner_automation_precheck_store.rs) *)

Record OwnerAutomationPrecheckRequest : Type := MkOwnerRequest {
  owq_operation_id : string;
  owq_origin_id : string;
  owq_run_id : string;
  owq_project_id : string;
  owq_path : string;
  owq_precheck : AutomationPrecheck;
  owq_workspace : option AutomationPrecheckWorkspace
}.
#[export] Instance OwnerAutomationPrecheckRequest_eq_dec : EqDecision OwnerAutomationPrecheckRequest.
Proof. solve_decision. Defined.

Inductive OwnerAutomationPrecheckOutcome : Type :=
| Ow_Passed
| Ow_Rejected
| Ow_Cancelled
| Ow_TimedOut
| Ow_Failed (message : string).
#[export] Instance OwnerAutomationPrecheckOutcome_eq_dec : EqDecision OwnerAutomationPrecheckOutcome.
Proof. solve_decision. Defined.

Record OwnerAutomationPrecheck : Type := MkOwnerPrecheck {
  own_request : OwnerAutomationPrecheckRequest;
  own_cancel_requested : bool;
  own_process_id : option string;
  own_outcome : option OwnerAutomationPrecheckOutcome;
  own_attention : option string
}.

(** The table of these reservations, keyed by operation, beside the automation
    tables. *)
Record OwnerWorld : Type := MkOwnerWorld {
  ow_home : AutomationWorld;
  ow_jobs : gmap string OwnerAutomationPrecheck
}.
Abbreviation OM := (M OwnerWorld).

Definition in_home {A} (m : AM A) : OM A := λ w,
  let (h, r) := m (ow_home w) in (MkOwnerWorld h (ow_jobs w), r).
Definition obail {A} (msg : string) : OM A := fail (Bail msg).
Definition job_of (operation_id : string) : OM (option OwnerAutomationPrecheck) := gets (λ w, ow_jobs w !! operation_id).
Definition set_job (operation_id : string) (job : OwnerAutomationPrecheck) : OM unit :=
  modify (λ w, MkOwnerWorld (ow_home w) (<[operation_id := job]> (ow_jobs w))).
Definition owner_tx {A} (m : OM A) : OM A := λ w,
  match m w with
  | (w', Ok a) => (w', Ok a)
  | (w', Err e) =>
      (MkOwnerWorld (MkAutomationWorld (aw_db (ow_home w)) (aw_ticks (ow_home w')) (aw_uuids (ow_home w'))) (ow_jobs w), Err e)
  end.

Section Owner.
Context `{AutomationEnv} `{UuidParser}.

Definition owner_target_registered (request : OwnerAutomationPrecheckRequest) : AM bool :=
  match owq_workspace request with
  | None =>
      read (λ db, existsb (λ c, project_exists db (ck_project_id c) && String.eqb (ck_project_id c) (owq_project_id request)
                               && String.eqb (ck_host_id c) LOCAL_HOST_ID && String.eqb (ck_path c) (owq_path request)
                               && String.eqb (ck_kind c) "project") (adb_checkouts db))
  | Some workspace =>
      if negb (bool_decide (apw_kind workspace = Wk_Linked)) || String.eqb (trim (apw_workspace_id workspace)) ""
         || String.eqb (trim (apw_instance_id workspace)) ""
         || match apw_repository_path workspace with None => true | Some path => String.eqb (trim path) "" end
      then abail "An owner linked precheck requires its exact workspace, instance and repository origin"
      else
        read (λ db, existsb (λ w, String.eqb (wk_id w) (apw_workspace_id workspace)
                                 && String.eqb (wk_instance_id w) (apw_instance_id workspace)
                                 && String.eqb (wk_project_id w) (owq_project_id request)
                                 && String.eqb (wk_host_id w) LOCAL_HOST_ID && String.eqb (wk_path w) (owq_path request)
                                 && bool_decide (wk_kind w = Wk_Linked) && wk_active w && project_exists db (wk_project_id w)
                                 && match checkout_of_workspace db w with
                                    | Some c => bool_decide (ck_repository_path c = apw_repository_path workspace)
                                    | None => false
                                    end) (adb_workspaces db))
  end.

Definition owner_request_valid (request : OwnerAutomationPrecheckRequest) : bool :=
  match parse_uuid (owq_operation_id request) with
  | None => false
  | Some operation =>
      negb (String.eqb operation nil_uuid || negb (String.eqb operation (owq_operation_id request))
            || String.eqb (trim (owq_origin_id request)) "" || String.eqb (trim (owq_run_id request)) ""
            || String.eqb (trim (owq_project_id request)) "" || String.eqb (trim (owq_path request)) ""
            || String.eqb (trim (apc_command (owq_precheck request))) ""
            || negb ((1 <=? apc_timeout_seconds (owq_precheck request))%Z && (apc_timeout_seconds (owq_precheck request) <=? 900)%Z))
  end.

Definition register_owner_precheck (request : OwnerAutomationPrecheckRequest) (cancelled : bool)
    : OM OwnerAutomationPrecheck :=
  if negb (owner_request_valid request)
  then obail "Owner precheck requires exact origin, run, project, checkout and bounded command identities"
  else owner_tx (
    let! registered := in_home (owner_target_registered request) in
    if negb registered
    then obail "Register and inspect the owner project checkout before reserving a precheck"
    else
      let id := owq_operation_id request in
      let! existing := job_of id in
      do! (match existing with
           | Some _ => ret tt
           | None => set_job id (MkOwnerPrecheck request cancelled None None None)
           end) in
      let job := default (MkOwnerPrecheck request cancelled None None None) existing in
      if negb (bool_decide (own_request job = request))
      then obail "Owner precheck operation already belongs to a different request"
      else if cancelled && negb (own_cancel_requested job)
      then let job := MkOwnerPrecheck request true (own_process_id job) (own_outcome job) (own_attention job) in
           do! set_job id job in ret job
      else ret job).

Definition register_owner_automation_precheck (request : OwnerAutomationPrecheckRequest) : OM OwnerAutomationPrecheck :=
  register_owner_precheck request false.

Definition same_job (request : OwnerAutomationPrecheckRequest) (job : option OwnerAutomationPrecheck)
    : option OwnerAutomationPrecheck :=
  match job with Some j => if bool_decide (own_request j = request) then Some j else None | None => None end.

Definition cancel_owner_automation_precheck (request : OwnerAutomationPrecheckRequest) : OM unit :=
  let! job := job_of (owq_operation_id request) in
  match same_job request job with
  | Some j => set_job (owq_operation_id request)
                (MkOwnerPrecheck request true (own_process_id j) (own_outcome j) (own_attention j))
  | None => do! register_owner_precheck request true in ret tt
  end.

Definition set_owner_precheck_attention (request : OwnerAutomationPrecheckRequest) (reason : option string) : OM unit :=
  let reason := (λ text, redact_known_patterns (of_chars (take 2048 (chars text)))) <$> reason in
  let! job := job_of (owq_operation_id request) in
  match same_job request job with
  | Some (MkOwnerPrecheck _ c p None _) => set_job (owq_operation_id request) (MkOwnerPrecheck request c p None reason)
  | _ => obail "Owner precheck identity changed or is missing"
  end.

(** The process a reservation launches. *)
Definition owner_process_id (operation_id : string) : string := "owner-precheck:" +:+ operation_id.
Definition owner_process (request : OwnerAutomationPrecheckRequest) (platform : string) (boot_id : option string)
    : AutomationPrecheckProcess :=
  let id := owner_process_id (owq_operation_id request) in
  MkAutomationPrecheckProcess id id 0 (owq_project_id request) LOCAL_HOST_ID (owq_path request) (owq_precheck request)
    (owq_workspace request) Ph_LaunchIntent platform boot_id None None None.

Definition claim_owner_automation_precheck (request : OwnerAutomationPrecheckRequest) (platform : string)
    (boot_id : option string) : OM (option AutomationPrecheckProcess) :=
  if negb (bool_decide (platform ∈ ["linux"; "macos"; "windows"])) then obail "Unsupported precheck owner platform"
  else owner_tx (
    let! job := job_of (owq_operation_id request) in
    match job with
    | None => obail "Owner precheck reservation is missing"
    | Some job =>
        if negb (bool_decide (own_request job = request)) then obail "Owner precheck request changed before launch"
        else if own_cancel_requested job || bool_decide (is_Some (own_process_id job)) then ret None
        else
          let! registered := in_home (owner_target_registered request) in
          if negb registered then obail "Owner precheck checkout changed before launch"
          else
            let process := owner_process request platform boot_id in
            do! in_home (insert_precheck_row process) in
            do! set_job (owq_operation_id request)
                  (MkOwnerPrecheck request (own_cancel_requested job) (Some (pp_id process)) (own_outcome job) (own_attention job)) in
            ret (Some process)
    end).

Definition outcome_open (outcome : OwnerAutomationPrecheckOutcome) : bool :=
  match outcome with Ow_Passed | Ow_Rejected => true | _ => false end.

Definition finish_owner_automation_precheck (request : OwnerAutomationPrecheckRequest)
    (outcome : OwnerAutomationPrecheckOutcome) : OM unit :=
  owner_tx (
    let! job := job_of (owq_operation_id request) in
    match job with
    | None => obail "Owner precheck reservation is missing"
    | Some job =>
        if negb (bool_decide (own_request job = request)) then obail "Owner precheck identity changed before completion"
        else match own_outcome job with
        | Some previous =>
            if bool_decide (previous = outcome) then ret tt else obail "Owner precheck already has a different result"
        | None =>
            do! (match own_process_id job with
                 | Some id =>
                     let! row := in_home (read (λ db, find_where (λ p, String.eqb (pp_id p) id) (adb_prechecks db))) in
                     let! process := in_home (fetch_one row) in
                     if bool_decide (is_Some (pp_closure_boot_id process)) && outcome_open outcome
                     then obail "A reboot proves process closure but cannot recover its command result"
                     else if match pp_phase process with
                             | Ph_ClosureVerified => true
                             | Ph_SpawnFailed => negb (outcome_open outcome)
                             | _ => false
                             end then ret tt
                     else obail "Owner precheck process closure is unverified; retain its reservation"
                 | None =>
                     if own_cancel_requested job && bool_decide (outcome = Ow_Cancelled) then ret tt
                     else obail "Only cancellation before launch can complete without process evidence"
                 end) in
            set_job (owq_operation_id request)
              (MkOwnerPrecheck request (own_cancel_requested job) (own_process_id job) (Some outcome) None)
        end
    end).

(** ** Results of remote owners (remote_automation_precheck_result_store.rs) *)

Definition remote_owner_request (p : AutomationPrecheckProcess) : Result OwnerAutomationPrecheckRequest :=
  match parse_uuid (pp_id p) with
  | None => Err (Bail "invalid identifier")
  | Some operation =>
      if String.eqb operation nil_uuid || negb (String.eqb operation (pp_id p)) || String.eqb (pp_host_id p) LOCAL_HOST_ID
         || String.eqb (trim (pp_host_id p)) "" || String.eqb (trim (pp_run_id p)) ""
      then Err (Bail "A remote precheck requires its retained Home operation and run identities")
      else Ok (MkOwnerRequest (pp_id p) ("automation-run:" +:+ pp_run_id p) (pp_run_id p) (pp_project_id p) (pp_path p)
                 (pp_precheck p)
                 (match pp_workspace p with
                  | Some w => if bool_decide (apw_kind w = Wk_Linked) then Some w else None
                  | None => None
                  end))
  end.

(** [validate_result] *)
Definition evidence_matches (home process : AutomationPrecheckProcess) (job : OwnerAutomationPrecheck) (process_id : string)
    (outcome : OwnerAutomationPrecheckOutcome) : bool :=
  String.eqb process_id (owner_process_id (pp_id home)) && String.eqb (pp_id process) process_id
  && String.eqb (pp_run_id process) process_id && String.eqb (pp_project_id process) (pp_project_id home)
  && String.eqb (pp_host_id process) LOCAL_HOST_ID && String.eqb (pp_path process) (pp_path home)
  && bool_decide (pp_precheck process = pp_precheck home)
  && bool_decide (pp_workspace process = owq_workspace (own_request job))
  && String.eqb (pp_platform process) (pp_platform home) && (pp_attempt_count process =? 0)%Z
  && match pp_phase process with Ph_ClosureVerified | Ph_SpawnFailed => true | _ => false end
  && negb ((bool_decide (pp_phase process = Ph_SpawnFailed) || bool_decide (is_Some (pp_closure_boot_id process)))
           && outcome_open outcome)
  && negb (outcome_open outcome && bool_decide (pp_pid process = None)).

Definition validate_result (home : AutomationPrecheckProcess) (job : OwnerAutomationPrecheck)
    (processes : list AutomationPrecheckProcess) : Result unit :=
  let mismatch := Err (Bail "Owner result does not match Home's retained remote precheck intent") in
  if negb (bool_decide (pp_phase home = Ph_LaunchIntent)) then mismatch
  else match remote_owner_request home with
  | Err e => Err e
  | Ok request =>
      if negb (bool_decide (own_request job = request)) || bool_decide (is_Some (own_attention job))
         || bool_decide (is_Some (pp_pid home)) || bool_decide (is_Some (pp_boot_id home)) then mismatch
      else match own_outcome job with
      | None => Err (Bail "Owner precheck is not complete")
      | Some outcome =>
          match own_process_id job with
          | None =>
              if own_cancel_requested job && bool_decide (outcome = Ow_Cancelled) && match processes with [] => true | _ => false end
              then Ok tt
              else Err (Bail "Only verified cancellation before claim can omit owner process evidence")
          | Some process_id =>
              match processes with
              | [process] =>
                  if evidence_matches home process job process_id outcome then Ok tt
                  else Err (Bail "Owner process evidence does not prove closure and the reported command result")
              | _ => Err (Bail "Owner result must include its exact process evidence")
              end
          end
      end
  end.

(** The result itself goes to a table of its own, keyed by the process, which only
    [remote_precheck_result] reads. *)
Definition record_remote_precheck_result (previous : AutomationPrecheckProcess) (job : OwnerAutomationPrecheck)
    (processes : list AutomationPrecheckProcess) : AM AutomationPrecheckProcess :=
  do! of_result (validate_result previous job processes) in
  atomically (swap_precheck_process "Home precheck evidence changed; reload before accepting the owner result"
    previous (with_pp_phase Ph_ClosureVerified previous)).
End Owner.
