(* ===== verification/AutomationCleanup.v ===== *)
(** * AutomationCleanup: promised cleanups and bound targets

    automation_cleanup_attempt_store.rs (a cleanup intent is claimed by one
    worker at a time and settled by the worker that claimed it last) and
    automation_binding_store.rs (the target a reusing automation returns to);
    automation_shared_workspace_store.rs (the task a run is given on a project's
    checkout) and what the removal of a workspace does to the automations
    (workspace_retirement.rs). *)

From S2P Require Import Prelude Text Models Store AutomationModels Schedule Prompt AutomationDb AutomationStore.
From Stdlib Require Import ZArith Lia Ascii String.
From stdpp Require Import strings prelude.

Definition timestamp_millis (t : DateTime) : Z := (t `div` 1000000)%Z.

Definition intent_open (c : CleanupIntent) : bool :=
  match ci_state c with Ci_Pending | Ci_Running => true | _ => false end.

Record AutomationCleanupAttempt : Type := MkAutomationCleanupAttempt {
  aca_id : string;
  aca_run : AutomationRun;
  aca_workspace : WorkspaceRef
}.

Section WithEnv.
Context `{AutomationEnv}.

(** ** Cleanup intents *)

Definition update_intent_rows (p : CleanupIntent → bool) (f : CleanupIntent → CleanupIntent) : AM nat :=
  let! db := read (λ db, db) in
  do! write (with_adb_intents (update_where p f (adb_intents db))) in
  ret (count_where p (adb_intents db)).

(** The earliest open intent; the column counts milliseconds. *)
Definition next_automation_shared_cleanup_at : AM (option DateTime) :=
  let! timestamp := read (λ db, match ci_ready_at <$> List.filter intent_open (adb_intents db) with
                                | [] => None
                                | z :: zs => Some (foldr Z.min z zs)
                                end) in
  match timestamp with
  | None => ret None
  | Some value =>
      if representable (value * 1000000)%Z then ret (Some (value * 1000000)%Z)
      else abail "Invalid automation cleanup recovery timestamp"
  end.

(** Whether the host still has automation work (automation_store.rs). *)
Definition has_pending_automation_work : AM bool :=
  let! cleanup := next_automation_shared_cleanup_at in
  match cleanup with
  | Some _ => ret true
  | None =>
      let! active := has_active_automations in
      if active : bool then ret true
      else
        let! reserved := reserved_automation_runs in
        let! running := list_active_automation_runs in
        match reserved, running with
        | [], [] => let! definitions := list_automations false in ret (existsb ad_circuit_opened definitions)
        | _, _ => ret true
        end
  end.

Definition due_first (a b : CleanupIntent) : bool :=
  (ci_ready_at a <? ci_ready_at b)%Z
  || ((ci_ready_at a =? ci_ready_at b)%Z && String.leb (ci_run_id a) (ci_run_id b)).

Definition due_automation_shared_cleanups (at_ : DateTime) : AM (list string) :=
  read (λ db, ci_run_id <$> take 8 (sort_by due_first
    (List.filter (λ c, intent_open c && (ci_ready_at c <=? timestamp_millis at_)%Z) (adb_intents db)))).

Definition claimable (run_id : string) (at_ : DateTime) (c : CleanupIntent) : bool :=
  String.eqb (ci_run_id c) run_id && intent_open c && (ci_ready_at c <=? timestamp_millis at_)%Z.

Definition claim_automation_shared_cleanup (run_id : string) (at_ : DateTime)
    : AM (option AutomationCleanupAttempt) :=
  let! id := new_uuid in
  let! row := read (λ db, find_where (claimable run_id at_) (adb_intents db)) in
  do! update_intent_rows (claimable run_id at_)
        (λ c, with_ci_attempts (ci_attempts c + 1)%Z
                (with_ci_ready_at (timestamp_millis at_ + 120000)%Z
                  (with_ci_attempt_id (Some id) (with_ci_state Ci_Running c)))) in
  ret ((λ c, MkAutomationCleanupAttempt id (ci_run c) (ci_workspace c)) <$> row).

Definition settleable (attempt : AutomationCleanupAttempt) (c : CleanupIntent) : bool :=
  String.eqb (ci_run_id c) (ar_id (aca_run attempt))
  && bool_decide (ci_attempt_id c = Some (aca_id attempt)) && bool_decide (ci_state c = Ci_Running)
  && String.eqb (ci_workspace_id c) (wk_id (aca_workspace attempt))
  && String.eqb (ci_instance_id c) (wk_instance_id (aca_workspace attempt)).

Definition settle_automation_shared_cleanup (attempt : AutomationCleanupAttempt) (retry : bool)
    (error : option string) (at_ : DateTime) : AM bool :=
  let! db := read (λ db, db) in
  let! changed := update_intent_rows (settleable attempt)
    (λ c, with_ci_last_error error (with_ci_ready_at (timestamp_millis at_ + 60000)%Z
            (with_ci_state
               (if bool_decide ((ci_workspace_id c, ci_instance_id c) ∈ adb_retirements db)
                then Ci_Completed else if retry then Ci_Pending else Ci_Preserved) c))) in
  ret (Nat.eqb changed 1).

(** ** Bound targets *)

Definition binding_actor : AutomationActor :=
  MkAutomationActor Ack_ManagedAgent None (Some "Alera Automation Binding").

Definition audit_binding (automation_id action : string) (details : json) : AM unit :=
  let! id := new_uuid in
  let! at_ := now_utc in
  insert_audit_row (MkAutomationAuditEvent id (Some automation_id) None action binding_actor None details
                      (format_timestamp at_)).

Definition bound_of (db : AutomationDb) (automation_id : string) : option AutomationBoundTarget :=
  find_automation_row db automation_id ≫= λ a, ad_bound_target (au_data a).

(** Rewrite the bound target inside the stored JSON. *)
Definition update_bound (p : AutomationRow → bool)
    (f : option AutomationBoundTarget → option AutomationBoundTarget) : AM nat :=
  update_automation_rows true p
    (λ a, with_au_data (with_ad_bound_target (f (ad_bound_target (au_data a))) (au_data a)) a).

Definition release_tab_in (automation_id reason : string) : AM bool :=
  let! bound := read (λ db, bound_of db automation_id) in
  match bound ≫= abt_tab_id with
  | None => ret false
  | Some tab =>
      do! update_bound (λ a, String.eqb (au_id a) automation_id)
            (fmap (λ b, with_abt_conversation_id None (with_abt_tab_id None b))) in
      do! audit_binding automation_id "boundTabReleased"
            (JObject [("reason", JString reason); ("tabId", JString tab)]) in
      ret true
  end.

Definition clear_in (automation_id reason : string) : AM bool :=
  let! bound := read (λ db, bound_of db automation_id) in
  match bound with
  | None => ret false
  | Some b =>
      do! update_bound (λ a, String.eqb (au_id a) automation_id) (λ _, None) in
      do! audit_binding automation_id "targetUnbound"
            (JObject [("reason", JString reason); ("workspaceId", JString (abt_workspace_id b))]) in
      ret true
  end.

Definition bind_automation_target (automation_id : string) (binding : AutomationBoundTarget)
    (reason : string) : AM bool :=
  atomically (
    let! changed := update_bound (λ a, String.eqb (au_id a) automation_id) (λ _, Some binding) in
    if Nat.ltb 0 changed
    then
      do! audit_binding automation_id "targetBound"
            (JObject [("reason", JString reason); ("runId", JString (abt_bound_run_id binding));
                      ("workspaceId", JString (abt_workspace_id binding));
                      ("tabId", json_opt JString (abt_tab_id binding));
                      ("conversationId", json_opt JString (abt_conversation_id binding))]) in
      ret true
    else ret false).

Definition touch_automation_bound_target (automation_id run_id : string) (at_ : DateTime) : AM bool :=
  let! changed := update_bound
    (λ a, String.eqb (au_id a) automation_id && bool_decide (is_Some (ad_bound_target (au_data a))))
    (fmap (λ b, with_abt_last_verified_at (Some at_) (with_abt_last_run_id (Some run_id) b))) in
  ret (Nat.ltb 0 changed).

Definition release_automation_bound_tab (automation_id reason : string) : AM bool :=
  atomically (release_tab_in automation_id reason).

Definition clear_automation_bound_target (automation_id reason : string) : AM bool :=
  atomically (clear_in automation_id reason).

Definition bound_ids (db : AutomationDb) (p : AutomationBoundTarget → bool) : list string :=
  au_id <$> List.filter (λ a, match ad_bound_target (au_data a) with Some b => p b | None => false end)
              (adb_automations db).

Definition release_automation_bound_tabs_for_tab (tab_id reason : string) : AM (list string) :=
  atomically (
    let! ids := read (λ db, bound_ids db (λ b, bool_decide (abt_tab_id b = Some tab_id))) in
    do! mapM_ (λ id, do! release_tab_in id reason in ret tt) ids in
    ret ids).

Definition clear_automation_bound_targets_for_workspace (workspace_id reason : string) : AM (list string) :=
  atomically (
    let! ids := read (λ db, bound_ids db (λ b, String.eqb (abt_workspace_id b) workspace_id)) in
    do! mapM_ (λ id, do! clear_in id reason in ret tt) ids in
    ret ids).

End WithEnv.

(** ** Shared workspaces (automation_shared_workspace_store.rs) *)

#[export] Instance AutomationActor_eq_dec : EqDecision AutomationActor.
Proof. solve_decision. Defined.
#[export] Instance AutomationWorkspacePlacement_eq_dec : EqDecision AutomationWorkspacePlacement.
Proof. solve_decision. Defined.
#[export] Instance AutomationBoundTarget_eq_dec : EqDecision AutomationBoundTarget.
Proof. solve_decision. Defined.
#[export] Instance AutomationDefinition_eq_dec : EqDecision AutomationDefinition.
Proof. solve_decision. Defined.
#[export] Instance AutomationRecovery_eq_dec : EqDecision AutomationRecovery.
Proof. solve_decision. Defined.
#[export] Instance AutomationProcessIdentity_eq_dec : EqDecision AutomationProcessIdentity.
Proof. solve_decision. Defined.
#[export] Instance AutomationRun_eq_dec : EqDecision AutomationRun.
Proof. solve_decision. Defined.

Definition with_ar_workspace (id branch : option string) (owned : bool) (x : AutomationRun) : AutomationRun :=
  MkAutomationRun (ar_id x) (ar_automation_id x) (ar_number x) (ar_occurrence_key x) (ar_definition_revision x)
    (ar_definition_snapshot x) (ar_attempt_id x) (ar_native_conversation_id x) (ar_recovery x) (ar_last_activity_at x)
    (ar_continue_from_run_id x) (ar_owner_reserved x) (ar_owner_process x) (ar_owner_boot_id x) (ar_scheduled_at x)
    (ar_trigger x) (ar_actor_kind x) (ar_actor_id x) (ar_target_identity x) (ar_overlap_policy x) (ar_precheck x)
    (ar_status x) (ar_summary x) (ar_error x) (ar_rendered_prompt x) (ar_reuse x) id (ar_tab_id x)
    (ar_setup_tab_id x) branch (ar_session_id x) owned (ar_owned_tab x) (ar_taken_over x) (ar_attempt_count x)
    (ar_started_at x) (ar_last_heartbeat_at x) (ar_absolute_deadline_at x) (ar_waiting_extension_until x)
    (ar_cancel_requested_at x) (ar_retry_after x) (ar_finished_at x) (ar_created_at x) (ar_updated_at x).

Section Allocation.
Context `{AutomationEnv}.

(** A workspace as the caller proposes it: the row, its branch, whether it is fresh
    task state ([validate_new_task]), the checkout path the workspace store finds for
    it and the writes of that store (its binding and its row). *)
Record NewTask : Type := MkNewTask {
  nt_workspace : WorkspaceRef;
  nt_branch : option string;
  nt_fresh : bool;
  nt_checkout_path : Result string;
  nt_store : AM unit
}.

Definition allocated_run (workspace : WorkspaceRef) (branch : option string) (at_ : DateTime) (run : AutomationRun) : AutomationRun :=
  let identity := (λ i, MkAutomationTargetIdentity (Some (wk_id workspace)) (ati_tab_id i) (ati_session_id i)
                          (ati_profile_id i) (ati_conversation_id i) (ati_terminal_handle i)) <$> ar_target_identity run in
  with_ar_target_identity identity (with_ar_updated_at at_ (with_ar_workspace (Some (wk_id workspace)) branch true run)).

(** INSERT into automationSharedWorkspaceAllocations. *)
Definition insert_allocation_row (row : AllocationRow) : AM unit :=
  let! db := read (λ db, db) in
  guarded (if existsb (λ x, String.eqb (al_run_id x) (al_run_id row) || String.eqb (al_workspace_id x) (al_workspace_id row))
                (adb_allocations db)
           then Some "UNIQUE constraint failed: automationSharedWorkspaceAllocations" else None)
    (with_adb_allocations (adb_allocations db ++ [row])).

(** The task a run was given before, still where it was. *)
Definition replayed_allocation (run : AutomationRun) (owned workspace : WorkspaceRef) : AM (AutomationRun * WorkspaceRef) :=
  if negb (ar_owned_workspace run) || negb (bool_decide (ar_workspace_id run = Some (wk_id owned)))
     || negb (String.eqb (wk_project_id owned) (wk_project_id workspace))
     || negb (String.eqb (wk_host_id owned) (wk_host_id workspace)) || negb (String.eqb (wk_path owned) (wk_path workspace))
  then abail "Automation task allocation no longer matches the requested checkout"
  else
    let! live := read (λ db, find_where (λ x, String.eqb (wk_id x) (wk_id owned)) (adb_workspaces db)) in
    let! live := require live "The allocated automation task was removed; it will not be recreated" in
    if negb (String.eqb (wk_instance_id live) (wk_instance_id owned) && String.eqb (wk_project_id live) (wk_project_id owned)
             && String.eqb (wk_host_id live) (wk_host_id owned) && String.eqb (wk_path live) (wk_path owned)
             && bool_decide (wk_kind live = Wk_Main))
    then abail "The allocated automation task identity or location changed"
    else ret (run, live).

Definition ready_to_allocate (run expected : AutomationRun) : bool :=
  bool_decide (run = expected) && bool_decide (ar_status run = Rs_Dispatching)
  && bool_decide (ar_cancel_requested_at run = None) && negb (ar_taken_over run).

Definition allocate_new_task (task : NewTask) (workspace : WorkspaceRef) (run : AutomationRun)
    : AM (AutomationRun * WorkspaceRef) :=
  if bool_decide (is_Some (ar_workspace_id run)) || ar_owned_workspace run || bool_decide (is_Some (ar_tab_id run))
     || bool_decide (is_Some (ar_session_id run))
  then abail "Automation run already has a different target"
  else
    let! registered := read (λ db, count_where (λ c,
      String.eqb (ck_project_id c) (wk_project_id workspace) && String.eqb (ck_host_id c) (wk_host_id workspace)
      && String.eqb (ck_path c) (wk_path workspace) && String.eqb (ck_kind c) "project"
      && project_exists db (ck_project_id c)) (adb_checkouts db)) in
    if negb (Nat.eqb registered 1)
    then abail "Register the project checkout on the execution host before allocating an automation task"
    else
      do! nt_store task in
      let! at_ := now_utc in
      let run := allocated_run workspace (nt_branch task) at_ run in
      do! update_run_rows (λ r, String.eqb (rr_id r) (ar_id run))
            (λ r, with_rr_updated_at (format_timestamp at_) (with_rr_data run r)) in
      do! insert_allocation_row (MkAllocationRow (ar_id run) (wk_id workspace) workspace) in
      ret (run, workspace).

Definition allocate_automation_shared_workspace (expected_run : AutomationRun) (task : NewTask)
    : AM (AutomationRun * WorkspaceRef) :=
  if negb (nt_fresh task) then abail "An automation allocation requires fresh task state on a project checkout"
  else
    let! path := of_result (nt_checkout_path task) in
    let w := nt_workspace task in
    let workspace := MkWorkspaceRef (wk_id w) (wk_instance_id w) (wk_host_id w) (wk_project_id w) path (wk_kind w) (wk_active w) in
    let! row := read (λ db, find_run_row db (ar_id expected_run)) in
    let! row := require row "Automation run no longer exists" in
    let run := decode_run row in
    if negb (ready_to_allocate run expected_run) then abail "Automation run changed or is not ready to allocate a task"
    else
      let! answer := atomically (
        let! locked := update_run_rows (λ r, String.eqb (rr_id r) (ar_id run) && bool_decide (rr_status r = Rs_Dispatching)
                                              && bool_decide (rr_data r = rr_data row)) (λ r, r) in
        if negb (Nat.eqb locked 1) then abail "Automation run changed before task allocation"
        else
          let! stored := read (λ db, find_automation_row db (ar_automation_id run)) in
          let! stored := require stored "Automation definition no longer exists" in
          let definition := default (au_data stored) (ar_definition_snapshot run) in
          if negb (bool_decide (target_project_checkout (ad_target definition) = Some (wk_project_id workspace, wk_host_id workspace)))
          then abail "Automation target does not match the requested project and execution host"
          else if match ad_project_id definition with Some id => negb (String.eqb id (wk_project_id workspace)) | None => false end
          then abail "Automation project does not match the requested checkout"
          else
            let! receipt := read (λ db, find_where (λ a, String.eqb (al_run_id a) (ar_id run)) (adb_allocations db)) in
            match receipt with
            | Some allocation => let! live := replayed_allocation run (al_workspace allocation) workspace in ret (true, live)
            | None => let! fresh := allocate_new_task task workspace run in ret (false, fresh)
            end) in
      let '(replayed, (run, workspace)) := answer in
      if replayed : bool then ret (run, workspace)
      else
        let! persisted := find_automation_run (ar_id run) in
        let! persisted := require persisted "Automation run disappeared after task allocation" in
        ret (persisted, workspace).

(** ** What a removed workspace leaves (workspace_retirement.rs) *)

Definition with_ad_origin_workspace_id (v : option string) (x : AutomationDefinition) : AutomationDefinition :=
  MkAutomationDefinition (ad_id x) (ad_slug x) (ad_name x) (ad_description x) (ad_project_id x)
    (ad_tag_ids x) (ad_prompt_template x) (ad_schedule x) (ad_target x) (ad_setup_policy x)
    (ad_cleanup_policy x) (ad_overlap_policy x) (ad_queue_cap x) (ad_inactivity_timeout_seconds x)
    (ad_heartbeat_interval_seconds x) (ad_misfire_grace_seconds x) (ad_misfire_policy x)
    (ad_retry_max_attempts x) (ad_retry_backoff_seconds x) (ad_circuit_failure_threshold x)
    (ad_circuit_open_seconds x) (ad_precheck x) (ad_notify_on_success x) (ad_circuit_opened x)
    (ad_circuit_opened_at x) (ad_state x) (ad_revision x) (ad_approved_revision x)
    v (ad_schedule_cursor_at x) (ad_creation_request_key x)
    (ad_creation_request_fingerprint x) (ad_state_before_trash x) (ad_workspace_placement x)
    (ad_reuse_policy x) (ad_bound_target x) (ad_created_by x) (ad_modified_by x) (ad_created_at x) (ad_updated_at x).

(** The automations that came from or were bound to the workspace forget it. *)
Definition forget_workspace (workspace_id : string) : AM unit :=
  atomically (
    do! update_automation_rows true (λ a, bool_decide (ad_origin_workspace_id (au_data a) = Some workspace_id))
          (λ a, with_au_data (with_ad_origin_workspace_id None (au_data a)) a) in
    let! ids := read (λ db, bound_ids db (λ b, String.eqb (abt_workspace_id b) workspace_id)) in
    mapM_ (λ id, do! clear_in id "workspaceGone" in ret tt) ids).
End Allocation.
