(* ===== verification/AutomationInv.v ===== *)
(** * AutomationInv: what always holds of the automation tables

    [AInv] is the invariant of the automation tables and [history] relates two
    moments of one store: runs are never rewritten once they ended, they only
    disappear after they ended, and claimed occurrences stay claimed.  [adv]
    says that an operation keeps the invariant and makes history.  The relation
    is transitive because identifiers are never drawn twice, which
    [UuidsDistinct] states of the random source. *)

From S2P Require Import Prelude Text Models Store AutomationModels Schedule Prompt AutomationDb AutomationStore AutomationPrecheck AutomationCleanup.
From Stdlib Require Import ZArith Lia Ascii String.
From stdpp Require Import strings prelude.

Class UuidsDistinct `{AutomationEnv} : Prop := {
  uuid_v4_inj : Inj (=) (=) uuid_v4;
  uuid_v4_plain : ∀ k operation, uuid_v4 k ≠ owner_process_id operation   (** hexadecimal digits and hyphens *)
}.
#[export] Existing Instance uuid_v4_inj.

Definition runs (w : AutomationWorld) : list RunRow := adb_runs (aw_db w).
Definition prechecks (w : AutomationWorld) : list AutomationPrecheckProcess := adb_prechecks (aw_db w).

Definition run_occurrence (r : RunRow) : string * string := (rr_automation_id r, rr_occurrence_key r).
Definition run_number (r : RunRow) : string * Z := (rr_automation_id r, rr_number r).
Definition occurrence_id (o : OccurrenceRow) : string * string := (oc_automation_id o, oc_key o).
Definition slug_key (a : AutomationRow) : string := to_ascii_uppercase (au_slug a).
Definition open_process (p : AutomationPrecheckProcess) : Prop := phase_closed (pp_phase p) = false.

(** A run row as it may look later. *)
Definition run_kept (r r' : RunRow) : Prop :=
  rr_id r' = rr_id r ∧ rr_automation_id r' = rr_automation_id r ∧ rr_number r' = rr_number r ∧
  rr_occurrence_key r' = rr_occurrence_key r ∧ rr_scheduled_at r' = rr_scheduled_at r ∧
  rr_trigger r' = rr_trigger r ∧ rr_created_at r' = rr_created_at r ∧
  (is_final (rr_status r) = true → rr_status r' = rr_status r).

#[export] Instance run_kept_refl : Reflexive run_kept.
Proof. intros r. by repeat split. Qed.
#[export] Instance run_kept_trans : Transitive run_kept.
Proof.
  intros r1 r2 r3 (E1&E2&E3&E4&E5&E6&E7&Hf) (F1&F2&F3&F4&F5&F6&F7&Hf').
  repeat split; try congruence. intros H. rewrite Hf'; auto. by rewrite Hf.
Qed.

Section Inv.
Context `{AutomationEnv} `{Chrono}.

(** A definition that passed validation, stored under its own identifier. *)
Definition valid_row (a : AutomationRow) : Prop :=
  validate_definition (au_data a) = Ok tt ∧ ad_id (au_data a) = au_id a.

Definition drawn (w : AutomationWorld) (id : string) : Prop := ∃ k, k < aw_uuids w ∧ id = uuid_v4 k.

(** The run of a process: a run of this store, or the reservation of another host. *)
Definition process_of (w : AutomationWorld) (id : string) : Prop := drawn w id ∨ ∃ operation, id = owner_process_id operation.

(** The fields validation looks at. *)
Definition checked (d : AutomationDefinition) :=
  (ad_id d, ad_slug d, ad_name d, ad_project_id d, ad_target d, ad_reuse_policy d, ad_cleanup_policy d,
   ad_prompt_template d, ad_schedule d, ad_queue_cap d, ad_inactivity_timeout_seconds d,
   ad_heartbeat_interval_seconds d, ad_misfire_grace_seconds d, ad_retry_max_attempts d,
   ad_retry_backoff_seconds d, ad_circuit_failure_threshold d, ad_circuit_open_seconds d, ad_precheck d).

Definition valid_for (id : string) (d : AutomationDefinition) : Prop :=
  validate_definition d = Ok tt ∧ ad_id d = id.

Lemma validate_checked d d' : checked d' = checked d → validate_definition d' = validate_definition d.
Proof.
  unfold checked. intros [=]. unfold validate_definition.
  repeat match goal with E : _ d' = _ d |- _ => rewrite E; clear E end. done.
Qed.

Lemma valid_kept a a' :
  valid_row a → au_id a' = au_id a → checked (au_data a') = checked (au_data a) → valid_row a'.
Proof.
  intros [Hv Hid] He Hc. split; [by rewrite (validate_checked _ _ Hc)|].
  rewrite He, <-Hid. by injection Hc.
Qed.

Lemma valid_written id d a a' :
  valid_for id d → String.eqb (au_id a) id = true → au_id a' = au_id a → checked (au_data a') = checked d →
  valid_row a'.
Proof.
  intros [Hv Hid] Hp%String.eqb_eq He Hc. split; [by rewrite (validate_checked _ _ Hc)|].
  rewrite He, Hp, <-Hid. by injection Hc.
Qed.

Record AInv (w : AutomationWorld) : Prop := {
  ai_run_ids : NoDup (rr_id <$> runs w);
  ai_run_occurrences : NoDup (run_occurrence <$> runs w);
  ai_run_numbers : NoDup (run_number <$> runs w);
  ai_run_data : ∀ r, r ∈ runs w → ar_id (rr_data r) = rr_id r;
  ai_run_drawn : ∀ r, r ∈ runs w → drawn w (rr_id r);
  ai_process_ids : NoDup (pp_id <$> prechecks w);
  ai_process_drawn : ∀ p, p ∈ prechecks w → process_of w (pp_run_id p);
  ai_process_open : ∀ p r, p ∈ prechecks w → r ∈ runs w → open_process p → pp_run_id p = rr_id r →
    rr_status r = Rs_Dispatching ∨ rr_status r = Rs_WaitingForUser;
  ai_process_one : ∀ p q, p ∈ prechecks w → q ∈ prechecks w → open_process p → open_process q →
    pp_run_id p = pp_run_id q → p = q;
  ai_automation_ids : NoDup (au_id <$> adb_automations (aw_db w));
  ai_slugs : NoDup (slug_key <$> adb_automations (aw_db w));
  ai_valid : ∀ a, a ∈ adb_automations (aw_db w) → valid_row a;
  ai_occurrences : NoDup (occurrence_id <$> adb_occurrences (aw_db w))
}.

Record history (w w' : AutomationWorld) : Prop := {
  hi_uuids : aw_uuids w ≤ aw_uuids w';
  hi_kept : ∀ r r', r ∈ runs w → r' ∈ runs w' → rr_id r' = rr_id r → run_kept r r';
  hi_new : ∀ r', r' ∈ runs w' → (∃ r, r ∈ runs w ∧ rr_id r = rr_id r') ∨
    ∃ k, aw_uuids w ≤ k < aw_uuids w' ∧ rr_id r' = uuid_v4 k;
  hi_claims : ∃ l, adb_occurrences (aw_db w') = adb_occurrences (aw_db w) ++ l
}.

Definition adv (w w' : AutomationWorld) : Prop := AInv w → AInv w' ∧ history w w'.

(** The tables the invariant speaks about, as they were. *)
Definition quiet (w w' : AutomationWorld) : Prop :=
  runs w' = runs w ∧ prechecks w' = prechecks w ∧
  adb_automations (aw_db w') = adb_automations (aw_db w) ∧
  adb_occurrences (aw_db w') = adb_occurrences (aw_db w) ∧ aw_uuids w ≤ aw_uuids w'.

Lemma drawn_mono w w' id : aw_uuids w ≤ aw_uuids w' → drawn w id → drawn w' id.
Proof. intros Hle (k & Hk & ->). exists k. split; [lia|done]. Qed.
Lemma process_of_mono w w' id : aw_uuids w ≤ aw_uuids w' → process_of w id → process_of w' id.
Proof. intros Hle [Hd|Ho]; [left; by eapply drawn_mono|by right]. Qed.

Lemma history_refl_runs w w' : AInv w → runs w' = runs w → aw_uuids w ≤ aw_uuids w' →
  (∃ l, adb_occurrences (aw_db w') = adb_occurrences (aw_db w) ++ l) → history w w'.
Proof.
  intros HI Hr Hu Hc. split; [done| |intros r' Hr'; left; exists r'; by rewrite <-Hr|done].
  - intros r r' Hin. rewrite Hr. intros Hin' He.
    by rewrite (NoDup_key_inj rr_id (runs w) r' r (ai_run_ids w HI) Hin' Hin He).
Qed.

Lemma adv_quiet w w' : quiet w w' → adv w w'.
Proof.
  intros (Hr & Hp & Ha & Ho & Hu) HI. split.
  - destruct HI. split; rewrite ?Hr, ?Hp, ?Ha, ?Ho; eauto using drawn_mono, process_of_mono.
  - apply history_refl_runs; try done. exists []. by rewrite app_nil_r.
Qed.

Lemma adv_refl w : adv w w.
Proof. apply adv_quiet. by repeat split. Qed.

Context `{!UuidsDistinct}.

Lemma adv_trans w1 w2 w3 : adv w1 w2 → adv w2 w3 → adv w1 w3.
Proof.
  intros H12 H23 HI. destruct (H12 HI) as [HI2 Hh1]. destruct (H23 HI2) as [HI3 Hh2].
  split; [done|]. split.
  - pose proof (hi_uuids _ _ Hh1). pose proof (hi_uuids _ _ Hh2). lia.
  - intros r r'' Hr Hr'' He. destruct (hi_new _ _ Hh2 r'' Hr'') as [(r' & Hr' & He')|(k & Hk & He')].
    + transitivity r'; [apply (hi_kept _ _ Hh1 r r'); [done|done|congruence]|by apply (hi_kept _ _ Hh2 r' r'')].
    + destruct (ai_run_drawn w1 HI r Hr) as (k' & Hk' & Hid).
      pose proof (hi_uuids _ _ Hh1). assert (k = k') by (apply uuid_v4_inj; congruence). lia.
  - intros r'' Hr''. destruct (hi_new _ _ Hh2 r'' Hr'') as [(r' & Hr' & He')|(k & Hk & He')].
    + destruct (hi_new _ _ Hh1 r' Hr') as [(r & Hr & He)|(k & Hk & He)].
      * left. exists r. split; [done|congruence].
      * right. exists k. pose proof (hi_uuids _ _ Hh2). split; [lia|congruence].
    + right. exists k. pose proof (hi_uuids _ _ Hh1). split; [lia|done].
  - destruct (hi_claims _ _ Hh1) as [l1 E1], (hi_claims _ _ Hh2) as [l2 E2].
    exists (l1 ++ l2). by rewrite E2, E1, app_assoc.
Qed.

(** ** Operations that advance *)

Definition advances {A} (m : AM A) : Prop := ∀ w w' r, m w = (w', r) → adv w w'.
Definition silent {A} (m : AM A) : Prop := ∀ w w' r, m w = (w', r) → quiet w w'.

Lemma advances_silent {A} (m : AM A) : silent m → advances m.
Proof. intros Hs w w' r Hm. by eapply adv_quiet, Hs. Qed.

Lemma advances_bind {A B} (m : AM A) (k : A → AM B) :
  advances m → (∀ a, advances (k a)) → advances (bind m k).
Proof.
  intros Hm Hk w w' r. unfold bind. destruct (m w) as [w1 [a|e]] eqn:E.
  - intros Hr. eapply adv_trans; [by eapply Hm|by eapply Hk].
  - intros [= <- <-]. by eapply Hm.
Qed.

(** A rolled-back transaction only used up readings and identifiers. *)
Lemma advances_atomically {A} (m : AM A) : advances m → advances (atomically m).
Proof.
  intros Hm w w' r. unfold atomically. destruct (m w) as [w1 [a|e]] eqn:E; intros [= <- <-].
  - by eapply Hm.
  - intros HI. destruct (Hm _ _ _ E HI) as [_ Hh]. eapply adv_quiet; [|done].
    repeat split; try done. apply (hi_uuids _ _ Hh).
Qed.

Lemma advances_mapM {A} (f : A → AM unit) (l : list A) : (∀ a, advances (f a)) → advances (mapM_ f l).
Proof.
  intros Hf. induction l as [|a l IH]; cbn.
  - apply advances_silent. intros w w' r [= <- <-]. by repeat split.
  - by apply advances_bind.
Qed.

Lemma silent_ret {A} (a : A) : silent (ret a).
Proof. intros w w' r [= <- <-]. by repeat split. Qed.
Lemma silent_fail {A} e : silent (@fail _ A e).
Proof. intros w w' r [= <- <-]. by repeat split. Qed.
Lemma silent_read {A} (q : AutomationDb → A) : silent (read q).
Proof. intros w w' r [= <- <-]. by repeat split. Qed.
Lemma silent_of_result {A} (x : Result A) : silent (of_result x).
Proof. intros w w' r [= <- <-]. by repeat split. Qed.
Lemma silent_require {A} (o : option A) msg : silent (require o msg).
Proof. destruct o; [apply silent_ret|apply silent_fail]. Qed.
Lemma silent_now : silent now_utc.
Proof. intros w w' r [= <- <-]. by repeat split. Qed.
Lemma silent_uuid : silent new_uuid.
Proof. intros w w' r [= <- <-]. repeat split; try done. cbn. lia. Qed.
Lemma silent_write f : (∀ db, adb_runs (f db) = adb_runs db ∧ adb_prechecks (f db) = adb_prechecks db ∧
    adb_automations (f db) = adb_automations db ∧ adb_occurrences (f db) = adb_occurrences db) →
  silent (write f).
Proof. intros Hf w w' r [= <- <-]. destruct (Hf (aw_db w)) as (?&?&?&?). by repeat split. Qed.

Lemma guarded_adv abort f w w' r :
  guarded abort f w = (w', r) → (abort = None → adv w (with_adb f w)) → adv w w'.
Proof.
  unfold guarded. destruct abort; intros Hg Hf; [|unfold write, modify in Hg; simplify_eq; auto].
  unfold fail in Hg. simplify_eq. apply adv_refl.
Qed.

(** ** Runs *)

Lemma or_else_None {A} (a b : option A) : or_else a b = None ↔ a = None ∧ b = None.
Proof. destruct a; naive_solver. Qed.

Lemma has_unclosed_true w p :
  p ∈ prechecks w → open_process p → has_unclosed (aw_db w) (pp_run_id p) = true.
Proof.
  intros Hp Ho. apply existsb_exists. exists p. split; [by apply list_elem_of_In|].
  rewrite String.eqb_refl. unfold open_process in Ho. by rewrite Ho.
Qed.

Lemma completion_guard_open w p old new :
  p ∈ prechecks w → open_process p → pp_run_id p = rr_id old →
  run_update_guard (aw_db w) old new = None →
  rr_status new = Rs_Dispatching ∨ rr_status new = Rs_WaitingForUser.
Proof.
  intros Hp Ho He Hg. apply or_else_None in Hg as [Hg _]. unfold preservePrecheckRunCompletion in Hg.
  rewrite <-He, (has_unclosed_true w p Hp Ho) in Hg. cbn in Hg.
  destruct (_ || _) eqn:E in Hg; [done|]. apply orb_false_iff in E as [E _].
  apply orb_false_iff in E as [_ E]. apply negb_false_iff, orb_true_iff in E as [E|E];
    apply bool_decide_eq_true in E; auto.
Qed.

Lemma update_runs_adv w p f :
  first_abort (run_update_guard (aw_db w)) p f (runs w) = None →
  (∀ r, r ∈ runs w → p r = true → run_kept r (f r) ∧ ar_id (rr_data (f r)) = rr_id (f r)) →
  adv w (with_adb (with_adb_runs (update_where p f (runs w))) w).
Proof.
  rewrite first_abort_None. intros Hg Hf HI.
  assert (∀ r', r' ∈ update_where p f (runs w) → ∃ r, r ∈ runs w ∧ run_kept r r' ∧
            (ar_id (rr_data r') = rr_id r') ∧ (r' = r ∨ run_update_guard (aw_db w) r r' = None)) as Hrow.
  { intros r' (r & Hr & ->)%elem_of_update_where. exists r. split; [done|]. destruct (p r) eqn:Ep.
    - destruct (Hf r Hr Ep). split_and!; auto. 
    - split_and!; [done|by apply (ai_run_data w HI)|by left]. }
  assert (∀ B (g : RunRow → B), (∀ r r', run_kept r r' → g r' = g r) →
            g <$> update_where p f (runs w) = g <$> runs w) as Hkey.
  { intros B g Hg'. apply fmap_update_where. intros r Hr Hp. by apply Hg', Hf. }
  split.
  - split; unfold runs, prechecks; cbn; try by destruct HI.
    + rewrite Hkey; [apply HI|]. by intros r r' (-> & _).
    + rewrite Hkey; [apply HI|]. unfold run_occurrence. intros r r' (_&->&_&->&_). done.
    + rewrite Hkey; [apply HI|]. unfold run_number. intros r r' (_&->&->&_). done.
    + intros r' Hr'. by destruct (Hrow r' Hr') as (?&?&?&?&?).
    + intros r' Hr'. destruct (Hrow r' Hr') as (r & Hr & (-> & _) & _). by apply (ai_run_drawn w HI).
    + intros q r' Hq Hr' Ho He. destruct (Hrow r' Hr') as (r & Hr & Hk & _ & [->|Hgu]).
      * by eapply (ai_process_open w HI).
      * apply (completion_guard_open w q r r' Hq Ho); [|done]. rewrite He. apply Hk.
  - split; [done| | |].
    + intros r r' Hr Hr' He. destruct (Hrow r' Hr') as (x & Hx & Hk & _).
      replace r with x; [done|]. apply (NoDup_key_inj rr_id (runs w)); try done; [apply HI|].
      rewrite <-He. symmetry. apply Hk.
    + intros r' Hr'. left. destruct (Hrow r' Hr') as (x & Hx & Hk & _). exists x. split; [done|].
      symmetry. apply Hk.
    + exists []. by rewrite app_nil_r.
Qed.

Lemma delete_runs_adv w p :
  adv w (with_adb (λ db, with_adb_prechecks
           (List.filter (λ q, negb (existsb (λ r, p r && String.eqb (rr_id r) (pp_run_id q)) (adb_runs db)))
              (adb_prechecks db))
           (with_adb_runs (List.filter (λ r, negb (p r)) (adb_runs db)) db)) w).
Proof.
  intros HI. set (w' := with_adb _ w).
  assert (∀ r, r ∈ runs w' → r ∈ runs w) as Hr.
  { intros r. unfold runs, w'. cbn. rewrite !list_elem_of_In, filter_In. naive_solver. }
  assert (∀ q, q ∈ prechecks w' → q ∈ prechecks w) as Hq.
  { intros q. unfold prechecks, w'. cbn. rewrite !list_elem_of_In, filter_In. naive_solver. }
  split.
  - destruct HI. split; eauto; unfold runs, prechecks, w'; cbn; by apply NoDup_key_filter.
  - split; [done| | |exists []; unfold w'; cbn; by rewrite app_nil_r].
    + intros r r' Hin Hin' He. by rewrite (NoDup_key_inj rr_id (runs w) r' r (ai_run_ids w HI) (Hr _ Hin') Hin He).
    + intros r' Hr'. left. exists r'. auto.
Qed.

Lemma insert_run_adv w r k :
  rr_id r = uuid_v4 k → aw_uuids w = S k →
  (∀ x, x ∈ runs w → drawn (MkAutomationWorld (aw_db w) (aw_ticks w) k) (rr_id x)) →
  (∀ q, q ∈ prechecks w → process_of (MkAutomationWorld (aw_db w) (aw_ticks w) k) (pp_run_id q)) →
  (∀ x, x ∈ runs w → run_occurrence x ≠ run_occurrence r) →
  (∀ x, x ∈ runs w → run_number x ≠ run_number r) →
  ar_id (rr_data r) = rr_id r → AInv w →
  AInv (with_adb (with_adb_runs (runs w ++ [r])) w).
Proof.
  intros Hid Hu Hdr Hdq Hocc Hnum Hdata HI.
  assert (∀ id, drawn (MkAutomationWorld (aw_db w) (aw_ticks w) k) id → id ≠ rr_id r) as Hfresh.
  { intros id (j & Hj & ->) He. rewrite Hid in He. apply uuid_v4_inj in He. cbn in Hj. lia. }
  destruct HI. split; unfold runs, prechecks; cbn; try done.
  - apply NoDup_key_snoc; [done|]. intros (x & He & Hx)%list_elem_of_fmap. by apply (Hfresh _ (Hdr x Hx)).
  - apply NoDup_key_snoc; [done|]. intros (x & He & Hx)%list_elem_of_fmap. by apply (Hocc x Hx).
  - apply NoDup_key_snoc; [done|]. intros (x & He & Hx)%list_elem_of_fmap. by apply (Hnum x Hx).
  - intros x [Hx| ->%list_elem_of_singleton]%elem_of_app; auto.
  - intros x [Hx| ->%list_elem_of_singleton]%elem_of_app; [by apply ai_run_drawn0|].
    exists k. cbn. split; [lia|done].
  - intros q x Hq [Hx| ->%list_elem_of_singleton]%elem_of_app Ho He; [by eapply ai_process_open0|].
    exfalso. destruct (Hdq q Hq) as [Hd|[op Hop]]; [by apply (Hfresh (pp_run_id q))|].
    rewrite He, Hid in Hop. by apply uuid_v4_plain in Hop.
Qed.

(** ** Definitions, claims and processes *)

(** Everything but the definitions as it was. *)
Lemma definitions_adv w l :
  (AInv w → NoDup (au_id <$> l) ∧ NoDup (slug_key <$> l) ∧ ∀ a, a ∈ l → valid_row a) →
  adv w (with_adb (with_adb_automations l) w).
Proof.
  intros Hl HI. destruct (Hl HI) as (Hid & Hslug & Hvalid). split.
  - destruct HI. by split.
  - apply history_refl_runs; try done. exists []. by rewrite app_nil_r.
Qed.

Lemma update_definitions_adv w p f :
  (∀ a, au_id (f a) = au_id a ∧ au_slug (f a) = au_slug a ∧ (p a = true → valid_row a → valid_row (f a))) →
  adv w (with_adb (with_adb_automations (update_where p f (adb_automations (aw_db w)))) w).
Proof.
  intros Hf. apply definitions_adv. intros HI. rewrite !fmap_update_where; [split_and!; try apply HI| |].
  - intros a' (a & Ha & ->)%elem_of_update_where. apply (ai_valid w HI) in Ha. destruct (p a) eqn:E; [|done].
    by apply Hf.
  - intros a _ _. unfold slug_key. f_equal. apply Hf.
  - intros a _ _. apply Hf.
Qed.

Lemma filter_definitions_adv w p :
  adv w (with_adb (with_adb_automations (List.filter p (adb_automations (aw_db w)))) w).
Proof.
  apply definitions_adv. intros HI. split_and!; [apply NoDup_key_filter, HI..|].
  intros a Ha. rewrite list_elem_of_In, filter_In, <-list_elem_of_In in Ha.
  by apply (ai_valid w HI), Ha.
Qed.

Lemma eq_ignore_ascii_case_key a b :
  eq_ignore_ascii_case a b = true ↔ to_ascii_uppercase a = to_ascii_uppercase b.
Proof. unfold eq_ignore_ascii_case. apply String.eqb_eq. Qed.

Lemma upsert_adv w new merge :
  valid_row new → (∀ a, au_id (merge a) = au_id a ∧ au_slug (merge a) = au_slug new ∧ au_data (merge a) = au_data new) →
  let same a := String.eqb (au_id a) (au_id new) in
  let l := adb_automations (aw_db w) in
  existsb (λ a, negb (same a) && eq_ignore_ascii_case (au_slug a) (au_slug new)) l = false →
  adv w (with_adb (with_adb_automations
           (if existsb same l then update_where same merge l else l ++ [new])) w).
Proof.
  intros Hnew Hm same l Hslug. apply definitions_adv. intros HI. fold l.
  assert (∀ a, a ∈ l → same a = false → slug_key a ≠ slug_key new) as Hne.
  { intros a Ha Hs He. rewrite <-not_true_iff_false in Hslug. apply Hslug, existsb_exists.
    exists a. rewrite list_elem_of_In in Ha. split; [done|]. rewrite Hs. cbn.
    by apply eq_ignore_ascii_case_key. }
  destruct (existsb same l) eqn:Ee.
  - assert (NoDup (au_id <$> update_where same merge l)) as Hids.
    { rewrite fmap_update_where; [apply HI|]. intros a _ _. apply Hm. }
    split; [done|]. split; cycle 1.
    { intros a' (a & Ha & ->)%elem_of_update_where. pose proof (ai_valid w HI a Ha) as Hv.
      destruct (same a) eqn:Es; [|done]. apply String.eqb_eq in Es. destruct (Hm a) as (E1 & _ & E3).
      destruct Hnew as [Hn1 Hn2]. split; [by rewrite E3|]. by rewrite E3, E1, Hn2. }
    pose proof (ai_slugs w HI) as Hnd. fold l in Hnd.
    apply NoDup_fmap_2_strong; [|by eapply NoDup_fmap_1].
    intros a b (a0 & Ha0 & Ea)%elem_of_update_where (b0 & Hb0 & Eb)%elem_of_update_where He.
    assert (∀ x, x ∈ l → same x = true → slug_key (merge x) = slug_key new) as Hms.
    { intros x _ _. unfold slug_key. destruct (Hm x) as (_ & -> & _). done. }
    destruct (same a0) eqn:Sa, (same b0) eqn:Sb; subst a b.
    + f_equal. apply (NoDup_key_inj au_id l); try done; [apply HI|].
      apply String.eqb_eq in Sa, Sb. congruence.
    + exfalso. apply (Hne b0 Hb0 Sb). by rewrite <-He, (Hms a0).
    + exfalso. apply (Hne a0 Ha0 Sa). by rewrite He, (Hms b0).
    + by apply (NoDup_key_inj slug_key l).
  - assert (∀ a, a ∈ l → same a = false) as Hnone.
    { intros a Ha. destruct (same a) eqn:E; [|done]. rewrite <-Ee. symmetry. apply existsb_exists.
      exists a. by rewrite list_elem_of_In in Ha. }
    split_and!; [apply NoDup_key_snoc; [apply HI|]..|].
    + intros (a & He & Ha)%list_elem_of_fmap. specialize (Hnone a Ha). apply String.eqb_neq in Hnone. congruence.
    + intros (a & He & Ha)%list_elem_of_fmap. by apply (Hne a Ha (Hnone a Ha)).
    + intros a [Ha| ->%list_elem_of_singleton]%elem_of_app; [by apply (ai_valid w HI)|done].
Qed.

Lemma advances_claim row : advances (claim_occurrence row).
Proof.
  intros w w' r. unfold claim_occurrence, bind, read, gets, ret, write, modify.
  destruct (existsb _ _) eqn:E; intros [= <- <-]; [apply adv_refl|]. intros HI. split.
  - destruct HI. split; try done. cbn. apply NoDup_key_snoc; [done|].
    intros (o & He & Ho)%list_elem_of_fmap. unfold occurrence_id in He. injection He as E1 E2.
    rewrite <-not_true_iff_false in E. apply E, existsb_exists. exists o.
    rewrite list_elem_of_In in Ho. split; [done|]. by rewrite E1, E2, !String.eqb_refl.
  - apply history_refl_runs; try done. by exists [row].
Qed.

(** A process is replaced by one of the same run that is not open again. *)
Lemma replace_process_adv w previous next :
  pp_id next = pp_id previous → pp_run_id next = pp_run_id previous →
  (open_process next → open_process previous) →
  adv w (with_adb (with_adb_prechecks
           (update_where (λ p, bool_decide (p = previous)) (λ _, next) (prechecks w))) w).
Proof.
  intros Hid Hrun Hopen HI. split.
  - assert (∀ q, q ∈ update_where (λ p, bool_decide (p = previous)) (λ _, next) (prechecks w) →
      ∃ q0, q0 ∈ prechecks w ∧ pp_run_id q = pp_run_id q0 ∧ (open_process q → open_process q0) ∧
            q = (if bool_decide (q0 = previous) then next else q0)) as Hq.
    { intros q (q0 & Hq0 & ->)%elem_of_update_where. exists q0. case_bool_decide; subst; auto. }
    split; unfold prechecks; cbn; try by destruct HI.
    + rewrite fmap_update_where; [apply HI|]. intros q _ ->%bool_decide_eq_true. done.
    + intros q (q0 & Hq0 & -> & _)%Hq. by apply (ai_process_drawn w HI).
    + intros q r (q0 & Hq0 & Hr0 & Ho0 & _)%Hq Hr Ho He. apply (ai_process_open w HI q0 r); auto; congruence.
    + intros q q' (q0 & Hq0 & Hr0 & Ho0 & ->)%Hq (q1 & Hq1 & Hr1 & Ho1 & ->)%Hq Ho Ho' He.
      by rewrite (ai_process_one w HI q0 q1) by (auto; congruence).
  - apply history_refl_runs; try done. exists []. by rewrite app_nil_r.
Qed.
End Inv.
