(* ===== verification/AutomationLifecycle.v ===== *)
(** * AutomationLifecycle: every operation advances the automation store

    One lemma per operation of AutomationStore.v, AutomationPrecheck.v and
    AutomationCleanup.v: whatever it returns, it keeps [AInv] and makes history
    ([advances]).  The lemmas are collected in the hint database [adv]; the
    tactic [advance] takes an operation apart and closes it with them. *)

From S2P Require Import Prelude Text Models Store AutomationModels Schedule Prompt AutomationDb AutomationStore AutomationPrecheck AutomationCleanup AutomationInv.
From Stdlib Require Import ZArith Lia Ascii String.
From stdpp Require Import strings prelude.

Create HintDb adv.

Section Statements.
Context `{AutomationEnv} `{!UuidsDistinct} `{Chrono}.

Lemma advances_ret {A} (a : A) : advances (ret a).
Proof. apply advances_silent, silent_ret. Qed.
Lemma advances_fail {A} e : advances (@fail _ A e).
Proof. apply advances_silent, silent_fail. Qed.
Lemma advances_abail {A} msg : advances (@abail A msg).
Proof. apply advances_silent, silent_fail. Qed.
Lemma advances_read {A} (q : AutomationDb → A) : advances (read q).
Proof. apply advances_silent, silent_read. Qed.
Lemma advances_of_result {A} (x : Result A) : advances (of_result x).
Proof. apply advances_silent, silent_of_result. Qed.
Lemma advances_require {A} (o : option A) msg : advances (require o msg).
Proof. apply advances_silent, silent_require. Qed.
Lemma advances_now : advances now_utc.
Proof. apply advances_silent, silent_now. Qed.
Lemma advances_uuid : advances new_uuid.
Proof. apply advances_silent, silent_uuid. Qed.

(** A statement: read the database, check the guard, write. *)
Lemma advances_statement {A} (abort : AutomationDb → option string)
    (f : AutomationDb → AutomationDb → AutomationDb) (k : AutomationDb → AM A) :
  (∀ w, abort (aw_db w) = None → adv w (with_adb (f (aw_db w)) w)) → (∀ db, advances (k db)) →
  advances (let! db := read (λ db, db) in do! guarded (abort db) (f db) in k db).
Proof.
  intros Hf Hk w w' r. unfold bind at 1, read, gets. intros Hm. unfold bind in Hm.
  destruct (guarded _ _ w) as [w1 [[]|e]] eqn:Eg.
  - eapply adv_trans; [eapply guarded_adv; eauto|by eapply Hk].
  - simplify_eq. eapply guarded_adv; eauto.
Qed.

Lemma advances_guarded (abort : AutomationDb → option string)
    (f : AutomationDb → AutomationDb → AutomationDb) :
  (∀ w, abort (aw_db w) = None → adv w (with_adb (f (aw_db w)) w)) →
  advances (let! db := read (λ db, db) in guarded (abort db) (f db)).
Proof.
  intros Hf w w' r. unfold bind, read, gets. intros Hg. eapply guarded_adv; eauto.
Qed.

Lemma quiet_with_adb w f :
  adb_runs (f (aw_db w)) = adb_runs (aw_db w) → adb_prechecks (f (aw_db w)) = adb_prechecks (aw_db w) →
  adb_automations (f (aw_db w)) = adb_automations (aw_db w) →
  adb_occurrences (f (aw_db w)) = adb_occurrences (aw_db w) → adv w (with_adb f w).
Proof. intros. apply adv_quiet. by repeat split. Qed.

Lemma advances_update_definitions sets_data p f :
  (∀ a, au_id (f a) = au_id a ∧ au_slug (f a) = au_slug a ∧ (p a = true → valid_row a → valid_row (f a))) →
  advances (update_automation_rows sets_data p f).
Proof.
  intros Hf. apply advances_statement; [|intros; apply advances_ret].
  intros w _. by apply update_definitions_adv.
Qed.

Lemma advances_delete_definitions p : advances (delete_automation_rows p).
Proof.
  apply advances_statement; [|intros; apply advances_ret]. intros w _. apply filter_definitions_adv.
Qed.

Lemma advances_upsert_row new merge :
  valid_row new → (∀ a, au_id (merge a) = au_id a ∧ au_slug (merge a) = au_slug new ∧ au_data (merge a) = au_data new) →
  advances (upsert_automation_row new merge).
Proof.
  intros Hn Hm. unfold upsert_automation_row. apply advances_guarded. intros w Hg.
  apply upsert_adv; [done..|]. rewrite !or_else_None in Hg. destruct Hg as (_ & _ & Hg).
  destruct (existsb _ _) eqn:E in Hg; [done|]. exact E.
Qed.

Lemma advances_delete_runs p : advances (delete_run_rows p).
Proof. apply advances_guarded. intros w _. apply delete_runs_adv. Qed.

Lemma advances_touch_runs p : advances (update_run_rows p (λ r, r)).
Proof.
  apply advances_statement; [|intros; apply advances_ret]. intros w Hg HI.
  apply update_runs_adv; [done| |done]. intros r Hr _. split; [done|]. by apply (ai_run_data w HI).
Qed.

Lemma advances_audit e : advances (insert_audit_row e).
Proof. apply advances_guarded. intros w _. by apply quiet_with_adb. Qed.
Lemma advances_insert_attempt t : advances (insert_attempt_row t).
Proof. apply advances_guarded. intros w _. by apply quiet_with_adb. Qed.
Lemma advances_update_attempts p f : advances (update_attempt_rows p f).
Proof. apply advances_silent, silent_write. done. Qed.
Lemma advances_update_tabs p f : advances (update_tab_rows p f).
Proof. apply advances_guarded. intros w _. by apply quiet_with_adb. Qed.
Lemma advances_write_quiet f :
  (∀ db, adb_runs (f db) = adb_runs db ∧ adb_prechecks (f db) = adb_prechecks db ∧
    adb_automations (f db) = adb_automations db ∧ adb_occurrences (f db) = adb_occurrences db) →
  advances (write f).
Proof. intros Hf. by apply advances_silent, silent_write. Qed.

(** ** Sequences whose first step decides what is written *)

Lemma advances_ret_bind {A B} (a : A) (k : A → AM B) : advances (k a) → advances (bind (ret a) k).
Proof. done. Qed.
Lemma advances_assoc {A B C} (m : AM A) (f : A → AM B) (k : B → AM C) :
  advances (bind m (λ a, bind (f a) k)) → advances (bind (bind m f) k).
Proof. intros Hm w w' r. rewrite bind_assoc. apply Hm. Qed.
Lemma advances_require_some {A B} (a : A) msg (k : A → AM B) : advances (k a) → advances (bind (require (Some a) msg) k).
Proof. done. Qed.
Lemma advances_require_none {A B} msg (k : A → AM B) : advances (bind (require None msg) k).
Proof. intros w w' r [= <- <-]. apply adv_refl. Qed.
Lemma advances_result {A B} (x : Result A) (k : A → AM B) :
  (∀ a, x = Ok a → advances (k a)) → advances (bind (of_result x) k).
Proof.
  intros Hk w w' r. unfold bind, of_result. destruct x as [a|e]; [by apply Hk|]. intros [= <- <-]. apply adv_refl.
Qed.

(** What is read from the table is valid. *)
Lemma decoded_valid w id row : AInv w → find_automation_row (aw_db w) id = Some row → valid_for id (decode_definition row).
Proof.
  intros HI [Hr Hid%String.eqb_eq]%find_where_Some. destruct (ai_valid w HI row Hr) as [Hv Hi].
  split; [by rewrite (validate_checked (au_data row)) by reflexivity|]. rewrite <-Hid. exact Hi.
Qed.

Lemma advances_find {B} id (k : option AutomationDefinition → AM B) :
  advances (k None) → (∀ d, valid_for id d → advances (k (Some d))) → advances (bind (find_automation id) k).
Proof.
  intros Hn Hs w w' r. unfold bind, find_automation, read, gets. intros E HI. revert E.
  destruct (find_automation_row _ _) as [row|] eqn:Er; cbn; intros E; [|by eapply Hn].
  eapply (Hs (decode_definition row)); [by apply (decoded_valid w)|exact E|done].
Qed.

Lemma advances_existing {B} id (k : AutomationDefinition → AM B) :
  (∀ d, valid_for id d → advances (k d)) → advances (bind (existing_automation id) k).
Proof.
  intros Hk. unfold existing_automation. apply advances_assoc, advances_find; [apply advances_require_none|].
  intros d Hd. by apply advances_require_some, Hk.
Qed.

Lemma advances_list {B} include (k : list AutomationDefinition → AM B) :
  (∀ ds, Forall (λ d, valid_for (ad_id d) d) ds → advances (k ds)) → advances (bind (list_automations include) k).
Proof.
  intros Hk w w' r E HI. eapply Hk; [|exact E|done]. apply Forall_forall. intros d Hd%elem_of_sort_by.
  apply list_elem_of_fmap in Hd as (row & -> & Hr). rewrite list_elem_of_In, filter_In, <-list_elem_of_In in Hr.
  destruct (ai_valid w HI row (proj1 Hr)) as [Hv _]. split; [|done].
  by rewrite (validate_checked (au_data row)) by reflexivity.
Qed.
End Statements.

#[export] Hint Resolve advances_ret advances_fail advances_abail advances_read advances_of_result
  advances_require advances_now advances_uuid advances_claim advances_delete_definitions
  advances_delete_runs advances_touch_runs advances_audit advances_insert_attempt
  advances_update_attempts advances_update_tabs : adv.

(** Take an operation apart: binds, branches, transactions and loops; what is
    left is a statement or another operation, closed by the hints. *)
Ltac valid_rows :=
  let a := fresh "a" in let Hp := fresh "Hp" in let Hv := fresh "Hv" in
  intros a; split_and!; [reflexivity|reflexivity|intros Hp Hv];
  first [ exact Hv
        | apply (valid_kept a); [exact Hv|reflexivity|reflexivity]
        | match goal with V : valid_for ?id ?d |- _ =>
            apply (valid_written id d a); [exact V|exact Hp|reflexivity|reflexivity] end ].

Ltac advance :=
  repeat lazymatch goal with
  | |- advances (bind (ret _) _) => apply advances_ret_bind
  | |- advances (bind (bind _ _) _) => apply advances_assoc
  | |- advances (bind (find_automation _) _) => apply advances_find; [|intros ? ?]
  | |- advances (bind (existing_automation _) _) => apply advances_existing; intros ? ?
  | |- advances (bind (require (Some _) _) _) => apply advances_require_some
  | |- advances (bind (require None _) _) => apply advances_require_none
  | |- advances (bind (if ?b then _ else _) _) => destruct b
  | |- advances (bind _ _) => apply advances_bind; [|intros ?]
  | |- advances (atomically _) => apply advances_atomically
  | |- advances (mapM_ _ _) => apply advances_mapM; intros ?
  | |- advances (if negb false then _ else _) => cbn [negb]
  | |- advances (if ?b then _ else _) => destruct b
  | |- advances (match ?x with _ => _ end) => destruct x
  | |- advances (let _ := _ in _) => cbv zeta
  | |- advances (update_automation_rows _ _ _) => apply advances_update_definitions; valid_rows
  | |- advances (write _) => apply advances_write_quiet; intros ?; split_and!; reflexivity
  | |- advances _ => solve [auto with adv nocore]
  end.

Section Operations.
Context `{AutomationEnv} `{!UuidsDistinct} `{Chrono}.

Lemma advances_existing_run id : advances (existing_run id).
Proof. unfold existing_run, find_automation_run. advance. Qed.
Lemma advances_find_automation id : advances (find_automation id).
Proof. unfold find_automation. advance. Qed.
Lemma advances_existing_automation id : advances (existing_automation id).
Proof. unfold existing_automation, find_automation. advance. Qed.
Lemma advances_audit_event a r act actor rev d : advances (insert_automation_audit_event a r act actor rev d).
Proof. unfold insert_automation_audit_event. advance. Qed.
#[local] Hint Resolve advances_existing_run advances_find_automation advances_existing_automation
  advances_audit_event : adv.

(** ** Saving a run *)

Lemma find_run_row_spec db id r : find_run_row db id = Some r → r ∈ adb_runs db ∧ rr_id r = id.
Proof. intros [? ?%String.eqb_eq]%find_where_Some. done. Qed.

Lemma saved_row_kept run r :
  rr_id r = ar_id run → (is_final (rr_status r) = true → rr_status r = ar_status run) →
  run_kept r (saved_row run r) ∧ ar_id (rr_data (saved_row run r)) = rr_id (saved_row run r).
Proof. intros He Hf. split; [|by symmetry]. repeat split. intros. symmetry. auto. Qed.

Lemma advances_enqueue run : advances (enqueue_completed_run run).
Proof. unfold enqueue_completed_run. advance. Qed.
#[local] Hint Resolve advances_enqueue : adv.

(** Reasoning at one state, where an earlier read decides what is written. *)
Definition advances_at {A} (w : AutomationWorld) (m : AM A) : Prop := ∀ w' r, m w = (w', r) → adv w w'.

Lemma at_of {A} (m : AM A) w : advances m → advances_at w m.
Proof. intros Hm w' r. apply Hm. Qed.

Lemma at_bind {A B} (m : AM A) (k : A → AM B) w :
  advances_at w m → (∀ w1 a, m w = (w1, Ok a) → advances_at w1 (k a)) → advances_at w (bind m k).
Proof.
  intros Hm Hk w' r. unfold bind. destruct (m w) as [w1 [a|e]] eqn:E.
  - intros Hr. eapply adv_trans; [by eapply Hm|by eapply (Hk w1 a)].
  - intros [= <- <-]. by eapply Hm.
Qed.

Lemma at_read {A B} (q : AutomationDb → A) (k : A → AM B) w :
  advances_at w (k (q (aw_db w))) → advances_at w (bind (read q) k).
Proof. done. Qed.

Lemma at_atomically {A} (m : AM A) w : advances_at w m → advances_at w (atomically m).
Proof.
  intros Hm w' r. unfold atomically. destruct (m w) as [w1 [a|e]] eqn:E; intros [= <- <-].
  - by eapply Hm.
  - intros HI. destruct (Hm _ _ E HI) as [_ Hh]. eapply adv_quiet; [|done].
    repeat split; try done. apply (hi_uuids _ _ Hh).
Qed.

Lemma at_existing {B} id (k : AutomationRun → AM B) w :
  (∀ r, find_run_row (aw_db w) id = Some r → advances_at w (k (decode_run r))) →
  advances_at w (bind (existing_run id) k).
Proof.
  intros Hk w' res. unfold existing_run, find_automation_run, bind, read, gets, require, abail, fail, ret.
  destruct (find_run_row _ _) as [r|] eqn:E; cbn; [by apply Hk|]. intros [= <- <-]. apply adv_refl.
Qed.

Lemma at_update_runs w p f :
  (AInv w → ∀ r, r ∈ runs w → p r = true → run_kept r (f r) ∧ ar_id (rr_data (f r)) = rr_id (f r)) →
  advances_at w (update_run_rows p f).
Proof.
  intros Hf w' res. unfold update_run_rows, bind at 1, read, gets, bind, ret.
  destruct (guarded _ _ w) as [w1 [[]|e]] eqn:Eg; intros; simplify_eq.
  all: intros HI; eapply (guarded_adv _ _ _ _ _ Eg); [|done]; intros Ha; apply update_runs_adv; auto.
Qed.

Lemma row_of_id w id r x :
  AInv w → find_run_row (aw_db w) id = Some r → x ∈ runs w → rr_id x = id → x = r.
Proof.
  intros HI [Hin <-]%find_run_row_spec Hx He. by apply (NoDup_key_inj rr_id (runs w)); [apply HI|..].
Qed.

Lemma advances_save run : advances (save_automation_run run).
Proof.
  intros w. apply at_existing. intros r Hr. destruct (_ && _) eqn:Eg; [apply at_of; advance|].
  apply at_atomically, at_bind; [|intros; apply at_of; advance].
  apply at_update_runs. intros HI x Hx Hid%String.eqb_eq. apply saved_row_kept; [done|].
  rewrite (row_of_id w (ar_id run) r x) by done. intros Hf. change (ar_status (decode_run r)) with (rr_status r) in Eg.
  rewrite Hf in Eg. cbn in Eg. apply negb_false_iff, bool_decide_eq_true in Eg. done.
Qed.
#[local] Hint Resolve advances_save : adv.

(** ** Attempts and admission *)

Lemma attempted_run_id run boot attempt at_ : ar_id (attempted_run run boot attempt at_) = ar_id run.
Proof. reflexivity. Qed.

Lemma attempt_refused_final run max_attempts at_ :
  is_final (ar_status run) = true → attempt_refused run max_attempts at_ = true.
Proof.
  intros Hf. unfold attempt_refused. rewrite (bool_decide_eq_false_2 (ar_status run = Rs_Pending)),
    (bool_decide_eq_false_2 (ar_status run = Rs_Dispatching)) by (by intros E; rewrite E in Hf).
  by rewrite !orb_true_r.
Qed.

Lemma attempted_row_kept row run updated :
  is_final (rr_status row) = false → ar_id run = ar_id (rr_data row) → ar_id (rr_data row) = rr_id row →
  let row' := with_rr_updated_at updated (with_rr_data run (with_rr_status (ar_status run) row)) in
  run_kept row row' ∧ ar_id (rr_data row') = rr_id row'.
Proof. intros Hf He Hd. split; [|cbn; congruence]. repeat split. congruence. Qed.

Lemma insert_attempt_row_runs t w w' res : insert_attempt_row t w = (w', res) → runs w' = runs w.
Proof.
  unfold insert_attempt_row, bind, read, gets, guarded, write, modify, fail.
  destruct (existsb _ _); intros E; by simplify_eq.
Qed.

Lemma advances_begin_attempt id max_attempts : advances (begin_automation_attempt id max_attempts).
Proof.
  apply advances_bind; [advance|]. intros boot. apply advances_atomically, advances_bind; [advance|].
  intros n w. apply at_read. destruct (find_run_row (aw_db w) id) as [row|] eqn:Er;
    [|intros w' r [= <- <-]; apply adv_refl].
  apply at_bind; [apply at_of; advance|]. intros w1 x [= <- <-]. cbv zeta.
  apply at_bind; [apply at_of; advance|]. intros w1 at_ [= <- <-].
  destruct (attempt_refused _ _ _) eqn:Eref; [apply at_of; advance|].
  apply at_bind; [apply at_of; advance|]. intros w1 attempt [= <- <-]. cbv zeta.
  apply at_bind; [apply at_of; advance|]. intros w2 u Hins%insert_attempt_row_runs.
  apply at_bind; [|intros; apply at_of; advance].
  apply at_update_runs. intros HI x Hx Hid%String.eqb_eq.
  assert (x = row) as ->.
  { apply (row_of_id w2 id row x); try done. unfold find_run_row. unfold runs in Hins. by rewrite Hins. }
  apply attempted_row_kept; [|done|by apply (ai_run_data w2 HI)].
  destruct (is_final (rr_status row)) eqn:Ef; [|done].
  by rewrite (attempt_refused_final (decode_run row)) in Eref.
Qed.

Lemma next_run_number_fresh db automation_id r :
  r ∈ adb_runs db → rr_automation_id r = automation_id → (rr_number r < next_run_number db automation_id)%Z.
Proof.
  intros Hr <-. unfold next_run_number.
  assert (rr_number r ∈ (rr_number <$> List.filter (of_automation (rr_automation_id r)) (adb_runs db))) as Hin.
  { apply list_elem_of_fmap. exists r. split; [done|]. rewrite list_elem_of_In, filter_In, <-list_elem_of_In.
    split; [done|]. apply String.eqb_refl. }
  destruct (rr_number <$> _) as [|z zs]; [by apply not_elem_of_nil in Hin|].
  enough (rr_number r ≤ foldr Z.max z zs)%Z by lia. revert Hin. rewrite elem_of_cons. clear.
  intros [E|E]; induction zs as [|y zs IH]; cbn; rewrite ?elem_of_nil, ?elem_of_cons in *; try done; try lia.
  destruct E as [->|E]; [|specialize (IH E)]; lia.
Qed.

(** The world after an identifier was drawn and a run stored under it. *)
Lemma insert_new_run w (w2 : AutomationWorld) r :
  aw_db w2 = aw_db w → aw_uuids w2 = S (aw_uuids w) → rr_id r = uuid_v4 (aw_uuids w) →
  ar_id (rr_data r) = rr_id r →
  (∀ x, x ∈ runs w → run_occurrence x ≠ run_occurrence r) →
  (∀ x, x ∈ runs w → run_number x ≠ run_number r) →
  adv w (with_adb (with_adb_runs (adb_runs (aw_db w2) ++ [r])) w2).
Proof.
  intros Edb Eu Hid Hdata Hocc Hnum HI.
  assert (runs w2 = runs w) as Hr2 by (unfold runs; by rewrite Edb).
  assert (prechecks w2 = prechecks w) as Hp2 by (unfold prechecks; by rewrite Edb).
  assert (AInv w2) as HI2.
  { apply (adv_quiet w); [|done]. repeat split; try done; [by rewrite Edb|by rewrite Edb|lia]. }
  split.
  - apply (insert_run_adv w2 r (aw_uuids w)); rewrite ?Hr2, ?Hp2; try done.
    + intros x Hx. by apply (ai_run_drawn w HI).
    + intros q Hq. by apply (ai_process_drawn w HI).
  - assert (∀ x, x ∈ runs w → rr_id x ≠ rr_id r) as Hfresh.
    { intros x Hx He. destruct (ai_run_drawn w HI x Hx) as (k & Hk & Hk'). rewrite He, Hid in Hk'.
      apply uuid_v4_inj in Hk'. lia. }
    split.
    + cbn. lia.
    + intros x x' Hx. unfold runs. cbn. rewrite Edb. intros [Hx'| ->%list_elem_of_singleton]%elem_of_app He.
      * by rewrite (NoDup_key_inj rr_id (runs w) x' x (ai_run_ids w HI) Hx' Hx He).
      * by destruct (Hfresh x Hx).
    + intros x'. unfold runs at 1. cbn. rewrite Edb. intros [Hx'| ->%list_elem_of_singleton]%elem_of_app.
      * left. by exists x'.
      * right. exists (aw_uuids w). split; [lia|done].
    + exists []. cbn. rewrite Edb. by rewrite app_nil_r.
Qed.

Lemma advances_admit definition occurrence trigger claim :
  advances (admit_automation_run definition occurrence trigger claim).
Proof.
  apply advances_atomically, advances_bind; [advance|]. intros claimed.
  destruct (negb claimed); [advance|]. intros w. apply at_read.
  apply at_bind; [apply at_of; advance|]. intros w1 at_ [= <- <-].
  intros w' res. unfold bind at 1, new_uuid. cbv zeta.
  set (w2 := MkAutomationWorld _ _ _). set (run := new_run _ _ _ _ _ _).
  unfold bind, insert_run_row, bind, read, gets. unfold guarded.
  destruct (or_else _ _) eqn:Eg.
  - unfold fail. intros [= <- <-]. apply adv_quiet. repeat split; try done. cbn. lia.
  - unfold write, modify, ret. intros [= <- <-]. apply or_else_None in Eg as [_ Eg].
    destruct (existsb _ _) in Eg; [done|]. destruct (existsb _ _) eqn:Eo in Eg; [done|]. clear Eg.
    apply (insert_new_run w2 (MkAutomationWorld (aw_db w2) (aw_ticks w2) (S (aw_uuids w2))) (new_run_row run));
      try reflexivity.
    + intros x Hx [= E1 E2]. rewrite <-not_true_iff_false in Eo. apply Eo, existsb_exists. exists x.
      rewrite list_elem_of_In in Hx. split; [done|]. cbn. by rewrite E1, E2, !String.eqb_refl.
    + intros x Hx [= E1 E2]. pose proof (next_run_number_fresh (aw_db w) (ad_id definition) x Hx E1). lia.
Qed.
(** ** Precheck processes *)

(** A query: the world stays as it is. *)
Definition still {A} (m : AM A) : Prop := ∀ w, (m w).1 = w.

Lemma still_read {A} (q : AutomationDb → A) : still (read q).
Proof. done. Qed.
Lemma still_ret {A} (a : A) : still (ret a).
Proof. done. Qed.
Lemma still_fail {A} e : still (@fail _ A e).
Proof. done. Qed.
Lemma still_of_result {A} (x : Result A) : still (of_result x).
Proof. done. Qed.
Lemma still_require {A} (o : option A) msg : still (require o msg).
Proof. by destruct o. Qed.
Lemma still_fetch_one {A} (o : option A) : still (fetch_one o).
Proof. by destruct o. Qed.
Lemma still_bind {A B} (m : AM A) (k : A → AM B) : still m → (∀ a, still (k a)) → still (bind m k).
Proof.
  intros Hm Hk w. unfold bind. specialize (Hm w). destruct (m w) as [w1 [a|e]]; cbn in *; subst; [apply Hk|done].
Qed.

Lemma at_still {A B} (m : AM A) (k : A → AM B) w :
  still m → (∀ a, m w = (w, Ok a) → advances_at w (k a)) → advances_at w (bind m k).
Proof.
  intros Hm Hk. specialize (Hm w). intros w' r. unfold bind. destruct (m w) as [w1 [a|e]] eqn:E; cbn in Hm; subst.
  - by apply Hk.
  - intros [= <- <-]. apply adv_refl.
Qed.

Lemma still_capture workspace_id : still (capture_workspace workspace_id).
Proof.
  destruct workspace_id; [|apply still_ret]. apply still_bind; [apply still_read|]. intros row.
  apply still_bind; [apply still_fetch_one|]. intros [x c]. destruct (String.eqb _ _); [apply still_fail|apply still_ret].
Qed.

Lemma insert_process_adv w p r :
  r ∈ runs w → pp_run_id p = rr_id r → rr_status r = Rs_Dispatching →
  (∀ x, x ∈ prechecks w → pp_id x ≠ pp_id p) →
  (∀ x, x ∈ prechecks w → pp_run_id x = pp_run_id p → ¬ open_process x) →
  adv w (with_adb (with_adb_prechecks (prechecks w ++ [p])) w).
Proof.
  intros Hr He Hs Hid Hone HI. split.
  - split; unfold prechecks; cbn; try by destruct HI.
    + apply NoDup_key_snoc; [apply HI|]. intros (x & E & Hx)%list_elem_of_fmap. by apply (Hid x Hx).
    + intros q [Hq| ->%list_elem_of_singleton]%elem_of_app; [by apply (ai_process_drawn w HI)|].
      rewrite He. left. by apply (ai_run_drawn w HI).
    + intros q r' [Hq| ->%list_elem_of_singleton]%elem_of_app Hr' Ho Hq'; [by eapply (ai_process_open w HI)|].
      left. rewrite (NoDup_key_inj rr_id (runs w) r' r (ai_run_ids w HI)); [done..|congruence].
    + intros q q' [Hq| ->%list_elem_of_singleton]%elem_of_app [Hq'| ->%list_elem_of_singleton]%elem_of_app Ho Ho' E;
        [by apply (ai_process_one w HI)| | |done].
      * by destruct (Hone q Hq E).
      * by destruct (Hone q' Hq' (eq_sym E)).
  - apply history_refl_runs; try done. exists []. by rewrite app_nil_r.
Qed.

Lemma at_insert_precheck w p r :
  r ∈ runs w → pp_run_id p = rr_id r → rr_status r = Rs_Dispatching → open_process p →
  advances_at w (insert_precheck_row p).
Proof.
  intros Hr He Hs Ho w' res. unfold insert_precheck_row, bind, read, gets. intros Hg.
  eapply guarded_adv; [exact Hg|]. clear Hg.
  destruct (existsb (λ x, String.eqb (pp_id x) (pp_id p)) _) eqn:E1; [done|]. rewrite Ho. cbn.
  destruct (existsb (unclosed_of _) _) eqn:E2; [done|]. intros _. apply (insert_process_adv w p r); try done.
  - intros x Hx Hx'. rewrite <-not_true_iff_false in E1. apply E1, existsb_exists. exists x.
    rewrite list_elem_of_In in Hx. split; [done|]. by apply String.eqb_eq.
  - intros x Hx Hx' Hox. rewrite <-not_true_iff_false in E2. apply E2, existsb_exists. exists x.
    rewrite list_elem_of_In in Hx. split; [done|]. unfold unclosed_of. rewrite Hx', String.eqb_refl. by rewrite Hox.
Qed.

Lemma precheck_current_dispatching current run d :
  precheck_current current run d = true → ar_status current = Rs_Dispatching.
Proof. unfold precheck_current. rewrite !andb_true_iff. by intros [[[[[?%bool_decide_eq_true _] _] _] _] _]. Qed.

Lemma advances_begin_precheck run definition operation_id platform boot_id :
  advances (begin_automation_precheck_process run definition operation_id platform boot_id).
Proof.
  unfold begin_automation_precheck_process. destruct (_ || _); [advance|]. apply advances_atomically. intros w.
  apply at_read. destruct (find_run_row (aw_db w) (ar_id run)) as [row|] eqn:Er;
    [|intros w' r [= <- <-]; apply adv_refl].
  apply at_still; [apply still_fetch_one|]. intros x [= <-]. cbv zeta.
  destruct (precheck_current _ _ _) eqn:Ec; [|apply at_of, advances_abail].
  apply precheck_current_dispatching in Ec. change (ar_status (decode_run row)) with (rr_status row) in Ec.
  apply find_run_row_spec in Er as [Hin Hid]. cbn [negb].
  repeat first [ apply at_still; [first [apply still_read|apply still_fetch_one|apply still_require
                                        |apply still_of_result|apply still_capture]|intros ? _]
               | match goal with |- advances_at _ (if ?b then _ else _) => destruct b; [apply at_of; advance|] end ].
  destruct a3 as [[project_id host_id] path]. apply at_still; [apply still_capture|]. intros workspace _. cbv zeta.
  apply at_bind; [|intros; apply at_of; advance]. by apply (at_insert_precheck w _ row).
Qed.

Lemma advances_swap_process changed previous next :
  pp_id next = pp_id previous → pp_run_id next = pp_run_id previous →
  (open_process next → open_process previous) → advances (swap_precheck_process changed previous next).
Proof.
  intros Hid Hrun Ho w. apply at_read. cbv zeta. apply at_bind; [|intros; apply at_of; advance].
  intros w' res [= <- <-]. by apply replace_process_adv.
Qed.

Lemma advances_record_spawn previous pid marker : advances (record_automation_precheck_spawn previous pid marker).
Proof.
  unfold record_automation_precheck_spawn. case_bool_decide as E; cbn; [|advance]. destruct (pid =? 0)%Z; [advance|].
  apply advances_swap_process; try done.
  intros _. unfold open_process. by rewrite E.
Qed.

Lemma advances_record_phase previous phase : advances (record_automation_precheck_phase previous phase).
Proof.
  unfold record_automation_precheck_phase. destruct (phase_step _ _) eqn:E; [|advance].
  apply advances_swap_process; try done. intros _. unfold open_process. by destruct (pp_phase previous), phase.
Qed.

Lemma advances_close_previous_boot `{UuidParser} previous current :
  advances (close_automation_precheck_from_previous_boot previous current).
Proof.
  unfold close_automation_precheck_from_previous_boot. destruct (_ || _); [advance|].
  apply advances_bind; [advance|]. intros old. apply advances_bind; [advance|]. intros cur.
  destruct (_ || _); [advance|]. destruct (phase_closed _) eqn:E; [advance|]. by apply advances_swap_process.
Qed.

(** ** The other operations *)

#[local] Hint Resolve advances_begin_attempt advances_admit advances_begin_precheck advances_record_spawn
  advances_record_phase advances_close_previous_boot : adv.

Lemma advances_create_run definition occurrence trigger :
  advances (create_automation_run definition occurrence trigger).
Proof. unfold create_automation_run. advance. Qed.

Lemma advances_prune id at_ : advances (prune_automation_runs id at_).
Proof. unfold prune_automation_runs, prune_automation_runs_with_limits. advance. Qed.

Lemma advances_prune_history at_ : advances (prune_automation_history at_).
Proof. unfold prune_automation_history, prune_automation_runs_with_limits. advance. Qed.

Lemma advances_finish_attempt id status error : advances (finish_latest_automation_attempt id status error).
Proof. unfold finish_latest_automation_attempt. advance. Qed.

Lemma advances_archive id actor : advances (archive_one_time_automation_if_final id actor).
Proof. unfold archive_one_time_automation_if_final. advance. Qed.

Lemma advances_audit_run run action actor details : advances (audit_run run action actor details).
Proof. unfold audit_run. advance. Qed.
#[local] Hint Resolve advances_create_run advances_prune advances_prune_history advances_finish_attempt
  advances_archive advances_audit_run : adv.

Lemma advances_claim_all id at_ os n : advances (claim_all id at_ os n).
Proof. revert n. induction os as [|o os IH]; intros n; cbn [claim_all]; advance. Qed.
#[local] Hint Resolve advances_claim_all : adv.

Lemma advances_claim_skipped id os : advances (claim_skipped_automation_occurrences id os).
Proof. unfold claim_skipped_automation_occurrences. advance. Qed.

Lemma edited_checked d existing actor at_ : checked (edited_definition d existing actor at_) = checked d.
Proof. by destruct existing. Qed.

Lemma advances_upsert d actor : advances (upsert_automation d actor).
Proof.
  unfold upsert_automation. cbv zeta.
  assert (∀ m : option AutomationDefinition → AM AutomationDefinition, (∀ existing, advances (m existing)) →
            advances (bind (find_automation (ad_id (normalize_definition d))) m)) as Hfind by (intros m Hm; by apply advances_find).
  apply Hfind. intros existing. destruct (take_stored_binding _ _) as [def unbound].
  apply advances_bind; [advance|]. intros [owner|]; [advance|].
  apply advances_result. intros [] Hv. apply advances_bind; [advance|]. intros at_.
  apply advances_bind; [|intros _; advance]. apply advances_upsert_row; [|done].
  split; [|done]. cbn [au_data]. by rewrite (validate_checked def) by apply edited_checked.
Qed.

Lemma advances_set_state id state actor reason : advances (set_automation_state id state actor reason).
Proof. unfold set_automation_state. advance. Qed.

Lemma advances_purge at_ : advances (purge_trashed_automations at_).
Proof. unfold purge_trashed_automations. advance. Qed.

Lemma advances_bind_attempt run kind : advances (bind_automation_attempt run kind).
Proof. unfold bind_automation_attempt. advance. Qed.

Lemma advances_complete id status summary error actor :
  advances (complete_automation_run id status summary error actor).
Proof. unfold complete_automation_run. advance. Qed.

Lemma advances_heartbeat id actor : advances (heartbeat_automation_run id actor).
Proof. unfold heartbeat_automation_run, already_final. advance. Qed.

Lemma advances_waiting id actor waiting : advances (set_automation_run_waiting id actor waiting).
Proof. unfold set_automation_run_waiting, already_final. advance. Qed.

Lemma advances_extend id until actor : advances (extend_waiting_automation_run id until actor).
Proof. unfold extend_waiting_automation_run. advance. Qed.

Lemma advances_cancel id actor : advances (request_automation_cancel id actor).
Proof. unfold request_automation_cancel. advance. Qed.

Lemma advances_taken_over id actor : advances (mark_automation_run_taken_over id actor).
Proof. unfold mark_automation_run_taken_over. advance. Qed.

Lemma advances_update_status id status error : advances (update_automation_run_status id status error).
Proof. unfold update_automation_run_status. advance. Qed.

Lemma advances_retry id at_ error actor : advances (schedule_automation_retry id at_ error actor).
Proof. unfold schedule_automation_retry, already_final. advance. Qed.

Lemma advances_set_circuit id opened actor reason : advances (set_automation_circuit_opened id opened actor reason).
Proof. unfold set_automation_circuit_opened. advance. Qed.

Lemma advances_open_circuit id actor reason : advances (open_automation_circuit id actor reason).
Proof.
  unfold open_automation_circuit, write_definition, audit_definition. apply advances_existing. intros d Hd.
  cbv zeta. destruct (ad_circuit_opened d), (bool_decide (ad_state d = As_Active)); cbn [negb andb]; advance.
Qed.

Lemma advances_reset_opened d actor reason :
  valid_for (ad_id d) d → advances (reset_opened_automation_circuit d actor reason).
Proof.
  intros Hd. unfold reset_opened_automation_circuit, write_definition, audit_definition. cbv zeta.
  destruct (bool_decide (ad_state d = As_Blocked)); advance.
Qed.

Lemma advances_reset_circuit id actor reason : advances (reset_automation_circuit id actor reason).
Proof.
  unfold reset_automation_circuit. apply advances_existing. intros d [Hv Hid]. destruct (negb _); [advance|].
  by apply advances_reset_opened.
Qed.

Lemma advances_reset_loop at_ actor ds n errors :
  Forall (λ d, valid_for (ad_id d) d) ds → advances (reset_loop at_ actor ds n errors).
Proof.
  intros Hds. revert n errors. induction Hds as [|d ds Hd Hds IH]; intros n errors; cbn [reset_loop]; [advance|].
  destruct (_ || _); [apply IH|]. intros w w' r. destruct (reset_opened_automation_circuit _ _ _ w) as [w1 [x|e]] eqn:E;
    intros Hr; (eapply adv_trans; [by eapply advances_reset_opened|by eapply IH]).
Qed.

Lemma advances_reset_expired at_ actor : advances (reset_expired_automation_circuits at_ actor).
Proof. unfold reset_expired_automation_circuits. apply advances_list. intros ds. apply advances_reset_loop. Qed.

Lemma advances_started : advances record_automation_runtime_started.
Proof. unfold record_automation_runtime_started. advance. Qed.

Lemma advances_claim_cleanup id at_ : advances (claim_automation_shared_cleanup id at_).
Proof. unfold claim_automation_shared_cleanup, update_intent_rows. advance. Qed.

Lemma advances_settle attempt retry error at_ : advances (settle_automation_shared_cleanup attempt retry error at_).
Proof. unfold settle_automation_shared_cleanup, update_intent_rows. advance. Qed.

Lemma advances_release_tab id reason : advances (release_tab_in id reason).
Proof. unfold release_tab_in, update_bound, audit_binding. advance. Qed.
Lemma advances_clear id reason : advances (clear_in id reason).
Proof. unfold clear_in, update_bound, audit_binding. advance. Qed.
#[local] Hint Resolve advances_release_tab advances_clear : adv.

Lemma advances_bind_target id binding reason : advances (bind_automation_target id binding reason).
Proof. unfold bind_automation_target, update_bound, audit_binding. advance. Qed.
Lemma advances_touch_target id run_id at_ : advances (touch_automation_bound_target id run_id at_).
Proof. unfold touch_automation_bound_target, update_bound. advance. Qed.
Lemma advances_release_bound_tab id reason : advances (release_automation_bound_tab id reason).
Proof. unfold release_automation_bound_tab. advance. Qed.
Lemma advances_clear_bound id reason : advances (clear_automation_bound_target id reason).
Proof. unfold clear_automation_bound_target. advance. Qed.
Lemma advances_release_tabs tab reason : advances (release_automation_bound_tabs_for_tab tab reason).
Proof. unfold release_automation_bound_tabs_for_tab. advance. Qed.
Lemma advances_clear_workspace workspace reason :
  advances (clear_automation_bound_targets_for_workspace workspace reason).
Proof. unfold clear_automation_bound_targets_for_workspace. advance. Qed.
Lemma advances_forget_workspace workspace : advances (forget_workspace workspace).
Proof. unfold forget_workspace. advance. Qed.

(** ** Other hosts and shared workspaces *)

Lemma advances_remote_result `{UuidParser} previous job processes : advances (record_remote_precheck_result previous job processes).
Proof.
  unfold record_remote_precheck_result. apply advances_bind; [advance|]. intros _. apply advances_atomically.
  by apply advances_swap_process.
Qed.

Lemma insert_owner_process_adv `{UuidParser} request platform boot w w' r :
  insert_precheck_row (owner_process request platform boot) w = (w', r) → adv w w'.
Proof.
  unfold insert_precheck_row, bind, read, gets. intros Hg. eapply guarded_adv; [exact Hg|]. clear Hg.
  set (p := owner_process request platform boot). destruct (existsb _ _) eqn:Eid; [done|].
  destruct (negb (phase_closed (pp_phase p)) && _) eqn:Eone; [done|]. intros _ HI. split.
  - assert (∀ q, q ∈ prechecks w → pp_run_id q = pp_run_id p → ¬ open_process q) as Hone.
    { intros q Hq E Ho. cbn [p owner_process pp_phase phase_closed negb andb] in Eone. apply not_true_iff_false in Eone. apply Eone, existsb_exists.
      exists q. rewrite <-list_elem_of_In. split; [done|]. unfold unclosed_of. by rewrite E, String.eqb_refl, Ho. }
    assert (∀ x, x ∈ runs w → pp_run_id p ≠ rr_id x) as Hrun.
    { intros x Hx E. destruct (ai_run_drawn w HI x Hx) as (k & _ & Hk). rewrite Hk in E. symmetry in E. by apply uuid_v4_plain in E. }
    split; unfold prechecks; cbn; try by destruct HI.
    + apply NoDup_key_snoc; [apply HI|]. intros (x & E & Hx)%list_elem_of_fmap. apply not_true_iff_false in Eid. apply Eid, existsb_exists.
      exists x. rewrite <-list_elem_of_In. split; [done|]. rewrite <-E. apply String.eqb_refl.
    + intros q [Hq| ->%list_elem_of_singleton]%elem_of_app; [by apply (ai_process_drawn w HI)|]. right. by eexists.
    + intros q x [Hq| ->%list_elem_of_singleton]%elem_of_app Hx Ho E; [by eapply (ai_process_open w HI)|]. by destruct (Hrun x Hx).
    + intros q q' [Hq| ->%list_elem_of_singleton]%elem_of_app [Hq'| ->%list_elem_of_singleton]%elem_of_app Ho Ho' E;
        [by apply (ai_process_one w HI)| | |done].
      * by destruct (Hone q Hq E).
      * by destruct (Hone q' Hq' (eq_sym E)).
  - apply history_refl_runs; try done. exists []. by rewrite app_nil_r.
Qed.

Definition home_advances {A} (m : OM A) : Prop := ∀ w w' r, m w = (w', r) → adv (ow_home w) (ow_home w').
Lemma home_bind {A B} (m : OM A) (k : A → OM B) : home_advances m → (∀ a, home_advances (k a)) → home_advances (bind m k).
Proof.
  intros Hm Hk w w' r. unfold bind. destruct (m w) as [v [a|e]] eqn:E; intros Hr.
  - eapply adv_trans; [by eapply Hm|by eapply Hk].
  - injection Hr as <- <-. by eapply Hm.
Qed.
Lemma home_same {A} (m : OM A) : (∀ w, ow_home (m w).1 = ow_home w) → home_advances m.
Proof. intros Hm w w' r E. specialize (Hm w). rewrite E in Hm. cbn in Hm. rewrite Hm. apply adv_refl. Qed.
Lemma home_in {A} (m : AM A) : advances m → home_advances (in_home m).
Proof. intros Hm w w' r. unfold in_home. destruct (m (ow_home w)) as [h a] eqn:E. intros [= <- <-]. by eapply Hm. Qed.
Lemma home_tx {A} (m : OM A) : home_advances m → home_advances (owner_tx m).
Proof.
  intros Hm w w' r. unfold owner_tx. destruct (m w) as [v [a|e]] eqn:E; intros [= <- <-]; [by eapply Hm|].
  apply Hm in E. cbn. intros HI. destruct (E HI) as [_ [Hu _ _ _]].
  apply adv_quiet; [|done]. repeat split. exact Hu.
Qed.

Lemma advances_owner_registered `{UuidParser} request : advances (owner_target_registered request).
Proof. unfold owner_target_registered. advance. Qed.

(** Whatever this host does for another one advances its own tables. *)
Ltac home :=
  repeat first
    [ apply home_tx | apply home_bind; [|intros ?] | apply home_in; first [apply advances_owner_registered | advance]
    | match goal with |- home_advances (match ?x with _ => _ end) => destruct x end
    | (apply home_same; done) ].
Lemma home_register `{UuidParser} request cancelled : home_advances (register_owner_precheck request cancelled).
Proof. unfold register_owner_precheck, obail, job_of, set_job. home. Qed.
Lemma home_cancel `{UuidParser} request : home_advances (cancel_owner_automation_precheck request).
Proof. unfold cancel_owner_automation_precheck, job_of, set_job. home. apply home_register. Qed.
Lemma home_claim `{UuidParser} request platform boot : home_advances (claim_owner_automation_precheck request platform boot).
Proof.
  unfold claim_owner_automation_precheck, obail, job_of, set_job. home. intros w w' r. unfold in_home.
  destruct (insert_precheck_row _ _) as [h x] eqn:E. intros [= <- <-]. by eapply insert_owner_process_adv.
Qed.
Lemma home_finish `{UuidParser} request outcome : home_advances (finish_owner_automation_precheck request outcome).
Proof. unfold finish_owner_automation_precheck, obail, job_of, set_job, fetch_one, no_rows. home. Qed.

Lemma advances_allocation row : advances (insert_allocation_row row).
Proof. apply advances_guarded. intros w _. by apply quiet_with_adb. Qed.

(** The run keeps its identity and its status. *)
Lemma advances_allocate_new task workspace run :
  advances (nt_store task) → advances (allocate_new_task task workspace run).
Proof.
  intros Hs. unfold allocate_new_task. destruct (_ || _); [advance|]. apply advances_bind; [advance|]. intros n.
  destruct (negb _); [advance|]. apply advances_bind; [done|]. intros _. apply advances_bind; [advance|]. intros at_.
  apply advances_bind; [|intros _; apply advances_bind; [apply advances_allocation|intros _; advance]].
  intros w. apply at_update_runs. intros HI r Hr Hid%String.eqb_eq. split; [by repeat split|]. symmetry. exact Hid.
Qed.
Lemma advances_allocate expected task : advances (nt_store task) → advances (allocate_automation_shared_workspace expected task).
Proof.
  intros Hs. unfold allocate_automation_shared_workspace. destruct (negb _); [advance|]. apply advances_bind; [advance|]. intros path.
  apply advances_bind; [advance|]. intros row. apply advances_bind; [advance|]. intros row'. destruct (negb _); [advance|].
  apply advances_bind; [|intros [[] [run ws]]; unfold find_automation_run; advance].
  apply advances_atomically. apply advances_bind; [apply advances_touch_runs|]. intros n. destruct (negb _); [advance|].
  apply advances_bind; [advance|]. intros a. apply advances_bind; [advance|]. intros a'. destruct (negb _); [advance|].
  match goal with |- advances (if ?b then _ else _) => destruct b end; [advance|]. apply advances_bind; [advance|]. intros [al|].
  - apply advances_bind; [|intros ?; advance]. unfold replayed_allocation. advance.
  - apply advances_bind; [|intros ?; advance]. by apply advances_allocate_new.
Qed.
End Operations.
