(* ===== verification/AutomationHistory.v ===== *)
(** * AutomationHistory: every sequence of automation operations

    [AStep] has one constructor per operation that writes the automation
    tables, whatever it is called with and whatever it answers, and one for the
    other components, which may change the tables they own (workspaces,
    checkouts, projects, profiles, tabs, allocations, settings) at any moment.
    The theorems follow the store through every such sequence. *)

From S2P Require Import Prelude Text Models Store AutomationModels Schedule Prompt AutomationDb AutomationStore AutomationPrecheck AutomationCleanup AutomationInv AutomationLifecycle.
From Stdlib Require Import ZArith Lia Ascii String.
From stdpp Require Import strings prelude relations.

(** The automation tables, as [quiet] keeps them, before anything was stored. *)
Definition empty_tables (db : AutomationDb) : Prop :=
  adb_automations db = [] ∧ adb_occurrences db = [] ∧ adb_runs db = [] ∧ adb_prechecks db = [].

Section History.
Context `{AutomationEnv} `{!UuidsDistinct} `{Chrono} `{UuidParser}.

(** One operation, with its world before and after. *)
Inductive AStep (w w' : AutomationWorld) : Prop :=
| AS_other : quiet w w' → AStep w w'
| AS_upsert d actor r : upsert_automation d actor w = (w', r) → AStep w w'
| AS_set_state id s actor reason r : set_automation_state id s actor reason w = (w', r) → AStep w w'
| AS_purge at_ r : purge_trashed_automations at_ w = (w', r) → AStep w w'
| AS_archive id actor r : archive_one_time_automation_if_final id actor w = (w', r) → AStep w w'
| AS_prune id at_ r : prune_automation_runs id at_ w = (w', r) → AStep w w'
| AS_prune_history at_ r : prune_automation_history at_ w = (w', r) → AStep w w'
| AS_admit d o t claim r : admit_automation_run d o t claim w = (w', r) → AStep w w'
| AS_create d o t r : create_automation_run d o t w = (w', r) → AStep w w'
| AS_claim_skipped id os r : claim_skipped_automation_occurrences id os w = (w', r) → AStep w w'
| AS_save run r : save_automation_run run w = (w', r) → AStep w w'
| AS_begin_attempt id max_attempts r : begin_automation_attempt id max_attempts w = (w', r) → AStep w w'
| AS_bind_attempt run kind r : bind_automation_attempt run kind w = (w', r) → AStep w w'
| AS_complete id s summary error actor r :
    complete_automation_run id s summary error actor w = (w', r) → AStep w w'
| AS_heartbeat id actor r : heartbeat_automation_run id actor w = (w', r) → AStep w w'
| AS_waiting id actor waiting r : set_automation_run_waiting id actor waiting w = (w', r) → AStep w w'
| AS_extend id until actor r : extend_waiting_automation_run id until actor w = (w', r) → AStep w w'
| AS_cancel id actor r : request_automation_cancel id actor w = (w', r) → AStep w w'
| AS_taken_over id actor r : mark_automation_run_taken_over id actor w = (w', r) → AStep w w'
| AS_status id s error r : update_automation_run_status id s error w = (w', r) → AStep w w'
| AS_retry id at_ error actor r : schedule_automation_retry id at_ error actor w = (w', r) → AStep w w'
| AS_set_circuit id opened actor reason r :
    set_automation_circuit_opened id opened actor reason w = (w', r) → AStep w w'
| AS_open_circuit id actor reason r : open_automation_circuit id actor reason w = (w', r) → AStep w w'
| AS_reset_circuit id actor reason r : reset_automation_circuit id actor reason w = (w', r) → AStep w w'
| AS_reset_expired at_ actor r : reset_expired_automation_circuits at_ actor w = (w', r) → AStep w w'
| AS_started r : record_automation_runtime_started w = (w', r) → AStep w w'
| AS_begin_precheck run d op platform boot r :
    begin_automation_precheck_process run d op platform boot w = (w', r) → AStep w w'
| AS_record_spawn p pid marker r : record_automation_precheck_spawn p pid marker w = (w', r) → AStep w w'
| AS_record_phase p phase r : record_automation_precheck_phase p phase w = (w', r) → AStep w w'
| AS_close_previous_boot p boot r :
    close_automation_precheck_from_previous_boot p boot w = (w', r) → AStep w w'
| AS_claim_cleanup id at_ r : claim_automation_shared_cleanup id at_ w = (w', r) → AStep w w'
| AS_settle attempt retry error at_ r :
    settle_automation_shared_cleanup attempt retry error at_ w = (w', r) → AStep w w'
| AS_bind_target id binding reason r : bind_automation_target id binding reason w = (w', r) → AStep w w'
| AS_touch_target id run_id at_ r : touch_automation_bound_target id run_id at_ w = (w', r) → AStep w w'
| AS_release_tab id reason r : release_automation_bound_tab id reason w = (w', r) → AStep w w'
| AS_clear_target id reason r : clear_automation_bound_target id reason w = (w', r) → AStep w w'
| AS_release_tabs tab reason r : release_automation_bound_tabs_for_tab tab reason w = (w', r) → AStep w w'
| AS_clear_workspace workspace reason r :
    clear_automation_bound_targets_for_workspace workspace reason w = (w', r) → AStep w w'
| AS_forget_workspace workspace r : forget_workspace workspace w = (w', r) → AStep w w'
| AS_allocate expected task r :
    (∀ v v' res, nt_store task v = (v', res) → quiet v v') →
    allocate_automation_shared_workspace expected task w = (w', r) → AStep w w'
| AS_remote_result previous job processes r : record_remote_precheck_result previous job processes w = (w', r) → AStep w w'
| AS_claim_owner jobs jobs' request platform boot r :
    claim_owner_automation_precheck request platform boot (MkOwnerWorld w jobs) = (MkOwnerWorld w' jobs', r) → AStep w w'
| AS_finish_owner jobs jobs' request outcome r :
    finish_owner_automation_precheck request outcome (MkOwnerWorld w jobs) = (MkOwnerWorld w' jobs', r) → AStep w w'.

(** A store that was opened with empty tables and then used. *)
Definition areachable (w : AutomationWorld) : Prop := ∃ w0, empty_tables (aw_db w0) ∧ rtc AStep w0 w.

Lemma AStep_adv w w' : AStep w w' → adv w w'.
Proof.
  intros Hs. destruct Hs; try (match goal with E : ?m ?x = (_, _) |- adv ?x _ => refine ((_ : advances m) _ _ _ E); clear E end).
  1: by apply adv_quiet.
  all: try match goal with
    | Hq : ∀ v v' res, nt_store _ v = _ → quiet v v' |- _ =>
        apply advances_allocate; intros v v' res Hv; apply adv_quiet; by eapply Hq
    | E : claim_owner_automation_precheck _ _ _ _ = _ |- _ => exact (home_claim _ _ _ _ _ _ E)
    | E : finish_owner_automation_precheck _ _ _ = _ |- _ => exact (home_finish _ _ _ _ _ E)
    end.
  all: auto using advances_upsert, advances_set_state, advances_purge, advances_archive, advances_prune,
    advances_prune_history, advances_admit, advances_create_run, advances_claim_skipped, advances_save,
    advances_begin_attempt, advances_bind_attempt, advances_complete, advances_heartbeat, advances_waiting,
    advances_extend, advances_cancel, advances_taken_over, advances_update_status, advances_retry,
    advances_set_circuit, advances_open_circuit, advances_reset_circuit, advances_reset_expired,
    advances_started, advances_begin_precheck, advances_record_spawn, advances_record_phase,
    advances_close_previous_boot, advances_claim_cleanup, advances_settle, advances_bind_target,
    advances_touch_target, advances_release_bound_tab, advances_clear_bound, advances_release_tabs,
    advances_clear_workspace, advances_forget_workspace, advances_remote_result.
Qed.

Lemma rtc_adv w w' : rtc AStep w w' → adv w w'.
Proof.
  induction 1 as [w|w w1 w' Hs _ IH]; [apply adv_refl|]. eapply adv_trans; [by apply AStep_adv|done].
Qed.

Lemma empty_AInv w : empty_tables (aw_db w) → AInv w.
Proof.
  intros (Ea & Eo & Er & Ep). split; unfold runs, prechecks; rewrite ?Ea, ?Eo, ?Er, ?Ep;
    try apply NoDup_nil_2; intros; exfalso; by eapply not_elem_of_nil.
Qed.

Lemma areachable_AInv w : areachable w → AInv w.
Proof. intros (w0 & He & Hs). by apply (rtc_adv w0 w Hs), empty_AInv. Qed.

(** [C2] The tables of the automation store stay consistent whatever sequence
    of operations is issued on them, failed and rolled-back ones included: run
    identifiers, occurrences and numbers of runs are unique (each within its
    automation), as are automation identifiers, slugs up to ASCII case and
    claimed occurrences; stored definitions are valid; the JSON of a run carries the identifier of its row;
    and a precheck process that is not verified closed is the only one of its
    run, which is still dispatching or waiting for its user. *)
Theorem automation_store_invariant w : areachable w → AInv w.
Proof. apply areachable_AInv. Qed.

(** The ranges of a well-formed definition. *)
Record well_formed (d : AutomationDefinition) : Prop := {
  wf_named : trim (ad_id d) ≠ "" ∧ trim (ad_slug d) ≠ "" ∧ trim (ad_name d) ≠ "";
  wf_template : validate_prompt_template (ad_prompt_template d) = Ok tt;
  wf_schedule : validate_schedule (ad_schedule d) = Ok tt;
  wf_queue_cap : (1 ≤ ad_queue_cap d ≤ 10)%Z;
  wf_heartbeat : (1 ≤ ad_heartbeat_interval_seconds d ≤ ad_inactivity_timeout_seconds d)%Z;
  wf_inactivity : (ad_inactivity_timeout_seconds d ≤ 86400)%Z;
  wf_misfire_grace : (0 ≤ ad_misfire_grace_seconds d ≤ 86400)%Z;
  wf_attempts : (1 ≤ ad_retry_max_attempts d ≤ 3)%Z;
  wf_backoff : (1 ≤ ad_retry_backoff_seconds d ≤ 86400)%Z;
  wf_threshold : (1 ≤ ad_circuit_failure_threshold d ≤ 10)%Z;
  wf_open : (1 ≤ ad_circuit_open_seconds d ≤ 604800)%Z;
  wf_precheck : ∀ p, ad_precheck d = Some p → trim (apc_command p) ≠ "" ∧ (1 ≤ apc_timeout_seconds p ≤ 900)%Z
}.

Lemma ensured b msg u : ensure b msg = Ok u → b = true.
Proof. by destruct b. Qed.

Lemma in_range_true lo hi v : in_range lo hi v = true → (lo ≤ v ≤ hi)%Z.
Proof. unfold in_range. rewrite andb_true_iff, !Z.leb_le. lia. Qed.

Lemma nonblank_true s : negb (String.eqb s "") = true → s ≠ "".
Proof. rewrite negb_true_iff, String.eqb_neq. done. Qed.

Lemma validate_well_formed d : validate_definition d = Ok tt → well_formed d.
Proof.
  unfold validate_definition. intros Hv.
  repeat match type of Hv with
  | rbind _ _ = Ok _ => let u := fresh "u" in let E := fresh "E" in apply rbind_ok_inv in Hv as (u & E & Hv); destruct u
  end.
  repeat match goal with
  | E : ensure _ _ = Ok _ |- _ => apply ensured in E
  | E : in_range _ _ _ = true |- _ => apply in_range_true in E
  | E : negb (String.eqb _ _) = true |- _ => apply nonblank_true in E
  end.
  unfold AUTOMATION_MAX_INACTIVITY_TIMEOUT_SECONDS in *. split; try done; try lia.
  intros p Hp. rewrite Hp in Hv. apply rbind_ok_inv in Hv as (u & Ec & Hv).
  apply ensured, nonblank_true in Ec. apply ensured, in_range_true in Hv. split; [done|lia].
Qed.

(** [C39] Every stored definition is well formed: in every state the store can
    reach, an automation is stored under its own identifier and passes
    validation, so that its limits lie in their ranges and its template and
    schedule are accepted, whatever edits, state changes, circuit changes and
    rebindings it went through. *)
Theorem stored_automations_well_formed w a :
  areachable w → a ∈ adb_automations (aw_db w) →
  ad_id (au_data a) = au_id a ∧ validate_definition (au_data a) = Ok tt ∧ well_formed (decode_definition a).
Proof.
  intros HI%areachable_AInv Ha. destruct (ai_valid w HI a Ha) as [Hv Hid]. split_and!; [done..|].
  apply validate_well_formed. by rewrite (validate_checked (au_data a)) by reflexivity.
Qed.

(** [C32] A run that reached a final status keeps it, in every later state of
    the store in which the run is still recorded, together with its
    identity: automation, number, occurrence, scheduled time, trigger and
    creation time; and no later run reuses its identifier. *)
Theorem final_run_never_changes w w' r r' :
  areachable w → rtc AStep w w' → r ∈ runs w → is_final (rr_status r) = true →
  r' ∈ runs w' → rr_id r' = rr_id r →
  rr_status r' = rr_status r ∧ rr_automation_id r' = rr_automation_id r ∧ rr_number r' = rr_number r ∧
  rr_occurrence_key r' = rr_occurrence_key r ∧ rr_scheduled_at r' = rr_scheduled_at r ∧
  rr_trigger r' = rr_trigger r ∧ rr_created_at r' = rr_created_at r.
Proof.
  intros Hw%areachable_AInv Hs Hr Hf Hr' He. destruct (rtc_adv w w' Hs Hw) as [_ Hh].
  destruct (hi_kept _ _ Hh r r' Hr Hr' He) as (_&?&?&?&?&?&?&Hst). by split_and!; auto.
Qed.

(** ** Admission *)

Definition claimed (db : AutomationDb) (automation_id key : string) : bool :=
  existsb (λ o, String.eqb (oc_automation_id o) automation_id && String.eqb (oc_key o) key) (adb_occurrences db).

Lemma claimed_later w w' id key :
  history w w' → claimed (aw_db w) id key = true → claimed (aw_db w') id key = true.
Proof.
  intros Hh. destruct (hi_claims _ _ Hh) as [l E]. unfold claimed. rewrite E, existsb_app. by intros ->.
Qed.

Lemma admit_refuses_claimed d o t w :
  claimed (aw_db w) (ad_id d) (ao_key o) = true →
  ∃ w', admit_automation_run d o t true w = (w', Ok None) ∧ aw_db w' = aw_db w.
Proof.
  intros Hc. exists (MkAutomationWorld (aw_db w) (S (aw_ticks w)) (aw_uuids w)). split; [|reflexivity].
  unfold claimed in Hc.
  unfold admit_automation_run, atomically, bind at 1, bind at 1, now_utc at 1.
  unfold claim_occurrence, bind at 1, read at 1, gets at 1. cbn [aw_db oc_automation_id oc_key].
  rewrite Hc. reflexivity.
Qed.

(** What stops a run from being stored: its project is gone, or the
    occurrence has a run already. *)
Definition admission_blocked (db : AutomationDb) (d : AutomationDefinition) (o : AutomationOccurrence) : bool :=
  existsb (λ a, String.eqb (au_id a) (ad_id d) && checkout_project_missing db (au_data a)) (adb_automations db)
  || existsb (λ r, String.eqb (rr_automation_id r) (ad_id d) && String.eqb (rr_occurrence_key r) (ao_key o))
       (adb_runs db).

Definition claim_row (d : AutomationDefinition) (o : AutomationOccurrence) (at_ : DateTime) : OccurrenceRow :=
  MkOccurrenceRow (ad_id d) (ao_key o) (format_timestamp (ao_scheduled_at o)) (format_timestamp at_).

(** The database after the claim and the new run. *)
Definition admitted_db (w : AutomationWorld) (d : AutomationDefinition) (o : AutomationOccurrence)
    (run : AutomationRun) : AutomationDb :=
  with_adb_runs (runs w ++ [new_run_row run])
    (with_adb_occurrences (adb_occurrences (aw_db w) ++ [claim_row d o (utc_now (aw_ticks w))]) (aw_db w)).

Lemma insert_run_row_blocked r d o w :
  rr_automation_id r = ad_id d → rr_occurrence_key r = ao_key o → is_final (rr_status r) = false →
  admission_blocked (aw_db w) d o = true → ∃ e, insert_run_row r w = (w, Err (Database e)).
Proof.
  intros Ea Ek Hf Hb. unfold insert_run_row, bind, read, gets, projectCheckoutRunGuard.
  rewrite Ea, Ek, Hf. unfold admission_blocked in Hb. apply orb_true_iff in Hb as [->|Hb].
  - by eexists.
  - rewrite Hb. cbn [negb andb]. unfold or_else. repeat case_match; simplify_eq; by eexists.
Qed.

Lemma insert_run_row_free r d o w :
  rr_automation_id r = ad_id d → rr_occurrence_key r = ao_key o → is_final (rr_status r) = false →
  (∀ x, x ∈ runs w → rr_id x ≠ rr_id r) → admission_blocked (aw_db w) d o = false →
  insert_run_row r w = (with_adb (with_adb_runs (runs w ++ [r])) w, Ok tt).
Proof.
  intros Ea Ek Hf Hid Hb. unfold insert_run_row, bind, read, gets, projectCheckoutRunGuard.
  rewrite Ea, Ek, Hf. apply orb_false_iff in Hb as [-> ->]. cbn.
  destruct (existsb _ _) eqn:E; [|done]. apply existsb_exists in E as (x & Hx & He%String.eqb_eq).
  rewrite <-list_elem_of_In in Hx. by destruct (Hid x Hx).
Qed.

(** Admission of an occurrence that nobody claimed, up to the insertion. *)
Lemma admit_unclaimed d o t w :
  claimed (aw_db w) (ad_id d) (ao_key o) = false →
  let run := new_run (uuid_v4 (aw_uuids w)) (utc_now (S (aw_ticks w))) d o t (next_run_number (aw_db w) (ad_id d)) in
  let db1 := with_adb_occurrences (adb_occurrences (aw_db w) ++ [claim_row d o (utc_now (aw_ticks w))]) (aw_db w) in
  let w1 := MkAutomationWorld db1 (S (S (aw_ticks w))) (S (aw_uuids w)) in
  admit_automation_run d o t true w =
  match insert_run_row (new_run_row run) w1 with
  | (w2, Ok _) => (w2, Ok (Some run))
  | (w2, Err e) => (MkAutomationWorld (aw_db w) (aw_ticks w2) (aw_uuids w2), Err e)
  end.
Proof.
  intros Ec run db1 w1. unfold admit_automation_run, atomically, bind at 1, bind at 1, now_utc at 1.
  unfold claim_occurrence, bind at 1, read at 1, gets at 1. cbn [aw_db oc_automation_id oc_key].
  unfold claimed in Ec. rewrite Ec.
  transitivity (let (w', r) := match insert_run_row (new_run_row run) w1 with
    | (w2, Ok _) => (w2, Ok (Some run)) | (w2, Err e) => (w2, Err e) end in
    match r with Ok a => (w', Ok a) | Err e => (MkAutomationWorld (aw_db w) (aw_ticks w') (aw_uuids w'), Err e) end);
    [reflexivity|]. by destruct (insert_run_row _ _) as [w2 [[]|e]].
Qed.

Lemma admit_exact d o t w :
  AInv w →
  let run := new_run (uuid_v4 (aw_uuids w)) (utc_now (S (aw_ticks w))) d o t (next_run_number (aw_db w) (ad_id d)) in
  ∃ w' r, admit_automation_run d o t true w = (w', r) ∧
  if claimed (aw_db w) (ad_id d) (ao_key o) then r = Ok None ∧ aw_db w' = aw_db w
  else if admission_blocked (aw_db w) d o then (∃ e, r = Err (Database e)) ∧ aw_db w' = aw_db w
  else r = Ok (Some run) ∧ aw_db w' = admitted_db w d o run ∧ ar_status run = Rs_Pending ∧
       ar_definition_snapshot run = Some d ∧
       ∀ x, x ∈ runs w → rr_automation_id x = ad_id d → (rr_number x < ar_number run)%Z.
Proof.
  intros HI run. destruct (claimed _ _ _) eqn:Ec.
  { destruct (admit_refuses_claimed d o t w Ec) as (w' & E & Hdb). by exists w', (Ok None). }
  rewrite (admit_unclaimed d o t w Ec). fold run. set (w1 := MkAutomationWorld _ _ _).
  destruct (admission_blocked _ _ _) eqn:Eb.
  - destruct (insert_run_row_blocked (new_run_row run) d o w1) as [e ->]; try done.
    do 2 eexists. split; [reflexivity|]. split; [by eexists|done].
  - rewrite (insert_run_row_free (new_run_row run) d o w1); try done.
    + do 2 eexists. split; [reflexivity|]. split_and!; try done.
      intros x Hx Hid. by apply next_run_number_fresh.
    + intros x Hx He. destruct (ai_run_drawn w HI x Hx) as (k & Hk & Hk'). cbn in He. rewrite He in Hk'.
      apply uuid_v4_inj in Hk'. lia.
Qed.

Lemma admit_cases d o t w w' r :
  AInv w → admit_automation_run d o t true w = (w', r) →
  claimed (aw_db w') (ad_id d) (ao_key o) = true ∨
  admission_blocked (aw_db w) d o = true ∧ ∃ e, r = Err (Database e).
Proof.
  intros HI E. destruct (admit_exact d o t w HI) as (w1 & r1 & E1 & Hcase). rewrite E in E1. simplify_eq.
  destruct (claimed (aw_db w) _ _) eqn:Ec; [left; destruct Hcase as [_ ->]; done|].
  destruct (admission_blocked _ _ _); [naive_solver|]. destruct Hcase as (_ & -> & _). left.
  unfold claimed. cbn. rewrite existsb_app. cbn. by rewrite !String.eqb_refl, orb_true_r.
Qed.

(** Admission of an occurrence, on every branch.  An occurrence that was
    claimed before is passed over; when the project of the target is gone, or
    the occurrence already has a run, the whole transaction fails and the
    claim is undone with it; otherwise the claim and one pending run are
    stored together, with a number above every recorded run of the
    automation and the definition as it was. *)
Theorem admit_automation_run_spec d o t w :
  areachable w →
  let run := new_run (uuid_v4 (aw_uuids w)) (utc_now (S (aw_ticks w))) d o t (next_run_number (aw_db w) (ad_id d)) in
  ∃ w' r, admit_automation_run d o t true w = (w', r) ∧
  if claimed (aw_db w) (ad_id d) (ao_key o) then r = Ok None ∧ aw_db w' = aw_db w
  else if admission_blocked (aw_db w) d o then (∃ e, r = Err (Database e)) ∧ aw_db w' = aw_db w
  else r = Ok (Some run) ∧ aw_db w' = admitted_db w d o run ∧ ar_status run = Rs_Pending ∧
       ar_definition_snapshot run = Some d ∧
       ∀ x, x ∈ runs w → rr_automation_id x = ad_id d → (rr_number x < ar_number run)%Z.
Proof. intros HI%areachable_AInv. by apply admit_exact. Qed.

(** [C33] Exactly once: after an occurrence was admitted as a run, no later
    attempt to admit it stores another one, whatever happened in between,
    even when the run itself was pruned or its automation was edited,
    archived or purged. *)
Theorem occurrence_admitted_once w1 w2 w3 d o t run d' o' t' :
  areachable w1 → admit_automation_run d o t true w1 = (w2, Ok (Some run)) → rtc AStep w2 w3 →
  ad_id d' = ad_id d → ao_key o' = ao_key o →
  ∃ w4, admit_automation_run d' o' t' true w3 = (w4, Ok None) ∧ aw_db w4 = aw_db w3.
Proof.
  intros Hw Hadm Hs Ed Eo. apply admit_refuses_claimed. rewrite Ed, Eo.
  assert (areachable w2) as Hw2.
  { destruct Hw as (w0 & He & Hr). exists w0. split; [done|]. eapply rtc_r; [done|]. by eapply AS_admit. }
  apply (claimed_later w2 w3); [by apply (rtc_adv w2 w3 Hs), areachable_AInv|].
  clear Hs Ed Eo d' o' t'. destruct (claimed (aw_db w1) (ad_id d) (ao_key o)) eqn:Ec.
  { destruct (admit_refuses_claimed d o t w1 Ec) as (w' & E & _). by rewrite E in Hadm. }
  rewrite (admit_unclaimed d o t w1 Ec) in Hadm. destruct (insert_run_row _ _) as [w'' [[]|e]] eqn:Ei; [|done].
  injection Hadm as <- _. revert Ei. unfold insert_run_row, bind, read, gets, guarded.
  destruct (or_else _ _); [by intros|]. unfold write, modify. intros [= <-].
  unfold claimed. cbn. rewrite existsb_app. cbn. by rewrite !String.eqb_refl, orb_true_r.
Qed.
End History.
