(* ===== verification/AutomationFacts.v ===== *)
(** * AutomationFacts: retention, attempts and the circuit breaker

    What pruning deletes, when an attempt begins, what the failure streak
    counts and what opening and resetting a circuit do. *)

From S2P Require Import Prelude Text Models Store AutomationModels Schedule Prompt AutomationDb AutomationStore AutomationPrecheck AutomationCleanup AutomationInv AutomationLifecycle AutomationHistory.
From Stdlib Require Import ZArith Lia Ascii String Sorted.
From stdpp Require Import strings prelude relations.

Section Facts.
Context `{AutomationEnv} `{!UuidsDistinct} `{Chrono} `{UuidParser}.

(** ** Retention *)

Definition cleanup_open (db : AutomationDb) (r : RunRow) : bool :=
  existsb (λ c, String.eqb (ci_run_id c) (rr_id r)
                && (bool_decide (ci_state c = Ci_Pending) || bool_decide (ci_state c = Ci_Running)))
    (adb_intents db).

Definition final_of (automation_id : string) (r : RunRow) : bool :=
  of_automation automation_id r && is_final (rr_status r).

(** Final runs of an automation created after [r], and no earlier than [r]. *)
Definition newer_than (db : AutomationDb) (automation_id : string) (r : RunRow) : nat :=
  count_where (λ x, final_of automation_id x && (rr_created_at r <? rr_created_at x)%Z) (adb_runs db).
Definition as_new_as (db : AutomationDb) (automation_id : string) (r : RunRow) : nat :=
  count_where (λ x, final_of automation_id x && (rr_created_at r <=? rr_created_at x)%Z) (adb_runs db).

Definition newest_final (db : AutomationDb) (automation_id : string) : list RunRow :=
  sort_by latest_created_first (List.filter (final_of automation_id) (adb_runs db)).

Lemma newest_final_sorted db id :
  StronglySorted (λ a b, (rr_created_at b <= rr_created_at a)%Z) (newest_final db id).
Proof.
  eapply StronglySorted_ind with (R := λ a b, latest_created_first a b = true)
    (P := StronglySorted (λ a b, (rr_created_at b <= rr_created_at a)%Z)).
  - constructor.
  - intros a l _ IH Hall. constructor; [done|]. eapply List.Forall_impl; [|done].
    unfold latest_created_first. intros b Hb. by apply Z.leb_le.
  - apply sort_by_StronglySorted; unfold latest_created_first; intros; rewrite ?Z.leb_le in *; lia.
Qed.

Lemma newest_final_count db id q :
  count_where q (newest_final db id) = count_where (λ x, final_of id x && q x) (adb_runs db).
Proof. unfold newest_final. by rewrite (count_where_perm _ _ _ (sort_by_perm _ _)), count_where_filter. Qed.

Lemma elem_of_newest_final db id r : r ∈ newest_final db id ↔ r ∈ adb_runs db ∧ final_of id r = true.
Proof. unfold newest_final. by rewrite elem_of_sort_by, !list_elem_of_In, filter_In. Qed.

(** A final run with at most a hundred as new as itself is among the newest
    hundred, and one with a hundred newer ones is not. *)
Lemma newest_keeps db id r n :
  r ∈ adb_runs db → final_of id r = true → as_new_as db id r ≤ n → r ∈ take n (newest_final db id).
Proof.
  intros Hr Hf Hn. assert (r ∈ newest_final db id) as Hin by (by apply elem_of_newest_final).
  apply list_elem_of_lookup in Hin as [i Hi]. apply list_elem_of_lookup. exists i.
  rewrite lookup_take_lt; [done|].
  pose proof (rank_lower _ (λ x, (rr_created_at r <=? rr_created_at x)%Z) _ i r (newest_final_sorted db id) Hi) as Hrank.
  rewrite newest_final_count in Hrank. fold (as_new_as db id r) in Hrank.
  enough (i < as_new_as db id r) by lia. apply Hrank; [|apply Z.leb_refl]. intros y Hy. by apply Z.leb_le.
Qed.

Lemma newest_drops db id r n : n ≤ newer_than db id r → r ∉ take n (newest_final db id).
Proof.
  intros Hn [i Hi]%list_elem_of_lookup. apply lookup_take_Some in Hi as [Hi Hlt].
  pose proof (rank_upper _ (λ x, (rr_created_at r <? rr_created_at x)%Z) _ i r (newest_final_sorted db id) Hi) as Hrank.
  rewrite newest_final_count in Hrank. fold (newer_than db id r) in Hrank.
  enough (newer_than db id r ≤ i) by lia. apply Hrank; [|apply Z.ltb_irrefl]. intros y Hy. by apply Z.ltb_ge.
Qed.

Lemma pruned_spec w id cutoff r :
  AInv w → r ∈ runs w →
  pruned (aw_db w) id cutoff r = true ↔
  rr_automation_id r = id ∧ is_final (rr_status r) = true ∧ cleanup_open (aw_db w) r = false ∧
  ((rr_created_at r < cutoff)%Z ∨ r ∉ take 100 (newest_final (aw_db w) id)).
Proof.
  intros HI Hr. unfold pruned. fold (cleanup_open (aw_db w) r).
  change (sort_by latest_created_first _) with (newest_final (aw_db w) id).
  rewrite !andb_true_iff, orb_true_iff, !negb_true_iff, Z.ltb_lt. unfold of_automation at 1. rewrite String.eqb_eq.
  assert (existsb (λ x, String.eqb (rr_id x) (rr_id r)) (take 100 (newest_final (aw_db w) id)) = false
          ↔ r ∉ take 100 (newest_final (aw_db w) id)) as ->; [|naive_solver].
  rewrite <-not_true_iff_false, existsb_exists. setoid_rewrite String.eqb_eq. setoid_rewrite <-list_elem_of_In.
  split; [naive_solver|]. intros Hn (x & Hx & He). apply Hn.
  replace r with x; [done|]. apply (NoDup_key_inj rr_id (runs w)); try done; [apply HI|].
  apply list_elem_of_lookup in Hx as [i [Hi _]%lookup_take_Some].
  by eapply elem_of_newest_final, list_elem_of_lookup_2.
Qed.

Lemma final_run_closed w r :
  AInv w → r ∈ runs w → is_final (rr_status r) = true → has_unclosed (aw_db w) (rr_id r) = false.
Proof.
  intros HI Hr Hf. apply not_true_iff_false. intros (p & Hp & Hu)%existsb_exists.
  apply andb_true_iff in Hu as [He%String.eqb_eq Ho%negb_true_iff]. rewrite <-list_elem_of_In in Hp.
  destruct (ai_process_open w HI p r Hp Hr Ho He) as [E|E]; by rewrite E in Hf.
Qed.

(** What pruning the runs of an automation deletes: it always succeeds,
    and it only ever deletes final runs of that automation without an open
    cleanup.  Those created before the retention cutoff are deleted, and those
    behind a hundred newer final runs; those created since the cutoff and
    among the newest hundred are kept.  Claimed occurrences stay claimed. *)
Theorem prune_automation_runs_spec id at_ w :
  areachable w →
  let cutoff := format_timestamp (at_ - days (Z.max (ras_run_retention_days (adb_settings (aw_db w))) 1))%Z in
  ∃ w', prune_automation_runs id at_ w = (w', Ok tt) ∧
  adb_occurrences (aw_db w') = adb_occurrences (aw_db w) ∧
  (∀ r, r ∈ runs w' → r ∈ runs w) ∧
  ∀ r, r ∈ runs w →
    (r ∉ runs w' → rr_automation_id r = id ∧ is_final (rr_status r) = true ∧ cleanup_open (aw_db w) r = false) ∧
    (rr_automation_id r = id → is_final (rr_status r) = true → cleanup_open (aw_db w) r = false →
       ((rr_created_at r < cutoff)%Z ∨ 100 ≤ newer_than (aw_db w) id r → r ∉ runs w') ∧
       ((cutoff ≤ rr_created_at r)%Z → as_new_as (aw_db w) id r ≤ 100 → r ∈ runs w')).
Proof.
  intros HI%areachable_AInv cutoff. unfold prune_automation_runs, prune_automation_runs_with_limits.
  unfold bind, read, gets. fold cutoff. unfold delete_run_rows, bind, read, gets.
  assert (first_abort (λ old _, preservePrecheckRunDeletion (aw_db w) old) (pruned (aw_db w) id cutoff) Datatypes.id
            (adb_runs (aw_db w)) = None) as ->.
  { apply first_abort_None. intros r Hr Hp. apply pruned_spec in Hp as (_ & Hf & _); try done.
    unfold preservePrecheckRunDeletion. by rewrite (final_run_closed w r HI Hr Hf). }
  eexists. split; [reflexivity|]. unfold runs. cbn. split; [done|].
  assert (∀ r, r ∈ List.filter (λ r, negb (pruned (aw_db w) id cutoff r)) (adb_runs (aw_db w)) ↔
            r ∈ runs w ∧ pruned (aw_db w) id cutoff r = false) as Hin.
  { intros r. by rewrite list_elem_of_In, filter_In, negb_true_iff, <-list_elem_of_In. }
  setoid_rewrite Hin. split; [naive_solver|]. intros r Hr. pose proof (pruned_spec w id cutoff r HI Hr) as Hsp.
  split; [|intros Ha Hf Hc; split].
  - intros Hn. destruct (pruned _ _ _ _); naive_solver.
  - intros Hold [_ Hp]. apply not_true_iff_false in Hp. apply Hp, Hsp. split_and!; try done.
    destruct Hold; [by left|right]. by apply newest_drops.
  - intros Hnew Hcount. split; [done|]. apply not_true_iff_false. rewrite Hsp. intros (_ & _ & _ & [Hlt|Hn]); [lia|].
    apply Hn, newest_keeps; try done. unfold final_of, of_automation. by rewrite Ha, String.eqb_refl.
Qed.

(** What pruning leaves of an automation whose runs have all ended, without open
    cleanups, is among the newest hundred. *)
Lemma pruned_remainder w id cutoff r :
  AInv w → r ∈ List.filter (λ r, negb (pruned (aw_db w) id cutoff r)) (runs w) → rr_automation_id r = id →
  is_final (rr_status r) = true → cleanup_open (aw_db w) r = false → r ∈ take 100 (newest_final (aw_db w) id).
Proof.
  intros HI Hr Ha Hf Hc. rewrite list_elem_of_In, filter_In, negb_true_iff, <-list_elem_of_In in Hr.
  destruct Hr as [Hr Hp]. unfold pruned in Hp. fold (cleanup_open (aw_db w) r) in Hp.
  change (sort_by latest_created_first _) with (newest_final (aw_db w) id) in Hp.
  unfold of_automation at 1 in Hp. rewrite Ha, String.eqb_refl, Hf, Hc in Hp. cbn [negb andb] in Hp.
  apply orb_false_iff in Hp as [_ (x & Hx & He%String.eqb_eq)%negb_false_iff%existsb_exists].
  rewrite <-list_elem_of_In in Hx. replace r with x; [done|].
  apply (NoDup_key_inj rr_id (runs w)); try done; [apply HI|].
  apply list_elem_of_lookup in Hx as [i [Hi _]%lookup_take_Some].
  by eapply elem_of_newest_final, list_elem_of_lookup_2.
Qed.

(** The runs counted against the limit of scheduled runs are those that are
    still stored: right after a pruning they are at most a hundred, however
    many the automation has had. *)
Theorem limit_counts_retained_runs id at_ w w' :
  areachable w → (∀ r, r ∈ runs w → rr_automation_id r = id →
                    is_final (rr_status r) = true ∧ cleanup_open (aw_db w) r = false) →
  prune_automation_runs id at_ w = (w', Ok tt) →
  ∃ n, count_scheduled_automation_executions id w' = (w', Ok n) ∧ (n ≤ 100)%Z.
Proof.
  intros HI%areachable_AInv Hall. unfold prune_automation_runs, prune_automation_runs_with_limits, bind, read, gets.
  set (cutoff := format_timestamp _). unfold delete_run_rows, bind, read, gets, guarded, write, modify, fail.
  destruct (first_abort _ _ _ _); [done|]. intros [= <-]. eexists. split; [reflexivity|]. cbn.
  unfold count_where. set (p := λ r : RunRow, scheduled_run id r && _).
  set (kept := List.filter _ (adb_runs (aw_db w))).
  enough (length (List.filter p kept) ≤ length (take 100 (newest_final (aw_db w) id))) as Hle
    by (rewrite length_take in Hle; lia).
  apply submseteq_length, NoDup_submseteq.
  - apply (NoDup_fmap_1 rr_id). unfold kept. do 2 apply NoDup_key_filter. apply HI.
  - intros r Hr. rewrite list_elem_of_In, filter_In, <-list_elem_of_In in Hr. destruct Hr as [Hr Hp].
    unfold p, scheduled_run, of_automation in Hp. rewrite !andb_true_iff, String.eqb_eq in Hp.
    assert (r ∈ runs w) as Hw by (unfold kept in Hr; rewrite list_elem_of_In, filter_In, <-list_elem_of_In in Hr; apply Hr).
    destruct (Hall r Hw) as [Hf Hc]; [apply Hp|]. apply (pruned_remainder w id cutoff); auto; apply Hp.
Qed.

(** ** The failure streak *)

Definition recent_scheduled (db : AutomationDb) (automation_id : string) : list RunRow :=
  sort_by newest_run_first (List.filter (scheduled_run automation_id) (adb_runs db)).

Lemma failure_prefix_spec rows k :
  (Z.of_nat k ≤ failure_prefix rows)%Z ↔
  k ≤ length rows ∧ Forall (λ r, counts_as_failure (rr_status r) = true) (take k rows).
Proof.
  revert k. induction rows as [|r rows IH]; intros k.
  - destruct k; cbn; [split; [split; [done|constructor]|lia]|]. split; lia.
  - destruct k as [|k]; cbn.
    + split; [intros _; split; [lia|constructor]|]. intros _. destruct (counts_as_failure _); [|lia].
      pose proof (proj2 (IH 0)) as IH0. cbn in IH0. specialize (IH0 (conj (Nat.le_0_l _) (Forall_nil_2 _))). lia.
    + rewrite Forall_cons. destruct (counts_as_failure _) eqn:E.
      * assert ((Z.pos (Pos.of_succ_nat k) ≤ 1 + failure_prefix rows)%Z ↔ (Z.of_nat k ≤ failure_prefix rows)%Z)
          as -> by lia.
        rewrite IH, <-Nat.succ_le_mono. naive_solver.
      * split; [lia|naive_solver].
Qed.

(** The circuit breaker opens on exactly the streaks it names: the count
    reaches a threshold between one and ten if and only if that many scheduled
    runs are recorded and the newest ones, by creation time and number, all
    failed; manual runs never count. *)
Theorem failure_streak_reaches_threshold id threshold w :
  (1 ≤ threshold ≤ 10)%Z →
  ∃ n, count_automation_failure_streak id threshold w = (w, Ok n) ∧ (0 ≤ n ≤ threshold)%Z ∧
  ((threshold ≤ n)%Z ↔
   (threshold ≤ Z.of_nat (length (recent_scheduled (aw_db w) id)))%Z ∧
   Forall (λ r, counts_as_failure (rr_status r) = true)
     (take (Z.to_nat threshold) (recent_scheduled (aw_db w) id))).
Proof.
  intros Ht. unfold count_automation_failure_streak, read, gets. eexists. split; [reflexivity|].
  fold (recent_scheduled (aw_db w) id). replace (clamp_z threshold 1 10) with threshold by (unfold clamp_z; lia).
  set (rows := recent_scheduled (aw_db w) id). set (n := failure_prefix _).
  assert (∀ k, (Z.of_nat k ≤ n)%Z ↔ k ≤ Z.to_nat threshold ∧ k ≤ length rows ∧
            Forall (λ r, counts_as_failure (rr_status r) = true) (take k rows)) as Hn.
  { intros k. unfold n. rewrite failure_prefix_spec, length_take, take_take. split.
    - intros [Hk Hf]. rewrite (Nat.min_l k) in Hf by lia. split_and!; [lia..|done].
    - intros (Hk & Hl & Hf). rewrite (Nat.min_l k) by lia. split; [lia|done]. }
  split.
  - assert (0 ≤ n)%Z by (apply (Hn 0); split_and!; [lia..|constructor]).
    split; [done|]. destruct (Z.le_gt_cases n threshold); [done|].
    assert (Z.of_nat (Z.to_nat n) ≤ n)%Z as Hle by lia. apply Hn in Hle as [Hle _]. lia.
  - pose proof (Hn (Z.to_nat threshold)) as Hn'. rewrite Z2Nat.id in Hn' by lia. rewrite Hn'.
    split; intros; destruct_and?; split_and!; try done; lia.
Qed.

(** ** The circuit *)

(** What a definition refers to still exists. *)
Definition target_live (db : AutomationDb) (d : AutomationDefinition) : Prop :=
  checkout_project_missing db d = false ∧
  match target_agent_profile_id (ad_target d) with Some p => p ∈ adb_profiles db | None => True end.

Definition audits_drawn (w : AutomationWorld) : Prop :=
  ∀ e, e ∈ adb_audits (aw_db w) → drawn w (ae_id e).

Lemma target_live_guard db sets a : target_live db (au_data a) → automation_update_guard sets db a = None.
Proof.
  intros [Hm Hp]. unfold automation_update_guard, projectCheckoutAutomationGuard, automationsAgentProfileGuard.
  rewrite Hm, andb_false_r. cbn. destruct sets; [|done]. destruct (target_agent_profile_id _); [|done].
  by rewrite bool_decide_eq_true_2.
Qed.

Lemma audit_definition_ok id d action actor details at_ w :
  audits_drawn w → ∃ e w',
  audit_definition id d action actor details at_ w = (w', Ok tt) ∧ ae_action e = action ∧
  aw_db w' = with_adb_audits (adb_audits (aw_db w) ++ [e]) (aw_db w) ∧ aw_ticks w' = aw_ticks w ∧ audits_drawn w'.
Proof.
  intros Hd. eexists _, _. unfold audit_definition, bind at 1, new_uuid at 1, insert_audit_row, bind, read, gets.
  cbn [aw_db ae_id].
  assert (existsb (λ x, String.eqb (ae_id x) (uuid_v4 (aw_uuids w))) (adb_audits (aw_db w)) = false) as ->.
  { apply not_true_iff_false. intros (x & Hx & He%String.eqb_eq)%existsb_exists. rewrite <-list_elem_of_In in Hx.
    destruct (Hd x Hx) as (k & Hk & E). rewrite He in E. apply uuid_v4_inj in E. lia. }
  split; [reflexivity|]. split; [|split; [reflexivity|split; [reflexivity|]]]; [reflexivity|].
  intros x. cbn. intros [Hx| ->%list_elem_of_singleton]%elem_of_app.
  - eapply drawn_mono; [|by apply Hd]. cbn. lia.
  - exists (aw_uuids w). cbn. split; [lia|done].
Qed.

Lemma write_definition_ok id d w :
  target_live (aw_db w) d →
  let row a := with_au_updated_at (format_timestamp (ad_updated_at d)) (with_au_data d (with_au_state (ad_state d) a)) in
  ∃ n, write_definition id d w =
    (with_adb (with_adb_automations
       (update_where (λ a, String.eqb (au_id a) id) row (adb_automations (aw_db w)))) w, Ok n).
Proof.
  intros Hl row. unfold write_definition, update_automation_rows, bind, read, gets.
  rewrite (proj2 (first_abort_None _ _ _ _)); [by eexists|]. intros a _ _. by apply target_live_guard.
Qed.

Lemma find_updated db id f row :
  (∀ a, au_id (f a) = au_id a) → find_automation_row db id = Some row →
  find_automation_row (with_adb_automations (update_where (λ a, String.eqb (au_id a) id) f (adb_automations db)) db) id
  = Some (f row).
Proof.
  intros Hf. unfold find_automation_row, find_where. cbn. induction (adb_automations db) as [|a l IH]; cbn; [done|].
  destruct (String.eqb (au_id a) id) eqn:E.
  - intros [= ->]. by rewrite Hf, E.
  - rewrite E. done.
Qed.

Lemma existing_automation_ok id w d :
  decode_definition <$> find_automation_row (aw_db w) id = Some d → existing_automation id w = (w, Ok d).
Proof. intros E. unfold existing_automation, find_automation, bind, read, gets. by rewrite E. Qed.

Lemma target_live_same db db' d d' :
  ad_target d' = ad_target d → adb_projects db' = adb_projects db → adb_profiles db' = adb_profiles db →
  target_live db d → target_live db' d'.
Proof.
  intros Et Ep Ef. unfold target_live, checkout_project_missing, project_exists. by rewrite Et, Ep, Ef.
Qed.

Lemma atomically_ok {A} (m : AM A) w w' a : m w = (w', Ok a) → atomically m w = (w', Ok a).
Proof. unfold atomically. by intros ->. Qed.

(** A definition and the audit events of its change, written together. *)
Lemma write_and_audit id d a1 a2 actor details at_ w :
  target_live (aw_db w) d → audits_drawn w →
  ∃ w' e1 e2,
  atomically (
    do! write_definition id d in do! audit_definition id d a1 actor details at_ in
    do! audit_definition id d a2 actor details at_ in ret d) w = (w', Ok d) ∧
  ae_action <$> [e1; e2] = [a1; a2] ∧ aw_ticks w' = aw_ticks w ∧ audits_drawn w' ∧
  aw_db w' = with_adb_audits (adb_audits (aw_db w) ++ [e1; e2])
    (with_adb_automations (update_where (λ a, String.eqb (au_id a) id)
       (λ a, with_au_updated_at (format_timestamp (ad_updated_at d)) (with_au_data d (with_au_state (ad_state d) a)))
       (adb_automations (aw_db w))) (aw_db w)).
Proof.
  intros Hl Hd. destruct (write_definition_ok id d w Hl) as [n Ew]. set (w0 := with_adb _ w) in Ew.
  destruct (audit_definition_ok id d a1 actor details at_ w0) as (e1 & w1 & E1 & A1 & D1 & T1 & G1); [done|].
  destruct (audit_definition_ok id d a2 actor details at_ w1) as (e2 & w2 & E2 & A2 & D2 & T2 & G2); [done|].
  exists w2, e1, e2. split_and!.
  - apply atomically_ok. by rewrite (bind_ok _ _ _ _ _ Ew), (bind_ok _ _ _ _ _ E1), (bind_ok _ _ _ _ _ E2).
  - cbn. congruence.
  - by rewrite T2, T1.
  - done.
  - rewrite D2, D1. cbn. by rewrite <-app_assoc.
Qed.

Definition opened_definition (d : AutomationDefinition) (actor : AutomationActor) (opened_at updated_at : DateTime)
    : AutomationDefinition :=
  with_ad_modified_by actor (with_ad_updated_at updated_at (with_ad_state As_Blocked
    (with_ad_circuit_opened_at (Some opened_at) (with_ad_circuit_opened true d)))).

Definition reset_definition (d : AutomationDefinition) (actor : AutomationActor) (updated_at : DateTime)
    : AutomationDefinition :=
  with_ad_modified_by actor (with_ad_updated_at updated_at (with_ad_state As_Active
    (with_ad_circuit_opened_at None (with_ad_circuit_opened false d)))).

Lemma reset_definition_revision d actor t : ad_revision (reset_definition d actor t) = ad_revision d.
Proof. reflexivity. Qed.

Lemma open_circuit_ok id actor reason w d0 :
  decode_definition <$> find_automation_row (aw_db w) id = Some d0 →
  ad_circuit_opened d0 = false → ad_state d0 = As_Active → target_live (aw_db w) d0 → audits_drawn w →
  let d := opened_definition d0 actor (utc_now (aw_ticks w)) (utc_now (S (aw_ticks w))) in
  ∃ w' e1 e2, open_automation_circuit id actor reason w = (w', Ok d) ∧
  ae_action <$> [e1; e2] = ["circuitOpened"; "blocked"] ∧ aw_ticks w' = S (S (aw_ticks w)) ∧ audits_drawn w' ∧
  aw_db w' = with_adb_audits (adb_audits (aw_db w) ++ [e1; e2])
    (with_adb_automations (update_where (λ a, String.eqb (au_id a) id)
       (λ a, with_au_updated_at (format_timestamp (ad_updated_at d)) (with_au_data d (with_au_state (ad_state d) a)))
       (adb_automations (aw_db w))) (aw_db w)).
Proof.
  intros Hrow Hc Hs Hl Hd d. set (w1 := MkAutomationWorld (aw_db w) (S (S (aw_ticks w))) (aw_uuids w)).
  destruct (write_and_audit id d "circuitOpened" "blocked" actor (reason_json reason) (utc_now (S (aw_ticks w))) w1)
    as (w' & e1 & e2 & Ew & HA & HT & HG & HD); [done..|].
  exists w', e1, e2. split_and!; try done. rewrite <-Ew. unfold open_automation_circuit.
  rewrite (bind_ok _ _ _ _ _ (existing_automation_ok id w d0 Hrow)). cbv zeta. rewrite Hc, Hs. reflexivity.
Qed.

Lemma reset_circuit_ok id actor reason w d0 :
  decode_definition <$> find_automation_row (aw_db w) id = Some d0 → ad_id d0 = id →
  ad_circuit_opened d0 = true → ad_state d0 = As_Blocked → target_live (aw_db w) d0 → audits_drawn w →
  let d := reset_definition d0 actor (utc_now (aw_ticks w)) in
  ∃ w' e1 e2, reset_automation_circuit id actor reason w = (w', Ok d) ∧
  ae_action <$> [e1; e2] = ["circuitReset"; "active"] ∧
  aw_db w' = with_adb_audits (adb_audits (aw_db w) ++ [e1; e2])
    (with_adb_automations (update_where (λ a, String.eqb (au_id a) id)
       (λ a, with_au_updated_at (format_timestamp (ad_updated_at d)) (with_au_data d (with_au_state (ad_state d) a)))
       (adb_automations (aw_db w))) (aw_db w)).
Proof.
  intros Hrow Hid Hc Hs Hl Hd d. set (w1 := MkAutomationWorld (aw_db w) (S (aw_ticks w)) (aw_uuids w)).
  destruct (write_and_audit id d "circuitReset" "active" actor
              (reason_json (Some (default "automation circuit reset" reason))) (utc_now (aw_ticks w)) w1)
    as (w' & e1 & e2 & Ew & HA & HT & HG & HD); [done..|].
  exists w', e1, e2. split_and!; try done. rewrite <-Ew. unfold reset_automation_circuit.
  rewrite (bind_ok _ _ _ _ _ (existing_automation_ok id w d0 Hrow)), Hc. cbn [negb].
  unfold reset_opened_automation_circuit. rewrite Hs, <-Hid. reflexivity.
Qed.

Lemma decode_written d t row :
  ad_revision d = au_revision row →
  decode_definition (with_au_updated_at t (with_au_data d (with_au_state (ad_state d) row))) = d.
Proof. intros E. unfold decode_definition. cbn. rewrite <-E. by destruct d. Qed.

(** Opening the circuit of an active automation and resetting it later
    is a round trip: opening blocks the automation and stops it from being
    scheduled, resetting closes the circuit and makes it active again, and the
    stored definition is the one before except for who changed it last and
    when; each change leaves its two audit events behind. *)
Theorem circuit_open_reset_roundtrip id opener resetter reason reason' w row :
  areachable w → find_automation_row (aw_db w) id = Some row →
  ad_circuit_opened (au_data row) = false → ad_circuit_opened_at (au_data row) = None → au_state row = As_Active →
  target_live (aw_db w) (decode_definition row) → audits_drawn w →
  ∃ w1 d1 w2 d2 events,
  open_automation_circuit id opener reason w = (w1, Ok d1) ∧
  find_automation id w1 = (w1, Ok (Some d1)) ∧ ad_state d1 = As_Blocked ∧ ad_circuit_opened d1 = true ∧
  reset_automation_circuit id resetter reason' w1 = (w2, Ok d2) ∧
  find_automation id w2 = (w2, Ok (Some d2)) ∧
  d2 = with_ad_modified_by resetter (with_ad_updated_at (utc_now (S (S (aw_ticks w)))) (decode_definition row)) ∧
  adb_audits (aw_db w2) = adb_audits (aw_db w) ++ events ∧
  ae_action <$> events = ["circuitOpened"; "blocked"; "circuitReset"; "active"].
Proof.
  intros HI%areachable_AInv Hrow Hc Hat Hs Hl Hd.
  pose proof (proj2 (decoded_valid w id row HI Hrow)) as Hid. set (d0 := decode_definition row) in *.
  assert (decode_definition <$> find_automation_row (aw_db w) id = Some d0) as H0' by (by rewrite Hrow).
  assert (ad_id d0 = id ∧ ad_circuit_opened d0 = false ∧ ad_circuit_opened_at d0 = None ∧ ad_state d0 = As_Active
          ∧ ad_revision d0 = au_revision row) as (Hid0 & Hc0 & Hat0 & Hs0 & Hrev0) by done.
  clearbody d0. clear Hid Hc Hat Hs.
  destruct (open_circuit_ok id opener reason w d0) as (w1 & e1 & e2 & E1 & A1 & T1 & G1 & D1); [done..|].
  set (d1 := opened_definition _ _ _ _) in *.
  assert (decode_definition <$> find_automation_row (aw_db w1) id = Some d1) as Hrow1.
  { rewrite D1. etransitivity; [apply f_equal, (find_updated (aw_db w) id); [reflexivity|exact Hrow]|].
    cbn [fmap option_fmap option_map]. by rewrite decode_written. }
  destruct (reset_circuit_ok id resetter reason' w1 d1) as (w2 & e3 & e4 & E2 & A2 & D2); try done.
  { apply (target_live_same (aw_db w) _ d0); [reflexivity|by rewrite D1..|done]. }
  set (d2 := reset_definition _ _ _) in *.
  assert (decode_definition <$> find_automation_row (aw_db w2) id = Some d2) as Hrow2.
  { rewrite D2. destruct (find_automation_row (aw_db w1) id) as [row1|] eqn:Hr1; [|done]. cbn in Hrow1.
    etransitivity; [apply f_equal, (find_updated (aw_db w1) id); [reflexivity|exact Hr1]|].
    cbn [fmap option_fmap option_map]. rewrite decode_written; [done|].
    assert (decode_definition row1 = d1) as E by congruence. unfold d2. rewrite reset_definition_revision.
    by rewrite <-E. }
  exists w1, d1, w2, d2, [e1; e2; e3; e4]. unfold find_automation, read, gets. rewrite Hrow1, Hrow2.
  split; [exact E1|]. split; [done|]. split; [reflexivity|]. split; [reflexivity|]. split; [exact E2|].
  split; [done|]. split_and!.
  - unfold d2, d1, reset_definition, opened_definition. rewrite T1. clear - Hc0 Hat0 Hs0.
    destruct d0; cbn in *. by subst.
  - rewrite D2. cbn. rewrite D1. cbn. by rewrite <-app_assoc.
  - cbn in *. congruence.
Qed.

(** ** Attempts *)

Definition attempts_drawn (w : AutomationWorld) : Prop :=
  ∀ t, t ∈ adb_attempts (aw_db w) → drawn w (tt_id t).

Lemma with_adb_runs_same db : with_adb_runs (adb_runs db) db = db.
Proof. by destruct db. Qed.

Lemma update_where_id {A} (p : A → bool) (l : list A) : update_where p (λ x, x) l = l.
Proof. unfold update_where. rewrite <-(list_fmap_id l) at 2. apply list_fmap_ext. intros i x _. by destruct (p x). Qed.

(** The statement on the one row with an identifier. *)
Lemma update_run_row_ok w id row f :
  AInv w → find_run_row (aw_db w) id = Some row → run_update_guard (aw_db w) row (f row) = None →
  ∃ n, update_run_rows (λ r, String.eqb (rr_id r) id) f w =
    (with_adb (with_adb_runs (update_where (λ r, String.eqb (rr_id r) id) f (runs w))) w, Ok n).
Proof.
  intros HI Hrow Hg. unfold update_run_rows, bind, read, gets.
  rewrite (proj2 (first_abort_None _ _ _ _)); [by eexists|]. intros x Hx Hid%String.eqb_eq.
  by rewrite (row_of_id w id row x).
Qed.

Lemma insert_attempt_ok t w :
  (∀ x, x ∈ adb_attempts (aw_db w) → tt_id x ≠ tt_id t) →
  insert_attempt_row t w = (with_adb (with_adb_attempts (adb_attempts (aw_db w) ++ [t])) w, Ok tt).
Proof.
  intros Hf. unfold insert_attempt_row, bind, read, gets. destruct (existsb _ _) eqn:E; [|done].
  apply existsb_exists in E as (x & Hx & He%String.eqb_eq). rewrite <-list_elem_of_In in Hx. by destruct (Hf x Hx).
Qed.

Definition attempted_row (run : AutomationRun) (at_ : DateTime) (r : RunRow) : RunRow :=
  with_rr_updated_at (format_timestamp at_) (with_rr_data run (with_rr_status (ar_status run) r)).

Lemma store_attempt_ok w attempt id row run at_ :
  AInv w → find_run_row (aw_db w) id = Some row →
  (∀ x, x ∈ adb_attempts (aw_db w) → tt_id x ≠ tt_id attempt) →
  run_update_guard (aw_db w) row (attempted_row run at_ row) = None →
  ∃ w', (do! insert_attempt_row attempt in
         do! update_run_rows (λ r, String.eqb (rr_id r) id) (attempted_row run at_) in ret run) w = (w', Ok run) ∧
  runs w' = update_where (λ r, String.eqb (rr_id r) id) (attempted_row run at_) (runs w) ∧
  adb_attempts (aw_db w') = adb_attempts (aw_db w) ++ [attempt].
Proof.
  intros HI Hrow Hf Hg. rewrite (bind_ok _ _ _ _ _ (insert_attempt_ok attempt w Hf)).
  set (w1 := with_adb _ w). assert (AInv w1) as HI1 by (apply (adv_quiet w w1); [by repeat split|done]).
  destruct (update_run_row_ok w1 id row (attempted_row run at_)) as [n E]; [done..|].
  rewrite (bind_ok _ _ _ _ _ E). by eexists.
Qed.

(** Beginning an attempt of a run.  A run that was taken over, is reserved
    by another owner, is being cancelled, is past its deadline or has used up
    its attempts is refused and nothing changes; so is one that is neither
    pending nor reserved for its first attempt.  Otherwise the attempt is
    numbered one above the last and within the budget, the run is dispatching,
    and its deadline is the one it has, or 24 hours from now on the first
    attempt. *)
Theorem begin_attempt_within_budget id max_attempts w row :
  areachable w → attempts_drawn w → find_run_row (aw_db w) id = Some row →
  let before := decode_run row in
  let at_ := utc_now (aw_ticks w) in
  let run := attempted_run before (adb_boot_id (aw_db w)) (uuid_v4 (aw_uuids w)) at_ in
  run_update_guard (aw_db w) row row = None → run_update_guard (aw_db w) row (attempted_row run at_ row) = None →
  ∃ w' r, begin_automation_attempt id max_attempts w = (w', r) ∧
  if attempt_refused before max_attempts at_
  then r = Err (Bail "Automation attempt budget or deadline exhausted") ∧ aw_db w' = aw_db w
  else r = Ok run ∧ ar_attempt_count run = (ar_attempt_count before + 1)%Z ∧
       (ar_attempt_count run ≤ max_attempts)%Z ∧ ar_status run = Rs_Dispatching ∧
       ar_absolute_deadline_at run = Some (default (at_ + hours 24)%Z (ar_absolute_deadline_at before)) ∧
       runs w' = update_where (λ r, String.eqb (rr_id r) id) (attempted_row run at_) (runs w) ∧
       ∃ attempt, adb_attempts (aw_db w') = adb_attempts (aw_db w) ++ [attempt] ∧
         tt_run_id attempt = id ∧ tt_number attempt = ar_attempt_count run.
Proof.
  intros HI%areachable_AInv Hdrawn Hrow before at_ run Hg Hg'. unfold begin_automation_attempt.
  unfold bind at 1, read at 1, gets at 1.
  destruct (update_run_row_ok w id row (λ r, r) HI Hrow Hg) as [n Et]. rewrite update_where_id in Et.
  assert (with_adb (with_adb_runs (runs w)) w = w) as Ew.
  { unfold with_adb. unfold runs. rewrite with_adb_runs_same. by destruct w. }
  rewrite Ew in Et. unfold atomically. rewrite (bind_ok _ _ _ _ _ Et).
  unfold bind at 1, read at 1, gets at 1. rewrite Hrow. unfold require, bind at 1, ret at 1. cbv zeta.
  unfold bind at 1, now_utc at 1. fold at_. fold before. destruct (attempt_refused before max_attempts at_) eqn:Er.
  { do 2 eexists. split; [reflexivity|]. split; reflexivity. }
  unfold bind at 1, new_uuid at 1. cbn [aw_db aw_ticks aw_uuids].
  set (w1 := MkAutomationWorld _ _ (S _)). fold run. set (attempt := MkAttemptRow _ _ _ _ _ _ _).
  assert (AInv w1) as HI1.
  { apply (adv_quiet w w1); [|done]. repeat split; try done. cbn. lia. }
  destruct (store_attempt_ok w1 attempt id row run at_) as (w' & E & Hruns & Hatt); try done.
  { intros x Hx He. destruct (Hdrawn x Hx) as (k & Hk & Ek). rewrite He in Ek. apply uuid_v4_inj in Ek. lia. }
  exists w', (Ok run). split; [|split_and!; try done].
  - unfold attempted_row in E. rewrite E. reflexivity.
  - revert Er. unfold attempt_refused. rewrite !orb_false_iff, Z.leb_gt. intros [[_ Hlt] _].
    change (ar_attempt_count run) with (ar_attempt_count before + 1)%Z. lia.
  - exists attempt. by split_and!.
Qed.
End Facts.
