(* ===== verification/HostRuns.v ===== *)
(** * HostRuns: what the terminal host does with automation runs

    The host calls the store, looks at the answer and carries on: it logs or
    ignores errors.  A host operation is a computation on [HostState] whose
    error is a panic.  Modelled from
    alera-cli/src/terminal_host/server: automation_run_lifecycle.rs (blocking,
    failing and expiring runs, the circuit), automation_precheck_execution.rs
    (prechecks interrupted by a restart) and the start of a run in
    automation_dispatch_execution.rs.

    [HostEnv] holds the host's answers from outside the automation tables: the
    boot identifier, terminal sessions, workspaces and tabs, and the dispatch
    of a run that may proceed.  Broadcasts, push notifications and the shutdown
    timer change none of the modelled state. *)

From S2P Require Import Prelude Text Models Store AutomationModels Schedule Overlap Prompt AutomationDb AutomationStore AutomationPrecheck.
From Stdlib Require Import ZArith Lia Ascii String.
From stdpp Require Import strings prelude.

(** ** The state and its operations *)

Record HostState : Type := MkHostState {
  hs_store : AutomationWorld;
  hs_precheck_jobs : list string;     (** the runs whose precheck is in flight *)
  hs_automations_active : bool
}.

Abbreviation HM := (M HostState).

(** Ask the store; the host decides what an error means. *)
Definition call {A} (m : AM A) : HM (Result A) := λ h,
  let (w, r) := m (hs_store h) in (MkHostState w (hs_precheck_jobs h) (hs_automations_active h), Ok r).

Definition panic {A} (why : string) : HM A := fail (Bail why).

Definition clock `{AutomationEnv} : HM DateTime := λ h,
  let w := hs_store h in
  (MkHostState (MkAutomationWorld (aw_db w) (S (aw_ticks w)) (aw_uuids w)) (hs_precheck_jobs h) (hs_automations_active h),
   Ok (utc_now (aw_ticks w))).

Definition prechecking (run_id : string) : HM bool :=
  gets (λ h, existsb (String.eqb run_id) (hs_precheck_jobs h)).

Definition set_active (b : bool) : HM unit :=
  modify (λ h, MkHostState (hs_store h) (hs_precheck_jobs h) b).

(** ** Arithmetic of 64-bit integers and of chrono *)

Definition i64_min : Z := -9223372036854775808.
Definition i64_wrap (z : Z) : Z := ((z + 2 ^ 63) `mod` 2 ^ 64 - 2 ^ 63)%Z.
Definition i64_saturate (z : Z) : Z := Z.max i64_min (Z.min z i64_max).

(** [x << n] with the amount taken modulo 64, as without overflow checks; with
    them an amount outside 0..63 panics. *)
Definition i64_shl (x n : Z) : Z := i64_wrap (Z.shiftl x (n `mod` 64)).

(** [Duration::seconds], which panics outside its range of milliseconds. *)
Definition duration_seconds (s : Z) : option Z :=
  if ((- (i64_max / 1000) <=? s) && (s <=? i64_max / 1000))%Z then Some (s * second)%Z else None.

(** The delay before the next attempt: the backoff doubled per attempt made, at
    most five times. *)
Definition retry_multiplier (attempt_count : Z) : Z :=
  i64_shl 1 (Z.min (i64_saturate (attempt_count - 1)) 5).
Definition retry_delay (backoff_seconds attempt_count : Z) : option Z :=
  duration_seconds (i64_saturate (backoff_seconds * retry_multiplier attempt_count)).

Definition is_none_or {A} (p : A → bool) (o : option A) : bool :=
  match o with Some a => p a | None => true end.
Definition is_some_and {A} (p : A → bool) (o : option A) : bool :=
  match o with Some a => p a | None => false end.
Definition is_some {A} (o : option A) : bool := match o with Some _ => true | None => false end.

(** [result.ok().flatten()] *)
Definition ok_flatten {A} (r : Result (option A)) : option A := match r with Ok o => o | Err _ => None end.
(** [result.unwrap_or(default)] *)
Definition unwrap_or {A} (d : A) (r : Result A) : A := match r with Ok a => a | Err _ => d end.

Definition managed_actor : AutomationActor :=
  MkAutomationActor Ack_ManagedAgent None (Some "Alera Automation Scheduler").

(** The text of an error. *)
Definition error_text (e : Error) : string :=
  match e with Bail m | Database m => m end.

(** What the host does with terminals, tabs and workspaces.  The dispatch of a run
    that may proceed, the resumption of an interrupted one and the reconciliation
    with live terminals end in [fail_run] on some paths, so they may panic. *)
Class HostEnv : Type := {
  current_boot_id : HostState → option string;
  automation_target_is_reserved : AutomationDefinition → string → HostState → bool;
  target_identity : AutomationTarget → AutomationReusePolicy → HostState → AutomationTargetIdentity + string;
  terminate_owned_automation_sessions : AutomationRun → string → HostState → HostState;
  dispatch_admitted_automation_run : AutomationDefinition → AutomationRun → bool → HM unit;
  resume_interrupted_automation_run : AutomationDefinition → AutomationRun → HM unit;
  recover_automation_shared_cleanups : HostState → HostState;
  reconcile_automation_runs : HM unit;
  has_runtime_mutations : HostState → bool
}.

Section WithEnv.
Context `{AutomationEnv} `{Chrono} `{UuidParser} `{HostEnv}.

(** ** Ending runs (automation_run_lifecycle.rs) *)

Definition set_automation_run_status (run_id : string) (status : AutomationRunStatus) (error : option string)
    : HM (Result AutomationRun) :=
  call (update_automation_run_status run_id status error).

Definition block_automation_definition_if_active (automation_id : string) (actor : AutomationActor)
    (reason : option string) : HM unit :=
  let! found := call (find_automation automation_id) in
  match found with
  | Ok (Some d) =>
      if negb (bool_decide (ad_state d = As_Active)) then ret tt
      else do! call (set_automation_state automation_id As_Blocked actor reason) in ret tt
  | _ => ret tt
  end.

Definition block_run (run : AutomationRun) (reason : string) : HM unit :=
  do! set_automation_run_status (ar_id run) Rs_Blocked (Some reason) in
  if bool_decide (ar_trigger run = Tr_Scheduled)
  then block_automation_definition_if_active (ar_automation_id run) managed_actor (Some reason)
  else ret tt.

Definition host_open_automation_circuit (automation_id : string) (actor : AutomationActor) (reason : string)
    : HM unit :=
  let! opened := call (open_automation_circuit automation_id actor (Some reason)) in
  match opened with Ok _ => set_active true | Err _ => ret tt end.

(** The definition a run executes: its snapshot, or the live one. *)
Definition run_definition (run : AutomationRun) : HM (option AutomationDefinition) :=
  let! live := call (find_automation (ar_automation_id run)) in
  ret (or_else (ar_definition_snapshot run) (ok_flatten live)).

(** A launch that was interrupted is remembered, so that the retry resumes it. *)
Definition remember_interruption (run : AutomationRun) : HM AutomationRun :=
  if (0 <? ar_attempt_count run)%Z && (is_some (ar_tab_id run) || is_some (ar_session_id run))
     && negb (is_some (ar_recovery run))
  then
    let! at_ := clock in
    let run := with_ar_recovery (Some (MkAutomationRecovery "retryingWithContext" (ar_attempt_count run)
                 (match ar_definition_snapshot run with Some d => ad_retry_max_attempts d | None => 3 end)
                 (Some at_) (Some "launchInterrupted"))) run in
    do! call (save_automation_run run) in
    ret run
  else ret run.

(** Whether a retry was scheduled. *)
Definition retry_run (run : AutomationRun) (reason : string) : HM bool :=
  let! definition := run_definition run in
  match definition with
  | None => ret false
  | Some d =>
      if negb (ar_attempt_count run <? ad_retry_max_attempts d)%Z then ret false
      else
        let! in_time := match ar_absolute_deadline_at run with
                        | None => ret true
                        | Some at_ => let! now := clock in ret (now <? at_)%Z
                        end in
        if negb in_time then ret false
        else
          let! now := clock in
          match retry_delay (ad_retry_backoff_seconds d) (ar_attempt_count run) with
          | None => panic "TimeDelta::seconds out of bounds"
          | Some delay =>
              if negb (representable (now + delay)%Z) then panic "`DateTime + TimeDelta` overflowed"
              else
                let! retrying := call (schedule_automation_retry (ar_id run) (now + delay)%Z reason managed_actor) in
                ret (match retrying with Ok _ => true | Err _ => false end)
          end
  end.

Definition open_circuit_after_failure (run : AutomationRun) (threshold : Z) (reason : string) : HM unit :=
  let! streak := call (count_automation_failure_streak (ar_automation_id run) threshold) in
  if (threshold <=? unwrap_or 0%Z streak)%Z
  then host_open_automation_circuit (ar_automation_id run) managed_actor reason
  else ret tt.

Definition give_up_run (run : AutomationRun) (reason : string) : HM unit :=
  let exhausted := with_ar_recovery (with_arc_status "exhausted" <$> ar_recovery run) run in
  do! call (save_automation_run exhausted) in
  do! set_automation_run_status (ar_id run) Rs_Failure (Some reason) in
  if bool_decide (ar_trigger run = Tr_Scheduled)
  then
    let! found := call (find_automation (ar_automation_id run)) in
    match found with
    | Ok (Some d) =>
        open_circuit_after_failure run (ad_circuit_failure_threshold d) "automation circuit breaker opened"
    | _ => ret tt
    end
  else ret tt.

Definition fail_run (run : AutomationRun) (reason : string) : HM unit :=
  let! found := call (find_automation_run (ar_id run)) in
  let recovering := default run (ok_flatten found) in
  if is_final (ar_status recovering) || ar_taken_over recovering then ret tt
  else
    let! run := remember_interruption recovering in
    let! retried := (if negb (ar_taken_over run) && negb (is_final (ar_status run))
                     then retry_run run reason else ret false) in
    if retried : bool then ret tt else give_up_run run reason.

(** ** Prechecks interrupted by a restart (automation_precheck_execution.rs) *)

Definition start_automation_precheck (run : AutomationRun) : HM unit :=
  modify (λ h, if existsb (String.eqb (ar_id run)) (hs_precheck_jobs h) then h
               else MkHostState (hs_store h) (ar_id run :: hs_precheck_jobs h) (hs_automations_active h)).

(** A reserved precheck: dispatching or waiting, with no attempt started. *)
Definition precheck_reserved (run : AutomationRun) : bool :=
  (bool_decide (ar_status run = Rs_Dispatching) || bool_decide (ar_status run = Rs_WaitingForUser))
  && bool_decide (ar_precheck run = Some true) && negb (is_some (ar_started_at run)).

Definition resume_remote_automation_precheck (run : AutomationRun) : HM bool :=
  if negb (precheck_reserved run) then ret false
  else
    let! records := call (automation_precheck_processes (ar_id run)) in
    match records with
    | Ok [intent] =>
        if String.eqb (pp_host_id intent) LOCAL_HOST_ID then ret false
        else
          let! definition := run_definition run in
          match definition with
          | None => ret false
          | Some _ => do! start_automation_precheck run in ret true
          end
    | _ => ret false
    end.

(** Close the processes an earlier boot left behind; whether one stays open. *)
Fixpoint close_stale (boot : option string) (open : list AutomationPrecheckProcess) (unresolved : bool) : HM bool :=
  match open with
  | [] => ret unresolved
  | record :: open =>
      let! closed := match boot with
                     | Some boot => let! r := call (close_automation_precheck_from_previous_boot record boot) in
                                    ret (match r with Ok _ => true | Err _ => false end)
                     | None => ret false
                     end in
      close_stale boot open (unresolved || negb closed)
  end.

Definition retain_unverified_precheck (run : AutomationRun) : HM bool :=
  let! records := call (automation_precheck_processes (ar_id run)) in
  let! unresolved :=
    match records with
    | Ok records =>
        let open := List.filter (λ p, negb (phase_closed (pp_phase p))) records in
        let! boot := match open with [] => ret None | _ => gets current_boot_id end in
        close_stale boot open false
    | Err _ => ret true
    end in
  do! (if unresolved && negb (bool_decide (ar_status run = Rs_WaitingForUser))
       then do! set_automation_run_status (ar_id run) Rs_WaitingForUser
                  (Some "Automation precheck process closure is unverified; its run and dependencies are retained") in
            ret tt
       else ret tt) in
  ret unresolved.

Definition recover_interrupted_automation_precheck (run : AutomationRun) : HM bool :=
  let! in_flight := prechecking (ar_id run) in
  if precheck_reserved run && negb in_flight
  then
    let! retained := retain_unverified_precheck run in
    if retained : bool then ret true
    else do! block_run run "Runtime restarted during automation precheck; command completion is unverified" in
         ret true
  else ret false.

Definition stop_run_if_definition_retired (run : AutomationRun) (stage : string) : HM bool :=
  let! live := call (find_automation (ar_automation_id run)) in
  match live with
  | Ok (Some d) =>
      if negb (bool_decide (ad_state d = As_Trashed)) then ret false
      else do! set_automation_run_status (ar_id run) Rs_Cancelled
                 (Some ("Automation was deleted during " +:+ stage)) in ret true
  | Ok None =>
      do! set_automation_run_status (ar_id run) Rs_Cancelled
            (Some ("Automation was deleted during " +:+ stage)) in ret true
  | Err e => do! block_run run (error_text e) in ret true
  end.

(** ** Runs that took too long (automation_run_lifecycle.rs) *)

(** How a started run has expired at a moment, if it has. *)
Inductive Expiry : Type := Cancellation | Absolute | Inactivity.

Definition absolute_expired (now started : DateTime) (run : AutomationRun) : bool :=
  (default (started + hours 24)%Z (ar_absolute_deadline_at run) <=? now)%Z.
Definition inactivity_expired (now started : DateTime) (d : AutomationDefinition) (run : AutomationRun) : bool :=
  negb (ar_owner_reserved run) && negb (bool_decide (ar_status run = Rs_Pending))
  && negb (bool_decide (ar_status run = Rs_WaitingForUser))
  && (ad_inactivity_timeout_seconds d <? (now - default started (inactivity_reference run)) `quot` second)%Z.
Definition cancellation_expired (now : DateTime) (run : AutomationRun) : bool :=
  is_some_and (λ requested, (30 <=? (now - requested) `quot` second)%Z) (ar_cancel_requested_at run).

Definition expiry (now started : DateTime) (d : AutomationDefinition) (run : AutomationRun) : option Expiry :=
  if cancellation_expired now run then Some Cancellation
  else if absolute_expired now started run then Some Absolute
  else if inactivity_expired now started d run then Some Inactivity
  else None.

Definition expiry_status (e : Expiry) : AutomationRunStatus :=
  match e with Cancellation => Rs_Cancelled | _ => Rs_Timeout end.
Definition expiry_error (e : Expiry) : string :=
  match e with
  | Cancellation => "automation cancellation grace elapsed"
  | Absolute => "automation absolute 24-hour maximum exceeded"
  | Inactivity => "automation inactivity timeout exceeded"
  end.

Definition end_expired_run (run : AutomationRun) (d : AutomationDefinition) (e : Expiry) : HM unit :=
  do! (if ar_owner_reserved run then ret tt
       else modify (terminate_owned_automation_sessions run
                      (match e with Cancellation => "cancelled" | _ => "timedOut" end))) in
  do! set_automation_run_status (ar_id run) (expiry_status e) (Some (expiry_error e)) in
  if bool_decide (expiry_status e = Rs_Timeout) && bool_decide (ar_trigger run = Tr_Scheduled)
  then open_circuit_after_failure run (ad_circuit_failure_threshold d)
         "automation circuit breaker opened after timeout"
  else ret tt.

Definition expire_run (now : DateTime) (run : AutomationRun) : HM unit :=
  let! in_flight := prechecking (ar_id run) in
  if in_flight : bool then ret tt
  else
    let! resumed := resume_remote_automation_precheck run in
    if resumed : bool then ret tt
    else
      let! retained := retain_unverified_precheck run in
      if retained : bool then ret tt
      else if is_some (ar_cancel_requested_at run) && negb (is_some (ar_started_at run))
      then do! set_automation_run_status (ar_id run) Rs_Cancelled
                 (Some "automation cancellation requested before dispatch") in ret tt
      else
        let! recovered := recover_interrupted_automation_precheck run in
        if recovered : bool then ret tt
        else
          match ar_started_at run with
          | None => ret tt
          | Some started =>
              let! definition := run_definition run in
              match definition with
              | None => ret tt
              | Some d => match expiry now started d run with
                          | None => ret tt
                          | Some e => end_expired_run run d e
                          end
              end
          end.

Definition expire_inactive_automation_runs : HM unit :=
  let! now := clock in
  let! runs := call list_active_automation_runs in
  match runs with
  | Err _ => ret tt
  | Ok runs => mapM_ (expire_run now) runs
  end.

(** ** Starting a run (automation_dispatch_execution.rs) *)

Definition apply_overlap_policy (d : AutomationDefinition) (run : AutomationRun) : HM AutomationOverlapDecision :=
  let! listed := call list_active_automation_runs in
  let active := List.filter (λ r, String.eqb (ar_automation_id r) (ad_id d)) (unwrap_or [] listed) in
  let policy := default (ad_overlap_policy d) (ar_overlap_policy run) in
  let '(decision, superseded) := decide_overlap policy (ad_queue_cap d) (ar_id run) active in
  do! mapM_ (λ id, do! set_automation_run_status id Rs_OverlapSkipped
                         (Some AUTOMATION_OVERLAP_SUPERSEDED_REASON) in ret tt) superseded in
  do! match decision with
      | Skip reason => do! set_automation_run_status (ar_id run) Rs_OverlapSkipped (Some reason) in ret tt
      | QueueLimit => do! set_automation_run_status (ar_id run) Rs_QueueLimitSkipped
                            (Some AUTOMATION_QUEUE_LIMIT_REASON) in ret tt
      | Proceed | Wait => ret tt
      end in
  ret decision.

Definition start_automation_run (d : AutomationDefinition) (run : AutomationRun) (run_precheck : bool)
    : HM AutomationOverlapDecision :=
  let! in_flight := prechecking (ar_id run) in
  if in_flight : bool then ret Proceed
  else
    let! reserved := gets (automation_target_is_reserved d (ar_id run)) in
    if reserved : bool
    then
      let! now := clock in
      let run := with_ar_retry_after (Some (now + 5 * second)%Z)
        (with_ar_recovery (Some (MkAutomationRecovery "reconnecting" (ar_attempt_count run)
           (ad_retry_max_attempts d) None (Some "waitingForPreviousOwner"))) run) in
      do! call (save_automation_run run) in
      ret Wait
    else
      let run := with_ar_recovery None run in
      do! call (save_automation_run run) in
      do! set_active true in
      let! decision := apply_overlap_policy d run in
      if negb (bool_decide (decision = Proceed)) then ret decision
      else do! dispatch_admitted_automation_run d run run_precheck in ret Proceed.

End WithEnv.
