(* ===== verification/HostFacts.v ===== *)
(** * HostFacts: the host's operations advance the store, and how it ends a run

    [steady m]: the host operation [m] returns without panicking, and the store
    it leaves behind keeps its invariant and makes history.  Every operation of
    HostRuns.v but [fail_run] is steady, as long as what the host does outside
    the model ([HostLaws]) changes the store only through its operations.

    A run the host fails is retried within its budget or has failed; before its
    first attempt the retry delay cannot be computed and the host panics.  The
    state a run can be ended from is [open_run]: it is stored and active, no
    precheck process of it is open and it owns the workspace allocated to it. *)

From S2P Require Import Prelude Text Models Store AutomationModels Schedule Overlap Prompt AutomationDb AutomationStore AutomationPrecheck AutomationCleanup AutomationInv AutomationLifecycle AutomationHistory HostRuns.
From Stdlib Require Import ZArith Lia Ascii String.
From stdpp Require Import strings prelude.

Create HintDb steady.

(** The host changes the store only through the store's operations, and the calls
    that could reach the panic of [fail_run] return: a run they fail has been
    attempted. *)
Class HostLaws `{AutomationEnv} `{Chrono} `{HostEnv} : Prop := {
  terminate_adv run reason h : adv (hs_store h) (hs_store (terminate_owned_automation_sessions run reason h));
  dispatch_returns d run precheck h :
    ∃ h', dispatch_admitted_automation_run d run precheck h = (h', Ok tt) ∧ adv (hs_store h) (hs_store h');
  resume_interrupted_returns d run h :
    ∃ h', resume_interrupted_automation_run d run h = (h', Ok tt) ∧ adv (hs_store h) (hs_store h');
  recover_cleanups_adv h : adv (hs_store h) (hs_store (recover_automation_shared_cleanups h));
  reconcile_returns h : ∃ h', reconcile_automation_runs h = (h', Ok tt) ∧ adv (hs_store h) (hs_store h')
}.

Section Steady.
Context `{AutomationEnv} `{!UuidsDistinct} `{Chrono} `{UuidParser} `{HostEnv} `{!HostLaws}.

Definition steady {A} (m : HM A) : Prop :=
  ∀ h, ∃ h' a, m h = (h', Ok a) ∧ adv (hs_store h) (hs_store h').

Lemma steady_ret {A} (a : A) : steady (ret a).
Proof. intros h. exists h, a. split; [done|apply adv_refl]. Qed.
Lemma steady_gets {A} (f : HostState → A) : steady (gets f).
Proof. intros h. exists h, (f h). split; [done|apply adv_refl]. Qed.
Lemma steady_modify (f : HostState → HostState) : (∀ h, adv (hs_store h) (hs_store (f h))) → steady (modify f).
Proof. intros Hf h. by exists (f h), tt. Qed.
Lemma steady_bind {A B} (m : HM A) (k : A → HM B) : steady m → (∀ a, steady (k a)) → steady (bind m k).
Proof.
  intros Hm Hk h. destruct (Hm h) as (h1 & a & E1 & A1). destruct (Hk a h1) as (h2 & b & E2 & A2).
  exists h2, b. rewrite (bind_ok _ _ _ _ _ E1). split; [done|by eapply adv_trans].
Qed.
Lemma steady_mapM {A} (f : A → HM unit) l : (∀ a, steady (f a)) → steady (mapM_ f l).
Proof. intros Hf. induction l as [|a l IH]; cbn; [apply steady_ret|by apply steady_bind]. Qed.

Lemma call_ok {A} (m : AM A) h : ∃ h' r, call m h = (h', Ok r) ∧ m (hs_store h) = (hs_store h', r).
Proof. unfold call. destruct (m (hs_store h)) as [w r]. by eexists (MkHostState w _ _), r. Qed.

Lemma steady_call {A} (m : AM A) : advances m → steady (call m).
Proof.
  intros Hm h. destruct (call_ok m h) as (h' & r & E & E'). exists h', r. split; [done|by eapply Hm].
Qed.

Lemma steady_clock : steady clock.
Proof. intros h. do 2 eexists. split; [reflexivity|]. apply adv_quiet. by repeat split. Qed.
Lemma steady_prechecking id : steady (prechecking id).
Proof. apply steady_gets. Qed.
Lemma steady_set_active b : steady (set_active b).
Proof. apply steady_modify. intros h. apply adv_refl. Qed.
End Steady.

#[export] Hint Resolve steady_ret steady_gets steady_clock steady_prechecking steady_set_active : steady.
#[export] Hint Resolve advances_save advances_update_status advances_set_state advances_open_circuit
  advances_retry advances_find_automation advances_close_previous_boot advances_admit advances_audit_event
  advances_claim_skipped advances_prune_history advances_purge advances_reset_expired : adv.

(** Take a host operation apart. *)
Ltac steady :=
  repeat lazymatch goal with
  | |- steady (bind (if ?b then _ else _) _) => destruct b
  | |- steady (bind _ _) => apply steady_bind; [|intros ?]
  | |- steady (mapM_ _ _) => apply steady_mapM; intros ?
  | |- steady (call _) => apply steady_call; solve [auto with adv nocore | unfold read; auto with adv nocore]
  | |- steady (let _ := _ in _) => cbv zeta
  | |- steady (if ?b then _ else _) => destruct b
  | |- steady (match ?x with _ => _ end) => destruct x
  | |- steady _ => solve [auto with steady nocore]
  end.

Section Operations.
Context `{AutomationEnv} `{!UuidsDistinct} `{Chrono} `{UuidParser} `{HostEnv} `{!HostLaws}.

Lemma steady_set_status id status error : steady (set_automation_run_status id status error).
Proof. unfold set_automation_run_status. steady. Qed.
#[local] Hint Resolve steady_set_status : steady.

Lemma steady_block_run run reason : steady (block_run run reason).
Proof. unfold block_run, block_automation_definition_if_active. steady. Qed.
Lemma steady_run_definition run : steady (run_definition run).
Proof. unfold run_definition. steady. Qed.
Lemma steady_open_circuit_after run threshold reason : steady (open_circuit_after_failure run threshold reason).
Proof.
  unfold open_circuit_after_failure, host_open_automation_circuit, count_automation_failure_streak. steady.
Qed.
#[local] Hint Resolve steady_block_run steady_run_definition steady_open_circuit_after : steady.

Lemma steady_start_precheck run : steady (start_automation_precheck run).
Proof. apply steady_modify. intros h. destruct (existsb _ _); apply adv_refl. Qed.
#[local] Hint Resolve steady_start_precheck : steady.
Lemma steady_resume_remote run : steady (resume_remote_automation_precheck run).
Proof. unfold resume_remote_automation_precheck, automation_precheck_processes. steady. Qed.

Lemma steady_close_stale boot open unresolved : steady (close_stale boot open unresolved).
Proof. revert unresolved. induction open as [|p open IH]; intros unresolved; cbn [close_stale]; steady; apply IH. Qed.
#[local] Hint Resolve steady_close_stale : steady.

Lemma steady_retain run : steady (retain_unverified_precheck run).
Proof. unfold retain_unverified_precheck, automation_precheck_processes. steady. Qed.
#[local] Hint Resolve steady_resume_remote steady_retain : steady.
Lemma steady_recover run : steady (recover_interrupted_automation_precheck run).
Proof. unfold recover_interrupted_automation_precheck. steady. Qed.
Lemma steady_stop_retired run stage : steady (stop_run_if_definition_retired run stage).
Proof. unfold stop_run_if_definition_retired. steady. Qed.

Lemma steady_terminate run reason : steady (modify (terminate_owned_automation_sessions run reason)).
Proof. apply steady_modify, terminate_adv. Qed.
Lemma steady_dispatch d run precheck : steady (dispatch_admitted_automation_run d run precheck).
Proof. intros h. destruct (dispatch_returns d run precheck h) as (h' & ? & ?). by exists h', tt. Qed.
#[local] Hint Resolve steady_recover steady_terminate steady_dispatch : steady.

Lemma steady_end_expired run d e : steady (end_expired_run run d e).
Proof. unfold end_expired_run. steady. Qed.
#[local] Hint Resolve steady_end_expired : steady.
Lemma steady_expire_run now run : steady (expire_run now run).
Proof. unfold expire_run. steady. Qed.
#[local] Hint Resolve steady_expire_run : steady.
Lemma steady_expire : steady expire_inactive_automation_runs.
Proof. unfold expire_inactive_automation_runs, list_active_automation_runs. steady. Qed.

Lemma steady_overlap d run : steady (apply_overlap_policy d run).
Proof.
  unfold apply_overlap_policy, list_active_automation_runs. steady.
Qed.
#[local] Hint Resolve steady_overlap : steady.
Lemma steady_start d run precheck : steady (start_automation_run d run precheck).
Proof. unfold start_automation_run. steady. Qed.
End Operations.
#[export] Hint Resolve steady_set_status steady_block_run steady_start steady_expire : steady.

(** ** How the host ends a run *)

(** ** The retry delay *)

Lemma retry_multiplier_pow n : (1 ≤ n ≤ i64_max)%Z → retry_multiplier n = (2 ^ Z.min (n - 1) 5)%Z.
Proof.
  intros Hn. unfold retry_multiplier, i64_shl, i64_saturate, i64_min, i64_wrap, i64_max in *.
  set (k := Z.min (n - 1) 5).
  replace (Z.min (Z.max _ _) 5) with k by lia. assert (0 ≤ k ≤ 5)%Z as Hk by lia.
  rewrite (Z.mod_small k) by lia. rewrite Z.shiftl_mul_pow2, Z.mul_1_l by lia.
  assert (0 < 2 ^ k ≤ 2 ^ 5)%Z by (split; [apply Z.pow_pos_nonneg; lia|apply Z.pow_le_mono_r; lia]).
  rewrite Z.mod_small; lia.
Qed.

(** The delay of a valid definition, after at least one attempt. *)
Lemma retry_delay_spec backoff n :
  (1 ≤ backoff ≤ 86400)%Z → (1 ≤ n ≤ i64_max)%Z →
  retry_delay backoff n = Some (backoff * 2 ^ Z.min (n - 1) 5 * second)%Z.
Proof.
  intros Hb Hn. unfold retry_delay. rewrite retry_multiplier_pow by done.
  assert (0 < 2 ^ Z.min (n - 1) 5 ≤ 2 ^ 5)%Z by (split; [apply Z.pow_pos_nonneg; lia|apply Z.pow_le_mono_r; lia]).
  unfold i64_saturate, i64_min, duration_seconds, i64_max.
  replace (Z.max _ _) with (backoff * 2 ^ Z.min (n - 1) 5)%Z by nia.
  replace (9223372036854775807 / 1000)%Z with 9223372036854775%Z by reflexivity.
  destruct (Z.leb_spec (- (9223372036854775)) (backoff * 2 ^ Z.min (n - 1) 5)); [|nia].
  destruct (Z.leb_spec (backoff * 2 ^ Z.min (n - 1) 5) 9223372036854775); [done|nia].
Qed.

(** Before the first attempt the multiplier is the least integer. *)
Lemma retry_delay_unattempted backoff : (1 ≤ backoff)%Z → retry_delay backoff 0 = None.
Proof.
  intros Hb. unfold retry_delay. replace (retry_multiplier 0) with i64_min by reflexivity.
  replace (i64_saturate _) with i64_min; [reflexivity|]. unfold i64_saturate, i64_min, i64_max. nia.
Qed.

Section Ending.
Context `{AutomationEnv} `{!UuidsDistinct} `{Chrono} `{UuidParser} `{HostEnv}.

(** ** Operations that leave the runs and their guards alone *)

Definition bystander (w w' : AutomationWorld) : Prop :=
  runs w' = runs w ∧ prechecks w' = prechecks w ∧ adb_allocations (aw_db w') = adb_allocations (aw_db w).

Definition stands_by {A} (m : AM A) : Prop := ∀ w w' r, m w = (w', r) → bystander w w'.

Lemma bystander_refl w : bystander w w.
Proof. by repeat split. Qed.
Lemma bystander_trans w1 w2 w3 : bystander w1 w2 → bystander w2 w3 → bystander w1 w3.
Proof. unfold bystander. intuition congruence. Qed.

Lemma stands_by_bind {A B} (m : AM A) (k : A → AM B) :
  stands_by m → (∀ a, stands_by (k a)) → stands_by (bind m k).
Proof.
  intros Hm Hk w w' r. unfold bind. destruct (m w) as [w1 [a|e]] eqn:E; intros Hr.
  - eapply bystander_trans; [by eapply Hm|by eapply Hk].
  - injection Hr as <- _. by eapply Hm.
Qed.
Lemma stands_by_atomically {A} (m : AM A) : stands_by m → stands_by (atomically m).
Proof.
  intros Hm w w' r. unfold atomically. destruct (m w) as [w1 [a|e]] eqn:E; intros [= <- <-]; [by eapply Hm|].
  by repeat split.
Qed.
Lemma stands_by_same {A} (m : AM A) : (∀ w, bystander w (m w).1) → stands_by m.
Proof. intros Hm w w' r E. specialize (Hm w). by rewrite E in Hm. Qed.
Lemma stands_by_write f :
  (∀ db, adb_runs (f db) = adb_runs db ∧ adb_prechecks (f db) = adb_prechecks db ∧
         adb_allocations (f db) = adb_allocations db) → stands_by (write f).
Proof. intros Hf. apply stands_by_same. intros w. apply Hf. Qed.
Lemma stands_by_guarded abort f :
  (∀ db, adb_runs (f db) = adb_runs db ∧ adb_prechecks (f db) = adb_prechecks db ∧
         adb_allocations (f db) = adb_allocations db) → stands_by (guarded abort f).
Proof. intros Hf. unfold guarded. destruct abort; [by apply stands_by_same|by apply stands_by_write]. Qed.
End Ending.

(** Take a store operation apart until its statements are reached. *)
Ltac stand_by :=
  repeat lazymatch goal with
  | |- stands_by (bind _ _) => apply stands_by_bind; [|intros ?]
  | |- stands_by (atomically _) => apply stands_by_atomically
  | |- stands_by (if ?b then _ else _) => destruct b
  | |- stands_by (match ?x with _ => _ end) => destruct x
  | |- stands_by (let _ := _ in _) => cbv zeta
  | |- stands_by (guarded _ _) =>
      apply stands_by_guarded; intros ?; split_and!; reflexivity
  | |- stands_by (write _) => apply stands_by_write; intros ?; split_and!; reflexivity
  | |- stands_by _ => apply stands_by_same; intros ?; by repeat split
  end.

Section Runs.
Context `{AutomationEnv} `{!UuidsDistinct} `{Chrono} `{UuidParser} `{HostEnv}.

Lemma stands_by_audit_event a r act actor rev d : stands_by (insert_automation_audit_event a r act actor rev d).
Proof. unfold insert_automation_audit_event, insert_audit_row. stand_by. Qed.
Lemma stands_by_update_definitions sets p f : stands_by (update_automation_rows sets p f).
Proof. unfold update_automation_rows. stand_by. Qed.
Lemma stands_by_finish id status error : stands_by (finish_latest_automation_attempt id status error).
Proof. unfold finish_latest_automation_attempt, update_attempt_rows. stand_by. Qed.
Lemma stands_by_archive id actor : stands_by (archive_one_time_automation_if_final id actor).
Proof.
  unfold archive_one_time_automation_if_final, find_automation. apply stands_by_bind; [stand_by|]. intros [d|]; [|stand_by].
  destruct (_ || _); [stand_by|]. apply stands_by_bind; [stand_by|]. intros t. cbv zeta.
  apply stands_by_bind; [apply stands_by_update_definitions|]. intros _.
  apply stands_by_bind; [apply stands_by_audit_event|]. intros _. stand_by.
Qed.
Lemma stands_by_open_circuit id actor reason : stands_by (open_automation_circuit id actor reason).
Proof.
  unfold open_automation_circuit, existing_automation, find_automation, write_definition, audit_definition,
    insert_audit_row, update_automation_rows, require. stand_by.
Qed.
Lemma stands_by_audit_run run action actor details : stands_by (audit_run run action actor details).
Proof. unfold audit_run. apply stands_by_bind; [apply stands_by_audit_event|]. intros _. stand_by. Qed.

(** ** Saving *)

(** No trigger keeps the run from ending with this workspace. *)
Definition unguarded (db : AutomationDb) (id : string) (workspace : option string) (owned : bool) : Prop :=
  has_unclosed db id = false ∧
  existsb (λ a, String.eqb (al_run_id a) id
                && (negb (String.eqb (default "" workspace) (al_workspace_id a)) || negb owned))
    (adb_allocations db) = false.

Lemma unguarded_bystander w w' id workspace owned :
  prechecks w' = prechecks w → adb_allocations (aw_db w') = adb_allocations (aw_db w) →
  unguarded (aw_db w) id workspace owned → unguarded (aw_db w') id workspace owned.
Proof. unfold unguarded, has_unclosed, prechecks. by intros -> ->. Qed.

Lemma unguarded_update_guard db row run :
  rr_id row = ar_id run → unguarded db (ar_id run) (ar_workspace_id run) (ar_owned_workspace run) →
  run_update_guard db row (saved_row run row) = projectCheckoutRunGuard db (saved_row run row).
Proof.
  intros He [Hu Ha]. unfold run_update_guard, preservePrecheckRunCompletion, preserveAutomationSharedWorkspaceAllocation.
  rewrite He, Hu. cbn [andb or_else]. cbn. rewrite He, !String.eqb_refl. cbn. by rewrite Ha.
Qed.

Lemma find_saved_row db id f row :
  (∀ r, rr_id (f r) = rr_id r) → find_run_row db id = Some row →
  find_where (λ r, String.eqb (rr_id r) id) (update_where (λ r, String.eqb (rr_id r) id) f (adb_runs db)) = Some (f row).
Proof.
  intros Hf. unfold find_run_row, find_where. induction (adb_runs db) as [|r l IH]; cbn; [done|].
  destruct (String.eqb (rr_id r) id) eqn:E.
  - intros [= ->]. by rewrite Hf, E.
  - by rewrite E.
Qed.

(** An enqueued cleanup and its clock reading are all [enqueue_completed_run]
    leaves behind. *)
Lemma enqueue_ok run w :
  ∃ w', enqueue_completed_run run w = (w', Ok tt) ∧ bystander w w'.
Proof.
  destruct (enqueue_completed_run run w) as [w' r] eqn:E.
  assert (stands_by (enqueue_completed_run run)) as Hs by (unfold enqueue_completed_run; stand_by).
  exists w'. split; [|by eapply Hs]. f_equal. revert E. unfold enqueue_completed_run.
  unfold bind, read, gets, now_utc, write, modify, ret. repeat case_match; by intros [= _ <-].
Qed.

(** The trigger that stops a statement on one row. *)
Lemma first_abort_row (guard : RunRow → RunRow → option string) f (l : list RunRow) id row :
  NoDup (rr_id <$> l) → find_where (λ r, String.eqb (rr_id r) id) l = Some row →
  first_abort guard (λ r, String.eqb (rr_id r) id) f l = guard row (f row).
Proof.
  unfold first_abort, find_where. induction l as [|r l IH]; cbn; [done|]. intros [Hr Hnd]%NoDup_cons.
  destruct (String.eqb_spec (rr_id r) id) as [<-|Hne]; cbn; [|by apply IH]. intros [= ->].
  destruct (guard row (f row)); [done|]. cbn. clear IH Hnd. induction l as [|x l IH]; cbn; [done|].
  destruct (String.eqb_spec (rr_id x) (rr_id row)) as [E|]; [|apply IH; set_solver].
  exfalso. apply Hr. rewrite <-E. left.
Qed.

(** A save of an active run is refused by a trigger, or stores the run. *)
Lemma save_cases run row w w' r :
  AInv w → find_run_row (aw_db w) (ar_id run) = Some row → is_final (rr_status row) = false →
  save_automation_run run w = (w', r) →
  prechecks w' = prechecks w ∧ adb_allocations (aw_db w') = adb_allocations (aw_db w) ∧
  match run_update_guard (aw_db w) row (saved_row run row) with
  | Some msg => runs w' = runs w ∧ r = Err (Database msg)
  | None => find_run_row (aw_db w') (ar_id run) = Some (saved_row run row) ∧ r = Ok (decode_run (saved_row run row))
  end.
Proof.
  intros HI Hrow Hf. unfold save_automation_run, existing_run, find_automation_run, bind at 1, bind at 1, read at 1, gets at 1.
  rewrite Hrow. cbn [fmap option_fmap option_map require ret].
  change (ar_status (decode_run row)) with (rr_status row). rewrite Hf. cbn [andb].
  unfold atomically, bind at 1, update_run_rows, bind at 1, read at 1, gets at 1.
  rewrite (first_abort_row _ _ _ _ row (ai_run_ids w HI) Hrow). unfold bind at 1, guarded.
  destruct (run_update_guard _ _ _) as [msg|]; [by intros [= <- <-]|].
  unfold write, modify, ret at 1, bind at 1, read, gets. set (w1 := with_adb _ w).
  assert (find_run_row (aw_db w1) (ar_id run) = Some (saved_row run row)) as Hsaved by (by apply find_saved_row).
  rewrite Hsaved. unfold bind at 1. destruct (bool_decide _).
  - intros [= <- <-]. by split_and!.
  - destruct (enqueue_ok (decode_run (saved_row run row)) w1) as (w2 & E & Hr & Hp & Ha). rewrite E.
    intros [= <- <-]. rewrite Hp, Ha. unfold find_run_row, runs in *. rewrite Hr. by split_and!.
Qed.

(** ** Runs that can be ended *)

Definition open_run (w : AutomationWorld) (id : string) (workspace : option string) (owned : bool) : Prop :=
  AInv w ∧ unguarded (aw_db w) id workspace owned ∧
  ∃ row, find_run_row (aw_db w) id = Some row ∧ is_final (rr_status row) = false ∧
    ar_workspace_id (rr_data row) = workspace ∧ ar_owned_workspace (rr_data row) = owned.

Lemma open_run_bystander w w' id workspace owned :
  AInv w' → bystander w w' → open_run w id workspace owned → open_run w' id workspace owned.
Proof.
  intros HI (Hr & Hp & Ha) (_ & Hu & row & Hrow). split_and!; [done|by eapply unguarded_bystander|].
  exists row. unfold find_run_row, runs in *. by rewrite Hr.
Qed.

Lemma open_run_save run w w' r :
  open_run w (ar_id run) (ar_workspace_id run) (ar_owned_workspace run) → is_final (ar_status run) = false →
  save_automation_run run w = (w', r) →
  open_run w' (ar_id run) (ar_workspace_id run) (ar_owned_workspace run) ∧
  (∀ saved, r = Ok saved → ∃ row, find_run_row (aw_db w') (ar_id run) = Some (saved_row run row)).
Proof.
  intros (HI & Hu & row & Hrow & Hf & Hws & Hown) Hrf E. destruct (advances_save _ _ _ _ E HI) as [HI' _].
  destruct (save_cases run row w w' r HI Hrow Hf E) as (Hp & Ha & Hcase).
  assert (unguarded (aw_db w') (ar_id run) (ar_workspace_id run) (ar_owned_workspace run)) by (by eapply unguarded_bystander).
  destruct (run_update_guard _ _ _).
  - destruct Hcase as [Hr ->]. split; [|done]. split_and!; [done..|]. exists row. unfold find_run_row, runs in *. by rewrite Hr.
  - destruct Hcase as [Hs ->]. split; [|by eauto]. split_and!; [done..|]. by exists (saved_row run row).
Qed.

(** A run that can be ended takes any final status. *)
Lemma update_status_ends id status error workspace owned w w' r :
  open_run w id workspace owned → is_final status = true → update_automation_run_status id status error w = (w', r) →
  ∃ row, find_run_row (aw_db w') id = Some row ∧ rr_status row = status.
Proof.
  intros (HI & Hu & row & Hrow & Hf & Hws & Hown) Hs. unfold update_automation_run_status, existing_run, find_automation_run.
  unfold bind at 1, bind at 1, read at 1, gets at 1. rewrite Hrow. cbn [fmap option_fmap option_map require ret].
  unfold bind at 1, now_utc at 1. rewrite Hs. cbv zeta. set (run := with_ar_finished_at _ _). set (w0 := MkAutomationWorld _ _ _).
  assert (AInv w0) as HI0 by (apply (adv_quiet w w0); [by repeat split|done]).
  destruct (find_run_row_spec _ _ _ Hrow) as [Hin Hid].
  assert (ar_id run = id) as Hrid by (etransitivity; [by apply (ai_run_data w HI row)|done]).
  unfold bind at 1. destruct (save_automation_run run w0) as [w1 res] eqn:E.
  destruct (save_cases run row w0 w1 res HI0) as (_ & _ & Hcase); [by rewrite Hrid|done..|].
  rewrite unguarded_update_guard in Hcase.
  - unfold projectCheckoutRunGuard in Hcase. change (rr_status (saved_row run row)) with status in Hcase.
    rewrite Hs in Hcase. cbn [negb andb] in Hcase. destruct Hcase as [Hsaved ->]. rewrite Hrid in Hsaved.
    intros Hrest. exists (saved_row run row). split; [|done].
    match type of Hrest with ?m w1 = _ => assert (stands_by m) as Hb end.
    { apply stands_by_bind; [|intros; by apply stands_by_same].
      apply stands_by_bind; [apply stands_by_finish|]. intros _.
      apply stands_by_bind; [apply stands_by_archive|]. intros _. by apply stands_by_same. }
    destruct (Hb _ _ _ Hrest) as [Hr _]. unfold find_run_row, runs in *. by rewrite Hr.
  - by rewrite Hrid.
  - rewrite Hrid. subst workspace owned. exact Hu.
Qed.

(** ** Failing a run *)

Lemma schedule_retry_cases id at_ error actor workspace owned w w' r :
  open_run w id workspace owned → schedule_automation_retry id at_ error actor w = (w', r) →
  open_run w' id workspace owned ∧
  (∀ saved, r = Ok saved → ∃ row, find_run_row (aw_db w') id = Some row ∧ rr_status row = Rs_Pending ∧
     ar_retry_after (rr_data row) = Some at_).
Proof.
  intros Ho E. pose proof Ho as (HI & Hu & row & Hrow & Hf & Hws & Hown).
  destruct (advances_retry _ _ _ _ _ _ _ E HI) as [HI' _]. revert E.
  unfold schedule_automation_retry, existing_run, find_automation_run.
  unfold bind at 1, bind at 1, read at 1, gets at 1. rewrite Hrow. cbn [fmap option_fmap option_map require ret].
  change (ar_status (decode_run row)) with (rr_status row). rewrite Hf.
  unfold bind at 1, now_utc at 1. cbv zeta. set (run := with_ar_updated_at _ _). set (w0 := MkAutomationWorld _ _ _).
  assert (AInv w0) as HI0 by (apply (adv_quiet w w0); [by repeat split|done]).
  destruct (find_run_row_spec _ _ _ Hrow) as [Hin Hid].
  assert (ar_id run = id) as Hrid by (etransitivity; [by apply (ai_run_data w HI row)|done]).
  assert (open_run w0 (ar_id run) (ar_workspace_id run) (ar_owned_workspace run)) as Ho0.
  { rewrite Hrid. change (ar_workspace_id run) with (ar_workspace_id (rr_data row)).
    change (ar_owned_workspace run) with (ar_owned_workspace (rr_data row)). rewrite Hws, Hown.
    apply (open_run_bystander w w0); [done|by repeat split|done]. }
  unfold bind at 1. destruct (save_automation_run run w0) as [w1 res] eqn:Es.
  destruct (open_run_save run w0 w1 res Ho0 eq_refl Es) as [Ho1 Hsaved].
  rewrite Hrid in Ho1. change (ar_workspace_id run) with (ar_workspace_id (rr_data row)) in Ho1.
  change (ar_owned_workspace run) with (ar_owned_workspace (rr_data row)) in Ho1. rewrite Hws, Hown in Ho1.
  destruct res as [saved|e]; [|by intros [= <- <-]]. intros Hrest.
  match type of Hrest with ?m w1 = _ => assert (stands_by m) as Hb end.
  { apply stands_by_bind; [apply stands_by_finish|]. intros _.
    apply stands_by_bind; [apply stands_by_audit_run|]. intros _. by apply stands_by_same. }
  pose proof (Hb _ _ _ Hrest) as Hby. split; [by eapply open_run_bystander|]. intros s _.
  destruct (Hsaved saved eq_refl) as [row' Hrow']. exists (saved_row run row').
  rewrite Hrid in Hrow'. destruct Hby as [Hr _]. unfold find_run_row, runs in *. by rewrite Hr.
Qed.

Lemma remember_open run h :
  open_run (hs_store h) (ar_id run) (ar_workspace_id run) (ar_owned_workspace run) → is_final (ar_status run) = false →
  ∃ h' recovery, let run' := with_ar_recovery recovery run in
    remember_interruption run h = (h', Ok run') ∧
    open_run (hs_store h') (ar_id run') (ar_workspace_id run') (ar_owned_workspace run').
Proof.
  intros Ho Hf. unfold remember_interruption. destruct (_ && _).
  - unfold bind at 1. destruct (steady_clock h) as (h1 & t & Ec & Ha). rewrite Ec.
    pose proof Ec as Ec'. unfold clock in Ec'. injection Ec' as Eh _. cbv zeta.
    set (run1 := with_ar_recovery _ run). destruct (call_ok (save_automation_run run1) h1) as (h2 & r & Es & Em).
    rewrite (bind_ok _ _ _ _ _ Es). do 2 eexists. split; [reflexivity|].
    apply (open_run_save run1 (hs_store h1) _ r); [|done|done].
    apply (open_run_bystander (hs_store h)); [apply Ha, Ho| |done]. subst h1. by repeat split.
  - exists h, (ar_recovery run). split; [by destruct run|done].
Qed.

(** Readings of the clock leave a run as it was. *)
Lemma clock_open h id workspace owned :
  open_run (hs_store h) id workspace owned →
  ∃ h' n, clock h = (h', Ok (utc_now n)) ∧ open_run (hs_store h') id workspace owned.
Proof.
  intros Ho. destruct (steady_clock h) as (h' & t & Ec & Ha). pose proof Ec as Ec'. unfold clock in Ec'.
  injection Ec' as Eh Et. exists h', (aw_ticks (hs_store h)). rewrite Et. split; [done|].
  apply (open_run_bystander (hs_store h)); [apply Ha, Ho| |done]. subst h'. by repeat split.
Qed.

(** A query of the host leaves it as it was. *)
Lemma call_read {A} (q : AutomationDb → A) h : call (read q) h = (h, Ok (Ok (q (aw_db (hs_store h))))).
Proof. by destruct h. Qed.

(** Every delay of a valid definition can be added to every clock reading. *)
Definition delays_representable : Prop :=
  ∀ n k, (0 ≤ k ≤ 86400 * 32 * second)%Z → representable (utc_now n + k)%Z = true.

Definition retried (w : AutomationWorld) (id : string) (d : AutomationDefinition) (attempts : Z) : Prop :=
  (attempts < ad_retry_max_attempts d)%Z ∧
  ∃ row n, find_run_row (aw_db w) id = Some row ∧ rr_status row = Rs_Pending ∧
    ar_retry_after (rr_data row) =
      Some (utc_now n + ad_retry_backoff_seconds d * 2 ^ Z.min (attempts - 1) 5 * second)%Z.

Lemma retry_run_cases run d reason h :
  open_run (hs_store h) (ar_id run) (ar_workspace_id run) (ar_owned_workspace run) →
  delays_representable → ar_definition_snapshot run = Some d → (1 ≤ ad_retry_backoff_seconds d ≤ 86400)%Z →
  (1 ≤ ar_attempt_count run ≤ i64_max)%Z →
  ∃ h' b, retry_run run reason h = (h', Ok b) ∧
    open_run (hs_store h') (ar_id run) (ar_workspace_id run) (ar_owned_workspace run) ∧
    (b = true → retried (hs_store h') (ar_id run) d (ar_attempt_count run)).
Proof.
  intros Ho Hrep Hd Hb Hn. unfold retry_run, run_definition, find_automation. unfold bind at 1, bind at 1.
  rewrite call_read. cbn [ret]. unfold ret at 1. rewrite Hd. cbn [or_else].
  destruct (Z.ltb_spec (ar_attempt_count run) (ad_retry_max_attempts d)) as [Hlt|]; cbn [negb]; [|by exists h, false].
  assert (∃ h1 b, (match ar_absolute_deadline_at run with
                   | None => ret true
                   | Some at_ => let! now := clock in ret (now <? at_)%Z
                   end) h = (h1, Ok b) ∧
            open_run (hs_store h1) (ar_id run) (ar_workspace_id run) (ar_owned_workspace run)) as (h1 & b & E1 & Ho1).
  { destruct (ar_absolute_deadline_at run) as [at_|]; [|by exists h, true].
    destruct (clock_open h _ _ _ Ho) as (h1 & n & Ec & Ho1). rewrite (bind_ok _ _ _ _ _ Ec). by exists h1, (utc_now n <? at_)%Z. }
  rewrite (bind_ok _ _ _ _ _ E1). destruct b; cbn [negb]; [|by exists h1, false].
  destruct (clock_open h1 _ _ _ Ho1) as (h2 & n & Ec & Ho2). rewrite (bind_ok _ _ _ _ _ Ec).
  rewrite retry_delay_spec by done. set (delay := (_ * second)%Z).
  assert (0 < 2 ^ Z.min (ar_attempt_count run - 1) 5 ≤ 32)%Z
    by (change 32%Z with (2 ^ 5)%Z; split; [apply Z.pow_pos_nonneg; lia|apply Z.pow_le_mono_r; lia]).
  assert (second = 1000000000%Z) as Hsec by reflexivity.
  rewrite Hrep by (unfold delay; rewrite Hsec; nia). cbn [negb].
  destruct (call_ok (schedule_automation_retry (ar_id run) (utc_now n + delay)%Z reason managed_actor) h2)
    as (h3 & r & Es & Em). rewrite (bind_ok _ _ _ _ _ Es).
  destruct (schedule_retry_cases _ _ _ _ _ _ _ _ _ Ho2 Em) as [Ho3 Hrow].
  exists h3, (match r with Ok _ => true | Err _ => false end). split_and!; [done..|].
  destruct r as [saved|]; [|done]. intros _. split; [done|].
  destruct (Hrow saved eq_refl) as (row & Hr & Hs & Hat). by exists row, n.
Qed.

Lemma circuit_kept_by_audit id d action actor details at_ w w' r :
  audit_definition id d action actor details at_ w = (w', r) → adb_automations (aw_db w') = adb_automations (aw_db w).
Proof.
  unfold audit_definition, insert_audit_row, bind, new_uuid, read, gets, guarded, write, modify, fail.
  destruct (existsb _ _); by intros [= <- _].
Qed.

Lemma write_definition_row id d w w' n a :
  write_definition id d w = (w', Ok n) → a ∈ adb_automations (aw_db w') → au_id a = id → au_data a = d.
Proof.
  intros E. unfold write_definition, update_automation_rows in E. inv_ok E. unfold read, gets in Hstep. simplify_eq.
  inv_ok E. unfold guarded, write, modify, fail in Hstep. case_match; [done|]. simplify_eq. inv_ok E.
  intros Ha Hid. apply list_elem_of_fmap in Ha as (x & -> & _). revert Hid.
  destruct (String.eqb_spec (au_id x) id) as [He|Hne]; [by intros _|]. intros Hid. by destruct Hne.
Qed.

(** The events of a definition, written when asked. *)
Lemma automations_kept_by_audit (b : bool) id d action actor details at_ w w' r :
  (if b then audit_definition id d action actor details at_ else ret tt) w = (w', r) →
  adb_automations (aw_db w') = adb_automations (aw_db w).
Proof. destruct b; [apply circuit_kept_by_audit|]. by intros [= <- _]. Qed.

(** An opened circuit is stored. *)
Lemma open_circuit_stored id actor reason w w' d a :
  open_automation_circuit id actor reason w = (w', Ok d) → find_automation_row (aw_db w') id = Some a →
  ad_circuit_opened (au_data a) = true.
Proof.
  intros E Ha. unfold open_automation_circuit in E. inv_ok E. set (d0 := a0) in *.
  destruct (negb (negb (ad_circuit_opened d0)) && _) eqn:Eskip.
  - apply andb_true_iff in Eskip as [Eo _]. unfold ret in E. injection E as -> ->.
    unfold existing_automation, find_automation in Hstep. inv_ok Hstep. unfold read, gets in Hstep0. simplify_eq.
    destruct (find_automation_row (aw_db s) id) as [row|] eqn:Er; [|done]. unfold require, ret in Hstep. cbn in Hstep.
    injection Hstep as -> E'. rewrite Er in Ha. injection Ha as <-. rewrite negb_involutive, <-E' in Eo. exact Eo.
  - clear Eskip. inv_ok E. cbv zeta in E. inv_ok E. unfold atomically in E.
    match type of E with (match ?m _ with _ => _ end) = _ => set (ops := m) in E end.
    destruct (ops s1) as [w1 [x|e]] eqn:Eops; [|done]. injection E as -> ->. unfold ops in Eops. clear ops.
    inv_ok Eops. inv_ok Eops. inv_ok Eops. unfold ret in Eops. injection Eops as -> <-.
    apply find_where_Some in Ha as [Ha Hid%String.eqb_eq].
    rewrite (automations_kept_by_audit _ _ _ _ _ _ _ _ _ _ Hstep4), (automations_kept_by_audit _ _ _ _ _ _ _ _ _ _ Hstep3) in Ha.
    rewrite (write_definition_row _ _ _ _ _ _ Hstep2 Ha Hid).
    assert (ad_circuit_opened a1 = true) as Ho; [|by destruct (bool_decide _)].
    destruct (ad_circuit_opened d0) eqn:Eo; cbn [negb] in Hstep0.
    + unfold ret in Hstep0. injection Hstep0 as _ <-. done.
    + inv_ok Hstep0. unfold ret in Hstep0. injection Hstep0 as _ <-. done.
Qed.

(** A refusal changes nothing. *)
Lemma open_circuit_refused id actor reason w w' e :
  open_automation_circuit id actor reason w = (w', Err e) → aw_db w' = aw_db w.
Proof.
  unfold open_automation_circuit, existing_automation, find_automation, read, gets, bind at 1 2. cbn.
  destruct (find_automation_row (aw_db w) id) as [row|]; cbn; [|by intros [= <- _]]. unfold require, ret. cbn.
  destruct (negb _ && negb _); [done|]. unfold bind at 1. destruct (negb (ad_circuit_opened _)); cbn; unfold bind, now_utc, atomically; cbn.
  - match goal with |- context [match ?m with _ => _ end] => destruct m as [w1 [x|e1]] end; [done|]. by intros [= <- _].
  - match goal with |- context [match ?m with _ => _ end] => destruct m as [w1 [x|e1]] end; [done|]. by intros [= <- _].
Qed.

(** ** The claim *)

(** What a failed run leaves: the failure, and for a scheduled run whose
    automation has reached its threshold of failures an open circuit, unless
    the store refuses to open it on the very database the run leaves. *)
Definition failed (w : AutomationWorld) (run : AutomationRun) : Prop :=
  (∃ row, find_run_row (aw_db w) (ar_id run) = Some row ∧ rr_status row = Rs_Failure) ∧
  (ar_trigger run = Tr_Scheduled → ∀ a n, find_automation_row (aw_db w) (ar_automation_id run) = Some a →
     (count_automation_failure_streak (ar_automation_id run) (ad_circuit_failure_threshold (au_data a)) w).2 = Ok n →
     (ad_circuit_failure_threshold (au_data a) ≤ n)%Z →
     ad_circuit_opened (au_data a) = true ∨
     ∃ w1 e, aw_db w1 = aw_db w ∧ (open_automation_circuit (ar_automation_id run) managed_actor
                (Some "automation circuit breaker opened") w1).2 = Err e).

Lemma failed_same w run run' :
  ar_id run' = ar_id run → ar_trigger run' = ar_trigger run → ar_automation_id run' = ar_automation_id run →
  failed w run → failed w run'.
Proof. unfold failed. by intros -> -> ->. Qed.

Lemma set_active_store b h : ∃ h', set_active b h = (h', Ok tt) ∧ hs_store h' = hs_store h.
Proof. by eexists. Qed.

Lemma give_up_fails run reason h :
  open_run (hs_store h) (ar_id run) (ar_workspace_id run) (ar_owned_workspace run) → is_final (ar_status run) = false →
  ∃ h', give_up_run run reason h = (h', Ok tt) ∧ failed (hs_store h') run.
Proof.
  intros Ho Hf. unfold give_up_run. cbv zeta. set (exhausted := with_ar_recovery _ run).
  destruct (call_ok (save_automation_run exhausted) h) as (h1 & r1 & E1 & M1). rewrite (bind_ok _ _ _ _ _ E1).
  destruct (open_run_save exhausted _ _ r1 Ho Hf M1) as [Ho1 _].
  unfold set_automation_run_status.
  destruct (call_ok (update_automation_run_status (ar_id run) Rs_Failure (Some reason)) h1) as (h2 & r2 & E2 & M2).
  rewrite (bind_ok _ _ _ _ _ E2). destruct (update_status_ends (ar_id run) Rs_Failure _ _ _ _ _ _ Ho1 eq_refl M2) as (row & Hrow & Hs).
  case_bool_decide as Ht; [|exists h2; split; [done|]; split; [by exists row|done]].
  unfold find_automation. unfold bind at 1. rewrite call_read.
  destruct (find_automation_row (aw_db (hs_store h2)) (ar_automation_id run)) as [a|] eqn:Ea; cbn [fmap option_fmap option_map].
  2:{ exists h2. split; [done|]. split; [by exists row|]. intros _ a n Ha. congruence. }
  change (ad_circuit_failure_threshold (decode_definition a)) with (ad_circuit_failure_threshold (au_data a)).
  unfold open_circuit_after_failure. unfold bind at 1.
  destruct (call_ok (count_automation_failure_streak (ar_automation_id run) (ad_circuit_failure_threshold (au_data a))) h2)
    as (h3 & r3 & E3 & M3). rewrite E3.
  assert (hs_store h3 = hs_store h2 ∧ ∃ n, r3 = Ok n) as [Hh3 [n ->]].
  { unfold count_automation_failure_streak, read, gets in M3. injection M3 as <- <-. eauto. }
  cbn [unwrap_or]. destruct (Z.leb_spec (ad_circuit_failure_threshold (au_data a)) n) as [Hle|Hlt].
  - unfold host_open_automation_circuit. set (opening := open_automation_circuit _ _ _).
    destruct (call_ok opening h3) as (h4 & r4 & E4 & M4). rewrite (bind_ok _ _ _ _ _ E4).
    destruct (stands_by_open_circuit _ _ _ _ _ _ M4) as [Hr4 _].
    assert (find_run_row (aw_db (hs_store h4)) (ar_id run) = Some row) as Hrow4
      by (unfold find_run_row, runs in *; by rewrite Hr4, Hh3).
    destruct r4 as [d|e].
    + destruct (set_active_store true h4) as (h5 & E5 & Hh5). exists h5. rewrite Hh5. split; [done|]. split; [by exists row|].
      intros _ a' n' Ha' _ _. left. by eapply open_circuit_stored.
    + exists h4. split; [done|]. split; [by exists row|]. intros _ a' n' _ _ _. right. exists (hs_store h3), e.
      fold opening. split; [|by rewrite M4]. symmetry. exact (open_circuit_refused _ _ _ _ _ _ M4).
  - exists h3. rewrite Hh3. split; [done|]. split; [by exists row|]. intros _ a' n' Ha' Hn' Hle. exfalso.
    assert (a' = a) as -> by congruence. rewrite Hh3 in M3. rewrite M3 in Hn'. cbn in Hn'. injection Hn' as <-. lia.
Qed.

(** The run as the host reads it back. *)
Lemma stored_open_run h run row :
  AInv (hs_store h) → find_run_row (aw_db (hs_store h)) (ar_id run) = Some row → is_final (rr_status row) = false →
  unguarded (aw_db (hs_store h)) (ar_id run) (ar_workspace_id (rr_data row)) (ar_owned_workspace (rr_data row)) →
  ar_id (decode_run row) = ar_id run ∧
  open_run (hs_store h) (ar_id (decode_run row)) (ar_workspace_id (decode_run row)) (ar_owned_workspace (decode_run row)).
Proof.
  intros HI Hrow Hf Hu. destruct (find_run_row_spec _ _ _ Hrow) as [Hin Hid].
  assert (ar_id (decode_run row) = ar_id run) as E by (etransitivity; [by apply (ai_run_data _ HI row)|done]).
  split; [done|]. rewrite E. split_and!; [done..|]. by exists row.
Qed.

Lemma fail_run_unfold h run row reason :
  find_run_row (aw_db (hs_store h)) (ar_id run) = Some row → is_final (rr_status row) = false →
  ar_taken_over (rr_data row) = false →
  fail_run run reason h =
  (let! run := remember_interruption (decode_run row) in
   let! retried := (if negb (ar_taken_over run) && negb (is_final (ar_status run)) then retry_run run reason else ret false) in
   if retried : bool then ret tt else give_up_run run reason) h.
Proof.
  intros Hrow Hf Ht. unfold fail_run, find_automation_run. unfold bind at 1. rewrite call_read, Hrow.
  cbn [fmap option_fmap option_map ok_flatten default from_option id]. unfold Datatypes.id.
  change (ar_status (decode_run row)) with (rr_status row).
  change (ar_taken_over (decode_run row)) with (ar_taken_over (rr_data row)). by rewrite Hf, Ht.
Qed.


Lemma remember_unattempted run h : ar_attempt_count run = 0%Z → remember_interruption run h = (h, Ok run).
Proof. unfold remember_interruption. by intros ->. Qed.

Lemma retry_run_panics run d reason h :
  ar_definition_snapshot run = Some d → ar_attempt_count run = 0%Z → ar_absolute_deadline_at run = None →
  well_formed d → ∃ h', retry_run run reason h = (h', Err (Bail "TimeDelta::seconds out of bounds")).
Proof.
  intros Hd Hn Hdl Hv. unfold retry_run, run_definition, find_automation. unfold bind at 1, bind at 1. rewrite call_read.
  unfold ret at 1. rewrite Hd, Hn, Hdl. cbn [or_else]. destruct (wf_attempts d Hv) as [Hlo _].
  destruct (Z.ltb_spec 0 (ad_retry_max_attempts d)); [|lia]. cbn [negb]. unfold bind at 1, ret at 1. cbn [negb].
  unfold bind at 1. destruct (steady_clock h) as (h1 & t & Ec & _). rewrite Ec.
  rewrite retry_delay_unattempted by apply (wf_backoff d Hv). by eexists.
Qed.

Lemma decode_run_keeps row :
  ar_attempt_count (decode_run row) = ar_attempt_count (rr_data row) ∧
  ar_absolute_deadline_at (decode_run row) = ar_absolute_deadline_at (rr_data row) ∧
  ar_definition_snapshot (decode_run row) = ar_definition_snapshot (rr_data row) ∧
  ar_taken_over (decode_run row) = ar_taken_over (rr_data row) ∧ ar_status (decode_run row) = rr_status row.
Proof. by split_and!. Qed.

(** A run that fails before its first attempt panics the host: the multiplier
    of its backoff overflows. *)
Theorem fail_run_panics_before_first_attempt h run row d reason :
  find_run_row (aw_db (hs_store h)) (ar_id run) = Some row → is_final (rr_status row) = false →
  ar_taken_over (rr_data row) = false → ar_attempt_count (rr_data row) = 0%Z →
  ar_absolute_deadline_at (rr_data row) = None →
  ar_definition_snapshot (rr_data row) = Some d → validate_definition d = Ok tt →
  ∃ h', fail_run run reason h = (h', Err (Bail "TimeDelta::seconds out of bounds")).
Proof.
  intros Hrow Hf Ht Hn Hdl Hd Hv%validate_well_formed. rewrite (fail_run_unfold h run row) by done.
  destruct (decode_run_keeps row) as (En & Edl & Ed & Et & Es). rewrite Hn in En. rewrite Hdl in Edl.
  rewrite Hd in Ed. rewrite Ht in Et. rewrite <-Es in Hf. generalize dependent (decode_run row). intros run1.
  intros. rewrite (bind_ok _ _ _ _ _ (remember_unattempted run1 h En)), Et, Hf. cbn [negb andb].
  destruct (retry_run_panics run1 d reason h Ed En Edl Hv) as [h' E]. exists h'. unfold bind. by rewrite E.
Qed.

(** ** Expiry *)

(** A run that has started is not a reserved precheck. *)
Lemma started_not_reserved run started : ar_started_at run = Some started → precheck_reserved run = false.
Proof. unfold precheck_reserved. intros ->. by rewrite andb_false_r. Qed.

Lemma no_open_process (l : list AutomationPrecheckProcess) id :
  existsb (λ p, String.eqb (pp_run_id p) id && negb (phase_closed (pp_phase p))) l = false →
  List.filter (λ p, negb (phase_closed (pp_phase p)))
    (sort_by (λ a b, String.leb (pp_id a) (pp_id b)) (List.filter (λ p, String.eqb (pp_run_id p) id) l)) = [].
Proof.
  intros Hn. apply elem_of_nil_inv. intros p Hp. rewrite list_elem_of_In, filter_In, <-list_elem_of_In in Hp.
  destruct Hp as [Hp Ho]. rewrite elem_of_sort_by, list_elem_of_In, filter_In, <-list_elem_of_In in Hp.
  destruct Hp as [Hp He]. apply not_true_iff_false in Hn. apply Hn, existsb_exists. exists p.
  rewrite <-list_elem_of_In, He, Ho. done.
Qed.

Lemma retain_none run h :
  has_unclosed (aw_db (hs_store h)) (ar_id run) = false → retain_unverified_precheck run h = (h, Ok false).
Proof.
  intros Hu. unfold retain_unverified_precheck, automation_precheck_processes. unfold bind at 1. rewrite call_read.
  rewrite no_open_process by exact Hu. reflexivity.
Qed.

Lemma failure_circuit_stands_by run threshold reason h :
  ∃ h', open_circuit_after_failure run threshold reason h = (h', Ok tt) ∧ bystander (hs_store h) (hs_store h').
Proof.
  unfold open_circuit_after_failure. unfold bind at 1, count_automation_failure_streak. rewrite call_read.
  destruct (_ <=? _)%Z; [|exists h; split; [done|apply bystander_refl]].
  unfold host_open_automation_circuit. set (opening := open_automation_circuit _ _ _).
  destruct (call_ok opening h) as (h1 & r & E & Em). rewrite (bind_ok _ _ _ _ _ E).
  pose proof (stands_by_open_circuit _ _ _ _ _ _ Em) as Hb. destruct r; by eexists.
Qed.

(** A run that has outlived its limits is ended: the sweep of a started run
    that no trigger protects and no precheck holds returns, and when the run
    has expired it leaves it cancelled, if its cancellation was requested half
    a minute ago, or timed out, if its deadline passed or it stayed inactive
    too long; a run that has not expired is left as it was. *)
Theorem expired_run_ends h now row d started :
  (∀ run reason h, adv (hs_store h) (hs_store (terminate_owned_automation_sessions run reason h)) ∧
                   bystander (hs_store h) (hs_store (terminate_owned_automation_sessions run reason h))) →
  areachable (hs_store h) → find_run_row (aw_db (hs_store h)) (rr_id row) = Some row → is_final (rr_status row) = false →
  existsb (String.eqb (rr_id row)) (hs_precheck_jobs h) = false →
  ar_started_at (rr_data row) = Some started → ar_definition_snapshot (rr_data row) = Some d →
  unguarded (aw_db (hs_store h)) (rr_id row) (ar_workspace_id (rr_data row)) (ar_owned_workspace (rr_data row)) →
  ∃ h', expire_run now (decode_run row) h = (h', Ok tt) ∧
  match expiry now started d (decode_run row) with
  | Some e => ∃ row', find_run_row (aw_db (hs_store h')) (rr_id row) = Some row' ∧ rr_status row' = expiry_status e
  | None => h' = h
  end.
Proof.
  intros Hterm HI%areachable_AInv Hrow Hf Hjobs Hst Hd Hu.
  assert (ar_id (decode_run row) = rr_id row) as Hid
    by (etransitivity; [|apply (ai_run_data _ HI row), (find_run_row_spec _ _ _ Hrow)]; reflexivity).
  assert (open_run (hs_store h) (rr_id row) (ar_workspace_id (rr_data row)) (ar_owned_workspace (rr_data row))) as Ho
    by (split_and!; [done..|]; by exists row).
  assert (ar_started_at (decode_run row) = Some started) as Hst1 by exact Hst.
  assert (ar_definition_snapshot (decode_run row) = Some d) as Hd1 by exact Hd.
  generalize dependent (decode_run row). intros run Hid Hst1 Hd1.
  unfold expire_run, prechecking. unfold bind at 1, gets at 1. rewrite Hid, Hjobs.
  unfold bind at 1, resume_remote_automation_precheck. rewrite (started_not_reserved run started) by done. cbn [negb].
  unfold ret at 1. unfold bind at 1. rewrite retain_none by (rewrite Hid; apply Hu). rewrite Hst1. cbn [is_some negb].
  rewrite andb_false_r. unfold bind at 1, recover_interrupted_automation_precheck, prechecking.
  unfold bind at 1, gets at 1. rewrite (started_not_reserved run started) by done. cbn [andb]. unfold ret at 1.
  unfold bind at 1, run_definition, find_automation. unfold bind at 1. rewrite call_read. unfold ret at 1. rewrite Hd1.
  cbn [or_else]. destruct (expiry now started d run) as [e|]; [|by exists h].
  unfold end_expired_run.
  assert (∃ h1, (if ar_owner_reserved run then ret tt else modify (terminate_owned_automation_sessions run
                   (match e with Cancellation => "cancelled" | _ => "timedOut" end))) h = (h1, Ok tt) ∧
            open_run (hs_store h1) (rr_id row) (ar_workspace_id (rr_data row)) (ar_owned_workspace (rr_data row)))
    as (h1 & E1 & Ho1).
  { destruct (ar_owner_reserved run); [by exists h|]. eexists. split; [reflexivity|].
    destruct (Hterm run (match e with Cancellation => "cancelled" | _ => "timedOut" end) h) as [Ha Hb].
    eapply open_run_bystander; [apply Ha, HI|exact Hb|exact Ho]. }
  rewrite (bind_ok _ _ _ _ _ E1). unfold set_automation_run_status. rewrite Hid.
  destruct (call_ok (update_automation_run_status (rr_id row) (expiry_status e) (Some (expiry_error e))) h1)
    as (h2 & r & E2 & M2). rewrite (bind_ok _ _ _ _ _ E2).
  destruct (update_status_ends (rr_id row) (expiry_status e) _ _ _ _ _ _ Ho1 ltac:(by destruct e) M2) as (row' & Hrow' & Hs).
  destruct (_ && _); [|exists h2; split; [done|]; by exists row'].
  destruct (failure_circuit_stands_by run (ad_circuit_failure_threshold d)
              "automation circuit breaker opened after timeout" h2) as (h3 & E3 & Hr & _).
  exists h3. split; [done|]. exists row'. unfold find_run_row, runs in *. by rewrite Hr.
Qed.
End Runs.
