(* ===== verification/Scheduler.v ===== *)
(** * Scheduler: how the host finds and starts what is due

    [automation_cursor] (automation_authoring.rs), the tick with the catch-up
    of each automation (automation_dispatch.rs) and the time to the next tick
    (automation_scheduler.rs).

    [elapsed] answers the readings of the clock that limits a catch-up: whether
    the budget of 100 milliseconds is used up at the n-th reading. *)

From S2P Require Import Prelude Text Models Store AutomationModels Schedule Overlap Prompt AutomationDb AutomationStore AutomationPrecheck AutomationCleanup HostRuns.
From Stdlib Require Import ZArith Lia Ascii String.
From stdpp Require Import strings prelude.

(** Where the search for the next occurrence starts. *)
Definition automation_cursor (d : AutomationDefinition) (latest : option DateTime) : DateTime :=
  let start := match ad_schedule d with
               | Sch_Recurring _ _ start_at _ _ => default (ad_created_at d) start_at
               | Sch_OneTime _ _ => 0%Z
               end in
  let cursor := Z.max (default start latest) start in
  match ad_schedule d with
  | Sch_OneTime _ _ => cursor
  | Sch_Recurring _ _ _ _ _ => Z.max cursor (default start (ad_schedule_cursor_at d))
  end.

Section Misfires.
Context `{Chrono}.

Definition next_due_occurrence (d : AutomationDefinition) (after now : DateTime) : bool :=
  match next_occurrence (ad_id d) (ad_schedule d) after with
  | Ok (Some next) => (ao_scheduled_at next <=? now)%Z
  | _ => false
  end.

(** [num_seconds] rounds towards zero. *)
Definition is_misfire (d : AutomationDefinition) (o : AutomationOccurrence) (now : DateTime)
    (runtime_started_at : option DateTime) : bool :=
  match runtime_started_at with Some at_ => (ao_scheduled_at o <? at_)%Z | None => false end
  || (ad_misfire_grace_seconds d <? (now - ao_scheduled_at o) `quot` second)%Z.

Definition skips_misfire (d : AutomationDefinition) (o : AutomationOccurrence) (now : DateTime)
    (runtime_started_at : option DateTime) : bool :=
  match ad_misfire_policy d with
  | Mf_Skip => is_misfire d o now runtime_started_at
  | Mf_RunLatestOnce =>
      is_misfire d o now runtime_started_at && next_due_occurrence d (ao_scheduled_at o) now
  | Mf_Queue => false
  end.
End Misfires.

Section Tick.
Context `{AutomationEnv} `{Chrono} `{UuidParser} `{HostEnv}.

(** Claims the occurrences the misfire policy drops, with one audit entry. *)
Definition record_skipped_misfires (d : AutomationDefinition) (missed : list AutomationOccurrence) : HM unit :=
  match head missed, last missed with
  | Some first, Some last =>
      let! count := call (claim_skipped_automation_occurrences (ad_id d) missed) in
      match count with
      | Ok count =>
          if (count =? 0)%Z then ret tt
          else do! call (insert_automation_audit_event (Some (ad_id d)) None "misfiresSkipped" managed_actor
                           (Some (ad_revision d))
                           (JObject [("count", json_int count); ("from", json_time (ao_scheduled_at first));
                                     ("to", json_time (ao_scheduled_at last))])) in
               ret tt
      | Err _ => ret tt
      end
  | _, _ => ret tt
  end.

(** Whether the automation has used up its scheduled runs. *)
Definition limit_reached (d : AutomationDefinition) : HM bool :=
  match schedule_max_scheduled_runs (ad_schedule d) with
  | Some maximum =>
      let! count := call (count_scheduled_automation_executions (ad_id d)) in
      ret (maximum <=? unwrap_or maximum count)%Z
  | None => ret false
  end.

(** Name the target of an admitted run and start it. *)
Definition start_admitted (d : AutomationDefinition) (run : AutomationRun) : HM bool :=
  let! named := gets (target_identity (ad_target d) (ad_reuse_policy d)) in
  match named with
  | inl identity =>
      let run := with_ar_target_identity (Some identity) run in
      let! saved := call (save_automation_run run) in
      match saved with
      | Ok _ => do! start_automation_run d run true in ret true
      | Err _ => ret false
      end
  | inr reason => do! block_run run reason in ret true
  end.

Definition claim_and_start_scheduled (d : AutomationDefinition) (o : AutomationOccurrence) : HM bool :=
  let! over := limit_reached d in
  if over : bool
  then do! call (set_automation_state (ad_id d) As_Archived managed_actor
                   (Some "maximum scheduled runs reached")) in
       ret false
  else
    let! admitted := call (admit_automation_run d o Tr_Scheduled true) in
    match admitted with
    | Ok (Some run) => start_admitted d run
    | Ok None | Err _ => ret false
    end.

(** One run of [resume_pending_runs]: its moment has come. *)
Definition resume_pending_run (d : AutomationDefinition) (run : AutomationRun) : HM unit :=
  if negb (String.eqb (ar_automation_id run) (ad_id d) && bool_decide (ar_status run = Rs_Pending)) then ret tt
  else
    let! due := match ar_retry_after run with
                | None => ret true
                | Some retry_after => let! now := clock in ret (retry_after <=? now)%Z
                end in
    if negb due then ret tt
    else
      let frozen := default d (ar_definition_snapshot run) in
      if is_some_and (λ recovery, negb (String.eqb (arc_status recovery) "waiting")) (ar_recovery run)
         && (0 <? ar_attempt_count run)%Z && (is_some (ar_tab_id run) || is_some (ar_session_id run))
      then resume_interrupted_automation_run frozen run
      else do! start_automation_run frozen run
                 (default (bool_decide (ar_trigger run = Tr_Scheduled)) (ar_precheck run)) in
           ret tt.

Definition resume_pending_runs (d : AutomationDefinition) : HM unit :=
  let! runs := call list_active_automation_runs in
  match runs with
  | Err _ => ret tt
  | Ok runs => mapM_ (resume_pending_run d) runs
  end.

Section Budget.
Variable elapsed : nat → bool.

(** The loop of [evaluate_automation] from a cursor, with the occurrences missed
    so far; [reading] counts the readings of the budget clock.  The result says
    whether the budget ran out, which wakes the scheduler again at once. *)
Fixpoint catch_up (fuel : nat) (d : AutomationDefinition) (now : DateTime)
    (runtime_started_at : option DateTime) (reading : nat) (cursor : DateTime)
    (missed : list AutomationOccurrence) : HM (bool * list AutomationOccurrence) :=
  match fuel with
  | O => panic "out of fuel"
  | S fuel =>
      if elapsed reading then ret (true, missed)
      else
        match next_occurrence (ad_id d) (ad_schedule d) cursor with
        | Ok (Some o) =>
            if (ao_scheduled_at o <=? now)%Z
            then
              if skips_misfire d o now runtime_started_at
              then catch_up fuel d now runtime_started_at (S reading) (ao_scheduled_at o) (missed ++ [o])
              else
                let! started := claim_and_start_scheduled d o in
                if negb started
                then catch_up fuel d now runtime_started_at (S reading) (ao_scheduled_at o) missed
                else if elapsed (S reading) then ret (true, missed)
                else catch_up fuel d now runtime_started_at (S (S reading)) (ao_scheduled_at o) missed
            else ret (false, missed)
        | Ok None => ret (false, missed)
        | Err e =>
            do! call (set_automation_state (ad_id d) As_Blocked managed_actor (Some (error_text e))) in
            ret (false, missed)
        end
  end.

Definition evaluate_automation (fuel : nat) (d : AutomationDefinition) : HM unit :=
  let! now := clock in
  let! latest := call (latest_automation_occurrence (ad_id d)) in
  let cursor := automation_cursor d (ok_flatten latest) in
  let! started_at := call (read adb_runtime_started_at) in
  let! caught := catch_up fuel d now (ok_flatten started_at) 0 cursor [] in
  do! record_skipped_misfires d caught.2 in
  resume_pending_runs d.

(** Clean up, wake what waited, then look at every automation. *)
Definition handle_automation_tick (fuel : nat) : HM unit :=
  let! mutating := gets has_runtime_mutations in
  if mutating : bool then ret tt
  else
    do! modify recover_automation_shared_cleanups in
    let! maintenance_now := clock in
    do! call (prune_automation_history maintenance_now) in
    do! call (purge_trashed_automations maintenance_now) in
    do! call (reset_expired_automation_circuits maintenance_now managed_actor) in
    do! reconcile_automation_runs in
    let! previous_active := gets hs_automations_active in
    let! active := call has_active_automations in
    let active_definitions := unwrap_or false active in
    let! listed := call list_active_automation_runs in
    let! pending := call has_pending_automation_work in
    do! set_active (match pending with
                    | Ok pending => pending
                    | Err _ => previous_active || active_definitions
                               || negb (match unwrap_or [] listed with [] => true | _ => false end)
                    end) in
    do! (if active_definitions
         then let! definitions := call (list_automations false) in
              mapM_ (evaluate_automation fuel)
                (List.filter (λ d, bool_decide (ad_state d = As_Active)) (unwrap_or [] definitions))
         else ret tt) in
    let! definitions := call (list_automations false) in
    do! mapM_ (λ d, if negb (bool_decide (ad_state d = As_Active)) && negb (bool_decide (ad_state d = As_Trashed))
                    then resume_pending_runs d else ret tt) (unwrap_or [] definitions) in
    let! busy := gets hs_automations_active in
    do! (if busy : bool then expire_inactive_automation_runs else ret tt) in
    let! pending := call has_pending_automation_work in
    let! busy := gets hs_automations_active in
    set_active (unwrap_or busy pending).
End Budget.
End Tick.

Section WithEnv.
Context `{AutomationEnv} `{Chrono}.

(** ** The wait until the next tick (automation_scheduler.rs) *)

Definition NO_ACTIVE_AUTOMATION_SLEEP : Z := 60 * second.
Definition MAX_AUTOMATION_SLEEP : Z := 15 * 60 * second.
Definition OVERDUE_CIRCUIT_RETRY : Z := 5 * second.

Definition nearer (nearest : option DateTime) (deadline : DateTime) : option DateTime :=
  Some (match nearest with Some current => Z.min current deadline | None => deadline end).

(** The loop over the definitions: the nearest deadline and whether something
    is overdue. *)
Fixpoint wait_loop (now : DateTime) (definitions : list AutomationDefinition) (nearest : option DateTime)
    (overdue : bool) : AM (option DateTime * bool) :=
  match definitions with
  | [] => ret (nearest, overdue)
  | d :: definitions =>
      let '(nearest, overdue) :=
        match circuit_reset_at representable d with
        | Some deadline => if (deadline <=? now)%Z then (nearest, true) else (nearer nearest deadline, overdue)
        | None => (nearest, overdue)
        end in
      if negb (bool_decide (ad_state d = As_Active)) then wait_loop now definitions nearest overdue
      else
        let! latest := latest_automation_occurrence (ad_id d) in
        let! next := of_result (next_occurrence (ad_id d) (ad_schedule d) (automation_cursor d latest)) in
        wait_loop now definitions
          (match next with Some o => nearer nearest (ao_scheduled_at o) | None => nearest end) overdue
  end.

Definition next_wait : AM Z :=
  let! definitions := list_automations false in
  let! now := now_utc in
  let! cleanup_at := next_automation_shared_cleanup_at in
  let! run_at := next_automation_run_wakeup in
  let nearest := match cleanup_at, run_at with
                 | Some a, Some b => Some (Z.min a b)
                 | Some a, None => Some a
                 | None, b => b
                 end in
  let overdue := match cleanup_at with Some deadline => (deadline <=? now)%Z | None => false end in
  let! found := wait_loop now definitions nearest overdue in
  let '(nearest, overdue) := found in
  match nearest with
  | Some deadline =>
      if (deadline <=? now)%Z then ret 0%Z
      else if overdue : bool
      then ret (Z.min (Z.min (deadline - now) OVERDUE_CIRCUIT_RETRY) MAX_AUTOMATION_SLEEP)
      else ret (Z.min (deadline - now) MAX_AUTOMATION_SLEEP)
  | None => ret (if overdue : bool then OVERDUE_CIRCUIT_RETRY else NO_ACTIVE_AUTOMATION_SLEEP)
  end.
End WithEnv.
