(* ===== verification/SchedulerFacts.v ===== *)
(** * SchedulerFacts: nothing due is forgotten

    A catch-up that is not cut short handles every occurrence between its
    cursor and now; its fuel, one more than the nanoseconds between the two,
    never runs out, because occurrences come strictly one after the other.  The
    wait until the next tick is bounded. *)

From S2P Require Import Prelude Text Models Store AutomationModels Schedule ScheduleFacts Prompt AutomationDb AutomationStore AutomationPrecheck AutomationCleanup AutomationInv AutomationLifecycle AutomationHistory Overlap HostRuns HostFacts Scheduler.
From Stdlib Require Import ZArith Lia Ascii String.
From stdpp Require Import strings prelude relations.

Section CatchUp.
Context `{AutomationEnv} `{!UuidsDistinct} `{Chrono} `{UuidParser} `{HostEnv} `{!HostLaws}.

(** The occurrences of a schedule after a moment and up to now, found one from
    the other. *)
Inductive due (d : AutomationDefinition) (now : DateTime) : DateTime → AutomationOccurrence → Prop :=
| due_next cursor o :
    next_occurrence (ad_id d) (ad_schedule d) cursor = Ok (Some o) → (ao_scheduled_at o ≤ now)%Z →
    due d now cursor o
| due_later cursor o o' :
    next_occurrence (ad_id d) (ad_schedule d) cursor = Ok (Some o) → (ao_scheduled_at o ≤ now)%Z →
    due d now (ao_scheduled_at o) o' → due d now cursor o'.

Abbreviation store := hs_store.

(** The state in which the turn of a due occurrence comes when the catch-up starts
    at [cursor] in [h]: the occurrences before it were missed or tried one after
    the other. *)
Inductive turn (d : AutomationDefinition) (now : DateTime) (started : option DateTime)
    : DateTime → HostState → AutomationOccurrence → HostState → Prop :=
| turn_here cursor h o :
    next_occurrence (ad_id d) (ad_schedule d) cursor = Ok (Some o) → (ao_scheduled_at o ≤ now)%Z →
    turn d now started cursor h o h
| turn_missed cursor h o o' h' :
    next_occurrence (ad_id d) (ad_schedule d) cursor = Ok (Some o) → (ao_scheduled_at o ≤ now)%Z →
    skips_misfire d o now started = true →
    turn d now started (ao_scheduled_at o) h o' h' → turn d now started cursor h o' h'
| turn_tried cursor h o h1 b o' h' :
    next_occurrence (ad_id d) (ad_schedule d) cursor = Ok (Some o) → (ao_scheduled_at o ≤ now)%Z →
    skips_misfire d o now started = false → claim_and_start_scheduled d o h = (h1, Ok b) →
    turn d now started (ao_scheduled_at o) h1 o' h' → turn d now started cursor h o' h'.

(** What stops an occurrence from being claimed: in the state in which its turn came
    the automation had used up its scheduled runs, or its run could not be stored. *)
Definition stopped (d : AutomationDefinition) (o : AutomationOccurrence) (h : HostState) : Prop :=
  (limit_reached d h).2 = Ok true ∨ admission_blocked (aw_db (store h)) d o = true.
Definition refused (d : AutomationDefinition) (now : DateTime) (started : option DateTime) (cursor : DateTime)
    (h : HostState) (o : AutomationOccurrence) : Prop :=
  ∃ h1, turn d now started cursor h o h1 ∧ skips_misfire d o now started = false ∧ stopped d o h1.

Lemma limit_reached_ok d h : ∃ b, limit_reached d h = (h, Ok b).
Proof. unfold limit_reached. destruct (schedule_max_scheduled_runs _); [|by eexists]. destruct h. by eexists. Qed.

Lemma steady_start_admitted d run : steady (start_admitted d run).
Proof. unfold start_admitted. steady. Qed.

(** One due occurrence: afterwards it is claimed, or it was refused. *)
Lemma claim_and_start_spec d o h :
  AInv (store h) → ∃ h' b, claim_and_start_scheduled d o h = (h', Ok b) ∧ adv (store h) (store h') ∧
  (claimed (aw_db (store h')) (ad_id d) (ao_key o) = true ∨ stopped d o h).
Proof.
  intros HI. unfold claim_and_start_scheduled. destruct (limit_reached_ok d h) as [over El].
  rewrite (bind_ok _ _ _ _ _ El). destruct over.
  - destruct (call_ok (set_automation_state (ad_id d) As_Archived managed_actor
                         (Some "maximum scheduled runs reached")) h) as (h' & r & Ea & Em).
    rewrite (bind_ok _ _ _ _ _ Ea). exists h', false. split_and!; [done|by eapply advances_set_state|].
    right. left. by rewrite El.
  - destruct (call_ok (admit_automation_run d o Tr_Scheduled true) h) as (h1 & r & Ea & Em).
    rewrite (bind_ok _ _ _ _ _ Ea). pose proof (advances_admit _ _ _ _ _ _ _ Em) as Hadv.
    destruct (admit_cases d o Tr_Scheduled (store h) (store h1) r HI Em) as [Hc|[Hb [e ->]]].
    + destruct r as [[run|]|e]; [|exists h1, false; by split_and!; auto..].
      destruct (steady_start_admitted d run h1) as (h2 & b & Es & Hl). exists h2, b.
      split_and!; [done|by eapply adv_trans|]. left. destruct (Hadv HI) as [HI1 _].
      by eapply claimed_later; [apply (Hl HI1)|].
    + exists h1, false. split_and!; [done..|].
      right. by right.
Qed.

Variable elapsed : nat → bool.

Lemma due_inv d now cursor o o' :
  next_occurrence (ad_id d) (ad_schedule d) cursor = Ok (Some o) → due d now cursor o' →
  (ao_scheduled_at o ≤ now)%Z ∧ (o' = o ∨ due d now (ao_scheduled_at o) o').
Proof. intros E. destruct 1; rewrite E in *; simplify_eq; auto. Qed.

Lemma due_none d now cursor o r :
  next_occurrence (ad_id d) (ad_schedule d) cursor = r → due d now cursor o → ∃ o', r = Ok (Some o').
Proof. intros E. destruct 1; rewrite <-E; eauto. Qed.

Section Handled.
Variables (d : AutomationDefinition) (now : DateTime) (started : option DateTime).

Definition handled (cursor : DateTime) (h : HostState) (w' : AutomationWorld) (missed : list AutomationOccurrence)
    (o : AutomationOccurrence) : Prop :=
  o ∈ missed ∨ claimed (aw_db w') (ad_id d) (ao_key o) = true ∨ refused d now started cursor h o.

Lemma handled_missed cursor h w' missed o o' :
  next_occurrence (ad_id d) (ad_schedule d) cursor = Ok (Some o) → (ao_scheduled_at o ≤ now)%Z →
  skips_misfire d o now started = true → handled (ao_scheduled_at o) h w' missed o' → handled cursor h w' (o :: missed) o'.
Proof.
  intros En Hle Hs [Hx|[Hc|(h1 & Ht & Hr)]]; [left; by right|by right; left|]. right; right. exists h1. split; [by eapply turn_missed|done].
Qed.
Lemma handled_tried cursor h h1 b w' missed o o' :
  next_occurrence (ad_id d) (ad_schedule d) cursor = Ok (Some o) → (ao_scheduled_at o ≤ now)%Z →
  skips_misfire d o now started = false → claim_and_start_scheduled d o h = (h1, Ok b) →
  handled (ao_scheduled_at o) h1 w' missed o' → handled cursor h w' missed o'.
Proof.
  intros En Hle Hs E [Hx|[Hc|(h2 & Ht & Hr)]]; [by left|by right; left|]. right; right. exists h2. split; [by eapply turn_tried|done].
Qed.
Lemma handled_here cursor h h1 w' missed o :
  next_occurrence (ad_id d) (ad_schedule d) cursor = Ok (Some o) → (ao_scheduled_at o ≤ now)%Z →
  skips_misfire d o now started = false → AInv (store h1) → adv (store h1) w' →
  claimed (aw_db (store h1)) (ad_id d) (ao_key o) = true ∨ stopped d o h → handled cursor h w' missed o.
Proof.
  intros En Hle Hs HI Hb [Hc|Hr]; right; [left; eapply claimed_later; [by apply Hb|done]|].
  right. exists h. split_and!; [by apply turn_here|done|done].
Qed.
End Handled.

(** The loop ends within its fuel; unless its budget ran out, every due
    occurrence was handled. *)
Lemma catch_up_spec fuel d now started reading cursor missed h :
  AInv (store h) → (Z.to_nat (now - cursor) < fuel)%nat →
  ∃ h' woken missed',
  catch_up elapsed fuel d now started reading cursor missed h = (h', Ok (woken, missed ++ missed')) ∧
  adv (store h) (store h') ∧ (woken = true → ∃ n, elapsed n = true) ∧
  (woken = false → ∀ o, due d now cursor o → handled d now started cursor h (store h') missed' o).
Proof.
  revert reading cursor missed h. induction fuel as [|fuel IH]; intros reading cursor missed h HI Hfuel; [lia|].
  assert (∀ woken : bool, ret (woken, missed) h = (h, Ok (woken, missed ++ []))) as Hret by (intros; by rewrite app_nil_r).
  cbn [catch_up]. destruct (elapsed reading) eqn:Eel.
  { exists h, true, []. split_and!; [done|apply adv_refl|eauto|done]. }
  destruct (next_occurrence (ad_id d) (ad_schedule d) cursor) as [[o|]|e] eqn:En.
  - destruct (Z.leb_spec (ao_scheduled_at o) now) as [Hle|Hgt].
    2:{ exists h, false, []. split_and!; [done|apply adv_refl|done|]. intros _ o' Hd.
        destruct (due_inv _ _ _ _ _ En Hd) as [? _]. lia. }
    pose proof (next_occurrence_after _ _ _ _ En) as Hafter.
    destruct (skips_misfire d o now started) eqn:Esk.
    + destruct (IH (S reading) (ao_scheduled_at o) (missed ++ [o]) h HI) as (h' & woken & missed' & E & Ha & Hw & Hd);
        [lia|]. exists h', woken, (o :: missed'). rewrite E, <-app_assoc. split_and!; [done..|].
      intros Hwk o' Hdue. destruct (due_inv _ _ _ _ _ En Hdue) as [_ [->|Hl]]; [left; left|].
      by apply handled_missed; auto.
    + destruct (claim_and_start_spec d o h HI) as (h1 & b & E1 & Ha1 & Hc). rewrite (bind_ok _ _ _ _ _ E1).
      destruct (Ha1 HI) as [HI1 _].
      assert (∀ reading', ∃ h' woken missed',
        catch_up elapsed fuel d now started reading' (ao_scheduled_at o) missed h1
          = (h', Ok (woken, missed ++ missed')) ∧ adv (store h) (store h') ∧ (woken = true → ∃ n, elapsed n = true) ∧
        (woken = false → ∀ o, due d now cursor o → handled d now started cursor h (store h') missed' o)) as Hnext.
      { intros reading'. destruct (IH reading' (ao_scheduled_at o) missed h1 HI1) as (h' & woken & missed' & E & Ha & Hw & Hd);
          [lia|]. exists h', woken, missed'. split_and!; [done|by eapply adv_trans|done|].
        intros Hwk o' Hdue. destruct (due_inv _ _ _ _ _ En Hdue) as [_ [->|Hl]].
        - by apply (handled_here d now started cursor h h1).
        - eapply handled_tried; eauto. }
      destruct b; cbn [negb]; [|apply Hnext]. destruct (elapsed (S reading)) eqn:Eel'; [|apply Hnext].
      exists h1, true, []. rewrite app_nil_r. split_and!; [done..|eauto|done].
  - exists h, false, []. split_and!; [done|apply adv_refl|done|]. intros _ o Hd.
    by destruct (due_none _ _ _ _ _ En Hd).
  - destruct (call_ok (set_automation_state (ad_id d) As_Blocked managed_actor (Some (error_text e))) h)
      as (h' & r & Ea & Em). rewrite (bind_ok _ _ _ _ _ Ea). exists h', false, []. rewrite app_nil_r.
    split_and!; [done|by eapply advances_set_state|done|]. intros _ o Hd. by destruct (due_none _ _ _ _ _ En Hd).
Qed.

Lemma claim_all_spec id at_ os n w :
  AInv w → ∃ w' m, claim_all id at_ os n w = (w', Ok m) ∧ adv w w' ∧
  ∀ o, o ∈ os → claimed (aw_db w') id (ao_key o) = true.
Proof.
  revert n w. induction os as [|o os IH]; intros n w HI; cbn [claim_all].
  { exists w, n. split_and!; [done|apply adv_refl|by intros ? ?%not_elem_of_nil]. }
  set (row := MkOccurrenceRow _ _ _ _).
  assert (∃ w1 b, claim_occurrence row w = (w1, Ok b) ∧ claimed (aw_db w1) id (ao_key o) = true) as (w1 & b & E & Hc).
  { unfold claim_occurrence, bind, read, gets, ret, write, modify, claimed. cbn.
    destruct (existsb _ _) eqn:Ee; do 2 eexists; (split; [reflexivity|]); [done|].
    cbn. rewrite existsb_app. cbn. by rewrite !String.eqb_refl, orb_true_r. }
  rewrite (bind_ok _ _ _ _ _ E). pose proof (advances_claim _ _ _ _ E) as Ha1. destruct (Ha1 HI) as [HI1 _].
  destruct (IH (if b then (n + 1)%Z else n) w1 HI1) as (w' & m & E' & Ha & Hos). exists w', m.
  split_and!; [done|by eapply adv_trans|]. intros x [->|Hx]%elem_of_cons; [|auto].
  eapply claimed_later; [by apply Ha|done].
Qed.

Lemma claim_skipped_spec id os w :
  AInv w → ∃ w' m, claim_skipped_automation_occurrences id os w = (w', Ok m) ∧ adv w w' ∧
  ∀ o, o ∈ os → claimed (aw_db w') id (ao_key o) = true.
Proof.
  intros HI. set (w0 := MkAutomationWorld (aw_db w) (S (aw_ticks w)) (aw_uuids w)).
  assert (AInv w0) as HI0 by (apply (adv_quiet w w0); [by repeat split|done]).
  destruct (claim_all_spec id (format_timestamp (utc_now (aw_ticks w))) os 0 w0 HI0) as (w1 & m & E & Ha & Hc).
  assert (claim_skipped_automation_occurrences id os w = (w1, Ok m)) as Ec.
  { unfold claim_skipped_automation_occurrences, atomically, bind, now_utc. fold w0. by rewrite E. }
  exists w1, m. split_and!; [done|by eapply advances_claim_skipped|done].
Qed.

Lemma record_skipped_spec d missed h :
  AInv (store h) → ∃ h', record_skipped_misfires d missed h = (h', Ok tt) ∧ adv (store h) (store h') ∧
  ∀ o, o ∈ missed → claimed (aw_db (store h')) (ad_id d) (ao_key o) = true.
Proof.
  intros HI. unfold record_skipped_misfires. destruct missed as [|o os]; cbn [head].
  { exists h. split_and!; [done|apply adv_refl|by intros ? ?%not_elem_of_nil]. }
  destruct (last (o :: os)) as [l|] eqn:El; [|by apply last_None in El].
  destruct (claim_skipped_spec (ad_id d) (o :: os) (store h) HI) as (w1 & m & Ec & Ha1 & Hc).
  destruct (call_ok (claim_skipped_automation_occurrences (ad_id d) (o :: os)) h) as (h1 & r & Et & Er).
  rewrite Ec in Er. injection Er as -> <-. rewrite (bind_ok _ _ _ _ _ Et).
  destruct (m =? 0)%Z; [by exists h1|]. set (audit := insert_automation_audit_event _ _ _ _ _ _).
  destruct (call_ok audit h1) as (h2 & r & Ea & Em). rewrite (bind_ok _ _ _ _ _ Ea). exists h2.
  assert (adv (store h1) (store h2)) as Ha2 by (eapply (advances_audit_event _ _ _ _ _ _); exact Em).
  split_and!; [done|by eapply adv_trans|]. intros x Hx. destruct (Ha1 HI) as [HI1 _].
  eapply claimed_later; [by apply Ha2|auto].
Qed.

Lemma steady_resume_pending d : steady (resume_pending_runs d).
Proof.
  unfold resume_pending_runs, list_active_automation_runs. apply steady_bind; [steady|]. intros [rs|e]; [|steady].
  apply steady_mapM. intros run. unfold resume_pending_run. steady.
  all: intros h; match goal with |- context [resume_interrupted_automation_run ?d ?r h] =>
         destruct (resume_interrupted_returns d r h) as (h' & ? & ?) end; by exists h', tt.
Qed.

(** [C34] The evaluation of an automation in a tick catches it up.  As long as the
    calls that dispatch or resume an admitted run return ([HostLaws]), it returns,
    and unless the time budget of the tick ran out it leaves no due occurrence
    behind: every occurrence of the schedule after the cursor and up to now is
    claimed, as a run or as a recorded misfire, or it was refused in the very
    state in which its turn came, because the automation had used up its scheduled
    runs, its project was gone, or the occurrence already had a run. *)
Theorem evaluation_claims_every_due_occurrence d h fuel :
  areachable (store h) →
  let now := utc_now (aw_ticks (store h)) in
  let cursor := automation_cursor d (ok_flatten (latest_automation_occurrence (ad_id d) (store h)).2) in
  (Z.to_nat (now - cursor) < fuel)%nat →
  ∃ h', evaluate_automation elapsed fuel d h = (h', Ok tt) ∧ adv (store h) (store h') ∧
  ((∀ n, elapsed n = false) → ∀ o, due d now cursor o →
     claimed (aw_db (store h')) (ad_id d) (ao_key o) = true ∨ refused d now (adb_runtime_started_at (aw_db (store h))) cursor (clock h).1 o).
Proof.
  intros HI%areachable_AInv now cursor Hfuel.
  destruct (steady_clock h) as (h0 & at_ & Ec & H0'). pose proof Ec as Ec'. unfold clock in Ec'. injection Ec' as Eh <-.
  destruct (H0' HI) as [HI0 _].
  destruct (catch_up_spec fuel d now (adb_runtime_started_at (aw_db (store h))) 0 cursor [] h0 HI0 Hfuel)
    as (h1 & woken & missed & E & Ha & Hw & Hd). cbn [app] in E.
  assert (evaluate_automation elapsed fuel d h =
    (let! caught := catch_up elapsed fuel d now (adb_runtime_started_at (aw_db (store h))) 0 cursor [] in
     do! record_skipped_misfires d caught.2 in resume_pending_runs d) h0) as ->.
  { subst h0. destruct h as [w jobs act]. reflexivity. }
  rewrite (bind_ok _ _ _ _ _ E). cbn [snd].
  destruct (Ha HI0) as [HI1 _]. destruct (record_skipped_spec d missed h1 HI1) as (h2 & Er & Ha2 & Hm).
  rewrite (bind_ok _ _ _ _ _ Er). destruct (Ha2 HI1) as [HI2 _].
  destruct (steady_resume_pending d h2) as (h3 & [] & E3 & Ha3). exists h3. split; [done|].
  assert (adv (store h) (store h1)) by (by eapply adv_trans). split; [do 2 (eapply adv_trans; [|done]); done|].
  intros Hel o Hdue. destruct woken; [destruct (Hw eq_refl) as [n Hn]; by rewrite Hel in Hn|].
  destruct (Hd eq_refl o Hdue) as [Hx|[Hc|Hr]].
  - left. eapply claimed_later; [by apply Ha3|auto].
  - left. eapply claimed_later; [by apply Ha3|]. eapply claimed_later; [by apply Ha2|done].
  - right. rewrite Ec. exact Hr.
Qed.
End CatchUp.

(** ** The wait *)

Section Wait.
Context `{AutomationEnv} `{Chrono}.

Definition no_later (a b : option DateTime) : Prop := ∀ x, b = Some x → ∃ y, a = Some y ∧ (y ≤ x)%Z.

#[local] Instance no_later_refl : Reflexive no_later.
Proof. intros a x ->. exists x. split; [done|lia]. Qed.
#[local] Instance no_later_trans : Transitive no_later.
Proof. intros a b c Hab Hbc x (y & (z & Hz & Hle)%Hab & Hle')%Hbc. exists z. split; [done|lia]. Qed.

Lemma nearer_no_later nearest deadline : no_later (nearer nearest deadline) nearest.
Proof. intros x ->. eexists. split; [reflexivity|]. lia. Qed.

Lemma nearer_deadline nearest deadline : ∃ y, nearer nearest deadline = Some y ∧ (y ≤ deadline)%Z.
Proof. eexists. split; [reflexivity|]. destruct nearest; lia. Qed.

Definition next_of (w : AutomationWorld) (d : AutomationDefinition) : Result (option AutomationOccurrence) :=
  next_occurrence (ad_id d) (ad_schedule d)
    (automation_cursor d (match (latest_automation_occurrence (ad_id d) w).2 with Ok l => l | Err _ => None end)).

Lemma wait_loop_spec now ds nearest overdue w w' nearest' overdue' :
  wait_loop now ds nearest overdue w = (w', Ok (nearest', overdue')) →
  w' = w ∧ no_later nearest' nearest ∧
  ∀ d o, d ∈ ds → ad_state d = As_Active → next_of w d = Ok (Some o) → no_later nearest' (Some (ao_scheduled_at o)).
Proof.
  revert nearest overdue. induction ds as [|d ds IH]; intros nearest overdue; cbn [wait_loop].
  { intros [= <- <- <-]. split_and!; [done..|]. by intros d o Hd%not_elem_of_nil. }
  set (step := match circuit_reset_at representable d with Some _ => _ | None => _ end).
  assert (no_later step.1 nearest) as Hstep.
  { unfold step. destruct (circuit_reset_at _ _); [|done]. destruct (_ <=? _)%Z; [done|]. apply nearer_no_later. }
  destruct step as [nearest1 overdue1]. cbn in Hstep. case_bool_decide as Ha; cbn [negb].
  - intros E. unfold bind at 1, latest_automation_occurrence, read, gets, bind, of_result in E.
    change (next_occurrence _ _ _) with (next_of w d) in E. destruct (next_of w d) as [next|e] eqn:En; [|done].
    apply IH in E as (-> & Hn & Hds). set (nearest2 := match next with Some _ => _ | None => _ end) in Hn.
    assert (no_later nearest2 nearest1) by (unfold nearest2; destruct next; [apply nearer_no_later|done]).
    split_and!; [done|by do 2 (etransitivity; [done|])|]. intros d' o [->|Hd]%elem_of_cons Hs Hno; [|eauto].
    rewrite En in Hno. injection Hno as ->. intros x [= <-].
    destruct (nearer_deadline nearest1 (ao_scheduled_at o)) as (y & Hy & Hle).
    destruct (Hn y Hy) as (z & -> & ?). exists z. split; [done|lia].
  - intros E. apply IH in E as (-> & Hn & Hds). split_and!; [done|by etransitivity|].
    intros d' o [->|Hd]%elem_of_cons Hs Hno; [done|eauto].
Qed.

(** Queries and clock readings leave the tables alone. *)
Definition keeps_db {A} (m : AM A) : Prop := ∀ w, aw_db (m w).1 = aw_db w.

Lemma keeps_db_bind {A B} (m : AM A) (k : A → AM B) : keeps_db m → (∀ a, keeps_db (k a)) → keeps_db (bind m k).
Proof. intros Hm Hk w. unfold bind. specialize (Hm w). destruct (m w) as [w1 [a|e]]; cbn in *; [by rewrite Hk|done]. Qed.

Lemma keeps_db_wakeup_loop l nearest : keeps_db (wakeup_loop l nearest).
Proof.
  revert nearest. induction l as [|r l IH]; intros nearest; [done|]. cbn [wakeup_loop].
  apply keeps_db_bind; [done|]. intros found. apply keeps_db_bind; [done|]. intros at_. cbv zeta. apply IH.
Qed.

Lemma keeps_db_wakeup : keeps_db next_automation_run_wakeup.
Proof.
  apply keeps_db_bind; [done|]. intros l. apply keeps_db_bind; [apply keeps_db_wakeup_loop|]. intros nearest.
  apply keeps_db_bind; [done|]. intros [|]; [done|]. by apply keeps_db_bind.
Qed.

Lemma keeps_db_cleanup_at : keeps_db next_automation_shared_cleanup_at.
Proof. apply keeps_db_bind; [done|]. intros [v|]; [|done]. by destruct (representable _). Qed.

Lemma next_wait_bounds w w' n :
  next_wait w = (w', Ok n) →
  (0 ≤ n ≤ MAX_AUTOMATION_SLEEP)%Z ∧
  ∀ row o, row ∈ adb_automations (aw_db w) → au_state row = As_Active →
    next_of w (decode_definition row) = Ok (Some o) →
    (n ≤ Z.max 0 (ao_scheduled_at o - utc_now (aw_ticks w)))%Z.
Proof.
  unfold next_wait. intros E. inv_ok E. unfold list_automations, read, gets in Hstep. simplify_eq.
  inv_ok E. unfold now_utc in Hstep. simplify_eq. inv_ok E. inv_ok E. inv_ok E.
  pose proof (keeps_db_cleanup_at (MkAutomationWorld (aw_db s) (S (aw_ticks s)) (aw_uuids s))) as K1.
  rewrite Hstep in K1. pose proof (keeps_db_wakeup s0) as K2. rewrite Hstep0 in K2. cbn in K1, K2.
  destruct a1 as [nearest overdue]. apply wait_loop_spec in Hstep1 as (-> & _ & Hds).
  assert (∀ d, next_of s1 d = next_of s d) as Hnext.
  { intros d. unfold next_of, latest_automation_occurrence, read, gets. by rewrite K2, K1. }
  set (now := utc_now (aw_ticks s)) in *.
  assert (∀ row o, row ∈ adb_automations (aw_db s) → au_state row = As_Active →
            next_of s (decode_definition row) = Ok (Some o) → no_later nearest (Some (ao_scheduled_at o))) as Hrow.
  { intros row o Hr Hs Ho. eapply (Hds (decode_definition row) o); [|done|by rewrite Hnext].
    rewrite elem_of_sort_by. apply list_elem_of_fmap_2. rewrite list_elem_of_In, filter_In, <-list_elem_of_In.
    split; [done|]. by rewrite Hs. }
  assert ((∀ x, nearest = Some x → (n ≤ Z.max 0 (x - now))%Z) ∧ (0 ≤ n ≤ MAX_AUTOMATION_SLEEP)%Z) as [Hle Hb].
  { unfold MAX_AUTOMATION_SLEEP, OVERDUE_CIRCUIT_RETRY, NO_ACTIVE_AUTOMATION_SLEEP in *.
    assert (second = 1000000000%Z) as Hsec by reflexivity.
    destruct nearest as [x|]; [destruct (Z.leb_spec x now)|]; destruct overdue; unfold ret in E; simplify_eq;
      split; try (intros ? [= <-]); lia. }
  split; [done|]. intros row o Hr Hs Ho. destruct (Hrow row o Hr Hs Ho _ eq_refl) as (y & Hy & Hyo).
  specialize (Hle y Hy). lia.
Qed.

(** The scheduler never sleeps past what it waits for: the wait is between
    nothing and fifteen minutes, and when an active automation has a next
    occurrence the wait ends no later than that moment, immediately when it
    has passed. *)
Theorem next_wait_never_oversleeps w w' n :
  next_wait w = (w', Ok n) →
  (0 ≤ n ≤ MAX_AUTOMATION_SLEEP)%Z ∧
  ∀ row o, row ∈ adb_automations (aw_db w) → au_state row = As_Active →
    next_of w (decode_definition row) = Ok (Some o) →
    (n ≤ Z.max 0 (ao_scheduled_at o - utc_now (aw_ticks w)))%Z.
Proof. apply next_wait_bounds. Qed.

(** A one-time moment that is not a whole number of milliseconds is claimed at
    the millisecond before it, so it still lies ahead of the cursor. *)
Lemma claimed_one_time_still_ahead d at_ zone tz :
  ad_schedule d = Sch_OneTime at_ zone → timezone zone = Ok tz → (0 ≤ at_)%Z → (at_ `mod` 1000000 ≠ 0)%Z →
  ∃ o, next_occurrence (ad_id d) (ad_schedule d) (automation_cursor d (Some (format_timestamp at_))) = Ok (Some o) ∧
       ao_scheduled_at o = at_.
Proof.
  intros Hs Htz Hpos Hmod. unfold automation_cursor. rewrite Hs. cbn. rewrite Htz. cbn.
  unfold format_timestamp. pose proof (Z.mod_pos_bound at_ 1000000 ltac:(lia)).
  assert (at_ ≠ 0)%Z by (by intros ->).
  destruct (Z.leb_spec at_ (Z.max (at_ - at_ `mod` 1000000) 0)); [lia|]. by eexists.
Qed.

(** An active one-time automation with such a moment keeps the scheduler awake
    after the occurrence was claimed: every wait is empty. *)
Theorem one_time_busy_wait w w' n row at_ zone tz :
  next_wait w = (w', Ok n) → row ∈ adb_automations (aw_db w) → au_state row = As_Active →
  ad_schedule (au_data row) = Sch_OneTime at_ zone → timezone zone = Ok tz →
  (latest_automation_occurrence (ad_id (au_data row)) w).2 = Ok (Some (format_timestamp at_)) →
  (0 ≤ at_ ≤ utc_now (aw_ticks w))%Z → (at_ `mod` 1000000 ≠ 0)%Z → n = 0%Z.
Proof.
  intros E Hrow Hs Hsch Htz Hlatest Hat Hmod.
  destruct (claimed_one_time_still_ahead (decode_definition row) at_ zone tz) as (o & Ho & Hso); [done..|lia|done|].
  assert (next_of w (decode_definition row) = Ok (Some o)) as Hn.
  { unfold next_of. change (ad_id (decode_definition row)) with (ad_id (au_data row)). by rewrite Hlatest. }
  destruct (next_wait_bounds w w' n E) as [Hb Hle]. specialize (Hle row o Hrow Hs Hn). lia.
Qed.
End Wait.
