(* ===== verification/Clocks.v ===== *)
(** * Clocks: a concrete time zone for the schedule theorems

    Zones whose clock is moved once: [(T, h)] shows [h] nanoseconds more than
    the instant before [T] and the instant itself from [T] on.  A positive [h]
    turns the clock back at [T], a negative one forward, so both a repeated and
    a skipped hour exist.  The calendar is the proleptic Gregorian one. *)

From S2P Require Import Prelude Text AutomationModels Schedule ScheduleFacts Overlap.
From Stdlib Require Import ZArith Lia Ascii String Sorted.
From stdpp Require Import strings prelude gmap.

Definition days_of (local : NaiveDateTime) : Z := (local `div` (86400 * second))%Z.

(** Day and month of a day count: the year is taken to start in March. *)
Definition civil (days : Z) : Z * Z :=
  let z := (days + 719468)%Z in
  let doe := (z `mod` 146097)%Z in
  let yoe := ((doe - doe `div` 1460 + doe `div` 36524 - doe `div` 146096) `div` 365)%Z in
  let doy := (doe - (365 * yoe + yoe `div` 4 - yoe `div` 100))%Z in
  let mp := ((5 * doy + 2) `div` 153)%Z in
  (doy - (153 * mp + 2) `div` 5 + 1, if (mp <? 10)%Z then mp + 3 else mp - 9)%Z.

Definition moved_from_local (tz : Z * Z) (local : NaiveDateTime) : LocalResult :=
  let '(T, h) := tz in
  if (local - h <? T)%Z
  then if (T <=? local)%Z then LocalAmbiguous (local - h)%Z local else LocalSingle (local - h)%Z
  else if (T <=? local)%Z then LocalSingle local else LocalNone.

Definition hour_ns : Z := 3600 * second.

(** On 2026-10-25 the clock of "fall" goes from 03:00 back to 02:00; on
    2026-03-29 the clock of "spring" goes from 02:00 forward to 03:00. *)
#[export] Instance demo_chrono : Chrono := {|
  Tz := Z * Z;
  tz_from_str := λ name,
    if String.eqb name "fall" then Some (1792893600 * second, hour_ns)%Z
    else if String.eqb name "spring" then Some (1774753200 * second, - hour_ns)%Z
    else None;
  naive_local := λ tz u, if (u <? tz.1)%Z then (u + tz.2)%Z else u;
  from_local_datetime := moved_from_local;
  nd_minute := λ l, ((l `div` minute) `mod` 60)%Z;
  nd_hour := λ l, ((l `div` hour_ns) `mod` 24)%Z;
  nd_day := λ l, (civil (days_of l)).1;
  nd_month := λ l, (civil (days_of l)).2;
  nd_weekday := λ l, ((days_of l + 4) `mod` 7)%Z;
  format_minute := λ l, "t" +:+ pretty.pretty l;
  to_rfc3339 := λ u, "t" +:+ pretty.pretty u
|}.

#[export] Instance demo_chrono_laws : ChronoLaws.
Proof.
  split.
  - intros [T h] local u. cbn [from_local_datetime naive_local demo_chrono]. unfold moved_from_local. cbn [fst snd].
    destruct (Z.ltb_spec (local - h) T), (Z.leb_spec T local), (Z.ltb_spec u T); lia.
  - intros [T h] l1 l2 u1 u2. unfold first_instant. cbn [from_local_datetime demo_chrono].
    unfold moved_from_local.
    destruct (Z.ltb_spec (l1 - h) T), (Z.leb_spec T l1), (Z.ltb_spec (l2 - h) T), (Z.leb_spec T l2);
      intros [= <-] [= <-] ?; lia.
Qed.

(** A run per night at 02:30. *)
Definition nightly : AutomationSchedule := Sch_Recurring "30 2 * * *" "fall" None None None.
Definition nightly_spring : AutomationSchedule := Sch_Recurring "30 2 * * *" "spring" None None None.

Definition scheduled (r : Result (option AutomationOccurrence)) : option Z :=
  match r with Ok (Some o) => Some (ao_scheduled_at o `div` second)%Z | _ => None end.

(** The repeated 02:30 fires once: the run after the first 02:30 of the night is
    tomorrow's. The skipped 02:30 does not fire: the next one is a day later. *)
Example repeated_hour :
  scheduled (next_occurrence "a" nightly (1792888200 * second)%Z) = Some 1792891800%Z ∧
  scheduled (next_occurrence "a" nightly (1792891800 * second)%Z) = Some 1792981800%Z.
Proof. vm_compute. done. Qed.

Example skipped_hour :
  scheduled (next_occurrence "a" nightly_spring (1774740000 * second)%Z) = Some 1774837800%Z.
Proof. vm_compute. done. Qed.

(** ** The theorems on schedules and overlap at work, at the zones above and at
    three runs of one automation *)

Lemma automation_status_roundtrip_witness : AutomationState_from_db "lost" = As_Draft.
Proof.
  destruct automation_status_roundtrip as (_ & _ & Hs & _). apply Hs. intros []; discriminate.
Defined.

Definition fall_zone : Z * Z := (1792893600 * second, hour_ns)%Z.

Lemma next_occurrence_earliest_witness :
  ∃ o parsed, next_occurrence "a" nightly (1792888200 * second)%Z = Ok (Some o) ∧
    parse_expression "30 2 * * *" = Ok parsed ∧
    ∀ l u, eligible parsed fall_zone None (1792888200 * second)%Z l u → (ao_scheduled_at o ≤ u)%Z.
Proof.
  destruct (parse_expression "30 2 * * *") as [parsed|e] eqn:Ep; [|vm_compute in Ep; discriminate].
  destruct (next_occurrence "a" nightly (1792888200 * second)%Z) as [[o|]|e] eqn:En;
    [|vm_compute in En; discriminate|vm_compute in En; discriminate].
  exists o, parsed. split; [reflexivity|]. split; [reflexivity|].
  pose proof (next_occurrence_earliest "a" "30 2 * * *" "fall" None None None (1792888200 * second)%Z
                parsed fall_zone Ep eq_refl) as Hn.
  change (Sch_Recurring "30 2 * * *" "fall" None None None) with nightly in Hn. rewrite En in Hn.
  exact (proj2 (proj2 (proj2 Hn))).
Defined.

Lemma preview_strictly_increasing_witness :
  ∃ os, preview_occurrences "a" nightly (1792888200 * second)%Z 3 = Ok os ∧ length os = 3 ∧
    StronglySorted Z.lt ((1792888200 * second)%Z :: (ao_scheduled_at <$> os)).
Proof.
  destruct (preview_occurrences "a" nightly (1792888200 * second)%Z 3) as [os|e] eqn:Ep;
    [|vm_compute in Ep; discriminate].
  exists os. split; [reflexivity|]. split.
  - vm_compute in Ep. injection Ep as <-. reflexivity.
  - exact (proj2 (preview_strictly_increasing _ _ _ _ _ Ep)).
Defined.

(** ** Runs *)

Definition demo_run (id : string) (number : Z) (status : AutomationRunStatus) : AutomationRun :=
  MkAutomationRun id "a" number "key" None None None None None None None false None None 0%Z Tr_Scheduled
    None None None None None status None None None None None None None None None false false false 0
    None None None None None None None 0%Z 0%Z.

Definition demo_runs : list AutomationRun :=
  [demo_run "r1" 1 Rs_Pending; demo_run "r2" 2 Rs_Pending; demo_run "r3" 3 Rs_Pending].

Lemma overlap_exclusive_witness :
  (decide_overlap Op_Queue 10 "r1" demo_runs).1 = Proceed ∧
  (decide_overlap Op_Queue 10 "r2" demo_runs).1 ≠ Proceed.
Proof.
  split; [reflexivity|].
  apply (overlap_exclusive Op_Queue 10 demo_runs (demo_run "r1" 1 Rs_Pending) (demo_run "r2" 2 Rs_Pending));
    [discriminate|apply (bool_decide_unpack _); vm_compute; exact I
    |apply (bool_decide_unpack _); vm_compute; exact I|left|right; left|discriminate|reflexivity].
Defined.

Lemma run_latest_once_supersedes_witness :
  (decide_overlap Op_RunLatestOnce 10 "r3" demo_runs).1 = Proceed ∧
  "r1" ∈ (decide_overlap Op_RunLatestOnce 10 "r3" demo_runs).2.
Proof.
  split; [reflexivity|].
  pose proof (run_latest_once_supersedes 10 demo_runs (demo_run "r3" 3 Rs_Pending)) as Hs.
  cbv zeta in Hs. change (ar_id (demo_run "r3" 3 Rs_Pending)) with "r3" in Hs.
  destruct (decide_overlap Op_RunLatestOnce 10 "r3" demo_runs) as [decision superseded].
  apply (proj2 (Hs ltac:(apply (bool_decide_unpack _); vm_compute; exact I)
                   ltac:(right; right; left) "r1")).
  exists (demo_run "r1" 1 Rs_Pending).
  split; [left|]. split; [reflexivity|]. split; [discriminate|]. split; reflexivity.
Defined.

Lemma queue_is_bounded_witness :
  (Z.of_nat (count_where (λ x, negb (String.eqb (ar_id x) "r3") &&
                               (run_pending x && (ar_number x <? this_number "r3" demo_runs)%Z)) demo_runs)
     < clamp 10 1 10 ≤ 10)%Z.
Proof. exact (queue_is_bounded 10 "r3" demo_runs eq_refl). Defined.
