(* ===== verification/AutomationScenario.v ===== *)
(** * AutomationScenario: the life of one automation

    A concrete clock and source of identifiers, and the states of a store in
    which a one-time automation is saved, admitted, attempted and completed:
    the automation theorems hold of something, and their witnesses apply them
    here. *)

From S2P Require Import Prelude Text Models Store AutomationModels Schedule ScheduleFacts Prompt AutomationDb AutomationStore AutomationPrecheck AutomationCleanup AutomationInv AutomationLifecycle AutomationHistory AutomationFacts HostRuns HostFacts Scheduler SchedulerFacts Clocks.
From Stdlib Require Import ZArith Lia Ascii String.
From stdpp Require Import strings prelude relations pretty.

(** One nanosecond passes between readings; identifiers count up. *)
#[export] Instance demo_automation_env : AutomationEnv := {|
  utc_now := λ k, (Z.of_nat k + 10)%Z;
  uuid_v4 := λ k, "id" +:+ pretty k;
  json_time := λ t, JNumber (pretty t);
  to_lowercase := to_ascii_lowercase;
  representable := λ _, true
|}.

#[export] Instance demo_uuids_distinct : UuidsDistinct.
Proof. split; [|done]. intros a b E. apply (inj (String.append "id")) in E. by apply (inj pretty) in E. Qed.

#[export] Instance demo_uuid_parser : UuidParser := {| parse_uuid := Some; nil_uuid := "nil" |}.

Definition demo_actor : AutomationActor := MkAutomationActor Ack_LocalCli None None.

Definition demo_definition : AutomationDefinition :=
  {| ad_id := "a"; ad_slug := "nightly"; ad_name := "Nightly"; ad_description := ""; ad_project_id := None;
     ad_tag_ids := []; ad_prompt_template := "Review {{run.number}}"; ad_schedule := Sch_OneTime 5%Z "fall";
     ad_target := Tg_FreshTab "w" "p"; ad_setup_policy := Sp_Wait; ad_cleanup_policy := None;
     ad_overlap_policy := Op_Skip; ad_queue_cap := 10; ad_inactivity_timeout_seconds := 60;
     ad_heartbeat_interval_seconds := 10; ad_misfire_grace_seconds := 60; ad_misfire_policy := Mf_Queue;
     ad_retry_max_attempts := 3; ad_retry_backoff_seconds := 60; ad_circuit_failure_threshold := 3;
     ad_circuit_open_seconds := 60; ad_precheck := None; ad_notify_on_success := false;
     ad_circuit_opened := false; ad_circuit_opened_at := None; ad_state := As_Active; ad_revision := 0;
     ad_approved_revision := None; ad_origin_workspace_id := None; ad_schedule_cursor_at := None;
     ad_creation_request_key := None; ad_creation_request_fingerprint := None; ad_state_before_trash := None;
     ad_workspace_placement := MkAutomationWorkspacePlacement [] None; ad_reuse_policy := Rp_NewEachRun; ad_bound_target := None;
     ad_created_by := demo_actor; ad_modified_by := demo_actor; ad_created_at := 0%Z; ad_updated_at := 0%Z |}.

Definition demo_occurrence : AutomationOccurrence := MkAutomationOccurrence "a" "oneTime|t5" 5%Z "t5".

(** The store after each operation. *)
Definition aut0 : AutomationWorld :=
  MkAutomationWorld (MkAutomationDb [] [] [] [] [] [] [] [] [] ["p"] [] [] [] [] []
                       (MkRuntimeAutomationSettings true 30 30 30) None None) 0 0.
Definition aut1 : AutomationWorld := (upsert_automation demo_definition demo_actor aut0).1.
Definition aut2 : AutomationWorld := (admit_automation_run demo_definition demo_occurrence Tr_Scheduled true aut1).1.
Definition demo_run_id : string := "id1".
Definition aut3 : AutomationWorld := (begin_automation_attempt demo_run_id 3 aut2).1.
Definition aut4 : AutomationWorld :=
  (complete_automation_run demo_run_id Rs_Success (Some "done") None demo_actor aut3).1.
Definition aut5 : AutomationWorld := (heartbeat_automation_run demo_run_id demo_actor aut4).1.

Example demo_life :
  (rr_id <$> runs aut2, rr_status <$> runs aut2, rr_status <$> runs aut3, rr_status <$> runs aut4,
   au_state <$> adb_automations (aw_db aut4))
  = ([demo_run_id], [Rs_Pending], [Rs_Dispatching], [Rs_Success], [As_Archived]).
Proof. vm_compute. reflexivity. Qed.

Lemma aut1_reachable : areachable aut1.
Proof.
  exists aut0. split; [by repeat split|]. apply rtc_once. eapply AS_upsert, surjective_pairing.
Qed.
Lemma aut2_reachable : areachable aut2.
Proof.
  destruct aut1_reachable as (w0 & He & Hr). exists w0. split; [exact He|]. eapply rtc_r; [exact Hr|].
  eapply AS_admit, surjective_pairing.
Qed.
Lemma aut3_reachable : areachable aut3.
Proof.
  destruct aut2_reachable as (w0 & He & Hr). exists w0. split; [exact He|]. eapply rtc_r; [exact Hr|].
  eapply (AS_begin_attempt _ aut3), surjective_pairing.
Qed.
Lemma aut4_reachable : areachable aut4.
Proof.
  destruct aut2_reachable as (w0 & He & Hr). exists w0. split; [exact He|]. eapply rtc_r; [eapply rtc_r; [exact Hr|]|].
  - eapply (AS_begin_attempt _ aut3), surjective_pairing.
  - eapply AS_complete, surjective_pairing.
Qed.

(** ** The theorems on the automation store and the host at work *)

Ltac evaluated := vm_compute; reflexivity.

(** The only run of a state. *)
Lemma only_run (w : AutomationWorld) :
  length (runs w) = 1 → ∃ r, runs w = [r].
Proof. destruct (runs w) as [|r [|]]; try done. intros _. by exists r. Qed.

Lemma only_value {B} (f : RunRow → B) (w : AutomationWorld) r b :
  runs w = [r] → f <$> runs w = [b] → f r = b.
Proof. intros ->. cbn. congruence. Qed.

Lemma found_value {A B} (f : A → B) (o : option A) x b : o = Some x → f <$> o = Some b → f x = b.
Proof. intros ->. cbn. congruence. Qed.

Lemma automation_store_invariant_witness : AInv aut4 ∧ length (runs aut4) = 1.
Proof. split; [exact (automation_store_invariant aut4 aut4_reachable)|evaluated]. Defined.

Lemma stored_automations_well_formed_witness :
  ∃ a, adb_automations (aw_db aut4) = [a] ∧ well_formed (decode_definition a).
Proof.
  destruct (adb_automations (aw_db aut4)) as [|a l] eqn:E; [vm_compute in E; discriminate|].
  assert (length (adb_automations (aw_db aut4)) = 1) as Hl by evaluated.
  destruct l; [|rewrite E in Hl; discriminate]. exists a. split; [reflexivity|].
  apply (stored_automations_well_formed aut4 a aut4_reachable). rewrite E. left.
Defined.

Lemma final_run_never_changes_witness :
  ∃ r r', runs aut4 = [r] ∧ runs aut5 = [r'] ∧ is_final (rr_status r) = true ∧ rr_status r' = rr_status r.
Proof.
  destruct (only_run aut4) as [r Hr]; [evaluated|]. destruct (only_run aut5) as [r' Hr']; [evaluated|].
  assert (is_final (rr_status r) = true) as Hf by (apply (only_value (λ r, is_final (rr_status r)) aut4 r _ Hr); evaluated).
  assert (rr_id r = demo_run_id) as H1 by (apply (only_value rr_id aut4 r _ Hr); evaluated).
  assert (rr_id r' = demo_run_id) as H2 by (apply (only_value rr_id aut5 r' _ Hr'); evaluated).
  exists r, r'. split; [exact Hr|]. split; [exact Hr'|]. split; [exact Hf|].
  refine (proj1 (final_run_never_changes aut4 aut5 r r' aut4_reachable _ _ Hf _ (eq_trans H2 (eq_sym H1)))).
  - apply rtc_once. eapply AS_heartbeat, surjective_pairing.
  - rewrite Hr. left.
  - rewrite Hr'. left.
Defined.

Lemma admit_automation_run_spec_witness :
  ∃ w' run, admit_automation_run demo_definition demo_occurrence Tr_Scheduled true aut1 = (w', Ok (Some run)) ∧
            ar_status run = Rs_Pending.
Proof.
  destruct (admit_automation_run_spec demo_definition demo_occurrence Tr_Scheduled aut1 aut1_reachable)
    as (w' & r & E & Hcase).
  assert (claimed (aw_db aut1) (ad_id demo_definition) (ao_key demo_occurrence) = false) as Hc by evaluated.
  assert (admission_blocked (aw_db aut1) demo_definition demo_occurrence = false) as Hb by evaluated.
  rewrite Hc, Hb in Hcase. destruct Hcase as (Hr & _ & Hs & _). rewrite Hr in E. exists w'. eexists. exact (conj E Hs).
Defined.

Lemma occurrence_admitted_once_witness :
  ∃ w4, admit_automation_run demo_definition demo_occurrence Tr_Manual true aut4 = (w4, Ok None) ∧
        aw_db w4 = aw_db aut4.
Proof.
  destruct (admit_automation_run demo_definition demo_occurrence Tr_Scheduled true aut1) as [w2 r] eqn:E.
  assert (w2 = aut2) as Hw by (unfold aut2; rewrite E; reflexivity). subst w2.
  destruct r as [[run|]|e].
  - refine (occurrence_admitted_once aut1 aut2 aut4 demo_definition demo_occurrence Tr_Scheduled run
              demo_definition demo_occurrence Tr_Manual aut1_reachable E _ eq_refl eq_refl).
    eapply rtc_l; [eapply (AS_begin_attempt aut2 aut3), surjective_pairing|].
    apply rtc_once. eapply AS_complete, surjective_pairing.
  - exfalso. apply (f_equal snd) in E. vm_compute in E. discriminate E.
  - exfalso. apply (f_equal snd) in E. vm_compute in E. discriminate E.
Defined.

Lemma prune_automation_runs_spec_witness :
  ∃ w', prune_automation_runs "a" (days 40) aut4 = (w', Ok tt) ∧
        ∀ r, r ∈ runs aut4 → r ∉ runs w'.
Proof.
  destruct (prune_automation_runs_spec "a" (days 40) aut4 aut4_reachable) as (w' & E & _ & _ & Hrows).
  exists w'. split; [exact E|]. intros r Hr. destruct (Hrows r Hr) as [_ Hold].
  destruct (only_run aut4) as [x Hx]; [evaluated|]. rewrite Hx in Hr. apply list_elem_of_singleton in Hr as ->.
  assert (rr_automation_id x = "a") as H1 by (apply (only_value rr_automation_id aut4 x _ Hx); evaluated).
  assert (is_final (rr_status x) = true) as H2 by (apply (only_value (λ r, is_final (rr_status r)) aut4 x _ Hx); evaluated).
  assert (cleanup_open (aw_db aut4) x = false) as H3 by (apply (only_value (cleanup_open (aw_db aut4)) aut4 x _ Hx); evaluated).
  assert (rr_created_at x = 0%Z) as H4 by (apply (only_value rr_created_at aut4 x _ Hx); evaluated).
  apply (proj1 (Hold H1 H2 H3)). left. rewrite H4. vm_compute. reflexivity.
Defined.

Lemma failure_streak_reaches_threshold_witness :
  ∃ n, count_automation_failure_streak "a" 3 aut4 = (aut4, Ok n) ∧ (0 ≤ n ≤ 3)%Z.
Proof.
  destruct (failure_streak_reaches_threshold "a" 3 aut4) as (n & E & Hn & _); [lia|]. exists n. exact (conj E Hn).
Defined.

Lemma audits_drawn_from (w : AutomationWorld) :
  forallb (λ e, existsb (λ k, String.eqb (ae_id e) (uuid_v4 k)) (seq 0 (aw_uuids w))) (adb_audits (aw_db w)) = true →
  audits_drawn w.
Proof.
  rewrite forallb_forall. intros Hall e He. specialize (Hall e). rewrite <-list_elem_of_In in Hall.
  apply Hall, existsb_exists in He as (k & Hk & E%String.eqb_eq). exists k. split; [|done]. apply in_seq in Hk. lia.
Qed.

Lemma circuit_open_reset_roundtrip_witness :
  ∃ w1 d1, open_automation_circuit "a" demo_actor None aut1 = (w1, Ok d1) ∧ ad_state d1 = As_Blocked.
Proof.
  destruct (find_automation_row (aw_db aut1) "a") as [row|] eqn:Hrow; [|vm_compute in Hrow; discriminate].
  assert (ad_circuit_opened (au_data row) = false) as Hc
    by (apply (found_value (λ x, ad_circuit_opened (au_data x)) _ _ _ Hrow); evaluated).
  assert (ad_circuit_opened_at (au_data row) = None) as Hat
    by (apply (found_value (λ x, ad_circuit_opened_at (au_data x)) _ _ _ Hrow); evaluated).
  assert (au_state row = As_Active) as Hs by (apply (found_value au_state _ _ _ Hrow); evaluated).
  assert (checkout_project_missing (aw_db aut1) (decode_definition row) = false) as Hm
    by (apply (found_value (λ x, checkout_project_missing (aw_db aut1) (decode_definition x)) _ _ _ Hrow); evaluated).
  assert (target_agent_profile_id (ad_target (decode_definition row)) = Some "p") as Hp
    by (apply (found_value (λ x, target_agent_profile_id (ad_target (decode_definition x))) _ _ _ Hrow); evaluated).
  assert (adb_profiles (aw_db aut1) = ["p"]) as Hps by evaluated.
  destruct (circuit_open_reset_roundtrip "a" demo_actor demo_actor None None aut1 row aut1_reachable Hrow Hc Hat Hs)
    as (w1 & d1 & w2 & d2 & events & E & _ & Hst & _).
  - split; [exact Hm|]. rewrite Hp, Hps. left.
  - apply audits_drawn_from. evaluated.
  - exists w1, d1. exact (conj E Hst).
Defined.

Lemma begin_attempt_within_budget_witness :
  ∃ w' run, begin_automation_attempt demo_run_id 3 aut2 = (w', Ok run) ∧ ar_attempt_count run = 1%Z ∧
            ar_status run = Rs_Dispatching.
Proof.
  destruct (find_run_row (aw_db aut2) demo_run_id) as [row|] eqn:Hrow; [|vm_compute in Hrow; discriminate].
  set (run x := attempted_run (decode_run x) (adb_boot_id (aw_db aut2)) (uuid_v4 (aw_uuids aut2)) (utc_now (aw_ticks aut2))).
  assert (attempt_refused (decode_run row) 3 (utc_now (aw_ticks aut2)) = false) as Hr
    by (apply (found_value (λ x, attempt_refused (decode_run x) 3 (utc_now (aw_ticks aut2))) _ _ _ Hrow); evaluated).
  assert (ar_attempt_count (decode_run row) = 0%Z) as Hn
    by (apply (found_value (λ x, ar_attempt_count (decode_run x)) _ _ _ Hrow); evaluated).
  assert (run_update_guard (aw_db aut2) row row = None) as Hg
    by (apply (found_value (λ x, run_update_guard (aw_db aut2) x x) _ _ _ Hrow); evaluated).
  assert (run_update_guard (aw_db aut2) row (attempted_row (run row) (utc_now (aw_ticks aut2)) row) = None) as Hg'
    by (apply (found_value (λ x, run_update_guard (aw_db aut2) x (attempted_row (run x) (utc_now (aw_ticks aut2)) x))
                 _ _ _ Hrow); evaluated).
  destruct (begin_attempt_within_budget demo_run_id 3 aut2 row aut2_reachable) as (w' & r & E & Hcase);
    [|exact Hrow|exact Hg|exact Hg'|].
  - assert (adb_attempts (aw_db aut2) = []) as Ha by evaluated. unfold attempts_drawn. rewrite Ha.
    intros t Ht. by apply not_elem_of_nil in Ht.
  - rewrite Hr in Hcase. destruct Hcase as (-> & Hcount & _ & Hst & _). exists w'. eexists. split; [exact E|].
    rewrite Hcount, Hn. exact (conj eq_refl Hst).
Defined.

(** A host that dispatches at once and has nothing else to do. *)
#[local] Instance demo_host : HostEnv := {|
  current_boot_id _ := None;
  automation_target_is_reserved _ _ _ := false;
  target_identity _ _ _ := inl (MkAutomationTargetIdentity (Some "w") None None None None None);
  terminate_owned_automation_sessions _ _ h := h;
  dispatch_admitted_automation_run _ _ _ := ret tt;
  resume_interrupted_automation_run _ _ := ret tt;
  recover_automation_shared_cleanups h := h;
  reconcile_automation_runs := ret tt;
  has_runtime_mutations _ := false
|}.
#[local] Instance demo_host_laws : HostLaws.
Proof. split; intros; try (eexists; split; [reflexivity|]); apply adv_refl. Qed.

Definition host1 : HostState := MkHostState aut1 [] false.

(** A tick at which the one-time moment has passed: its occurrence is claimed. *)
Lemma evaluation_claims_every_due_occurrence_witness :
  ∃ h', evaluate_automation (λ _, false) 100 demo_definition host1 = (h', Ok tt) ∧
  (claimed (aw_db (hs_store h')) (ad_id demo_definition) (ao_key demo_occurrence) = true
   ∨ refused demo_definition (utc_now (aw_ticks (hs_store host1))) (adb_runtime_started_at (aw_db (hs_store host1)))
       (automation_cursor demo_definition (ok_flatten (latest_automation_occurrence (ad_id demo_definition) (hs_store host1)).2))
       (clock host1).1 demo_occurrence).
Proof.
  destruct (evaluation_claims_every_due_occurrence (λ _, false) demo_definition host1 100 aut1_reachable)
    as (h' & E & _ & Hdue).
  - apply Nat.ltb_lt. evaluated.
  - exists h'. split; [exact E|]. refine (Hdue (λ _, eq_refl) demo_occurrence _).
    apply due_next; [evaluated|]. vm_compute. discriminate.
Defined.

(** The run of [aut3], one attempt in. *)
Definition host3 : HostState := MkHostState aut3 [] true.


(** Two days later the run has outlived its deadline. *)
Lemma expired_run_ends_witness :
  ∃ row h' row', find_run_row (aw_db aut3) demo_run_id = Some row ∧
    expire_run (days 2) (decode_run row) host3 = (h', Ok tt) ∧
    find_run_row (aw_db (hs_store h')) (rr_id row) = Some row' ∧ rr_status row' = Rs_Timeout.
Proof.
  destruct (find_run_row (aw_db aut3) demo_run_id) as [row|] eqn:Hrow; [|vm_compute in Hrow; discriminate].
  assert (rr_id row = demo_run_id) as Hid by (apply (found_value rr_id _ _ _ Hrow); evaluated).
  assert (is_final (rr_status row) = false) as Hf by (apply (found_value (λ x, is_final (rr_status x)) _ _ _ Hrow); evaluated).
  assert (ar_started_at (rr_data row) = Some 14%Z) as Hst
    by (apply (found_value (λ x, ar_started_at (rr_data x)) _ _ _ Hrow); evaluated).
  assert (ar_definition_snapshot (rr_data row) = Some demo_definition) as Hd
    by (apply (found_value (λ x, ar_definition_snapshot (rr_data x)) _ _ _ Hrow); evaluated).
  assert (expiry (days 2) 14%Z demo_definition (decode_run row) = Some Absolute) as He
    by (apply (found_value (λ x, expiry (days 2) 14%Z demo_definition (decode_run x)) _ _ _ Hrow); evaluated).
  assert (adb_prechecks (aw_db aut3) = [] ∧ adb_allocations (aw_db aut3) = []) as [Hp Ha] by (split; evaluated).
  destruct (expired_run_ends host3 (days 2) row demo_definition 14%Z) as (h' & E & Hs).
  - intros run reason h. split; [apply adv_refl|apply bystander_refl].
  - exact aut3_reachable.
  - rewrite Hid. exact Hrow.
  - exact Hf.
  - reflexivity.
  - exact Hst.
  - exact Hd.
  - unfold unguarded, has_unclosed. cbn [hs_store host3]. rewrite Hp, Ha. split; reflexivity.
  - rewrite He in Hs. destruct Hs as (row' & Hrow' & Hs). exists row, h', row'.
    exact (conj eq_refl (conj E (conj Hrow' Hs))).
Defined.

(** The same run one step earlier, before its first attempt. *)
Example panic_demo :
  (fail_run (new_run demo_run_id 0%Z demo_definition demo_occurrence Tr_Scheduled 1) "lost" (MkHostState aut2 [] true)).2
  = Err (Bail "TimeDelta::seconds out of bounds").
Proof. evaluated. Qed.

Lemma next_wait_never_oversleeps_witness :
  ∃ w' n, next_wait aut2 = (w', Ok n) ∧ (0 ≤ n ≤ MAX_AUTOMATION_SLEEP)%Z.
Proof.
  destruct (next_wait aut2) as [w' [n|e]] eqn:E.
  - exists w', n. exact (conj eq_refl (proj1 (next_wait_never_oversleeps aut2 w' n E))).
  - exfalso. apply (f_equal snd) in E. vm_compute in E. discriminate E.
Defined.

(** The moment of [demo_definition] is not a whole millisecond: once its
    occurrence is claimed, the scheduler does not sleep any more. *)
Example busy_wait_demo : (next_wait aut2).2 = Ok 0%Z.
Proof. evaluated. Qed.
